(* ===== verification/_CoqProject ===== *)
-Q . S2P
Prelude.v
GoStrings.v
Paths.v
Api.v
Unstructured.v
Cluster.v
Core.v
McpLog.v
Params.v
CniDiagnostics.v
Confirmation.v
Validators.v
AccessControl.v
TlsUtil.v
Toolsets.v
Config.v
ConfigRead.v
Http.v
OAuthState.v
WellKnown.v
HttpAuth.v
Tools.v
Prompts.v
SdkTypes.v
McpServer.v
TokenExchange.v
Manager.v
UserAuth.v
RateLimit.v
Watchers.v
Providers.v
AcmHub.v
Kcp.v
MustGather.v
CoreTools.v
NodeDebug.v
MustGatherPlan.v
MustGatherTools.v
MustGatherMonitoring.v
KubeVirt.v
KubeVirtTools.v
KubeVirtDiag.v
KubeVirtPrompts.v
HealthCheck.v
OvnKubernetes.v
Oadp.v
NetEdge.v
Prometheus.v
NetEdgeProbes.v
Tekton.v
LogSink.v
ConfigTools.v
McpMiddleware.v
Telemetry.v
Command.v
HttpClients.v
NetObserv.v
Kiali.v
KialiPrompts.v
Helm.v
Output.v
CniTools.v
