(* ===== verification/Prelude.v ===== *)
(** A model of the OpenShift MCP server (src/, in Go) with the theorems that make its
    parts correct.

    * The program

    The server exposes Kubernetes clusters to a language model as MCP tools, prompts
    and resources.  A configuration (pkg/config) selects toolsets (pkg/toolsets) and
    the provider of clusters (pkg/kubernetes, pkg/kcp); the server (pkg/mcp) turns what
    the toolsets offer and the configuration permits into items of the MCP SDK, and
    replaces them on a reload or when a cluster changes (pkg/kubernetes/watcher).  The
    command (pkg/kubernetes-mcp-server/cmd) puts its flags over the files, starts all of
    it and reloads it on SIGHUP.  A request comes over HTTP, through the middlewares
    (pkg/http) that authenticate it, then through those of MCP (pkg/mcp/middleware.go:
    limits, tokens, log, measures); a tool call asks the user where the confirmation
    rules say so (pkg/confirmation), gets a client of the target cluster under the
    identity of the user (the provider and pkg/tokenexchange) and runs its handler.
    Every request of such a client passes the gate
    (pkg/kubernetes/accesscontrol_round_tripper.go) with its validators.

    * Files, in the order of their dependencies

    Foundations:
    - Prelude: notations, the state functions [ST], errors of results, tactics, hints.
    - GoStrings, Paths: the packages strings, strconv, slices and path/filepath.
    - Api: the data of pkg/api.   - Unstructured: decoded Kubernetes objects.
    - Cluster: programs over the Kubernetes API.  A handler that works on a cluster is
      a tree of calls ([prog]); [runs p tr r] says that [p] can make the calls with the
      answers [tr] and give [r].  The answers are arbitrary, so a theorem on all runs
      holds against every cluster, failing ones included; [run] and [traced] execute a
      program against a concrete one.

    The gate and the rules:
    - Confirmation (pkg/api/confirmation.go, pkg/confirmation, pkg/mcp/elicit.go,
      confirmation_validator.go), Validators (the validators and their registry),
      AccessControl (accesscontrol_round_tripper.go).

    Configuration: Toolsets (registry, names of outputs), Config (data and validation),
    ConfigRead (files, drop-ins, merging), TlsUtil, OAuthState.

    The server: Tools (data, filter, mutators), Prompts, SdkTypes (conversion and the
    handlers given to the SDK), McpServer (applying and reloading), RateLimit,
    Watchers, McpLog (log messages to the client), LogSink (pkg/logging: the log of the
    process), McpMiddleware (the order of the middlewares, protocol log, traces, measures),
    Telemetry (pkg/telemetry, pkg/metrics), Output (pkg/output: printing), Command (the
    command: start, stop and reload of the whole process).

    HTTP and identity: Http, HttpAuth, WellKnown, TokenExchange, UserAuth.

    Clusters: Manager (clients and managers), Providers (registry, single, kubeconfig),
    AcmHub, Kcp.

    Toolsets: Params (arguments), Core and CoreTools (pkg/kubernetes operations and
    pkg/toolsets/core), NodeDebug, CniDiagnostics and CniTools, MustGather, MustGatherPlan,
    MustGatherTools, MustGatherMonitoring, KubeVirt, KubeVirtTools, KubeVirtDiag and
    KubeVirtPrompts, OvnKubernetes, HealthCheck, Oadp, NetEdge and NetEdgeProbes with
    Prometheus (pkg/prometheus), Tekton, ConfigTools (pkg/toolsets/config and kcp),
    HttpClients (URLs, queries and the HTTP client of the plugins) with NetObserv, Kiali and
    KialiPrompts over it, Helm.

    Each file opens with the source files it models; a definition has the name of the
    Go function it translates, with the receiver where two would clash
    ([kubeconfig_reset] is the method [reset] of the kubeconfig provider).

    * How code is modelled

    - A function that fails returns [result], one that may panic an [option] or a
      type with the panic among its constructors; pure functions are Rocq functions.
    - Code that acts on its surroundings without the cluster API is a state function
      [ST W A] of an abstract world [W]; the parts of [W] that are the program's own
      memory (caches, registries, cells of a provider) are records, or are reached by
      getters and setters with their laws as hypotheses.
    - Code under a mutex is one step.  Interleavings of such steps are sequences of
      events (AcmHub, Providers, RateLimit, Watchers, McpServer, MustGatherMonitoring)
      and the invariants are proved over all sequences.
    - The order in which Go ranges over a map, where it shows, is a parameter.
    - Integers are [Z] or [nat] where the code's ranges exclude overflow; conversions
      that wrap or truncate are written out ([f64_to_int64], [in_int64]).
    - Libraries (client-go, the MCP SDK, codecs, JWT, TLS, X.509, regular expressions,
      the file system) are parameters; what the code relies on is a named hypothesis,
      and every theorem with hypotheses has a witness at concrete values.

    * Fuel and bounds

    - Kcp: discovery recurses into workspaces with fuel; a number of steps above the
      number of workspaces is enough ([DiscoverAllWorkspaces_spec]).
    - NodeDebug: contexts with a deadline are numbers of polls; the theorems hold for
      every number.
    - MustGatherTools: [formatBytes] divides by 1024 at most 64 times, and six units
      are reached before.
    - HttpClients: a client of net/http makes at most ten requests for one call, which is
      the bound of the library.
    - Everything else recurses on its data.

    * What the theorems show

    - Mediation: no request leaves for the cluster that the gate, the rules and the
      user did not permit (AccessControl, Confirmation, SdkTypes); paths are parsed as
      they are printed.
    - Server state: whatever reloads and calls happened, the exposed tools are those
      the installed configuration permits, a reload is all or nothing, and
      read-only configurations expose only tools that read (McpServer, CoreTools).
    - The process: HTTP requests are admitted by the configuration under which the tools are
      exposed, a signal reloads all shared state or none but for an OpenID provider that
      cannot be made, require_tls is served with TLS, what was started is stopped in reverse
      order (Command); a request passes its middlewares once and is measured once, secret
      headers are not logged and what is sent to the client as log is sanitized
      (McpMiddleware, McpLog); no write of the log reaches a closed file (LogSink); the statistics are the counts of what was recorded (Telemetry).
    - Authentication: without an accepted token the MCP endpoint is not reached; the
      metadata proxy asks only its issuer; credentials go where the configuration says
      and never in the clear when TLS is required; a cluster sees only the token made
      for the user (HttpAuth, WellKnown, TokenExchange, UserAuth).
    - Configuration: the last file wins at every path, validation accepts exactly the
      well-formed configurations (ConfigRead, Config).
    - Clusters: each target gets its own manager, discovery and watches agree with what
      the cluster says, watchers converge and stop (Providers, AcmHub, Kcp, Watchers).
    - Tools: what each may write, which objects, and that it cleans up (Core, CoreTools,
      NodeDebug, CniDiagnostics, MustGatherPlan, KubeVirtTools, NetEdge, Tekton); that offline
      archives are read inside their directory, indexed and searched as specified (MustGather,
      MustGatherTools, MustGatherMonitoring); that secrets are masked in reports
      (KubeVirtDiag, NetEdge), contexts, workspaces and targets are listed completely
      (ConfigTools), commands are executed only in the pod that is named (OvnKubernetes), sessions are cut at their limit (NetEdge), and
      the prompts read only (HealthCheck, Oadp, KubeVirtPrompts, KialiPrompts).
    - Plugins: the clients ask the configured host, with the settings of TLS of the
      configuration, and the server reads back the arguments of the call; nothing goes over
      an insecure URL while TLS is required (HttpClients, NetObserv, Kiali, NetEdgeProbes).
      Charts come only from the registries the configuration lists (Helm).
    - Printing: the structured content of a result agrees with what is printed (Output).

    * Not modelled

    - The getters of the configuration that only read a field, the interfaces of pkg/api
      without behaviour, and init functions that register.
    - The SDKs and what they run: sessions and transports of MCP, the exporters of
      OpenTelemetry, the TCP listener, cobra and klog; building HTTP clients, Close and
      Invalidate of a manager; closing the idle connections of an exchange.
    - The generator of the documentation, vendored code, tests and their helpers.
    - Concurrency below a mutex, the wall clock except where it is an argument, and the
      text of messages of libraries. *)
From stdpp Require Export prelude gmap strings list sorting pretty.
From Stdlib Require Export Ascii ZArith.

(** * Notations *)

Declare Scope mcp_scope.
Delimit Scope mcp_scope with mcp.
Open Scope mcp_scope.

(** [fmt [a; b; c]] is the text a Go [fmt.Sprintf] with literal pieces and
    [%s] verbs produces. *)
Definition fmt (parts : list string) : string := String.concat "" parts.

(** The double quote and the line feed, as one-character strings. *)
Definition dq : string := String "034"%char "".
Definition nl : string := String "010"%char "".

(** Boolean tests of the Go code on strings. *)
Notation "x =?s y" := (bool_decide (x =@{string} y)) (at level 70) : mcp_scope.
Notation "x ≠?s y" := (negb (bool_decide (x =@{string} y))) (at level 70) : mcp_scope.

(** * Go errors

    [errors.New] and [fmt.Errorf] without [%w] make [ErrNew]; a package-level
    error variable is [ErrSentinel], identified by its text; [fmt.Errorf] with
    [%w] verbs is [ErrWrap], which keeps the wrapped values in place;
    [errors.Join] is [ErrJoin].  [ErrKind] are the errors of the Kubernetes
    client libraries the code tells apart by a predicate.
    [ErrValidation] is [*api.ValidationError] (pkg/api/validation.go). *)

Inductive error_kind : Type :=
| KindNoMatch        (* meta.IsNoMatchError *)
| KindNotFound       (* apierrors.IsNotFound, memory.ErrCacheNotFound *)
| KindForbidden      (* apierrors.IsForbidden *)
| KindUnknownField.  (* openapi UnknownFieldError *)

Inductive error : Type :=
| ErrNew (msg : string)
| ErrSentinel (msg : string)
| ErrKind (kind : error_kind) (msg : string)
| ErrValidation (code message field : string)
| ErrRPC (code : Z) (msg : string)
| ErrWrap (parts : list (string + error))
| ErrJoin (errs : list error).

#[export] Instance error_kind_eq_dec : EqDecision error_kind.
Proof. solve_decision. Defined.

(** The [Error()] text. *)
Fixpoint error_string (e : error) : string :=
  match e with
  | ErrNew m | ErrSentinel m | ErrKind _ m | ErrRPC _ m => m
  | ErrValidation code message field =>
      fmt ["Validation Error ["; code; "]: "; message;
           if field =?s "" then "" else fmt [nl; "  Field: "; field]]
  | ErrWrap parts =>
      fmt (map (fun p => match p with inl s => s | inr e' => error_string e' end) parts)
  | ErrJoin errs => String.concat nl (map error_string errs)
  end.

(** [errors.Is(e, target)] for a package-level error variable [target]. *)
Fixpoint errors_Is (target : string) (e : error) : bool :=
  match e with
  | ErrSentinel m => m =?s target
  | ErrWrap parts =>
      existsb (fun p => match p with inl _ => false | inr e' => errors_Is target e' end) parts
  | ErrJoin errs => existsb (errors_Is target) errs
  | _ => false
  end.

(** The predicates of the client libraries, which look through wrapping. *)
Fixpoint errors_Is_kind (k : error_kind) (e : error) : bool :=
  match e with
  | ErrKind k' _ => bool_decide (k = k')
  | ErrWrap parts =>
      existsb (fun p => match p with inl _ => false | inr e' => errors_Is_kind k e' end) parts
  | ErrJoin errs => existsb (errors_Is_kind k) errs
  | _ => false
  end.

(** [fmt.Errorf("pre%w", e)]. *)
Definition wrapf (pre : string) (e : error) : error := ErrWrap [inl pre; inr e].

(** * Results: a Go pair [(value, error)] of which one is meaningful *)

Inductive result (A : Type) : Type :=
| Ok (a : A)
| Err (e : error).
Arguments Ok {A} _.
Arguments Err {A} _.

#[export] Instance result_ret : MRet result := @Ok.
#[export] Instance result_bind : MBind result := fun A B f r =>
  match r with Ok a => f a | Err e => Err e end.

Definition is_ok {A} (r : result A) : bool :=
  match r with Ok _ => true | Err _ => false end.

(** [if err := f(); err != nil { return err }] for functions that return only
    an error: the first error of a list of checks run in order. *)
Definition first_error (checks : list (option error)) : option error :=
  head (omap id checks).

(** * State passing *)

Definition ST (W A : Type) : Type := W -> A * W.

#[export] Instance ST_ret W : MRet (ST W) := fun A a w => (a, w).
#[export] Instance ST_bind W : MBind (ST W) := fun A B f m w =>
  let '(a, w') := m w in f a w'.

(** * Tactics *)

(** Take apart a hypothesis that equates results or options. *)
Ltac inv_res :=
  repeat match goal with
  | H : Ok _ = Ok _ |- _ => injection H as H; try subst
  | H : Err _ = Err _ |- _ => injection H as H; try subst
  | H : Ok _ = Err _ |- _ => discriminate H
  | H : Err _ = Ok _ |- _ => discriminate H
  | H : Some _ = Some _ |- _ => injection H as H; try subst
  | H : None = Some _ |- _ => discriminate H
  | H : Some _ = None |- _ => discriminate H
  | H : (_, _) = (_, _) |- _ => injection H as ? ?; try subst
  end.

(** Case analysis on the tests of the goal, with the impossible branches
    closed. *)
Ltac split_cases :=
  repeat (case_match; simplify_eq/=; try done).

(** Turn boolean tests in the context into propositions. *)
Ltac reflect_bools :=
  repeat match goal with
  | H : bool_decide _ = true |- _ => apply bool_decide_eq_true in H
  | H : bool_decide _ = false |- _ => apply bool_decide_eq_false in H
  | H : negb _ = true |- _ => apply negb_true_iff in H
  | H : negb _ = false |- _ => apply negb_false_iff in H
  | H : _ && _ = true |- _ => apply andb_true_iff in H; destruct H
  | H : _ || _ = false |- _ => apply orb_false_iff in H; destruct H
  end.

(** Decide a closed string test. *)
Ltac eval_closed := vm_compute; reflexivity.

(** * Hint databases: [mcp] resolves the side conditions of the components,
    [mcp_rw] holds the equations they rewrite with. *)

Create HintDb mcp discriminated.
Create HintDb mcp_rw discriminated.

(** * Generic lemmas *)

Lemma result_bind_Ok {A B} (f : A -> result B) (r : result A) b :
  (r ≫= f) = Ok b <-> exists a, r = Ok a /\ f a = Ok b.
Proof. destruct r; cbn; naive_solver. Qed.

Lemma first_error_nil : first_error [] = None.
Proof. reflexivity. Qed.

Lemma first_error_cons c cs :
  first_error (c :: cs) = match c with Some e => Some e | None => first_error cs end.
Proof. destruct c; reflexivity. Qed.

(** No check reports an error exactly when every check passes. *)
Lemma first_error_None cs : first_error cs = None <-> Forall (fun c => c = None) cs.
Proof.
  induction cs as [|[e|] cs IH]; [done| |]; rewrite first_error_cons, Forall_cons.
  - naive_solver.
  - naive_solver.
Qed.

Lemma first_error_Some_elem cs e : first_error cs = Some e -> Some e ∈ cs.
Proof.
  induction cs as [|[e'|] cs IH]; [done| |]; rewrite first_error_cons; set_solver.
Qed.

Lemma existsb_spec {A} (f : A -> bool) (l : list A) :
  existsb f l = true <-> exists x, x ∈ l /\ f x = true.
Proof.
  rewrite List.existsb_exists. by setoid_rewrite list_elem_of_In.
Qed.

Lemma forallb_spec {A} (f : A -> bool) (l : list A) :
  forallb f l = true <-> forall x, x ∈ l -> f x = true.
Proof.
  rewrite List.forallb_forall. by setoid_rewrite list_elem_of_In.
Qed.

Lemma forallb_app_eq {A} (f : A -> bool) (l1 l2 : list A) :
  forallb f (l1 ++ l2) = forallb f l1 && forallb f l2.
Proof. apply List.forallb_app. Qed.

#[export] Hint Rewrite @first_error_cons first_error_nil : mcp_rw.
