(* ===== verification/GoStrings.v ===== *)
(** The functions of Go's packages strings, strconv, slices and sort that the modelled
    code calls, on byte strings.  Letters and white space are the ASCII ones:
    [TrimSpace], [ToLower] and [ToUpper] act on ASCII text as in Go, and [quote]
    (the verb %q) leaves bytes from 128 on as they are.  Separators are single
    characters, as in every call of the modelled code. *)
From S2P Require Import Prelude.

(** * Definitions *)

Definition slen (s : string) : nat := String.length s.
#[global] Arguments slen : simpl never.

(** [s[n:]] *)
Fixpoint drop_str (n : nat) (s : string) : string :=
  match n, s with
  | O, _ => s
  | S n', String _ s' => drop_str n' s'
  | S _, EmptyString => ""
  end.

(** [s[:n]] *)
Fixpoint take_str (n : nat) (s : string) : string :=
  match n, s with
  | O, _ => ""
  | S n', String c s' => String c (take_str n' s')
  | S _, EmptyString => ""
  end.

Fixpoint rev_str_aux (s acc : string) : string :=
  match s with
  | EmptyString => acc
  | String c s' => rev_str_aux s' (String c acc)
  end.
Definition rev_str (s : string) : string := rev_str_aux s "".

Definition HasPrefix (s p : string) : bool := String.prefix p s.
Definition HasSuffix (s p : string) : bool := String.prefix (rev_str p) (rev_str s).
Definition TrimPrefix (s p : string) : string :=
  if HasPrefix s p then drop_str (slen p) s else s.
Definition TrimSuffix (s p : string) : string :=
  if HasSuffix s p then take_str (slen s - slen p) s else s.

(** [strings.Index]: the first position of [sub], if any. *)
Fixpoint Index (s sub : string) : option nat :=
  if HasPrefix s sub then Some 0
  else match s with
       | EmptyString => None
       | String _ s' => S <$> Index s' sub
       end.
Definition Contains (s sub : string) : bool :=
  match Index s sub with Some _ => true | None => false end.

(** [strings.Split(s, c)] for a one-character separator: never empty. *)
Fixpoint Split (c : ascii) (s : string) : list string :=
  match s with
  | EmptyString => [""]
  | String a s' =>
      if bool_decide (a = c) then "" :: Split c s'
      else match Split c s' with
           | p :: ps => String a p :: ps
           | [] => [String a ""]
           end
  end.

Definition Join (parts : list string) (sep : string) : string := String.concat sep parts.

(** [strings.SplitN(s, c, 2)] as the pair of its two parts. *)
Definition Cut (c : ascii) (s : string) : option (string * string) :=
  match Split c s with
  | p :: q :: ps => Some (p, Join (q :: ps) (String c ""))
  | _ => None
  end.

(** [strings.TrimLeft/TrimRight/Trim] for a set of characters given as a test. *)
Fixpoint trim_left (f : ascii -> bool) (s : string) : string :=
  match s with
  | String c s' => if f c then trim_left f s' else s
  | EmptyString => ""
  end.
Fixpoint trim_right (f : ascii -> bool) (s : string) : string :=
  match s with
  | String c s' =>
      match trim_right f s' with
      | EmptyString => if f c then "" else String c ""
      | r => String c r
      end
  | EmptyString => ""
  end.
Definition trim_func (f : ascii -> bool) (s : string) : string := trim_right f (trim_left f s).

Fixpoint char_in (c : ascii) (s : string) : bool :=
  match s with
  | EmptyString => false
  | String a s' => bool_decide (c = a) || char_in c s'
  end.
Definition Trim (s cutset : string) : string := trim_func (fun c => char_in c cutset) s.
Definition TrimSpace (s : string) : string := trim_func Ascii.is_space s.

Definition lower_char (c : ascii) : ascii :=
  let n := N_of_ascii c in
  if (65 <=? n)%N && (n <=? 90)%N then ascii_of_N (n + 32) else c.
Definition upper_char (c : ascii) : ascii :=
  let n := N_of_ascii c in
  if (97 <=? n)%N && (n <=? 122)%N then ascii_of_N (n - 32) else c.
Fixpoint map_str (f : ascii -> ascii) (s : string) : string :=
  match s with
  | EmptyString => ""
  | String c s' => String (f c) (map_str f s')
  end.
Definition ToLower : string -> string := map_str lower_char.
Definition ToUpper : string -> string := map_str upper_char.
(** [strings.EqualFold] *)
Definition EqualFold (a b : string) : bool := ToLower a =?s ToLower b.

(** [strings.ReplaceAll(s, old, new)] for a non-empty [old]; [skip] counts the
    characters of an occurrence still to be passed over. *)
Fixpoint replace_from (old new : string) (skip : nat) (s : string) : string :=
  match s with
  | EmptyString => ""
  | String c s' =>
      match skip with
      | S k => replace_from old new k s'
      | O => if HasPrefix s old then new +:+ replace_from old new (slen old - 1) s'
             else String c (replace_from old new 0 s')
      end
  end.
Definition ReplaceAll (s old new : string) : string := replace_from old new 0 s.

(** The verb %q. *)
Definition hex_digit (n : N) : ascii :=
  ascii_of_N (if (n <? 10)%N then 48 + n else 87 + n).
Definition quote_char (c : ascii) : string :=
  let n := N_of_ascii c in
  match n with
  | 7 => "\a" | 8 => "\b" | 9 => "\t" | 10 => "\n" | 11 => "\v" | 12 => "\f" | 13 => "\r"
  | 34 => "\" +:+ dq
  | 92 => "\\"
  | _ => if (n <? 32)%N || (n =? 127)%N
         then "\x" +:+ String (hex_digit (n / 16)) (String (hex_digit (n mod 16)) "")
         else String c ""
  end%N.
Fixpoint quote_body (s : string) : string :=
  match s with
  | EmptyString => ""
  | String c s' => quote_char c +:+ quote_body s'
  end.
Definition quote (s : string) : string := dq +:+ quote_body s +:+ dq.

(** The verb %d. *)
Definition itoa (z : Z) : string := pretty z.

(** [strconv.Atoi]: an optional sign and decimal digits, within 64 bits. *)
Definition digit_value (c : ascii) : option Z :=
  let n := Z.of_nat (nat_of_ascii c) in
  if (48 <=? n)%Z && (n <=? 57)%Z then Some (n - 48)%Z else None.
Fixpoint digits_value (acc : Z) (s : string) : option Z :=
  match s with
  | EmptyString => Some acc
  | String c s' =>
      match digit_value c with
      | Some d => digits_value (acc * 10 + d) s'
      | None => None
      end
  end.
Definition unsigned_value (s : string) : option Z :=
  match s with EmptyString => None | _ => digits_value 0 s end.
Definition Atoi (s : string) : option Z :=
  let v :=
    match s with
    | String "-" s' => Z.opp <$> unsigned_value s'
    | String "+" s' => unsigned_value s'
    | _ => unsigned_value s
    end in
  match v with
  | Some z => if (-(2 ^ 63) <=? z)%Z && (z <? 2 ^ 63)%Z then Some z else None
  | None => None
  end.

(** A 64-bit value of a Go integer expression. *)
Definition wrap64 (z : Z) : Z := ((z + 2 ^ 63) mod 2 ^ 64 - 2 ^ 63)%Z.

(** [slices.Sort] and [sort.Strings]: strings are ordered bytewise. *)
Definition sort_strings (l : list string) : list string := merge_sort String.le l.

(** [slices.Contains] *)
Definition slices_Contains (l : list string) (x : string) : bool :=
  existsb (fun y => y =?s x) l.

(** No occurrence of the character [c] in [s]. *)
Fixpoint no_char (c : ascii) (s : string) : Prop :=
  match s with
  | EmptyString => True
  | String a s' => a <> c /\ no_char c s'
  end.

(** ** sort *)

(** What [sort.Slice] promises for an order: a permutation, in this order. *)
Definition orders {A} (less : A -> A -> bool) : Prop :=
  (forall a b c, less b a = false -> less c b = false -> less c a = false) /\
  (forall a b, less a b = true -> less b a = false).
Definition sorts (sort_slice : forall A, (A -> A -> bool) -> list A -> list A) : Prop :=
  forall A (less : A -> A -> bool) l, orders less ->
    sort_slice A less l ≡ₚ l /\ StronglySorted (fun a b => less b a = false) (sort_slice A less l).
(** A sorting function: the merge sort of stdpp. *)
Definition merge_slice (A : Type) (less : A -> A -> bool) (l : list A) : list A :=
  merge_sort (fun a b => Is_true (negb (less b a))) l.

(** * Lemmas *)

Lemma append_String c s t : String c s +:+ t = String c (s +:+ t).
Proof. reflexivity. Qed.

Lemma append_nil_r s : s +:+ "" = s.
Proof. induction s as [|c s IH]; [done|]. by rewrite append_String, IH. Qed.

Lemma append_assoc s t u : (s +:+ t) +:+ u = s +:+ t +:+ u.
Proof. induction s as [|c s IH]; [done|]. by rewrite !append_String, IH. Qed.
Lemma fmt_cons s l : fmt (s :: l) = s +:+ fmt l.
Proof. unfold fmt. destruct l as [|t l]; cbn; [by rewrite append_nil_r|done]. Qed.

Lemma append_nil_l s : "" +:+ s = s.
Proof. reflexivity. Qed.

Lemma slen_append s t : slen (s +:+ t) = slen s + slen t.
Proof.
  unfold slen. induction s as [|c s IH]; [done|].
  rewrite append_String. cbn [String.length]. by rewrite IH.
Qed.

Lemma append_inj_l s t u : s +:+ t = s +:+ u -> t = u.
Proof. induction s as [|c s IH]; [done|]. rewrite !append_String. naive_solver. Qed.

Lemma HasPrefix_spec s p : HasPrefix s p = true <-> exists t, s = p +:+ t.
Proof.
  unfold HasPrefix. revert s. induction p as [|c p IH]; intros s; cbn.
  - destruct s; (split; [by eexists|done]).
  - destruct s as [|a s]; cbn.
    + split; [done|]. intros [t Ht]. by rewrite append_String in Ht.
    + destruct (ascii_dec c a) as [->|Hne]; cycle 1.
      * split; [done|]. intros [t Ht]. rewrite append_String in Ht. naive_solver.
      * rewrite IH. setoid_rewrite append_String. naive_solver.
Qed.

Lemma HasPrefix_cons c s c' p : HasPrefix (String c s) (String c' p) = bool_decide (c' = c) && HasPrefix s p.
Proof. unfold HasPrefix. cbn. by destruct (ascii_dec c' c); case_bool_decide. Qed.

Lemma HasPrefix_char c s c' : HasPrefix (String c s) (String c' "") = bool_decide (c' = c).
Proof. rewrite HasPrefix_cons. destruct s; apply andb_true_r. Qed.

Lemma HasPrefix_append p t : HasPrefix (p +:+ t) p = true.
Proof. apply HasPrefix_spec. by exists t. Qed.

Lemma drop_str_append p t : drop_str (slen p) (p +:+ t) = t.
Proof. induction p as [|c p IH]; [done|]. rewrite append_String. exact IH. Qed.

Lemma take_str_append p t : take_str (slen p) (p +:+ t) = p.
Proof.
  unfold slen. induction p as [|c p IH]; [by destruct t|].
  rewrite append_String. cbn [String.length take_str]. by rewrite IH.
Qed.
Lemma take_str_all n s : slen s <= n -> take_str n s = s.
Proof.
  unfold slen. revert n. induction s as [|a s IH]; intros [|n] H; cbn [take_str String.length] in *; try done; [lia|].
  rewrite IH; [done|lia].
Qed.
Lemma slen_take_str n s : slen (take_str n s) = Nat.min n (slen s).
Proof.
  unfold slen. revert s. induction n as [|n IH]; intros [|a s]; cbn [take_str String.length]; [done..|].
  by rewrite IH.
Qed.

Lemma TrimPrefix_append p t : TrimPrefix (p +:+ t) p = t.
Proof. unfold TrimPrefix. by rewrite HasPrefix_append, drop_str_append. Qed.

Lemma Index_Some s sub n :
  Index s sub = Some n -> s = take_str n s +:+ sub +:+ drop_str (n + slen sub) s.
Proof.
  assert (Hz : forall u, HasPrefix u sub = true ->
                u = take_str 0 u +:+ sub +:+ drop_str (0 + slen sub) u).
  { intros u [t ->]%HasPrefix_spec. cbn [plus take_str].
    by rewrite drop_str_append. }
  revert n. induction s as [|c s IH]; intros n; cbn [Index]; case_match eqn:E.
  - intros [= <-]. by apply Hz.
  - done.
  - intros [= <-]. by apply Hz.
  - destruct (Index s sub) as [k|] eqn:Ek; [|done]. cbn. intros [= <-].
    cbn [take_str plus drop_str]. rewrite append_String. by rewrite <- (IH k).
Qed.

Lemma Index_append_None s sub t : Index (s +:+ sub +:+ t) sub <> None.
Proof.
  induction s as [|c s IH].
  - rewrite append_nil_l. intros H. destruct (sub +:+ t) eqn:E; cbn [Index] in H;
      rewrite <- E, HasPrefix_append in H; done.
  - rewrite append_String. cbn [Index]. case_match; [done|].
    destruct (Index (s +:+ sub +:+ t) sub); naive_solver.
Qed.

Lemma Contains_spec s sub : Contains s sub = true <-> exists a b, s = a +:+ sub +:+ b.
Proof.
  unfold Contains. split.
  - case_match eqn:E; [|done]. intros _. apply Index_Some in E. eauto.
  - intros (a & b & ->). case_match eqn:E; [done|]. by apply Index_append_None in E.
Qed.

Lemma no_char_append c s t : no_char c (s +:+ t) <-> no_char c s /\ no_char c t.
Proof. induction s as [|a s IH]; [naive_solver|]. rewrite append_String. cbn. rewrite IH. tauto. Qed.

#[export] Instance no_char_dec c s : Decision (no_char c s).
Proof. induction s as [|a s IH]; cbn; apply _. Defined.

Lemma Split_not_nil c s : Split c s <> [].
Proof. destruct s; cbn; [done|]. case_bool_decide; [done|]. by case_match. Qed.

Lemma Split_no_char c s : no_char c s -> Split c s = [s].
Proof.
  induction s as [|a s IH]; [done|]. cbn. intros [Hne Hs].
  rewrite bool_decide_eq_false_2 by done. by rewrite IH.
Qed.

Lemma Split_append c s t :
  no_char c s -> Split c (s +:+ String c t) = s :: Split c t.
Proof.
  induction s as [|a s IH]; cbn [no_char].
  - intros _. rewrite append_nil_l. cbn. by rewrite bool_decide_eq_true_2.
  - intros [Hne Hs]. rewrite append_String. cbn [Split].
    rewrite bool_decide_eq_false_2 by done. by rewrite IH.
Qed.

(** Splitting undoes joining. *)
Lemma Split_Join c parts :
  parts <> [] -> Forall (no_char c) parts ->
  Split c (Join parts (String c "")) = parts.
Proof.
  intros Hne Hall. induction Hall as [|p ps Hp Hps IH]; [done|].
  destruct ps as [|q ps].
  - cbn. by apply Split_no_char.
  - unfold Join in *. change (String.concat (String c "") (p :: q :: ps))
      with (p +:+ String c "" +:+ String.concat (String c "") (q :: ps)).
    rewrite append_String, append_nil_l, Split_append by done. by rewrite IH.
Qed.

(** Joining undoes splitting. *)
Lemma Join_Split c s : Join (Split c s) (String c "") = s.
Proof.
  unfold Join. induction s as [|a s IH]; [done|]. cbn [Split].
  case_bool_decide as Hac.
  - subst. destruct (Split c s) as [|p ps] eqn:E; [by apply Split_not_nil in E|].
    change (String.concat (String c "") ("" :: p :: ps))
      with ("" +:+ String c "" +:+ String.concat (String c "") (p :: ps)).
    rewrite IH. reflexivity.
  - destruct (Split c s) as [|p ps] eqn:E; [by apply Split_not_nil in E|].
    destruct ps as [|q ps].
    + cbn in *. by rewrite IH.
    + change (String.concat (String c "") (String a p :: q :: ps))
        with (String a (String.concat (String c "") (p :: q :: ps))).
      by rewrite IH.
Qed.

Lemma no_char_Cut c a b : no_char c a -> Cut c (a +:+ String c b) = Some (a, b).
Proof.
  intros Ha. unfold Cut. rewrite Split_append by done.
  destruct (Split c b) as [|x l] eqn:E; [by apply Split_not_nil in E|]. by rewrite <- E, Join_Split.
Qed.

Lemma Split_parts_no_char c s : Forall (no_char c) (Split c s).
Proof.
  induction s as [|a s IH]; cbn; [by repeat constructor|].
  case_bool_decide; [by constructor|].
  destruct (Split c s); [by repeat constructor|].
  inversion_clear IH. by repeat constructor.
Qed.

Lemma negb_is_true b : Is_true (negb b) <-> b = false.
Proof. by destruct b. Qed.

Lemma merge_slice_sorts : sorts merge_slice.
Proof.
  intros A less l [Htrans Hasym]. unfold merge_slice.
  set (R := fun a b => Is_true (negb (less b a))).
  assert (Transitive R) as HR.
  { intros a b c. unfold R. rewrite !negb_is_true. apply Htrans. }
  assert (Total R) as HT.
  { intros a b. unfold R. rewrite !negb_is_true. destruct (less b a) eqn:H; [|by left].
    right. by apply Hasym. }
  split; [apply merge_sort_Permutation|].
  pose proof (StronglySorted_merge_sort R l) as Hs. induction Hs as [|x k Hs IH Hx]; constructor; [done|].
  apply (Forall_impl _ _ _ Hx). intros b. unfold R. by rewrite negb_is_true.
Qed.

Lemma trim_left_id f c s : f c = false -> trim_left f (String c s) = String c s.
Proof. intros H. cbn. by rewrite H. Qed.

Lemma trim_right_snoc f s c : f c = false -> trim_right f (s +:+ String c "") = s +:+ String c "".
Proof.
  intros Hc. induction s as [|a s IH].
  - rewrite append_nil_l. cbn. by rewrite Hc.
  - rewrite append_String. cbn. rewrite IH. by destruct s.
Qed.

Lemma trim_left_idem f s : trim_left f (trim_left f s) = trim_left f s.
Proof. induction s as [|c s IH]; [done|]. cbn. case_match eqn:E; [done|]. cbn. by rewrite E. Qed.

Lemma trim_right_idem f s : trim_right f (trim_right f s) = trim_right f s.
Proof.
  induction s as [|c s IH]; [done|]. cbn [trim_right].
  destruct (trim_right f s) as [|a r] eqn:E.
  - destruct (f c) eqn:Ec; [done|]. cbn. by rewrite Ec.
  - cbn [trim_right] in *. by rewrite IH.
Qed.

Lemma trim_left_right_comm f s : trim_left f (trim_right f (trim_left f s)) = trim_right f (trim_left f s).
Proof.
  induction s as [|c s IH]; [done|]. cbn [trim_left].
  destruct (f c) eqn:Ec; [exact IH|].
  cbn [trim_right]. destruct (trim_right f s); [rewrite Ec|]; cbn; by rewrite Ec.
Qed.

(** Trimming twice is trimming once. *)
Lemma trim_func_idem f s : trim_func f (trim_func f s) = trim_func f s.
Proof. unfold trim_func. by rewrite trim_left_right_comm, trim_right_idem. Qed.

Lemma TrimSpace_idem s : TrimSpace (TrimSpace s) = TrimSpace s.
Proof. apply trim_func_idem. Qed.

Lemma slices_Contains_spec l x : slices_Contains l x = true <-> x ∈ l.
Proof.
  unfold slices_Contains. rewrite existsb_spec. setoid_rewrite bool_decide_eq_true.
  naive_solver.
Qed.

#[export] Instance String_le_total : Total String.le.
Proof.
  intros s t. unfold String.le, String.leb.
  destruct (String.compare s t) eqn:E; [by left..|right].
  rewrite String.compare_antisym, E. done.
Qed.

Lemma sort_strings_perm l : sort_strings l ≡ₚ l.
Proof. apply merge_sort_Permutation. Qed.

Lemma sort_strings_sorted l : Sorted String.le (sort_strings l).
Proof. apply Sorted_merge_sort, _. Qed.

Lemma elem_of_sort_strings x l : x ∈ sort_strings l <-> x ∈ l.
Proof. by rewrite sort_strings_perm. Qed.

(** The sorted list does not depend on the order of the input. *)
Lemma sort_strings_perm_eq l1 l2 : l1 ≡ₚ l2 -> sort_strings l1 = sort_strings l2.
Proof.
  intros H. apply (Sorted_unique String.le); [apply sort_strings_sorted..|].
  by rewrite !sort_strings_perm.
Qed.

#[export] Instance sort_strings_proper : Proper ((≡ₚ) ==> eq) sort_strings.
Proof. intros l1 l2. apply sort_strings_perm_eq. Qed.

#[export] Hint Resolve HasPrefix_append no_char_append Split_not_nil : mcp.
#[export] Hint Rewrite append_nil_r append_nil_l append_assoc TrimPrefix_append
  drop_str_append take_str_append TrimSpace_idem : mcp_rw.

(** ** Paths made of non-empty segments *)

Lemma trim_right_app f s t :
  trim_right f t = t -> t <> "" -> trim_right f (s +:+ t) = s +:+ t.
Proof.
  intros Ht Hne. induction s as [|c s IH]; [done|].
  rewrite append_String. cbn [trim_right]. rewrite IH.
  destruct (s +:+ t) eqn:E; [|done]. by destruct s, t.
Qed.

Lemma char_in_single c a : char_in c (String a "") = bool_decide (c = a).
Proof. cbn. by rewrite orb_false_r. Qed.

Lemma trim_right_no_char c s :
  no_char c s -> trim_right (fun a => char_in a (String c "")) s = s.
Proof.
  induction s as [|a s IH]; [done|]. cbn [no_char]. intros [Hac Hs].
  cbn [trim_right]. rewrite IH by done. destruct s; [|done].
  by rewrite char_in_single, bool_decide_eq_false_2.
Qed.

Lemma Join_cons2 p q ps sep : Join (p :: q :: ps) sep = p +:+ sep +:+ Join (q :: ps) sep.
Proof. reflexivity. Qed.

Lemma trim_right_Join c parts :
  parts <> [] -> Forall (no_char c) parts -> Forall (.≠ "") parts ->
  trim_right (fun a => char_in a (String c "")) (Join parts (String c "")) =
    Join parts (String c "") /\
  Join parts (String c "") <> "".
Proof.
  intros Hne Hnc Hemp. induction parts as [|p ps IH]; [done|].
  apply Forall_cons in Hnc as [Hp Hps]. apply Forall_cons in Hemp as [Hep Heps].
  destruct ps as [|q ps].
  - split; [by apply trim_right_no_char|done].
  - rewrite Join_cons2. destruct IH as [IH1 IH2]; [done..|].
    rewrite <-append_assoc. split; [by apply trim_right_app|]. by destruct p.
Qed.

(** [strings.Split(strings.Trim(p, "/"), "/")] takes an absolute path apart. *)
Lemma Split_Trim_path c parts :
  parts <> [] -> Forall (no_char c) parts -> Forall (.≠ "") parts ->
  Split c (Trim (String c "" +:+ Join parts (String c "")) (String c "")) = parts.
Proof.
  intros Hne Hnc Hemp. unfold Trim, trim_func.
  rewrite append_String, append_nil_l. cbn [trim_left].
  rewrite char_in_single, bool_decide_eq_true_2 by done.
  replace (trim_left _ (Join parts (String c ""))) with (Join parts (String c "")).
  - destruct (trim_right_Join c parts) as [-> _]; [done..|]. by apply Split_Join.
  - destruct parts as [|p ps]; [done|]. apply Forall_cons in Hnc as [Hp _].
    apply Forall_cons in Hemp as [He _]. destruct p as [|a p]; [done|].
    cbn [no_char] in Hp. destruct ps as [|q ps]; [|rewrite Join_cons2, append_String];
      cbn; by rewrite orb_false_r, bool_decide_eq_false_2 by tauto.
Qed.
