(* ===== verification/Paths.v ===== *)
(** path/filepath on Unix: lexical cleaning and joining of paths, and what keeps a
    joined path below its directory. *)
From S2P Require Import Prelude GoStrings.

(** * Definitions *)

Fixpoint clean_elements (rooted : bool) (acc elems : list string) : list string :=
  match elems with
  | [] => rev acc
  | e :: elems =>
      if (e =?s "") || (e =?s ".") then clean_elements rooted acc elems
      else if e =?s ".." then
        match acc with
        | a :: acc' => if a =?s ".." then clean_elements rooted (".." :: acc) elems
                       else clean_elements rooted acc' elems
        | [] => if rooted then clean_elements rooted [] elems else clean_elements rooted [".."] elems
        end
      else clean_elements rooted (e :: acc) elems
  end.
Definition filepath_Clean (path : string) : string :=
  let rooted := HasPrefix path "/" in
  let s := Join (clean_elements rooted [] (Split "/" path)) "/" in
  if rooted then "/" +:+ s else if s =?s "" then "." else s.
Definition filepath_Join (elems : list string) : string :=
  match filter (fun e => e <> "") elems with
  | [] => ""
  | elems => filepath_Clean (Join elems "/")
  end.

(** [filepath.Base]. *)
Definition filepath_Base (path : string) : string :=
  if path =?s "" then "."
  else match filter (fun e => e <> "") (Split "/" path) with
       | [] => "/"
       | elems => List.last elems ""
       end.

(** [filepath.Rel]. *)
Fixpoint strip_common (b t : list string) : list string * list string :=
  match b, t with
  | x :: b', y :: t' => if x =?s y then strip_common b' t' else (b, t)
  | _, _ => (b, t)
  end.
Definition filepath_Rel (basepath targpath : string) : result string :=
  let base := filepath_Clean basepath in
  let targ := filepath_Clean targpath in
  if targ =?s base then Ok "."
  else if negb (Bool.eqb (HasPrefix base "/") (HasPrefix targ "/")) then
    Err (ErrNew (fmt ["Rel: can't make "; targpath; " relative to "; basepath]))
  else
    let elems p := clean_elements (HasPrefix p "/") [] (Split "/" p) in
    let '(b, t) := strip_common (elems base) (elems targ) in
    match b with
    | x :: _ =>
        if x =?s ".." then Err (ErrNew (fmt ["Rel: can't make "; targpath; " relative to "; basepath]))
        else Ok (Join (replicate (length b) ".." ++ t) "/")
    | [] => Ok (Join t "/")
    end.

(** A name that is one element of a path and stays one. *)
Definition plain_element (e : string) : Prop := e <> "" /\ e <> "." /\ e <> ".." /\ no_char "/" e.
#[export] Instance plain_element_dec e : Decision (plain_element e).
Proof. unfold plain_element. apply _. Defined.

(** The elements a path stands for, and the paths below a directory. *)
Definition path_elements (p : string) : list string :=
  clean_elements (HasPrefix p "/") [] (Split "/" p).
Definition below (dir p : string) : Prop :=
  HasPrefix p "/" = HasPrefix dir "/" /\
  exists es, es <> [] /\ Forall plain_element es /\ path_elements p = path_elements dir ++ es.

(** * Lemmas *)

Lemma filepath_Clean_nonempty path : filepath_Clean path <> "".
Proof.
  unfold filepath_Clean. cbn zeta. destruct (HasPrefix path "/"); [discriminate|].
  destruct (bool_decide_reflect (Join (clean_elements false [] (Split "/" path)) "/" = "")); [discriminate|done].
Qed.

Lemma filepath_Join_nonempty d e : d <> "" -> filepath_Join [d; e] <> "".
Proof.
  intros Hd. unfold filepath_Join. rewrite filter_cons_True by done. apply filepath_Clean_nonempty.
Qed.

(** ** Lists of elements *)

Lemma Split_app_sep c a b : Split c (a +:+ String c b) = Split c a ++ Split c b.
Proof.
  induction a as [|x a IH].
  - rewrite append_nil_l. cbn [Split]. by rewrite bool_decide_eq_true_2.
  - rewrite append_String. cbn [Split]. case_bool_decide; [by rewrite IH|].
    rewrite IH. destruct (Split c a) as [|p ps] eqn:E; [by apply Split_not_nil in E|done].
Qed.

Lemma clean_elements_app r l1 : forall acc l2,
  clean_elements r acc (l1 ++ l2) = clean_elements r (rev (clean_elements r acc l1)) l2.
Proof.
  induction l1 as [|e l1 IH]; intros acc l2; cbn [app clean_elements]; [by rewrite rev_involutive|].
  case_match; [apply IH|]. case_match; [|apply IH].
  destruct acc as [|a acc]; [case_match; apply IH|]. case_match; apply IH.
Qed.

Lemma clean_plain r es : forall acc,
  Forall plain_element es -> clean_elements r acc es = rev acc ++ es.
Proof.
  induction es as [|e es IH]; intros acc; cbn [clean_elements]; [by rewrite app_nil_r|].
  intros [(H1 & H2 & H3 & _) Hes]%Forall_cons.
  rewrite !bool_decide_eq_false_2 by done. cbn [orb]. rewrite IH by done.
  cbn [rev]. by rewrite <- app_assoc.
Qed.

(** Cleaned elements: dots only in front, and none when rooted. *)
Definition cleaned (r : bool) (l : list string) : Prop :=
  exists n es, l = replicate n ".." ++ es /\ Forall plain_element es /\ (r = true -> n = 0).

Lemma clean_dots n : forall acc, Forall (fun a => a = "..") acc ->
  clean_elements false acc (replicate n "..") = rev acc ++ replicate n "..".
Proof.
  induction n as [|n IH]; intros acc Hacc; cbn [replicate clean_elements]; [by rewrite app_nil_r|].
  change ((".." =?s "") || (".." =?s ".")) with false. change (".." =?s "..") with true. cbn [andb].
  destruct acc as [|a acc]; cbn beta iota; [by rewrite (IH [".."]) by (by constructor)|].
  apply Forall_cons in Hacc as [-> Hacc]. rewrite bool_decide_eq_true_2 by done.
  rewrite IH by (by repeat constructor). cbn [rev]. by rewrite <- !app_assoc.
Qed.

Lemma clean_cleaned r l : cleaned r l -> clean_elements r [] l = l.
Proof.
  intros (n & es & -> & Hes & Hr). rewrite clean_elements_app. destruct r.
  - rewrite Hr by done. cbn. by apply clean_plain.
  - rewrite clean_dots by constructor. rewrite clean_plain by done. by rewrite rev_involutive.
Qed.

Lemma cleaned_snoc r l e : cleaned r l -> plain_element e -> cleaned r (l ++ [e]).
Proof.
  intros (n & es & -> & Hes & Hr) He. exists n, (es ++ [e]). rewrite <- app_assoc.
  split; [done|]. split; [|done]. apply Forall_app. split; [done|by constructor].
Qed.

Lemma clean_elements_cleaned r l : forall acc, Forall (no_char "/") l ->
  cleaned r (rev acc) -> cleaned r (clean_elements r acc l).
Proof.
  induction l as [|e l IH]; intros acc; cbn [clean_elements]; [done|].
  intros [He Hl]%Forall_cons Hacc.
  destruct (bool_decide_reflect (e = "")) as [|H1]; cbn [orb]; [by apply IH|].
  destruct (bool_decide_reflect (e = ".")) as [|H2]; [by apply IH|].
  destruct (bool_decide_reflect (e = "..")) as [->|H3].
  2:{ apply IH; [done|]. cbn [rev]. by apply cleaned_snoc. }
  destruct acc as [|a acc].
  { destruct r; [by apply IH|]. apply IH; [done|]. exists 1, []. by repeat split. }
  cbn [rev] in Hacc. destruct Hacc as (n & es & Heq & Hes & Hr).
  destruct (decide (es = [])) as [->|Hne]; [|destruct (List.exists_last Hne) as (es' & x & ->); clear Hne; rename es' into es].
  - rewrite app_nil_r in Heq. destruct n as [|n]; [by destruct (rev acc)|].
    rewrite replicate_S_end in Heq. apply app_inj_tail in Heq as [Ha ->].
    rewrite bool_decide_eq_true_2 by done. apply IH; [done|].
    exists (S (S n)), []. rewrite app_nil_r, !replicate_S_end. cbn [rev]. rewrite Ha.
    split; [done|]. split; [done|]. intros Hrt. by apply Hr in Hrt.
  - rewrite app_assoc in Heq. apply app_inj_tail in Heq as [Ha ->].
    apply Forall_app in Hes as [Hes Hx]. inversion_clear Hx as [|? ? (? & ? & Hd & ?) _].
    rewrite bool_decide_eq_false_2 by done. apply IH; [done|]. by exists n, es.
Qed.

Lemma path_elements_cleaned p : cleaned (HasPrefix p "/") (path_elements p).
Proof.
  apply clean_elements_cleaned; [apply Split_parts_no_char|]. by exists 0, [].
Qed.

Lemma cleaned_no_char r l : cleaned r l -> Forall (fun e => e <> "" /\ no_char "/" e) l.
Proof.
  intros (n & es & -> & Hes & _). apply Forall_app. split.
  - apply Forall_replicate. split; [done|]. by cbn.
  - eapply Forall_impl; [exact Hes|]. intros e (? & _ & _ & ?). done.
Qed.

(** ** Cleaning *)

Lemma HasPrefix_slash s : HasPrefix s "/" = match s with String c _ => bool_decide (c = "/"%char) | _ => false end.
Proof.
  destruct s as [|c s]; [done|]. unfold HasPrefix. cbn [String.prefix].
  destruct (ascii_dec "/" c) as [<-|Hc].
  - rewrite bool_decide_eq_true_2 by done. by destruct s.
  - by rewrite bool_decide_eq_false_2 by (intros ->; done).
Qed.

Lemma Join_no_slash l : l <> [] -> Forall (fun e => e <> "" /\ no_char "/" e) l ->
  Join l "/" <> "" /\ HasPrefix (Join l "/") "/" = false.
Proof.
  intros Hl Hf. destruct Hf as [|e l [He Hn] _]; [done|].
  assert (exists t, Join (e :: l) "/" = e +:+ t) as [t ->].
  { destruct l as [|q l]; [exists ""; by rewrite append_nil_r|]. by eexists. }
  destruct e as [|c e]; [done|]. rewrite append_String, HasPrefix_slash. split; [done|].
  apply bool_decide_eq_false_2. by destruct Hn.
Qed.

Lemma Clean_prefix p : HasPrefix (filepath_Clean p) "/" = HasPrefix p "/".
Proof.
  unfold filepath_Clean. fold (path_elements p). cbn zeta.
  destruct (HasPrefix p "/") eqn:Hp; [rewrite append_String, HasPrefix_slash; by vm_compute|].
  case_bool_decide as Hj; [done|]. pose proof (cleaned_no_char _ _ (path_elements_cleaned p)) as Hf.
  destruct (path_elements p) as [|e l]; [done|]. by apply Join_no_slash.
Qed.

Lemma Clean_elements p : path_elements (filepath_Clean p) = path_elements p.
Proof.
  unfold path_elements at 1. rewrite Clean_prefix. unfold filepath_Clean. fold (path_elements p). cbn zeta.
  pose proof (path_elements_cleaned p) as Hc. pose proof (cleaned_no_char _ _ Hc) as Hf.
  assert (Forall (no_char "/") (path_elements p)) as Hn by (eapply Forall_impl; [exact Hf|by intros ? []]).
  destruct (HasPrefix p "/") eqn:Hp.
  - rewrite append_String, append_nil_l. cbn [Split]. rewrite bool_decide_eq_true_2 by done. cbn [clean_elements].
    rewrite bool_decide_eq_true_2 by done. cbn [orb].
    destruct (path_elements p) as [|e l] eqn:E; [done|]. rewrite Split_Join by done. by apply clean_cleaned.
  - destruct (path_elements p) as [|e l] eqn:E; [done|].
    rewrite bool_decide_eq_false_2 by (by apply Join_no_slash). rewrite Split_Join by done. by apply clean_cleaned.
Qed.

(** The path is determined by its elements. *)
Lemma Clean_of p : filepath_Clean p =
  let s := Join (path_elements p) "/" in
  if HasPrefix p "/" then "/" +:+ s else if s =?s "" then "." else s.
Proof. reflexivity. Qed.

Lemma filepath_Clean_idem p : filepath_Clean (filepath_Clean p) = filepath_Clean p.
Proof. by rewrite !(Clean_of (filepath_Clean p)), Clean_elements, Clean_prefix, <- Clean_of. Qed.

(** ** Joining *)

Lemma Join_app d es : es <> [] -> Join (d :: es) "/" = d +:+ "/" +:+ Join es "/".
Proof. destruct es; [done|]. intros _. apply Join_cons2. Qed.

Lemma filter_plain es : Forall plain_element es -> filter (fun e => e <> "") es = es.
Proof.
  induction 1 as [|e es (He & _) _ IH]; [done|]. rewrite filter_cons_True by done. by rewrite IH.
Qed.

(** Joining plain names to a directory gives a path below it. *)
Lemma filepath_Join_below d es :
  es <> [] -> Forall plain_element es ->
  HasPrefix (filepath_Join (d :: es)) "/" = HasPrefix d "/" /\
  path_elements (filepath_Join (d :: es)) = path_elements d ++ es.
Proof.
  intros Hne Hes.
  assert (Forall (fun e => e <> "" /\ no_char "/" e) es) as Hf.
  { eapply Forall_impl; [exact Hes|]. by intros e (? & _ & _ & ?). }
  assert (Forall (no_char "/") es) as Hn by (eapply Forall_impl; [exact Hf|by intros ? []]).
  unfold filepath_Join. destruct (decide (d = "")) as [->|Hd].
  - rewrite filter_cons_False, filter_plain by (done || tauto). destruct es as [|e es]; [done|].
    rewrite Clean_prefix, Clean_elements. destruct (Join_no_slash (e :: es)) as [_ Hp]; [done..|].
    rewrite Hp. split; [done|]. unfold path_elements at 1. rewrite Hp, Split_Join by done. by rewrite clean_plain.
  - rewrite filter_cons_True, filter_plain by done. rewrite Clean_prefix, Clean_elements, Join_app by done.
    destruct d as [|c d]; [done|]. rewrite append_String, !HasPrefix_slash. split; [done|].
    unfold path_elements. rewrite !HasPrefix_slash, <- append_String.
    rewrite (append_String "/"%char ""), append_nil_l, Split_app_sep, Split_Join by done.
    rewrite clean_elements_app, clean_plain by done. by rewrite rev_involutive.
Qed.

Lemma filepath_Join_below' d es :
  es <> [] -> Forall plain_element es -> below d (filepath_Join (d :: es)).
Proof. intros Hne Hes. destruct (filepath_Join_below d es) as [H1 H2]; [done..|]. split; [done|]. by exists es. Qed.

(** ** The lexical check of a prefix *)

Lemma Split_Clean p : path_elements p <> [] ->
  Split "/" (filepath_Clean p) = (if HasPrefix p "/" then [""] else []) ++ path_elements p.
Proof.
  intros Hne. pose proof (cleaned_no_char _ _ (path_elements_cleaned p)) as Hf.
  assert (Forall (no_char "/") (path_elements p)) as Hn by (eapply Forall_impl; [exact Hf|by intros ? []]).
  rewrite Clean_of. cbn zeta. destruct (HasPrefix p "/").
  - rewrite append_String, append_nil_l. cbn [Split]. rewrite bool_decide_eq_true_2 by done.
    by rewrite Split_Join.
  - rewrite bool_decide_eq_false_2 by (by apply Join_no_slash). by rewrite Split_Join.
Qed.

Lemma cleaned_after r l x m : x <> ".." -> cleaned r (l ++ x :: m) -> Forall plain_element m.
Proof.
  intros Hx (n & es & Heq & Hes & _). revert l Heq. induction n as [|n IH]; intros l Heq.
  - cbn in Heq. subst es. apply Forall_app in Hes as [_ Hes]. by apply Forall_cons in Hes as [_ ?].
  - destruct l as [|y l]; cbn in Heq; injection Heq as H1 H2; [done|]. by apply (IH l).
Qed.

(** A path that has the prefix of a directory with a name is below it. *)
Lemma prefix_below d f l x :
  path_elements d = l ++ [x] -> x <> ".." ->
  HasPrefix (filepath_Clean f) (filepath_Clean d +:+ "/") = true -> below d f.
Proof.
  intros Hd Hx [t Ht]%HasPrefix_spec. rewrite append_assoc in Ht.
  assert (path_elements d <> []) as Hdn by (rewrite Hd; by destruct l).
  assert (HasPrefix f "/" = HasPrefix d "/") as Hr.
  { rewrite <- (Clean_prefix f), <- (Clean_prefix d), Ht.
    pose proof (filepath_Clean_nonempty d). destruct (filepath_Clean d) as [|c s]; [done|].
    by rewrite append_String, !HasPrefix_slash. }
  assert (Split "/" (filepath_Clean f) = Split "/" (filepath_Clean d) ++ Split "/" t) as Hs.
  { rewrite Ht. apply Split_app_sep. }
  rewrite (Split_Clean d) in Hs by done.
  assert (path_elements f <> []) as Hfn.
  { intros Hf. rewrite Clean_of, Hf, Hr in Hs. cbn zeta in Hs. rewrite Hd in Hs.
    destruct (HasPrefix d "/").
    - change (Split "/" ("/" +:+ Join [] "/")) with [""; ""] in Hs. cbn in Hs. injection Hs as Hs.
      pose proof (path_elements_cleaned d) as Hc. apply cleaned_no_char in Hc. rewrite Hd in Hc.
      destruct l as [|y l]; cbn in Hs; injection Hs as H1 H2; subst.
      + apply Forall_cons in Hc as [[? _] _]. done.
      + apply Forall_cons in Hc as [[? _] _]. done.
    - change (Split "/" (if Join [] "/" =?s "" then "." else Join [] "/")) with ["."] in Hs. cbn in Hs.
      apply (f_equal length) in Hs. rewrite !length_app in Hs. cbn in Hs.
      pose proof (Split_not_nil "/" t). destruct (Split "/" t); [done|]. cbn in Hs. lia. }
  rewrite Split_Clean, Hr, <- app_assoc in Hs by done. apply app_inv_head in Hs.
  split; [done|]. exists (Split "/" t). split; [apply Split_not_nil|]. split; [|done].
  pose proof (path_elements_cleaned f) as Hc. rewrite Hs, Hd, <- app_assoc in Hc. by eapply cleaned_after.
Qed.

(** Conversely, the path of a name in a directory has the prefix. *)
Lemma Join_app_lists a b : a <> [] -> b <> [] -> Join (a ++ b) "/" = Join a "/" +:+ "/" +:+ Join b "/".
Proof.
  intros Ha Hb. induction a as [|x a IH]; [done|]. destruct a as [|y a].
  - cbn [app]. rewrite Join_app by done. done.
  - change ((x :: y :: a) ++ b) with (x :: (y :: a) ++ b).
    rewrite (Join_app x ((y :: a) ++ b)) by done. rewrite IH by done.
    rewrite (Join_app x (y :: a)) by done. by rewrite !append_assoc.
Qed.

Lemma Clean_Join_prefix d es :
  path_elements d <> [] -> es <> [] -> Forall plain_element es ->
  HasPrefix (filepath_Clean (filepath_Join (d :: es))) (filepath_Clean d +:+ "/") = true.
Proof.
  intros Hd Hne Hes. destruct (filepath_Join_below d es Hne Hes) as [H1 H2].
  rewrite !Clean_of, H1, H2. cbn zeta. rewrite Join_app_lists by done.
  pose proof (cleaned_no_char _ _ (path_elements_cleaned d)) as Hf.
  destruct (Join_no_slash _ Hd Hf) as [Hj _].
  rewrite (bool_decide_eq_false_2 (Join (path_elements d) "/" = "")) by done.
  rewrite (bool_decide_eq_false_2 (_ +:+ _ = "")) by by destruct (Join (path_elements d) "/").
  destruct (HasPrefix d "/"); rewrite <- ?append_assoc; apply HasPrefix_append.
Qed.
