(* ===== verification/Api.v ===== *)
(** The data of pkg/api that several components share: Kubernetes names, the
    request given to the validators, validation errors, decoded JSON values and
    tool call results. *)
From Stdlib Require Import Floats.SpecFloat.
From S2P Require Import Prelude GoStrings.

(** * Kubernetes names (k8s.io/apimachinery schema package) *)

Record GroupVersionKind := mkGVK {
  gvk_Group : string;
  gvk_Version : string;
  gvk_Kind : string;
}.

Record GroupVersionResource := mkGVR {
  gvr_Group : string;
  gvr_Version : string;
  gvr_Resource : string;
}.

#[export] Instance GroupVersionKind_eq_dec : EqDecision GroupVersionKind.
Proof. solve_decision. Defined.
#[export] Instance GroupVersionResource_eq_dec : EqDecision GroupVersionResource.
Proof. solve_decision. Defined.

#[export] Instance GroupVersionKind_countable : Countable GroupVersionKind.
Proof.
  apply (inj_countable' (fun g => (gvk_Group g, gvk_Version g, gvk_Kind g))
           (fun t => mkGVK t.1.1 t.1.2 t.2)). by intros [].
Defined.

(** The [String] methods of GroupVersion, GroupVersionKind and
    GroupVersionResource. *)
Definition GroupVersion_String (group version : string) : string :=
  if group =?s "" then version else fmt [group; "/"; version].
Definition GVK_String (g : GroupVersionKind) : string :=
  fmt [gvk_Group g; "/"; gvk_Version g; ", Kind="; gvk_Kind g].

Definition GVR_String (g : GroupVersionResource) : string :=
  fmt [gvr_Group g; "/"; gvr_Version g; ", Resource="; gvr_Resource g].

(** * The request handed to the HTTP validators *)

Record HTTPValidationRequest := mkHTTPValidationRequest {
  vr_GVR : option GroupVersionResource;
  vr_GVK : option GroupVersionKind;
  vr_HTTPMethod : string;
  vr_Verb : string;
  vr_Namespace : string;
  vr_ResourceName : string;
  vr_Body : string;
  vr_Path : string;
}.

Definition ErrorCodeResourceNotFound : string := "RESOURCE_NOT_FOUND".
Definition ErrorCodeInvalidField : string := "INVALID_FIELD".
Definition ErrorCodePermissionDenied : string := "PERMISSION_DENIED".

Definition NewPermissionDeniedError (verb resource namespace : string) : error :=
  let msg :=
    if namespace ≠?s ""
    then fmt ["Cannot "; verb; " "; resource; " in namespace "; quote namespace]
    else fmt ["Cannot "; verb; " "; resource; " (cluster-scoped)"] in
  ErrValidation ErrorCodePermissionDenied msg "".

Definition FormatResourceName (gvr : option GroupVersionResource) : string :=
  match gvr with
  | None => "unknown"
  | Some g => if gvr_Group g =?s "" then gvr_Resource g
              else fmt [gvr_Resource g; "."; gvr_Group g]
  end.

(** * Elicitation *)

Definition ElicitActionAccept : string := "accept".
Definition ElicitActionDecline : string := "decline".
Definition ElicitActionCancel : string := "cancel".

(** The package variable [api.ErrElicitationNotSupported]. *)
Definition ErrElicitationNotSupported_text : string := "client does not support elicitation".
Definition ErrElicitationNotSupported : error := ErrSentinel ErrElicitationNotSupported_text.

(** * Values of type [any]: what encoding/json decodes into, and the two Go
    integer types [ParseInt64] also accepts.  [float64] is an IEEE number. *)

Inductive jvalue : Type :=
| JNull
| JString (s : string)
| JBool (b : bool)
| JFloat64 (f : spec_float)
| JInt (z : Z)
| JInt64 (z : Z)
| JArray (l : list jvalue)
| JObject (kvs : list (string * jvalue)).

(** The verb %T. *)
Definition go_type_name (v : jvalue) : string :=
  match v with
  | JNull => "<nil>"
  | JString _ => "string"
  | JBool _ => "bool"
  | JFloat64 _ => "float64"
  | JInt _ => "int"
  | JInt64 _ => "int64"
  | JArray _ => "[]interface {}"
  | JObject _ => "map[string]interface {}"
  end.

(** * Tool call results *)

(** A value of type [any] by its [reflect.Kind]: a slice, which may be nil, an
    array, or another value. *)
Inductive any_value : Type :=
| AnySlice (elems : option (list jvalue))
| AnyArray (elems : list jvalue)
| AnyOther (v : jvalue).

Record ToolCallResult := mkToolCallResult {
  tcr_Content : string;
  tcr_StructuredContent : option any_value;
  tcr_Error : option error;
}.

Definition NewToolCallResultFull (text : string) (structured : option any_value)
    (err : option error) : ToolCallResult :=
  mkToolCallResult text structured err.

Definition NewToolCallResult (content : string) (err : option error) : ToolCallResult :=
  NewToolCallResultFull content None err.

(** [json.Marshal] of the structured value: [None] is its error. *)
Definition NewToolCallResultStructured (Marshal : any_value -> option string)
    (structured : option any_value) (err : option error) : ToolCallResult :=
  let content :=
    match structured with
    | Some v => match Marshal v with Some b => b | None => "" end
    | None => ""
    end in
  NewToolCallResultFull content structured err.

(** * Integer widths *)

Definition int64_min : Z := (-(2 ^ 63))%Z.
Definition int64_max : Z := (2 ^ 63 - 1)%Z.
Definition in_int64 (z : Z) : Prop := (int64_min <= z <= int64_max)%Z.
Definition uint32_of (z : Z) : Z := (z mod 2 ^ 32)%Z.

#[export] Instance in_int64_dec z : Decision (in_int64 z).
Proof. unfold in_int64. apply _. Defined.

Lemma uint32_of_small z : (0 <= z < 2 ^ 32)%Z -> uint32_of z = z.
Proof. intros H. unfold uint32_of. by rewrite Z.mod_small. Qed.

(** * URLs: the parts of [url.URL] the program reads *)

Record URL := mkURL {
  u_Scheme : string;
  u_Host : string;
  u_Path : string;
}.

(** * Prompts (pkg/api/prompts.go): metadata and content *)

Record PromptArgument := mkPromptArgument {
  pa_Name : string;
  pa_Description : string;
  pa_Required : bool;
}.

Record PromptTemplate := mkPromptTemplate {
  pt_Role : string;
  pt_Content : string;
}.

Record Prompt := mkPrompt {
  pr_Name : string;
  pr_Title : string;
  pr_Description : string;
  pr_Arguments : list PromptArgument;
  pr_Templates : list PromptTemplate;
}.
