(* ===== verification/Unstructured.v ===== *)
(** Decoded Kubernetes objects: [unstructured.Unstructured] of apimachinery (vendored
    under src/vendor) over the values that a YAML decoder gives, with the accessors
    and the deep copy the program uses.  A deep copy panics on a value of a type
    that JSON decoding does not give, such as [int]. *)
From Stdlib Require Import Floats.SpecFloat.
From S2P Require Import Prelude GoStrings Api.

(** * Definitions *)

(** [YOther] is a value of any other Go type: [time.Time], [uint64],
    [map[interface{}]interface{}]. *)
Inductive yvalue : Type :=
| YNull
| YString (s : string)
| YBool (b : bool)
| YInt (z : Z)
| YInt64 (z : Z)
| YFloat64 (f : spec_float)
| YOther (go_type : string)
| YSlice (l : list yvalue)
| YMap (kvs : list (string * yvalue)).

(** [map[string]interface{}], with distinct keys. *)
Abbreviation object := (list (string * yvalue)).

Fixpoint field (k : string) (o : object) : option yvalue :=
  match o with
  | [] => None
  | (k', v) :: o => if k =?s k' then Some v else field k o
  end.
Fixpoint set_field (k : string) (v : yvalue) (o : object) : object :=
  match o with
  | [] => [(k, v)]
  | (k', v') :: o => if k =?s k' then (k, v) :: o else (k', v') :: set_field k v o
  end.

(** The [delete] of a key. *)
Fixpoint delete_field (k : string) (o : object) : object :=
  match o with
  | [] => []
  | (k', v) :: o => if k =?s k' then delete_field k o else (k', v) :: delete_field k o
  end.

(** [NestedFieldNoCopy] on the path of fields: [None] when it is not found or there
    is an error on the way. *)
Fixpoint nested_field (v : yvalue) (fields : list string) : option yvalue :=
  match fields with
  | [] => Some v
  | f :: fields =>
      match v with
      | YMap o => match field f o with Some v => nested_field v fields | None => None end
      | _ => None
      end
  end.

(** The string of [NestedString]: empty unless there is one. *)
Definition NestedString (o : object) (fields : list string) : string :=
  match nested_field (YMap o) fields with
  | Some (YString s) => s
  | _ => ""
  end.

Definition GetName (o : object) : string := NestedString o ["metadata"; "name"].
Definition GetNamespace (o : object) : string := NestedString o ["metadata"; "namespace"].
Definition GetAPIVersion (o : object) : string := NestedString o ["apiVersion"].
Definition GetKind (o : object) : string := NestedString o ["kind"].

(** [SetNamespace] with a non-empty name; without effect when the metadata is no
    map. *)
Definition SetNamespace (namespace : string) (o : object) : object :=
  match field "metadata" o with
  | Some (YMap m) => set_field "metadata" (YMap (set_field "namespace" (YString namespace) m)) o
  | Some _ => o
  | None => set_field "metadata" (YMap [("namespace", YString namespace)]) o
  end.

(** The values of a map of strings; null counts as empty, any other value makes the
    whole map unreadable. *)
Fixpoint string_fields (o : object) : option (list (string * string)) :=
  match o with
  | [] => Some []
  | (k, YString s) :: o => cons (k, s) <$> string_fields o
  | (k, YNull) :: o => cons (k, "") <$> string_fields o
  | _ => None
  end.
Definition NestedNullCoercingStringMap (o : object) (fields : list string) : gmap string string :=
  match nested_field (YMap o) fields with
  | Some (YMap m) => match string_fields m with Some l => list_to_map l | None => ∅ end
  | _ => ∅
  end.
Definition GetLabels (o : object) : gmap string string :=
  NestedNullCoercingStringMap o ["metadata"; "labels"].
Definition GetAnnotations (o : object) : gmap string string :=
  NestedNullCoercingStringMap o ["metadata"; "annotations"].

(** [schema.ParseGroupVersion]: group and version. *)
Definition ParseGroupVersion (gv : string) : result (string * string) :=
  if (gv =?s "") || (gv =?s "/") then Ok ("", "")
  else
    match Split "/" gv with
    | [v] => Ok ("", v)
    | [g; v] => Ok (g, v)
    | _ => Err (ErrNew (fmt ["unexpected GroupVersion string: "; gv]))
    end.

Definition object_GVK (o : object) : GroupVersionKind :=
  match ParseGroupVersion (GetAPIVersion o) with
  | Err _ => mkGVK "" "" ""
  | Ok (g, v) => mkGVK g v (GetKind o)
  end.
Definition SetGroupVersionKind (gvk : GroupVersionKind) (o : object) : object :=
  set_field "kind" (YString (gvk_Kind gvk))
    (set_field "apiVersion" (YString (GroupVersion_String (gvk_Group gvk) (gvk_Version gvk))) o).

(** [runtime.DeepCopyJSONValue]; [None] is its panic. *)
Fixpoint DeepCopyJSONValue (v : yvalue) : option yvalue :=
  let fix slice l :=
    match l with
    | [] => Some []
    | v :: l => v ← DeepCopyJSONValue v; l ← slice l; Some (v :: l)
    end in
  let fix fields (o : object) :=
    match o with
    | [] => Some []
    | (k, v) :: o => v ← DeepCopyJSONValue v; o ← fields o; Some ((k, v) :: o)
    end in
  match v with
  | YMap o => YMap <$> fields o
  | YSlice l => YSlice <$> slice l
  | YString _ | YInt64 _ | YBool _ | YFloat64 _ | YNull => Some v
  | YInt _ | YOther _ => None
  end.
Definition DeepCopy (o : object) : option object :=
  match DeepCopyJSONValue (YMap o) with
  | Some (YMap o) => Some o
  | _ => None
  end.

(** * Specification *)

(** The values a deep copy accepts. *)
Inductive copyable : yvalue -> Prop :=
| CNull : copyable YNull
| CString s : copyable (YString s)
| CBool b : copyable (YBool b)
| CInt64 z : copyable (YInt64 z)
| CFloat64 f : copyable (YFloat64 f)
| CSlice l : Forall copyable l -> copyable (YSlice l)
| CMap o : Forall (fun kv => copyable kv.2) o -> copyable (YMap o).

(** * Lemmas *)

Section Induction.
Context (P : yvalue -> Prop).
Context (HNull : P YNull) (HString : forall s, P (YString s)) (HBool : forall b, P (YBool b)).
Context (HInt : forall z, P (YInt z)) (HInt64 : forall z, P (YInt64 z)) (HFloat : forall f, P (YFloat64 f)).
Context (HOther : forall t, P (YOther t)) (HSlice : forall l, Forall P l -> P (YSlice l)).
Context (HMap : forall o, Forall (fun kv => P kv.2) o -> P (YMap o)).

Fixpoint yvalue_nested_ind (v : yvalue) : P v :=
  match v with
  | YNull => HNull
  | YString s => HString s
  | YBool b => HBool b
  | YInt z => HInt z
  | YInt64 z => HInt64 z
  | YFloat64 f => HFloat f
  | YOther t => HOther t
  | YSlice l =>
      HSlice l ((fix go l : Forall P l :=
        match l with [] => Forall_nil_2 P | v :: l => Forall_cons_2 P v l (yvalue_nested_ind v) (go l) end) l)
  | YMap o =>
      HMap o ((fix go o : Forall (fun kv : string * yvalue => P kv.2) o :=
        match o with
        | [] => Forall_nil_2 _
        | kv :: o => Forall_cons_2 (fun kv => P kv.2) kv o (yvalue_nested_ind kv.2) (go o)
        end) o)
  end.
End Induction.

(** A copy equals the original, and there is one exactly of the copyable values. *)
Lemma DeepCopyJSONValue_Some v v' : DeepCopyJSONValue v = Some v' -> v' = v /\ copyable v.
Proof.
  revert v'. induction v using yvalue_nested_ind; intros v'; cbn [DeepCopyJSONValue]; try done;
    try (intros [= <-]; split; [done|constructor]).
  - intros [l' [Hl ->]]%fmap_Some. cut (l' = l /\ Forall copyable l); [intros [-> ?]; split; [done|by constructor]|].
    revert l' Hl. induction H as [|v l Hv _ IH]; intros l'; [by intros [= <-]|].
    intros (v' & Hv' & (l'' & Hl & [= <-])%bind_Some)%bind_Some.
    apply Hv in Hv' as [-> ?]. apply IH in Hl as [-> ?]. split; [done|by constructor].
  - intros [o' [Ho ->]]%fmap_Some.
    cut (o' = o /\ Forall (fun kv => copyable kv.2) o); [intros [-> ?]; split; [done|by constructor]|].
    revert o' Ho. induction H as [|[k v] o Hv _ IH]; intros o'; [by intros [= <-]|].
    intros (v' & Hv' & (o'' & Ho & [= <-])%bind_Some)%bind_Some.
    apply Hv in Hv' as [-> ?]. apply IH in Ho as [-> ?]. split; [done|by constructor].
Qed.

Lemma copyable_DeepCopy v : copyable v -> DeepCopyJSONValue v = Some v.
Proof.
  induction v using yvalue_nested_ind; inversion_clear 1 as [| | | | |? Hc|? Hc]; cbn [DeepCopyJSONValue]; try done.
  - match goal with |- YSlice <$> ?f l = _ => assert (f l = Some l) as -> end; [|done].
    induction H as [|v l Hv _ IH]; [done|]. apply Forall_cons in Hc as [Hc Hcs].
    rewrite (Hv Hc). cbn. by rewrite (IH Hcs).
  - match goal with |- YMap <$> ?f o = _ => assert (f o = Some o) as -> end; [|done].
    induction H as [|[k v] o Hv _ IH]; [done|]. apply Forall_cons in Hc as [Hc Hcs]. cbn in Hv, Hc.
    rewrite (Hv Hc). cbn. by rewrite (IH Hcs).
Qed.

Lemma DeepCopy_Some o o' : DeepCopy o = Some o' -> o' = o.
Proof.
  unfold DeepCopy. destruct (DeepCopyJSONValue (YMap o)) as [v|] eqn:E; [|done].
  apply DeepCopyJSONValue_Some in E as [-> _]. by intros [= <-].
Qed.

Lemma copyable_DeepCopy_object o : copyable (YMap o) -> DeepCopy o = Some o.
Proof. intros H. unfold DeepCopy. by rewrite copyable_DeepCopy. Qed.

(** ** Fields *)

Lemma field_set_eq k v o : field k (set_field k v o) = Some v.
Proof.
  induction o as [|[k' v'] o IH]; cbn; [by rewrite bool_decide_eq_true_2|].
  destruct (bool_decide_reflect (k = k')) as [->|Hk]; cbn; [by rewrite bool_decide_eq_true_2|].
  by rewrite bool_decide_eq_false_2.
Qed.

Lemma field_set_ne k k' v o : k <> k' -> field k (set_field k' v o) = field k o.
Proof.
  intros Hne. induction o as [|[k1 v1] o IH]; cbn; [by rewrite bool_decide_eq_false_2|].
  destruct (bool_decide_reflect (k' = k1)) as [->|Hk]; cbn; [by rewrite bool_decide_eq_false_2|].
  by rewrite IH.
Qed.

Lemma delete_field_None k o : field k (delete_field k o) = None.
Proof.
  induction o as [|[k' v] o IH]; cbn; [done|]. destruct (bool_decide_reflect (k = k')) as [|Hk]; [done|].
  cbn. by rewrite bool_decide_eq_false_2.
Qed.

Lemma delete_field_other k k' o : k <> k' -> field k (delete_field k' o) = field k o.
Proof.
  intros Hne. induction o as [|[k1 v] o IH]; cbn; [done|].
  destruct (bool_decide_reflect (k' = k1)) as [->|Hk]; cbn; [by rewrite bool_decide_eq_false_2|].
  by rewrite IH.
Qed.

Lemma GetNamespace_set ns o :
  GetNamespace (SetNamespace ns o) =
    match field "metadata" o with Some (YMap _) | None => ns | Some _ => "" end.
Proof.
  unfold GetNamespace, NestedString, SetNamespace. destruct (field "metadata" o) as [v|] eqn:Hm.
  - destruct v; cbn [nested_field]; rewrite ?Hm; try done. by rewrite field_set_eq, field_set_eq.
  - cbn [nested_field]. rewrite field_set_eq. done.
Qed.

Lemma GetName_SetNamespace ns o : GetName (SetNamespace ns o) = GetName o.
Proof.
  unfold GetName, NestedString, SetNamespace. destruct (field "metadata" o) as [v|] eqn:Hm; cbn [nested_field].
  - destruct v; rewrite ?Hm; try done. by rewrite field_set_eq, field_set_ne.
  - by rewrite field_set_eq, Hm.
Qed.

(** ** Copyable objects *)

Lemma copyable_map o : copyable (YMap o) <-> Forall (fun kv => copyable kv.2) o.
Proof. split; [by inversion 1|by constructor]. Qed.

Lemma copyable_field k v o : copyable (YMap o) -> field k o = Some v -> copyable v.
Proof.
  rewrite copyable_map. induction 1 as [|[k' v'] o Hv _ IH]; cbn; [done|].
  case_match; [by intros [= <-]|done].
Qed.

Lemma copyable_set_field k v o : copyable v -> copyable (YMap o) -> copyable (YMap (set_field k v o)).
Proof.
  rewrite !copyable_map. intros Hv. induction 1 as [|[k' v'] o Hv' Ho IH]; cbn; [by constructor|].
  case_match; by constructor.
Qed.

Lemma copyable_SetNamespace ns o : copyable (YMap o) -> copyable (YMap (SetNamespace ns o)).
Proof.
  intros Ho. unfold SetNamespace. destruct (field "metadata" o) as [v|] eqn:Hm.
  - pose proof (copyable_field _ _ _ Ho Hm) as Hv. destruct v; try done.
    apply copyable_set_field; [|done]. apply copyable_set_field; [constructor|done].
  - apply copyable_set_field; [|done]. by repeat constructor.
Qed.

Lemma copyable_SetGVK gvk o : copyable (YMap o) -> copyable (YMap (SetGroupVersionKind gvk o)).
Proof. intros Ho. unfold SetGroupVersionKind. do 2 (apply copyable_set_field; [constructor|]). done. Qed.
