(* ===== verification/Cluster.v ===== *)
(** Programs over the Kubernetes API: the calls that the operations of
    pkg/kubernetes make of the cluster through client-go, as the leaves of a
    program tree.  The answers of the cluster are not constrained, so a statement
    on all runs of a program holds against every cluster.  [run] runs a program in
    a world with a given cluster. *)
From S2P Require Import Prelude GoStrings Api Unstructured.

(** * Definitions *)

(** The parts of a [v1.Pod] the program reads. *)
Record pod := mkPod {
  pod_Containers : list string;
  pod_Annotations : gmap string string;
  pod_Phase : string;
  pod_Message : string;
}.
(** The pod that debugs a node (pkg/cluster-diagnostics/nodesdebug), with one
    container and one volume of the host. *)
Record debug_pod := mkDebugPod {
  dp_Name : string;
  dp_Namespace : string;
  dp_Labels : gmap string string;
  dp_NodeName : string;
  dp_Container : string;
  dp_Image : string;
  dp_Command : list string;
  dp_HostPath : string;
  dp_MountPath : string;
  dp_Privileged : bool;
  dp_HostNetwork_PID_IPC : bool * bool * bool;
  dp_RunAsUser : Z;
  dp_AutomountServiceAccountToken : bool;
  dp_TolerateAll : bool;
  dp_RestartPolicy : string;
}.
(** The parts of a [v1.Node] the program reads: its name, its allocatable resources,
    which may be a nil map, and its swap capacity. *)
Record node := mkNode {
  nd_Name : string;
  nd_Allocatable : option (gmap string Z);
  nd_Swap : option Z;
}.
(** The items of the typed lists, as far as the program reads them.  Times are in
    nanoseconds since the zero time of Go. *)
Record condition := mkCondition { cd_Type : string; cd_Status : string; cd_Message : string }.
Record node_state := mkNodeState { nst_Name : string; nst_Conditions : list condition }.
(** The waiting state is a reason and a message, the terminated one a reason. *)
Record container_status := mkContainerStatus {
  cst_Ready : bool;
  cst_RestartCount : Z;
  cst_Waiting : option (string * string);
  cst_Terminated : option string;
}.
Record pod_state := mkPodState {
  pst_Namespace : string;
  pst_Name : string;
  pst_Phase : string;
  pst_ContainerStatuses : list container_status;
}.
Record deployment_state := mkDeploymentState {
  dst_Namespace : string;
  dst_Name : string;
  dst_Replicas : Z;
  dst_ReadyReplicas : Z;
  dst_UnavailableReplicas : Z;
}.
Record statefulset_state := mkStatefulSetState {
  sst_Namespace : string;
  sst_Name : string;
  sst_SpecReplicas : option Z;
  sst_ReadyReplicas : Z;
}.
Record daemonset_state := mkDaemonSetState {
  dss_Namespace : string;
  dss_Name : string;
  dss_NumberReady : Z;
  dss_DesiredNumberScheduled : Z;
  dss_NumberUnavailable : Z;
}.
Record claim_state := mkClaimState { cls_Namespace : string; cls_Name : string; cls_Phase : string }.
Record cluster_event := mkClusterEvent {
  ce_UID : string;
  ce_Namespace : string;
  ce_Name : string;
  ce_Type : string;
  ce_LastTimestamp : Z;
  ce_EventTime : Z;
  ce_InvolvedKind : string;
  ce_InvolvedName : string;
  ce_Reason : string;
  ce_Count : Z;
  ce_Message : string;
}.
Inductive typed_list : Type :=
| TNamespaces | TNodes | TPods | TDeployments | TStatefulSets | TDaemonSets | TClaims | TEvents.
(** A namespace is its name. *)
Definition typed_item (t : typed_list) : Type :=
  match t with
  | TNamespaces => string
  | TNodes => node_state
  | TPods => pod_state
  | TDeployments => deployment_state
  | TStatefulSets => statefulset_state
  | TDaemonSets => daemonset_state
  | TClaims => claim_state
  | TEvents => cluster_event
  end.
(** The pod of a DNS probe (pkg/toolsets/netedge), with one container. *)
Record probe_pod := mkProbePod {
  pp_Name : string;
  pp_Namespace : string;
  pp_AutomountServiceAccountToken : bool;
  pp_RestartPolicy : string;
  pp_Container : string;
  pp_Image : string;
  pp_Command : list string;
  pp_RunAsNonRoot : bool;
  pp_AllowPrivilegeEscalation : bool;
  pp_DropCapabilities : list string;
  pp_SeccompProfile : string;
  pp_Requests : gmap string string;
  pp_Limits : gmap string string;
}.
(** A table: the names of its columns, and its rows of cells. *)
Record table := mkTable { tb_Columns : list string; tb_Rows : list (list yvalue) }.
Record selectors := mkSelectors { sel_Label : string; sel_Field : string }.

(** The calls, by the type of their answers:
    - [KMapping]: the REST mapping of a group and kind at a version; [KMapperReset]:
      forget the cached discovery;
    - [KServerResources]: the kinds of a group version with whether they are
      namespaced; [KNamespace]: the namespace of the client configuration;
    - [KAccessReview]: a self subject access review;
    - [KList], [KGet], [KCreate], [KApply], [KUpdate], [KDelete]: the dynamic client
      at a resource and namespace, with a subresource; [KListTable]: a list as a
      table, by URL path; [KSubresource]: a request to a subresource by a client made
      for its group, with an error of making this client or of the request, the verb,
      the body and the object in the answer;
    - [KPodGet], [KPodCreate] with the name of the pod, [KPodDelete], [KPodLogs], [KPodExec], [KServicesList], [KServicesDelete]: the
      typed core client; a list may be nil; [KNamespaceGet] and [KTypedList] with a field
      selector: the typed clients; [KProbePodCreate] with the name of the pod;
      [KPodLogStream]: the stream of a log, with an error of opening it or of reading it;
    - [KPatch]: a patch of an object by the dynamic client, with the type of the patch;
    - [KNodeGet], [KNodesList], [KNodeProxy]: a node, the nodes, and a request to its kubelet by URL path
      and query, with an error of the request or of reading its body;
    - [KMetricsGet], [KMetricsList]: the metrics client, by resource;
    - [KRandString]: a random suffix. *)
Inductive kcall : Type -> Type :=
| KMapping (group kind version : string) : kcall (result GroupVersionResource)
| KMapperReset : kcall unit
| KServerResources (groupVersion : string) : kcall (result (list (string * bool)))
| KNamespace : kcall (result string)
| KAccessReview (gvr : GroupVersionResource) (namespace name verb : string) : kcall (result bool)
| KList (gvr : GroupVersionResource) (namespace : string) (s : selectors) : kcall (result (list object))
| KListTable (path : list string) (s : selectors) : kcall (result table)
| KGet (gvr : GroupVersionResource) (namespace name subresource : string) : kcall (result object)
| KCreate (gvr : GroupVersionResource) (namespace : string) (obj : object) : kcall (result object)
| KSubresource (verb groupVersion namespace resource name subresource : string) (body : option object) :
    kcall (result (result object))
| KApply (gvr : GroupVersionResource) (namespace name : string) (obj : object)
    (fieldManager : string) (force : bool) : kcall (result object)
| KUpdate (gvr : GroupVersionResource) (namespace : string) (obj : object) (subresource : string) :
    kcall (result object)
| KDelete (gvr : GroupVersionResource) (namespace name : string) (gracePeriodSeconds : option Z) :
    kcall (option error)
| KPodGet (namespace name : string) : kcall (result pod)
| KPodCreate (namespace : string) (p : debug_pod) : kcall (result string)
| KPodDelete (namespace name : string) : kcall (option error)
| KNamespaceGet (name : string) : kcall (option error)
| KTypedList (t : typed_list) (namespace fieldSelector : string) : kcall (result (list (typed_item t)))
| KProbePodCreate (namespace : string) (p : probe_pod) : kcall (result string)
| KPodLogStream (namespace name container : string) (tail : option Z) : kcall (result (result string))
| KPatch (gvr : GroupVersionResource) (namespace name patchType body : string) : kcall (result object)
| KPodLogs (namespace name container : string) (previous : bool) (tail : Z) : kcall (result string)
| KPodExec (namespace name container : string) (command : list string) : kcall (result (string * string))
| KServicesList (namespace labelSelector : string) : kcall (option (list string))
| KServicesDelete (namespace name : string) : kcall (option error)
| KNodeGet (name : string) : kcall (option error)
| KNodesList (labelSelector : string) : kcall (result (list node))
| KNodeProxy (path : list string) (query : list (string * string)) : kcall (result (result string))
| KMetricsGet (resource namespace name : string) : kcall (result object)
| KMetricsList (resource namespace : string) (s : selectors) : kcall (result (list object))
| KRandString (n : nat) : kcall string.

Inductive prog (A : Type) : Type :=
| Ret (a : A)
| Call {R : Type} (c : kcall R) (k : R -> prog A).
Arguments Ret {A} _.
Arguments Call {A R} _ _.

Fixpoint prog_then {A B} (p : prog A) (f : A -> prog B) : prog B :=
  match p with
  | Ret a => f a
  | Call c k => Call c (fun r => prog_then (k r) f)
  end.
#[export] Instance prog_ret : MRet prog := @Ret.
#[export] Instance prog_bind : MBind prog := fun A B f p => prog_then p f.
Definition call {R} (c : kcall R) : prog R := Call c Ret.

(** [x, err := p; if err != nil { return err }]. *)
Definition try_ {A B} (p : prog (result A)) (f : A -> prog (result B)) : prog (result B) :=
  prog_then p (fun r => match r with Ok a => f a | Err err => Ret (Err err) end).
Notation "x <-? p ; q" := (try_ p (fun x => q))
  (at level 20, p at level 100, q at level 200, right associativity) : mcp_scope.

(** Running a program in a world with a cluster. *)
Fixpoint run {W A} (cluster : forall R, kcall R -> ST W R) (p : prog A) : ST W A := fun w =>
  match p with
  | Ret a => (a, w)
  | Call c k => let '(r, w) := cluster _ c w in run cluster (k r) w
  end.

(** A call with its answer. *)
Inductive event : Type :=
| Ev {R : Type} (c : kcall R) (r : R).

(** The calls that a run in a stateless cluster makes, with their answers, and its
    result. *)
Fixpoint traced {A} (cluster : forall R, kcall R -> R) (p : prog A) : list event * A :=
  match p with
  | Ret a => ([], a)
  | Call c k => let r := cluster _ c in let '(tr, a) := traced cluster (k r) in (Ev c r :: tr, a)
  end.

(** * Specification: the runs of a program, as the calls with their answers *)

Fixpoint runs {A} (p : prog A) (tr : list event) (a : A) : Prop :=
  match p with
  | Ret a' => tr = [] /\ a = a'
  | Call c k => exists r tr', tr = Ev c r :: tr' /\ runs (k r) tr' a
  end.

(** Every call of every run satisfies [P]. *)
Fixpoint every {A} (P : forall R, kcall R -> Prop) (p : prog A) : Prop :=
  match p with
  | Ret _ => True
  | Call c k => P _ c /\ forall r, every P (k r)
  end.

(** The calls that change the cluster. *)
Definition is_write {R} (c : kcall R) : Prop :=
  match c with
  | KApply _ _ _ _ _ _ | KUpdate _ _ _ _ | KDelete _ _ _ _ | KServicesDelete _ _ | KPodExec _ _ _ _
  | KPodCreate _ _ | KPodDelete _ _ | KCreate _ _ _ | KProbePodCreate _ _ | KPatch _ _ _ _ _ => True
  | KSubresource verb _ _ _ _ _ _ => verb <> "GET"
  | _ => False
  end.
Definition reads_only {R} (c : kcall R) : Prop := ~ is_write c.

(** The objects that a run has applied, in order. *)
Definition applied_by (e : event) : list (GroupVersionResource * string * string * object) :=
  match e with
  | Ev (KApply gvr ns name obj _ _) _ => [(gvr, ns, name, obj)]
  | _ => []
  end.
Definition applied (tr : list event) := flat_map applied_by tr.

(** * Lemmas *)

Lemma runs_then {A B} (p : prog A) (f : A -> prog B) tr b :
  runs (prog_then p f) tr b <-> exists tr1 a tr2, tr = tr1 ++ tr2 /\ runs p tr1 a /\ runs (f a) tr2 b.
Proof.
  revert tr. induction p as [a|R c k IH]; intros tr; cbn [prog_then runs].
  - split; [intros H; by exists [], a, tr|]. by intros (? & ? & ? & -> & [-> ->] & H).
  - split.
    + intros (r & tr' & -> & (tr1 & a & tr2 & -> & H1 & H2)%IH).
      exists (Ev c r :: tr1), a, tr2. split; [done|]. split; [by exists r, tr1|done].
    + intros (tr1 & a & tr2 & -> & (r & tr' & -> & H1) & H2). exists r, (tr' ++ tr2).
      split; [done|]. apply IH. by exists tr', a, tr2.
Qed.

Lemma runs_call {R} (c : kcall R) tr r : runs (call c) tr r <-> tr = [Ev c r].
Proof.
  cbn. split; [by intros (? & ? & -> & -> & ->)|intros ->]. by exists r, [].
Qed.

Lemma runs_try {A B} (p : prog (result A)) (f : A -> prog (result B)) tr b :
  runs (try_ p f) tr b <->
    (exists tr1 a tr2, tr = tr1 ++ tr2 /\ runs p tr1 (Ok a) /\ runs (f a) tr2 b) \/
    (exists err, runs p tr (Err err) /\ b = Err err).
Proof.
  unfold try_. rewrite runs_then. split.
  - intros (tr1 & [a|err] & tr2 & -> & H1 & H2); [left; by exists tr1, a, tr2|].
    destruct H2 as [-> ->]. right. exists err. by rewrite app_nil_r.
  - intros [(tr1 & a & tr2 & -> & H1 & H2)|(err & H & ->)]; [by exists tr1, (Ok a), tr2|].
    exists tr, (Err err), []. by rewrite app_nil_r.
Qed.

Lemma every_then {A B} P (p : prog A) (f : A -> prog B) :
  every P p -> (forall a, every P (f a)) -> every P (prog_then p f).
Proof. intros Hp Hf. induction p as [a|R c k IH]; cbn in *; [done|]. destruct Hp as [? Hk]. split; eauto. Qed.

Lemma every_try {A B} P (p : prog (result A)) (f : A -> prog (result B)) :
  every P p -> (forall a, every P (f a)) -> every P (try_ p f).
Proof. intros Hp Hf. apply every_then; [done|]. by intros [a|err]. Qed.

(** What holds of the result of a run may be used for the calls after it. *)
Lemma every_then_runs {A B} P (p : prog A) (f : A -> prog B) :
  every P p -> (forall tr a, runs p tr a -> every P (f a)) -> every P (prog_then p f).
Proof.
  intros Hp Hf. induction p as [a|R c k IH]; cbn in *; [by apply (Hf [])|].
  destruct Hp as [? Hk]. split; [done|]. intros r. apply IH; [done|].
  intros tr a Ha. apply (Hf (Ev c r :: tr)). by exists r, tr.
Qed.

Lemma every_call {R} P (c : kcall R) : P R c -> every P (call c).
Proof. by split. Qed.

Lemma every_impl {A} (P Q : forall R, kcall R -> Prop) (p : prog A) :
  (forall R (c : kcall R), P R c -> Q R c) -> every P p -> every Q p.
Proof. intros HPQ. induction p as [a|R c k IH]; cbn; [done|]. intros [? ?]. split; eauto. Qed.

(** Every call of a run satisfies what every call satisfies. *)
Definition event_call (P : forall R, kcall R -> Prop) (e : event) : Prop := let 'Ev c _ := e in P _ c.
Lemma every_runs {A} P (p : prog A) tr a : every P p -> runs p tr a -> Forall (event_call P) tr.
Proof.
  revert tr. induction p as [a'|R c k IH]; intros tr; cbn; [by intros _ [-> _]|].
  intros [Hc Hk] (r & tr' & -> & Hr). constructor; [done|]. by eapply IH.
Qed.

(** What [run] does is one of the runs. *)
Lemma run_runs {W A} (cluster : forall R, kcall R -> ST W R) (p : prog A) w a w' :
  run cluster p w = (a, w') -> exists tr, runs p tr a.
Proof.
  revert w. induction p as [a'|R c k IH]; intros w; cbn; [intros [= -> _]; by exists []|].
  destruct (cluster R c w) as [r w1]. intros [tr Htr]%IH. exists (Ev c r :: tr). by exists r, tr.
Qed.

Lemma traced_runs {A} cluster (p : prog A) : runs p (traced cluster p).1 (traced cluster p).2.
Proof.
  induction p as [a|R c k IH]; [done|]. cbn [traced runs]. specialize (IH (cluster R c)).
  destruct (traced cluster (k (cluster R c))) as [tr a]. by exists (cluster R c), tr.
Qed.

Lemma applied_app tr1 tr2 : applied (tr1 ++ tr2) = applied tr1 ++ applied tr2.
Proof. apply flat_map_app. Qed.

Lemma reads_applied tr : Forall (event_call (@reads_only)) tr -> applied tr = [].
Proof.
  induction 1 as [|[R c r] tr Hc _ IH]; [done|]. unfold applied. cbn [flat_map]. fold (applied tr). rewrite IH.
  destruct c; try done. by destruct Hc.
Qed.

(** Programs that only read. *)
Ltac every_read :=
  repeat first
    [ progress intros
    | apply every_call; by intros []
    | apply every_then
    | apply every_try
    | split; [by intros []|]
    | case_match
    | done ].
