(* ===== verification/Core.v ===== *)
(** The operations on the objects of a cluster (pkg/kubernetes: resources.go,
    pods.go, nodes.go, namespaces.go, events.go), as programs over the calls of
    Cluster.v.  The YAML decoder, the conversion of typed objects and the metrics
    conversion are parameters. *)
From Stdlib Require Import Floats.SpecFloat.
From S2P Require Import Prelude GoStrings Api Unstructured Cluster.

(** * Definitions *)

Definition BinaryName : string := "kubernetes-mcp-server".
Definition AppKubernetesComponent : string := "app.kubernetes.io/component".
Definition AppKubernetesManagedBy : string := "app.kubernetes.io/managed-by".
Definition AppKubernetesName : string := "app.kubernetes.io/name".
Definition AppKubernetesPartOf : string := "app.kubernetes.io/part-of".

(** ** Helpers of [Core] *)

Definition configuredNamespace : prog string :=
  r ← call KNamespace;
  Ret (match r with Ok ns => ns | Err _ => "" end).
Definition NamespaceOrDefault (namespace : string) : prog string :=
  if namespace =?s "" then configuredNamespace else Ret namespace.

Definition resourceFor (gvk : GroupVersionKind) : prog (result GroupVersionResource) :=
  call (KMapping (gvk_Group gvk) (gvk_Kind gvk) (gvk_Version gvk)).

(** Whether the first resource of a kind is namespaced. *)
Definition kind_namespaced (kind : string) (apiResources : list (string * bool)) : bool :=
  match List.find (fun r => r.1 =?s kind) apiResources with
  | Some r => r.2
  | None => false
  end.
Definition isNamespaced (gvk : GroupVersionKind) : prog (result bool) :=
  apiResourceList <-? call (KServerResources (GroupVersion_String (gvk_Group gvk) (gvk_Version gvk)));
  Ret (Ok (kind_namespaced (gvk_Kind gvk) apiResourceList)).

Definition supportsGroupVersion (groupVersion : string) : prog bool :=
  r ← call (KServerResources groupVersion);
  Ret (is_ok r).

Definition canIUse (gvr : GroupVersionResource) (namespace verb : string) : prog bool :=
  r ← call (KAccessReview gvr namespace "" verb);
  Ret (match r with Ok allowed => allowed | Err _ => false end).

(** The namespace of an operation on one object: the configured one when none is
    given for a kind that is known to be namespaced. *)
Definition namespace_for (gvk : GroupVersionKind) (namespace : string) : prog string :=
  r ← isNamespaced gvk;
  match r with
  | Ok true => NamespaceOrDefault namespace
  | _ => Ret namespace
  end.

(** ** resources.go *)

Record ListOptions := mkListOpts { lo_selectors : selectors; lo_AsTable : bool }.
(** What a list gives: objects, or a table. *)
Inductive listed : Type := LObjects (items : list object) | LTable (t : table).

Definition table_url (gvr : GroupVersionResource) (namespace : string) : list string :=
  (if gvr_Group gvr =?s "" then ["api"] else ["apis"; gvr_Group gvr]) ++ [gvr_Version gvr] ++
  (if namespace =?s "" then [] else ["namespaces"; namespace]) ++ [gvr_Resource gvr].

Definition resourcesListAsTable (gvk : GroupVersionKind) (gvr : GroupVersionResource) (namespace : string)
    (options : ListOptions) : prog (result table) :=
  t <-? call (KListTable (table_url gvr namespace) (lo_selectors options));
  Ret (Ok (mkTable ("apiVersion" :: "kind" :: tb_Columns t)
    (map (fun cells => YString (GroupVersion_String (gvr_Group gvr) (gvr_Version gvr))
                       :: YString (gvk_Kind gvk) :: cells) (tb_Rows t)))).

Definition ResourcesList (gvk : GroupVersionKind) (namespace : string) (options : ListOptions) :
    prog (result listed) :=
  gvr <-? resourceFor gvk;
  namespaced ← isNamespaced gvk;
  let namespaced := match namespaced with Ok b => b | Err _ => false end in
  namespace ←
    (if namespaced then
       allowed ← canIUse gvr namespace "list";
       if negb allowed && (namespace =?s "") then NamespaceOrDefault "" else Ret namespace
     else Ret namespace);
  if lo_AsTable options then
    t <-? resourcesListAsTable gvk gvr namespace options; Ret (Ok (LTable t))
  else
    l <-? call (KList gvr namespace (lo_selectors options)); Ret (Ok (LObjects l)).

Definition ResourcesGet (gvk : GroupVersionKind) (namespace name : string) : prog (result object) :=
  gvr <-? resourceFor gvk;
  namespace ← namespace_for gvk namespace;
  call (KGet gvr namespace name "").

Definition ResourcesDelete (gvk : GroupVersionKind) (namespace name : string) (gracePeriodSeconds : option Z) :
    prog (option error) :=
  gvr ← resourceFor gvk;
  match gvr with
  | Err err => Ret (Some err)
  | Ok gvr =>
      namespace ← namespace_for gvk namespace;
      call (KDelete gvr namespace name gracePeriodSeconds)
  end.

(** [SetNestedField] of [.spec.replicas]. *)
Definition set_replicas (desiredScale : Z) (scale : object) : result object :=
  match field "spec" scale with
  | Some (YMap spec) => Ok (set_field "spec" (YMap (set_field "replicas" (YInt64 desiredScale) spec)) scale)
  | Some _ => Err (ErrNew "value cannot be set because .spec is not a map[string]interface{}")
  | None => Ok (set_field "spec" (YMap [("replicas", YInt64 desiredScale)]) scale)
  end.

Definition ResourcesScale (gvk : GroupVersionKind) (namespace name : string) (desiredScale : Z)
    (shouldScale : bool) : prog (result object) :=
  gvr <-? resourceFor gvk;
  namespaced ← isNamespaced gvk;
  namespace ← match namespaced with Ok true => NamespaceOrDefault namespace | _ => Ret "" end;
  scale <-? call (KGet gvr namespace name "scale");
  if shouldScale then
    match set_replicas desiredScale scale with
    | Err err => Ret (Err (wrapf "failed to set .spec.replicas on scale object: " err))
    | Ok scale =>
        updated ← call (KUpdate gvr namespace scale "scale");
        Ret (match updated with
             | Err err => Err (wrapf "failed to update scale: " err)
             | Ok scale => Ok scale
             end)
    end
  else Ret (Ok scale).

(** The loop over the resources; the results replace the resources. *)
Fixpoint resourcesCreateOrUpdate (resources : list object) : prog (result (list object)) :=
  match resources with
  | [] => Ret (Ok [])
  | obj :: resources =>
      let gvk := object_GVK obj in
      gvr <-? resourceFor gvk;
      namespace ← namespace_for gvk (GetNamespace obj);
      obj' <-? call (KApply gvr namespace (GetName obj) obj BinaryName true);
      _ ← (if gvk_Kind gvk =?s "CustomResourceDefinition" then call KMapperReset else Ret tt);
      rest <-? resourcesCreateOrUpdate resources;
      Ret (Ok (obj' :: rest))
  end.

(** The separator [\r?\n---\r?\n]: the length of a match at the start of a string. *)
Definition cr : ascii := "013".
Definition lf : ascii := "010".
Definition separator_at (s : string) : option nat :=
  let dashes := String lf "---" in
  let after n :=
    let rest := drop_str n s in
    if HasPrefix rest (String cr (String lf "")) then Some (n + 2)
    else if HasPrefix rest (String lf "") then Some (n + 1)
    else None in
  if HasPrefix s (String cr dashes) then after 5
  else if HasPrefix s dashes then after 4
  else None.

(** [separator.Split(s, -1)]: [skip] characters of a separator are still to be left
    out. *)
Fixpoint split_documents (skip : nat) (s : string) : list string :=
  match s with
  | EmptyString => [""]
  | String c s' =>
      match skip with
      | Datatypes.S skip => split_documents skip s'
      | O =>
          match separator_at s with
          | Some n => "" :: split_documents (n - 1) s'
          | None =>
              match split_documents 0 s' with
              | d :: ds => String c d :: ds
              | [] => [String c ""]
              end
          end
      end
  end.

Section Decoding.
(** The first YAML document of a text, as an object. *)
Context (Decode : string -> result object).

Fixpoint parse_documents (docs : list string) : result (list object) :=
  match docs with
  | [] => Ok []
  | r :: docs =>
      match Decode r with
      | Err err => Err err
      | Ok obj =>
          match parse_documents docs with
          | Err err => Err err
          | Ok objs => Ok (delete_field "status" obj :: objs)
          end
      end
  end.

Definition ResourcesCreateOrUpdate (resource : string) : prog (result (list object)) :=
  match parse_documents (split_documents 0 resource) with
  | Err err => Ret (Err err)
  | Ok parsedResources => resourcesCreateOrUpdate parsedResources
  end.
End Decoding.

(** ** namespaces.go *)
Definition NamespacesList (options : ListOptions) : prog (result listed) :=
  ResourcesList (mkGVK "" "v1" "Namespace") "" options.
Definition ProjectsList (options : ListOptions) : prog (result listed) :=
  ResourcesList (mkGVK "project.openshift.io" "v1" "Project") "" options.

(** ** events.go: the parts of a [v1.Event] that are shown; a time by whether it is
    zero and its text *)
Record go_time := mkTime { gt_IsZero : bool; gt_String : string }.
Record k8s_event := mkEvent {
  ke_Namespace : string;
  ke_EventTime : go_time;
  ke_Series_LastObservedTime : option go_time;
  ke_Count : Z;
  ke_LastTimestamp : go_time;
  ke_FirstTimestamp : go_time;
  ke_Type : string;
  ke_Reason : string;
  ke_Object_APIVersion : string;
  ke_Object_Kind : string;
  ke_Object_Name : string;
  ke_Message : string;
}.
Definition event_timestamp (e : k8s_event) : go_time :=
  if gt_IsZero (ke_EventTime e) then
    match ke_Series_LastObservedTime e with
    | Some t => t
    | None => if (1 <? ke_Count e)%Z then ke_LastTimestamp e else ke_FirstTimestamp e
    end
  else ke_EventTime e.
Definition event_entry (e : k8s_event) : object :=
  [("Namespace", YString (ke_Namespace e)); ("Timestamp", YString (gt_String (event_timestamp e)));
   ("Type", YString (ke_Type e)); ("Reason", YString (ke_Reason e));
   ("InvolvedObject", YMap [("apiVersion", YString (ke_Object_APIVersion e));
      ("Kind", YString (ke_Object_Kind e)); ("Name", YString (ke_Object_Name e))]);
   ("Message", YString (TrimSpace (ke_Message e)))].

Section Events.
Context (FromUnstructured : object -> result k8s_event).
Fixpoint event_entries (items : list object) : result (list object) :=
  match items with
  | [] => Ok []
  | item :: items =>
      match FromUnstructured item with
      | Err err => Err err
      | Ok e => match event_entries items with Ok l => Ok (event_entry e :: l) | Err err => Err err end
      end
  end.
(** The list is never asked for as a table. *)
Definition EventsList (namespace : string) (s : selectors) : prog (result (list object)) :=
  raw <-? ResourcesList (mkGVK "" "v1" "Event") namespace (mkListOpts s false);
  Ret (match raw with LObjects items => event_entries items | LTable _ => Err (ErrNew "panic") end).
End Events.

(** ** nodes.go *)
Definition NodesLog (name query : string) (tailLines : Z) : prog (result string) :=
  node ← call (KNodeGet name);
  match node with
  | Some err => Ret (Err (wrapf (fmt ["failed to get node "; name; ": "]) err))
  | None =>
      r ← call (KNodeProxy ["api"; "v1"; "nodes"; name; "proxy"; "logs"]
        (("query", query) :: if (0 <? tailLines)%Z then [("tailLines", itoa tailLines)] else []));
      Ret (match r with
           | Err err => Err (wrapf "failed to get node logs: " err)
           | Ok (Err err) => Err (wrapf "failed to read node log response: " err)
           | Ok (Ok rawData) => Ok rawData
           end)
  end.

Definition NodesStatsSummary (name : string) : prog (result string) :=
  node ← call (KNodeGet name);
  match node with
  | Some err => Ret (Err (wrapf (fmt ["failed to get node "; name; ": "]) err))
  | None =>
      r ← call (KNodeProxy ["api"; "v1"; "nodes"; name; "proxy"; "stats"; "summary"] []);
      Ret (match r with
           | Err err => Err (wrapf "failed to get node stats summary: " err)
           | Ok (Err err) => Err (wrapf "failed to read node stats summary response: " err)
           | Ok (Ok rawData) => Ok rawData
           end)
  end.

Section Metrics.
(** The conversion of the versioned metrics. *)
Context (Convert : list object -> result (list object)).
Definition NodesTop (name : string) (s : selectors) : prog (result (list object)) :=
  supported ← supportsGroupVersion "metrics.k8s.io/v1beta1";
  if negb supported then Ret (Err (ErrNew "metrics API is not available"))
  else if name ≠?s "" then
    m ← call (KMetricsGet "nodes" "" name);
    Ret (match m with
         | Err err => Err (wrapf (fmt ["failed to get metrics for node "; name; ": "]) err)
         | Ok m => Convert [m]
         end)
  else
    l ← call (KMetricsList "nodes" "" s);
    Ret (match l with
         | Err err => Err (wrapf "failed to list node metrics: " err)
         | Ok l => Convert l
         end).

Definition PodsTop (allNamespaces : bool) (namespace name : string) (s : selectors) :
    prog (result (list object)) :=
  supported ← supportsGroupVersion "metrics.k8s.io/v1beta1";
  if negb supported then Ret (Err (ErrNew "metrics API is not available"))
  else
    namespace ← (if allNamespaces && (namespace =?s "") then Ret "" else NamespaceOrDefault namespace);
    if name ≠?s "" then
      m ← call (KMetricsGet "pods" namespace name);
      Ret (match m with
           | Err err => Err (wrapf (fmt ["failed to get metrics for pod "; namespace; "/"; name; ": "]) err)
           | Ok m => Convert [m]
           end)
    else
      l ← call (KMetricsList "pods" namespace s);
      Ret (match l with
           | Err err => Err (wrapf (fmt ["failed to list pod metrics in namespace "; namespace; ": "]) err)
           | Ok l => Convert l
           end).
End Metrics.

(** ** pods.go *)

Definition DefaultTailLines : Z := 100.
Definition DefaultContainerAnnotation : string := "kubectl.kubernetes.io/default-container".
Definition Pod_GVK : GroupVersionKind := mkGVK "" "v1" "Pod".

Definition resolveContainer (p : pod) (container : string) : string :=
  if container ≠?s "" then container
  else
    match pod_Containers p with
    | [c] => c
    | cs =>
        match pod_Annotations p !! DefaultContainerAnnotation with
        | Some d => if d ≠?s "" then d else hd "" cs
        | None => hd "" cs
        end
    end.

Definition PodsListInAllNamespaces (options : ListOptions) : prog (result listed) :=
  ResourcesList Pod_GVK "" options.
Definition PodsListInNamespace (namespace : string) (options : ListOptions) : prog (result listed) :=
  ResourcesList Pod_GVK namespace options.
Definition PodsGet (namespace name : string) : prog (result object) :=
  namespace ← NamespaceOrDefault namespace;
  ResourcesGet Pod_GVK namespace name.

(** [labels.Set{...}.AsSelector().String()], with the keys in order. *)
Definition managed_selector (name_label : string) : string :=
  fmt [AppKubernetesManagedBy; "="; BinaryName; ","; AppKubernetesName; "="; name_label].
Definition is_managed (labels : gmap string string) : bool :=
  default "" (labels !! AppKubernetesManagedBy) =?s BinaryName.

Definition routes_GVR : GroupVersionResource := mkGVR "route.openshift.io" "v1" "routes".

(** A loop of deletions whose errors are dropped. *)
Fixpoint delete_each {R : Type} (delete : string -> kcall R) (names : list string) : prog unit :=
  match names with
  | [] => Ret tt
  | n :: names => _ ← call (delete n); delete_each delete names
  end.
Definition delete_services (namespace : string) : list string -> prog unit :=
  delete_each (KServicesDelete namespace).
Definition delete_routes (namespace : string) : list string -> prog unit :=
  delete_each (fun n => KDelete routes_GVR namespace n None).

Definition PodsDelete (namespace name : string) : prog (result string) :=
  namespace ← NamespaceOrDefault namespace;
  pod <-? ResourcesGet Pod_GVK namespace name;
  let isManaged := is_managed (GetLabels pod) in
  let selector := managed_selector (default "" (GetLabels pod !! AppKubernetesName)) in
  _ ← (if isManaged then
         sl ← call (KServicesList namespace selector);
         delete_services namespace (default [] sl)
       else Ret tt);
  _ ← (if isManaged then
         routes ← supportsGroupVersion "route.openshift.io/v1";
         if routes : bool then
           rl ← call (KList routes_GVR namespace (mkSelectors selector ""));
           match rl with
           | Ok items => delete_routes namespace (map GetName items)
           | Err _ => Ret tt
           end
         else Ret tt
       else Ret tt);
  err ← ResourcesDelete Pod_GVK namespace name None;
  Ret (match err with Some err => Err err | None => Ok "Pod deleted successfully" end).

Definition PodsLog (namespace name container : string) (previous : bool) (tail : Z) : prog (result string) :=
  namespace ← NamespaceOrDefault namespace;
  let logs container :=
    call (KPodLogs namespace name container previous (if (0 <? tail)%Z then tail else DefaultTailLines)) in
  if container =?s "" then
    p <-? call (KPodGet namespace name);
    logs (resolveContainer p "")
  else logs container.

Definition PodSucceeded : string := "Succeeded".
Definition PodFailed : string := "Failed".

(** The failures to build the executors are part of the call. *)
Definition PodsExec (namespace name container : string) (command : list string) :
    prog (result (string * string)) :=
  namespace ← NamespaceOrDefault namespace;
  p <-? call (KPodGet namespace name);
  if (pod_Phase p =?s PodSucceeded) || (pod_Phase p =?s PodFailed) then
    Ret (Err (ErrNew (fmt ["cannot exec into a container in a completed pod; current phase is "; pod_Phase p])))
  else call (KPodExec namespace name (resolveContainer p container) command).

(** The objects [PodsRun] makes, before their conversion. *)
Inductive run_spec : Type :=
| PodSpec (container image : string) (containerPort : option Z)   (* pull always *)
| ServiceSpec (selector : gmap string string) (port : Z)          (* ClusterIP, to the same port *)
| RouteSpec (service : string) (targetPort : Z).                  (* edge, redirect *)
Record run_object := mkRunObject {
  ro_APIVersion : string;
  ro_Kind : string;
  ro_Name : string;
  ro_Namespace : string;
  ro_Labels : gmap string string;
  ro_Spec : run_spec;
}.
Definition run_labels (name : string) : gmap string string :=
  {[ AppKubernetesName := name; AppKubernetesComponent := name; AppKubernetesManagedBy := BinaryName;
     AppKubernetesPartOf := BinaryName +:+ "-run-sandbox" ]}.

Section PodsRun.
Context (ToUnstructured : run_object -> result object).

Fixpoint convert_all (objs : list run_object) : result (list object) :=
  match objs with
  | [] => Ok []
  | o :: objs =>
      match ToUnstructured o with
      | Err err => Err err
      | Ok u => match convert_all objs with Ok l => Ok (u :: l) | Err err => Err err end
      end
  end.

Definition PodsRun (namespace name image : string) (port : Z) : prog (result (list object)) :=
  name ← (if name =?s "" then s ← call (KRandString 5); Ret (fmt [BinaryName; "-run-"; s]) else Ret name);
  let labels := run_labels name in
  let exposed := (0 <? port)%Z in
  podNamespace ← NamespaceOrDefault namespace;
  let pod := mkRunObject "v1" "Pod" name podNamespace labels
               (PodSpec name image (if exposed then Some port else None)) in
  service ←
    (if exposed then
       ns ← NamespaceOrDefault namespace;
       Ret [mkRunObject "v1" "Service" name ns labels (ServiceSpec labels port)]
     else Ret []);
  route ←
    (if exposed then
       routes ← supportsGroupVersion "route.openshift.io/v1";
       if routes : bool then
         ns ← NamespaceOrDefault namespace;
         Ret [mkRunObject "route.openshift.io/v1" "Route" name ns labels (RouteSpec name port)]
       else Ret []
     else Ret []);
  match convert_all (pod :: service ++ route) with
  | Err err => Ret (Err err)
  | Ok toCreate => resourcesCreateOrUpdate toCreate
  end.
End PodsRun.

(** * Specification *)

(** What an apply call of the program looks like: the object under its own name, by
    the field manager of the program, in its own namespace if it has one. *)
Definition apply_wf (a : GroupVersionResource * string * string * object) : Prop :=
  let '(_, ns, name, obj) := a in
  name = GetName obj /\ (GetNamespace obj <> "" -> ns = GetNamespace obj).

(** The writes of a program are forced applies by the program's field manager. *)
Definition only_applies {R} (c : kcall R) : Prop :=
  match c with
  | KApply _ _ _ _ fieldManager force => fieldManager = BinaryName /\ force = true
  | KUpdate _ _ _ _ | KDelete _ _ _ _ | KServicesDelete _ _ | KPodExec _ _ _ _
  | KPodCreate _ _ | KPodDelete _ _ | KCreate _ _ _ | KProbePodCreate _ _ | KPatch _ _ _ _ _ => False
  | KSubresource verb _ _ _ _ _ _ => verb = "GET"
  | _ => True
  end.

(** * Lemmas *)

Lemma every_configuredNamespace (P : forall R, kcall R -> Prop) : P _ KNamespace -> every P configuredNamespace.
Proof. intros H. split; [done|]. by intros [ns|e]. Qed.

Lemma every_NamespaceOrDefault (P : forall R, kcall R -> Prop) ns : P _ KNamespace -> every P (NamespaceOrDefault ns).
Proof. intros H. unfold NamespaceOrDefault. case_match; [by apply every_configuredNamespace|done]. Qed.

Lemma every_isNamespaced (P : forall R, kcall R -> Prop) gvk :
  (forall gv, P _ (KServerResources gv)) -> every P (isNamespaced gvk).
Proof. intros H. apply every_try; [by apply every_call|done]. Qed.

Lemma every_supports (P : forall R, kcall R -> Prop) gv : (forall gv, P _ (KServerResources gv)) -> every P (supportsGroupVersion gv).
Proof. intros H. by split. Qed.

Lemma every_namespace_for (P : forall R, kcall R -> Prop) gvk ns :
  (forall gv, P _ (KServerResources gv)) -> P _ KNamespace -> every P (namespace_for gvk ns).
Proof.
  intros H1 H2. apply every_then; [by apply every_isNamespaced|].
  intros [[]|e]; [by apply every_NamespaceOrDefault|done..].
Qed.

Create HintDb reads discriminated.
#[export] Hint Resolve every_NamespaceOrDefault every_isNamespaced every_supports every_namespace_for every_call : reads.

(** A run of reads applies nothing. *)
Lemma no_applied {A} (p : prog A) tr a : every (@reads_only) p -> runs p tr a -> applied tr = [].
Proof. intros Hp Hr. apply reads_applied. by eapply every_runs. Qed.

Lemma reads_namespace_for gvk ns : every (@reads_only) (namespace_for gvk ns).
Proof. apply every_namespace_for; [intros gv|]; by intros []. Qed.

(** A namespace that is given is kept. *)
Lemma namespace_for_given gvk ns tr r : ns <> "" -> runs (namespace_for gvk ns) tr r -> r = ns.
Proof.
  intros Hns. unfold namespace_for. intros (tr1 & b & tr2 & -> & _ & H)%runs_then.
  unfold NamespaceOrDefault in H. rewrite bool_decide_eq_false_2 in H by done.
  destruct b as [[]|e]; by destruct H as [_ ->].
Qed.

(** ** Applying *)

Lemma every_create_or_update objs : every (@only_applies) (resourcesCreateOrUpdate objs).
Proof.
  induction objs as [|obj objs IH]; [done|]. cbn [resourcesCreateOrUpdate].
  apply every_try; [by apply every_call|]. intros gvr.
  apply every_then; [by apply every_namespace_for|]. intros ns.
  apply every_try; [by apply every_call|]. intros obj'.
  apply every_then; [case_match; [by apply every_call|done]|]. intros _.
  apply every_try; [exact IH|done].
Qed.

(** The objects applied are the first ones in order, each as it is; all of them when
    there is no error. *)
Lemma create_or_update_applied objs : forall tr r,
  runs (resourcesCreateOrUpdate objs) tr r ->
  Forall apply_wf (applied tr) /\
  exists n, (applied tr).*2 = take n objs /\
    match r with Ok rs => n = length objs /\ length rs = n | Err _ => n <= length objs end.
Proof.
  induction objs as [|obj objs IH]; intros tr r.
  { intros [-> ->]. split; [done|]. by exists 0. }
  cbn [resourcesCreateOrUpdate].
  intros [(tr1 & gvr & tr2 & -> & H1 & H)|(err & H1 & ->)]%runs_try.
  2:{ apply runs_call in H1 as ->. split; [done|]. exists 0. split; [done|]. lia. }
  apply runs_call in H1 as ->. rewrite applied_app. change (applied [_]) with (@nil (GroupVersionResource * string * string * object)).
  apply runs_then in H as (tr3 & ns & tr4 & -> & Hns & H).
  rewrite applied_app, (no_applied _ _ _ (reads_namespace_for _ _) Hns). cbn [app].
  apply runs_try in H as [(tr5 & obj' & tr6 & -> & Ha & H)|(err & Ha & ->)]; apply runs_call in Ha as ->.
  all: assert (apply_wf (gvr, ns, GetName obj, obj)) as Hwf by
         (split; [done|]; intros Hne; by eapply namespace_for_given).
  2:{ split; [by constructor|]. exists 1. split; [done|]. cbn. lia. }
  rewrite applied_app. change (applied [_]) with [(gvr, ns, GetName obj, obj)].
  apply runs_then in H as (tr7 & [] & tr8 & -> & Hc & H).
  assert (applied tr7 = []) as Hc7.
  { eapply no_applied; [|exact Hc]. case_match; [by apply every_call; intros []|done]. }
  rewrite applied_app, Hc7. cbn [app].
  apply runs_try in H as [(tr9 & rs & tr10 & -> & Hr & H)|(err & Hr & ->)]; apply IH in Hr as [Hf (n & Hn & Hl)].
  - destruct H as [-> ->]. rewrite app_nil_r. split; [by constructor|]. exists (S n).
    destruct Hl as [-> Hl]. split; [by cbn; rewrite Hn|]. cbn. lia.
  - split; [by constructor|]. exists (S n). split; [by cbn; rewrite Hn|]. cbn. lia.
Qed.

Lemma parse_documents_Ok Decode docs objs :
  parse_documents Decode docs = Ok objs ->
  Forall2 (fun d o => exists o0, Decode d = Ok o0 /\ o = delete_field "status" o0) docs objs.
Proof.
  revert objs. induction docs as [|d docs IH]; intros objs; cbn; [by intros [= <-]|].
  destruct (Decode d) as [o0|e] eqn:Hd; [|done]. destruct (parse_documents Decode docs) as [l|e]; [|done].
  intros [= <-]. constructor; [by exists o0|by apply IH].
Qed.

(** ** The separator of documents *)

Definition sep : string := String lf ("---" +:+ String lf "").

(** No separator starts in [s], whatever follows it up to a line feed. *)
Lemma split_documents_join d1 d2 :
  (forall n, separator_at (drop_str n d1 +:+ sep +:+ d2) = None \/ slen d1 <= n) ->
  split_documents 0 (d1 +:+ sep +:+ d2) = d1 :: split_documents 0 d2.
Proof.
  induction d1 as [|c d1 IH]; intros H.
  - rewrite append_nil_l. unfold sep. rewrite append_String. cbn [split_documents].
    assert (separator_at (String lf (("---" +:+ String lf "") +:+ d2)) = Some 5) as -> by (by destruct d2).
    cbn. reflexivity.
  - rewrite append_String. cbn [split_documents].
    destruct (H 0) as [H0|H0]; [|unfold slen in H0; cbn in H0; lia]. cbn [drop_str] in H0. rewrite append_String in H0. rewrite H0.
    rewrite IH; [done|]. intros n. destruct (H (S n)) as [Hn|Hn]; [by left|right].
    unfold slen in *. cbn in Hn. lia.
Qed.

Lemma parse_documents_Err Decode docs err :
  parse_documents Decode docs = Err err -> Exists (fun d => Decode d = Err err) docs.
Proof.
  induction docs as [|d docs IH]; cbn; [done|].
  destruct (Decode d) as [o|e] eqn:Hd; [|intros [= <-]; by left].
  destruct (parse_documents Decode docs) as [l|e]; [done|]. intros [= <-]. right. by apply IH.
Qed.

(** The objects that [resources_create_or_update] is about: the documents of the
    text in order, each without its status. *)
Definition decoded (Decode : string -> result object) (d : string) (o : object) : Prop :=
  exists o0, Decode d = Ok o0 /\ o = delete_field "status" o0.

(** C13. Creating or updating the documents of a text writes nothing but forced applies by
    the field manager of the program, each object under its own name and in its own
    namespace if it has one.  When a document cannot be decoded nothing is applied at
    all; otherwise the objects applied are the first documents in order without their
    status, and all of them, one result each, when there is no error. *)
Theorem create_or_update_documents Decode resource tr r :
  runs (ResourcesCreateOrUpdate Decode resource) tr r ->
  Forall (event_call (@only_applies)) tr /\ Forall apply_wf (applied tr) /\
  ((exists err, r = Err err /\ tr = [] /\
      Exists (fun d => Decode d = Err err) (split_documents 0 resource)) \/
   (exists objs n, Forall2 (decoded Decode) (split_documents 0 resource) objs /\
      Forall (fun o => field "status" o = None) objs /\ (applied tr).*2 = take n objs /\
      match r with Ok rs => n = length objs /\ length rs = n | Err _ => n <= length objs end)).
Proof.
  unfold ResourcesCreateOrUpdate. destruct (parse_documents _ _) as [objs|err] eqn:Hp.
  - intros Hr. split; [eapply every_runs; [apply every_create_or_update|done]|].
    apply create_or_update_applied in Hr as [Hf (n & Hn & Hl)]. split; [done|]. right.
    apply parse_documents_Ok in Hp. exists objs, n. split; [done|]. split; [|done].
    clear -Hp. induction Hp as [|d o ds os (o0 & _ & ->)]; constructor; [apply delete_field_None|done].
  - intros [-> ->]. split; [done|]. split; [done|]. left. exists err. split; [done|]. split; [done|].
    by apply parse_documents_Err.
Qed.

(** ** Deleting a pod *)

(** The pod [name] of [ns], fetched in the run, is managed by the program, with the
    given name label. *)
Definition managed_pod_fetched (tr : list event) (ns name label : string) : Prop :=
  exists gvr ns' pod, Ev (KGet gvr ns' name "") (Ok pod) ∈ tr /\ (ns <> "" -> ns' = ns) /\
    is_managed (GetLabels pod) = true /\ label = default "" (GetLabels pod !! AppKubernetesName).

(** What justifies a deletion in a run: a service or a route was listed under the
    labels of the managed pod; anything else is the pod itself.  All are in the
    namespace asked for, if there is one. *)
Definition delete_justified (tr : list event) (namespace name : string) (e : event) : Prop :=
  let 'Ev c _ := e in
  match c with
  | KServicesDelete ns n => (namespace <> "" -> ns = namespace) /\ exists label l,
      managed_pod_fetched tr ns name label /\
      Ev (KServicesList ns (managed_selector label)) (Some l) ∈ tr /\ n ∈ l
  | KDelete gvr ns n _ => (namespace <> "" -> ns = namespace) /\
      ((n = name /\ Ev (KMapping "" "Pod" "v1") (Ok gvr) ∈ tr) \/
       (exists label items, gvr = routes_GVR /\ managed_pod_fetched tr ns name label /\
        Ev (KList routes_GVR ns (mkSelectors (managed_selector label) "")) (Ok items) ∈ tr /\
        n ∈ map GetName items))
  | KApply _ _ _ _ _ _ | KUpdate _ _ _ _ | KPodExec _ _ _ _ | KPodCreate _ _ | KPodDelete _ _
  | KProbePodCreate _ _ | KPatch _ _ _ _ _ => False
  | _ => True
  end.

Lemma reads_justified tr tr' ns name :
  Forall (event_call (@reads_only)) tr -> Forall (delete_justified tr' ns name) tr.
Proof.
  intros H. eapply Forall_impl; [exact H|]. intros [R c r] Hc. destruct c; try done; by destruct Hc.
Qed.

Lemma reads_NamespaceOrDefault ns : every (@reads_only) (NamespaceOrDefault ns).
Proof. apply every_NamespaceOrDefault. by intros []. Qed.
Lemma reads_supports gv : every (@reads_only) (supportsGroupVersion gv).
Proof. apply every_supports. by intros ? []. Qed.

Lemma delete_each_runs {R} (delete : string -> kcall R) names tr u :
  runs (delete_each delete names) tr u ->
  Forall (fun e => exists n r, e = Ev (delete n) r /\ n ∈ names) tr.
Proof.
  revert tr. induction names as [|n names IH]; intros tr; [by intros [-> _]|].
  intros (r & tr' & -> & H). constructor; [exists n, r; split; [done|by left]|].
  eapply Forall_impl; [by apply IH|]. intros e (n' & r' & -> & Hn). exists n', r'. split; [done|by right].
Qed.

(** A fetched object was asked for under its name. *)
Lemma ResourcesGet_runs gvk ns name tr r :
  runs (ResourcesGet gvk ns name) tr r ->
  Forall (event_call (@reads_only)) tr /\
  forall obj, r = Ok obj -> exists gvr ns', Ev (KGet gvr ns' name "") (Ok obj) ∈ tr /\ (ns <> "" -> ns' = ns).
Proof.
  intros H. split.
  - eapply every_runs; [|done]. apply every_try; [by apply every_call; intros []|]. intros gvr.
    apply every_then; [apply reads_namespace_for|]. intros ns'. by apply every_call; intros [].
  - apply runs_try in H as [(tr1 & gvr & tr2 & -> & _ & H)|(err & _ & ->)]; [|done].
    apply runs_then in H as (tr3 & ns' & tr4 & -> & Hns & ->%runs_call).
    intros obj ->. exists gvr, ns'. split; [set_solver|]. intros Hne. by eapply namespace_for_given.
Qed.

Lemma ResourcesDelete_runs gvk ns name g tr r :
  runs (ResourcesDelete gvk ns name g) tr r ->
  Forall (fun e => event_call (@reads_only) e \/
    exists gvr ns' r', e = Ev (KDelete gvr ns' name g) r' /\ (ns <> "" -> ns' = ns) /\
      Ev (KMapping (gvk_Group gvk) (gvk_Kind gvk) (gvk_Version gvk)) (Ok gvr) ∈ tr) tr.
Proof.
  intros (tr1 & gvr & tr2 & -> & ->%runs_call & H)%runs_then. constructor; [by left; intros []|].
  destruct gvr as [gvr|err]; [|by destruct H as [-> _]; constructor].
  apply runs_then in H as (tr3 & ns' & tr4 & -> & Hns & ->%runs_call).
  apply Forall_app. split.
  - eapply Forall_impl; [by eapply every_runs; [apply reads_namespace_for|]|]. by left.
  - constructor; [|done]. right. exists gvr, ns', r. split; [done|]. split; [|by left].
    intros Hne. by eapply namespace_for_given.
Qed.

Lemma NamespaceOrDefault_given ns tr ns' : runs (NamespaceOrDefault ns) tr ns' -> ns <> "" -> ns' = ns.
Proof. intros H Hne. unfold NamespaceOrDefault in H. rewrite bool_decide_eq_false_2 in H by done. by destruct H. Qed.

Section Justified.
Context (tr : list event) (namespace ns name label : string) (managed : bool).
Hypothesis ns_given : namespace <> "" -> ns = namespace.
Hypothesis fetched : managed = true -> managed_pod_fetched tr ns name label.

Lemma services_justified trs u :
  runs (if managed then
          sl ← call (KServicesList ns (managed_selector label));
          delete_services ns (default [] sl)
        else Ret tt) trs u ->
  (forall e, e ∈ trs -> e ∈ tr) -> Forall (delete_justified tr namespace name) trs.
Proof.
  destruct managed; [|by intros [-> _]]. intros (sl & tr' & -> & H) Hin.
  constructor; [done|]. apply delete_each_runs in H. eapply Forall_impl; [exact H|].
  intros e (n & r & -> & Hn). split; [done|]. destruct sl as [l|]; [|by apply not_elem_of_nil in Hn].
  exists label, l. split_and!; [auto|apply Hin; by left|done].
Qed.

Lemma routes_justified trs u :
  runs (if managed then
          routes ← supportsGroupVersion "route.openshift.io/v1";
          if routes : bool then
            rl ← call (KList routes_GVR ns (mkSelectors (managed_selector label) ""));
            match rl with
            | Ok items => delete_routes ns (map GetName items)
            | Err _ => Ret tt
            end
          else Ret tt
        else Ret tt) trs u ->
  (forall e, e ∈ trs -> e ∈ tr) -> Forall (delete_justified tr namespace name) trs.
Proof.
  destruct managed; [|by intros [-> _]]. intros (tr1 & b & tr2 & -> & Hs & H)%runs_then Hin.
  apply Forall_app. split; [apply reads_justified; by eapply every_runs; [apply reads_supports|]|].
  destruct b; [|by destruct H as [-> _]]. destruct H as (rl & tr3 & -> & H).
  constructor; [done|]. destruct rl as [items|err]; [|by destruct H as [-> _]].
  apply delete_each_runs in H. eapply Forall_impl; [exact H|].
  intros e (n & r & -> & Hn). split; [done|]. right. exists label, items.
  split_and!; [done|auto|apply Hin, elem_of_app; right; by left|done].
Qed.

Lemma pod_deletion_justified trd err :
  runs (ResourcesDelete Pod_GVK ns name None) trd err ->
  (forall e, e ∈ trd -> e ∈ tr) -> Forall (delete_justified tr namespace name) trd.
Proof.
  intros H%ResourcesDelete_runs Hin. eapply Forall_impl; [exact H|].
  intros e [He|(gvr & ns' & r & -> & Hns & Hmap)].
  - destruct e as [R c r]. destruct c; try done; by destruct He.
  - split; [|left; auto]. intros Hne. specialize (ns_given Hne) as Hg. rewrite <- Hg in *. auto.
Qed.
End Justified.

(** Deleting a pod deletes, besides the pod itself, only services and routes that the
    cluster listed under the labels of the program for that pod, and only after the
    pod was fetched and found to be managed by the program.  It applies, updates and
    executes nothing. *)
Theorem PodsDelete_justified namespace name tr r :
  runs (PodsDelete namespace name) tr r -> Forall (delete_justified tr namespace name) tr.
Proof.
  intros (tr0 & ns & tr1 & -> & H0 & H)%runs_then.
  assert (Forall (event_call (@reads_only)) tr0) as Hr0 by (by eapply every_runs; [apply reads_NamespaceOrDefault|]).
  pose proof (NamespaceOrDefault_given _ _ _ H0) as Hgiven.
  apply runs_try in H as [(trg & pod & tr2 & -> & Hg & H)|(err & Hg & _)].
  2:{ apply Forall_app. split; apply reads_justified; [done|]. by eapply ResourcesGet_runs. }
  apply ResourcesGet_runs in Hg as [Hrg Hg]. destruct (Hg _ eq_refl) as (gvr & ns' & Hget & Hns').
  apply runs_then in H as (trs & [] & tr3 & -> & Hs & H).
  apply runs_then in H as (trr & [] & tr4 & -> & Hr & H).
  apply runs_then in H as (trd & err & tr5 & -> & Hd & [-> _]). rewrite app_nil_r.
  set (tr := tr0 ++ trg ++ trs ++ trr ++ trd).
  assert (is_managed (GetLabels pod) = true ->
          managed_pod_fetched tr ns name (default "" (GetLabels pod !! AppKubernetesName))) as Hm.
  { intros Hm. exists gvr, ns', pod. split; [unfold tr; rewrite !elem_of_app; by auto|done]. }
  unfold tr at 2. rewrite !Forall_app. split_and!; [by apply reads_justified..| | |].
  - eapply services_justified; [done|exact Hm|exact Hs|]. intros e He. unfold tr. rewrite !elem_of_app. auto.
  - eapply routes_justified; [done|exact Hm|exact Hr|]. intros e He. unfold tr. rewrite !elem_of_app. auto.
  - eapply pod_deletion_justified; [done|exact Hd|]. intros e He. unfold tr. rewrite !elem_of_app. auto.
Qed.

(** ** Running a pod *)

Section Running.
Context (ToUnstructured : run_object -> result object).

Lemma convert_all_Ok objs us :
  convert_all ToUnstructured objs = Ok us -> Forall2 (fun o u => ToUnstructured o = Ok u) objs us.
Proof.
  revert us. induction objs as [|o objs IH]; intros us; cbn; [by intros [= <-]|].
  destruct (ToUnstructured o) as [u|e] eqn:Ho; [|done]. destruct (convert_all _ objs) as [l|e]; [|done].
  intros [= <-]. constructor; [done|by apply IH].
Qed.

(** What the program makes for a port: nothing or one object of the name. *)
Lemma service_shape ns name port tr service :
  runs (if (0 <? port)%Z then
          ns ← NamespaceOrDefault ns;
          Ret [mkRunObject "v1" "Service" name ns (run_labels name) (ServiceSpec (run_labels name) port)]
        else Ret []) tr service ->
  applied tr = [] /\ (service = [] \/ exists ns', service =
    [mkRunObject "v1" "Service" name ns' (run_labels name) (ServiceSpec (run_labels name) port)]).
Proof.
  destruct (0 <? port)%Z; [|by intros [-> ->]; auto].
  intros (tr1 & ns' & tr2 & -> & H1%no_applied & [-> ->])%runs_then; [|apply reads_NamespaceOrDefault].
  rewrite app_nil_r. eauto.
Qed.

Lemma route_shape ns name port tr route :
  runs (if (0 <? port)%Z then
          routes ← supportsGroupVersion "route.openshift.io/v1";
          if routes : bool then
            ns ← NamespaceOrDefault ns;
            Ret [mkRunObject "route.openshift.io/v1" "Route" name ns (run_labels name) (RouteSpec name port)]
          else Ret []
        else Ret []) tr route ->
  applied tr = [] /\ (route = [] \/ exists ns', route =
    [mkRunObject "route.openshift.io/v1" "Route" name ns' (run_labels name) (RouteSpec name port)]).
Proof.
  destruct (0 <? port)%Z; [|by intros [-> ->]; auto].
  intros (tr1 & b & tr2 & -> & H1%no_applied & H)%runs_then; [|apply reads_supports].
  rewrite applied_app, H1. destruct b; [|by destruct H as [-> ->]; auto].
  apply runs_then in H as (tr3 & ns' & tr4 & -> & H3%no_applied & [-> ->]); [|apply reads_NamespaceOrDefault].
  rewrite app_nil_r. eauto.
Qed.

(** Conversion keeps the metadata. *)
Hypothesis convert_metadata : forall o u, ToUnstructured o = Ok u ->
  GetName u = ro_Name o /\ GetLabels u = ro_Labels o.

(** Every object that running a pod applies carries the name asked for and the labels
    of the program for it, so that it is managed and the selector with which deleting
    a pod looks for services and routes is the one of that name; the service it makes
    selects labels the pod has. *)
Theorem PodsRun_managed namespace name image port tr r :
  name <> "" ->
  runs (PodsRun ToUnstructured namespace name image port) tr r ->
  Forall (fun a => let u := a.2 in
    GetName u = name /\ is_managed (GetLabels u) = true /\
    default "" (GetLabels u !! AppKubernetesName) = name) (applied tr) /\
  length (applied tr) <= 3.
Proof.
  intros Hname. unfold PodsRun. rewrite bool_decide_eq_false_2 by done.
  intros (tr1 & ? & tr2 & -> & [-> ->] & H)%runs_then. cbn [app].
  apply runs_then in H as (tr3 & ns & tr4 & -> & H3%no_applied & H); [|apply reads_NamespaceOrDefault].
  apply runs_then in H as (tr5 & service & tr6 & -> & Hs & H).
  apply runs_then in H as (tr7 & route & tr8 & -> & Hr & H).
  apply service_shape in Hs as [Hs1 Hs2]. apply route_shape in Hr as [Hr1 Hr2].
  rewrite !applied_app, H3, Hs1, Hr1. cbn [app].
  destruct (convert_all _ _) as [us|err] eqn:Hc; [|by destruct H as [-> _]; split; [|cbn; lia]].
  apply convert_all_Ok in Hc. apply create_or_update_applied in H as [_ (n & Hn & _)].
  assert (length us <= 3) as Hl.
  { apply Forall2_length in Hc. rewrite <- Hc. cbn. rewrite length_app.
    destruct Hs2 as [-> | [? ->]]; destruct Hr2 as [-> | [? ->]]; cbn; lia. }
  assert (Forall (fun o => ro_Name o = name /\ ro_Labels o = run_labels name)
    (mkRunObject "v1" "Pod" name ns (run_labels name)
       (PodSpec name image (if (0 <? port)%Z then Some port else None)) :: service ++ route)) as Ho.
  { constructor; [done|]. apply Forall_app.
    split; [destruct Hs2 as [-> | [? ->]]|destruct Hr2 as [-> | [? ->]]]; repeat constructor. }
  split; [|rewrite <- (length_fmap snd), Hn, length_take; lia].
  enough (Forall (fun u => GetName u = name /\ is_managed (GetLabels u) = true /\
    default "" (GetLabels u !! AppKubernetesName) = name) (applied tr8).*2) as HP by by apply Forall_fmap in HP.
  rewrite Hn. apply Forall_take. clear -Hc Ho convert_metadata. induction Hc as [|o u os us Hou _ IH]; constructor.
  - apply Forall_cons in Ho as [[<- Hl] _]. apply convert_metadata in Hou as [-> ->]. rewrite Hl.
    split_and!; [done|by vm_compute..].
  - apply IH. by apply Forall_cons in Ho as [_ ?].
Qed.
End Running.

(** ** Executing in a pod *)

(** Commands are executed only in the pod that was fetched in the run, when it has not
    completed, in the container that the rules pick; nothing else is written. *)
Theorem PodsExec_running namespace name container command tr r :
  runs (PodsExec namespace name container command) tr r ->
  Forall (fun e => let 'Ev c _ := e in
    match c with
    | KPodExec ns n ctr cmd => n = name /\ cmd = command /\ (namespace <> "" -> ns = namespace) /\
        exists p, Ev (KPodGet ns n) (Ok p) ∈ tr /\
          pod_Phase p <> PodSucceeded /\ pod_Phase p <> PodFailed /\ ctr = resolveContainer p container
    | c => reads_only c
    end) tr.
Proof.
  intros (tr0 & ns & tr1 & -> & H0 & H)%runs_then. pose proof (NamespaceOrDefault_given _ _ _ H0) as Hns.
  apply Forall_app. split.
  { eapply Forall_impl; [by eapply every_runs; [apply reads_NamespaceOrDefault|]|].
    intros [R c a] Hc. destruct c; try done. by destruct Hc. }
  apply runs_try in H as [(tr2 & p & tr3 & -> & ->%runs_call & H)|(err & ->%runs_call & _)].
  2:{ constructor; [by intros []|done]. }
  constructor; [by intros []|].
  destruct (bool_decide_reflect (pod_Phase p = PodSucceeded)); [by destruct H as [-> _]|].
  destruct (bool_decide_reflect (pod_Phase p = PodFailed)); [by destruct H as [-> _]|].
  apply runs_call in H as ->. constructor; [|done]. split_and!; [done..|].
  exists p. split_and!; [|done..]. apply elem_of_app. right. by left.
Qed.

(** ** Listing *)

(** The namespace of a list: the one asked for, if there is one; with none, all of
    them only when the kind is not known to be namespaced, when the cluster reviewed
    that the user may list it everywhere, or when no namespace is configured. *)
Definition list_scope (tr : list event) (gvk : GroupVersionKind) (namespace : string)
    (gvr : GroupVersionResource) (ns : string) : Prop :=
  Ev (KMapping (gvk_Group gvk) (gvk_Kind gvk) (gvk_Version gvk)) (Ok gvr) ∈ tr /\
  (namespace <> "" -> ns = namespace) /\
  (ns = "" ->
     (exists gv answer, Ev (KServerResources gv) answer ∈ tr /\
        match answer with Ok kinds => kind_namespaced (gvk_Kind gvk) kinds = false | Err _ => True end) \/
     Ev (KAccessReview gvr "" "" "list") (Ok true) ∈ tr \/
     (exists answer, Ev KNamespace answer ∈ tr /\ match answer with Ok ns => ns = "" | Err _ => True end)).

(** The calls that only ask about the API and the user. *)
Definition asks {R} (c : kcall R) : Prop :=
  match c with
  | KMapping _ _ _ | KServerResources _ | KNamespace | KAccessReview _ _ _ _ => True
  | _ => False
  end.

Lemma isNamespaced_runs gvk tr r :
  runs (isNamespaced gvk) tr r ->
  exists gv answer, tr = [Ev (KServerResources gv) answer] /\
    r = match answer with Ok kinds => Ok (kind_namespaced (gvk_Kind gvk) kinds) | Err err => Err err end.
Proof.
  intros (answer & tr' & -> & H). eexists _, answer. destruct answer as [kinds|err]; by destruct H as [-> ->].
Qed.

(** What the choice of the namespace of a list has seen. *)
Lemma list_namespace_scope gvk namespace gvr namespaced tr0 tr ns :
  runs (isNamespaced gvk) tr0 namespaced ->
  runs (if match namespaced with Ok b => b | Err _ => false end then
          allowed ← canIUse gvr namespace "list";
          if negb allowed && (namespace =?s "") then NamespaceOrDefault "" else Ret namespace
        else Ret namespace) tr ns ->
  Forall (event_call (@asks)) (tr0 ++ tr) /\
  forall tr', Ev (KMapping (gvk_Group gvk) (gvk_Kind gvk) (gvk_Version gvk)) (Ok gvr) ∈ tr' ->
    (forall e, e ∈ tr0 ++ tr -> e ∈ tr') -> list_scope tr' gvk namespace gvr ns.
Proof.
  intros (gv & answer & -> & ->)%isNamespaced_runs. cbn [app].
  destruct (match answer with Ok kinds => kind_namespaced (gvk_Kind gvk) kinds | Err _ => false end) eqn:Hk;
    destruct answer as [kinds|err]; try done; try rewrite Hk.
  2,3: intros [-> ->]; (split; [by repeat constructor|]); intros tr' Hm Hin; split_and!; [done..|];
    intros _; left; eexists _, _; split; [apply Hin; by left|done].
  intros (tr1 & allowed & tr2 & -> & (rv & trv & -> & [-> ->]) & H)%runs_then. cbn [app].
  destruct (negb _ && _) eqn:Hd.
  - apply andb_true_iff in Hd as [_ ->%bool_decide_eq_true].
    destruct H as (ns' & tr' & -> & [-> ->]).
    split; [by repeat constructor|]. intros tr' Hm Hin. split_and!; [done..|].
    intros Hns. right. right. exists ns'. split; [apply Hin; set_solver|by destruct ns'].
  - destruct H as [-> ->]. split; [by repeat constructor|]. intros tr' Hm Hin. split_and!; [done..|].
    intros ->. rewrite bool_decide_eq_true_2, andb_true_r in Hd by done. apply negb_false_iff in Hd.
    right. left. apply Hin. destruct rv as [[]|]; try done. right. by left.
Qed.

(** Listing only asks about the kind and the user and lists, with the selectors asked
    for and at a namespace in the scope [list_scope]; it writes nothing. *)
Theorem ResourcesList_scope gvk namespace options tr r :
  runs (ResourcesList gvk namespace options) tr r ->
  Forall (fun e => let 'Ev c _ := e in
    match c with
    | KList gvr ns s => s = lo_selectors options /\ list_scope tr gvk namespace gvr ns
    | KListTable path s => s = lo_selectors options /\
        exists gvr ns, path = table_url gvr ns /\ list_scope tr gvk namespace gvr ns
    | c => asks c
    end) tr.
Proof.
  intros [(tr1 & gvr & tr2 & -> & ->%runs_call & H)|(err & ->%runs_call & ->)]%runs_try; [|by constructor].
  apply runs_then in H as (tr3 & namespaced & tr4 & -> & H3 & H).
  apply runs_then in H as (tr5 & ns & tr6 & -> & H5 & H).
  destruct (list_namespace_scope _ _ _ _ _ _ _ H3 H5) as [Ha Hs]. clear H3 H5.
  rewrite (app_assoc tr3). cbn [app]. constructor; [done|]. apply Forall_app. split.
  { eapply Forall_impl; [exact Ha|]. intros [R c a]. by destruct c. }
  assert (list_scope (Ev (KMapping (gvk_Group gvk) (gvk_Kind gvk) (gvk_Version gvk)) (Ok gvr)
            :: (tr3 ++ tr5) ++ tr6) gvk namespace gvr ns) as Hscope.
  { apply Hs; [by left|]. intros e He. right. apply elem_of_app. by left. }
  destruct (lo_AsTable options).
  - apply runs_try in H as [(tr7 & t & tr8 & -> & H & [-> ->])|(err & H & ->)]; [rewrite app_nil_r in *|];
      apply runs_try in H as [(tr9 & t' & tr10 & -> & ->%runs_call & [-> _])|(err' & ->%runs_call & _)];
      (constructor; [|done]); (split; [done|]); by exists gvr, ns.
  - apply runs_try in H as [(tr9 & t' & tr10 & -> & ->%runs_call & [-> _])|(err' & ->%runs_call & _)];
      (constructor; [|done]); done.
Qed.

(** ** Scaling *)

(** [obj] is [scale] with [.spec.replicas] set, and nothing else changed. *)
Definition rescaled (z : Z) (scale obj : object) : Prop :=
  nested_field (YMap obj) ["spec"; "replicas"] = Some (YInt64 z) /\
  (forall k, k <> "spec" -> field k obj = field k scale) /\
  (forall k, k <> "replicas" -> nested_field (YMap obj) ["spec"; k] = nested_field (YMap scale) ["spec"; k]).

Lemma set_replicas_rescaled z scale obj : set_replicas z scale = Ok obj -> rescaled z scale obj.
Proof.
  unfold set_replicas. destruct (field "spec" scale) as [[]|] eqn:Hs; try done; intros [= <-];
    unfold rescaled; cbn [nested_field]; rewrite ?field_set_eq, Hs.
  all: split_and!; [by rewrite ?field_set_eq|intros k Hk; by rewrite field_set_ne|intros k Hk].
  - by rewrite field_set_ne.
  - cbn [field]. by rewrite bool_decide_eq_false_2.
Qed.

(** Scaling writes only when a scale is asked for, and then only the scale that was
    fetched in the run, for the same object, with the number of replicas set and
    nothing else changed. *)
Theorem ResourcesScale_writes gvk namespace name z should tr r :
  runs (ResourcesScale gvk namespace name z should) tr r ->
  Forall (fun e => let 'Ev c _ := e in
    match c with
    | KUpdate gvr ns obj sub => should = true /\ sub = "scale" /\
        exists scale, Ev (KGet gvr ns name "scale") (Ok scale) ∈ tr /\ rescaled z scale obj
    | c => reads_only c
    end) tr.
Proof.
  intros [(tr1 & gvr & tr2 & -> & ->%runs_call & H)|(err & ->%runs_call & ->)]%runs_try;
    [|constructor; [by intros []|done]].
  apply runs_then in H as (tr3 & b & tr4 & -> & (gv & answer & -> & _)%isNamespaced_runs & H).
  apply runs_then in H as (tr5 & ns & tr6 & -> & H5 & H).
  assert (Forall (event_call (@reads_only)) tr5) as Hr.
  { eapply every_runs; [|exact H5]. destruct b as [[]|]; [apply reads_NamespaceOrDefault|done..]. }
  apply runs_try in H as [(tr7 & scale & tr8 & -> & ->%runs_call & H)|(err & ->%runs_call & _)].
  all: constructor; [by intros []|]; constructor; [by intros []|]; apply Forall_app; split;
    [eapply Forall_impl; [exact Hr|]; intros [R c a] Hc; destruct c; try done; by destruct Hc|].
  all: constructor; [by intros []|]; try done.
  destruct should; [|by destruct H as [-> _]].
  destruct (set_replicas z scale) as [obj|err] eqn:Hs; [|by destruct H as [-> _]].
  destruct H as (u & tr' & -> & [-> _]). constructor; [|done]. split_and!; [done..|].
  exists scale. split; [|by apply set_replicas_rescaled].
  rewrite !elem_of_app. do 3 right. left. by left.
Qed.

(** * Witnesses *)

(** A small cluster: a managed pod with a service and a route, where the user may not
    list everywhere. *)
Definition demo_pod : object :=
  [("metadata", YMap [("name", YString "web"); ("namespace", YString "shop");
      ("labels", YMap [(AppKubernetesManagedBy, YString BinaryName); (AppKubernetesName, YString "web")])])].
Definition demo_cluster (R : Type) (c : kcall R) : R :=
  match c in kcall R return R with
  | KMapping g k v => Ok (mkGVR g v (ToLower k +:+ "s"))
  | KMapperReset => tt
  | KServerResources _ => Ok [("Pod", true); ("ConfigMap", true)]
  | KNamespace => Ok "shop"
  | KAccessReview _ _ _ _ => Ok false
  | KList _ _ _ => Ok [demo_pod]
  | KListTable _ _ => Ok (mkTable [] [])
  | KGet _ _ _ _ => Ok demo_pod
  | KCreate _ _ obj => Ok obj
  | KSubresource _ _ _ _ _ _ _ => Ok (Ok [])
  | KApply _ _ _ obj _ _ => Ok obj
  | KUpdate _ _ obj _ => Ok obj
  | KDelete _ _ _ _ => None
  | KPodGet _ _ => Ok (mkPod ["app"; "sidecar"] {[ DefaultContainerAnnotation := "sidecar" ]} "Running" "")
  | KPodCreate _ p => Ok (dp_Name p)
  | KPodDelete _ _ => None
  | KNamespaceGet _ => None
  | KTypedList _ _ _ => Ok []
  | KProbePodCreate _ p => Ok (pp_Name p)
  | KPodLogStream _ _ _ _ => Ok (Ok "log")
  | KPatch _ _ _ _ _ => Ok []
  | KPodLogs _ _ _ _ _ => Ok "log"
  | KPodExec _ _ _ _ => Ok ("out", "")
  | KServicesList _ _ => Some ["web"]
  | KServicesDelete _ _ => None
  | KNodeGet _ => None
  | KNodesList _ => Ok []
  | KNodeProxy _ _ => Ok (Ok "stats")
  | KMetricsGet _ _ _ => Ok []
  | KMetricsList _ _ _ => Ok []
  | KRandString _ => "abcde"
  end.

Lemma create_or_update_documents_witness :
  let Decode d := Ok [("kind", YString "ConfigMap"); ("metadata", YMap [("name", YString d)]); ("status", YNull)] in
  let p := ResourcesCreateOrUpdate Decode ("a" +:+ sep +:+ "b") in
  let tr := (traced demo_cluster p).1 in
  map (fun a => (a.1.1.2, a.1.2)) (applied tr) = [("shop", "a"); ("shop", "b")] /\
  Forall (event_call (@only_applies)) tr.
Proof.
  split; [by vm_compute|]. eapply create_or_update_documents. apply traced_runs.
Defined.

Lemma PodsDelete_justified_witness :
  let p := PodsDelete "" "web" in
  let tr := (traced demo_cluster p).1 in
  (traced demo_cluster p).2 = Ok "Pod deleted successfully" /\
  Ev (KServicesDelete "shop" "web") None ∈ tr /\ Forall (delete_justified tr "" "web") tr.
Proof.
  split; [by vm_compute|]. split; [vm_compute; set_solver|].
  eapply PodsDelete_justified. apply traced_runs.
Defined.

(** A conversion that keeps the metadata. *)
Definition demo_convert (o : run_object) : result object :=
  Ok [("apiVersion", YString (ro_APIVersion o)); ("kind", YString (ro_Kind o));
      ("metadata", YMap [("name", YString (ro_Name o)); ("namespace", YString (ro_Namespace o));
         ("labels", YMap (map (fun l => (l.1, YString l.2)) (map_to_list (ro_Labels o))))])].
Lemma string_fields_strings l : string_fields (map (fun l => (l.1, YString l.2)) l) = Some l.
Proof. induction l as [|[k v] l IH]; [done|]. cbn [map string_fields]. cbn. by rewrite IH. Qed.
Lemma demo_convert_metadata o u : demo_convert o = Ok u ->
  GetName u = ro_Name o /\ GetLabels u = ro_Labels o.
Proof.
  intros [= <-]. split; [done|]. unfold GetLabels, NestedNullCoercingStringMap.
  lazymatch goal with |- context [nested_field ?v ?f] =>
    assert (nested_field v f = Some (YMap (map (fun l => (l.1, YString l.2)) (map_to_list (ro_Labels o))))) as ->
      by reflexivity end.
  rewrite string_fields_strings. apply list_to_map_to_list.
Qed.

Lemma PodsRun_managed_witness :
  let tr := (traced demo_cluster (PodsRun demo_convert "" "web" "nginx" 80)).1 in
  map (fun a => GetKind a.2) (applied tr) = ["Pod"; "Service"; "Route"] /\
  Forall (fun a => is_managed (GetLabels a.2) = true) (applied tr).
Proof.
  split; [by vm_compute|]. eapply Forall_impl.
  - eapply (PodsRun_managed demo_convert demo_convert_metadata "" "web" "nginx" 80); [done|apply traced_runs].
  - by intros a (_ & H & _).
Defined.

Lemma PodsExec_running_witness :
  let p := PodsExec "" "web" "" ["ls"] in
  let tr := (traced demo_cluster p).1 in
  Ev (KPodExec "shop" "web" "sidecar" ["ls"]) (Ok ("out", "")) ∈ tr /\
  Forall (fun e => let 'Ev c _ := e in match c with KPodExec _ n _ _ => n = "web" | c => reads_only c end) tr.
Proof.
  split; [vm_compute; set_solver|]. eapply Forall_impl.
  - eapply (PodsExec_running "" "web" "" ["ls"]). apply traced_runs.
  - intros [R c r]. destruct c; try done. by intros [-> _].
Defined.

Lemma ResourcesList_scope_witness :
  let p := ResourcesList Pod_GVK "" (mkListOpts (mkSelectors "" "") false) in
  let tr := (traced demo_cluster p).1 in
  Ev (KList (mkGVR "" "v1" "pods") "shop" (mkSelectors "" "")) (Ok [demo_pod]) ∈ tr /\
  Forall (fun e => let 'Ev c _ := e in
    match c with KList gvr ns s => list_scope tr Pod_GVK "" gvr ns | c => reads_only c end) tr.
Proof.
  split; [vm_compute; set_solver|]. eapply Forall_impl.
  - eapply (ResourcesList_scope Pod_GVK "" (mkListOpts (mkSelectors "" "") false)). apply traced_runs.
  - intros [R c r]. destruct c; try done; try (intros _; by intros []). by intros [_ H].
Defined.

Lemma ResourcesScale_writes_witness :
  let p := ResourcesScale (mkGVK "apps" "v1" "Deployment") "" "web" 3 true in
  let tr := (traced demo_cluster p).1 in
  length tr = 4 /\
  Forall (fun e => let 'Ev c _ := e in
    match c with KUpdate _ _ obj _ => nested_field (YMap obj) ["spec"; "replicas"] = Some (YInt64 3)
               | c => reads_only c end) tr.
Proof.
  split; [by vm_compute|]. eapply Forall_impl.
  - eapply (ResourcesScale_writes (mkGVK "apps" "v1" "Deployment") "" "web" 3 true). apply traced_runs.
  - intros [R c r]. destruct c; try done. by intros (_ & _ & scale & _ & H & _).
Defined.
