(* ===== verification/Params.v ===== *)
(** pkg/api/params.go: extraction of tool arguments, and the sticky-error wrapper
    [Params] the tool handlers use.  The arguments are the decoded JSON object
    [GetArguments()]. *)
From Stdlib Require Import Floats.SpecFloat.
From S2P Require Import Prelude GoStrings Api.

Abbreviation arguments := (gmap string jvalue).

(** * Definitions *)

(** A number rounded toward zero; [None] for the values that are no number. *)
Definition f64_trunc (f : spec_float) : option Z :=
  match f with
  | S754_zero _ => Some 0%Z
  | S754_finite s m e =>
      let a := if (0 <=? e)%Z then (Zpos m * 2 ^ e)%Z else (Zpos m / 2 ^ (- e))%Z in
      Some (if s then (- a)%Z else a)
  | S754_infinity _ | S754_nan => None
  end.

(** The text of [ErrInvalidInt64Type.Error()]. *)
Definition ErrInvalidInt64Type (v : jvalue) : error :=
  ErrNew (fmt ["expected integer, got "; go_type_name v]).

(** ** Parameters of the section: the result of the conversion [int64(v)] when
    the truncated value does not fit, which the Go specification leaves to the
    implementation. *)
Section ParseInt64.
Context (f64_overflow : spec_float -> Z).

Definition f64_to_int64 (f : spec_float) : Z :=
  match f64_trunc f with
  | Some z => if decide (in_int64 z) then z else f64_overflow f
  | None => f64_overflow f
  end.

Definition ParseInt64 (value : jvalue) : result Z :=
  match value with
  | JFloat64 v => Ok (f64_to_int64 v)
  | JInt v => Ok v
  | JInt64 v => Ok v
  | _ => Err (ErrInvalidInt64Type value)
  end.
End ParseInt64.

Definition RequiredString (args : arguments) (key : string) : result string :=
  match args !! key with
  | None => Err (ErrNew (fmt [key; " parameter required"]))
  | Some (JString s) => Ok s
  | Some _ => Err (ErrNew (fmt [key; " parameter must be a string"]))
  end.

(** The unexported, type-strict variants.  They return the default next to the
    error; the callers below return the default in that case too. *)
Definition optionalString (args : arguments) (key defaultVal : string) : result string :=
  match args !! key with
  | None => Ok defaultVal
  | Some (JString s) => Ok s
  | Some _ => Err (ErrNew (fmt [key; " parameter must be a string"]))
  end.

Definition optionalBool (args : arguments) (key : string) (defaultVal : bool) : result bool :=
  match args !! key with
  | None => Ok defaultVal
  | Some (JBool b) => Ok b
  | Some _ => Err (ErrNew (fmt [key; " parameter must be a boolean"]))
  end.

(** The deprecated package functions: a wrong type silently gives the default. *)
Definition OptionalString (args : arguments) (key defaultVal : string) : string :=
  match optionalString args key defaultVal with Ok s => s | Err _ => defaultVal end.
Definition OptionalBool (args : arguments) (key : string) (defaultVal : bool) : bool :=
  match optionalBool args key defaultVal with Ok b => b | Err _ => defaultVal end.

(** ** The sticky-error wrapper *)

Record Params := mkParams {
  p_arguments : arguments;
  p_err : option error;
}.

Definition WrapParams (args : arguments) : Params := mkParams args None.
Definition Params_Err (p : Params) : option error := p_err p.

Definition set_err (p : Params) (e : error) : Params := mkParams (p_arguments p) (Some e).

(** The methods of [*Params] return a value and update [p.err]. *)
Definition Params_RequiredString (key : string) : ST Params string := fun p =>
  match p_err p with
  | Some _ => ("", p)
  | None =>
      match RequiredString (p_arguments p) key with
      | Ok v => (v, p)
      | Err e => ("", set_err p e)
      end
  end.

Definition Params_OptionalString (key defaultVal : string) : ST Params string := fun p =>
  match p_err p with
  | Some _ => (defaultVal, p)
  | None =>
      match optionalString (p_arguments p) key defaultVal with
      | Ok v => (v, p)
      | Err e => (defaultVal, set_err p e)
      end
  end.

Definition Params_OptionalBool (key : string) (defaultVal : bool) : ST Params bool := fun p =>
  match p_err p with
  | Some _ => (defaultVal, p)
  | None =>
      match optionalBool (p_arguments p) key defaultVal with
      | Ok v => (v, p)
      | Err e => (defaultVal, set_err p e)
      end
  end.

Definition Params_OptionalInt64 (ovf : spec_float -> Z) (key : string) (defaultVal : Z) :
    ST Params Z := fun p =>
  match p_err p with
  | Some _ => (defaultVal, p)
  | None =>
      match p_arguments p !! key with
      | None | Some JNull => (defaultVal, p)
      | Some val =>
          match ParseInt64 ovf val with
          | Ok v => (v, p)
          | Err e =>
              (defaultVal,
               set_err p (ErrWrap [inl (fmt [key; " parameter must be an integer: "]); inr e]))
          end
      end
  end.

(** ** A handler's extraction phase: a sequence of method calls *)

Inductive extraction : Type :=
| XRequiredString (key : string)
| XOptionalString (key defaultVal : string)
| XOptionalBool (key : string) (defaultVal : bool)
| XOptionalInt64 (key : string) (defaultVal : Z).

Section Extractions.
Context (ovf : spec_float -> Z).

Definition run_extraction (x : extraction) (p : Params) : Params :=
  match x with
  | XRequiredString k => snd (Params_RequiredString k p)
  | XOptionalString k d => snd (Params_OptionalString k d p)
  | XOptionalBool k d => snd (Params_OptionalBool k d p)
  | XOptionalInt64 k d => snd (Params_OptionalInt64 ovf k d p)
  end.

Definition run_extractions (xs : list extraction) (p : Params) : Params :=
  foldl (fun p x => run_extraction x p) p xs.

(** The specification of one call: the error it would record on its own. *)
Definition extraction_error (args : arguments) (x : extraction) : option error :=
  match x with
  | XRequiredString k =>
      match args !! k with
      | Some (JString _) => None
      | Some _ => Some (ErrNew (fmt [k; " parameter must be a string"]))
      | None => Some (ErrNew (fmt [k; " parameter required"]))
      end
  | XOptionalString k _ =>
      match args !! k with
      | Some (JString _) | None => None
      | Some _ => Some (ErrNew (fmt [k; " parameter must be a string"]))
      end
  | XOptionalBool k _ =>
      match args !! k with
      | Some (JBool _) | None => None
      | Some _ => Some (ErrNew (fmt [k; " parameter must be a boolean"]))
      end
  | XOptionalInt64 k _ =>
      match args !! k with
      | Some JNull | Some (JFloat64 _) | Some (JInt _) | Some (JInt64 _) | None => None
      | Some v => Some (ErrWrap [inl (fmt [k; " parameter must be an integer: "]);
                                 inr (ErrInvalidInt64Type v)])
      end
  end.
End Extractions.

(** The Go invariant of the arguments: the integers of [JInt] and [JInt64]
    values are 64-bit. *)
Definition arguments_wf (args : arguments) : Prop :=
  map_Forall (fun _ v => match v with JInt z | JInt64 z => in_int64 z | _ => True end) args.

(** * Lemmas *)

Lemma run_extraction_arguments ovf x p : p_arguments (run_extraction ovf x p) = p_arguments p.
Proof.
  destruct x; cbn; unfold Params_RequiredString, Params_OptionalString,
    Params_OptionalBool, Params_OptionalInt64; repeat case_match; done.
Qed.

Lemma run_extraction_sticky ovf x p e : p_err p = Some e -> run_extraction ovf x p = p.
Proof.
  intros H. destruct x; cbn; unfold Params_RequiredString, Params_OptionalString,
    Params_OptionalBool, Params_OptionalInt64; by rewrite H.
Qed.

Lemma run_extractions_sticky ovf xs p e : p_err p = Some e -> run_extractions ovf xs p = p.
Proof.
  intros H. induction xs as [|x xs IH]; [done|]. cbn.
  by rewrite (run_extraction_sticky _ _ _ e).
Qed.

Lemma run_extraction_fresh ovf x args :
  run_extraction ovf x (WrapParams args) = mkParams args (extraction_error args x).
Proof.
  unfold WrapParams. destruct x as [k|k d|k d|k d]; cbn -[ParseInt64];
    unfold Params_RequiredString, Params_OptionalString, Params_OptionalBool,
      Params_OptionalInt64, RequiredString, optionalString, optionalBool, set_err;
    cbn -[ParseInt64]; destruct (args !! k) as [[]|]; done.
Qed.

(** A call that leaves no error leaves the wrapper as it was, and its value is that of
    the arguments. *)
Lemma RequiredString_ok key p v p' :
  Params_RequiredString key p = (v, p') -> p_err p' = None -> p = p' /\ p_arguments p' !! key = Some (JString v).
Proof.
  unfold Params_RequiredString, RequiredString, set_err. intros H He.
  repeat case_match; simplify_eq/=; done.
Qed.
Lemma OptionalString_ok key d p v p' :
  Params_OptionalString key d p = (v, p') -> p_err p' = None ->
  p = p' /\ match p_arguments p' !! key with Some a => a = JString v | None => v = d end.
Proof.
  unfold Params_OptionalString, optionalString, set_err. intros H He.
  repeat case_match; simplify_eq/=; done.
Qed.
Lemma OptionalBool_ok key d p v p' :
  Params_OptionalBool key d p = (v, p') -> p_err p' = None -> p = p'.
Proof.
  unfold Params_OptionalBool, optionalBool, set_err. intros H He. repeat case_match; simplify_eq/=; done.
Qed.
Lemma OptionalInt64_ok ovf key d p v p' :
  Params_OptionalInt64 ovf key d p = (v, p') -> p_err p' = None -> p = p'.
Proof. unfold Params_OptionalInt64, set_err. intros H He. repeat case_match; simplify_eq/=; done. Qed.

Lemma f64_to_int64_bounds ovf f :
  (forall g, in_int64 (ovf g)) -> in_int64 (f64_to_int64 ovf f).
Proof.
  intros H. unfold f64_to_int64. case_match; [case_decide; auto|auto].
Qed.

(** The error a handler sees after its whole extraction phase is the error of
    the first call that fails, whatever the later calls do. *)
Lemma run_extractions_err ovf xs args :
  p_err (run_extractions ovf xs (WrapParams args)) = first_error (map (extraction_error args) xs).
Proof.
  induction xs as [|x xs IH]; [done|].
  cbn [map]. rewrite first_error_cons. cbn [run_extractions foldl].
  rewrite run_extraction_fresh.
  destruct (extraction_error args x) as [e|].
  - change (p_err (run_extractions ovf xs (mkParams args (Some e))) = Some e).
    by rewrite (run_extractions_sticky _ _ _ e).
  - exact IH.
Qed.
