(* ===== verification/CniDiagnostics.v ===== *)
(** pkg/toolsets/cni-diagnostics: the handlers that run kernel and packet-capture
    commands on nodes through an upstream MCP server.  Each handler is the whole
    handler: the extraction of its parameters, the validation, the creation of
    the upstream server and the one call of it.  The upstream server and the
    effects it has on the cluster (a world [W]) are parameters. *)
From Stdlib Require Import Floats.SpecFloat.
From S2P Require Import Prelude GoStrings Api Params.

(** * Definitions *)

(** ** config/config.go *)

Definition DefaultNetshootImage : string := "nicolaka/netshoot:v0.16".
Definition DefaultPwruImage : string := "docker.io/cilium/pwru:v1.0.10".

Record CniConfig := mkCniConfig {
  cni_KernelDebugImage : string;
  cni_TcpdumpImage : string;
  cni_PwruImage : string;
}.

Definition CniConfig_Validate (c : option CniConfig) : option error :=
  match c with
  | None => Some (ErrNew "cni-diagnostics config is nil")
  | Some _ => None
  end.

(** The value [GetToolsetConfig("cni-diagnostics")] gives: an interface that may
    hold another type; [ExtCni None] is a typed nil pointer. *)
Inductive ExtendedConfigValue : Type :=
| ExtCni (c : option CniConfig)
| ExtOtherType.

Definition CniGetConfig (toolset_config : option ExtendedConfigValue) : option CniConfig :=
  match toolset_config with
  | Some (ExtCni c) => c
  | _ => None
  end.

(** The parser, given the outcome of [md.PrimitiveDecode]. *)
Definition cnidiagnosticsToolsetParser (decoded : result CniConfig) : result CniConfig :=
  match decoded with
  | Err e => Err e
  | Ok cfg =>
      Ok {| cni_KernelDebugImage :=
              if cni_KernelDebugImage cfg =?s "" then DefaultNetshootImage
              else cni_KernelDebugImage cfg;
            cni_TcpdumpImage :=
              if cni_TcpdumpImage cfg =?s "" then DefaultNetshootImage
              else cni_TcpdumpImage cfg;
            cni_PwruImage :=
              if cni_PwruImage cfg =?s "" then DefaultPwruImage
              else cni_PwruImage cfg |}
  end.

Definition KernelDebugImage (tc : option ExtendedConfigValue) : string :=
  match CniGetConfig tc with
  | Some c => cni_KernelDebugImage c
  | None => DefaultNetshootImage
  end.
Definition TcpdumpImage (tc : option ExtendedConfigValue) : string :=
  match CniGetConfig tc with
  | Some c => cni_TcpdumpImage c
  | None => DefaultNetshootImage
  end.
Definition PwruImage (tc : option ExtendedConfigValue) : string :=
  match CniGetConfig tc with
  | Some c => cni_PwruImage c
  | None => DefaultPwruImage
  end.

(** ** utils/utils.go *)

(** What a handler returns: Go's pair [(result, error)]. *)
Definition handler_return : Type := ToolCallResult * option error.

(** A step of a handler either goes on with a value or returns. *)
Definition step (A : Type) : Type := A + handler_return.

Definition ParamsErrorResult (p : Params) : option handler_return :=
  match Params_Err p with
  | Some err => Some (NewToolCallResult "" (Some (wrapf "invalid parameters: " err)), None)
  | None => None
  end.

Definition ValidationErrorResult (message : string) : handler_return :=
  (NewToolCallResult "" (Some (ErrNew message)), None).

Record HeadTailParams := mkHeadTail { ht_Head : Z; ht_Tail : Z; ht_ApplyTailFirst : bool }.
Definition HeadTailParams_zero : HeadTailParams := mkHeadTail 0 0 false.

Definition ValidateHeadTail (ht : HeadTailParams) (head tail : Z) (applyTailFirst : bool) :
    step HeadTailParams :=
  if (0 <=? head)%Z then
    if (0 <=? tail)%Z then
      inl (mkHeadTail head tail (if applyTailFirst then true else ht_ApplyTailFirst ht))
    else inr (ValidationErrorResult "tail must be greater than or equal to 0")
  else inr (ValidationErrorResult "head must be greater than or equal to 0").

(** [timeout.MaxTimeout] of the upstream module, in seconds. *)
Definition MaxTimeoutSeconds : Z := 300%Z.

(** [uint32(...)] wraps around. *)
Definition ValidateTimeout (timeoutSecs : Z) : step Z :=
  if (0 <=? timeoutSecs)%Z
  then inl (uint32_of (Z.min timeoutSecs MaxTimeoutSeconds))
  else inr (ValidationErrorResult "timeout_seconds must be greater than or equal to 0").

Definition NormalizeBoundedInt (fieldName : string) (value maxVal defaultWhenZero : Z) : step Z :=
  if (0 <=? value)%Z then
    let value := Z.min value maxVal in
    inl (if (value =? 0)%Z then defaultWhenZero else value)
  else inr (ValidationErrorResult (fmt [fieldName; " must be greater than or equal to 0"])).

Definition FormatCommandOutput (output stderr : string) : string :=
  if stderr =?s "" then output
  else fmt ["-- stdout --"; nl; output; nl; "-- stderr --"; nl; stderr].

(** ** The upstream server's parameter types and constants *)

Record CommonParams := mkCommon { cp_Node : string; cp_Namespace : string }.

Record ListConntrackParams := mkConntrack {
  lc_Common : CommonParams; lc_Command : string; lc_FilterParameters : string;
  lc_HeadTail : HeadTailParams; lc_TimeoutSeconds : Z }.
Record ListIPTablesParams := mkIPTables {
  li_Common : CommonParams; li_Table : string; li_Command : string;
  li_FilterParameters : string; li_HeadTail : HeadTailParams; li_TimeoutSeconds : Z }.
Record ListNFTParams := mkNFT {
  ln_Common : CommonParams; ln_Command : string; ln_AddressFamilies : string;
  ln_HeadTail : HeadTailParams; ln_TimeoutSeconds : Z }.
Record ListIPParams := mkIP {
  lp_Common : CommonParams; lp_Options : string; lp_Command : string;
  lp_FilterParameters : string; lp_HeadTail : HeadTailParams; lp_TimeoutSeconds : Z }.
Record TcpdumpParams := mkTcpdump {
  td_BPFFilter : string; td_TargetType : string; td_Name : string; td_Namespace : string;
  td_ContainerName : string; td_Interface : string; td_PacketCount : Z; td_Snaplen : Z;
  td_TimeoutSeconds : Z }.
Record PwruParams := mkPwru {
  pw_BPFFilter : string; pw_NodeName : string; pw_NodePodNamespace : string;
  pw_OutputLimitLines : Z; pw_TimeoutSeconds : Z }.

Definition MaxPacketCount : Z := 1000%Z.
Definition DefaultPacketCount : Z := 100%Z.
Definition MaxSnaplen : Z := 1500%Z.
Definition DefaultSnaplen : Z := 96%Z.
Definition MaxOutputLimitLines : Z := 1000%Z.
Definition DefaultOutputLimitLines : Z := 100%Z.

(** The upstream MCP servers: the calls the handlers make, with their effect on
    the world. *)
Record KernelMCPServer (W : Type) := mkKernelServer {
  ks_GetConntrack : ListConntrackParams -> ST W (result string);
  ks_GetIptables : ListIPTablesParams -> ST W (result string);
  ks_GetNFT : ListNFTParams -> ST W (result string);
  ks_GetIPCommandOutput : ListIPParams -> ST W (result string) }.
Arguments ks_GetConntrack {W} _ _.
Arguments ks_GetIptables {W} _ _.
Arguments ks_GetNFT {W} _ _.
Arguments ks_GetIPCommandOutput {W} _ _.

Record NetworkMCPServer (W : Type) := mkNetworkServer {
  ns_Tcpdump : TcpdumpParams -> ST W (result (string * string));
  ns_Pwru : PwruParams -> ST W (result (string * string)) }.
Arguments ns_Tcpdump {W} _ _.
Arguments ns_Pwru {W} _ _.

(** ** kernel/tools.go and network-tools/tools.go *)

(** What a handler reads of [api.ToolHandlerParams]: the arguments, and the
    configuration of the toolset. *)
Section Handlers.
Context (ovf : spec_float -> Z) (W : Type).
(** [NewKernelMCPServer] and [NewNetworkToolsMCPServer], by image. *)
Context (NewKernelMCPServer : string -> result (KernelMCPServer W)).
Context (NewNetworkToolsMCPServer_tcpdump : string -> result (NetworkMCPServer W)).
Context (NewNetworkToolsMCPServer_pwru : string -> result (NetworkMCPServer W)).
Context (tc : option ExtendedConfigValue).

Definition server_error (err : error) : handler_return :=
  (NewToolCallResult "" (Some (wrapf "failed to create MCP server: " err)), None).

(** The end of every handler: the upstream call's result as a tool result. *)
Definition finish {D} (what : string) (render : D -> string) (r : result D) : handler_return :=
  match r with
  | Err err => (NewToolCallResult "" (Some (wrapf what err)), None)
  | Ok d => (NewToolCallResult (render d) None, None)
  end.

Definition conntrackHandler (args : arguments) : ST W handler_return := fun w =>
  let p := WrapParams args in
  let '(node, p) := Params_RequiredString "node" p in
  let '(namespace, p) := Params_OptionalString "namespace" "" p in
  let '(command, p) := Params_OptionalString "command" "" p in
  let '(filterParams, p) := Params_OptionalString "filter_parameters" "" p in
  let '(head, p) := Params_OptionalInt64 ovf "head" 0 p in
  let '(tail, p) := Params_OptionalInt64 ovf "tail" 0 p in
  let '(applyTailFirst, p) := Params_OptionalBool "apply_tail_first" false p in
  let '(timeoutSecs, p) := Params_OptionalInt64 ovf "timeout_seconds" 0 p in
  match ParamsErrorResult p with Some r => (r, w) | None =>
  match ValidateHeadTail HeadTailParams_zero head tail applyTailFirst with
  | inr r => (r, w) | inl ht =>
  match ValidateTimeout timeoutSecs with inr r => (r, w) | inl secs =>
  match NewKernelMCPServer (KernelDebugImage tc) with
  | Err err => (server_error err, w)
  | Ok server =>
      let '(r, w) := ks_GetConntrack server
        (mkConntrack (mkCommon node namespace) command filterParams ht secs) w in
      (finish "failed to get conntrack data: " id r, w)
  end end end end.

Definition iptablesHandler (args : arguments) : ST W handler_return := fun w =>
  let p := WrapParams args in
  let '(node, p) := Params_RequiredString "node" p in
  let '(namespace, p) := Params_OptionalString "namespace" "" p in
  let '(command, p) := Params_OptionalString "command" "-L" p in
  let '(table, p) := Params_OptionalString "table" "" p in
  let '(filterParams, p) := Params_OptionalString "filter_parameters" "" p in
  let '(head, p) := Params_OptionalInt64 ovf "head" 0 p in
  let '(tail, p) := Params_OptionalInt64 ovf "tail" 0 p in
  let '(applyTailFirst, p) := Params_OptionalBool "apply_tail_first" false p in
  let '(timeoutSecs, p) := Params_OptionalInt64 ovf "timeout_seconds" 0 p in
  match ParamsErrorResult p with Some r => (r, w) | None =>
  match ValidateHeadTail HeadTailParams_zero head tail applyTailFirst with
  | inr r => (r, w) | inl ht =>
  match ValidateTimeout timeoutSecs with inr r => (r, w) | inl secs =>
  match NewKernelMCPServer (KernelDebugImage tc) with
  | Err err => (server_error err, w)
  | Ok server =>
      let '(r, w) := ks_GetIptables server
        (mkIPTables (mkCommon node namespace) table command filterParams ht secs) w in
      (finish "failed to get iptables data: " id r, w)
  end end end end.

Definition nftHandler (args : arguments) : ST W handler_return := fun w =>
  let p := WrapParams args in
  let '(node, p) := Params_RequiredString "node" p in
  let '(namespace, p) := Params_OptionalString "namespace" "" p in
  let '(command, p) := Params_RequiredString "command" p in
  let '(addressFamilies, p) := Params_OptionalString "address_families" "" p in
  let '(head, p) := Params_OptionalInt64 ovf "head" 0 p in
  let '(tail, p) := Params_OptionalInt64 ovf "tail" 0 p in
  let '(applyTailFirst, p) := Params_OptionalBool "apply_tail_first" false p in
  let '(timeoutSecs, p) := Params_OptionalInt64 ovf "timeout_seconds" 0 p in
  match ParamsErrorResult p with Some r => (r, w) | None =>
  match ValidateHeadTail HeadTailParams_zero head tail applyTailFirst with
  | inr r => (r, w) | inl ht =>
  match ValidateTimeout timeoutSecs with inr r => (r, w) | inl secs =>
  match NewKernelMCPServer (KernelDebugImage tc) with
  | Err err => (server_error err, w)
  | Ok server =>
      let '(r, w) := ks_GetNFT server
        (mkNFT (mkCommon node namespace) command addressFamilies ht secs) w in
      (finish "failed to get nftables data: " id r, w)
  end end end end.

Definition ipHandler (args : arguments) : ST W handler_return := fun w =>
  let p := WrapParams args in
  let '(node, p) := Params_RequiredString "node" p in
  let '(namespace, p) := Params_OptionalString "namespace" "" p in
  let '(command, p) := Params_RequiredString "command" p in
  let '(options, p) := Params_OptionalString "options" "" p in
  let '(filterParams, p) := Params_OptionalString "filter_parameters" "" p in
  let '(head, p) := Params_OptionalInt64 ovf "head" 0 p in
  let '(tail, p) := Params_OptionalInt64 ovf "tail" 0 p in
  let '(applyTailFirst, p) := Params_OptionalBool "apply_tail_first" false p in
  let '(timeoutSecs, p) := Params_OptionalInt64 ovf "timeout_seconds" 0 p in
  match ParamsErrorResult p with Some r => (r, w) | None =>
  match ValidateHeadTail HeadTailParams_zero head tail applyTailFirst with
  | inr r => (r, w) | inl ht =>
  match ValidateTimeout timeoutSecs with inr r => (r, w) | inl secs =>
  match NewKernelMCPServer (KernelDebugImage tc) with
  | Err err => (server_error err, w)
  | Ok server =>
      let '(r, w) := ks_GetIPCommandOutput server
        (mkIP (mkCommon node namespace) options command filterParams ht secs) w in
      (finish "failed to get ip command output: " id r, w)
  end end end end.

Definition tcpdumpHandler (args : arguments) : ST W handler_return := fun w =>
  let p := WrapParams args in
  let '(targetType, p) := Params_RequiredString "target_type" p in
  let '(name, p) := Params_RequiredString "name" p in
  let '(namespace, p) := Params_OptionalString "namespace" "" p in
  let '(containerName, p) := Params_OptionalString "container_name" "" p in
  let '(iface, p) := Params_OptionalString "interface" "" p in
  let '(packetCount, p) := Params_OptionalInt64 ovf "packet_count" 0 p in
  let '(bpfFilter, p) := Params_OptionalString "bpf_filter" "" p in
  let '(snaplen, p) := Params_OptionalInt64 ovf "snaplen" 0 p in
  let '(timeoutSecs, p) := Params_OptionalInt64 ovf "timeout_seconds" 0 p in
  match ParamsErrorResult p with Some r => (r, w) | None =>
  if (targetType ≠?s "node") && (targetType ≠?s "pod") then
    (ValidationErrorResult "target_type must be 'node' or 'pod'", w)
  else if name =?s "" then
    (ValidationErrorResult
       (fmt ["name is required when target_type is '"; targetType; "'"]), w)
  else if (targetType =?s "pod") && (namespace =?s "") then
    (ValidationErrorResult "namespace is required when target_type is 'pod'", w)
  else
  match NormalizeBoundedInt "packet_count" packetCount MaxPacketCount DefaultPacketCount with
  | inr r => (r, w) | inl packetCount =>
  match NormalizeBoundedInt "snaplen" snaplen MaxSnaplen DefaultSnaplen with
  | inr r => (r, w) | inl snaplen =>
  match ValidateTimeout timeoutSecs with inr r => (r, w) | inl secs =>
  match NewNetworkToolsMCPServer_tcpdump (TcpdumpImage tc) with
  | Err err => (server_error err, w)
  | Ok server =>
      let '(r, w) := ns_Tcpdump server
        (mkTcpdump bpfFilter targetType name namespace containerName iface
           packetCount snaplen secs) w in
      (finish "failed to capture packets: " (fun d => FormatCommandOutput d.1 d.2) r, w)
  end end end end end.

Definition pwruHandler (args : arguments) : ST W handler_return := fun w =>
  let p := WrapParams args in
  let '(nodeName, p) := Params_RequiredString "node_name" p in
  let '(nodePodNamespace, p) := Params_OptionalString "node_pod_namespace" "" p in
  let '(bpfFilter, p) := Params_OptionalString "bpf_filter" "" p in
  let '(outputLimitLines, p) := Params_OptionalInt64 ovf "output_limit_lines" 0 p in
  let '(timeoutSecs, p) := Params_OptionalInt64 ovf "timeout_seconds" 0 p in
  match ParamsErrorResult p with Some r => (r, w) | None =>
  match NormalizeBoundedInt "output_limit_lines" outputLimitLines
          MaxOutputLimitLines DefaultOutputLimitLines with
  | inr r => (r, w) | inl outputLimitLines =>
  match ValidateTimeout timeoutSecs with inr r => (r, w) | inl secs =>
  match NewNetworkToolsMCPServer_pwru (PwruImage tc) with
  | Err err => (server_error err, w)
  | Ok server =>
      let '(r, w) := ns_Pwru server
        (mkPwru bpfFilter nodeName nodePodNamespace outputLimitLines secs) w in
      (finish "failed to trace packets: " (fun d => FormatCommandOutput d.1 d.2) r, w)
  end end end end.
End Handlers.

(** ** What the upstream server may be called with *)

Definition HeadTail_ok (ht : HeadTailParams) : Prop := (0 <= ht_Head ht /\ 0 <= ht_Tail ht)%Z.
Definition Timeout_ok (secs : Z) : Prop := (0 <= secs <= MaxTimeoutSeconds)%Z.
Definition Tcpdump_ok (ps : TcpdumpParams) : Prop :=
  (td_TargetType ps = "node" \/ td_TargetType ps = "pod" /\ td_Namespace ps <> "") /\
  td_Name ps <> "" /\ (1 <= td_PacketCount ps <= MaxPacketCount)%Z /\
  (1 <= td_Snaplen ps <= MaxSnaplen)%Z /\ Timeout_ok (td_TimeoutSeconds ps).
Definition Pwru_ok (ps : PwruParams) : Prop :=
  (1 <= pw_OutputLimitLines ps <= MaxOutputLimitLines)%Z /\ Timeout_ok (pw_TimeoutSeconds ps).

(** A handler run refines: either it changes nothing and reports an error in
    the tool result, or it makes one upstream call, with acceptable
    parameters, and its result is that call's.  The Go error is always nil. *)
Definition one_checked_call {W S P D} (server : result S) (call : S -> P -> ST W (result D))
    (valid : P -> Prop) (what : string) (render : D -> string)
    (h : ST W handler_return) : Prop :=
  forall w,
    ((h w).2 = w /\ is_Some (tcr_Error (h w).1.1) /\ (h w).1.2 = None) \/
    (exists s ps, server = Ok s /\ valid ps /\
       h w = (finish what render (call s ps w).1, (call s ps w).2)).

(** * Lemmas *)

Lemma ParamsErrorResult_error p r :
  ParamsErrorResult p = Some r -> is_Some (tcr_Error r.1) /\ r.2 = None.
Proof. unfold ParamsErrorResult. intros ?. case_match; simplify_eq; cbn; eauto. Qed.

Lemma ValidateHeadTail_inl ht head tail b ht' :
  ValidateHeadTail ht head tail b = inl ht' -> HeadTail_ok ht'.
Proof.
  unfold ValidateHeadTail, HeadTail_ok. intros H.
  destruct (Z.leb_spec 0 head); [|done]. destruct (Z.leb_spec 0 tail); [|done].
  by simplify_eq.
Qed.

Lemma ValidateHeadTail_inr ht head tail b r :
  ValidateHeadTail ht head tail b = inr r -> is_Some (tcr_Error r.1) /\ r.2 = None.
Proof. unfold ValidateHeadTail. intros ?. repeat case_match; simplify_eq; cbn; eauto. Qed.

Lemma ValidateTimeout_inl t secs :
  ValidateTimeout t = inl secs -> secs = Z.min t MaxTimeoutSeconds /\ Timeout_ok secs.
Proof.
  unfold ValidateTimeout, Timeout_ok. destruct (Z.leb_spec 0 t); [|done].
  intros [= <-]. unfold MaxTimeoutSeconds. rewrite uint32_of_small by lia. lia.
Qed.

Lemma ValidateTimeout_inr t r :
  ValidateTimeout t = inr r -> is_Some (tcr_Error r.1) /\ r.2 = None.
Proof. unfold ValidateTimeout. intros ?. repeat case_match; simplify_eq; cbn; eauto. Qed.

Lemma NormalizeBoundedInt_inl f v mx d v' :
  (1 <= d <= mx)%Z -> NormalizeBoundedInt f v mx d = inl v' -> (1 <= v' <= mx)%Z.
Proof.
  unfold NormalizeBoundedInt. intros Hd. destruct (Z.leb_spec 0 v); [|done].
  destruct (Z.eqb_spec (Z.min v mx) 0); intros [= <-]; lia.
Qed.

Lemma NormalizeBoundedInt_inr f v mx d r :
  NormalizeBoundedInt f v mx d = inr r -> is_Some (tcr_Error r.1) /\ r.2 = None.
Proof. unfold NormalizeBoundedInt. intros ?. repeat case_match; simplify_eq; cbn; eauto. Qed.

Lemma common_checks ht head tail b ht' t secs :
  ValidateHeadTail ht head tail b = inl ht' -> ValidateTimeout t = inl secs ->
  HeadTail_ok ht' /\ Timeout_ok secs.
Proof. intros ?%ValidateHeadTail_inl [_ ?]%ValidateTimeout_inl. done. Qed.

Lemma target_checks tt name ns :
  (tt ≠?s "node") && (tt ≠?s "pod") = false -> (name =?s "") = false ->
  (tt =?s "pod") && (ns =?s "") = false ->
  (tt = "node" \/ tt = "pod" /\ ns <> "") /\ name <> "".
Proof.
  intros H1 H2 H3. reflect_bools. split; [|done].
  destruct (decide (tt = "node")) as [|Hn]; [by left|right].
  rewrite bool_decide_eq_false_2 in H1 by done.
  destruct (decide (tt = "pod")) as [->|Hp].
  - split; [done|]. intros ->. by cbn in H3.
  - by rewrite bool_decide_eq_false_2 in H1.
Qed.

Lemma tcpdump_checks bpf tt name ns c i n n' s s' t secs :
  (tt ≠?s "node") && (tt ≠?s "pod") = false -> (name =?s "") = false ->
  (tt =?s "pod") && (ns =?s "") = false ->
  NormalizeBoundedInt "packet_count" n MaxPacketCount DefaultPacketCount = inl n' ->
  NormalizeBoundedInt "snaplen" s MaxSnaplen DefaultSnaplen = inl s' ->
  ValidateTimeout t = inl secs -> Tcpdump_ok (mkTcpdump bpf tt name ns c i n' s' secs).
Proof.
  intros H1 H2 H3 Hn%NormalizeBoundedInt_inl Hs%NormalizeBoundedInt_inl
    [_ ?]%ValidateTimeout_inl; [|done..].
  by destruct (target_checks tt name ns).
Qed.

Lemma pwru_checks bpf node ns n n' t secs :
  NormalizeBoundedInt "output_limit_lines" n MaxOutputLimitLines DefaultOutputLimitLines
    = inl n' ->
  ValidateTimeout t = inl secs -> Pwru_ok (mkPwru bpf node ns n' secs).
Proof. by intros ?%NormalizeBoundedInt_inl [_ ?]%ValidateTimeout_inl. Qed.

#[export] Hint Resolve common_checks tcpdump_checks pwru_checks ParamsErrorResult_error ValidateHeadTail_inl ValidateHeadTail_inr
  ValidateTimeout_inr NormalizeBoundedInt_inr : mcp.

(** Walk through a handler: one goal per way out of it. *)
Ltac walk_handler :=
  repeat match goal with
  | |- context [let '(_, _) := ?e in _] => destruct e eqn:?
  | |- context [match ?e with _ => _ end] =>
      match type of e with
      | option handler_return => destruct e eqn:?
      | step _ => destruct e eqn:?
      | result _ => destruct e eqn:?
      | bool => destruct e eqn:?
      end
  end.

Ltac handler_error := left; split; [done|eauto using mk_is_Some with mcp].

(** The last way out: the upstream call is made. *)
Ltac call_made :=
  right; match goal with H : _ ?s ?ps ?w = (_, ?w') |- context [?w'] =>
    exists s, ps; rewrite H end;
  split; [done|]; split; [eauto 10 with mcp|done].

Section HandlerSpecs.
Context (ovf : spec_float -> Z) (W : Type).
Context (KS : string -> result (KernelMCPServer W)).
Context (NT NP : string -> result (NetworkMCPServer W)).
Context (tc : option ExtendedConfigValue) (args : arguments).

(** Every kernel tool calls its upstream operation at most once, and only with
    non-negative head and tail and a timeout of at most five minutes. *)
Theorem kernel_tools_checked :
  one_checked_call (KS (KernelDebugImage tc)) ks_GetConntrack
    (fun ps => HeadTail_ok (lc_HeadTail ps) /\ Timeout_ok (lc_TimeoutSeconds ps))
    "failed to get conntrack data: " id (conntrackHandler ovf W KS tc args) /\
  one_checked_call (KS (KernelDebugImage tc)) ks_GetIptables
    (fun ps => HeadTail_ok (li_HeadTail ps) /\ Timeout_ok (li_TimeoutSeconds ps))
    "failed to get iptables data: " id (iptablesHandler ovf W KS tc args) /\
  one_checked_call (KS (KernelDebugImage tc)) ks_GetNFT
    (fun ps => HeadTail_ok (ln_HeadTail ps) /\ Timeout_ok (ln_TimeoutSeconds ps))
    "failed to get nftables data: " id (nftHandler ovf W KS tc args) /\
  one_checked_call (KS (KernelDebugImage tc)) ks_GetIPCommandOutput
    (fun ps => HeadTail_ok (lp_HeadTail ps) /\ Timeout_ok (lp_TimeoutSeconds ps))
    "failed to get ip command output: " id (ipHandler ovf W KS tc args).
Proof.
  repeat split; intros w;
    unfold conntrackHandler, iptablesHandler, nftHandler, ipHandler; walk_handler;
    try handler_error; call_made.
Qed.

(** The packet-capture tools: the counts are within the bounds of the upstream
    server, a pod target names its namespace. *)
Theorem network_tools_checked :
  one_checked_call (NT (TcpdumpImage tc)) ns_Tcpdump Tcpdump_ok
    "failed to capture packets: " (fun d => FormatCommandOutput d.1 d.2)
    (tcpdumpHandler ovf W NT tc args) /\
  one_checked_call (NP (PwruImage tc)) ns_Pwru Pwru_ok
    "failed to trace packets: " (fun d => FormatCommandOutput d.1 d.2)
    (pwruHandler ovf W NP tc args).
Proof.
  split; intros w; unfold tcpdumpHandler, pwruHandler; walk_handler;
    try handler_error; call_made.
Qed.
End HandlerSpecs.
