(* ===== verification/Confirmation.v ===== *)
(** pkg/api/confirmation.go, pkg/confirmation, pkg/kubernetes/confirmation_validator.go
    and pkg/mcp/elicit.go: rules that ask the user before an action, how they are
    matched, merged into one prompt, and what the answer means.  The MCP
    session's [Elicit] and its effect on the world [W] are a parameter. *)
From S2P Require Import Prelude GoStrings Api.

(** * Definitions *)

Record ConfirmationRule := mkRule {
  cr_Tool : string;
  cr_Destructive : option bool;
  cr_Verb : string;
  cr_Kind : string;
  cr_Group : string;
  cr_Version : string;
  cr_Name : string;
  cr_Namespace : string;
  cr_Message : string;
}.

#[export] Instance ConfirmationRule_eq_dec : EqDecision ConfirmationRule.
Proof. solve_decision. Defined.

Definition IsToolLevel (r : ConfirmationRule) : bool :=
  (cr_Tool r ≠?s "") || match cr_Destructive r with Some _ => true | None => false end.

Definition IsKubeLevel (r : ConfirmationRule) : bool :=
  (cr_Verb r ≠?s "") || (cr_Kind r ≠?s "") || (cr_Group r ≠?s "") ||
  (cr_Version r ≠?s "") || (cr_Name r ≠?s "") || (cr_Namespace r ≠?s "").

Definition ConfirmationRule_Validate (r : ConfirmationRule) : option error :=
  if IsToolLevel r && IsKubeLevel r then
    Some (ErrNew (fmt ["confirmation rule mixes tool-level fields (tool, destructive) with kube-level fields (verb, kind, group, version, name, namespace): "; quote (cr_Message r)]))
  else if negb (IsToolLevel r) && negb (IsKubeLevel r) then
    Some (ErrNew (fmt ["confirmation rule must set at least one tool-level field (tool, destructive) or kube-level field (verb, kind, group, version, name, namespace): "; quote (cr_Message r)]))
  else None.

(** ** confirmation/match.go *)

Fixpoint MatchToolLevelRules (rules : list ConfirmationRule) (toolName : string)
    (destructiveHint : option bool) : list ConfirmationRule :=
  match rules with
  | [] => []
  | r :: rest =>
      let continue := MatchToolLevelRules rest toolName destructiveHint in
      if negb (IsToolLevel r) then continue
      else if (cr_Tool r ≠?s "") && (cr_Tool r ≠?s toolName) then continue
      else match cr_Destructive r with
           | Some d =>
               match destructiveHint with
               | None => continue
               | Some h => if negb (Bool.eqb d h) then continue else r :: continue
               end
           | None => r :: continue
           end
  end.

Fixpoint MatchKubeLevelRules (rules : list ConfirmationRule)
    (verb kind group version name namespace : string) : list ConfirmationRule :=
  match rules with
  | [] => []
  | r :: rest =>
      let continue := MatchKubeLevelRules rest verb kind group version name namespace in
      if negb (IsKubeLevel r) then continue
      else if (cr_Verb r ≠?s "") && (cr_Verb r ≠?s verb) then continue
      else if (cr_Kind r ≠?s "") && (cr_Kind r ≠?s kind) then continue
      else if (cr_Group r ≠?s "") && (cr_Group r ≠?s group) then continue
      else if (cr_Version r ≠?s "") && (cr_Version r ≠?s version) then continue
      else if (cr_Name r ≠?s "") && (cr_Name r ≠?s name) then continue
      else if (cr_Namespace r ≠?s "") && (cr_Namespace r ≠?s namespace) then continue
      else r :: continue
  end.

Definition MergeMatchedRules (matched : list ConfirmationRule) (globalFallback : string) :
    string * string :=
  match matched with
  | [] => ("", globalFallback)
  | [r] => (cr_Message r, globalFallback)
  | _ =>
      (foldl (fun sb r => sb +:+ fmt [nl; "- "; cr_Message r]) "Confirmation required:" matched,
       globalFallback)
  end.

(** ** confirmation/confirmation.go *)

Definition ErrConfirmationDenied_text : string := "action requires confirmation".
Definition ErrConfirmationDenied : error := ErrSentinel ErrConfirmationDenied_text.

Definition isElicitationNotSupported (err : error) : bool :=
  errors_Is ErrElicitationNotSupported_text err.

(** [api.ConfirmationRulesProvider]. *)
Record ConfirmationRulesProvider := mkProvider {
  GetConfirmationRules : list ConfirmationRule;
  GetConfirmationFallback : string;
}.

(** [api.Elicitor]: the message of the prompt to the action the user chose, or
    an error.  The requested schema is the constant empty object. *)
Definition Elicitor (W : Type) : Type := string -> ST W (result string).

Definition CheckConfirmation {W} (elicitor : Elicitor W) (message fallback : string) :
    ST W (option error) := fun w =>
  let '(r, w) := elicitor message w in
  (match r with
   | Err err =>
       if isElicitationNotSupported err then
         if fallback =?s "deny" then Some ErrConfirmationDenied else None
       else Some err
   | Ok action =>
       if action =?s ElicitActionAccept then None else Some ErrConfirmationDenied
   end, w).

Definition CheckToolRules {W} (provider : ConfirmationRulesProvider) (elicitor : Elicitor W)
    (toolName : string) (destructiveHint : option bool) : ST W (option error) := fun w =>
  let matched := MatchToolLevelRules (GetConfirmationRules provider) toolName destructiveHint in
  if Nat.eqb (length matched) 0 then (None, w)
  else
    let '(message, fallback) := MergeMatchedRules matched (GetConfirmationFallback provider) in
    CheckConfirmation elicitor message fallback w.

Definition CheckKubeRules {W} (provider : ConfirmationRulesProvider) (elicitor : Elicitor W)
    (verb kind group version name namespace : string) : ST W (option error) := fun w =>
  let matched := MatchKubeLevelRules (GetConfirmationRules provider)
                   verb kind group version name namespace in
  if Nat.eqb (length matched) 0 then (None, w)
  else
    let '(message, fallback) := MergeMatchedRules matched (GetConfirmationFallback provider) in
    CheckConfirmation elicitor message fallback w.

(** ** The two elicitors: kubernetes/confirmation_validator.go and mcp/elicit.go *)

Definition isElicitationNotSupportedError (err : error) : bool :=
  let msg := error_string err in
  Contains msg "does not support" && Contains msg "elicitation".

(** The session the context carries ([None]: absent, of another type or nil),
    as its [Elicit] operation. *)
Definition contextElicitor_Elicit {W} (session : option (Elicitor W)) : Elicitor W :=
  fun message w =>
    match session with
    | None => (Err (ErrNew "no MCP session found in context"), w)
    | Some elicit =>
        let '(r, w) := elicit message w in
        (match r with
         | Err err =>
             if isElicitationNotSupportedError err
             then Err (ErrWrap [inr ErrElicitationNotSupported; inl ": "; inl (error_string err)])
             else Err err
         | Ok action => Ok action
         end, w)
    end.

Definition sessionElicitor_Elicit {W} (session : option (Elicitor W)) : Elicitor W :=
  fun message w =>
    match session with
    | None => (Err (ErrNew "no MCP session found in context"), w)
    | Some elicit =>
        let '(r, w) := elicit message w in
        (match r with
         | Err err =>
             if Contains (error_string err) "does not support"
                && Contains (error_string err) "elicitation"
             then Err (ErrWrap [inr ErrElicitationNotSupported; inl ": "; inl (error_string err)])
             else Err err
         | Ok action => Ok action
         end, w)
    end.

(** [ConfirmationValidator.Validate]. *)
Definition ConfirmationValidator_Validate {W} (rulesProvider : ConfirmationRulesProvider)
    (session : option (Elicitor W)) (req : HTTPValidationRequest) : ST W (option error) := fun w =>
  let '(kind, group, version) :=
    match vr_GVK req with
    | Some g => (gvk_Kind g, gvk_Group g, gvk_Version g)
    | None => ("", "", "")
    end in
  let '(err, w) :=
    CheckKubeRules rulesProvider (contextElicitor_Elicit session)
      (vr_Verb req) kind group version (vr_ResourceName req) (vr_Namespace req) w in
  (match err with
   | Some e =>
       if errors_Is ErrConfirmationDenied_text e
       then Some (ErrValidation ErrorCodePermissionDenied (error_string e) "")
       else Some e
   | None => None
   end, w).

(** ** Specification *)

(** A field of a rule accepts a value. *)
Definition field_matches (field value : string) : Prop := field = "" \/ field = value.

Definition tool_rule_matches (r : ConfirmationRule) (name : string) (hint : option bool) : Prop :=
  IsToolLevel r = true /\ field_matches (cr_Tool r) name /\
  (cr_Destructive r = None \/ cr_Destructive r = hint).

Definition kube_rule_matches (r : ConfirmationRule)
    (verb kind group version name namespace : string) : Prop :=
  IsKubeLevel r = true /\ field_matches (cr_Verb r) verb /\ field_matches (cr_Kind r) kind /\
  field_matches (cr_Group r) group /\ field_matches (cr_Version r) version /\
  field_matches (cr_Name r) name /\ field_matches (cr_Namespace r) namespace.

#[export] Instance field_matches_dec f v : Decision (field_matches f v).
Proof. unfold field_matches. apply _. Defined.
#[export] Instance tool_rule_matches_dec r n h : Decision (tool_rule_matches r n h).
Proof. unfold tool_rule_matches. apply _. Defined.
#[export] Instance kube_rule_matches_dec r a b c d e f :
  Decision (kube_rule_matches r a b c d e f).
Proof. unfold kube_rule_matches. apply _. Defined.

(** The user, asked with [message] in world [w], lets the action through. *)
Definition confirmed {W} (elicitor : Elicitor W) (message fallback : string) (w : W) : Prop :=
  (elicitor message w).1 = Ok ElicitActionAccept \/
  exists err, (elicitor message w).1 = Err err /\
              isElicitationNotSupported err = true /\ fallback <> "deny".

(** * Lemmas *)

Lemma field_test f v : (f ≠?s "") && (f ≠?s v) = false <-> field_matches f v.
Proof.
  unfold field_matches. rewrite andb_false_iff, !negb_false_iff, !bool_decide_eq_true. done.
Qed.

Lemma MatchToolLevelRules_filter rules name hint :
  MatchToolLevelRules rules name hint = filter (fun r => tool_rule_matches r name hint) rules.
Proof.
  induction rules as [|r rules IH]; [done|]. cbn [MatchToolLevelRules]. rewrite IH.
  rewrite filter_cons.
  destruct (IsToolLevel r) eqn:HT; cbn [negb];
    [|rewrite decide_False; [done|intros (? & _); congruence]].
  destruct ((cr_Tool r ≠?s "") && (cr_Tool r ≠?s name)) eqn:Ht.
  - rewrite decide_False; [done|]. intros (_ & Hm & _). apply field_test in Hm. congruence.
  - apply field_test in Ht.
    destruct (cr_Destructive r) as [[]|] eqn:?, hint as [[]|]; cbn;
      (rewrite decide_True; [done|by unfold tool_rule_matches; auto])
      || (rewrite decide_False; [done|intros (_ & _ & [?|?]); congruence]).
Qed.

Lemma MatchKubeLevelRules_filter rules a b c d e f :
  MatchKubeLevelRules rules a b c d e f = filter (fun r => kube_rule_matches r a b c d e f) rules.
Proof.
  induction rules as [|r rules IH]; [done|]. cbn [MatchKubeLevelRules]. rewrite IH.
  rewrite filter_cons.
  destruct (IsKubeLevel r) eqn:HK; cbn [negb];
    [|rewrite decide_False; [done|intros (? & _); congruence]].
  repeat match goal with
  | |- context [if (?x ≠?s "") && (?x ≠?s ?v) then _ else _] =>
      let H := fresh in
      destruct ((x ≠?s "") && (x ≠?s v)) eqn:H;
      [ rewrite decide_False; [done|];
        intros HF; unfold kube_rule_matches in HF;
        assert (field_matches x v) as Hm%field_test by tauto; congruence
      | apply field_test in H ]
  end.
  rewrite decide_True; [done|by unfold kube_rule_matches].
Qed.

(** The prompt shows the message of every matched rule. *)
Lemma foldl_append_Contains {A} (f : A -> string) l sb x :
  (x ∈ l -> Contains (foldl (fun sb r => sb +:+ f r) sb l) (f x) = true) /\
  (forall t, Contains sb t = true -> Contains (foldl (fun sb r => sb +:+ f r) sb l) t = true).
Proof.
  revert sb; induction l as [|y l IH]; intros sb; cbn [foldl]; [split; set_solver|].
  destruct (IH (sb +:+ f y)) as [IH1 IH2]. split.
  - intros [<-|Hin]%elem_of_cons; [|by apply IH1]. apply IH2. apply Contains_spec.
    exists sb, "". by rewrite append_nil_r.
  - intros t (u & v & ->)%Contains_spec. apply IH2. apply Contains_spec.
    exists u, (v +:+ f y). by rewrite !append_assoc.
Qed.

Lemma Contains_trans s t u : Contains s t = true -> Contains t u = true -> Contains s u = true.
Proof.
  intros (a & b & ->)%Contains_spec (c & d & ->)%Contains_spec. apply Contains_spec.
  exists (a +:+ c), (d +:+ b). by rewrite !append_assoc.
Qed.

Lemma MergeMatchedRules_shows matched fb r :
  r ∈ matched -> Contains (MergeMatchedRules matched fb).1 (cr_Message r) = true.
Proof.
  destruct matched as [|r1 [|r2 m]]; [set_solver| |].
  - intros ->%list_elem_of_singleton. apply Contains_spec. exists "", "". by rewrite append_nil_r.
  - intros Hin. cbn [MergeMatchedRules fst].
    apply (Contains_trans _ (fmt [nl; "- "; cr_Message r])).
    + exact (proj1 (foldl_append_Contains (fun r => fmt [nl; "- "; cr_Message r]) _ _ r) Hin).
    + apply Contains_spec. exists (nl +:+ "- "), "". by rewrite append_nil_r.
Qed.

Lemma MergeMatchedRules_fallback matched fb : (MergeMatchedRules matched fb).2 = fb.
Proof. by destruct matched as [|r1 [|r2 m]]. Qed.

Lemma CheckConfirmation_None {W} (el : Elicitor W) m fb w :
  (CheckConfirmation el m fb w).1 = None <-> confirmed el m fb w.
Proof.
  unfold CheckConfirmation, confirmed. destruct (el m w) as [[a|err] w']; cbn [fst].
  - case_bool_decide as H; split; try done; [by left; rewrite H|].
    intros [[= Ha]|(? & ? & _)]; done.
  - destruct (isElicitationNotSupported err) eqn:He; [case_bool_decide as H|].
    + split; [done|]. intros [?|(? & _ & _ & ?)]; done.
    + split; [|done]. intros _. right. by exists err.
    + split; [done|]. intros [?|(? & [= <-] & ? & ?)]; [done|congruence].
Qed.

(** ** Correctness of the tool-level check *)

Section Outcomes.
Context {W : Type} (provider : ConfirmationRulesProvider).

(** The prompt of a non-empty list of matched rules. *)
Definition prompt (matched : list ConfirmationRule) : string :=
  (MergeMatchedRules matched (GetConfirmationFallback provider)).1.

Lemma check_matched_None (el : Elicitor W) matched w :
  (if Nat.eqb (length matched) 0 then (None, w)
   else let '(message, fallback) := MergeMatchedRules matched (GetConfirmationFallback provider)
        in CheckConfirmation el message fallback w).1 = None <->
  matched = [] \/
  confirmed el (prompt matched) (GetConfirmationFallback provider) w.
Proof.
  destruct (Nat.eqb_spec (length matched) 0) as [->%nil_length_inv|Hne]; [cbn; tauto|].
  unfold prompt. rewrite <-(MergeMatchedRules_fallback matched (GetConfirmationFallback provider)) at 3.
  destruct (MergeMatchedRules matched _) as [m fb]. rewrite CheckConfirmation_None.
  split; [by right|]. intros [->|?]; [done|done].
Qed.


Lemma CheckKubeRules_None (el : Elicitor W) a b c d e f w :
  let matched := filter (fun r => kube_rule_matches r a b c d e f)
                   (GetConfirmationRules provider) in
  (CheckKubeRules provider el a b c d e f w).1 = None <->
     matched = [] \/
     confirmed el (prompt matched) (GetConfirmationFallback provider) w.
Proof.
  intros matched. unfold CheckKubeRules. rewrite MatchKubeLevelRules_filter.
  apply check_matched_None.
Qed.

(** What the MCP session answers: the error the session reports is recognised
    by its text. *)
Definition session_confirmed (session : option (Elicitor W)) (message fallback : string)
    (w : W) : Prop :=
  exists elicit, session = Some elicit /\
    ((elicit message w).1 = Ok ElicitActionAccept \/
     exists err, (elicit message w).1 = Err err /\
       (isElicitationNotSupportedError err = true \/ isElicitationNotSupported err = true) /\
       fallback <> "deny").

Lemma contextElicitor_confirmed (session : option (Elicitor W)) m fb w :
  confirmed (contextElicitor_Elicit session) m fb w <-> session_confirmed session m fb w.
Proof.
  unfold confirmed, session_confirmed, contextElicitor_Elicit.
  destruct session as [el|].
  2:{ split; [intros [?|(? & [= <-] & ? & _)]; done|intros (? & ? & _); done]. }
  transitivity ((el m w).1 = Ok ElicitActionAccept \/
     exists err, (el m w).1 = Err err /\
       (isElicitationNotSupportedError err = true \/ isElicitationNotSupported err = true) /\
       fb <> "deny"); [|split; [by exists el|by intros (? & [= <-] & ?)]].
  destruct (el m w) as [[act|err] w']; cbn [fst].
  { by split; (intros [?|(? & [=] & _)]; left). }
  destruct (isElicitationNotSupportedError err) eqn:Hns;
    split; intros [?|(e & [= <-] & ? & ?)]; try done; right; eexists; eauto.
  split; [reflexivity|]. split; [|done]. intuition congruence.
Qed.

Lemma ConfirmationValidator_None (session : option (Elicitor W)) req w :
  (ConfirmationValidator_Validate provider session req w).1 = None <->
  (CheckKubeRules provider (contextElicitor_Elicit session) (vr_Verb req)
     (default "" (gvk_Kind <$> vr_GVK req)) (default "" (gvk_Group <$> vr_GVK req))
     (default "" (gvk_Version <$> vr_GVK req)) (vr_ResourceName req) (vr_Namespace req) w).1
    = None.
Proof.
  unfold ConfirmationValidator_Validate. destruct (vr_GVK req) as [g|]; cbn [default fmap option_fmap option_map from_option id];
    destruct (CheckKubeRules _ _ _ _ _ _ _ _ w) as [[e|] w']; cbn [fst]; try done;
    by destruct (errors_Is _ e).
Qed.

(** The contract of the Kubernetes-level validator: a request passes exactly
    when no rule matches it or the user of the request's own session let it
    through; without a session a matched request never passes. *)
Theorem ConfirmationValidator_allows (session : option (Elicitor W)) req w :
  let matched := filter (fun r => kube_rule_matches r (vr_Verb req)
                     (default "" (gvk_Kind <$> vr_GVK req))
                     (default "" (gvk_Group <$> vr_GVK req))
                     (default "" (gvk_Version <$> vr_GVK req))
                     (vr_ResourceName req) (vr_Namespace req))
                   (GetConfirmationRules provider) in
  (ConfirmationValidator_Validate provider session req w).1 = None <->
    matched = [] \/
    session_confirmed session (prompt matched) (GetConfirmationFallback provider) w.
Proof.
  intros matched. rewrite ConfirmationValidator_None, CheckKubeRules_None.
  by rewrite contextElicitor_confirmed.
Qed.
End Outcomes.

(** Both elicitors are the same function. *)
Lemma elicitors_agree {W} (session : option (Elicitor W)) m w :
  contextElicitor_Elicit session m w = sessionElicitor_Elicit session m w.
Proof. reflexivity. Qed.

