(* ===== verification/Validators.v ===== *)
(** pkg/kubernetes: the validators a Kubernetes API request passes before it is
    sent (schema_validator.go, rbac_validator.go, auth.go,
    windows_eula_validator.go) and their registry (validator_registry.go).

    [W] is the whole state: the cluster and its clients, the user, the clock and
    the memory of the program.  The libraries the validators call (the OpenAPI
    schema check of kubectl, the SelfSubjectAccessReview client, the YAML
    decoder, the MCP session) are parameters that act on it. *)
From S2P Require Import Prelude GoStrings Api Confirmation.

(** * Definitions *)

(** ** The interface [api.HTTPValidator] *)

(** What the context of a request carries under the MCP session key. *)
Inductive context_session (W : Type) : Type :=
| NoSession
| NotAnElicitor
| Session (elicit : Elicitor W).
Arguments NoSession {W}.
Arguments NotAnElicitor {W}.
Arguments Session {W} _.

Record HTTPValidator (W : Type) := mkHTTPValidator {
  v_Name : string;
  v_Validate : context_session W -> HTTPValidationRequest -> ST W (option error);
}.
Arguments mkHTTPValidator {W} _ _.
Arguments v_Name {W} _.
Arguments v_Validate {W} _ _.

(** ** schema_validator.go *)

(** [15 * time.Minute], in nanoseconds. *)
Definition schemaCacheTTL : Z := (15 * 60 * 1000000000)%Z.

(** [errors.As] of the kube-openapi and apimachinery error types. *)
Record ErrorViews := mkErrorViews {
  As_Aggregate : error -> option (list error);
  As_UnknownField : error -> option string;
  As_OpenAPIValidationError : error -> option error;
}.

Definition extractUnknownField (views : ErrorViews) (err : error) : string :=
  match As_UnknownField views err with
  | Some field => field
  | None =>
      match As_OpenAPIValidationError views err with
      | Some inner =>
          match As_UnknownField views inner with Some field => field | None => "" end
      | None => ""
      end
  end.

(** The loop over the aggregated errors, which stops at the first field. *)
Fixpoint first_unknown_field (views : ErrorViews) (errs : list error) : string :=
  match errs with
  | [] => ""
  | e :: rest =>
      let f := extractUnknownField views e in
      if f ≠?s "" then f else first_unknown_field views rest
  end.

Definition convertKubectlValidationError (views : ErrorViews) (err : option error) : option error :=
  match err with
  | None => None
  | Some err =>
      let field :=
        match As_Aggregate views err with
        | Some errs => first_unknown_field views errs
        | None => extractUnknownField views err
        end in
      Some (ErrValidation ErrorCodeInvalidField (error_string err) field)
  end.

(** The memory of a [SchemaValidator]: the cached kubectl validator and the
    time of its creation.  The interface says how it lies in the state. *)
Class SchemaCache (W S : Type) := {
  sc_get : W -> option (S * Z);
  sc_put : option (S * Z) -> W -> W;
  sc_get_put w c : sc_get (sc_put c w) = c;
}.

Section SchemaValidator.
Context {W S : Type} `{!SchemaCache W S}.
(** [discoveryClientProvider] and the type assertion to
    [OpenAPISchemaInterface]: [None] for a nil client, [Some None] for one
    without OpenAPI support. *)
Context {D : Type} (discoveryClientProvider : W -> option (option D)).
(** [NewSchemaValidation(NewOpenAPIParser(client))], [ValidateBytes], the clock. *)
Context (NewSchemaValidation : D -> S) (ValidateBytes : S -> string -> ST W (option error)).
Context (now : W -> Z) (views : ErrorViews).

Definition getValidator : ST W (option S) := fun w =>
  match sc_get w with
  | Some (s, cachedAt) =>
      if (now w - cachedAt <=? schemaCacheTTL)%Z then (Some s, w)
      else
        match discoveryClientProvider w with
        | None => (None, w)
        | Some None => (None, w)
        | Some (Some d) =>
            let s := NewSchemaValidation d in (Some s, sc_put (Some (s, now w)) w)
        end
  | None =>
      match discoveryClientProvider w with
      | None => (None, w)
      | Some None => (None, w)
      | Some (Some d) =>
          let s := NewSchemaValidation d in (Some s, sc_put (Some (s, now w)) w)
      end
  end.

Definition SchemaValidator_Validate (req : HTTPValidationRequest) : ST W (option error) := fun w =>
  if match vr_GVK req with None => true | Some _ => false end || (vr_Body req =?s "")
  then (None, w)
  else if (vr_Verb req ≠?s "create") && (vr_Verb req ≠?s "update") then (None, w)
  else
    let '(validator, w) := getValidator w in
    match validator with
    | None => (None, w)
    | Some s =>
        let '(err, w) := ValidateBytes s (vr_Body req) w in
        match err with
        | Some e =>
            let errMsg := error_string e in
            if Contains errMsg "yaml:" || Contains errMsg "json:" then (None, w)
            else (convertKubectlValidationError views (Some e), w)
        | None => (None, w)
        end
    end.

Definition NewSchemaValidator : HTTPValidator W :=
  mkHTTPValidator "schema" (fun _ => SchemaValidator_Validate).
End SchemaValidator.

(** ** auth.go and rbac_validator.go *)

(** [authv1.ResourceAttributes] of the review the code sends. *)
Record ResourceAttributes := mkResourceAttributes {
  ra_Namespace : string;
  ra_Verb : string;
  ra_Group : string;
  ra_Version : string;
  ra_Resource : string;
  ra_Name : string;
}.

(** The client's [SelfSubjectAccessReviews().Create]: [Status.Allowed]. *)
Definition AuthClient (W : Type) : Type := ResourceAttributes -> ST W (result bool).

Definition CanI {W} (authClient : option (AuthClient W)) (gvr : GroupVersionResource)
    (namespace resourceName verb : string) : ST W (result bool) := fun w =>
  match authClient with
  | None => (Ok true, w)
  | Some create =>
      let '(response, w) :=
        create (mkResourceAttributes namespace verb (gvr_Group gvr) (gvr_Version gvr)
                  (gvr_Resource gvr) resourceName) w in
      (match response with Err err => Err err | Ok allowed => Ok allowed end, w)
  end.

Definition RBACValidator_Validate {W} (authClientProvider : W -> option (AuthClient W))
    (req : HTTPValidationRequest) : ST W (option error) := fun w =>
  match vr_GVR req with
  | None => (None, w)
  | Some gvr =>
      if vr_Verb req =?s "" then (None, w)
      else
        match authClientProvider w with
        | None => (None, w)
        | Some authClient =>
            let '(r, w) := CanI (Some authClient) gvr (vr_Namespace req)
                             (vr_ResourceName req) (vr_Verb req) w in
            (match r with
             | Err _ => None
             | Ok allowed =>
                 if negb allowed
                 then Some (NewPermissionDeniedError (vr_Verb req)
                              (FormatResourceName (vr_GVR req)) (vr_Namespace req))
                 else None
             end, w)
        end
  end.

Definition NewRBACValidator {W} (authClientProvider : W -> option (AuthClient W)) :
    HTTPValidator W :=
  mkHTTPValidator "rbac" (fun _ => RBACValidator_Validate authClientProvider).

(** ** windows_eula_validator.go *)

(** The parts of a Tekton PipelineRun the validator reads: [spec.params] and
    the params of [spec.pipelineRef], by name and [StringVal]. *)
Record PipelineRun := mkPipelineRun {
  pr_Params : list (string * string);
  pr_PipelineRef : option (list (string * string));
}.

Fixpoint getPipelineParam (params : list (string * string)) (name : string) : string :=
  match params with
  | [] => ""
  | (n, v) :: rest => if n =?s name then v else getPipelineParam rest name
  end.

Definition isWindowsEFIInstallerPipeline (pr : PipelineRun) : bool :=
  match pr_PipelineRef pr with
  | None => false
  | Some params => getPipelineParam params "name" =?s "windows-efi-installer"
  end.

Definition requiresEULAPrompt (pr : PipelineRun) : bool :=
  if negb (isWindowsEFIInstallerPipeline pr) then false
  else getPipelineParam (pr_Params pr) "acceptEula" ≠?s "true".

Definition isWindowsPipelineRun (req : HTTPValidationRequest) : bool :=
  if (vr_Verb req ≠?s "create") && (vr_Verb req ≠?s "update") && (vr_Verb req ≠?s "patch")
  then false
  else match vr_GVK req with
       | None => false
       | Some g => (gvk_Kind g =?s "PipelineRun") && (gvk_Group g =?s "tekton.dev")
       end.

Definition getElicitorFromContext {W} (s : context_session W) : result (Elicitor W) :=
  match s with
  | NoSession => Err (ErrValidation ErrorCodePermissionDenied
      "Windows EULA acceptance required but no session available for confirmation" "")
  | NotAnElicitor => Err (ErrValidation ErrorCodePermissionDenied
      "Windows EULA acceptance required but session does not support elicitation" "")
  | Session e => Ok e
  end.

Definition EULAMessage : string :=
  "Microsoft EULA Notice: This PipelineRun will create a Windows golden image. By proceeding, you agree to the Microsoft Software License Terms for the Windows operating system. Do you accept the Microsoft End User License Agreement (EULA)?".

Definition promptForEULA {W} (s : context_session W) : ST W (option error) := fun w =>
  match getElicitorFromContext s with
  | Err err => (Some err, w)
  | Ok elicit =>
      let '(r, w) := elicit EULAMessage w in
      (match r with
       | Err err =>
           if isElicitationNotSupportedError err
           then Some (ErrValidation ErrorCodePermissionDenied
                        (fmt ["Windows EULA acceptance required. Set acceptEula parameter to ";
                              dq; "true"; dq; " in the PipelineRun to proceed."]) "")
           else Some err
       | Ok action =>
           if action ≠?s ElicitActionAccept
           then Some (ErrValidation ErrorCodePermissionDenied
                        "Windows EULA was not accepted. The PipelineRun creation has been cancelled." "")
           else None
       end, w)
  end.

Definition WindowsEULAValidator_Validate {W} (Unmarshal : string -> result PipelineRun)
    (s : context_session W) (req : HTTPValidationRequest) : ST W (option error) := fun w =>
  if negb (isWindowsPipelineRun req) then (None, w)
  else match Unmarshal (vr_Body req) with
       | Err _ => (None, w)
       | Ok pr => if negb (requiresEULAPrompt pr) then (None, w) else promptForEULA s w
       end.

Definition WindowsEULAValidator {W} (Unmarshal : string -> result PipelineRun) :
    HTTPValidator W :=
  mkHTTPValidator "WindowsEULAValidator" (WindowsEULAValidator_Validate Unmarshal).

(** The session [contextElicitor] finds in the context. *)
Definition elicitor_session {W} (ctx : context_session W) : option (Elicitor W) :=
  match ctx with Session e => Some e | _ => None end.

Definition ConfirmationValidator {W} (rulesProvider : ConfirmationRulesProvider) :
    HTTPValidator W :=
  mkHTTPValidator "ConfirmationValidator"
    (fun ctx => ConfirmationValidator_Validate rulesProvider (elicitor_session ctx)).

(** ** validator_registry.go *)

(** The registry, a Go map from a name to a factory over the providers [P]. *)
Section Registry.
Context {W P : Type}.
Abbreviation ValidatorFactory := (P -> HTTPValidator W).
Definition validatorRegistry : Type := gmap string ValidatorFactory.

(** [None] is the panic on a name registered twice. *)
Definition validatorRegistry_register (name : string) (factory : ValidatorFactory)
    (r : validatorRegistry) : option validatorRegistry :=
  match r !! name with
  | Some _ => None
  | None => Some (<[name := factory]> r)
  end.

Definition validatorRegistry_createAll (providers : P) (r : validatorRegistry) :
    list (HTTPValidator W) :=
  let names := sort_strings (map fst (map_to_list r)) in
  omap (fun name => (fun f : ValidatorFactory => f providers) <$> r !! name) names.
End Registry.
Arguments validatorRegistry : clear implicits.

(** [validatorReg] after this package's [init]. *)
Definition validatorReg {W P} (schema rbac : P -> HTTPValidator W) : option (validatorRegistry W P) :=
  r ← validatorRegistry_register "schema" schema ∅;
  validatorRegistry_register "rbac" rbac r.

Definition CreateValidators {W P} (r : validatorRegistry W P) (providers : P) :
    list (HTTPValidator W) :=
  validatorRegistry_createAll providers r.

(** * Lemmas *)

Lemma CanI_no_client {W} gvr ns n v (w : W) : CanI None gvr ns n v w = (Ok true, w).
Proof. reflexivity. Qed.

(** The built-in registration never panics, and the validators run in the
    order of their names. *)
Lemma CreateValidators_builtin {W P} (schema rbac : P -> HTTPValidator W) providers :
  exists r, validatorReg schema rbac = Some r /\
    CreateValidators r providers = [rbac providers; schema providers].
Proof. eexists; split; reflexivity. Qed.

(** The user of the context's session accepted the licence. *)
Definition eula_accepted {W} (s : context_session W) (w : W) : Prop :=
  exists elicit, s = Session elicit /\ (elicit EULAMessage w).1 = Ok ElicitActionAccept.

Lemma promptForEULA_None {W} (s : context_session W) w :
  (promptForEULA s w).1 = None <-> eula_accepted s w.
Proof.
  unfold promptForEULA, eula_accepted. destruct s as [| |el]; cbn [getElicitorFromContext fst].
  1-2: split; [done|intros (? & ? & _); done].
  destruct (el EULAMessage w) as [[a|err] w'] eqn:Hel; cbn [fst].
  - destruct (bool_decide_reflect (a = ElicitActionAccept)) as [->|Hne]; cbn [negb].
    + split; [|done]. intros _. exists el. by rewrite Hel.
    + split; [done|]. intros (? & [= <-] & H). rewrite Hel in H. by injection H.
  - split; [by destruct (isElicitationNotSupportedError err)|].
    intros (? & [= <-] & H). by rewrite Hel in H.
Qed.

(** The licence gate: a request that would create a Windows image goes ahead
    only with the licence accepted, in the manifest or by the user. *)
Theorem WindowsEULA_gate {W} Unmarshal (s : context_session W) req w :
  (WindowsEULAValidator_Validate Unmarshal s req w).1 = None <->
  (isWindowsPipelineRun req = true -> forall pr, Unmarshal (vr_Body req) = Ok pr ->
     isWindowsEFIInstallerPipeline pr = true ->
     getPipelineParam (pr_Params pr) "acceptEula" = "true" \/ eula_accepted s w).
Proof.
  unfold WindowsEULAValidator_Validate, requiresEULAPrompt.
  destruct (isWindowsPipelineRun req); cbn [negb]; [|done].
  destruct (Unmarshal (vr_Body req)) as [pr|]; [|done].
  destruct (isWindowsEFIInstallerPipeline pr) eqn:Hp; cbn [negb].
  2:{ split; [|done]. intros _ _ pr' [= <-]. congruence. }
  destruct (bool_decide_reflect (getPipelineParam (pr_Params pr) "acceptEula" = "true")) as [He|He];
    cbn [negb].
  - split; [|done]. intros _ _ pr' [= <-]. by left.
  - rewrite promptForEULA_None. split.
    + intros H _ pr' [= <-] _. by right.
    + intros H. by destruct (H eq_refl pr).
Qed.

(** [RBACValidator.Validate] refuses exactly when a client is there and the
    cluster answers the review of this very request with "not allowed"; errors
    of the review let the request through. *)
Theorem RBACValidator_refuses {W} (provider : W -> option (AuthClient W)) req w e :
  (RBACValidator_Validate provider req w).1 = Some e <->
  exists gvr create, vr_GVR req = Some gvr /\ vr_Verb req <> "" /\ provider w = Some create /\
    (create (mkResourceAttributes (vr_Namespace req) (vr_Verb req) (gvr_Group gvr)
               (gvr_Version gvr) (gvr_Resource gvr) (vr_ResourceName req)) w).1 = Ok false /\
    e = NewPermissionDeniedError (vr_Verb req) (FormatResourceName (Some gvr)) (vr_Namespace req).
Proof.
  unfold RBACValidator_Validate.
  destruct (vr_GVR req) as [gvr|]; [|split; [done|intros (? & ? & ? & _); done]].
  case_bool_decide as Hv; [split; [done|intros (? & ? & _ & ? & _); done]|].
  destruct (provider w) as [create|] eqn:Hc.
  2:{ split; [done|intros (? & ? & _ & _ & ? & _); done]. }
  unfold CanI. destruct (create _ w) as [[[]|err] w'] eqn:Hr; cbn [fst negb]; split; try done.
  - intros (? & ? & [= <-] & _ & [= <-] & H & _). by rewrite Hr in H.
  - intros [= <-]. exists gvr, create. by rewrite Hr.
  - by intros (? & ? & [= <-] & _ & [= <-] & _ & ->).
  - intros (? & ? & [= <-] & _ & [= <-] & H & _). by rewrite Hr in H.
Qed.

Section SchemaValidatorSpec.
Context {W S : Type} `{!SchemaCache W S} {D : Type}.
Context (disc : W -> option (option D)) (mk : D -> S).
Context (VB : S -> string -> ST W (option error)) (now : W -> Z) (views : ErrorViews).

(** Every cached validator was made from a client of the provider. *)
Definition schema_cache_ok (w : W) : Prop :=
  forall s t, sc_get w = Some (s, t) -> exists d, s = mk d.

(** A validator in use is at most [schemaCacheTTL] old, and is remembered. *)
Lemma getValidator_fresh w s w' :
  getValidator disc mk now w = (Some s, w') ->
  (exists t, sc_get w' = Some (s, t) /\ (now w - t <= schemaCacheTTL)%Z).
Proof.
  unfold getValidator. intros H.
  assert (forall d, (Some (mk d), sc_put (Some (mk d, now w)) w) = (Some s, w') ->
    exists t, sc_get w' = Some (s, t) /\ (now w - t <= schemaCacheTTL)%Z) as Hnew.
  { intros d [= <- <-]. exists (now w). rewrite sc_get_put. split; [done|].
    unfold schemaCacheTTL. lia. }
  destruct (sc_get w) as [[s' t]|] eqn:Hg.
  - destruct (Z.leb_spec (now w - t) schemaCacheTTL).
    + injection H as <- <-. eauto.
    + destruct (disc w) as [[d|]|]; [by eapply Hnew|done..].
  - destruct (disc w) as [[d|]|]; [by eapply Hnew|done..].
Qed.

Lemma getValidator_ok w r w' :
  schema_cache_ok w -> getValidator disc mk now w = (r, w') -> schema_cache_ok w'.
Proof.
  unfold getValidator, schema_cache_ok. intros Hok H.
  assert (forall d, (Some (mk d), sc_put (Some (mk d, now w)) w) = (r, w') ->
    forall s t, sc_get w' = Some (s, t) -> exists d, s = mk d) as Hnew.
  { intros d [= <- <-] s t. rewrite sc_get_put. intros [= <- <-]. eauto. }
  destruct (sc_get w) as [[s' t]|] eqn:Hg; [case_match|];
    try destruct (disc w) as [[d|]|]; simplify_eq; eauto.
  all: intros ? ?; rewrite Hg; intros; simplify_eq; eauto.
Qed.

(** The schema check never refuses what it does not understand: it refuses
    exactly the create and update requests with a body for which the cached
    or new schema reports an error that is no parse error, and the error the
    caller sees names the code INVALID_FIELD. *)
Theorem SchemaValidator_refuses req w e :
  (SchemaValidator_Validate disc mk VB now views req w).1 = Some e <->
  (exists g, vr_GVK req = Some g) /\ vr_Body req <> "" /\
  (vr_Verb req = "create" \/ vr_Verb req = "update") /\
  exists s w1 err, getValidator disc mk now w = (Some s, w1) /\
    (VB s (vr_Body req) w1).1 = Some err /\
    Contains (error_string err) "yaml:" = false /\
    Contains (error_string err) "json:" = false /\
    Some e = convertKubectlValidationError views (Some err).
Proof.
  unfold SchemaValidator_Validate. destruct (vr_GVK req) as [g|]; cbn [orb].
  2:{ split; [done|intros ((? & ?) & _); done]. }
  case_bool_decide as Hb; [split; [done|intros (_ & ? & _); done]|].
  destruct ((vr_Verb req ≠?s "create") && (vr_Verb req ≠?s "update")) eqn:Hv.
  { reflect_bools. split; [done|]. intros (_ & _ & [?|?] & _); done. }
  assert (vr_Verb req = "create" \/ vr_Verb req = "update") as Hverb.
  { apply andb_false_iff in Hv. rewrite !negb_false_iff, !bool_decide_eq_true in Hv. done. }
  destruct (getValidator disc mk now w) as [[s|] w1].
  2:{ split; [done|]. intros (_ & _ & _ & ? & ? & ? & ? & _); done. }
  destruct (VB s (vr_Body req) w1) as [[err|] w2] eqn:HVB.
  2:{ split; [done|]. intros (_ & _ & _ & ? & ? & ? & [= <- <-] & H & _).
      by rewrite HVB in H. }
  destruct (Contains (error_string err) "yaml:" || Contains (error_string err) "json:") eqn:Hp.
  - split; [done|]. intros (_ & _ & _ & ? & ? & ? & [= <- <-] & H & Hy & Hj & _).
    rewrite HVB in H. injection H as <-. by rewrite Hy, Hj in Hp.
  - apply orb_false_iff in Hp as [Hy Hj]. cbn [fst]. split.
    + intros He. split; [by eexists|]. split; [done|]. split; [done|].
      exists s, w1, err. by rewrite HVB.
    + intros (_ & _ & _ & ? & ? & ? & [= <- <-] & H & _ & _ & ->).
      rewrite HVB in H. by injection H as <-.
Qed.
End SchemaValidatorSpec.
