(* ===== verification/AccessControl.v ===== *)
(** pkg/kubernetes/accesscontrol_round_tripper.go: the gate every Kubernetes API
    request of the server passes.  The REST mapper, the discovery client and the
    delegate transport are parameters that act on the state [W]; the raw
    discovery cache is memory of the program, a part of [W]. *)
From S2P Require Import Prelude GoStrings Api Confirmation Validators.

(** * Definitions *)

(** ** Request paths *)

Definition path_parts (path : string) : list string := Split "/"%char (Trim path "/").

Definition parseURLToGVR (path : string) : option GroupVersionResource :=
  let parts := path_parts path in
  let part i := default "" (parts !! i) in
  if part 0%nat =?s "api" then
    if Nat.ltb (length parts) 3 then None
    else
      let resource :=
        if (part 2%nat =?s "namespaces") && Nat.ltb 4 (length parts)
        then part 4%nat else part 2%nat in
      Some (mkGVR "" (part 1%nat) resource)
  else if part 0%nat =?s "apis" then
    if Nat.ltb (length parts) 4 then None
    else
      let resource :=
        if (part 3%nat =?s "namespaces") && Nat.ltb 5 (length parts)
        then part 5%nat else part 3%nat in
      Some (mkGVR (part 1%nat) (part 2%nat) resource)
  else None.

Definition stripAPIPathPrefix (path prefix : string) : string :=
  let prefix := TrimSuffix prefix "/" in
  if prefix =?s "" then path
  else if path =?s prefix then "/"
  else if HasPrefix path (prefix +:+ "/") then TrimPrefix path prefix
  else path.

(** [None] is Go's -1. *)
Definition findResourceTypeIndex (parts : list string) : option nat :=
  let part i := default "" (parts !! i) in
  if Nat.eqb (length parts) 0 then None
  else if part 0%nat =?s "api" then
    if Nat.ltb (length parts) 3 then None
    else if (part 2%nat =?s "namespaces") && Nat.ltb 4 (length parts) then Some 4%nat
    else Some 2%nat
  else if part 0%nat =?s "apis" then
    if Nat.ltb (length parts) 4 then None
    else if (part 3%nat =?s "namespaces") && Nat.ltb 5 (length parts) then Some 5%nat
    else Some 3%nat
  else None.

(** The loop for the first [namespaces] segment that has a successor. *)
Fixpoint namespace_of (parts : list string) : string :=
  match parts with
  | [] => ""
  | part :: rest =>
      match rest with
      | next :: _ => if part =?s "namespaces" then next else namespace_of rest
      | [] => ""
      end
  end.

Definition parseURLToNamespaceAndName (path : string) : string * string :=
  let parts := path_parts path in
  let name :=
    match findResourceTypeIndex parts with
    | Some i => if Nat.ltb (i + 1) (length parts) then default "" (parts !! (i + 1)%nat) else ""
    | None => ""
    end in
  (namespace_of parts, name).

Definition parseSubresource (path : string) : string :=
  let parts := path_parts path in
  match findResourceTypeIndex parts with
  | Some i => if Nat.ltb (i + 2) (length parts) then default "" (parts !! (i + 2)%nat) else ""
  | None => ""
  end.

Definition isCollectionPath (path : string) : bool :=
  let parts := path_parts path in
  match findResourceTypeIndex parts with
  | None => false
  | Some i => Nat.eqb i (length parts - 1)
  end.

Definition httpMethodToVerb (method path : string) : string :=
  if method =?s "GET" then (if isCollectionPath path then "list" else "get")
  else if method =?s "POST" then "create"
  else if method =?s "PUT" then "update"
  else if method =?s "PATCH" then "patch"
  else if method =?s "DELETE" then
    (if isCollectionPath path then "deletecollection" else "delete")
  else ToLower method.

(** ** rawDiscoveryCache *)

(** A resource list of discovery, by the names of its resources; [None] is a
    nil list.  The client's call by group/version. *)
Definition resource_list : Type := option (list string).
Definition Discovery (W : Type) : Type := string -> ST W (result resource_list).

Class RawCache (W : Type) := {
  rc_get : W -> gmap string resource_list;
  rc_put : gmap string resource_list -> W -> W;
  rc_get_put w c : rc_get (rc_put c w) = c;
}.

Definition rawDiscovery_ServerResourcesForGroupVersion {W} `{!RawCache W}
    (delegate : Discovery W) (groupVersion : string) : ST W (result resource_list) := fun w =>
  match rc_get w !! groupVersion with
  | Some rl => (Ok rl, w)
  | None =>
      let '(r, w) := delegate groupVersion w in
      match r with
      | Err err => (Err err, w)
      | Ok rl => (Ok rl, rc_put (<[groupVersion := rl]> (rc_get w)) w)
      end
  end.

(** ** HTTP *)

(** A request body: what is left to read, and the error reading ends with. *)
Record body_reader := mkBody { br_data : string; br_err : option error }.

(** [io.ReadAll]: the outcome, and the reader it leaves behind. *)
Definition ReadAll (b : body_reader) : result string * body_reader :=
  (match br_err b with Some e => Err e | None => Ok (br_data b) end, mkBody "" (br_err b)).

Record http_request (W : Type) := mkRequest {
  hr_Context : context_session W;
  hr_Method : string;
  hr_Path : string;
  hr_Body : option body_reader;
}.
Arguments mkRequest {W} _ _ _ _.
Arguments hr_Context {W} _.
Arguments hr_Method {W} _.
Arguments hr_Path {W} _.
Arguments hr_Body {W} _.

Definition with_body {W} (req : http_request W) (b : option body_reader) : http_request W :=
  mkRequest (hr_Context req) (hr_Method req) (hr_Path req) b.

(** A transport; [R] is the type of responses. *)
Definition RoundTripper (W R : Type) : Type := http_request W -> ST W (result R).

(** ** The round tripper *)

Record AccessControlRoundTripper (W R : Type) := mkACRT {
  rt_delegate : RoundTripper W R;
  (* nil, or the provider of the denied kinds *)
  rt_deniedResources : option (W -> list GroupVersionKind);
  (* the RESTMapper, when it is initialised, by its KindFor *)
  rt_restMapper : W -> option (GroupVersionResource -> ST W (result GroupVersionKind));
  rt_rawDiscovery : option (Discovery W);
  rt_apiPathPrefix : string;
  rt_validators : list (HTTPValidator W);
}.
Arguments mkACRT {W R} _ _ _ _ _ _.
Arguments rt_delegate {W R} _.
Arguments rt_deniedResources {W R} _.
Arguments rt_restMapper {W R} _.
Arguments rt_rawDiscovery {W R} _.
Arguments rt_apiPathPrefix {W R} _.
Arguments rt_validators {W R} _.

Section RoundTrip.
Context {W R : Type} `{!RawCache W}.
Implicit Types rt : AccessControlRoundTripper W R.

Definition resourceExistsInDiscovery rt (gvr : GroupVersionResource) (subresource : string) :
    ST W bool := fun w =>
  match rt_rawDiscovery rt with
  | None => (false, w)
  | Some disc =>
      let groupVersion :=
        if gvr_Group gvr =?s "" then gvr_Version gvr
        else fmt [gvr_Group gvr; "/"; gvr_Version gvr] in
      let '(r, w) := rawDiscovery_ServerResourcesForGroupVersion disc groupVersion w in
      (match r with
       | Ok (Some names) =>
           if subresource ≠?s "" then
             existsb (fun n => n =?s fmt [gvr_Resource gvr; "/"; subresource]) names
           else
             existsb (fun n => (n =?s gvr_Resource gvr)
                               || HasPrefix n (gvr_Resource gvr +:+ "/")) names
       | _ => false
       end, w)
  end.

Definition getGVK rt (gvr : GroupVersionResource) (subresource : string) :
    ST W (result GroupVersionKind) := fun w =>
  match rt_restMapper rt w with
  | None =>
      (Err (ErrNew "failed to make request: AccessControlRoundTripper restMapper not initialized"), w)
  | Some KindFor =>
      let '(r, w) := KindFor gvr w in
      match r with
      | Ok gvk => (Ok gvk, w)
      | Err err =>
          if errors_Is_kind KindNoMatch err then
            let '(exists_, w) := resourceExistsInDiscovery rt gvr subresource w in
            if exists_ then (Ok (mkGVK (gvr_Group gvr) (gvr_Version gvr) ""), w)
            else
              (Err (ErrValidation ErrorCodeResourceNotFound
                      (fmt ["Resource "; FormatResourceName (Some gvr);
                            " does not exist in the cluster"]) ""), w)
          else
            (Err (wrapf (fmt ["failed to make request: AccessControlRoundTripper failed to get kind for gvr ";
                              GVR_String gvr; ": "]) err), w)
      end
  end.

(** One entry of the denied list refuses a kind. *)
Definition denies (gvk val : GroupVersionKind) : bool :=
  ((gvk_Kind val =?s "") &&
     ((gvk_Group gvk =?s gvk_Group val) && (gvk_Version gvk =?s gvk_Version val)))
  || ((gvk_Group gvk =?s gvk_Group val) && (gvk_Version gvk =?s gvk_Version val)
      && (gvk_Kind gvk =?s gvk_Kind val)).

Definition isAllowed rt (gvk : GroupVersionKind) (w : W) : bool :=
  match rt_deniedResources rt with
  | None => true
  | Some GetDeniedResources => negb (existsb (denies gvk) (GetDeniedResources w))
  end.

(** The loop over the validators, which stops at the first error. *)
Fixpoint run_validators (ctx : context_session W) (vs : list (HTTPValidator W))
    (vreq : HTTPValidationRequest) : ST W (option error) := fun w =>
  match vs with
  | [] => (None, w)
  | v :: vs =>
      let '(e, w) := v_Validate v ctx vreq w in
      match e with
      | Some e => (Some e, w)
      | None => run_validators ctx vs vreq w
      end
  end.

Definition is_SSAR (gvr : GroupVersionResource) : bool :=
  (gvr_Group gvr =?s "authorization.k8s.io") &&
  (gvr_Resource gvr =?s "selfsubjectaccessreviews").

Definition RoundTrip rt : RoundTripper W R := fun req w =>
  let kubernetesPath := stripAPIPathPrefix (hr_Path req) (rt_apiPathPrefix rt) in
  match parseURLToGVR kubernetesPath with
  | None => rt_delegate rt req w
  | Some gvr =>
      let subresource := parseSubresource kubernetesPath in
      let '(r, w) := getGVK rt gvr subresource w in
      match r with
      | Err err => (Err err, w)
      | Ok gvk =>
          if negb (isAllowed rt gvk w) then
            (Err (ErrNew (fmt ["resource not allowed: "; GVK_String gvk])), w)
          else if is_SSAR gvr then rt_delegate rt req w
          else
            let '(namespace, resourceName) := parseURLToNamespaceAndName kubernetesPath in
            let verb := httpMethodToVerb (hr_Method req) kubernetesPath in
            let vreq body :=
              mkHTTPValidationRequest (Some gvr) (Some gvk) (hr_Method req) verb namespace
                resourceName body kubernetesPath in
            let validate req body w :=
              let '(e, w) := run_validators (hr_Context req) (rt_validators rt) (vreq body) w in
              match e with
              | Some validationErr => (Err validationErr, w)
              | None => rt_delegate rt req w
              end in
            match hr_Body req with
            | Some b =>
                if (hr_Method req =?s "POST") || (hr_Method req =?s "PUT")
                   || (hr_Method req =?s "PATCH")
                then
                  let '(body, _) := ReadAll b in
                  match body with
                  | Err readErr => (Err (wrapf "failed to read request body: " readErr), w)
                  | Ok body => validate (with_body req (Some (mkBody body None))) body w
                  end
                else validate req "" w
            | None => validate req "" w
            end
      end
  end.
End RoundTrip.

(** ** Construction *)

Section Construction.
Context {W R P : Type}.
(** [url.Parse(host)]: the path of the URL, or an error. *)
Context (url_Parse_Path : string -> result string).
Context (reg : validatorRegistry W P).

Record AccessControlRoundTripperConfig := mkACRTConfig {
  ac_Delegate : RoundTripper W R;
  ac_DeniedResourcesProvider : option (W -> list GroupVersionKind);
  ac_RestMapperProvider : W -> option (GroupVersionResource -> ST W (result GroupVersionKind));
  ac_HostURL : string;
  ac_Providers : P;
(* nil, or a provider with what it gives at construction *)
  ac_RawDiscoveryProvider : option (option (Discovery W));
  ac_ValidationEnabled : bool;
  ac_ConfirmationRulesProvider : option ConfirmationRulesProvider;
}.

Definition NewAccessControlRoundTripper (Unmarshal : string -> result PipelineRun)
    (cfg : AccessControlRoundTripperConfig) :
    AccessControlRoundTripper W R :=
  let apiPathPrefix :=
    if ac_HostURL cfg ≠?s "" then
      match url_Parse_Path (ac_HostURL cfg) with Err _ => "" | Ok p => p end
    else "" in
  let rawDisc := match ac_RawDiscoveryProvider cfg with Some d => d | None => None end in
  let vs0 := if ac_ValidationEnabled cfg then CreateValidators reg (ac_Providers cfg) else [] in
  let vs1 :=
    match ac_ConfirmationRulesProvider cfg with
    | Some p =>
        if Nat.ltb 0 (length (GetConfirmationRules p)) then
          vs0 ++ [ConfirmationValidator p]
        else vs0
    | None => vs0
    end in
  {| rt_delegate := ac_Delegate cfg;
     rt_deniedResources := ac_DeniedResourcesProvider cfg;
     rt_restMapper := ac_RestMapperProvider cfg;
     rt_rawDiscovery := rawDisc;
     rt_apiPathPrefix := apiPathPrefix;
     rt_validators := vs1 ++ [WindowsEULAValidator Unmarshal] |}.
End Construction.
Arguments AccessControlRoundTripperConfig : clear implicits.

(** ** Canonical resource paths: the specification of the path parsers *)

Record resource_path := mkResourcePath {
  rp_Group : string;
  rp_Version : string;
  rp_Namespace : option string;
  rp_Resource : string;
  (* the object, and the subresource of it *)
  rp_Object : option (string * option string);
}.

Definition object_segments (o : option (string * option string)) : list string :=
  match o with
  | None => []
  | Some (n, None) => [n]
  | Some (n, Some s) => [n; s]
  end.

Definition path_segments (p : resource_path) : list string :=
  (if rp_Group p =?s "" then ["api"; rp_Version p] else ["apis"; rp_Group p; rp_Version p]) ++
  (match rp_Namespace p with Some n => ["namespaces"; n] | None => [] end) ++
  rp_Resource p :: object_segments (rp_Object p).

Definition print_path (p : resource_path) : string := "/" +:+ Join (path_segments p) "/".

(** Segments are non-empty and without a slash.  The resource [namespaces] itself
    is cluster-scoped; its subresources are the paths the parser takes for
    namespaced collections, and are excluded. *)
Definition resource_path_ok (p : resource_path) : Prop :=
  Forall (no_char "/"%char) (path_segments p) /\ Forall (.≠ "") (path_segments p) /\
  rp_Group p <> "namespaces" /\ rp_Version p <> "namespaces" /\
  (rp_Namespace p = None ->
     (rp_Resource p = "namespaces" -> forall o s, rp_Object p <> Some (o, Some s)) /\
     (forall s, rp_Object p <> Some ("namespaces", s))).

#[export] Instance no_char_all_dec c l : Decision (Forall (no_char c) l).
Proof. apply _. Defined.

(** The namespace the program attributes to a path. *)
Definition expected_namespace (p : resource_path) : string :=
  match rp_Namespace p with
  | Some n => n
  | None => if rp_Resource p =?s "namespaces" then default "" (fst <$> rp_Object p) else ""
  end.

(** * Lemmas *)

Lemma path_parts_print p : resource_path_ok p -> path_parts (print_path p) = path_segments p.
Proof.
  intros (Hnc & Hne & _). unfold path_parts, print_path. apply Split_Trim_path; try done.
  unfold path_segments. destruct (rp_Group p =?s ""); done.
Qed.

(** Where the resource of a canonical path stands. *)
Definition resource_index (p : resource_path) : nat :=
  (if rp_Group p =?s "" then 2 else 3) +
  (match rp_Namespace p with Some _ => 2 | None => 0 end).

Ltac path_cases p :=
  let g := fresh "g" in let v := fresh "v" in let ns := fresh "ns" in
  let r := fresh "r" in let o := fresh "o" in let s := fresh "s" in
  destruct p as [g v [ns|] r [[o [s|]]|]]; cbn -[String.eqb] in *;
  case_bool_decide; cbn -[String.eqb] in *.

Lemma findResourceTypeIndex_segments p :
  resource_path_ok p -> findResourceTypeIndex (path_segments p) = Some (resource_index p).
Proof.
  intros (_ & _ & _ & _ & Hns). unfold findResourceTypeIndex, resource_index, path_segments.
  path_cases p; repeat (case_bool_decide; cbn; try done);
    exfalso; by eapply (proj1 (Hns eq_refl)).
Qed.

Lemma resource_at_index p : path_segments p !! resource_index p = Some (rp_Resource p).
Proof. unfold path_segments, resource_index. by path_cases p. Qed.

Lemma object_at_index p i :
  path_segments p !! (resource_index p + S i)%nat = object_segments (rp_Object p) !! i.
Proof. unfold path_segments, resource_index. by path_cases p. Qed.

Lemma length_path_segments p :
  length (path_segments p) = (resource_index p + S (length (object_segments (rp_Object p))))%nat.
Proof. unfold path_segments, resource_index. by path_cases p. Qed.

Lemma parseURLToGVR_index path i :
  findResourceTypeIndex (path_parts path) = Some i ->
  exists g v, parseURLToGVR path = Some (mkGVR g v (default "" (path_parts path !! i))) /\
    ((default "" (path_parts path !! 0%nat) = "api" /\ g = "" /\
      v = default "" (path_parts path !! 1%nat)) \/
     (default "" (path_parts path !! 0%nat) = "apis" /\ g = default "" (path_parts path !! 1%nat) /\
      v = default "" (path_parts path !! 2%nat))).
Proof.
  unfold findResourceTypeIndex, parseURLToGVR.
  destruct (Nat.eqb (length (path_parts path)) 0); [done|].
  case_bool_decide as Ha; [|case_bool_decide as Hs; [|done]];
    (destruct (Nat.ltb (length _) _); [done|]);
    destruct (_ && _); intros [= <-]; eexists _, _; (split; [reflexivity|]); auto.
Qed.

(** Both parsers recognise the same paths. *)
Lemma parseURLToGVR_None path :
  parseURLToGVR path = None <-> findResourceTypeIndex (path_parts path) = None.
Proof.
  unfold findResourceTypeIndex, parseURLToGVR.
  assert (Nat.eqb (length (path_parts path)) 0 = false) as ->.
  { apply Nat.eqb_neq. intros H%nil_length_inv. by apply Split_not_nil in H. }
  repeat case_match; done.
Qed.

Lemma namespace_of_segments p :
  resource_path_ok p -> namespace_of (path_segments p) = expected_namespace p.
Proof.
  intros (_ & _ & Hg & Hv & Hns). unfold path_segments, expected_namespace.
  path_cases p; repeat (case_bool_decide; cbn; try done); subst; try done;
    exfalso; by eapply (proj2 (Hns eq_refl)).
Qed.

(** C12. The parsers agree with the way Kubernetes lays out its paths: group, version,
    resource, namespace, object, subresource and collection are read back from
    the path printed for them. *)
Theorem parse_print_path p :
  resource_path_ok p ->
  parseURLToGVR (print_path p) = Some (mkGVR (rp_Group p) (rp_Version p) (rp_Resource p)) /\
  parseURLToNamespaceAndName (print_path p)
    = (expected_namespace p, default "" (fst <$> rp_Object p)) /\
  parseSubresource (print_path p) = default "" (rp_Object p ≫= snd) /\
  isCollectionPath (print_path p) = bool_decide (rp_Object p = None).
Proof.
  intros Hok. pose proof (path_parts_print p Hok) as Hparts.
  pose proof (findResourceTypeIndex_segments p Hok) as Hidx.
  pose proof (object_at_index p) as Hobj. pose proof (length_path_segments p) as Hlen.
  repeat split.
  - destruct (parseURLToGVR_index (print_path p) (resource_index p)) as (g & v & -> & Hgv);
      rewrite Hparts in *; [done|].
    rewrite resource_at_index. cbn [default from_option id].
    unfold path_segments in Hgv. path_cases p; naive_solver.
  - unfold parseURLToNamespaceAndName. rewrite Hparts, Hidx, namespace_of_segments by done.
    f_equal. rewrite (Hobj 0), Hlen.
    destruct (rp_Object p) as [[o [s|]]|]; cbn [object_segments length];
      case_match eqn:Hlt; try done; apply Nat.ltb_ge in Hlt; lia.
  - unfold parseSubresource. rewrite Hparts, Hidx, (Hobj 1), Hlen.
    destruct (rp_Object p) as [[o [s|]]|]; cbn [object_segments length];
      case_match eqn:Hlt; try done; apply Nat.ltb_ge in Hlt; lia.
  - unfold isCollectionPath. rewrite Hparts, Hidx, Hlen.
    destruct (rp_Object p) as [[o [s|]]|]; cbn [object_segments length];
      [rewrite bool_decide_eq_false_2 by done..|rewrite bool_decide_eq_true_2 by done];
      first [apply Nat.eqb_neq; lia|apply Nat.eqb_eq; lia].
Qed.

(** The API server's own path prefix is taken off exactly. *)
Lemma stripAPIPathPrefix_prefix prefix path :
  prefix <> "" -> HasSuffix prefix "/" = false -> HasPrefix path "/" = true ->
  stripAPIPathPrefix (prefix +:+ path) prefix = path.
Proof.
  intros Hne Hsuf Hpath. unfold stripAPIPathPrefix.
  unfold TrimSuffix. rewrite Hsuf. rewrite bool_decide_eq_false_2 by done.
  apply HasPrefix_spec in Hpath as [t ->].
  rewrite bool_decide_eq_false_2.
  2:{ intros H%(f_equal slen). rewrite !slen_append in H. unfold slen in H.
      cbn [String.length] in H. lia. }
  rewrite <-append_assoc, HasPrefix_append, append_assoc. apply TrimPrefix_append.
Qed.

(** ** The denied list *)

Lemma denies_spec gvk val :
  denies gvk val = true <->
  gvk_Group gvk = gvk_Group val /\ gvk_Version gvk = gvk_Version val /\
  (gvk_Kind val = "" \/ gvk_Kind gvk = gvk_Kind val).
Proof.
  unfold denies. rewrite orb_true_iff, !andb_true_iff, !bool_decide_eq_true. naive_solver.
Qed.

Section Mediation.
Context {W R : Type} `{!RawCache W}.
Implicit Types rt : AccessControlRoundTripper W R.

(** A kind is refused exactly when the list has its kind, or its whole group and
    version. *)
Theorem isAllowed_spec rt gvk w :
  isAllowed rt gvk w = false <->
  exists denied val, rt_deniedResources rt = Some denied /\ val ∈ denied w /\
    gvk_Group gvk = gvk_Group val /\ gvk_Version gvk = gvk_Version val /\
    (gvk_Kind val = "" \/ gvk_Kind gvk = gvk_Kind val).
Proof.
  unfold isAllowed. destruct (rt_deniedResources rt) as [denied|].
  - rewrite negb_false_iff, existsb_spec. setoid_rewrite denies_spec. split.
    + intros (val & ? & ?). by exists denied, val.
    + intros (? & val & [= <-] & ? & ?). by exists val.
  - split; [done|]. intros (? & ? & ? & _). done.
Qed.

(** The same round tripper before another delegate. *)
Definition set_delegate (d : RoundTripper W R) rt : AccessControlRoundTripper W R :=
  mkACRT d (rt_deniedResources rt) (rt_restMapper rt) (rt_rawDiscovery rt)
    (rt_apiPathPrefix rt) (rt_validators rt).

(** The body the validators see of a request. *)
Definition validated_body (req : http_request W) : result string :=
  match hr_Body req with
  | Some b =>
      if (hr_Method req =?s "POST") || (hr_Method req =?s "PUT") || (hr_Method req =?s "PATCH")
      then (ReadAll b).1 else Ok ""
  | None => Ok ""
  end.

Definition validation_request rt (req : http_request W) gvr gvk body : HTTPValidationRequest :=
  let path := stripAPIPathPrefix (hr_Path req) (rt_apiPathPrefix rt) in
  let '(ns, name) := parseURLToNamespaceAndName path in
  mkHTTPValidationRequest (Some gvr) (Some gvk) (hr_Method req)
    (httpMethodToVerb (hr_Method req) path) ns name body path.

(** What entitles a request to reach the cluster from state [w], and the state in
    which it does. *)
Definition permitted rt (req : http_request W) (w w1 : W) : Prop :=
  let path := stripAPIPathPrefix (hr_Path req) (rt_apiPathPrefix rt) in
  match parseURLToGVR path with
  | None => w1 = w
  | Some gvr =>
      exists gvk w0,
        getGVK rt gvr (parseSubresource path) w = (Ok gvk, w0) /\
        isAllowed rt gvk w0 = true /\
        (is_SSAR gvr = true /\ w1 = w0 \/
         is_SSAR gvr = false /\ exists body, validated_body req = Ok body /\
           run_validators (hr_Context req) (rt_validators rt)
             (validation_request rt req gvr gvk body) w0 = (None, w1))
  end.

(** A forwarded request carries what the caller sent: only a body that was read
    is replaced, by a reader of the same bytes. *)
Definition same_content (req req' : http_request W) : Prop :=
  hr_Context req' = hr_Context req /\ hr_Method req' = hr_Method req /\
  hr_Path req' = hr_Path req /\
  (fun b => (ReadAll b).1) <$> hr_Body req' = (fun b => (ReadAll b).1) <$> hr_Body req.

(** The request that is forwarded after validation. *)
Definition forwarded (req : http_request W) : http_request W :=
  match hr_Body req with
  | Some b =>
      if (hr_Method req =?s "POST") || (hr_Method req =?s "PUT") || (hr_Method req =?s "PATCH")
      then with_body req (Some (mkBody (br_data b) None)) else req
  | None => req
  end.

Lemma same_content_refl req : same_content req req.
Proof. done. Qed.

(** The reading of the body, and what is done with it. *)
Lemma body_cases req (k : http_request W -> string -> W -> result R * W) w :
  (match hr_Body req with
   | Some b =>
       if (hr_Method req =?s "POST") || (hr_Method req =?s "PUT")
          || (hr_Method req =?s "PATCH")
       then
         let '(body, _) := ReadAll b in
         match body with
         | Err readErr => (Err (wrapf "failed to read request body: " readErr), w)
         | Ok body => k (with_body req (Some (mkBody body None))) body w
         end
       else k req "" w
   | None => k req "" w
   end) =
  match validated_body req with
  | Err e => (Err (wrapf "failed to read request body: " e), w)
  | Ok body => k (forwarded req) body w
  end.
Proof.
  unfold validated_body, forwarded. destruct (hr_Body req) as [b|]; [|done].
  destruct (_ || _); [|done]. by destruct b as [data [e|]].
Qed.

Lemma forwarded_same req body :
  validated_body req = Ok body -> same_content req (forwarded req).
Proof.
  unfold validated_body, forwarded, same_content, with_body.
  destruct (hr_Body req) as [b|] eqn:Hb; [|intros _; by rewrite ?Hb].
  destruct (_ || _); [|intros _; by rewrite ?Hb].
  destruct b as [data [e|]]; [done|]. cbn. by intros [= ->].
Qed.

Lemma RoundTrip_eq d rt req w :
  let path := stripAPIPathPrefix (hr_Path req) (rt_apiPathPrefix rt) in
  RoundTrip (set_delegate d rt) req w =
  match parseURLToGVR path with
  | None => d req w
  | Some gvr =>
      let '(r, w0) := getGVK rt gvr (parseSubresource path) w in
      match r with
      | Err err => (Err err, w0)
      | Ok gvk =>
          if negb (isAllowed rt gvk w0)
          then (Err (ErrNew (fmt ["resource not allowed: "; GVK_String gvk])), w0)
          else if is_SSAR gvr then d req w0
          else match validated_body req with
               | Err e => (Err (wrapf "failed to read request body: " e), w0)
               | Ok body =>
                   let '(e, w1) := run_validators (hr_Context req) (rt_validators rt)
                                     (validation_request rt req gvr gvk body) w0 in
                   match e with
                   | Some e => (Err e, w1)
                   | None => d (forwarded req) w1
                   end
               end
      end
  end.
Proof.
  intros path. unfold RoundTrip, validation_request.
  cbn [set_delegate rt_apiPathPrefix rt_delegate rt_validators]. fold path.
  destruct (parseURLToGVR path) as [gvr|]; [|done].
  change (getGVK (set_delegate d rt)) with (getGVK rt).
  destruct (getGVK rt gvr (parseSubresource path) w) as [[gvk|err] w0]; [|done].
  change (isAllowed (set_delegate d rt)) with (isAllowed rt).
  destruct (isAllowed rt gvk w0); [cbn [negb]|done].
  destruct (is_SSAR gvr); [done|].
  destruct (parseURLToNamespaceAndName path) as [ns name].
  exact (body_cases req (fun r body w =>
    let '(e, w) := run_validators (hr_Context req) (rt_validators rt)
      (mkHTTPValidationRequest (Some gvr) (Some gvk) (hr_Method req)
         (httpMethodToVerb (hr_Method req) path) ns name body path) w in
    match e with Some e => (Err e, w) | None => d r w end) w0).
Qed.

(** C1. Complete mediation: a request is either refused without any call of the
    delegate, or handed to it once, in which case the request was permitted,
    and no permitted request is refused. *)
Theorem RoundTrip_mediation rt req w :
  (exists e w', (forall w1, ~ permitted rt req w w1) /\
     forall d, RoundTrip (set_delegate d rt) req w = (Err e, w')) \/
  (exists req' w1, permitted rt req w w1 /\ same_content req req' /\
     forall d, RoundTrip (set_delegate d rt) req w = d req' w1).
Proof.
  unfold permitted. setoid_rewrite RoundTrip_eq. cbn zeta.
  set (path := stripAPIPathPrefix (hr_Path req) (rt_apiPathPrefix rt)).
  destruct (parseURLToGVR path) as [gvr|]; [|by right; exists req, w].
  destruct (getGVK rt gvr (parseSubresource path) w) as [[gvk|err] w0].
  2:{ left. eexists _, _. split; [|done]. intros w1 (? & ? & [=] & _). }
  destruct (isAllowed rt gvk w0) eqn:Hal; cbn [negb].
  2:{ left. eexists _, _. split; [|done]. intros w1 (? & ? & [= <- <-] & ? & _). congruence. }
  destruct (is_SSAR gvr) eqn:Hssar.
  { right. exists req, w0. split; [|done]. exists gvk, w0. auto. }
  destruct (validated_body req) as [body|e] eqn:Hb.
  2:{ left. eexists _, _. split; [|done].
      intros w1 (? & ? & _ & _ & [[? _]|[_ (? & ? & _)]]); congruence. }
  destruct (run_validators _ _ _ w0) as [[e|] w1] eqn:Hv.
  - left. eexists _, _. split; [|done].
    intros w2 (? & ? & [= <- <-] & _ & [[? _]|[_ (? & [= <-] & H)]]); congruence.
  - right. exists (forwarded req), w1. split; [|split; [by eapply forwarded_same|done]].
    exists gvk, w0. split; [done|]. split; [done|]. right. split; [done|]. by exists body.
Qed.

(** The review the RBAC validator sends passes the same gate but runs no
    validator, so the gate calls itself at most once in depth. *)
Theorem SSAR_runs_no_validator rt vs req w gvr :
  parseURLToGVR (stripAPIPathPrefix (hr_Path req) (rt_apiPathPrefix rt)) = Some gvr ->
  is_SSAR gvr = true ->
  RoundTrip rt req w =
  RoundTrip (mkACRT (rt_delegate rt) (rt_deniedResources rt) (rt_restMapper rt)
               (rt_rawDiscovery rt) (rt_apiPathPrefix rt) vs) req w.
Proof.
  intros Hgvr Hssar. destruct rt as [d den rm rd pre vs0].
  pose proof (RoundTrip_eq d (mkACRT d den rm rd pre vs0) req w) as H1.
  pose proof (RoundTrip_eq d (mkACRT d den rm rd pre vs) req w) as H2.
  unfold set_delegate in H1, H2. cbn in *. rewrite H1, H2, Hgvr.
  change (getGVK (mkACRT d den rm rd pre vs)) with (getGVK (mkACRT d den rm rd pre vs0)).
  destruct (getGVK _ gvr _ w) as [[gvk|] w0]; [|done]. by rewrite Hssar.
Qed.

(** A validator's acceptance: all of them said yes, in their order. *)
Lemma run_validators_app (ctx : context_session W) vs1 vs2 vreq (w : W) :
  run_validators ctx (vs1 ++ vs2) vreq w =
  let '(e, w1) := run_validators ctx vs1 vreq w in
  match e with Some e => (Some e, w1) | None => run_validators ctx vs2 vreq w1 end.
Proof.
  revert w. induction vs1 as [|v vs1 IH]; intros w; [done|].
  cbn. destruct (v_Validate v ctx vreq w) as [[e|] w0]; [done|]. apply IH.
Qed.
End Mediation.

(** ** The raw discovery cache *)

Section RawDiscovery.
Context {W : Type} `{!RawCache W} (delegate : Discovery W).
(** What the API server advertises, by group/version. *)
Context (server : string -> result resource_list).
Context (delegate_answers : forall gv w, (delegate gv w).1 = server gv).
(** Discovery does not touch the program's own cache. *)
Context (delegate_keeps : forall gv w, rc_get (delegate gv w).2 = rc_get w).

Definition raw_cache_ok (w : W) : Prop :=
  map_Forall (fun gv rl => server gv = Ok rl) (rc_get w).

(** While the server advertises the same resources the cache cannot be told
    from the server, and it never keeps a failure. *)
Lemma rawDiscovery_transparent gv w :
  raw_cache_ok w ->
  (rawDiscovery_ServerResourcesForGroupVersion delegate gv w).1 = server gv /\
  raw_cache_ok (rawDiscovery_ServerResourcesForGroupVersion delegate gv w).2 /\
  forall rl, rc_get (rawDiscovery_ServerResourcesForGroupVersion delegate gv w).2 !! gv = Some rl
             <-> server gv = Ok rl.
Proof.
  intros Hok. unfold rawDiscovery_ServerResourcesForGroupVersion.
  pose proof (delegate_answers gv w) as Ha. pose proof (delegate_keeps gv w) as Hk.
  destruct (rc_get w !! gv) as [rl|] eqn:Hgv.
  - specialize (Hok gv rl Hgv) as Hs. cbn. rewrite Hgv, Hs. naive_solver.
  - destruct (delegate gv w) as [[rl|err] w']; cbn in *; rewrite <-Ha.
    + unfold raw_cache_ok. rewrite rc_get_put, Hk. split; [done|]. split.
      * apply map_Forall_insert_2; [done|exact Hok].
      * rewrite lookup_insert_eq. naive_solver.
    + unfold raw_cache_ok. rewrite Hk, Hgv. naive_solver.
Qed.
End RawDiscovery.

(** ** The gate as the program builds it *)

Section Gate.
Context {W R P : Type} `{!RawCache W}.
Context (url_Parse_Path : string -> result string) (reg : validatorRegistry W P).
Context (Unmarshal : string -> result PipelineRun).

(** The validators of the gate: the registered ones, then the confirmation
    rules if there are any, and the licence check always last. *)
Lemma gate_validators (cfg : AccessControlRoundTripperConfig W R P) :
  rt_validators (NewAccessControlRoundTripper url_Parse_Path reg Unmarshal cfg) =
    (if ac_ValidationEnabled cfg then CreateValidators reg (ac_Providers cfg) else []) ++
    (match ac_ConfirmationRulesProvider cfg with
     | Some p => if decide (GetConfirmationRules p = []) then [] else [ConfirmationValidator p]
     | None => []
     end) ++ [WindowsEULAValidator Unmarshal].
Proof.
  unfold NewAccessControlRoundTripper. cbn [rt_validators].
  destruct (ac_ConfirmationRulesProvider cfg) as [p|]; [|done].
  destruct (GetConfirmationRules p) as [|r rs]; cbn; [done|]. by rewrite <-app_assoc.
Qed.

End Gate.

(** * Witnesses: a cluster with pods, a rule on their deletion, a user who accepts *)

Module AccessControlWitness.
Abbreviation world := (gmap string resource_list).

#[global] Instance world_raw_cache : RawCache world :=
  {| rc_get w := w; rc_put c _ := c; rc_get_put _ _ := eq_refl |}.

Definition pod_path : resource_path :=
  mkResourcePath "" "v1" (Some "default") "pods" (Some ("web", Some "log")).

Definition rules : ConfirmationRulesProvider :=
  mkProvider [mkRule "" None "delete" "Pod" "" "" "" "" "Delete a pod?"] "deny".
Definition user : Elicitor world := fun _ w => (Ok "accept", w).
Definition KindFor (g : GroupVersionResource) : ST world (result GroupVersionKind) :=
  fun w => (if gvr_Resource g =?s "pods" then Ok (mkGVK "" "v1" "Pod")
            else Err (ErrKind KindNoMatch "no match"), w).

Definition cfg : AccessControlRoundTripperConfig world string unit :=
  mkACRTConfig (fun req w => (Ok (hr_Path req), w))
    (Some (fun _ => [mkGVK "" "v1" "Secret"])) (fun _ => Some KindFor) "" tt None false
    (Some rules).
Definition request : http_request world :=
  mkRequest (Session user) "DELETE" "/api/v1/namespaces/default/pods/web" None.
Definition review : http_request world :=
  mkRequest NoSession "POST" "/apis/authorization.k8s.io/v1/selfsubjectaccessreviews" None.
Definition no_url (_ : string) : result string := Ok "".
Definition no_yaml (_ : string) : result PipelineRun := Err (ErrNew "not yaml").
Definition gate := NewAccessControlRoundTripper no_url ∅ no_yaml cfg.
End AccessControlWitness.

Lemma parse_print_path_witness :
  parseURLToNamespaceAndName (print_path AccessControlWitness.pod_path) = ("default", "web").
Proof.
  refine (proj1 (proj2 (parse_print_path AccessControlWitness.pod_path _))).
  repeat split; cbn; repeat constructor; done.
Defined.

Lemma SSAR_runs_no_validator_witness :
  RoundTrip AccessControlWitness.gate AccessControlWitness.review ∅ =
  RoundTrip (mkACRT (rt_delegate AccessControlWitness.gate)
               (rt_deniedResources AccessControlWitness.gate)
               (rt_restMapper AccessControlWitness.gate)
               (rt_rawDiscovery AccessControlWitness.gate) "" [])
    AccessControlWitness.review ∅.
Proof.
  exact (SSAR_runs_no_validator AccessControlWitness.gate [] AccessControlWitness.review ∅
           (mkGVR "authorization.k8s.io" "v1" "selfsubjectaccessreviews") eq_refl eq_refl).
Defined.


(** * Observations *)

(** The path of a subresource of a namespace is read as a namespaced resource of
    that name. *)
Example namespace_subresource_path :
  parseURLToGVR "/api/v1/namespaces/team/finalize" = Some (mkGVR "" "v1" "finalize") /\
  parseSubresource "/api/v1/namespaces/team/finalize" = "".
Proof. by vm_compute. Qed.
