(* ===== verification/TlsUtil.v ===== *)
(** pkg/tlsutil/tlsutil.go: TLS versions and cipher suites by name. *)
From S2P Require Import Prelude GoStrings Api.

(** * Definitions *)

Definition VersionTLS10 : Z := 0x301%Z.
Definition VersionTLS11 : Z := 0x302%Z.
Definition VersionTLS12 : Z := 0x303%Z.
Definition VersionTLS13 : Z := 0x304%Z.

Definition tlsVersionMap : gmap string Z :=
  {[ "1.0" := VersionTLS10; "1.1" := VersionTLS11; "1.2" := VersionTLS12;
     "1.3" := VersionTLS13; "VersionTLS10" := VersionTLS10; "VersionTLS11" := VersionTLS11;
     "VersionTLS12" := VersionTLS12; "VersionTLS13" := VersionTLS13 ]}.

Definition ParseTLSVersion (version : string) : result Z :=
  let version := TrimSpace version in
  if version =?s "" then Ok VersionTLS12
  else match tlsVersionMap !! version with
       | Some v => Ok v
       | None =>
           let validVersions := sort_strings (map fst (map_to_list tlsVersionMap)) in
           Err (ErrNew (fmt ["invalid TLS version "; quote version; ": valid values are ";
                             Join validVersions ", "]))
       end.

(** The fields of [tls.Config] the package sets; [None] is a nil slice or pool. *)
Record TLSConfig := mkTLSConfig {
  tls_MinVersion : Z;
  tls_CipherSuites : option (list Z);
  tls_RootCAs : option string;
  tls_InsecureSkipVerify : bool;
}.

Definition TLSConfigOption : Type := TLSConfig -> TLSConfig.
Definition WithRootCAs (pool : option string) : TLSConfigOption := fun cfg =>
  mkTLSConfig (tls_MinVersion cfg) (tls_CipherSuites cfg) pool (tls_InsecureSkipVerify cfg).
Definition WithInsecureSkipVerify (skip : bool) : TLSConfigOption := fun cfg =>
  mkTLSConfig (tls_MinVersion cfg) (tls_CipherSuites cfg) (tls_RootCAs cfg) skip.

Section Ciphers.
(** The cipher suites of crypto/tls, by name. *)
Context (tlsCipherSuiteMap : gmap string Z).

(** The loop: the suites found so far and the errors so far. *)
Fixpoint cipher_loop (suites : list string) (found : list Z) (errs : list error) :
    list Z * list error :=
  match suites with
  | [] => (found, errs)
  | name :: rest =>
      let name := TrimSpace name in
      if name =?s "" then cipher_loop rest found errs
      else match tlsCipherSuiteMap !! name with
           | Some id => cipher_loop rest (found ++ [id]) errs
           | None =>
               cipher_loop rest found
                 (errs ++ [ErrNew (fmt ["unknown cipher suite "; quote name])])
           end
  end.

Definition ParseTLSCipherSuites (suites : list string) : result (option (list Z)) :=
  if Nat.eqb (length suites) 0 then Ok None
  else
    let '(found, errs) := cipher_loop suites [] [] in
    if Nat.ltb 0 (length errs) then Err (wrapf "invalid cipher suites: " (ErrJoin errs))
    else if Nat.eqb (length found) 0 then Ok None
    else Ok (Some found).

Definition BuildTLSConfig (minVersion : string) (cipherSuites : list string)
    (opts : list TLSConfigOption) : result TLSConfig :=
  match ParseTLSVersion minVersion with
  | Err err => Err (wrapf "failed to parse TLS min version: " err)
  | Ok parsedMinVersion =>
      match ParseTLSCipherSuites cipherSuites with
      | Err err => Err (wrapf "failed to parse TLS cipher suites: " err)
      | Ok parsedCipherSuites =>
          Ok (foldl (fun cfg opt => opt cfg)
                (mkTLSConfig parsedMinVersion parsedCipherSuites None false) opts)
      end
  end.
End Ciphers.

(** * Lemmas *)

(** The names a list of suites is read as. *)
Definition suite_names (suites : list string) : list string :=
  filter (.≠ "") (map TrimSpace suites).

Section CipherSpec.
Context (m : gmap string Z).

Lemma cipher_loop_spec suites found errs :
  cipher_loop m suites found errs =
  (found ++ omap (fun n => m !! n) (suite_names suites),
   errs ++ map (fun n => ErrNew (fmt ["unknown cipher suite "; quote n]))
             (filter (fun n => m !! n = None) (suite_names suites))).
Proof.
  revert found errs. induction suites as [|s suites IH]; intros found errs.
  - cbn. by rewrite !app_nil_r.
  - cbn [cipher_loop]. unfold suite_names. cbn [map]. rewrite filter_cons.
    destruct (bool_decide_reflect (TrimSpace s = "")) as [He|He].
    + rewrite decide_False by (intros H; by apply H). apply IH.
    + rewrite decide_True by done. fold (suite_names suites). cbn [omap list_omap].
      rewrite filter_cons. destruct (m !! TrimSpace s) as [id|] eqn:Hm.
      * rewrite decide_False by done. rewrite IH. by rewrite <-!app_assoc.
      * rewrite decide_True by done. rewrite IH. by rewrite <-!app_assoc.
Qed.

(** A configuration is built exactly from known names, and then has the suites in
    their order, none meaning the library's own choice; the minimum version is
    never below the default when none is given. *)
Theorem BuildTLSConfig_spec minVersion suites :
  (is_ok (BuildTLSConfig m minVersion suites []) = true <->
     is_ok (ParseTLSVersion minVersion) = true /\
     Forall (fun n => is_Some (m !! n)) (suite_names suites)) /\
  forall cfg, BuildTLSConfig m minVersion suites [] = Ok cfg ->
    ParseTLSVersion minVersion = Ok (tls_MinVersion cfg) /\
    default [] (tls_CipherSuites cfg) = omap (fun n => m !! n) (suite_names suites) /\
    tls_CipherSuites cfg <> Some [] /\ tls_InsecureSkipVerify cfg = false.
Proof.
  unfold BuildTLSConfig. destruct (ParseTLSVersion minVersion) as [v|e]; [|split; [cbn; naive_solver|done]].
  assert (Hnil : forall l : list string, filter (fun n => m !! n = None) l = [] <->
                   Forall (fun n => is_Some (m !! n)) l).
  { induction l as [|n l IH]; [done|]. rewrite filter_cons, Forall_cons.
    destruct (m !! n) eqn:Hn; [rewrite decide_False by done|rewrite decide_True by done];
      split; try done; [intros ?%IH; eauto|by intros [_ ?%IH]|].
    by intros [[? ?] _]. }
  unfold ParseTLSCipherSuites. rewrite cipher_loop_spec. cbn [app].
  destruct suites as [|s suites]; cbn [length Nat.eqb].
  { split; [split; [by repeat split|done]|]. intros cfg [= <-]. done. }
  rewrite length_map. set (names := suite_names (s :: suites)).
  destruct (Nat.ltb_spec 0 (length (filter (fun n => m !! n = None) names))) as [Hlt|Hlt].
  - split; [|done]. split; [done|]. intros [_ He%Hnil]. rewrite He in Hlt. cbn in Hlt. lia.
  - assert (filter (fun n => m !! n = None) names = []) as He%Hnil
      by (apply nil_length_inv; lia).
    destruct (Nat.eqb_spec (length (omap (fun n => m !! n) names)) 0) as [H0|H0].
    + apply nil_length_inv in H0. split; [by split|]. intros cfg [= <-]. by rewrite H0.
    + split; [by split|]. intros cfg [= <-]. repeat split. intros [= H]. exact (H0 (f_equal length H)).
Qed.
End CipherSpec.
