(* ===== verification/Toolsets.v ===== *)
(** pkg/toolsets/toolsets.go: the registry of toolsets, and pkg/output: the names of
    the output formats. *)
From S2P Require Import Prelude GoStrings Api.

(** * Definitions *)

(** ** output.FromString: [None] is the nil interface. *)

Inductive Output : Type := Yaml | Table.

#[export] Instance Output_eq_dec : EqDecision Output.
Proof. solve_decision. Defined.

Definition Output_GetName (o : Output) : string :=
  match o with Yaml => "yaml" | Table => "table" end.
Definition Output_AsTable (o : Output) : bool :=
  match o with Yaml => false | Table => true end.

Definition Outputs : list Output := [Yaml; Table].
Definition Output_Names : list string := map Output_GetName Outputs.

Fixpoint from_outputs (outputs : list Output) (name : string) : option Output :=
  match outputs with
  | [] => None
  | o :: rest => if Output_GetName o =?s name then Some o else from_outputs rest name
  end.
Definition Output_FromString (name : string) : option Output := from_outputs Outputs name.

(** ** The registry, over the interface [api.Toolset] *)

Class Named (T : Type) := GetName : T -> string.

(** The map of the registry; its keys are the names of its values. *)
Abbreviation toolsetRegistry T := (gmap string T) (only parsing).

Section Registry.
Context {T : Type} `{!Named T}.

(** [None] is the panic on a name registered twice. *)
Definition toolsetRegistry_register (toolset : T) (r : toolsetRegistry T) :
    option (toolsetRegistry T) :=
  match r !! GetName toolset with
  | Some _ => None
  | None => Some (<[GetName toolset := toolset]> r)
  end.

Definition toolsetRegistry_get (name : string) (r : toolsetRegistry T) : option T := r !! name.

Definition by_name (a b : T) : Prop := String.le (GetName a) (GetName b).
#[export] Instance by_name_dec : RelDecision by_name.
Proof. intros a b. unfold by_name. apply _. Defined.

Definition toolsetRegistry_all (r : toolsetRegistry T) : list T :=
  merge_sort by_name (map snd (map_to_list r)).

Definition ToolsetNames (r : toolsetRegistry T) : list string :=
  sort_strings (map GetName (toolsetRegistry_all r)).

Definition ToolsetFromString (r : toolsetRegistry T) (name : string) : option T :=
  toolsetRegistry_get (TrimSpace name) r.

Fixpoint validate_loop (r : toolsetRegistry T) (toolsets : list string) : option error :=
  match toolsets with
  | [] => None
  | toolset :: rest =>
      match ToolsetFromString r toolset with
      | None => Some (ErrNew (fmt ["invalid toolset name: "; toolset; ", valid names are: ";
                                   Join (ToolsetNames r) ", "]))
      | Some _ => validate_loop r rest
      end
  end.
Definition Toolsets_Validate (r : toolsetRegistry T) (toolsets : list string) : option error :=
  validate_loop r toolsets.

(** The registry's invariant. *)
Definition registry_ok (r : toolsetRegistry T) : Prop := map_Forall (fun n t => GetName t = n) r.
End Registry.

(** * Lemmas *)

Lemma Output_FromString_spec name o : Output_FromString name = Some o <-> Output_GetName o = name.
Proof.
  unfold Output_FromString. cbn [from_outputs Outputs].
  repeat case_bool_decide; subst; destruct o; cbn in *; naive_solver.
Qed.

Section RegistryLemmas.
Context {T : Type} `{!Named T}.
Implicit Types r : toolsetRegistry T.

#[export] Instance by_name_trans : Transitive (by_name (T := T)).
Proof. intros a b c. unfold by_name. apply transitivity. Qed.

#[export] Instance by_name_total : Total (by_name (T := T)).
Proof. intros a b. unfold by_name. apply String_le_total. Qed.

Lemma register_ok t r r' :
  registry_ok r -> toolsetRegistry_register t r = Some r' -> registry_ok r'.
Proof.
  unfold toolsetRegistry_register. intros Hok. destruct (r !! GetName t); [done|].
  intros [= <-]. by apply map_Forall_insert_2.
Qed.

Lemma elem_of_all r t : registry_ok r -> t ∈ toolsetRegistry_all r <-> r !! GetName t = Some t.
Proof.
  intros Hok. unfold toolsetRegistry_all. rewrite merge_sort_Permutation.
  rewrite list_elem_of_fmap. split.
  - intros ([n t'] & -> & Hin%elem_of_map_to_list). cbn. by rewrite (Hok _ _ Hin).
  - intros Hl. exists (GetName t, t). split; [done|]. by apply elem_of_map_to_list.
Qed.

Lemma all_sorted r : Sorted by_name (toolsetRegistry_all r).
Proof. apply Sorted_merge_sort, _. Qed.

(** Validation accepts exactly the lists whose names, trimmed, are registered;
    so no accepted list has a nil toolset. *)
Theorem Toolsets_Validate_None r names :
  Toolsets_Validate r names = None <->
  Forall (fun n => is_Some (ToolsetFromString r n)) names.
Proof.
  unfold Toolsets_Validate. induction names as [|n names IH]; cbn [validate_loop]; [done|].
  rewrite Forall_cons. destruct (ToolsetFromString r n) as [t|].
  - rewrite IH. naive_solver.
  - split; [done|]. by intros [[? ?] _].
Qed.
End RegistryLemmas.
