(* ===== verification/Config.v ===== *)
(** pkg/config: the server's configuration (config.go, tls.go, http_config.go,
    telemetry_config.go, config_default_overrides.go, state.go), its validation at
    startup and on reload, and its normalisation.  The environment, the file
    system test and the URL parser are parameters. *)
From Stdlib Require Import Floats.SpecFloat.
From S2P Require Import Prelude GoStrings Api Confirmation TlsUtil Toolsets.

(** * Definitions *)

Record ToolOverride := mkToolOverride { to_Description : string }.

(** TOML values: what [toml.Primitive] holds undecoded and what a file decodes
    into.  A table lists its keys in an arbitrary order. *)
Inductive tval : Type :=
| TLeaf (v : jvalue)
| TTable (kvs : list (string * tval)).

(** [api.ExtendedConfig]: an interface with a validation. *)
Record ExtendedConfig := mkExtendedConfig {
  ec_Type : string;
  ec_Validate : option error;
}.

Record HTTPConfig := mkHTTPConfig {
  h_ReadHeaderTimeout : Z;
  h_MaxBodyBytes : Z;
  h_RateLimitRPS : spec_float;
  h_RateLimitBurst : Z;
}.
Definition HTTPConfig_zero : HTTPConfig := mkHTTPConfig 0 0 (S754_zero false) 0.

Definition DefaultRateLimitBurst : Z := 10%Z.

Record TelemetryConfig := mkTelemetryConfig {
  t_Enabled : option bool;
  t_Endpoint : string;
  t_Protocol : string;
  t_TracesSampler : string;
  t_TracesSamplerArg : option spec_float;
}.
Definition TelemetryConfig_zero : TelemetryConfig := mkTelemetryConfig None "" "" "" None.

Record StaticConfig := mkStaticConfig {
  c_DeniedResources : list GroupVersionKind;
  c_LogLevel : Z;
  c_LogFile : string;
  c_Port : string;
  c_BindAddress : string;
  c_KubeConfig : string;
  c_ListOutput : string;
  c_Stateless : bool;
  c_ReadOnly : bool;
  c_DisableDestructive : bool;
  c_Toolsets : list string;
  c_EnabledTools : option (list string);
  c_DisabledTools : option (list string);
  c_ToolOverrides : gmap string ToolOverride;
  c_Prompts : list Prompt;
  c_RequireOAuth : bool;
  c_OAuthAudience : string;
  c_AuthorizationURL : string;
  c_SkipJWTVerification : bool;
  c_DisableDynamicClientRegistration : bool;
  c_OAuthScopes : list string;
  c_StsClientId : string;
  c_StsClientSecret : string;
  c_StsAudience : string;
  c_StsScopes : list string;
  c_TokenExchangeStrategy : string;
  c_StsAuthStyle : string;
  c_StsClientCertFile : string;
  c_StsClientKeyFile : string;
  c_StsFederatedTokenFile : string;
  c_StsSubjectTokenType : string;
  c_StsRequestedTokenType : string;
  c_ClusterAuthMode : string;
  c_CertificateAuthority : string;
  c_ServerURL : string;
  c_TrustProxyHeaders : bool;
  c_TLSCert : string;
  c_TLSKey : string;
  c_RequireTLS : bool;
  c_TLSMinVersion : string;
  c_TLSCipherSuites : list string;
  c_HTTP : HTTPConfig;
  c_ClusterProviderStrategy : string;
  c_ClusterProviderConfigs : list (string * tval);
  c_ToolsetConfigs : list (string * tval);
  c_ServerInstructions : string;
  c_Telemetry : TelemetryConfig;
  c_ValidationEnabled : bool;
  c_EnableTargetCompatibilityToolFilters : bool;
  c_ConfirmationFallback : string;
  c_ConfirmationRules : list ConfirmationRule;
  c_parsedClusterProviderConfigs : gmap string ExtendedConfig;
  c_parsedToolsetConfigs : gmap string ExtendedConfig;
  c_configDirPath : string;
  c_providerStrategies : list string;
  c_tokenExchangeStrategies : list string;
}.

(** ** Updates of a configuration: the assignments of the code *)

(** The assignments [Validate] begins with. *)
Definition normalize (c : StaticConfig) : StaticConfig :=
  {| c_DeniedResources := c_DeniedResources c;
     c_LogLevel := c_LogLevel c;
     c_LogFile := c_LogFile c;
     c_Port := c_Port c;
     c_BindAddress := c_BindAddress c;
     c_KubeConfig := c_KubeConfig c;
     c_ListOutput := c_ListOutput c;
     c_Stateless := c_Stateless c;
     c_ReadOnly := c_ReadOnly c;
     c_DisableDestructive := c_DisableDestructive c;
     c_Toolsets := c_Toolsets c;
     c_EnabledTools := c_EnabledTools c;
     c_DisabledTools := c_DisabledTools c;
     c_ToolOverrides := c_ToolOverrides c;
     c_Prompts := c_Prompts c;
     c_RequireOAuth := c_RequireOAuth c;
     c_OAuthAudience := c_OAuthAudience c;
     c_AuthorizationURL := c_AuthorizationURL c;
     c_SkipJWTVerification := c_SkipJWTVerification c;
     c_DisableDynamicClientRegistration := c_DisableDynamicClientRegistration c;
     c_OAuthScopes := c_OAuthScopes c;
     c_StsClientId := c_StsClientId c;
     c_StsClientSecret := c_StsClientSecret c;
     c_StsAudience := c_StsAudience c;
     c_StsScopes := c_StsScopes c;
     c_TokenExchangeStrategy := c_TokenExchangeStrategy c;
     c_StsAuthStyle := TrimSpace (c_StsAuthStyle c);
     c_StsClientCertFile := TrimSpace (c_StsClientCertFile c);
     c_StsClientKeyFile := TrimSpace (c_StsClientKeyFile c);
     c_StsFederatedTokenFile := TrimSpace (c_StsFederatedTokenFile c);
     c_StsSubjectTokenType := TrimSpace (c_StsSubjectTokenType c);
     c_StsRequestedTokenType := TrimSpace (c_StsRequestedTokenType c);
     c_ClusterAuthMode := c_ClusterAuthMode c;
     c_CertificateAuthority := TrimSpace (c_CertificateAuthority c);
     c_ServerURL := c_ServerURL c;
     c_TrustProxyHeaders := c_TrustProxyHeaders c;
     c_TLSCert := TrimSpace (c_TLSCert c);
     c_TLSKey := TrimSpace (c_TLSKey c);
     c_RequireTLS := c_RequireTLS c;
     c_TLSMinVersion := c_TLSMinVersion c;
     c_TLSCipherSuites := c_TLSCipherSuites c;
     c_HTTP := c_HTTP c;
     c_ClusterProviderStrategy := c_ClusterProviderStrategy c;
     c_ClusterProviderConfigs := c_ClusterProviderConfigs c;
     c_ToolsetConfigs := c_ToolsetConfigs c;
     c_ServerInstructions := c_ServerInstructions c;
     c_Telemetry := c_Telemetry c;
     c_ValidationEnabled := c_ValidationEnabled c;
     c_EnableTargetCompatibilityToolFilters := c_EnableTargetCompatibilityToolFilters c;
     c_ConfirmationFallback := c_ConfirmationFallback c;
     c_ConfirmationRules := c_ConfirmationRules c;
     c_parsedClusterProviderConfigs := c_parsedClusterProviderConfigs c;
     c_parsedToolsetConfigs := c_parsedToolsetConfigs c;
     c_configDirPath := c_configDirPath c;
     c_providerStrategies := c_providerStrategies c;
     c_tokenExchangeStrategies := c_tokenExchangeStrategies c |}.

Definition WithProviderStrategies (strategies : list string) (c : StaticConfig) : StaticConfig :=
  {| c_DeniedResources := c_DeniedResources c;
     c_LogLevel := c_LogLevel c;
     c_LogFile := c_LogFile c;
     c_Port := c_Port c;
     c_BindAddress := c_BindAddress c;
     c_KubeConfig := c_KubeConfig c;
     c_ListOutput := c_ListOutput c;
     c_Stateless := c_Stateless c;
     c_ReadOnly := c_ReadOnly c;
     c_DisableDestructive := c_DisableDestructive c;
     c_Toolsets := c_Toolsets c;
     c_EnabledTools := c_EnabledTools c;
     c_DisabledTools := c_DisabledTools c;
     c_ToolOverrides := c_ToolOverrides c;
     c_Prompts := c_Prompts c;
     c_RequireOAuth := c_RequireOAuth c;
     c_OAuthAudience := c_OAuthAudience c;
     c_AuthorizationURL := c_AuthorizationURL c;
     c_SkipJWTVerification := c_SkipJWTVerification c;
     c_DisableDynamicClientRegistration := c_DisableDynamicClientRegistration c;
     c_OAuthScopes := c_OAuthScopes c;
     c_StsClientId := c_StsClientId c;
     c_StsClientSecret := c_StsClientSecret c;
     c_StsAudience := c_StsAudience c;
     c_StsScopes := c_StsScopes c;
     c_TokenExchangeStrategy := c_TokenExchangeStrategy c;
     c_StsAuthStyle := c_StsAuthStyle c;
     c_StsClientCertFile := c_StsClientCertFile c;
     c_StsClientKeyFile := c_StsClientKeyFile c;
     c_StsFederatedTokenFile := c_StsFederatedTokenFile c;
     c_StsSubjectTokenType := c_StsSubjectTokenType c;
     c_StsRequestedTokenType := c_StsRequestedTokenType c;
     c_ClusterAuthMode := c_ClusterAuthMode c;
     c_CertificateAuthority := c_CertificateAuthority c;
     c_ServerURL := c_ServerURL c;
     c_TrustProxyHeaders := c_TrustProxyHeaders c;
     c_TLSCert := c_TLSCert c;
     c_TLSKey := c_TLSKey c;
     c_RequireTLS := c_RequireTLS c;
     c_TLSMinVersion := c_TLSMinVersion c;
     c_TLSCipherSuites := c_TLSCipherSuites c;
     c_HTTP := c_HTTP c;
     c_ClusterProviderStrategy := c_ClusterProviderStrategy c;
     c_ClusterProviderConfigs := c_ClusterProviderConfigs c;
     c_ToolsetConfigs := c_ToolsetConfigs c;
     c_ServerInstructions := c_ServerInstructions c;
     c_Telemetry := c_Telemetry c;
     c_ValidationEnabled := c_ValidationEnabled c;
     c_EnableTargetCompatibilityToolFilters := c_EnableTargetCompatibilityToolFilters c;
     c_ConfirmationFallback := c_ConfirmationFallback c;
     c_ConfirmationRules := c_ConfirmationRules c;
     c_parsedClusterProviderConfigs := c_parsedClusterProviderConfigs c;
     c_parsedToolsetConfigs := c_parsedToolsetConfigs c;
     c_configDirPath := c_configDirPath c;
     c_providerStrategies := strategies;
     c_tokenExchangeStrategies := c_tokenExchangeStrategies c |}.

Definition WithTokenExchangeStrategies (strategies : list string) (c : StaticConfig) : StaticConfig :=
  {| c_DeniedResources := c_DeniedResources c;
     c_LogLevel := c_LogLevel c;
     c_LogFile := c_LogFile c;
     c_Port := c_Port c;
     c_BindAddress := c_BindAddress c;
     c_KubeConfig := c_KubeConfig c;
     c_ListOutput := c_ListOutput c;
     c_Stateless := c_Stateless c;
     c_ReadOnly := c_ReadOnly c;
     c_DisableDestructive := c_DisableDestructive c;
     c_Toolsets := c_Toolsets c;
     c_EnabledTools := c_EnabledTools c;
     c_DisabledTools := c_DisabledTools c;
     c_ToolOverrides := c_ToolOverrides c;
     c_Prompts := c_Prompts c;
     c_RequireOAuth := c_RequireOAuth c;
     c_OAuthAudience := c_OAuthAudience c;
     c_AuthorizationURL := c_AuthorizationURL c;
     c_SkipJWTVerification := c_SkipJWTVerification c;
     c_DisableDynamicClientRegistration := c_DisableDynamicClientRegistration c;
     c_OAuthScopes := c_OAuthScopes c;
     c_StsClientId := c_StsClientId c;
     c_StsClientSecret := c_StsClientSecret c;
     c_StsAudience := c_StsAudience c;
     c_StsScopes := c_StsScopes c;
     c_TokenExchangeStrategy := c_TokenExchangeStrategy c;
     c_StsAuthStyle := c_StsAuthStyle c;
     c_StsClientCertFile := c_StsClientCertFile c;
     c_StsClientKeyFile := c_StsClientKeyFile c;
     c_StsFederatedTokenFile := c_StsFederatedTokenFile c;
     c_StsSubjectTokenType := c_StsSubjectTokenType c;
     c_StsRequestedTokenType := c_StsRequestedTokenType c;
     c_ClusterAuthMode := c_ClusterAuthMode c;
     c_CertificateAuthority := c_CertificateAuthority c;
     c_ServerURL := c_ServerURL c;
     c_TrustProxyHeaders := c_TrustProxyHeaders c;
     c_TLSCert := c_TLSCert c;
     c_TLSKey := c_TLSKey c;
     c_RequireTLS := c_RequireTLS c;
     c_TLSMinVersion := c_TLSMinVersion c;
     c_TLSCipherSuites := c_TLSCipherSuites c;
     c_HTTP := c_HTTP c;
     c_ClusterProviderStrategy := c_ClusterProviderStrategy c;
     c_ClusterProviderConfigs := c_ClusterProviderConfigs c;
     c_ToolsetConfigs := c_ToolsetConfigs c;
     c_ServerInstructions := c_ServerInstructions c;
     c_Telemetry := c_Telemetry c;
     c_ValidationEnabled := c_ValidationEnabled c;
     c_EnableTargetCompatibilityToolFilters := c_EnableTargetCompatibilityToolFilters c;
     c_ConfirmationFallback := c_ConfirmationFallback c;
     c_ConfirmationRules := c_ConfirmationRules c;
     c_parsedClusterProviderConfigs := c_parsedClusterProviderConfigs c;
     c_parsedToolsetConfigs := c_parsedToolsetConfigs c;
     c_configDirPath := c_configDirPath c;
     c_providerStrategies := c_providerStrategies c;
     c_tokenExchangeStrategies := strategies |}.

Definition WithDirPath (path : string) (c : StaticConfig) : StaticConfig :=
  {| c_DeniedResources := c_DeniedResources c;
     c_LogLevel := c_LogLevel c;
     c_LogFile := c_LogFile c;
     c_Port := c_Port c;
     c_BindAddress := c_BindAddress c;
     c_KubeConfig := c_KubeConfig c;
     c_ListOutput := c_ListOutput c;
     c_Stateless := c_Stateless c;
     c_ReadOnly := c_ReadOnly c;
     c_DisableDestructive := c_DisableDestructive c;
     c_Toolsets := c_Toolsets c;
     c_EnabledTools := c_EnabledTools c;
     c_DisabledTools := c_DisabledTools c;
     c_ToolOverrides := c_ToolOverrides c;
     c_Prompts := c_Prompts c;
     c_RequireOAuth := c_RequireOAuth c;
     c_OAuthAudience := c_OAuthAudience c;
     c_AuthorizationURL := c_AuthorizationURL c;
     c_SkipJWTVerification := c_SkipJWTVerification c;
     c_DisableDynamicClientRegistration := c_DisableDynamicClientRegistration c;
     c_OAuthScopes := c_OAuthScopes c;
     c_StsClientId := c_StsClientId c;
     c_StsClientSecret := c_StsClientSecret c;
     c_StsAudience := c_StsAudience c;
     c_StsScopes := c_StsScopes c;
     c_TokenExchangeStrategy := c_TokenExchangeStrategy c;
     c_StsAuthStyle := c_StsAuthStyle c;
     c_StsClientCertFile := c_StsClientCertFile c;
     c_StsClientKeyFile := c_StsClientKeyFile c;
     c_StsFederatedTokenFile := c_StsFederatedTokenFile c;
     c_StsSubjectTokenType := c_StsSubjectTokenType c;
     c_StsRequestedTokenType := c_StsRequestedTokenType c;
     c_ClusterAuthMode := c_ClusterAuthMode c;
     c_CertificateAuthority := c_CertificateAuthority c;
     c_ServerURL := c_ServerURL c;
     c_TrustProxyHeaders := c_TrustProxyHeaders c;
     c_TLSCert := c_TLSCert c;
     c_TLSKey := c_TLSKey c;
     c_RequireTLS := c_RequireTLS c;
     c_TLSMinVersion := c_TLSMinVersion c;
     c_TLSCipherSuites := c_TLSCipherSuites c;
     c_HTTP := c_HTTP c;
     c_ClusterProviderStrategy := c_ClusterProviderStrategy c;
     c_ClusterProviderConfigs := c_ClusterProviderConfigs c;
     c_ToolsetConfigs := c_ToolsetConfigs c;
     c_ServerInstructions := c_ServerInstructions c;
     c_Telemetry := c_Telemetry c;
     c_ValidationEnabled := c_ValidationEnabled c;
     c_EnableTargetCompatibilityToolFilters := c_EnableTargetCompatibilityToolFilters c;
     c_ConfirmationFallback := c_ConfirmationFallback c;
     c_ConfirmationRules := c_ConfirmationRules c;
     c_parsedClusterProviderConfigs := c_parsedClusterProviderConfigs c;
     c_parsedToolsetConfigs := c_parsedToolsetConfigs c;
     c_configDirPath := path;
     c_providerStrategies := c_providerStrategies c;
     c_tokenExchangeStrategies := c_tokenExchangeStrategies c |}.

(** The two assignments of parsed extended configurations in [ReadToml]. *)
Definition with_parsed (providers toolsets : gmap string ExtendedConfig) (c : StaticConfig) : StaticConfig :=
  {| c_DeniedResources := c_DeniedResources c;
     c_LogLevel := c_LogLevel c;
     c_LogFile := c_LogFile c;
     c_Port := c_Port c;
     c_BindAddress := c_BindAddress c;
     c_KubeConfig := c_KubeConfig c;
     c_ListOutput := c_ListOutput c;
     c_Stateless := c_Stateless c;
     c_ReadOnly := c_ReadOnly c;
     c_DisableDestructive := c_DisableDestructive c;
     c_Toolsets := c_Toolsets c;
     c_EnabledTools := c_EnabledTools c;
     c_DisabledTools := c_DisabledTools c;
     c_ToolOverrides := c_ToolOverrides c;
     c_Prompts := c_Prompts c;
     c_RequireOAuth := c_RequireOAuth c;
     c_OAuthAudience := c_OAuthAudience c;
     c_AuthorizationURL := c_AuthorizationURL c;
     c_SkipJWTVerification := c_SkipJWTVerification c;
     c_DisableDynamicClientRegistration := c_DisableDynamicClientRegistration c;
     c_OAuthScopes := c_OAuthScopes c;
     c_StsClientId := c_StsClientId c;
     c_StsClientSecret := c_StsClientSecret c;
     c_StsAudience := c_StsAudience c;
     c_StsScopes := c_StsScopes c;
     c_TokenExchangeStrategy := c_TokenExchangeStrategy c;
     c_StsAuthStyle := c_StsAuthStyle c;
     c_StsClientCertFile := c_StsClientCertFile c;
     c_StsClientKeyFile := c_StsClientKeyFile c;
     c_StsFederatedTokenFile := c_StsFederatedTokenFile c;
     c_StsSubjectTokenType := c_StsSubjectTokenType c;
     c_StsRequestedTokenType := c_StsRequestedTokenType c;
     c_ClusterAuthMode := c_ClusterAuthMode c;
     c_CertificateAuthority := c_CertificateAuthority c;
     c_ServerURL := c_ServerURL c;
     c_TrustProxyHeaders := c_TrustProxyHeaders c;
     c_TLSCert := c_TLSCert c;
     c_TLSKey := c_TLSKey c;
     c_RequireTLS := c_RequireTLS c;
     c_TLSMinVersion := c_TLSMinVersion c;
     c_TLSCipherSuites := c_TLSCipherSuites c;
     c_HTTP := c_HTTP c;
     c_ClusterProviderStrategy := c_ClusterProviderStrategy c;
     c_ClusterProviderConfigs := c_ClusterProviderConfigs c;
     c_ToolsetConfigs := c_ToolsetConfigs c;
     c_ServerInstructions := c_ServerInstructions c;
     c_Telemetry := c_Telemetry c;
     c_ValidationEnabled := c_ValidationEnabled c;
     c_EnableTargetCompatibilityToolFilters := c_EnableTargetCompatibilityToolFilters c;
     c_ConfirmationFallback := c_ConfirmationFallback c;
     c_ConfirmationRules := c_ConfirmationRules c;
     c_parsedClusterProviderConfigs := providers;
     c_parsedToolsetConfigs := toolsets;
     c_configDirPath := c_configDirPath c;
     c_providerStrategies := c_providerStrategies c;
     c_tokenExchangeStrategies := c_tokenExchangeStrategies c |}.

(** ** config_default.go and config_default_overrides.go *)

Definition BaseDefault : StaticConfig :=
  {| c_DeniedResources := [];
     c_LogLevel := 0%Z;
     c_LogFile := "";
     c_Port := "";
     c_BindAddress := "0.0.0.0";
     c_KubeConfig := "";
     c_ListOutput := "table";
     c_Stateless := false;
     c_ReadOnly := false;
     c_DisableDestructive := false;
     c_Toolsets := ["core"; "config"];
     c_EnabledTools := None;
     c_DisabledTools := None;
     c_ToolOverrides := ∅;
     c_Prompts := [];
     c_RequireOAuth := false;
     c_OAuthAudience := "";
     c_AuthorizationURL := "";
     c_SkipJWTVerification := false;
     c_DisableDynamicClientRegistration := false;
     c_OAuthScopes := [];
     c_StsClientId := "";
     c_StsClientSecret := "";
     c_StsAudience := "";
     c_StsScopes := [];
     c_TokenExchangeStrategy := "";
     c_StsAuthStyle := "";
     c_StsClientCertFile := "";
     c_StsClientKeyFile := "";
     c_StsFederatedTokenFile := "";
     c_StsSubjectTokenType := "";
     c_StsRequestedTokenType := "";
     c_ClusterAuthMode := "";
     c_CertificateAuthority := "";
     c_ServerURL := "";
     c_TrustProxyHeaders := false;
     c_TLSCert := "";
     c_TLSKey := "";
     c_RequireTLS := false;
     c_TLSMinVersion := "";
     c_TLSCipherSuites := [];
     c_HTTP := mkHTTPConfig (10 * 1000000000)%Z (16 * 2 ^ 20)%Z (S754_zero false) 0%Z;
     c_ClusterProviderStrategy := "";
     c_ClusterProviderConfigs := [];
     c_ToolsetConfigs := [];
     c_ServerInstructions := "";
     c_Telemetry := TelemetryConfig_zero;
     c_ValidationEnabled := false;
     c_EnableTargetCompatibilityToolFilters := false;
     c_ConfirmationFallback := "allow";
     c_ConfirmationRules := [];
     c_parsedClusterProviderConfigs := ∅;
     c_parsedToolsetConfigs := ∅;
     c_configDirPath := "";
     c_providerStrategies := [];
     c_tokenExchangeStrategies := [] |}.

Definition defaultOverrides : StaticConfig :=
  {| c_DeniedResources := [mkGVK "" "v1" "ServiceAccount"; mkGVK "" "v1" "Secret"; mkGVK "rbac.authorization.k8s.io" "v1" ""];
     c_LogLevel := 0%Z;
     c_LogFile := "";
     c_Port := "8080";
     c_BindAddress := "";
     c_KubeConfig := "";
     c_ListOutput := "";
     c_Stateless := false;
     c_ReadOnly := true;
     c_DisableDestructive := true;
     c_Toolsets := ["core"; "config"];
     c_EnabledTools := None;
     c_DisabledTools := Some ["configuration_view"];
     c_ToolOverrides := {[ "resources_create_or_update" := mkToolOverride (fmt ["Create or update a Kubernetes resource in the current cluster by providing a YAML or JSON representation of the resource."; nl;
       "IMPORTANT: For Pod resources, you MUST set spec.securityContext and spec.containers[*].securityContext. ";
       "For workload resources (Deployment, StatefulSet, Job), you MUST set spec.template.spec.securityContext and spec.template.spec.containers[*].securityContext. ";
       "Use a non-root security context: set runAsNonRoot: true, allowPrivilegeEscalation: false, and drop ALL capabilities (capabilities: {drop: ["; dq; "ALL"; dq; "]}). ";
       "Omitting the SecurityContext will cause pod scheduling failures on OpenShift and other clusters that enforce restricted security policies."]) ]};
     c_Prompts := [];
     c_RequireOAuth := false;
     c_OAuthAudience := "";
     c_AuthorizationURL := "";
     c_SkipJWTVerification := false;
     c_DisableDynamicClientRegistration := false;
     c_OAuthScopes := [];
     c_StsClientId := "";
     c_StsClientSecret := "";
     c_StsAudience := "";
     c_StsScopes := [];
     c_TokenExchangeStrategy := "";
     c_StsAuthStyle := "";
     c_StsClientCertFile := "";
     c_StsClientKeyFile := "";
     c_StsFederatedTokenFile := "";
     c_StsSubjectTokenType := "";
     c_StsRequestedTokenType := "";
     c_ClusterAuthMode := "";
     c_CertificateAuthority := "";
     c_ServerURL := "";
     c_TrustProxyHeaders := false;
     c_TLSCert := "";
     c_TLSKey := "";
     c_RequireTLS := false;
     c_TLSMinVersion := "";
     c_TLSCipherSuites := [];
     c_HTTP := HTTPConfig_zero;
     c_ClusterProviderStrategy := "";
     c_ClusterProviderConfigs := [];
     c_ToolsetConfigs := [];
     c_ServerInstructions := "";
     c_Telemetry := TelemetryConfig_zero;
     c_ValidationEnabled := false;
     c_EnableTargetCompatibilityToolFilters := false;
     c_ConfirmationFallback := "";
     c_ConfirmationRules := [];
     c_parsedClusterProviderConfigs := ∅;
     c_parsedToolsetConfigs := ∅;
     c_configDirPath := "";
     c_providerStrategies := [];
     c_tokenExchangeStrategies := [] |}.

(** ** telemetry_config.go and the environment *)

Section Environment.
(** [os.Getenv]; the text of a float64 ([strconv.FormatFloat] and the verb %v). *)
Context (Getenv : string -> string) (FormatFloat : spec_float -> string).

Definition Telemetry_GetEndpoint (c : TelemetryConfig) : string :=
  let envVal := Getenv "OTEL_EXPORTER_OTLP_ENDPOINT" in
  if envVal ≠?s "" then envVal else t_Endpoint c.

Definition Telemetry_IsEnabled (c : TelemetryConfig) : bool :=
  match t_Enabled c with
  | Some false => false
  | _ => Telemetry_GetEndpoint c ≠?s ""
  end.

Definition Telemetry_GetProtocol (c : TelemetryConfig) : string :=
  let envVal := Getenv "OTEL_EXPORTER_OTLP_PROTOCOL" in
  if envVal ≠?s "" then envVal else t_Protocol c.

Definition Telemetry_GetTracesSampler (c : TelemetryConfig) : string :=
  let envVal := Getenv "OTEL_TRACES_SAMPLER" in
  if envVal ≠?s "" then envVal else t_TracesSampler c.

Definition Telemetry_GetTracesSamplerArg (c : TelemetryConfig) : string :=
  let envVal := Getenv "OTEL_TRACES_SAMPLER_ARG" in
  if envVal ≠?s "" then envVal
  else match t_TracesSamplerArg c with
       | None => ""
       | Some f => FormatFloat f
       end.

Definition EnvTLSMinVersion : string := "TLS_MIN_VERSION".
Definition EnvTLSCipherSuites : string := "TLS_CIPHER_SUITES".

Definition GetTLSMinVersionConfig (c : StaticConfig) : string :=
  let envValue := Getenv EnvTLSMinVersion in
  if envValue ≠?s "" then envValue else c_TLSMinVersion c.

Definition GetTLSCipherSuitesConfig (c : StaticConfig) : list string :=
  let envValue := Getenv EnvTLSCipherSuites in
  if envValue ≠?s "" then map TrimSpace (Split ","%char envValue) else c_TLSCipherSuites c.

(** ** http_config.go *)

Definition f64_zero : spec_float := S754_zero false.

Definition HTTPConfig_Validate (c : HTTPConfig) : option error :=
  if SFltb (h_RateLimitRPS c) f64_zero then
    Some (ErrNew (fmt ["rate_limit_rps must not be negative (got ";
                       FormatFloat (h_RateLimitRPS c); ")"]))
  else if (h_RateLimitBurst c <? 0)%Z then
    Some (ErrNew (fmt ["rate_limit_burst must not be negative (got ";
                       itoa (h_RateLimitBurst c); ")"]))
  else None.
End Environment.

(** ** tls.go *)

Definition isSecureHTTPScheme (scheme : string) : bool :=
  (scheme =?s "https") || (scheme =?s "wss").

Section TLSValidation.
(** [url.Parse]. *)
Context (url_Parse : string -> result URL).

Definition ValidateURLRequiresTLS (urlStr fieldName : string) : option error :=
  if urlStr =?s "" then None
  else match url_Parse urlStr with
       | Err err => Some (wrapf (fmt ["invalid "; fieldName; ": "]) err)
       | Ok u =>
           if negb (isSecureHTTPScheme (u_Scheme u)) then
             Some (ErrNew (fmt ["require_tls is enabled but "; fieldName; " uses ";
                                quote (u_Scheme u); " scheme (secure scheme required)"]))
           else None
       end.

Definition ValidateURLsRequireTLS (urls : gmap string string) : option error :=
  let errs :=
    omap (fun fieldName => ValidateURLRequiresTLS (default "" (urls !! fieldName)) fieldName)
      (sort_strings (map fst (map_to_list urls))) in
  if Nat.eqb (length errs) 0 then None
  else Some (wrapf "TLS validation failed: " (ErrJoin errs)).

Definition ValidateRequireTLS (c : StaticConfig) : option error :=
  if negb (c_RequireTLS c) then None
  else ValidateURLsRequireTLS {[ "authorization_url" := c_AuthorizationURL c;
                                 "server_url" := c_ServerURL c ]}.
End TLSValidation.

(** The enforcing transport, over a request of which it reads scheme and host. *)
Definition TLSEnforcingTransport_RoundTrip {W Req Resp} (url_of : Req -> URL)
    (Base : Req -> ST W (result Resp)) (RequireTLS : option (W -> bool)) (req : Req) :
    ST W (result Resp) := fun w =>
  let u := url_of req in
  let required := match RequireTLS with Some f => f w | None => false end in
  if required && negb (isSecureHTTPScheme (u_Scheme u)) then
    (Err (ErrNew (fmt ["require_tls is enabled but request to "; u_Host u; " uses ";
                       quote (u_Scheme u); " scheme (secure scheme required)"])), w)
  else Base req w.

(** ** config.go: getters the other components use, and validation *)

Definition ClusterAuthPassthrough : string := "passthrough".
Definition ClusterAuthKubeconfig : string := "kubeconfig".
Definition AuthStyleParams : string := "params".
Definition AuthStyleHeader : string := "header".
Definition AuthStyleAssertion : string := "assertion".
Definition AuthStyleFederated : string := "federated".

Definition ResolveClusterAuthMode (c : StaticConfig) : string :=
  if c_ClusterAuthMode c ≠?s "" then c_ClusterAuthMode c else ClusterAuthPassthrough.

Definition hasTokenExchange (c : StaticConfig) : bool :=
  (c_TokenExchangeStrategy c ≠?s "") || (c_StsAudience c ≠?s "").

Definition ValidateClusterAuthMode (c : StaticConfig) : option error :=
  let mode := c_ClusterAuthMode c in
  if (mode ≠?s "") && (mode ≠?s ClusterAuthPassthrough) && (mode ≠?s ClusterAuthKubeconfig) then
    Some (ErrNew (fmt ["invalid cluster_auth_mode "; quote mode; ": must be ";
                       quote ClusterAuthPassthrough; " or "; quote ClusterAuthKubeconfig]))
  else if (mode =?s ClusterAuthKubeconfig) && c_RequireOAuth c then
    Some (ErrNew (fmt ["cluster_auth_mode "; quote ClusterAuthKubeconfig;
      " is not compatible with require_oauth=true: all authenticated users would share a single cluster identity, breaking per-user audit trails; use passthrough or token exchange to preserve user identity on the cluster"]))
  else if (mode =?s ClusterAuthKubeconfig) && hasTokenExchange c then
    Some (ErrNew (fmt ["token exchange settings (token_exchange_strategy/sts_audience) are incompatible with cluster_auth_mode ";
      quote ClusterAuthKubeconfig; " (exchanged token would be unused)"]))
  else if negb (c_RequireOAuth c) && hasTokenExchange c then
    Some (ErrNew "token exchange requires require_oauth=true (token exchange depends on OAuth-validated tokens)")
  else None.

Definition validateSkipJWTVerification (c : StaticConfig) : option error :=
  if negb (c_RequireOAuth c) || (c_AuthorizationURL c ≠?s "") then None
  else if c_SkipJWTVerification c then None
  else Some (ErrNew (fmt
    ["require_oauth is enabled but authorization_url is not configured: ";
     "JWTs cannot be cryptographically verified without an OIDC provider. ";
     "Set authorization_url to an OIDC issuer, or set skip_jwt_verification=true ";
     "if the server is behind a trusted reverse proxy that verifies tokens"])).

(** The loop over the rules, from index [i]. *)
Fixpoint rule_errors (i : Z) (rules : list ConfirmationRule) : list error :=
  match rules with
  | [] => []
  | r :: rest =>
      match ConfirmationRule_Validate r with
      | Some ruleErr =>
          wrapf (fmt ["confirmation_rules["; itoa i; "]: "]) ruleErr :: rule_errors (i + 1) rest
      | None => rule_errors (i + 1) rest
      end
  end.

Definition validateConfirmation (c : StaticConfig) : option error :=
  let fb := c_ConfirmationFallback c in
  if (fb ≠?s "") && (fb ≠?s "allow") && (fb ≠?s "deny") then
    Some (ErrNew (fmt ["invalid confirmation_fallback "; quote fb; ": must be "; dq; "allow"; dq;
                       " or "; dq; "deny"; dq]))
  else
    let ruleErrors := rule_errors 0 (c_ConfirmationRules c) in
    if Nat.ltb 0 (length ruleErrors) then
      Some (wrapf ("invalid confirmation rules:" +:+ nl) (ErrJoin ruleErrors))
    else None.

Section Validate.
Context (Getenv : string -> string) (FormatFloat : spec_float -> string).
Context (url_Parse : string -> result URL) (tlsCipherSuiteMap : gmap string Z).
(** [os.Stat]: the error, if any. *)
Context (os_Stat : string -> option error).
Context {T : Type} `{!Named T} (toolsetReg : toolsetRegistry T).

(** [if _, err := os.Stat(path); err != nil { return fmt.Errorf("what%w", err) }]. *)
Definition stat_check (what path : string) : option error :=
  match os_Stat path with Some err => Some (wrapf what err) | None => None end.

Definition validateTokenExchange (c : StaticConfig) : option error :=
  let style := c_StsAuthStyle c in
  if (c_TokenExchangeStrategy c ≠?s "") && Nat.ltb 0 (length (c_tokenExchangeStrategies c))
     && negb (slices_Contains (c_tokenExchangeStrategies c) (c_TokenExchangeStrategy c)) then
    Some (ErrNew (fmt ["invalid token_exchange_strategy: "; c_TokenExchangeStrategy c;
                       ", valid values are: "; Join (c_tokenExchangeStrategies c) ", "]))
  else if (style =?s "") || (style =?s AuthStyleParams) || (style =?s AuthStyleHeader) then None
  else if style =?s AuthStyleAssertion then
    if c_StsClientCertFile c =?s "" then
      Some (ErrNew (fmt ["sts_client_cert_file is required when sts_auth_style is "; quote AuthStyleAssertion]))
    else if c_StsClientKeyFile c =?s "" then
      Some (ErrNew (fmt ["sts_client_key_file is required when sts_auth_style is "; quote AuthStyleAssertion]))
    else first_error
      [stat_check "sts_client_cert_file must be a valid file path: " (c_StsClientCertFile c);
       stat_check "sts_client_key_file must be a valid file path: " (c_StsClientKeyFile c)]
  else if style =?s AuthStyleFederated then
    if c_StsFederatedTokenFile c =?s "" then
      Some (ErrNew (fmt ["sts_federated_token_file is required when sts_auth_style is "; quote AuthStyleFederated]))
    else stat_check "sts_federated_token_file must be a valid file path: " (c_StsFederatedTokenFile c)
  else
    Some (ErrNew (fmt ["invalid sts_auth_style "; quote style; ": must be ";
                       quote AuthStyleParams; ", "; quote AuthStyleHeader; ", ";
                       quote AuthStyleAssertion; ", or "; quote AuthStyleFederated])).

Definition validateTLSSettings (c : StaticConfig) : option error :=
  match ParseTLSVersion (GetTLSMinVersionConfig Getenv c) with
  | Err err => Some err
  | Ok _ =>
      match ParseTLSCipherSuites tlsCipherSuiteMap (GetTLSCipherSuitesConfig Getenv c) with
      | Err err => Some err
      | Ok _ => None
      end
  end.

(** The check of [authorization_url]. *)
Definition authorization_url_check (c : StaticConfig) : option error :=
  if c_AuthorizationURL c ≠?s "" then
    match url_Parse (c_AuthorizationURL c) with
    | Err err => Some err
    | Ok u =>
        if (u_Scheme u ≠?s "https") && (u_Scheme u ≠?s "http")
        then Some (ErrNew "--authorization-url must be a valid URL") else None
    end
  else None.

(** The checks of [Validate], in their order, on the normalised configuration. *)
Definition validate_checks (c : StaticConfig) : list (option error) :=
  [ match Output_FromString (c_ListOutput c) with
    | None => Some (ErrNew (fmt ["invalid output name: "; c_ListOutput c;
                                 ", valid names are: "; Join Output_Names ", "]))
    | Some _ => None
    end;
    Toolsets_Validate toolsetReg (c_Toolsets c);
    (if (c_ClusterProviderStrategy c ≠?s "") && Nat.ltb 0 (length (c_providerStrategies c))
        && negb (slices_Contains (c_providerStrategies c) (c_ClusterProviderStrategy c))
     then Some (ErrNew (fmt ["invalid cluster-provider: "; c_ClusterProviderStrategy c;
                             ", valid values are: "; Join (c_providerStrategies c) ", "]))
     else None);
    (if negb (c_RequireOAuth c) &&
        ((c_OAuthAudience c ≠?s "") || (c_AuthorizationURL c ≠?s "")
         || (c_ServerURL c ≠?s "") || (c_CertificateAuthority c ≠?s ""))
     then Some (ErrNew "oauth-audience, authorization-url, server-url and certificate-authority are only valid if require-oauth is enabled. Missing --port may implicitly set require-oauth to false")
     else None);
    authorization_url_check c;
    validateSkipJWTVerification c;
    (if c_CertificateAuthority c ≠?s ""
     then stat_check "certificate-authority must be a valid file path: " (c_CertificateAuthority c)
     else None);
    (if ((c_TLSCert c ≠?s "") && (c_TLSKey c =?s ""))
        || ((c_TLSCert c =?s "") && (c_TLSKey c ≠?s ""))
     then Some (ErrNew "both --tls-cert and --tls-key must be provided together") else None);
    (if c_TLSCert c ≠?s "" then stat_check "tls-cert must be a valid file path: " (c_TLSCert c)
     else None);
    (if c_TLSKey c ≠?s "" then stat_check "tls-key must be a valid file path: " (c_TLSKey c)
     else None);
    validateTLSSettings c;
    ValidateRequireTLS url_Parse c;
    ValidateClusterAuthMode c;
    validateTokenExchange c;
    validateConfirmation c;
    HTTPConfig_Validate FormatFloat (c_HTTP c) ].

(** [Validate] changes its receiver even when it fails. *)
Definition StaticConfig_Validate : ST StaticConfig (option error) := fun c =>
  let c := normalize c in (first_error (validate_checks c), c).
End Validate.

(** ** state.go: the published configuration, a pointer *)

Definition StaticConfigState : Type := option StaticConfig.
Definition NewStaticConfigState (cfg : option StaticConfig) : StaticConfigState := cfg.
Definition StaticConfigState_Load (s : StaticConfigState) : option StaticConfig := s.
Definition StaticConfigState_Store (cfg : option StaticConfig) (s : StaticConfigState) :
    StaticConfigState :=
  match cfg with None => s | Some _ => cfg end.

(** * Specification of a valid configuration *)

Section ValidSpec.
Context (Getenv : string -> string) (FormatFloat : spec_float -> string).
Context (url_Parse : string -> result URL) (ciphers : gmap string Z).
Context (os_Stat : string -> option error).
Context {T : Type} `{!Named T} (reg : toolsetRegistry T).

(** A URL whose scheme a test accepts. *)
Definition url_scheme_ok (test : string -> Prop) (s : string) : Prop :=
  exists u, url_Parse s = Ok u /\ test (u_Scheme u).
Definition file_exists (path : string) : Prop := os_Stat path = None.
Definition secure_scheme (s : string) : Prop := s = "https" \/ s = "wss".

(** How clients are authenticated: OAuth settings appear only with
    [require_oauth], which needs an issuer or an explicit opt-out. *)
Definition oauth_ok (c : StaticConfig) : Prop :=
  (c_RequireOAuth c = true ->
     c_AuthorizationURL c <> "" \/ c_SkipJWTVerification c = true) /\
  (c_RequireOAuth c = false ->
     c_OAuthAudience c = "" /\ c_AuthorizationURL c = "" /\ c_ServerURL c = "" /\
     c_CertificateAuthority c = "") /\
  (c_AuthorizationURL c <> "" ->
     url_scheme_ok (fun s => s = "https" \/ s = "http") (c_AuthorizationURL c)).

(** How the cluster is reached: the server's own credentials never mix with the
    identities of users, and tokens are exchanged only when they were validated. *)
Definition cluster_auth_ok (c : StaticConfig) : Prop :=
  (c_ClusterAuthMode c = "" \/ c_ClusterAuthMode c = ClusterAuthPassthrough \/
   c_ClusterAuthMode c = ClusterAuthKubeconfig) /\
  (c_ClusterAuthMode c = ClusterAuthKubeconfig ->
     c_RequireOAuth c = false /\ hasTokenExchange c = false) /\
  (hasTokenExchange c = true -> c_RequireOAuth c = true).

Definition tls_ok (c : StaticConfig) : Prop :=
  (c_TLSCert c = "" <-> c_TLSKey c = "") /\
  (c_TLSCert c <> "" -> file_exists (c_TLSCert c)) /\
  (c_TLSKey c <> "" -> file_exists (c_TLSKey c)) /\
  (c_RequireTLS c = true ->
     (c_AuthorizationURL c <> "" -> url_scheme_ok secure_scheme (c_AuthorizationURL c)) /\
     (c_ServerURL c <> "" -> url_scheme_ok secure_scheme (c_ServerURL c))) /\
  is_ok (ParseTLSVersion (GetTLSMinVersionConfig Getenv c)) = true /\
  is_ok (ParseTLSCipherSuites ciphers (GetTLSCipherSuitesConfig Getenv c)) = true.

Definition token_exchange_ok (c : StaticConfig) : Prop :=
  (c_TokenExchangeStrategy c <> "" -> c_tokenExchangeStrategies c <> [] ->
     c_TokenExchangeStrategy c ∈ c_tokenExchangeStrategies c) /\
  (c_StsAuthStyle c = "" \/ c_StsAuthStyle c = AuthStyleParams \/
   c_StsAuthStyle c = AuthStyleHeader \/
   c_StsAuthStyle c = AuthStyleAssertion /\
     c_StsClientCertFile c <> "" /\ file_exists (c_StsClientCertFile c) /\
     c_StsClientKeyFile c <> "" /\ file_exists (c_StsClientKeyFile c) \/
   c_StsAuthStyle c = AuthStyleFederated /\
     c_StsFederatedTokenFile c <> "" /\ file_exists (c_StsFederatedTokenFile c)).

Definition confirmation_ok (c : StaticConfig) : Prop :=
  (c_ConfirmationFallback c = "" \/ c_ConfirmationFallback c = "allow" \/
   c_ConfirmationFallback c = "deny") /\
  Forall (fun r => xorb (IsToolLevel r) (IsKubeLevel r) = true) (c_ConfirmationRules c).

Definition http_ok (h : HTTPConfig) : Prop :=
  SFltb (h_RateLimitRPS h) f64_zero = false /\ (0 <= h_RateLimitBurst h)%Z.

Definition valid_config (c : StaticConfig) : Prop :=
  is_Some (Output_FromString (c_ListOutput c)) /\
  Forall (fun n => is_Some (ToolsetFromString reg n)) (c_Toolsets c) /\
  (c_ClusterProviderStrategy c <> "" -> c_providerStrategies c <> [] ->
     c_ClusterProviderStrategy c ∈ c_providerStrategies c) /\
  oauth_ok c /\ (c_CertificateAuthority c <> "" -> file_exists (c_CertificateAuthority c)) /\
  tls_ok c /\ cluster_auth_ok c /\ token_exchange_ok c /\ confirmation_ok c /\
  http_ok (c_HTTP c).

(** ** The checks, one by one *)

Lemma stat_check_None what path : stat_check os_Stat what path = None <-> file_exists path.
Proof. unfold stat_check, file_exists. by destruct (os_Stat path). Qed.

Lemma when_set_None (s : string) (chk : option error) :
  (if s ≠?s "" then chk else None) = None <-> (s <> "" -> chk = None).
Proof. destruct (bool_decide_reflect (s = "")); cbn; naive_solver. Qed.

(** A name that must come from a list, when both are given. *)
Lemma known_None (s : string) (l : list string) (e : error) :
  (if (s ≠?s "") && Nat.ltb 0 (length l) && negb (slices_Contains l s)
   then Some e else None) = None <-> (s <> "" -> l <> [] -> s ∈ l).
Proof.
  destruct (bool_decide_reflect (s = "")) as [->|Hs]; cbn [negb andb]; [naive_solver|].
  destruct l as [|x l]; cbn [length Nat.ltb Nat.leb andb]; [naive_solver|].
  destruct (slices_Contains (x :: l) s) eqn:Hc; cbn [negb].
  - apply slices_Contains_spec in Hc. naive_solver.
  - split; [done|]. intros H.
    assert (s ∈ x :: l) as Hin%slices_Contains_spec by auto. congruence.
Qed.

Lemma authorization_url_check_None c :
  authorization_url_check url_Parse c = None <->
  (c_AuthorizationURL c <> "" ->
     url_scheme_ok (fun s => s = "https" \/ s = "http") (c_AuthorizationURL c)).
Proof.
  unfold authorization_url_check. rewrite when_set_None. unfold url_scheme_ok.
  destruct (url_Parse (c_AuthorizationURL c)) as [u|err]; [|naive_solver].
  destruct (bool_decide_reflect (u_Scheme u = "https")), (bool_decide_reflect (u_Scheme u = "http"));
    cbn; naive_solver.
Qed.

Lemma ValidateURLRequiresTLS_None s field :
  ValidateURLRequiresTLS url_Parse s field = None <->
  (s <> "" -> url_scheme_ok secure_scheme s).
Proof.
  unfold ValidateURLRequiresTLS, url_scheme_ok, secure_scheme, isSecureHTTPScheme.
  destruct (bool_decide_reflect (s = "")); [naive_solver|].
  destruct (url_Parse s) as [u|err]; [|naive_solver].
  destruct (bool_decide_reflect (u_Scheme u = "https")), (bool_decide_reflect (u_Scheme u = "wss"));
    cbn; naive_solver.
Qed.

Lemma omap_nil_iff {A B} (f : A -> option B) l : omap f l = [] <-> Forall (fun x => f x = None) l.
Proof.
  induction l as [|x l IH]; [done|]. rewrite Forall_cons, <-IH. cbn. destruct (f x); naive_solver.
Qed.

(** All the URLs of the map are checked, in the order of their names. *)
Lemma ValidateURLsRequireTLS_None urls :
  ValidateURLsRequireTLS url_Parse urls = None <->
  map_Forall (fun _ s => s <> "" -> url_scheme_ok secure_scheme s) urls.
Proof.
  unfold ValidateURLsRequireTLS.
  set (errs := omap _ _). assert (errs = [] <-> Nat.eqb (length errs) 0 = true) as Hz.
  { rewrite Nat.eqb_eq. symmetry. apply length_zero_iff_nil. }
  transitivity (errs = []); [rewrite Hz; by destruct (Nat.eqb _ _)|].
  unfold errs. rewrite omap_nil_iff, Forall_forall. split.
  - intros H f s Hf. apply (ValidateURLRequiresTLS_None s f).
    specialize (H f). rewrite Hf in H. apply H. apply elem_of_sort_strings.
    apply list_elem_of_fmap. exists (f, s). split; [done|]. by apply elem_of_map_to_list.
  - intros H f Hin. apply ValidateURLRequiresTLS_None.
    apply elem_of_sort_strings, list_elem_of_fmap in Hin as ([f' s] & -> & Hin%elem_of_map_to_list).
    cbn. rewrite Hin. by apply (H f' s).
Qed.

Lemma ValidateRequireTLS_None c :
  ValidateRequireTLS url_Parse c = None <->
  (c_RequireTLS c = true ->
     (c_AuthorizationURL c <> "" -> url_scheme_ok secure_scheme (c_AuthorizationURL c)) /\
     (c_ServerURL c <> "" -> url_scheme_ok secure_scheme (c_ServerURL c))).
Proof.
  unfold ValidateRequireTLS. destruct (c_RequireTLS c); cbn [negb]; [|naive_solver].
  rewrite ValidateURLsRequireTLS_None, map_Forall_insert by by simplify_map_eq.
  rewrite map_Forall_singleton. tauto.
Qed.

Lemma ValidateClusterAuthMode_None c :
  ValidateClusterAuthMode c = None <-> cluster_auth_ok c.
Proof.
  unfold ValidateClusterAuthMode, cluster_auth_ok.
  destruct (c_RequireOAuth c), (hasTokenExchange c),
    (bool_decide_reflect (c_ClusterAuthMode c = "")),
    (bool_decide_reflect (c_ClusterAuthMode c = ClusterAuthPassthrough)),
    (bool_decide_reflect (c_ClusterAuthMode c = ClusterAuthKubeconfig));
    cbn [negb andb]; try congruence; intuition congruence.
Qed.

Lemma validateSkipJWTVerification_None c :
  validateSkipJWTVerification c = None <->
  (c_RequireOAuth c = true -> c_AuthorizationURL c <> "" \/ c_SkipJWTVerification c = true).
Proof.
  unfold validateSkipJWTVerification.
  destruct (c_RequireOAuth c), (bool_decide_reflect (c_AuthorizationURL c = "")),
    (c_SkipJWTVerification c); cbn [negb orb]; intuition congruence.
Qed.

Lemma validateTokenExchange_None c :
  validateTokenExchange os_Stat c = None <-> token_exchange_ok c.
Proof.
  unfold validateTokenExchange, token_exchange_ok. rewrite <-known_None with (e := ErrNew "").
  destruct (_ && _ && _); [split; [done|by intros [? _]]|].
  transitivity (c_StsAuthStyle c = "" \/ c_StsAuthStyle c = AuthStyleParams \/
   c_StsAuthStyle c = AuthStyleHeader \/
   c_StsAuthStyle c = AuthStyleAssertion /\
     c_StsClientCertFile c <> "" /\ file_exists (c_StsClientCertFile c) /\
     c_StsClientKeyFile c <> "" /\ file_exists (c_StsClientKeyFile c) \/
   c_StsAuthStyle c = AuthStyleFederated /\
     c_StsFederatedTokenFile c <> "" /\ file_exists (c_StsFederatedTokenFile c));
    [|tauto].
  destruct (bool_decide_reflect (c_StsAuthStyle c = "")); cbn [orb]; [tauto|].
  destruct (bool_decide_reflect (c_StsAuthStyle c = AuthStyleParams)); cbn [orb]; [tauto|].
  destruct (bool_decide_reflect (c_StsAuthStyle c = AuthStyleHeader)); cbn [orb]; [tauto|].
  destruct (bool_decide_reflect (c_StsAuthStyle c = AuthStyleAssertion)) as [Ha|].
  - assert (c_StsAuthStyle c <> AuthStyleFederated) by by rewrite Ha.
    destruct (bool_decide_reflect (c_StsClientCertFile c = "")); [intuition congruence|].
    destruct (bool_decide_reflect (c_StsClientKeyFile c = "")); [intuition congruence|].
    rewrite first_error_None, !Forall_cons, !stat_check_None, Forall_nil. tauto.
  - destruct (bool_decide_reflect (c_StsAuthStyle c = AuthStyleFederated)); [|intuition congruence].
    destruct (bool_decide_reflect (c_StsFederatedTokenFile c = "")); [intuition congruence|].
    rewrite stat_check_None. tauto.
Qed.

Lemma rule_errors_nil i rules :
  rule_errors i rules = [] <->
  Forall (fun r => xorb (IsToolLevel r) (IsKubeLevel r) = true) rules.
Proof.
  revert i. induction rules as [|r rules IH]; intros i; [done|]. cbn [rule_errors].
  rewrite Forall_cons, <-(IH (i + 1)%Z). unfold ConfirmationRule_Validate.
  destruct (IsToolLevel r), (IsKubeLevel r); cbn; naive_solver.
Qed.

Lemma validateConfirmation_None c : validateConfirmation c = None <-> confirmation_ok c.
Proof.
  unfold validateConfirmation, confirmation_ok. rewrite <-(rule_errors_nil 0).
  destruct (bool_decide_reflect (c_ConfirmationFallback c = "")),
    (bool_decide_reflect (c_ConfirmationFallback c = "allow")),
    (bool_decide_reflect (c_ConfirmationFallback c = "deny")); cbn [negb andb];
    try (split; [done|tauto]); destruct (rule_errors 0 (c_ConfirmationRules c)); cbn; naive_solver.
Qed.

Lemma HTTPConfig_Validate_None h : HTTPConfig_Validate FormatFloat h = None <-> http_ok h.
Proof.
  unfold HTTPConfig_Validate, http_ok. destruct (SFltb _ _); [naive_solver|].
  destruct (Z.ltb_spec (h_RateLimitBurst h) 0); naive_solver lia.
Qed.

Lemma validateTLSSettings_None c :
  validateTLSSettings Getenv ciphers c = None <->
  is_ok (ParseTLSVersion (GetTLSMinVersionConfig Getenv c)) = true /\
  is_ok (ParseTLSCipherSuites ciphers (GetTLSCipherSuitesConfig Getenv c)) = true.
Proof.
  unfold validateTLSSettings. destruct (ParseTLSVersion _) as [v|e]; [|naive_solver].
  destruct (ParseTLSCipherSuites _ _); naive_solver.
Qed.

Lemma tls_pair_None c (e : error) :
  (if ((c_TLSCert c ≠?s "") && (c_TLSKey c =?s "")) || ((c_TLSCert c =?s "") && (c_TLSKey c ≠?s ""))
   then Some e else None) = @None error <-> (c_TLSCert c = "" <-> c_TLSKey c = "").
Proof.
  destruct (bool_decide_reflect (c_TLSCert c = "")), (bool_decide_reflect (c_TLSKey c = ""));
    cbn; naive_solver.
Qed.

Lemma oauth_settings_None c (e : error) :
  (if negb (c_RequireOAuth c) &&
      ((c_OAuthAudience c ≠?s "") || (c_AuthorizationURL c ≠?s "")
       || (c_ServerURL c ≠?s "") || (c_CertificateAuthority c ≠?s ""))
   then Some e else None) = @None error <->
  (c_RequireOAuth c = false ->
     c_OAuthAudience c = "" /\ c_AuthorizationURL c = "" /\ c_ServerURL c = "" /\
     c_CertificateAuthority c = "").
Proof.
  destruct (c_RequireOAuth c); cbn [negb andb]; [naive_solver|].
  destruct (bool_decide_reflect (c_OAuthAudience c = "")),
    (bool_decide_reflect (c_AuthorizationURL c = "")), (bool_decide_reflect (c_ServerURL c = "")),
    (bool_decide_reflect (c_CertificateAuthority c = "")); cbn [negb orb]; naive_solver.
Qed.

Lemma validate_checks_None c :
  first_error (validate_checks Getenv FormatFloat url_Parse ciphers os_Stat reg c) = None <->
  valid_config c.
Proof.
  rewrite first_error_None. unfold validate_checks. rewrite !Forall_cons, Forall_nil.
  rewrite Toolsets_Validate_None, known_None, oauth_settings_None, authorization_url_check_None,
    validateSkipJWTVerification_None, tls_pair_None, !when_set_None, !stat_check_None,
    validateTLSSettings_None, ValidateRequireTLS_None, ValidateClusterAuthMode_None,
    validateTokenExchange_None, validateConfirmation_None, HTTPConfig_Validate_None.
  assert (match Output_FromString (c_ListOutput c) with
          | Some _ => None
          | None => Some (ErrNew (fmt ["invalid output name: "; c_ListOutput c;
                                   ", valid names are: "; Join Output_Names ", "]))
          end = None <-> is_Some (Output_FromString (c_ListOutput c))) as ->.
  { destruct (Output_FromString _); split; try done; by eexists. }
  unfold valid_config, oauth_ok, tls_ok.
  split; intros; destruct_and!; split_and!; done.
Qed.

(** C16. Validation accepts a configuration exactly when, its blanks trimmed, it is
    valid, and leaves the trimmed configuration behind in either case. *)
Theorem StaticConfig_Validate_spec c :
  ((StaticConfig_Validate Getenv FormatFloat url_Parse ciphers os_Stat reg c).1 = None <->
     valid_config (normalize c)) /\
  (StaticConfig_Validate Getenv FormatFloat url_Parse ciphers os_Stat reg c).2 = normalize c.
Proof. split; [apply validate_checks_None|done]. Qed.
End ValidSpec.

Lemma normalize_idem c : normalize (normalize c) = normalize c.
Proof. unfold normalize. cbn -[TrimSpace]. by rewrite !TrimSpace_idem. Qed.

(** A validated configuration stays valid: the reload path may validate again. *)
Lemma StaticConfig_Validate_again Getenv FF up ci st {T} `{!Named T} (reg : toolsetRegistry T) c :
  let '(e, c') := StaticConfig_Validate Getenv FF up ci st reg c in
  StaticConfig_Validate Getenv FF up ci st reg c' = (e, c').
Proof. unfold StaticConfig_Validate. by rewrite normalize_idem. Qed.

(** The effective authentication mode does not depend on [require_oauth]. *)
Lemma ResolveClusterAuthMode_default c :
  c_ClusterAuthMode c = "" -> ResolveClusterAuthMode c = ClusterAuthPassthrough.
Proof. unfold ResolveClusterAuthMode. by intros ->. Qed.

(** The enforcing transport sends nothing over an insecure scheme while TLS is
    required, whatever the transport below, and is transparent otherwise. *)
Lemma TLSEnforcingTransport_spec {W Req Resp} (url_of : Req -> URL) (f : W -> bool) req w :
  (f w = true -> ~ secure_scheme (u_Scheme (url_of req)) ->
   exists e, forall Base : Req -> ST W (result Resp),
     TLSEnforcingTransport_RoundTrip url_of Base (Some f) req w = (Err e, w)) /\
  (f w = false \/ secure_scheme (u_Scheme (url_of req)) ->
   forall Base : Req -> ST W (result Resp),
     TLSEnforcingTransport_RoundTrip url_of Base (Some f) req w = Base req w).
Proof.
  unfold TLSEnforcingTransport_RoundTrip, secure_scheme, isSecureHTTPScheme.
  destruct (f w), (bool_decide_reflect (u_Scheme (url_of req) = "https")),
    (bool_decide_reflect (u_Scheme (url_of req) = "wss")); cbn [negb andb orb];
    split; intros; try done; try (by eexists); try tauto; naive_solver.
Qed.

(** The published configuration is never nil once it was not. *)
Lemma StaticConfigState_non_nil s cfg :
  is_Some (StaticConfigState_Load s) -> is_Some (StaticConfigState_Load (StaticConfigState_Store cfg s)).
Proof. destruct cfg; [by eexists|done]. Qed.

Lemma HTTPConfig_default_ok FF : HTTPConfig_Validate FF (c_HTTP BaseDefault) = None.
Proof. reflexivity. Qed.
