(* ===== verification/ConfigRead.v ===== *)
(** pkg/config: how the configuration files are found, merged and decoded (Read,
    loadDropInConfigs, getSortedConfigFiles, readAndMergeFiles, deepMerge,
    ReadToml in config.go; extended.go).  The file system, the path functions and
    the TOML codec are parameters. *)
From S2P Require Import Prelude GoStrings Api Config.

(** * Definitions *)

(** ** TOML tables: Go maps, as lists of keys in an arbitrary order *)

Fixpoint table_get (key : string) (t : list (string * tval)) : option tval :=
  match t with
  | [] => None
  | (k, v) :: rest => if k =?s key then Some v else table_get key rest
  end.

(** [m[key] = v]. *)
Fixpoint table_set (key : string) (v : tval) (t : list (string * tval)) : list (string * tval) :=
  match t with
  | [] => [(key, v)]
  | (k, v') :: rest => if k =?s key then (k, v) :: rest else (k, v') :: table_set key v rest
  end.

(** [deepMerge(dst, src)] for tables; the range over [src] goes in the order of
    its list. *)
Fixpoint deepMerge_val (src : tval) : list (string * tval) -> list (string * tval) :=
  match src with
  | TLeaf _ => fun dst => dst
  | TTable kvs =>
      (fix merge_keys (kvs : list (string * tval)) (dst : list (string * tval)) :=
         match kvs with
         | [] => dst
         | (key, srcVal) :: rest =>
             let dst' :=
               match table_get key dst, srcVal with
               | Some (TTable dstMap), TTable _ =>
                   table_set key (TTable (deepMerge_val srcVal dstMap)) dst
               | _, _ => table_set key srcVal dst
               end in
             merge_keys rest dst'
         end) kvs
  end.

Definition deepMerge (dst src : list (string * tval)) : list (string * tval) :=
  deepMerge_val (TTable src) dst.

(** ** Files *)

(** A directory entry: its name and whether it is a directory. *)
Record DirEntry := mkDirEntry { de_Name : string; de_IsDir : bool }.

Section Files.
Context (filepath_Join : string -> string -> string) (filepath_Abs : string -> result string).
Context (filepath_Dir : string -> string) (filepath_IsAbs : string -> bool).
(** [os.Stat] and [IsDir], [os.IsNotExist], [os.ReadDir], [os.ReadFile]. *)
Context (os_Stat : string -> result bool) (os_IsNotExist : error -> bool).
Context (os_ReadDir : string -> result (list DirEntry)) (os_ReadFile : string -> result string).
(** The decoder into a map and the encoder. *)
Context (toml_DecodeMap : string -> result (list (string * tval))).
Context (toml_Encode : list (string * tval) -> result string).

Fixpoint select_config_files (dir : string) (entries : list DirEntry) : list string :=
  match entries with
  | [] => []
  | entry :: rest =>
      if de_IsDir entry then select_config_files dir rest
      else
        let name := de_Name entry in
        if HasPrefix name "." then select_config_files dir rest
        else if negb (HasSuffix name ".toml") then select_config_files dir rest
        else filepath_Join dir name :: select_config_files dir rest
  end.

Definition getSortedConfigFiles (dir : string) : result (list string) :=
  match os_ReadDir dir with
  | Err err => Err (wrapf "failed to read directory: " err)
  | Ok entries => Ok (sort_strings (select_config_files dir entries))
  end.

Definition loadDropInConfigs (dropInConfigDir : string) : result (list string) :=
  match os_Stat dropInConfigDir with
  | Err err =>
      if os_IsNotExist err then Ok []
      else Err (wrapf "failed to stat drop-in directory: " err)
  | Ok isDir =>
      if negb isDir then
        Err (ErrNew (fmt ["drop-in config path is not a directory: "; dropInConfigDir]))
      else getSortedConfigFiles dropInConfigDir
  end.

(** The loop over the files. *)
Fixpoint merge_files (files : list string) (rawConfig : list (string * tval)) :
    result (list (string * tval)) :=
  match files with
  | [] => Ok rawConfig
  | file :: rest =>
      match os_ReadFile file with
      | Err err => Err (wrapf (fmt ["failed to read config "; file; ": "]) err)
      | Ok configData =>
          match toml_DecodeMap configData with
          | Err err => Err (wrapf (fmt ["failed to decode config "; file; ": "]) err)
          | Ok dropInConfig => merge_files rest (deepMerge rawConfig dropInConfig)
          end
      end
  end.

Definition readAndMergeFiles (files : list string) : result string :=
  match merge_files files [] with
  | Err err => Err err
  | Ok rawConfig =>
      match toml_Encode rawConfig with
      | Err err => Err (wrapf "failed to encode merged config: " err)
      | Ok data => Ok data
      end
  end.

(** ** extended.go *)

(** The context of the parsers: configuration directory and require_tls. *)
Record parse_ctx := mkParseCtx { px_ConfigDirPath : string; px_RequireTLS : bool }.

Definition ExtendedConfigParser : Type := parse_ctx -> tval -> result ExtendedConfig.

(** The range over the configurations, in an arbitrary order. *)
Fixpoint parse_loop (parsers : gmap string ExtendedConfigParser) (ctx : parse_ctx)
    (configs : list (string * tval)) (parsed : gmap string ExtendedConfig) :
    result (gmap string ExtendedConfig) :=
  match configs with
  | [] => Ok parsed
  | (name, primitive) :: rest =>
      match parsers !! name with
      | None => parse_loop parsers ctx rest parsed
      | Some parser =>
          match parser ctx primitive with
          | Err err => Err (wrapf (fmt ["failed to parse extended config for '"; name; "': "]) err)
          | Ok extendedConfig =>
              match ec_Validate extendedConfig with
              | Some err =>
                  Err (wrapf (fmt ["failed to validate extended config for '"; name; "': "]) err)
              | None => parse_loop parsers ctx rest (<[name := extendedConfig]> parsed)
              end
          end
      end
  end.

Definition extendedConfigRegistry_parse (parsers : gmap string ExtendedConfigParser)
    (ctx : parse_ctx) (configs : list (string * tval)) : result (gmap string ExtendedConfig) :=
  if Nat.eqb (length configs) 0 then Ok ∅ else parse_loop parsers ctx configs ∅.

(** [None] is the panic on a name registered twice. *)
Definition extendedConfigRegistry_register (name : string) (parser : ExtendedConfigParser)
    (parsers : gmap string ExtendedConfigParser) : option (gmap string ExtendedConfigParser) :=
  match parsers !! name with
  | Some _ => None
  | None => Some (<[name := parser]> parsers)
  end.

(** ** ReadToml and Read *)

Context (Default : StaticConfig).
(** The decoder onto a configuration. *)
Context (toml_Decode : string -> StaticConfig -> result StaticConfig).
Context (providerParsers toolsetParsers : gmap string ExtendedConfigParser).

Definition ReadToml (configData : string) (opts : list (StaticConfig -> StaticConfig)) :
    result StaticConfig :=
  match toml_Decode configData Default with
  | Err err => Err err
  | Ok config =>
      let config := foldl (fun c opt => opt c) config opts in
      let ctx := mkParseCtx (c_configDirPath config) (c_RequireTLS config) in
      match extendedConfigRegistry_parse providerParsers ctx (c_ClusterProviderConfigs config) with
      | Err err => Err err
      | Ok providers =>
          match extendedConfigRegistry_parse toolsetParsers ctx (c_ToolsetConfigs config) with
          | Err err => Err err
          | Ok toolsets => Ok (with_parsed providers toolsets config)
          end
      end
  end.

Definition DefaultDropInConfigDir : string := "conf.d".

(** [Read]: the files it merges, and the directory it remembers. *)
Definition config_sources (configPath dropInConfigDir : string) :
    result (list string * string) :=
  match (if configPath ≠?s "" then
           match filepath_Abs configPath with
           | Err err => Err (wrapf "failed to resolve absolute path to config file: " err)
           | Ok absPath => Ok ([configPath], filepath_Dir absPath)
           end
         else Ok ([], "")) with
  | Err err => Err err
  | Ok (configFiles, configDir) =>
      let dropInConfigDir :=
        if dropInConfigDir =?s "" then DefaultDropInConfigDir else dropInConfigDir in
      let dropInConfigDir :=
        if (configDir ≠?s "") && negb (filepath_IsAbs dropInConfigDir)
        then filepath_Join configDir dropInConfigDir else dropInConfigDir in
      let configDir := if configDir =?s "" then dropInConfigDir else configDir in
      match loadDropInConfigs dropInConfigDir with
      | Err err =>
          Err (wrapf (fmt ["failed to load drop-in configs from "; dropInConfigDir; ": "]) err)
      | Ok dropInFiles => Ok (configFiles ++ dropInFiles, configDir)
      end
  end.

Definition Read (configPath dropInConfigDir : string) : result StaticConfig :=
  match config_sources configPath dropInConfigDir with
  | Err err => Err err
  | Ok (configFiles, configDir) =>
      match readAndMergeFiles configFiles with
      | Err err => Err (wrapf "failed to read and merge config files: " err)
      | Ok configData => ReadToml configData [WithDirPath configDir]
      end
  end.
End Files.

(** ** What a table says at a path of keys *)

Inductive observation : Type := OLeaf (v : jvalue) | OTable.

Fixpoint observe (v : tval) (path : list string) : option observation :=
  match path with
  | [] => Some (match v with TLeaf x => OLeaf x | TTable _ => OTable end)
  | k :: rest =>
      match v with
      | TLeaf _ => None
      | TTable kvs => match table_get k kvs with Some v' => observe v' rest | None => None end
      end
  end.

(** A value is cut off by a leaf on the way to it. *)
Fixpoint leaf_on_way (v : tval) (path : list string) : bool :=
  match path with
  | [] => false
  | k :: rest =>
      match v with
      | TLeaf _ => true
      | TTable kvs => match table_get k kvs with Some v' => leaf_on_way v' rest | None => false end
      end
  end.

(** Two tables are the same Go map when they agree at every path. *)
Definition table_equiv (t1 t2 : list (string * tval)) : Prop :=
  forall path, observe (TTable t1) path = observe (TTable t2) path.

(** The keys of a table and of its sub-tables are distinct, as in any map. *)
Fixpoint keys_distinct (v : tval) : Prop :=
  match v with
  | TLeaf _ => True
  | TTable kvs =>
      (fix go (kvs : list (string * tval)) : Prop :=
         match kvs with
         | [] => True
         | (k, v') :: rest => table_get k rest = None /\ keys_distinct v' /\ go rest
         end) kvs
  end.

(** * Lemmas *)

Lemma table_get_set k k' v t :
  table_get k' (table_set k v t) = if k =?s k' then Some v else table_get k' t.
Proof.
  induction t as [|[k0 v0] t IH]; cbn [table_set table_get]; [done|].
  destruct (bool_decide_reflect (k0 = k)) as [->|Hne]; cbn [table_get].
  - by destruct (bool_decide_reflect (k = k')).
  - rewrite IH. destruct (bool_decide_reflect (k0 = k')) as [->|]; [|done].
    by rewrite bool_decide_eq_false_2.
Qed.

Lemma table_get_In k v t : table_get k t = Some v -> (k, v) ∈ t.
Proof.
  induction t as [|[k0 v0] t IH]; cbn; [done|]. case_bool_decide; intros ?; simplify_eq; set_solver.
Qed.

Lemma keys_distinct_cons k v t :
  keys_distinct (TTable ((k, v) :: t)) <->
  table_get k t = None /\ keys_distinct v /\ keys_distinct (TTable t).
Proof. done. Qed.

Lemma keys_distinct_get k v t :
  keys_distinct (TTable t) -> table_get k t = Some v -> keys_distinct v.
Proof.
  induction t as [|[k0 v0] t IH]; [done|]. rewrite keys_distinct_cons. cbn [table_get].
  intros (_ & Hv & Ht). case_bool_decide; [by intros [= <-]|by apply IH].
Qed.

(** The value a key gets from both tables. *)
Definition merge_at (dstVal : option tval) (srcVal : tval) : tval :=
  match dstVal, srcVal with
  | Some (TTable d), TTable s => TTable (deepMerge d s)
  | _, _ => srcVal
  end.

Lemma deepMerge_cons dst k v rest :
  deepMerge dst ((k, v) :: rest) = deepMerge (table_set k (merge_at (table_get k dst) v) dst) rest.
Proof.
  unfold deepMerge, merge_at. cbn.
  destruct (table_get k dst) as [[x|d]|], v as [y|s]; reflexivity.
Qed.

Lemma table_get_deepMerge src dst k :
  keys_distinct (TTable src) ->
  table_get k (deepMerge dst src) =
  match table_get k src with
  | Some v => Some (merge_at (table_get k dst) v)
  | None => table_get k dst
  end.
Proof.
  revert dst. induction src as [|[k0 v0] src IH]; intros dst; [done|].
  rewrite keys_distinct_cons, deepMerge_cons. intros (Hk0 & _ & Hd). rewrite IH by done.
  cbn [table_get]. rewrite table_get_set.
  destruct (bool_decide_reflect (k0 = k)) as [->|]; [by rewrite Hk0|done].
Qed.

(** The merged table, observed anywhere: the source speaks first, a leaf of the
    source hides what the destination had below it, and elsewhere nothing
    changes. *)
Lemma observe_deepMerge path : forall dst src,
  keys_distinct (TTable src) ->
  observe (TTable (deepMerge dst src)) path =
  match observe (TTable src) path with
  | Some o => Some o
  | None => if leaf_on_way (TTable src) path then None else observe (TTable dst) path
  end.
Proof.
  induction path as [|k path IH]; intros dst src Hd; [done|].
  cbn [observe leaf_on_way]. rewrite table_get_deepMerge by done.
  destruct (table_get k src) as [v|] eqn:Hk; [|done].
  pose proof (keys_distinct_get _ _ _ Hd Hk) as Hv.
  destruct (table_get k dst) as [[x|d]|], v as [y|s]; cbn [merge_at];
    try (by destruct path); try (by apply IH);
    destruct (observe (TTable s) path) eqn:Ho; try done;
    destruct (leaf_on_way (TTable s) path); try done; by destruct path.
Qed.

Lemma leaf_on_way_spec v path :
  leaf_on_way v path = true <->
  exists p q x, path = p ++ q /\ q <> [] /\ observe v p = Some (OLeaf x).
Proof.
  revert v. induction path as [|k path IH]; intros v; cbn [leaf_on_way].
  - split; [done|]. intros (p & q & x & Hpq & Hq & _). symmetry in Hpq.
    by apply app_nil in Hpq as [_ ->].
  - destruct v as [y|t].
    + split; [|done]. intros _. by exists [], (k :: path), y.
    + split.
      * destruct (table_get k t) as [v'|] eqn:Hk; [|done].
        intros (p & q & x & -> & Hq & Ho)%IH. exists (k :: p), q, x. cbn. by rewrite Hk.
      * intros ([|k' p] & q & x & Hpq & Hq & Ho); [done|].
        injection Hpq as <- ->. cbn in Ho. destruct (table_get k t) as [v'|]; [|done].
        apply IH. by exists p, q, x.
Qed.

#[export] Instance table_equiv_equivalence : Equivalence table_equiv.
Proof.
  split; [by intros t p|by intros t1 t2 H p|intros t1 t2 t3 H1 H2 p; by rewrite H1].
Qed.

#[export] Instance leaf_on_way_proper :
  Proper (table_equiv ==> (=) ==> (=)) (fun t p => leaf_on_way (TTable t) p).
Proof.
  intros t1 t2 H p ? <-. apply eq_true_iff_eq. rewrite !leaf_on_way_spec.
  split; intros (a & b & x & Hp & Hb & Ho); exists a, b, x; pose proof (H a); by rewrite <-Ho.
Qed.

(** Sources: equal maps, both with distinct keys. *)
Definition source_equiv (t1 t2 : list (string * tval)) : Prop :=
  table_equiv t1 t2 /\ keys_distinct (TTable t1) /\ keys_distinct (TTable t2).

#[export] Instance deepMerge_proper :
  Proper (table_equiv ==> source_equiv ==> table_equiv) deepMerge.
Proof.
  intros d1 d2 Hd s1 s2 (Hs & H1 & H2) path. rewrite !observe_deepMerge by done.
  rewrite (Hs path), (Hd path). by rewrite (leaf_on_way_proper _ _ Hs path path eq_refl).
Qed.

Lemma table_get_perm t1 t2 k :
  t1 ≡ₚ t2 -> keys_distinct (TTable t1) ->
  keys_distinct (TTable t2) /\ table_get k t1 = table_get k t2.
Proof.
  intros Hp. revert k. induction Hp as [|[k0 v0] t1 t2 Hp IH|[k1 v1] [k2 v2] t|t1 t2 t3 _ IH1 _ IH2];
    intros k; [done|..].
  - rewrite !keys_distinct_cons. intros (Hk & Hv & Ht). destruct (IH k0 Ht) as [Ht2 Heq].
    destruct (IH k Ht) as [_ Heqk]. rewrite <-Heq. cbn [table_get]. by rewrite Heqk.
  - rewrite !keys_distinct_cons. cbn [table_get]. intros (H1 & Hv1 & H2 & Hv2 & Ht).
    destruct (bool_decide_reflect (k2 = k1)) as [->|Hne].
    { by rewrite bool_decide_eq_true_2 in H1. }
    rewrite !(bool_decide_eq_false_2 (k1 = k2)) in * by done. split; [done|].
    destruct (bool_decide_reflect (k1 = k)) as [->|]; [|done]. by rewrite bool_decide_eq_false_2.
  - intros Ht. destruct (IH1 k Ht) as [Ht2 ->]. by apply IH2.
Qed.

(** Go's map order does not show: merging ranges over the source in any order. *)
Theorem deepMerge_order dst src1 src2 :
  src1 ≡ₚ src2 -> keys_distinct (TTable src1) ->
  table_equiv (deepMerge dst src1) (deepMerge dst src2).
Proof.
  intros Hp Hd. apply deepMerge_proper; [done|]. split_and!; [|done|by apply (table_get_perm src1 src2 "")].
  intros [|k path]; [done|]. cbn. by destruct (table_get_perm src1 src2 k) as [_ ->].
Qed.

(** ** The files *)

(** What the files say at a path, the last file first. *)
Fixpoint winner (tables : list (list (string * tval))) (path : list string) :
    option observation :=
  match tables with
  | [] => observe (TTable []) path
  | t :: earlier =>
      match observe (TTable t) path with
      | Some o => Some o
      | None => if leaf_on_way (TTable t) path then None else winner earlier path
      end
  end.

Lemma observe_fold tables dst path :
  Forall (fun t => keys_distinct (TTable t)) tables ->
  observe (TTable (foldl deepMerge dst tables)) path = winner (reverse tables ++ [dst]) path.
Proof.
  intros Hd. induction tables as [|t tables IH] using rev_ind.
  - cbn. destruct path as [|k path]; [done|]. cbn. destruct (table_get k dst) as [v|]; [|done].
    destruct (observe v path); [done|]. by destruct (leaf_on_way v path).
  - apply Forall_app in Hd as [Hd Ht]. apply Forall_cons in Ht as [Ht _].
    rewrite foldl_snoc, reverse_snoc, observe_deepMerge by exact Ht. cbn [app winner].
    by rewrite IH.
Qed.

Section FileLemmas.
Context (os_ReadFile : string -> result string).
Context (toml_DecodeMap : string -> result (list (string * tval))).

(** A file as the decoder reads it. *)
Definition file_table (file : string) (t : list (string * tval)) : Prop :=
  exists data, os_ReadFile file = Ok data /\ toml_DecodeMap data = Ok t.

Lemma merge_files_foldl files raw m :
  merge_files os_ReadFile toml_DecodeMap files raw = Ok m ->
  exists ts, Forall2 file_table files ts /\ m = foldl deepMerge raw ts.
Proof.
  revert raw. induction files as [|f files IH]; intros raw; cbn [merge_files].
  - intros [= <-]. by exists [].
  - destruct (os_ReadFile f) as [data|] eqn:Hf; [|done].
    destruct (toml_DecodeMap data) as [t|] eqn:Ht; [|done].
    intros (ts & Hts & ->)%IH. exists (t :: ts). split; [|done].
    constructor; [by exists data|done].
Qed.

(** The merged configuration: at every path the last file that says something
    there, or that cuts the path off, decides. *)
Theorem merge_files_last_wins files m path :
  (forall data t, toml_DecodeMap data = Ok t -> keys_distinct (TTable t)) ->
  merge_files os_ReadFile toml_DecodeMap files [] = Ok m ->
  exists ts, Forall2 file_table files ts /\
    observe (TTable m) path = winner (reverse ts ++ [[]]) path.
Proof.
  intros Hdec (ts & Hts & ->)%merge_files_foldl. exists ts. split; [done|].
  apply observe_fold. clear path. induction Hts as [|f t files ts (d & _ & Ht) _ IH]; [done|].
  constructor; [by eapply Hdec|done].
Qed.
End FileLemmas.

Section DirLemmas.
Context (join : string -> string -> string) (os_ReadDir : string -> result (list DirEntry)).

Lemma elem_of_select dir entries f :
  f ∈ select_config_files join dir entries <->
  exists e, e ∈ entries /\ de_IsDir e = false /\ HasPrefix (de_Name e) "." = false /\
    HasSuffix (de_Name e) ".toml" = true /\ f = join dir (de_Name e).
Proof.
  induction entries as [|e entries IH]; cbn [select_config_files].
  - split; [set_solver|]. intros (? & ?%not_elem_of_nil & _). done.
  - destruct (de_IsDir e) eqn:Hd, (HasPrefix (de_Name e) ".") eqn:Hp,
      (HasSuffix (de_Name e) ".toml") eqn:Hs; cbn [negb];
      rewrite ?elem_of_cons, IH; (split; [|intros (e' & Hin%elem_of_cons & H)]);
      try (intros (e' & ? & ?); exists e'; set_solver);
      try (destruct Hin as [->|Hin]; [destruct_and!; congruence|by exists e']).
    + intros [->|(e' & ? & ?)]; [exists e|exists e']; set_solver.
    + destruct Hin as [->|Hin]; [left; by destruct_and!|right; by exists e'].
Qed.

(** The drop-in files, in lexical order and independent of the order in which the
    directory lists them: the visible files named *.toml. *)
Theorem getSortedConfigFiles_spec dir entries files :
  os_ReadDir dir = Ok entries -> getSortedConfigFiles join os_ReadDir dir = Ok files ->
  Sorted String.le files /\
  (forall f, f ∈ files <-> exists e, e ∈ entries /\ de_IsDir e = false /\
     HasPrefix (de_Name e) "." = false /\ HasSuffix (de_Name e) ".toml" = true /\
     f = join dir (de_Name e)).
Proof.
  unfold getSortedConfigFiles. intros ->. intros [= <-]. split; [apply sort_strings_sorted|].
  intros f. rewrite elem_of_sort_strings. apply elem_of_select.
Qed.
End DirLemmas.

(** * Witnesses: a base file and a drop-in that changes one nested key *)

Module ConfigReadWitness.
Definition leaf (s : string) : tval := TLeaf (JString s).
Definition base : list (string * tval) :=
  [("log_file", leaf "a"); ("http", TTable [("x", leaf "1"); ("y", leaf "2")])].
Definition drop_in : list (string * tval) :=
  [("port", leaf "80"); ("http", TTable [("y", leaf "3")])].
Definition ReadFile (f : string) : result string := Ok f.
Definition DecodeMap (d : string) : result (list (string * tval)) :=
  if d =?s "config.toml" then Ok base else if d =?s "10.toml" then Ok drop_in
  else Err (ErrNew "no such file").
Definition ReadDir (d : string) : result (list DirEntry) :=
  Ok [mkDirEntry "b.toml" false; mkDirEntry ".c.toml" false; mkDirEntry "a.toml" false].
Definition join (d n : string) : string := d +:+ "/" +:+ n.
End ConfigReadWitness.

Lemma deepMerge_order_witness :
  table_equiv
    (deepMerge ConfigReadWitness.base ConfigReadWitness.drop_in)
    (deepMerge ConfigReadWitness.base (reverse ConfigReadWitness.drop_in)).
Proof.
  apply deepMerge_order; [apply perm_swap|by repeat split].
Defined.

Lemma merge_files_last_wins_witness :
  exists ts, Forall2 (file_table ConfigReadWitness.ReadFile ConfigReadWitness.DecodeMap)
      ["config.toml"; "10.toml"] ts /\
    Some (OLeaf (JString "3")) = winner (reverse ts ++ [[]]) ["http"; "y"].
Proof.
  refine (merge_files_last_wins ConfigReadWitness.ReadFile ConfigReadWitness.DecodeMap
            ["config.toml"; "10.toml"]
            (deepMerge (deepMerge [] ConfigReadWitness.base) ConfigReadWitness.drop_in)
            ["http"; "y"] _ eq_refl).
  intros data t. unfold ConfigReadWitness.DecodeMap.
  destruct (data =?s "config.toml"); [|destruct (data =?s "10.toml"); [|discriminate]];
    intros H; injection H as <-; by repeat split.
Defined.

Lemma getSortedConfigFiles_spec_witness :
  Sorted String.le ["conf.d/a.toml"; "conf.d/b.toml"].
Proof.
  exact (proj1 (getSortedConfigFiles_spec ConfigReadWitness.join ConfigReadWitness.ReadDir
    "conf.d" _ ["conf.d/a.toml"; "conf.d/b.toml"] eq_refl eq_refl)).
Defined.
