(* ===== verification/Http.v ===== *)
(** pkg/http/middleware.go: the HTTP middlewares and how they are chained, over the
    requests and responses of net/http.  Handlers act on the state [W] of the
    server and its surroundings. *)
From S2P Require Import Prelude GoStrings Api Config.

(** * Definitions *)

(** ** net/http *)

(** Headers, by canonical name. *)
Abbreviation http_header := (gmap string (list string)) (only parsing).

Definition Header_Get (h : http_header) (key : string) : string :=
  match h !! key with Some (v :: _) => v | _ => "" end.
Definition Header_Set (key value : string) (h : http_header) : http_header :=
  <[key := [value]]> h.
Definition Header_Add (key value : string) (h : http_header) : http_header :=
  <[key := default [] (h !! key) ++ [value]]> h.

(** A request; the body is the outcome of reading it to its end. *)
Record request := mkHttpRequest {
  rq_Method : string;
  rq_Path : string;           (* URL.Path, decoded *)
  rq_EscapedPath : string;    (* URL.EscapedPath() *)
  rq_Header : http_header;
  rq_Host : string;
  rq_RemoteAddr : string;
  rq_TLS : bool;
  rq_Proto : string;
  rq_ContentLength : Z;
  rq_Body : result string;
}.

(** Percent-decoding of a path: the relation between [URL.Path] and
    [URL.EscapedPath()]. *)
Definition hex_value (c : ascii) : option N :=
  let n := N_of_ascii c in
  if (48 <=? n)%N && (n <=? 57)%N then Some (n - 48)%N
  else if (97 <=? n)%N && (n <=? 102)%N then Some (n - 87)%N
  else if (65 <=? n)%N && (n <=? 70)%N then Some (n - 55)%N
  else None.
Fixpoint PathUnescape (s : string) : option string :=
  match s with
  | EmptyString => Some ""
  | String c s' =>
      if bool_decide (c = "%"%char) then
        match s' with
        | String a (String b s'') =>
            match hex_value a, hex_value b with
            | Some h, Some l => String (ascii_of_N (16 * h + l)) <$> PathUnescape s''
            | _, _ => None
            end
        | _ => None
        end
      else String c <$> PathUnescape s'
  end.

(** A request as net/http parses it. *)
Definition request_ok (r : request) : Prop :=
  PathUnescape (rq_EscapedPath r) = Some (rq_Path r).

Record response := mkResponse {
  rs_Status : Z;
  rs_Header : http_header;
  rs_Body : string;
}.

(** [http.Error] on a writer whose headers are [h]. *)
Definition http_Error (h : http_header) (message : string) (code : Z) : response :=
  mkResponse code
    (Header_Set "X-Content-Type-Options" "nosniff"
       (Header_Set "Content-Type" "text/plain; charset=utf-8"
          (delete "Content-Length" h)))
    (message +:+ nl).

Definition Handler (W : Type) : Type := request -> ST W response.
Definition Middleware (W : Type) : Type := Handler W -> Handler W.

(** The loop from the last middleware to the first. *)
Fixpoint apply_middlewares {W} (handler : Handler W) (reversed : list (Middleware W)) : Handler W :=
  match reversed with
  | [] => handler
  | m :: rest => apply_middlewares (m handler) rest
  end.
Definition chain {W} (handler : Handler W) (middlewares : list (Middleware W)) : Handler W :=
  apply_middlewares handler (reverse middlewares).

(** ** Client address, route and scheme *)

Section ClientInfo.
(** [net.SplitHostPort]: the host, or an error. *)
Context (SplitHostPort : string -> result string).

Definition getClientIP (r : request) (trustProxy : bool) : string :=
  let from_remote :=
    match SplitHostPort (rq_RemoteAddr r) with Err _ => rq_RemoteAddr r | Ok host => host end in
  if trustProxy then
    let xff := Header_Get (rq_Header r) "X-Forwarded-For" in
    if xff ≠?s "" then
      match Index xff "," with
      | Some idx => TrimSpace (take_str idx xff)
      | None => TrimSpace xff
      end
    else
      let xri := Header_Get (rq_Header r) "X-Real-Ip" in
      if xri ≠?s "" then TrimSpace xri else from_remote
  else from_remote.
End ClientInfo.

Definition getHTTPRoute (path : string) : string :=
  if (path =?s "/healthz") || (path =?s "/mcp") || (path =?s "/stats") then path
  else if HasPrefix path "/.well-known/" then "/.well-known/*"
  else path.

Definition getScheme (r : request) (trustProxy : bool) : string :=
  let fallback := if rq_TLS r then "https" else "http" in
  if trustProxy then
    let proto := Header_Get (rq_Header r) "X-Forwarded-Proto" in
    if proto ≠?s "" then proto else fallback
  else fallback.

(** ** RequestMiddleware *)

Inductive span_status : Type := SpanError (description : string) | SpanUnset | SpanOk.

(** A finished span: its name, its string attributes and its status. *)
Record span := mkSpan {
  sp_name : string;
  sp_attrs : list (string * string);
  sp_status : span_status;
}.

Section Middlewares.
Context {W : Type}.
Context (SplitHostPort : string -> result string).
(** [cfgState.Load()], [telemetry.Enabled()], the end of a span. *)
Context (cfg_Load : W -> StaticConfig) (telemetry_Enabled : W -> bool) (End_span : span -> W -> W).

Definition span_attributes (r : request) (trustProxy : bool) (route : string) :
    list (string * string) :=
  [("http.request.method", rq_Method r);
   ("url.path", rq_Path r);
   ("url.scheme", getScheme r trustProxy);
   ("server.address", rq_Host r);
   ("network.protocol.name", "http");
   ("network.protocol.version", rq_Proto r);
   ("client.address", getClientIP SplitHostPort r trustProxy)] ++
  (if route ≠?s rq_Path r then [("http.route", route)] else []) ++
  (let ua := Header_Get (rq_Header r) "User-Agent" in
   if ua ≠?s "" then [("user_agent.original", ua)] else []) ++
  (if (0 <? rq_ContentLength r)%Z
   then [("http.request.body.size", itoa (rq_ContentLength r))] else []).

Definition status_of_code (code : Z) : span_status * list (string * string) :=
  if (500 <=? code)%Z then
    (SpanError (fmt ["HTTP "; itoa code]), [("error.type", itoa code)])
  else if (400 <=? code)%Z then (SpanUnset, [("error.type", itoa code)])
  else (SpanOk, []).

Definition RequestMiddleware : Middleware W := fun next r w =>
  if rq_Path r =?s "/healthz" then next r w
  else
    let trustProxy := c_TrustProxyHeaders (cfg_Load w) in
    if negb (telemetry_Enabled w) then next r w
    else
      let route := getHTTPRoute (rq_Path r) in
      let spanName := fmt [rq_Method r; " "; route] in
      let attrs := span_attributes r trustProxy route in
      let '(resp, w) := next r w in
      let '(status, errs) := status_of_code (rs_Status resp) in
      (resp, End_span (mkSpan spanName
                (attrs ++ ("http.response.status_code", itoa (rs_Status resp)) :: errs) status) w).

(** ** MaxBodyMiddleware *)

(** The outcome of reading through [http.MaxBytesReader]. *)
Definition MaxBytesReader (body : result string) (maxBytes : Z) : result string :=
  match body with
  | Ok b => if (Z.of_nat (slen b) <=? maxBytes)%Z then Ok b
            else Err (ErrNew "http: request body too large")
  | Err e => Err e
  end.

Definition with_rq_body (r : request) (body : result string) : request :=
  mkHttpRequest (rq_Method r) (rq_Path r) (rq_EscapedPath r) (rq_Header r) (rq_Host r)
    (rq_RemoteAddr r) (rq_TLS r) (rq_Proto r) (rq_ContentLength r) body.

Definition MaxBodyMiddleware : Middleware W := fun next r w =>
  if (rq_Method r =?s "GET") || (rq_Method r =?s "HEAD") || (rq_Method r =?s "OPTIONS") then
    next r w
  else
    let maxBytes := h_MaxBodyBytes (c_HTTP (cfg_Load w)) in
    if (maxBytes <=? 0)%Z then next r w
    else next (with_rq_body r (MaxBytesReader (rq_Body r) maxBytes)) w.
End Middlewares.

(** ** loggingResponseWriter: the writer as a sequence of calls *)

Record lrw_state := mkLrw {
  lrw_statusCode : Z;
  lrw_headerWritten : bool;
  (* the calls that reach the wrapped writer *)
  lrw_headers_sent : list Z;
  lrw_data_sent : list string;
}.
Definition lrw_new : lrw_state := mkLrw 200 false [] [].

Definition lrw_WriteHeader (code : Z) (s : lrw_state) : lrw_state :=
  if negb (lrw_headerWritten s)
  then mkLrw code true (lrw_headers_sent s ++ [code]) (lrw_data_sent s)
  else s.
Definition lrw_Write (b : string) (s : lrw_state) : lrw_state :=
  if negb (lrw_headerWritten s)
  then mkLrw 200 true (lrw_headers_sent s) (lrw_data_sent s ++ [b])
  else mkLrw (lrw_statusCode s) true (lrw_headers_sent s) (lrw_data_sent s ++ [b]).

Inductive lrw_call : Type := LWriteHeader (code : Z) | LWrite (b : string).
Definition lrw_step (s : lrw_state) (c : lrw_call) : lrw_state :=
  match c with LWriteHeader code => lrw_WriteHeader code s | LWrite b => lrw_Write b s end.
Definition lrw_run (calls : list lrw_call) : lrw_state := foldl lrw_step lrw_new calls.

(** * Lemmas *)

Lemma apply_middlewares_app {W} (h : Handler W) l1 l2 :
  apply_middlewares h (l1 ++ l2) = apply_middlewares (apply_middlewares h l1) l2.
Proof. revert h. induction l1 as [|m l1 IH]; intros h; [done|]. apply IH. Qed.

Lemma chain_nil {W} (h : Handler W) : chain h [] = h.
Proof. reflexivity. Qed.

(** The first middleware of the list is the outermost. *)
Lemma chain_cons {W} (h : Handler W) m ms : chain h (m :: ms) = m (chain h ms).
Proof. unfold chain. by rewrite reverse_cons, apply_middlewares_app. Qed.

#[export] Hint Rewrite @chain_nil @chain_cons : mcp_rw.

(** The status net/http sends for a sequence of calls. *)
Definition first_status (calls : list lrw_call) : Z :=
  match calls with
  | LWriteHeader code :: _ => code
  | _ => 200%Z
  end.
Definition call_data (c : lrw_call) : option string :=
  match c with LWrite b => Some b | LWriteHeader _ => None end.

Lemma lrw_run_written calls s :
  lrw_headerWritten s = true ->
  foldl lrw_step s calls =
  mkLrw (lrw_statusCode s) true (lrw_headers_sent s) (lrw_data_sent s ++ omap call_data calls).
Proof.
  revert s. induction calls as [|[code|b] calls IH]; intros s Hw; cbn [foldl omap list_omap].
  - rewrite app_nil_r. destruct s; cbn in *; by subst.
  - cbn [lrw_step call_data]. unfold lrw_WriteHeader. rewrite Hw. by apply IH.
  - cbn [lrw_step call_data]. unfold lrw_Write. rewrite Hw, IH by done. cbn. by rewrite <-app_assoc.
Qed.

(** The status the wrapper reports is the one net/http sends: the first
    [WriteHeader], or 200 when the body comes first or nothing is written; at
    most one header reaches the wrapped writer, and all data does. *)
Theorem lrw_run_spec calls :
  lrw_statusCode (lrw_run calls) = first_status calls /\
  lrw_data_sent (lrw_run calls) = omap call_data calls /\
  lrw_headers_sent (lrw_run calls) =
    match calls with LWriteHeader code :: _ => [code] | _ => [] end.
Proof.
  unfold lrw_run. destruct calls as [|[code|b] calls]; [done|..]; cbn [foldl lrw_step];
    rewrite lrw_run_written by done; done.
Qed.

(** A request body that a handler below reads is never longer than the limit. *)
Lemma MaxBytesReader_bound body n b :
  MaxBytesReader body n = Ok b -> (Z.of_nat (slen b) <= n)%Z /\ body = Ok b.
Proof.
  unfold MaxBytesReader. destruct body as [b'|]; [|done].
  destruct (Z.leb_spec (Z.of_nat (slen b')) n); [|done]. by intros [= <-].
Qed.

(** A header without percent signs stays at the front of the decoded path. *)
Lemma PathUnescape_prefix p s t :
  no_char "%"%char p -> PathUnescape (p +:+ s) = Some t ->
  exists t', t = p +:+ t' /\ PathUnescape s = Some t'.
Proof.
  revert t. induction p as [|c p IH]; intros t Hp H; [by exists t|].
  cbn [no_char] in Hp. destruct Hp as [Hc Hp]. rewrite append_String in H.
  cbn [PathUnescape] in H. rewrite bool_decide_eq_false_2 in H by done.
  apply fmap_Some in H as (u & Hu & ->). destruct (IH u Hp Hu) as (t' & -> & Ht').
  by exists t'.
Qed.

(** The tracing middleware passes the answer through: it depends on the handler
    below only through its answer. *)
Lemma RequestMiddleware_answer {W} shp cfg_Load tel (es : span -> W -> W) r w resp w1 :
  exists w', forall next : Handler W, next r w = (resp, w1) ->
    RequestMiddleware shp cfg_Load tel es next r w = (resp, w').
Proof.
  unfold RequestMiddleware.
  destruct (rq_Path r =?s "/healthz"); [by exists w1; intros next ->|].
  destruct (tel w); cbn [negb]; [|by exists w1; intros next ->].
  destruct (status_of_code (rs_Status resp)) as [st errs] eqn:Hsc.
  eexists. intros next ->. by rewrite Hsc.
Qed.

Lemma RequestMiddleware_cong {W} shp cfg_Load tel (es : span -> W -> W) (n n' : Handler W) r w :
  n r w = n' r w ->
  RequestMiddleware shp cfg_Load tel es n r w = RequestMiddleware shp cfg_Load tel es n' r w.
Proof.
  intros H. unfold RequestMiddleware.
  destruct (rq_Path r =?s "/healthz"); [done|]. destruct (tel w); [cbn [negb]|done].
  by rewrite H.
Qed.
