(* ===== verification/OAuthState.v ===== *)
(** pkg/oauth/state.go: the snapshot of OAuth-related state, when a reload must
    rebuild it, and how provider and client are created.  Providers and HTTP
    clients are abstract. *)
From Stdlib Require Import Floats.SpecFloat.
From S2P Require Import Prelude GoStrings Api TlsUtil Config.

(** * Definitions *)

Record Snapshot (P C : Type) := mkSnapshot {
  os_OIDCProvider : option P;
  os_HTTPClient : option C;
  os_AuthorizationURL : string;
  os_CertificateAuthority : string;
  os_TLSMinVersion : string;
  os_TLSCipherSuites : list string;
  os_OAuthScopes : list string;
  os_DisableDynamicClientRegistration : bool;
}.
Arguments mkSnapshot {P C} _ _ _ _ _ _ _ _.
Arguments os_OIDCProvider {P C} _.
Arguments os_HTTPClient {P C} _.
Arguments os_AuthorizationURL {P C} _.
Arguments os_CertificateAuthority {P C} _.
Arguments os_TLSMinVersion {P C} _.
Arguments os_TLSCipherSuites {P C} _.
Arguments os_OAuthScopes {P C} _.
Arguments os_DisableDynamicClientRegistration {P C} _.

(** [slices.Equal]. *)
Definition slices_Equal (a b : list string) : bool := bool_decide (a = b).

Section Snapshots.
Context {P C : Type}.

(** The methods on two non-nil snapshots. *)
Definition provider_fields_changed (s other : Snapshot P C) : bool :=
  (os_AuthorizationURL s ≠?s os_AuthorizationURL other) ||
  (os_CertificateAuthority s ≠?s os_CertificateAuthority other) ||
  (os_TLSMinVersion s ≠?s os_TLSMinVersion other) ||
  negb (slices_Equal (os_TLSCipherSuites s) (os_TLSCipherSuites other)).

(** [s != other] for pointers one of which is nil: true unless both are. *)
Definition HasProviderConfigChanged (s other : option (Snapshot P C)) : bool :=
  match s, other with
  | Some s, Some other => provider_fields_changed s other
  | None, None => false
  | _, _ => true
  end.

Definition HasWellKnownConfigChanged (s other : option (Snapshot P C)) : bool :=
  match s, other with
  | Some s', Some other' =>
      if HasProviderConfigChanged s other then true
      else if negb (Bool.eqb (os_DisableDynamicClientRegistration s')
                      (os_DisableDynamicClientRegistration other')) then true
      else if negb (slices_Equal (os_OAuthScopes s') (os_OAuthScopes other')) then true
      else false
  | None, None => false
  | _, _ => true
  end.

(** [State]: an atomic pointer. *)
Definition OAuthState : Type := option (Snapshot P C).
Definition NewState (snap : option (Snapshot P C)) : OAuthState := snap.
Definition State_Load (s : OAuthState) : option (Snapshot P C) := s.
Definition State_Store (snap : option (Snapshot P C)) (s : OAuthState) : OAuthState := snap.

Section FromConfig.
Context (Getenv : string -> string).

Definition SnapshotFromConfig (cfg : StaticConfig) (provider : option P) (httpClient : option C) :
    Snapshot P C :=
  {| os_OIDCProvider := provider;
     os_HTTPClient := httpClient;
     os_AuthorizationURL := c_AuthorizationURL cfg;
     os_CertificateAuthority := c_CertificateAuthority cfg;
     os_TLSMinVersion := GetTLSMinVersionConfig Getenv cfg;
     os_TLSCipherSuites := GetTLSCipherSuitesConfig Getenv cfg;
     os_OAuthScopes := c_OAuthScopes cfg;
     os_DisableDynamicClientRegistration := c_DisableDynamicClientRegistration cfg |}.

(** [os.ReadFile]; the certificates of a PEM text, if there are any; the client
    on a TLS configuration behind the enforcing transport; [oidc.NewProvider]. *)
Context (tlsCipherSuiteMap : gmap string Z).
Context (os_ReadFile : string -> result string) (AppendCertsFromPEM : string -> option string).
Context (NewClient : TLSConfig -> bool -> C) (oidc_NewProvider : C -> string -> result P).

Definition CreateOIDCProviderAndClient (cfg : StaticConfig) : result (option P * option C) :=
  if c_AuthorizationURL cfg =?s "" then Ok (None, None)
  else
    match (if c_CertificateAuthority cfg ≠?s "" then
             match os_ReadFile (c_CertificateAuthority cfg) with
             | Err err =>
                 Err (wrapf (fmt ["failed to read CA certificate from ";
                                  c_CertificateAuthority cfg; ": "]) err)
             | Ok caCert =>
                 match AppendCertsFromPEM caCert with
                 | None =>
                     Err (ErrNew (fmt ["failed to append CA certificate from ";
                                       c_CertificateAuthority cfg; " to pool"]))
                 | Some pool => Ok [WithRootCAs (Some pool)]
                 end
             end
           else Ok []) with
    | Err err => Err err
    | Ok tlsOpts =>
        match BuildTLSConfig tlsCipherSuiteMap (GetTLSMinVersionConfig Getenv cfg)
                (GetTLSCipherSuitesConfig Getenv cfg) tlsOpts with
        | Err err => Err (wrapf "failed to build TLS config: " err)
        | Ok tlsConfig =>
            let httpClient := NewClient tlsConfig (c_RequireTLS cfg) in
            match oidc_NewProvider httpClient (c_AuthorizationURL cfg) with
            | Err err => Err (wrapf "unable to setup OIDC provider: " err)
            | Ok provider => Ok (Some provider, Some httpClient)
            end
        end
    end.
End FromConfig.

(** ** When two snapshots are the same to a consumer *)

Definition provider_equiv (s other : option (Snapshot P C)) : Prop :=
  HasProviderConfigChanged s other = false.
Definition wellknown_equiv (s other : option (Snapshot P C)) : Prop :=
  HasWellKnownConfigChanged s other = false.
End Snapshots.

(** * Lemmas *)

Section SnapshotLemmas.
Context {P C : Type}.
Implicit Types s : option (Snapshot P C).

(** The fields a comparison looks at. *)
Definition provider_key (s : Snapshot P C) : string * string * string * list string :=
  (os_AuthorizationURL s, os_CertificateAuthority s, os_TLSMinVersion s, os_TLSCipherSuites s).
Definition wellknown_key (s : Snapshot P C) :=
  (provider_key s, os_DisableDynamicClientRegistration s, os_OAuthScopes s).

Lemma provider_fields_changed_spec (a b : Snapshot P C) :
  provider_fields_changed a b = false <-> provider_key a = provider_key b.
Proof.
  unfold provider_fields_changed, provider_key, slices_Equal.
  rewrite !orb_false_iff, !negb_false_iff, !bool_decide_eq_true. split.
  - intros [[[-> ->] ->] ->]. done.
  - by intros [= -> -> -> ->].
Qed.

Lemma provider_equiv_spec s1 s2 : provider_equiv s1 s2 <-> provider_key <$> s1 = provider_key <$> s2.
Proof.
  unfold provider_equiv. destruct s1 as [a|], s2 as [b|]; cbn; try done.
  rewrite provider_fields_changed_spec. split; congruence.
Qed.

(** A reload leaves the well-known documents as they are exactly when every field
    they depend on is unchanged. *)
Theorem wellknown_equiv_spec s1 s2 :
  wellknown_equiv s1 s2 <-> wellknown_key <$> s1 = wellknown_key <$> s2.
Proof.
  unfold wellknown_equiv, HasWellKnownConfigChanged.
  destruct s1 as [a|], s2 as [b|]; cbn; try done. unfold wellknown_key.
  destruct (provider_fields_changed a b) eqn:Hp.
  { split; [done|]. intros H. assert (provider_key a = provider_key b) as Hk by congruence.
    apply provider_fields_changed_spec in Hk. congruence. }
  apply provider_fields_changed_spec in Hp. rewrite Hp. unfold slices_Equal.
  destruct (os_DisableDynamicClientRegistration a), (os_DisableDynamicClientRegistration b);
    cbn [Bool.eqb negb]; try (split; [done|intros [= ]]; fail);
    case_bool_decide as Hs; cbn [negb]; split; intros; try done; congruence.
Qed.

(** Both comparisons are equivalences, and the second refines the first. *)
#[export] Instance provider_equiv_equivalence : Equivalence (provider_equiv (P := P) (C := C)).
Proof.
  split; [intros s|intros s1 s2|intros s1 s2 s3]; rewrite !provider_equiv_spec; congruence.
Qed.
#[export] Instance wellknown_equiv_equivalence : Equivalence (wellknown_equiv (P := P) (C := C)).
Proof.
  split; [intros s|intros s1 s2|intros s1 s2 s3]; rewrite !wellknown_equiv_spec; congruence.
Qed.

#[export] Instance wellknown_equiv_subrelation :
  subrelation (wellknown_equiv (P := P) (C := C)) provider_equiv.
Proof.
  intros s1 s2. rewrite wellknown_equiv_spec, provider_equiv_spec.
  destruct s1, s2; cbn; try done. unfold wellknown_key. congruence.
Qed.

#[export] Instance HasProviderConfigChanged_proper :
  Proper (provider_equiv ==> provider_equiv ==> (=)) (HasProviderConfigChanged (P := P) (C := C)).
Proof.
  intros a1 a2 Ha b1 b2 Hb. apply eq_true_iff_eq.
  assert (provider_equiv a1 b1 <-> provider_equiv a2 b2) as Hiff by (by rewrite Ha, Hb).
  unfold provider_equiv in Hiff. destruct (HasProviderConfigChanged a1 b1),
    (HasProviderConfigChanged a2 b2); naive_solver.
Qed.

(** With no issuer nothing is created, and with one both are or an error is
    reported. *)
Lemma CreateOIDCProviderAndClient_spec ge ci rf pem nc np (cfg : StaticConfig) (r : option P * option C) :
  CreateOIDCProviderAndClient ge ci rf pem nc np cfg = Ok r ->
  (c_AuthorizationURL cfg = "" /\ r = (None, None)) \/
  (c_AuthorizationURL cfg <> "" /\ exists p c, r = (Some p, Some c) /\
     np c (c_AuthorizationURL cfg) = Ok p).
Proof.
  unfold CreateOIDCProviderAndClient. case_bool_decide as Hu; [intros [= <-]; by left|].
  intros H. right. split; [done|].
  repeat (case_match; try done); simplify_eq; eauto.
Qed.
End SnapshotLemmas.
