(* ===== verification/WellKnown.v ===== *)
(** pkg/http/wellknown.go: the proxy for the OAuth discovery documents of the
    authorization server.  HTTP clients, the URL joiner and the JSON codec are
    parameters; the cache of the openid-configuration is memory of the program, a
    part of the state [W].  Calls are sequential: the de-duplication of
    concurrent fetches (singleflight) is not modelled. *)
From S2P Require Import Prelude GoStrings Api TlsUtil Config Http OAuthState.

(** * Definitions *)

Definition oidcConfigCacheTTL : Z := (5 * 60 * 1000000000)%Z.

Definition allowedResponseHeaders : list string :=
  ["Cache-Control"; "Date"; "Etag"; "Expires"; "Last-Modified"; "Pragma"].

Definition oauthAuthorizationServerEndpoint : string := "/.well-known/oauth-authorization-server".
Definition oauthProtectedResourceEndpoint : string := "/.well-known/oauth-protected-resource".
Definition openIDConfigurationEndpoint : string := "/.well-known/openid-configuration".
Definition WellKnownEndpoints : list string :=
  [oauthAuthorizationServerEndpoint; oauthProtectedResourceEndpoint; openIDConfigurationEndpoint].

(** ** Matching of paths *)

Fixpoint first_endpoint (path : string) (endpoints : list string) : string :=
  match endpoints with
  | [] => ""
  | ep :: rest =>
      if (path =?s ep) || HasPrefix path (ep +:+ "/") then ep else first_endpoint path rest
  end.
Definition matchWellKnownEndpoint (path : string) : string :=
  if Contains path ".." then "" else first_endpoint path WellKnownEndpoints.

Definition isWellKnownPath (path : string) : bool := matchWellKnownEndpoint path ≠?s "".

(** ** Metadata *)

(** A JSON object, a Go map. *)
Abbreviation metadata := (gmap string jvalue) (only parsing).

(** [WellKnownMetadataGenerator]. *)
Record MetadataGenerator := mkGenerator {
  g_GenerateAuthorizationServerMetadata : metadata -> option metadata;
  g_GenerateProtectedResourceMetadata : metadata -> string -> option metadata;
}.

Definition Default_GenerateAuthorizationServerMetadata (oidcConfig : metadata) : option metadata :=
  Some oidcConfig.

Definition Default_GenerateProtectedResourceMetadata (oidcConfig : metadata)
    (authorizationServerURL : string) : option metadata :=
  let md : metadata := {[ "authorization_servers" := JArray [JString authorizationServerURL] ]} in
  let md := match oidcConfig !! "scopes_supported" with
            | Some scopes => <["scopes_supported" := scopes]> md
            | None => md
            end in
  Some (<["bearer_methods_supported" := JArray [JString "header"]]> md).

Definition DefaultMetadataGenerator : MetadataGenerator :=
  mkGenerator Default_GenerateAuthorizationServerMetadata Default_GenerateProtectedResourceMetadata.

(** ** The handler *)

(** What a client's [Do] gives: status, headers and body. *)
Record upstream_response := mkUpstream {
  up_Status : Z;
  up_Header : http_header;
  up_Body : string;
}.

(** The outcome of decoding the (size-limited) body into a map; [null] decodes to
    a nil map. *)
Inductive decode_outcome : Type :=
| DecEOF
| DecError (err : error)
| DecMap (m : option metadata).

(** The cached openid-configuration, when it was fetched and for which URL. *)
Class OIDCCache (W : Type) := {
  oc_get : W -> option (metadata * Z * string);
  oc_put : option (metadata * Z * string) -> W -> W;
  oc_get_put w c : oc_get (oc_put c w) = c;
}.

Section WellKnown.
Context {W P C : Type} `{!OIDCCache W}.
(** [oauthState.Load()], [cfgState.Load()], the environment and the clock. *)
Context (oauth_Load : W -> option (Snapshot P C)) (cfg_Load : W -> StaticConfig).
Context (Getenv : string -> string) (now : W -> Z) (tlsCipherSuiteMap : gmap string Z).
Context (NewClient : TLSConfig -> bool -> C).
(** [http.NewRequest]: the error on a bad URL; [client.Do] by method and URL. *)
Context (NewRequest : string -> string -> option error).
Context (client_Do : C -> string -> string -> ST W (result upstream_response)).
Context (json_Decode : string -> decode_outcome) (json_Marshal : metadata -> result string).
Context (url_JoinPath : string -> string -> result string).
Context (generator : MetadataGenerator).

Definition authorizationURL (w : W) : string :=
  match oauth_Load w with
  | None => ""
  | Some snap => TrimSuffix (os_AuthorizationURL snap) "/"
  end.

Definition wellKnownHTTPClient (w : W) : result C :=
  match (match oauth_Load w with Some snap => os_HTTPClient snap | None => None end) with
  | Some c => Ok c
  | None =>
      let cfg := cfg_Load w in
      match BuildTLSConfig tlsCipherSuiteMap (GetTLSMinVersionConfig Getenv cfg)
              (GetTLSCipherSuitesConfig Getenv cfg) [] with
      | Err err => Err (wrapf "failed to build TLS config: " err)
      | Ok tlsConfig => Ok (NewClient tlsConfig (c_RequireTLS cfg))
      end
  end.

(** The metadata ([None] is a nil map) and the headers of the answer. *)
Definition fetchWellKnownEndpointFromRequest (method url : string) :
    ST W (result (option metadata * http_header)) := fun w =>
  match wellKnownHTTPClient w with
  | Err err => (Err err, w)
  | Ok client =>
      let '(r, w) := client_Do client method url w in
      (match r with
       | Err err => Err (wrapf "failed to perform request: " err)
       | Ok resp =>
           if (up_Status resp =? 404)%Z then Ok (None, ∅)
           else if (up_Status resp <? 200)%Z || (300 <=? up_Status resp)%Z then
             Err (ErrNew (fmt ["upstream returned status "; itoa (up_Status resp)]))
           else match json_Decode (up_Body resp) with
                | DecEOF => Ok (None, ∅)
                | DecError err => Err (wrapf "failed to read response body: " err)
                | DecMap m => Ok (m, up_Header resp)
                end
       end, w)
  end.

Definition fetchWellKnownEndpoint (r : request) (url : string) :
    ST W (result (option metadata * http_header)) := fun w =>
  match NewRequest (rq_Method r) url with
  | Some err => (Err (wrapf "failed to create request: " err), w)
  | None => fetchWellKnownEndpointFromRequest (rq_Method r) url w
  end.

Definition fetch_and_cache (authURL : string) : ST W (result (option metadata)) := fun w =>
  match NewRequest "GET" (authURL +:+ openIDConfigurationEndpoint) with
  | Some err => (Err (wrapf "failed to create openid-configuration request: " err), w)
  | None =>
      let '(r, w) :=
        fetchWellKnownEndpointFromRequest "GET" (authURL +:+ openIDConfigurationEndpoint) w in
      match r with
      | Err err => (Err (wrapf "failed to fetch openid-configuration: " err), w)
      | Ok (None, _) => (Ok None, w)
      | Ok (Some oidcConfig, _) =>
          (Ok (Some oidcConfig), oc_put (Some (oidcConfig, now w, authURL)) w)
      end
  end.

Definition fetchOpenIDConfiguration : ST W (result (option metadata)) := fun w =>
  let authURL := authorizationURL w in
  match oc_get w with
  | Some (cached, time, url) =>
      if (url =?s authURL) && (now w - time <? oidcConfigCacheTTL)%Z
      then (Ok (Some cached), w)
      else fetch_and_cache authURL w
  | None => fetch_and_cache authURL w
  end.

Definition generateAuthorizationServerMetadata : ST W (result (option metadata)) := fun w =>
  let '(r, w) := fetchOpenIDConfiguration w in
  (match r with
   | Err err => Err err
   | Ok None => Ok None
   | Ok (Some oidcConfig) => Ok (g_GenerateAuthorizationServerMetadata generator oidcConfig)
   end, w).

Definition buildResourceURL (r : request) (w : W) : string :=
  let cfg := cfg_Load w in
  if c_ServerURL cfg ≠?s "" then TrimSuffix (c_ServerURL cfg) "/"
  else
    let '(scheme, host) :=
      if c_TrustProxyHeaders cfg then
        (if negb (rq_TLS r) && negb (HasPrefix (Header_Get (rq_Header r) "X-Forwarded-Proto") "https")
         then "http" else "https",
         let fwdHost := Header_Get (rq_Header r) "X-Forwarded-Host" in
         if fwdHost ≠?s "" then fwdHost else rq_Host r)
      else (if negb (rq_TLS r) then "http" else "https", rq_Host r) in
    fmt [scheme; "://"; host].

Definition generateProtectedResourceMetadata (r : request) : ST W (result (option metadata)) :=
  fun w =>
  let '(res, w) := fetchOpenIDConfiguration w in
  (match res with
   | Err err => Err err
   | Ok None => Ok None
   | Ok (Some oidcConfig) =>
       Ok (g_GenerateProtectedResourceMetadata generator oidcConfig (buildResourceURL r w))
   end, w).

Definition applyConfigOverrides (md : metadata) (w : W) : metadata :=
  let snap := oauth_Load w in
  let md := match snap with
            | Some s => if os_DisableDynamicClientRegistration s
                        then <["require_request_uri_registration" := JBool false]>
                               (delete "registration_endpoint" md)
                        else md
            | None => md
            end in
  match snap with
  | Some s => if Nat.ltb 0 (length (os_OAuthScopes s))
              then <["scopes_supported" := JArray (map JString (os_OAuthScopes s))]> md
              else md
  | None => md
  end.

Definition withCORSHeaders (h : http_header) : http_header :=
  Header_Set "Access-Control-Allow-Headers" "Content-Type, Authorization"
    (Header_Set "Access-Control-Allow-Methods" "GET, OPTIONS"
       (Header_Set "Access-Control-Allow-Origin" "*" h)).

(** The headers of the answer that are passed on. *)
Definition copy_allowed (respHeaders : http_header) : http_header :=
  filter (fun kv => kv.1 ∈ allowedResponseHeaders /\ kv.2 <> []) respHeaders.

Definition fallback (matchedEndpoint : string) (r : request) :
    ST W (result (option metadata)) := fun w =>
  if matchedEndpoint =?s oauthAuthorizationServerEndpoint then generateAuthorizationServerMetadata w
  else if matchedEndpoint =?s oauthProtectedResourceEndpoint then
    generateProtectedResourceMetadata r w
  else (Ok None, w).

Definition write_metadata (md : metadata) (respHeaders : http_header) : response :=
  match json_Marshal md with
  | Err _ => http_Error ∅ "Internal server error" 500
  | Ok body =>
      mkResponse 200
        (withCORSHeaders
           (Header_Set "Content-Length" (itoa (Z.of_nat (slen body)))
              (Header_Set "Content-Type" "application/json" (copy_allowed respHeaders))))
        body
  end.

Definition WellKnown_ServeHTTP : Handler W := fun r w =>
  let authURL := authorizationURL w in
  if authURL =?s "" then (http_Error ∅ "Authorization URL is not configured" 404, w)
  else
    let matchedEndpoint := matchWellKnownEndpoint (rq_EscapedPath r) in
    if matchedEndpoint =?s "" then (http_Error ∅ "Not a well-known endpoint" 404, w)
    else
      let bad := (http_Error ∅ "Invalid well-known path" 400, w) in
      match url_JoinPath authURL matchedEndpoint with
      | Err _ => bad
      | Ok upstreamURL =>
          if negb (HasPrefix upstreamURL (authURL +:+ "/")) then bad
          else
            let '(res, w) := fetchWellKnownEndpoint r upstreamURL w in
            match res with
            | Err _ => (http_Error ∅ "Failed to fetch well-known metadata" 500, w)
            | Ok (Some md, respHeaders) =>
                (write_metadata (applyConfigOverrides md w) respHeaders, w)
            | Ok (None, _) =>
                let '(gen, w) := fallback matchedEndpoint r w in
                match gen with
                | Err _ => (http_Error ∅ "Failed to generate well-known metadata" 500, w)
                | Ok None => (http_Error ∅ "Failed to fetch well-known metadata" 404, w)
                | Ok (Some md) => (write_metadata (applyConfigOverrides md w) ∅, w)
                end
            end
      end.
End WellKnown.

(** * Lemmas *)

Lemma first_endpoint_spec path eps :
  first_endpoint path eps = "" \/
  (first_endpoint path eps ∈ eps /\
   (path = first_endpoint path eps \/ HasPrefix path (first_endpoint path eps +:+ "/") = true)).
Proof.
  induction eps as [|ep eps IH]; cbn [first_endpoint]; [by left|].
  destruct (bool_decide_reflect (path = ep)) as [->|Hne]; cbn [orb].
  - right. split; [set_solver|by left].
  - destruct (HasPrefix path (ep +:+ "/")) eqn:Hp; [right; split; [set_solver|by right]|].
    destruct IH as [IH|[? ?]]; [by left|right; split; [set_solver|done]].
Qed.

(** A path is taken for a discovery document exactly when it is one of the three
    endpoints or below one of them, and has no dot-dot. *)
Lemma isWellKnownPath_spec path :
  isWellKnownPath path = true ->
  Contains path ".." = false /\
  exists ep, ep ∈ WellKnownEndpoints /\ matchWellKnownEndpoint path = ep /\
    (path = ep \/ HasPrefix path (ep +:+ "/") = true).
Proof.
  unfold isWellKnownPath, matchWellKnownEndpoint. destruct (Contains path ".."); [done|].
  intros H. split; [done|]. exists (first_endpoint path WellKnownEndpoints).
  destruct (first_endpoint_spec path WellKnownEndpoints) as [He|[? ?]]; [|done].
  by rewrite He in H.
Qed.

Lemma WellKnownEndpoints_prefix ep :
  ep ∈ WellKnownEndpoints -> exists s, ep = "/.well-known/" +:+ s.
Proof.
  intros Hin. repeat (apply elem_of_cons in Hin as [->|Hin]; [by eexists|]). by apply not_elem_of_nil in Hin.
Qed.

Lemma isWellKnownPath_prefix path :
  isWellKnownPath path = true -> exists s, path = "/.well-known/" +:+ s.
Proof.
  intros (_ & ep & (s & ->)%WellKnownEndpoints_prefix & _ & Hp)%isWellKnownPath_spec.
  destruct Hp as [->|Hp]; [by eexists|]. apply HasPrefix_spec in Hp as [t ->].
  exists (s +:+ "/" +:+ t). by rewrite !append_assoc.
Qed.

Section WellKnownLemmas.
Context {W P C : Type} `{!OIDCCache W}.
Context (oauth_Load : W -> option (Snapshot P C)) (cfg_Load : W -> StaticConfig).
Context (Getenv : string -> string) (now : W -> Z) (ciphers : gmap string Z).
Context (NewClient : TLSConfig -> bool -> C) (NewRequest : string -> string -> option error).
Context (json_Decode : string -> decode_outcome) (json_Marshal : metadata -> result string).
Context (url_JoinPath : string -> string -> result string) (generator : MetadataGenerator).

Abbreviation client_do := (C -> string -> string -> ST W (result upstream_response)).
Abbreviation fetch Do :=
  (fetchWellKnownEndpointFromRequest oauth_Load cfg_Load Getenv ciphers NewClient Do json_Decode).
Abbreviation fetch_cached Do :=
  (fetchOpenIDConfiguration oauth_Load cfg_Load Getenv now ciphers NewClient NewRequest Do
     json_Decode).
Abbreviation serve Do :=
  (WellKnown_ServeHTTP oauth_Load cfg_Load Getenv now ciphers NewClient NewRequest Do
     json_Decode json_Marshal url_JoinPath generator).

(** The URLs the proxy may ask: one of the three documents below a configured
    authorization URL. *)
Definition outbound_url (u : string) : Prop :=
  exists w0, let authURL := authorizationURL oauth_Load w0 in
    u = authURL +:+ openIDConfigurationEndpoint \/
    exists ep, ep ∈ WellKnownEndpoints /\ url_JoinPath authURL ep = Ok u /\
      HasPrefix u (authURL +:+ "/") = true.

Section Agree.
Context (Do1 Do2 : client_do).
Context (agree : forall c m u w, outbound_url u -> Do1 c m u w = Do2 c m u w).

Lemma fetch_agree m u w : outbound_url u -> fetch Do1 m u w = fetch Do2 m u w.
Proof.
  intros Hu. unfold fetchWellKnownEndpointFromRequest.
  destruct (wellKnownHTTPClient _ _ _ _ _ w) as [c|]; [|done]. by rewrite agree.
Qed.

Lemma fetch_cached_agree w : fetch_cached Do1 w = fetch_cached Do2 w.
Proof.
  unfold fetchOpenIDConfiguration, fetch_and_cache.
  assert (outbound_url (authorizationURL oauth_Load w +:+ openIDConfigurationEndpoint)) as Hu
    by (exists w; by left).
  rewrite fetch_agree by done. done.
Qed.

Lemma serve_agree r w : serve Do1 r w = serve Do2 r w.
Proof.
  unfold WellKnown_ServeHTTP. case_match; [done|].
  destruct (bool_decide_reflect (matchWellKnownEndpoint (rq_EscapedPath r) = "")) as [|Hm]; [done|].
  destruct (url_JoinPath _ _) as [u|] eqn:Hj; [|done].
  destruct (HasPrefix u _) eqn:Hp; cbn [negb]; [|done].
  assert (outbound_url u) as Hu.
  { exists w. right. exists (matchWellKnownEndpoint (rq_EscapedPath r)). split_and!; [|done..].
    destruct (isWellKnownPath_spec (rq_EscapedPath r)) as (_ & ep & ? & -> & _); [|done].
    unfold isWellKnownPath. by rewrite bool_decide_eq_false_2. }
  unfold fetchWellKnownEndpoint. rewrite fetch_agree by done.
  destruct (NewRequest _ u); [done|].
  destruct (fetch Do2 (rq_Method r) u w) as [[[[md|] h]|e] w1]; [done| |done].
  unfold fallback, generateAuthorizationServerMetadata, generateProtectedResourceMetadata.
  by rewrite !fetch_cached_agree.
Qed.
End Agree.

(** C19. No request makes the proxy ask any other URL: replacing the clients' answers
    at all other URLs changes nothing. *)
Theorem proxy_asks_only_upstream (Do1 Do2 : client_do) r w :
  (forall c m u w, outbound_url u -> Do1 c m u w = Do2 c m u w) ->
  serve Do1 r w = serve Do2 r w.
Proof. intros Hagree. by apply serve_agree. Qed.

(** The openid-configuration is taken from the cache only while it is younger than
    the TTL and was fetched for the current authorization URL; otherwise it was
    just fetched, and is what the cache now holds. *)
Theorem fetchOpenIDConfiguration_fresh Do w m w' :
  fetch_cached Do w = (Ok (Some m), w') ->
  (exists t, oc_get w = Some (m, t, authorizationURL oauth_Load w) /\
     (now w - t < oidcConfigCacheTTL)%Z /\ w' = w) \/
  (exists h w1, fetch Do "GET" (authorizationURL oauth_Load w +:+ openIDConfigurationEndpoint) w
                = (Ok (Some m, h), w1) /\
     w' = oc_put (Some (m, now w1, authorizationURL oauth_Load w)) w1).
Proof.
  unfold fetchOpenIDConfiguration.
  assert (forall w', fetch_and_cache oauth_Load cfg_Load Getenv now ciphers NewClient NewRequest Do
      json_Decode (authorizationURL oauth_Load w) w = (Ok (Some m), w') ->
    exists h w1, fetch Do "GET" (authorizationURL oauth_Load w +:+ openIDConfigurationEndpoint) w
                = (Ok (Some m, h), w1) /\
     w' = oc_put (Some (m, now w1, authorizationURL oauth_Load w)) w1) as Hf.
  { intros w2. unfold fetch_and_cache. destruct (NewRequest _ _); [done|].
    destruct (fetch Do _ _ w) as [[[[md|] h]|e] w1]; intros [= <- <-]. by exists h, w1. }
  destruct (oc_get w) as [[[md t] u]|] eqn:Hc; [|by intros ?; right; apply Hf].
  destruct (bool_decide_reflect (u = authorizationURL oauth_Load w)) as [->|]; cbn [andb];
    [|by intros ?; right; apply Hf].
  destruct (Z.ltb_spec (now w - t) oidcConfigCacheTTL); [|by intros ?; right; apply Hf].
  intros [= <- <-]. left. by exists t.
Qed.

(** With no server URL and no trusted proxy the resource URL is built from the
    request's own host. *)
Lemma buildResourceURL_host r w :
  c_ServerURL (cfg_Load w) = "" -> c_TrustProxyHeaders (cfg_Load w) = false ->
  buildResourceURL cfg_Load r w =
    fmt [if rq_TLS r then "https" else "http"; "://"; rq_Host r].
Proof. unfold buildResourceURL. intros -> ->. by destruct (rq_TLS r). Qed.
End WellKnownLemmas.

(** * Witnesses: an issuer that only serves openid-configuration *)

Module WellKnownWitness.
(** The state is the cache and a clock. *)
Abbreviation world := (option (metadata * Z * string) * Z)%type (only parsing).

#[global] Instance world_cache : OIDCCache world :=
  {| oc_get w := w.1; oc_put c w := (c, w.2); oc_get_put _ _ := eq_refl |}.

Definition snapshot : Snapshot unit unit :=
  mkSnapshot None (Some tt) "https://issuer/" "" "" [] [] false.
Definition doc : metadata := {[ "issuer" := JString "https://issuer" ]}.
Definition Do (_ : unit) (_ u : string) : ST world (result upstream_response) := fun w =>
  (Ok (if u =?s "https://issuer/.well-known/openid-configuration"
       then mkUpstream 200 ∅ "doc" else mkUpstream 404 ∅ ""), w).
Definition Do' (_ : unit) (_ u : string) : ST world (result upstream_response) := fun w =>
  (if HasPrefix u "https://issuer/" then (Do tt "" u w).1
   else Ok (mkUpstream 200 ∅ "secret"), w).
Definition decode (b : string) : decode_outcome :=
  if b =?s "doc" then DecMap (Some doc) else DecEOF.
Definition join (a b : string) : result string := Ok (a +:+ b).
Definition req : request :=
  mkHttpRequest "GET" "/.well-known/oauth-authorization-server"
    "/.well-known/oauth-authorization-server" ∅ "host" "10.0.0.1:1" true "HTTP/1.1" 0 (Ok "").
End WellKnownWitness.

Lemma proxy_asks_only_upstream_witness :
  WellKnown_ServeHTTP (fun _ : option (metadata * Z * string) * Z => Some WellKnownWitness.snapshot)
    (fun _ => BaseDefault) (fun _ => "") (fun w => w.2) ∅ (fun _ _ => tt) (fun _ _ => None)
    WellKnownWitness.Do WellKnownWitness.decode (fun _ => Ok "body") WellKnownWitness.join
    DefaultMetadataGenerator WellKnownWitness.req (None, 0%Z) =
  WellKnown_ServeHTTP (fun _ : option (metadata * Z * string) * Z => Some WellKnownWitness.snapshot)
    (fun _ => BaseDefault) (fun _ => "") (fun w => w.2) ∅ (fun _ _ => tt) (fun _ _ => None)
    WellKnownWitness.Do' WellKnownWitness.decode (fun _ => Ok "body") WellKnownWitness.join
    DefaultMetadataGenerator WellKnownWitness.req (None, 0%Z).
Proof.
  apply proxy_asks_only_upstream. intros c m u w (w0 & H).
  unfold WellKnownWitness.Do', WellKnownWitness.Do.
  destruct H as [->|(ep & _ & _ & Hp)]; [reflexivity|].
  change (HasPrefix u "https://issuer/" = true) in Hp. rewrite Hp. reflexivity.
Defined.

Lemma fetchOpenIDConfiguration_fresh_witness :
  let w := (None, 7%Z) in
  let cached := (Some (WellKnownWitness.doc, 7%Z, "https://issuer"), 7%Z) in
  (exists t, oc_get w = Some (WellKnownWitness.doc, t, "https://issuer") /\
     (7 - t < oidcConfigCacheTTL)%Z /\ cached = w) \/
  exists h w1,
    fetchWellKnownEndpointFromRequest (fun _ => Some WellKnownWitness.snapshot)
      (fun _ => BaseDefault) (fun _ => "") ∅ (fun _ _ => tt) WellKnownWitness.Do
      WellKnownWitness.decode "GET" "https://issuer/.well-known/openid-configuration" w
      = (Ok (Some WellKnownWitness.doc, h), w1) /\
    cached = oc_put (Some (WellKnownWitness.doc, w1.2, "https://issuer")) w1.
Proof.
  exact (fetchOpenIDConfiguration_fresh (fun _ => Some WellKnownWitness.snapshot)
    (fun _ => BaseDefault) (fun _ => "") (fun w => w.2) ∅ (fun _ _ => tt) (fun _ _ => None)
    WellKnownWitness.decode WellKnownWitness.Do (None, 7%Z) WellKnownWitness.doc
    (Some (WellKnownWitness.doc, 7%Z, "https://issuer"), 7%Z) eq_refl).
Defined.
