(* ===== verification/HttpAuth.v ===== *)
(** pkg/http/authorization.go and the handler chain of pkg/http/http.go: who reaches
    the MCP endpoint.  The JWT parser and checker, the OIDC verifier and the
    endpoints behind the mux are parameters. *)
From Stdlib Require Import Floats.SpecFloat.
From S2P Require Import Prelude GoStrings Api Toolsets Config Http OAuthState WellKnown.

(** * Definitions *)

Definition healthEndpoint : string := "/healthz".
Definition statsEndpoint : string := "/stats".
Definition metricsEndpoint : string := "/metrics".
Definition mcpEndpoint : string := "/mcp".
Definition infraPaths : list string := [healthEndpoint; metricsEndpoint; statsEndpoint].

Definition write401 (h : http_header) (wwwAuthenticateHeader errorType message : string) :
    response :=
  http_Error
    (Header_Set "Www-Authenticate"
       (wwwAuthenticateHeader +:+ fmt [", error="; dq; errorType; dq]) h)
    message 401.

(** The configuration of an OIDC verifier. *)
Record oidc_Config := mkOidcConfig { oidc_ClientID : string; oidc_SkipClientIDCheck : bool }.

(** [JWTClaims]: the claims of the library and the fields the program reads. *)
Record JWTClaims (J : Type) := mkClaims {
  jc_Claims : J;
  jc_Token : string;
  jc_Scope : string;
}.
Arguments mkClaims {J} _ _ _.
Arguments jc_Claims {J} _.
Arguments jc_Token {J} _.
Arguments jc_Scope {J} _.

Section Claims.
Context {J P W : Type}.
(** [jwt.ParseSigned] with [UnsafeClaimsWithoutVerification]: the claims and scope,
    and the errors of the two calls. *)
Context (ParseSigned : string -> result string)
  (UnsafeClaims : string -> J * string * option error).
(** [Claims.Validate] with the expected audiences, at the time of [W];
    [Verifier(cfg).Verify]. *)
Context (jwt_Validate : J -> list string -> W -> option error).
Context (oidc_Verify : P -> oidc_Config -> string -> W -> option error).

Definition ParseJWTClaims (token : string) : result (JWTClaims J * option error) :=
  match ParseSigned token with
  | Err err => Err (wrapf "failed to parse JWT token: " err)
  | Ok tkn =>
      let '(claims, scope, err) := UnsafeClaims tkn in
      Ok (mkClaims claims token scope, err)
  end.

Definition ValidateOffline (c : JWTClaims J) (audience : string) (w : W) : option error :=
  let expected := if audience ≠?s "" then [audience] else [] in
  match jwt_Validate (jc_Claims c) expected w with
  | Some err => Some (wrapf "JWT token validation error: " err)
  | None => None
  end.

Definition ValidateWithProvider (c : JWTClaims J) (audience : string) (provider : option P)
    (w : W) : option error :=
  match provider with
  | Some p =>
      match oidc_Verify p (mkOidcConfig audience (audience =?s "")) (jc_Token c) w with
      | Some err => Some (wrapf "OIDC token validation error: " err)
      | None => None
      end
  | None => None
  end.

(** ** The middleware *)

Context {C : Type} (cfg_Load : W -> StaticConfig) (oauth_Load : W -> option (Snapshot P C)).

Definition AuthorizationMiddleware : Middleware W := fun next r w =>
  if slices_Contains infraPaths (rq_Path r) || isWellKnownPath (rq_EscapedPath r) then next r w
  else
    let staticConfig := cfg_Load w in
    if negb (c_RequireOAuth staticConfig) then next r w
    else
      let wwwAuthenticateHeader :=
        fmt ["Bearer realm="; dq; "Kubernetes MCP Server"; dq;
             if c_OAuthAudience staticConfig ≠?s ""
             then fmt [", audience="; dq; c_OAuthAudience staticConfig; dq] else ""] in
      let refuse errorType message :=
        (write401 ∅ wwwAuthenticateHeader errorType message, w) in
      let authHeader := Header_Get (rq_Header r) "Authorization" in
      if (authHeader =?s "") || negb (HasPrefix authHeader "Bearer ") then
        refuse "missing_token" "Unauthorized: Bearer token required"
      else
        let token := TrimPrefix authHeader "Bearer " in
        if token =?s "" then refuse "invalid_token" "Unauthorized: Bearer token is empty"
        else if c_SkipJWTVerification staticConfig && (c_AuthorizationURL staticConfig =?s "")
        then next r w
        else
          let invalid := refuse "invalid_token" "Unauthorized: Invalid token" in
          match ParseJWTClaims token with
          | Err _ => invalid
          | Ok (_, Some _) => invalid
          | Ok (claims, None) =>
              match ValidateOffline claims (c_OAuthAudience staticConfig) w with
              | Some _ => invalid
              | None =>
                  match (match oauth_Load w with Some s => os_OIDCProvider s | None => None end) with
                  | None =>
                      if c_AuthorizationURL staticConfig ≠?s "" then
                        refuse "temporarily_unavailable" "OIDC provider is not available"
                      else
                        (http_Error ∅ "JWT verification not configured - set authorization_url or skip_jwt_verification" 500, w)
                  | Some provider =>
                      match ValidateWithProvider claims (c_OAuthAudience staticConfig)
                              (Some provider) w with
                      | Some _ => invalid
                      | None => next r w
                      end
                  end
              end
          end.

(** ** The handler chain of [Serve] *)

(** What [http.ServeMux] does with the patterns of [Serve]: it redirects a path
    that is not clean, splits the escaped path at its slashes, decodes each segment
    and dispatches on four exact paths and one subtree.  [elsewhere] is its own
    answer, the redirection or not-found. *)
Context (mcpHandler healthHandler statsHandler metricsHandler wellKnownHandler elsewhere : Handler W).

Definition path_is_clean (p : string) : bool :=
  match Split "/" p with
  | "" :: segs =>
      forallb (fun s => (s ≠?s ".") && (s ≠?s "..")) segs &&
      forallb (fun s => s ≠?s "") (take (length segs - 1) segs)
  | _ => false
  end.
Definition unescape_segment (s : string) : string := default s (PathUnescape s).

Definition mux : Handler W := fun r w =>
  if (rq_Method r ≠?s "CONNECT") && negb (path_is_clean (rq_EscapedPath r)) then elsewhere r w
  else
    match Split "/" (rq_EscapedPath r) with
    | ["" ; s] =>
        let path := "/" +:+ unescape_segment s in
        if path =?s mcpEndpoint then mcpHandler r w
        else if path =?s healthEndpoint then healthHandler r w
        else if path =?s statsEndpoint then statsHandler r w
        else if path =?s metricsEndpoint then metricsHandler r w
        else elsewhere r w
    | "" :: s :: _ =>
        if unescape_segment s =?s ".well-known" then wellKnownHandler r w else elsewhere r w
    | _ => elsewhere r w
    end.

Context (SplitHostPort : string -> result string).
Context (telemetry_Enabled : W -> bool) (End_span : span -> W -> W).
(** [RecordHTTPRequest] of the metrics. *)
Context (RecordHTTPRequest : string -> string -> Z -> W -> W).

Definition metricsMiddleware : Middleware W := fun next r w =>
  let '(resp, w) := next r w in
  (resp, RecordHTTPRequest (rq_Method r) (rq_Path r) (rs_Status resp) w).

Definition wrappedMux : Handler W :=
  chain mux [RequestMiddleware SplitHostPort cfg_Load telemetry_Enabled End_span;
             AuthorizationMiddleware; MaxBodyMiddleware cfg_Load].
Definition instrumentedHandler : Handler W := metricsMiddleware wrappedMux.

(** ** Specification *)

(** The bearer token of a request. *)
Definition bearer_token (r : request) (token : string) : Prop :=
  Header_Get (rq_Header r) "Authorization" = "Bearer " +:+ token /\ token <> "".

(** The token is accepted under a configuration: by explicit opt-out from local
    verification, or by parsing, by its claims and by the issuer's keys. *)
Definition token_accepted (cfg : StaticConfig) (token : string) (w : W) : Prop :=
  (c_SkipJWTVerification cfg = true /\ c_AuthorizationURL cfg = "") \/
  (exists claims s p, ParseJWTClaims token = Ok (claims, None) /\
     ValidateOffline claims (c_OAuthAudience cfg) w = None /\
     oauth_Load w = Some s /\ os_OIDCProvider s = Some p /\
     oidc_Verify p (mkOidcConfig (c_OAuthAudience cfg) (c_OAuthAudience cfg =?s "")) token w = None).

Definition admitted (r : request) (w : W) : Prop :=
  rq_Path r ∈ infraPaths \/ isWellKnownPath (rq_EscapedPath r) = true \/
  c_RequireOAuth (cfg_Load w) = false \/
  exists token, bearer_token r token /\ token_accepted (cfg_Load w) token w.
End Claims.

(** * Lemmas *)

Section AuthLemmas.
Context {J P W C : Type}.
Context (ParseSigned : string -> result string) (UnsafeClaims : string -> J * string * option error).
Context (jwt_Validate : J -> list string -> W -> option error).
Context (oidc_Verify : P -> oidc_Config -> string -> W -> option error).
Context (cfg_Load : W -> StaticConfig) (oauth_Load : W -> option (Snapshot P C)).

Abbreviation auth :=
  (AuthorizationMiddleware ParseSigned UnsafeClaims jwt_Validate oidc_Verify cfg_Load oauth_Load).
Abbreviation ok := (admitted ParseSigned UnsafeClaims jwt_Validate oidc_Verify cfg_Load oauth_Load).

Lemma ParseJWTClaims_token token claims e :
  ParseJWTClaims ParseSigned UnsafeClaims token = Ok (claims, e) -> jc_Token claims = token.
Proof.
  unfold ParseJWTClaims. destruct (ParseSigned token) as [tkn|]; [|done].
  destruct (UnsafeClaims tkn) as [[? ?] ?]. by intros [= <- _].
Qed.

Lemma bearer_token_spec r :
  let authHeader := Header_Get (rq_Header r) "Authorization" in
  (authHeader =?s "") || negb (HasPrefix authHeader "Bearer ") = false ->
  (TrimPrefix authHeader "Bearer " =?s "") = false ->
  bearer_token r (TrimPrefix authHeader "Bearer ").
Proof.
  intros authHeader H Ht. reflect_bools. apply HasPrefix_spec in H0 as [t Hh].
  unfold bearer_token. fold authHeader. rewrite Hh, TrimPrefix_append in *. done.
Qed.

Lemma bearer_token_inv r token :
  bearer_token r token ->
  let authHeader := Header_Get (rq_Header r) "Authorization" in
  (authHeader =?s "") || negb (HasPrefix authHeader "Bearer ") = false /\
  TrimPrefix authHeader "Bearer " = token.
Proof.
  intros [Hh Hne] authHeader. subst authHeader. rewrite Hh, HasPrefix_append, TrimPrefix_append.
  by rewrite bool_decide_eq_false_2.
Qed.

(** The two ways out of the middleware. *)
Definition handed_on r w : Prop := ok r w /\ forall next, auth next r w = next r w.
Definition refused r w : Prop :=
  ~ ok r w /\ exists resp, (rs_Status resp = 401 \/ rs_Status resp = 500)%Z /\
    forall next, auth next r w = (resp, w).

Lemma refused_intro r w :
  (rq_Path r ∉ infraPaths) -> isWellKnownPath (rq_EscapedPath r) = false ->
  c_RequireOAuth (cfg_Load w) = true ->
  (forall token, bearer_token r token ->
     ~ token_accepted ParseSigned UnsafeClaims jwt_Validate oidc_Verify oauth_Load
         (cfg_Load w) token w) ->
  (exists resp, (rs_Status resp = 401 \/ rs_Status resp = 500)%Z /\
     forall next, auth next r w = (resp, w)) ->
  refused r w.
Proof.
  intros Hi Hw Ho Ht H. split; [|done].
  intros [?|[?|[?|(t & Hb & Ha)]]]; [done|congruence|congruence|by eapply Ht].
Qed.

(** A request whose bearer token is verified locally. *)
Lemma token_verified r w token :
  (rq_Path r ∉ infraPaths) -> isWellKnownPath (rq_EscapedPath r) = false ->
  c_RequireOAuth (cfg_Load w) = true -> bearer_token r token ->
  ~ (c_SkipJWTVerification (cfg_Load w) = true /\ c_AuthorizationURL (cfg_Load w) = "") ->
  handed_on r w \/ refused r w.
Proof.
  intros Hi Hw Ho Hb Hnoskip. destruct (bearer_token_inv _ _ Hb) as [Hhdr Htok].
  assert (forall t, bearer_token r t -> t = token) as Huniq.
  { intros t [_ Ht]%bearer_token_inv. congruence. }
  assert (slices_Contains infraPaths (rq_Path r) = false) as Hinfra.
  { apply not_true_iff_false. by rewrite slices_Contains_spec. }
  pose proof (refused_intro r w Hi Hw Ho) as Href. unfold handed_on, AuthorizationMiddleware in *.
  rewrite Hinfra, Hw, Ho, Hhdr, Htok in *. cbn [orb negb] in *.
  rewrite (bool_decide_eq_false_2 (token = "")) in * by apply Hb.
  assert (c_SkipJWTVerification (cfg_Load w) && (c_AuthorizationURL (cfg_Load w) =?s "") = false) as Hs.
  { apply not_true_iff_false. rewrite andb_true_iff, bool_decide_eq_true. done. }
  rewrite Hs in *.
  destruct (ParseJWTClaims _ _ token) as [[claims [e|]]|e] eqn:Hparse.
  1, 3: right; apply Href; [|eexists; split; [|done]; by left];
    intros t Ht%Huniq [?|(cl & s & p & Hp & _)]; [done|]; subst t; congruence.
  destruct (ValidateOffline _ claims _ w) as [e|] eqn:Hoff.
  { right. apply Href; [|eexists; split; [|done]; by left].
    intros t Ht%Huniq [?|(cl & s & p & Hp & Hv & _)]; [done|]. subst t. congruence. }
  destruct (match oauth_Load w with Some s => os_OIDCProvider s | None => None end) as [p|] eqn:Hpr.
  - unfold ValidateWithProvider in *. rewrite (ParseJWTClaims_token _ _ _ Hparse) in *.
    destruct (oauth_Load w) as [s|] eqn:Hload; [|done].
    destruct (oidc_Verify p _ token w) as [e|] eqn:Hver.
    + right. apply Href; [|eexists; split; [|done]; by left].
      intros t Ht%Huniq [?|(cl & s' & p' & _ & _ & Hl & Hp & Hv)]; [done|]. subst t. congruence.
    + left. split; [|done]. do 3 right. exists token. split; [done|]. right. by exists claims, s, p.
  - right. apply Href.
    + intros t Ht%Huniq [?|(cl & s & p & _ & _ & Hl & Hp & _)]; [done|].
      rewrite Hl in Hpr. congruence.
    + destruct (c_AuthorizationURL (cfg_Load w) ≠?s "");
        eexists; (split; [|done]); [by left|by right].
Qed.

Lemma AuthorizationMiddleware_cases r w : handed_on r w \/ refused r w.
Proof.
  destruct (slices_Contains infraPaths (rq_Path r)) eqn:Hinfra.
  { left. unfold handed_on, AuthorizationMiddleware, admitted. rewrite Hinfra.
    split; [left; by apply slices_Contains_spec|done]. }
  assert (rq_Path r ∉ infraPaths) as Hni.
  { intros Hin%slices_Contains_spec. congruence. }
  destruct (isWellKnownPath (rq_EscapedPath r)) eqn:Hwk.
  { left. unfold handed_on, AuthorizationMiddleware, admitted. rewrite Hinfra, Hwk. tauto. }
  destruct (c_RequireOAuth (cfg_Load w)) eqn:Hoa.
  2:{ left. unfold handed_on, AuthorizationMiddleware, admitted. rewrite Hinfra, Hwk, Hoa. tauto. }
  pose proof (bearer_token_spec r) as Hspec. cbn zeta in Hspec.
  pose proof (refused_intro r w Hni Hwk Hoa) as Href.
  destruct (_ || negb (HasPrefix _ "Bearer ")) eqn:Hhdr in Hspec.
  { right. apply Href; [intros t [H _]%bearer_token_inv _; congruence|].
    unfold AuthorizationMiddleware. rewrite Hinfra, Hwk, Hoa, Hhdr. cbn [orb negb].
    eexists; split; [|done]; by left. }
  destruct (TrimPrefix _ "Bearer " =?s "") eqn:Hemp in Hspec.
  { right. apply Href.
    - intros t Hb _. destruct (bearer_token_inv _ _ Hb) as [_ Ht]. destruct Hb as [_ Hb].
      rewrite Ht in Hemp. by reflect_bools.
    - unfold AuthorizationMiddleware. rewrite Hinfra, Hwk, Hoa, Hhdr. cbn [orb negb].
      rewrite Hemp. eexists; split; [|done]; by left. }
  specialize (Hspec eq_refl eq_refl).
  destruct (c_SkipJWTVerification (cfg_Load w) && (c_AuthorizationURL (cfg_Load w) =?s "")) eqn:Hs.
  - left. unfold handed_on, AuthorizationMiddleware, admitted.
    rewrite Hinfra, Hwk, Hoa, Hhdr. cbn [orb negb]. rewrite Hemp, Hs. split; [|done].
    reflect_bools. do 3 right. eexists. split; [done|by left].
  - eapply token_verified; [done..|]. intros [H1 H2]. rewrite H1, H2 in Hs. by cbn in Hs.
Qed.

(** C17. The middleware hands a request on, unchanged and in the state it came in,
    exactly when it is admitted; any other request gets an error status, whatever
    the handler behind is. *)
Theorem AuthorizationMiddleware_spec r w :
  let adm := admitted ParseSigned UnsafeClaims jwt_Validate oidc_Verify cfg_Load oauth_Load r w in
  let mw next := AuthorizationMiddleware ParseSigned UnsafeClaims jwt_Validate oidc_Verify
                   cfg_Load oauth_Load next r w in
  (adm /\ forall next, mw next = next r w) \/
  (~ adm /\ exists resp, (rs_Status resp = 401 \/ rs_Status resp = 500)%Z /\
    forall next, mw next = (resp, w)).
Proof. exact (AuthorizationMiddleware_cases r w). Qed.

(** Under a validated configuration the internal error of the middleware cannot
    happen: a request that is not admitted is told 401. *)
Theorem AuthorizationMiddleware_validated url_Parse r w :
  oauth_ok url_Parse (cfg_Load w) ->
  ~ admitted ParseSigned UnsafeClaims jwt_Validate oidc_Verify cfg_Load oauth_Load r w ->
  forall next, rs_Status (AuthorizationMiddleware ParseSigned UnsafeClaims jwt_Validate
    oidc_Verify cfg_Load oauth_Load next r w).1 = 401%Z.
Proof.
  intros (Hskip & _ & _) Hno next.
  destruct (AuthorizationMiddleware_cases r w) as [[? _]|(_ & resp & _ & Hall)]; [done|].
  rewrite Hall. cbn [fst].
  set (next0 := fun (_ : request) (w : W) => (mkResponse 401 ∅ "", w)).
  replace resp with (auth next0 r w).1 by by rewrite Hall.
  unfold AuthorizationMiddleware, next0. cbn zeta.
  destruct (slices_Contains _ _ || _); [done|].
  destruct (c_RequireOAuth (cfg_Load w)) eqn:Hoa; cbn [negb]; [|done].
  destruct (_ || negb _); [done|]. destruct (TrimPrefix _ _ =?s ""); [done|].
  destruct (c_SkipJWTVerification (cfg_Load w)) eqn:Hs; cbn [andb].
  - destruct (bool_decide_reflect (c_AuthorizationURL (cfg_Load w) = "")); cbn [negb]; [done|].
    repeat case_match; done.
  - destruct (Hskip eq_refl) as [Hu|]; [|done].
    rewrite (bool_decide_eq_false_2 _ Hu). cbn [negb]. repeat case_match; done.
Qed.

(** ** The MCP endpoint *)

(** A request the router gives to the MCP server has the path of the endpoint,
    decoded. *)
Lemma Split_two c s t : Split c s = [""; t] -> s = String c t.
Proof. intros H. rewrite <- (Join_Split c s), H. done. Qed.

Section Endpoint.
Context (healthHandler statsHandler metricsHandler wellKnownHandler elsewhere : Handler W).
Context (SplitHostPort : string -> result string).
Context (telemetry_Enabled : W -> bool) (End_span : span -> W -> W).

Abbreviation serve mcpHandler :=
  (wrappedMux ParseSigned UnsafeClaims jwt_Validate oidc_Verify cfg_Load oauth_Load
     mcpHandler healthHandler statsHandler metricsHandler wellKnownHandler elsewhere
     SplitHostPort telemetry_Enabled End_span).
Abbreviation router mcpHandler :=
  (mux mcpHandler healthHandler statsHandler metricsHandler wellKnownHandler elsewhere).

Lemma mux_exempt r w :
  request_ok r -> (rq_Path r ∈ infraPaths) \/ isWellKnownPath (rq_EscapedPath r) = true ->
  forall h h', router h r w = router h' r w.
Proof.
  unfold request_ok. intros Hr Hex h h'. unfold mux. destruct (_ && negb _); [done|].
  destruct (Split "/" (rq_EscapedPath r)) as [|s0 [|s [|]]] eqn:Hs; try done.
  destruct s0 as [|]; [|done].
  destruct (bool_decide_reflect ("/" +:+ unescape_segment s = mcpEndpoint)) as [Hm|]; [|done].
  exfalso. destruct Hex as [Hin|[t Ht]%isWellKnownPath_prefix].
  - apply Split_two in Hs. rewrite Hs in Hr. cbn in Hr. unfold unescape_segment in Hm.
    destruct (PathUnescape s) as [u|]; [|done]. cbn in Hr, Hm. injection Hr as Hr.
    rewrite <- Hr in Hin. change (String "/" u) with ("/" +:+ u) in Hin. rewrite Hm in Hin.
    by apply (bool_decide_eq_false_1 (mcpEndpoint ∈ infraPaths)) in Hin.
  - rewrite Ht in Hs.
    change ("/.well-known/" +:+ t) with ("" +:+ String "/" (".well-known" +:+ String "/" t)) in Hs.
    rewrite !Split_append in Hs by (cbn; repeat split; done).
    injection Hs as _ Hs. by apply Split_not_nil in Hs.
Qed.

Lemma mcp_path_not_exempt r :
  request_ok r -> rq_Path r = mcpEndpoint ->
  (rq_Path r ∉ infraPaths) /\ isWellKnownPath (rq_EscapedPath r) = false.
Proof.
  unfold request_ok. intros Hr Hp. split.
  - rewrite Hp. by apply (bool_decide_eq_false_1 (mcpEndpoint ∈ infraPaths)).
  - destruct (isWellKnownPath (rq_EscapedPath r)) eqn:Hwk; [|done].
    apply isWellKnownPath_prefix in Hwk as [s Hs]. rewrite Hs in Hr.
    apply PathUnescape_prefix in Hr as (t & Ht & _); [|cbn; repeat split; done].
    rewrite Hp in Ht. discriminate Ht.
Qed.

Lemma MaxBodyMiddleware_mux r w :
  request_ok r -> (rq_Path r ∈ infraPaths) \/ isWellKnownPath (rq_EscapedPath r) = true ->
  forall h h', MaxBodyMiddleware cfg_Load (router h) r w = MaxBodyMiddleware cfg_Load (router h') r w.
Proof.
  intros Hr Hex h h'. unfold MaxBodyMiddleware. repeat case_match; by apply mux_exempt.
Qed.

Lemma refused_without_token r w :
  c_RequireOAuth (cfg_Load w) = true ->
  (forall token, bearer_token r token ->
     ~ token_accepted ParseSigned UnsafeClaims jwt_Validate oidc_Verify oauth_Load
         (cfg_Load w) token w) ->
  ((rq_Path r ∈ infraPaths) \/ isWellKnownPath (rq_EscapedPath r) = true) \/ refused r w.
Proof.
  intros Hoa Htok.
  destruct (AuthorizationMiddleware_cases r w) as [[[?|[?|[?|(t & Hb & Ha)]]] _]|?];
    [by left; left|by left; right|congruence|by apply Htok in Ha|by right].
Qed.

(** C14. With OAuth required, no request without an accepted bearer token reaches the
    MCP server, whatever its path and however that is encoded: the answer does
    not depend on the MCP handler, and at the endpoint itself it is 401 or
    500. *)
Theorem mcp_endpoint_protected r w :
  request_ok r -> c_RequireOAuth (cfg_Load w) = true ->
  (forall token, bearer_token r token ->
     ~ token_accepted ParseSigned UnsafeClaims jwt_Validate oidc_Verify oauth_Load
         (cfg_Load w) token w) ->
  let serve h := wrappedMux ParseSigned UnsafeClaims jwt_Validate oidc_Verify cfg_Load oauth_Load
    h healthHandler statsHandler metricsHandler wellKnownHandler elsewhere
    SplitHostPort telemetry_Enabled End_span in
  (forall h h', serve h r w = serve h' r w) /\
  (rq_Path r = mcpEndpoint -> exists resp w',
     (rs_Status resp = 401 \/ rs_Status resp = 500)%Z /\ forall h, serve h r w = (resp, w')).
Proof.
  intros Hr Hoa Htok serve0. subst serve0.
  destruct (refused_without_token r w Hoa Htok) as [Hex|(_ & resp & Hst & Hall)].
  - split; [|intros Hp; by destruct (mcp_path_not_exempt r Hr Hp), Hex; congruence].
    intros h h'. unfold wrappedMux. autorewrite with mcp_rw. apply RequestMiddleware_cong.
    unfold AuthorizationMiddleware.
    replace (_ || _) with true; [by apply MaxBodyMiddleware_mux|].
    symmetry. by rewrite orb_true_iff, slices_Contains_spec.
  - destruct (RequestMiddleware_answer SplitHostPort cfg_Load telemetry_Enabled End_span r w resp w)
      as [w' Hw'].
    assert (forall h, serve h r w = (resp, w')) as Heq.
    { intros h. unfold wrappedMux. autorewrite with mcp_rw. apply Hw', Hall. }
    split; [|by exists resp, w']. intros h h'. by rewrite !Heq.
Qed.
End Endpoint.
End AuthLemmas.

(** * Witnesses *)

Module HttpAuthWitness.
(** The defaults with OAuth and an issuer. *)
Definition secured : StaticConfig :=
  {| c_DeniedResources := c_DeniedResources BaseDefault;
     c_LogLevel := c_LogLevel BaseDefault;
     c_LogFile := c_LogFile BaseDefault;
     c_Port := c_Port BaseDefault;
     c_BindAddress := c_BindAddress BaseDefault;
     c_KubeConfig := c_KubeConfig BaseDefault;
     c_ListOutput := c_ListOutput BaseDefault;
     c_Stateless := c_Stateless BaseDefault;
     c_ReadOnly := c_ReadOnly BaseDefault;
     c_DisableDestructive := c_DisableDestructive BaseDefault;
     c_Toolsets := c_Toolsets BaseDefault;
     c_EnabledTools := c_EnabledTools BaseDefault;
     c_DisabledTools := c_DisabledTools BaseDefault;
     c_ToolOverrides := c_ToolOverrides BaseDefault;
     c_Prompts := c_Prompts BaseDefault;
     c_RequireOAuth := true;
     c_OAuthAudience := c_OAuthAudience BaseDefault;
     c_AuthorizationURL := "https://issuer";
     c_SkipJWTVerification := c_SkipJWTVerification BaseDefault;
     c_DisableDynamicClientRegistration := c_DisableDynamicClientRegistration BaseDefault;
     c_OAuthScopes := c_OAuthScopes BaseDefault;
     c_StsClientId := c_StsClientId BaseDefault;
     c_StsClientSecret := c_StsClientSecret BaseDefault;
     c_StsAudience := c_StsAudience BaseDefault;
     c_StsScopes := c_StsScopes BaseDefault;
     c_TokenExchangeStrategy := c_TokenExchangeStrategy BaseDefault;
     c_StsAuthStyle := c_StsAuthStyle BaseDefault;
     c_StsClientCertFile := c_StsClientCertFile BaseDefault;
     c_StsClientKeyFile := c_StsClientKeyFile BaseDefault;
     c_StsFederatedTokenFile := c_StsFederatedTokenFile BaseDefault;
     c_StsSubjectTokenType := c_StsSubjectTokenType BaseDefault;
     c_StsRequestedTokenType := c_StsRequestedTokenType BaseDefault;
     c_ClusterAuthMode := c_ClusterAuthMode BaseDefault;
     c_CertificateAuthority := c_CertificateAuthority BaseDefault;
     c_ServerURL := c_ServerURL BaseDefault;
     c_TrustProxyHeaders := c_TrustProxyHeaders BaseDefault;
     c_TLSCert := c_TLSCert BaseDefault;
     c_TLSKey := c_TLSKey BaseDefault;
     c_RequireTLS := c_RequireTLS BaseDefault;
     c_TLSMinVersion := c_TLSMinVersion BaseDefault;
     c_TLSCipherSuites := c_TLSCipherSuites BaseDefault;
     c_HTTP := c_HTTP BaseDefault;
     c_ClusterProviderStrategy := c_ClusterProviderStrategy BaseDefault;
     c_ClusterProviderConfigs := c_ClusterProviderConfigs BaseDefault;
     c_ToolsetConfigs := c_ToolsetConfigs BaseDefault;
     c_ServerInstructions := c_ServerInstructions BaseDefault;
     c_Telemetry := c_Telemetry BaseDefault;
     c_ValidationEnabled := c_ValidationEnabled BaseDefault;
     c_EnableTargetCompatibilityToolFilters := c_EnableTargetCompatibilityToolFilters BaseDefault;
     c_ConfirmationFallback := c_ConfirmationFallback BaseDefault;
     c_ConfirmationRules := c_ConfirmationRules BaseDefault;
     c_parsedClusterProviderConfigs := c_parsedClusterProviderConfigs BaseDefault;
     c_parsedToolsetConfigs := c_parsedToolsetConfigs BaseDefault;
     c_configDirPath := c_configDirPath BaseDefault;
     c_providerStrategies := c_providerStrategies BaseDefault;
     c_tokenExchangeStrategies := c_tokenExchangeStrategies BaseDefault |}.
Definition req : request :=
  mkHttpRequest "POST" "/mcp" "/%6dcp" {[ "Authorization" := ["Bearer forged"] ]} "host"
    "10.0.0.1:1" true "HTTP/1.1" 0 (Ok "{}").
Definition snapshot : Snapshot unit unit :=
  mkSnapshot None (Some tt) "https://issuer" "" "" [] [] false.
Definition ParseSigned (t : string) : result string :=
  if t =?s "good" then Ok t else Err (ErrNew "malformed").
Definition Claims (t : string) : unit * string * option error := (tt, "", None).
Definition parse (s : string) : result URL :=
  Ok (mkURL "https" "issuer" "").

Definition answer (body : string) : Handler unit := fun _ w => (mkResponse 200 ∅ body, w).

Lemma not_admitted :
  ~ admitted (P := unit) ParseSigned Claims (fun _ _ _ => None) (fun _ _ _ _ => None)
      (fun _ : unit => secured) (fun _ => Some snapshot) req tt.
Proof.
  intros [H|[H|[H|(t & [H _] & [[_ H']|(c & s & p & Hp & _)])]]].
  - by apply (bool_decide_eq_false_1 ("/mcp" ∈ infraPaths)) in H.
  - vm_compute in H. discriminate.
  - discriminate.
  - discriminate.
  - vm_compute in H. injection H as <-. vm_compute in Hp. discriminate.
Qed.
End HttpAuthWitness.

Lemma AuthorizationMiddleware_validated_witness :
  rs_Status
    (AuthorizationMiddleware (P := unit) HttpAuthWitness.ParseSigned HttpAuthWitness.Claims
       (fun _ _ _ => None) (fun _ _ _ _ => None) (fun _ : unit => HttpAuthWitness.secured)
       (fun _ => Some HttpAuthWitness.snapshot) (HttpAuthWitness.answer "mcp")
       HttpAuthWitness.req tt).1 = 401%Z.
Proof.
  refine (AuthorizationMiddleware_validated HttpAuthWitness.ParseSigned HttpAuthWitness.Claims
    (fun _ _ _ => None) (fun _ _ _ _ => None) (fun _ : unit => HttpAuthWitness.secured)
    (fun _ => Some HttpAuthWitness.snapshot) HttpAuthWitness.parse HttpAuthWitness.req tt _
    HttpAuthWitness.not_admitted _).
  split_and!; [by left|done|]. intros _. eexists. split; [done|by left].
Defined.

Lemma mcp_endpoint_protected_witness :
  let e := HttpAuthWitness.answer "elsewhere" in
  let serve h := wrappedMux (P := unit) HttpAuthWitness.ParseSigned HttpAuthWitness.Claims
    (fun _ _ _ => None) (fun _ _ _ _ => None) (fun _ : unit => HttpAuthWitness.secured)
    (fun _ => Some HttpAuthWitness.snapshot) h e e e e e (fun s => Ok s) (fun _ => true)
    (fun _ w => w) HttpAuthWitness.req tt in
  serve (HttpAuthWitness.answer "mcp") = serve (HttpAuthWitness.answer "other").
Proof.
  apply (mcp_endpoint_protected HttpAuthWitness.ParseSigned HttpAuthWitness.Claims
    (fun _ _ _ => None) (fun _ _ _ _ => None) (fun _ : unit => HttpAuthWitness.secured)
    (fun _ => Some HttpAuthWitness.snapshot)
    (HttpAuthWitness.answer "elsewhere") (HttpAuthWitness.answer "elsewhere")
    (HttpAuthWitness.answer "elsewhere") (HttpAuthWitness.answer "elsewhere")
    (HttpAuthWitness.answer "elsewhere") (fun s => Ok s) (fun _ => true)
    (fun _ w => w) HttpAuthWitness.req tt); [reflexivity|reflexivity|].
  intros token Hb Ha. apply HttpAuthWitness.not_admitted. do 3 right. by exists token.
Defined.
