(* ===== verification/Tools.v ===== *)
(** pkg/api/toolsets.go, pkg/mcp/tool_filter.go, pkg/mcp/tool_mutator.go: tools as a
    toolset provides them, which of them a configuration exposes, and how they are
    changed before they are exposed.  The world [W] is what handlers act on; a
    Kubernetes client has the abstract type [K].  Every call of [GetTools] builds
    its own schemas, so a schema is a value here. *)
From S2P Require Import Prelude GoStrings Api Params Toolsets Config Confirmation.

(** * Definitions *)

(** ** api.Tool and its JSON schema: the keywords the program itself reads and
    writes.  [None] for the properties is the nil map; a property set twice keeps
    its last value. *)

Inductive Schema : Type :=
  mkSchema (type description : string) (properties : option (list (string * Schema))).
Definition sc_Type (s : Schema) : string := let 'mkSchema t _ _ := s in t.
Definition sc_Properties (s : Schema) : option (list (string * Schema)) :=
  let 'mkSchema _ _ p := s in p.

Fixpoint set_property (k : string) (v : Schema) (l : list (string * Schema)) :
    list (string * Schema) :=
  match l with
  | [] => [(k, v)]
  | (k', v') :: rest => if k' =?s k then (k, v) :: rest else (k', v') :: set_property k v rest
  end.

Record ToolAnnotations := mkToolAnnotations {
  ta_Title : string;
  ta_ReadOnlyHint : option bool;
  ta_DestructiveHint : option bool;
  ta_IdempotentHint : option bool;
  ta_OpenWorldHint : option bool;
}.

Record Tool := mkTool {
  tl_Name : string;
  tl_Description : string;
  tl_Annotations : ToolAnnotations;
  tl_Meta : list (string * jvalue);
  tl_InputSchema : option Schema;
  tl_OutputSchema : option Schema;
}.

(** [ptr.Deref]. *)
Definition Deref {A} (p : option A) (def : A) : A := default def p.

Section Tools.
Context {W K : Type}.

(** [ToolHandlerParams]: the context is the world the handler is run in. *)
Record ToolHandlerParams := mkToolHandlerParams {
  th_BaseConfig : StaticConfig;
  th_KubernetesClient : K;
  th_ToolCallRequest : arguments;
  th_ListOutput : option Output;
  th_Elicitor : Elicitor W;
}.

Definition ToolHandlerFunc : Type := ToolHandlerParams -> ST W (result ToolCallResult).

(** The filters are closures that look at the clusters. *)
Record ServerTool := mkServerTool {
  st_Tool : Tool;
  st_Handler : ToolHandlerFunc;
  st_ClusterAware : option bool;
  st_TargetListProvider : option bool;
  st_TargetCompatibilityFilters : list (W -> bool);
}.

Definition IsClusterAware (s : ServerTool) : bool := Deref (st_ClusterAware s) true.
Definition IsTargetListProvider (s : ServerTool) : bool := Deref (st_TargetListProvider s) false.

Definition with_Tool (t : Tool) (s : ServerTool) : ServerTool :=
  mkServerTool t (st_Handler s) (st_ClusterAware s) (st_TargetListProvider s)
    (st_TargetCompatibilityFilters s).
Definition with_Handler (h : ToolHandlerFunc) (s : ServerTool) : ServerTool :=
  mkServerTool (st_Tool s) h (st_ClusterAware s) (st_TargetListProvider s)
    (st_TargetCompatibilityFilters s).

(** ** Filters *)

Definition ToolFilter : Type := ServerTool -> W -> bool.

(** The loops of [isToolApplicable] and [CompositeFilter]: to the first false. *)
Fixpoint all_filters {A} (filters : list (A -> W -> bool)) (x : A) (w : W) : bool :=
  match filters with
  | [] => true
  | f :: rest => if negb (f x w) then false else all_filters rest x w
  end.
Definition CompositeFilter (filters : list ToolFilter) : ToolFilter := all_filters filters.

Fixpoint compatible (filters : list (W -> bool)) (w : W) : bool :=
  match filters with
  | [] => true
  | f :: rest => if negb (f w) then false else compatible rest w
  end.

Definition isToolApplicable (c : StaticConfig) : ToolFilter := fun tool w =>
  let t := st_Tool tool in
  if c_ReadOnly c && negb (Deref (ta_ReadOnlyHint (tl_Annotations t)) false) then false
  else if c_DisableDestructive c && Deref (ta_DestructiveHint (tl_Annotations t)) false then false
  else if match c_EnabledTools c with
          | Some l => negb (slices_Contains l (tl_Name t)) | None => false end then false
  else if match c_DisabledTools c with
          | Some l => slices_Contains l (tl_Name t) | None => false end then false
  else if c_EnableTargetCompatibilityToolFilters c then
    compatible (st_TargetCompatibilityFilters tool) w
  else true.

Definition KubeConfigTargetParameterName : string := "context".

Definition ShouldIncludeTargetListTool (targetName : string) (isMultiTarget : bool) : ToolFilter :=
  fun tool _ =>
  if negb (IsTargetListProvider tool) then true
  else if negb isMultiTarget then false
  else if (tl_Name (st_Tool tool) =?s "configuration_contexts_list")
          && (targetName ≠?s KubeConfigTargetParameterName) then false
  else
    let mutatedTargetsListName := targetName +:+ "_list" in
    if (tl_Name (st_Tool tool) =?s mutatedTargetsListName)
       && (targetName =?s KubeConfigTargetParameterName) then false
    else true.

(** ** Mutators *)

Definition ToolMutator : Type := ServerTool -> ServerTool.

Definition ComposeMutators {A} (mutators : list (A -> A)) : A -> A :=
  fun tool => foldl (fun tool m => m tool) tool mutators.

Definition TargetsListToolName : string := "targets_list".

Definition createTargetProperty (defaultCluster targetName : string) : Schema :=
  mkSchema "string"
    (fmt ["Optional parameter selecting which "; targetName;
          " to run the tool in. Defaults to "; defaultCluster; " if not set"]) None.

Definition WithTargetParameter (defaultCluster targetParameterName : string)
    (isMultiTarget : bool) : ToolMutator := fun tool =>
  if negb (IsClusterAware tool) then tool
  else
    let t := st_Tool tool in
    let '(mkSchema ty d p) := default (mkSchema "object" "" None) (tl_InputSchema t) in
    let p := default [] p in
    let p := if isMultiTarget
             then set_property targetParameterName
                    (createTargetProperty defaultCluster targetParameterName) p
             else p in
    with_Tool (mkTool (tl_Name t) (tl_Description t) (tl_Annotations t) (tl_Meta t)
                 (Some (mkSchema ty d (Some p))) (tl_OutputSchema t)) tool.

Definition capitalizeFirst (s : string) : string :=
  if Nat.eqb (slen s) 0 then s else ToUpper (take_str 1 s) +:+ drop_str 1 s.

(** The lines of the list of targets. *)
Definition target_line (defaultTarget target : string) : string :=
  fmt [if target =?s defaultTarget then "*" else " "; " "; target; nl].

Definition createTargetListHandler (GetTargets : ST W (result (list string)))
    (targetParameterName defaultTarget : string) : ToolHandlerFunc := fun _ w =>
  let '(r, w) := GetTargets w in
  (match r with
   | Err err =>
       Ok (NewToolCallResult "" (Some (wrapf "failed to find any targets: " err)))
   | Ok targets =>
       if Nat.eqb (length targets) 0 then
         Ok (NewToolCallResult (fmt ["No "; targetParameterName; "s available"]) None)
       else
         let sortedTargets := sort_strings targets in
         let result :=
           fmt ["Available "; targetParameterName; "s (";
                itoa (Z.of_nat (length sortedTargets)); " total, default: "; defaultTarget; "):";
                nl; nl;
                "Format: [*] "; ToUpper targetParameterName; "_NAME"; nl;
                " (* indicates the default "; targetParameterName; " used in tools if ";
                targetParameterName; " is not set)"; nl; nl;
                capitalizeFirst targetParameterName; "s:"; nl; "---------"; nl] in
         let result :=
           foldl (fun result target => result +:+ target_line defaultTarget target)
             result sortedTargets in
         let result := result +:+ fmt ["---------"; nl; nl] in
         Ok (NewToolCallResult
               (result +:+
                fmt ["To use a specific "; targetParameterName; " with any tool, set the '";
                     targetParameterName; "' parameter in the tool call arguments"]) None)
   end, w).

Definition WithTargetListTool (defaultTarget targetParameterName : string)
    (GetTargets : ST W (result (list string))) : ToolMutator := fun tool =>
  let t := st_Tool tool in
  if tl_Name t ≠?s TargetsListToolName then tool
  else
    let a := tl_Annotations t in
    with_Handler (createTargetListHandler GetTargets targetParameterName defaultTarget)
      (with_Tool
         (mkTool (targetParameterName +:+ "_list")
            (fmt ["List all available "; targetParameterName; "s that can be targeted by tools"])
            (mkToolAnnotations (capitalizeFirst targetParameterName +:+ " List")
               (ta_ReadOnlyHint a) (ta_DestructiveHint a) (ta_IdempotentHint a) (ta_OpenWorldHint a))
            (tl_Meta t) (tl_InputSchema t) (tl_OutputSchema t)) tool).

Definition WithToolOverrides (overrides : gmap string ToolOverride) : ToolMutator := fun tool =>
  let t := st_Tool tool in
  match overrides !! tl_Name t with
  | Some o =>
      if to_Description o ≠?s "" then
        with_Tool (mkTool (tl_Name t) (to_Description o) (tl_Annotations t) (tl_Meta t)
                     (tl_InputSchema t) (tl_OutputSchema t)) tool
      else tool
  | None => tool
  end.
End Tools.
Arguments ToolHandlerParams : clear implicits.
Arguments ServerTool : clear implicits.
Arguments ToolHandlerFunc : clear implicits.
Arguments ToolFilter : clear implicits.
Arguments ToolMutator : clear implicits.

(** * Specification *)

(** What a configuration promises about every tool it exposes. *)
Definition tool_permitted (c : StaticConfig) (t : Tool) : Prop :=
  (c_ReadOnly c = true -> ta_ReadOnlyHint (tl_Annotations t) = Some true) /\
  (c_DisableDestructive c = true -> ta_DestructiveHint (tl_Annotations t) <> Some true) /\
  (forall l, c_EnabledTools c = Some l -> tl_Name t ∈ l) /\
  (forall l, c_DisabledTools c = Some l -> tl_Name t ∉ l).

(** * Lemmas *)

Section ToolLemmas.
Context {W K : Type}.
Implicit Types (tool : ServerTool W K) (c : StaticConfig).

Lemma all_filters_spec {A} (filters : list (A -> W -> bool)) x w :
  all_filters filters x w = true <-> Forall (fun f => f x w = true) filters.
Proof.
  induction filters as [|f fs IH]; cbn [all_filters]; [done|].
  rewrite Forall_cons. destruct (f x w); cbn [negb]; [rewrite IH; naive_solver|naive_solver].
Qed.

Lemma compatible_spec (filters : list (W -> bool)) w :
  compatible filters w = true <-> Forall (fun f => f w = true) filters.
Proof.
  induction filters as [|f fs IH]; cbn [compatible]; [done|].
  rewrite Forall_cons. destruct (f w); cbn [negb]; [rewrite IH; naive_solver|naive_solver].
Qed.

Lemma Deref_false (h : option bool) : Deref h false = true <-> h = Some true.
Proof. destruct h as [[]|]; cbn; naive_solver. Qed.

Lemma isToolApplicable_iff c tool w :
  isToolApplicable c tool w = true <->
  tool_permitted c (st_Tool tool) /\
  (c_EnableTargetCompatibilityToolFilters c = true ->
     Forall (fun f => f w = true) (st_TargetCompatibilityFilters tool)).
Proof.
  unfold isToolApplicable, tool_permitted. cbn zeta.
  set (t := st_Tool tool). generalize t. clear t. intros t.
  pose proof (Deref_false (ta_ReadOnlyHint (tl_Annotations t))) as Hro.
  pose proof (Deref_false (ta_DestructiveHint (tl_Annotations t))) as Hd.
  destruct (c_ReadOnly c), (Deref (ta_ReadOnlyHint (tl_Annotations t)) false); cbn [andb negb];
    try (split; [done|]; intros ((H & _) & _); specialize (H eq_refl); by apply Hro in H);
  (destruct (c_DisableDestructive c), (Deref (ta_DestructiveHint (tl_Annotations t)) false);
     cbn [andb]; try (split; [done|]; intros ((_ & H & _) & _); destruct (H eq_refl); by apply Hd));
  (destruct (match c_EnabledTools c with Some l => _ | None => false end) eqn:Hen;
    [split; [done|]; intros ((_ & _ & H & _) & _); destruct (c_EnabledTools c) as [l|]; [|done];
     specialize (H l eq_refl); apply slices_Contains_spec in H; by rewrite H in Hen|]);
  (destruct (match c_DisabledTools c with Some l => _ | None => false end) eqn:Hdis;
    [split; [done|]; intros ((_ & _ & _ & H) & _); destruct (c_DisabledTools c) as [l|]; [|done];
     destruct (H l eq_refl); by apply slices_Contains_spec|]);
  (split; [intros H; split_and!|intros (_ & H)]);
  try (intros; by apply Hro); try (intros; intros ?%Hd; done); try done;
  try (intros l Hl; rewrite Hl in Hen; apply negb_false_iff in Hen; by apply slices_Contains_spec);
  try (intros l Hl Hin; rewrite Hl in Hdis; apply slices_Contains_spec in Hin; congruence);
  try (intros Hc; rewrite Hc in H; by apply compatible_spec);
  (destruct (c_EnableTargetCompatibilityToolFilters c); [apply compatible_spec; by apply H|done]).
Qed.

(** A tool is exposed exactly when the configuration permits it and, with the
    compatibility filters on, each of its filters holds on the clusters. *)
Theorem isToolApplicable_spec c tool w :
  isToolApplicable c tool w = true <->
  tool_permitted c (st_Tool tool) /\
  (c_EnableTargetCompatibilityToolFilters c = true ->
     Forall (fun f => f w = true) (st_TargetCompatibilityFilters tool)).
Proof. apply isToolApplicable_iff. Qed.

(** ** What the mutators keep *)

(** The hints the confirmation rules and the filters go by, and the rest of the
    tool the filters look at. *)
Definition same_hints (a b : ServerTool W K) : Prop :=
  ta_ReadOnlyHint (tl_Annotations (st_Tool a)) = ta_ReadOnlyHint (tl_Annotations (st_Tool b)) /\
  ta_DestructiveHint (tl_Annotations (st_Tool a)) = ta_DestructiveHint (tl_Annotations (st_Tool b)) /\
  st_ClusterAware a = st_ClusterAware b /\
  st_TargetListProvider a = st_TargetListProvider b /\
  st_TargetCompatibilityFilters a = st_TargetCompatibilityFilters b.

#[export] Instance same_hints_equiv : Equivalence same_hints.
Proof. unfold same_hints. split; [done|intros a b; naive_solver|intros a b c; naive_solver congruence]. Qed.

Lemma ComposeMutators_keep (ms : list (ToolMutator W K)) tool :
  Forall (fun m => forall t, same_hints (m t) t) ms -> same_hints (ComposeMutators ms tool) tool.
Proof.
  unfold ComposeMutators. intros H. revert tool.
  induction H as [|m ms Hm _ IH]; intros tool; cbn [foldl]; [done|].
  etransitivity; [apply IH|apply Hm].
Qed.

Lemma WithTargetParameter_keeps d n b tool : same_hints (WithTargetParameter d n b tool) tool.
Proof. unfold WithTargetParameter. destruct (negb _); [done|]. by destruct (default _ _). Qed.

Lemma WithTargetListTool_keeps d n g tool : same_hints (WithTargetListTool d n g tool) tool.
Proof. unfold WithTargetListTool. by destruct (_ ≠?s _). Qed.

Lemma WithToolOverrides_keeps o tool : same_hints (WithToolOverrides o tool) tool.
Proof. unfold WithToolOverrides. by destruct (o !! _) as [x|]; [destruct (_ ≠?s _)|]. Qed.
End ToolLemmas.
#[export] Hint Resolve WithTargetParameter_keeps WithTargetListTool_keeps
  WithToolOverrides_keeps : mcp.
