(* ===== verification/Prompts.v ===== *)
(** pkg/prompts/prompts.go, pkg/api/prompts.go and pkg/mcp/prompt_mutator.go: prompts
    of the configuration, how their templates are filled in, and how they are merged
    with those of the toolsets. *)
From S2P Require Import Prelude GoStrings Api Config Confirmation.

(** * Definitions *)

Record PromptContent := mkPromptContent { pc_Type : string; pc_Text : string }.
Record PromptMessage := mkPromptMessage { pm_Role : string; pm_Content : PromptContent }.
Record PromptCallResult := mkPromptCallResult {
  pcr_Description : string;
  pcr_Messages : list PromptMessage;
  pcr_Error : option error;
}.
Definition NewPromptCallResult (description : string) (messages : list PromptMessage)
    (err : option error) : PromptCallResult :=
  mkPromptCallResult description messages err.

Section Prompts.
Context {W K : Type}.

Record PromptHandlerParams := mkPromptHandlerParams {
  ph_BaseConfig : StaticConfig;
  ph_KubernetesClient : K;
  ph_PromptCallRequest : gmap string string;
  ph_Elicitor : Elicitor W;
}.
Definition PromptHandlerFunc : Type := PromptHandlerParams -> ST W (result PromptCallResult).

Record ServerPrompt := mkServerPrompt {
  sp_Prompt : Prompt;
  sp_Handler : PromptHandlerFunc;
  sp_ClusterAware : option bool;
}.
Definition prompt_IsClusterAware (s : ServerPrompt) : bool := default true (sp_ClusterAware s).

(** ** prompts.go *)

Fixpoint substituteArguments (result : string) (promptArgs : list PromptArgument)
    (args : gmap string string) : string :=
  match promptArgs with
  | [] => result
  | promptArg :: rest =>
      let placeholder := fmt ["{{"; pa_Name promptArg; "}}"] in
      let result :=
        match args !! pa_Name promptArg with
        | Some value => ReplaceAll result placeholder value
        | None => if negb (pa_Required promptArg) then ReplaceAll result placeholder "" else result
        end in
      substituteArguments result rest args
  end.

Fixpoint missing_argument (promptArgs : list PromptArgument) (args : gmap string string) :
    option error :=
  match promptArgs with
  | [] => None
  | arg :: rest =>
      if pa_Required arg then
        match args !! pa_Name arg with
        | None => Some (ErrNew (fmt ["required argument '"; pa_Name arg; "' is missing"]))
        | Some _ => missing_argument rest args
        end
      else missing_argument rest args
  end.

Definition createPromptHandler (prompt : Prompt) : PromptHandlerFunc := fun params w =>
  let args := ph_PromptCallRequest params in
  (match missing_argument (pr_Arguments prompt) args with
   | Some err => Err err
   | None =>
       let messages :=
         map (fun template =>
                mkPromptMessage (pt_Role template)
                  (mkPromptContent "text"
                     (substituteArguments (pt_Content template) (pr_Arguments prompt) args)))
           (pr_Templates prompt) in
       Ok (NewPromptCallResult (pr_Description prompt) messages None)
   end, w).

Definition ToServerPrompts (prompts : list Prompt) : list ServerPrompt :=
  map (fun prompt => mkServerPrompt prompt (createPromptHandler prompt) None) prompts.

(** The lookup table of the overriding names. *)
Definition overrideMap (override : list ServerPrompt) : gmap string ServerPrompt :=
  foldl (fun m prompt => <[pr_Name (sp_Prompt prompt) := prompt]> m) ∅ override.

Definition MergePrompts (base override : list ServerPrompt) : list ServerPrompt :=
  filter (fun prompt => overrideMap override !! pr_Name (sp_Prompt prompt) = None) base ++ override.

(** ** prompt_mutator.go *)

Definition PromptMutator : Type := ServerPrompt -> ServerPrompt.

Definition WithPromptTargetParameter (defaultTarget targetParameterName : string)
    (isMultiTarget : bool) : PromptMutator := fun prompt =>
  if negb (prompt_IsClusterAware prompt) then prompt
  else if isMultiTarget then
    let p := sp_Prompt prompt in
    mkServerPrompt
      (mkPrompt (pr_Name p) (pr_Title p) (pr_Description p)
         (pr_Arguments p ++
          [mkPromptArgument targetParameterName
             (fmt ["Optional parameter selecting which "; targetParameterName;
                   " to run the prompt in. Defaults to "; defaultTarget; " if not set"]) false])
         (pr_Templates p))
      (sp_Handler prompt) (sp_ClusterAware prompt)
  else prompt.
End Prompts.
Arguments PromptHandlerParams : clear implicits.
Arguments ServerPrompt : clear implicits.
Arguments PromptHandlerFunc : clear implicits.
Arguments PromptMutator : clear implicits.

(** * Specification: templates as sequences of literal text and placeholders *)

Inductive piece : Type := Lit (text : string) | Hole (name : string).

Definition placeholder (name : string) : string := fmt ["{{"; name; "}}"].
Definition print_piece (p : piece) : string :=
  match p with Lit t => t | Hole n => placeholder n end.
Definition print_template (ps : list piece) : string := fmt (map print_piece ps).

Definition brace_free (s : string) : Prop := no_char "{"%char s.
Definition name_ok (s : string) : Prop := no_char "{"%char s /\ no_char "}"%char s.
Definition piece_ok (p : piece) : Prop :=
  match p with Lit t => brace_free t | Hole n => name_ok n end.

(** The text a name stands for: its value if it is declared and given, nothing for
    an optional argument that is not given, and the placeholder itself for any
    other name. *)
Definition argument_text (promptArgs : list PromptArgument) (args : gmap string string)
    (name : string) : option string :=
  match args !! name with
  | Some v => if existsb (fun a => pa_Name a =?s name) promptArgs then Some v else None
  | None =>
      if existsb (fun a => (pa_Name a =?s name) && negb (pa_Required a)) promptArgs
      then Some "" else None
  end.
Definition fill_piece (look : string -> option string) (p : piece) : piece :=
  match p with
  | Lit t => Lit t
  | Hole n => match look n with Some v => Lit v | None => Hole n end
  end.

(** * Lemmas *)

Lemma print_template_cons p ps : print_template (p :: ps) = print_piece p +:+ print_template ps.
Proof. apply fmt_cons. Qed.

Section Replace.
Context (old' new : string).
Abbreviation old := (String "{"%char old').

Lemma replace_literal s t :
  brace_free s -> replace_from old new 0 (s +:+ t) = s +:+ replace_from old new 0 t.
Proof.
  induction s as [|c s IH]; [done|]. intros [Hc Hs]. rewrite !append_String.
  cbn [replace_from]. unfold HasPrefix. cbn [String.prefix].
  destruct (ascii_dec "{" c) as [<-|_]; [done|]. by rewrite IH.
Qed.

Lemma replace_skip s t : replace_from old new (slen s) (s +:+ t) = replace_from old new 0 t.
Proof. induction s as [|c s IH]; [done|]. rewrite append_String. exact IH. Qed.

Lemma replace_old t : replace_from old new 0 (old +:+ t) = new +:+ replace_from old new 0 t.
Proof.
  rewrite append_String. cbn [replace_from]. rewrite <-append_String, HasPrefix_append.
  replace (slen old - 1) with (slen old') by (unfold slen; cbn; lia).
  f_equal. apply replace_skip.
Qed.
End Replace.

Lemma terminated_prefix c n m x y z :
  no_char c n -> no_char c m -> m +:+ String c y = n +:+ String c x +:+ z -> m = n.
Proof.
  intros Hn Hm H. apply (f_equal (Split c)) in H. rewrite append_String in H.
  rewrite !Split_append in H by done. by injection H.
Qed.

Lemma placeholder_eq n : placeholder n = String "{" (String "{" (n +:+ "}}")).
Proof. unfold placeholder. by rewrite !fmt_cons. Qed.

(** One replacement fills the holes of one name. *)
Lemma ReplaceAll_template ps n v :
  Forall piece_ok ps -> name_ok n ->
  ReplaceAll (print_template ps) (placeholder n) v =
  print_template (map (fill_piece (fun m => if m =?s n then Some v else None)) ps).
Proof.
  intros Hps [Hn1 Hn2]. unfold ReplaceAll. rewrite placeholder_eq.
  induction Hps as [|p ps Hp _ IH]; [done|]. cbn [map]. rewrite !print_template_cons.
  destruct p as [t|m]; cbn [print_piece fill_piece].
  - rewrite replace_literal by done. by rewrite IH.
  - destruct (bool_decide_reflect (m = n)) as [->|Hne]; cbn [print_piece].
    + rewrite placeholder_eq, replace_old. by rewrite IH.
    + destruct Hp as [Hm1 Hm2]. rewrite placeholder_eq, !append_String.
      set (old := String "{" (n +:+ "}}")). cbn [replace_from].
      set (t := (m +:+ "}}") +:+ print_template ps).
      assert (HasPrefix (String "{" (String "{" t)) (String "{" old) = false) as ->.
      { apply not_true_iff_false. intros [z Hz]%HasPrefix_spec. subst old t.
        rewrite !append_String in Hz. injection Hz as Hz. rewrite !append_assoc in Hz. apply Hne.
        by eapply (terminated_prefix "}"%char n m "}" ("}" +:+ print_template ps) z). }
      assert (HasPrefix (String "{" t) (String "{" old) = false) as ->.
      { apply not_true_iff_false. intros [z Hz]%HasPrefix_spec. subst old t.
        rewrite !append_String in Hz. injection Hz as Hz.
        destruct m as [|c m]; [by rewrite append_nil_l in Hz|].
        rewrite !append_String in Hz. injection Hz as -> _. by destruct Hm1. }
      subst t.
      do 2 f_equal. rewrite !append_assoc. subst old. rewrite replace_literal by done.
      f_equal. rewrite replace_literal by (cbn; repeat split; done). by rewrite IH.
Qed.

Definition values_ok (args : gmap string string) : Prop := map_Forall (fun _ v => brace_free v) args.
Definition names_ok (promptArgs : list PromptArgument) : Prop :=
  Forall (fun a => name_ok (pa_Name a)) promptArgs.

Lemma argument_text_ok promptArgs args n v :
  values_ok args -> argument_text promptArgs args n = Some v -> brace_free v.
Proof.
  unfold argument_text. intros Hargs. destruct (args !! n) as [x|] eqn:Hx.
  - case_match; [|done]. intros [= <-]. by apply (Hargs n).
  - case_match; [|done]. by intros [= <-].
Qed.

Lemma fill_piece_ok look p :
  piece_ok p -> (forall n v, look n = Some v -> brace_free v) -> piece_ok (fill_piece look p).
Proof.
  destruct p as [t|n]; cbn; [done|]. intros Hp Hl.
  destruct (look n) as [v|] eqn:E; cbn; [by eapply Hl|done].
Qed.

Lemma fill_pieces_None ps : map (fill_piece (fun _ => None)) ps = ps.
Proof. induction ps as [|[t|n] ps IH]; cbn; [done|..]; by rewrite IH. Qed.

(** One argument. *)
Lemma substitute_one ps a args :
  Forall piece_ok ps -> name_ok (pa_Name a) ->
  match args !! pa_Name a with
  | Some value => ReplaceAll (print_template ps) (placeholder (pa_Name a)) value
  | None => if negb (pa_Required a)
            then ReplaceAll (print_template ps) (placeholder (pa_Name a)) "" else print_template ps
  end = print_template (map (fill_piece (argument_text [a] args)) ps).
Proof.
  intros Hps Hn.
  assert (forall look look', (forall n, look n = look' n) ->
    print_template (map (fill_piece look) ps) = print_template (map (fill_piece look') ps)) as Hext.
  { intros look look' H. f_equal. apply map_ext. intros [t|n]; cbn; [done|]. by rewrite H. }
  destruct (args !! pa_Name a) as [v|] eqn:Hv; [|destruct (pa_Required a) eqn:Hr; cbn [negb]].
  - rewrite ReplaceAll_template by done. apply Hext. intros m. unfold argument_text. cbn.
    destruct (bool_decide_reflect (m = pa_Name a)) as [->|Hne].
    + by rewrite Hv, bool_decide_eq_true_2.
    + rewrite bool_decide_eq_false_2 by congruence. by destruct (args !! m).
  - rewrite <-(fill_pieces_None ps) at 1. apply Hext. intros m. unfold argument_text. cbn.
    rewrite Hr. cbn [negb]. rewrite andb_false_r. cbn.
    destruct (args !! m) eqn:Hm; [|done]. rewrite bool_decide_eq_false_2; [done|].
    intros <-. congruence.
  - rewrite ReplaceAll_template by done. apply Hext. intros m. unfold argument_text. cbn.
    rewrite Hr. cbn [negb]. rewrite andb_true_r, orb_false_r.
    destruct (bool_decide_reflect (m = pa_Name a)) as [->|Hne].
    + by rewrite Hv, bool_decide_eq_true_2.
    + rewrite bool_decide_eq_false_2 by congruence. by destruct (args !! m).
Qed.

Lemma argument_text_cons a rest args n :
  argument_text (a :: rest) args n =
  match argument_text [a] args n with Some v => Some v | None => argument_text rest args n end.
Proof.
  unfold argument_text. cbn. rewrite !orb_false_r.
  destruct (args !! n), (pa_Name a =?s n), (pa_Required a); done.
Qed.

Lemma substitute_template promptArgs args ps :
  Forall piece_ok ps -> names_ok promptArgs -> values_ok args ->
  substituteArguments (print_template ps) promptArgs args =
  print_template (map (fill_piece (argument_text promptArgs args)) ps).
Proof.
  intros Hps Hnames Hargs. revert ps Hps.
  induction Hnames as [|a rest Ha _ IH]; intros ps Hps.
  - cbn [substituteArguments]. rewrite <-(fill_pieces_None ps) at 1. f_equal. apply map_ext.
    intros [t|n]; [done|]. unfold fill_piece, argument_text. cbn. by destruct (args !! n).
  - cbn [substituteArguments]. fold (placeholder (pa_Name a)). rewrite substitute_one by done.
    rewrite IH.
    + f_equal. rewrite map_map. apply map_ext. intros [t|n]; [done|]. cbn [fill_piece].
      rewrite (argument_text_cons a rest). by destruct (argument_text [a] args n).
    + apply Forall_map. eapply Forall_impl; [exact Hps|]. intros p Hp.
      apply fill_piece_ok; [done|]. intros n v. by apply argument_text_ok.
Qed.

(** ** The handler *)

Section PromptProperties.
Context {W K : Type}.
Implicit Types (params : PromptHandlerParams W K) (base override : list (ServerPrompt W K)).

Lemma missing_argument_None promptArgs args :
  missing_argument promptArgs args = None <->
  forall a, a ∈ promptArgs -> pa_Required a = true -> is_Some (args !! pa_Name a).
Proof.
  induction promptArgs as [|a l IH]; cbn [missing_argument].
  - split; [intros _ a Ha; by apply elem_of_nil in Ha|done].
  - setoid_rewrite elem_of_cons. destruct (pa_Required a) eqn:Hr;
      [destruct (args !! pa_Name a) eqn:Ha|].
    + rewrite IH. split; [intros H b [->|Hb] Hb'; [by eexists|by apply H]|intros H b Hb; apply H; by right].
    + split; [done|]. intros H. destruct (H a (or_introl eq_refl) Hr) as [? ?]. congruence.
    + rewrite IH. split; [intros H b [->|Hb] Hb'; [congruence|by apply H]|intros H b Hb; apply H; by right].
Qed.

(** The prompt handler fills a template with literal text and placeholders in one
    pass: each placeholder of a declared argument becomes its value, or nothing
    when the argument is optional and not given, and everything else stays as it
    is; it fails, naming an argument, exactly when a required one is missing. *)
Theorem prompt_handler_fills (prompt : Prompt) params w (templates : list (string * list piece)) :
  pr_Templates prompt = map (fun t => mkPromptTemplate t.1 (print_template t.2)) templates ->
  Forall (fun t => Forall piece_ok t.2) templates ->
  names_ok (pr_Arguments prompt) -> values_ok (ph_PromptCallRequest params) ->
  (forall a, a ∈ pr_Arguments prompt -> pa_Required a = true ->
     is_Some (ph_PromptCallRequest params !! pa_Name a)) ->
  createPromptHandler prompt params w =
  (Ok (NewPromptCallResult (pr_Description prompt)
     (map (fun t => mkPromptMessage t.1 (mkPromptContent "text"
        (print_template (map (fill_piece (argument_text (pr_Arguments prompt)
           (ph_PromptCallRequest params))) t.2)))) templates) None), w).
Proof.
  intros Ht Hps Hnames Hargs Hreq. unfold createPromptHandler.
  apply missing_argument_None in Hreq. rewrite Hreq, Ht, map_map. do 3 f_equal.
  apply map_ext_Forall. eapply Forall_impl; [exact Hps|]. intros t Hps'. cbn.
  by rewrite substitute_template.
Qed.

Lemma overrideMap_None override n :
  overrideMap override !! n = None <-> Forall (fun p => pr_Name (sp_Prompt p) <> n) override.
Proof.
  unfold overrideMap.
  enough (forall m : gmap string (ServerPrompt W K),
    foldl (fun m p => <[pr_Name (sp_Prompt p) := p]> m) m override !! n = None <->
    m !! n = None /\ Forall (fun p => pr_Name (sp_Prompt p) <> n) override) as H.
  { rewrite H. rewrite lookup_empty. naive_solver. }
  induction override as [|p l IH]; intros m; cbn [foldl]; [by rewrite Forall_nil; naive_solver|].
  rewrite IH, Forall_cons, lookup_insert_None. naive_solver.
Qed.

(** Merging keeps every prompt of the configuration and exactly those prompts of the
    toolsets whose name the configuration does not define, toolset prompts first,
    each in its order. *)
Theorem MergePrompts_spec base override :
  exists kept, MergePrompts base override = kept ++ override /\
    sublist kept base /\
    forall p, p ∈ kept <-> p ∈ base /\
      forall o, o ∈ override -> pr_Name (sp_Prompt o) <> pr_Name (sp_Prompt p).
Proof.
  eexists. split; [reflexivity|]. split; [apply sublist_filter|]. intros p.
  rewrite list_elem_of_filter, overrideMap_None, Forall_forall. naive_solver.
Qed.
End PromptProperties.

(** * Witness *)

Module PromptsWitness.
Definition prompt : Prompt :=
  mkPrompt "greet" "" "Greets" [mkPromptArgument "who" "" true; mkPromptArgument "where" "" false]
    [mkPromptTemplate "user" "Hello {{who}}{{where}}, {{other}}"].
Definition params : PromptHandlerParams unit unit :=
  mkPromptHandlerParams BaseDefault tt {[ "who" := "Ada" ]} (fun _ w => (Ok "accept", w)).
Definition templates : list (string * list piece) :=
  [("user", [Lit "Hello "; Hole "who"; Hole "where"; Lit ", "; Hole "other"])].

Lemma given : values_ok (ph_PromptCallRequest params).
Proof. apply map_Forall_singleton. cbn. repeat split; done. Qed.
End PromptsWitness.

Lemma prompt_handler_fills_witness :
  createPromptHandler PromptsWitness.prompt PromptsWitness.params tt =
  (Ok (NewPromptCallResult "Greets"
         [mkPromptMessage "user" (mkPromptContent "text" "Hello Ada, {{other}}")] None), tt).
Proof.
  refine (prompt_handler_fills PromptsWitness.prompt PromptsWitness.params tt
    PromptsWitness.templates eq_refl _ _ PromptsWitness.given _).
  - repeat constructor; cbn; repeat split; done.
  - repeat constructor; cbn; repeat split; done.
  - intros a Ha. apply elem_of_cons in Ha as [->|Ha]; [by eexists|].
    apply list_elem_of_singleton in Ha as ->. done.
Defined.

(** * Observation: values are not quoted.  A placeholder inside the value of one
    argument is replaced by the value of a later one; [prompt_handler_fills] asks for
    values without braces. *)

Example nested_placeholder :
  substituteArguments "{{a}}" [mkPromptArgument "a" "" true; mkPromptArgument "b" "" true]
    (<["a" := "{{b}}"]> {[ "b" := "secret" ]}) = "secret".
Proof. by vm_compute. Qed.
