(* ===== verification/SdkTypes.v ===== *)
(** pkg/mcp/tools_gosdk.go, prompts_gosdk.go, resources_gosdk.go and the result
    constructors of pkg/mcp/mcp.go: how tools, prompts and resources become items of
    the MCP SDK, and what their handlers do with a request.  A handler reads the live
    configuration once; the model hands it over with the request. *)
From S2P Require Import Prelude GoStrings Api McpLog Params Toolsets Config Confirmation Tools Prompts.

(** * Definitions *)

(** ** Results *)

(** A result whose content is one text block. *)
Record CallToolResult := mkCallToolResult {
  ctr_IsError : bool;
  ctr_Content : string;
  ctr_StructuredContent : option any_value;
}.

Definition NewTextResult (content : string) (err : option error) : CallToolResult :=
  match err with
  | Some err => mkCallToolResult true (error_string err) None
  | None => mkCallToolResult false content None
  end.

(** [None] is the nil value. *)
Definition ensureStructuredObject (v : any_value) : option any_value :=
  match v with
  | AnySlice None => None
  | AnySlice (Some l) => Some (AnyOther (JObject [("items", JArray l)]))
  | AnyArray l => Some (AnyOther (JObject [("items", JArray l)]))
  | AnyOther _ => Some v
  end.

Definition NewStructuredResult (content : string) (structuredContent : option any_value)
    (err : option error) : CallToolResult :=
  match err with
  | Some err => mkCallToolResult true (error_string err) None
  | None =>
      mkCallToolResult false content
        (match structuredContent with
         | Some v => ensureStructuredObject v
         | None => None
         end)
  end.

(** ** The target provider (kubernetes.Provider) and the client session *)

Definition ErrUnknownTarget_text : string := "unknown target".
Definition ErrUnknownTarget : error := ErrSentinel ErrUnknownTarget_text.

Record Provider (W K : Type) := mkTargetProvider {
  GetTargetParameterName : string;
  GetDefaultTarget : W -> string;
  IsMultiTarget : W -> bool;
  GetTargets : ST W (result (list string));
  GetDerivedKubernetes : string -> ST W (result K);
  WatchTargets : W -> W;
}.
Arguments mkTargetProvider {W K} _ _ _ _ _ _.
Arguments GetTargetParameterName {W K} _.
Arguments GetDefaultTarget {W K} _.
Arguments IsMultiTarget {W K} _.
Arguments GetTargets {W K} _.
Arguments GetDerivedKubernetes {W K} _.
Arguments WatchTargets {W K} _.

Record Session (W : Type) := mkSession {
  se_Elicit : Elicitor W;
  se_Log : string -> string -> string -> W -> W;
}.
Arguments mkSession {W} _ _.
Arguments se_Elicit {W} _.
Arguments se_Log {W} _.

(** ** Tool calls *)

Record CallToolParamsRaw := mkCallToolParamsRaw { cp_Name : string; cp_Arguments : string }.

(** The parameters of a request; [None] are those of another type. *)
Definition CallToolRequest : Type := option CallToolParamsRaw.

Record ToolCallRequest := mkToolCallRequest { tq_Name : string; tq_arguments : arguments }.

Definition ToolCallRequest_GetString (r : ToolCallRequest) (key defaultValue : string) : string :=
  match tq_arguments r !! key with
  | Some (JString strValue) => strValue
  | _ => defaultValue
  end.

Record SdkTool := mkSdkTool {
  sdk_Name : string;
  sdk_Description : string;
  sdk_Title : string;
  sdk_Meta : list (string * jvalue);
  sdk_ReadOnlyHint : bool;
  sdk_DestructiveHint : option bool;
  sdk_IdempotentHint : bool;
  sdk_OpenWorldHint : option bool;
  sdk_InputSchema : Schema;
  sdk_OutputSchema : option Schema;
}.

Section ToolConversion.
Context {W K : Type} (p : Provider W K).
(** [json.Unmarshal] into a map. *)
Context (json_Unmarshal : string -> result arguments).
Context (is_k8s : k8s_predicate -> error -> bool).
Context {R : Type} (ReplaceAllString : R -> string -> string -> string) (patterns : list R).

(** The live configuration a handler reads: its settings and list output. *)
Record live_config := mkLive { lv_StaticConfig : StaticConfig; lv_ListOutput : option Output }.

Definition SdkToolHandler : Type :=
  live_config -> option (Session W) -> CallToolRequest -> ST W (result CallToolResult).

Definition GoSdkToolCallParamsToToolCallRequest (params : CallToolParamsRaw) :
    result ToolCallRequest :=
  if Nat.ltb 0 (slen (cp_Arguments params)) then
    match json_Unmarshal (cp_Arguments params) with
    | Err err => Err (wrapf "failed to unmarshal tool call arguments: " err)
    | Ok args => Ok (mkToolCallRequest (cp_Name params) args)
    end
  else Ok (mkToolCallRequest (cp_Name params) ∅).

Definition GoSdkToolCallRequestToToolCallRequest (request : CallToolRequest) :
    result ToolCallRequest :=
  match request with
  | None => Err (ErrNew "invalid tool call parameters for tool call request")
  | Some params => GoSdkToolCallParamsToToolCallRequest params
  end.

Definition rules_of (c : StaticConfig) : ConfirmationRulesProvider :=
  mkProvider (c_ConfirmationRules c) (c_ConfirmationFallback c).

(** The handler registered for a tool. *)
Definition goSdkHandler (tool : ServerTool W K) : SdkToolHandler := fun cfg session request w =>
  let name := tl_Name (st_Tool tool) in
  match GoSdkToolCallRequestToToolCallRequest request with
  | Err err => (Err (ErrNew (fmt [error_string err; " for tool "; name])), w)
  | Ok toolCallRequest =>
      let elicitor := sessionElicitor_Elicit (se_Elicit <$> session) in
      let '(confirmErr, w) :=
        CheckToolRules (rules_of (lv_StaticConfig cfg)) elicitor name
          (ta_DestructiveHint (tl_Annotations (st_Tool tool))) w in
      match confirmErr with
      | Some err => (Ok (NewTextResult "" (Some err)), w)
      | None =>
          let cluster := ToolCallRequest_GetString toolCallRequest
                           (GetTargetParameterName p) (GetDefaultTarget p w) in
          let '(k, w) := GetDerivedKubernetes p cluster w in
          match k with
          | Err err =>
              if errors_Is ErrUnknownTarget_text err then
                (Ok (NewTextResult ""
                       (Some (wrapf (fmt ["target "; quote cluster; ": "]) err))), w)
              else (Err err, w)
          | Ok k =>
              let '(r, w) :=
                st_Handler tool
                  (mkToolHandlerParams (lv_StaticConfig cfg) k (tq_arguments toolCallRequest)
                     (lv_ListOutput cfg) elicitor) w in
              match r with
              | Err err => (Err err, w)
              | Ok result =>
                  let w :=
                    match tcr_Error result with
                    | Some err =>
                        HandleK8sError is_k8s ReplaceAllString patterns (se_Log <$> session)
                          (Some err) name w
                    | None => w
                    end in
                  (Ok (NewStructuredResult (tcr_Content result) (tcr_StructuredContent result)
                         (tcr_Error result)), w)
              end
          end
      end
  end.

Definition schema_type_error (kind name got : string) : error :=
  ErrNew (fmt ["tool "; quote name; ": "; kind; " schema must have type "; quote "object";
               " (got "; quote got; ")"]).

Definition ServerToolToGoSdkTool (tool : ServerTool W K) : result (SdkTool * SdkToolHandler) :=
  let t := st_Tool tool in
  let a := tl_Annotations t in
  match tl_InputSchema t with
  | None => Err (ErrNew (fmt ["tool "; quote (tl_Name t); ": missing input schema"]))
  | Some (mkSchema ty d props) =>
      if ty ≠?s "object" then Err (schema_type_error "input" (tl_Name t) ty)
      else
        let inputSchema := mkSchema ty d (Some (default [] props)) in
        let goSdkTool :=
          mkSdkTool (tl_Name t) (tl_Description t) (ta_Title a) (tl_Meta t)
            (Deref (ta_ReadOnlyHint a) false) (ta_DestructiveHint a)
            (Deref (ta_IdempotentHint a) false) (ta_OpenWorldHint a) inputSchema in
        match tl_OutputSchema t with
        | Some outputSchema =>
            if sc_Type outputSchema ≠?s "object" then
              Err (schema_type_error "output" (tl_Name t) (sc_Type outputSchema))
            else Ok (goSdkTool (Some outputSchema), goSdkHandler tool)
        | None => Ok (goSdkTool None, goSdkHandler tool)
        end
  end.
End ToolConversion.
Arguments SdkToolHandler : clear implicits.

(** ** Prompts *)

Record SdkPrompt := mkSdkPrompt {
  sdkp_Name : string;
  sdkp_Description : string;
  sdkp_Arguments : list PromptArgument;
}.
Record GetPromptResult := mkGetPromptResult {
  gpr_Description : string;
  gpr_Messages : list (string * string);
}.

(** The arguments of a prompt request; [None] when the request has none. *)
Definition GetPromptRequest : Type := option (gmap string string).
Definition promptCallRequestAdapter_GetArguments (request : GetPromptRequest) : gmap string string :=
  match request with None => ∅ | Some args => args end.

Section PromptConversion.
Context {W K : Type} (p : Provider W K).

Definition SdkPromptHandler : Type :=
  StaticConfig -> option (Session W) -> GetPromptRequest -> ST W (result GetPromptResult).

(** Both branches of the switch on the content type make text. *)
Definition prompt_message (msg : PromptMessage) : string * string :=
  (pm_Role msg, pc_Text (pm_Content msg)).

Definition prompt_handler (serverPrompt : ServerPrompt W K) : SdkPromptHandler :=
  fun cfg session request w =>
  let cluster :=
    match request with
    | Some args => default "" (args !! GetTargetParameterName p)
    | None => ""
    end in
  let '(k8s, w) := GetDerivedKubernetes p cluster w in
  match k8s with
  | Err err => (Err (wrapf "failed to get kubernetes client: " err), w)
  | Ok k8s =>
      let '(r, w) :=
        sp_Handler serverPrompt
          (mkPromptHandlerParams cfg k8s (promptCallRequestAdapter_GetArguments request)
             (sessionElicitor_Elicit (se_Elicit <$> session))) w in
      (match r with
       | Err err => Err err
       | Ok result =>
           match pcr_Error result with
           | Some err => Err err
           | None => Ok (mkGetPromptResult (pcr_Description result)
                           (map prompt_message (pcr_Messages result)))
           end
       end, w)
  end.

Definition ServerPromptToGoSdkPrompt (serverPrompt : ServerPrompt W K) :
    result (SdkPrompt * SdkPromptHandler) :=
  let q := sp_Prompt serverPrompt in
  Ok (mkSdkPrompt (pr_Name q) (pr_Description q) (pr_Arguments q), prompt_handler serverPrompt).
End PromptConversion.
Arguments SdkPromptHandler : clear implicits.

(** ** Resources *)

Record Resource := mkResource {
  rc_URI : string; rc_Name : string; rc_Description : string; rc_MIMEType : string }.
Record ResourceTemplate := mkResourceTemplate {
  rt_URITemplate : string; rt_Name : string; rt_Description : string; rt_MIMEType : string }.
Record ResourceContent := mkResourceContent {
  rn_MIMEType : string; rn_Text : string; rn_Blob : string }.
Record ReadResourceResult := mkReadResourceResult {
  rr_URI : string; rr_MIMEType : string; rr_Text : string; rr_Blob : string }.

(** A handler returns a pointer to its content, or nil. *)
Record ServerResource (W : Type) := mkServerResource {
  sr_Resource : Resource;
  sr_Handler : ST W (result (option ResourceContent)) }.
Arguments mkServerResource {W} _ _.
Arguments sr_Resource {W} _.
Arguments sr_Handler {W} _.
Record ServerResourceTemplate (W : Type) := mkServerResourceTemplate {
  srt_ResourceTemplate : ResourceTemplate;
  srt_Handler : string -> ST W (result (option ResourceContent)) }.
Arguments mkServerResourceTemplate {W} _ _.
Arguments srt_ResourceTemplate {W} _.
Arguments srt_Handler {W} _.

Definition validateResourceContent (content : ResourceContent) : option error :=
  let hasText := rn_Text content ≠?s "" in
  let hasBlob := Nat.ltb 0 (slen (rn_Blob content)) in
  if negb hasText && negb hasBlob then
    Some (ErrNew "resource content must have either Text or Blob set, both are empty")
  else if hasText && hasBlob then
    Some (ErrNew "resource content must have only one of Text or Blob set, both are set")
  else None.

Section ResourceConversion.
Context {W : Type}.
(** [url.Parse] and [uritemplate.New]: only their errors matter. *)
Context (url_Parse : string -> result URL) (uritemplate_New : string -> option error).

Definition SdkResourceHandler : Type := string -> ST W (result ReadResourceResult).

(** What both handlers do with the content: [what] names the handler, [mimeType]
    is the declared type. *)
Definition read_content (what uri mimeType : string) (r : result (option ResourceContent)) :
    result ReadResourceResult :=
  match r with
  | Err err => Err err
  | Ok None => Err (ErrNew (what +:+ " handler returned nil content"))
  | Ok (Some content) =>
      match validateResourceContent content with
      | Some err => Err err
      | None =>
          Ok (mkReadResourceResult uri
                (if rn_MIMEType content ≠?s "" then rn_MIMEType content else mimeType)
                (rn_Text content) (rn_Blob content))
      end
  end.

Definition ServerResourceToGoSdkResource (res : ServerResource W) :
    result (Resource * SdkResourceHandler) :=
  let r := sr_Resource res in
  match url_Parse (rc_URI r) with
  | Err err => Err (wrapf (fmt ["invalid URI "; quote (rc_URI r); ": "]) err)
  | Ok _ =>
      Ok (r, fun _ w =>
               let '(c, w) := sr_Handler res w in
               (read_content "resource" (rc_URI r) (rc_MIMEType r) c, w))
  end.

Definition ServerResourceTemplateToGoSdkResourceTemplate (rt : ServerResourceTemplate W) :
    result (ResourceTemplate * SdkResourceHandler) :=
  let t := srt_ResourceTemplate rt in
  match uritemplate_New (rt_URITemplate t) with
  | Some err => Err (wrapf (fmt ["invalid URITemplate "; quote (rt_URITemplate t); ": "]) err)
  | None =>
      Ok (t, fun uri w =>
               let '(c, w) := srt_Handler rt uri w in
               (read_content "resource template" uri (rt_MIMEType t) c, w))
  end.
End ResourceConversion.
Arguments SdkResourceHandler : clear implicits.

(** * Lemmas *)

Section CallLemmas.
Context {W K : Type} (p : Provider W K).
Context (json_Unmarshal : string -> result arguments).
Context (is_k8s : k8s_predicate -> error -> bool).
Context {R : Type} (ReplaceAllString : R -> string -> string -> string) (patterns : list R).

Abbreviation convert :=
  (ServerToolToGoSdkTool p json_Unmarshal is_k8s ReplaceAllString patterns).
Abbreviation handle := (goSdkHandler p json_Unmarshal is_k8s ReplaceAllString patterns).

(** What a converted tool keeps of its source; the schemas are those the SDK
    accepts without a panic. *)
Lemma ServerToolToGoSdkTool_Ok tool t h :
  convert tool = Ok (t, h) ->
  sdk_Name t = tl_Name (st_Tool tool) /\ h = handle tool /\
  sdk_ReadOnlyHint t = Deref (ta_ReadOnlyHint (tl_Annotations (st_Tool tool))) false /\
  sdk_DestructiveHint t = ta_DestructiveHint (tl_Annotations (st_Tool tool)) /\
  sc_Type (sdk_InputSchema t) = "object" /\ is_Some (sc_Properties (sdk_InputSchema t)) /\
  (forall s, sdk_OutputSchema t = Some s -> sc_Type s = "object").
Proof.
  unfold ServerToolToGoSdkTool. destruct (tl_InputSchema _) as [[ty d props]|]; [|done].
  destruct (bool_decide_reflect (ty = "object")) as [->|]; cbn [negb]; [|done].
  destruct (tl_OutputSchema _) as [out|].
  - destruct (bool_decide_reflect (sc_Type out = "object")); cbn [negb]; [|done].
    intros [= <- <-]. cbn. split_and!; try done. by intros ? [= <-].
  - intros [= <- <-]. cbn. by split_and!.
Qed.

(** The same tool with another handler. *)
Definition same_tool (a b : ServerTool W K) : Prop := st_Tool a = st_Tool b.

(** C15. When the confirmation rules or the user refuse a call, the client gets an error
    result, and the call touched nothing but the prompt: neither the clusters nor
    the handler of the tool. *)
Theorem tool_call_refused tool cfg session params w err w1 :
  is_ok (GoSdkToolCallParamsToToolCallRequest json_Unmarshal params) = true ->
  CheckToolRules (rules_of (lv_StaticConfig cfg)) (sessionElicitor_Elicit (se_Elicit <$> session))
    (tl_Name (st_Tool tool)) (ta_DestructiveHint (tl_Annotations (st_Tool tool))) w = (Some err, w1) ->
  forall (p' : Provider W K) tool', same_tool tool tool' ->
    goSdkHandler p' json_Unmarshal is_k8s ReplaceAllString patterns tool' cfg session (Some params) w
    = (Ok (mkCallToolResult true (error_string err) None), w1).
Proof.
  intros Hq Hc p' tool' Hs. unfold goSdkHandler, same_tool in *. cbn zeta.
  cbn [GoSdkToolCallRequestToToolCallRequest]. rewrite <-Hs.
  destruct (GoSdkToolCallParamsToToolCallRequest json_Unmarshal params) as [q'|]; [|done].
  by rewrite Hc.
Qed.
End CallLemmas.

(** A resource is served exactly when its handler gives content with one of text
    and blob; the type of the content wins over the declared one. *)
Theorem read_content_Ok what uri mimeType r out :
  read_content what uri mimeType r = Ok out <->
  exists c, r = Ok (Some c) /\
    ((rn_Text c <> "" /\ rn_Blob c = "") \/ (rn_Text c = "" /\ rn_Blob c <> "")) /\
    out = mkReadResourceResult uri
            (if rn_MIMEType c ≠?s "" then rn_MIMEType c else mimeType) (rn_Text c) (rn_Blob c).
Proof.
  unfold read_content. destruct r as [[c|]|e]; [|naive_solver..].
  assert (Nat.ltb 0 (slen (rn_Blob c)) = (rn_Blob c ≠?s "")) as Hb.
  { destruct (rn_Blob c); [done|]. by rewrite bool_decide_eq_false_2. }
  unfold validateResourceContent. rewrite Hb.
  destruct (bool_decide_reflect (rn_Text c = "")), (bool_decide_reflect (rn_Blob c = ""));
    cbn [negb andb]; split; try (intros [= <-]; exists c; naive_solver);
    try done; intros (c' & [= <-] & H & ->); naive_solver.
Qed.

(** * Witness: a tool whose calls are never confirmed *)

Module SdkTypesWitness.
Definition provider : Provider nat unit :=
  mkTargetProvider "context" (fun _ => "here") (fun _ => false)
    (fun w => (Ok [], w)) (fun _ w => (Ok tt, S w)) id.
Definition tool (h : ToolHandlerFunc nat unit) : ServerTool nat unit :=
  mkServerTool
    (mkTool "pods_delete" "" (mkToolAnnotations "" None (Some true) None None) []
       (Some (mkSchema "object" "" None)) None) h None None [].
Definition effect (n : nat) : ToolHandlerFunc nat unit :=
  fun _ w => (Ok (NewToolCallResult "done" None), w + n).
(** The defaults with one rule. *)
Definition guarded : StaticConfig :=
  {| c_DeniedResources := c_DeniedResources BaseDefault;
     c_LogLevel := c_LogLevel BaseDefault;
     c_LogFile := c_LogFile BaseDefault;
     c_Port := c_Port BaseDefault;
     c_BindAddress := c_BindAddress BaseDefault;
     c_KubeConfig := c_KubeConfig BaseDefault;
     c_ListOutput := c_ListOutput BaseDefault;
     c_Stateless := c_Stateless BaseDefault;
     c_ReadOnly := c_ReadOnly BaseDefault;
     c_DisableDestructive := c_DisableDestructive BaseDefault;
     c_Toolsets := c_Toolsets BaseDefault;
     c_EnabledTools := c_EnabledTools BaseDefault;
     c_DisabledTools := c_DisabledTools BaseDefault;
     c_ToolOverrides := c_ToolOverrides BaseDefault;
     c_Prompts := c_Prompts BaseDefault;
     c_RequireOAuth := c_RequireOAuth BaseDefault;
     c_OAuthAudience := c_OAuthAudience BaseDefault;
     c_AuthorizationURL := c_AuthorizationURL BaseDefault;
     c_SkipJWTVerification := c_SkipJWTVerification BaseDefault;
     c_DisableDynamicClientRegistration := c_DisableDynamicClientRegistration BaseDefault;
     c_OAuthScopes := c_OAuthScopes BaseDefault;
     c_StsClientId := c_StsClientId BaseDefault;
     c_StsClientSecret := c_StsClientSecret BaseDefault;
     c_StsAudience := c_StsAudience BaseDefault;
     c_StsScopes := c_StsScopes BaseDefault;
     c_TokenExchangeStrategy := c_TokenExchangeStrategy BaseDefault;
     c_StsAuthStyle := c_StsAuthStyle BaseDefault;
     c_StsClientCertFile := c_StsClientCertFile BaseDefault;
     c_StsClientKeyFile := c_StsClientKeyFile BaseDefault;
     c_StsFederatedTokenFile := c_StsFederatedTokenFile BaseDefault;
     c_StsSubjectTokenType := c_StsSubjectTokenType BaseDefault;
     c_StsRequestedTokenType := c_StsRequestedTokenType BaseDefault;
     c_ClusterAuthMode := c_ClusterAuthMode BaseDefault;
     c_CertificateAuthority := c_CertificateAuthority BaseDefault;
     c_ServerURL := c_ServerURL BaseDefault;
     c_TrustProxyHeaders := c_TrustProxyHeaders BaseDefault;
     c_TLSCert := c_TLSCert BaseDefault;
     c_TLSKey := c_TLSKey BaseDefault;
     c_RequireTLS := c_RequireTLS BaseDefault;
     c_TLSMinVersion := c_TLSMinVersion BaseDefault;
     c_TLSCipherSuites := c_TLSCipherSuites BaseDefault;
     c_HTTP := c_HTTP BaseDefault;
     c_ClusterProviderStrategy := c_ClusterProviderStrategy BaseDefault;
     c_ClusterProviderConfigs := c_ClusterProviderConfigs BaseDefault;
     c_ToolsetConfigs := c_ToolsetConfigs BaseDefault;
     c_ServerInstructions := c_ServerInstructions BaseDefault;
     c_Telemetry := c_Telemetry BaseDefault;
     c_ValidationEnabled := c_ValidationEnabled BaseDefault;
     c_EnableTargetCompatibilityToolFilters := c_EnableTargetCompatibilityToolFilters BaseDefault;
     c_ConfirmationFallback := c_ConfirmationFallback BaseDefault;
     c_ConfirmationRules := [mkRule "pods_delete" None "" "" "" "" "" "" "Really?"];
     c_parsedClusterProviderConfigs := c_parsedClusterProviderConfigs BaseDefault;
     c_parsedToolsetConfigs := c_parsedToolsetConfigs BaseDefault;
     c_configDirPath := c_configDirPath BaseDefault;
     c_providerStrategies := c_providerStrategies BaseDefault;
     c_tokenExchangeStrategies := c_tokenExchangeStrategies BaseDefault |}.
Definition live : live_config := mkLive guarded None.
(** The user declines, on the first prompt and after it. *)
Definition session : Session nat := mkSession (fun _ w => (Ok "decline", w + 1)) (fun _ _ _ w => w).
Definition Unmarshal (_ : string) : result arguments := Ok ∅.
Definition params : CallToolParamsRaw := mkCallToolParamsRaw "pods_delete" "{}".
End SdkTypesWitness.

Lemma tool_call_refused_witness :
  goSdkHandler SdkTypesWitness.provider SdkTypesWitness.Unmarshal (fun _ _ => false)
    (fun _ _ t => t) ([] : list unit) (SdkTypesWitness.tool (SdkTypesWitness.effect 40))
    SdkTypesWitness.live (Some SdkTypesWitness.session) (Some SdkTypesWitness.params) 1 =
  (Ok (mkCallToolResult true (error_string ErrConfirmationDenied) None), 2).
Proof.
  refine (tool_call_refused SdkTypesWitness.Unmarshal (fun _ _ => false)
    (fun _ _ t => t) ([] : list unit) (SdkTypesWitness.tool (SdkTypesWitness.effect 0))
    SdkTypesWitness.live (Some SdkTypesWitness.session) SdkTypesWitness.params 1
    ErrConfirmationDenied 2 eq_refl _ SdkTypesWitness.provider
    (SdkTypesWitness.tool (SdkTypesWitness.effect 40)) eq_refl).
  vm_compute. reflexivity.
Defined.
