(* ===== verification/McpServer.v ===== *)
(** pkg/mcp/mcp.go: the server.  A configuration selects toolsets; applying it
    computes the tools, prompts, resources and resource templates it exposes,
    converts all of them, and only then changes the registries of the MCP SDK and
    publishes the configuration.  Reloads and re-applications are serialised by
    [reloadMu], so each is one step of the model. *)
From Stdlib Require Import Floats.SpecFloat.
From S2P Require Import Prelude GoStrings Api McpLog Params Toolsets Config Confirmation.
From S2P Require Import Tools Prompts SdkTypes.

(** * Definitions *)

(** ** The registries of the MCP SDK: adding replaces, removing ignores what is
    absent *)

Class FeatureSet (F : Type -> Type) := {
  fs_empty : forall A, F A;
  fs_get : forall A, string -> F A -> option A;
  fs_add : forall A, string -> A -> F A -> F A;
  fs_remove : forall A, list string -> F A -> F A;
  fs_get_empty A n : fs_get A n (fs_empty A) = None;
  fs_get_add A n n' (x : A) s :
    fs_get A n' (fs_add A n x s) = if n' =?s n then Some x else fs_get A n' s;
  fs_get_remove A n ns (s : F A) :
    fs_get A n (fs_remove A ns s) = if slices_Contains ns n then None else fs_get A n s;
}.
Arguments fs_empty {F _ A}.
Arguments fs_get {F _ A} _ _.
Arguments fs_add {F _ A} _ _ _.
Arguments fs_remove {F _ A} _ _.

(** ** Converting and committing *)

Record convertedItem (M H : Type) := mkConverted { cv_name : string; cv_item : M; cv_handler : H }.
Arguments mkConverted {M H} _ _ _.
Arguments cv_name {M H} _.
Arguments cv_item {M H} _.
Arguments cv_handler {M H} _.

Fixpoint convertItems {T M H : Type} (items : list T) (getName : T -> string)
    (convert : T -> result (M * H)) (kind : string) : result (list (convertedItem M H)) :=
  match items with
  | [] => Ok []
  | item :: rest =>
      match convert item with
      | Err err =>
          Err (wrapf (fmt ["failed to convert "; kind; " "; getName item; ": "]) err)
      | Ok (m, h) =>
          match convertItems rest getName convert kind with
          | Err err => Err err
          | Ok out => Ok (mkConverted (getName item) m h :: out)
          end
      end
  end.

(** [key] is the name under which the SDK registers an item. *)
Definition commitItems {F M H} `{!FeatureSet F} (key : M -> string) (previous : list string)
    (items : list (convertedItem M H)) (sdk : F (M * H)%type) : list string * F (M * H)%type :=
  let enabled := map cv_name items in
  let toRemove := filter (fun old => slices_Contains enabled old = false) previous in
  let sdk := fs_remove toRemove sdk in
  let sdk := foldl (fun sdk c => fs_add (key (cv_item c)) (cv_item c, cv_handler c) sdk) sdk items in
  (enabled, sdk).

(** A call that may panic. *)
Inductive outcome (A : Type) : Type := Panicked | Returned (a : A).
Arguments Panicked {A}.
Arguments Returned {A} _.

Section Server.
Context {W K : Type} {F : Type -> Type} `{!FeatureSet F}.

(** The interface [api.Toolset]; the compatibility filters and the provider a
    toolset is given look at the world. *)
Record Toolset := mkToolset {
  ts_GetName : string;
  ts_GetTools : W -> list (ServerTool W K);
  ts_GetPrompts : list (ServerPrompt W K);
  ts_GetResources : list (ServerResource W);
  ts_GetResourceTemplates : list (ServerResourceTemplate W);
}.
#[export] Instance Toolset_named : Named Toolset := ts_GetName.

Context (registry : toolsetRegistry Toolset).

(** ** Configuration: the settings and two lazily filled caches, which are empty
    when nil.  A toolset that is not registered is the nil interface. *)
Record Configuration := mkConfiguration {
  cf_StaticConfig : StaticConfig;
  cf_listOutput : option Output;
  cf_toolsets : list (option Toolset);
}.

Definition Configuration_Toolsets (c : Configuration) : list (option Toolset) * Configuration :=
  match cf_toolsets c with
  | [] =>
      let l := map (ToolsetFromString registry) (c_Toolsets (cf_StaticConfig c)) in
      (l, mkConfiguration (cf_StaticConfig c) (cf_listOutput c) l)
  | l => (l, c)
  end.

Definition Configuration_ListOutput (c : Configuration) : option Output * Configuration :=
  match cf_listOutput c with
  | None =>
      let o := Output_FromString (c_ListOutput (cf_StaticConfig c)) in
      (o, mkConfiguration (cf_StaticConfig c) o (cf_toolsets c))
  | o => (o, c)
  end.

Definition warmCaches (c : Configuration) : Configuration :=
  let '(_, c) := Configuration_ListOutput c in
  let '(_, c) := Configuration_Toolsets c in c.

(** ** The server *)

Record Server := mkServer {
  sv_configuration : Configuration;
  sv_tools : F (SdkTool * SdkToolHandler W);
  sv_prompts : F (SdkPrompt * SdkPromptHandler W);
  sv_resources : F (Resource * SdkResourceHandler W);
  sv_templates : F (ResourceTemplate * SdkResourceHandler W);
  sv_enabledTools : list string;
  sv_enabledPrompts : list string;
  sv_enabledResources : list string;
  sv_enabledResourceTemplates : list string;
}.

Definition with_configuration (c : Configuration) (s : Server) : Server :=
  mkServer c (sv_tools s) (sv_prompts s) (sv_resources s) (sv_templates s)
    (sv_enabledTools s) (sv_enabledPrompts s) (sv_enabledResources s)
    (sv_enabledResourceTemplates s).

Context (p : Provider W K).
Context (json_Unmarshal : string -> result arguments) (is_k8s : k8s_predicate -> error -> bool).
Context {R : Type} (ReplaceAllString : R -> string -> string -> string) (patterns : list R).
Context (url_Parse : string -> result URL) (uritemplate_New : string -> option error).

(** *** What a configuration exposes.  [None] is the panic on a nil toolset. *)

Definition tool_filter (c : StaticConfig) (w : W) : ToolFilter W K :=
  CompositeFilter
    [isToolApplicable c; ShouldIncludeTargetListTool (GetTargetParameterName p) (IsMultiTarget p w)].
Definition tool_mutator (c : StaticConfig) (w : W) : ToolMutator W K :=
  ComposeMutators
    [WithTargetParameter (GetDefaultTarget p w) (GetTargetParameterName p) (IsMultiTarget p w);
     WithTargetListTool (GetDefaultTarget p w) (GetTargetParameterName p) (GetTargets p);
     WithToolOverrides (c_ToolOverrides c)].

Definition collectApplicableTools (c : StaticConfig) (toolsets : list Toolset) (w : W) :
    list (ServerTool W K) :=
  flat_map (fun ts =>
    List.filter (fun tool => tool_filter c w tool w)
      (map (tool_mutator c w) (ts_GetTools ts w))) toolsets.

Definition collectApplicablePrompts (c : StaticConfig) (toolsets : list Toolset) (w : W) :
    list (ServerPrompt W K) :=
  let mutator := WithPromptTargetParameter (GetDefaultTarget p w) (GetTargetParameterName p)
                   (IsMultiTarget p w) in
  let toolsetPrompts := flat_map (fun ts => map mutator (ts_GetPrompts ts)) toolsets in
  MergePrompts toolsetPrompts (ToServerPrompts (c_Prompts c)).

(** The resource filters and mutators are composed of none. *)
Definition collectApplicableResources (toolsets : list Toolset) (w : W) : list (ServerResource W) :=
  flat_map (fun ts =>
    List.filter (fun r => all_filters [] r w) (map (ComposeMutators []) (ts_GetResources ts))) toolsets.
Definition collectApplicableResourceTemplates (toolsets : list Toolset) (w : W) :
    list (ServerResourceTemplate W) :=
  flat_map (fun ts =>
    List.filter (fun r => all_filters [] r w) (map (ComposeMutators []) (ts_GetResourceTemplates ts)))
    toolsets.

(** *** Phase 1: everything is converted before anything changes. *)
Definition convert_all (c : StaticConfig) (toolsets : list Toolset) (w : W) :=
  convertedTools ←
    convertItems (collectApplicableTools c toolsets w) (fun t => tl_Name (st_Tool t))
      (ServerToolToGoSdkTool p json_Unmarshal is_k8s ReplaceAllString patterns) "tool";
  convertedPrompts ←
    convertItems (collectApplicablePrompts c toolsets w) (fun q => pr_Name (sp_Prompt q))
      (ServerPromptToGoSdkPrompt p) "prompt";
  convertedResources ←
    convertItems (collectApplicableResources toolsets w) (fun r => rc_URI (sr_Resource r))
      (ServerResourceToGoSdkResource url_Parse) "resource";
  convertedResourceTemplates ←
    convertItems (collectApplicableResourceTemplates toolsets w)
      (fun t => rt_URITemplate (srt_ResourceTemplate t))
      (ServerResourceTemplateToGoSdkResourceTemplate uritemplate_New) "resource template";
  Ok (convertedTools, convertedPrompts, convertedResources, convertedResourceTemplates).

(** *** Phase 2: the registries, the configuration and the bookkeeping. *)
Definition commit_all (cfg : Configuration) converted (s : Server) : Server :=
  let '(tools, prompts, resources, templates) := converted in
  let '(newTools, sdkTools) := commitItems sdk_Name (sv_enabledTools s) tools (sv_tools s) in
  let '(newPrompts, sdkPrompts) := commitItems sdkp_Name (sv_enabledPrompts s) prompts (sv_prompts s) in
  let '(newResources, sdkResources) :=
    commitItems rc_URI (sv_enabledResources s) resources (sv_resources s) in
  let '(newTemplates, sdkTemplates) :=
    commitItems rt_URITemplate (sv_enabledResourceTemplates s) templates (sv_templates s) in
  mkServer (warmCaches cfg) sdkTools sdkPrompts sdkResources sdkTemplates
    newTools newPrompts newResources newTemplates.

(** [cfg] is nil when the installed configuration is applied again; its caches are
    filled through the shared pointer. *)
Definition applyToolsets (cfg : option Configuration) (s : Server) (w : W) :
    outcome (option error) * Server * W :=
  let '(toolsets, c) := Configuration_Toolsets (default (sv_configuration s) cfg) in
  let s := match cfg with None => with_configuration c s | Some _ => s end in
  match mapM id toolsets with
  | None => (Panicked, s, w)
  | Some toolsets =>
      match convert_all (cf_StaticConfig c) toolsets w with
      | Err err => (Returned (Some err), s, w)
      | Ok converted => (Returned None, commit_all c converted s, WatchTargets p w)
      end
  end.

Definition reapplyToolsets (s : Server) (w : W) : outcome (option error) * Server * W :=
  applyToolsets None s w.

(** A new server: nothing is registered.  [metrics_New] is the error of the
    metrics system. *)
Context (metrics_New : StaticConfig -> option error).

Definition empty_server (cfg : Configuration) : Server :=
  mkServer cfg fs_empty fs_empty fs_empty fs_empty [] [] [] [].

Definition NewServer (cfg : Configuration) (w : W) : outcome (result Server) * W :=
  match metrics_New (cf_StaticConfig cfg) with
  | Some err => (Returned (Err (wrapf "failed to initialize metrics: " err)), w)
  | None =>
      match applyToolsets (Some cfg) (empty_server cfg) w with
      | (Panicked, _, w) => (Panicked, w)
      | (Returned (Some err), _, w) => (Returned (Err err), w)
      | (Returned None, s, w) => (Returned (Ok s), WatchTargets p w)
      end
  end.

(** ** Reload *)

Context (Getenv : string -> string) (FormatFloat : spec_float -> string).
Context (tlsCipherSuiteMap : gmap string Z) (os_Stat : string -> option error).
Context (registeredStrategies tokenExchangeStrategies : list string).

Definition ReloadConfiguration (newConfig : StaticConfig) (s : Server) (w : W) :
    outcome (option error) * Server * W :=
  match StaticConfig_Validate Getenv FormatFloat url_Parse tlsCipherSuiteMap os_Stat registry
          (WithTokenExchangeStrategies tokenExchangeStrategies
             (WithProviderStrategies registeredStrategies newConfig)) with
  | (Some err, _) => (Returned (Some (wrapf "configuration reload rejected: " err)), s, w)
  | (None, newConfig) =>
      match applyToolsets (Some (mkConfiguration newConfig None [])) s w with
      | (Returned (Some err), s, w) =>
          (Returned (Some (wrapf "failed to reload toolsets: " err)), s, w)
      | r => r
      end
  end.
End Server.
Arguments Toolset : clear implicits.
Arguments Configuration : clear implicits.
Arguments Server : clear implicits.

(** * Specification *)

Section Specs.
Context {F : Type -> Type} `{!FeatureSet F}.

(** The bookkeeping names exactly what is registered. *)
Definition synced {A} (enabled : list string) (sdk : F A) : Prop :=
  forall n, is_Some (fs_get n sdk) <-> n ∈ enabled.

(** A registry holds exactly the conversions of the items, the last one of each
    name. *)
Definition registered {T A} (getName : T -> string) (convert : T -> result A) (items : list T)
    (sdk : F A) : Prop :=
  forall n,
    match last (filter (fun t => getName t = n) items) with
    | Some t => exists x, convert t = Ok x /\ fs_get n sdk = Some x
    | None => fs_get n sdk = None
    end.
End Specs.

(** * Lemmas *)

Section CommitLemmas.
Context {F : Type -> Type} `{!FeatureSet F}.

Lemma convertItems_Ok {T M Hd} (items : list T) getName (convert : T -> result (M * Hd)) kind out :
  convertItems items getName convert kind = Ok out <->
  Forall2 (fun t c => convert t = Ok (cv_item c, cv_handler c) /\ cv_name c = getName t) items out.
Proof.
  revert out. induction items as [|t items IH]; intros out; cbn [convertItems].
  - split; [intros [= <-]; constructor|]. by intros ->%Forall2_nil_inv_l.
  - split.
    + destruct (convert t) as [[m h]|] eqn:Ht; [|done].
      destruct (convertItems items _ _ _) as [out'|]; [|done]. intros [= <-].
      constructor; [by rewrite Ht|]. by apply IH.
    + intros (c & out' & (Hc & Hn) & Hr & ->)%Forall2_cons_inv_l. rewrite Hc.
      apply IH in Hr as ->. destruct c; cbn in *. by rewrite Hn.
Qed.

Lemma foldl_add_get {M Hd} (key : M -> string) (items : list (convertedItem M Hd))
    (sdk : F (M * Hd)%type) n :
  fs_get n (foldl (fun sdk c => fs_add (key (cv_item c)) (cv_item c, cv_handler c) sdk) sdk items) =
  match last (filter (fun c => key (cv_item c) = n) items) with
  | Some c => Some (cv_item c, cv_handler c)
  | None => fs_get n sdk
  end.
Proof.
  induction items as [|c items IH] using rev_ind; [done|].
  rewrite foldl_app, filter_app. cbn [foldl]. rewrite fs_get_add, IH, filter_cons.
  destruct (bool_decide_reflect (n = key (cv_item c))) as [->|Hne].
  - rewrite decide_True by done. by rewrite filter_nil, last_snoc.
  - by rewrite decide_False, filter_nil, app_nil_r by congruence.
Qed.

Lemma last_filter_Forall2 {A B} (P : A -> Prop) (Q : B -> Prop) `{HP : !forall x, Decision (P x)}
    `{HQ : !forall x, Decision (Q x)} (rel : A -> B -> Prop) l k :
  Forall2 rel l k -> (forall a b, rel a b -> P a <-> Q b) ->
  option_Forall2 rel (last (filter P l)) (last (filter Q k)).
Proof.
  intros Hlk HPQ. assert (Forall2 rel (filter P l) (filter Q k)) as Hf.
  { induction Hlk as [|a b l k Hab _ IH]; [constructor|]. rewrite !filter_cons.
    specialize (HPQ a b Hab). do 2 case_decide; [by constructor|naive_solver..|done]. }
  clear Hlk. induction Hf as [|a b l' k' Hab Hf IH]; [constructor|].
  inversion Hf; subst; [by constructor|exact IH].
Qed.

Lemma last_filter_None {A} (P : A -> Prop) `{HP : !forall x, Decision (P x)} l :
  last (filter P l) = None <-> forall x, x ∈ l -> ~ P x.
Proof.
  rewrite last_None. split.
  - intros Hl x Hx HPx. assert (x ∈ filter P l) as Hin by by apply list_elem_of_filter.
    rewrite Hl in Hin. by apply elem_of_nil in Hin.
  - intros Hl. apply elem_of_nil_inv. intros x [HPx Hx]%list_elem_of_filter. by apply (Hl x).
Qed.

Lemma last_filter_Some {A} (P : A -> Prop) `{HP : !forall x, Decision (P x)} l x :
  last (filter P l) = Some x -> P x /\ x ∈ l.
Proof.
  intros (k & Hk)%last_Some. assert (x ∈ filter P l) as Hx by (rewrite Hk; set_solver).
  by apply list_elem_of_filter in Hx.
Qed.

(** Committing turns a registry in step with the previous names into the registry
    of the new items. *)
Lemma commitItems_registered {T M Hd} (key : M -> string) previous (sdk : F (M * Hd)%type)
    (items : list T) getName (convert : T -> result (M * Hd)) kind out :
  synced previous sdk -> convertItems items getName convert kind = Ok out ->
  (forall t m h, convert t = Ok (m, h) -> key m = getName t) ->
  registered getName convert items (commitItems key previous out sdk).2 /\
  (commitItems key previous out sdk).1 = map getName items.
Proof.
  intros Hsync Hout%convertItems_Ok Hkey.
  assert (map cv_name out = map getName items) as Hnames.
  { clear -Hout. induction Hout as [|t c items out [_ Hc] _ IH]; cbn; [done|]. by rewrite Hc, IH. }
  split; [|done]. intros n. cbn [commitItems snd]. rewrite foldl_add_get, Hnames.
  pose proof (last_filter_Forall2 (fun t => getName t = n) (fun c => key (cv_item c) = n)
    _ _ _ Hout) as Hlast.
  assert (option_Forall2
    (fun t (c : convertedItem M Hd) =>
       convert t = Ok (cv_item c, cv_handler c) /\ cv_name c = getName t)
    (last (filter (fun t => getName t = n) items))
    (last (filter (fun c => key (cv_item c) = n) out))) as Hl.
  { apply Hlast. intros t c [Hc _]. by rewrite (Hkey _ _ _ Hc). }
  clear Hlast. destruct (last (filter (fun t => getName t = n) items)) as [t|] eqn:Hlt.
  - inversion Hl as [? c [Hc _] Heq|]; subst. by eexists.
  - inversion Hl; subst. rewrite fs_get_remove.
    destruct (slices_Contains _ n) eqn:Hc; [done|].
    destruct (fs_get n sdk) eqn:Hn; [|done]. exfalso.
    apply not_true_iff_false in Hc. apply Hc, slices_Contains_spec, list_elem_of_filter. split.
    + apply not_true_iff_false. intros Hin%slices_Contains_spec%list_elem_of_fmap.
      destruct Hin as (t & -> & Ht). rewrite last_filter_None in Hlt. by apply (Hlt t).
    + apply Hsync. by eexists.
Qed.

Lemma registered_synced {T A} getName (convert : T -> result A) items (sdk : F A) :
  registered getName convert items sdk -> synced (map getName items) sdk.
Proof.
  intros H n. specialize (H n). rewrite list_elem_of_fmap.
  destruct (last (filter _ items)) as [t|] eqn:Hl.
  - destruct H as (x & _ & ->). apply last_filter_Some in Hl as [<- Ht].
    split; [intros _; by exists t|by eexists].
  - rewrite H. split; [by intros [? ?]|]. intros (t & -> & Ht).
    rewrite last_filter_None in Hl. by destruct (Hl t).
Qed.

Lemma registered_get {T A} getName (convert : T -> result A) items (sdk : F A) n x :
  registered getName convert items sdk -> fs_get n sdk = Some x ->
  exists t, t ∈ items /\ getName t = n /\ convert t = Ok x.
Proof.
  intros H Hx. specialize (H n). destruct (last (filter _ items)) as [t|] eqn:Hl; [|congruence].
  destruct H as (y & Hy & Hy'). apply last_filter_Some in Hl as [Hn Ht].
  exists t. split_and!; [done..|congruence].
Qed.
End CommitLemmas.

Section ServerLemmas.
Context {W K : Type} {F : Type -> Type} `{!FeatureSet F}.
Context (registry : toolsetRegistry (Toolset W K)) (p : Provider W K).
Context (json_Unmarshal : string -> result arguments) (is_k8s : k8s_predicate -> error -> bool).
Context {R : Type} (ReplaceAllString : R -> string -> string -> string) (patterns : list R).
Context (url_Parse : string -> result URL) (uritemplate_New : string -> option error).
Implicit Types (s : Server W K F) (c : Configuration W K).

Abbreviation convert_tool :=
  (ServerToolToGoSdkTool p json_Unmarshal is_k8s ReplaceAllString patterns).
Abbreviation apply_toolsets :=
  (applyToolsets registry p json_Unmarshal is_k8s ReplaceAllString patterns url_Parse
     uritemplate_New).

(** The four registries hold what a configuration exposes with some toolsets. *)
Definition surface (c : StaticConfig) (toolsets : list (Toolset W K)) (w : W) s : Prop :=
  registered (fun t => tl_Name (st_Tool t)) convert_tool
    (collectApplicableTools p c toolsets w) (sv_tools s) /\
  registered (fun q => pr_Name (sp_Prompt q)) (ServerPromptToGoSdkPrompt p)
    (collectApplicablePrompts p c toolsets w) (sv_prompts s) /\
  registered (fun r => rc_URI (sr_Resource r)) (ServerResourceToGoSdkResource url_Parse)
    (collectApplicableResources toolsets w) (sv_resources s) /\
  registered (fun t => rt_URITemplate (srt_ResourceTemplate t))
    (ServerResourceTemplateToGoSdkResourceTemplate uritemplate_New)
    (collectApplicableResourceTemplates toolsets w) (sv_templates s).

Definition server_synced s : Prop :=
  synced (sv_enabledTools s) (sv_tools s) /\
  synced (sv_enabledPrompts s) (sv_prompts s) /\
  synced (sv_enabledResources s) (sv_resources s) /\
  synced (sv_enabledResourceTemplates s) (sv_templates s).

(** The toolsets a configuration names. *)
Definition named_toolsets (c : StaticConfig) : list (option (Toolset W K)) :=
  map (ToolsetFromString registry) (c_Toolsets c).

(** The toolset cache of a configuration is filled; it may be empty before. *)
Definition cache_filled c : Prop := cf_toolsets c = named_toolsets (cf_StaticConfig c).
Definition cache_ok c : Prop := cf_toolsets c = [] \/ cache_filled c.

Lemma Configuration_Toolsets_ok c :
  cache_ok c -> exists c', Configuration_Toolsets registry c = (named_toolsets (cf_StaticConfig c), c') /\
    cache_filled c' /\ cf_StaticConfig c' = cf_StaticConfig c.
Proof.
  unfold cache_ok, cache_filled, Configuration_Toolsets. intros H.
  destruct (cf_toolsets c) as [|x l] eqn:Hl; [by eexists|].
  destruct H as [|H]; [done|]. exists c. by rewrite <-H.
Qed.

Lemma Configuration_Toolsets_filled c :
  cache_filled c -> Configuration_Toolsets registry c = (named_toolsets (cf_StaticConfig c), c).
Proof.
  unfold cache_filled, Configuration_Toolsets. destruct c as [sc o l]. cbn. intros ->.
  unfold named_toolsets. by destruct (map _ _) eqn:E; rewrite ?E.
Qed.

Lemma warmCaches_ok c :
  cache_filled c -> cache_filled (warmCaches registry c) /\
    cf_StaticConfig (warmCaches registry c) = cf_StaticConfig c.
Proof.
  intros Hc. unfold warmCaches. destruct (Configuration_ListOutput c) as [o c1] eqn:Ho.
  assert (cache_filled c1 /\ cf_StaticConfig c1 = cf_StaticConfig c) as [H1 H2].
  { revert Ho. unfold Configuration_ListOutput. by destruct (cf_listOutput c); intros [= _ <-]. }
  by rewrite Configuration_Toolsets_filled.
Qed.

(** Phase 2 after a successful phase 1. *)
Lemma commit_all_surface cfg toolsets w converted s :
  server_synced s ->
  convert_all p json_Unmarshal is_k8s ReplaceAllString patterns url_Parse uritemplate_New
    (cf_StaticConfig cfg) toolsets w = Ok converted ->
  let s' := commit_all registry cfg converted s in
  surface (cf_StaticConfig cfg) toolsets w s' /\ server_synced s' /\
  sv_configuration s' = warmCaches registry cfg.
Proof.
  intros (S1 & S2 & S3 & S4) Hc s'. unfold convert_all in Hc.
  apply result_bind_Ok in Hc as (tools & H1 & Hc). apply result_bind_Ok in Hc as (prompts & H2 & Hc).
  apply result_bind_Ok in Hc as (resources & H3 & Hc).
  apply result_bind_Ok in Hc as (templates & H4 & Hc). injection Hc as <-.
  pose proof (commitItems_registered sdk_Name _ _ _ _ _ _ _ S1 H1
    (fun t m h Ht => proj1 (ServerToolToGoSdkTool_Ok _ _ _ _ _ _ _ _ Ht))) as [R1 E1].
  assert (forall q m h, ServerPromptToGoSdkPrompt p q = Ok (m, h) ->
    sdkp_Name m = pr_Name (sp_Prompt q)) as K2 by by intros q m h [= <- _].
  pose proof (commitItems_registered sdkp_Name _ _ _ _ _ _ _ S2 H2 K2) as [R2 E2].
  assert (forall (r : ServerResource W) m h, ServerResourceToGoSdkResource url_Parse r = Ok (m, h) ->
    rc_URI m = rc_URI (sr_Resource r)) as K3.
  { intros r m h. unfold ServerResourceToGoSdkResource. destruct (url_Parse _); [|done].
    by intros [= <- _]. }
  pose proof (commitItems_registered rc_URI _ _ _ _ _ _ _ S3 H3 K3) as [R3 E3].
  assert (forall (t : ServerResourceTemplate W) m h,
    ServerResourceTemplateToGoSdkResourceTemplate uritemplate_New t = Ok (m, h) ->
    rt_URITemplate m = rt_URITemplate (srt_ResourceTemplate t)) as K4.
  { intros t m h. unfold ServerResourceTemplateToGoSdkResourceTemplate.
    destruct (uritemplate_New _); [done|]. by intros [= <- _]. }
  pose proof (commitItems_registered rt_URITemplate _ _ _ _ _ _ _ S4 H4 K4) as [R4 E4].
  subst s'. cbn [commit_all] in *.
  repeat match goal with |- context [commitItems ?k ?e ?o ?x] =>
    destruct (commitItems k e o x) as [? ?] end.
  cbn in *. subst. unfold server_synced. cbn. split_and!; try done; by eapply registered_synced.
Qed.

(** The invariant of a running server. *)
Definition server_ok s : Prop := server_synced s /\ cache_filled (sv_configuration s).

(** The configuration an application works on. *)
Definition candidate (cfg : option (Configuration W K)) s : StaticConfig :=
  cf_StaticConfig (default (sv_configuration s) cfg).

(** What applying a configuration does: it fails without a trace, or installs the
    configuration with its surface. *)
Definition applied (c : StaticConfig) (tss : list (Toolset W K)) (w : W) s' : Prop :=
  surface c tss w s' /\ server_ok s' /\ cf_StaticConfig (sv_configuration s') = c.

Lemma applyToolsets_cases cfg s w :
  server_synced s ->
  match cfg with None => cache_filled (sv_configuration s) | Some c => cache_ok c end ->
  (mapM id (named_toolsets (candidate cfg s)) = None /\ apply_toolsets cfg s w = (Panicked, s, w)) \/
  exists tss, mapM id (named_toolsets (candidate cfg s)) = Some tss /\
    ((exists e, apply_toolsets cfg s w = (Returned (Some e), s, w)) \/
     exists s', apply_toolsets cfg s w = (Returned None, s', WatchTargets p w) /\
       applied (candidate cfg s) tss w s').
Proof.
  intros Hsync Hcfg. unfold applyToolsets, candidate.
  assert (exists c, Configuration_Toolsets registry (default (sv_configuration s) cfg) =
      (named_toolsets (cf_StaticConfig (default (sv_configuration s) cfg)), c) /\
    cache_filled c /\ cf_StaticConfig c = cf_StaticConfig (default (sv_configuration s) cfg) /\
    match cfg with None => with_configuration c s | Some _ => s end = s) as (c & -> & Hc & Hsc & Hs).
  { destruct cfg as [c|]; cbn.
    - destruct (Configuration_Toolsets_ok c Hcfg) as (c' & ? & ? & ?).
      by exists c'.
    - exists (sv_configuration s). rewrite Configuration_Toolsets_filled by done.
      split_and!; try done. by destruct s. }
  rewrite Hs, Hsc. destruct (mapM id _) as [tss|]; [right|by left].
  exists tss. split; [done|].
  destruct (convert_all _ _ _ _ _ _ _ _ tss w) as [converted|e] eqn:Hconv; [right|left; by eexists].
  eexists. split; [reflexivity|]. rewrite <-Hsc in Hconv.
  destruct (commit_all_surface c tss w converted s Hsync Hconv) as (H1 & H2 & H3).
  destruct (warmCaches_ok c Hc) as [H4 H5]. unfold applied, server_ok.
  rewrite Hsc in H1. rewrite H3, H5. done.
Qed.

(** A validated configuration names registered toolsets only. *)
Lemma named_toolsets_registered (c : StaticConfig) :
  Forall (fun n => is_Some (ToolsetFromString registry n)) (c_Toolsets c) ->
  is_Some (mapM id (named_toolsets c)).
Proof.
  intros H. apply mapM_is_Some. unfold named_toolsets. by apply Forall_map.
Qed.

(** ** Safety of the exposed tools *)

Lemma tool_mutator_keeps (c : StaticConfig) w t : same_hints (tool_mutator p c w t) t.
Proof.
  apply ComposeMutators_keep.
  repeat (apply Forall_cons; split; [intros ?; auto with mcp|]). by apply Forall_nil.
Qed.

Lemma collected_tool (c : StaticConfig) tss w t :
  t ∈ collectApplicableTools p c tss w ->
  tool_permitted c (st_Tool t) /\
  exists ts t0, ts ∈ tss /\ t0 ∈ ts_GetTools ts w /\ t = tool_mutator p c w t0 /\ same_hints t t0.
Proof.
  unfold collectApplicableTools. rewrite list_elem_of_In, in_flat_map.
  intros (ts & Hts & Ht). apply filter_In in Ht as [Ht Hf]. apply in_map_iff in Ht as (t0 & <- & Ht0).
  apply list_elem_of_In in Hts, Ht0. split.
  - apply all_filters_spec in Hf. apply Forall_cons in Hf as [Hf _].
    by apply isToolApplicable_iff in Hf as [? _].
  - exists ts, t0. split_and!; try done. apply tool_mutator_keeps.
Qed.

(** Every registered tool is one the configuration permits, with its hints. *)
Definition tools_permitted (c : StaticConfig) s : Prop :=
  forall n t h, fs_get n (sv_tools s) = Some (t, h) ->
    (c_ReadOnly c = true -> sdk_ReadOnlyHint t = true) /\
    (c_DisableDestructive c = true -> sdk_DestructiveHint t <> Some true) /\
    (forall l, c_EnabledTools c = Some l -> n ∈ l) /\
    (forall l, c_DisabledTools c = Some l -> n ∉ l).

Lemma surface_permitted (c : StaticConfig) tss w s : surface c tss w s -> tools_permitted c s.
Proof.
  intros (Ht & _) n t h Hget.
  destruct (registered_get _ _ _ _ _ _ Ht Hget) as (tool & Hin & <- & Hconv).
  apply collected_tool in Hin as [(H1 & H2 & H3 & H4) _].
  apply ServerToolToGoSdkTool_Ok in Hconv as (_ & _ & Hro & Hd & _). rewrite Hro, Hd.
  split_and!; try done. intros Hc. by rewrite H1.
Qed.

(** ** Reload *)

Context (Getenv : string -> string) (FormatFloat : spec_float -> string).
Context (ciphers : gmap string Z) (os_Stat : string -> option error).
Context (strategies exchanges : list string).

Abbreviation reload :=
  (ReloadConfiguration registry p json_Unmarshal is_k8s ReplaceAllString patterns url_Parse
     uritemplate_New Getenv FormatFloat ciphers os_Stat strategies exchanges).
Abbreviation valid := (valid_config Getenv url_Parse ciphers os_Stat registry).

(** The settings a reload would install. *)
Definition reload_candidate (newConfig : StaticConfig) : StaticConfig :=
  normalize (WithTokenExchangeStrategies exchanges (WithProviderStrategies strategies newConfig)).

Lemma valid_registered (c : StaticConfig) :
  valid c -> exists tss, mapM id (named_toolsets c) = Some tss.
Proof. intros (_ & Ht & _). by apply named_toolsets_registered in Ht. Qed.

Lemma reload_cases newConfig s w :
  server_ok s ->
  let c := reload_candidate newConfig in
  (exists e, reload newConfig s w = (Returned (Some e), s, w)) \/
  (valid c /\ exists tss s', mapM id (named_toolsets c) = Some tss /\
     reload newConfig s w = (Returned None, s', WatchTargets p w) /\ applied c tss w s').
Proof.
  intros Hs c. unfold ReloadConfiguration, StaticConfig_Validate. cbn zeta.
  change (normalize _) with c.
  pose proof (validate_checks_None Getenv FormatFloat url_Parse ciphers os_Stat registry c) as Hv.
  destruct (first_error _) as [e|]; [left; by eexists|].
  assert (valid c) as Hvalid by by apply Hv. clear Hv.
  destruct (valid_registered c Hvalid) as [tss Htss].
  destruct (applyToolsets_cases (Some (mkConfiguration c None [])) s w (proj1 Hs)
      (or_introl eq_refl)) as [[H _]|(tss' & Htss' & [[e He]|(s' & He & Ha)])].
  - change (mapM id (named_toolsets c) = None) in H. congruence.
  - left. rewrite He. by eexists.
  - right. split; [done|]. exists tss', s'. by rewrite He.
Qed.

(** C5. A reload is a transaction that never panics: either it reports an error and
    leaves the configuration, the registries, the bookkeeping and the watches as
    they were, or the new configuration, trimmed, is valid and installed, every
    registry holds exactly what it exposes with the toolsets it names, and the
    bookkeeping agrees. *)
Theorem reload_transaction newConfig s w :
  server_ok s ->
  let r := ReloadConfiguration registry p json_Unmarshal is_k8s ReplaceAllString patterns url_Parse
             uritemplate_New Getenv FormatFloat ciphers os_Stat strategies exchanges newConfig s w in
  let c := reload_candidate newConfig in
  (exists e, r = (Returned (Some e), s, w)) \/
  (valid c /\ exists tss s', mapM id (named_toolsets c) = Some tss /\
     r = (Returned None, s', WatchTargets p w) /\
     surface c tss w s' /\ server_synced s' /\ cf_StaticConfig (sv_configuration s') = c).
Proof.
  intros Hs r c. destruct (reload_cases newConfig s w Hs) as [H|(Hv & tss & s' & Ht & Hr & Ha)];
    [by left|right].
  destruct Ha as (? & (? & _) & ?). split; [done|]. by exists tss, s'.
Qed.

(** Applying again after a change of the clusters works on the configuration that
    is installed at that moment: it never brings back an older one, and on an
    error it changes nothing. *)
Theorem reapply_keeps_configuration s w o s' w' :
  server_ok s ->
  reapplyToolsets registry p json_Unmarshal is_k8s ReplaceAllString patterns url_Parse
    uritemplate_New s w = (o, s', w') ->
  cf_StaticConfig (sv_configuration s') = cf_StaticConfig (sv_configuration s) /\
  (o <> Returned None -> s' = s /\ w' = w).
Proof.
  intros Hs. unfold reapplyToolsets.
  destruct (applyToolsets_cases None s w (proj1 Hs) (proj2 Hs))
    as [[_ ->]|(tss & _ & [[e ->]|(s1 & -> & Ha)])]; [intros [= <- <- <-]; done..|].
  intros [= <- <- <-]. by destruct Ha as (_ & _ & ->).
Qed.

(** ** The server as a state machine: reloads, applications after cluster changes,
    and anything that changes only the world *)

Inductive server_step : Server W K F * W -> Server W K F * W -> Prop :=
| step_reload newConfig s w o s' w' :
    reload newConfig s w = (o, s', w') -> server_step (s, w) (s', w')
| step_reapply s w o s' w' :
    reapplyToolsets registry p json_Unmarshal is_k8s ReplaceAllString patterns url_Parse
      uritemplate_New s w = (o, s', w') -> server_step (s, w) (s', w')
| step_world s w w' : server_step (s, w) (s, w').

(** What holds of every reachable server. *)
Definition server_safe s : Prop :=
  server_ok s /\ tools_permitted (cf_StaticConfig (sv_configuration s)) s.

Lemma applied_safe (c : StaticConfig) tss w s : applied c tss w s -> server_safe s.
Proof. intros (H & Hok & <-). split; [done|]. by eapply surface_permitted. Qed.

Lemma server_step_safe st st' : server_step st st' -> server_safe st.1 -> server_safe st'.1.
Proof.
  intros H [Hs Hp].
  destruct H as [newConfig s w o s' w' Hr|s w o s' w' Hr|s w w']; cbn [fst] in *.
  - destruct (reload_cases newConfig s w Hs) as [[e He]|(_ & tss & s1 & _ & He & Ha)];
      rewrite He in Hr; injection Hr as <- <- <-; [done|by eapply applied_safe].
  - unfold reapplyToolsets in Hr.
    destruct (applyToolsets_cases None s w (proj1 Hs) (proj2 Hs))
      as [[_ He]|(tss & _ & [[e He]|(s1 & He & Ha)])];
      rewrite He in Hr; injection Hr as <- <- <-; [done..|by eapply applied_safe].
  - done.
Qed.

Context (metrics_New : StaticConfig -> option error).

Lemma empty_server_ok (cfg : Configuration W K) :
  server_synced (empty_server (F := F) cfg).
Proof.
  unfold server_synced, empty_server, synced. cbn.
  split_and!; intros n; rewrite fs_get_empty; (split; [by intros []|by intros ?%elem_of_nil]).
Qed.

(** C4. In every state the server reaches from its start, through any sequence of
    reloads, cluster changes and calls, the tools it exposes are tools the
    installed configuration permits, and the bookkeeping agrees with the
    registries. *)
Theorem reachable_tools_permitted (cfg : Configuration W K) w0 s0 w s w' :
  cache_ok cfg ->
  NewServer registry p json_Unmarshal is_k8s ReplaceAllString patterns url_Parse uritemplate_New
    metrics_New cfg w0 = (Returned (Ok s0), w) ->
  rtc server_step (s0, w) (s, w') ->
  tools_permitted (cf_StaticConfig (sv_configuration s)) s /\ server_synced s.
Proof.
  intros Hcfg Hnew Hreach.
  assert (server_safe s0) as H0.
  { unfold NewServer in Hnew. destruct (metrics_New _); [done|].
    destruct (applyToolsets_cases (Some cfg) (empty_server cfg) w0 (empty_server_ok cfg) Hcfg)
      as [[_ He]|(tss & _ & [[e He]|(s1 & He & Ha)])]; rewrite He in Hnew; try done.
    injection Hnew as <- _. by eapply applied_safe. }
  enough (server_safe (s, w').1) as [[? _] ?] by done.
  change s0 with (s0, w).1 in H0. revert H0. clear Hnew.
  induction Hreach as [|st1 st2 st3 Hstep _ IH]; [done|]. intros H1. by eapply IH, server_step_safe.
Qed.
End ServerLemmas.

(** * The registries of the SDK as finite maps *)

Lemma foldr_delete_lookup {A} (ns : list string) (m : gmap string A) n :
  foldr delete m ns !! n = if slices_Contains ns n then None else m !! n.
Proof.
  assert (slices_Contains ns n = bool_decide (n ∈ ns)) as ->.
  { apply eq_bool_prop_intro. by rewrite !Is_true_true, slices_Contains_spec, bool_decide_eq_true. }
  induction ns as [|k ns IH]; [done|]. cbn [foldr].
  destruct (bool_decide_reflect (k = n)) as [->|Hne].
  - rewrite lookup_delete_eq, bool_decide_eq_true_2; [done|by left].
  - rewrite lookup_delete_ne, IH by done. rewrite (bool_decide_ext _ (n ∈ k :: ns)); [done|].
    rewrite elem_of_cons. naive_solver.
Qed.

#[export, refine] Instance gmap_FeatureSet : FeatureSet (gmap string) := {|
  fs_empty A := ∅;
  fs_get A n m := m !! n;
  fs_add A n x m := <[n := x]> m;
  fs_remove A ns m := foldr delete m ns;
|}.
Proof.
  - intros. apply lookup_empty.
  - intros A n n' x m. destruct (bool_decide_reflect (n' = n)) as [->|Hne].
    + apply lookup_insert_eq.
    + by apply lookup_insert_ne.
  - intros. apply foldr_delete_lookup.
Defined.

(** * Witnesses: one toolset with one tool *)

Module McpServerWitness.
Definition tool (name : string) (readOnly : bool) : ServerTool unit unit :=
  mkServerTool
    (mkTool name "" (mkToolAnnotations "" (Some readOnly) None None None) []
       (Some (mkSchema "object" "" None)) None)
    (fun _ w => (Ok (NewToolCallResult "done" None), w)) None None [].
Definition core : Toolset unit unit :=
  mkToolset "core" (fun _ => [tool "pods_list" true; tool "pods_delete" false]) [] [] [].
Definition registry : toolsetRegistry (Toolset unit unit) :=
  {[ "core" := core; "config" := mkToolset "config" (fun _ => []) [] [] [] ]}.
Definition provider : Provider unit unit :=
  mkTargetProvider "context" (fun _ => "here") (fun _ => true)
    (fun w => (Ok ["here"; "there"], w)) (fun _ w => (Ok tt, w)) id.
Definition Unmarshal (_ : string) : result arguments := Ok ∅.
Definition parse (_ : string) : result URL := Ok (mkURL "https" "" "").
Definition configuration : Configuration unit unit := mkConfiguration BaseDefault None [].
Definition started : outcome (result (Server unit unit (gmap string))) * unit :=
  NewServer registry provider Unmarshal (fun _ _ => false) (fun _ _ t => t) ([] : list unit)
    parse (fun _ => None) (fun _ => None) configuration tt.
Definition running : Server unit unit (gmap string) :=
  match started.1 with
  | Returned (Ok s) => s
  | _ => empty_server configuration
  end.

Lemma running_ok : server_ok registry running.
Proof.
  split; [|vm_compute; reflexivity].
  assert (forall {A} (l : list string) (m : gmap string A),
    forallb (fun n => bool_decide (n ∈ l)) (map fst (map_to_list m)) = true ->
    forallb (fun n => match m !! n with Some _ => true | None => false end) l = true ->
    synced l m) as Hdec.
  { intros A l m H1 H2 n. rewrite forallb_forall in H1, H2. split.
    - intros [x Hx]. specialize (H1 n). rewrite bool_decide_eq_true in H1. apply H1.
      apply in_map_iff. exists (n, x). split; [done|]. by apply list_elem_of_In, elem_of_map_to_list.
    - intros Hn%list_elem_of_In%H2. cbn. by destruct (m !! n). }
  split_and!; apply Hdec; vm_compute; reflexivity.
Qed.
End McpServerWitness.

Lemma reload_transaction_witness :
  exists s',
    ReloadConfiguration McpServerWitness.registry McpServerWitness.provider
      McpServerWitness.Unmarshal (fun _ _ => false) (fun _ _ t => t) ([] : list unit)
      McpServerWitness.parse (fun _ => None) (fun _ => "") (fun _ => "") ∅ (fun _ => None) [] []
      BaseDefault McpServerWitness.running tt = (Returned None, s', tt) /\
    server_synced s'.
Proof.
  destruct (reload_transaction McpServerWitness.registry McpServerWitness.provider
    McpServerWitness.Unmarshal (fun _ _ => false) (fun _ _ t => t) ([] : list unit)
    McpServerWitness.parse (fun _ => None) (fun _ => "") (fun _ => "") ∅ (fun _ => None) [] []
    BaseDefault McpServerWitness.running tt McpServerWitness.running_ok)
    as [[e He]|(_ & tss & s' & _ & Hr & _ & Hs & _)].
  - vm_compute in He. discriminate He.
  - exists s'. split; [exact Hr|exact Hs].
Defined.

Lemma reapply_keeps_configuration_witness :
  cf_StaticConfig (sv_configuration McpServerWitness.running) = BaseDefault.
Proof.
  exact (proj1 (reapply_keeps_configuration McpServerWitness.registry McpServerWitness.provider
    McpServerWitness.Unmarshal (fun _ _ => false) (fun _ _ t => t) ([] : list unit)
    McpServerWitness.parse (fun _ => None) McpServerWitness.running tt
    _ _ _ McpServerWitness.running_ok eq_refl)).
Defined.

Lemma reachable_tools_permitted_witness :
  tools_permitted BaseDefault McpServerWitness.running /\ server_synced McpServerWitness.running.
Proof.
  refine (reachable_tools_permitted McpServerWitness.registry McpServerWitness.provider
    McpServerWitness.Unmarshal (fun _ _ => false) (fun _ _ t => t) ([] : list unit)
    McpServerWitness.parse (fun _ => None) (fun _ => "") (fun _ => "") ∅ (fun _ => None) [] []
    (fun _ => None) McpServerWitness.configuration tt McpServerWitness.running tt
    McpServerWitness.running tt _ _ _); [by left|vm_compute; reflexivity|].
  apply rtc_once, step_world.
Defined.
