(* ===== verification/TokenExchange.v ===== *)
(** pkg/tokenexchange: the configuration of a token endpoint with its memoised HTTP
    client, client authentication, and the three exchangers.  The file system, the
    PEM, X.509 and JOSE libraries, and the transport are parameters.  A method with a
    pointer receiver returns the changed receiver. *)
From S2P Require Import Prelude GoStrings Api TlsUtil Config Http OAuthState.

(** * Definitions *)

Definition AuthStyleAssertion : string := "assertion".
Definition AuthStyleFederated : string := "federated".
Definition ClientAssertionType : string := "urn:ietf:params:oauth:client-assertion-type:jwt-bearer".
Definition DefaultAssertionLifetime : Z := (5 * 60 * 1000000000)%Z.
Definition GrantTypeTokenExchange : string := "urn:ietf:params:oauth:grant-type:token-exchange".
Definition TokenTypeAccessToken : string := "urn:ietf:params:oauth:token-type:access_token".
Definition GrantTypeJWTBearer : string := "urn:ietf:params:oauth:grant-type:jwt-bearer".
Definition RequestedTokenUseOBO : string := "on_behalf_of".
Definition StrategyKeycloakV1 : string := "keycloak-v1".
Definition StrategyRFC8693 : string := "rfc8693".
Definition StrategyEntraOBO : string := "entra-obo".

(** The enforcer of TLS is a closure: [E] are the closures, [enforce] below runs one.
    A memoised client is known by the TLS configuration of its transport; the
    transport always enforces [require_tls] live. *)
Record TargetTokenExchangeConfig (E : Type) := mkTarget {
  tc_TokenURL : string;
  tc_ClientID : string;
  tc_ClientSecret : string;
  tc_Audience : string;
  tc_SubjectTokenType : string;
  tc_RequestedTokenType : string;
  tc_SubjectIssuer : string;
  tc_Scopes : list string;
  tc_CAFile : string;
  tc_AuthStyle : string;
  tc_ClientCertFile : string;
  tc_ClientKeyFile : string;
  tc_AssertionLifetime : Z;
  tc_FederatedTokenFile : string;
  tc_TLSMinVersion : string;
  tc_TLSCipherSuites : list string;
  tc_client : option TLSConfig;
  tc_clientCAFile : string;
  tc_clientTLSMinVersion : string;
  tc_clientTLSCipherSuites : list string;
  tc_requireTLS : option E;
}.
Arguments mkTarget {E} _ _ _ _ _ _ _ _ _ _ _ _ _ _ _ _ _ _ _ _ _.
Arguments tc_TokenURL {E} _.
Arguments tc_ClientID {E} _.
Arguments tc_ClientSecret {E} _.
Arguments tc_Audience {E} _.
Arguments tc_SubjectTokenType {E} _.
Arguments tc_RequestedTokenType {E} _.
Arguments tc_SubjectIssuer {E} _.
Arguments tc_Scopes {E} _.
Arguments tc_CAFile {E} _.
Arguments tc_AuthStyle {E} _.
Arguments tc_ClientCertFile {E} _.
Arguments tc_ClientKeyFile {E} _.
Arguments tc_AssertionLifetime {E} _.
Arguments tc_FederatedTokenFile {E} _.
Arguments tc_TLSMinVersion {E} _.
Arguments tc_TLSCipherSuites {E} _.
Arguments tc_client {E} _.
Arguments tc_clientCAFile {E} _.
Arguments tc_clientTLSMinVersion {E} _.
Arguments tc_clientTLSCipherSuites {E} _.
Arguments tc_requireTLS {E} _.

(** [oauth2.Token]; no expiry is the zero time. *)
Record Token := mkToken {
  tk_AccessToken : string;
  tk_TokenType : string;
  tk_RefreshToken : string;
  tk_Expiry : option Z;
}.

Record tokenExchangeResponse := mkTokenExchangeResponse {
  ter_AccessToken : string;
  ter_TokenType : string;
  ter_ExpiresIn : Z;
  ter_RefreshToken : string;
}.

(** A POST of a form, and the answer: its status and its body or a read error. *)
Record form_request := mkFormRequest {
  fr_URL : URL;
  fr_Data : gmap string string;
  fr_Header : http_header;
}.
Record form_reply := mkFormReply { fy_StatusCode : Z; fy_Body : result string }.

(** The private keys the assertion code tells apart. *)
Inductive curve : Type := P256 | P384 | OtherCurve (name : string).
Inductive private_key : Type :=
| RSAKey (key : string)
| ECDSAKey (c : curve) (key : string)
| OtherSigner (type : string).
Inductive SignatureAlgorithm : Type := RS256 | ES256 | ES384.

Record assertion_claims := mkAssertionClaims {
  ac_Issuer : string;
  ac_Subject : string;
  ac_Audience : list string;
  ac_ID : string;
  ac_IssuedAt : Z;
  ac_NotBefore : Z;
  ac_Expiry : Z;
}.

Section TokenExchange.
Context {W E : Type} (enforce : E -> W -> bool).
Abbreviation TargetConfig := (TargetTokenExchangeConfig E).

Definition SetRequireTLS (enforcer : option E) (c : TargetConfig) : TargetConfig :=
  mkTarget (tc_TokenURL c) (tc_ClientID c) (tc_ClientSecret c) (tc_Audience c)
    (tc_SubjectTokenType c) (tc_RequestedTokenType c) (tc_SubjectIssuer c) (tc_Scopes c)
    (tc_CAFile c) (tc_AuthStyle c) (tc_ClientCertFile c) (tc_ClientKeyFile c)
    (tc_AssertionLifetime c) (tc_FederatedTokenFile c) (tc_TLSMinVersion c) (tc_TLSCipherSuites c)
    (tc_client c) (tc_clientCAFile c) (tc_clientTLSMinVersion c) (tc_clientTLSCipherSuites c)
    enforcer.

(** The assignments after a client is built. *)
Definition memoize (client : TLSConfig) (c : TargetConfig) : TargetConfig :=
  mkTarget (tc_TokenURL c) (tc_ClientID c) (tc_ClientSecret c) (tc_Audience c)
    (tc_SubjectTokenType c) (tc_RequestedTokenType c) (tc_SubjectIssuer c) (tc_Scopes c)
    (tc_CAFile c) (tc_AuthStyle c) (tc_ClientCertFile c) (tc_ClientKeyFile c)
    (tc_AssertionLifetime c) (tc_FederatedTokenFile c) (tc_TLSMinVersion c) (tc_TLSCipherSuites c)
    (Some client) (tc_CAFile c) (tc_TLSMinVersion c) (tc_TLSCipherSuites c) (tc_requireTLS c).

Definition currentRequireTLS (c : TargetConfig) (w : W) : bool :=
  match tc_requireTLS c with Some f => enforce f w | None => false end.

(** [Validate]. *)
Definition Target_Validate (c : TargetConfig) : option error :=
  let s := tc_AuthStyle c in
  if (s =?s "") || (s =?s AuthStyleParams) || (s =?s AuthStyleHeader) then None
  else if s =?s AuthStyleAssertion then
    if tc_ClientCertFile c =?s "" then
      Some (ErrNew (fmt ["client_cert_file is required when auth_style is "; quote AuthStyleAssertion]))
    else if tc_ClientKeyFile c =?s "" then
      Some (ErrNew (fmt ["client_key_file is required when auth_style is "; quote AuthStyleAssertion]))
    else None
  else if s =?s AuthStyleFederated then
    if tc_FederatedTokenFile c =?s "" then
      Some (ErrNew (fmt ["federated_token_file is required when auth_style is ";
                         quote AuthStyleFederated]))
    else None
  else
    Some (ErrNew (fmt ["invalid auth_style "; quote s; ": must be "; quote AuthStyleParams; ", ";
                       quote AuthStyleHeader; ", "; quote AuthStyleAssertion; ", or ";
                       quote AuthStyleFederated])).

(** ** The HTTP client *)

Context (os_ReadFile : string -> W -> result string).
(** [AppendCertsFromPEM] on a new pool: the pool, or false. *)
Context (AppendCertsFromPEM : string -> option string).
Context (tlsCipherSuiteMap : gmap string Z).

Definition HTTPClient (c : TargetConfig) (w : W) : result TLSConfig * TargetConfig :=
  let cached :=
    match tc_client c with
    | Some client =>
        if (tc_clientCAFile c =?s tc_CAFile c) && (tc_clientTLSMinVersion c =?s tc_TLSMinVersion c)
           && slices_Equal (tc_clientTLSCipherSuites c) (tc_TLSCipherSuites c)
        then Some client else None
    | None => None
    end in
  match cached with
  | Some client => (Ok client, c)
  | None =>
      let tlsOpts :=
        if tc_CAFile c ≠?s "" then
          match os_ReadFile (tc_CAFile c) w with
          | Err err =>
              Err (wrapf (fmt ["failed to read CA file '"; tc_CAFile c; "': "]) err)
          | Ok caCert =>
              match AppendCertsFromPEM caCert with
              | None => Err (ErrNew (fmt ["failed to parse CA certificate from '"; tc_CAFile c; "'"]))
              | Some pool => Ok [WithRootCAs (Some pool)]
              end
          end
        else Ok [] in
      match tlsOpts with
      | Err err => (Err err, c)
      | Ok opts =>
          match BuildTLSConfig tlsCipherSuiteMap (tc_TLSMinVersion c) (tc_TLSCipherSuites c) opts with
          | Err err => (Err (wrapf "failed to build TLS config: " err), c)
          | Ok tlsConfig => (Ok tlsConfig, memoize tlsConfig c)
          end
      end
  end.

(** The transport of the client, over the transport below it. *)
Context (base_RoundTrip : TLSConfig -> form_request -> ST W (result form_reply)).

Definition tlsEnforcingTransport_RoundTrip (c : TargetConfig) (client : TLSConfig)
    (req : form_request) : ST W (result form_reply) := fun w =>
  if currentRequireTLS c w && negb (isSecureHTTPScheme (u_Scheme (fr_URL req))) then
    (Err (ErrNew (fmt ["require_tls is enabled but request to "; u_Host (fr_URL req); " uses ";
                       quote (u_Scheme (fr_URL req)); " scheme (secure scheme required)"])), w)
  else base_RoundTrip client req w.

(** [Client.Do] of net/http over that transport: it follows redirects by [redirect]
    ([None]: the reply is final), sends at most ten requests, and wraps errors. *)
Context (redirect : form_request -> form_reply -> option (result form_request)).
Context (url_Error : form_request -> error -> error).

Fixpoint client_Do (fuel : nat) (c : TargetConfig) (client : TLSConfig) (req : form_request) :
    ST W (result form_reply) := fun w =>
  match fuel with
  | O => (Err (url_Error req (ErrNew "stopped after 10 redirects")), w)
  | Datatypes.S fuel =>
      let '(resp, w) := tlsEnforcingTransport_RoundTrip c client req w in
      match resp with
      | Err err => (Err (url_Error req err), w)
      | Ok resp =>
          match redirect req resp with
          | None => (Ok resp, w)
          | Some (Err err) => (Err (url_Error req err), w)
          | Some (Ok req') => client_Do fuel c client req' w
          end
      end
  end.

(** ** assertion.go *)

Context (pem_Decode : string -> option string) (ParseCertificate : string -> result string).
(** The parsers of private keys; [Ok None] is a key that is no signer. *)
Context (ParsePKCS8 : string -> result (option private_key)) (ParsePKCS1 : string -> result string).
Context (sha256_base64 : string -> string) (uuid_New : ST W string) (now : W -> Z).
Context {S : Type} (jose_NewSigner : SignatureAlgorithm -> private_key -> string -> result S)
  (jwt_Serialize : S -> assertion_claims -> result string).

(** The last switch of [loadCertificateAndKey]. *)
Definition check_key (keyFile : string) (k : private_key) : option error :=
  match k with
  | RSAKey _ | ECDSAKey P256 _ | ECDSAKey P384 _ => None
  | ECDSAKey (OtherCurve n) _ =>
      Some (ErrNew (fmt ["unsupported EC curve "; n; " from "; quote keyFile;
                         ": only P-256 and P-384 are supported"]))
  | OtherSigner t =>
      Some (ErrNew (fmt ["unsupported key type "; t; " from "; quote keyFile;
                         ": only RSA and EC keys are supported for JWT client assertions"]))
  end.

Definition parse_key (keyFile block : string) : result private_key :=
  match ParsePKCS8 block with
  | Ok (Some k) => Ok k
  | Ok None =>
      Err (ErrNew (fmt ["private key from "; quote keyFile; " does not implement crypto.Signer"]))
  | Err _ =>
      match ParsePKCS1 block with
      | Ok k => Ok (RSAKey k)
      | Err _ =>
          Err (ErrNew (fmt ["failed to parse private key from "; quote keyFile;
            " (tried PKCS#8 and PKCS#1 formats; EC keys must be in PKCS#8 format, convert with: openssl pkcs8 -topk8 -nocrypt)"]))
      end
  end.

Definition loadCertificateAndKey (certFile keyFile : string) (w : W) : result (string * private_key) :=
  match os_ReadFile certFile w with
  | Err err => Err (wrapf (fmt ["failed to read certificate file "; quote certFile; ": "]) err)
  | Ok certPEM =>
      match pem_Decode certPEM with
      | None =>
          Err (ErrNew (fmt ["failed to decode PEM block from certificate file "; quote certFile]))
      | Some certBlock =>
          match ParseCertificate certBlock with
          | Err err =>
              Err (wrapf (fmt ["failed to parse certificate from "; quote certFile; ": "]) err)
          | Ok cert =>
              match os_ReadFile keyFile w with
              | Err err =>
                  Err (wrapf (fmt ["failed to read private key file "; quote keyFile; ": "]) err)
              | Ok keyPEM =>
                  match pem_Decode keyPEM with
                  | None =>
                      Err (ErrNew (fmt ["failed to decode PEM block from private key file ";
                                        quote keyFile]))
                  | Some keyBlock =>
                      match parse_key keyFile keyBlock with
                      | Err err => Err err
                      | Ok k =>
                          match check_key keyFile k with
                          | Some err => Err err
                          | None => Ok (cert, k)
                          end
                      end
                  end
              end
          end
      end
  end.

Definition getSignatureAlgorithm (key : private_key) : result SignatureAlgorithm :=
  match key with
  | RSAKey _ => Ok RS256
  | ECDSAKey P256 _ => Ok ES256
  | ECDSAKey P384 _ => Ok ES384
  | ECDSAKey (OtherCurve n) _ => Err (ErrNew ("unsupported EC curve: " +:+ n))
  | OtherSigner t =>
      Err (ErrNew (fmt ["unsupported key type: "; t; " (only RSA and EC keys are supported)"]))
  end.

Definition BuildClientAssertion (clientID tokenURL certFile keyFile : string) (lifetime : Z) :
    ST W (result (string * Z)) := fun w =>
  let lifetime := if (lifetime =? 0)%Z then DefaultAssertionLifetime else lifetime in
  match loadCertificateAndKey certFile keyFile w with
  | Err err => (Err err, w)
  | Ok (cert, privateKey) =>
      match getSignatureAlgorithm privateKey with
      | Err err => (Err err, w)
      | Ok algorithm =>
          let t := now w in
          let expiry := (t + lifetime)%Z in
          let '(id, w) := uuid_New w in
          let claims := mkAssertionClaims clientID clientID [tokenURL] id t t expiry in
          (match jose_NewSigner algorithm privateKey (sha256_base64 cert) with
           | Err err => Err (wrapf "failed to create JWT signer: " err)
           | Ok signer =>
               match jwt_Serialize signer claims with
               | Err err => Err (wrapf "failed to sign JWT assertion: " err)
               | Ok signedJWT => Ok (signedJWT, expiry)
               end
           end, w)
      end
  end.

Definition BuildAssertion (c : TargetConfig) : ST W (result string) := fun w =>
  let '(r, w) :=
    BuildClientAssertion (tc_ClientID c) (tc_TokenURL c) (tc_ClientCertFile c) (tc_ClientKeyFile c)
      (tc_AssertionLifetime c) w in
  (match r with Err err => Err err | Ok (assertion, _) => Ok assertion end, w).

(** ** exchanger.go *)

Context (base64_StdEncoding : string -> string).

Definition client_assertion (clientID assertion : string) (data : gmap string string) :
    gmap string string :=
  <["client_assertion" := assertion]>
    (<["client_assertion_type" := ClientAssertionType]> (<["client_id" := clientID]> data)).

(** The form and the headers with the credentials added. *)
Definition injectClientAuth (c : TargetConfig) (data : gmap string string) (header : http_header) :
    ST W (result (gmap string string * http_header)) := fun w =>
  if tc_ClientID c =?s "" then (Ok (data, header), w)
  else if tc_AuthStyle c =?s AuthStyleHeader then
    let credentials := tc_ClientID c +:+ ":" +:+ tc_ClientSecret c in
    (Ok (data, Header_Set "Authorization" ("Basic " +:+ base64_StdEncoding credentials) header), w)
  else if tc_AuthStyle c =?s AuthStyleAssertion then
    let '(r, w) := BuildAssertion c w in
    (match r with
     | Err err => Err (wrapf "failed to build client assertion: " err)
     | Ok assertion => Ok (client_assertion (tc_ClientID c) assertion data, header)
     end, w)
  else if tc_AuthStyle c =?s AuthStyleFederated then
    (match os_ReadFile (tc_FederatedTokenFile c) w with
     | Err err =>
         Err (wrapf (fmt ["failed to read federated token file ";
                          quote (tc_FederatedTokenFile c); ": "]) err)
     | Ok tokenBytes =>
         let token := TrimSpace tokenBytes in
         if token =?s "" then
           Err (ErrNew (fmt ["federated token file "; quote (tc_FederatedTokenFile c);
             " is empty: the external identity provider may not have written a token yet"]))
         else Ok (client_assertion (tc_ClientID c) token data, header)
     end, w)
  else
    let data := <["client_id" := tc_ClientID c]> data in
    (Ok (if tc_ClientSecret c ≠?s "" then <["client_secret" := tc_ClientSecret c]> data else data,
         header), w).

Context (url_Parse : string -> result URL).
Context (json_Unmarshal : string -> result tokenExchangeResponse).

Definition add_headers (headers h : http_header) : http_header :=
  map_fold (fun key values h => foldl (fun h v => Header_Add key v h) h values) h headers.

(** [doTokenExchange] of the package. *)
Definition post_exchange (c : TargetConfig) (client : TLSConfig) (tokenURL : string)
    (data : gmap string string) (headers : http_header) : ST W (result Token) := fun w =>
  match url_Parse tokenURL with
  | Err err => (Err (wrapf "failed to create token exchange request: " err), w)
  | Ok u =>
      let header := add_headers headers
        (Header_Set "Content-Type" "application/x-www-form-urlencoded" ∅) in
      let '(resp, w) := client_Do 10 c client (mkFormRequest u data header) w in
      (match resp with
       | Err err => Err (wrapf "token exchange request failed: " err)
       | Ok resp =>
           match fy_Body resp with
           | Err err => Err (wrapf "failed to read token exchange response: " err)
           | Ok body =>
               if bool_decide (fy_StatusCode resp <> 200%Z) then
                 Err (ErrNew (fmt ["token exchange failed with status "; itoa (fy_StatusCode resp);
                                   ": "; body]))
               else
                 match json_Unmarshal body with
                 | Err err => Err (wrapf "failed to parse token exchange response: " err)
                 | Ok tokenResp =>
                     Ok (mkToken (ter_AccessToken tokenResp) (ter_TokenType tokenResp)
                           (ter_RefreshToken tokenResp)
                           (if (0 <? ter_ExpiresIn tokenResp)%Z
                            then Some (now w + ter_ExpiresIn tokenResp * 1000000000)%Z else None))
                 end
           end
       end, w)
  end.

(** ** The exchangers: their forms, and the common steps of their [Exchange]
    methods; [wrap] is what they put around an error of the client *)

Definition or_default (s d : string) : string := if s =?s "" then d else s.
Definition with_scopes (scopes : list string) (data : gmap string string) : gmap string string :=
  if Nat.ltb 0 (length scopes) then <["scope" := Join scopes " "]> data else data.

Definition rfc8693_form (c : TargetConfig) (subjectToken : string) : gmap string string :=
  with_scopes (tc_Scopes c)
    (<["requested_token_type" := or_default (tc_RequestedTokenType c) TokenTypeAccessToken]>
    (<["audience" := tc_Audience c]>
    (<["subject_token_type" := or_default (tc_SubjectTokenType c) TokenTypeAccessToken]>
    (<["subject_token" := subjectToken]> {[ "grant_type" := GrantTypeTokenExchange ]})))).

Definition keycloakV1_form (c : TargetConfig) (subjectToken : string) : gmap string string :=
  let data :=
    <["audience" := tc_Audience c]>
    (<["subject_token_type" := or_default (tc_SubjectTokenType c) TokenTypeAccessToken]>
    (<["subject_token" := subjectToken]> {[ "grant_type" := GrantTypeTokenExchange ]})) in
  let data := if tc_SubjectIssuer c ≠?s "" then <["subject_issuer" := tc_SubjectIssuer c]> data
              else data in
  with_scopes (tc_Scopes c) data.

Definition entraOBO_form (c : TargetConfig) (subjectToken : string) : gmap string string :=
  let data :=
    <["requested_token_use" := RequestedTokenUseOBO]>
    (<["assertion" := subjectToken]> {[ "grant_type" := GrantTypeJWTBearer ]}) in
  if Nat.ltb 0 (length (tc_Scopes c)) then <["scope" := Join (tc_Scopes c) " "]> data
  else if tc_Audience c ≠?s "" then <["scope" := tc_Audience c]> data else data.

Definition Exchanger : Type := TargetConfig -> string -> ST W (result Token * TargetConfig).

Definition exchange_with (wrap : error -> error) (form : TargetConfig -> string -> gmap string string) :
    Exchanger := fun c subjectToken w =>
  let '(client, c) := HTTPClient c w in
  match client with
  | Err err => ((Err (wrap err), c), w)
  | Ok httpClient =>
      let '(auth, w) := injectClientAuth c (form c subjectToken) ∅ w in
      match auth with
      | Err err => ((Err err, c), w)
      | Ok (data, headers) =>
          let '(r, w) := post_exchange c httpClient (tc_TokenURL c) data headers w in
          ((r, c), w)
      end
  end.

Definition client_error : error -> error :=
  wrapf "failed to acquire http client to talk to IdP for target: ".
Definition rfc8693Exchanger_Exchange : Exchanger := exchange_with client_error rfc8693_form.
Definition keycloakV1Exchanger_Exchange : Exchanger := exchange_with client_error keycloakV1_form.
Definition entraOBOExchanger_Exchange : Exchanger := exchange_with id entraOBO_form.

(** ** registry.go *)

(** [None] is the panic on a strategy registered twice. *)
Definition registry_register (strategy : string) (e : Exchanger) (r : gmap string Exchanger) :
    option (gmap string Exchanger) :=
  match r !! strategy with
  | Some _ => None
  | None => Some (<[strategy := e]> r)
  end.
Definition registry_get (strategy : string) (r : gmap string Exchanger) : option Exchanger :=
  r !! strategy.
Definition exchangerRegistry : option (gmap string Exchanger) :=
  r ← registry_register StrategyKeycloakV1 keycloakV1Exchanger_Exchange ∅;
  r ← registry_register StrategyRFC8693 rfc8693Exchanger_Exchange r;
  registry_register StrategyEntraOBO entraOBOExchanger_Exchange r.
Definition GetTokenExchanger (strategy : string) : option Exchanger :=
  r ← exchangerRegistry; registry_get strategy r.
Definition exchanger_strategies {E} (r : gmap string E) : list string :=
  sort_strings (map fst (map_to_list r)).
End TokenExchange.
Arguments Exchanger : clear implicits.

(** * Specification *)

(** A client built for a CA file, a minimum version and a list of suites. *)
Definition built_for (ciphers : gmap string Z) (caFile minVersion : string) (suites : list string)
    (client : TLSConfig) : Prop :=
  exists opts,
    ((caFile = "" /\ opts = []) \/ (caFile <> "" /\ exists pool, opts = [WithRootCAs (Some pool)])) /\
    BuildTLSConfig ciphers minVersion suites opts = Ok client.

(** The memoised client belongs to the settings it was built from. *)
Definition memo_ok {E} (ciphers : gmap string Z) (c : TargetTokenExchangeConfig E) : Prop :=
  forall t, tc_client c = Some t ->
    built_for ciphers (tc_clientCAFile c) (tc_clientTLSMinVersion c) (tc_clientTLSCipherSuites c) t.

(** * Lemmas *)

Section ExchangeLemmas.
Context {W E : Type} (enforce : E -> W -> bool) (os_ReadFile : string -> W -> result string).
Context (AppendCertsFromPEM : string -> option string) (ciphers : gmap string Z).
Implicit Types c : TargetTokenExchangeConfig E.

Abbreviation client_of := (HTTPClient os_ReadFile AppendCertsFromPEM ciphers).

(** The client an exchange uses is built from the current settings, never from
    settings that a reload replaced, and the memo keeps its invariant whether or
    not building succeeds. *)
Theorem HTTPClient_current c w :
  memo_ok ciphers c ->
  memo_ok ciphers (HTTPClient os_ReadFile AppendCertsFromPEM ciphers c w).2 /\
  forall t, (HTTPClient os_ReadFile AppendCertsFromPEM ciphers c w).1 = Ok t ->
    built_for ciphers (tc_CAFile c) (tc_TLSMinVersion c) (tc_TLSCipherSuites c) t.
Proof.
  intros Hm. unfold HTTPClient. cbn zeta.
  destruct (match tc_client c with Some _ => _ | None => None end) as [client|] eqn:Hc.
  { split; [done|]. intros t [= <-]. destruct (tc_client c) as [t|] eqn:Ht; [|done].
    destruct (_ && _ && _) eqn:Hb; [|done]. injection Hc as ->. reflect_bools.
    specialize (Hm _ Ht). unfold slices_Equal in *. reflect_bools. by rewrite H, H1, H0 in Hm. }
  clear Hc.
  assert (forall opts, (tc_CAFile c = "" /\ opts = []) \/
      (tc_CAFile c <> "" /\ exists pool, opts = [WithRootCAs (Some pool)]) ->
    let r := match BuildTLSConfig ciphers (tc_TLSMinVersion c) (tc_TLSCipherSuites c) opts with
             | Err err => (Err (wrapf "failed to build TLS config: " err), c)
             | Ok tlsConfig => (Ok tlsConfig, memoize tlsConfig c)
             end in
    memo_ok ciphers r.2 /\ forall t, r.1 = Ok t ->
      built_for ciphers (tc_CAFile c) (tc_TLSMinVersion c) (tc_TLSCipherSuites c) t) as Hbuild.
  { intros opts Ho. destruct (BuildTLSConfig _ _ _ opts) as [t|e] eqn:Hb; cbn; [|done].
    assert (built_for ciphers (tc_CAFile c) (tc_TLSMinVersion c) (tc_TLSCipherSuites c) t) as Hbf
      by by exists opts.
    split; intros ? [= <-]; exact Hbf. }
  destruct (bool_decide_reflect (tc_CAFile c = "")) as [He|He]; cbn [negb].
  - apply Hbuild. by left.
  - destruct (os_ReadFile _ w) as [ca|]; [|done]. destruct (AppendCertsFromPEM ca) as [pool|]; [|done].
    apply Hbuild. right. split; [done|]. by eexists.
Qed.

Lemma HTTPClient_requireTLS c w : tc_requireTLS (client_of c w).2 = tc_requireTLS c.
Proof. unfold HTTPClient. repeat (case_match; try done). Qed.

Lemma HTTPClient_TokenURL c w : tc_TokenURL (client_of c w).2 = tc_TokenURL c.
Proof. unfold HTTPClient. repeat (case_match; try done). Qed.

Context (pem_Decode : string -> option string) (ParseCertificate : string -> result string).
Context (ParsePKCS8 : string -> result (option private_key)) (ParsePKCS1 : string -> result string).
Context (sha256_base64 : string -> string) (uuid_New : ST W string) (now : W -> Z).
Context {S : Type} (jose_NewSigner : SignatureAlgorithm -> private_key -> string -> result S)
  (jwt_Serialize : S -> assertion_claims -> result string).
Context (base64 : string -> string).

Abbreviation inject :=
  (injectClientAuth os_ReadFile pem_Decode ParseCertificate ParsePKCS8 ParsePKCS1 sha256_base64
     uuid_New now jose_NewSigner jwt_Serialize base64).

(** The check of the key in [loadCertificateAndKey] makes the errors of
    [getSignatureAlgorithm] unreachable. *)
Lemma loaded_key_supported certFile keyFile w cert k :
  loadCertificateAndKey os_ReadFile pem_Decode ParseCertificate ParsePKCS8 ParsePKCS1
    certFile keyFile w = Ok (cert, k) -> is_ok (getSignatureAlgorithm k) = true.
Proof.
  unfold loadCertificateAndKey. repeat (case_match; try done). intros [= _ ->].
  by destruct k as [|[]|].
Qed.

(** Where the credentials go: with the header style the form is untouched, with any
    other style the headers are; and the client secret enters a form only with the
    style for it. *)
Theorem credentials_confined c data header w data' header' w' :
  injectClientAuth os_ReadFile pem_Decode ParseCertificate ParsePKCS8 ParsePKCS1 sha256_base64
    uuid_New now jose_NewSigner jwt_Serialize base64 c data header w = (Ok (data', header'), w') ->
  (tc_AuthStyle c = AuthStyleHeader -> data' = data) /\
  (tc_AuthStyle c <> AuthStyleHeader -> header' = header) /\
  (data' !! "client_secret" <> data !! "client_secret" ->
     tc_AuthStyle c <> AuthStyleHeader /\ tc_AuthStyle c <> AuthStyleAssertion /\
     tc_AuthStyle c <> AuthStyleFederated /\ data' !! "client_secret" = Some (tc_ClientSecret c)).
Proof.
  assert (forall id a d, client_assertion id a d !! "client_secret" = d !! "client_secret") as Hca.
  { intros id a d. unfold client_assertion. by rewrite !lookup_insert_ne. }
  unfold injectClientAuth. destruct (tc_ClientID c =?s ""); [intros [= -> -> ->]; done|].
  destruct (bool_decide_reflect (tc_AuthStyle c = AuthStyleHeader)) as [Hh|Hh].
  { intros [= <- <- <-]. done. }
  destruct (bool_decide_reflect (tc_AuthStyle c = AuthStyleAssertion)) as [Ha|Ha].
  { destruct (BuildAssertion _ _ _ _ _ _ _ _ _ _ c w) as [[a|e] w1]; [|done].
    intros [= <- <- <-]. split_and!; try done. by rewrite Hca. }
  destruct (bool_decide_reflect (tc_AuthStyle c = AuthStyleFederated)) as [Hf|Hf].
  { destruct (os_ReadFile _ w) as [t|e]; [|done]. destruct (TrimSpace t =?s ""); [done|].
    intros [= <- <- <-]. split_and!; try done. by rewrite Hca. }
  intros [= <- <- <-]. split_and!; try done. intros Hne. split_and!; try done.
  destruct (bool_decide_reflect (tc_ClientSecret c = "")); cbn [negb] in *.
  - by rewrite lookup_insert_ne in Hne.
  - by rewrite lookup_insert_eq.
Qed.

Context (url_Parse : string -> result URL).
Context (json_Unmarshal : string -> result tokenExchangeResponse).

Context (redirect : form_request -> form_reply -> option (result form_request)).
Context (url_Error : form_request -> error -> error).
Context (base base' : TLSConfig -> form_request -> ST W (result form_reply)).
Hypothesis agree : forall client req w,
  secure_scheme (u_Scheme (fr_URL req)) -> base client req w = base' client req w.

Lemma transport_agree c client req w :
  (forall w', currentRequireTLS enforce c w' = true) ->
  tlsEnforcingTransport_RoundTrip enforce base c client req w =
  tlsEnforcingTransport_RoundTrip enforce base' c client req w.
Proof.
  intros Hreq. unfold tlsEnforcingTransport_RoundTrip. rewrite Hreq. cbn [andb].
  destruct (isSecureHTTPScheme _) eqn:Hs; cbn [negb]; [|done]. apply agree.
  unfold isSecureHTTPScheme, secure_scheme in *. by rewrite orb_true_iff, !bool_decide_eq_true in Hs.
Qed.

Lemma client_Do_agree fuel c client req w :
  (forall w', currentRequireTLS enforce c w' = true) ->
  client_Do enforce base redirect url_Error fuel c client req w =
  client_Do enforce base' redirect url_Error fuel c client req w.
Proof.
  intros Hreq. revert req w. induction fuel as [|n IH]; intros req w; [done|]. cbn [client_Do].
  rewrite transport_agree by done.
  destruct (tlsEnforcingTransport_RoundTrip enforce base' c client req w) as [[resp|] w1]; [|done].
  destruct (redirect req resp) as [[req'|]|]; [|done..]. apply IH.
Qed.

(** C18. While TLS is required, what an exchange does and answers depends on the network
    only at secure URLs, the redirects it follows included: on no path does a token
    or a credential go over an insecure connection. *)
Theorem no_plaintext_exchange wrap form c subjectToken w :
  (forall w', currentRequireTLS enforce c w' = true) ->
  exchange_with enforce os_ReadFile AppendCertsFromPEM ciphers base redirect url_Error pem_Decode
    ParseCertificate ParsePKCS8 ParsePKCS1 sha256_base64 uuid_New now jose_NewSigner jwt_Serialize
    base64 url_Parse json_Unmarshal wrap form c subjectToken w =
  exchange_with enforce os_ReadFile AppendCertsFromPEM ciphers base' redirect url_Error pem_Decode
    ParseCertificate ParsePKCS8 ParsePKCS1 sha256_base64 uuid_New now jose_NewSigner jwt_Serialize
    base64 url_Parse json_Unmarshal wrap form c subjectToken w.
Proof.
  intros Hreq. unfold exchange_with.
  pose proof (HTTPClient_requireTLS c w) as Hr.
  destruct (client_of c w) as [[client|e] c1]; [|done]. cbn [snd] in Hr.
  destruct (inject c1 (form c1 subjectToken) ∅ w) as [[[data headers]|e] w1]; [|done].
  unfold post_exchange. destruct (url_Parse _) as [u|]; [|done].
  rewrite client_Do_agree; [done|]. intros w'. unfold currentRequireTLS. rewrite Hr. apply Hreq.
Qed.

(** The transport of this package is the one of pkg/config it mirrors. *)
Lemma tlsEnforcingTransport_mirrors c client req w :
  tlsEnforcingTransport_RoundTrip enforce base c client req w =
  TLSEnforcingTransport_RoundTrip fr_URL (base client) (Some (currentRequireTLS enforce c)) req w.
Proof. reflexivity. Qed.
End ExchangeLemmas.

(** * Witnesses *)

(** A world counts the requests sent; the identity provider redirects to an insecure
    address. *)
Module TokenExchangeWitness.
Definition url (scheme : string) : URL := mkURL scheme "idp" "/token".
Definition enforce (e : unit) (w : nat) : bool := true.
Definition cfg : TargetTokenExchangeConfig unit :=
  mkTarget "https://idp/token" "client" "s3cret" "target" "" "" "" ["read"] "ca.pem" "" "" ""
    0 "" "" [] None "" "" [] (Some tt).
Definition read (f : string) (w : nat) : result string := Ok ("contents of " +:+ f).
Definition base (insecure : string) (client : TLSConfig) (req : form_request) :
    ST nat (result form_reply) := fun w =>
  (Ok (mkFormReply (if isSecureHTTPScheme (u_Scheme (fr_URL req)) then 307 else 200)
         (Ok (if isSecureHTTPScheme (u_Scheme (fr_URL req)) then "moved" else insecure))), Datatypes.S w).
Definition redirect (req : form_request) (resp : form_reply) : option (result form_request) :=
  if (fy_StatusCode resp =? 307)%Z
  then Some (Ok (mkFormRequest (url "http") (fr_Data req) (fr_Header req))) else None.
Definition exchange (answer : string) :=
  rfc8693Exchanger_Exchange enforce read (fun pem => Some pem) ∅ (base answer) redirect (fun _ err => err)
    (fun _ => None) (fun _ => Err (ErrNew "no")) (fun _ => Err (ErrNew "no"))
    (fun _ => Err (ErrNew "no")) id (fun w => ("id", w)) (fun _ => 0%Z)
    (S := unit) (fun _ _ _ => Ok tt) (fun _ _ => Ok "jwt") id (fun _ => Ok (url "https"))
    (fun _ => Ok (mkTokenExchangeResponse "token" "Bearer" 60 "")) cfg "user".
End TokenExchangeWitness.

(** The redirect is refused: one request was sent, and no second. *)
Example exchange_stops_at_redirect :
  exists e c, TokenExchangeWitness.exchange "stolen" 0 = ((Err e, c), 1).
Proof. do 2 eexists. vm_compute. reflexivity. Qed.

Lemma no_plaintext_exchange_witness :
  (forall w, currentRequireTLS TokenExchangeWitness.enforce TokenExchangeWitness.cfg w = true) /\
  TokenExchangeWitness.exchange "stolen" 0 = TokenExchangeWitness.exchange "kept" 0.
Proof.
  split; [reflexivity|]. apply no_plaintext_exchange; [|reflexivity].
  intros client req w Hs. unfold TokenExchangeWitness.base, isSecureHTTPScheme.
  unfold secure_scheme in Hs.
  destruct Hs as [-> | ->]; reflexivity.
Defined.

Lemma HTTPClient_current_witness :
  exists t,
    (HTTPClient TokenExchangeWitness.read (fun pem => Some pem) ∅ TokenExchangeWitness.cfg 0).1 = Ok t /\
    built_for ∅ "ca.pem" "" [] t.
Proof.
  destruct (HTTPClient_current TokenExchangeWitness.read (fun pem => Some pem) ∅
    TokenExchangeWitness.cfg 0) as [_ H]; [intros t [=]|].
  eexists. split; [vm_compute; reflexivity|]. apply H. vm_compute. reflexivity.
Defined.

Lemma credentials_confined_witness :
  exists data header w,
    injectClientAuth TokenExchangeWitness.read (fun _ => None) (fun _ => Err (ErrNew "no"))
      (fun _ => Err (ErrNew "no")) (fun _ => Err (ErrNew "no")) id (fun w => ("id", w)) (fun _ => 0%Z)
      (S := unit) (fun _ _ _ => Ok tt) (fun _ _ => Ok "jwt") id TokenExchangeWitness.cfg ∅ ∅ 0 =
    (Ok (data, header), w) /\ header = ∅ /\ data !! "client_secret" = Some "s3cret".
Proof.
  do 3 eexists. split; [reflexivity|].
  edestruct (credentials_confined TokenExchangeWitness.read (fun _ => None)
    (fun _ => Err (ErrNew "no")) (fun _ => Err (ErrNew "no")) (fun _ => Err (ErrNew "no")) id
    (fun w => ("id", w)) (fun _ => 0%Z) (S := unit) (fun _ _ _ => Ok tt) (fun _ _ => Ok "jwt") id
    TokenExchangeWitness.cfg ∅ ∅ 0) as (_ & Hh & Hs); [reflexivity|].
  split; [apply Hh; discriminate|]. apply Hs. discriminate.
Defined.
