(* ===== verification/Manager.v ===== *)
(** Clients of a cluster and their managers: pkg/kubernetes/kubernetes.go and
    manager.go.  client-go is a parameter: the constructors of its clients, and how
    it loads a kubeconfig and makes a REST configuration of it. *)
From Stdlib Require Import Floats.SpecFloat.
From S2P Require Import Prelude GoStrings Config.

(** * Definitions *)

(** The header names in the canonical form in which [Header.Get] looks them up. *)
Definition CustomAuthorizationHeader : string := "Kubernetes-Authorization".
Definition OAuthAuthorizationHeader : string := "Authorization".
Definition UserAgentHeader : string := "User-Agent".
Definition CustomUserAgent : string := "kubernetes-mcp-server/bearer-token-auth".

(** The values of a request's context that this code reads and sets. *)
Record request_context (HC : Type) := mkCtx {
  cx_Authorization : option string;
  cx_UserAgent : option string;
  cx_HTTPClient : option HC;
}.
Arguments mkCtx {HC} _ _ _.
Arguments cx_Authorization {HC} _.
Arguments cx_UserAgent {HC} _.
Arguments cx_HTTPClient {HC} _.

Section ContextValues.
Context {HC : Type}.
Implicit Types cx : request_context HC.

Definition WithAuthorization (v : string) cx : request_context HC :=
  mkCtx (Some v) (cx_UserAgent cx) (cx_HTTPClient cx).
Definition WithUserAgent (v : string) cx : request_context HC :=
  mkCtx (cx_Authorization cx) (Some v) (cx_HTTPClient cx).
Definition WithHTTPClient (c : option HC) cx : request_context HC :=
  match c with
  | Some c => mkCtx (cx_Authorization cx) (cx_UserAgent cx) (Some c)
  | None => cx
  end.

(** [auth, ok := ctx.Value(OAuthAuthorizationHeader).(string)] with the tests and
    the trimming that follow it everywhere. *)
Definition bearer_token cx : option string :=
  match cx_Authorization cx with
  | Some auth => if HasPrefix auth "Bearer " then Some (TrimPrefix auth "Bearer ") else None
  | None => None
  end.
End ContextValues.

(** ** Kubernetes clients: the parts of [rest.Config] and of a kubeconfig the code
    touches *)

Record credentials := mkCredentials {
  cr_Username : string;
  cr_Password : string;
  cr_BearerToken : string;
  cr_BearerTokenFile : string;
  cr_CertFile : string;
  cr_KeyFile : string;
  cr_CertData : string;
  cr_KeyData : string;
  cr_ExecProvider : option string;
  cr_AuthProvider : option string;
  cr_Impersonate : string;
}.

Record rest_Config := mkRestConfig {
  rc_Host : string;
  rc_APIPath : string;
  rc_Insecure : bool;
  rc_ServerName : string;
  rc_CAFile : string;
  rc_CAData : string;
  rc_Credentials : credentials;
  rc_UserAgent : string;
  rc_QPS : spec_float;
  rc_Burst : Z;
  rc_Timeout : Z;
}.

Record kube_cluster := mkCluster {
  cl_Server : string;
  cl_InsecureSkipTLSVerify : bool;
  cl_CertificateAuthority : string;
  cl_CertificateAuthorityData : string;
}.
Record kube_context := mkContext { ct_Cluster : string; ct_AuthInfo : string }.

Record kubeconfig := mkKubeconfig {
  kc_Clusters : gmap string kube_cluster;
  kc_AuthInfos : gmap string credentials;
  kc_Contexts : gmap string kube_context;
  kc_CurrentContext : string;
}.

(** [clientcmd.ClientConfig]: loaded from the files at a path, with an overriding
    current context; or a given configuration, with one. *)
Inductive ClientConfig : Type :=
| DeferredConfig (path context : string)
| DefaultConfig (config : kubeconfig) (context : string).

(** A client: the configuration it was given, how it finds its kubeconfig, the
    configuration of its transports, and the clients client-go built from it. *)
Record Kubernetes (C : Type) := mkKubernetes {
  k_config : StaticConfig;
  k_clientCmdConfig : ClientConfig;
  k_restConfig : rest_Config;
  k_clients : C;
}.
Arguments mkKubernetes {C} _ _ _ _.
Arguments k_config {C} _.
Arguments k_clientCmdConfig {C} _.
Arguments k_restConfig {C} _.
Arguments k_clients {C} _.

Record Manager (C : Type) := mkManager {
  mg_kubernetes : Kubernetes C;
  mg_config : StaticConfig;
}.
Arguments mkManager {C} _ _.
Arguments mg_kubernetes {C} _.
Arguments mg_config {C} _.

Section Manager.
Context {W HC C : Type}.
(** The configuration in the files, and the REST configuration of a context of it. *)
Context (load_RawConfig : string -> string -> W -> result kubeconfig).
Context (load_ClientConfig : string -> string -> W -> result rest_Config).

Definition RawConfig (c : ClientConfig) (w : W) : result kubeconfig :=
  match c with
  | DeferredConfig path context => load_RawConfig path context w
  | DefaultConfig cfg _ => Ok cfg
  end.

(** client-go: the HTTP client with the access-control and user-agent wrappers and
    the clients over it; and its default user agent. *)
Context (build_clients : StaticConfig -> rest_Config -> ST W (result C)).
Context (DefaultKubernetesUserAgent : string).

Definition with_UserAgent (ua : string) (c : rest_Config) : rest_Config :=
  mkRestConfig (rc_Host c) (rc_APIPath c) (rc_Insecure c) (rc_ServerName c) (rc_CAFile c) (rc_CAData c)
    (rc_Credentials c) ua (rc_QPS c) (rc_Burst c) (rc_Timeout c).

Definition NewKubernetes (base : StaticConfig) (clientCmdConfig : ClientConfig)
    (restConfig : rest_Config) : ST W (result (Kubernetes C)) := fun w =>
  let restConfig :=
    if rc_UserAgent restConfig =?s "" then with_UserAgent DefaultKubernetesUserAgent restConfig
    else restConfig in
  let '(clients, w) := build_clients base restConfig w in
  (match clients with
   | Err err => Err err
   | Ok clients => Ok (mkKubernetes base clientCmdConfig restConfig clients)
   end, w).

Definition bearer_credentials (token : string) : credentials :=
  mkCredentials "" "" token "" "" "" "" "" None None "".

Definition Derived (m : Manager C) (cx : request_context HC) : ST W (result (Kubernetes C)) := fun w =>
  match bearer_token cx with
  | None =>
      if c_RequireOAuth (mg_config m) then (Err (ErrNew "oauth token required"), w)
      else (Ok (mg_kubernetes m), w)
  | Some token =>
      let userAgent :=
        match cx_UserAgent cx with
        | Some ua => if ua ≠?s "" then ua else CustomUserAgent
        | None => CustomUserAgent
        end in
      let rc := k_restConfig (mg_kubernetes m) in
      let derivedCfg :=
        mkRestConfig (rc_Host rc) (rc_APIPath rc) (rc_Insecure rc) (rc_ServerName rc) (rc_CAFile rc)
          (rc_CAData rc) (bearer_credentials token) userAgent (rc_QPS rc) (rc_Burst rc) (rc_Timeout rc) in
      match RawConfig (k_clientCmdConfig (mg_kubernetes m)) w with
      | Err err => (Err (wrapf "failed to get kubeconfig: " err), w)
      | Ok cfg =>
          let cfg := mkKubeconfig (kc_Clusters cfg) ∅ (kc_Contexts cfg) (kc_CurrentContext cfg) in
          let '(derived, w) := NewKubernetes (mg_config m) (DefaultConfig cfg "") derivedCfg w in
          (match derived with
           | Err err => Err (wrapf "failed to create derived client: " err)
           | Ok k => Ok k
           end, w)
      end
  end.

(** ** Construction *)

Context (LoadingRules_Load : string -> W -> result kubeconfig).
Context (rest_InClusterConfig : W -> result rest_Config).
Context (Getenv : string -> string) (ParseFloat32 : string -> option spec_float).

Definition ErrorKubeconfigInClusterNotAllowed : string :=
  "kubeconfig manager cannot be used in in-cluster deployments".
Definition ErrorInClusterNotInCluster : string := "in-cluster manager cannot be used outside of a cluster".
Definition inClusterKubeConfigDefaultContext : string := "in-cluster".

Definition with_Host (host : string) (c : rest_Config) : rest_Config :=
  mkRestConfig host (rc_APIPath c) (rc_Insecure c) (rc_ServerName c) (rc_CAFile c) (rc_CAData c)
    (rc_Credentials c) (rc_UserAgent c) (rc_QPS c) (rc_Burst c) (rc_Timeout c).

Definition InClusterConfig (w : W) : result rest_Config :=
  match rest_InClusterConfig w with
  | Err err => Err err
  | Ok c => Ok (with_Host "https://kubernetes.default.svc" c)
  end.

Definition IsInCluster (cfg : StaticConfig) (w : W) : bool :=
  if c_KubeConfig cfg ≠?s "" then false else is_ok (InClusterConfig w).

Definition resolveKubeconfigContext (path kubeconfigContext : string) (w : W) : result string :=
  if kubeconfigContext ≠?s "" then Ok kubeconfigContext
  else
    match LoadingRules_Load path w with
    | Err err => Err (wrapf "failed to load kubeconfig: " err)
    | Ok rawConfig =>
        if kc_CurrentContext rawConfig ≠?s "" then Ok (kc_CurrentContext rawConfig)
        else
          match map fst (map_to_list (kc_Contexts rawConfig)) with
          | [] =>
              Err (ErrNew (fmt ["no current-context is set and no contexts are defined in kubeconfig."; nl;
                "Configure a context with 'kubectl config set-context <name>' and 'kubectl config use-context <name>'"]))
          | [name] => Ok name
          | names =>
              Err (ErrNew (fmt ["current-context is not set in kubeconfig and multiple contexts are available (";
                Join (sort_strings names) ", "; ")."; nl;
                "Set one with 'kubectl config use-context <context-name>'"]))
          end
    end.

Definition applyRateLimitFromEnv (c : rest_Config) : rest_Config :=
  let qpsStr := Getenv "KUBE_CLIENT_QPS" in
  let qps := if qpsStr ≠?s "" then ParseFloat32 qpsStr else None in
  let burstStr := Getenv "KUBE_CLIENT_BURST" in
  let burst := if burstStr ≠?s "" then Atoi burstStr else None in
  mkRestConfig (rc_Host c) (rc_APIPath c) (rc_Insecure c) (rc_ServerName c) (rc_CAFile c) (rc_CAData c)
    (rc_Credentials c) (rc_UserAgent c) (default (rc_QPS c) qps) (default (rc_Burst c) burst) (rc_Timeout c).

(** The nil arguments it refuses have no counterpart here. *)
Definition NewManager (config : StaticConfig) (restConfig : rest_Config) (clientCmdConfig : ClientConfig) :
    ST W (result (Manager C)) := fun w =>
  let restConfig := applyRateLimitFromEnv restConfig in
  let '(k, w) := NewKubernetes config clientCmdConfig restConfig w in
  (match k with Err err => Err err | Ok k => Ok (mkManager k config) end, w).

Definition NewKubeconfigManager (config : StaticConfig) (kubeconfigContext : string) :
    ST W (result (Manager C)) := fun w =>
  if IsInCluster config w then (Err (ErrSentinel ErrorKubeconfigInClusterNotAllowed), w)
  else
    let path := c_KubeConfig config in
    match resolveKubeconfigContext path kubeconfigContext w with
    | Err err => (Err err, w)
    | Ok resolvedContext =>
        match load_ClientConfig path resolvedContext w with
        | Err err => (Err (wrapf "failed to create kubernetes rest config from kubeconfig: " err), w)
        | Ok restConfig => NewManager config restConfig (DeferredConfig path resolvedContext) w
        end
    end.

Definition NewInClusterManager (config : StaticConfig) : ST W (result (Manager C)) := fun w =>
  if c_KubeConfig config ≠?s "" then
    (Err (wrapf (fmt ["kubeconfig file "; c_KubeConfig config; " cannot be used with the in-cluster deployments: "])
            (ErrSentinel ErrorKubeconfigInClusterNotAllowed)), w)
  else if negb (IsInCluster config w) then (Err (ErrSentinel ErrorInClusterNotInCluster), w)
  else
    match InClusterConfig w with
    | Err err => (Err (wrapf "failed to create in-cluster kubernetes rest config: " err), w)
    | Ok restConfig =>
        let clientCmdConfig :=
          mkKubeconfig
            {[ "cluster" := mkCluster (rc_Host restConfig) (rc_Insecure restConfig) "" "" ]}
            {[ "user" := bearer_credentials (cr_BearerToken (rc_Credentials restConfig)) ]}
            {[ inClusterKubeConfigDefaultContext := mkContext "cluster" "user" ]}
            inClusterKubeConfigDefaultContext in
        NewManager config restConfig (DefaultConfig clientCmdConfig "") w
    end.
End Manager.
