(* ===== verification/UserAuth.v ===== *)
(** Who a request is at the cluster: the user's token from the MCP request
    (pkg/mcp/middleware.go), its exchange (pkg/kubernetes/token_exchange.go, sts.go,
    provider_token_exchange.go) and the client derived from it
    (pkg/kubernetes/manager.go, kubernetes.go).  client-go's constructors, the OIDC
    provider and the external-account library are parameters. *)
From Stdlib Require Import Floats.SpecFloat.
From S2P Require Import Prelude GoStrings Api TlsUtil Config Http OAuthState TokenExchange Manager.

(** * Definitions *)

(** ** pkg/mcp/middleware.go *)

(** An MCP request: the headers of its HTTP request, if it came by HTTP, and its
    server session with the client's name and version, if it gave them. *)
Record mcp_request := mkMcpRequest {
  mr_Header : option http_header;
  mr_Session : option (option (string * string));
}.

Section Middleware.
Context {W HC A : Type}.

Definition MethodHandler : Type := request_context HC -> string -> mcp_request -> ST W A.

Definition header_value (req : mcp_request) (name : string) : string :=
  match mr_Header req with Some h => Header_Get h name | None => "" end.

Definition authHeaderPropagationMiddleware (next : MethodHandler) : MethodHandler :=
  fun cx method req =>
  let authHeader := header_value req OAuthAuthorizationHeader in
  if authHeader ≠?s "" then next (WithAuthorization authHeader cx) method req
  else
    let customAuthHeader := header_value req CustomAuthorizationHeader in
    if customAuthHeader ≠?s "" then next (WithAuthorization customAuthHeader cx) method req
    else next cx method req.

Definition getMcpReqUserAgent (req : mcp_request) : string :=
  let userAgentHeader := header_value req UserAgentHeader in
  if userAgentHeader ≠?s "" then userAgentHeader
  else
    match mr_Session req with
    | Some (Some (name, version)) =>
        if (name =?s "") && (version =?s "") then "" else fmt [name; "/"; version]
    | _ => ""
    end.

Definition userAgentPropagationMiddleware (serverName serverVersion GOOS GOARCH : string)
    (next : MethodHandler) : MethodHandler := fun cx method req =>
  let userAgentHeader :=
    TrimSpace (fmt [serverName; "/"; serverVersion; " ("; GOOS; "/"; GOARCH; ") ";
                    getMcpReqUserAgent req]) in
  next (WithUserAgent userAgentHeader cx) method req.
End Middleware.

(** ** pkg/kubernetes/sts.go *)

Record external_account := mkExternalAccount {
  ea_TokenURL : string;
  ea_ClientID : string;
  ea_ClientSecret : string;
  ea_Audience : string;
  ea_SubjectTokenType : string;
  ea_SubjectToken : string;
  ea_Scopes : list string;
}.

Record SecurityTokenService (P : Type) := mkSTS {
  sts_Provider : option P;
  sts_ClientId : string;
  sts_ClientSecret : string;
  sts_ExternalAccountAudience : string;
  sts_ExternalAccountScopes : list string;
}.
Arguments mkSTS {P} _ _ _ _ _.
Arguments sts_Provider {P} _.
Arguments sts_ClientId {P} _.
Arguments sts_ClientSecret {P} _.
Arguments sts_ExternalAccountAudience {P} _.
Arguments sts_ExternalAccountScopes {P} _.

(** The optional interface of a provider with token exchange per target.  The
    configurations are shared pointers: [tep_Put] stores what a call leaves behind. *)
Record TokenExchangeProvider (W : Type) := mkTokenExchangeProvider {
  tep_GetConfig : string -> W -> option (TargetTokenExchangeConfig StaticConfig);
  tep_Put : string -> TargetTokenExchangeConfig StaticConfig -> W -> W;
  tep_Strategy : W -> string;
}.
Arguments tep_GetConfig {W} _.
Arguments tep_Put {W} _.
Arguments tep_Strategy {W} _.

(** Of the cache: the comparable key. *)
Record stsConfigCacheKey := mkStsKey {
  sk_TokenURL : string;
  sk_Strategy : string;
  sk_ClientID : string;
  sk_ClientSecret : string;
  sk_Audience : string;
  sk_SubjectTokenType : string;
  sk_RequestedTokenType : string;
  sk_Scopes : string;
  sk_AuthStyle : string;
  sk_ClientCertFile : string;
  sk_ClientKeyFile : string;
  sk_FederatedTokenFile : string;
  sk_CAFile : string;
  sk_TLSMinVersion : string;
  sk_TLSCipherSuites : string;
  sk_RequireTLS : bool;
}.
#[export] Instance stsConfigCacheKey_eq_dec : EqDecision stsConfigCacheKey.
Proof. solve_decision. Defined.

Definition nul : string := String "000"%char "".

Section UserAuth.
Context {W HC P C : Type}.
Abbreviation ctx := (request_context HC).
Abbreviation TargetConfig := (TargetTokenExchangeConfig StaticConfig).
Context (Getenv : string -> string).
(** The contents of the registry of exchangers (TokenExchange.v). *)
Context (exchangers : gmap string (Exchanger W StaticConfig)).
Context (Endpoint_TokenURL : P -> string).
(** [externalaccount.NewTokenSource] and [Token]. *)
Context (external_Token : ctx -> external_account -> ST W (result Token)).

Definition NewFromConfig (cfg : StaticConfig) (provider : option P) : SecurityTokenService P :=
  mkSTS provider (c_StsClientId cfg) (c_StsClientSecret cfg) (c_StsAudience cfg) (c_StsScopes cfg).

Definition STS_IsEnabled (sts : SecurityTokenService P) : bool :=
  bool_decide (is_Some (sts_Provider sts)) && (sts_ClientId sts ≠?s "") &&
  (sts_ExternalAccountAudience sts ≠?s "").

(** A nil provider would panic; the caller asks [IsEnabled] first. *)
Definition ExternalAccountTokenExchange (sts : SecurityTokenService P) (cx : ctx)
    (originalToken : string) : ST W (result Token) :=
  external_Token cx
    (mkExternalAccount (match sts_Provider sts with Some p => Endpoint_TokenURL p | None => "" end)
       (sts_ClientId sts) (sts_ClientSecret sts) (sts_ExternalAccountAudience sts)
       TokenTypeAccessToken originalToken (sts_ExternalAccountScopes sts)).

(** ** pkg/kubernetes/token_exchange.go *)

(** The configuration both callers build from the server's. *)
Definition sts_target_config (base : StaticConfig) (tokenURL : string) : TargetConfig :=
  let authStyle := if c_StsAuthStyle base =?s "" then AuthStyleParams else c_StsAuthStyle base in
  mkTarget tokenURL (c_StsClientId base) (c_StsClientSecret base) (c_StsAudience base)
    (c_StsSubjectTokenType base) (c_StsRequestedTokenType base) "" (c_StsScopes base)
    (c_CertificateAuthority base) authStyle (c_StsClientCertFile base) (c_StsClientKeyFile base) 0
    (c_StsFederatedTokenFile base) (GetTLSMinVersionConfig Getenv base)
    (GetTLSCipherSuitesConfig Getenv base) None "" "" [] None.

Definition token_url (oidcProvider : option P) : string :=
  match oidcProvider with Some p => Endpoint_TokenURL p | None => "" end.

(** [baseConfig.IsRequireTLS] as the enforcer: the method of this configuration. *)
Definition require_tls_of (base : StaticConfig) : option StaticConfig := Some base.
Definition IsRequireTLS (base : StaticConfig) (w : W) : bool := c_RequireTLS base.

(** Besides its result a call leaves the shared configuration it was given. *)
Definition Shared (A : Type) : Type :=
  option TargetConfig -> W -> (result A * option TargetConfig) * W.

Definition strategyBasedTokenExchange (cx : ctx) (base : StaticConfig) (oidcProvider : option P)
    (httpClient : option HC) (token strategy : string) : Shared ctx := fun cachedConfig w =>
  match registry_get strategy exchangers with
  | None => ((Err (ErrNew (fmt ["token exchange strategy "; quote strategy; " not found"])), cachedConfig), w)
  | Some exchange =>
      let cfg :=
        match cachedConfig with
        | Some cfg => Ok cfg
        | None =>
            let tokenURL := token_url oidcProvider in
            if tokenURL =?s "" then
              Err (ErrNew "token exchange failed: no token URL available from OIDC provider")
            else
              let cfg := sts_target_config base tokenURL in
              match Target_Validate cfg with
              | Some err => Err (wrapf "token exchange config validation: " err)
              | None => Ok cfg
              end
        end in
      match cfg with
      | Err err => ((Err err, cachedConfig), w)
      | Ok cfg =>
          let cfg := SetRequireTLS (require_tls_of base) cfg in
          let cx := WithHTTPClient httpClient cx in
          let '((exchanged, cfg), w) := exchange cfg token w in
          let cachedConfig := match cachedConfig with Some _ => Some cfg | None => None end in
          (match exchanged with
           | Err err => (Err (wrapf (fmt ["token exchange with strategy "; quote strategy; ": "]) err),
                         cachedConfig)
           | Ok exchanged => (Ok (WithAuthorization ("Bearer " +:+ tk_AccessToken exchanged) cx),
                              cachedConfig)
           end, w)
      end
  end.

(** [doTokenExchange] of this package: the token of the context the exchange gives. *)
Definition doTokenExchange (token : string) (exchanged : result ctx) : result string :=
  match exchanged with
  | Err err => Err err
  | Ok exchangedCtx =>
      match bearer_token exchangedCtx with
      | Some t => Ok t
      | None => Ok token
      end
  end.

Definition exchangePassthroughToken (cx : ctx) (base : StaticConfig) (oidcProvider : option P)
    (httpClient : option HC) (token : string) : Shared string := fun stsConfig w =>
  let strategy := c_TokenExchangeStrategy base in
  if strategy ≠?s "" then
    let '((exchanged, stsConfig), w) :=
      strategyBasedTokenExchange cx base oidcProvider httpClient token strategy stsConfig w in
    ((doTokenExchange token exchanged, stsConfig), w)
  else
    let sts := NewFromConfig base oidcProvider in
    if STS_IsEnabled sts then
      let cx := WithHTTPClient httpClient cx in
      let '(exchanged, w) := ExternalAccountTokenExchange sts cx token w in
      let exchanged :=
        match exchanged with
        | Err err => Err (wrapf "built-in STS exchange: " err)
        | Ok exchanged => Ok (WithAuthorization ("Bearer " +:+ tk_AccessToken exchanged) cx)
        end in
      ((doTokenExchange token exchanged, stsConfig), w)
    else ((Ok token, stsConfig), w).

Definition stsExchangeTokenInContext (cx : ctx) (base : StaticConfig) (oidcProvider : option P)
    (httpClient : option HC) (token : string) : Shared ctx := fun stsConfig w =>
  let mode := ResolveClusterAuthMode base in
  if mode =?s ClusterAuthKubeconfig then ((Ok (WithAuthorization "" cx), stsConfig), w)
  else if mode =?s ClusterAuthPassthrough then
    let '((exchangedToken, stsConfig), w) :=
      exchangePassthroughToken cx base oidcProvider httpClient token stsConfig w in
    (match exchangedToken with
     | Err err => (Err err, stsConfig)
     | Ok t => (Ok (WithAuthorization ("Bearer " +:+ t) cx), stsConfig)
     end, w)
  else ((Err (ErrNew (fmt ["unknown cluster_auth_mode "; quote mode])), stsConfig), w).

Definition ExchangeTokenInContext (cx : ctx) (base : StaticConfig) (oidcProvider : option P)
    (httpClient : option HC) (provider : option (TokenExchangeProvider W)) (target : string) :
    Shared ctx := fun stsConfig w =>
  match bearer_token cx with
  | None => ((Ok cx, stsConfig), w)
  | Some subjectToken =>
      let sts := stsExchangeTokenInContext cx base oidcProvider httpClient subjectToken in
      match provider with
      | None => sts stsConfig w
      | Some tep =>
          match tep_GetConfig tep target w with
          | None => sts stsConfig w
          | Some exCfg =>
              let exCfg := SetRequireTLS (require_tls_of base) exCfg in
              let w := tep_Put tep target exCfg w in
              match registry_get (tep_Strategy tep w) exchangers with
              | None => sts stsConfig w
              | Some exchange =>
                  let '((exchanged, exCfg), w) := exchange exCfg subjectToken w in
                  let w := tep_Put tep target exCfg w in
                  (match exchanged with
                   | Err err =>
                       (Err (wrapf (fmt ["token exchange failed for target "; quote target; ": "]) err),
                        stsConfig)
                   | Ok exchanged =>
                       (Ok (WithAuthorization ("Bearer " +:+ tk_AccessToken exchanged) cx), stsConfig)
                   end, w)
              end
          end
      end
  end.

(** ** pkg/kubernetes/provider_token_exchange.go *)

(** The state of [tokenExchangingProvider]. *)
Record sts_cache := mkStsCache {
  sc_stsConfig : option TargetConfig;
  sc_stsConfigKey : stsConfigCacheKey;
}.

Definition newStsConfigCacheKey (tokenURL : string) (cfg : StaticConfig) : stsConfigCacheKey :=
  {| sk_TokenURL := tokenURL;
     sk_Strategy := c_TokenExchangeStrategy cfg;
     sk_ClientID := c_StsClientId cfg;
     sk_ClientSecret := c_StsClientSecret cfg;
     sk_Audience := c_StsAudience cfg;
     sk_SubjectTokenType := c_StsSubjectTokenType cfg;
     sk_RequestedTokenType := c_StsRequestedTokenType cfg;
     sk_Scopes := Join (c_StsScopes cfg) nul;
     sk_AuthStyle := c_StsAuthStyle cfg;
     sk_ClientCertFile := c_StsClientCertFile cfg;
     sk_ClientKeyFile := c_StsClientKeyFile cfg;
     sk_FederatedTokenFile := c_StsFederatedTokenFile cfg;
     sk_CAFile := c_CertificateAuthority cfg;
     sk_TLSMinVersion := GetTLSMinVersionConfig Getenv cfg;
     sk_TLSCipherSuites := Join (GetTLSCipherSuitesConfig Getenv cfg) nul;
     sk_RequireTLS := c_RequireTLS cfg |}.

Definition getOrBuildStsConfig (oidcProvider : option P) (base : StaticConfig) (s : sts_cache) :
    option TargetConfig * sts_cache :=
  if c_TokenExchangeStrategy base =?s "" then (None, s)
  else
    let tokenURL := token_url oidcProvider in
    if tokenURL =?s "" then (None, s)
    else
      let key := newStsConfigCacheKey tokenURL base in
      let cached :=
        match sc_stsConfig s with
        | Some c => if decide (sc_stsConfigKey s = key) then Some c else None
        | None => None
        end in
      match cached with
      | Some c => (Some c, s)
      | None =>
          let cfg := SetRequireTLS (require_tls_of base) (sts_target_config base tokenURL) in
          match Target_Validate cfg with
          | Some _ => (None, s)
          | None => (Some cfg, mkStsCache (Some cfg) key)
          end
      end.

(** The configuration handed out is the cached one: what a call leaves in it stays. *)
Definition put_back (handed after : option TargetConfig) (s : sts_cache) : sts_cache :=
  match handed, after with
  | Some _, Some c => mkStsCache (Some c) (sc_stsConfigKey s)
  | _, _ => s
  end.

Definition exchanging_GetDerivedKubernetes {K} (inner : ctx -> string -> ST W (result K))
    (tep : option (TokenExchangeProvider W)) (snap : option (Snapshot P HC))
    (base : option StaticConfig) (cx : ctx) (target : string) (s : sts_cache) (w : W) :
    (result K * sts_cache) * W :=
  match snap, base with
  | Some snap, Some base =>
      let '(stsConfig, s) := getOrBuildStsConfig (os_OIDCProvider snap) base s in
      let '((r, after), w) :=
        ExchangeTokenInContext cx base (os_OIDCProvider snap) (os_HTTPClient snap) tep target stsConfig w in
      let s := put_back stsConfig after s in
      match r with
      | Err err => ((Err err, s), w)
      | Ok cx => let '(k, w) := inner cx target w in ((k, s), w)
      end
  | _, _ => let '(k, w) := inner cx target w in ((k, s), w)
  end.
End UserAuth.

(** * Specification *)

(** The settings of a target configuration, without the memoised client and the
    enforcer. *)
Definition settings {E} (c : TargetTokenExchangeConfig E) : TargetTokenExchangeConfig E :=
  mkTarget (tc_TokenURL c) (tc_ClientID c) (tc_ClientSecret c) (tc_Audience c)
    (tc_SubjectTokenType c) (tc_RequestedTokenType c) (tc_SubjectIssuer c) (tc_Scopes c)
    (tc_CAFile c) (tc_AuthStyle c) (tc_ClientCertFile c) (tc_ClientKeyFile c)
    (tc_AssertionLifetime c) (tc_FederatedTokenFile c) (tc_TLSMinVersion c) (tc_TLSCipherSuites c)
    None "" "" [] None.

(** What the cache relies on: an exchange changes no setting. *)
Class LawfulExchanger {W} (e : Exchanger W StaticConfig) : Prop :=
  exchange_settings : forall c t w, settings (e c t w).1.2 = settings c.

(** Lists the key of the cache represents faithfully: [Join] with NUL confuses no
    element with one that holds a NUL, nor the empty list with one empty string. *)
Definition joinable (l : list string) : Prop :=
  l <> [""] /\ Forall (no_char "000"%char) l.
Definition sane (Getenv : string -> string) (base : StaticConfig) : Prop :=
  joinable (c_StsScopes base) /\ joinable (GetTLSCipherSuitesConfig Getenv base).

Section Specification.
Context {W HC P C : Type}.
Context (Getenv : string -> string) (exchangers : gmap string (Exchanger W StaticConfig)).
Context (Endpoint_TokenURL : P -> string).
Context (external_Token : request_context HC -> external_account -> ST W (result Token)).

(** The exchange of a target, with its configuration as the call prepares it. *)
Definition target_exchange (tep : option (TokenExchangeProvider W)) (target : string)
    (base : StaticConfig) (w : W) : option (Exchanger W StaticConfig * TargetTokenExchangeConfig StaticConfig * W) :=
  match tep with
  | None => None
  | Some tep =>
      match tep_GetConfig tep target w with
      | None => None
      | Some c =>
          let c := SetRequireTLS (require_tls_of base) c in
          let w := tep_Put tep target c w in
          match registry_get (tep_Strategy tep w) exchangers with
          | None => None
          | Some e => Some (e, c, w)
          end
      end
  end.

(** The token a user's token [t] becomes at the cluster, [None] for the identity of
    the server: by the exchange of the target if it has one; else, by cluster
    authentication mode, the server's, or the one from the configured strategy or
    STS.  The token itself is used only when no exchange is configured. *)
Inductive cluster_token (base : StaticConfig) (oidc : option P)
    (tep : option (TokenExchangeProvider W)) (target t : string) (w : W) : option string -> Prop :=
| ct_target e c w1 tok c' w' :
    target_exchange tep target base w = Some (e, c, w1) -> e c t w1 = ((Ok tok, c'), w') ->
    cluster_token base oidc tep target t w (Some (tk_AccessToken tok))
| ct_kubeconfig :
    target_exchange tep target base w = None -> ResolveClusterAuthMode base = ClusterAuthKubeconfig ->
    cluster_token base oidc tep target t w None
| ct_strategy e c w1 tok c' w' :
    target_exchange tep target base w = None -> ResolveClusterAuthMode base = ClusterAuthPassthrough ->
    c_TokenExchangeStrategy base <> "" -> registry_get (c_TokenExchangeStrategy base) exchangers = Some e ->
    settings c = settings (sts_target_config Getenv base (token_url Endpoint_TokenURL oidc)) ->
    tc_requireTLS c = require_tls_of base -> e c t w1 = ((Ok tok, c'), w') ->
    cluster_token base oidc tep target t w (Some (tk_AccessToken tok))
| ct_sts cx w1 tok w' :
    target_exchange tep target base w = None -> ResolveClusterAuthMode base = ClusterAuthPassthrough ->
    c_TokenExchangeStrategy base = "" -> STS_IsEnabled (NewFromConfig base oidc) = true ->
    ExternalAccountTokenExchange Endpoint_TokenURL external_Token (NewFromConfig base oidc) cx t w1 =
      (Ok tok, w') ->
    cluster_token base oidc tep target t w (Some (tk_AccessToken tok))
| ct_passthrough :
    target_exchange tep target base w = None -> ResolveClusterAuthMode base = ClusterAuthPassthrough ->
    c_TokenExchangeStrategy base = "" -> STS_IsEnabled (NewFromConfig base oidc) = false ->
    cluster_token base oidc tep target t w (Some t).

(** The cached configuration belongs to its key. *)
Definition cache_ok (s : sts_cache) : Prop :=
  forall c, sc_stsConfig s = Some c ->
    exists url base, sane Getenv base /\ sc_stsConfigKey s = newStsConfigCacheKey Getenv url base /\
      settings c = settings (sts_target_config Getenv base url).
End Specification.

(** What a provider promises: the client of a target is derived from its manager. *)
Class DerivesClients {W HC C} (load : string -> string -> W -> result kubeconfig)
    (build : StaticConfig -> rest_Config -> ST W (result C)) (ua : string)
    (inner : request_context HC -> string -> ST W (result (Kubernetes C)))
    (is_manager : string -> Manager C -> Prop) : Prop :=
  derives : forall cx target w k w', inner cx target w = (Ok k, w') ->
    exists m w1 w2, is_manager target m /\ Derived load build ua m cx w1 = (Ok k, w2).

(** How a client identifies itself: with the server's own client when there is no
    token, which [require_oauth] forbids; else with the token and nothing else. *)
Definition client_identity {C} (m : Manager C) (tok : option string) (k : Kubernetes C) : Prop :=
  match tok with
  | None => k = mg_kubernetes m /\ c_RequireOAuth (mg_config m) = false
  | Some t =>
      rc_Credentials (k_restConfig k) = bearer_credentials t /\
      rc_Host (k_restConfig k) = rc_Host (k_restConfig (mg_kubernetes m)) /\
      k_config k = mg_config m /\
      exists kc, k_clientCmdConfig k = DefaultConfig kc "" /\ kc_AuthInfos kc = ∅
  end.

(** * Lemmas *)

Lemma bearer_WithAuthorization {HC} t (cx : request_context HC) :
  bearer_token (WithAuthorization ("Bearer " +:+ t) cx) = Some t.
Proof.
  unfold bearer_token, WithAuthorization. cbn [cx_Authorization].
  by rewrite HasPrefix_append, TrimPrefix_append.
Qed.

Lemma Join_inj_joinable l l' : joinable l -> joinable l' -> Join l nul = Join l' nul -> l = l'.
Proof.
  intros [H1 F1] [H2 F2] E.
  assert (forall l, l <> [] -> Forall (no_char "000"%char) l ->
    Split "000"%char (Join l nul) = l) as HS by (intros; by apply Split_Join).
  destruct (decide (l = [])) as [->|N], (decide (l' = [])) as [->|N']; [done|..].
  - exfalso. apply H2. rewrite <- (HS l') by done. by rewrite <- E.
  - exfalso. apply H1. rewrite <- (HS l) by done. by rewrite E.
  - rewrite <- (HS l), <- (HS l') by done. by rewrite E.
Qed.

#[export] Hint Rewrite @bearer_WithAuthorization : mcp_rw.

Section Identity.
Context {W HC P C : Type}.
Context (Getenv : string -> string) (exchangers : gmap string (Exchanger W StaticConfig)).
Context (Endpoint_TokenURL : P -> string).
Context (external_Token : request_context HC -> external_account -> ST W (result Token)).
Implicit Types (cx : request_context HC) (base : StaticConfig) (oidc : option P)
  (tep : option (TokenExchangeProvider W)).

Abbreviation tokens := (cluster_token Getenv exchangers Endpoint_TokenURL external_Token).
Abbreviation target_of base oidc := (sts_target_config Getenv base (token_url Endpoint_TokenURL oidc)).

(** A configuration handed in is the one the server's would be built to. *)
Definition handed_ok base oidc (c : option (TargetTokenExchangeConfig StaticConfig)) : Prop :=
  forall c', c = Some c' -> settings c' = settings (target_of base oidc).

Lemma strategyBased_Ok cx base oidc http t strategy c w cx' after w' :
  handed_ok base oidc c ->
  strategyBasedTokenExchange Getenv exchangers Endpoint_TokenURL cx base oidc http t strategy c w =
    ((Ok cx', after), w') ->
  exists e c1 tok c2, registry_get strategy exchangers = Some e /\ settings c1 = settings (target_of base oidc) /\
    tc_requireTLS c1 = require_tls_of base /\ e c1 t w = ((Ok tok, c2), w') /\
    bearer_token cx' = Some (tk_AccessToken tok).
Proof.
  intros Hc. unfold strategyBasedTokenExchange.
  destruct (registry_get strategy exchangers) as [e|] eqn:He; [|done].
  destruct (match c with Some _ => _ | None => _ end) as [c0|] eqn:H0; [|done].
  assert (settings c0 = settings (target_of base oidc)) as Hs.
  { destruct c as [c1|]; [injection H0 as <-; by apply Hc|].
    destruct (_ =?s ""); [done|]. destruct (Target_Validate _); [done|]. by injection H0 as <-. }
  cbn zeta. destruct (e _ t w) as [[[tok|] c2] w1] eqn:Hex; [|done]. intros [= <- _ <-].
  exists e, (SetRequireTLS (require_tls_of base) c0), tok, c2. split_and!; [done| |done|done|].
  - rewrite <- Hs. by destruct c0.
  - by autorewrite with mcp_rw.
Qed.

Lemma passthrough_Ok cx base oidc http tep target t c w w0 tok after w' :
  handed_ok base oidc c -> target_exchange exchangers tep target base w0 = None ->
  ResolveClusterAuthMode base = ClusterAuthPassthrough ->
  exchangePassthroughToken Getenv exchangers Endpoint_TokenURL external_Token cx base oidc http t c w =
    ((Ok tok, after), w') ->
  tokens base oidc tep target t w0 (Some tok).
Proof.
  intros Hc Ht Hm. unfold exchangePassthroughToken. cbn zeta.
  destruct (bool_decide_reflect (c_TokenExchangeStrategy base = "")) as [Hs|Hs]; cbn [negb].
  - destruct (STS_IsEnabled _) eqn:Hen.
    + destruct (ExternalAccountTokenExchange _ _ _ _ _ w) as [[r|e] w1] eqn:He; [|done].
      cbn [doTokenExchange]. rewrite bearer_WithAuthorization. intros [= <- _ _]. by eapply ct_sts.
    + intros [= <- _ _]. by apply ct_passthrough.
  - destruct (strategyBasedTokenExchange _ _ _ _ _ _ _ _ _ c w) as [[[cx'|e] c1] w1] eqn:He; [|done].
    apply strategyBased_Ok in He as (e & c2 & r & c3 & Hl & Hset & Hreq & Hex & Hb); [|done].
    cbn [doTokenExchange]. rewrite Hb. intros [= <- _ _]. by eapply ct_strategy.
Qed.

Lemma stsExchange_Ok cx base oidc http tep target t c w w0 cx' after w' :
  handed_ok base oidc c -> target_exchange exchangers tep target base w0 = None ->
  stsExchangeTokenInContext Getenv exchangers Endpoint_TokenURL external_Token cx base oidc http t c w =
    ((Ok cx', after), w') ->
  tokens base oidc tep target t w0 (bearer_token cx').
Proof.
  intros Hc Ht. unfold stsExchangeTokenInContext. cbn zeta.
  destruct (bool_decide_reflect (ResolveClusterAuthMode base = ClusterAuthKubeconfig)) as [Hm|Hm].
  { intros [= <- _ _]. by apply ct_kubeconfig. }
  destruct (bool_decide_reflect (ResolveClusterAuthMode base = ClusterAuthPassthrough)) as [Hp|Hp]; [|done].
  destruct (exchangePassthroughToken _ _ _ _ _ _ _ _ _ c w) as [[[tok|e] c1] w1] eqn:He; [|done].
  intros [= <- _ _]. autorewrite with mcp_rw. by eapply passthrough_Ok.
Qed.

Lemma ExchangeTokenInContext_Ok cx base oidc http tep target c w cx' after w' :
  handed_ok base oidc c ->
  ExchangeTokenInContext Getenv exchangers Endpoint_TokenURL external_Token cx base oidc http tep target
    c w = ((Ok cx', after), w') ->
  match bearer_token cx with
  | None => cx' = cx
  | Some t => tokens base oidc tep target t w (bearer_token cx')
  end.
Proof.
  intros Hc. unfold ExchangeTokenInContext. destruct (bearer_token cx) as [t|] eqn:Hb; [|by intros [= <-]].
  cbn zeta. destruct tep as [p|]; [|by apply stsExchange_Ok].
  destruct (tep_GetConfig p target w) as [ex|] eqn:Hg.
  2: { apply stsExchange_Ok; [done|]. unfold target_exchange. by rewrite Hg. }
  destruct (registry_get _ exchangers) as [e|] eqn:Hl.
  2: { apply stsExchange_Ok; [done|]. unfold target_exchange. rewrite Hg. cbn zeta.
    by rewrite Hl. }
  destruct (e _ t _) as [[[tok|] c2] w2] eqn:He; [|done]. intros [= <- _ _].
  autorewrite with mcp_rw. eapply ct_target; [|done]. unfold target_exchange. rewrite Hg. cbn zeta.
  by rewrite Hl.
Qed.

(** ** The cache *)

Lemma target_of_key base base' url url' :
  sane Getenv base -> sane Getenv base' ->
  newStsConfigCacheKey Getenv url base = newStsConfigCacheKey Getenv url' base' ->
  settings (E := StaticConfig) (sts_target_config Getenv base url) = settings (sts_target_config Getenv base' url').
Proof.
  intros [H1 H2] [H1' H2'] E. injection E as E1 E2 E3 E4 E5 E6 E7 E8 E9 E10 E11 E12 E13 E14 E15 E16.
  apply Join_inj_joinable in E8; [|done..]. apply Join_inj_joinable in E15; [|done..].
  unfold sts_target_config, settings. cbn.
  by rewrite E1, E3, E4, E5, E6, E7, E8, E9, E10, E11, E12, E13, E14, E15.
Qed.

Lemma getOrBuildStsConfig_ok oidc base (s : sts_cache) c s' :
  cache_ok Getenv s -> sane Getenv base ->
  getOrBuildStsConfig Getenv Endpoint_TokenURL oidc base s = (c, s') ->
  cache_ok Getenv s' /\ handed_ok base oidc c /\ (forall c', c = Some c' -> sc_stsConfig s' = Some c').
Proof.
  intros Hok Hs. unfold getOrBuildStsConfig. cbn zeta.
  destruct (_ =?s ""); [by intros [= <- <-]|]. destruct (_ =?s ""); [by intros [= <- <-]|].
  destruct (match sc_stsConfig s with Some _ => _ | None => _ end) as [c1|] eqn:Hc.
  - intros [= <- <-]. destruct (sc_stsConfig s) as [c2|] eqn:Hsc; [|done].
    destruct (decide _) as [Hk|]; [|done]. injection Hc as ->. split_and!; [done| |by intros ? [= <-]].
    destruct (Hok _ Hsc) as (url & base' & Hsane & Hkey & Hset). intros ? [= <-]. rewrite Hset.
    apply target_of_key; [done..|congruence].
  - destruct (Target_Validate _); intros [= <- <-]; [done|].
    split_and!; [|by intros ? [= <-]|by intros ? [= <-]].
    intros ? [= <-]. by exists (token_url Endpoint_TokenURL oidc), base.
Qed.

Lemma put_back_ok handed after (s : sts_cache) :
  cache_ok Getenv s -> (forall c, handed = Some c -> sc_stsConfig s = Some c) ->
  (forall c c', handed = Some c -> after = Some c' -> settings c' = settings c) ->
  cache_ok Getenv (put_back handed after s).
Proof.
  intros Hok Hh Ha. destruct handed as [c|]; [|done]. destruct after as [c'|]; [|done].
  intros ? [= <-]. destruct (Hok c) as (url & base & Hs & Hk & Hset); [by apply Hh|].
  exists url, base. split_and!; [done..|]. rewrite <- Hset. by apply Ha.
Qed.

Context (Hlawful : map_Forall (fun _ e => LawfulExchanger e) exchangers).

Lemma strategyBased_settings cx base oidc http t strategy c w c' :
  (strategyBasedTokenExchange Getenv exchangers Endpoint_TokenURL cx base oidc http t strategy
     (Some c) w).1.2 = Some c' -> settings c' = settings c.
Proof.
  unfold strategyBasedTokenExchange. destruct (registry_get strategy exchangers) as [e|] eqn:He; [|by intros [= <-]].
  cbn zeta. assert (LawfulExchanger e) as Hl by exact (Hlawful _ _ He).
  pose proof (exchange_settings (SetRequireTLS (require_tls_of base) c) t w) as Hs.
  destruct (e _ t w) as [[[tok|] c2] w1]; cbn in *; intros [= <-]; by rewrite Hs; destruct c.
Qed.

Lemma ExchangeTokenInContext_settings cx base oidc http tep target c w c' :
  (ExchangeTokenInContext Getenv exchangers Endpoint_TokenURL external_Token cx base oidc http tep target
     (Some c) w).1.2 = Some c' -> settings c' = settings c.
Proof.
  unfold ExchangeTokenInContext. destruct (bearer_token cx) as [t|]; [|by intros [= <-]]. cbn zeta.
  assert (forall w, (stsExchangeTokenInContext Getenv exchangers Endpoint_TokenURL external_Token cx base
    oidc http t (Some c) w).1.2 = Some c' -> settings c' = settings c) as Hsts.
  { intros w1. unfold stsExchangeTokenInContext, exchangePassthroughToken. cbn zeta.
    destruct (_ =?s ClusterAuthKubeconfig); [by intros [= <-]|].
    destruct (_ =?s ClusterAuthPassthrough); [|by intros [= <-]]. destruct (_ ≠?s "").
    - pose proof (strategyBased_settings cx base oidc http t (c_TokenExchangeStrategy base) c w1 c') as Hs.
      destruct (strategyBasedTokenExchange _ _ _ _ _ _ _ _ _ _ w1) as [[[cx'|e] a] w2];
        cbn [fst snd] in Hs; cbn [doTokenExchange]; [destruct (bearer_token cx')|..]; exact Hs.
    - destruct (STS_IsEnabled _); [|by intros [= <-]].
      destruct (ExternalAccountTokenExchange _ _ _ _ _ _) as [[r|e] w2]; cbn [doTokenExchange];
        rewrite ?bearer_WithAuthorization; by intros [= <-]. }
  destruct tep as [p|]; [|apply Hsts]. destruct (tep_GetConfig _ _ _); [|apply Hsts].
  destruct (registry_get _ exchangers) as [e|]; [|apply Hsts].
  destruct (e _ t _) as [[[tok|] c2] w2]; by intros [= <-].
Qed.

(** ** Clients *)

Context (load : string -> string -> W -> result kubeconfig).
Context (build : StaticConfig -> rest_Config -> ST W (result C)) (ua : string).

Lemma Derived_identity (m : Manager C) cx w k w' :
  Derived load build ua m cx w = (Ok k, w') -> client_identity m (bearer_token cx) k.
Proof.
  unfold Derived. destruct (bearer_token cx) as [t|]; cbn [client_identity].
  2: { destruct (c_RequireOAuth _) eqn:Hr; [done|]. by intros [= <- _]. }
  cbn zeta. destruct (RawConfig _ _ w) as [kc|]; [|done].
  unfold NewKubernetes. cbn zeta. destruct (build _ _ w) as [[cl|e] w1]; [|done].
  intros [= <- _]. split_and!; [by destruct (_ =?s "")|by destruct (_ =?s "")|done|].
  by eexists.
Qed.


(** The configuration kept for the exchanges is never stale: every call uses the
    settings the server's configuration has at that time, whatever the calls and
    reloads before it were, and leaves a cache of which this remains true. *)
Theorem sts_cache_fresh {K} inner tep (snap : Snapshot P HC) base cx target (s : sts_cache) w :
  cache_ok Getenv s -> sane Getenv base ->
  (forall c, (getOrBuildStsConfig Getenv Endpoint_TokenURL (os_OIDCProvider snap) base s).1 = Some c ->
     settings c = settings (sts_target_config Getenv base (token_url Endpoint_TokenURL (os_OIDCProvider snap)))) /\
  cache_ok Getenv (exchanging_GetDerivedKubernetes (K := K) Getenv exchangers Endpoint_TokenURL external_Token inner
    tep (Some snap) (Some base) cx target s w).1.2.
Proof.
  intros Hok Hs. unfold exchanging_GetDerivedKubernetes.
  destruct (getOrBuildStsConfig _ _ _ base s) as [c s1] eqn:Hg.
  apply getOrBuildStsConfig_ok in Hg as (Hok1 & Hh & Hin); [|done..]. split; [exact Hh|].
  pose proof (ExchangeTokenInContext_settings cx base (os_OIDCProvider snap) (os_HTTPClient snap) tep
    target) as Hset.
  destruct (ExchangeTokenInContext _ _ _ _ _ _ _ _ _ _ c w) as [[r after] w1] eqn:He.
  assert (cache_ok Getenv (put_back c after s1)) as Hput.
  { apply put_back_ok; [done..|]. intros c1 c2 -> ->. apply (Hset c1 w). by rewrite He. }
  cbn zeta. destruct r as [cx'|e]; [|done]. by destruct (inner cx' target w1).
Qed.
End Identity.

(** ** The exchangers of the program are lawful *)

Lemma HTTPClient_settings {W} (read : string -> W -> result string) pool ciphers (c : TargetTokenExchangeConfig StaticConfig) w :
  settings (HTTPClient read pool ciphers c w).2 = settings c.
Proof. unfold HTTPClient. repeat (case_match; try done). Qed.

#[export] Instance exchange_with_lawful {W S} read pool ciphers base redirect url_Error pem cert p8 p1 sha uuid now
    (signer : SignatureAlgorithm -> private_key -> string -> result S) jwt b64 parse unmarshal wrap form :
  LawfulExchanger (exchange_with (W := W) IsRequireTLS read pool ciphers base redirect url_Error pem cert p8 p1 sha uuid
    now signer jwt b64 parse unmarshal wrap form).
Proof.
  intros c t w. unfold exchange_with. pose proof (HTTPClient_settings read pool ciphers c w) as H.
  destruct (HTTPClient _ _ _ c w) as [[client|e] c1]; [|exact H].
  destruct (injectClientAuth _ _ _ _ _ _ _ _ _ _ _ c1 _ _ w) as [[[data h]|e] w1]; [|exact H].
  by destruct (post_exchange _ _ _ _ _ _ _ _ _ _ _ _ w1) as [r w2].
Qed.

Lemma registry_register_lawful {W} strategy (e : Exchanger W StaticConfig) r r' :
  LawfulExchanger e -> map_Forall (fun _ e => LawfulExchanger e) r ->
  registry_register strategy e r = Some r' -> map_Forall (fun _ e => LawfulExchanger e) r'.
Proof.
  intros He Hr. unfold registry_register. destruct (r !! strategy); [done|]. intros [= <-].
  by apply map_Forall_insert_2.
Qed.

Lemma exchangerRegistry_lawful {W S} read pool ciphers base redirect url_Error pem cert p8 p1 sha uuid now
    (signer : SignatureAlgorithm -> private_key -> string -> result S) jwt b64 parse unmarshal r :
  exchangerRegistry (W := W) IsRequireTLS read pool ciphers base redirect url_Error pem cert p8 p1 sha uuid now signer
    jwt b64 parse unmarshal = Some r -> map_Forall (fun _ e => LawfulExchanger e) r.
Proof.
  unfold exchangerRegistry. intros (r1 & H1 & (r2 & H2 & H3)%bind_Some)%bind_Some.
  eapply registry_register_lawful in H1; [|apply exchange_with_lawful|apply map_Forall_empty].
  eapply registry_register_lawful in H2; [|apply exchange_with_lawful|done].
  by eapply registry_register_lawful in H3; [|apply exchange_with_lawful|].
Qed.

(** * Witnesses *)

(** One cluster; OAuth is required and the token exchanged by the strategy "test". *)
Module UserAuthWitness.
Definition config : StaticConfig :=
  {| c_DeniedResources := c_DeniedResources BaseDefault;
     c_LogLevel := c_LogLevel BaseDefault;
     c_LogFile := c_LogFile BaseDefault;
     c_Port := c_Port BaseDefault;
     c_BindAddress := c_BindAddress BaseDefault;
     c_KubeConfig := c_KubeConfig BaseDefault;
     c_ListOutput := c_ListOutput BaseDefault;
     c_Stateless := c_Stateless BaseDefault;
     c_ReadOnly := c_ReadOnly BaseDefault;
     c_DisableDestructive := c_DisableDestructive BaseDefault;
     c_Toolsets := c_Toolsets BaseDefault;
     c_EnabledTools := c_EnabledTools BaseDefault;
     c_DisabledTools := c_DisabledTools BaseDefault;
     c_ToolOverrides := c_ToolOverrides BaseDefault;
     c_Prompts := c_Prompts BaseDefault;
     c_RequireOAuth := true;
     c_OAuthAudience := c_OAuthAudience BaseDefault;
     c_AuthorizationURL := c_AuthorizationURL BaseDefault;
     c_SkipJWTVerification := c_SkipJWTVerification BaseDefault;
     c_DisableDynamicClientRegistration := c_DisableDynamicClientRegistration BaseDefault;
     c_OAuthScopes := c_OAuthScopes BaseDefault;
     c_StsClientId := "client";
     c_StsClientSecret := c_StsClientSecret BaseDefault;
     c_StsAudience := c_StsAudience BaseDefault;
     c_StsScopes := ["read"; "write"];
     c_TokenExchangeStrategy := "test";
     c_StsAuthStyle := c_StsAuthStyle BaseDefault;
     c_StsClientCertFile := c_StsClientCertFile BaseDefault;
     c_StsClientKeyFile := c_StsClientKeyFile BaseDefault;
     c_StsFederatedTokenFile := c_StsFederatedTokenFile BaseDefault;
     c_StsSubjectTokenType := c_StsSubjectTokenType BaseDefault;
     c_StsRequestedTokenType := c_StsRequestedTokenType BaseDefault;
     c_ClusterAuthMode := c_ClusterAuthMode BaseDefault;
     c_CertificateAuthority := c_CertificateAuthority BaseDefault;
     c_ServerURL := c_ServerURL BaseDefault;
     c_TrustProxyHeaders := c_TrustProxyHeaders BaseDefault;
     c_TLSCert := c_TLSCert BaseDefault;
     c_TLSKey := c_TLSKey BaseDefault;
     c_RequireTLS := c_RequireTLS BaseDefault;
     c_TLSMinVersion := c_TLSMinVersion BaseDefault;
     c_TLSCipherSuites := c_TLSCipherSuites BaseDefault;
     c_HTTP := c_HTTP BaseDefault;
     c_ClusterProviderStrategy := c_ClusterProviderStrategy BaseDefault;
     c_ClusterProviderConfigs := c_ClusterProviderConfigs BaseDefault;
     c_ToolsetConfigs := c_ToolsetConfigs BaseDefault;
     c_ServerInstructions := c_ServerInstructions BaseDefault;
     c_Telemetry := c_Telemetry BaseDefault;
     c_ValidationEnabled := c_ValidationEnabled BaseDefault;
     c_EnableTargetCompatibilityToolFilters := c_EnableTargetCompatibilityToolFilters BaseDefault;
     c_ConfirmationFallback := c_ConfirmationFallback BaseDefault;
     c_ConfirmationRules := c_ConfirmationRules BaseDefault;
     c_parsedClusterProviderConfigs := c_parsedClusterProviderConfigs BaseDefault;
     c_parsedToolsetConfigs := c_parsedToolsetConfigs BaseDefault;
     c_configDirPath := c_configDirPath BaseDefault;
     c_providerStrategies := c_providerStrategies BaseDefault;
     c_tokenExchangeStrategies := c_tokenExchangeStrategies BaseDefault |}.
Definition exchange : Exchanger nat StaticConfig := fun c t w =>
  ((Ok (mkToken ("exchanged " +:+ t) "Bearer" "" None), c), S w).
Definition exchangers : gmap string (Exchanger nat StaticConfig) := {[ "test" := exchange ]}.
Definition server_credentials : credentials :=
  mkCredentials "admin" "s3cret" "" "" "" "" "" "" None None "".
Definition load (path context : string) (w : nat) : result kubeconfig :=
  Ok (mkKubeconfig ∅ {[ "admin" := server_credentials ]} ∅ "here").
Definition build (base : StaticConfig) (c : rest_Config) : ST nat (result unit) := fun w => (Ok tt, w).
Definition manager : Manager unit :=
  mkManager
    (mkKubernetes config (DeferredConfig "" "here")
       (mkRestConfig "https://cluster" "" false "" "" "" server_credentials "" f64_zero 0 0) tt) config.
Definition inner (cx : request_context unit) (target : string) : ST nat (result (Kubernetes unit)) :=
  Derived load build "go" manager cx.
Definition snap : Snapshot unit unit := mkSnapshot (Some tt) None "" "" "" [] [] false.
Definition cx : request_context unit := mkCtx (Some "Bearer user") None None.
Definition empty_cache : sts_cache := mkStsCache None (newStsConfigCacheKey (fun _ => "") "" config).
Definition derive :=
  exchanging_GetDerivedKubernetes (fun _ => "") exchangers (fun _ : unit => "https://idp/token")
    (fun _ _ w => (Err (ErrNew "unused"), w)) inner None (Some snap) (Some config) cx "" empty_cache 0.
End UserAuthWitness.

#[export] Instance witness_derives :
  DerivesClients UserAuthWitness.load UserAuthWitness.build "go" UserAuthWitness.inner (fun _ m => m = UserAuthWitness.manager).
Proof. intros cx target w k w' H. by exists UserAuthWitness.manager, w, w'. Qed.

Lemma witness_sane : sane (fun _ => "") UserAuthWitness.config.
Proof.
  split; (split; [discriminate|]); repeat constructor; discriminate.
Qed.


Lemma sts_cache_fresh_witness : cache_ok (fun _ => "") UserAuthWitness.derive.1.2.
Proof.
  apply (sts_cache_fresh (fun _ => "") UserAuthWitness.exchangers
    (fun _ : unit => "https://idp/token") (fun _ _ w => (Err (ErrNew "unused"), w))).
  - apply map_Forall_singleton. intros c t w. reflexivity.
  - intros c [=].
  - apply witness_sane.
Defined.
