(* ===== verification/RateLimit.v ===== *)
(** The per-session rate limiting of MCP requests (pkg/mcp/middleware.go) over the
    token bucket of golang.org/x/time/rate, which is a parameter.  Requests and the
    reaper's ticks are events with the time at which they run; a request is one
    step. *)
From Stdlib Require Import Floats.SpecFloat.
From S2P Require Import Prelude GoStrings Config.

(** * Definitions *)

Definition CodeRateLimitExceeded : Z := (-32029)%Z.
Definition ns_per_minute : Z := (60 * 1000000000)%Z.

(** The configuration function given to the middleware. *)
Definition rate_config (cfg : StaticConfig) : spec_float * Z :=
  let rps := h_RateLimitRPS (c_HTTP cfg) in
  let burst := h_RateLimitBurst (c_HTTP cfg) in
  let burst := if (burst =? 0)%Z then DefaultRateLimitBurst else burst in
  (rps, burst).

Record rateLimiterEntry (L : Type) := mkEntry { re_limiter : L; re_lastSeen : Z }.
Arguments mkEntry {L} _ _.
Arguments re_limiter {L} _.
Arguments re_lastSeen {L} _.

(** The variables the middleware's closures share. *)
Record rate_state (L : Type) := mkRate {
  rs_limiters : gmap string (rateLimiterEntry L);
  rs_currentLimit : spec_float;
  rs_currentBurst : Z;
}.
Arguments mkRate {L} _ _ _.
Arguments rs_limiters {L} _.
Arguments rs_currentLimit {L} _.
Arguments rs_currentBurst {L} _.

Section RateLimit.
Context {L : Type} (NewLimiter : spec_float -> Z -> L) (Allow : L -> Z -> bool * L).

Definition rate_init : rate_state L := mkRate ∅ f64_zero 0%Z.

(** One run of the reaper. *)
Definition reap (now : Z) (s : rate_state L) : rate_state L :=
  mkRate (filter (fun p => ~ (10 * ns_per_minute < now - re_lastSeen p.2)%Z) (rs_limiters s))
    (rs_currentLimit s) (rs_currentBurst s).

(** The test [limit != currentLimit || burst != currentBurst]: a NaN differs from
    itself. *)
Definition rate_changed (limit : spec_float) (burst : Z) (s : rate_state L) : bool :=
  negb (SFeqb limit (rs_currentLimit s)) || negb (burst =? rs_currentBurst s)%Z.

(** Whether the request goes on; [sessionID] is [None] where the request has no
    server session. *)
Definition rate_limit (cfg : spec_float * Z) (sessionID : option string) (now : Z)
    (s : rate_state L) : bool * rate_state L :=
  let '(limit, burst) := cfg in
  if SFleb limit f64_zero then (true, s)
  else
    match sessionID with
    | None => (true, s)
    | Some sessionID =>
        if sessionID =?s "" then (true, s)
        else
          let s := if rate_changed limit burst s then mkRate ∅ limit burst else s in
          let limiter :=
            match rs_limiters s !! sessionID with
            | None => NewLimiter limit burst
            | Some entry => re_limiter entry
            end in
          let '(allowed, limiter) := Allow limiter now in
          (allowed, mkRate (<[sessionID := mkEntry limiter now]> (rs_limiters s))
                      (rs_currentLimit s) (rs_currentBurst s))
    end.

(** The handler around [next]; the state of the middleware is beside the world's. *)
Definition rateLimitingMiddleware {W A} (configFn : W -> spec_float * Z) (now : W -> Z)
    (sessionID : option string) (next : ST W (result A)) :
    ST (rate_state L * W) (result A) := fun '(s, w) =>
  let '(allowed, s) := rate_limit (configFn w) sessionID (now w) s in
  if allowed then let '(r, w) := next w in (r, (s, w))
  else (Err (ErrRPC CodeRateLimitExceeded "rate limit exceeded"), (s, w)).

(** A history under one configuration, with the decisions on its requests. *)
Inductive event : Type :=
| Request (sessionID : option string) (now : Z)
| Tick (now : Z).

Fixpoint run (cfg : spec_float * Z) (evs : list event) (s : rate_state L) :
    list (option string * bool) :=
  match evs with
  | [] => []
  | Tick now :: evs => run cfg evs (reap now s)
  | Request id now :: evs =>
      let '(allowed, s) := rate_limit cfg id now s in (id, allowed) :: run cfg evs s
  end.
End RateLimit.

(** * Specification *)

(** What session [id] can observe of a history: its own requests and the ticks. *)
Definition concerns (id : string) (e : event) : bool :=
  match e with Request i _ => bool_decide (i = Some id) | Tick _ => true end.
Definition of_session (id : string) (d : option string * bool) : bool := bool_decide (d.1 = Some id).

Section Specification.
Context {L : Type} (NewLimiter : spec_float -> Z -> L) (Allow : L -> Z -> bool * L).

(** The entry of session [id] as its next request will find it. *)
Definition entry_for (cfg : spec_float * Z) (id : string) (s : rate_state L) :
    option (rateLimiterEntry L) :=
  if rate_changed cfg.1 cfg.2 s then None else rs_limiters s !! id.

(** The limiter of the session, new where there is none. *)
Definition limiter_for (cfg : spec_float * Z) (id : string) (s : rate_state L) : L :=
  match entry_for cfg id s with
  | Some entry => re_limiter entry
  | None => NewLimiter cfg.1 cfg.2
  end.
End Specification.

(** * Lemmas *)

Lemma SFeqb_irrefl_nan x : SFeqb x x = false -> x = S754_nan.
Proof.
  unfold SFeqb, SFcompare. destruct x as [s|s| |s m e]; [done|by destruct s|done|].
  rewrite Z.compare_refl. change (Pos.compare_cont Eq m m) with (m ?= m)%positive.
  rewrite Pos.compare_refl. by destruct s.
Qed.

Section Isolation.
Context {L : Type} (NewLimiter : spec_float -> Z -> L) (Allow : L -> Z -> bool * L).
Implicit Types s : rate_state L.

(** The middleware limits a request when the limit is positive or no number, and
    the session has an id. *)
Lemma rate_limit_limited cfg id now s :
  SFleb cfg.1 f64_zero = false -> id <> "" ->
  let '(allowed, limiter) := Allow (limiter_for NewLimiter cfg id s) now in
  exists limiters, rate_limit NewLimiter Allow cfg (Some id) now s =
    (allowed, mkRate (<[id := mkEntry limiter now]> limiters)
      (if rate_changed cfg.1 cfg.2 s then cfg.1 else rs_currentLimit s)
      (if rate_changed cfg.1 cfg.2 s then cfg.2 else rs_currentBurst s)) /\
    limiters = if rate_changed cfg.1 cfg.2 s then ∅ else rs_limiters s.
Proof.
  destruct cfg as [limit burst]. cbn [fst snd]. intros Hl Hid.
  unfold rate_limit, limiter_for, entry_for. cbn [fst snd].
  rewrite Hl, bool_decide_eq_false_2 by done. cbn zeta.
  destruct (rate_changed limit burst s).
  - cbn [rs_limiters]. rewrite lookup_empty. destruct (Allow _ now) as [a l]. by eexists.
  - destruct (rs_limiters s !! id); destruct (Allow _ now) as [a l]; by eexists.
Qed.

Lemma rate_limit_unlimited cfg id now s :
  SFleb cfg.1 f64_zero = true \/ id = None \/ id = Some "" ->
  rate_limit NewLimiter Allow cfg id now s = (true, s).
Proof.
  destruct cfg as [limit burst]. cbn [fst]. unfold rate_limit.
  intros [-> | [-> | ->]]; [done|..]; by destruct (SFleb _ _).
Qed.

Abbreviation step cfg id now s := (rate_limit NewLimiter Allow cfg id now s).

Lemma entry_reap cfg id now s :
  entry_for cfg id (reap now s) =
  match entry_for cfg id s with
  | Some e => if decide (10 * ns_per_minute < now - re_lastSeen e)%Z then None else Some e
  | None => None
  end.
Proof.
  unfold entry_for. change (rate_changed cfg.1 cfg.2 (reap now s)) with (rate_changed cfg.1 cfg.2 s).
  destruct (rate_changed _ _ s); [done|]. cbn [reap rs_limiters].
  destruct (rs_limiters s !! id) as [e|] eqn:He.
  - destruct (decide _) as [Hd|Hd].
    + apply map_lookup_filter_None. right. intros e' He' Hn. cbn in Hn. congruence.
    + by apply map_lookup_filter_Some.
  - apply map_lookup_filter_None. by left.
Qed.

(** What a limited request does to the entry of a session: nothing to another's,
    and its own is fixed by its limiter. *)
Lemma entry_step cfg i id now s :
  SFleb cfg.1 f64_zero = false -> i <> "" ->
  entry_for cfg id (step cfg (Some i) now s).2 =
  if decide (i = id) then
    (if SFeqb cfg.1 cfg.1 then Some (mkEntry (Allow (limiter_for NewLimiter cfg id s) now).2 now) else None)
  else entry_for cfg id s.
Proof.
  intros Hl Hi. pose proof (rate_limit_limited cfg i now s Hl Hi) as H.
  destruct (Allow (limiter_for NewLimiter cfg i s) now) as [a l] eqn:Ha.
  destruct H as (ls & -> & ->). cbn [snd].
  assert (rate_changed cfg.1 cfg.2 (mkRate ∅ cfg.1 cfg.2 : rate_state L) = negb (SFeqb cfg.1 cfg.1)) as Hself.
  { unfold rate_changed. cbn. by rewrite Z.eqb_refl, orb_false_r. }
  assert (SFeqb cfg.1 cfg.1 = false -> rate_changed cfg.1 cfg.2 s = true) as Hnan.
  { intros Hn%SFeqb_irrefl_nan. unfold rate_changed. by rewrite Hn. }
  unfold entry_for at 1. unfold rate_changed in Hself |- * at 1. cbn [rs_currentLimit rs_currentBurst] in *.
  destruct (rate_changed cfg.1 cfg.2 s) eqn:Hc; rewrite ?Hself.
  - cbn [rs_limiters]. destruct (decide (i = id)) as [->|Hne].
    + rewrite lookup_insert_eq, Ha. by destruct (SFeqb cfg.1 cfg.1).
    + rewrite lookup_insert_ne, lookup_empty by done. unfold entry_for. rewrite Hc.
      by destruct (negb _).
  - fold (rate_changed cfg.1 cfg.2 s). rewrite Hc. cbn [rs_limiters].
    destruct (SFeqb cfg.1 cfg.1) eqn:Hs; [|by discriminate (Hnan eq_refl)].
    destruct (decide (i = id)) as [->|Hne]; [by rewrite lookup_insert_eq, Ha|].
    rewrite lookup_insert_ne by done. unfold entry_for. by rewrite Hc.
Qed.

Lemma limited_dec (cfg : spec_float * Z) (i : option string) :
  (SFleb cfg.1 f64_zero = true \/ i = None \/ i = Some "") \/
  exists id, i = Some id /\ id <> "" /\ SFleb cfg.1 f64_zero = false.
Proof.
  destruct (SFleb _ _); [by do 2 left|]. destruct i as [id|]; [|by left; right; left].
  destruct (decide (id = "")) as [->|]; [by left; right; right|]. right. by exists id.
Qed.

(** A request's decision depends on the state only through its session's entry. *)
Lemma rate_limit_decision cfg i now s s' :
  (forall id, i = Some id -> entry_for cfg id s = entry_for cfg id s') ->
  (step cfg i now s).1 = (step cfg i now s').1.
Proof.
  intros He. destruct (limited_dec cfg i) as [Hu|(id & -> & Hid & Hl)].
  { by rewrite !rate_limit_unlimited. }
  pose proof (rate_limit_limited cfg id now s Hl Hid) as H.
  pose proof (rate_limit_limited cfg id now s' Hl Hid) as H'.
  unfold limiter_for in H, H'. rewrite (He id eq_refl) in H.
  destruct (Allow _ now). destruct H as (? & -> & _), H' as (? & -> & _). done.
Qed.

Lemma entry_step_cong cfg i id now s s' :
  entry_for cfg id s = entry_for cfg id s' ->
  entry_for cfg id (step cfg i now s).2 = entry_for cfg id (step cfg i now s').2.
Proof.
  intros He. destruct (limited_dec cfg i) as [Hu|(j & -> & Hj & Hl)].
  { by rewrite !rate_limit_unlimited. }
  rewrite !entry_step by done. unfold limiter_for. by rewrite He.
Qed.

Lemma entry_step_other cfg i id now s :
  i <> Some id -> entry_for cfg id (step cfg i now s).2 = entry_for cfg id s.
Proof.
  intros Hi. destruct (limited_dec cfg i) as [Hu|(j & -> & Hj & Hl)].
  { by rewrite rate_limit_unlimited. }
  rewrite entry_step by done. by rewrite decide_False by congruence.
Qed.

(** C25. Sessions are isolated: in any history of requests and reaper runs under one
    configuration, whatever it is, the requests of a session are let through exactly
    as if no other session had sent any, from any two states that agree on the
    session. *)
Theorem sessions_isolated cfg id evs s s' :
  entry_for cfg id s = entry_for cfg id s' ->
  List.filter (of_session id) (run NewLimiter Allow cfg evs s) =
  run NewLimiter Allow cfg (List.filter (concerns id) evs) s'.
Proof.
  revert s s'. induction evs as [|[i now|now] evs IH]; intros s s' He; [done| |].
  2: { cbn [run List.filter concerns]. apply IH. by rewrite !entry_reap, He. }
  cbn [run List.filter concerns]. destruct (step cfg i now s) as [a s1] eqn:Hs.
  cbn [List.filter]. unfold of_session at 1. cbn [fst].
  destruct (bool_decide_reflect (i = Some id)) as [->|Hi].
  - cbn [run]. destruct (step cfg (Some id) now s') as [a' s1'] eqn:Hs'.
    pose proof (rate_limit_decision cfg (Some id) now s s') as Hd. rewrite Hs, Hs' in Hd.
    cbn [fst] in Hd. rewrite Hd by (by intros ? [= <-]). f_equal. apply IH.
    pose proof (entry_step_cong cfg (Some id) id now s s' He) as Hc. by rewrite Hs, Hs' in Hc.
  - apply IH. rewrite <- He. pose proof (entry_step_other cfg i id now s Hi) as Ho. by rewrite Hs in Ho.
Qed.

(** A changed configuration takes effect at the next request: it is decided by a new
    limiter for that configuration, whatever the limits before allowed. *)
Lemma changed_configuration (cfg : spec_float * Z) id now s :
  SFleb cfg.1 f64_zero = false -> id <> "" -> rate_changed cfg.1 cfg.2 s = true ->
  (step cfg (Some id) now s).1 = (Allow (NewLimiter cfg.1 cfg.2) now).1.
Proof.
  intros Hl Hid Hc. pose proof (rate_limit_limited cfg id now s Hl Hid) as H.
  unfold limiter_for, entry_for in H. rewrite Hc in H.
  destruct (Allow _ now). by destruct H as (? & -> & _).
Qed.

(** With a limit that is no number, which the validation of the configuration lets
    pass, every request is decided by a new limiter. *)
Lemma nan_limit_never_limits burst id now s :
  id <> "" -> (step (S754_nan, burst) (Some id) now s).1 = (Allow (NewLimiter S754_nan burst) now).1.
Proof. intros Hid. by apply changed_configuration. Qed.

(** A refused request does not reach the handler. *)
Lemma refused_not_handled {W A} (configFn : W -> spec_float * Z) clock id (next : ST W (result A)) s w :
  (step (configFn w) id (clock w) s).1 = false ->
  exists s', rateLimitingMiddleware NewLimiter Allow configFn clock id next (s, w) =
    (Err (ErrRPC CodeRateLimitExceeded "rate limit exceeded"), (s', w)).
Proof.
  unfold rateLimitingMiddleware. destruct (step _ _ _ s) as [a s']. cbn [fst]. intros ->. by exists s'.
Qed.
End Isolation.

(** * Witness: a bucket of one token a second *)

Module RateLimitWitness.
Definition bucket : Type := Z * Z.  (* the tokens left and the time they were counted at *)
Definition NewLimiter (limit : spec_float) (burst : Z) : bucket := (burst, 0%Z).
Definition Allow (b : bucket) (now : Z) : bool * bucket :=
  let tokens := Z.min 2 (b.1 + (now - b.2) / 1000000000) in
  if (0 <? tokens)%Z then (true, ((tokens - 1)%Z, now)) else (false, (tokens, now)).
Definition one : spec_float := S754_finite false 1 0.
Definition history : list event :=
  [Request (Some "a") 0; Request (Some "b") 0; Request (Some "b") 1; Request (Some "b") 2;
   Request (Some "a") 3; Request (Some "a") 4].
End RateLimitWitness.

Example history_decisions :
  run RateLimitWitness.NewLimiter RateLimitWitness.Allow (RateLimitWitness.one, 2%Z)
    RateLimitWitness.history rate_init =
  [(Some "a", true); (Some "b", true); (Some "b", true); (Some "b", false); (Some "a", true);
   (Some "a", false)].
Proof. vm_compute. reflexivity. Qed.

Lemma sessions_isolated_witness :
  let decide_all := run RateLimitWitness.NewLimiter RateLimitWitness.Allow (RateLimitWitness.one, 2%Z) in
  List.filter (of_session "a") (decide_all RateLimitWitness.history rate_init) =
  decide_all [Request (Some "a") 0; Request (Some "a") 3; Request (Some "a") 4] rate_init.
Proof.
  apply (sessions_isolated RateLimitWitness.NewLimiter RateLimitWitness.Allow (RateLimitWitness.one, 2%Z)
    "a" RateLimitWitness.history rate_init rate_init). reflexivity.
Defined.
