(* ===== verification/Watchers.v ===== *)
(** The background watchers: pkg/kubernetes/watcher (kubeconfig files and the state
    of a cluster) and pkg/kcp/workspace_watcher.go.  They share their life cycle and
    the debounced reload; they differ in what they observe.  Times are in
    nanoseconds.  The file-system watcher, the clients and the clock are
    parameters. *)
From S2P Require Import Prelude GoStrings Api.

(** * Definitions *)

Definition Millisecond : Z := 1000000%Z.
Definition Second : Z := (1000 * Millisecond)%Z.
Definition DefaultKubeconfigDebounceWindow : Z := (100 * Millisecond)%Z.
Definition DefaultClusterStatePollInterval : Z := (30 * Second)%Z.
Definition DefaultClusterStateDebounceWindow : Z := (5 * Second)%Z.
Definition DefaultWorkspacePollInterval : Z := (60 * Second)%Z.
Definition DefaultWorkspaceDebounceWindow : Z := (5 * Second)%Z.

(** A duration that an environment variable may override. *)
Definition env_duration (Getenv : string -> string) (name : string) (deflt : Z) : Z :=
  let v := Getenv name in
  if v ≠?s "" then
    match Atoi v with
    | Some ms => if (0 <? ms)%Z then wrap64 (ms * Millisecond) else deflt
    | None => deflt
    end
  else deflt.

Definition kubeconfig_window (Getenv : string -> string) : Z :=
  env_duration Getenv "KUBECONFIG_DEBOUNCE_WINDOW_MS" DefaultKubeconfigDebounceWindow.
Definition cluster_durations (Getenv : string -> string) : Z * Z :=
  (env_duration Getenv "CLUSTER_STATE_POLL_INTERVAL_MS" DefaultClusterStatePollInterval,
   env_duration Getenv "CLUSTER_STATE_DEBOUNCE_WINDOW_MS" DefaultClusterStateDebounceWindow).
Definition workspace_durations (Getenv : string -> string) : Z * Z :=
  (env_duration Getenv "WORKSPACE_POLL_INTERVAL_MS" DefaultWorkspacePollInterval,
   env_duration Getenv "WORKSPACE_DEBOUNCE_WINDOW_MS" DefaultWorkspaceDebounceWindow).

(** ** What the watchers observe *)

(** The loop over the indices, once the lengths are equal; an index out of range
    would panic. *)
Fixpoint differs_at (current last : list string) : bool :=
  match current, last with
  | c :: current, l :: last => if c ≠?s l then true else differs_at current last
  | _, _ => false
  end.
Definition lists_changed (current last : list string) : bool :=
  if negb (Nat.eqb (length current) (length last)) then true else differs_at current last.

Record clusterState := mkClusterState { cs_apiGroups : list string; cs_isOpenShift : bool }.
#[export] Instance clusterState_eq_dec : EqDecision clusterState.
Proof. solve_decision. Defined.

Definition cluster_changed (current last : clusterState) : bool :=
  let changed :=
    negb (Bool.eqb (cs_isOpenShift current) (cs_isOpenShift last)) ||
    negb (Nat.eqb (length (cs_apiGroups current)) (length (cs_apiGroups last))) in
  if negb changed then differs_at (cs_apiGroups current) (cs_apiGroups last) else changed.

Section Discovery.
Context {W : Type}.
(** The discovery client: group versions with the kinds of their resources. *)
Record DiscoveryClient := mkDiscovery {
  dc_ServerGroups : ST W (result (list string));
  dc_ResourcesForGroupVersion : string -> ST W (result (list string));
}.

(** pkg/api/kubernetes.go *)
Fixpoint HasGVKs (d : DiscoveryClient) (gvks : list GroupVersionKind) : ST W (result bool) := fun w =>
  match gvks with
  | [] => (Ok true, w)
  | gvk :: gvks =>
      let '(r, w) :=
        dc_ResourcesForGroupVersion d (GroupVersion_String (gvk_Group gvk) (gvk_Version gvk)) w in
      match r with
      | Err err => if errors_Is_kind KindNotFound err then (Ok false, w) else (Err err, w)
      | Ok kinds =>
          if existsb (fun k => k =?s gvk_Kind gvk) kinds then HasGVKs d gvks w else (Ok false, w)
      end
  end.

Definition Project_GVK : GroupVersionKind := mkGVK "project.openshift.io" "v1" "Project".

Definition cluster_captureState (d : DiscoveryClient) : ST W clusterState := fun w =>
  let '(groups, w) := dc_ServerGroups d w in
  let apiGroups := match groups with Ok names => sort_strings names | Err _ => [] end in
  let '(hasProject, w) := HasGVKs d [Project_GVK] w in
  (mkClusterState apiGroups (match hasProject with Ok b => b | Err _ => false end), w).

(** The names of the workspaces the tenancy API lists. *)
Definition workspace_captureState (List_names : ST W (result (list string))) : ST W (list string) :=
  fun w =>
  let '(r, w) := List_names w in
  (match r with
   | Ok names => sort_strings (filter (fun n => n <> "") names)
   | Err _ => []
   end, w).
End Discovery.
Arguments DiscoveryClient : clear implicits.

(** ** The debounced reload of the polling watchers

    [pl_timer] is the time at which a scheduled reload runs. *)
Record poller (S : Type) := mkPoller { pl_last : S; pl_timer : option Z }.
Arguments mkPoller {S} _ _.
Arguments pl_last {S} _.
Arguments pl_timer {S} _.

Section Polling.
Context {S : Type} (changed : S -> S -> bool) (window : Z).

(** One tick: a change (re)starts the timer. *)
Definition on_tick (now : Z) (current : S) (p : poller S) : poller S :=
  if changed current (pl_last p) then mkPoller (pl_last p) (Some (now + window)%Z) else p.

(** The function of the timer: [ok] is whether the reload succeeded, [captured] the
    state captured after it. *)
Definition on_timer (ok : bool) (captured : S) (p : poller S) : poller S :=
  mkPoller (if ok then captured else pl_last p) None.

(** A run: ticks every [interval] from [start] on, in an environment that gives the
    state of the cluster and the success of a reload at each time.  A timer that
    is due before the next tick runs at its time.  The reloads are collected. *)
Context (interval : Z) (state_at : Z -> S) (reload_ok : Z -> bool).

Definition one_interval (now : Z) (p : poller S) : list Z * poller S :=
  let p := on_tick now (state_at now) p in
  match pl_timer p with
  | Some d =>
      if (d <? now + interval)%Z then ([d], on_timer (reload_ok d) (state_at d) p) else ([], p)
  | None => ([], p)
  end.

Fixpoint timeline (n : nat) (now : Z) (p : poller S) : list Z * poller S :=
  match n with
  | O => ([], p)
  | Datatypes.S n =>
      let '(l, p) := one_interval now p in
      let '(l', p) := timeline n (now + interval)%Z p in (l ++ l', p)
  end.
End Polling.

(** The debounce of the kubeconfig watcher: every event restarts the timer.  From the
    times of the events, in order, the times of the reloads. *)
Fixpoint kubeconfig_reloads (window : Z) (timer : option Z) (events : list Z) : list Z :=
  match events with
  | [] => match timer with Some d => [d] | None => [] end
  | e :: events =>
      match timer with
      | Some d => if (d <? e)%Z then d :: kubeconfig_reloads window (Some (e + window)%Z) events
                  else kubeconfig_reloads window (Some (e + window)%Z) events
      | None => kubeconfig_reloads window (Some (e + window)%Z) events
      end
  end.

(** ** The life cycle: [Watch] and [Close] around the goroutine

    The goroutine of a started watcher runs, has returned, or was never begun: the
    kubeconfig watcher returns early without files or without a file-system
    watcher.  [lc_closing] is a [Close] that waits for the goroutine. *)
Inductive goroutine : Type := NeverBegun | Running | Returned.
Record life := mkLife {
  lc_started : bool;
  lc_goroutine : goroutine;
  lc_stopClosed : bool;
  lc_closing : bool;
  lc_timer : option Z;
}.
Definition life_init : life := mkLife false NeverBegun false false None.

(** [Watch]; [begins] is whether the goroutine is begun. *)
Definition Watch (begins : bool) (l : life) : life :=
  if lc_started l then l
  else mkLife true (if begins then Running else NeverBegun) (lc_stopClosed l) (lc_closing l) (lc_timer l).

(** When the kubeconfig watcher begins. *)
Definition kubeconfig_begins (files : list string) (fsnotify_ok : bool) : bool :=
  if Nat.eqb (length files) 0 then false else fsnotify_ok.

(** [Close] up to the wait, and after it. *)
Definition Close_begin (l : life) : life :=
  let l := mkLife (lc_started l) (lc_goroutine l) (lc_stopClosed l) (lc_closing l) None in
  if negb (lc_started l) then l
  else if lc_stopClosed l then l
  else mkLife true (lc_goroutine l) true true None.
Definition Close_end (l : life) : life := mkLife false NeverBegun false false (lc_timer l).

(** The interleavings: the goroutine may take one more event before it sees the
    closed channel, and a timer runs once.  [begins] is whether this watcher's goroutine
    can be begun. *)
Inductive life_step (window : Z) (begins : bool) : life -> life -> Prop :=
| LWatch l : life_step window begins l (Watch begins l)
| LEvent now l : lc_goroutine l = Running ->
    life_step window begins l
      (mkLife (lc_started l) Running (lc_stopClosed l) (lc_closing l) (Some (now + window)%Z))
| LReload now l : lc_timer l = Some now ->
    life_step window begins l (mkLife (lc_started l) (lc_goroutine l) (lc_stopClosed l) (lc_closing l) None)
| LStop l : lc_goroutine l = Running -> lc_stopClosed l = true ->
    life_step window begins l (mkLife (lc_started l) Returned true (lc_closing l) (lc_timer l))
| LClose l : lc_closing l = false -> life_step window begins l (Close_begin l)
| LClosed l : lc_closing l = true -> lc_goroutine l = Returned -> life_step window begins l (Close_end l).

(** * Lemmas *)

Lemma differs_at_spec current last :
  length current = length last -> differs_at current last = false <-> current = last.
Proof.
  revert last. induction current as [|c cs IH]; intros [|l ls]; cbn; try done.
  intros [= Hlen]. destruct (bool_decide_reflect (c = l)) as [->|Hne]; cbn [negb].
  - rewrite IH by done. split; congruence.
  - split; [done|congruence].
Qed.

Lemma lists_changed_spec current last : lists_changed current last = false <-> current = last.
Proof.
  unfold lists_changed. destruct (Nat.eqb_spec (length current) (length last)) as [Hl|Hl]; cbn [negb].
  - by apply differs_at_spec.
  - split; [done|congruence].
Qed.

Lemma cluster_changed_spec current last : cluster_changed current last = false <-> current = last.
Proof.
  destruct current as [g o], last as [g' o']. unfold cluster_changed. cbn [cs_apiGroups cs_isOpenShift].
  destruct (Bool.eqb_spec o o') as [->|Ho]; cbn [negb orb]; [|split; [done|congruence]].
  destruct (Nat.eqb_spec (length g) (length g')) as [Hl|Hl]; cbn [negb].
  - rewrite differs_at_spec by done. split; congruence.
  - split; [done|congruence].
Qed.

(** The windows the program ships with are shorter than its intervals, as
    convergence needs. *)
Lemma default_windows :
  (0 < DefaultClusterStateDebounceWindow < DefaultClusterStatePollInterval)%Z /\
  (0 < DefaultWorkspaceDebounceWindow < DefaultWorkspacePollInterval)%Z.
Proof. repeat split; reflexivity. Qed.

Section Convergence.
Context {S : Type} (changed : S -> S -> bool).
Hypothesis changed_spec : forall a b, changed a b = false <-> a = b.
Context (window interval : Z) (Hw : (0 < window < interval)%Z).
Context (state_at : Z -> S) (reload_ok : Z -> bool).

Abbreviation one := (one_interval changed window interval state_at reload_ok).
Abbreviation run := (timeline changed window interval state_at reload_ok).

Lemma one_unchanged now p :
  pl_timer p = None -> state_at now = pl_last p -> one now p = ([], p).
Proof.
  intros Ht Hs. unfold one_interval, on_tick.
  apply changed_spec in Hs. rewrite Hs. by rewrite Ht.
Qed.

Lemma one_changed now p :
  pl_timer p = None -> state_at now <> pl_last p ->
  one now p = ([(now + window)%Z],
    mkPoller (if reload_ok (now + window)%Z then state_at (now + window)%Z else pl_last p) None).
Proof.
  intros Ht Hs. unfold one_interval, on_tick.
  destruct (changed _ _) eqn:Hc; [|by apply changed_spec in Hc].
  cbn [pl_timer]. rewrite (proj2 (Z.ltb_lt _ _)) by lia. reflexivity.
Qed.

Lemma run_settled s1 n now p :
  pl_timer p = None -> pl_last p = s1 -> (forall t, (now <= t)%Z -> state_at t = s1) ->
  run n now p = ([], p).
Proof.
  intros Ht Hl. revert now. induction n as [|n IH]; intros now Hs; [done|]. cbn [timeline].
  rewrite one_unchanged; [|done|rewrite Hs; [done|lia]].
  by rewrite IH by (intros t Hle; apply Hs; lia).
Qed.

End Convergence.

(** With a window of at least an interval, a state that keeps differing from the
    known one is never reloaded: every tick restarts the timer before it runs. *)
Lemma starvation {S} (changed : S -> S -> bool) window interval state_at reload_ok n now (p : poller S) :
  (0 < interval <= window)%Z ->
  (forall t, changed (state_at t) (pl_last p) = true) ->
  (timeline changed window interval state_at reload_ok n now p).1 = [].
Proof.
  intros Hw Hc. revert now p Hc. induction n as [|n IH]; intros now p Hc; [done|]. cbn [timeline].
  unfold one_interval, on_tick. rewrite Hc. cbn [pl_timer].
  rewrite (proj2 (Z.ltb_ge _ _)) by lia.
  specialize (IH (now + interval)%Z (mkPoller (pl_last p) (Some (now + window)%Z)) Hc).
  by destruct (timeline _ _ _ _ _ n _ _) as [l p'].
Qed.

(** Every event is followed by a reload at most a window after the last event of
    its burst: the reloads are the ends of the bursts. *)
Lemma kubeconfig_reloads_last window timer events e :
  exists l, kubeconfig_reloads window timer (events ++ [e]) = l ++ [(e + window)%Z].
Proof.
  revert timer. induction events as [|a events IH]; intros timer; cbn [app kubeconfig_reloads].
  - destruct timer as [d|]; [|by exists []]. destruct (d <? e)%Z; [by exists [d]|by exists []].
  - destruct (IH (Some (a + window)%Z)) as [l Hl]. rewrite Hl.
    destruct timer as [d|]; [|by exists l]. destruct (d <? a)%Z; [by exists (d :: l)|by exists l].
Qed.

(** One reload is left of a burst. *)
Lemma kubeconfig_reloads_burst window e events :
  (0 <= window)%Z -> Sorted Z.le (e :: events) -> (default e (last events) <= e + window)%Z ->
  kubeconfig_reloads window None (e :: events) = [(default e (last events) + window)%Z].
Proof.
  intros Hw Hs Hl. cbn [kubeconfig_reloads]. apply (Sorted_StronglySorted _) in Hs.
  assert (forall f d, (e + window <= d)%Z -> (d <= e + window \/ d = f + window)%Z -> StronglySorted Z.le (f :: events) ->
    (default f (last events) <= e + window)%Z -> (e <= f)%Z -> d = (f + window)%Z ->
    kubeconfig_reloads window (Some d) events = [(default f (last events) + window)%Z]) as Hgen.
  { clear Hs Hl. induction events as [|a events IH]; intros f d Hd1 Hd2 Hs Hl Hf ->; [done|].
    cbn [kubeconfig_reloads].
    assert (default f (last (a :: events)) = default a (last events)) as Ela
      by (rewrite last_cons; by destruct (last events)).
    rewrite Ela in *. apply StronglySorted_inv in Hs as [Hs Hall]. inversion_clear Hall.
    assert (a <= default a (last events))%Z as Ha.
    { apply StronglySorted_inv in Hs as [_ Hall]. destruct (last events) as [x|] eqn:Hx; [|cbn; lia].
      cbn. apply last_Some_elem_of in Hx. rewrite Forall_forall in Hall. by apply Hall. }
    rewrite (proj2 (Z.ltb_ge _ _)) by lia. apply IH; [lia|by right|done|done|lia|done]. }
  apply Hgen; [lia|by left; lia|done|done|lia|done].
Qed.

Section LifeCycle.
Context (window : Z).
Abbreviation steps b := (rtc (life_step window b)).

(** Of a waiting [Close]. *)
Definition life_ok (begins : bool) (l : life) : Prop :=
  (lc_started l = true -> begins = true -> lc_goroutine l <> NeverBegun) /\
  (lc_closing l = true -> lc_started l = true /\ lc_stopClosed l = true) /\
  (begins = false -> lc_goroutine l = NeverBegun).

Lemma life_ok_step begins l l' : life_ok begins l -> life_step window begins l l' -> life_ok begins l'.
Proof.
  intros (Hg & Hc & Hn) Hs.
  destruct Hs as [l|now l Hr|now l Ht|l Hr Hsc|l Hcl|l Hcl Hr]; unfold life_ok, Watch, Close_begin; cbn.
  - destruct (lc_started l) eqn:Hst; [by rewrite Hst; split_and!|]. cbn. split_and!; [by intros _ ->| |by intros ->].
    intros Hcl. by destruct (Hc Hcl).
  - split_and!; [done|done|]. intros Hb. specialize (Hn Hb). congruence.
  - by split_and!.
  - split_and!; [done| |]; [intros Hcl; by destruct (Hc Hcl)|]. intros Hb. specialize (Hn Hb). congruence.
  - destruct (lc_started l) eqn:Hst; cbn; [|by split_and!].
    destruct (lc_stopClosed l) eqn:Hsc; cbn; [by split_and!|]. split_and!; [|done|done].
    intros _. by apply Hg.
  - by split_and!.
Qed.

Lemma life_ok_steps begins l : steps begins life_init l -> life_ok begins l.
Proof.
  intros H. assert (life_ok begins life_init) as Hi by (split_and!; done).
  induction H as [|l l1 l2 Hs _ IH]; [done|]. apply IH. by eapply life_ok_step.
Qed.

(** A [Close] that waits for a watcher whose goroutine was begun returns: in every
    reachable state the goroutine can take the stop and [Close] end, and the
    watcher can then be started again. *)
Theorem Close_returns l :
  rtc (life_step window true) life_init l -> lc_closing l = true ->
  exists l', rtc (life_step window true) l l' /\ lc_closing l' = false /\ lc_started l' = false /\
    lc_stopClosed l' = false /\ lc_goroutine (Watch true l') = Running.
Proof.
  intros Hr Hc. destruct (life_ok_steps true l Hr) as (Hg & Hcl & _). destruct (Hcl Hc) as [Hst Hsc].
  exists (Close_end l). split_and!; [|done..].
  destruct (lc_goroutine l) eqn:E; [by destruct (Hg Hst eq_refl)| |].
  - etrans; [apply rtc_once, LStop; done|]. apply rtc_once.
    apply (LClosed window true (mkLife (lc_started l) Returned true (lc_closing l) (lc_timer l))); done.
  - apply rtc_once. by apply LClosed.
Qed.

(** Without files to watch, or without a file-system watcher, the goroutine is never
    begun although the watcher counts as started: a [Close] then waits for ever. *)
Lemma Close_blocks l :
  rtc (life_step window false) (Close_begin (Watch false life_init)) l -> lc_closing l = true.
Proof.
  intros H. remember (Close_begin (Watch false life_init)) as l0 eqn:E.
  assert (lc_closing l0 = true /\ lc_started l0 = true /\ lc_goroutine l0 = NeverBegun) as Hi by by subst.
  clear E. induction H as [|l0 l1 l2 Hs _ IH]; [by destruct Hi|]. apply IH. clear IH.
  destruct Hi as (Hc & Hst & Hg). destruct Hs; cbn in *; try congruence; try done.
  unfold Watch. by rewrite Hst.
Qed.

(** A watcher that was closed may still reload: an event taken after the channel was
    closed schedules a timer that nothing stops. *)
Lemma reload_after_Close :
  exists l, rtc (life_step window true) life_init l /\ lc_started l = false /\ lc_timer l <> None.
Proof.
  exists (mkLife false NeverBegun false false (Some (5 + window)%Z)). split_and!; [|done..].
  eapply rtc_l; [apply LWatch|]. cbn.
  eapply rtc_l; [apply LClose; done|]. cbn.
  eapply rtc_l; [apply (LEvent window true 5); done|]. cbn.
  eapply rtc_l; [apply LStop; done|]. cbn.
  eapply rtc_l; [apply LClosed; done|]. reflexivity.
Qed.
End LifeCycle.

(** * Witness: a group appears, the first reload fails *)

Module WatchersWitness.
Definition old : clusterState := mkClusterState ["apps"] false.
Definition new : clusterState := mkClusterState ["apps"; "project.openshift.io"] true.
Definition reload_ok (t : Z) : bool := (35 * Second <? t)%Z.
Definition watch (n : nat) :=
  timeline cluster_changed DefaultClusterStateDebounceWindow DefaultClusterStatePollInterval
    (fun _ => new) reload_ok n (30 * Second) (mkPoller old None).
End WatchersWitness.

Example watch_reloads :
  WatchersWitness.watch 4 = ([(35 * Second)%Z; (65 * Second)%Z], mkPoller WatchersWitness.new None).
Proof. vm_compute. reflexivity. Qed.


Lemma Close_returns_witness :
  exists l', rtc (life_step 1 true) (Close_begin (Watch true life_init)) l' /\ lc_closing l' = false.
Proof.
  destruct (Close_returns 1 (Close_begin (Watch true life_init))) as (l' & Hr & Hc & _).
  - eapply rtc_l; [apply LWatch|]. eapply rtc_l; [apply LClose; reflexivity|]. reflexivity.
  - reflexivity.
  - exists l'. split; [exact Hr|exact Hc].
Defined.
