(* ===== verification/Providers.v ===== *)
(** The cluster providers of pkg/kubernetes: their registry (provider_registry.go,
    provider.go), the provider of one cluster (provider_single.go), the provider of
    the contexts of a kubeconfig (provider_kubeconfig.go) and the compatibility
    filter over their managers (provider_gvk_filter.go).  The state of a provider is
    a cell of the world; a call that holds the provider's mutex is one step.  [None]
    is the panic on a nil manager. *)
From Stdlib Require Import Floats.SpecFloat.
From S2P Require Import Prelude GoStrings Api Config SdkTypes TokenExchange Manager UserAuth Watchers.

(** * Definitions *)

(** A part of the world that the program keeps. *)
Class Cell (W S : Type) := {
  cell_get : W -> S;
  cell_put : S -> W -> W;
  cell_get_put : forall s w, cell_get (cell_put s w) = s;
}.
Arguments cell_get {W S _} _.
Arguments cell_put {W S _} _ _.

Definition ClusterProviderKubeConfig : string := "kubeconfig".
Definition ClusterProviderInCluster : string := "in-cluster".
Definition ClusterProviderDisabled : string := "disabled".

(** ** The registry *)

(** [None]: the panic on a strategy registered twice. *)
Definition providerRegistry_register {F : Type} (strategy : string) (factory : F) (r : gmap string F) :
    option (gmap string F) :=
  match r !! strategy with Some _ => None | None => Some (<[strategy := factory]> r) end.
Definition providerRegistry_strategies {F : Type} (r : gmap string F) : list string :=
  sort_strings (map fst (map_to_list r)).
Definition providerRegistry_get {F : Type} (strategy : string) (r : gmap string F) : result F :=
  match r !! strategy with
  | Some factory => Ok factory
  | None =>
      Err (ErrNew (fmt ["no provider registered for strategy '"; strategy; "', available strategies: [";
                        Join (providerRegistry_strategies r) " "; "]"]))
  end.

Section Registry.
Context {W P : Type} (inCluster : W -> bool).

Definition resolveStrategy (cfg : StaticConfig) (w : W) : string :=
  if c_ClusterProviderStrategy cfg ≠?s "" then c_ClusterProviderStrategy cfg
  else if c_KubeConfig cfg ≠?s "" then ClusterProviderKubeConfig
  else if inCluster w then ClusterProviderInCluster
  else ClusterProviderKubeConfig.

(** The provider the factory makes, or that provider behind token exchange, with
    what gives the configuration at each call. *)
Inductive provider : Type :=
| Plain (p : P)
| Exchanging (p : P) (baseConfig : W -> StaticConfig).

Definition NewProvider (factories : gmap string (StaticConfig -> ST W (result P))) (cfg : StaticConfig)
    (oauthState : bool) (baseConfigProvider : option (W -> StaticConfig)) : ST W (result provider) :=
  fun w =>
  match providerRegistry_get (resolveStrategy cfg w) factories with
  | Err err => (Err err, w)
  | Ok factory =>
      let '(p, w) := factory cfg w in
      (match p with
       | Err err => Err err
       | Ok p =>
           if oauthState then
             Ok (Exchanging p (match baseConfigProvider with Some f => f | None => fun _ => cfg end))
           else Ok (Plain p)
       end, w)
  end.
End Registry.

(** ** The provider of one cluster *)

Record singleClusterProvider (C : Type) := mkSingle {
  sp_config : StaticConfig;
  sp_strategy : string;
  sp_manager : option (Manager C);
  sp_watched : option (Manager C);  (* whose configuration and discovery the watchers observe *)
}.
Arguments mkSingle {C} _ _ _ _.
Arguments sp_config {C} _.
Arguments sp_strategy {C} _.
Arguments sp_manager {C} _.
Arguments sp_watched {C} _.

(** ** The provider of the contexts of a kubeconfig *)

Record kubeConfigClusterProvider (C : Type) := mkKubeConfigProvider {
  kp_config : StaticConfig;
  kp_defaultContext : string;
  kp_managers : gmap string (option (Manager C));
  kp_watched : option (Manager C);
}.
Arguments mkKubeConfigProvider {C} _ _ _ _.
Arguments kp_config {C} _.
Arguments kp_defaultContext {C} _.
Arguments kp_managers {C} _.
Arguments kp_watched {C} _.

Section Providers.
Context {W HC C : Type}.
Abbreviation ctx := (request_context HC).
(** The parameters of Manager.v, and the closing of a manager's connections. *)
Context (load_RawConfig : string -> string -> W -> result kubeconfig).
Context (load_ClientConfig : string -> string -> W -> result rest_Config).
Context (build_clients : StaticConfig -> rest_Config -> ST W (result C)) (user_agent : string).
Context (LoadingRules_Load : string -> W -> result kubeconfig).
Context (rest_InClusterConfig : W -> result rest_Config).
Context (Getenv : string -> string) (ParseFloat32 : string -> option spec_float).
Context (Manager_Close : Manager C -> W -> W).

Abbreviation derived := (Derived load_RawConfig build_clients user_agent).
Abbreviation new_kubeconfig_manager :=
  (NewKubeconfigManager load_ClientConfig build_clients user_agent LoadingRules_Load
     rest_InClusterConfig Getenv ParseFloat32).
Abbreviation new_in_cluster_manager :=
  (NewInClusterManager build_clients user_agent rest_InClusterConfig Getenv ParseFloat32).

Definition close_all (ms : list (option (Manager C))) (w : W) : W :=
  foldl (fun w m => match m with Some m => Manager_Close m w | None => w end) w ms.

Section Single.
Context {cell : Cell W (singleClusterProvider C)}.

Definition single_reset : ST W (option error) := fun w =>
  let p : singleClusterProvider C := cell_get w in
  if (c_KubeConfig (sp_config p) ≠?s "") && (sp_strategy p =?s ClusterProviderInCluster) then
    (Some (ErrNew (fmt ["kubeconfig file "; c_KubeConfig (sp_config p);
       " cannot be used with the in-cluster ClusterProviderStrategy"])), w)
  else
    let w := close_all [sp_manager p] w in
    let '(m, w) :=
      if (sp_strategy p =?s ClusterProviderInCluster) || IsInCluster rest_InClusterConfig (sp_config p) w
      then new_in_cluster_manager (sp_config p) w
      else new_kubeconfig_manager (sp_config p) "" w in
    match m with
    | Err err =>
        let w := cell_put (mkSingle (sp_config p) (sp_strategy p) None (sp_watched p)) w in
        (Some (if errors_Is ErrorInClusterNotInCluster err then
                 wrapf (fmt ["server must be deployed in cluster for the "; sp_strategy p;
                             " ClusterProviderStrategy: "]) err
               else err), w)
    | Ok m => (None, cell_put (mkSingle (sp_config p) (sp_strategy p) (Some m) (Some m)) w)
    end.

Definition newSingleClusterProvider (strategy : string) (cfg : StaticConfig) : ST W (option error) :=
  fun w => single_reset (cell_put (mkSingle cfg strategy None None) w).

Definition single_GetDerivedKubernetes (cx : ctx) (target : string) :
    ST W (option (result (Kubernetes C))) := fun w =>
  let p : singleClusterProvider C := cell_get w in
  if target ≠?s "" then
    (Some (Err (wrapf (fmt ["unable to get manager for other context/cluster with "; sp_strategy p;
                            " strategy: "]) ErrUnknownTarget)), w)
  else
    match sp_manager p with
    | None => (None, w)
    | Some m => let '(k, w) := derived m cx w in (Some k, w)
    end.
End Single.

Section KubeConfig.
Context {cell : Cell W (kubeConfigClusterProvider C)}.

Definition kubeconfig_reset : ST W (option error) := fun w =>
  let p : kubeConfigClusterProvider C := cell_get w in
  let '(m, w) := new_kubeconfig_manager (kp_config p) "" w in
  match m with
  | Err err =>
      (Some (if errors_Is ErrorKubeconfigInClusterNotAllowed err then
               ErrWrap [inl "kubeconfig ClusterProviderStrategy is invalid for in-cluster deployments: ";
                 inr err; inl (fmt [nl; nl;
                   "If you intend to connect to a different cluster from within a pod, provide the kubeconfig path explicitly:";
                   nl; "  --kubeconfig /path/to/kubeconfig --cluster-provider kubeconfig"; nl; nl;
                   "This overrides the in-cluster detection and uses the specified kubeconfig file instead.";
                   nl; "See https://github.com/containers/kubernetes-mcp-server/blob/main/docs/configuration.md#cross-cluster-access-from-a-pod"])]
             else err), w)
  | Ok m =>
      match RawConfig load_RawConfig (k_clientCmdConfig (mg_kubernetes m)) w with
      | Err err => (Some err, Manager_Close m w)
      | Ok rawConfig =>
          let defaultContext :=
            match map fst (map_to_list (kc_Contexts rawConfig)) with
            | [name] => if kc_CurrentContext rawConfig =?s "" then name else kc_CurrentContext rawConfig
            | _ => kc_CurrentContext rawConfig
            end in
          let w := close_all (map snd (map_to_list (kp_managers p))) w in
          let managers := <[defaultContext := Some m]> ((fun _ => None) <$> kc_Contexts rawConfig) in
          (None, cell_put (mkKubeConfigProvider (kp_config p) defaultContext managers (Some m)) w)
      end
  end.

Definition newKubeConfigClusterProvider (cfg : StaticConfig) : ST W (option error) := fun w =>
  kubeconfig_reset (cell_put (mkKubeConfigProvider cfg "" ∅ None) w).

Definition managerForContext (kubeContext : string) : ST W (option (result (Manager C))) := fun w =>
  let p : kubeConfigClusterProvider C := cell_get w in
  match kp_managers p !! kubeContext with
  | Some (Some m) => (Some (Ok m), w)
  | _ =>
      match kp_managers p !! kp_defaultContext p with
      | Some (Some baseManager) =>
          let '(m, w) := new_kubeconfig_manager (mg_config baseManager) kubeContext w in
          match m with
          | Err err => (Some (Err (ErrWrap [inr ErrUnknownTarget; inl ": "; inr err])), w)
          | Ok m =>
              (Some (Ok m), cell_put (mkKubeConfigProvider (kp_config p) (kp_defaultContext p)
                 (<[kubeContext := Some m]> (kp_managers p)) (kp_watched p)) w)
          end
      | _ => (None, w)
      end
  end.

Definition kubeconfig_IsMultiTarget (w : W) : bool :=
  Nat.ltb 1 (size (kp_managers (cell_get w : kubeConfigClusterProvider C))).
Definition getTargetsUnsync (w : W) : list string :=
  map fst (map_to_list (kp_managers (cell_get w : kubeConfigClusterProvider C))).

Fixpoint managers_for (names : list string) : ST W (option (result (list (Manager C)))) := fun w =>
  match names with
  | [] => (Some (Ok []), w)
  | cn :: names =>
      let '(m, w) := managerForContext cn w in
      match m with
      | None => (None, w)
      | Some (Err err) => (Some (Err err), w)
      | Some (Ok m) =>
          let '(ms, w) := managers_for names w in
          (match ms with
           | None => None
           | Some (Err err) => Some (Err err)
           | Some (Ok ms) => Some (Ok (m :: ms))
           end, w)
      end
  end.
Definition kubeconfig_GetTargetManagers : ST W (option (result (list (Manager C)))) := fun w =>
  managers_for (getTargetsUnsync w) w.

Definition kubeconfig_GetDerivedKubernetes (cx : ctx) (context : string) :
    ST W (option (result (Kubernetes C))) := fun w =>
  let '(m, w) := managerForContext context w in
  match m with
  | None => (None, w)
  | Some (Err err) => (Some (Err err), w)
  | Some (Ok m) => let '(k, w) := derived m cx w in (Some k, w)
  end.
End KubeConfig.

(** ** The compatibility filter *)

(** The discovery client of a client. *)
Context (discovery : C -> DiscoveryClient W).

Fixpoint any_manager_has (cx : ctx) (gvks : list GroupVersionKind) (mgrs : list (Manager C)) : ST W bool :=
  fun w =>
  match mgrs with
  | [] => (false, w)
  | mgr :: mgrs =>
      let '(k, w) := derived mgr cx w in
      match k with
      | Err _ => (true, w)
      | Ok k =>
          let '(has, w) := HasGVKs (discovery (k_clients k)) gvks w in
          match has with
          | Err _ => (true, w)
          | Ok true => (true, w)
          | Ok false => any_manager_has cx gvks mgrs w
          end
      end
  end.

Definition AnyTargetHasGVKs (GetTargetManagers : ST W (result (list (Manager C)))) (cx : ctx)
    (gvks : list GroupVersionKind) : ST W bool := fun w =>
  match gvks with
  | [] => (true, w)
  | _ =>
      let '(mgrs, w) := GetTargetManagers w in
      match mgrs with
      | Err _ => (true, w)
      | Ok mgrs => any_manager_has cx gvks mgrs w
      end
  end.
End Providers.

(** * Specification *)

Section KubeConfigSpecification.
Context {W C : Type} {cell : Cell W (kubeConfigClusterProvider C)}.

(** The manager of the default context is there. *)
Definition provider_ok (p : kubeConfigClusterProvider C) : Prop :=
  exists m, kp_managers p !! kp_defaultContext p = Some (Some m).

(** Every manager is the one of its context, and keeps the provider's configuration. *)
Definition routed (p : kubeConfigClusterProvider C) : Prop :=
  forall n m, kp_managers p !! n = Some (Some m) ->
    mg_config m = kp_config p /\
    (n <> "" -> k_clientCmdConfig (mg_kubernetes m) = DeferredConfig (c_KubeConfig (kp_config p)) n).
End KubeConfigSpecification.

(** * Lemmas *)

Lemma registry_register_get {F} strategy (f : F) r r' :
  providerRegistry_register strategy f r = Some r' ->
  r !! strategy = None /\ providerRegistry_get strategy r' = Ok f /\
  forall s, s <> strategy -> r' !! s = r !! s.
Proof.
  unfold providerRegistry_register, providerRegistry_get. destruct (r !! strategy) eqn:E; [done|].
  intros [= <-]. rewrite lookup_insert_eq. split_and!; [done|done|]. intros s Hs. by rewrite lookup_insert_ne.
Qed.

Section KubeConfigLemmas.
Context {W HC C : Type} {cell : Cell W (kubeConfigClusterProvider C)}.
Context (load_RawConfig : string -> string -> W -> result kubeconfig).
Context (load_ClientConfig : string -> string -> W -> result rest_Config).
Context (build_clients : StaticConfig -> rest_Config -> ST W (result C)) (user_agent : string).
Context (LoadingRules_Load : string -> W -> result kubeconfig).
Context (rest_InClusterConfig : W -> result rest_Config).
Context (Getenv : string -> string) (ParseFloat32 : string -> option spec_float).
Context (Manager_Close : Manager C -> W -> W).

(** Making clients and closing connections changes neither the provider nor the
    files, and the configuration of a client is what its files hold. *)
Hypothesis build_cell : forall base rc w, cell_get (build_clients base rc w).2 = cell_get w.
Hypothesis close_cell : forall m w, cell_get (Manager_Close m w) = cell_get w.
Hypothesis build_files : forall base rc path w,
  LoadingRules_Load path (build_clients base rc w).2 = LoadingRules_Load path w.
Hypothesis raw_files : forall path context w, load_RawConfig path context w = LoadingRules_Load path w.

Abbreviation new_manager :=
  (NewKubeconfigManager load_ClientConfig build_clients user_agent LoadingRules_Load
     rest_InClusterConfig Getenv ParseFloat32).
Abbreviation reset :=
  (kubeconfig_reset load_RawConfig load_ClientConfig build_clients user_agent LoadingRules_Load
     rest_InClusterConfig Getenv ParseFloat32 Manager_Close).
Abbreviation manager_for :=
  (managerForContext load_ClientConfig build_clients user_agent LoadingRules_Load
     rest_InClusterConfig Getenv ParseFloat32).
Abbreviation derive :=
  (kubeconfig_GetDerivedKubernetes (HC := HC) load_RawConfig load_ClientConfig build_clients user_agent
     LoadingRules_Load rest_InClusterConfig Getenv ParseFloat32).

(** What a new manager is, and what making one leaves alone. *)
Lemma new_manager_spec cfg n w r w' :
  new_manager cfg n w = (r, w') ->
  cell_get w' = cell_get w /\ (forall path, LoadingRules_Load path w' = LoadingRules_Load path w) /\
  forall m, r = Ok m -> mg_config m = cfg /\ exists ctx,
    resolveKubeconfigContext LoadingRules_Load (c_KubeConfig cfg) n w = Ok ctx /\
    k_clientCmdConfig (mg_kubernetes m) = DeferredConfig (c_KubeConfig cfg) ctx.
Proof.
  unfold NewKubeconfigManager. destruct (IsInCluster _ _ _); [by intros [= <- <-]|]. cbn zeta.
  destruct (resolveKubeconfigContext _ _ _ _) as [ctx|] eqn:Hr; [|by intros [= <- <-]].
  destruct (load_ClientConfig _ _ _) as [rc|]; [|by intros [= <- <-]].
  unfold NewManager, NewKubernetes. cbn zeta.
  set (rc' := if _ =?s "" then _ else _).
  pose proof (build_cell cfg rc' w) as Hc. pose proof (build_files cfg rc') as Hf.
  destruct (build_clients cfg rc' w) as [[c|e] w1] eqn:Hb; intros [= <- <-]; cbn [snd] in Hc.
  all: split_and!; [done|intros path; specialize (Hf path w); by rewrite Hb in Hf|].
  - intros m [= <-]. cbn. split; [done|]. by exists ctx.
  - done.
Qed.

Lemma close_all_cell ms w : cell_get (close_all Manager_Close ms w) = cell_get w.
Proof.
  unfold close_all. revert w. induction ms as [|[m|] ms IH]; intros w; cbn; [done| |apply IH].
  rewrite IH. apply close_cell.
Qed.

(** The default context of a provider is the one its first manager is for. *)
Lemma default_context_resolved path (raw : kubeconfig) ctx w :
  LoadingRules_Load path w = Ok raw ->
  resolveKubeconfigContext LoadingRules_Load path "" w = Ok ctx ->
  match map fst (map_to_list (kc_Contexts raw)) with
  | [name] => if kc_CurrentContext raw =?s "" then name else kc_CurrentContext raw
  | _ => kc_CurrentContext raw
  end = ctx.
Proof.
  intros Hl. unfold resolveKubeconfigContext. cbn. rewrite Hl.
  destruct (bool_decide_reflect (kc_CurrentContext raw = "")) as [He|He]; cbn [negb].
  - destruct (map fst _) as [|n [|n' l]]; [done| |done]. by intros [= <-].
  - intros [= <-]. by destruct (map fst _) as [|n [|n' l]].
Qed.

Lemma reset_cases w e w' :
  reset w = (e, w') ->
  match e with
  | Some _ => cell_get w' = (cell_get w : kubeConfigClusterProvider C)
  | None => exists m raw d,
      LoadingRules_Load (c_KubeConfig (kp_config (cell_get w))) w = Ok raw /\
      cell_get w' = mkKubeConfigProvider (kp_config (cell_get w)) d
        (<[d := Some m]> ((fun _ => None) <$> kc_Contexts raw)) (Some m) /\
      mg_config m = kp_config (cell_get w) /\
      k_clientCmdConfig (mg_kubernetes m) = DeferredConfig (c_KubeConfig (kp_config (cell_get w))) d
  end.
Proof.
  unfold kubeconfig_reset. cbn zeta. set (p := cell_get w).
  destruct (new_manager (kp_config p) "" w) as [r w1] eqn:Hm.
  apply new_manager_spec in Hm as (Hc & Hf & Hr).
  destruct r as [m|err]; [|by intros [= <- <-]].
  destruct (Hr m eq_refl) as (Hcfg & ctx & Hres & Hk). rewrite Hk. cbn [RawConfig].
  rewrite raw_files, Hf.
  destruct (LoadingRules_Load (c_KubeConfig (kp_config p)) w) as [raw|err] eqn:Hl.
  - intros [= <- <-]. rewrite cell_get_put. exists m, raw, ctx. split_and!; [done| |done|done].
    by rewrite (default_context_resolved _ _ _ _ Hl Hres).
  - intros [= <- <-]. by rewrite close_cell.
Qed.

Lemma manager_for_cases n w r w' :
  manager_for n w = (r, w') -> provider_ok (cell_get w) ->
  match r with
  | None => False
  | Some (Err _) => cell_get w' = (cell_get w : kubeConfigClusterProvider C)
  | Some (Ok m) =>
      let p : kubeConfigClusterProvider C := cell_get w in
      kp_managers p !! n = Some (Some m) /\ cell_get w' = p \/
      kp_managers p !! n <> Some (Some m) /\
      cell_get w' = mkKubeConfigProvider (kp_config p) (kp_defaultContext p)
        (<[n := Some m]> (kp_managers p)) (kp_watched p) /\
      (routed p -> n <> "" -> mg_config m = kp_config p /\
        k_clientCmdConfig (mg_kubernetes m) = DeferredConfig (c_KubeConfig (kp_config p)) n) /\
      (routed p -> mg_config m = kp_config p)
  end.
Proof.
  unfold managerForContext. cbn zeta. set (p := cell_get w).
  intros H [base Hbase]. rewrite Hbase in H.
  destruct (kp_managers p !! n) as [[m0|]|] eqn:Hn; [injection H as <- <-; by left|..].
  all: destruct (new_manager (mg_config base) n w) as [r1 w1] eqn:Hm;
    apply new_manager_spec in Hm as (Hc & _ & Hr); destruct r1 as [m|err]; injection H as <- <-; [|done].
  all: destruct (Hr m eq_refl) as (Hcfg & ctx & Hres & Hk); right; rewrite cell_get_put;
    split_and!; [congruence|done| |].
  all: intros Hro; try intros Hne; destruct (Hro _ _ Hbase) as [Hb _]; rewrite ?Hk, <- ?Hb; try done.
  all: unfold resolveKubeconfigContext in Hres; rewrite bool_decide_eq_false_2 in Hres by done;
    cbn in Hres; injection Hres as ->; by rewrite Hcfg.
Qed.

Definition kp_inv (p : kubeConfigClusterProvider C) : Prop := provider_ok p /\ routed p.

Lemma manager_for_inv n w :
  kp_inv (cell_get w) -> kp_inv (cell_get (manager_for n w).2) /\ (manager_for n w).1 <> None.
Proof.
  intros [Hok Hro]. destruct (manager_for n w) as [r w'] eqn:H.
  apply manager_for_cases in H; [|done]. cbn [fst snd].
  destruct r as [[m|err]|]; [|by rewrite H|done]. split; [|done]. cbn zeta in H.
  destruct H as [[_ ->]|(Hne & -> & Hk & Hcfg)]; [done|]. destruct Hok as [base Hb]. split.
  - unfold provider_ok. cbn. destruct (decide (n = kp_defaultContext (cell_get w))) as [->|Hd].
    + exists m. by rewrite lookup_insert_eq.
    + exists base. by rewrite lookup_insert_ne.
  - intros n' m'. cbn. destruct (decide (n = n')) as [->|Hn].
    + rewrite lookup_insert_eq. intros [= <-]. split; [by apply Hcfg|]. intros Hx. by apply Hk.
    + rewrite lookup_insert_ne by done. apply Hro.
Qed.

Lemma reset_inv w : (reset w).1 = None -> kp_inv (cell_get (reset w).2).
Proof.
  destruct (reset w) as [e w'] eqn:H. apply reset_cases in H. cbn [fst snd]. intros ->.
  destruct H as (m & raw & d & _ & -> & Hcfg & Hk). split.
  - exists m. cbn. by rewrite lookup_insert_eq.
  - intros n m'. cbn. destruct (decide (d = n)) as [->|Hn].
    + rewrite lookup_insert_eq. by intros [= <-].
    + rewrite lookup_insert_ne, lookup_fmap by done. by destruct (kc_Contexts raw !! n).
Qed.

Lemma Derived_cell (m : Manager C) (cx : request_context HC) w :
  cell_get (Derived load_RawConfig build_clients user_agent m cx w).2 = cell_get w.
Proof.
  unfold Derived. destruct (bearer_token cx); [|by destruct (c_RequireOAuth _)]. cbn zeta.
  destruct (RawConfig _ _ w); [|done]. unfold NewKubernetes. cbn zeta.
  match goal with |- context [build_clients ?b ?rc w] => pose proof (build_cell b rc w) as H;
    destruct (build_clients b rc w) as [[c|e] w1] end; exact H.
Qed.

Lemma derive_inv cx n w :
  kp_inv (cell_get w) -> kp_inv (cell_get (derive cx n w).2) /\ (derive cx n w).1 <> None.
Proof.
  intros H. unfold kubeconfig_GetDerivedKubernetes.
  destruct (manager_for_inv n w H) as [Hi Hn]. destruct (manager_for n w) as [[[m|err]|] w1]; [|done..].
  cbn [fst snd] in *. pose proof (Derived_cell m cx w1) as Hd.
  destruct (Derived _ _ _ m cx w1) as [k w2]. cbn [fst snd] in *. by rewrite Hd.
Qed.

Abbreviation target_managers :=
  (kubeconfig_GetTargetManagers load_ClientConfig build_clients user_agent LoadingRules_Load
     rest_InClusterConfig Getenv ParseFloat32).

Lemma target_managers_inv w :
  kp_inv (cell_get w) -> kp_inv (cell_get (target_managers w).2) /\ (target_managers w).1 <> None.
Proof.
  unfold kubeconfig_GetTargetManagers. generalize (getTargetsUnsync w). intros names.
  revert w. induction names as [|n names IH]; intros w H; cbn [managers_for]; [done|].
  destruct (manager_for_inv n w H) as [Hi Hn]. destruct (manager_for n w) as [[[m|err]|] w1]; [|done..].
  cbn [fst snd] in *. destruct (IH w1 Hi) as [Hi' Hn'].
  destruct (managers_for _ _ _ _ _ _ _ names w1) as [[[ms|err]|] w2]; done.
Qed.

(** The calls of the provider, in any order, and changes of the rest of the world. *)
Inductive kp_step : W -> W -> Prop :=
| KReset w : kp_step w (reset w).2
| KManager n w : kp_step w (manager_for n w).2
| KDerive cx n w : kp_step w (derive cx n w).2
| KManagers w : kp_step w (target_managers w).2
| KWorld w w' : cell_get w' = (cell_get w : kubeConfigClusterProvider C) -> kp_step w w'.

Lemma kp_step_inv w w' : kp_step w w' -> kp_inv (cell_get w) -> kp_inv (cell_get w').
Proof.
  intros Hs H. destruct Hs as [w|n w|cx n w|w|w w' Hc].
  - destruct (reset w) as [[e|] w'] eqn:Hr; cbn [snd].
    + apply reset_cases in Hr. by rewrite Hr.
    + pose proof (reset_inv w) as Hi. rewrite Hr in Hi. by apply Hi.
  - by apply manager_for_inv.
  - by apply derive_inv.
  - by apply target_managers_inv.
  - by rewrite Hc.
Qed.

Lemma kp_steps_inv w w' : rtc kp_step w w' -> kp_inv (cell_get w) -> kp_inv (cell_get w').
Proof. induction 1 as [|w w1 w2 Hs _ IH]; [done|]. intros H. apply IH. by eapply kp_step_inv. Qed.


(** C28. A reload is a transaction: a failed one leaves the provider as it was, so that it
    keeps serving the old contexts; a successful one offers exactly the contexts of
    the file and the default one, of which only the default has its manager yet. *)
Theorem kubeconfig_reset_spec w :
  let p := cell_get w : kubeConfigClusterProvider C in
  let '(e, w') := kubeconfig_reset load_RawConfig load_ClientConfig build_clients user_agent
    LoadingRules_Load rest_InClusterConfig Getenv ParseFloat32 Manager_Close w in
  match e with
  | Some _ => cell_get w' = p
  | None => exists raw m d, LoadingRules_Load (c_KubeConfig (kp_config p)) w = Ok raw /\
      kp_defaultContext (cell_get w') = d /\ kp_config (cell_get w') = kp_config p /\
      (forall n, is_Some (kp_managers (cell_get w') !! n) <-> n = d \/ is_Some (kc_Contexts raw !! n)) /\
      forall n, kp_managers (cell_get w') !! n = Some (Some m) <-> n = d
  end.
Proof.
  cbn zeta. destruct (reset w) as [e w'] eqn:H. apply reset_cases in H. destruct e as [e|]; [done|].
  destruct H as (m & raw & d & Hl & Hw & _ & _). exists raw, m, d. rewrite Hw. cbn.
  split_and!; [done|done|done| |].
  - intros n. destruct (decide (d = n)) as [->|Hn]; [rewrite lookup_insert_eq; naive_solver|].
    rewrite lookup_insert_ne, lookup_fmap, fmap_is_Some by done. naive_solver.
  - intros n. destruct (decide (d = n)) as [->|Hn]; [by rewrite lookup_insert_eq|].
    rewrite lookup_insert_ne, lookup_fmap by done. destruct (kc_Contexts raw !! n); naive_solver.
Qed.
End KubeConfigLemmas.

(** ** The provider of one cluster *)

Section SingleLemmas.
Context {W HC C : Type} {cell : Cell W (singleClusterProvider C)}.
Context (load_RawConfig : string -> string -> W -> result kubeconfig).
Context (load_ClientConfig : string -> string -> W -> result rest_Config).
Context (build_clients : StaticConfig -> rest_Config -> ST W (result C)) (user_agent : string).
Context (LoadingRules_Load : string -> W -> result kubeconfig).
Context (rest_InClusterConfig : W -> result rest_Config).
Context (Getenv : string -> string) (ParseFloat32 : string -> option spec_float).
Context (Manager_Close : Manager C -> W -> W).

Abbreviation reset :=
  (single_reset load_ClientConfig build_clients user_agent LoadingRules_Load rest_InClusterConfig Getenv
     ParseFloat32 Manager_Close).
Abbreviation derive :=
  (single_GetDerivedKubernetes (HC := HC) load_RawConfig build_clients user_agent).

(** Only the target without a name is served. *)
Lemma single_other_target cx target w :
  target <> "" -> exists err, (derive cx target w).1 = Some (Err err) /\ errors_Is ErrUnknownTarget_text err = true.
Proof.
  intros Ht. unfold single_GetDerivedKubernetes. rewrite bool_decide_eq_false_2 by done. cbn [negb].
  eexists. split; [done|reflexivity].
Qed.

(** A failed reload other than the refused in-cluster one leaves no manager: until a
    later reload succeeds, every call of a tool panics. *)
Lemma failed_reset_loses_manager e w cx :
  (reset w).1 = Some e ->
  (c_KubeConfig (sp_config (cell_get w)) = "" \/ sp_strategy (cell_get w) <> ClusterProviderInCluster) ->
  (derive cx "" (reset w).2).1 = None.
Proof.
  intros He Hc. unfold single_reset in *. cbn zeta in *.
  assert ((c_KubeConfig (sp_config (cell_get w)) ≠?s "") &&
          (sp_strategy (cell_get w) =?s ClusterProviderInCluster) = false) as Hg.
  { apply andb_false_iff. destruct Hc as [->|Hs]; [by left|]. right. by apply bool_decide_eq_false_2. }
  rewrite Hg in *.
  match goal with H : context [match ?x with (_, _) => _ end] |- _ => destruct x as [[m|err] w1] end;
    [done|]. unfold single_GetDerivedKubernetes. cbn [snd]. by rewrite cell_get_put.
Qed.
End SingleLemmas.

(** ** The clients the providers hand out are derived from a manager of the target *)

Section Derives.
Context {W HC C : Type}.
Context (load_RawConfig : string -> string -> W -> result kubeconfig).
Context (load_ClientConfig : string -> string -> W -> result rest_Config).
Context (build_clients : StaticConfig -> rest_Config -> ST W (result C)) (user_agent : string).
Context (LoadingRules_Load : string -> W -> result kubeconfig).
Context (rest_InClusterConfig : W -> result rest_Config).
Context (Getenv : string -> string) (ParseFloat32 : string -> option spec_float).

(** A provider as the token-exchanging provider sees it; a panic gives no client. *)
Definition inner_of (f : request_context HC -> string -> ST W (option (result (Kubernetes C))))
    (cx : request_context HC) (target : string) : ST W (result (Kubernetes C)) := fun w =>
  let '(r, w) := f cx target w in
  (match r with Some r => r | None => Err (ErrNew "panic") end, w).

#[export] Instance kubeconfig_derives {cell : Cell W (kubeConfigClusterProvider C)} :
  DerivesClients load_RawConfig build_clients user_agent
    (inner_of (kubeconfig_GetDerivedKubernetes load_RawConfig load_ClientConfig build_clients user_agent
       LoadingRules_Load rest_InClusterConfig Getenv ParseFloat32))
    (fun target m => exists w w', managerForContext load_ClientConfig build_clients user_agent
       LoadingRules_Load rest_InClusterConfig Getenv ParseFloat32 target w = (Some (Ok m), w')).
Proof.
  intros cx target w k w'. unfold inner_of, kubeconfig_GetDerivedKubernetes.
  destruct (managerForContext _ _ _ _ _ _ _ target w) as [[[m|e]|] w1] eqn:Hm; [|done..].
  destruct (Derived _ _ _ m cx w1) as [k' w2] eqn:Hd. intros [= -> ->].
  exists m, w1, w'. split; [by exists w, w1|done].
Qed.

#[export] Instance single_derives {cell : Cell W (singleClusterProvider C)} :
  DerivesClients load_RawConfig build_clients user_agent
    (inner_of (single_GetDerivedKubernetes load_RawConfig build_clients user_agent))
    (fun target m => target = "" /\ exists w, sp_manager (cell_get w) = Some m).
Proof.
  intros cx target w k w'. unfold inner_of, single_GetDerivedKubernetes.
  destruct (bool_decide_reflect (target = "")) as [Ht|Ht]; cbn [negb]; [|done].
  destruct (sp_manager (cell_get w)) as [m|] eqn:Hm; [|done].
  destruct (Derived _ _ _ m cx w) as [k' w2] eqn:Hd. intros [= -> ->].
  exists m, w, w'. split; [|done]. split; [done|by exists w].
Qed.
End Derives.

(** ** The compatibility filter *)

Section FilterLemmas.
Context {W HC C : Type}.
Context (load_RawConfig : string -> string -> W -> result kubeconfig).
Context (build_clients : StaticConfig -> rest_Config -> ST W (result C)) (user_agent : string).
Context (discovery : C -> DiscoveryClient W).

(** A run over the managers in which each answers that it lacks a kind. *)
Fixpoint all_lack (cx : request_context HC) gvks (mgrs : list (Manager C)) (w : W) : Prop :=
  match mgrs with
  | [] => True
  | mgr :: mgrs => exists k w1 w2,
      Derived load_RawConfig build_clients user_agent mgr cx w = (Ok k, w1) /\
      HasGVKs (discovery (k_clients k)) gvks w1 = (Ok false, w2) /\ all_lack cx gvks mgrs w2
  end.

(** Tools are hidden for want of kinds only on evidence: all managers are known, all
    of them answer, and each of them lacks one of the kinds.  Any error keeps the
    tools. *)
Theorem AnyTargetHasGVKs_false get (cx : request_context HC) gvks w :
  (AnyTargetHasGVKs load_RawConfig build_clients user_agent discovery get cx gvks w).1 = false <->
  gvks <> [] /\ exists mgrs w1, get w = (Ok mgrs, w1) /\ all_lack cx gvks mgrs w1.
Proof.
  unfold AnyTargetHasGVKs. destruct gvks as [|g gvks]; [cbn; naive_solver|].
  destruct (get w) as [[mgrs|e] w1]; [|cbn; naive_solver].
  assert (forall w1, (any_manager_has load_RawConfig build_clients user_agent discovery cx (g :: gvks)
    mgrs w1).1 = false <-> all_lack cx (g :: gvks) mgrs w1) as H; [|rewrite H; naive_solver].
  clear w1. induction mgrs as [|m mgrs IH]; intros w1; cbn [any_manager_has all_lack]; [done|].
  destruct (Derived _ _ _ m cx w1) as [[k|e] w2]; [|by split; [|intros (?&?&?&[=]&_)]].
  destruct (HasGVKs _ _ w2) as [[[]|e] w3] eqn:Hh.
  2: { rewrite IH. split; [by intros H; exists k, w2, w3|].
       intros (k' & w2' & w3' & [= <- <-] & Hh' & H). rewrite Hh in Hh'. by injection Hh' as <-. }
  all: split; [done|]; intros (k' & w2' & w3' & [= <- <-] & Hh' & _); by rewrite Hh in Hh'.
Qed.

(** With a discovery that only reads, [HasGVKs] is the presence of every kind. *)
Lemma HasGVKs_true (d : DiscoveryClient W) (kinds : string -> result (list string)) gvks w :
  (forall gv w, dc_ResourcesForGroupVersion d gv w = (kinds gv, w)) ->
  (HasGVKs d gvks w).1 = Ok true <->
  forall g, g ∈ gvks -> exists l,
    kinds (GroupVersion_String (gvk_Group g) (gvk_Version g)) = Ok l /\ gvk_Kind g ∈ l.
Proof.
  intros Hd. induction gvks as [|g gvks IH]; cbn [HasGVKs]; [set_solver|]. rewrite Hd.
  setoid_rewrite elem_of_cons. destruct (kinds _) as [l|e] eqn:Hk.
  - destruct (existsb _ l) eqn:Hx.
    + rewrite IH. apply existsb_spec in Hx as (x & Hx & ->%bool_decide_eq_true).
      split; [intros H g' [->|Hin]; [by exists l|by apply H]|intros H g' Hin; apply H; by right].
    + split; [done|]. intros H. destruct (H g (or_introl eq_refl)) as (l' & Hl & Hin).
      assert (existsb (fun k => k =?s gvk_Kind g) l = true) as Ht; [|congruence].
      apply existsb_spec. exists (gvk_Kind g). split; [congruence|by apply bool_decide_eq_true].
  - split; [by destruct (errors_Is_kind _ _)|]. intros H. destruct (H g (or_introl eq_refl)) as (l' & Hl & _).
    congruence.
Qed.
End FilterLemmas.

(** * Witness: a kubeconfig with two contexts *)

Module ProvidersWitness.
Record world := mkWorld { wd_provider : kubeConfigClusterProvider unit; wd_file : kubeconfig }.
#[global] Program Instance world_cell : Cell world (kubeConfigClusterProvider unit) :=
  {| cell_get := wd_provider; cell_put := fun p w => mkWorld p (wd_file w) |}.
Next Obligation. done. Qed.
Definition file : kubeconfig :=
  mkKubeconfig {[ "c" := mkCluster "https://c" false "" "" ]} ∅
    {[ "a" := mkContext "c" "user"; "b" := mkContext "c" "user" ]} "a".
Definition Load (path : string) (w : world) : result kubeconfig := Ok (wd_file w).
Definition LoadClient (path context : string) (w : world) : result rest_Config :=
  Ok (mkRestConfig "https://c" "" false "" "" "" (bearer_credentials "") "" f64_zero 0 0).
Definition build (base : StaticConfig) (rc : rest_Config) : ST world (result unit) := fun w => (Ok tt, w).
Definition new : option error * world :=
  newKubeConfigClusterProvider (fun path _ => Load path) LoadClient build "go" Load
    (fun _ => Err (ErrNew "no")) (fun _ => "") (fun _ => None) (fun _ w => w) BaseDefault
    (mkWorld (mkKubeConfigProvider BaseDefault "" ∅ None) file).
End ProvidersWitness.


Lemma kubeconfig_reset_spec_witness :
  exists d, forall n, is_Some (kp_managers (ProvidersWitness.wd_provider ProvidersWitness.new.2) !! n) <->
    n = d \/ is_Some (kc_Contexts ProvidersWitness.file !! n).
Proof.
  pose proof (kubeconfig_reset_spec (fun path _ => ProvidersWitness.Load path)
    ProvidersWitness.LoadClient ProvidersWitness.build "go" ProvidersWitness.Load
    (fun _ => Err (ErrNew "no")) (fun _ => "") (fun _ => None) (fun _ w => w)
    (fun _ _ _ => eq_refl) (fun _ _ => eq_refl) (fun _ _ _ _ => eq_refl) (fun _ _ _ => eq_refl)
    (ProvidersWitness.mkWorld (mkKubeConfigProvider BaseDefault "" ∅ None) ProvidersWitness.file)) as H.
  cbn zeta in H.
  change (kubeconfig_reset _ _ _ _ _ _ _ _ _ _) with ProvidersWitness.new in H.
  assert (ProvidersWitness.new.1 = None) as Hn by (vm_compute; reflexivity).
  destruct ProvidersWitness.new as [e w']. cbn [fst snd] in *. subst e.
  destruct H as (raw & m & d & Hl & _ & _ & Hd & _). exists d. injection Hl as <-. exact Hd.
Defined.
