(* ===== verification/AcmHub.v ===== *)
(** The provider of the clusters an ACM hub manages
    (pkg/kubernetes/provider_acm_hub.go): its configuration, the discovery and the
    watch of the managed clusters, the managers that reach them through the cluster
    proxy, and the token exchange per cluster.  The API of the hub and the TOML
    decoder are parameters. *)
From Stdlib Require Import Floats.SpecFloat.
From S2P Require Import Prelude GoStrings Paths Api Config Http SdkTypes OAuthState TokenExchange Manager UserAuth Watchers Providers.

(** * Definitions *)

(** ** Configuration *)

Definition ACMHubTargetParameterName : string := "cluster".
Definition ClusterProviderACM : string := "acm".
Definition ClusterProviderACMKubeConfig : string := "acm-kubeconfig".
Definition LocalClusterLabel : string := "local-cluster".
Definition TokenTypeJWT : string := "urn:ietf:params:oauth:token-type:jwt".

Record ACMProviderConfig := mkACM {
  acm_ClusterProxyAddonHost : string;
  acm_ClusterProxyAddonSkipTLSVerify : bool;
  acm_ClusterProxyAddonCAFile : string;
  acm_TokenExchangeStrategy : string;
  acm_Clusters : gmap string (TargetTokenExchangeConfig StaticConfig);
}.

(** [errors.Join]: nil when all are nil. *)
Definition errors_Join (errs : list (option error)) : option error :=
  match omap id errs with [] => None | errs => Some (ErrJoin errs) end.

Definition ACM_Validate (c : ACMProviderConfig) : option error :=
  if negb (acm_ClusterProxyAddonSkipTLSVerify c) && (acm_ClusterProxyAddonCAFile c =?s "") then
    errors_Join [None; Some (ErrNew "cluster_proxy_addon_ca_file is required if tls verification is not disabled")]
  else None.

Definition ResolveClusterProxyAddonCAFilePath (dir : string) (c : ACMProviderConfig) : ACMProviderConfig :=
  mkACM (acm_ClusterProxyAddonHost c) (acm_ClusterProxyAddonSkipTLSVerify c)
    (filepath_Join [dir; acm_ClusterProxyAddonCAFile c]) (acm_TokenExchangeStrategy c) (acm_Clusters c).

Record ACMKubeConfigProviderConfig := mkACMKubeConfig {
  akc_ACM : ACMProviderConfig;
  akc_ContextName : string;
}.

Definition ACMKubeConfig_Validate (c : ACMKubeConfigProviderConfig) : option error :=
  let err := ACM_Validate (akc_ACM c) in
  if akc_ContextName c =?s "" then
    errors_Join [err; Some (ErrNew "context_name is required if acm-kubeconfig strategy is used")]
  else err.

(** The decoder gives the configuration or its error. *)
Definition parseAcmConfig (dir : string) (decoded : result (ACMProviderConfig)) :
    result (ACMProviderConfig) :=
  match decoded with
  | Err err => Err err
  | Ok cfg => Ok (ResolveClusterProxyAddonCAFilePath dir cfg)
  end.
Definition parseAcmKubeConfigConfig (dir : string) (decoded : result (ACMKubeConfigProviderConfig)) :
    result (ACMKubeConfigProviderConfig) :=
  match decoded with
  | Err err => Err err
  | Ok cfg => Ok (mkACMKubeConfig (ResolveClusterProxyAddonCAFilePath dir (akc_ACM cfg)) (akc_ContextName cfg))
  end.

(** ** The hub's API *)

Record managed_cluster := mkManagedCluster {
  mc_Name : string;
  mc_Labels : gmap string string;
  mc_ResourceVersion : string;
}.
Definition is_local (c : managed_cluster) : bool :=
  default "" (mc_Labels c !! LocalClusterLabel) =?s "true".

Inductive watch_event : Type :=
| Added (c : managed_cluster)
| Modified (c : managed_cluster)
| Deleted (c : managed_cluster)
| OtherEvent (c : managed_cluster)   (* a bookmark *)
| NotUnstructured.                   (* the status object of an error *)

(** ** The provider *)

Record acmHubClusterProvider (C : Type) := mkAcmProvider {
  ah_hubManager : Manager C;
  ah_clusterProxyHost : string;
  ah_skipTLSVerify : bool;
  ah_clusterProxyCAFile : string;
  ah_watchKubeConfig : bool;
  ah_targetTokenConfigs : gmap string (TargetTokenExchangeConfig StaticConfig);
  ah_exchangeStrategy : string;
  ah_clusterManagers : gmap string (option (Manager C));
  ah_hubClusterName : string;
}.
Arguments mkAcmProvider {C} _ _ _ _ _ _ _ _ _.
Arguments ah_hubManager {C} _.
Arguments ah_clusterProxyHost {C} _.
Arguments ah_skipTLSVerify {C} _.
Arguments ah_clusterProxyCAFile {C} _.
Arguments ah_watchKubeConfig {C} _.
Arguments ah_targetTokenConfigs {C} _.
Arguments ah_exchangeStrategy {C} _.
Arguments ah_clusterManagers {C} _.
Arguments ah_hubClusterName {C} _.

Section State.
Context {C : Type}.
Implicit Types p : acmHubClusterProvider C.

Definition with_managers (ms : gmap string (option (Manager C))) p : acmHubClusterProvider C :=
  mkAcmProvider (ah_hubManager p) (ah_clusterProxyHost p) (ah_skipTLSVerify p) (ah_clusterProxyCAFile p)
    (ah_watchKubeConfig p) (ah_targetTokenConfigs p) (ah_exchangeStrategy p) ms (ah_hubClusterName p).
Definition with_tokens (ts : gmap string (TargetTokenExchangeConfig StaticConfig)) p : acmHubClusterProvider C :=
  mkAcmProvider (ah_hubManager p) (ah_clusterProxyHost p) (ah_skipTLSVerify p) (ah_clusterProxyCAFile p)
    (ah_watchKubeConfig p) ts (ah_exchangeStrategy p) (ah_clusterManagers p) (ah_hubClusterName p).

Definition setHubClusterName (name : string) p : acmHubClusterProvider C :=
  mkAcmProvider (ah_hubManager p) (ah_clusterProxyHost p) (ah_skipTLSVerify p) (ah_clusterProxyCAFile p)
    (ah_watchKubeConfig p) (ah_targetTokenConfigs p) (ah_exchangeStrategy p) (ah_clusterManagers p) name.
Definition addCluster (name : string) p : acmHubClusterProvider C :=
  match ah_clusterManagers p !! name with
  | Some _ => p
  | None => with_managers (<[name := None]> (ah_clusterManagers p)) p
  end.
Definition removeCluster (name : string) p : acmHubClusterProvider C :=
  with_managers (delete name (ah_clusterManagers p)) p.

Definition acm_IsMultiTarget p : bool := Nat.ltb 1 (size (ah_clusterManagers p)).
Definition acm_GetDefaultTarget p : string :=
  if ah_hubClusterName p =?s "" then "local-cluster" else ah_hubClusterName p.
Definition acm_GetTargets p : list string :=
  sort_strings (map fst (map_to_list (ah_clusterManagers p))).

(** One listed cluster, and the listing. *)
Definition list_item p (item : managed_cluster) : acmHubClusterProvider C :=
  let p := if mc_Name item ≠?s "" then addCluster (mc_Name item) p else p in
  if is_local item then setHubClusterName (mc_Name item) p else p.
Definition refreshClusters (listed : result (list managed_cluster * string)) p :
    result string * acmHubClusterProvider C :=
  match listed with
  | Err err => (Err (wrapf "failed to list cluster managers: " err), p)
  | Ok (items, resourceVersion) => (Ok resourceVersion, foldl list_item p items)
  end.

(** One event of the watch: the resource version and the provider after it, and
    whether the callback is called. *)
Definition watch_event_step (e : watch_event) (resourceVersion : string) p :
    string * acmHubClusterProvider C * bool :=
  match e with
  | NotUnstructured => (resourceVersion, p, false)
  | Added c =>
      let p := addCluster (mc_Name c) p in
      (mc_ResourceVersion c, if is_local c then setHubClusterName (mc_Name c) p else p, true)
  | Deleted c => (mc_ResourceVersion c, removeCluster (mc_Name c) p, true)
  | Modified c | OtherEvent c => (mc_ResourceVersion c, p, false)
  end.

(** ** Token exchange per cluster *)

Definition detectSubjectTokenType (target : string) (targetCfg : TargetTokenExchangeConfig StaticConfig) p : string :=
  let defaultTarget := acm_GetDefaultTarget p in
  let by_name := if target =?s defaultTarget then TokenTypeAccessToken else TokenTypeJWT in
  match ah_targetTokenConfigs p !! defaultTarget with
  | Some hubCfg =>
      if (tc_TokenURL hubCfg ≠?s "") && (tc_TokenURL targetCfg ≠?s "") then
        if tc_TokenURL targetCfg =?s tc_TokenURL hubCfg then TokenTypeAccessToken else TokenTypeJWT
      else by_name
  | None => by_name
  end.

Definition set_SubjectTokenType (t : string) (c : TargetTokenExchangeConfig StaticConfig) : TargetTokenExchangeConfig StaticConfig :=
  mkTarget (tc_TokenURL c) (tc_ClientID c) (tc_ClientSecret c) (tc_Audience c) t
    (tc_RequestedTokenType c) (tc_SubjectIssuer c) (tc_Scopes c) (tc_CAFile c) (tc_AuthStyle c)
    (tc_ClientCertFile c) (tc_ClientKeyFile c) (tc_AssertionLifetime c) (tc_FederatedTokenFile c)
    (tc_TLSMinVersion c) (tc_TLSCipherSuites c) (tc_client c) (tc_clientCAFile c)
    (tc_clientTLSMinVersion c) (tc_clientTLSCipherSuites c) (tc_requireTLS c).

(** The name under which a target's configuration is kept. *)
Definition token_target (target : string) p : string :=
  if target =?s "" then acm_GetDefaultTarget p else target.

(** The pointer handed out is the configuration that is kept, with the detected
    type written into it. *)
Definition GetTokenExchangeConfig (target : string) p :
    option (TargetTokenExchangeConfig StaticConfig) * acmHubClusterProvider C :=
  let target := token_target target p in
  match ah_targetTokenConfigs p !! target with
  | None => (None, p)
  | Some cfg =>
      let cfg :=
        if tc_SubjectTokenType cfg =?s "" then set_SubjectTokenType (detectSubjectTokenType target cfg p) cfg
        else cfg in
      (Some cfg, with_tokens (<[target := cfg]> (ah_targetTokenConfigs p)) p)
  end.
End State.

(** ** Managers of clusters *)

Section Managers.
Context {W HC C : Type} {cell : Cell W (acmHubClusterProvider C)}.
Context (load_RawConfig : string -> string -> W -> result kubeconfig).
Context (build_clients : StaticConfig -> rest_Config -> ST W (result C)) (user_agent : string).
Context (Getenv : string -> string) (ParseFloat32 : string -> option spec_float).

(** Replacing [TLSClientConfig] drops the client certificate and the server name. *)
Definition without_client_cert (c : credentials) : credentials :=
  mkCredentials (cr_Username c) (cr_Password c) (cr_BearerToken c) (cr_BearerTokenFile c) "" "" "" ""
    (cr_ExecProvider c) (cr_AuthProvider c) (cr_Impersonate c).
Definition proxy_rest_config (p : acmHubClusterProvider C) (proxyHost : string) (c : rest_Config) : rest_Config :=
  mkRestConfig proxyHost (rc_APIPath c) (ah_skipTLSVerify p) ""
    (if ah_skipTLSVerify p then "" else ah_clusterProxyCAFile p) "" (without_client_cert (rc_Credentials c))
    (rc_UserAgent c) (rc_QPS c) (rc_Burst c) (rc_Timeout c).
Definition proxy_cluster (p : acmHubClusterProvider C) (proxyHost : string) (c : kube_cluster) : kube_cluster :=
  if ah_skipTLSVerify p then mkCluster proxyHost true "" ""
  else mkCluster proxyHost false (ah_clusterProxyCAFile p) "".
Definition proxy_host (p : acmHubClusterProvider C) (cluster : string) : string :=
  fmt ["https://"; ah_clusterProxyHost p; "/"; cluster].

(** The manager of a cluster, made outside the mutex. *)
Definition make_cluster_manager (cluster : string) : ST W (result (Manager C)) := fun w =>
  let p : acmHubClusterProvider C := cell_get w in
  let hub := mg_kubernetes (ah_hubManager p) in
  let proxyHost := proxy_host p cluster in
  let proxyConfig := proxy_rest_config p proxyHost (k_restConfig hub) in
  match RawConfig load_RawConfig (k_clientCmdConfig hub) w with
  | Err err => (Err (wrapf "failed to get hub kubeconfig: " err), w)
  | Ok raw =>
      let proxyRawConfig :=
        mkKubeconfig (proxy_cluster p proxyHost <$> kc_Clusters raw) (kc_AuthInfos raw) (kc_Contexts raw)
          (kc_CurrentContext raw) in
      let '(m, w) :=
        NewManager build_clients user_agent Getenv ParseFloat32 (mg_config (ah_hubManager p)) proxyConfig
          (DefaultConfig proxyRawConfig "") w in
      (match m with
       | Err err => Err (wrapf (fmt ["failed to create manager for cluster "; cluster; ": "]) err)
       | Ok m => Ok m
       end, w)
  end.

(** The two critical sections of [managerForCluster]: the look-up, which answers or
    asks for a new manager, and the publication of the new one. *)
Definition manager_lookup (cluster : string) (p : acmHubClusterProvider C) : option (result (Manager C)) :=
  match ah_clusterManagers p !! cluster with
  | Some (Some manager) => Some (Ok manager)
  | None => Some (Err (ErrNew (fmt ["cluster "; cluster; " not found"])))
  | Some None => None
  end.
Definition manager_publish (cluster : string) (newManager : Manager C) (p : acmHubClusterProvider C) :
    Manager C * acmHubClusterProvider C :=
  match ah_clusterManagers p !! cluster with
  | Some (Some existing) => (existing, p)
  | _ => (newManager, with_managers (<[cluster := Some newManager]> (ah_clusterManagers p)) p)
  end.

(** [managerForCluster] when nothing comes between. *)
Definition managerForCluster (cluster : string) : ST W (result (Manager C)) := fun w =>
  match manager_lookup cluster (cell_get w) with
  | Some r => (r, w)
  | None =>
      let '(m, w) := make_cluster_manager cluster w in
      match m with
      | Err err => (Err err, w)
      | Ok m => let '(m, p) := manager_publish cluster m (cell_get w) in (Ok m, cell_put p w)
      end
  end.

Definition acm_GetDerivedKubernetes (cx : request_context HC) (target : string) :
    ST W (result (Kubernetes C)) := fun w =>
  let p : acmHubClusterProvider C := cell_get w in
  let derive m := Derived load_RawConfig build_clients user_agent m cx in
  if (target =?s "") || (target =?s acm_GetDefaultTarget p) then derive (ah_hubManager p) w
  else
    let '(m, w) := managerForCluster target w in
    match m with
    | Err err => (Err err, w)
    | Ok m => derive m w
    end.

(** The provider as [TokenExchangeProvider] (UserAuth.v). *)
Definition acm_token_exchange : TokenExchangeProvider W :=
  {| tep_GetConfig := fun target w => (GetTokenExchangeConfig target (cell_get w)).1;
     tep_Put := fun target c w =>
       let p : acmHubClusterProvider C := cell_get w in
       cell_put (with_tokens (<[token_target target p := c]> (ah_targetTokenConfigs p)) p) w;
     tep_Strategy := fun w => ah_exchangeStrategy (cell_get w : acmHubClusterProvider C) |}.

(** ** The watch of the managed clusters *)

Definition initialDelay : Z := Second.
Definition maxDelay : Z := (5 * 60 * Second)%Z.

(** The delay after a failed attempt: doubled as a float64, which is exact here. *)
Definition next_delay (delay : Z) : Z := Z.min (delay * 2) maxDelay.

(** The loop, as the outcomes of its attempts to open the watch: an error, or the
    events until it closes.  The delays slept are collected with the number of
    callbacks; the callback itself, which may change the world, is [reload]. *)
Context (reload : W -> W).
Fixpoint watch_events (events : list watch_event) (rv : string) (w : W) : string * W :=
  match events with
  | [] => (rv, w)
  | e :: events =>
      let '(rv, p, callback) := watch_event_step e rv (cell_get w) in
      let w := cell_put p w in
      watch_events events rv (if callback then reload w else w)
  end.
Fixpoint watchManagedClusters (attempts : list (option (list watch_event))) (delay : Z) (rv : string) (w : W) :
    list Z * string * W :=
  match attempts with
  | [] => ([], rv, w)
  | None :: attempts =>
      let '(slept, rv, w) := watchManagedClusters attempts (next_delay delay) rv w in
      (delay :: slept, rv, w)
  | Some events :: attempts =>
      let '(rv, w) := watch_events events rv w in
      watchManagedClusters attempts initialDelay rv w
  end.
End Managers.

(** ** Construction *)

(** [ServerGroupsAndResources]: group versions with the kinds of their resources. *)
Definition IsACMHub (apiLists : result (list (string * list string))) : bool :=
  match apiLists with
  | Err _ => false
  | Ok lists =>
      existsb (fun l => (l.1 =?s "cluster.open-cluster-management.io/v1") &&
                        existsb (fun kind => kind =?s "ManagedCluster") l.2) lists
  end.

(** The route answers its [spec.host], [None] where it has none; the service its
    name, its namespace and its ports by name. *)
Definition discoverClusterProxyHost (isClusterProviderACMKubeConfig : bool)
    (route : result (option string)) (svc : result (string * string * list (string * Z))) : result string :=
  let routeHost :=
    if isClusterProviderACMKubeConfig then
      match route with
      | Ok (Some host) => if host ≠?s "" then Some host else None
      | _ => None
      end
    else None in
  match routeHost with
  | Some host => Ok host
  | None =>
      match svc with
      | Ok (name, namespace, (_, port0) :: ports) =>
          let port := foldl (fun port p => if p.1 =?s "user-port" then p.2 else port) port0
                        (match svc with Ok (_, _, ps) => ps | Err _ => [] end) in
          Ok (fmt [name; "."; namespace; ".svc.cluster.local:"; itoa port])
      | _ => Err (ErrNew "failed to auto-discover cluster-proxy host: route and service not found")
      end
  end.

Definition newACMClusterProvider {C} (m : Manager C) (cfg : ACMProviderConfig) (watchKubeConfig : bool)
    (apiLists : result (list (string * list string))) (route : result (option string))
    (svc : result (string * string * list (string * Z)))
    (listed : result (list managed_cluster * string)) : result (acmHubClusterProvider C * string) :=
  if negb (IsACMHub apiLists) then Err (ErrNew "not deployed in an ACM hub cluster")
  else
    let host :=
      if acm_ClusterProxyAddonHost cfg =?s "" then
        match discoverClusterProxyHost watchKubeConfig route svc with
        | Err err => Err (wrapf "cluster_proxy_addon_host not provided and auto-discovery failed: " err)
        | Ok host => Ok host
        end
      else Ok (acm_ClusterProxyAddonHost cfg) in
    match host with
    | Err err => Err err
    | Ok host =>
        let p :=
          mkAcmProvider m host (acm_ClusterProxyAddonSkipTLSVerify cfg) (acm_ClusterProxyAddonCAFile cfg)
            watchKubeConfig (acm_Clusters cfg) (acm_TokenExchangeStrategy cfg) ∅ "" in
        let '(rv, p) := refreshClusters listed p in
        Ok (p, match rv with Ok rv => rv | Err _ => "" end)
    end.

(** * Specification *)

(** The set of managed clusters as the events describe it. *)
Definition spec_event (s : gset string) (e : watch_event) : gset string :=
  match e with
  | Added c => {[ mc_Name c ]} ∪ s
  | Deleted c => s ∖ {[ mc_Name c ]}
  | _ => s
  end.

Section Specification.
Context {C : Type}.
Implicit Types p : acmHubClusterProvider C.

(** A manager that reaches cluster [c] through the proxy, with the TLS settings of the
    configuration. *)
Definition made_for p (c : string) (m : Manager C) : Prop :=
  let rc := k_restConfig (mg_kubernetes m) in
  rc_Host rc = proxy_host p c /\ rc_Insecure rc = ah_skipTLSVerify p /\
  (ah_skipTLSVerify p = false -> rc_CAFile rc = ah_clusterProxyCAFile p) /\
  cr_CertFile (rc_Credentials rc) = "" /\ cr_CertData (rc_Credentials rc) = "".
Definition acm_routed p : Prop :=
  forall c m, ah_clusterManagers p !! c = Some (Some m) -> made_for p c m.

(** The interleavings of watch events, token-exchange look-ups and calls that make
    managers: the managers being made are pending between the two critical
    sections. *)
Inductive acm_step : acmHubClusterProvider C * list (string * Manager C) ->
    acmHubClusterProvider C * list (string * Manager C) -> Prop :=
| AEvent e rv p l : acm_step (p, l) ((watch_event_step e rv p).1.2, l)
| AToken target p l : acm_step (p, l) ((GetTokenExchangeConfig target p).2, l)
| AMake c m p l : manager_lookup c p = None -> made_for p c m -> acm_step (p, l) (p, (c, m) :: l)
| APublish c m p l l' : l ≡ₚ (c, m) :: l' -> acm_step (p, l) ((manager_publish c m p).2, l').
End Specification.

(** * Lemmas *)

(** ** Configuration *)

(** The missing CA file is never reported for a configuration read from a file: the
    path was joined with the directory of the file before. *)
Lemma ca_file_check_defeated dir (cfg : ACMProviderConfig) :
  dir <> "" ->
  exists c, parseAcmConfig dir (Ok cfg) = Ok c /\ ACM_Validate c = None.
Proof.
  intros Hd. eexists. split; [reflexivity|]. unfold ACM_Validate, ResolveClusterProxyAddonCAFilePath.
  cbn [acm_ClusterProxyAddonCAFile acm_ClusterProxyAddonSkipTLSVerify].
  rewrite (bool_decide_eq_false_2 (filepath_Join _ = "")) by by apply filepath_Join_nonempty.
  by rewrite andb_false_r.
Qed.

(** An absolute path does not survive the joining. *)
Example absolute_ca_file : filepath_Join ["/etc/mcp"; "/pki/ca.crt"] = "/etc/mcp/pki/ca.crt".
Proof. reflexivity. Qed.

Section Managed.
Context {C : Type}.
Implicit Types p : acmHubClusterProvider C.

(** ** Targets *)

Lemma dom_addCluster name p : dom (ah_clusterManagers (addCluster name p)) = {[ name ]} ∪ dom (ah_clusterManagers p).
Proof.
  unfold addCluster. destruct (ah_clusterManagers p !! name) as [m|] eqn:E; [|cbn; by rewrite dom_insert_L].
  apply elem_of_dom_2 in E. set_solver.
Qed.

Lemma dom_watch_event e rv p :
  dom (ah_clusterManagers (watch_event_step e rv p).1.2) = spec_event (dom (ah_clusterManagers p)) e.
Proof.
  destruct e as [c|c|c|c|]; cbn; [|done| |done|done].
  - destruct (is_local c); cbn; apply dom_addCluster.
  - by rewrite dom_delete_L.
Qed.

Lemma dom_list_item p item :
  dom (ah_clusterManagers (list_item p item)) =
  (if decide (mc_Name item = "") then ∅ else {[ mc_Name item ]}) ∪ dom (ah_clusterManagers p).
Proof.
  unfold list_item. destruct (bool_decide_reflect (mc_Name item = "")) as [He|He]; cbn [negb].
  - rewrite decide_True by done. rewrite union_empty_l_L. by destruct (is_local item).
  - rewrite decide_False by done. destruct (is_local item); cbn; apply dom_addCluster.
Qed.

Lemma refreshClusters_targets items rv p :
  forall c, c ∈ dom (ah_clusterManagers (refreshClusters (Ok (items, rv)) p).2) <->
    c ∈ dom (ah_clusterManagers p) \/ (c <> "" /\ exists i, i ∈ items /\ mc_Name i = c).
Proof.
  cbn. revert p. induction items as [|i items IH]; intros p c; cbn [foldl]; [set_solver|].
  rewrite IH, dom_list_item. destruct (decide (mc_Name i = "")); set_solver.
Qed.

(** ** Managers and interleavings *)

Lemma routed_frame p p' :
  ah_clusterProxyHost p' = ah_clusterProxyHost p -> ah_skipTLSVerify p' = ah_skipTLSVerify p ->
  ah_clusterProxyCAFile p' = ah_clusterProxyCAFile p ->
  forall c m, made_for p c m -> made_for p' c m.
Proof. intros H1 H2 H3 c m. unfold made_for, proxy_host. by rewrite H1, H2, H3. Qed.

Definition same_proxy p p' : Prop :=
  ah_clusterProxyHost p' = ah_clusterProxyHost p /\ ah_skipTLSVerify p' = ah_skipTLSVerify p /\
  ah_clusterProxyCAFile p' = ah_clusterProxyCAFile p.

Lemma watch_event_frame e rv p :
  same_proxy p (watch_event_step e rv p).1.2 /\
  forall c m, ah_clusterManagers (watch_event_step e rv p).1.2 !! c = Some (Some m) ->
    ah_clusterManagers p !! c = Some (Some m).
Proof.
  assert (forall n, same_proxy p (addCluster n p) /\ forall c m,
    ah_clusterManagers (addCluster n p) !! c = Some (Some m) -> ah_clusterManagers p !! c = Some (Some m)) as Hadd.
  { intros n. unfold addCluster. destruct (ah_clusterManagers p !! n); [done|]. split; [done|]. cbn.
    intros c m. destruct (decide (n = c)) as [->|Hn]; [by rewrite lookup_insert_eq|by rewrite lookup_insert_ne]. }
  destruct e as [c|c|c|c|]; cbn; [|done| |done|done].
  - by destruct (is_local c); apply Hadd.
  - split; [done|]. intros n m. by intros [_ H]%lookup_delete_Some.
Qed.

Definition acm_inv (s : acmHubClusterProvider C * list (string * Manager C)) : Prop :=
  acm_routed s.1 /\ Forall (fun cm => made_for s.1 cm.1 cm.2) s.2.

Lemma acm_step_inv s s' : acm_step s s' -> acm_inv s -> acm_inv s' /\ same_proxy s.1 s'.1.
Proof.
  intros Hs [Hr Hf]. destruct Hs as [e rv p l|target p l|c m p l Hl Hm|c m p l l' Hp]; cbn [fst snd] in *.
  - destruct (watch_event_frame e rv p) as [(H1 & H2 & H3) Hms]. split; [|done]. split; cbn.
    + intros c m Hc. eapply routed_frame; [done..|]. by apply Hr, Hms.
    + eapply Forall_impl; [done|]. intros [c m]. by apply routed_frame.
  - unfold GetTokenExchangeConfig. destruct (ah_targetTokenConfigs p !! _); [|done].
    split; [|done]. split; [exact Hr|exact Hf].
  - split; [|done]. split; [done|]. by constructor.
  - rewrite Hp in Hf. apply Forall_cons in Hf as [Hm Hf]. cbn in Hm.
    unfold manager_publish. split.
    + destruct (ah_clusterManagers p !! c) as [[m0|]|] eqn:E; [done|..]; (split; [|exact Hf]);
        intros n m'; cbn; (destruct (decide (c = n)) as [->|Hn];
          [rewrite lookup_insert_eq; by intros [= <-]|rewrite lookup_insert_ne by done; apply Hr]).
    + by destruct (ah_clusterManagers p !! c) as [[m0|]|].
Qed.


(** A cluster that is deleted while its manager is being made comes back as a target
    and stays one: the publication does not look whether it still exists. *)
Lemma deleted_cluster_returns p c m cl rv :
  ah_clusterManagers p !! c = Some None -> made_for p c m -> mc_Name cl = c ->
  exists p1 p2, p1 = (watch_event_step (Deleted cl) rv p).1.2 /\ ah_clusterManagers p1 !! c = None /\
    rtc acm_step (p, []) (p2, []) /\ ah_clusterManagers p2 !! c = Some (Some m).
Proof.
  intros Hc Hm <-. eexists _, _. split; [reflexivity|]. split; [cbn; apply lookup_delete_eq|]. split.
  - eapply rtc_l; [apply (AMake (mc_Name cl) m); [unfold manager_lookup; by rewrite Hc|done]|].
    eapply rtc_l; [apply (AEvent (Deleted cl) rv)|].
    eapply rtc_l; [by eapply (APublish (mc_Name cl) m)|]. reflexivity.
  - unfold manager_publish. cbn. rewrite lookup_delete_eq. cbn. by rewrite lookup_insert_eq.
Qed.

(** ** Token exchange *)

(** The configuration handed out for a target says of what type the user's token is,
    differs from the kept one in nothing else, and no other target's is touched. *)
Lemma GetTokenExchangeConfig_spec target p cfg p' :
  GetTokenExchangeConfig target p = (Some cfg, p') ->
  exists c, ah_targetTokenConfigs p !! token_target target p = Some c /\
    tc_SubjectTokenType cfg <> "" /\ set_SubjectTokenType (tc_SubjectTokenType c) cfg = c /\
    ah_targetTokenConfigs p' !! token_target target p = Some cfg /\
    forall t, t <> token_target target p -> ah_targetTokenConfigs p' !! t = ah_targetTokenConfigs p !! t.
Proof.
  unfold GetTokenExchangeConfig. cbn zeta. destruct (ah_targetTokenConfigs p !! _) as [c|] eqn:E; [|done].
  intros [= <- <-]. exists c. split; [done|]. cbn [with_tokens ah_targetTokenConfigs].
  assert (forall c' : TargetTokenExchangeConfig StaticConfig,
    (<[token_target target p := c']> (ah_targetTokenConfigs p)) !! token_target target p = Some c') as Hl
    by (intros; apply lookup_insert_eq).
  destruct (bool_decide_reflect (tc_SubjectTokenType c = "")) as [He|He];
    (split_and!; [|by destruct c|apply Hl|intros t Ht; by rewrite lookup_insert_ne]); [|done].
  cbn. unfold detectSubjectTokenType. cbn zeta. repeat case_match; discriminate.
Qed.

(** A type detected before the hub's name is known is kept: once written, later
    knowledge does not change it. *)
Lemma detection_sticks target p cfg p' name cfg' p'' :
  target <> "" ->
  GetTokenExchangeConfig target p = (Some cfg, p') ->
  GetTokenExchangeConfig target (setHubClusterName name p') = (Some cfg', p'') ->
  tc_SubjectTokenType cfg' = tc_SubjectTokenType cfg.
Proof.
  intros Ht H H'. apply GetTokenExchangeConfig_spec in H as (c & _ & Hne & _ & Hk & _).
  unfold token_target in Hk. rewrite bool_decide_eq_false_2 in Hk by done.
  unfold GetTokenExchangeConfig, token_target in H'. rewrite bool_decide_eq_false_2 in H' by done.
  cbn [setHubClusterName ah_targetTokenConfigs] in H'. rewrite Hk in H'. cbn zeta in H'.
  rewrite bool_decide_eq_false_2 in H' by done. by injection H' as <- _.
Qed.
End Managed.

Section Watching.
Context {W C : Type} {cell : Cell W (acmHubClusterProvider C)} (reload : W -> W).
Hypothesis reload_cell : forall w, cell_get (reload w) = (cell_get w : acmHubClusterProvider C).
Abbreviation targets w := (dom (ah_clusterManagers (cell_get w : acmHubClusterProvider C))).

Lemma watch_events_targets events rv w :
  targets (watch_events reload events rv w).2 = foldl spec_event (targets w) events.
Proof.
  revert rv w. induction events as [|e events IH]; intros rv w; [done|]. cbn [watch_events foldl].
  pose proof (dom_watch_event e rv (cell_get w)) as Hd.
  destruct (watch_event_step e rv (cell_get w)) as [[rv' p] b]. cbn [fst snd] in Hd.
  rewrite IH. f_equal. destruct b; [rewrite reload_cell|]; by rewrite cell_get_put.
Qed.

(** The watch keeps the targets equal to the set of clusters its events describe,
    through any number of failed attempts and closed watches. *)
Theorem watch_follows_clusters attempts delay rv w :
  targets (watchManagedClusters reload attempts delay rv w).2 =
  foldl spec_event (targets w) (concat (omap id attempts)).
Proof.
  revert delay rv w. induction attempts as [|[events|] attempts IH]; intros delay rv w; [done|..];
    cbn [watchManagedClusters omap list_omap id concat].
  - pose proof (watch_events_targets events rv w) as He.
    destruct (watch_events reload events rv w) as [rv' w']. cbn [snd] in He.
    rewrite IH, He. by rewrite foldl_app.
  - specialize (IH (next_delay delay) rv w).
    destruct (watchManagedClusters _ attempts _ rv w) as [[l rv'] w']. exact IH.
Qed.

Lemma next_delay_bounds d : (initialDelay <= d <= maxDelay)%Z -> (initialDelay <= next_delay d <= maxDelay)%Z.
Proof. unfold next_delay, initialDelay, maxDelay, Second, Millisecond. lia. Qed.

Lemma watch_delays attempts delay rv w :
  (initialDelay <= delay <= maxDelay)%Z ->
  Forall (fun d => (initialDelay <= d <= maxDelay)%Z)
    (watchManagedClusters (cell := cell) reload attempts delay rv w).1.1.
Proof.
  revert delay rv w. induction attempts as [|[events|] attempts IH]; intros delay rv w Hd; [constructor|..];
    cbn [watchManagedClusters].
  - destruct (watch_events reload events rv w) as [rv' w']. apply IH.
    unfold initialDelay, maxDelay, Second, Millisecond. lia.
  - specialize (IH (next_delay delay) rv w (next_delay_bounds _ Hd)).
    destruct (watchManagedClusters _ attempts _ rv w) as [[l rv'] w']. by constructor.
Qed.

(** The back-off: after [i] failures in a row the next attempt waits [2^i] seconds, at
    most five minutes. *)
Lemma backoff_delays n i rv w :
  i < n ->
  (watchManagedClusters (cell := cell) reload (replicate n None) initialDelay rv w).1.1 !! i =
    Some (Z.min (2 ^ Z.of_nat i * initialDelay) maxDelay).
Proof.
  assert (forall n k i, i < n ->
    (watchManagedClusters (cell := cell) reload (replicate n None)
       (Z.min (2 ^ Z.of_nat k * initialDelay) maxDelay) rv w).1.1 !! i =
    Some (Z.min (2 ^ Z.of_nat (k + i) * initialDelay) maxDelay)) as H.
  { clear n i. intros n. induction n as [|n IH]; intros k i Hi; [lia|]. cbn [replicate watchManagedClusters].
    assert (next_delay (Z.min (2 ^ Z.of_nat k * initialDelay) maxDelay) =
            Z.min (2 ^ Z.of_nat (S k) * initialDelay) maxDelay) as Hn.
    { rewrite Nat2Z.inj_succ, Z.pow_succ_r by lia. unfold next_delay, initialDelay, maxDelay, Second, Millisecond.
      assert (0 < 2 ^ Z.of_nat k)%Z by lia. lia. }
    rewrite Hn. destruct i as [|i].
    - destruct (watchManagedClusters _ (replicate n None) _ rv w) as [[l rv'] w']. cbn.
      by rewrite Nat.add_0_r.
    - specialize (IH (S k) i ltac:(lia)).
      destruct (watchManagedClusters _ (replicate n None) _ rv w) as [[l rv'] w']. cbn [fst snd] in *.
      etrans; [exact IH|]. by rewrite Nat.add_succ_r. }
  intros Hi. exact (H n 0 i Hi).
Qed.
End Watching.

Section Derivation.
Context {W HC C : Type} {cell : Cell W (acmHubClusterProvider C)}.
Context (load_RawConfig : string -> string -> W -> result kubeconfig).
Context (build_clients : StaticConfig -> rest_Config -> ST W (result C)) (user_agent : string).
Context (Getenv : string -> string) (ParseFloat32 : string -> option spec_float).

(** What the code makes for a cluster is what [acm_step] lets it make. *)
Lemma make_cluster_manager_made_for cluster w m w' :
  make_cluster_manager load_RawConfig build_clients user_agent Getenv ParseFloat32 cluster w = (Ok m, w') ->
  made_for (cell_get w) cluster m.
Proof.
  unfold make_cluster_manager. cbn zeta. destruct (RawConfig _ _ w) as [raw|]; [|done].
  unfold NewManager, NewKubernetes. cbn zeta. set (rc := if _ =?s "" then _ else _).
  destruct (build_clients _ rc w) as [[c|e] w1]; [|done]. intros [= <- <-].
  unfold made_for. cbn [mg_kubernetes k_restConfig]. subst rc.
  destruct (_ =?s ""); cbn; (split_and!; [done|done|by intros ->|done|done]).
Qed.

#[export] Instance acm_derives :
  DerivesClients load_RawConfig build_clients user_agent
    (acm_GetDerivedKubernetes (HC := HC) load_RawConfig build_clients user_agent Getenv ParseFloat32)
    (fun target m => exists w, let p := cell_get w : acmHubClusterProvider C in
       ((target = "" \/ target = acm_GetDefaultTarget p) /\ m = ah_hubManager p) \/
       exists w', managerForCluster load_RawConfig build_clients user_agent Getenv ParseFloat32 target w =
         (Ok m, w')).
Proof.
  intros cx target w k w'. unfold acm_GetDerivedKubernetes. cbn zeta.
  destruct ((target =?s "") || (target =?s acm_GetDefaultTarget (cell_get w))) eqn:Ht.
  - intros Hd. exists (ah_hubManager (cell_get w)), w, w'. split; [|done]. exists w. left. split; [|done].
    apply orb_true_iff in Ht as [Ht|Ht]; apply bool_decide_eq_true in Ht; tauto.
  - destruct (managerForCluster _ _ _ _ _ target w) as [[m|e] w1] eqn:Hm; [|done]. intros Hd.
    exists m, w1, w'. split; [|done]. exists w. right. by exists w1.
Qed.
End Derivation.

(** * Witness: a hub with one managed cluster *)

Module AcmWitness.
#[global] Program Instance provider_cell : Cell (acmHubClusterProvider unit) (acmHubClusterProvider unit) :=
  {| cell_get := fun w => w; cell_put := fun p _ => p |}.
Next Obligation. done. Qed.
Definition rest (host cert : string) : rest_Config :=
  mkRestConfig host "" false "" "/ca" "" (mkCredentials "" "" "t" "" cert "" "" "" None None "") "go" f64_zero 0 0.
Definition manager (host cert : string) : Manager unit :=
  mkManager (mkKubernetes BaseDefault (DefaultConfig (mkKubeconfig ∅ ∅ ∅ "") "") (rest host cert) tt) BaseDefault.
Definition provider : acmHubClusterProvider unit :=
  mkAcmProvider (manager "https://hub" "/cert") "proxy:443" false "/ca" false ∅ "" ∅ "".
Definition cluster (name : string) : managed_cluster := mkManagedCluster name ∅ "1".
Definition proxied : Manager unit := manager "https://proxy:443/east" "".
Definition served : acmHubClusterProvider unit :=
  (manager_publish "east" proxied (watch_event_step (Added (cluster "east")) "" provider).1.2).2.
End AcmWitness.

Lemma watch_follows_clusters_witness :
  dom (ah_clusterManagers (watchManagedClusters id
    [Some [Added (AcmWitness.cluster "east"); Added (AcmWitness.cluster "west")]; None;
     Some [Deleted (AcmWitness.cluster "east")]] initialDelay "" AcmWitness.provider).2) = {[ "west" ]}.
Proof.
  pose proof (watch_follows_clusters id (fun w => eq_refl)
    [Some [Added (AcmWitness.cluster "east"); Added (AcmWitness.cluster "west")]; None;
     Some [Deleted (AcmWitness.cluster "east")]] initialDelay "" AcmWitness.provider) as H.
  etrans; [exact H|]. vm_compute. reflexivity.
Defined.

