(* ===== verification/Kcp.v ===== *)
(** The provider of kcp workspaces (pkg/kcp): the URLs of workspaces (workspace.go),
    their recursive discovery, and the provider over them (provider.go).  The
    watcher of workspaces is in Watchers.v.  The tenancy API and client-go are
    parameters. *)
From Stdlib Require Import Floats.SpecFloat.
From S2P Require Import Prelude GoStrings Api Config SdkTypes Manager UserAuth Watchers Providers.

(** * Definitions *)

Definition kcpTargetParameterName : string := "workspace".
Definition clusters_sep : string := "/clusters/".

Definition ParseServerURL (serverURL : string) : string * string :=
  match Index serverURL clusters_sep with
  | None => (serverURL, "")
  | Some clustersIndex =>
      let baseURL := take_str clustersIndex serverURL in
      let workspacePath := drop_str (clustersIndex + slen clusters_sep) serverURL in
      (baseURL, TrimSuffix workspacePath "/")
  end.
Definition ExtractWorkspaceFromURL (serverURL : string) : string := (ParseServerURL serverURL).2.
Definition ConstructWorkspaceURL (baseURL workspace : string) : string :=
  fmt [baseURL; "/clusters/"; workspace].

(** ** Discovery

    [children url] are the names the tenancy API lists at the URL of a workspace; an
    error of the client or of the listing skips the workspace.  The recursion has no
    bound of its own: [None] is running out of fuel. *)
Section Discovery.
Context (children : string -> result (list string)) (baseHost : string).

Definition workspace_URL (workspace : string) : string :=
  ConstructWorkspaceURL (ParseServerURL baseHost).1 workspace.

Definition discover_children (discover : string -> gset string -> option (gset string)) (parent : string) :
    list string -> gset string -> option (gset string) :=
  fix loop names discovered :=
  match names with
  | [] => Some discovered
  | childName :: names =>
      if childName =?s "" then loop names discovered
      else
        let fullPath := fmt [parent; ":"; childName] in
        if decide (fullPath ∈ discovered) then loop names discovered
        else
          match discover fullPath ({[ fullPath ]} ∪ discovered) with
          | None => None
          | Some discovered => loop names discovered
          end
  end.

Fixpoint DiscoverWorkspacesRecursive (fuel : nat) (parentWorkspace : string) (discovered : gset string) :
    option (gset string) :=
  match fuel with
  | O => None
  | Datatypes.S fuel =>
      match children (workspace_URL parentWorkspace) with
      | Err _ => Some discovered
      | Ok names => discover_children (DiscoverWorkspacesRecursive fuel) parentWorkspace names discovered
      end
  end.

Definition DiscoverAllWorkspaces (fuel : nat) (rootWorkspace : string) : option (gset string) :=
  DiscoverWorkspacesRecursive fuel rootWorkspace {[ rootWorkspace ]}.
End Discovery.

(** ** The provider *)

Record kcpClusterProvider (C : Type) := mkKcp {
  kcp_config : StaticConfig;
  kcp_baseServerURL : string;
  kcp_restConfig : option rest_Config;
  kcp_clientCmdConfig : ClientConfig;
  kcp_defaultWorkspace : string;
  kcp_managers : gmap string (option (Manager C));
  kcp_watched : option (Kubernetes C);
}.
Arguments mkKcp {C} _ _ _ _ _ _ _.
Arguments kcp_config {C} _.
Arguments kcp_baseServerURL {C} _.
Arguments kcp_restConfig {C} _.
Arguments kcp_clientCmdConfig {C} _.
Arguments kcp_defaultWorkspace {C} _.
Arguments kcp_managers {C} _.
Arguments kcp_watched {C} _.

Section Kcp.
Context {W HC C : Type} {cell : Cell W (kcpClusterProvider C)}.
Context (load_RawConfig : string -> string -> W -> result kubeconfig).
Context (load_ClientConfig : string -> string -> W -> result rest_Config).
Context (build_clients : StaticConfig -> rest_Config -> ST W (result C)) (user_agent : string).
Context (LoadingRules_Load : string -> W -> result kubeconfig).
Context (rest_InClusterConfig : W -> result rest_Config).
Context (Getenv : string -> string) (ParseFloat32 : string -> option spec_float).
(** What the tenancy API lists for a configuration and a URL. *)
Context (list_workspaces : rest_Config -> W -> string -> result (list string)).

Abbreviation derived := (Derived (HC := HC) load_RawConfig build_clients user_agent).

(** [reset]; [None]: the discovery does not end within the fuel.  The fields are
    assigned as it goes, so a failure leaves the assignments before it.  The
    discovery itself cannot fail, so the workspaces of the kubeconfig are never
    used. *)
Definition kcp_reset (fuel : nat) (cx : request_context HC) : ST W (option (option error)) := fun w =>
  let p : kcpClusterProvider C := cell_get w in
  let path := c_KubeConfig (kcp_config p) in
  let clientCmd := DeferredConfig path "" in
  let put p' := cell_put (W := W) p' in
  let p := mkKcp (kcp_config p) (kcp_baseServerURL p) (kcp_restConfig p) clientCmd (kcp_defaultWorkspace p)
             (kcp_managers p) (kcp_watched p) in
  match RawConfig load_RawConfig clientCmd w with
  | Err err => (Some (Some (wrapf "failed to load kubeconfig: " err)), put p w)
  | Ok rawConfig =>
      match kc_Contexts rawConfig !! kc_CurrentContext rawConfig with
      | None => (Some (Some (ErrNew "no current context in kubeconfig")), put p w)
      | Some currentContext =>
          match kc_Clusters rawConfig !! ct_Cluster currentContext with
          | None => (Some (Some (ErrNew "current context's cluster not found in kubeconfig")), put p w)
          | Some currentCluster =>
              let '(base, workspace) := ParseServerURL (cl_Server currentCluster) in
              let p := mkKcp (kcp_config p) base (kcp_restConfig p) clientCmd workspace
                         (kcp_managers p) (kcp_watched p) in
              if workspace =?s "" then
                (Some (Some (ErrNew "failed to parse workspace from kubeconfig cluster URL")), put p w)
              else
                match load_ClientConfig path "" w with
                | Err err =>
                    (Some (Some (wrapf "failed to create rest config: " err)),
                     put (mkKcp (kcp_config p) base None clientCmd workspace (kcp_managers p) (kcp_watched p)) w)
                | Ok restConfig =>
                    let p := mkKcp (kcp_config p) base (Some restConfig) clientCmd workspace
                               (kcp_managers p) (kcp_watched p) in
                    let w := put p w in
                    let '(baseManager, w) :=
                      NewKubeconfigManager load_ClientConfig build_clients user_agent LoadingRules_Load
                        rest_InClusterConfig Getenv ParseFloat32 (kcp_config p)
                        (kc_CurrentContext rawConfig) w in
                    match baseManager with
                    | Err err => (Some (Some (wrapf "failed to create base manager: " err)), w)
                    | Ok baseManager =>
                        match DiscoverAllWorkspaces (list_workspaces restConfig w) (rc_Host restConfig) fuel
                                workspace with
                        | None => (None, w)
                        | Some workspaceList =>
                            let managers :=
                              <[workspace := Some baseManager]> (gset_to_gmap None workspaceList) in
                            let p := mkKcp (kcp_config p) base (Some restConfig) clientCmd workspace
                                       managers (kcp_watched p) in
                            let w := put p w in
                            let '(k8s, w) := derived baseManager cx w in
                            match k8s with
                            | Err err => (Some (Some (wrapf "failed to get kubernetes client: " err)), w)
                            | Ok k8s =>
                                (Some None, put (mkKcp (kcp_config p) base (Some restConfig) clientCmd
                                   workspace managers (Some k8s)) w)
                            end
                        end
                    end
                end
          end
      end
  end.

(** [findOrCreateWorkspaceContext]; the contexts are tried in the order of the map.
    [None]: the panic on a context whose cluster is missing. *)
Fixpoint find_context (clusters : gmap string kube_cluster) (workspace : string)
    (contexts : list (string * kube_context)) : option (option string) :=
  match contexts with
  | [] => Some None
  | (ctxName, ctx) :: contexts =>
      match clusters !! ct_Cluster ctx with
      | None => None
      | Some cluster =>
          if ExtractWorkspaceFromURL (cl_Server cluster) =?s workspace then Some (Some ctxName)
          else find_context clusters workspace contexts
      end
  end.

Definition findOrCreateWorkspaceContext (baseServerURL : string) (raw : kubeconfig) (workspace : string) :
    option (string * kubeconfig) :=
  match find_context (kc_Clusters raw) workspace (map_to_list (kc_Contexts raw)) with
  | None => None
  | Some (Some ctxName) => Some (ctxName, raw)
  | Some None =>
      let contextName := "kcp-" +:+ workspace in
      let clusterName := "kcp-cluster-" +:+ workspace in
      match kc_Contexts raw !! kc_CurrentContext raw with
      | None => None
      | Some currentContext =>
          match kc_Clusters raw !! ct_Cluster currentContext with
          | None => None
          | Some currentCluster =>
              Some (contextName,
                mkKubeconfig
                  (<[clusterName := mkCluster (ConstructWorkspaceURL baseServerURL workspace)
                       (cl_InsecureSkipTLSVerify currentCluster) (cl_CertificateAuthority currentCluster)
                       (cl_CertificateAuthorityData currentCluster)]> (kc_Clusters raw))
                  (kc_AuthInfos raw)
                  (<[contextName := mkContext clusterName (ct_AuthInfo currentContext)]> (kc_Contexts raw))
                  (kc_CurrentContext raw))
          end
      end
  end.

Definition managerForWorkspace (workspace : string) : ST W (option (result (Manager C))) := fun w =>
  let p : kcpClusterProvider C := cell_get w in
  match kcp_managers p !! workspace with
  | Some (Some m) => (Some (Ok m), w)
  | None => (Some (Err (wrapf (fmt ["workspace "; workspace; " not found: "]) ErrUnknownTarget)), w)
  | Some None =>
      match kcp_restConfig p with
      | None => (None, w)
      | Some restConfig =>
          let workspaceRestConfig :=
            with_Host (ConstructWorkspaceURL (kcp_baseServerURL p) workspace) restConfig in
          match RawConfig load_RawConfig (kcp_clientCmdConfig p) w with
          | Err err => (Some (Err (wrapf "failed to get kubeconfig: " err)), w)
          | Ok rawConfig =>
              match findOrCreateWorkspaceContext (kcp_baseServerURL p) rawConfig workspace with
              | None => (None, w)
              | Some (contextName, rawConfig) =>
                  let '(m, w) :=
                    NewManager build_clients user_agent Getenv ParseFloat32 (kcp_config p)
                      workspaceRestConfig (DefaultConfig rawConfig contextName) w in
                  match m with
                  | Err err =>
                      (Some (Err (wrapf (fmt ["failed to create manager for workspace "; workspace; ": "]) err)), w)
                  | Ok m =>
                      (Some (Ok m),
                       cell_put (mkKcp (kcp_config p) (kcp_baseServerURL p) (kcp_restConfig p)
                         (kcp_clientCmdConfig p) (kcp_defaultWorkspace p)
                         (<[workspace := Some m]> (kcp_managers p)) (kcp_watched p)) w)
                  end
              end
          end
      end
  end.

Definition kcp_IsMultiTarget (w : W) : bool :=
  Nat.ltb 1 (size (kcp_managers (cell_get w : kcpClusterProvider C))).
Definition kcp_GetTargets (w : W) : list string :=
  sort_strings (map fst (map_to_list (kcp_managers (cell_get w : kcpClusterProvider C)))).

Definition kcp_GetDerivedKubernetes (cx : request_context HC) (workspace : string) :
    ST W (option (result (Kubernetes C))) := fun w =>
  let p : kcpClusterProvider C := cell_get w in
  let workspace := if workspace =?s "" then kcp_defaultWorkspace p else workspace in
  let '(m, w) := managerForWorkspace workspace w in
  match m with
  | None => (None, w)
  | Some (Err err) => (Some (Err err), w)
  | Some (Ok m) => let '(k, w) := derived m cx w in (Some k, w)
  end.

Definition kcp_GetTargetParameterName : string := kcpTargetParameterName.
Definition kcp_GetDefaultTarget (w : W) : string := kcp_defaultWorkspace (cell_get w : kcpClusterProvider C).

(** [GetTargetManagers], in the order of the targets. *)
Fixpoint workspace_managers (names : list string) : ST W (option (result (list (Manager C)))) := fun w =>
  match names with
  | [] => (Some (Ok []), w)
  | cn :: names =>
      let '(mgr, w) := managerForWorkspace cn w in
      match mgr with
      | None => (None, w)
      | Some (Err err) => (Some (Err err), w)
      | Some (Ok mgr) =>
          let '(mgrs, w) := workspace_managers names w in
          (match mgrs with
           | None => None
           | Some (Err err) => Some (Err err)
           | Some (Ok mgrs) => Some (Ok (mgr :: mgrs))
           end, w)
      end
  end.
Definition kcp_GetTargetManagers : ST W (option (result (list (Manager C)))) := fun w =>
  workspace_managers (kcp_GetTargets w) w.

Definition newKcpClusterProvider (fuel : nat) (cx : request_context HC) (cfg : StaticConfig) :
    ST W (option (option error)) := fun w =>
  kcp_reset fuel cx (cell_put (mkKcp cfg "" None (DeferredConfig (c_KubeConfig cfg) "") "" ∅ None) w).

(** The workspaces of the kubeconfig, each once. *)
Definition workspacesFromKubeconfig (clientCmd : ClientConfig) (w : W) : result (gset string) :=
  match RawConfig load_RawConfig clientCmd w with
  | Err err => Err err
  | Ok rawConfig =>
      Ok (list_to_set (filter (fun ws => ws <> "")
            (map (fun kv => ExtractWorkspaceFromURL (cl_Server kv.2)) (map_to_list (kc_Clusters rawConfig)))))
  end.

(** What the watcher of workspaces calls ([watch] starts both watchers of the provider): a
    reset that fails ends it, before there are new watchers to start. *)
Definition reloadWithReset (fuel : nat) (cx : request_context HC) (watch : W -> W) (reload : ST W (option error)) :
    ST W (option (option error)) := fun w =>
  let '(err, w) := kcp_reset fuel cx w in
  match err with
  | Some None => let '(err, w) := reload (watch w) in (Some err, w)
  | _ => (err, w)
  end.
End Kcp.

(** * Lemmas *)

(** ** URLs *)

Lemma Index_bound s sub n : Index s sub = Some n -> slen (take_str n s) = n.
Proof.
  revert n. induction s as [|c s IH]; intros n; cbn [Index]; case_match; [by intros [= <-]|done|by intros [= <-]|].
  destruct (Index s sub) as [k|]; [|done]. intros [= <-]. change (S (slen (take_str k s)) = S k). f_equal. by apply IH.
Qed.

Lemma HasPrefix_app_l u t t' p :
  slen p <= slen u -> HasPrefix (u +:+ t) p = HasPrefix (u +:+ t') p.
Proof.
  revert u. induction p as [|c p IH]; intros u Hl.
  - by destruct (u +:+ t), (u +:+ t').
  - destruct u as [|a u]; [unfold slen in Hl; cbn in Hl; lia|]. rewrite !append_String.
    unfold HasPrefix, slen in *. cbn in *.
    destruct (ascii_dec c a); [|done]. apply IH. lia.
Qed.

(** Where the first separator is does not depend on what follows it. *)
Lemma Index_app_first a sub t t' :
  Index (a +:+ sub +:+ t) sub = Some (slen a) -> Index (a +:+ sub +:+ t') sub = Some (slen a).
Proof.
  assert (Index (sub +:+ t') sub = Some 0) as H0.
  { destruct (sub +:+ t') eqn:E; cbn [Index]; by rewrite <- E, HasPrefix_append. }
  induction a as [|c a IH]; rewrite ?append_nil_l; [done|].
  rewrite !append_String. cbn [Index].
  assert (HasPrefix (String c (a +:+ sub +:+ t)) sub = HasPrefix (String c (a +:+ sub +:+ t')) sub) as ->.
  { rewrite <- !append_String, <- !append_assoc.
    apply HasPrefix_app_l. rewrite slen_append. lia. }
  case_match; [done|].
  destruct (Index (a +:+ sub +:+ t) sub) as [k|] eqn:Ek; [|done].
  change (slen (String c a)) with (S (slen a)). cbn. intros [= ->]. by rewrite IH.
Qed.

Lemma fmt3 a b c : fmt [a; b; c] = a +:+ b +:+ c.
Proof. reflexivity. Qed.

(** ** Discovery *)

Section Discovery_lemmas.
Context (children : string -> result (list string)) (baseHost : string).

(** What the API says: [c] is the path of a workspace listed in [p]. *)
Definition child_workspace (p c : string) : Prop :=
  exists names n, children (workspace_URL baseHost p) = Ok names /\ n ∈ names /\ n <> "" /\
    c = fmt [p; ":"; n].

Abbreviation discover := (DiscoverWorkspacesRecursive children baseHost).

(** What a run below [p] that starts from [d] adds, when it has gone through
    [names]. *)
Definition found (p : string) (names : list string) (d s : gset string) : Prop :=
  d ⊆ s /\ (forall n, n ∈ names -> n <> "" -> fmt [p; ":"; n] ∈ s) /\
  forall x, x ∈ s -> x ∉ d -> rtc child_workspace p x /\ forall c, child_workspace x c -> c ∈ s.

Lemma discover_loop fuel p all (fin : gset string) :
  (forall q d, q ∈ d -> (forall x, rtc child_workspace q x -> x ∈ fin) -> size (fin ∖ d) < fuel ->
     exists s, discover fuel q d = Some s /\ d ⊆ s /\ (forall c, child_workspace q c -> c ∈ s) /\
       forall x, x ∈ s -> x ∉ d -> rtc child_workspace q x /\ forall c, child_workspace x c -> c ∈ s) ->
  children (workspace_URL baseHost p) = Ok all -> (forall x, rtc child_workspace p x -> x ∈ fin) ->
  forall names d, names ⊆ all -> size (fin ∖ d) <= fuel ->
  exists s, discover_children (discover fuel) p names d = Some s /\ found p names d s.
Proof.
  intros IH Hall Hfin names. induction names as [|n names IHn]; intros d Hsub Hd.
  - exists d. split; [done|]. split; [done|]. split; [set_solver|done].
  - cbn [discover_children]. destruct (bool_decide_reflect (n = "")) as [->|Hn].
    { destruct (IHn d) as (s & Hs & H1 & H2 & H3); [set_solver|done|].
      exists s. split; [done|]. split; [done|]. split; [|done].
      intros m [->|Hm]%elem_of_cons ?; [done|by apply H2]. }
    assert (child_workspace p (fmt [p; ":"; n])) as Hc.
    { exists all, n. split; [done|]. split; [set_solver|]. by split. }
    destruct (decide (fmt [p; ":"; n] ∈ d)) as [Hin|Hnin].
    { destruct (IHn d) as (s & Hs & H1 & H2 & H3); [set_solver|done|].
      exists s. split; [done|]. split; [done|]. split; [|done].
      intros m [->|Hm]%elem_of_cons ?; [by apply H1|by apply H2]. }
    set (c := fmt [p; ":"; n]) in *. set (d1 := {[ c ]} ∪ d).
    assert (size (fin ∖ d1) < size (fin ∖ d)) as Hlt.
    { apply subset_size. assert (c ∈ fin) by (by apply Hfin, rtc_once). set_solver. }
    destruct (IH c d1) as (s1 & Hs1 & H1 & H2 & H3); [set_solver| |lia|].
    { intros x Hx. apply Hfin. by eapply rtc_l. }
    rewrite Hs1.
    destruct (IHn s1) as (s & Hs & G1 & G2 & G3); [set_solver| |].
    { assert (size (fin ∖ s1) <= size (fin ∖ d1)); [apply subseteq_size; set_solver|lia]. }
    exists s. split; [done|]. split; [set_solver|]. split.
    + intros m [->|Hm]%elem_of_cons ?; [|by apply G2]. subst d1. fold c. set_solver.
    + intros x Hx Hxd. destruct (decide (x ∈ s1)) as [Hx1|Hx1]; [|by apply G3].
      destruct (decide (x = c)) as [->|Hxc].
      * split; [by apply rtc_once|]. intros y Hy. apply G1. by apply H2.
      * destruct (H3 x) as [Hr Hcl]; [done|set_solver|]. split; [by eapply rtc_l|].
        intros y Hy. by apply G1, Hcl.
Qed.

Lemma discover_spec fuel (fin : gset string) : forall q d,
  q ∈ d -> (forall x, rtc child_workspace q x -> x ∈ fin) -> size (fin ∖ d) < fuel ->
  exists s, discover fuel q d = Some s /\ d ⊆ s /\ (forall c, child_workspace q c -> c ∈ s) /\
    forall x, x ∈ s -> x ∉ d -> rtc child_workspace q x /\ forall c, child_workspace x c -> c ∈ s.
Proof.
  induction fuel as [|fuel IH]; intros q d Hq Hfin Hd; [lia|].
  cbn [DiscoverWorkspacesRecursive].
  destruct (children (workspace_URL baseHost q)) as [names|e] eqn:Hc.
  - destruct (discover_loop fuel q names fin IH Hc Hfin names d) as (s & Hs & H1 & H2 & H3); [done|lia|].
    exists s. split; [done|]. split; [done|]. split; [|done].
    intros c (names' & n & Hn & Hin & Hne & ->). rewrite Hc in Hn. injection Hn as <-. by apply H2.
  - exists d. split; [done|]. split; [done|]. split; [|done].
    intros c (names' & n & Hn & _). by rewrite Hc in Hn.
Qed.
End Discovery_lemmas.

(** ** The provider *)

Section Kcp_lemmas.
Context {W HC C : Type} {cell : Cell W (kcpClusterProvider C)}.
Context (load_RawConfig : string -> string -> W -> result kubeconfig).
Context (load_ClientConfig : string -> string -> W -> result rest_Config).
Context (build_clients : StaticConfig -> rest_Config -> ST W (result C)) (user_agent : string).
Context (LoadingRules_Load : string -> W -> result kubeconfig).
Context (rest_InClusterConfig : W -> result rest_Config).
Context (Getenv : string -> string) (ParseFloat32 : string -> option spec_float).
Context (list_workspaces : rest_Config -> W -> string -> result (list string)).

Abbreviation managerFor :=
  (managerForWorkspace load_RawConfig build_clients user_agent Getenv ParseFloat32).
Abbreviation reset :=
  (kcp_reset (HC := HC) load_RawConfig load_ClientConfig build_clients user_agent LoadingRules_Load
    rest_InClusterConfig Getenv ParseFloat32 list_workspaces).

Lemma NewManager_config cfg rc cc w m w' :
  NewManager build_clients user_agent Getenv ParseFloat32 cfg rc cc w = (Ok m, w') ->
  mg_config m = cfg /\ rc_Host (k_restConfig (mg_kubernetes m)) = rc_Host rc /\
  k_clientCmdConfig (mg_kubernetes m) = cc.
Proof.
  unfold NewManager, NewKubernetes. intros H.
  destruct (build_clients _ _ w) as [[k|e] w1]; cbn in H; [|discriminate H].
  injection H as <- _. cbn. by case_match.
Qed.

Lemma NewKubeconfigManager_config cfg ctx w m w' :
  NewKubeconfigManager load_ClientConfig build_clients user_agent LoadingRules_Load rest_InClusterConfig
    Getenv ParseFloat32 cfg ctx w = (Ok m, w') -> mg_config m = cfg.
Proof.
  unfold NewKubeconfigManager. destruct (IsInCluster _ cfg w); [done|].
  destruct (resolveKubeconfigContext _ _ ctx w); [|done].
  destruct (load_ClientConfig _ _ w); [|done]. intros H. by apply NewManager_config in H as [-> _].
Qed.

(** [reset] asks its base manager for a client in the context it is given, so with
    OAuth required it fails in a context without a token, and the provider of a
    server that requires OAuth, which is reset in the empty context, is never
    created. *)
Lemma kcp_reset_requires_token fuel cx w :
  bearer_token cx = None -> c_RequireOAuth (kcp_config (cell_get w)) = true ->
  (reset fuel cx w).1 <> Some None.
Proof.
  intros Hb Ho. unfold kcp_reset. cbv zeta.
  destruct (RawConfig _ _ w) as [raw|]; [|done].
  destruct (kc_Contexts raw !! _) as [ctx|]; [|done].
  destruct (kc_Clusters raw !! _) as [cl|]; [|done].
  destruct (ParseServerURL _) as [base ws]. destruct (ws =?s ""); [done|].
  destruct (load_ClientConfig _ _ w) as [rc|]; [|done].
  destruct (NewKubeconfigManager _ _ _ _ _ _ _ _ _ _) as [[m|e] w1] eqn:Hm; [|done].
  apply NewKubeconfigManager_config in Hm. cbn [kcp_config] in Hm.
  destruct (DiscoverAllWorkspaces _ _ _ _) as [l|]; [|done].
  unfold Derived. rewrite Hb, Hm, Ho. done.
Qed.

#[export] Instance kcp_derives :
  DerivesClients load_RawConfig build_clients user_agent
    (inner_of (kcp_GetDerivedKubernetes (HC := HC) load_RawConfig build_clients user_agent Getenv ParseFloat32))
    (fun target m => exists w w', managerFor (if target =?s "" then kcp_defaultWorkspace (cell_get w) else target) w
       = (Some (Ok m), w')).
Proof.
  intros cx target w k w'. unfold inner_of, kcp_GetDerivedKubernetes. cbv zeta.
  destruct (managerFor _ w) as [[[m|e]|] w1] eqn:Hm; [|done..].
  destruct (Derived _ _ _ m cx w1) as [k' w2] eqn:Hd. intros [= -> ->].
  exists m, w1, w'. split; [by exists w, w1|done].
Qed.
End Kcp_lemmas.

(** * Properties *)

(** Once the provider knows the base of its server, which is part of a URL with a
    workspace, the URL it makes for a workspace names that workspace at that base,
    less one slash at the end. *)
Theorem workspace_url_roundtrip (serverURL workspace : string) :
  Contains serverURL "/clusters/" = true ->
  let base := (ParseServerURL serverURL).1 in
  ParseServerURL (ConstructWorkspaceURL base workspace) = (base, TrimSuffix workspace "/").
Proof.
  unfold Contains. change "/clusters/" with clusters_sep. cbn zeta.
  assert (forall n, Index serverURL clusters_sep = Some n ->
    (ParseServerURL serverURL).1 = take_str n serverURL) as Hb by (intros n Hn; unfold ParseServerURL; by rewrite Hn).
  destruct (Index serverURL clusters_sep) as [n|] eqn:Hn; [intros _|done]. rewrite (Hb n eq_refl).
  pose proof (Index_bound _ _ _ Hn) as Hl. pose proof (Index_Some _ _ _ Hn) as Hs.
  set (base := take_str n serverURL) in *.
  assert (Index (base +:+ clusters_sep +:+ workspace) clusters_sep = Some (slen base)) as Hi.
  { apply Index_app_first with (t := drop_str (n + slen clusters_sep) serverURL). by rewrite <- Hs, Hl. }
  unfold ParseServerURL, ConstructWorkspaceURL. rewrite fmt3. change "/clusters/" with clusters_sep.
  rewrite Hi. cbn zeta. rewrite take_str_append. f_equal. f_equal.
  by rewrite <- slen_append, <- append_assoc, drop_str_append.
Qed.

Lemma DiscoverAll_reachable (children : string -> result (list string)) (baseHost root : string)
    (fin : gset string) fuel :
  (forall x, rtc (child_workspace children baseHost) root x -> x ∈ fin) -> size fin <= fuel ->
  exists s, DiscoverAllWorkspaces children baseHost fuel root = Some s /\
    forall x, x ∈ s <-> rtc (child_workspace children baseHost) root x.
Proof.
  intros Hfin Hf. assert (root ∈ fin) as Hroot by (by apply Hfin).
  destruct (discover_spec children baseHost fuel fin root {[ root ]}) as (s & Hs & H1 & H2 & H3); [set_solver|done| |].
  { assert (size (fin ∖ {[ root ]}) < size fin); [apply subset_size; set_solver|lia]. }
  exists s. split; [done|]. intros x. split.
  - intros Hx. destruct (decide (x = root)) as [->|Hne]; [done|]. apply H3; [done|set_solver].
  - intros Hx. assert (root ∈ s) as Hrs by set_solver.
    assert (forall y c, y ∈ s -> child_workspace children baseHost y c -> c ∈ s) as Hclosed.
    { intros y c Hy Hc. destruct (decide (y = root)) as [->|Hne]; [by apply H2|]. apply (H3 y); [done|set_solver|done]. }
    clear -Hx Hrs Hclosed. induction Hx as [|y z x' Hyz _ IH]; [done|]. apply IH. by eapply Hclosed.
Qed.

(** C30. Discovery ends when the workspaces below the root are finitely many, with as
    much fuel as there are workspaces, and finds exactly those. *)
Theorem DiscoverAllWorkspaces_spec (children : string -> result (list string)) (baseHost root : string)
    (fin : gset string) fuel :
  (forall x, rtc (child_workspace children baseHost) root x -> x ∈ fin) -> size fin <= fuel ->
  exists s, DiscoverAllWorkspaces children baseHost fuel root = Some s /\
    forall x, x ∈ s <-> rtc (child_workspace children baseHost) root x.
Proof. apply DiscoverAll_reachable. Qed.

(** A manager for a workspace is the one there was, or a new one over the
    configuration of the provider whose host is the URL of exactly this workspace,
    and which is then the manager of the workspace; the other workspaces keep
    theirs; a workspace that was not discovered has no manager. *)
Theorem managerForWorkspace_spec {W C : Type} {cell : Cell W (kcpClusterProvider C)}
    (load_RawConfig : string -> string -> W -> result kubeconfig)
    (build_clients : StaticConfig -> rest_Config -> ST W (result C)) (user_agent : string)
    (Getenv : string -> string) (ParseFloat32 : string -> option spec_float) workspace w m w' :
  managerForWorkspace load_RawConfig build_clients user_agent Getenv ParseFloat32 workspace w
    = (Some (Ok m), w') ->
  let p := cell_get w in
  let p' : kcpClusterProvider C := cell_get w' in
  (kcp_managers p !! workspace = Some (Some m) /\ p' = p) \/
  (kcp_managers p !! workspace = Some None /\
   rc_Host (k_restConfig (mg_kubernetes m)) = ConstructWorkspaceURL (kcp_baseServerURL p) workspace /\
   mg_config m = kcp_config p /\ kcp_managers p' = <[workspace := Some m]> (kcp_managers p) /\
   kcp_defaultWorkspace p' = kcp_defaultWorkspace p /\ kcp_baseServerURL p' = kcp_baseServerURL p).
Proof.
  unfold managerForWorkspace. cbv zeta.
  destruct (kcp_managers (cell_get w) !! workspace) as [[m0|]|] eqn:Hl; [|..|discriminate].
  - intros [= -> ->]. by left.
  - destruct (kcp_restConfig (cell_get w)) as [rc|]; [|discriminate].
    destruct (RawConfig _ _ w) as [raw|]; [|discriminate].
    destruct (findOrCreateWorkspaceContext _ raw workspace) as [[cname raw']|]; [|discriminate].
    destruct (NewManager _ _ _ _ _ _ _ w) as [[m1|e] w1] eqn:Hm; [|discriminate].
    intros [= -> <-]. right. rewrite cell_get_put. cbn.
    by apply NewManager_config in Hm as (-> & -> & _).
Qed.

(** The managers of all targets are those the provider has for them afterwards, in the order
    of the targets; the targets stay, and no manager that there was is replaced. *)
Lemma GetTargetManagers_spec {W C : Type} {cell : Cell W (kcpClusterProvider C)}
    (load_RawConfig : string -> string -> W -> result kubeconfig)
    (build_clients : StaticConfig -> rest_Config -> ST W (result C)) (user_agent : string)
    (Getenv : string -> string) (ParseFloat32 : string -> option spec_float) w mgrs w' :
  kcp_GetTargetManagers load_RawConfig build_clients user_agent Getenv ParseFloat32 w = (Some (Ok mgrs), w') ->
  Forall2 (fun n m => kcp_managers (cell_get w' : kcpClusterProvider C) !! n = Some (Some m)) (kcp_GetTargets w) mgrs /\
  (forall n m, kcp_managers (cell_get w : kcpClusterProvider C) !! n = Some (Some m) ->
     kcp_managers (cell_get w' : kcpClusterProvider C) !! n = Some (Some m)).
Proof.
  unfold kcp_GetTargetManagers. generalize (kcp_GetTargets w) as names. intros names. revert w mgrs w'.
  induction names as [|cn names IH]; intros w mgrs w'; cbn [workspace_managers].
  { intros [= <- <-]. by split. }
  destruct (managerForWorkspace _ _ _ _ _ cn w) as [[[m|]|] w1] eqn:Hm; [|done..].
  destruct (workspace_managers _ _ _ _ _ names w1) as [[[ms|]|] w2] eqn:Hms; [|done..].
  intros [= <- <-]. destruct (IH _ _ _ Hms) as [H1 H2]. apply managerForWorkspace_spec in Hm. cbv zeta in Hm.
  destruct Hm as [[Hl E]|(Hl & _ & _ & E & _)].
  - split; [constructor; [|done]|]; [apply H2; by rewrite E|]. intros n m' Hn. apply H2. by rewrite E.
  - split; [constructor; [|done]|]; [apply H2; by rewrite E, lookup_insert_eq|]. intros n m' Hn. apply H2. rewrite E.
    destruct (decide (n = cn)) as [->|Hne]; [congruence|]. by rewrite lookup_insert_ne.
Qed.

(** * Witnesses *)

Lemma workspace_url_roundtrip_witness :
  ParseServerURL "https://kcp:6443/clusters/root" = ("https://kcp:6443", "root") /\
  ParseServerURL (ConstructWorkspaceURL "https://kcp:6443" "root:team/") = ("https://kcp:6443", "root:team").
Proof.
  split; [vm_compute; reflexivity|].
  exact (workspace_url_roundtrip "https://kcp:6443/clusters/root" "root:team/" eq_refl).
Defined.

Module KcpWitness.
Definition children (url : string) : result (list string) :=
  if url =?s "https://kcp/clusters/root" then Ok ["a"; ""; "a"]
  else if url =?s "https://kcp/clusters/root:a" then Ok ["b"]
  else Err (ErrNew "forbidden").
Definition all : gset string := {["root"; "root:a"; "root:a:b"]}.
Lemma children_in x : rtc (child_workspace children "https://kcp") "root" x -> x ∈ all.
Proof.
  assert (forall y z, rtc (child_workspace children "https://kcp") y z -> y ∈ all -> z ∈ all) as H;
    [|intros Hx; apply (H _ _ Hx); by vm_compute].
  intros y z Hr. induction Hr as [|y u z (names & n & Hn & Hin & Hne & ->) _ IH]; [done|].
  intros Hy. apply IH. clear IH.
  assert (y = "root" \/ y = "root:a" \/ y = "root:a:b") as [->|[->| ->]] by (unfold all in Hy; set_solver);
    vm_compute in Hn; [injection Hn as <-..|discriminate Hn].
  - assert (n = "a") as -> by set_solver. by vm_compute.
  - assert (n = "b") as -> by set_solver. by vm_compute.
Qed.

Definition cred : credentials := mkCredentials "" "" "" "" "" "" "" "" None None "".
Definition rc : rest_Config := mkRestConfig "https://kcp/clusters/root" "" false "" "" "" cred "" S754_nan 0 0.
Definition raw : kubeconfig :=
  mkKubeconfig {[ "c" := mkCluster "https://kcp/clusters/root" false "" "" ]} ∅
    {[ "x" := mkContext "c" "u" ]} "x".
#[global] Instance cell : Cell (kcpClusterProvider unit) (kcpClusterProvider unit) :=
  { cell_get := fun w => w; cell_put := fun p _ => p; cell_get_put := fun _ _ => eq_refl }.
Definition provider : kcpClusterProvider unit :=
  mkKcp BaseDefault "https://kcp" (Some rc) (DeferredConfig "" "") "root" {[ "root:a" := None ]} None.
Definition run :=
  managerForWorkspace (cell := cell) (fun _ _ _ => Ok raw) (fun _ _ w => (Ok tt, w)) "go" (fun _ => "")
    (fun _ => None) "root:a" provider.
End KcpWitness.

Lemma DiscoverAllWorkspaces_spec_witness :
  exists s, DiscoverAllWorkspaces KcpWitness.children "https://kcp" 3 "root" = Some s /\ "root:a:b" ∈ s.
Proof.
  destruct (DiscoverAllWorkspaces_spec KcpWitness.children "https://kcp" "root" KcpWitness.all 3) as (s & Hs & Hx);
    [exact KcpWitness.children_in|vm_compute; lia|].
  exists s. split; [exact Hs|]. apply Hx.
  apply (rtc_l _ _ "root:a"); [|apply (rtc_l _ _ "root:a:b"); [|apply rtc_refl]].
  - exists ["a"; ""; "a"], "a". by repeat split; try (vm_compute; reflexivity); set_solver.
  - exists ["b"], "b". by repeat split; try (vm_compute; reflexivity); set_solver.
Defined.

Lemma managerForWorkspace_spec_witness :
  exists m, KcpWitness.run.1 = Some (Ok m) /\
    rc_Host (k_restConfig (mg_kubernetes m)) = "https://kcp/clusters/root:a".
Proof.
  destruct KcpWitness.run as [[[m|e]|] w'] eqn:E; [|exfalso; revert E; vm_compute; discriminate..].
  exists m. split; [reflexivity|].
  destruct (managerForWorkspace_spec (cell := KcpWitness.cell) _ _ _ _ _ "root:a" KcpWitness.provider m w'
    E) as [[H _]|(_ & H & _)]; [discriminate H|exact H].
Defined.
