(* ===== verification/MustGather.v ===== *)
(** The offline reader of must-gather archives (pkg/ocp/mustgather): the loader
    (loader.go), the index (index.go), the provider over both (provider.go,
    etcd.go, monitoring.go) and its helpers (utils.go).  The file system, the YAML,
    JSON and gzip decoders and the selectors of apimachinery are parameters. *)
From Stdlib Require Import Floats.SpecFloat.
From S2P Require Import Prelude GoStrings Paths Api Unstructured Cluster.

(** * Definitions *)

(** ** The index *)

Record ResourceIndex := mkIndex {
  ix_byGVK : gmap GroupVersionKind (gmap string object);
  ix_byNamespace : gmap string (gmap GroupVersionKind (gmap string object));
  ix_namespaces : list string;
  ix_count : Z;
}.

Definition NewResourceIndex : ResourceIndex := mkIndex ∅ ∅ [] 0.

Definition index_key (namespace name : string) : string :=
  if namespace ≠?s "" then fmt [namespace; "/"; name] else name.

Definition Add (obj : object) (idx : ResourceIndex) : ResourceIndex :=
  let gvk := object_GVK obj in
  let name := GetName obj in
  let namespace := GetNamespace obj in
  let byGVK :=
    <[gvk := <[index_key namespace name := obj]> (default ∅ (ix_byGVK idx !! gvk))]> (ix_byGVK idx) in
  let byNamespace :=
    if namespace ≠?s "" then
      let nsMap := default ∅ (ix_byNamespace idx !! namespace) in
      <[namespace := <[gvk := <[name := obj]> (default ∅ (nsMap !! gvk))]> nsMap]> (ix_byNamespace idx)
    else ix_byNamespace idx in
  mkIndex byGVK byNamespace (ix_namespaces idx) (ix_count idx + 1).

Definition buildNamespaceList (idx : ResourceIndex) : ResourceIndex :=
  mkIndex (ix_byGVK idx) (ix_byNamespace idx)
    (sort_strings (map fst (map_to_list (ix_byNamespace idx)))) (ix_count idx).

Definition BuildIndex (resources : list object) : ResourceIndex :=
  buildNamespaceList (fold_left (fun idx r => Add r idx) resources NewResourceIndex).

(** [Get]; the deep copy may panic: the outer [None]. *)
Definition index_Get (gvk : GroupVersionKind) (name namespace : string) (idx : ResourceIndex) :
    option (option object) :=
  match ix_byGVK idx !! gvk with
  | None => Some None
  | Some gvkMap =>
      match gvkMap !! index_key namespace name with
      | None => Some None
      | Some obj => match DeepCopy obj with Some o => Some (Some o) | None => None end
      end
  end.

Record ListOptions := mkListOptions {
  lo_LabelSelector : string;
  lo_FieldSelector : string;
  lo_Limit : Z;
}.

Section List_index.
(** The selector languages: what a selector that parses matches. *)
Context (labels_Parse : string -> result (gmap string string -> bool)).
Context (fields_ParseSelector : string -> result (gmap string string -> bool)).
(** The order in which Go ranges over a map. *)
Context (range_map : gmap string object -> list object).

Record listMatcher := mkMatcher {
  lm_labelSel : option (gmap string string -> bool);
  lm_fieldSel : option (gmap string string -> bool);
}.

Definition newListMatcher (opts : ListOptions) : result listMatcher :=
  let labelSel :=
    if lo_LabelSelector opts ≠?s "" then
      match labels_Parse (lo_LabelSelector opts) with
      | Err err => Err (wrapf (fmt ["invalid label selector "; quote (lo_LabelSelector opts); ": "]) err)
      | Ok sel => Ok (Some sel)
      end
    else Ok None in
  match labelSel with
  | Err err => Err err
  | Ok labelSel =>
      if lo_FieldSelector opts ≠?s "" then
        match fields_ParseSelector (lo_FieldSelector opts) with
        | Err err => Err (wrapf (fmt ["invalid field selector "; quote (lo_FieldSelector opts); ": "]) err)
        | Ok sel => Ok (mkMatcher labelSel (Some sel))
        end
      else Ok (mkMatcher labelSel None)
  end.

Definition matches (m : listMatcher) (obj : object) : bool :=
  if match lm_labelSel m with Some sel => negb (sel (GetLabels obj)) | None => false end then false
  else
    match lm_fieldSel m with
    | Some sel =>
        sel (<["metadata.name" := GetName obj]> {[ "metadata.namespace" := GetNamespace obj ]})
    | None => true
    end.

(** The loop that copies the matching objects; [None] is a panic of a copy. *)
Fixpoint collect (m : listMatcher) (objs : list object) : option (list object) :=
  match objs with
  | [] => Some []
  | obj :: objs =>
      if matches m obj then
        match DeepCopy obj, collect m objs with
        | Some o, Some l => Some (o :: l)
        | _, _ => None
        end
      else collect m objs
  end.

Definition index_List (gvk : GroupVersionKind) (namespace : string) (opts : ListOptions)
    (idx : ResourceIndex) : option (result (list object)) :=
  match newListMatcher opts with
  | Err err => Some (Err err)
  | Ok matcher =>
      let gvkMap :=
        if namespace ≠?s "" then
          match ix_byNamespace idx !! namespace with
          | None => None
          | Some nsMap => nsMap !! gvk
          end
        else ix_byGVK idx !! gvk in
      match gvkMap with
      | None => Some (Ok [])
      | Some gvkMap =>
          match collect matcher (range_map gvkMap) with
          | None => None
          | Some items =>
              Some (Ok (if (0 <? lo_Limit opts)%Z && (lo_Limit opts <? Z.of_nat (length items))%Z
                        then take (Z.to_nat (lo_Limit opts)) items else items))
          end
      end
  end.
End List_index.

Definition index_ListNamespaces (idx : ResourceIndex) : list string := ix_namespaces idx.
Definition index_Count (idx : ResourceIndex) : Z := ix_count idx.

(** ** The loader *)

Definition normalizeYAMLTypes : yvalue -> yvalue :=
  fix go v :=
  match v with
  | YInt z => YInt64 z
  | YMap o => YMap (map (fun kv => (kv.1, go kv.2)) o)
  | YSlice l => YSlice (map go l)
  | _ => v
  end.
Definition normalize_object (o : object) : object := map (fun kv => (kv.1, normalizeYAMLTypes kv.2)) o.

(** The namespace of the directory, for an object that has none. *)
Definition in_namespace (namespace : string) (obj : object) : object :=
  if (namespace ≠?s "") && (GetNamespace obj =?s "") then SetNamespace namespace obj else obj.

Definition string_field (k : string) (o : object) : string :=
  match field k o with Some (YString s) => s | _ => "" end.

(** The error of [ParseGroupVersion] is dropped, with an empty group and version. *)
Definition set_gvk (apiVersion kind : string) (obj : object) : object :=
  if (apiVersion ≠?s "") && (kind ≠?s "") then
    let '(g, v) := match ParseGroupVersion apiVersion with Ok gv => gv | Err _ => ("", "") end in
    SetGroupVersionKind (mkGVK g v kind) obj
  else obj.

Definition loadList (raw : object) (namespace : string) : list object :=
  match field "items" raw with
  | Some (YSlice items) =>
      omap (fun item =>
        match item with
        | YMap itemMap =>
            let itemMap := normalize_object itemMap in
            let obj := in_namespace namespace itemMap in
            Some (set_gvk (string_field "apiVersion" obj) (string_field "kind" obj) obj)
        | _ => None
        end) items
  | _ => []
  end.

Section Loader.
(** The file system: directories, files, and the walk of a directory, which
    visits its files in lexical order with whether each is a directory. *)
Context (ReadDir : string -> result (list (string * bool))).
Context (ReadFile : string -> result string).
Context (Exists : string -> bool).
Context (Walk : string -> list (string * result bool)).
Context (yaml_Unmarshal : string -> result (option object)).

Record MustGatherMetadata := mkMetadata {
  md_Path : string;
  md_ContainerDir : string;
  md_Version : string;
  md_Timestamp : string;
  md_ResourceCount : Z;
  md_NamespaceCount : Z;
}.

Fixpoint find_container (basePath : string) (entries : list (string * bool)) : result string :=
  match entries with
  | [] => Err (ErrNew (fmt ["container directory not found in "; basePath]))
  | (name, is_dir) :: entries =>
      if is_dir && (HasPrefix name "quay" || Contains name "sha256") then Ok (filepath_Join [basePath; name])
      else find_container basePath entries
  end.
Definition FindContainerDir (basePath : string) : result string :=
  match ReadDir basePath with
  | Err err => Err err
  | Ok entries => find_container basePath entries
  end.

Definition loadMetadata (containerDir : string) (m : MustGatherMetadata) : MustGatherMetadata :=
  let m :=
    match ReadFile (filepath_Join [containerDir; "version"]) with
    | Ok data => mkMetadata (md_Path m) (md_ContainerDir m) (TrimSpace data) (md_Timestamp m)
                   (md_ResourceCount m) (md_NamespaceCount m)
    | Err _ => m
    end in
  match ReadFile (filepath_Join [containerDir; "timestamp"]) with
  | Ok data => mkMetadata (md_Path m) (md_ContainerDir m) (md_Version m) (TrimSpace data)
                 (md_ResourceCount m) (md_NamespaceCount m)
  | Err _ => m
  end.

Definition loadYAMLFile (path namespace : string) : result (list object) :=
  match ReadFile path with
  | Err err => Err err
  | Ok data =>
      match yaml_Unmarshal data with
      | Err err => Err err
      | Ok None => Ok []
      | Ok (Some raw) =>
          let raw := normalize_object raw in
          if HasSuffix (string_field "kind" raw) "List" then Ok (loadList raw namespace)
          else
            let obj := in_namespace namespace raw in
            let obj :=
              if gvk_Kind (object_GVK obj) =?s "" then
                set_gvk (string_field "apiVersion" obj) (string_field "kind" obj) obj
              else obj in
            Ok [obj]
      end
  end.

Definition is_yaml (path : string) : bool := HasSuffix path ".yaml" || HasSuffix path ".yml".

Definition loaded_or_none (r : result (list object)) : list object :=
  match r with Ok l => l | Err _ => [] end.

Definition loadClusterScopedResources (containerDir : string) : list object :=
  let clusterDir := filepath_Join [containerDir; "cluster-scoped-resources"] in
  if negb (Exists clusterDir) then []
  else
    concat (map (fun '(path, info) =>
      match info with
      | Err _ => []
      | Ok is_dir => if is_dir || negb (is_yaml path) then [] else loaded_or_none (loadYAMLFile path "")
      end) (Walk clusterDir)).

Definition load_namespace (namespacesDir namespace : string) : list object :=
  let nsDir := filepath_Join [namespacesDir; namespace] in
  concat (map (fun '(path, info) =>
    match info with
    | Err _ => []
    | Ok is_dir =>
        if is_dir || negb (is_yaml path) then []
        else
          let rel := match filepath_Rel nsDir path with Ok rel => rel | Err _ => "" end in
          if HasPrefix rel "pods/" then [] else loaded_or_none (loadYAMLFile path namespace)
    end) (Walk nsDir)).

Definition loadNamespacedResources (containerDir : string) : list object :=
  let namespacesDir := filepath_Join [containerDir; "namespaces"] in
  if negb (Exists namespacesDir) then []
  else
    match ReadDir namespacesDir with
    | Err _ => []
    | Ok nsEntries =>
        concat (map (fun '(namespace, is_dir) =>
          if is_dir : bool then load_namespace namespacesDir namespace else []) nsEntries)
    end.

Definition Load (path : string) : MustGatherMetadata * list object :=
  let containerDir := match FindContainerDir path with Ok d => d | Err _ => path end in
  let metadata := loadMetadata containerDir (mkMetadata path containerDir "" "" 0 0) in
  let resources := loadClusterScopedResources containerDir ++ loadNamespacedResources containerDir in
  (mkMetadata (md_Path metadata) (md_ContainerDir metadata) (md_Version metadata) (md_Timestamp metadata)
     (Z.of_nat (length resources)) (md_NamespaceCount metadata), resources).
End Loader.

(** ** The provider *)

Definition LogTypeCurrent : string := "current".
Definition LogTypePrevious : string := "previous".
Record PodLogOptions := mkPodLogOptions {
  po_Namespace : string;
  po_Pod : string;
  po_Container : string;
  po_LogType : string;
  po_TailLines : Z;
}.
Record NodeDiagnostics := mkNodeDiagnostics {
  nd_NodeName : string;
  nd_KubeletLog : string;
  nd_SysInfo : string;
  nd_CPUAffinities : string;
  nd_IRQAffinities : string;
  nd_PodsInfo : string;
  nd_PodResources : string;
  nd_Lscpu : string;
  nd_Lspci : string;
  nd_Dmesg : string;
  nd_ProcCmdline : string;
}.
Record ETCDEndpoint := mkETCDEndpoint { ee_Address : string; ee_Health : string }.
Record ETCDHealth := mkETCDHealth {
  eh_Healthy : bool;
  eh_Endpoints : list ETCDEndpoint;
  eh_Alarms : list string;
}.
Record Provider := mkMGProvider { mg_metadata : MustGatherMetadata; mg_index : ResourceIndex }.

(** The last [n] lines; a negative [n] is a slice out of range, which panics
    ([None]). *)
Definition TailLines (content : string) (n : Z) : option string :=
  let lines := Split "010" content in
  if (Z.of_nat (length lines) <=? n)%Z then Some content
  else if (n <? 0)%Z then None
  else Some (Join (drop (length lines - Z.to_nat n) lines) nl).

Section Provider.
Context (ReadDir : string -> result (list (string * bool))).
Context (ReadFile : string -> result string).
Context (Exists : string -> bool) (Stat : string -> option error).
Context (Walk : string -> list (string * result bool)).
Context (yaml_Unmarshal : string -> result (option object)).
(** The text of a gzip file, up to 64 MB. *)
Context (readGzipFile : string -> result string).

Definition NewProvider (path : string) : Provider :=
  let '(metadata, resources) := Load ReadDir ReadFile Exists Walk yaml_Unmarshal path in
  let index := BuildIndex resources in
  mkMGProvider
    (mkMetadata (md_Path metadata) (md_ContainerDir metadata) (md_Version metadata) (md_Timestamp metadata)
       (md_ResourceCount metadata) (Z.of_nat (length (index_ListNamespaces index)))) index.

Definition ListPodContainers (namespace pod : string) (p : Provider) : result (list string) :=
  match ReadDir (filepath_Join [md_ContainerDir (mg_metadata p); "namespaces"; namespace; "pods"; pod]) with
  | Err err => Err (wrapf "pod directory not found: " err)
  | Ok entries => Ok (map fst (filter (fun e => e.2 = true) entries))
  end.

Definition pod_log_path (opts : PodLogOptions) (container : string) (p : Provider) : string :=
  let logType := if po_LogType opts =?s "" then LogTypeCurrent else po_LogType opts in
  filepath_Join [md_ContainerDir (mg_metadata p); "namespaces"; po_Namespace opts; "pods"; po_Pod opts;
    container; container; "logs"; logType +:+ ".log"].

Definition GetPodLogPath (opts : PodLogOptions) (p : Provider) : result string :=
  let container :=
    if po_Container opts =?s "" then
      match ListPodContainers (po_Namespace opts) (po_Pod opts) p with
      | Err err => Err err
      | Ok [] =>
          Err (ErrNew (fmt ["no containers found for pod "; po_Namespace opts; "/"; po_Pod opts]))
      | Ok (c :: _) => Ok c
      end
    else Ok (po_Container opts) in
  match container with
  | Err err => Err err
  | Ok container =>
      let logPath := pod_log_path opts container p in
      match Stat logPath with
      | Some err => Err (wrapf "log file not found: " err)
      | None => Ok logPath
      end
  end.

Definition GetPodLog (opts : PodLogOptions) (p : Provider) : result string :=
  match GetPodLogPath opts p with
  | Err err => Err err
  | Ok logPath =>
      match ReadFile logPath with
      | Err err => Err (wrapf "failed to read log file: " err)
      | Ok content =>
          if (0 <? po_TailLines opts)%Z then Ok (default content (TailLines content (po_TailLines opts)))
          else Ok content
      end
  end.

Definition text_of (path : string) : string :=
  match ReadFile path with Ok content => content | Err _ => "" end.

Definition GetNodeDiagnostics (nodeName : string) (p : Provider) : result NodeDiagnostics :=
  let nodeDir := filepath_Join [md_ContainerDir (mg_metadata p); "nodes"; nodeName] in
  if negb (Exists nodeDir) then Err (ErrNew (fmt ["node directory not found: "; nodeName]))
  else
    let file name := text_of (filepath_Join [nodeDir; name]) in
    let kubelet :=
      match readGzipFile (filepath_Join [nodeDir; nodeName +:+ "_logs_kubelet.gz"]) with
      | Ok content => content
      | Err _ => ""
      end in
    Ok (mkNodeDiagnostics nodeName kubelet (file "sysinfo.log") (file "cpu_affinities.json")
          (file "irq_affinities.json") (file "pods_info.json") (file "podresources.json") (file "lscpu")
          (file "lspci") (file "dmesg") (file "proc_cmdline")).

Definition ListNodes (p : Provider) : list string :=
  match ReadDir (filepath_Join [md_ContainerDir (mg_metadata p); "nodes"]) with
  | Err _ => []
  | Ok entries => map fst (filter (fun e => e.2 = true) entries)
  end.

(** *** etcd.go

    The decoded documents: the endpoints with their health; the alarms, as member
    and alarm; the counts. *)
Context (decode_health : string -> result (list ETCDEndpoint)).
Context (decode_alarms : string -> result (list (Z * string))).
Context (decode_counts : string -> result (gmap string Z)).

Definition etcd_dir (p : Provider) : string := filepath_Join [md_ContainerDir (mg_metadata p); "etcd_info"].

Definition GetETCDHealth (p : Provider) : result ETCDHealth :=
  match ReadFile (filepath_Join [etcd_dir p; "endpoint_health.json"]) with
  | Err err => Err (wrapf "ETCD health data not found: " err)
  | Ok healthData =>
      match decode_health healthData with
      | Err err => Err (wrapf "failed to parse ETCD health: " err)
      | Ok endpoints =>
          let healthy :=
            forallb (fun ep => negb ((ee_Health ep ≠?s "true") && (ee_Health ep ≠?s "healthy"))) endpoints in
          let alarms :=
            match ReadFile (filepath_Join [etcd_dir p; "alarm_list.json"]) with
            | Ok alarmData => match decode_alarms alarmData with Ok l => l | Err _ => [] end
            | Err _ => []
            end in
          Ok (mkETCDHealth (if Nat.eqb (length alarms) 0 then healthy else false) endpoints
                (map (fun a => fmt ["Member "; itoa a.1; ": "; a.2]) alarms))
      end
  end.

Definition GetETCDObjectCount (p : Provider) : result (gmap string Z) :=
  match ReadFile (filepath_Join [md_ContainerDir (mg_metadata p); "etcd_info"; "object_count.json"]) with
  | Err err => Err (wrapf "ETCD object count data not found: " err)
  | Ok data =>
      match decode_counts data with
      | Err err => Err (wrapf "failed to parse ETCD object count: " err)
      | Ok counts => Ok counts
      end
  end.

Definition ReadETCDFile (filename : string) (p : Provider) : result string :=
  let filePath := filepath_Join [etcd_dir p; filename] in
  if negb (HasPrefix (filepath_Clean filePath) (filepath_Clean (etcd_dir p) +:+ "/")) then
    Err (ErrNew (fmt ["invalid ETCD filename: "; filename]))
  else
    match ReadFile filePath with
    | Err err => Err (wrapf (fmt ["ETCD file "; filename; " not found: "]) err)
    | Ok data => Ok data
    end.

(** *** monitoring.go: a JSON document under the monitoring directory *)
Definition GetPrometheusReplicaPath (replicaNum : Z) (p : Provider) : string :=
  filepath_Join [md_ContainerDir (mg_metadata p); "monitoring"; "prometheus";
    fmt ["prometheus-k8s-"; itoa replicaNum]].
Definition GetPrometheusCommonPath (p : Provider) : string :=
  filepath_Join [md_ContainerDir (mg_metadata p); "monitoring"; "prometheus"].
Definition GetAlertManagerPath (p : Provider) : string :=
  filepath_Join [md_ContainerDir (mg_metadata p); "monitoring"; "alertmanager"].

Definition ReadJSON {T} (Unmarshal : string -> result T) (filePath : string) : result T :=
  match ReadFile filePath with
  | Err err => Err (wrapf (fmt ["failed to read file "; filepath_Base filePath; ": "]) err)
  | Ok data =>
      match Unmarshal data with
      | Err err => Err (wrapf (fmt ["failed to parse JSON from "; filepath_Base filePath; ": "]) err)
      | Ok v => Ok v
      end
  end.
Definition ReadPrometheusJSON {T} (Unmarshal : string -> result T) (replicaPath filename : string) : result T :=
  ReadJSON Unmarshal (filepath_Join [replicaPath; filename]).
Definition GetPrometheusTSDB {T} (Unmarshal : string -> result T) (replicaNum : Z) (p : Provider) : result T :=
  ReadPrometheusJSON Unmarshal (GetPrometheusReplicaPath replicaNum p) "status/tsdb.json".
Definition GetPrometheusRuntimeInfo {T} (Unmarshal : string -> result T) (replicaNum : Z) (p : Provider) :
    result T :=
  ReadPrometheusJSON Unmarshal (GetPrometheusReplicaPath replicaNum p) "status/runtimeinfo.json".
Definition GetPrometheusActiveTargets {T} (Unmarshal : string -> result T) (replicaNum : Z) (p : Provider) :
    result T :=
  ReadPrometheusJSON Unmarshal (GetPrometheusReplicaPath replicaNum p) "active-targets.json".
Definition GetPrometheusRules {T} (Unmarshal : string -> result T) (p : Provider) : result T :=
  ReadJSON Unmarshal (filepath_Join [GetPrometheusCommonPath p; "rules.json"]).
Definition GetAlertManagerStatus {T} (Unmarshal : string -> result T) (p : Provider) : result T :=
  ReadJSON Unmarshal (filepath_Join [GetAlertManagerPath p; "status.json"]).
Definition GetPrometheusConfig {T} (Unmarshal : string -> result T) (p : Provider) : result T :=
  ReadJSON Unmarshal (filepath_Join [GetPrometheusCommonPath p; "status"; "config.json"]).
Definition GetPrometheusFlags {T} (Unmarshal : string -> result T) (p : Provider) : result T :=
  ReadJSON Unmarshal (filepath_Join [GetPrometheusCommonPath p; "status"; "flags.json"]).
End Provider.

Definition GetReplicaNumbers (replicaParam : string) : list Z :=
  if (replicaParam =?s "prometheus-k8s-0") || (replicaParam =?s "0") then [0%Z]
  else if (replicaParam =?s "prometheus-k8s-1") || (replicaParam =?s "1") then [1%Z]
  else [0%Z; 1%Z].

(** ** utils.go *)

Definition allowedImageRegistries : list string :=
  ["registry.redhat.io"; "registry.access.redhat.com"; "registry.connect.redhat.com"].
Definition allowedGatherCommands : list string :=
  ["/usr/bin/gather"; "/usr/bin/gather_core_dumps"; "/usr/bin/gather_network_logs"; "/usr/bin/gather_audit_logs"].
Definition isAllowedImageRegistry (image : string) : bool :=
  existsb (fun registry => HasPrefix image (registry +:+ "/")) allowedImageRegistries.
Definition isAllowedGatherCommand (command : string) : bool :=
  existsb (fun knownCmd => command =?s knownCmd) allowedGatherCommands.

(** Nil for the empty selector. *)
Definition ParseNodeSelector (selector : string) : option (gmap string string) :=
  if selector =?s "" then None
  else
    Some (fold_left (fun result pair =>
      match Cut "=" (TrimSpace pair) with
      | Some (k, v) =>
          if TrimSpace k ≠?s "" then <[TrimSpace k := TrimSpace v]> result else result
      | None => result
      end) (Split "," selector) ∅).

Definition mgAnnotation : string := "operators.openshift.io/must-gather-image".

(** [getComponentImages]: the listed ClusterOperators and ClusterServiceVersions. *)
Definition annotated_images (items : list object) : list string :=
  filter (fun i => i <> "") (map (fun u => default "" (GetAnnotations u !! mgAnnotation)) items).
Definition clusterOperatorGVR : GroupVersionResource := mkGVR "config.openshift.io" "v1" "clusteroperators".
Definition csvGVR : GroupVersionResource := mkGVR "operators.coreos.com" "v1alpha1" "clusterserviceversions".
Definition getComponentImages : prog (result (list string)) :=
  operators <-? call (KList clusterOperatorGVR "" (mkSelectors "" ""));
  csvs <-? call (KList csvGVR "" (mkSelectors "" ""));
  Ret (Ok (annotated_images operators ++ annotated_images csvs)).

(** * Specification *)

(** The abstract archive: of the resources with the same kind, namespace and name
    the last one counts. *)
Definition same_object (gvk : GroupVersionKind) (ns name : string) (r : object) : Prop :=
  object_GVK r = gvk /\ GetNamespace r = ns /\ GetName r = name.
#[export] Instance same_object_dec gvk ns name r : Decision (same_object gvk ns name r).
Proof. unfold same_object. apply _. Defined.
Definition latest (l : list object) gvk ns name : option object := last (filter (same_object gvk ns name) l).

(** Kubernetes names contain no slash. *)
Definition plain_name (r : object) : Prop := no_char "/" (GetNamespace r) /\ no_char "/" (GetName r).

Definition limited {A} (limit : Z) (l : list A) : list A := if (0 <? limit)%Z then take (Z.to_nat limit) l else l.

(** * Lemmas *)

(** ** The index *)

Lemma index_key_inj ns name ns' name' :
  no_char "/" ns -> no_char "/" name -> no_char "/" ns' -> no_char "/" name' ->
  index_key ns name = index_key ns' name' -> ns = ns' /\ name = name'.
Proof.
  intros H1 H2 H3 H4 Heq.
  assert (forall a b, no_char "/" a -> no_char "/" b ->
    Split "/" (index_key a b) = if a =?s "" then [b] else [a; b]) as Hs.
  { intros a b Ha Hb. unfold index_key. destruct (bool_decide_reflect (a = "")) as [->|Hne]; cbn [negb].
    - by apply Split_no_char.
    - change (fmt [a; "/"; b]) with (a +:+ String "/" b). rewrite Split_append by done. by rewrite Split_no_char. }
  apply (f_equal (Split "/")) in Heq. rewrite !Hs in Heq by done.
  destruct (bool_decide_reflect (ns = "")) as [->|], (bool_decide_reflect (ns' = "")) as [->|];
    injection Heq; naive_solver.
Qed.

Lemma last_filter_snoc {A} (P : A -> Prop) `{forall x, Decision (P x)} l x :
  last (filter P (l ++ [x])) = if decide (P x) then Some x else last (filter P l).
Proof.
  rewrite filter_app. destruct (decide (P x)).
  - rewrite filter_cons_True, filter_nil by done. by rewrite last_snoc.
  - rewrite filter_cons_False, filter_nil by done. by rewrite app_nil_r.
Qed.

Lemma filter_Forall_ext {A} (P Q : A -> Prop) `{forall x, Decision (P x), forall x, Decision (Q x)} l :
  Forall (fun x => P x <-> Q x) l -> filter P l = filter Q l.
Proof.
  induction 1 as [|x l Hx _ IH]; [done|]. destruct (decide (P x)) as [Hp|Hp].
  - rewrite !filter_cons_True by tauto. by rewrite IH.
  - rewrite !filter_cons_False by tauto. done.
Qed.

Definition index_of (l : list object) : ResourceIndex := fold_left (fun idx r => Add r idx) l NewResourceIndex.

Lemma index_of_snoc l r : index_of (l ++ [r]) = Add r (index_of l).
Proof. unfold index_of. by rewrite fold_left_app. Qed.

Definition has_key gvk key (r : object) : Prop :=
  object_GVK r = gvk /\ index_key (GetNamespace r) (GetName r) = key.
#[export] Instance has_key_dec gvk key r : Decision (has_key gvk key r).
Proof. unfold has_key. apply _. Defined.

Lemma byGVK_lookup l gvk key :
  (ix_byGVK (index_of l) !! gvk ≫= fun m => m !! key) = last (filter (has_key gvk key) l).
Proof.
  induction l as [|r l IH] using rev_ind; [done|].
  rewrite index_of_snoc, last_filter_snoc. cbn [Add ix_byGVK].
  destruct (decide (has_key gvk key r)) as [[<- <-]|Hn].
  - rewrite lookup_insert_eq. cbn [option_bind mbind]. by rewrite lookup_insert_eq.
  - rewrite <- IH. destruct (decide (object_GVK r = gvk)) as [<-|Hg]; [|by rewrite lookup_insert_ne].
    rewrite lookup_insert_eq. cbn [option_bind mbind].
    rewrite lookup_insert_ne by (intros <-; by apply Hn). by destruct (ix_byGVK (index_of l) !! object_GVK r).
Qed.

Lemma byNamespace_lookup l ns gvk name :
  ns <> "" ->
  (ix_byNamespace (index_of l) !! ns ≫= fun m => m !! gvk ≫= fun m => m !! name) = latest l gvk ns name.
Proof.
  intros Hns. unfold latest. induction l as [|r l IH] using rev_ind; [done|].
  rewrite index_of_snoc, last_filter_snoc. cbn [Add ix_byNamespace].
  destruct (decide (same_object gvk ns name r)) as [(<- & <- & <-)|Hn].
  - rewrite bool_decide_eq_false_2 by done. cbn [negb]. rewrite lookup_insert_eq. cbn [option_bind mbind].
    rewrite lookup_insert_eq. cbn [option_bind mbind]. by rewrite lookup_insert_eq.
  - rewrite <- IH. case_match; [|done].
    destruct (decide (GetNamespace r = ns)) as [<-|Hs]; [|by rewrite lookup_insert_ne].
    rewrite lookup_insert_eq. cbn [option_bind mbind].
    destruct (decide (object_GVK r = gvk)) as [<-|Hg].
    2:{ rewrite lookup_insert_ne by done. by destruct (ix_byNamespace (index_of l) !! GetNamespace r). }
    rewrite lookup_insert_eq. cbn [option_bind mbind]. rewrite lookup_insert_ne by (intros <-; by apply Hn).
    destruct (ix_byNamespace (index_of l) !! GetNamespace r) as [m|]; [|done]. cbn. by destruct (m !! object_GVK r).
Qed.

Lemma byNamespace_keys l ns :
  is_Some (ix_byNamespace (index_of l) !! ns) <-> ns <> "" /\ exists r, r ∈ l /\ GetNamespace r = ns.
Proof.
  induction l as [|r l IH] using rev_ind.
  { split; [intros [? [=]]|]. intros (_ & r & []%not_elem_of_nil & _). }
  rewrite index_of_snoc. cbn [Add ix_byNamespace].
  destruct (bool_decide_reflect (GetNamespace r = "")) as [He|Hne]; cbn [negb].
  - rewrite IH. setoid_rewrite elem_of_app. setoid_rewrite list_elem_of_singleton. naive_solver.
  - rewrite lookup_insert_is_Some, IH. setoid_rewrite elem_of_app. setoid_rewrite list_elem_of_singleton.
    destruct (decide (GetNamespace r = ns)); naive_solver.
Qed.

(** Among resources with plain names the key stands for namespace and name. *)
Lemma latest_key l gvk ns name :
  Forall plain_name l -> no_char "/" ns -> no_char "/" name ->
  last (filter (has_key gvk (index_key ns name)) l) = latest l gvk ns name.
Proof.
  intros Hl H1 H2. unfold latest. f_equal. apply filter_Forall_ext.
  eapply Forall_impl; [exact Hl|]. intros r [Hr1 Hr2]. unfold has_key, same_object.
  split; [|naive_solver]. intros [? Hk]. split; [done|]. by apply index_key_inj.
Qed.

Lemma collect_spec m objs :
  Forall (fun o => copyable (YMap o)) objs -> collect m objs = Some (filter (fun o => matches m o = true) objs).
Proof.
  induction 1 as [|o objs Ho _ IH]; [done|]. cbn [collect]. destruct (matches m o) eqn:Hm.
  - rewrite filter_cons_True by done. by rewrite copyable_DeepCopy_object, IH.
  - by rewrite filter_cons_False by by rewrite Hm.
Qed.

Lemma range_by_key {A} (m : gmap string A) (f : A -> string) l :
  (forall k o, m !! k = Some o -> f o = k) -> l ≡ₚ (map_to_list m).*2 ->
  NoDup l /\ forall o, o ∈ l <-> m !! f o = Some o.
Proof.
  intros Hf Hp. split.
  - rewrite Hp. apply (NoDup_fmap_1 f). rewrite <- list_fmap_compose.
    rewrite (list_fmap_ext (f ∘ snd) fst (map_to_list m)); [apply NoDup_fst_map_to_list|].
    intros i [k o] Hin%list_elem_of_lookup_2. apply elem_of_map_to_list in Hin. by apply Hf.
  - intros o. rewrite Hp, list_elem_of_fmap. split.
    + intros ([k o'] & -> & Hin). apply elem_of_map_to_list in Hin. cbn. by rewrite (Hf k o' Hin).
    + intros H. exists (f o, o). split; [done|]. by apply elem_of_map_to_list.
Qed.

Lemma latest_in l gvk ns name o :
  latest l gvk ns name = Some o -> o ∈ l /\ same_object gvk ns name o.
Proof. intros H. apply last_Some_elem_of, list_elem_of_filter in H. tauto. Qed.

Lemma latest_Some l gvk o :
  latest l gvk (GetNamespace o) (GetName o) = Some o -> object_GVK o = gvk.
Proof. by intros [_ [? _]]%latest_in. Qed.

(** ** Normalisation *)

(** A decoded value without the types JSON does not have. *)
Inductive decodable : yvalue -> Prop :=
| DNull : decodable YNull
| DString s : decodable (YString s)
| DBool b : decodable (YBool b)
| DInt z : decodable (YInt z)
| DInt64 z : decodable (YInt64 z)
| DFloat64 f : decodable (YFloat64 f)
| DSlice l : Forall decodable l -> decodable (YSlice l)
| DMap o : Forall (fun kv => decodable kv.2) o -> decodable (YMap o).

Lemma normalize_copyable v : decodable v <-> copyable (normalizeYAMLTypes v).
Proof.
  induction v using yvalue_nested_ind; cbn [normalizeYAMLTypes];
    try (split; intros; by constructor); try (by split; inversion 1).
  - split; inversion_clear 1 as [| | | | | |? Hl|] || inversion_clear 1 as [| | | | |? Hl|]; constructor;
      [apply Forall_fmap|]; (induction H as [|v l Hv _ IH]; [done|]);
      (apply Forall_cons in Hl as [? ?]; constructor; [by apply Hv|by apply IH]).
  - split; inversion_clear 1 as [| | | | | | |? Hl] || inversion_clear 1 as [| | | | | |? Hl]; constructor;
      [apply Forall_fmap|]; (induction H as [|v l Hv _ IH]; [done|]);
      (apply Forall_cons in Hl as [? ?]; constructor; [by apply Hv|by apply IH]).
Qed.

Lemma normalize_object_copyable o : decodable (YMap o) -> copyable (YMap (normalize_object o)).
Proof. intros H. by apply normalize_copyable in H. Qed.

Lemma normalize_twice v : copyable v -> normalizeYAMLTypes v = v.
Proof.
  induction v using yvalue_nested_ind; inversion_clear 1 as [| | | | |? Hl|? Hl]; cbn [normalizeYAMLTypes]; try done.
  - f_equal. induction H as [|v l Hv _ IH]; [done|]. apply Forall_cons in Hl as [? ?]. cbn [map].
    rewrite Hv by done. f_equal. by apply IH.
  - f_equal. induction H as [|[k v] l Hv _ IH]; [done|]. apply Forall_cons in Hl as [? ?]. cbn [map fst snd].
    cbn in *. rewrite Hv by done. f_equal. by apply IH.
Qed.

(** ** The loader *)

Section Loader_lemmas.
Context (ReadDir : string -> result (list (string * bool))).
Context (ReadFile : string -> result string).
Context (Exists : string -> bool).
Context (Walk : string -> list (string * result bool)).
Context (yaml_Unmarshal : string -> result (option object)).
Context (yaml_decodable : forall data raw, yaml_Unmarshal data = Ok (Some raw) -> decodable (YMap raw)).

Abbreviation copyable_objects := (Forall (fun o => copyable (YMap o))).

Lemma in_namespace_copyable ns o : copyable (YMap o) -> copyable (YMap (in_namespace ns o)).
Proof. intros H. unfold in_namespace. case_match; [by apply copyable_SetNamespace|done]. Qed.

Lemma set_gvk_copyable v k o : copyable (YMap o) -> copyable (YMap (set_gvk v k o)).
Proof.
  intros H. unfold set_gvk. case_match; [|done]. destruct (ParseGroupVersion v) as [[]|]; by apply copyable_SetGVK.
Qed.

Lemma loadList_copyable raw ns : copyable (YMap raw) -> copyable_objects (loadList raw ns).
Proof.
  intros Hraw. unfold loadList. destruct (field "items" raw) as [v|] eqn:Hi; [|done].
  pose proof (copyable_field _ _ _ Hraw Hi) as Hv. destruct v; try done.
  inversion_clear Hv as [| | | | |? Hl|]. clear Hi. induction Hl as [|item l Hitem _ IH]; [done|]. cbn [omap list_omap].
  destruct item; try done. constructor; [|done]. apply set_gvk_copyable, in_namespace_copyable.
  pose proof (normalize_twice _ Hitem) as Hn. cbn [normalizeYAMLTypes] in Hn. injection Hn as Hn.
  unfold normalize_object. by rewrite Hn.
Qed.

Lemma loadYAMLFile_copyable path ns :
  copyable_objects (loaded_or_none (loadYAMLFile ReadFile yaml_Unmarshal path ns)).
Proof.
  unfold loadYAMLFile. destruct (ReadFile path) as [data|]; [|done].
  destruct (yaml_Unmarshal data) as [[raw|]|] eqn:Hy; [|done..].
  pose proof (normalize_object_copyable raw (yaml_decodable _ _ Hy)) as Hc. cbn zeta.
  case_match; [by apply loadList_copyable|]. apply Forall_singleton.
  case_match; [apply set_gvk_copyable|]; by apply in_namespace_copyable.
Qed.

Lemma Forall_concat_map {A B} (P : B -> Prop) (f : A -> list B) l :
  (forall x, Forall P (f x)) -> Forall P (concat (map f l)).
Proof. intros H. induction l as [|x l IH]; [done|]. cbn. by apply Forall_app. Qed.

Lemma Load_copyable path :
  copyable_objects (Load ReadDir ReadFile Exists Walk yaml_Unmarshal path).2.
Proof.
  unfold Load. cbn [snd]. apply Forall_app. split.
  - unfold loadClusterScopedResources. case_match; [done|]. apply Forall_concat_map.
    intros [p [is_dir|]]; [|done]. cbn beta iota.
    destruct (is_dir || negb (is_yaml p)); [done|]. apply loadYAMLFile_copyable.
  - unfold loadNamespacedResources. case_match; [done|]. destruct (ReadDir _) as [entries|]; [|done].
    apply Forall_concat_map. intros [ns is_dir]. destruct is_dir; [|done]. unfold load_namespace.
    apply Forall_concat_map. intros [p [is_dir|]]; [|done]. cbn beta iota.
    destruct (is_dir || negb (is_yaml p)); [done|].
    destruct (HasPrefix _ "pods/"); [done|].
    apply loadYAMLFile_copyable.
Qed.
End Loader_lemmas.

(** A Namespace object without a namespace, as all are, that lies in the directory
    of its namespace is indexed as an object of this namespace and is not found as
    the cluster-scoped object it is. *)
Lemma namespace_object_misplaced :
  let ns := [("apiVersion", YString "v1"); ("kind", YString "Namespace"); ("metadata", YMap [("name", YString "foo")])] in
  let gvk := mkGVK "" "v1" "Namespace" in
  let idx := BuildIndex (loaded_or_none (loadYAMLFile (fun _ => Ok "") (fun _ => Ok (Some ns)) "foo.yaml" "foo")) in
  index_Get gvk "foo" "" idx = Some None /\
  match index_Get gvk "foo" "foo" idx with Some (Some _) => True | _ => False end.
Proof. by vm_compute. Qed.

(** An unquoted timestamp is decoded to a [time.Time], on which the copy panics. *)
Lemma timestamp_panics :
  let pod := [("apiVersion", YString "v1"); ("kind", YString "Pod");
    ("metadata", YMap [("name", YString "a"); ("creationTimestamp", YOther "time.Time")])] in
  index_Get (mkGVK "" "v1" "Pod") "a" "" (BuildIndex [normalize_object pod]) = None.
Proof. by vm_compute. Qed.

(** ** The provider *)

Lemma etcd_dir_elements p : path_elements (etcd_dir p) = path_elements (md_ContainerDir (mg_metadata p)) ++ ["etcd_info"].
Proof.
  unfold etcd_dir. apply filepath_Join_below; [done|]. constructor; [|done].
  apply (bool_decide_unpack (plain_element "etcd_info")). by vm_compute.
Qed.

(** A namespace that climbs takes the log of a pod outside of the archive. *)
Lemma pod_log_path_escapes :
  pod_log_path (mkPodLogOptions "../../../../var" "x" "" "" 0) "y"
    (mkMGProvider (mkMetadata "/data/mg" "/data/mg" "" "" 0 0) NewResourceIndex)
  = "/var/pods/x/y/y/logs/current.log".
Proof. by vm_compute. Qed.

(** ** The index as a list *)

Section Index_lemmas.
Context (l : list object) (Hplain : Forall plain_name l) (Hcopy : Forall (fun o => copyable (YMap o)) l).

Lemma index_Get_latest gvk name ns :
  no_char "/" name -> no_char "/" ns -> index_Get gvk name ns (BuildIndex l) = Some (latest l gvk ns name).
Proof.
  intros H1 H2. unfold index_Get. change (ix_byGVK (BuildIndex l)) with (ix_byGVK (index_of l)).
  pose proof (byGVK_lookup l gvk (index_key ns name)) as H. rewrite latest_key in H by done.
  destruct (ix_byGVK (index_of l) !! gvk) as [m|]; cbn in H; [|by rewrite <- H].
  destruct (m !! index_key ns name) as [o|]; [|by rewrite <- H]. symmetry in H.
  pose proof (latest_in _ _ _ _ _ H) as [Hin _]. rewrite Forall_forall in Hcopy.
  by rewrite copyable_DeepCopy_object, H by by apply Hcopy.
Qed.

(** What a map of the index holds, by the key of an object. *)
Definition holds gvk ns (f : object -> string) (m : gmap string object) : Prop :=
  (forall k o, m !! k = Some o -> f o = k) /\ (forall k o, m !! k = Some o -> o ∈ l) /\
  forall o, m !! f o = Some o <-> (ns = "" \/ GetNamespace o = ns) /\
    latest l gvk (GetNamespace o) (GetName o) = Some o.

Lemma cluster_holds gvk m :
  ix_byGVK (index_of l) !! gvk = Some m -> holds gvk "" (fun o => index_key (GetNamespace o) (GetName o)) m.
Proof.
  intros Hm. pose proof (fun k => byGVK_lookup l gvk k) as H. setoid_rewrite Hm in H. cbn in H.
  rewrite Forall_forall in Hplain.
  assert (forall k o, m !! k = Some o -> has_key gvk k o /\ o ∈ l) as Hk.
  { intros k o. rewrite H. intros Ho%last_Some_elem_of. by apply list_elem_of_filter in Ho. }
  split; [intros k o Ho; by apply Hk in Ho as [[_ ?] _]|]. split; [intros k o Ho; by apply Hk in Ho as [_ ?]|].
  assert (forall o, o ∈ l -> m !! index_key (GetNamespace o) (GetName o) = latest l gvk (GetNamespace o) (GetName o)) as He.
  { intros o Ho. rewrite H. destruct (Hplain o Ho). apply latest_key; [by apply Forall_forall|done..]. }
  intros o. split.
  - intros Ho. split; [by left|]. rewrite <- He; [done|]. by apply Hk in Ho as [_ ?].
  - intros [_ Ho]. rewrite He; [done|]. by apply latest_in in Ho as [? _].
Qed.

Lemma namespaced_holds gvk ns mns m :
  ns <> "" -> ix_byNamespace (index_of l) !! ns = Some mns -> mns !! gvk = Some m -> holds gvk ns GetName m.
Proof.
  intros Hns Hmns Hm. pose proof (fun k => byNamespace_lookup l ns gvk k Hns) as H.
  setoid_rewrite Hmns in H. cbn in H. setoid_rewrite Hm in H. cbn in H. split; [|split].
  - intros k o. rewrite H. by intros (_ & _ & _ & ?)%latest_in.
  - intros k o. rewrite H. by intros (? & _)%latest_in.
  - intros o. rewrite H. split.
    + intros Ho. pose proof (latest_in _ _ _ _ _ Ho) as (_ & _ & Hn & _). by subst ns; split; [right|].
    + intros [[?|<-] ?]; done.
Qed.

Lemma index_List_all labels_Parse fields_ParseSelector (range_map : gmap string object -> list object)
    (Hrange : forall m, range_map m ≡ₚ (map_to_list m).*2) gvk ns opts m :
  newListMatcher labels_Parse fields_ParseSelector opts = Ok m ->
  exists all, index_List labels_Parse fields_ParseSelector range_map gvk ns opts (BuildIndex l)
      = Some (Ok (limited (lo_Limit opts) all)) /\ NoDup all /\
    forall o, o ∈ all <-> (ns = "" \/ GetNamespace o = ns) /\ matches m o = true /\
      latest l gvk (GetNamespace o) (GetName o) = Some o.
Proof.
  intros Hm. unfold index_List. rewrite Hm.
  assert (match (if ns ≠?s "" then match ix_byNamespace (BuildIndex l) !! ns with None => None | Some mns => mns !! gvk end
                 else ix_byGVK (BuildIndex l) !! gvk) with
          | Some g => exists f, holds gvk ns f g
          | None => forall o, ~ ((ns = "" \/ GetNamespace o = ns) /\ latest l gvk (GetNamespace o) (GetName o) = Some o)
          end) as Hg.
  { change (ix_byNamespace (BuildIndex l)) with (ix_byNamespace (index_of l)).
    change (ix_byGVK (BuildIndex l)) with (ix_byGVK (index_of l)).
    destruct (bool_decide_reflect (ns = "")) as [->|Hns]; cbn [negb].
    - destruct (ix_byGVK (index_of l) !! gvk) as [g|] eqn:Hg; [eexists; by apply cluster_holds|].
      intros o [_ Ho]. pose proof (latest_in _ _ _ _ _ Ho) as (Hin & _). rewrite Forall_forall in Hplain.
      destruct (Hplain o Hin). rewrite <- latest_key, <- byGVK_lookup, Hg in Ho by (done || by apply Forall_forall). done.
    - pose proof (fun k => byNamespace_lookup l ns gvk k Hns) as H.
      destruct (ix_byNamespace (index_of l) !! ns) as [mns|] eqn:Hn.
      + destruct (mns !! gvk) as [g|] eqn:Hg; [eexists; by eapply namespaced_holds|].
        intros o [[?|<-] Ho]; [done|]. rewrite <- H in Ho. cbn in Ho. by rewrite Hg in Ho.
      + intros o [[?|<-] Ho]; [done|]. by rewrite <- H in Ho. }
  destruct (if ns ≠?s "" then _ else _) as [g|].
  2:{ exists []. split; [unfold limited; case_match; by rewrite ?take_nil|]. split; [constructor|]. set_solver. }
  destruct Hg as (f & H1 & H2 & H3). destruct (range_by_key g f (range_map g)) as [Hnd Hin]; [exact H1|apply Hrange|].
  rewrite collect_spec.
  2:{ rewrite Forall_forall in Hcopy. apply Forall_forall. intros o Ho. apply Hcopy. apply (H2 (f o)). by apply Hin. }
  exists (filter (fun o => matches m o = true) (range_map g)). split; [|split].
  - f_equal. f_equal. unfold limited. destruct (0 <? lo_Limit opts)%Z eqn:H0; [|done]. cbn [andb].
    case_match eqn:Hl; [done|]. symmetry. apply take_ge. lia.
  - by apply NoDup_filter.
  - intros o. rewrite list_elem_of_filter, Hin, H3. tauto.
Qed.

Lemma index_namespaces :
  Sorted String.le (index_ListNamespaces (BuildIndex l)) /\
  forall ns, ns ∈ index_ListNamespaces (BuildIndex l) <-> ns <> "" /\ exists r, r ∈ l /\ GetNamespace r = ns.
Proof.
  split; [apply sort_strings_sorted|]. intros ns. rewrite <- byNamespace_keys.
  unfold index_ListNamespaces. cbn [BuildIndex buildNamespaceList ix_namespaces]. rewrite elem_of_sort_strings.
  fold (index_of l). rewrite list_elem_of_fmap. split.
  - intros ([k v] & -> & Hin). apply elem_of_map_to_list in Hin. by exists v.
  - intros [v Hv]. exists (ns, v). split; [done|]. by apply elem_of_map_to_list.
Qed.
End Index_lemmas.

(** * Properties *)

(** C31. The index answers like the list of resources in which, of the resources with
    the same kind, namespace and name, the last one counts: look-ups give this
    resource; listings give every such resource that matches, once, up to the
    limit, in any order in which Go ranges over its maps; and the namespaces are
    those of the resources, sorted. *)
Theorem index_refines (labels_Parse fields_ParseSelector : string -> result (gmap string string -> bool))
    (range_map : gmap string object -> list object) (l : list object) :
  (forall m, range_map m ≡ₚ (map_to_list m).*2) ->
  Forall plain_name l -> Forall (fun o => copyable (YMap o)) l ->
  let idx := BuildIndex l in
  (forall gvk name ns, no_char "/" name -> no_char "/" ns ->
     index_Get gvk name ns idx = Some (latest l gvk ns name)) /\
  (forall gvk ns opts m, newListMatcher labels_Parse fields_ParseSelector opts = Ok m ->
     exists all, index_List labels_Parse fields_ParseSelector range_map gvk ns opts idx
         = Some (Ok (limited (lo_Limit opts) all)) /\ NoDup all /\
       forall o, o ∈ all <-> (ns = "" \/ GetNamespace o = ns) /\ matches m o = true /\
         latest l gvk (GetNamespace o) (GetName o) = Some o) /\
  Sorted String.le (index_ListNamespaces idx) /\
  forall ns, ns ∈ index_ListNamespaces idx <-> ns <> "" /\ exists r, r ∈ l /\ GetNamespace r = ns.
Proof.
  intros Hrange Hplain Hcopy idx.
  split; [by apply index_Get_latest|]. split; [by apply index_List_all|]. apply index_namespaces.
Qed.

(** No file outside of the etcd directory of the archive can be read through a name:
    the answer depends on the file system only below this directory; and every
    plain name is read. *)
Theorem ReadETCDFile_confined (ReadFile ReadFile' : string -> result string) filename p :
  (forall path, below (etcd_dir p) path -> ReadFile path = ReadFile' path) ->
  ReadETCDFile ReadFile filename p = ReadETCDFile ReadFile' filename p /\
  (plain_element filename -> forall data,
     ReadFile (filepath_Join [etcd_dir p; filename]) = Ok data -> ReadETCDFile ReadFile filename p = Ok data).
Proof.
  intros Hagree. unfold ReadETCDFile. split.
  - destruct (HasPrefix _ (filepath_Clean (etcd_dir p) +:+ "/")) eqn:Hp; cbn [negb]; [|done].
    rewrite <- Hagree; [done|]. eapply prefix_below; [apply etcd_dir_elements| |exact Hp]. done.
  - intros Hf data Hd. rewrite Clean_Join_prefix; [by rewrite Hd| |done|by constructor].
    rewrite etcd_dir_elements. by destruct (path_elements _).
Qed.

(** Reading an archive whose documents hold only the types of JSON, and integers,
    never panics, however it is queried. *)
Theorem archive_never_panics ReadDir ReadFile Exists Walk yaml_Unmarshal labels_Parse fields_ParseSelector
    (range_map : gmap string object -> list object) path :
  (forall data raw, yaml_Unmarshal data = Ok (Some raw) -> decodable (YMap raw)) ->
  (forall m, range_map m ≡ₚ (map_to_list m).*2) ->
  let idx := mg_index (NewProvider ReadDir ReadFile Exists Walk yaml_Unmarshal path) in
  (forall gvk name ns, index_Get gvk name ns idx <> None) /\
  (forall gvk ns opts, index_List labels_Parse fields_ParseSelector range_map gvk ns opts idx <> None).
Proof.
  intros Hy Hrange idx. pose proof (Load_copyable ReadDir ReadFile Exists Walk yaml_Unmarshal Hy path) as Hc.
  unfold idx, NewProvider. destruct (Load _ _ _ _ _ path) as [md l]. cbn [mg_index snd] in *. clear idx Hy md.
  rewrite Forall_forall in Hc.
  assert (forall gvk m, ix_byGVK (index_of l) !! gvk = Some m -> forall k o, m !! k = Some o -> copyable (YMap o)) as H1.
  { intros gvk m Hm k o Hk. pose proof (byGVK_lookup l gvk k) as H. rewrite Hm in H. cbn in H. rewrite Hk in H.
    symmetry in H. apply last_Some_elem_of, list_elem_of_filter in H as [_ H]. by apply Hc. }
  assert (forall ns mns gvk m, ns <> "" -> ix_byNamespace (index_of l) !! ns = Some mns -> mns !! gvk = Some m ->
    forall k o, m !! k = Some o -> copyable (YMap o)) as H2.
  { intros ns mns gvk m Hns Hm Hg k o Hk. pose proof (byNamespace_lookup l ns gvk k Hns) as H.
    rewrite Hm in H. cbn in H. rewrite Hg in H. cbn in H. rewrite Hk in H. symmetry in H.
    apply latest_in in H as [H _]. by apply Hc. }
  assert (forall m (g : gmap string object), (forall k o, g !! k = Some o -> copyable (YMap o)) ->
    exists items, collect m (range_map g) = Some items) as H3.
  { intros m g Hg. eexists. apply collect_spec. apply Forall_forall. intros o Ho. rewrite Hrange in Ho.
    apply list_elem_of_fmap in Ho as ([k o'] & -> & Ho). apply elem_of_map_to_list in Ho. by eapply Hg. }
  split.
  - intros gvk name ns. unfold index_Get. change (ix_byGVK (BuildIndex l)) with (ix_byGVK (index_of l)).
    destruct (ix_byGVK (index_of l) !! gvk) as [m|] eqn:Hm; [|done]. destruct (m !! _) as [o|] eqn:Ho; [|done].
    by rewrite copyable_DeepCopy_object by by eapply H1.
  - intros gvk ns opts. unfold index_List. destruct (newListMatcher _ _ opts) as [m|]; [|done].
    change (ix_byGVK (BuildIndex l)) with (ix_byGVK (index_of l)).
    change (ix_byNamespace (BuildIndex l)) with (ix_byNamespace (index_of l)).
    destruct (bool_decide_reflect (ns = "")) as [->|Hns]; cbn [negb].
    + destruct (ix_byGVK (index_of l) !! gvk) as [g|] eqn:Hg; [|done].
      destruct (H3 m g) as [items ->]; [by eapply H1|done].
    + destruct (ix_byNamespace (index_of l) !! ns) as [mns|] eqn:Hn; [|done].
      destruct (mns !! gvk) as [g|] eqn:Hg; [|done]. destruct (H3 m g) as [items ->]; [by eapply H2|done].
Qed.

(** * Witnesses *)

Module MustGatherWitness.
Definition pod (name ns phase : string) : object :=
  [("apiVersion", YString "v1"); ("kind", YString "Pod");
   ("metadata", YMap [("name", YString name); ("namespace", YString ns)]); ("phase", YString phase)].
Definition resources : list object := [pod "a" "x" "Pending"; pod "b" "y" "Running"; pod "a" "x" "Running"].
Definition gvk : GroupVersionKind := mkGVK "" "v1" "Pod".
Definition range (m : gmap string object) : list object := (map_to_list m).*2.
Definition none (s : string) : result (gmap string string -> bool) := Err (ErrNew s).
Definition archive : Provider := mkMGProvider (mkMetadata "/mg" "/mg" "" "" 0 0) NewResourceIndex.
End MustGatherWitness.

Lemma index_refines_witness :
  index_Get MustGatherWitness.gvk "a" "x" (BuildIndex MustGatherWitness.resources)
    = Some (Some (MustGatherWitness.pod "a" "x" "Running")) /\
  exists all, index_List MustGatherWitness.none MustGatherWitness.none MustGatherWitness.range
      MustGatherWitness.gvk "" (mkListOptions "" "" 1) (BuildIndex MustGatherWitness.resources)
    = Some (Ok (limited 1 all)) /\ MustGatherWitness.pod "b" "y" "Running" ∈ all.
Proof.
  destruct (index_refines MustGatherWitness.none MustGatherWitness.none MustGatherWitness.range
    MustGatherWitness.resources) as (Hget & Hlist & _); [done| | |].
  - by repeat constructor; vm_compute.
  - repeat constructor.
  - split; [rewrite Hget; [by vm_compute|by vm_compute..]|].
    destruct (Hlist MustGatherWitness.gvk "" (mkListOptions "" "" 1) (mkMatcher None None)) as (all & Hall & _ & Hin);
      [done|].
    exists all. split; [exact Hall|]. apply Hin. split; [by left|]. by split; vm_compute.
Defined.

Lemma ReadETCDFile_confined_witness :
  ReadETCDFile (fun path => if path =?s "/mg/etcd_info/member_list.json" then Ok "[]" else Err (ErrNew "no"))
    "member_list.json" MustGatherWitness.archive = Ok "[]" /\
  ReadETCDFile (fun path => Ok path) "../../etc/passwd" MustGatherWitness.archive
    = ReadETCDFile (fun path => if HasPrefix path "/mg/etcd_info/" then Ok path else Err (ErrNew "no"))
        "../../etc/passwd" MustGatherWitness.archive.
Proof.
  split.
  - apply (ReadETCDFile_confined
      (fun path => if path =?s "/mg/etcd_info/member_list.json" then Ok "[]" else Err (ErrNew "no"))
      (fun path => if path =?s "/mg/etcd_info/member_list.json" then Ok "[]" else Err (ErrNew "no"))
      "member_list.json" MustGatherWitness.archive); [reflexivity| |vm_compute; reflexivity].
    apply (bool_decide_unpack (plain_element "member_list.json")). vm_compute. exact I.
  - vm_compute. reflexivity.
Defined.
