(* ===== verification/CoreTools.v ===== *)
(** The core toolset (pkg/toolsets/core: events.go, namespaces.go, nodes.go, pods.go,
    resources.go, toolset.go, and pkg/kubernetes/metrics_gvk.go): its tools with their
    annotations, and their handlers as programs over the cluster.  The printers, the
    YAML decoder and encoder and the conversions are parameters.  Of the schemas the
    types, descriptions and properties are kept. *)
From Stdlib Require Import Floats.SpecFloat.
From S2P Require Import Prelude GoStrings Api Params Toolsets Config Confirmation Tools Unstructured Cluster Core.

(** * Definitions *)

(** The conversion [int32(v)]. *)
Definition int32_of (z : Z) : Z := ((z + 2 ^ 31) mod 2 ^ 32 - 2 ^ 31)%Z.

Definition failed (what : string) (err : error) : ToolCallResult :=
  NewToolCallResult "" (Some (wrapf what err)).
Definition refused (message : string) : ToolCallResult := NewToolCallResult "" (Some (ErrNew message)).

(** What a printer gives: a text with an error. *)
Definition printed : Type := (string * option error)%type.

(** ** resources.go: arguments *)

(** An argument that may be missing or nil. *)
Definition argument (args : arguments) (key : string) : option jvalue :=
  match args !! key with
  | Some JNull | None => None
  | Some v => Some v
  end.

Definition parseGroupVersionKind (args : arguments) : result GroupVersionKind :=
  match argument args "apiVersion" with
  | None => Err (ErrNew "missing argument apiVersion")
  | Some apiVersion =>
      match argument args "kind" with
      | None => Err (ErrNew "missing argument kind")
      | Some kind =>
          match apiVersion with
          | JString a =>
              match ParseGroupVersion a with
              | Err _ => Err (ErrNew "invalid argument apiVersion")
              | Ok gv =>
                  match kind with
                  | JString k => Ok (mkGVK gv.1 gv.2 k)
                  | _ => Err (ErrNew "kind is not a string")
                  end
              end
          | _ => Err (ErrNew "apiVersion is not a string")
          end
      end
  end.

(** The namespace argument: empty when missing. *)
Definition namespace_argument (args : arguments) : result string :=
  match argument args "namespace" with
  | None => Ok ""
  | Some (JString ns) => Ok ns
  | Some _ => Err (ErrNew "namespace is not a string")
  end.

(** A selector argument, which must be a string when it is there. *)
Definition selector_argument (args : arguments) (key : string) : result string :=
  match argument args key with
  | None => Ok ""
  | Some (JString l) => Ok l
  | Some _ => Err (ErrNew (fmt [key; " is not a string"]))
  end.

Section Handlers.
Context (f64_overflow : spec_float -> Z).

Definition parseScaleValue (desiredScale : jvalue) : result Z :=
  match ParseInt64 f64_overflow desiredScale with
  | Err err => Err (wrapf "failed to parse scale parameter: " err)
  | Ok v => Ok v
  end.

(** The output of the request: whether lists are asked for as tables, and its
    printers, with the structured content. *)
Context (AsTable : bool).
Context (PrintObj : listed -> printed).
Context (PrintObjStructured : listed -> result (string * option any_value)).
Context (Yaml_PrintObjStructured : object -> result (string * option any_value)).
Context (MarshalYaml : list object -> printed) (MarshalYaml_object : object -> printed).
(** The verb %v of an object. *)
Context (Sprint : object -> string).
(** The decoder of documents, and the conversions. *)
Context (Decode : string -> result object).
Context (ToUnstructured : run_object -> result object).
Context (FromUnstructured : object -> result k8s_event).
Context (Convert : list object -> result (list object)).
Context (PrintPodMetrics : list object -> result string).
Context (PrintNodeMetrics : list object -> gmap string (option (gmap string Z)) -> result string).

Definition print_result (p : printed) : ToolCallResult := NewToolCallResult p.1 p.2.

(** ** resources.go: handlers *)

Definition resourcesList (args : arguments) : prog ToolCallResult :=
  match selector_argument args "labelSelector" with
  | Err err => Ret (NewToolCallResult "" (Some err))
  | Ok l =>
  match selector_argument args "fieldSelector" with
  | Err err => Ret (NewToolCallResult "" (Some err))
  | Ok f =>
  match parseGroupVersionKind args with
  | Err err => Ret (refused (fmt ["failed to list resources, "; error_string err]))
  | Ok gvk =>
  match namespace_argument args with
  | Err err => Ret (NewToolCallResult "" (Some err))
  | Ok ns =>
      ret ← ResourcesList gvk ns (mkListOpts (mkSelectors l f) AsTable);
      Ret (match ret with
           | Err err => failed "failed to list resources: " err
           | Ok ret =>
               match PrintObjStructured ret with
               | Err err => failed "failed to format resources: " err
               | Ok (text, structured) => NewToolCallResultFull text structured None
               end
           end)
  end end end end.

(** The checks that the handlers of one resource share, in their order; [what] is
    what the handler was to do. *)
Definition resource_arguments (what : string) (args : arguments) :
    ToolCallResult + GroupVersionKind * string * string :=
  match parseGroupVersionKind args with
  | Err err => inl (refused (fmt ["failed to "; what; ", "; error_string err]))
  | Ok gvk =>
  match argument args "name" with
  | None => inl (refused (fmt ["failed to "; what; ", missing argument name"]))
  | Some name =>
  match namespace_argument args with
  | Err err => inl (NewToolCallResult "" (Some err))
  | Ok ns =>
  match name with
  | JString n => inr (gvk, ns, n)
  | _ => inl (refused "name is not a string")
  end end end end.

Definition resourcesGet (args : arguments) : prog ToolCallResult :=
  match resource_arguments "get resource" args with
  | inl r => Ret r
  | inr (gvk, ns, n) =>
      ret ← ResourcesGet gvk ns n;
      Ret (match ret with
           | Err err => failed "failed to get resource: " err
           | Ok ret =>
               match Yaml_PrintObjStructured ret with
               | Err err => failed "failed to format resource: " err
               | Ok (text, structured) => NewToolCallResultFull text structured None
               end
           end)
  end.

Definition resources_text : string :=
  fmt ["# The following resources (YAML) have been created or updated successfully"; nl].

Definition resourcesCreateOrUpdate_handler (args : arguments) : prog ToolCallResult :=
  match argument args "resource" with
  | None => Ret (refused "failed to create or update resources, missing argument resource")
  | Some (JString r) =>
      if r =?s "" then Ret (refused "failed to create or update resources, missing argument resource")
      else
        resources ← ResourcesCreateOrUpdate Decode r;
        Ret (match resources with
             | Err err => failed "failed to create or update resources: " err
             | Ok resources =>
                 let '(marshalledYaml, err) := MarshalYaml resources in
                 NewToolCallResult (resources_text +:+ marshalledYaml)
                   (wrapf "failed to create or update resources: " <$> err)
             end)
  | Some _ => Ret (refused "resource is not a string")
  end.

Definition resourcesDelete (args : arguments) : prog ToolCallResult :=
  match resource_arguments "delete resource" args with
  | inl r => Ret r
  | inr (gvk, ns, n) =>
      let gracePeriod :=
        match args !! "gracePeriodSeconds" with
        | None => Ok None
        | Some value =>
            match ParseInt64 f64_overflow value with
            | Err _ => Err (ErrNew "failed to delete resource, invalid argument gracePeriodSeconds")
            | Ok gracePeriodSeconds => Ok (Some gracePeriodSeconds)
            end
        end in
      match gracePeriod with
      | Err err => Ret (NewToolCallResult "" (Some err))
      | Ok gracePeriodSecondsPtr =>
          err ← ResourcesDelete gvk ns n gracePeriodSecondsPtr;
          Ret (match err with
               | Some err => failed "failed to delete resource: " err
               | None => NewToolCallResult "Resource deleted successfully" None
               end)
      end
  end.

(** The error of the group version kind is wrapped here, with the same text. *)
Definition resourcesScale (args : arguments) : prog ToolCallResult :=
  match resource_arguments "get/update resource scale" args with
  | inl r => Ret r
  | inr (gvk, ns, n) =>
      let scaleVal := args !! "scale" in
      let desiredScale :=
        match scaleVal with
        | Some v => parseScaleValue v
        | None => Ok 0%Z
        end in
      match desiredScale with
      | Err err => Ret (NewToolCallResult "" (Some err))
      | Ok desiredScale =>
          scale ← ResourcesScale gvk ns n desiredScale (bool_decide (is_Some scaleVal));
          Ret (match scale with
               | Err err => failed "failed to get/update resource scale: " err
               | Ok scale =>
                   match MarshalYaml_object scale with
                   | (_, Some err) => refused (fmt ["failed to marshall scale to yaml format: "; Sprint scale])
                   | (marshalled, None) =>
                       NewToolCallResult (fmt ["# Current resource scale (YAML) is below"; nl; marshalled]) None
                   end
               end)
      end
  end.

(** ** pods.go: handlers.  The wrapper of the arguments records the first error, and
    every handler checks it before its call. *)

Definition podsListInAllNamespaces (args : arguments) : prog ToolCallResult :=
  let p := WrapParams args in
  let '(label, p) := Params_OptionalString "labelSelector" "" p in
  let '(fld, p) := Params_OptionalString "fieldSelector" "" p in
  match Params_Err p with
  | Some err => Ret (failed "failed to list pods in all namespaces: " err)
  | None =>
      ret ← PodsListInAllNamespaces (mkListOpts (mkSelectors label fld) AsTable);
      Ret (match ret with
           | Err err => failed "failed to list pods in all namespaces: " err
           | Ok ret => print_result (PrintObj ret)
           end)
  end.

Definition podsListInNamespace (args : arguments) : prog ToolCallResult :=
  let p := WrapParams args in
  let '(ns, p) := Params_RequiredString "namespace" p in
  let '(label, p) := Params_OptionalString "labelSelector" "" p in
  let '(fld, p) := Params_OptionalString "fieldSelector" "" p in
  match Params_Err p with
  | Some err => Ret (failed "failed to list pods in namespace: " err)
  | None =>
      ret ← PodsListInNamespace ns (mkListOpts (mkSelectors label fld) AsTable);
      Ret (match ret with
           | Err err => failed (fmt ["failed to list pods in namespace "; ns; ": "]) err
           | Ok ret => print_result (PrintObj ret)
           end)
  end.

Definition podsGet (args : arguments) : prog ToolCallResult :=
  let p := WrapParams args in
  let '(ns, p) := Params_OptionalString "namespace" "" p in
  let '(name, p) := Params_RequiredString "name" p in
  match Params_Err p with
  | Some err => Ret (failed "failed to get pod: " err)
  | None =>
      ret ← PodsGet ns name;
      Ret (match ret with
           | Err err => failed (fmt ["failed to get pod "; name; " in namespace "; ns; ": "]) err
           | Ok ret => print_result (MarshalYaml_object ret)
           end)
  end.

Definition podsDelete (args : arguments) : prog ToolCallResult :=
  let p := WrapParams args in
  let '(ns, p) := Params_OptionalString "namespace" "" p in
  let '(name, p) := Params_RequiredString "name" p in
  match Params_Err p with
  | Some err => Ret (failed "failed to delete pod: " err)
  | None =>
      ret ← PodsDelete ns name;
      Ret (match ret with
           | Err err => failed (fmt ["failed to delete pod "; name; " in namespace "; ns; ": "]) err
           | Ok ret => NewToolCallResult ret None
           end)
  end.

Definition podsTop (args : arguments) : prog ToolCallResult :=
  let p := WrapParams args in
  let '(allNamespaces, p) := Params_OptionalBool "all_namespaces" true p in
  let '(ns, p) := Params_OptionalString "namespace" "" p in
  let '(name, p) := Params_OptionalString "name" "" p in
  let '(label, p) := Params_OptionalString "label_selector" "" p in
  match Params_Err p with
  | Some err => Ret (failed "failed to get pods top: " err)
  | None =>
      ret ← PodsTop Convert allNamespaces ns name (mkSelectors label "");
      Ret (match ret with
           | Err err => failed "failed to get pods top: " err
           | Ok ret =>
               match PrintPodMetrics ret with
               | Err err => failed "failed to get pods top: " err
               | Ok buf => NewToolCallResult buf None
               end
           end)
  end.

(** The command argument: an array of strings. *)
Fixpoint strings_of (l : list jvalue) : option (list string) :=
  match l with
  | [] => Some []
  | JString s :: l => cons s <$> strings_of l
  | _ => None
  end.
Definition command_argument (args : arguments) : option (list string) :=
  match args !! "command" with
  | Some (JArray cmdSlice) => strings_of cmdSlice
  | _ => None
  end.

Definition podsExec (args : arguments) : prog ToolCallResult :=
  let p := WrapParams args in
  let '(ns, p) := Params_OptionalString "namespace" "" p in
  let '(name, p) := Params_RequiredString "name" p in
  let '(container, p) := Params_OptionalString "container" "" p in
  match Params_Err p with
  | Some err => Ret (failed "failed to exec in pod: " err)
  | None =>
      match command_argument args with
      | None => Ret (refused "failed to exec in pod: command parameter must be an array of strings")
      | Some command =>
          r ← PodsExec ns name container command;
          Ret (match r with
               | Err err => failed (fmt ["failed to exec in pod "; name; " in namespace "; ns; ": "]) err
               | Ok (stdout, stderr) =>
                   let ret := if (stdout =?s "") && (stderr ≠?s "") then stderr else stdout in
                   let ret :=
                     if ret =?s "" then
                       fmt ["The executed command in pod "; name; " in namespace "; ns;
                            " has not produced any output"]
                     else ret in
                   NewToolCallResult ret None
               end)
      end
  end.

Definition podsLog (args : arguments) : prog ToolCallResult :=
  let p := WrapParams args in
  let '(ns, p) := Params_OptionalString "namespace" "" p in
  let '(name, p) := Params_RequiredString "name" p in
  let '(container, p) := Params_OptionalString "container" "" p in
  let '(previousBool, p) := Params_OptionalBool "previous" false p in
  let '(tailInt, p) := Params_OptionalInt64 f64_overflow "tail" 0 p in
  match Params_Err p with
  | Some err => Ret (failed "failed to get pod log: " err)
  | None =>
      ret ← PodsLog ns name container previousBool tailInt;
      Ret (match ret with
           | Err err => failed (fmt ["failed to get pod "; name; " log in namespace "; ns; ": "]) err
           | Ok ret =>
               NewToolCallResult
                 (if ret =?s "" then
                    fmt ["The pod "; name; " in namespace "; ns; " has not logged any message yet"]
                  else ret) None
           end)
  end.

Definition podsRun (args : arguments) : prog ToolCallResult :=
  let p := WrapParams args in
  let '(ns, p) := Params_OptionalString "namespace" "" p in
  let '(name, p) := Params_OptionalString "name" "" p in
  let '(image, p) := Params_RequiredString "image" p in
  let '(port, p) := Params_OptionalInt64 f64_overflow "port" 0 p in
  let port := int32_of port in
  match Params_Err p with
  | Some err => Ret (failed "failed to run pod: " err)
  | None =>
      resources ← PodsRun ToUnstructured ns name image port;
      Ret (match resources with
           | Err err => failed (fmt ["failed to run pod "; name; " in namespace "; ns; ": "]) err
           | Ok resources =>
               let '(marshalledYaml, err) := MarshalYaml resources in
               NewToolCallResult (resources_text +:+ marshalledYaml) (wrapf "failed to run pod: " <$> err)
           end)
  end.

(** ** nodes.go: handlers *)

(** [args[key].(string)], empty when it is no string. *)
Definition string_argument (args : arguments) (key : string) : string :=
  match args !! key with Some (JString s) => s | _ => "" end.

Definition nodesLog (args : arguments) : prog ToolCallResult :=
  let name := string_argument args "name" in
  let query := string_argument args "query" in
  if name =?s "" then Ret (refused "failed to get node log, missing argument name")
  else if query =?s "" then Ret (refused "failed to get node log, missing argument query")
  else
    let tailInt :=
      match argument args "tailLines" with
      | Some tailLines => ParseInt64 f64_overflow tailLines
      | None => Ok 0%Z
      end in
    match tailInt with
    | Err err => Ret (failed "failed to parse tailLines parameter: " err)
    | Ok tailInt =>
        ret ← NodesLog name query tailInt;
        Ret (match ret with
             | Err err => failed (fmt ["failed to get node log for "; name; ": "]) err
             | Ok ret =>
                 NewToolCallResult
                   (if ret =?s "" then
                      fmt ["The node "; name; " has not logged any message yet or the log file is empty"]
                    else ret) None
             end)
    end.

Definition nodesStatsSummary (args : arguments) : prog ToolCallResult :=
  let name := string_argument args "name" in
  if name =?s "" then Ret (refused "failed to get node stats summary, missing argument name")
  else
    ret ← NodesStatsSummary name;
    Ret (match ret with
         | Err err => failed (fmt ["failed to get node stats summary for "; name; ": "]) err
         | Ok ret => NewToolCallResult ret None
         end).

(** The allocatable resources by node.  Writing the swap of a node into its nil map
    panics: [None]. *)
Fixpoint available_resources (nodes : list node) (m : gmap string (option (gmap string Z))) :
    option (gmap string (option (gmap string Z))) :=
  match nodes with
  | [] => Some m
  | n :: nodes =>
      match nd_Swap n with
      | Some swapCapacity =>
          match nd_Allocatable n with
          | Some l => available_resources nodes (<[nd_Name n := Some (<["swap" := swapCapacity]> l)]> m)
          | None => None
          end
      | None => available_resources nodes (<[nd_Name n := nd_Allocatable n]> m)
      end
  end.

Definition nodesTop (args : arguments) : prog (option ToolCallResult) :=
  let name := string_argument args "name" in
  let label := string_argument args "label_selector" in
  nodeMetrics ← NodesTop Convert name (mkSelectors label "");
  match nodeMetrics with
  | Err err => Ret (Some (failed "failed to get nodes top: " err))
  | Ok nodeMetrics =>
      nodeList ← call (KNodesList label);
      Ret (match nodeList with
           | Err err => Some (failed "failed to list nodes: " err)
           | Ok nodes =>
               match available_resources nodes ∅ with
               | None => None
               | Some availableResources =>
                   match PrintNodeMetrics nodeMetrics availableResources with
                   | Err err => Some (failed "failed to print node metrics: " err)
                   | Ok buf => Some (NewToolCallResult buf None)
                   end
               end
           end)
  end.

(** ** namespaces.go and events.go: handlers *)

Definition namespacesList (args : arguments) : prog ToolCallResult :=
  let p := WrapParams args in
  let '(fld, p) := Params_OptionalString "fieldSelector" "" p in
  match Params_Err p with
  | Some err => Ret (failed "failed to list namespaces: " err)
  | None =>
      ret ← NamespacesList (mkListOpts (mkSelectors "" fld) AsTable);
      Ret (match ret with
           | Err err => failed "failed to list namespaces: " err
           | Ok ret => print_result (PrintObj ret)
           end)
  end.

Definition projectsList (args : arguments) : prog ToolCallResult :=
  ret ← ProjectsList (mkListOpts (mkSelectors "" "") AsTable);
  Ret (match ret with
       | Err err => failed "failed to list projects: " err
       | Ok ret => print_result (PrintObj ret)
       end).

Definition eventsList (args : arguments) : prog ToolCallResult :=
  let p := WrapParams args in
  let '(namespace, p) := Params_OptionalString "namespace" "" p in
  let '(fld, p) := Params_OptionalString "fieldSelector" "" p in
  match Params_Err p with
  | Some err => Ret (failed "failed to list events in all namespaces: " err)
  | None =>
      eventMap ← EventsList FromUnstructured namespace (mkSelectors "" fld);
      Ret (match eventMap with
           | Err err => failed "failed to list events in all namespaces: " err
           | Ok [] => NewToolCallResult "# No events found" None
           | Ok eventMap =>
               let '(yamlEvents, err) := MarshalYaml eventMap in
               NewToolCallResult (fmt ["# The following events (YAML format) were found:"; nl; yamlEvents])
                 (wrapf "failed to list events in all namespaces: " <$> err)
           end)
  end.

(** ** The tools *)

Definition events_list_tool : Tool :=
  mkTool "events_list"
    "List Kubernetes events (warnings, errors, state changes) for debugging and troubleshooting in the current cluster from all namespaces"
    (mkToolAnnotations "Events: List" (Some true) (Some false) None (Some true)) []
    (Some (mkSchema "object" "" (Some [
       ("namespace", mkSchema "string" "Optional Namespace to retrieve the events from. If not provided, will list events from all namespaces" None);
       ("fieldSelector", mkSchema "string" "Optional Kubernetes field selector to filter events by field values (e.g. 'type=Warning', 'involvedObject.name=my-pod'). Supported fields: involvedObject.kind, involvedObject.name, involvedObject.namespace, involvedObject.uid, involvedObject.apiVersion, involvedObject.resourceVersion, involvedObject.fieldPath, reason, reportingComponent, source, type. See https://kubernetes.io/docs/concepts/overview/working-with-objects/field-selectors/" None)]))) None.

Definition namespaces_list_tool : Tool :=
  mkTool "namespaces_list"
    "List all the Kubernetes namespaces in the current cluster"
    (mkToolAnnotations "Namespaces: List" (Some true) (Some false) None (Some true)) []
    (Some (mkSchema "object" "" (Some [
       ("fieldSelector", mkSchema "string" "Optional Kubernetes field selector to filter namespaces by field values (e.g. 'metadata.name=default', 'status.phase=Active'). Supported fields: metadata.name, status.phase. See https://kubernetes.io/docs/concepts/overview/working-with-objects/field-selectors/" None)]))) None.

Definition projects_list_tool : Tool :=
  mkTool "projects_list"
    "List all the OpenShift projects in the current cluster"
    (mkToolAnnotations "Projects: List" (Some true) (Some false) None (Some true)) []
    (Some (mkSchema "object" "" None)) None.

Definition nodes_log_tool : Tool :=
  mkTool "nodes_log"
    "Get logs from a Kubernetes node (kubelet, kube-proxy, or other system logs). This accesses node logs through the Kubernetes API proxy to the kubelet"
    (mkToolAnnotations "Node: Log" (Some true) (Some false) None (Some true)) []
    (Some (mkSchema "object" "" (Some [
       ("name", mkSchema "string" "Name of the node to get logs from" None);
       ("query", mkSchema "string" (fmt ["query specifies services(s) or files from which to return logs (required). Example: "; dq; "kubelet"; dq; " to fetch kubelet logs, "; dq; "/<log-file-name>"; dq; " to fetch a specific log file from the node (e.g., "; dq; "/var/log/kubelet.log"; dq; " or "; dq; "/var/log/kube-proxy.log"; dq; ")"]) None);
       ("tailLines", mkSchema "integer" "Number of lines to retrieve from the end of the logs (Optional, 0 means all logs)" None)]))) None.

Definition nodes_stats_summary_tool : Tool :=
  mkTool "nodes_stats_summary"
    "Get detailed resource usage statistics from a Kubernetes node via the kubelet's Summary API. Provides comprehensive metrics including CPU, memory, filesystem, and network usage at the node, pod, and container levels. On systems with cgroup v2 and kernel 4.20+, also includes PSI (Pressure Stall Information) metrics that show resource pressure for CPU, memory, and I/O. See https://kubernetes.io/docs/reference/instrumentation/understand-psi-metrics/ for details on PSI metrics"
    (mkToolAnnotations "Node: Stats Summary" (Some true) (Some false) None (Some true)) []
    (Some (mkSchema "object" "" (Some [
       ("name", mkSchema "string" "Name of the node to get stats from" None)]))) None.

Definition nodes_top_tool : Tool :=
  mkTool "nodes_top"
    "List the resource consumption (CPU and memory) as recorded by the Kubernetes Metrics Server for the specified Kubernetes Nodes or all nodes in the cluster"
    (mkToolAnnotations "Nodes: Top" (Some true) (Some false) (Some true) (Some true)) []
    (Some (mkSchema "object" "" (Some [
       ("name", mkSchema "string" "Name of the Node to get the resource consumption from (Optional, all Nodes if not provided)" None);
       ("label_selector", mkSchema "string" "Kubernetes label selector (e.g. 'node-role.kubernetes.io/worker=') to filter nodes by label (Optional, only applicable when name is not provided)" None)]))) None.

Definition pods_list_tool : Tool :=
  mkTool "pods_list"
    "List all the Kubernetes pods in the current cluster from all namespaces"
    (mkToolAnnotations "Pods: List" (Some true) (Some false) None (Some true)) []
    (Some (mkSchema "object" "" (Some [
       ("labelSelector", mkSchema "string" "Optional Kubernetes label selector (e.g. 'app=myapp,env=prod' or 'app in (myapp,yourapp)'), use this option when you want to filter the pods by label" None);
       ("fieldSelector", mkSchema "string" "Optional Kubernetes field selector to filter pods by field values (e.g. 'status.phase=Running', 'spec.nodeName=node1'). Supported fields: metadata.name, metadata.namespace, spec.nodeName, spec.restartPolicy, spec.schedulerName, spec.serviceAccountName, status.phase (Pending/Running/Succeeded/Failed/Unknown), status.podIP, status.nominatedNodeName. Note: CrashLoopBackOff is a container state, not a pod phase, so it cannot be filtered directly. See https://kubernetes.io/docs/concepts/overview/working-with-objects/field-selectors/" None)]))) None.

Definition pods_list_in_namespace_tool : Tool :=
  mkTool "pods_list_in_namespace"
    "List all the Kubernetes pods in the specified namespace in the current cluster"
    (mkToolAnnotations "Pods: List in Namespace" (Some true) (Some false) None (Some true)) []
    (Some (mkSchema "object" "" (Some [
       ("namespace", mkSchema "string" "Namespace to list pods from" None);
       ("labelSelector", mkSchema "string" "Optional Kubernetes label selector (e.g. 'app=myapp,env=prod' or 'app in (myapp,yourapp)'), use this option when you want to filter the pods by label" None);
       ("fieldSelector", mkSchema "string" "Optional Kubernetes field selector to filter pods by field values (e.g. 'status.phase=Running', 'spec.nodeName=node1'). Supported fields: metadata.name, metadata.namespace, spec.nodeName, spec.restartPolicy, spec.schedulerName, spec.serviceAccountName, status.phase (Pending/Running/Succeeded/Failed/Unknown), status.podIP, status.nominatedNodeName. Note: CrashLoopBackOff is a container state, not a pod phase, so it cannot be filtered directly. See https://kubernetes.io/docs/concepts/overview/working-with-objects/field-selectors/" None)]))) None.

Definition pods_get_tool : Tool :=
  mkTool "pods_get"
    "Get a Kubernetes Pod in the current or provided namespace with the provided name"
    (mkToolAnnotations "Pods: Get" (Some true) (Some false) None (Some true)) []
    (Some (mkSchema "object" "" (Some [
       ("namespace", mkSchema "string" "Namespace to get the Pod from" None);
       ("name", mkSchema "string" "Name of the Pod" None)]))) None.

Definition pods_delete_tool : Tool :=
  mkTool "pods_delete"
    "Delete a Kubernetes Pod in the current or provided namespace with the provided name"
    (mkToolAnnotations "Pods: Delete" None (Some true) (Some true) (Some true)) []
    (Some (mkSchema "object" "" (Some [
       ("namespace", mkSchema "string" "Namespace to delete the Pod from" None);
       ("name", mkSchema "string" "Name of the Pod to delete" None)]))) None.

Definition pods_top_tool : Tool :=
  mkTool "pods_top"
    "List the resource consumption (CPU and memory) as recorded by the Kubernetes Metrics Server for the specified Kubernetes Pods in the all namespaces, the provided namespace, or the current namespace"
    (mkToolAnnotations "Pods: Top" (Some true) (Some false) (Some true) (Some true)) []
    (Some (mkSchema "object" "" (Some [
       ("all_namespaces", mkSchema "boolean" "If true, list the resource consumption for all Pods in all namespaces. If false, list the resource consumption for Pods in the provided namespace or the current namespace" None);
       ("namespace", mkSchema "string" "Namespace to get the Pods resource consumption from (Optional, current namespace if not provided and all_namespaces is false)" None);
       ("name", mkSchema "string" "Name of the Pod to get the resource consumption from (Optional, all Pods in the namespace if not provided)" None);
       ("label_selector", mkSchema "string" "Kubernetes label selector (e.g. 'app=myapp,env=prod' or 'app in (myapp,yourapp)'), use this option when you want to filter the pods by label (Optional, only applicable when name is not provided)" None)]))) None.

Definition pods_exec_tool : Tool :=
  mkTool "pods_exec"
    "Execute a command in a Kubernetes Pod (shell access, run commands in container) in the current or provided namespace with the provided name and command"
    (mkToolAnnotations "Pods: Exec" None (Some true) None (Some true)) []
    (Some (mkSchema "object" "" (Some [
       ("namespace", mkSchema "string" "Namespace of the Pod where the command will be executed" None);
       ("name", mkSchema "string" "Name of the Pod where the command will be executed" None);
       ("command", mkSchema "array" (fmt ["Command to execute in the Pod container. The first item is the command to be run, and the rest are the arguments to that command. Example: ["; dq; "ls"; dq; ", "; dq; "-l"; dq; ", "; dq; "/tmp"; dq; "]"]) None);
       ("container", mkSchema "string" "Name of the Pod container where the command will be executed (Optional)" None)]))) None.

Definition pods_log_tool : Tool :=
  mkTool "pods_log"
    "Get the logs of a Kubernetes Pod in the current or provided namespace with the provided name"
    (mkToolAnnotations "Pods: Log" (Some true) (Some false) None (Some true)) []
    (Some (mkSchema "object" "" (Some [
       ("namespace", mkSchema "string" "Namespace to get the Pod logs from" None);
       ("name", mkSchema "string" "Name of the Pod to get the logs from" None);
       ("container", mkSchema "string" "Name of the Pod container to get the logs from (Optional)" None);
       ("tail", mkSchema "integer" "Number of lines to retrieve from the end of the logs (Optional, default: 100)" None);
       ("previous", mkSchema "boolean" "Return previous terminated container logs (Optional)" None)]))) None.

Definition pods_run_tool : Tool :=
  mkTool "pods_run"
    "Run a Kubernetes Pod in the current or provided namespace with the provided container image and optional name"
    (mkToolAnnotations "Pods: Run" None (Some false) None (Some true)) []
    (Some (mkSchema "object" "" (Some [
       ("namespace", mkSchema "string" "Namespace to run the Pod in" None);
       ("name", mkSchema "string" "Name of the Pod (Optional, random name if not provided)" None);
       ("image", mkSchema "string" "Container Image to run in the Pod" None);
       ("port", mkSchema "number" "TCP/IP port to expose from the Pod container (Optional, no port exposed if not provided)" None)]))) None.

Definition resources_list_tool (commonApiVersion : string) : Tool :=
  mkTool "resources_list"
    (fmt ["List Kubernetes resources and objects in the current cluster by providing their apiVersion and kind and optionally the namespace and label selector"; nl; commonApiVersion])
    (mkToolAnnotations "Resources: List" (Some true) (Some false) None (Some true)) []
    (Some (mkSchema "object" "" (Some [
       ("apiVersion", mkSchema "string" "apiVersion of the resources (examples of valid apiVersion are: v1, apps/v1, networking.k8s.io/v1)" None);
       ("kind", mkSchema "string" "kind of the resources (examples of valid kind are: Pod, Service, Deployment, Ingress)" None);
       ("namespace", mkSchema "string" "Optional Namespace to retrieve the namespaced resources from (ignored in case of cluster scoped resources). If not provided, will list resources from all namespaces" None);
       ("labelSelector", mkSchema "string" "Optional Kubernetes label selector (e.g. 'app=myapp,env=prod' or 'app in (myapp,yourapp)'), use this option when you want to filter the resources by label" None);
       ("fieldSelector", mkSchema "string" "Optional Kubernetes field selector to filter resources by field values (e.g. 'status.phase=Running', 'metadata.name=myresource'). Supported fields vary by resource type. For Pods: metadata.name, metadata.namespace, spec.nodeName, spec.restartPolicy, spec.schedulerName, spec.serviceAccountName, status.phase (Pending/Running/Succeeded/Failed/Unknown), status.podIP, status.nominatedNodeName. See https://kubernetes.io/docs/concepts/overview/working-with-objects/field-selectors/" None)]))) None.

Definition resources_get_tool (commonApiVersion : string) : Tool :=
  mkTool "resources_get"
    (fmt ["Get a Kubernetes resource in the current cluster by providing its apiVersion, kind, optionally the namespace, and its name"; nl; commonApiVersion])
    (mkToolAnnotations "Resources: Get" (Some true) (Some false) None (Some true)) []
    (Some (mkSchema "object" "" (Some [
       ("apiVersion", mkSchema "string" "apiVersion of the resource (examples of valid apiVersion are: v1, apps/v1, networking.k8s.io/v1)" None);
       ("kind", mkSchema "string" "kind of the resource (examples of valid kind are: Pod, Service, Deployment, Ingress)" None);
       ("namespace", mkSchema "string" "Optional Namespace to retrieve the namespaced resource from (ignored in case of cluster scoped resources). If not provided, will get resource from configured namespace" None);
       ("name", mkSchema "string" "Name of the resource" None)]))) None.

Definition resources_create_or_update_tool (commonApiVersion : string) : Tool :=
  mkTool "resources_create_or_update"
    (fmt ["Create or update a Kubernetes resource via Server-Side Apply. The manifest is the complete desired state: any field this tool previously set and the new manifest omits is removed. To edit an existing resource, fetch it with resources_get, modify it, then re-apply the full resource."; nl; commonApiVersion])
    (mkToolAnnotations "Resources: Create or Update" None (Some true) (Some true) (Some true)) []
    (Some (mkSchema "object" "" (Some [
       ("resource", mkSchema "string" "Complete YAML or JSON representation of the Kubernetes resource (full desired state, not a partial patch). Include apiVersion, kind, metadata, and the full spec." None)]))) None.

Definition resources_delete_tool (commonApiVersion : string) : Tool :=
  mkTool "resources_delete"
    (fmt ["Delete a Kubernetes resource in the current cluster by providing its apiVersion, kind, optionally the namespace, and its name"; nl; commonApiVersion])
    (mkToolAnnotations "Resources: Delete" None (Some true) (Some true) (Some true)) []
    (Some (mkSchema "object" "" (Some [
       ("apiVersion", mkSchema "string" "apiVersion of the resource (examples of valid apiVersion are: v1, apps/v1, networking.k8s.io/v1)" None);
       ("kind", mkSchema "string" "kind of the resource (examples of valid kind are: Pod, Service, Deployment, Ingress)" None);
       ("namespace", mkSchema "string" "Optional Namespace to delete the namespaced resource from (ignored in case of cluster scoped resources). If not provided, will delete resource from configured namespace" None);
       ("name", mkSchema "string" "Name of the resource" None);
       ("gracePeriodSeconds", mkSchema "integer" "Optional duration in seconds before the object should be deleted. Value must be non-negative integer. The value zero indicates delete immediately. If this value is nil, the default grace period for the specified type will be used" None)]))) None.

Definition resources_scale_tool : Tool :=
  mkTool "resources_scale"
    "Get or update the scale of a Kubernetes resource in the current cluster by providing its apiVersion, kind, name, and optionally the namespace. If the scale is set in the tool call, the scale will be updated to that value. Always returns the current scale of the resource"
    (mkToolAnnotations "Resources: Scale" None (Some true) (Some true) (Some true)) []
    (Some (mkSchema "object" "" (Some [
       ("apiVersion", mkSchema "string" "apiVersion of the resource (examples of valid apiVersion are apps/v1)" None);
       ("kind", mkSchema "string" "kind of the resource (examples of valid kind are: StatefulSet, Deployment)" None);
       ("namespace", mkSchema "string" "Optional Namespace to get/update the namespaced resource scale from (ignored in case of cluster scoped resources). If not provided, will get/update resource scale from configured namespace" None);
       ("name", mkSchema "string" "Name of the resource" None);
       ("scale", mkSchema "integer" "Optional scale to update the resources scale to. If not provided, will return the current scale of the resource, and not update it" None)]))) None.

(** A tool with its handler, where [None] is a panic, and the kinds one of which a
    target must have for each of its compatibility filters. *)
Record core_tool := mkCoreTool {
  ct_Tool : Tool;
  ct_Handler : arguments -> prog (option ToolCallResult);
  ct_Filters : list (list GroupVersionKind);
}.
Definition core (t : Tool) (handler : arguments -> prog ToolCallResult) : core_tool :=
  mkCoreTool t (fun args => r ← handler args; Ret (Some r)) [].
Definition with_filters (filters : list (list GroupVersionKind)) (t : core_tool) : core_tool :=
  mkCoreTool (ct_Tool t) (ct_Handler t) filters.

Definition NodeMetricsGVK : GroupVersionKind := mkGVK "metrics.k8s.io" "v1beta1" "NodeMetrics".
Definition PodMetricsGVK : GroupVersionKind := mkGVK "metrics.k8s.io" "v1beta1" "PodMetrics".
Definition HasNodeMetrics : list GroupVersionKind := [NodeMetricsGVK].
Definition HasPodMetrics : list GroupVersionKind := [PodMetricsGVK].

Definition initEvents : list core_tool := [core events_list_tool eventsList].
Definition initNamespaces : list core_tool :=
  [core namespaces_list_tool namespacesList;
   with_filters [[mkGVK "project.openshift.io" "v1" "Project"]] (core projects_list_tool projectsList)].
Definition initNodes : list core_tool :=
  [core nodes_log_tool nodesLog; core nodes_stats_summary_tool nodesStatsSummary;
   mkCoreTool nodes_top_tool nodesTop [HasNodeMetrics]].
Definition initPods : list core_tool :=
  [core pods_list_tool podsListInAllNamespaces; core pods_list_in_namespace_tool podsListInNamespace;
   core pods_get_tool podsGet; core pods_delete_tool podsDelete;
   with_filters [HasPodMetrics] (core pods_top_tool podsTop);
   core pods_exec_tool podsExec; core pods_log_tool podsLog; core pods_run_tool podsRun].

Definition commonApiVersion (filters_enabled any_target_has_routes : bool) : string :=
  fmt ["(common apiVersion and kind include: ";
       "v1 Pod, v1 Service, v1 Node, apps/v1 Deployment, networking.k8s.io/v1 Ingress";
       if negb filters_enabled || any_target_has_routes then ", route.openshift.io/v1 Route" else ""; ")"].
Definition initResources (filters_enabled any_target_has_routes : bool) : list core_tool :=
  let c := commonApiVersion filters_enabled any_target_has_routes in
  [core (resources_list_tool c) resourcesList; core (resources_get_tool c) resourcesGet;
   core (resources_create_or_update_tool c) resourcesCreateOrUpdate_handler;
   core (resources_delete_tool c) resourcesDelete; core resources_scale_tool resourcesScale].

(** [GetTools] of the toolset. *)
Definition GetTools (filters_enabled any_target_has_routes : bool) : list core_tool :=
  initEvents ++ initNamespaces ++ initNodes ++ initPods ++
  initResources filters_enabled any_target_has_routes.
End Handlers.

(** * Specification *)

(** The calls that a tool may make that is not destructive: reads and applies. *)
Definition non_destructive {R} (c : kcall R) : Prop :=
  match c with
  | KUpdate _ _ _ _ | KDelete _ _ _ _ | KServicesDelete _ _ | KPodExec _ _ _ _ | KPodDelete _ _
  | KPatch _ _ _ _ _ => False
  | KSubresource verb _ _ _ _ _ _ => verb = "GET"
  | _ => True
  end.

(** A tool keeps what its annotations say. *)
Definition annotations_hold (t : core_tool) : Prop :=
  let a := tl_Annotations (ct_Tool t) in
  (ta_ReadOnlyHint a = Some true -> forall args, every (@reads_only) (ct_Handler t args)) /\
  (ta_DestructiveHint a = Some false -> forall args, every (@non_destructive) (ct_Handler t args)).

(** * Lemmas *)

Lemma reads_non_destructive {A} (p : prog A) : every (@reads_only) p -> every (@non_destructive) p.
Proof.
  apply every_impl. intros R c Hc. destruct c; try done; try (by destruct Hc).
  by destruct (decide (verb = "GET")); [|destruct Hc].
Qed.

Create HintDb reading discriminated.

Lemma reads_ResourcesList gvk ns o : every (@reads_only) (ResourcesList gvk ns o).
Proof.
  apply every_try; [by apply every_call; intros []|]. intros gvr.
  apply every_then; [apply every_isNamespaced; by intros ? []|]. intros b.
  apply every_then.
  { case_match; [|done]. apply every_then; [by apply every_then; [apply every_call; intros []|]|].
    intros allowed. destruct (negb _ && _); [apply reads_NamespaceOrDefault|done]. }
  intros ns'. case_match; apply every_try; try done; try by (apply every_call; intros []).
  by apply every_try; [apply every_call; intros []|].
Qed.

Lemma reads_ResourcesGet gvk ns name : every (@reads_only) (ResourcesGet gvk ns name).
Proof.
  apply every_try; [by apply every_call; intros []|]. intros gvr.
  apply every_then; [apply reads_namespace_for|]. intros ns'. by apply every_call; intros [].
Qed.

Lemma reads_EventsList F ns s : every (@reads_only) (EventsList F ns s).
Proof. apply every_try; [apply reads_ResourcesList|done]. Qed.

Lemma reads_PodsGet ns name : every (@reads_only) (PodsGet ns name).
Proof. apply every_then; [apply reads_NamespaceOrDefault|]. intros ns'. apply reads_ResourcesGet. Qed.

Lemma reads_PodsTop C b ns name s : every (@reads_only) (PodsTop C b ns name s).
Proof.
  apply every_then; [apply reads_supports|]. intros b'. case_match; [done|].
  apply every_then; [case_match; [done|apply reads_NamespaceOrDefault]|]. intros ns'. case_match; every_read.
Qed.

Lemma reads_NodesTop C name s : every (@reads_only) (NodesTop C name s).
Proof. apply every_then; [apply reads_supports|]. intros b'. case_match; [done|]. case_match; every_read. Qed.

Lemma reads_NodesLog name q t : every (@reads_only) (NodesLog name q t).
Proof. unfold NodesLog. every_read. Qed.
Lemma reads_NodesStatsSummary name : every (@reads_only) (NodesStatsSummary name).
Proof. unfold NodesStatsSummary. every_read. Qed.

Lemma reads_PodsLog ns name c p t : every (@reads_only) (PodsLog ns name c p t).
Proof. apply every_then; [apply reads_NamespaceOrDefault|]. intros ns'. every_read. Qed.

#[export] Hint Resolve reads_ResourcesList reads_ResourcesGet reads_EventsList reads_PodsGet reads_PodsTop
  reads_NodesTop reads_NodesLog reads_NodesStatsSummary reads_PodsLog reads_non_destructive : reading.

Lemma applies_PodsRun T ns name image port : every (@non_destructive) (PodsRun T ns name image port).
Proof.
  assert (forall ns, every (@non_destructive) (NamespaceOrDefault ns)) as Hns
    by (intros; apply reads_non_destructive, reads_NamespaceOrDefault).
  apply every_then; [case_match; [by apply every_then; [apply every_call|]|done]|]. intros n.
  apply every_then; [done|]. intros ns1.
  apply every_then; [case_match; [by apply every_then|done]|]. intros service.
  apply every_then.
  { case_match; [|done]. apply every_then; [apply reads_non_destructive, reads_supports|].
    intros []; [by apply every_then|done]. }
  intros route. case_match; [|done]. eapply every_impl; [|apply every_create_or_update].
  intros R c. by destruct c.
Qed.
#[export] Hint Resolve applies_PodsRun : reading.

(** A handler makes the calls of one operation, after its checks. *)
Ltac handler_reads :=
  repeat first
    [ done
    | solve [eauto with reading]
    | apply every_then; [solve [eauto with reading]|]; intros
    | case_match
    | progress cbn beta iota zeta ].

(** What executing a command calls. *)
Lemma every_PodsExec ns name container command :
  container <> "" ->
  every (fun _ c => match c with
    | KPodExec ns' n ctr cmd => (ns <> "" -> ns' = ns) /\ n = name /\ ctr = container /\ cmd = command
    | c => reads_only c
    end) (PodsExec ns name container command).
Proof.
  intros Hc. apply every_then_runs.
  { eapply every_impl; [|apply reads_NamespaceOrDefault]. intros R c Hr. destruct c; try done; by destruct Hr. }
  intros tr ns' Hr. pose proof (NamespaceOrDefault_given _ _ _ Hr) as Hns.
  apply every_try; [by apply every_call; intros []|].
  intros p. case_match; [done|]. apply every_call. cbn. split; [exact Hns|]. split; [done|]. split; [|done].
  unfold resolveContainer. by rewrite bool_decide_eq_false_2.
Qed.

(** ** The annotations of the tools *)

Section Tools_of_core.
Context (ovf : spec_float -> Z) (AsTable : bool) (PrintObj : listed -> printed).
Context (PrintObjStructured : listed -> result (string * option any_value)).
Context (Yaml_PrintObjStructured : object -> result (string * option any_value)).
Context (MarshalYaml : list object -> printed) (MarshalYaml_object : object -> printed).
Context (Sprint : object -> string) (Decode : string -> result object).
Context (ToUnstructured : run_object -> result object) (FromUnstructured : object -> result k8s_event).
Context (Convert : list object -> result (list object)) (PrintPodMetrics : list object -> result string).
Context (PrintNodeMetrics : list object -> gmap string (option (gmap string Z)) -> result string).
Abbreviation Tools_of := (GetTools ovf AsTable PrintObj PrintObjStructured Yaml_PrintObjStructured
  MarshalYaml MarshalYaml_object Sprint Decode ToUnstructured FromUnstructured Convert
  PrintPodMetrics PrintNodeMetrics).

Lemma core_reads t h :
  ta_ReadOnlyHint (tl_Annotations t) = Some true -> (forall args, every (@reads_only) (h args)) ->
  annotations_hold (core t h).
Proof. intros _ H. split; intros _ args; (apply every_then; [|done]); auto using reads_non_destructive. Qed.

Lemma core_destructive t h :
  ta_ReadOnlyHint (tl_Annotations t) = None -> ta_DestructiveHint (tl_Annotations t) = Some true ->
  annotations_hold (core t h).
Proof. intros H1 H2. split; cbn; by rewrite ?H1, ?H2. Qed.

Lemma with_filters_hold f t : annotations_hold t -> annotations_hold (with_filters f t).
Proof. done. Qed.

Lemma nodes_top_annotations f : annotations_hold (mkCoreTool nodes_top_tool (nodesTop Convert PrintNodeMetrics) f).
Proof.
  assert (forall args, every (@reads_only) (nodesTop Convert PrintNodeMetrics args)) as H.
  { intros args. apply every_then; [eauto with reading|]. intros [m|e]; [|done].
    apply every_then; [by apply every_call; intros []|done]. }
  split; intros _ args; [apply H|apply reads_non_destructive, H].
Qed.

Lemma pods_run_annotations :
  annotations_hold (core pods_run_tool (podsRun ovf MarshalYaml ToUnstructured)).
Proof.
  split; [done|]. intros _ args. apply every_then; [|done]. cbv delta [podsRun]. cbv beta zeta. handler_reads.
Qed.

Lemma annotations_core fe rt : Forall annotations_hold (Tools_of fe rt).
Proof.
  unfold GetTools, initEvents, initNamespaces, initNodes, initPods, initResources. cbn [app].
  repeat (apply Forall_cons_2 || apply Forall_nil_2); cbv beta;
    try (by apply core_destructive); try apply with_filters_hold;
    try apply nodes_top_annotations; try apply pods_run_annotations;
    (apply core_reads; [done|]); intros args;
    cbv delta [eventsList namespacesList projectsList nodesLog nodesStatsSummary podsListInAllNamespaces
      podsListInNamespace podsGet podsTop podsLog resourcesList resourcesGet]; cbv beta zeta; handler_reads.
Qed.

(** The tools of the core toolset keep their annotations: a tool marked as read-only
    makes no call that changes the cluster, whatever its arguments and whatever the
    cluster answers, and a tool marked as not destructive deletes, updates and
    executes nothing. *)
Theorem core_tools_annotations fe rt t args :
  t ∈ Tools_of fe rt ->
  (ta_ReadOnlyHint (tl_Annotations (ct_Tool t)) = Some true -> every (@reads_only) (ct_Handler t args)) /\
  (ta_DestructiveHint (tl_Annotations (ct_Tool t)) = Some false ->
     every (@non_destructive) (ct_Handler t args)).
Proof.
  intros Hin. pose proof (annotations_core fe rt) as H. rewrite Forall_forall in H.
  destruct (H t Hin) as [H1 H2]. auto.
Qed.

(** ** The tools in a server *)

Section Server.
Context {W K : Type} (cluster : forall R, kcall R -> ST W R) (panicked : error).
Context (AnyTargetHasGVKs : list GroupVersionKind -> W -> bool).

(** The tool as the server registers it, its handler run in the world of the server; the
    server recovers from no panic, so that [panicked] stands for its end. *)
Definition server_tool (t : core_tool) : ServerTool W K :=
  mkServerTool (ct_Tool t)
    (fun params w =>
       let '(r, w) := run cluster (ct_Handler t (th_ToolCallRequest params)) w in
       (match r with Some r => Ok r | None => Err panicked end, w))
    None None (map AnyTargetHasGVKs (ct_Filters t)).

(** A cluster whose reads leave a part of the world alone. *)
Context {S : Type} (view : W -> S).
Hypothesis reads_keep : forall R (c : kcall R) w, reads_only c -> view (cluster R c w).2 = view w.

Lemma run_reads_keep {A} (p : prog A) w : every (@reads_only) p -> view (run cluster p w).2 = view w.
Proof.
  revert w. induction p as [a|R c k IH]; intros w; [done|]. cbn [every run]. intros [Hc Hk].
  specialize (reads_keep R c w Hc) as Hv. destruct (cluster R c w) as [r w']. rewrite <- Hv. by apply IH.
Qed.

(** C7. With a read-only configuration, no call of a core tool that the configuration
    exposes changes what the reads of the cluster leave alone. *)
Theorem core_read_only (c : StaticConfig) fe rt t (params : ToolHandlerParams W K) w w0 :
  c_ReadOnly c = true -> t ∈ Tools_of fe rt -> isToolApplicable c (server_tool t) w0 = true ->
  view (st_Handler (server_tool t) params w).2 = view w.
Proof.
  intros Hro Hin [Hp _]%isToolApplicable_iff. destruct Hp as [Hp _]. specialize (Hp Hro).
  pose proof (annotations_core fe rt) as H. rewrite Forall_forall in H. destruct (H t Hin) as [Hr _].
  cbn [server_tool st_Handler]. pose proof (run_reads_keep _ w (Hr Hp (th_ToolCallRequest params))) as Hv.
  by destruct (run cluster _ w) as [r w'].
Qed.
End Server.
End Tools_of_core.

(** ** The arguments of the tools *)

Lemma int32_of_bounds z : (- 2 ^ 31 <= int32_of z < 2 ^ 31)%Z.
Proof. unfold int32_of. pose proof (Z.mod_pos_bound (z + 2 ^ 31) (2 ^ 32)). lia. Qed.
Lemma int32_of_mod z : (int32_of z mod 2 ^ 32 = z mod 2 ^ 32)%Z.
Proof.
  unfold int32_of. rewrite Zminus_mod_idemp_l. f_equal. lia.
Qed.
Lemma int32_of_small z : (- 2 ^ 31 <= z < 2 ^ 31)%Z -> int32_of z = z.
Proof. intros H. unfold int32_of. rewrite Z.mod_small by lia. lia. Qed.

(** ** The checks of the arguments come before every call *)

(** The handler of a tool with the arguments it extracts and the text of its error. *)
Definition checked_first (ovf : spec_float -> Z) (handler : arguments -> prog ToolCallResult)
    (what : string) (xs : list extraction) : Prop :=
  forall args err, first_error (map (extraction_error args) xs) = Some err ->
    handler args = Ret (failed what err).

Lemma run_extractions_step ovf x xs p p' :
  run_extraction ovf x p = p' -> run_extractions ovf (x :: xs) p = run_extractions ovf xs p'.
Proof. by intros <-. Qed.

(** Goes through the extractions of a handler, whose wrapper at the end is the one of
    [H]. *)
Ltac through_extractions H :=
  repeat match goal with
    | |- context [match ?t with pair _ _ => _ end] =>
        let E := fresh "E" in
        destruct t as [? ?] eqn:E;
        erewrite run_extractions_step in H by (cbn [run_extraction]; rewrite E; reflexivity);
        cbn [snd] in H
    end;
  cbn [run_extractions foldl] in H.
Ltac checked_first_tac ovf handler :=
  let args := fresh "args" in let err := fresh "err" in let H := fresh "H" in
  intros args err H; rewrite <- (run_extractions_err ovf) in H; unfold handler;
  through_extractions H; unfold Params_Err; by rewrite H.

(** What an extraction gives that records no error. *)
Lemma OptionalString_value args key d :
  extraction_error args (XOptionalString key d) = None ->
  exists s, Params_OptionalString key d (WrapParams args) = (s, WrapParams args).
Proof.
  cbn. unfold Params_OptionalString, optionalString. cbn. destruct (args !! key) as [[]|]; try done; eauto.
Qed.
Lemma RequiredString_value args key :
  extraction_error args (XRequiredString key) = None ->
  exists s, args !! key = Some (JString s) /\ Params_RequiredString key (WrapParams args) = (s, WrapParams args).
Proof.
  cbn. unfold Params_RequiredString, RequiredString. cbn. destruct (args !! key) as [[]|]; try done; eauto.
Qed.
Lemma OptionalInt64_value ovf args key d :
  extraction_error args (XOptionalInt64 key d) = None ->
  exists z, match argument args key with Some v => ParseInt64 ovf v = Ok z | None => z = d end /\
    Params_OptionalInt64 ovf key d (WrapParams args) = (z, WrapParams args).
Proof.
  cbn -[ParseInt64]. unfold Params_OptionalInt64, argument. cbn -[ParseInt64].
  destruct (args !! key) as [[]|]; try done; eauto.
Qed.

Section Checked.
Context (ovf : spec_float -> Z) (AsTable : bool) (PrintObj : listed -> printed).
Context (MarshalYaml : list object -> printed) (MarshalYaml_object : object -> printed).
Context (ToUnstructured : run_object -> result object) (FromUnstructured : object -> result k8s_event).
Context (Convert : list object -> result (list object)) (PrintPodMetrics : list object -> result string).

(** The pod tools, [namespaces_list] and [events_list] give the error of the first
    argument that is missing or of the wrong type, in their order, before any call of
    the cluster; [pods_exec] also when its command is no array of strings. *)
Theorem core_arguments_checked :
  checked_first ovf (podsListInAllNamespaces AsTable PrintObj) "failed to list pods in all namespaces: "
    [XOptionalString "labelSelector" ""; XOptionalString "fieldSelector" ""] /\
  checked_first ovf (podsListInNamespace AsTable PrintObj) "failed to list pods in namespace: "
    [XRequiredString "namespace"; XOptionalString "labelSelector" ""; XOptionalString "fieldSelector" ""] /\
  checked_first ovf (podsGet MarshalYaml_object) "failed to get pod: "
    [XOptionalString "namespace" ""; XRequiredString "name"] /\
  checked_first ovf podsDelete "failed to delete pod: "
    [XOptionalString "namespace" ""; XRequiredString "name"] /\
  checked_first ovf (podsTop Convert PrintPodMetrics) "failed to get pods top: "
    [XOptionalBool "all_namespaces" true; XOptionalString "namespace" ""; XOptionalString "name" "";
     XOptionalString "label_selector" ""] /\
  checked_first ovf podsExec "failed to exec in pod: "
    [XOptionalString "namespace" ""; XRequiredString "name"; XOptionalString "container" ""] /\
  checked_first ovf (podsLog ovf) "failed to get pod log: "
    [XOptionalString "namespace" ""; XRequiredString "name"; XOptionalString "container" "";
     XOptionalBool "previous" false; XOptionalInt64 "tail" 0] /\
  checked_first ovf (podsRun ovf MarshalYaml ToUnstructured) "failed to run pod: "
    [XOptionalString "namespace" ""; XOptionalString "name" ""; XRequiredString "image";
     XOptionalInt64 "port" 0] /\
  checked_first ovf (namespacesList AsTable PrintObj) "failed to list namespaces: "
    [XOptionalString "fieldSelector" ""] /\
  checked_first ovf (eventsList MarshalYaml FromUnstructured) "failed to list events in all namespaces: "
    [XOptionalString "namespace" ""; XOptionalString "fieldSelector" ""] /\
  (forall args, command_argument args = None -> exists r, podsExec args = Ret r /\ is_Some (tcr_Error r)).
Proof.
  split_and!.
  - checked_first_tac ovf podsListInAllNamespaces.
  - checked_first_tac ovf podsListInNamespace.
  - checked_first_tac ovf podsGet.
  - checked_first_tac ovf podsDelete.
  - checked_first_tac ovf podsTop.
  - checked_first_tac ovf podsExec.
  - checked_first_tac ovf podsLog.
  - checked_first_tac ovf podsRun.
  - checked_first_tac ovf namespacesList.
  - checked_first_tac ovf eventsList.
  - intros args Hc. unfold podsExec. repeat case_match; simplify_eq; eexists; (split; [done|]); by eexists.
Qed.

(** The port that [pods_run] passes on is a 32-bit integer, equal to its argument
    modulo 2^32: to the argument itself when that is the number of a port, and 0 when
    there is none. *)
Theorem podsRun_port args :
  (exists err, podsRun ovf MarshalYaml ToUnstructured args = Ret (failed "failed to run pod: " err)) \/
  exists ns name image z k,
    podsRun ovf MarshalYaml ToUnstructured args =
      prog_then (PodsRun ToUnstructured ns name image (int32_of z)) k /\
    match argument args "port" with Some v => ParseInt64 ovf v = Ok z | None => z = 0%Z end /\
    args !! "image" = Some (JString image) /\
    (- 2 ^ 31 <= int32_of z < 2 ^ 31)%Z /\ (int32_of z mod 2 ^ 32 = z mod 2 ^ 32)%Z /\
    (0 <= z < 65536 -> int32_of z = z)%Z.
Proof.
  set (xs := [XOptionalString "namespace" ""; XOptionalString "name" ""; XRequiredString "image";
              XOptionalInt64 "port" 0]).
  destruct (first_error (map (extraction_error args) xs)) as [err|] eqn:H.
  { left. exists err. subst xs. revert args err H. checked_first_tac ovf podsRun. }
  right. apply first_error_None in H. unfold xs in H. cbn [map] in H. rewrite !Forall_cons in H.
  destruct H as (H1 & H2 & H3 & H4 & _).
  apply OptionalString_value in H1 as (ns & H1). apply OptionalString_value in H2 as (name & H2).
  apply RequiredString_value in H3 as (image & Hi & H3). apply (OptionalInt64_value ovf) in H4 as (z & Hz & H4).
  exists ns, name, image, z. eexists. unfold podsRun. rewrite H1, H2, H3, H4. cbn [Params_Err WrapParams p_err].
  split; [reflexivity|]. split_and!; [done|done|apply int32_of_bounds..|apply int32_of_mod|].
  intros ?. apply int32_of_small. lia.
Qed.
End Checked.

(** * Witnesses: the toolset with trivial printers, in a world that counts writes *)

Definition demo_print : printed := ("", None).
Definition demo_overflow (f : spec_float) : Z := int64_min.
Definition demo_tools : list core_tool :=
  GetTools demo_overflow false (fun _ => demo_print) (fun _ => Ok ("", None)) (fun _ => Ok ("", None))
    (fun _ => demo_print) (fun _ => demo_print) (fun _ => "") (fun _ => Ok demo_pod) demo_convert
    (fun _ => Err (ErrNew "")) (fun l => Ok l) (fun _ => Ok "") (fun _ _ => Ok "") false false.
Definition demo_world (R : Type) (c : kcall R) : ST nat R := fun writes =>
  (demo_cluster R c,
   match c with
   | KApply _ _ _ _ _ _ | KUpdate _ _ _ _ | KDelete _ _ _ _ | KServicesDelete _ _ | KPodExec _ _ _ _
   | KPodCreate _ _ | KPodDelete _ _ => S writes
   | _ => writes
   end).
Definition pods_list : core_tool :=
  core pods_list_tool (podsListInAllNamespaces false (fun _ => demo_print)).
Definition pods_delete : core_tool := core pods_delete_tool podsDelete.

Lemma core_tools_annotations_witness :
  pods_list ∈ demo_tools /\ every (@reads_only) (ct_Handler pods_list ∅).
Proof.
  assert (pods_list ∈ demo_tools) as Hin by (do 6 right; left).
  split; [exact Hin|].
  by apply (core_tools_annotations demo_overflow false (fun _ => demo_print) (fun _ => Ok ("", None))
    (fun _ => Ok ("", None)) (fun _ => demo_print) (fun _ => demo_print) (fun _ => "") (fun _ => Ok demo_pod)
    demo_convert (fun _ => Err (ErrNew "")) (fun l => Ok l) (fun _ => Ok "") (fun _ _ => Ok "") false false
    pods_list ∅ Hin).
Defined.

(** The read-only configuration exposes [pods_list], and not [pods_delete], whose call
    would have changed the world. *)
Lemma core_read_only_witness :
  let server t := server_tool demo_world (ErrNew "panic") (fun _ _ => true) t : ServerTool nat unit in
  let params := mkToolHandlerParams defaultOverrides tt {["name" := JString "web"]} None
                  (fun _ w => (Err (ErrNew "elicit"), w)) in
  isToolApplicable defaultOverrides (server pods_delete) 0 = false /\
  (st_Handler (server pods_delete) params 0).2 = 3 /\
  (st_Handler (server pods_list) params 0).2 = 0.
Proof.
  split; [by vm_compute|]. split; [by vm_compute|].
  apply (core_read_only demo_overflow false (fun _ => demo_print) (fun _ => Ok ("", None))
    (fun _ => Ok ("", None)) (fun _ => demo_print) (fun _ => demo_print) (fun _ => "") (fun _ => Ok demo_pod)
    demo_convert (fun _ => Err (ErrNew "")) (fun l => Ok l) (fun _ => Ok "") (fun _ _ => Ok "")
    demo_world (ErrNew "panic") (fun _ _ => true) (fun w => w)
    ltac:(intros R c w Hc; destruct c; try done; by destruct Hc) defaultOverrides false false pods_list _ 0 0);
    [done|do 6 right; left|by vm_compute].
Defined.
