(* ===== verification/NodeDebug.v ===== *)
(** Debugging nodes (pkg/cluster-diagnostics/nodesdebug/nodes_debug.go and the tool
    nodes_debug_exec of pkg/toolsets/cluster-diagnostics/nodes): a privileged pod is
    created on the node, a command is executed in it, and the pod is deleted.
    Contexts appear as the number of polls that they allow. *)
From Stdlib Require Import Floats.SpecFloat Strings.Ascii Strings.String.
From S2P Require Import Prelude GoStrings Api Params Unstructured Cluster Core.

(** * Definitions *)

Definition DefaultNodeDebugImage : string := "registry.access.redhat.com/ubi9/toolbox:latest".
Definition NodeDebugContainerName : string := "debug".
Definition Second : Z := 1000000000.
Definition DefaultNodeDebugTimeout : Z := (60 * Second)%Z.

(** ** Names and paths *)

Definition is_lower (c : ascii) : bool := let n := nat_of_ascii c in (97 <=? n) && (n <=? 122).
Definition is_upper (c : ascii) : bool := let n := nat_of_ascii c in (65 <=? n) && (n <=? 90).
Definition is_digit (c : ascii) : bool := let n := nat_of_ascii c in (48 <=? n) && (n <=? 57).

(** A rune of a lowered name: an ASCII character, or another rune. *)
Definition sanitize_rune (r : option ascii) : ascii :=
  match r with
  | Some c => if is_lower c || is_digit c || Ascii.eqb c "-" then c else "-"%char
  | None => "-"%char
  end.

Section Names.
(** The runes of [strings.ToLower]. *)
Context (lower_runes : string -> list (option ascii)).

Definition sanitizeForName (name : string) : string :=
  let b := String.string_of_list_ascii (map sanitize_rune (lower_runes name)) in
  let sanitized := Trim b "-" in
  let sanitized := if sanitized =?s "" then "node" else sanitized in
  if 40 <? slen sanitized then take_str 40 sanitized else sanitized.

(** The name of the pod, with the node name in it, given the random suffix. *)
Definition debug_pod_names (nodeName suffix : string) : string * string :=
  let sanitizedNode := sanitizeForName nodeName in
  let maxNodeLen := (63 - Z.of_nat (slen "node-debug-") - 1 - Z.of_nat (slen suffix))%Z in
  let maxNodeLen := Z.to_nat (if (maxNodeLen <? 1)%Z then 1 else maxNodeLen) in
  let sanitizedNode :=
    if maxNodeLen <? slen sanitizedNode
    then trim_right (fun c => char_in c "-") (take_str maxNodeLen sanitizedNode)
    else sanitizedNode in
  (fmt ["node-debug-"; sanitizedNode; "-"; suffix], sanitizedNode).
End Names.

(** The characters outside [a-zA-Z0-9/_.~-]. *)
Definition path_safe (c : ascii) : bool :=
  is_lower c || is_upper c || is_digit c || char_in c "/_.~-".
Fixpoint first_unsafe (path : string) : option nat :=
  match path with
  | EmptyString => None
  | String c path => if path_safe c then S <$> first_unsafe path else Some 0
  end.

(** How an unsafe rune or byte at the start of a text is shown. *)
Section Paths.
Context (describe_unsafe : nat -> string -> string).
Definition validatePath (path pathType : string) : option error :=
  if path =?s "" then None
  else if negb (HasPrefix path "/") then
    Some (ErrNew (fmt [pathType; " must be an absolute path (start with /), got: "; path]))
  else if slices_Contains (Split "/" path) ".." then
    Some (ErrNew (fmt [pathType; " contains path traversal element '..': "; path]))
  else
    match first_unsafe path with
    | Some i => Some (ErrNew (fmt [pathType; " contains "; describe_unsafe i (drop_str i path)]))
    | None => None
    end.
End Paths.

(** ** The debug pod *)

Section NodeDebug.
Context (lower_runes : string -> list (option ascii)).
Context (describe_unsafe : nat -> string -> string).
(** A context: what it allows before it is done, as a number of further polls, and
    its error.  A context with a timeout in nanoseconds is made of the context of the
    caller, which may have a deadline of its own. *)
Context (polls : option Z -> nat) (has_deadline : bool) (ctx_err : error).

Definition DoesNodeExist (name : string) : prog (result bool) :=
  r ← ResourcesGet (mkGVK "" "v1" "Node") "" name;
  Ret (match r with
       | Ok _ => Ok true
       | Err err =>
           if errors_Is_kind KindNotFound err then Ok false
           else Err (wrapf (fmt ["failed to check if node "; name; " exists: "]) err)
       end).

Definition createDebugPod (nodeName namespace image hostPath mountPath : string) : prog (result string) :=
  suffix ← call (KRandString 5);
  let '(podName, sanitizedNode) := debug_pod_names lower_runes nodeName suffix in
  let hostPath := if hostPath =?s "" then "/" else hostPath in
  let mountPath := if mountPath =?s "" then "/host" else mountPath in
  created ← call (KPodCreate namespace (mkDebugPod podName namespace
    {[ AppKubernetesManagedBy := BinaryName; AppKubernetesComponent := "node-debug";
       AppKubernetesName := "node-debug-" +:+ sanitizedNode ]}
    nodeName NodeDebugContainerName image ["sleep"; "infinity"] hostPath mountPath
    true (true, true, true) 0 false true "Never"));
  Ret (match created with
       | Ok name => Ok name
       | Err err => Err (wrapf "failed to create debug pod: " err)
       end).

Definition PodRunning : string := "Running".

(** [PollUntilContextCancel] with an immediate first poll. *)
Fixpoint pollForRunning (n : nat) (namespace podName : string) : prog (option error) :=
  p ← call (KPodGet namespace podName);
  match p with
  | Err err => Ret (Some (wrapf (fmt ["failed to get debug pod "; podName; " status: "]) err))
  | Ok p =>
      if pod_Phase p =?s PodFailed then
        Ret (Some (ErrNew (fmt ["debug pod "; podName; " failed: "; pod_Message p])))
      else if pod_Phase p =?s PodRunning then Ret None
      else
        match n with
        | O => Ret (Some ctx_err)
        | S n => pollForRunning n namespace podName
        end
  end.

Definition retrieveLogs (namespace podName : string) : prog (result string) :=
  logs ← PodsLog namespace podName NodeDebugContainerName false 0;
  Ret (match logs with
       | Err err => Err (wrapf "failed to retrieve debug pod logs: " err)
       | Ok logs => Ok (TrimSpace logs)
       end).

(** What is done with the pod between its creation and its deletion: the output, the
    error output and the error. *)
Definition in_debug_pod (n : nat) (ns created : string) (command : list string) :
    prog (string * string * option error) :=
  pollErr ← pollForRunning n ns created;
  match pollErr with
  | Some err => Ret ("", "", Some err)
  | None =>
      r ← PodsExec ns created NodeDebugContainerName command;
      match r with
      | Ok (stdout, stderr) => Ret (stdout, stderr, None)
      | Err execErr =>
          logs ← retrieveLogs ns created;
          let what := fmt ["failed to execute command in debug pod "; created; " in namespace "; ns; ": "] in
          Ret ("", "", Some (match logs with
               | Ok logs =>
                   if logs ≠?s "" then ErrWrap [inl what; inr execErr; inl (fmt [nl; "logs:"; nl; logs])]
                   else wrapf what execErr
               | Err _ => wrapf what execErr
               end))
      end
  end.

(** The timeout of the context, or [None] for the deadline of the caller. *)
Definition exec_timeout (timeout : Z) : option Z :=
  if (timeout <=? 0)%Z then
    if has_deadline then None else Some DefaultNodeDebugTimeout
  else Some timeout.

Definition NodesDebugExec (namespace nodeName image : string) (command : list string)
    (hostPath mountPath : string) (timeout : Z) : prog (string * string * option error) :=
  let fail err := Ret ("", "", Some err) in
  if nodeName =?s "" then fail (ErrNew "node name is required")
  else if bool_decide (command = []) then fail (ErrNew "command is required")
  else
    match validatePath describe_unsafe hostPath "hostPath" with
    | Some err => fail (wrapf "invalid hostPath: " err)
    | None =>
    match validatePath describe_unsafe mountPath "mountPath" with
    | Some err => fail (wrapf "invalid mountPath: " err)
    | None =>
        ns ← NamespaceOrDefault namespace;
        let ns := if ns =?s "" then "default" else ns in
        let debugImage := if image =?s "" then DefaultNodeDebugImage else image in
        exists_ ← DoesNodeExist nodeName;
        match exists_ with
        | Err err => fail (wrapf (fmt ["failed to check if node "; nodeName; " exists: "]) err)
        | Ok false => fail (ErrNew (fmt ["node "; nodeName; " does not exist"]))
        | Ok true =>
            created ← createDebugPod nodeName ns debugImage hostPath mountPath;
            match created with
            | Err err => fail err
            | Ok created =>
                r ← in_debug_pod (polls (exec_timeout timeout)) ns created command;
                _ ← call (KPodDelete ns created);   (* deferred, in a context of its own *)
                Ret r
            end
        end
    end end.

(** ** The tool *)

Fixpoint string_items (l : list jvalue) : result (list string) :=
  match l with
  | [] => Ok []
  | JString s :: l => match string_items l with Ok ss => Ok (s :: ss) | Err err => Err err end
  | _ => Err (ErrNew "command items must be strings")
  end.
Definition toStringSlice (arg : option jvalue) : result (list string) :=
  match arg with
  | None | Some JNull => Err (ErrNew "command is required")
  | Some (JArray []) => Err (ErrNew "command array cannot be empty")
  | Some (JArray raw) => string_items raw
  | Some _ => Err (ErrNew "command must be an array of strings")
  end.

(** Whether a number is an integer of at least one: [v >= 1 && v == math.Trunc(v)]. *)
Definition positive_integer (v : spec_float) : bool :=
  match v with
  | S754_infinity false => true
  | S754_finite false m e =>
      if (0 <=? e)%Z then true
      else (2 ^ (- e) <=? Zpos m)%Z && (Zpos m mod 2 ^ (- e) =? 0)%Z
  | _ => false
  end.

(** [time.Duration(v) * time.Second]. *)
Definition seconds (v : Z) : Z := wrap64 (v * Second).

Context (f64_overflow : spec_float -> Z).

(** The timeout in nanoseconds, zero when there is none. *)
Definition timeout_argument (timeoutRaw : option jvalue) : result Z :=
  match timeoutRaw with
  | None | Some JNull => Ok 0%Z
  | Some (JFloat64 v) =>
      if positive_integer v then Ok (seconds (f64_to_int64 f64_overflow v))
      else Err (ErrNew "failed to execute command on node: timeout_seconds must be an integer >= 1")
  | Some (JInt v) | Some (JInt64 v) =>
      if (v <? 1)%Z then Err (ErrNew "failed to execute command on node: timeout_seconds must be >= 1")
      else Ok (seconds v)
  | Some _ => Err (ErrNew "failed to execute command on node: timeout_seconds must be a numeric value")
  end.

Definition nodesDebugExec (args : arguments) : prog ToolCallResult :=
  let p := WrapParams args in
  let '(nodeName, p) := Params_RequiredString "node" p in
  let '(namespace, p) := Params_OptionalString "namespace" "" p in
  let '(image, p) := Params_OptionalString "image" "" p in
  match Params_Err p with
  | Some err => Ret (NewToolCallResult "" (Some (wrapf "failed to execute command on node: " err)))
  | None =>
      match toStringSlice (args !! "command") with
      | Err err => Ret (NewToolCallResult ""
          (Some (wrapf "failed to execute command on node: invalid command argument: " err)))
      | Ok command =>
          match timeout_argument (args !! "timeout_seconds") with
          | Err err => Ret (NewToolCallResult "" (Some err))
          | Ok timeout =>
              r ← NodesDebugExec namespace nodeName image command "" "" timeout;
              Ret (let '(stdout, stderr, execErr) := r in
                   let stdout :=
                     if (stdout =?s "") && (stderr =?s "") && negb (bool_decide (is_Some execErr))
                     then fmt ["Command executed successfully on node "; nodeName; " but produced no output."]
                     else stdout in
                   let output :=
                     if stdout =?s "" then stderr
                     else if stderr ≠?s "" then
                       fmt ["-- stdout --"; nl; stdout; nl; "-- stderr --"; nl; stderr]
                     else stdout in
                   NewToolCallResult output execErr)
          end
      end
  end.
End NodeDebug.

(** * Specification *)

(** A character that a name may have: a lower-case letter, a digit or a dash. *)
Definition name_char (c : ascii) : bool := is_lower c || is_digit c || Ascii.eqb c "-".

(** What is done in the debug pod [name] of [ns]: reads, and executions of the
    command in its container. *)
Definition only_in_pod (ns name : string) (command : list string) (e : event) : Prop :=
  let 'Ev c _ := e in
  match c with
  | KPodExec ns' n ctr cmd => ns' = ns /\ n = name /\ ctr = NodeDebugContainerName /\ cmd = command
  | c => reads_only c
  end.

(** A path that the tools accept for the volume: absolute, of safe characters, and
    without the element that goes up. *)
Definition safe_path (path : string) : Prop :=
  HasPrefix path "/" = true /\ (".." ∉ Split "/" path) /\ (Forall (fun c => path_safe c = true) (list_ascii_of_string path)).

(** * Lemmas *)

Lemma reads_in_pod ns name command tr :
  Forall (event_call (@reads_only)) tr -> Forall (only_in_pod ns name command) tr.
Proof.
  intros H. eapply Forall_impl; [exact H|]. intros [R c r] Hc. destruct c; try done. by destruct Hc.
Qed.

(** ** Paths *)

Lemma first_unsafe_None path :
  first_unsafe path = None <-> (Forall (fun c => path_safe c = true) (list_ascii_of_string path)).
Proof.
  induction path as [|c path IH]; [done|]. cbn. rewrite Forall_cons, <- IH.
  destruct (path_safe c), (first_unsafe path); cbn; naive_solver.
Qed.

(** Validation accepts exactly the empty path, for which there is a default, and the
    safe paths. *)
Lemma validatePath_None d path pathType :
  validatePath d path pathType = None <-> path = "" \/ safe_path path.
Proof.
  unfold validatePath, safe_path. destruct (bool_decide_reflect (path = "")) as [->|Hne]; [naive_solver|].
  destruct (HasPrefix path "/"); cbn [negb]; [|naive_solver].
  destruct (slices_Contains (Split "/" path) "..") eqn:Hc.
  - apply slices_Contains_spec in Hc. naive_solver.
  - assert (".." ∉ Split "/" path) by (rewrite <- slices_Contains_spec; by rewrite Hc).
    rewrite <- first_unsafe_None. destruct (first_unsafe path); naive_solver.
Qed.

(** ** Names *)

Lemma sanitize_rune_char r : name_char (sanitize_rune r) = true.
Proof.
  unfold name_char, sanitize_rune. destruct r as [c|]; [|done].
  destruct (is_lower c || is_digit c || Ascii.eqb c "-") eqn:H; [exact H|done].
Qed.

Abbreviation name_chars s := (Forall (fun c => name_char c = true) (list_ascii_of_string s)).

Lemma chars_app s t : list_ascii_of_string (s +:+ t) = list_ascii_of_string s ++ list_ascii_of_string t.
Proof. induction s as [|c s IH]; [done|]. rewrite append_String. cbn [list_ascii_of_string app]. by rewrite IH. Qed.
Lemma trim_left_chars P f s :
  Forall P (list_ascii_of_string s) -> Forall P (list_ascii_of_string (trim_left f s)).
Proof. induction s as [|c s IH]; [done|]. cbn. rewrite Forall_cons. intros [Hc Hs]. destruct (f c); [auto|by constructor]. Qed.
Lemma trim_right_chars P f s :
  Forall P (list_ascii_of_string s) -> Forall P (list_ascii_of_string (trim_right f s)).
Proof.
  induction s as [|c s IH]; [done|]. cbn. rewrite Forall_cons. intros [Hc Hs]. specialize (IH Hs).
  destruct (trim_right f s); [destruct (f c); by repeat constructor|by constructor].
Qed.
Lemma take_str_chars P n s :
  Forall P (list_ascii_of_string s) -> Forall P (list_ascii_of_string (take_str n s)).
Proof.
  revert n. induction s as [|c s IH]; intros [|n]; try done. cbn. rewrite Forall_cons. intros [? ?].
  constructor; auto.
Qed.
Lemma trim_right_length f s : slen (trim_right f s) <= slen s.
Proof.
  unfold slen. induction s as [|c s IH]; [done|]. cbn. destruct (trim_right f s); [destruct (f c); cbn; lia|cbn in *; lia].
Qed.

Section NameLemmas.
Context (lower_runes : string -> list (option ascii)).

Lemma sanitizeForName_spec name :
  name_chars (sanitizeForName lower_runes name) /\ slen (sanitizeForName lower_runes name) <= 40.
Proof.
  unfold sanitizeForName. set (b := String.string_of_list_ascii _).
  assert (name_chars (Trim b "-")) as Ht.
  { apply trim_right_chars, trim_left_chars. unfold b. rewrite list_ascii_of_string_of_list_ascii.
    apply Forall_forall. intros c (r & -> & _)%list_elem_of_fmap. apply sanitize_rune_char. }
  set (t := if Trim b "-" =?s "" then _ else _).
  assert (name_chars t) as Hn by (unfold t; case_match; [by repeat constructor|done]).
  destruct (Nat.ltb_spec 40 (slen t)); [|done].
  split; [by apply take_str_chars|rewrite slen_take_str; lia].
Qed.

(** The name of a debug pod is a valid name whatever the name of the node: at most 63
    characters, all lower-case letters, digits or dashes, and it starts with a letter
    and ends as its suffix does. *)
Theorem debug_pod_names_valid nodeName suffix :
  slen suffix <= 50 -> name_chars suffix ->
  let podName := (debug_pod_names lower_runes nodeName suffix).1 in
  slen podName <= 63 /\ name_chars podName /\ HasPrefix podName "node-debug-" = true /\
  exists front, podName = front +:+ "-" +:+ suffix.
Proof.
  intros Hs Hc. unfold debug_pod_names. destruct (sanitizeForName_spec nodeName) as [Hn Hl].
  set (n := sanitizeForName lower_runes nodeName) in *.
  set (m := Z.to_nat _). assert (m = 51 - slen suffix) as Hm.
  { unfold m. change (Z.of_nat (slen "node-debug-")) with 11%Z.
    destruct (Z.ltb_spec (63 - 11 - 1 - Z.of_nat (slen suffix)) 1); lia. }
  set (n' := if m <? slen n then _ else n).
  assert (name_chars n' /\ slen n' <= m) as [Hn' Hl'].
  { unfold n'. destruct (Nat.ltb_spec m (slen n)); [|done]. split; [by apply trim_right_chars, take_str_chars|].
    etransitivity; [apply trim_right_length|]. rewrite slen_take_str. lia. }
  cbn [fst]. assert (fmt ["node-debug-"; n'; "-"; suffix] = "node-debug-" +:+ n' +:+ "-" +:+ suffix) as -> by done.
  split_and!.
  - rewrite !slen_append. change (slen "node-debug-") with 11. change (slen "-") with 1. lia.
  - rewrite !chars_app, !Forall_app. split_and!; [by repeat constructor|done|by repeat constructor|done].
  - apply HasPrefix_spec. eauto.
  - exists ("node-debug-" +:+ n'). by rewrite append_assoc.
Qed.
End NameLemmas.

(** The value of the name label of the pod may end in a dash, which the API server
    rejects: the trimming comes before the cut to 40 characters. *)
Lemma name_label_dash :
  let lower_runes s := map Some (list_ascii_of_string s) in
  sanitizeForName lower_runes "gke-production-cluster-default-pool-abc-d01234" =
    "gke-production-cluster-default-pool-abc-".
Proof. by vm_compute. Qed.

(** ** Timeouts *)

Lemma wrap64_small z : in_int64 z -> wrap64 z = z.
Proof. unfold in_int64, int64_min, int64_max, wrap64. intros H. rewrite Z.mod_small by lia. lia. Qed.

(** A timeout of up to 9223372036 seconds is the timeout of the context. *)
Theorem timeout_exact hd ovf (v : Z) :
  (1 <= v <= 9223372036)%Z ->
  exists t, timeout_argument ovf (Some (JInt v)) = Ok t /\ timeout_argument ovf (Some (JInt64 v)) = Ok t /\
    exec_timeout hd t = Some (v * Second)%Z.
Proof.
  intros Hv. exists (seconds v). cbn. destruct (Z.ltb_spec v 1); [lia|]. split; [done|]. split; [done|].
  unfold seconds. rewrite wrap64_small by (unfold in_int64, int64_min, int64_max, Second; lia).
  unfold exec_timeout. destruct (Z.leb_spec (v * Second) 0); [unfold Second in *; lia|done].
Qed.

(** One second more overflows, and the default of one minute takes its place. *)
Lemma timeout_overflow ovf :
  timeout_argument ovf (Some (JInt64 9223372037)) = Ok (-9223372036709551616)%Z /\
  exec_timeout false (-9223372036709551616) = Some DefaultNodeDebugTimeout.
Proof. by split. Qed.

(** ** The life of the pod *)

Section Life.
Context (lower_runes : string -> list (option ascii)) (describe_unsafe : nat -> string -> string).
Context (polls : option Z -> nat) (has_deadline : bool) (ctx_err : error).

Lemma reads_pollForRunning n ns name : every (@reads_only) (pollForRunning ctx_err n ns name).
Proof.
  induction n as [|n IH]; (split; [by intros []|]); intros [p|e]; try done; cbn [prog_bind prog_then];
    (destruct (pod_Phase p =?s PodFailed); [done|]); (destruct (pod_Phase p =?s PodRunning); [done|]); first [exact IH|done].
Qed.

(** The answer of the last poll. *)
Lemma answer_inj ns name (a b : result pod) :
  Some (Ev (KPodGet ns name) a) = Some (Ev (KPodGet ns name) b) -> a = b.
Proof.
  intros H. apply (f_equal (fun e => match e with
    | Some (Ev c r) => match c in kcall R return R -> result pod with KPodGet _ _ => fun r => r | _ => fun _ => a end r
    | None => a end)) in H. exact H.
Qed.

(** Waiting polls at most as often as the context allows, once more at first, and
    says that the pod runs only when the last poll said so. *)
Theorem pollForRunning_spec n ns name tr r :
  runs (pollForRunning ctx_err n ns name) tr r ->
  1 <= length tr <= S n /\
  (r = None <-> exists p, last tr = Some (Ev (KPodGet ns name) (Ok p)) /\ pod_Phase p = PodRunning).
Proof.
  revert tr. induction n as [|n IH]; intros tr (a & tr' & -> & H).
  all: destruct a as [p|e];
    [|destruct H as [-> ->]; split; [cbn; lia|]; split; [done|]; intros (p & [= H]%answer_inj & _); done].
  all: cbn [prog_bind prog_then] in H.
  all: destruct (bool_decide_reflect (pod_Phase p = PodFailed)) as [Hf|Hf];
    [destruct H as [-> ->]; split; [cbn; lia|]; split; [done|];
     intros (p' & [= <-]%answer_inj & Hp'); by rewrite Hf in Hp'|].
  all: destruct (bool_decide_reflect (pod_Phase p = PodRunning)) as [Hp|Hp];
    [destruct H as [-> ->]; split; [cbn; lia|]; split; [by exists p|done]|].
  - destruct H as [-> ->]. split; [cbn; lia|]. split; [done|]. intros (p' & [= <-]%answer_inj & Hp'). done.
  - apply IH in H as [Hl Hr]. split; [cbn; lia|]. rewrite Hr. destruct tr' as [|e tr']; [cbn in Hl; lia|done].
Qed.
(** What executing in a container does. *)
Lemma exec_in_container ns name ctr command tr r :
  ns <> "" -> runs (PodsExec ns name ctr command) tr r ->
  Forall (fun e => let 'Ev c _ := e in
    match c with
    | KPodExec ns' n ctr' cmd => ns' = ns /\ n = name /\ (ctr <> "" -> ctr' = ctr) /\ cmd = command
    | c => reads_only c
    end) tr.
Proof.
  intros Hne (tr0 & ns0 & tr1 & -> & H0 & H)%runs_then.
  rewrite (NamespaceOrDefault_given _ _ _ H0 Hne) in H. apply Forall_app. split.
  { eapply Forall_impl; [by eapply every_runs; [apply reads_NamespaceOrDefault|]|].
    intros [R c a] Hc. destruct c; try done. by destruct Hc. }
  apply runs_try in H as [(tr2 & p & tr3 & -> & ->%runs_call & H)|(err & ->%runs_call & _)].
  2:{ constructor; [by intros []|done]. }
  constructor; [by intros []|].
  destruct ((pod_Phase p =?s PodSucceeded) || (pod_Phase p =?s PodFailed)); [by destruct H as [-> _]|].
  apply runs_call in H as ->. constructor; [|done]. split_and!; [done..| |done].
  intros Hc. unfold resolveContainer. by rewrite bool_decide_eq_false_2.
Qed.

Lemma in_debug_pod_runs n ns name command tr r :
  ns <> "" -> runs (in_debug_pod ctx_err n ns name command) tr r -> Forall (only_in_pod ns name command) tr.
Proof.
  intros Hns (tr1 & e & tr2 & -> & H1 & H)%runs_then. apply Forall_app. split.
  { apply reads_in_pod. by eapply every_runs; [apply reads_pollForRunning|]. }
  destruct e as [err|]; [by destruct H as [-> _]|].
  apply runs_then in H as (tr3 & x & tr4 & -> & H3 & H).
  apply Forall_app. split.
  { apply exec_in_container in H3; [|done]. eapply Forall_impl; [exact H3|]. intros [R c a] Hc.
    destruct c; try done. destruct Hc as (? & ? & Hc & ?). split_and!; [done..|by apply Hc|done]. }
  destruct x as [[so se]|err]; [by destruct H as [-> _]|].
  apply runs_then in H as (tr5 & logs & tr6 & -> & H5 & [-> _]). rewrite app_nil_r.
  apply reads_in_pod. eapply every_runs; [|exact H5]. apply every_then; [|done].
  apply every_then; [apply reads_NamespaceOrDefault|]. intros ns'. every_read.
Qed.

(** What a debug pod is: it runs on the node that was asked for and fetched in the
    run, and mounts safe paths. *)
Definition debug_pod_ok (before : list event) (nodeName ns : string) (p : debug_pod) : Prop :=
  dp_NodeName p = nodeName /\ dp_Namespace p = ns /\ safe_path (dp_HostPath p) /\ safe_path (dp_MountPath p) /\
  exists gvr ns' node, Ev (KGet gvr ns' nodeName "") (Ok node) ∈ before.

(** C8. Executing on a node changes nothing and fails, or creates one pod, on a node that
    exists and with safe mounts.  A pod that was created is deleted by the last call,
    whatever happened before; in between, nothing but the command is executed, in the
    container of that pod. *)
Theorem NodesDebugExec_cleans_up namespace nodeName image command hostPath mountPath timeout tr r :
  runs (NodesDebugExec lower_runes describe_unsafe polls has_deadline ctx_err
          namespace nodeName image command hostPath mountPath timeout) tr r ->
  (Forall (event_call (@reads_only)) tr /\ is_Some r.2) \/
  exists before ns p answer after,
    tr = before ++ Ev (KPodCreate ns p) answer :: after /\
    Forall (event_call (@reads_only)) before /\ debug_pod_ok before nodeName ns p /\
    match answer with
    | Err _ => after = [] /\ is_Some r.2
    | Ok name => exists inside deleted,
        after = inside ++ [Ev (KPodDelete ns name) deleted] /\ Forall (only_in_pod ns name command) inside
    end.
Proof.
  unfold NodesDebugExec.
  destruct (bool_decide_reflect (nodeName = "")); [intros [-> ->]; left; split; [done|by eexists]|].
  destruct (bool_decide_reflect (command = [])); [intros [-> ->]; left; split; [done|by eexists]|].
  destruct (validatePath _ hostPath _) as [e|] eqn:Hh; [intros [-> ->]; left; split; [done|by eexists]|].
  destruct (validatePath _ mountPath _) as [e|] eqn:Hm; [intros [-> ->]; left; split; [done|by eexists]|].
  apply validatePath_None in Hh, Hm.
  intros (tr1 & ns0 & tr2 & -> & H1 & H)%runs_then.
  set (ns := if ns0 =?s "" then "default" else ns0) in *.
  assert (ns <> "") as Hns by (unfold ns; destruct (bool_decide_reflect (ns0 = "")); done).
  assert (Forall (event_call (@reads_only)) tr1) as Hr1 by (by eapply every_runs; [apply reads_NamespaceOrDefault|]).
  apply runs_then in H as (tr3 & ex & tr4 & -> & H3 & H).
  apply runs_then in H3 as (tr3' & nd & ? & -> & H3 & [-> ->]). rewrite app_nil_r in *.
  apply ResourcesGet_runs in H3 as [Hr3 Hnode].
  assert (Forall (event_call (@reads_only)) (tr1 ++ tr3')) as Hr by by apply Forall_app.
  destruct nd as [nd|err];
    [|left; destruct (errors_Is_kind KindNotFound err); destruct H as [-> ->]; rewrite app_nil_r;
      (split; [done|by eexists])].
  right. apply runs_then in H as (tr5 & created & tr6 & -> & H5 & H).
  destruct H5 as (suffix & tr7 & -> & H5).
  destruct (debug_pod_names lower_runes nodeName suffix) as [podName node'] eqn:Hp.
  destruct H5 as (answer & tr8 & -> & [-> ->]).
  exists (tr1 ++ tr3' ++ [Ev (KRandString 5) suffix]), ns. eexists _, answer, tr6.
  split; [by rewrite <- !app_assoc|]. split; [rewrite app_assoc; apply Forall_app; split; [done|by repeat constructor; intros []]|].
  split.
  { split_and!; [done|done| | |].
    - cbn. case_bool_decide; [by repeat constructor; vm_compute; set_solver|]. by destruct Hh.
    - cbn. case_bool_decide; [by repeat constructor; vm_compute; set_solver|]. by destruct Hm.
    - destruct (Hnode nd eq_refl) as (gvr & ns' & Hin & _). exists gvr, ns', nd. rewrite !elem_of_app. auto. }
  destruct answer as [name|err].
  - apply runs_then in H as (tr9 & r' & tr10 & -> & H9 & H). destruct H as (d & ? & -> & [-> ->]).
    exists tr9, d. split; [done|]. by eapply in_debug_pod_runs.
  - destruct H as [-> ->]. split; [done|by eexists].
Qed.
End Life.

(** * Witnesses *)

Definition demo_runes (s : string) : list (option ascii) := map Some (list_ascii_of_string s).

Lemma debug_pod_names_valid_witness :
  (debug_pod_names demo_runes "ip-10-0-1-42.ec2.internal" "abcde").1 =
    "node-debug-ip-10-0-1-42-ec2-internal-abcde" /\
  slen (debug_pod_names demo_runes "ip-10-0-1-42.ec2.internal" "abcde").1 <= 63.
Proof.
  split; [by vm_compute|]. apply (debug_pod_names_valid demo_runes "ip-10-0-1-42.ec2.internal" "abcde").
  - by vm_compute; lia.
  - by repeat constructor.
Defined.

Lemma timeout_exact_witness :
  exists t, timeout_argument (fun _ => 0%Z) (Some (JInt 120)) = Ok t /\
    timeout_argument (fun _ => 0%Z) (Some (JInt64 120)) = Ok t /\ exec_timeout false t = Some (120 * Second)%Z.
Proof. apply (timeout_exact false (fun _ => 0%Z) 120). lia. Defined.

Lemma pollForRunning_spec_witness :
  let tr := (traced demo_cluster (pollForRunning (ErrNew "deadline") 3 "shop" "web")).1 in
  length tr = 1 /\ 1 <= length tr <= 4.
Proof.
  split; [by vm_compute|].
  eapply (pollForRunning_spec (ErrNew "deadline") 3 "shop" "web"). apply traced_runs.
Defined.

(** The pod is created on the node, the command executed in it, and the pod deleted. *)
Lemma NodesDebugExec_cleans_up_witness :
  let p := NodesDebugExec demo_runes (fun _ _ => "") (fun _ => 3) false (ErrNew "deadline")
             "" "worker-0" "" ["uname"] "" "" 0 in
  let tr := (traced demo_cluster p).1 in
  (traced demo_cluster p).2 = ("out", "", None) /\
  last tr = Some (Ev (KPodDelete "shop" "node-debug-worker-0-abcde") None) /\
  ((Forall (event_call (@reads_only)) tr /\ is_Some (traced demo_cluster p).2.2) \/
   exists before ns p answer after, tr = before ++ Ev (KPodCreate ns p) answer :: after /\
     dp_NodeName p = "worker-0").
Proof.
  split; [by vm_compute|]. split; [by vm_compute|].
  destruct (NodesDebugExec_cleans_up demo_runes (fun _ _ => "") (fun _ => 3) false (ErrNew "deadline")
    "" "worker-0" "" ["uname"] "" "" 0 _ _ (traced_runs demo_cluster _))
    as [H|(before & ns & p & answer & after & Heq & _ & (Hn & _) & _)]; [by left|right].
  exists before, ns, p, answer, after. done.
Defined.
