(* ===== verification/MustGatherPlan.v ===== *)
(** Planning a must-gather collection (pkg/ocp/mustgather/plan_mustgather.go, and the
    prompt of pkg/toolsets/openshift/mustgather): the checks of what the user asks
    for, the pod with its containers, and the text with the manifests and warnings.
    Encoding in YAML and parsing of durations are parameters. *)
From S2P Require Import Prelude GoStrings Paths Api Unstructured Cluster Core Prompts MustGather.

(** * Definitions *)

Definition defaultGatherSourceDir : string := "/must-gather/".
Definition defaultMustGatherImage : string := "registry.redhat.io/openshift4/ose-must-gather:latest".
Definition defaultGatherCmd : string := "/usr/bin/gather".
Definition maxConcurrentGathers : nat := 8.

Record PlanMustGatherParams := mkPlanParams {
  pm_NodeName : string;
  pm_NodeSelector : option (gmap string string);
  pm_HostNetwork : bool;
  pm_SourceDir : string;
  pm_Namespace : string;
  pm_KeepResources : bool;
  pm_GatherCommand : string;
  pm_AllImages : bool;
  pm_Images : list string;
  pm_Timeout : string;
  pm_Since : string;
}.

(** A container of the pod, pulled if not present, with the output volume mounted. *)
Record gather_container := mkContainer {
  gc_Name : string;
  gc_Image : string;
  gc_Command : list string;
  gc_Env : list (string * string);
  gc_MountPath : string;
}.
(** The pod, of critical priority, never restarted, tolerating every taint, with an
    empty directory for the output. *)
Record gather_pod := mkGatherPod {
  gp_Name : string;
  gp_Namespace : string;
  gp_ServiceAccountName : string;
  gp_NodeName : string;
  gp_NodeSelector : option (gmap string string);
  gp_HostNetwork : bool;
  gp_Containers : list gather_container;
}.
Inductive manifest : Type :=
| MNamespace (name : string)
| MServiceAccount (name namespace : string)
| MClusterRoleBinding (name clusterRole serviceAccount namespace : string)
| MPod (p : gather_pod).

Definition serviceAccountName : string := "must-gather-collector".

(** What the user may do: create the four kinds of objects and use the host network. *)
Record permissions := mkPermissions {
  may_create_namespace : bool;
  may_create_serviceaccount : bool;
  may_create_clusterrolebinding : bool;
  may_create_pod : bool;
  may_use_scc_hostnetwork : bool;
}.

(** The containers: one for each image, or one with the default image, and the one
    that waits. *)
Definition gather_containers (images : list string) (gatherCmd : list string) (envVars : list (string * string))
    (sourceDir : string) : list gather_container :=
  match images with
  | [] => [mkContainer "gather" defaultMustGatherImage gatherCmd envVars sourceDir]
  | _ =>
      imap (fun i image =>
        mkContainer (if 1 <? length images then fmt ["gather-"; itoa (Z.of_nat i + 1)] else "gather")
          image gatherCmd envVars sourceDir) images
  end.
Definition wait_container : gather_container :=
  mkContainer "wait" "registry.redhat.io/ubi9/ubi-minimal" ["/bin/bash"; "-c"; "sleep infinity"] [] "/must-gather".

Section Plan.
Context (ParseDuration : string -> bool).
Context (Marshal : manifest -> result string).

(** The checks of the parameters: the command with its timeout, and the environment. *)
Definition gather_command (timeout command : string) : result (list string) :=
  if timeout ≠?s "" then
    if ParseDuration timeout then Ok ["/usr/bin/timeout"; timeout; command]
    else Err (ErrNew "timeout duration is not valid")
  else Ok [command].
Definition gather_env (since : string) : result (list (string * string)) :=
  if since ≠?s "" then
    if ParseDuration since then Ok [("MUST_GATHER_SINCE", since)]
    else Err (ErrNew "since duration is not valid")
  else Ok [].

Definition review (gvr : GroupVersionResource) (name verb : string) : prog bool :=
  r ← call (KAccessReview gvr "" name verb);
  Ret (match r with Ok allowed => allowed | Err _ => false end).
(** The checks, in the order of the source; Go ranges over them in any order. *)
Definition check_permissions : prog permissions :=
  ns ← review (mkGVR "" "v1" "namespaces") "" "create";
  sa ← review (mkGVR "" "v1" "serviceaccounts") "" "create";
  crb ← review (mkGVR "rbac.authorization.k8s.io" "v1" "clusterrolebindings") "" "create";
  pod ← review (mkGVR "" "v1" "pods") "" "create";
  scc ← review (mkGVR "security.openshift.io" "v1" "securitycontextconstraints") "hostnetwork-v2" "use";
  Ret (mkPermissions ns sa crb pod scc).

Definition yaml_block (m : manifest) (what tail : string) : result string :=
  match Marshal m with
  | Err err => Err (wrapf (fmt ["failed to marshal "; what; " to yaml: "]) err)
  | Ok y => Ok (fmt ["```yaml"; nl; y; "```"; nl; tail])
  end.
Definition warning (what : string) : string :=
  fmt ["WARNING: The resources_create_or_update call does not have permission to create "; what; "."; nl].

Definition render_plan (keepResources namespaceExists : bool) (may : permissions) (namespace : string)
    (pod : gather_pod) : result string :=
  let intro := fmt
    ["Plan contains YAML manifests for must-gather pods and required resources (namespace, serviceaccount, clusterrolebinding). ";
     "Suggest how the user can apply the manifest and copy results locally (`oc cp` / `kubectl cp`). "; nl; nl;
     "Ask the user if they want to apply the plan "; nl;
     "- use the resource_create_or_update tool to apply the manifest "; nl;
     "- alternatively, advise the user to execute `oc apply` / `kubectl apply` instead. "; nl; nl;
     if negb keepResources then fmt
       ["Once the must-gather collection is completed, the user may wish to cleanup the created resources. "; nl;
        "- use the resources_delete tool to delete the namespace and the clusterrolebinding "; nl;
        "- or, execute cleanup using `kubectl delete`. "; nl; nl]
     else ""] in
  ns ← (if namespaceExists then Ok ""
        else if may_create_namespace may then yaml_block (MNamespace namespace) "namespace" nl
        else Ok (warning "namespace(s)"));
  sa ← yaml_block (MServiceAccount serviceAccountName namespace) "service account" nl;
  crb ← yaml_block (MClusterRoleBinding (namespace +:+ "-must-gather-collector") "cluster-admin"
                      serviceAccountName namespace) "cluster role binding" nl;
  p ← yaml_block (MPod pod) "pod" "";
  Ok (fmt [intro; ns; sa; if may_create_serviceaccount may then "" else warning "serviceaccount(s)";
           crb; if may_create_clusterrolebinding may then "" else warning "clusterrolebinding(s)";
           p; if may_create_pod may then "" else warning "pod(s)";
           if gp_HostNetwork pod && negb (may_use_scc_hostnetwork may)
           then warning "pod(s) with hostNetwork: true" else ""]).

Definition first_refused (images : list string) : option string :=
  List.find (fun image => negb (isAllowedImageRegistry image)) images.

Definition PlanMustGather (params : PlanMustGatherParams) : prog (result string) :=
  let sourceDir :=
    if pm_SourceDir params =?s "" then defaultGatherSourceDir else filepath_Clean (pm_SourceDir params) in
  namespace ←
    (if pm_Namespace params =?s "" then
       s ← call (KRandString 6); Ret ("openshift-must-gather-" +:+ s)
     else Ret (pm_Namespace params));
  let command := if pm_GatherCommand params =?s "" then defaultGatherCmd else pm_GatherCommand params in
  if negb (isAllowedGatherCommand command) then
    Ret (Err (ErrNew (fmt ["gather command "; quote command; " is not allowed, must be one of allowed gather commands only"])))
  else
    match first_refused (pm_Images params) with
    | Some image => Ret (Err (ErrNew (fmt ["image "; quote image; " is not from an approved Red Hat registry"])))
    | None =>
        images ←
          (if pm_AllImages params then
             r ← getComponentImages;
             Ret (match r with
                  | Err err => Err (ErrNew ("failed to get operator images: " +:+ error_string err))
                  | Ok componentImages => Ok (pm_Images params ++ componentImages)
                  end)
           else Ret (Ok (pm_Images params)));
        match images with
        | Err err => Ret (Err err)
        | Ok images =>
            if maxConcurrentGathers <? length images then
              Ret (Err (ErrNew (fmt ["more than "; itoa (Z.of_nat maxConcurrentGathers); " gather images are not supported"])))
            else
              match gather_command (pm_Timeout params) command with
              | Err err => Ret (Err err)
              | Ok gatherCmd =>
              match gather_env (pm_Since params) with
              | Err err => Ret (Err err)
              | Ok envVars =>
                  suffix ← call (KRandString 6);
                  let pod := mkGatherPod ("must-gather-" +:+ suffix) namespace serviceAccountName
                    (pm_NodeName params) (pm_NodeSelector params) (pm_HostNetwork params)
                    (gather_containers images gatherCmd envVars sourceDir ++ [wait_container]) in
                  existing ← ResourcesGet (mkGVK "" "v1" "Namespace") "" namespace;
                  may ← check_permissions;
                  Ret (render_plan (pm_KeepResources params) (is_ok existing) may namespace pod)
              end end
        end
    end.
End Plan.

(** ** The prompt *)

Definition parseBool (value : string) : bool := ToLower (TrimSpace value) =?s "true".
Definition parseImages (value : string) : list string :=
  if value =?s "" then []
  else filter (fun img => img <> "") (map TrimSpace (Split "," value)).
Definition formatMustGatherPrompt (planResult : string) : string :=
  fmt ["# Must-Gather Collection Plan"; nl; nl; planResult; nl; "---"; nl; nl;
       "**Please review the plan above and confirm if you want to proceed with applying these resources.**"; nl].

Definition plan_params (args : gmap string string) : PlanMustGatherParams :=
  let arg k := default "" (args !! k) in
  mkPlanParams (arg "node_name") (ParseNodeSelector (arg "node_selector")) (parseBool (arg "host_network"))
    (arg "source_dir") (arg "namespace") (parseBool (arg "keep_resources")) (arg "gather_command")
    (parseBool (arg "all_component_images")) (parseImages (arg "images")) (arg "timeout") (arg "since").

Definition planMustGatherHandler (ParseDuration : string -> bool) (Marshal : manifest -> result string)
    (args : gmap string string) : prog (result PromptCallResult) :=
  result <-? PlanMustGather ParseDuration Marshal (plan_params args);
  Ret (Ok (NewPromptCallResult "Must-gather plan generated successfully"
    [mkPromptMessage "user" (mkPromptContent "text" (formatMustGatherPrompt result));
     mkPromptMessage "assistant" (mkPromptContent "text"
       "I'll help you apply this must-gather plan to collect diagnostic data from your OpenShift cluster.")]
    None)).

(** * Specification *)

(** The images that the operators of the cluster name, as the run was told. *)
Definition component_image (tr : list event) (image : string) : Prop :=
  exists gvr items, Ev (KList gvr "" (mkSelectors "" "")) (Ok items) ∈ tr /\ image ∈ annotated_images items.

(** A container of the plan: it runs an allowed command, perhaps under a valid
    timeout, in an image from an approved registry or, when asked to, of an operator. *)
Definition container_ok (ParseDuration : string -> bool) (tr : list event) (all_images : bool)
    (c : gather_container) : Prop :=
  (exists cmd, isAllowedGatherCommand cmd = true /\
     (gc_Command c = [cmd] \/
      exists t, ParseDuration t = true /\ gc_Command c = ["/usr/bin/timeout"; t; cmd])) /\
  (isAllowedImageRegistry (gc_Image c) = true \/ all_images = true /\ component_image tr (gc_Image c)).

(** * Lemmas *)

Lemma first_refused_None images :
  first_refused images = None <-> Forall (fun i => isAllowedImageRegistry i = true) images.
Proof.
  unfold first_refused. induction images as [|i images IH]; cbn [List.find]; [done|].
  rewrite Forall_cons, <- IH. destruct (isAllowedImageRegistry i); cbn [negb]; [split; [done|by intros [_ ?]]|split; [done|by intros [? _]]].
Qed.

Lemma gather_containers_spec images cmd env dir c :
  c ∈ gather_containers images cmd env dir ->
  gc_Command c = cmd /\ (gc_Image c ∈ images \/ images = [] /\ gc_Image c = defaultMustGatherImage).
Proof.
  unfold gather_containers. destruct images as [|i images].
  - intros ->%list_elem_of_singleton. auto.
  - intros (j & x & -> & Hx)%elem_of_lookup_imap_1. cbn. split; [done|]. left. by eapply list_elem_of_lookup_2.
Qed.

Lemma gather_containers_length images cmd env dir :
  length (gather_containers images cmd env dir) = Nat.max 1 (length images).
Proof. unfold gather_containers. destruct images as [|i images]; [done|]. rewrite length_imap. cbn. lia. Qed.

Section PlanLemmas.
Context (ParseDuration : string -> bool) (Marshal : manifest -> result string).

Lemma gather_command_Ok timeout command cmd :
  gather_command ParseDuration timeout command = Ok cmd ->
  cmd = [command] \/ exists t, ParseDuration t = true /\ cmd = ["/usr/bin/timeout"; t; command].
Proof.
  unfold gather_command. case_match; [|intros [= <-]; auto].
  destruct (ParseDuration timeout) eqn:Ht; [|done]. intros [= <-]. right. by exists timeout.
Qed.

Lemma getComponentImages_runs tr images :
  runs getComponentImages tr (Ok images) ->
  Forall (component_image tr) images.
Proof.
  intros [(tr1 & ops & tr2 & -> & ->%runs_call & H)|(? & _ & ?)]%runs_try; [|done].
  apply runs_try in H as [(tr3 & csvs & tr4 & -> & ->%runs_call & [-> [= ->]])|(? & _ & ?)]; [|done].
  apply Forall_app. split; apply Forall_forall; intros i Hi; eexists _, _; (split; [|exact Hi]);
    rewrite !elem_of_app; [left|right; left]; by left.
Qed.

Lemma reads_review gvr name verb : every (@reads_only) (review gvr name verb).
Proof. unfold review. every_read. Qed.

Lemma reads_plan params : every (@reads_only) (PlanMustGather ParseDuration Marshal params).
Proof.
  apply every_then; [destruct (pm_Namespace params =?s ""); [every_read|done]|]. intros ns.
  cbv beta zeta. destruct (negb _); [done|]. destruct (first_refused _); [done|].
  apply every_then.
  { destruct (pm_AllImages params); [|done]. unfold getComponentImages. every_read. }
  intros [images|e]; [|done]. destruct (_ <? _); [done|].
  destruct (gather_command _ _ _); [|done]. destruct (gather_env _ _); [|done].
  apply every_then; [apply every_call; intros []|]. intros suffix.
  apply every_then.
  { apply every_try; [apply every_call; intros []|]. intros gvr.
    apply every_then; [apply reads_namespace_for|]. intros ns'. apply every_call. intros []. }
  intros existing. apply every_then; [|done].
  repeat (apply every_then; [apply reads_review|]; intros ?). done.
Qed.
(** C33. Planning a collection changes nothing on the cluster.  A plan that is made is the
    text for a pod of at most eight gathering containers and the one that waits; each
    of the former runs an allowed command, under a timeout only if it is a valid
    duration, in an image from an approved registry, or, only when the user asked for
    all component images, in one that an operator of the cluster names. *)
Theorem PlanMustGather_safe params tr r :
  runs (PlanMustGather ParseDuration Marshal params) tr r ->
  Forall (event_call (@reads_only)) tr /\
  forall text, r = Ok text ->
    exists namespaceExists may namespace pod gathers,
      render_plan Marshal (pm_KeepResources params) namespaceExists may namespace pod = Ok text /\
      gp_Containers pod = gathers ++ [wait_container] /\ 1 <= length gathers <= maxConcurrentGathers /\
      gp_Namespace pod = namespace /\ (pm_Namespace params <> "" -> namespace = pm_Namespace params) /\
      Forall (container_ok ParseDuration tr (pm_AllImages params)) gathers.
Proof.
  intros H. split; [by eapply every_runs; [apply reads_plan|]|]. intros text ->. revert H.
  unfold PlanMustGather. cbv zeta. set (cmd := if pm_GatherCommand params =?s "" then _ else _).
  intros (tr1 & ns & tr2 & -> & H1 & H)%runs_then.
  assert (pm_Namespace params <> "" -> ns = pm_Namespace params) as Hns.
  { intros Hne. destruct (bool_decide_reflect (pm_Namespace params = "")); [done|]. by destruct H1. }
  destruct (isAllowedGatherCommand cmd) eqn:Hcmd; cbn [negb] in H; [|by destruct H].
  destruct (first_refused (pm_Images params)) eqn:Hf; [by destruct H|]. apply first_refused_None in Hf.
  apply runs_then in H as (tr3 & images & tr4 & -> & H3 & H).
  destruct images as [images|e]; [|by destruct H].
  assert (Forall (fun i => isAllowedImageRegistry i = true \/
            pm_AllImages params = true /\ component_image tr3 i) images) as Hi.
  { destruct (pm_AllImages params); [|destruct H3 as [_ [= ->]]; eapply Forall_impl; [exact Hf|]; auto].
    apply runs_then in H3 as (tr5 & r & tr6 & -> & H5 & [-> Hr]). rewrite app_nil_r.
    destruct r as [cs|]; [|done]. injection Hr as ->. apply getComponentImages_runs in H5.
    apply Forall_app. split; [eapply Forall_impl; [exact Hf|]; auto|eapply Forall_impl; [exact H5|]; auto]. }
  destruct (Nat.ltb_spec maxConcurrentGathers (length images)) as [|Hlen]; [by destruct H|].
  destruct (gather_command _ _ _) as [gatherCmd|e] eqn:Hg; [|by destruct H]. apply gather_command_Ok in Hg.
  destruct (gather_env _ _) as [env|e] eqn:He; [|by destruct H].
  apply runs_then in H as (tr5 & suffix & tr5' & -> & _ & H). apply runs_then in H as (tr6 & ex & tr7 & -> & _ & H).
  apply runs_then in H as (tr8 & may & tr9 & -> & _ & [-> Hr]).
  eexists (is_ok ex), may, ns, _, _. split; [symmetry; exact Hr|]. split; [reflexivity|].
  split; [rewrite gather_containers_length; unfold maxConcurrentGathers in *; lia|].
  split; [done|]. split; [exact Hns|]. apply Forall_forall. intros c [Hcc Hc]%gather_containers_spec. split.
  - exists cmd. split; [done|]. rewrite Hcc. destruct Hg as [-> | (t & Ht & ->)]; [by left|right; by exists t].
  - destruct Hc as [Hin|[_ Hd]]; [|left; by rewrite Hd].
    destruct (proj1 (Forall_forall _ _) Hi _ Hin) as [?|[? (gvr & items & Hev & ?)]]; [by left|right].
    split; [done|]. exists gvr, items. split; [|done]. rewrite !elem_of_app. auto.
Qed.
End PlanLemmas.

(** With all component images, an image that an operator names is used whatever its
    registry. *)
Lemma component_image_unchecked :
  let operator := [("metadata", YMap [("annotations", YMap [(mgAnnotation, YString "docker.io/evil/gather:latest")])])] in
  annotated_images [operator] = ["docker.io/evil/gather:latest"] /\
  isAllowedImageRegistry "docker.io/evil/gather:latest" = false.
Proof. by vm_compute. Qed.

(** * Witness *)

Lemma PlanMustGather_safe_witness :
  let p := PlanMustGather (fun _ => true) (fun _ => Ok "") (plan_params {["timeout" := "30m"; "images" := "registry.redhat.io/a"]}) in
  is_ok (traced demo_cluster p).2 = true /\ Forall (event_call (@reads_only)) (traced demo_cluster p).1.
Proof.
  split; [by vm_compute|]. eapply PlanMustGather_safe. apply traced_runs.
Defined.
