(* ===== verification/MustGatherTools.v ===== *)
(** The must-gather toolset (pkg/toolsets/mustgather: helpers.go, use.go, resources.go,
    events.go, pod_logs.go, nodes.go, etcd.go, mcp_resources.go): the handlers over the
    archive that mustgather_use has loaded.  The file system, the YAML and JSON codecs,
    the parsing of times and the sorting function of the language are parameters; the
    monitoring tools, which only format what the provider reads, are left out. *)
From Stdlib Require Import Floats.SpecFloat.
From S2P Require Import Prelude GoStrings Paths Api Params Unstructured Cluster SdkTypes MustGather.

(** * Definitions *)

(** ** helpers.go *)

Definition getString (args : arguments) (key defaultValue : string) : string :=
  match args !! key with
  | Some (JString s) => if s ≠?s "" then s else defaultValue
  | _ => defaultValue
  end.
Definition getBool (args : arguments) (key : string) (defaultValue : bool) : bool :=
  match args !! key with Some (JBool b) => b | _ => defaultValue end.
Definition getInt (ovf : spec_float -> Z) (args : arguments) (key : string) (defaultValue : Z) : Z :=
  match args !! key with
  | Some (JFloat64 n) => f64_to_int64 ovf n
  | Some (JInt n) | Some (JInt64 n) => n
  | _ => defaultValue
  end.

(** The loop of [formatBytes]: divisor and index after the loop from [n]; 64 steps are
    more than a 64-bit integer takes. *)
Fixpoint byte_unit (fuel : nat) (n div : Z) (exp : nat) : Z * nat :=
  match fuel with
  | O => (div, exp)
  | S fuel => if (1024 <=? n)%Z then byte_unit fuel (n / 1024)%Z (wrap64 (div * 1024)) (S exp) else (div, exp)
  end.
(** [None] is an index out of range of the units. *)
Definition formatBytes (quotient : Z -> Z -> string) (bytes : Z) : option string :=
  if (bytes <? 1024)%Z then Some (fmt [itoa bytes; " B"])
  else
    let '(div, exp) := byte_unit 64 (bytes / 1024) 1024 0 in
    match String.get exp "KMGTPE" with
    | Some c => Some (fmt [quotient bytes div; " "; String c "B"])
    | None => None
    end.

(** Commas where the number of characters to the right is a multiple of three. *)
Fixpoint group_digits (first : bool) (s : string) : string :=
  match s with
  | EmptyString => ""
  | String c s' =>
      (if negb first && (slen s mod 3 =? 0) then "," else "") +:+ String c (group_digits false s')
  end.
Definition formatNumber (n : Z) : string :=
  let str := itoa n in
  if slen str <=? 3 then str else group_digits true str.

Definition healthSymbol (health : string) : string :=
  let h := ToLower health in
  if bool_decide (h ∈ ["up"; "healthy"; "ok"; "true"; "firing"]) then "[OK]"
  else if bool_decide (h ∈ ["down"; "unhealthy"; "error"; "false"]) then "[FAIL]"
  else "[WARN]".

(** ** Filtering of log lines *)

(** The lines of a file as the scanner gives them, and the error that ends them: a
    line longer than its buffer, or an error of reading. *)
Definition scanned : Type := (list string * option error)%type.

Definition line_matches (caseInsensitive : bool) (filter line : string) : bool :=
  let searchFilter := if caseInsensitive then ToLower filter else filter in
  Contains (if caseInsensitive then ToLower line else line) searchFilter.

(** The matching lines kept so far, where the next one goes once the ring is full, and
    the number of matches. *)
Record ring := mkRing { rg_lines : list string; rg_idx : nat; rg_total : nat }.
Definition ring_step (tail : Z) (r : ring) (line : string) : ring :=
  if (0 <? tail)%Z then
    if (Z.of_nat (length (rg_lines r)) <? tail)%Z
    then mkRing (rg_lines r ++ [line]) (rg_idx r) (S (rg_total r))
    else mkRing (<[rg_idx r := line]> (rg_lines r)) ((rg_idx r + 1) mod Z.to_nat tail) (S (rg_total r))
  else mkRing (rg_lines r ++ [line]) (rg_idx r) (S (rg_total r)).
Definition grep_lines (tail : Z) (caseInsensitive : bool) (filter : string) (lines : list string) : ring :=
  fold_left (fun r line => if line_matches caseInsensitive filter line then ring_step tail r line else r)
    lines (mkRing [] 0 0).
(** The lines of the ring in their order. *)
Definition ring_ordered (tail : Z) (r : ring) : list string :=
  if (0 <? tail)%Z && (Z.of_nat (length (rg_lines r)) =? tail)%Z then
    map (fun i => default "" (rg_lines r !! ((rg_idx r + i) mod Z.to_nat tail))) (seq 0 (Z.to_nat tail))
  else rg_lines r.

Definition RFC3339 : string := "2006-01-02T15:04:05Z07:00".
Definition RFC3339Nano : string := "2006-01-02T15:04:05.999999999Z07:00".

(** The matching lines, cut to the last ones (the kubelet logs, which are in memory). *)
Definition grep_tail (tail : Z) (caseInsensitive : bool) (filter : string) (lines : list string) : list string :=
  let matchingLines := List.filter (line_matches caseInsensitive filter) lines in
  if (0 <? tail)%Z && (tail <? Z.of_nat (length matchingLines))%Z
  then drop (length matchingLines - Z.to_nat tail) matchingLines else matchingLines.

(** The lines within a time range: the loop stops at the limit, before any later error
    of the scanner. *)
Section Times.
(** [time.Parse] of a layout, and [Before]. *)
Context {time : Type} (time_Parse : string -> string -> result time) (before : time -> time -> bool).

Definition in_range (since : time) (until : option time) (t : time) : bool :=
  negb (before t since) && match until with Some u => negb (before u t) | None => true end.
Definition line_in_range (since : time) (until : option time) (line : string) : bool :=
  if line =?s "" then false
  else
    match Cut " " line with
    | None => false
    | Some (ts, _) => match time_Parse RFC3339Nano ts with Ok t => in_range since until t | Err _ => false end
    end.
Fixpoint lines_by_time (limit : Z) (since : time) (until : option time) (lines : list string) (err : option error)
    (kept : list string) : list string * option error :=
  match lines with
  | [] => (kept, err)
  | line :: lines =>
      if line_in_range since until line then
        let kept := kept ++ [line] in
        if (0 <? limit)%Z && (limit <=? Z.of_nat (length kept))%Z then (kept, None)
        else lines_by_time limit since until lines err kept
      else lines_by_time limit since until lines err kept
  end.
End Times.

(** ** Events *)

Definition eventGVK : GroupVersionKind := mkGVK "" "v1" "Event".
Definition event_time (event : object) : string := NestedString event ["lastTimestamp"].
Definition formatEvent (event : object) : string :=
  let s f := NestedString event f in
  fmt [if s ["type"] =?s "Warning" then "[Warning]" else "[Normal]"; " "; s ["lastTimestamp"]; " ";
       s ["involvedObject"; "kind"]; "/"; s ["involvedObject"; "name"];
       if GetNamespace event ≠?s "" then fmt [" (ns: "; GetNamespace event; ")"] else ""; nl;
       "  Reason: "; s ["reason"]; nl; "  Message: "; s ["message"]; nl; nl].

(** Case-insensitive containment, of a filter that may be empty. *)
Definition filter_contains (text filter : string) : bool :=
  (filter =?s "") || Contains (ToLower text) (ToLower filter).
Definition of_type (typeFilter : string) (event : object) : bool :=
  (typeFilter =?s "all") || (NestedString event ["type"] =?s typeFilter).
Definition event_selected (typeFilter resourceFilter reasonFilter : string) (event : object) : bool :=
  of_type typeFilter event
  && filter_contains (NestedString event ["involvedObject"; "name"]) resourceFilter
  && filter_contains (NestedString event ["reason"]) reasonFilter.

Definition limit_to {A} (limit : Z) (l : list A) : list A :=
  if (0 <? limit)%Z && (limit <? Z.of_nat (length l))%Z then take (Z.to_nat limit) l else l.

(** ** The handlers

    The state is the global [provider]; an answer is [None] when the handler panics. *)

Definition no_archive : error :=
  ErrNew "no must-gather archive loaded. Call mustgather_use first with a path to a must-gather archive".
Definition answer_text (text : string) : option ToolCallResult := Some (NewToolCallResult text None).
Definition answer_error (err : error) : option ToolCallResult := Some (NewToolCallResult "" (Some err)).
Definition with_provider {A} (provider : option Provider) (none : error -> A) (k : Provider -> A) : A :=
  match provider with None => none no_archive | Some p => k p end.
Definition log_type (previous : bool) : string := if previous then LogTypePrevious else LogTypeCurrent.
(** [strings.SplitN(apiVersion, "/", 2)] *)
Definition parseGVK (apiVersion kind : string) : GroupVersionKind :=
  match Cut "/" apiVersion with
  | Some (group, version) => mkGVK group version kind
  | None => mkGVK "" apiVersion kind
  end.
Definition apiVersionFromGroupVersion (group version : string) : string :=
  if group =?s "" then version else group +:+ "/" +:+ version.

(** The parts of a header that depend on the request. *)
Definition part (b : bool) (text : list string) : string := if b then fmt text else "".

Section Handlers.
Context (ovf : spec_float -> Z).
Context (ReadDir : string -> result (list (string * bool))) (ReadFile : string -> result string).
Context (Exists : string -> bool) (Stat : string -> option error) (Walk : string -> list (string * result bool)).
Context (yaml_Unmarshal : string -> result (option object)) (yaml_Marshal : object -> result string).
Context (readGzipFile : string -> result string).
Context (labels_Parse fields_ParseSelector : string -> result (gmap string string -> bool)).
Context (range_map : gmap string object -> list object).
(** [sort.Slice] of a list by the order of its elements. *)
Context (sort_slice : forall A, (A -> A -> bool) -> list A -> list A).
(** Opening a log and scanning its lines, of at most 1 MB. *)
Context (Open_scan : string -> result scanned).
Context {time : Type} (time_Parse : string -> string -> result time) (before : time -> time -> bool).
Context (decode_health : string -> result (list ETCDEndpoint)) (decode_alarms : string -> result (list (Z * string))).
Context (decode_counts : string -> result (gmap string Z)).

Abbreviation ListResources p gvk ns opts :=
  (index_List labels_Parse fields_ParseSelector range_map gvk ns opts (mg_index p)).

(** use.go *)
Definition mustgatherUse (args : arguments) (provider : option Provider) : option ToolCallResult * option Provider :=
  let path := getString args "path" "" in
  if path =?s "" then (answer_error (ErrNew "path is required"), provider)
  else
    let p := NewProvider ReadDir ReadFile Exists Walk yaml_Unmarshal path in
    let metadata := mg_metadata p in
    (answer_text (fmt ["Must-gather archive loaded successfully"; nl; "======================================="; nl; nl;
       "Path: "; md_Path metadata; nl;
       part (md_Version metadata ≠?s "") ["Version: "; md_Version metadata; nl];
       part (md_Timestamp metadata ≠?s "") ["Timestamp: "; md_Timestamp metadata; nl];
       "Resources indexed: "; itoa (md_ResourceCount metadata); nl;
       "Namespaces: "; itoa (md_NamespaceCount metadata); nl]), Some p).

(** resources.go *)
Definition resource_line (item : object) : string :=
  if GetNamespace item ≠?s "" then fmt ["- "; GetNamespace item; "/"; GetName item; nl]
  else fmt ["- "; GetName item; nl].
Definition resource_yaml (item : object) : string :=
  match yaml_Marshal item with Ok text => fmt [text; nl; "---"; nl; nl] | Err _ => "" end.
Definition mustgatherResourcesList (args : arguments) (provider : option Provider) : option ToolCallResult :=
  with_provider provider answer_error (fun p =>
    let kind := getString args "kind" "" in
    let opts := mkListOptions (getString args "labelSelector" "") (getString args "fieldSelector" "")
                  (getInt ovf args "limit" 0) in
    if kind =?s "" then answer_error (ErrNew "kind is required")
    else
      match ListResources p (parseGVK (getString args "apiVersion" "v1") kind) (getString args "namespace" "") opts with
      | None => None
      | Some (Err err) => answer_error err
      | Some (Ok []) => answer_text (fmt ["No "; kind; " resources found"])
      | Some (Ok items) =>
          answer_text (fmt ["Found "; itoa (Z.of_nat (length items)); " "; kind; " resource(s):"; nl; nl;
            fmt (map resource_line items);
            part (length items <=? 5) (nl :: "---" :: nl :: nl :: map resource_yaml items)])
      end).

(** events.go *)
Definition newest_first (a b : object) : bool := (event_time b <? event_time a)%string.
Definition oldest_first (a b : object) : bool := (event_time a <? event_time b)%string.

Definition listed_events (args : arguments) (events : list object) : list object :=
  limit_to (getInt ovf args "limit" 100)
    (sort_slice _ newest_first
       (filter (fun e => event_selected (getString args "type" "all") (getString args "resource" "")
                           (getString args "reason" "") e = true) events)).
Definition mustgatherEventsList (args : arguments) (provider : option Provider) : option ToolCallResult :=
  with_provider provider answer_error (fun p =>
    match ListResources p eventGVK (getString args "namespace" "") (mkListOptions "" "" 0) with
    | None => None
    | Some (Err err) => answer_error err
    | Some (Ok events) =>
        match listed_events args events with
        | [] => answer_text "No events found matching the criteria"
        | shown =>
            answer_text (fmt ["Found "; itoa (Z.of_nat (length shown)); " events:"; nl; nl; fmt (map formatEvent shown)])
        end
    end).

Definition involves (name kindFilter : string) (event : object) : bool :=
  (NestedString event ["involvedObject"; "name"] =?s name)
  && ((kindFilter =?s "") || EqualFold (NestedString event ["involvedObject"; "kind"]) kindFilter).
Definition resource_events (args : arguments) (events : list object) : list object :=
  sort_slice _ oldest_first
    (filter (fun e => involves (getString args "name" "") (getString args "kind" "") e = true) events).
Definition mustgatherEventsByResource (args : arguments) (provider : option Provider) : option ToolCallResult :=
  with_provider provider answer_error (fun p =>
    let name := getString args "name" "" in
    if name =?s "" then answer_error (ErrNew "name is required")
    else
      match ListResources p eventGVK (getString args "namespace" "") (mkListOptions "" "" 0) with
      | None => None
      | Some (Err err) => answer_error err
      | Some (Ok events) =>
          match resource_events args events with
          | [] => answer_text (fmt ["No events found for resource "; name])
          | matched =>
              answer_text (fmt ["Found "; itoa (Z.of_nat (length matched)); " events for "; name; ":"; nl; nl;
                fmt (map formatEvent matched)])
          end
      end).

(** The times of a request: since, and until where it is given. *)
Definition times_argument (args : arguments) : result (time * option time) :=
  let sinceStr := getString args "since" "" in
  let untilStr := getString args "until" "" in
  if sinceStr =?s "" then Err (ErrNew "since is required (RFC3339 format)")
  else
    match time_Parse RFC3339 sinceStr with
    | Err err => Err (wrapf "invalid since time format, expected RFC3339 (e.g. 2026-01-15T10:00:00Z): " err)
    | Ok since =>
        if untilStr ≠?s "" then
          match time_Parse RFC3339 untilStr with
          | Err err =>
              Err (wrapf "invalid until time format, expected RFC3339 (e.g. 2026-01-15T12:00:00Z): " err)
          | Ok until => Ok (since, Some until)
          end
        else Ok (since, None)
    end.
Definition event_in_range (since : time) (until : option time) (typeFilter : string) (event : object) : bool :=
  (event_time event ≠?s "")
  && match time_Parse RFC3339 (event_time event) with
     | Ok t => in_range before since until t && of_type typeFilter event
     | Err _ => false
     end.
Definition events_by_time (args : arguments) (since : time) (until : option time) (events : list object) : list object :=
  limit_to (getInt ovf args "limit" 200)
    (sort_slice _ oldest_first
       (filter (fun e => event_in_range since until (getString args "type" "all") e = true) events)).
Definition mustgatherEventsByTime (args : arguments) (provider : option Provider) : option ToolCallResult :=
  with_provider provider answer_error (fun p =>
    let sinceStr := getString args "since" "" in
    let untilStr := getString args "until" "" in
    match times_argument args with
    | Err err => answer_error err
    | Ok (since, until) =>
        match ListResources p eventGVK (getString args "namespace" "") (mkListOptions "" "" 0) with
        | None => None
        | Some (Err err) => answer_error err
        | Some (Ok events) =>
            match events_by_time args since until events with
            | [] => answer_text (fmt ["No events found between "; sinceStr; " and ";
                                      if untilStr ≠?s "" then untilStr else "now"])
            | shown =>
                answer_text (fmt ["Found "; itoa (Z.of_nat (length shown)); " events between "; sinceStr; " and ";
                  if untilStr ≠?s "" then untilStr else "latest"; ":"; nl; nl; fmt (map formatEvent shown)])
            end
        end
    end).

(** pod_logs.go *)
Definition pod_log_options (args : arguments) (tail : Z) : PodLogOptions :=
  mkPodLogOptions (getString args "namespace" "") (getString args "pod" "") (getString args "container" "")
    (log_type (getBool args "previous" false)) tail.
Definition no_pod (args : arguments) : bool :=
  (getString args "namespace" "" =?s "") || (getString args "pod" "" =?s "").
Definition logs_for_pod (args : arguments) : string :=
  fmt ["Logs for pod "; getString args "namespace" ""; "/"; getString args "pod" ""].
Definition container_part (args : arguments) : string :=
  part (getString args "container" "" ≠?s "") [", container "; getString args "container" ""].
Definition previous_part (args : arguments) : string := part (getBool args "previous" false) [" (previous)"].
Definition tail_part (tail : Z) (what : string) : string :=
  part (0 <? tail)%Z [" (last "; itoa tail; " "; what; ")"].
Definition found_part (n : nat) : string :=
  fmt [":"; nl; nl; "Found "; itoa (Z.of_nat n); " matching line(s)"; nl; nl].

Definition mustgatherPodLogsGet (args : arguments) (provider : option Provider) : option ToolCallResult :=
  with_provider provider answer_error (fun p =>
    let tail := getInt ovf args "tail" 0 in
    if no_pod args then answer_error (ErrNew "namespace and pod are required")
    else
      match GetPodLog ReadDir ReadFile Stat (pod_log_options args tail) p with
      | Err err => answer_error (wrapf "failed to get pod logs: " err)
      | Ok logs =>
          answer_text (fmt [logs_for_pod args; container_part args; previous_part args; tail_part tail "lines";
                            ":"; nl; nl; logs])
      end).

(** The path of the log, opened and scanned. *)
Definition open_log {A} (args : arguments) (p : Provider) (failed : error -> A) (k : scanned -> A) : A :=
  match GetPodLogPath ReadDir Stat (pod_log_options args 0) p with
  | Err err => failed (wrapf "failed to get pod logs: " err)
  | Ok logPath =>
      match Open_scan logPath with
      | Err err => failed (wrapf "failed to open log file: " err)
      | Ok f => k f
      end
  end.

Definition mustgatherPodLogsGrep (args : arguments) (provider : option Provider) : option ToolCallResult :=
  with_provider provider answer_error (fun p =>
    let filter := getString args "filter" "" in
    let tail := getInt ovf args "tail" 0 in
    let caseInsensitive := getBool args "caseInsensitive" false in
    if no_pod args then answer_error (ErrNew "namespace and pod are required")
    else if filter =?s "" then answer_error (ErrNew "filter string is required")
    else
      open_log args p answer_error (fun f =>
        let r := grep_lines tail caseInsensitive filter f.1 in
        match f.2 with
        | Some err => answer_error (wrapf "failed to read log file: " err)
        | None =>
            let header :=
              fmt [logs_for_pod args; " filtered by '"; filter; "'"; container_part args; previous_part args;
                   part caseInsensitive [" (case-insensitive)"]; tail_part tail "matches";
                   found_part (rg_total r)] in
            if Nat.eqb (rg_total r) 0 then answer_text (fmt [header; "No matching lines found."])
            else answer_text (fmt [header; Join (ring_ordered tail r) nl])
        end)).

Definition mustgatherPodLogsByTime (args : arguments) (provider : option Provider) : option ToolCallResult :=
  with_provider provider answer_error (fun p =>
    let sinceStr := getString args "since" "" in
    let untilStr := getString args "until" "" in
    if no_pod args then answer_error (ErrNew "namespace and pod are required")
    else
      match times_argument args with
      | Err err => answer_error err
      | Ok (since, until) =>
          open_log args p answer_error (fun f =>
            let '(lines, err) :=
              lines_by_time time_Parse before (getInt ovf args "limit" 500) since until f.1 f.2 [] in
            match err with
            | Some err => answer_error (wrapf "failed to read log file: " err)
            | None =>
                let header :=
                  fmt [logs_for_pod args; " between "; sinceStr; " and ";
                       if untilStr ≠?s "" then untilStr else "latest"; container_part args; previous_part args;
                       found_part (length lines)] in
                if Nat.eqb (length lines) 0 then answer_text (fmt [header; "No matching lines found."])
                else answer_text (fmt [header; Join lines nl])
            end)
      end).

(** nodes.go; a panic of [TailLines] is [None]. *)
Definition tailed (tail : Z) (log : string) : option string :=
  if (0 <? tail)%Z then TailLines log tail else Some log.
Definition node_diagnostics {A} (args : arguments) (p : Provider) (failed : error -> A)
    (k : NodeDiagnostics -> A) : A :=
  match GetNodeDiagnostics ReadFile Exists readGzipFile (getString args "node" "") p with
  | Err err => failed (wrapf "failed to get node diagnostics: " err)
  | Ok diag => k diag
  end.
Definition shouldInclude (include name : string) : bool :=
  (include =?s "all") || bool_decide (name ∈ map TrimSpace (Split "," include)).
Definition diagnostic_sections (diag : NodeDiagnostics) : list (string * string * string) :=
  [("sysinfo", "System Info", nd_SysInfo diag); ("lscpu", "CPU Info (lscpu)", nd_Lscpu diag);
   ("cpu", "CPU Affinities", nd_CPUAffinities diag); ("irq", "IRQ Affinities", nd_IRQAffinities diag);
   ("lspci", "PCI Devices (lspci)", nd_Lspci diag); ("dmesg", "Kernel Messages (dmesg)", nd_Dmesg diag);
   ("cmdline", "Kernel Boot Parameters", nd_ProcCmdline diag); ("pods", "Pods Info", nd_PodsInfo diag);
   ("podresources", "Pod Resources", nd_PodResources diag)].
Definition mustgatherNodeDiagnosticsGet (args : arguments) (provider : option Provider) : option ToolCallResult :=
  with_provider provider answer_error (fun p =>
    let node := getString args "node" "" in
    let include := getString args "include" "all" in
    let kubeletTail := getInt ovf args "kubeletTail" 100 in
    if node =?s "" then answer_error (ErrNew "node is required")
    else
      node_diagnostics args p answer_error (fun diag =>
        let kubelet :=
          if shouldInclude include "kubelet" && (nd_KubeletLog diag ≠?s "") then
            match tailed kubeletTail (nd_KubeletLog diag) with
            | Some log => Some (fmt ["## Kubelet Logs"; tail_part kubeletTail "lines"; nl; nl; log; nl; nl])
            | None => None
            end
          else Some "" in
        match kubelet with
        | None => None
        | Some kubelet =>
            answer_text (fmt ["Node Diagnostics for "; node; nl; fmt (repeat "=" 80); nl; nl; kubelet;
              fmt (map (fun '(key, title, content) =>
                     part (shouldInclude include key && (content ≠?s "")) ["## "; title; nl; nl; content; nl; nl])
                   (diagnostic_sections diag))])
        end)).
Definition kubelet_log {A} (args : arguments) (p : Provider) (failed : error -> A) (k : string -> A) : A :=
  node_diagnostics args p failed (fun diag =>
    if nd_KubeletLog diag =?s "" then
      failed (ErrNew (fmt ["kubelet log not found for node "; getString args "node" ""]))
    else k (nd_KubeletLog diag)).
Definition mustgatherNodeKubeletLogs (args : arguments) (provider : option Provider) : option ToolCallResult :=
  with_provider provider answer_error (fun p =>
    let node := getString args "node" "" in
    let tail := getInt ovf args "tail" 0 in
    if node =?s "" then answer_error (ErrNew "node is required")
    else
      kubelet_log args p answer_error (fun log =>
        match tailed tail log with
        | None => None
        | Some logs =>
            answer_text (fmt ["Kubelet logs for node "; node; tail_part tail "lines"; ":"; nl; nl; logs])
        end)).
Definition mustgatherNodeKubeletLogsGrep (args : arguments) (provider : option Provider) : option ToolCallResult :=
  with_provider provider answer_error (fun p =>
    let node := getString args "node" "" in
    let filter := getString args "filter" "" in
    let tail := getInt ovf args "tail" 0 in
    let caseInsensitive := getBool args "caseInsensitive" false in
    if node =?s "" then answer_error (ErrNew "node is required")
    else if filter =?s "" then answer_error (ErrNew "filter string is required")
    else
      kubelet_log args p answer_error (fun log =>
        let matchingLines := grep_tail tail caseInsensitive filter (Split "010" log) in
        let header :=
          fmt ["Kubelet logs for node "; node; " filtered by '"; filter; "'";
               part caseInsensitive [" (case-insensitive)"]; tail_part tail "matches";
               found_part (length matchingLines)] in
        if Nat.eqb (length matchingLines) 0 then answer_text (fmt [header; "No matching lines found."])
        else answer_text (fmt [header; Join matchingLines nl]))).

(** etcd.go *)
Definition mustgatherETCDHealth (provider : option Provider) : option ToolCallResult :=
  with_provider provider answer_error (fun p =>
    match GetETCDHealth ReadFile decode_health decode_alarms p with
    | Err err => answer_error (wrapf "failed to get ETCD health: " err)
    | Ok health =>
        answer_text (fmt ["## ETCD Cluster Health"; nl; nl;
          if eh_Healthy health then fmt ["Status: [OK] Healthy"; nl; nl] else fmt ["Status: [FAIL] Unhealthy"; nl; nl];
          "### Endpoints"; nl; nl;
          fmt (map (fun ep => fmt ["- "; healthSymbol (ee_Health ep); " "; ee_Address ep; nl]) (eh_Endpoints health));
          if Nat.ltb 0 (length (eh_Alarms health)) then
            fmt (nl :: "### Active Alarms" :: nl :: nl ::
                 map (fun alarm => fmt ["- [WARNING] "; alarm; nl]) (eh_Alarms health))
          else fmt [nl; "No active alarms."; nl]])
    end).

Definition pad_right (n : nat) (s : string) : string := fmt (s :: repeat " " (n - slen s)).
Definition sorted_counts (counts : gmap string Z) : list (string * Z) :=
  sort_slice _ (fun a b => (b.2 <? a.2)%Z) (map_to_list counts).
Definition mustgatherETCDObjectCount (args : arguments) (provider : option Provider) : option ToolCallResult :=
  with_provider provider answer_error (fun p =>
    let limit := getInt ovf args "limit" 50 in
    match GetETCDObjectCount ReadFile decode_counts p with
    | Err err => answer_error (wrapf "failed to get ETCD object counts: " err)
    | Ok counts =>
        let total := fold_left (fun total e => wrap64 (total + e.2)) (map_to_list counts) 0%Z in
        let entries := limit_to limit (sorted_counts counts) in
        let maxLen := fold_left (fun m e => Nat.max m (slen e.1)) entries 0 in
        answer_text (fmt ["## ETCD Object Counts"; nl; nl; "Total objects: "; formatNumber total; " across ";
          itoa (Z.of_nat (size counts)); " resource types"; nl; nl;
          fmt (map (fun e => fmt [pad_right maxLen e.1; "  "; formatNumber e.2; nl]) entries);
          part ((0 <? limit)%Z && (limit <? Z.of_nat (size counts))%Z)
            [nl; "... showing top "; itoa limit; " of "; itoa (Z.of_nat (size counts)); " resource types"; nl]])
    end).

(** mcp_resources.go: the content of a resource is its text. *)
Definition text_content (text : string) : option (result ResourceContent) := Some (Ok (mkResourceContent "" text "")).
Definition no_content (err : error) : option (result ResourceContent) := Some (Err err).

Definition resourceCurrentArchive (provider : option Provider) : option (result ResourceContent) :=
  with_provider provider no_content (fun p =>
    let metadata := mg_metadata p in
    text_content (fmt ["Must-Gather Archive"; nl; "Path: "; md_Path metadata; nl; "Version: "; md_Version metadata; nl;
      "Timestamp: "; md_Timestamp metadata; nl; "Resources: "; itoa (md_ResourceCount metadata); nl;
      "Namespaces: "; itoa (md_NamespaceCount metadata); nl])).
Definition resourceNamespaces (provider : option Provider) : option (result ResourceContent) :=
  with_provider provider no_content (fun p =>
    let namespaces := sort_strings (index_ListNamespaces (mg_index p)) in
    text_content (fmt ["Found "; itoa (Z.of_nat (length namespaces)); " namespaces:"; nl; nl; Join namespaces nl; nl])).
Definition etcd_file (filename what : string) (provider : option Provider) : option (result ResourceContent) :=
  with_provider provider no_content (fun p =>
    match ReadETCDFile ReadFile filename p with
    | Err err => no_content (wrapf what err)
    | Ok data => text_content data
    end).
Definition resourceETCDMembers : option Provider -> option (result ResourceContent) :=
  etcd_file "member_list.json" "failed to read ETCD member list: ".
Definition resourceETCDEndpointStatus : option Provider -> option (result ResourceContent) :=
  etcd_file "endpoint_status.json" "failed to read ETCD endpoint status: ".

Context (decode_config : string -> result string) (decode_flags : string -> result (gmap string string)).
Definition keyFlags : list string :=
  ["storage.tsdb.retention.time"; "storage.tsdb.retention.size"; "storage.tsdb.path"; "web.listen-address";
   "web.external-url"; "rules.alert.for-outage-tolerance"; "rules.alert.for-grace-period"].
Definition resourcePrometheusConfig (provider : option Provider) : option (result ResourceContent) :=
  with_provider provider no_content (fun p =>
    let config :=
      match GetPrometheusConfig ReadFile decode_config p with
      | Err err => fmt ["Config not available: "; error_string err; nl; nl]
      | Ok configYAML =>
          let lines := Split "010" configYAML in
          if Nat.ltb 100 (length lines) then
            fmt ["Configuration ("; itoa (Z.of_nat (length lines)); " lines, showing first 100):"; nl; nl;
                 Join (take 100 lines) nl; nl; "..."; nl; nl]
          else fmt ["Configuration:"; nl; nl; configYAML; nl; nl]
      end in
    let flags :=
      match GetPrometheusFlags ReadFile decode_flags p with
      | Err err => fmt ["Flags not available: "; error_string err; nl; nl]
      | Ok flags =>
          fmt ["### Key Flags"; nl; nl;
               fmt (map (fun key =>
                      match flags !! key with Some val => fmt [pad_right 40 key; " "; val; nl] | None => "" end)
                    keyFlags); nl]
      end in
    text_content (fmt ["## Prometheus Configuration Summary"; nl; nl; config; flags])).

Record AlertManagerStatus := mkAlertManagerStatus {
  am_Status : string; am_Peers : list (string * string); am_Uptime : string;
  am_Version : string; am_Revision : string; am_Branch : string; am_BuildDate : string; am_GoVersion : string }.
Context (decode_alertmanager : string -> result AlertManagerStatus).
Definition resourceAlertManagerStatus (provider : option Provider) : option (result ResourceContent) :=
  with_provider provider no_content (fun p =>
    match GetAlertManagerStatus ReadFile decode_alertmanager p with
    | Err err => no_content (wrapf "failed to get AlertManager status: " err)
    | Ok status =>
        text_content (fmt ["## AlertManager Status"; nl; nl; "Cluster Status: "; healthSymbol (am_Status status); nl;
          "Uptime: "; am_Uptime status; nl; nl; "### Version"; nl; nl;
          "Version:    "; am_Version status; nl; "Revision:   "; am_Revision status; nl;
          "Branch:     "; am_Branch status; nl; "Build Date: "; am_BuildDate status; nl;
          "Go Version: "; am_GoVersion status; nl; nl;
          part (Nat.ltb 0 (length (am_Peers status)))
            ["### Cluster Peers"; nl; nl;
             fmt (map (fun peer => fmt ["- "; peer.1; " ("; peer.2; ")"; nl]) (am_Peers status)); nl]])
    end).

Definition resource_prefix : string := "must-gather://current/resources/".
Definition dash (s : string) : string := if s =?s "-" then "" else s.
Definition resourceGet (uri : string) (provider : option Provider) : option (result ResourceContent) :=
  with_provider provider no_content (fun p =>
    if negb (HasPrefix uri resource_prefix) then no_content (ErrNew (fmt ["invalid resource URI: "; uri]))
    else
      match Split "/" (TrimPrefix uri resource_prefix) with
      | group :: version :: kind :: namespace :: n :: names =>
          let name := Join (n :: names) "/" in
          match index_Get (parseGVK (apiVersionFromGroupVersion (dash group) version) kind) name (dash namespace)
                  (mg_index p) with
          | None => None
          | Some None => no_content (ErrNew (fmt ["resource "; kind; "/"; name; " not found"]))
          | Some (Some obj) =>
              match yaml_Marshal obj with
              | Err err => no_content (wrapf "failed to marshal resource: " err)
              | Ok text => text_content text
              end
          end
      | _ =>
          no_content (ErrNew (fmt ["resource URI must have format: must-gather://current/resources/";
            "{group}/{version}/{kind}/{namespace}/{name}"]))
      end).
End Handlers.

(** * Specification *)

(** The last [tail] elements of a list; all of them for a [tail] that is not positive. *)
Definition last_of {A} (tail : Z) (l : list A) : list A :=
  if (0 <? tail)%Z then drop (length l - Z.to_nat tail) l else l.

(** * Lemmas *)

Lemma not_ltb a b : (b <? a)%string = false <-> String.le a b.
Proof.
  unfold String.le, String.ltb, String.leb. rewrite (String.compare_antisym b a).
  by destruct (String.compare a b).
Qed.

Lemma orders_newest : orders newest_first.
Proof.
  split.
  - intros a b c. unfold newest_first. rewrite !not_ltb. intros H1 H2. by transitivity (event_time b).
  - intros a b H. unfold newest_first in *. apply not_ltb. destruct (total String.le (event_time b) (event_time a)) as [|Hle]; [done|].
    apply not_ltb in Hle. by rewrite Hle in H.
Qed.

(** ** The ring of matching lines *)

(** A ring that holds the last [tail] of the lines [l] that were put into it. *)
Definition ring_holds (tail : Z) (l : list string) (r : ring) : Prop :=
  rg_total r = length l /\
  if (0 <? tail)%Z then
    let n := Z.to_nat tail in
    if length l <? n then rg_lines r = l /\ rg_idx r = 0
    else length (rg_lines r) = n /\ rg_idx r = length l mod n /\
         forall i, i < n -> rg_lines r !! ((rg_idx r + i) mod n) = l !! (length l - n + i)
  else rg_lines r = l.

Lemma mod_shift a b n : n <> 0 -> (a mod n + b) mod n = (a + b) mod n.
Proof. intros Hn. rewrite Nat.Div0.add_mod_idemp_l. done. Qed.

Lemma ring_step_holds tail l r line : ring_holds tail l r -> ring_holds tail (l ++ [line]) (ring_step tail r line).
Proof.
  intros [Ht H]. unfold ring_holds, ring_step in *. destruct (0 <? tail)%Z eqn:Hpos.
  2:{ cbn. rewrite length_app. cbn. split; [lia|]. by rewrite H. }
  apply Z.ltb_lt in Hpos. cbv zeta in *. set (n := Z.to_nat tail) in *.
  replace (Z.of_nat (length (rg_lines r)) <? tail)%Z with (length (rg_lines r) <? n) by
    (destruct (Nat.ltb_spec (length (rg_lines r)) n), (Z.ltb_spec (Z.of_nat (length (rg_lines r))) tail); lia).
  rewrite length_app. cbn [length]. destruct (Nat.ltb_spec (length l) n) as [Hl|Hl].
  - destruct H as [-> Hidx]. replace (length l <? n) with true by (symmetry; by apply Nat.ltb_lt). cbn [rg_total rg_lines rg_idx].
    split; [lia|]. destruct (Nat.ltb_spec (length l + 1) n) as [Hl'|Hl']; [by rewrite Hidx|].
    assert (length l + 1 = n) as Hn by lia. rewrite length_app, Hidx, <- Hn. cbn.
    split; [done|]. rewrite Nat.Div0.mod_same. split; [done|]. intros i Hi. rewrite Nat.mod_small by lia. f_equal. lia.
  - destruct H as (Hlen & Hidx & H). rewrite Hlen, Nat.ltb_irrefl. cbn [rg_total rg_lines rg_idx].
    split; [lia|]. replace (length l + 1 <? n) with false by (symmetry; apply Nat.ltb_ge; lia).
    assert (n <> 0) as Hn by lia. rewrite length_insert, Hidx, mod_shift by done. split; [done|]. split; [done|].
    intros i Hi. rewrite mod_shift by done.
    destruct (decide (i = n - 1)) as [->|Hne].
    + replace (length l + 1 + (n - 1)) with (length l + 1 * n) by lia. rewrite Nat.Div0.mod_add.
      rewrite list_lookup_insert_eq by (rewrite Hlen; by apply Nat.mod_upper_bound).
      replace (length l + 1 - n + (n - 1)) with (length l) by lia. by rewrite list_lookup_middle.
    + assert (length l mod n <> (length l + 1 + i) mod n) as Hdiff.
      { intros Heq. pose proof (Nat.div_mod_eq (length l) n). pose proof (Nat.div_mod_eq (length l + 1 + i) n).
        destruct (Nat.le_gt_cases ((length l + 1 + i) / n) (length l / n)) as [Hq|Hq]; nia. }
      rewrite list_lookup_insert_ne by done. rewrite lookup_app_l by lia.
      replace (length l + 1 - n + i) with (length l - n + (i + 1)) by lia.
      rewrite <- H by lia. rewrite Hidx, mod_shift by done. f_equal. f_equal. lia.
Qed.

Lemma grep_lines_holds tail ci filter lines :
  ring_holds tail (List.filter (line_matches ci filter) lines) (grep_lines tail ci filter lines).
Proof.
  unfold grep_lines. assert (ring_holds tail [] (mkRing [] 0 0)) as H0.
  { split; [done|]. destruct (0 <? tail)%Z eqn:Hp; [|done]. apply Z.ltb_lt in Hp.
    cbn [length]. destruct (Nat.ltb_spec 0 (Z.to_nat tail)); [done|lia]. }
  assert (forall r l, ring_holds tail l r ->
    ring_holds tail (l ++ List.filter (line_matches ci filter) lines)
      (fold_left (fun r line => if line_matches ci filter line then ring_step tail r line else r) lines r)) as H.
  { clear H0. induction lines as [|line lines IH]; intros r l H; cbn; [by rewrite app_nil_r|].
    destruct (line_matches ci filter line); [|by apply IH].
    rewrite cons_middle, app_assoc. by apply IH, ring_step_holds. }
  exact (H _ _ H0).
Qed.

Lemma ring_holds_ordered tail l r : ring_holds tail l r -> ring_ordered tail r = last_of tail l.
Proof.
  intros [_ H]. unfold ring_ordered, last_of. destruct (0 <? tail)%Z eqn:Hpos; cbn [andb]; [|by subst].
  apply Z.ltb_lt in Hpos. cbv zeta in H. set (n := Z.to_nat tail) in *.
  destruct (Nat.ltb_spec (length l) n) as [Hl|Hl].
  - destruct H as [-> _]. replace (_ =? tail)%Z with false by (symmetry; apply Z.eqb_neq; lia).
    replace (length l - n) with 0 by lia. done.
  - destruct H as (Hlen & _ & H). replace (_ =? tail)%Z with true by (symmetry; apply Z.eqb_eq; lia).
    apply list_eq. intros i. rewrite lookup_drop.
    destruct (decide (i < n)) as [Hi|Hi].
    + rewrite list_lookup_fmap, lookup_seq_lt by done. cbn. rewrite H by done.
      destruct (l !! (length l - n + i)) eqn:E; [done|]. apply lookup_ge_None in E. lia.
    + rewrite lookup_ge_None_2 by (rewrite length_fmap, length_seq; lia).
      symmetry. apply lookup_ge_None_2. lia.
Qed.

Lemma grep_tail_last tail ci filter lines :
  grep_tail tail ci filter lines = last_of tail (List.filter (line_matches ci filter) lines).
Proof.
  unfold grep_tail, last_of. destruct (0 <? tail)%Z eqn:Hp; [|done]. cbn [andb].
  destruct (tail <? _)%Z eqn:Hl; [done|]. apply Z.ltb_ge in Hl. replace (_ - _) with 0 by lia. done.
Qed.

(** ** Lines by time *)

Section Times_lemmas.
Context {time : Type} (time_Parse : string -> string -> result time) (before : time -> time -> bool).
Context (limit : Z) (since : time) (until : option time).

Abbreviation selected := (line_in_range time_Parse before since until).
Abbreviation scan := (lines_by_time time_Parse before limit since until).

Lemma lines_by_time_full lines err kept :
  (0 < limit <= Z.of_nat (length kept) + Z.of_nat (length (List.filter selected lines)))%Z ->
  (Z.of_nat (length kept) < limit)%Z ->
  scan lines err kept = (take (Z.to_nat limit) (kept ++ List.filter selected lines), None).
Proof.
  revert kept. induction lines as [|line lines IH]; intros kept [Hpos Hle] Hlt; cbn in *; [lia|].
  destruct (line_in_range _ _ _ _ line); [|by apply IH]. cbn in Hle.
  replace (0 <? limit)%Z with true by (symmetry; apply Z.ltb_lt; lia). cbn [andb].
  rewrite length_app. cbn [length]. destruct (limit <=? _)%Z eqn:Hl.
  - apply Z.leb_le in Hl. f_equal. rewrite (cons_middle line kept (List.filter _ lines)), app_assoc.
    replace (Z.to_nat limit) with (length (kept ++ [line])) by (rewrite length_app; cbn; lia).
    by rewrite take_app_length.
  - apply Z.leb_gt in Hl. rewrite IH by (rewrite ?length_app; cbn; lia). by rewrite <- app_assoc.
Qed.

Lemma lines_by_time_all lines err kept :
  (limit <= 0 \/ Z.of_nat (length kept) + Z.of_nat (length (List.filter selected lines)) < limit)%Z ->
  scan lines err kept = (kept ++ List.filter selected lines, err).
Proof.
  revert kept. induction lines as [|line lines IH]; intros kept H; cbn in *; [by rewrite app_nil_r|].
  destruct (line_in_range _ _ _ _ line); [|by apply IH]. cbn in H.
  replace ((0 <? limit) && (limit <=? _))%Z with false.
  - rewrite IH by (rewrite ?length_app; cbn; lia). by rewrite <- app_assoc.
  - symmetry. apply andb_false_iff. rewrite length_app. cbn [length].
    destruct H; [left; apply Z.ltb_ge; lia|right; apply Z.leb_gt; lia].
Qed.
End Times_lemmas.


(** ** Byte counts *)

(** From [n < 1024^(k+1)] the loop leaves [k] more steps at most. *)
Lemma byte_unit_spec k : forall fuel n exp,
  (0 <= n < 2 ^ (10 * (Z.of_nat k + 1)))%Z -> k < fuel -> exp + k <= 5 ->
  exists e, e <= k /\
    byte_unit fuel n (2 ^ (10 * (Z.of_nat exp + 1))) exp = ((2 ^ (10 * (Z.of_nat (exp + e) + 1)))%Z, exp + e) /\
    (n < 2 ^ (10 * (Z.of_nat e + 1)))%Z /\ (e = 0 \/ (2 ^ (10 * Z.of_nat e) <= n)%Z).
Proof.
  induction k as [|k IH]; intros [|fuel] n exp Hn Hf He; try lia; cbn [byte_unit].
  - replace (1024 <=? n)%Z with false by (symmetry; apply Z.leb_gt; cbn in Hn; lia).
    exists 0. rewrite Nat.add_0_r. split; [lia|]. split; [done|]. split; [exact (proj2 Hn)|by left].
  - destruct (1024 <=? n)%Z eqn:Hle; [apply Z.leb_le in Hle|apply Z.leb_gt in Hle].
    + assert (wrap64 (2 ^ (10 * (Z.of_nat exp + 1)) * 1024) = 2 ^ (10 * (Z.of_nat (S exp) + 1)))%Z as ->.
      { assert (exp <= 4) as Hexp by lia. do 5 (destruct exp as [|exp]; [reflexivity|]). lia. }
      destruct (IH fuel (n / 1024)%Z (S exp)) as (e & Hek & -> & Hlt & Hge); [|lia..|].
      { split; [apply Z.div_pos; lia|]. apply Z.div_lt_upper_bound; [lia|].
        replace (10 * (Z.of_nat (S k) + 1))%Z with (10 + 10 * (Z.of_nat k + 1))%Z in Hn by lia.
        rewrite Z.pow_add_r in Hn by lia. change (2 ^ 10)%Z with 1024%Z in Hn. lia. }
      exists (S e). replace (exp + S e) with (S exp + e) by lia. split; [lia|]. split; [done|].
      replace (10 * (Z.of_nat (S e) + 1))%Z with (10 + 10 * (Z.of_nat e + 1))%Z by lia.
      replace (10 * Z.of_nat (S e))%Z with (10 + 10 * Z.of_nat e)%Z by lia.
      rewrite !Z.pow_add_r by lia. change (2 ^ 10)%Z with 1024%Z.
      pose proof (Z.div_mod n 1024). pose proof (Z.mod_pos_bound n 1024). split; [lia|right].
      destruct Hge as [->|Hge]; [cbn|]; lia.
    + exists 0. rewrite Nat.add_0_r. split; [lia|]. split; [done|]. split; [exact Hle|by left].
Qed.

(** ** Resource URIs *)

Lemma parseGVK_roundtrip group version kind :
  no_char "/" group -> no_char "/" version ->
  parseGVK (apiVersionFromGroupVersion group version) kind = mkGVK group version kind.
Proof.
  intros Hg Hv. unfold parseGVK, apiVersionFromGroupVersion. destruct (bool_decide_reflect (group = "")) as [->|].
  - unfold Cut. by rewrite Split_no_char.
  - change ("/" +:+ version) with (String "/" version). by rewrite no_char_Cut.
Qed.

(** ** No handler panics over an archive that does not *)

Definition quiet_archive labels_Parse fields_ParseSelector range_map (p : Provider) : Prop :=
  (forall gvk name ns, index_Get gvk name ns (mg_index p) <> None) /\
  (forall gvk ns opts, index_List labels_Parse fields_ParseSelector range_map gvk ns opts (mg_index p) <> None).

Lemma tailed_Some tail log : tailed tail log <> None.
Proof.
  unfold tailed, TailLines. destruct (0 <? tail)%Z eqn:Ht; [|done]. apply Z.ltb_lt in Ht.
  destruct (_ <=? tail)%Z; [done|]. by replace (tail <? 0)%Z with false by (symmetry; apply Z.ltb_ge; lia).
Qed.

(** * Properties *)

(** The ring in which matching pod log lines are kept, and the cut of the matching
    kubelet lines, both are the reference: filter all lines and keep the last
    [tail]. *)
Theorem grep_keeps_last tail ci filter lines :
  let matching := List.filter (line_matches ci filter) lines in
  ring_ordered tail (grep_lines tail ci filter lines) = last_of tail matching /\
  rg_total (grep_lines tail ci filter lines) = length matching /\
  grep_tail tail ci filter lines = last_of tail matching.
Proof.
  pose proof (grep_lines_holds tail ci filter lines) as H. split; [by apply ring_holds_ordered|].
  split; [apply H|apply grep_tail_last].
Qed.

(** The log lines of a time range are all lines within it, cut to the limit: with as
    many lines as the limit an error of reading behind them is not seen, with fewer it
    is reported. *)
Theorem lines_by_time_spec {time} time_Parse before limit since (until : option time) lines err :
  let inside := List.filter (line_in_range time_Parse before since until) lines in
  lines_by_time time_Parse before limit since until lines err [] =
    if (0 <? limit)%Z && (limit <=? Z.of_nat (length inside))%Z
    then (take (Z.to_nat limit) inside, None) else (inside, err).
Proof.
  cbv zeta. destruct (_ && _) eqn:H.
  - apply andb_true_iff in H as [Hp%Z.ltb_lt Hl%Z.leb_le]. rewrite (lines_by_time_full _ _ _ _ _ lines err []) by (cbn; lia). done.
  - apply andb_false_iff in H. rewrite (lines_by_time_all _ _ _ _ _ lines err []); [done|]. cbn.
    destruct H as [Hp%Z.ltb_ge|Hl%Z.leb_gt]; lia.
Qed.

(** A 64-bit byte count of at least 1024 is given in one of the six units, the one in
    which it is at least one and less than 1024; the index is never out of range. *)
Theorem formatBytes_unit quotient bytes :
  (1024 <= bytes < 2 ^ 63)%Z ->
  exists e c, String.get e "KMGTPE" = Some c /\
    let unit := (2 ^ (10 * (Z.of_nat e + 1)))%Z in
    (unit <= bytes < 1024 * unit)%Z /\
    formatBytes quotient bytes = Some (fmt [quotient bytes unit; " "; String c "B"]).
Proof.
  intros Hb. unfold formatBytes. replace (bytes <? 1024)%Z with false by (symmetry; apply Z.ltb_ge; lia).
  destruct (byte_unit_spec 5 64 (bytes / 1024) 0) as (e & He & Heq & Hlt & Hge); [|lia..|].
  { split; [apply Z.div_pos; lia|]. apply Z.div_lt_upper_bound; [lia|]. cbn. lia. }
  change (2 ^ (10 * (Z.of_nat 0 + 1)))%Z with 1024%Z in Heq. rewrite Heq. cbn [plus].
  pose proof (Z.div_mod bytes 1024). pose proof (Z.mod_pos_bound bytes 1024).
  assert (2 ^ (10 * (Z.of_nat e + 1)) = 1024 * 2 ^ (10 * Z.of_nat e))%Z as Hu.
  { replace (10 * (Z.of_nat e + 1))%Z with (10 + 10 * Z.of_nat e)%Z by lia. by rewrite Z.pow_add_r by lia. }
  assert (exists c, String.get e "KMGTPE" = Some c) as [c Hc].
  { do 6 (destruct e as [|e]; [by eexists|]). lia. }
  exists e, c. rewrite Hc. split; [done|]. split; [|done]. rewrite Hu in *.
  destruct Hge as [->|Hge]; [cbn in *|]; lia.
Qed.

(** The URI of an object made by the template of the resource, with dashes for an empty
    group and namespace, reads exactly this object. *)
Theorem resource_uri_roundtrip yaml_Marshal group version kind namespace name p :
  Forall (no_char "/") [group; version; kind; namespace] -> group <> "-" -> namespace <> "-" ->
  let dashed s := if s =?s "" then "-" else s in
  resourceGet yaml_Marshal
    (fmt [resource_prefix; dashed group; "/"; version; "/"; kind; "/"; dashed namespace; "/"; name]) (Some p) =
  match index_Get (mkGVK group version kind) name namespace (mg_index p) with
  | None => None
  | Some None => Some (Err (ErrNew (fmt ["resource "; kind; "/"; name; " not found"])))
  | Some (Some obj) =>
      match yaml_Marshal obj with
      | Err err => Some (Err (wrapf "failed to marshal resource: " err))
      | Ok text => Some (Ok (mkResourceContent "" text ""))
      end
  end.
Proof.
  intros Hno Hg Hn. cbv zeta. set (dashed := fun s => if s =?s "" then "-" else s).
  assert (forall s, s <> "-" -> dash (dashed s) = s) as Hdash.
  { intros s Hs. unfold dash, dashed. destruct (bool_decide_reflect (s = "")) as [->|]; [done|].
    by rewrite bool_decide_false. }
  assert (forall s, no_char "/" s -> no_char "/" (dashed s)) as Hd.
  { intros s Hs. unfold dashed. by case_match; [vm_compute|]. }
  inversion_clear Hno as [|?? H1 Hno']. inversion_clear Hno' as [|?? H2 Hno]. inversion_clear Hno as [|?? H3 Hno'].
  inversion_clear Hno' as [|?? H4 _].
  unfold resourceGet. cbn [with_provider].
  rewrite !fmt_cons, append_nil_r, HasPrefix_append, TrimPrefix_append. cbn [negb].
  repeat change ("/" +:+ ?s) with (String "/" s).
  rewrite !Split_app_sep, !Split_no_char by auto. cbn [app].
  destruct (Split "/" name) as [|x l] eqn:E; [by apply Split_not_nil in E|]. cbn [app].
  rewrite <- E, (Join_Split "/" name), !Hdash, parseGVK_roundtrip by done. done.
Qed.

(** The list of events shows, newest first, only events that pass the filters, as many
    as the limit allows, and none of those left out is newer than one that is shown. *)
Theorem listed_events_newest ovf sort_slice args events :
  sorts sort_slice ->
  let selected := filter (fun e => event_selected (getString args "type" "all") (getString args "resource" "")
                                     (getString args "reason" "") e = true) events in
  let limit := getInt ovf args "limit" 100 in
  let shown := listed_events ovf sort_slice args events in
  StronglySorted (fun a b => String.le (event_time b) (event_time a)) shown /\
  exists left_out, shown ++ left_out ≡ₚ selected /\
    (forall e o, e ∈ shown -> o ∈ left_out -> String.le (event_time o) (event_time e)) /\
    if (0 <? limit)%Z then length shown = Nat.min (Z.to_nat limit) (length selected) else left_out = [].
Proof.
  intros Hsort selected limit shown. destruct (Hsort _ newest_first selected orders_newest) as [Hp Hs].
  unfold shown, listed_events. fold selected limit. set (l := sort_slice _ newest_first selected) in *.
  assert (StronglySorted (fun a b => String.le (event_time b) (event_time a)) l) as Hl.
  { clear -Hs. induction Hs as [|a k _ IH Ha]; constructor; [done|]. apply (Forall_impl _ _ _ Ha).
    intros b. apply not_ltb. }
  unfold limit_to. destruct (0 <? limit)%Z eqn:Hpos; cbn [andb].
  2:{ split; [done|]. exists []. rewrite app_nil_r. split; [done|]. split; [|done]. by intros e o _ Ho%elem_of_nil. }
  apply Z.ltb_lt in Hpos. rewrite <- (Permutation_length Hp).
  destruct (limit <? Z.of_nat (length l))%Z eqn:Hlt.
  - apply Z.ltb_lt in Hlt. rewrite <- (take_drop (Z.to_nat limit) l) in Hl.
    apply StronglySorted_app in Hl as (Hcross & Ht & _). split; [done|]. exists (drop (Z.to_nat limit) l).
    rewrite take_drop, length_take. split; [done|]. split; [|lia]. intros e o He Ho. by apply Hcross.
  - apply Z.ltb_ge in Hlt. split; [done|]. exists []. rewrite app_nil_r. split; [done|].
    split; [by intros e o _ Ho%elem_of_nil|lia].
Qed.

(** * Witnesses *)

Module EventsWitness.
Definition event (name time : string) : object :=
  [("lastTimestamp", YString time); ("type", YString "Warning");
   ("involvedObject", YMap [("name", YString name)])].
Definition events : list object :=
  [event "pod-a" "2026-01-01T00:00:00Z"; event "pod-b" "2026-01-03T00:00:00Z"; event "node" "2026-01-09T00:00:00Z";
   event "pod-c" "2026-01-02T00:00:00Z"].
Definition args : arguments := <["resource" := JString "Pod"]> {[ "limit" := JInt 2 ]}.
End EventsWitness.

Lemma listed_events_newest_witness :
  listed_events (fun _ => 0%Z) merge_slice EventsWitness.args EventsWitness.events
    = [EventsWitness.event "pod-b" "2026-01-03T00:00:00Z"; EventsWitness.event "pod-c" "2026-01-02T00:00:00Z"] /\
  StronglySorted (fun a b => String.le (event_time b) (event_time a))
    (listed_events (fun _ => 0%Z) merge_slice EventsWitness.args EventsWitness.events).
Proof.
  split; [vm_compute; reflexivity|].
  exact (proj1 (listed_events_newest (fun _ => 0%Z) merge_slice EventsWitness.args EventsWitness.events
    merge_slice_sorts)).
Defined.

Lemma formatBytes_unit_witness :
  formatBytes (fun a b => itoa (a / b)) 9223372036854775807 = Some "7 EB" /\
  exists e c, String.get e "KMGTPE" = Some c /\
    let unit := (2 ^ (10 * (Z.of_nat e + 1)))%Z in
    (unit <= 9223372036854775807 < 1024 * unit)%Z /\
    formatBytes (fun a b => itoa (a / b)) 9223372036854775807
      = Some (fmt [itoa (9223372036854775807 / unit); " "; String c "B"]).
Proof.
  split; [vm_compute; reflexivity|].
  exact (formatBytes_unit (fun a b => itoa (a / b)) 9223372036854775807 ltac:(lia)).
Defined.

Lemma resource_uri_roundtrip_witness :
  resourceGet (fun o => Ok (GetName o)) "must-gather://current/resources/-/v1/Node/-/n1"
    (Some (mkMGProvider (mkMetadata "" "" "" "" 0 0) NewResourceIndex))
  = Some (Err (ErrNew "resource Node/n1 not found")).
Proof.
  exact (resource_uri_roundtrip (fun o => Ok (GetName o)) "" "v1" "Node" "" "n1"
    (mkMGProvider (mkMetadata "" "" "" "" 0 0) NewResourceIndex)
    (bool_decide_unpack (Forall (no_char "/") [""; "v1"; "Node"; ""]) I) ltac:(discriminate) ltac:(discriminate)).
Defined.

(** The comma goes in behind the sign of a number of three digits. *)
Lemma formatNumber_sign : formatNumber (-123) = "-,123".
Proof. vm_compute. reflexivity. Qed.
