(* ===== verification/MustGatherMonitoring.v ===== *)
(** The monitoring tools and the toolset of must-gather (pkg/toolsets/mustgather:
    monitoring.go, toolset.go): the Prometheus documents of an archive, the tools with
    their annotations, and sessions: sequences of tool calls and reads of resources
    over the archive loaded last.  The decoders of JSON and the printing of floats are
    parameters. *)
From Stdlib Require Import Floats.SpecFloat.
From S2P Require Import Prelude GoStrings Paths Api Params Toolsets Tools Unstructured Cluster SdkTypes MustGather MustGatherTools.

(** * Definitions *)

(** ** helpers.go: durations and cut texts *)

Definition f64_mul (a b : spec_float) : spec_float := SFmul 53 1024 a b.
Definition f64_div (a b : spec_float) : spec_float := SFdiv 53 1024 a b.
(** The literals, as floats of 64 bits. *)
Definition f64_milli : spec_float := S754_finite false 4611686018427388 (-62).
Definition f64_of (z : Z) : spec_float := binary_normalize 53 1024 z 0 false.

(** [Sprintf] is the printing of a float with a number of decimals. *)
Definition formatDuration (Sprintf : nat -> spec_float -> string) (seconds : spec_float) : string :=
  if SFltb seconds f64_milli then fmt [Sprintf 2 (f64_mul seconds (f64_of 1000000)); "us"]
  else if SFltb seconds (f64_of 1) then fmt [Sprintf 2 (f64_mul seconds (f64_of 1000)); "ms"]
  else if SFltb seconds (f64_of 60) then fmt [Sprintf 2 seconds; "s"]
  else if SFltb seconds (f64_of 3600) then fmt [Sprintf 1 (f64_div seconds (f64_of 60)); "m"]
  else if SFltb seconds (f64_of 86400) then fmt [Sprintf 1 (f64_div seconds (f64_of 3600)); "h"]
  else fmt [Sprintf 1 (f64_div seconds (f64_of 86400)); "d"].

(** A negative length is a slice out of range ([None]). *)
Definition truncate (s : string) (maxLen : Z) : option string :=
  if (Z.of_nat (slen s) <=? maxLen)%Z then Some s
  else if (maxLen <=? 3)%Z then if (maxLen <? 0)%Z then None else Some (take_str (Z.to_nat maxLen) s)
  else Some (take_str (Z.to_nat (maxLen - 3)) s +:+ "...").

Definition severitySymbol (severity : string) : string :=
  let s := ToLower severity in
  if s =?s "critical" then "[CRITICAL]" else if s =?s "warning" then "[WARNING]"
  else if s =?s "info" then "[INFO]" else "[UNKNOWN]".

(** ** types.go: the fields the tools read *)

Record NameValue := mkNameValue { nv_Name : string; nv_Value : Z }.
Record HeadStats := mkHeadStats { hs_NumSeries : Z; hs_NumLabelPairs : Z; hs_ChunkCount : Z }.
Record TSDBStatus := mkTSDBStatus {
  ts_SeriesCountByMetricName : list NameValue;
  ts_LabelValueCountByLabelName : list NameValue;
  ts_MemoryInBytesByLabelName : list NameValue;
  ts_HeadStats : HeadStats;
}.
Record RuntimeInfo := mkRuntimeInfo {
  ri_StartTime : string; ri_ReloadConfigSuccess : bool; ri_LastConfigTime : string; ri_CorruptionCount : Z;
  ri_GoroutineCount : Z; ri_GOMAXPROCS : Z; ri_StorageRetention : string;
}.
Record ActiveTarget := mkActiveTarget {
  at_ScrapePool : string; at_ScrapeURL : string; at_LastError : string; at_LastScrape : string;
  at_LastScrapeDuration : spec_float; at_Health : string;
}.
Record Alert := mkAlert {
  al_Labels : gmap string string; al_Annotations : gmap string string; al_State : string; al_ActiveAt : string;
}.
Record Rule := mkRule {
  ru_State : string; ru_Name : string; ru_Alerts : list Alert; ru_Health : string; ru_Type : string;
  ru_LastError : string;
}.
Record RuleGroup := mkRuleGroup {
  rg_Name : string; rg_File : string; rg_Rules : list Rule; rg_Interval : spec_float;
  rg_EvaluationTime : spec_float; rg_LastEvaluation : string;
}.

(** ** The tools *)

Definition mustgather_use_tool : Tool :=
  mkTool "mustgather_use"
    "Load a must-gather archive from a given filesystem path for analysis. Must be called before any other mustgather_* tools."
    (mkToolAnnotations "Load Must-Gather Archive" (Some true) None None None) []
    (Some (mkSchema "object" "" (Some [
       ("path", mkSchema "string" "Absolute path to the must-gather archive directory" None)]))) None.

Definition mustgather_resources_list_tool : Tool :=
  mkTool "mustgather_resources_list"
    "List Kubernetes resources from the must-gather archive with optional filtering by namespace, labels, and fields"
    (mkToolAnnotations "List Resources" (Some true) None None None) []
    (Some (mkSchema "object" "" (Some [
       ("kind", mkSchema "string" "Resource kind (e.g., Pod, Deployment, Service)" None);
       ("namespace", mkSchema "string" "Filter by namespace" None);
       ("apiVersion", mkSchema "string" "API version (default: v1)" None);
       ("labelSelector", mkSchema "string" "Label selector (e.g., app=nginx,tier=frontend)" None);
       ("fieldSelector", mkSchema "string" "Field selector (e.g., metadata.name=foo)" None);
       ("limit", mkSchema "integer" "Maximum number of resources to return (0 for all)" None)]))) None.

Definition mustgather_events_list_tool : Tool :=
  mkTool "mustgather_events_list"
    "List Kubernetes events from the must-gather archive with optional filtering by type, namespace, resource, and reason"
    (mkToolAnnotations "List Events" (Some true) None None None) []
    (Some (mkSchema "object" "" (Some [
       ("type", mkSchema "string" "Event type filter: all, Warning, Normal" None);
       ("namespace", mkSchema "string" "Filter by namespace" None);
       ("resource", mkSchema "string" "Filter by involved resource name (partial match)" None);
       ("reason", mkSchema "string" "Filter by event reason (partial match)" None);
       ("limit", mkSchema "integer" "Maximum number of events to return (default: 100)" None)]))) None.

Definition mustgather_events_by_resource_tool : Tool :=
  mkTool "mustgather_events_by_resource"
    "Get all events related to a specific Kubernetes resource from the must-gather archive"
    (mkToolAnnotations "Events by Resource" (Some true) None None None) []
    (Some (mkSchema "object" "" (Some [
       ("name", mkSchema "string" "Resource name" None);
       ("namespace", mkSchema "string" "Resource namespace" None);
       ("kind", mkSchema "string" "Resource kind (optional, narrows search)" None)]))) None.

Definition mustgather_events_by_time_tool : Tool :=
  mkTool "mustgather_events_by_time"
    "List Kubernetes events from the must-gather archive within a specific time range, sorted chronologically"
    (mkToolAnnotations "Events by Time" (Some true) None None None) []
    (Some (mkSchema "object" "" (Some [
       ("since", mkSchema "string" "Start time in RFC3339 format (e.g. 2026-01-15T10:00:00Z)" None);
       ("until", mkSchema "string" "End time in RFC3339 format (e.g. 2026-01-15T12:00:00Z)" None);
       ("namespace", mkSchema "string" "Filter by namespace" None);
       ("type", mkSchema "string" "Event type filter: all, Warning, Normal" None);
       ("limit", mkSchema "integer" "Maximum number of events to return (default: 200)" None)]))) None.

Definition mustgather_pod_logs_get_tool : Tool :=
  mkTool "mustgather_pod_logs_get"
    "Get container logs for a specific pod from the must-gather archive. Returns current or previous logs."
    (mkToolAnnotations "Get Pod Logs" (Some true) None None None) []
    (Some (mkSchema "object" "" (Some [
       ("namespace", mkSchema "string" "Pod namespace" None);
       ("pod", mkSchema "string" "Pod name" None);
       ("container", mkSchema "string" "Container name (uses first container if not specified)" None);
       ("previous", mkSchema "boolean" "Get previous container logs (from crash/restart)" None);
       ("tail", mkSchema "integer" "Number of lines from end of logs (0 for all)" None)]))) None.

Definition mustgather_pod_logs_grep_tool : Tool :=
  mkTool "mustgather_pod_logs_grep"
    "Filter pod container logs by a search string. Returns only matching lines from the must-gather archive."
    (mkToolAnnotations "Pod Logs Grep" (Some true) None None None) []
    (Some (mkSchema "object" "" (Some [
       ("namespace", mkSchema "string" "Pod namespace" None);
       ("pod", mkSchema "string" "Pod name" None);
       ("container", mkSchema "string" "Container name (uses first container if not specified)" None);
       ("filter", mkSchema "string" "String to search for in log lines" None);
       ("previous", mkSchema "boolean" "Search previous container logs (from crash/restart)" None);
       ("tail", mkSchema "integer" "Maximum number of matching lines to return (0 for all)" None);
       ("caseInsensitive", mkSchema "boolean" "Perform case-insensitive search (default: false)" None)]))) None.

Definition mustgather_pod_logs_by_time_tool : Tool :=
  mkTool "mustgather_pod_logs_by_time"
    "Get pod container logs within a specific time range. Each log line is expected to have an RFC3339Nano timestamp prefix (from kubectl logs --timestamps)."
    (mkToolAnnotations "Pod Logs by Time" (Some true) None None None) []
    (Some (mkSchema "object" "" (Some [
       ("namespace", mkSchema "string" "Pod namespace" None);
       ("pod", mkSchema "string" "Pod name" None);
       ("container", mkSchema "string" "Container name (uses first container if not specified)" None);
       ("since", mkSchema "string" "Start time in RFC3339 format (e.g. 2026-01-15T10:00:00Z)" None);
       ("until", mkSchema "string" "End time in RFC3339 format (e.g. 2026-01-15T12:00:00Z)" None);
       ("previous", mkSchema "boolean" "Search previous container logs (from crash/restart)" None);
       ("limit", mkSchema "integer" "Maximum number of lines to return (default: 500)" None)]))) None.

Definition mustgather_node_diagnostics_get_tool : Tool :=
  mkTool "mustgather_node_diagnostics_get"
    "Get comprehensive diagnostic information for a specific node including kubelet logs, system info, CPU/IRQ affinities, and hardware details"
    (mkToolAnnotations "Node Diagnostics" (Some true) None None None) []
    (Some (mkSchema "object" "" (Some [
       ("node", mkSchema "string" "Node name" None);
       ("include", mkSchema "string" "Comma-separated diagnostics to include: kubelet,sysinfo,cpu,irq,pods,podresources,lscpu,lspci,dmesg,cmdline (default: all)" None);
       ("kubeletTail", mkSchema "integer" "Number of lines from end of kubelet log (0 for all, default: 100)" None)]))) None.

Definition mustgather_node_kubelet_logs_tool : Tool :=
  mkTool "mustgather_node_kubelet_logs"
    "Get kubelet logs for a specific node (decompressed from .gz file)"
    (mkToolAnnotations "Kubelet Logs" (Some true) None None None) []
    (Some (mkSchema "object" "" (Some [
       ("node", mkSchema "string" "Node name" None);
       ("tail", mkSchema "integer" "Number of lines from end (0 for all)" None)]))) None.

Definition mustgather_node_kubelet_logs_grep_tool : Tool :=
  mkTool "mustgather_node_kubelet_logs_grep"
    "Filter kubelet logs for a specific node by a search string. Returns only matching lines."
    (mkToolAnnotations "Kubelet Logs Grep" (Some true) None None None) []
    (Some (mkSchema "object" "" (Some [
       ("node", mkSchema "string" "Node name" None);
       ("filter", mkSchema "string" "String to search for in log lines" None);
       ("tail", mkSchema "integer" "Maximum number of matching lines to return (0 for all)" None);
       ("caseInsensitive", mkSchema "boolean" "Perform case-insensitive search (default: false)" None)]))) None.

Definition mustgather_etcd_health_tool : Tool :=
  mkTool "mustgather_etcd_health"
    "Get ETCD cluster health status including endpoint health and active alarms from the must-gather archive"
    (mkToolAnnotations "ETCD Health" (Some true) None None None) []
    (Some (mkSchema "object" "" None)) None.

Definition mustgather_etcd_object_count_tool : Tool :=
  mkTool "mustgather_etcd_object_count"
    "Get ETCD object counts by resource type from the must-gather archive"
    (mkToolAnnotations "ETCD Object Count" (Some true) None None None) []
    (Some (mkSchema "object" "" (Some [
       ("limit", mkSchema "integer" "Maximum number of resource types to show (default: 50, sorted by count descending)" None)]))) None.

Definition mustgather_monitoring_prometheus_status_tool : Tool :=
  mkTool "mustgather_monitoring_prometheus_status"
    "Get Prometheus TSDB and runtime status from the must-gather archive"
    (mkToolAnnotations "Prometheus Status" (Some true) None None None) []
    (Some (mkSchema "object" "" (Some [
       ("replica", mkSchema "string" "Prometheus replica (0, 1, or all). Default: all" None)]))) None.

Definition mustgather_monitoring_prometheus_targets_tool : Tool :=
  mkTool "mustgather_monitoring_prometheus_targets"
    "Get Prometheus scrape targets and their health status from the must-gather archive"
    (mkToolAnnotations "Prometheus Targets" (Some true) None None None) []
    (Some (mkSchema "object" "" (Some [
       ("replica", mkSchema "string" "Prometheus replica (0, 1, or all). Default: 0" None);
       ("health", mkSchema "string" "Filter by health status: up, down, unknown (default: all)" None)]))) None.

Definition mustgather_monitoring_prometheus_tsdb_tool : Tool :=
  mkTool "mustgather_monitoring_prometheus_tsdb"
    "Get detailed Prometheus TSDB statistics including top metrics by series count and label cardinality"
    (mkToolAnnotations "Prometheus TSDB" (Some true) None None None) []
    (Some (mkSchema "object" "" (Some [
       ("replica", mkSchema "string" "Prometheus replica (0, 1, or all). Default: 0" None);
       ("limit", mkSchema "integer" "Number of top entries to show per category (default: 10)" None)]))) None.

Definition mustgather_monitoring_prometheus_alerts_tool : Tool :=
  mkTool "mustgather_monitoring_prometheus_alerts"
    "Get active Prometheus alerts from the must-gather archive"
    (mkToolAnnotations "Prometheus Alerts" (Some true) None None None) []
    (Some (mkSchema "object" "" (Some [
       ("state", mkSchema "string" "Filter by alert state: firing, pending (default: all)" None)]))) None.

Definition mustgather_monitoring_prometheus_rules_tool : Tool :=
  mkTool "mustgather_monitoring_prometheus_rules"
    "Get Prometheus alerting and recording rules from the must-gather archive"
    (mkToolAnnotations "Prometheus Rules" (Some true) None None None) []
    (Some (mkSchema "object" "" (Some [
       ("type", mkSchema "string" "Filter by rule type: alerting, recording (default: all)" None)]))) None.

(** ** The handlers *)

(** The rows of a section: the first ones up to the limit, with their values printed
    by [print]; [None] is a panic. *)
Fixpoint name_value_rows (print : Z -> option string) (items : list NameValue) : option string :=
  match items with
  | [] => Some ""
  | item :: items =>
      match truncate (nv_Name item) 60, print (nv_Value item), name_value_rows print items with
      | Some name, Some value, Some rows => Some (fmt [pad_right 60 name; " "; value; nl; rows])
      | _, _, _ => None
      end
  end.
Definition name_value_section (print : Z -> option string) (title : string) (items : list NameValue) (limit : Z) :
    option string :=
  let output := fmt ["#### "; title; nl; nl] in
  match items with
  | [] => Some (fmt [output; "No data available."; nl; nl])
  | _ =>
      match name_value_rows print (limit_to limit items) with
      | Some rows => Some (fmt [output; rows; nl])
      | None => None
      end
  end.
Definition formatNameValueSection : string -> list NameValue -> Z -> option string :=
  name_value_section (fun n => Some (formatNumber n)).
Definition formatNameValueBytesSection (quotient : Z -> Z -> string) : string -> list NameValue -> Z -> option string :=
  name_value_section (formatBytes quotient).

Section Monitoring.
Context (ovf : spec_float -> Z) (ReadFile : string -> result string).
Context (decode_runtime : string -> result RuntimeInfo) (decode_tsdb : string -> result TSDBStatus).
Context (decode_targets : string -> result (list ActiveTarget)) (decode_rules : string -> result (list RuleGroup)).
Context (Sprintf : nat -> spec_float -> string) (quotient : Z -> Z -> string).

Definition bool_string (b : bool) : string := if b then "true" else "false".
Definition head_stats (h : HeadStats) : string :=
  fmt ["Series:      "; formatNumber (hs_NumSeries h); nl; "Label Pairs: "; formatNumber (hs_NumLabelPairs h); nl;
       "Chunks:      "; formatNumber (hs_ChunkCount h); nl; nl].
Definition runtime_section (r : result RuntimeInfo) : string :=
  match r with
  | Err err => fmt ["Runtime info not available: "; error_string err; nl; nl]
  | Ok runtime =>
      fmt ["#### Runtime Info"; nl; nl; "Start Time:       "; ri_StartTime runtime; nl;
           "Storage Retention: "; ri_StorageRetention runtime; nl;
           "Config Reload:    "; healthSymbol (bool_string (ri_ReloadConfigSuccess runtime));
           " (last: "; ri_LastConfigTime runtime; ")"; nl;
           "Goroutines:       "; itoa (ri_GoroutineCount runtime); nl;
           "GOMAXPROCS:       "; itoa (ri_GOMAXPROCS runtime); nl;
           part (0 <? ri_CorruptionCount runtime)%Z
             ["Corruptions:      [WARNING] "; itoa (ri_CorruptionCount runtime); nl]; nl]
  end.
Definition status_section (p : Provider) (r : Z) : string :=
  fmt ["### Replica prometheus-k8s-"; itoa r; nl; nl;
       runtime_section (GetPrometheusRuntimeInfo ReadFile decode_runtime r p);
       match GetPrometheusTSDB ReadFile decode_tsdb r p with
       | Err err => fmt ["TSDB info not available: "; error_string err; nl; nl]
       | Ok tsdb => fmt ["#### TSDB Head Stats"; nl; nl; head_stats (ts_HeadStats tsdb)]
       end].
Definition mustgatherMonitoringPrometheusStatus (args : arguments) (provider : option Provider) :
    option ToolCallResult :=
  with_provider provider answer_error (fun p =>
    let replicas := GetReplicaNumbers (getString args "replica" "all") in
    answer_text (fmt ["## Prometheus Status"; nl; nl; fmt (map (status_section p) replicas)])).

Definition health_counts (targets : list ActiveTarget) : nat * nat * nat :=
  let count h := length (List.filter (fun t => ToLower (at_Health t) =?s h) targets) in
  (count "up", count "down", length targets - count "up" - count "down").
Definition target_entry (t : ActiveTarget) : string :=
  fmt [healthSymbol (at_Health t); " "; at_ScrapePool t; nl; "  URL: "; at_ScrapeURL t; nl;
       "  Last Scrape: "; at_LastScrape t; " (duration: "; formatDuration Sprintf (at_LastScrapeDuration t); ")"; nl;
       part (at_LastError t ≠?s "") ["  Error: "; at_LastError t; nl]; nl].
(** [replicas[0]] of a list that is never empty. *)
Definition mustgatherMonitoringPrometheusTargets (args : arguments) (provider : option Provider) :
    option ToolCallResult :=
  with_provider provider answer_error (fun p =>
    let healthFilter := getString args "health" "" in
    match GetReplicaNumbers (getString args "replica" "0") with
    | [] => None
    | r :: _ =>
        match GetPrometheusActiveTargets ReadFile decode_targets r p with
        | Err err => answer_error (wrapf "failed to get Prometheus targets: " err)
        | Ok targets =>
            let '(up, down, unknown) := health_counts targets in
            let filtered :=
              List.filter (fun t => (healthFilter =?s "") || EqualFold (at_Health t) healthFilter) targets in
            answer_text (fmt ["## Prometheus Targets (replica "; itoa r; ")"; nl; nl;
              "Total: "; itoa (Z.of_nat (length targets)); " targets (Up: "; itoa (Z.of_nat up);
              ", Down: "; itoa (Z.of_nat down); ", Unknown: "; itoa (Z.of_nat unknown); ")"; nl; nl;
              part (healthFilter ≠?s "") ["Showing targets with health: "; healthFilter; nl; nl];
              fmt (map target_entry filtered)])
        end
    end).

Definition tsdb_section (p : Provider) (limit r : Z) : option string :=
  match GetPrometheusTSDB ReadFile decode_tsdb r p with
  | Err err => Some (fmt ["### Replica "; itoa r; ": not available ("; error_string err; ")"; nl; nl])
  | Ok tsdb =>
      match formatNameValueSection "Top Metrics by Series Count" (ts_SeriesCountByMetricName tsdb) limit,
            formatNameValueSection "Top Labels by Value Count" (ts_LabelValueCountByLabelName tsdb) limit,
            formatNameValueBytesSection quotient "Top Labels by Memory Usage" (ts_MemoryInBytesByLabelName tsdb) limit
      with
      | Some metrics, Some labels, Some memory =>
          Some (fmt ["### Replica prometheus-k8s-"; itoa r; nl; nl; "#### Head Stats"; nl; nl;
                     head_stats (ts_HeadStats tsdb); metrics; labels; memory])
      | _, _, _ => None
      end
  end.
Fixpoint tsdb_sections (p : Provider) (limit : Z) (replicas : list Z) : option string :=
  match replicas with
  | [] => Some ""
  | r :: replicas =>
      match tsdb_section p limit r, tsdb_sections p limit replicas with
      | Some s, Some rest => Some (s +:+ rest)
      | _, _ => None
      end
  end.
Definition mustgatherMonitoringPrometheusTSDB (args : arguments) (provider : option Provider) :
    option ToolCallResult :=
  with_provider provider answer_error (fun p =>
    match tsdb_sections p (getInt ovf args "limit" 10) (GetReplicaNumbers (getString args "replica" "0")) with
    | Some text => answer_text (fmt ["## Prometheus TSDB Statistics"; nl; nl; text])
    | None => None
    end).

(** [alertEntry]: the rule's name with the alert. *)
Definition active_alerts (stateFilter : string) (groups : list RuleGroup) : list (string * Alert) :=
  concat (map (fun group =>
    concat (map (fun rule =>
      if ru_Type rule ≠?s "alerting" then []
      else map (fun alert => (ru_Name rule, alert))
             (List.filter (fun alert => (stateFilter =?s "") || EqualFold (al_State alert) stateFilter) (ru_Alerts rule)))
      (rg_Rules group))) groups).
Definition alert_text (a : string * Alert) : string :=
  let '(name, alert) := a in
  let annotation k := default "" (al_Annotations alert !! k) in
  fmt [severitySymbol (default "" (al_Labels alert !! "severity")); " ["; ToUpper (al_State alert); "] "; name; nl;
       "  Active Since: "; al_ActiveAt alert; nl;
       if annotation "summary" ≠?s "" then fmt ["  Summary: "; annotation "summary"; nl]
       else part (annotation "message" ≠?s "") ["  Message: "; annotation "message"; nl];
       match al_Labels alert !! "namespace" with Some ns => fmt ["  Namespace: "; ns; nl] | None => "" end; nl].
Definition mustgatherMonitoringPrometheusAlerts (args : arguments) (provider : option Provider) :
    option ToolCallResult :=
  with_provider provider answer_error (fun p =>
    let stateFilter := getString args "state" "" in
    match GetPrometheusRules ReadFile decode_rules p with
    | Err err => answer_error (wrapf "failed to get Prometheus rules: " err)
    | Ok groups =>
        let alerts := active_alerts stateFilter groups in
        let output := fmt ["## Prometheus Alerts"; nl; nl; part (stateFilter ≠?s "") ["Filter: "; stateFilter; nl; nl];
          "Found "; itoa (Z.of_nat (length alerts)); " active alert(s)"; nl; nl] in
        if Nat.eqb (length alerts) 0 then answer_text (fmt [output; "No active alerts found."])
        else answer_text (fmt (output :: map alert_text alerts))
    end).

(** The rules of a group that are shown; groups without any are left out. *)
Definition shown_groups (typeFilter : string) (groups : list RuleGroup) : list (RuleGroup * list Rule) :=
  List.filter (fun g => negb (Nat.eqb (length g.2) 0))
    (map (fun group =>
       (group, List.filter (fun rule => (typeFilter =?s "") || EqualFold (ru_Type rule) typeFilter) (rg_Rules group)))
     groups).
Definition group_text (g : RuleGroup * list Rule) : string :=
  let '(group, rules) := g in
  fmt ["### "; rg_Name group; " ("; rg_File group; ")"; nl; nl;
       "Eval Interval: "; Sprintf 0 (rg_Interval group); "s | Last Eval: "; rg_LastEvaluation group;
       " | Eval Time: "; formatDuration Sprintf (rg_EvaluationTime group); nl; nl;
       fmt (map (fun r => fmt ["- "; healthSymbol (ru_Health r); " ["; ru_Type r; "] "; ru_Name r; " "; ru_State r; nl;
              part (ru_LastError r ≠?s "") ["  Error: "; ru_LastError r; nl]]) rules); nl].
(** The summary goes in behind the first empty line, which is the one of the title. *)
Definition mustgatherMonitoringPrometheusRules (args : arguments) (provider : option Provider) :
    option ToolCallResult :=
  with_provider provider answer_error (fun p =>
    let typeFilter := getString args "type" "" in
    match GetPrometheusRules ReadFile decode_rules p with
    | Err err => answer_error (wrapf "failed to get Prometheus rules: " err)
    | Ok groups =>
        let shown := shown_groups typeFilter groups in
        answer_text (fmt ["## Prometheus Rules"; nl; nl;
          "Total: "; itoa (Z.of_nat (length shown)); " groups, ";
          itoa (Z.of_nat (length (concat (map snd shown)))); " rules"; nl; nl;
          part (typeFilter ≠?s "") ["Filter: "; typeFilter; " rules only"; nl; nl];
          fmt (map group_text shown)])
    end).
End Monitoring.

(** ** toolset.go *)

(** A tool that is not bound to a cluster, with its handler: the answer, [None] for a
    panic, and the archive loaded behind it. *)
Record mustgather_tool := mkMustGatherTool {
  mt_Tool : Tool;
  mt_Handler : arguments -> option Provider -> option ToolCallResult * option Provider;
}.
Definition reading (t : Tool) (handler : arguments -> option Provider -> option ToolCallResult) : mustgather_tool :=
  mkMustGatherTool t (fun args provider => (handler args provider, provider)).

Section Toolset.
Context (ovf : spec_float -> Z).
Context (ReadDir : string -> result (list (string * bool))) (ReadFile : string -> result string).
Context (Exists : string -> bool) (Stat : string -> option error) (Walk : string -> list (string * result bool)).
Context (yaml_Unmarshal : string -> result (option object)) (yaml_Marshal : object -> result string).
Context (readGzipFile : string -> result string).
Context (labels_Parse fields_ParseSelector : string -> result (gmap string string -> bool)).
Context (range_map : gmap string object -> list object).
Context (sort_slice : forall A, (A -> A -> bool) -> list A -> list A).
Context (Open_scan : string -> result scanned).
Context {time : Type} (time_Parse : string -> string -> result time) (before : time -> time -> bool).
Context (decode_health : string -> result (list ETCDEndpoint)) (decode_alarms : string -> result (list (Z * string))).
Context (decode_counts : string -> result (gmap string Z)).
Context (decode_config : string -> result string) (decode_flags : string -> result (gmap string string)).
Context (decode_alertmanager : string -> result AlertManagerStatus).
Context (decode_runtime : string -> result RuntimeInfo) (decode_tsdb : string -> result TSDBStatus).
Context (decode_targets : string -> result (list ActiveTarget)) (decode_rules : string -> result (list RuleGroup)).
Context (Sprintf : nat -> spec_float -> string) (quotient : Z -> Z -> string).

Definition initUse : list mustgather_tool :=
  [mkMustGatherTool mustgather_use_tool (mustgatherUse ReadDir ReadFile Exists Walk yaml_Unmarshal)].
Definition initResources : list mustgather_tool :=
  [reading mustgather_resources_list_tool
     (mustgatherResourcesList ovf yaml_Marshal labels_Parse fields_ParseSelector range_map)].
Definition initEvents : list mustgather_tool :=
  [reading mustgather_events_list_tool (mustgatherEventsList ovf labels_Parse fields_ParseSelector range_map sort_slice);
   reading mustgather_events_by_resource_tool
     (mustgatherEventsByResource labels_Parse fields_ParseSelector range_map sort_slice);
   reading mustgather_events_by_time_tool
     (mustgatherEventsByTime ovf labels_Parse fields_ParseSelector range_map sort_slice time_Parse before)].
Definition initPodLogs : list mustgather_tool :=
  [reading mustgather_pod_logs_get_tool (mustgatherPodLogsGet ovf ReadDir ReadFile Stat);
   reading mustgather_pod_logs_grep_tool (mustgatherPodLogsGrep ovf ReadDir Stat Open_scan);
   reading mustgather_pod_logs_by_time_tool (mustgatherPodLogsByTime ovf ReadDir Stat Open_scan time_Parse before)].
Definition initNodes : list mustgather_tool :=
  [reading mustgather_node_diagnostics_get_tool (mustgatherNodeDiagnosticsGet ovf ReadFile Exists readGzipFile);
   reading mustgather_node_kubelet_logs_tool (mustgatherNodeKubeletLogs ovf ReadFile Exists readGzipFile);
   reading mustgather_node_kubelet_logs_grep_tool (mustgatherNodeKubeletLogsGrep ovf ReadFile Exists readGzipFile)].
Definition initEtcd : list mustgather_tool :=
  [reading mustgather_etcd_health_tool (fun _ => mustgatherETCDHealth ReadFile decode_health decode_alarms);
   reading mustgather_etcd_object_count_tool (mustgatherETCDObjectCount ovf ReadFile sort_slice decode_counts)].
Definition initMonitoring : list mustgather_tool :=
  [reading mustgather_monitoring_prometheus_status_tool
     (mustgatherMonitoringPrometheusStatus ReadFile decode_runtime decode_tsdb);
   reading mustgather_monitoring_prometheus_targets_tool
     (mustgatherMonitoringPrometheusTargets ReadFile decode_targets Sprintf);
   reading mustgather_monitoring_prometheus_tsdb_tool
     (mustgatherMonitoringPrometheusTSDB ovf ReadFile decode_tsdb quotient);
   reading mustgather_monitoring_prometheus_alerts_tool (mustgatherMonitoringPrometheusAlerts ReadFile decode_rules);
   reading mustgather_monitoring_prometheus_rules_tool
     (mustgatherMonitoringPrometheusRules ReadFile decode_rules Sprintf)].
Definition GetTools : list mustgather_tool :=
  initUse ++ initResources ++ initEvents ++ initPodLogs ++ initNodes ++ initEtcd ++ initMonitoring.

(** mcp_resources.go: the resources, with their content over the archive. *)
Definition initMCPResources : list (Resource * (option Provider -> option (result ResourceContent))) :=
  [(mkResource "must-gather://current" "must-gather" "Loaded must-gather archive metadata" "text/plain",
    resourceCurrentArchive);
   (mkResource "must-gather://current/namespaces" "must-gather-namespaces"
      "List of all namespaces in the must-gather archive" "text/plain", resourceNamespaces);
   (mkResource "must-gather://current/etcd/members" "must-gather-etcd-members"
      "ETCD cluster member list from the must-gather archive" "application/json", resourceETCDMembers ReadFile);
   (mkResource "must-gather://current/etcd/endpoint-status" "must-gather-etcd-endpoint-status"
      "ETCD endpoint status from the must-gather archive" "application/json", resourceETCDEndpointStatus ReadFile);
   (mkResource "must-gather://current/prometheus/config" "must-gather-prometheus-config"
      "Prometheus configuration summary from the must-gather archive" "text/plain",
    resourcePrometheusConfig ReadFile decode_config decode_flags);
   (mkResource "must-gather://current/alertmanager/status" "must-gather-alertmanager-status"
      "AlertManager status from the must-gather archive" "text/plain",
    resourceAlertManagerStatus ReadFile decode_alertmanager)].
Definition initMCPResourceTemplates :
    list (ResourceTemplate * (string -> option Provider -> option (result ResourceContent))) :=
  [(mkResourceTemplate "must-gather://current/resources/{group}/{version}/{kind}/{namespace}/{name}"
      "must-gather-resource"
      "A specific Kubernetes resource from the must-gather archive as YAML. Use '-' for empty group (core API) or cluster-scoped namespace."
      "text/yaml", resourceGet yaml_Marshal)].

(** * Specification *)

(** The archives that may be loaded after calls of tools. *)
Inductive session : option Provider -> Prop :=
| session_start : session None
| session_call p t args : session p -> t ∈ GetTools -> session (mt_Handler t args p).2.

(** * Lemmas *)

Lemma truncate_60 s : truncate s 60 <> None.
Proof. unfold truncate. by case_match. Qed.

Lemma formatBytes_Some bytes : (bytes < 2 ^ 63)%Z -> formatBytes quotient bytes <> None.
Proof.
  intros Hb. destruct (decide (1024 <= bytes)%Z) as [Hge|Hlt].
  - by destruct (formatBytes_unit quotient bytes) as (e & c & _ & _ & ->).
  - unfold formatBytes. by replace (bytes <? 1024)%Z with true by (symmetry; apply Z.ltb_lt; lia).
Qed.

Lemma name_value_section_Some print title items limit :
  Forall (fun item => print (nv_Value item) <> None) items -> name_value_section print title items limit <> None.
Proof.
  intros H. unfold name_value_section. destruct items as [|item items]; [done|].
  assert (Forall (fun item => print (nv_Value item) <> None) (limit_to limit (item :: items))) as Hl.
  { unfold limit_to. case_match; [|done]. by apply Forall_take. }
  assert (name_value_rows print (limit_to limit (item :: items)) <> None) as Hr.
  { induction Hl as [|i l Hi _ IH]; [done|]. cbn. pose proof (truncate_60 (nv_Name i)).
    destruct (truncate _ _), (print _), (name_value_rows _ _); done. }
  by destruct (name_value_rows _ _).
Qed.

(** Decoding gives 64-bit integers. *)
Context (tsdb_int64 : forall data tsdb, decode_tsdb data = Ok tsdb ->
  Forall (fun nv => (nv_Value nv < 2 ^ 63)%Z) (ts_MemoryInBytesByLabelName tsdb)).

Lemma tsdb_sections_Some p limit replicas : tsdb_sections ReadFile decode_tsdb quotient p limit replicas <> None.
Proof.
  induction replicas as [|r replicas IH]; [done|]. cbn [tsdb_sections].
  assert (tsdb_section ReadFile decode_tsdb quotient p limit r <> None) as Hs.
  { unfold tsdb_section, GetPrometheusTSDB, ReadPrometheusJSON, ReadJSON, formatNameValueSection,
      formatNameValueBytesSection.
    destruct (ReadFile _) as [data|]; [|done]. destruct (decode_tsdb data) as [tsdb|] eqn:Hd; [|done].
    repeat match goal with
    | |- context [name_value_section ?f ?t ?i ?l] =>
        let H := fresh in
        assert (name_value_section f t i l <> None) as H;
          [apply name_value_section_Some|destruct (name_value_section f t i l); [clear H|done]]
    end; [by apply Forall_true..| |done].
    apply (Forall_impl _ _ _ (tsdb_int64 _ _ Hd)). intros nv. apply formatBytes_Some. }
  destruct (tsdb_section _ _ _ _ _ _); [|done]. by destruct (tsdb_sections _ _ _ _ _ _).
Qed.

Definition quiet (t : mustgather_tool) (p : Provider) : Prop := forall args, (mt_Handler t args (Some p)).1 <> None.

(** A handler answers on every branch: the branches that panic are refuted. *)
Ltac answers Hlist :=
  repeat first
    [ by intros []
    | match goal with
      | H : index_List _ _ _ _ _ _ _ = None |- _ => by destruct (Hlist _ _ _ H)
      | H : tailed _ _ = None |- _ => by destruct (tailed_Some _ _ H)
      | H : tsdb_sections _ _ _ _ _ _ = None |- _ => by destruct (tsdb_sections_Some _ _ _ H)
      end
    | discriminate
    | case_match ].

(** The tools panic only where a copy of an object does. *)
Lemma tools_quiet p t : quiet_archive labels_Parse fields_ParseSelector range_map p -> t ∈ GetTools -> quiet t p.
Proof.
  intros [_ Hlist] Ht args.
  unfold GetTools, initUse, initResources, initEvents, initPodLogs, initNodes, initEtcd, initMonitoring in Ht.
  cbn [app] in Ht.
  repeat (apply elem_of_cons in Ht as [->|Ht]; [|]); [..|by apply elem_of_nil in Ht]; cbn [mt_Handler reading fst].
  - unfold mustgatherUse. by case_match.
  - unfold mustgatherResourcesList. cbn [with_provider]. cbv zeta. answers Hlist.
  - unfold mustgatherEventsList. cbn [with_provider]. answers Hlist.
  - unfold mustgatherEventsByResource. cbn [with_provider]. cbv zeta. answers Hlist.
  - unfold mustgatherEventsByTime. cbn [with_provider]. cbv zeta. answers Hlist.
  - unfold mustgatherPodLogsGet. cbn [with_provider]. cbv zeta. answers Hlist.
  - unfold mustgatherPodLogsGrep, open_log. cbn [with_provider]. cbv zeta. answers Hlist.
  - unfold mustgatherPodLogsByTime, open_log. cbn [with_provider]. cbv zeta. answers Hlist.
  - unfold mustgatherNodeDiagnosticsGet, node_diagnostics. cbn [with_provider]. cbv zeta. answers Hlist.
  - unfold mustgatherNodeKubeletLogs, kubelet_log, node_diagnostics. cbn [with_provider]. cbv zeta. answers Hlist.
  - unfold mustgatherNodeKubeletLogsGrep, kubelet_log, node_diagnostics. cbn [with_provider]. cbv zeta. answers Hlist.
  - unfold mustgatherETCDHealth. cbn [with_provider]. answers Hlist.
  - unfold mustgatherETCDObjectCount. cbn [with_provider]. cbv zeta. answers Hlist.
  - unfold mustgatherMonitoringPrometheusStatus. done.
  - unfold mustgatherMonitoringPrometheusTargets, GetReplicaNumbers. cbn [with_provider]. cbv zeta. answers Hlist.
  - unfold mustgatherMonitoringPrometheusTSDB. cbn [with_provider]. answers Hlist.
  - unfold mustgatherMonitoringPrometheusAlerts. cbn [with_provider]. cbv zeta. answers Hlist.
  - unfold mustgatherMonitoringPrometheusRules. cbn [with_provider]. cbv zeta. answers Hlist.
Qed.

Lemma session_archive p : session p ->
  p = None \/ exists path, path <> "" /\ p = Some (NewProvider ReadDir ReadFile Exists Walk yaml_Unmarshal path).
Proof.
  induction 1 as [|p t args _ IH Ht]; [by left|]. unfold GetTools in Ht. apply elem_of_app in Ht as [Ht|Ht].
  - apply list_elem_of_singleton in Ht as ->. cbn [mt_Handler]. unfold mustgatherUse.
    destruct (bool_decide_reflect (getString args "path" "" = "")) as [|Hne]; [done|]. right. by eexists.
  - unfold initResources, initEvents, initPodLogs, initNodes, initEtcd, initMonitoring in Ht. cbn [app] in Ht.
    repeat (apply elem_of_cons in Ht as [->|Ht]; [exact IH|]). by apply elem_of_nil in Ht.
Qed.

Abbreviation all_resources := (initMCPResources).

Lemma resources_quiet p r read : (r, read) ∈ all_resources -> read p <> None.
Proof.
  intros Hr. unfold initMCPResources in Hr.
  repeat (apply elem_of_cons in Hr as [Hr|Hr]; [injection Hr as -> ->|]); [..|by apply elem_of_nil in Hr];
    destruct p as [p|]; try done; unfold resourceETCDMembers, resourceETCDEndpointStatus, etcd_file,
      resourceAlertManagerStatus; cbn [with_provider]; by case_match.
Qed.

Lemma resourceGet_quiet p uri : quiet_archive labels_Parse fields_ParseSelector range_map p ->
  resourceGet yaml_Marshal uri (Some p) <> None.
Proof.
  intros [Hget _]. unfold resourceGet. cbn [with_provider]. case_match; [done|].
  destruct (Split _ _) as [|? [|? [|? [|? [|? ?]]]]]; try done. cbv zeta.
  destruct (index_Get _ _ _ _) as [[obj|]|] eqn:Hobj; [by case_match|done|by apply Hget in Hobj].
Qed.

(** * Properties *)

End Toolset.

(** * Witnesses *)

Module MonitoringWitness.
(** An archive with one node, in cluster-scoped-resources/node.yaml. *)
Definition node : object :=
  [("apiVersion", YString "v1"); ("kind", YString "Node"); ("metadata", YMap [("name", YString "n1")])].
Definition ReadDir (path : string) : result (list (string * bool)) := Err (ErrNew "no directory").
Definition ReadFile (path : string) : result string :=
  if path =?s "/mg/cluster-scoped-resources/node.yaml" then Ok "node" else Err (ErrNew "no file").
Definition Exists (path : string) : bool := path =?s "/mg/cluster-scoped-resources".
Definition Walk (path : string) : list (string * result bool) :=
  [("/mg/cluster-scoped-resources/node.yaml", Ok false)].
Definition Unmarshal (data : string) : result (option object) :=
  if data =?s "node" then Ok (Some node) else Err (ErrNew "no YAML").
Definition no {A} (s : string) : result A := Err (ErrNew s).
Definition print (o : object) : result string := Ok (GetName o).
Definition range (m : gmap string object) : list object := (map_to_list m).*2.
Definition tools : list mustgather_tool :=
  GetTools (fun _ => 0%Z) ReadDir ReadFile Exists (fun _ => Some (ErrNew "no file")) Walk Unmarshal print no no no range
    merge_slice no (fun _ => no (A := nat)) Nat.ltb no no no no no no no (fun _ _ => "") (fun _ _ => "").
Definition use_args : arguments := {[ "path" := JString "/mg" ]}.
Definition list_args : arguments := {[ "kind" := JString "Node" ]}.
Definition archive : Provider := NewProvider ReadDir ReadFile Exists Walk Unmarshal "/mg".
End MonitoringWitness.

