(* ===== verification/KubeVirt.v ===== *)
(** Operations on virtual machines (pkg/kubevirt: gvr.go, vm.go, resources.go,
    guestagent.go, template.go), as programs over the cluster.  Failures to make the
    client of a subresource are part of the request; the order in which Go ranges over
    a map is a parameter. *)
From S2P Require Import Prelude GoStrings Api Unstructured Cluster.

(** * Definitions *)

(** ** gvr.go *)

Definition VirtualMachineGVK : GroupVersionKind := mkGVK "kubevirt.io" "v1" "VirtualMachine".
Definition VirtualMachineGVR : GroupVersionResource := mkGVR "kubevirt.io" "v1" "virtualmachines".
Definition VirtualMachineInstanceGVR : GroupVersionResource := mkGVR "kubevirt.io" "v1" "virtualmachineinstances".
Definition DataSourceGVR : GroupVersionResource := mkGVR "cdi.kubevirt.io" "v1beta1" "datasources".
Definition VirtualMachineClusterInstancetypeGVR : GroupVersionResource :=
  mkGVR "instancetype.kubevirt.io" "v1beta1" "virtualmachineclusterinstancetypes".
Definition VirtualMachineInstancetypeGVR : GroupVersionResource :=
  mkGVR "instancetype.kubevirt.io" "v1beta1" "virtualmachineinstancetypes".
Definition VirtualMachineClusterPreferenceGVR : GroupVersionResource :=
  mkGVR "instancetype.kubevirt.io" "v1beta1" "virtualmachineclusterpreferences".
Definition VirtualMachinePreferenceGVR : GroupVersionResource :=
  mkGVR "instancetype.kubevirt.io" "v1beta1" "virtualmachinepreferences".
Definition VirtualMachineCloneGVR : GroupVersionResource :=
  mkGVR "clone.kubevirt.io" "v1beta1" "virtualmachineclones".
Definition VirtualMachineTemplateGVK : GroupVersionKind :=
  mkGVK "template.kubevirt.io" "v1beta1" "VirtualMachineTemplate".
(** The kinds the tools want a target to have. *)
Definition DataVolumeGVR : GroupVersionResource := mkGVR "cdi.kubevirt.io" "v1beta1" "datavolumes".
Definition VirtualMachineInstanceMigrationGVR : GroupVersionResource :=
  mkGVR "kubevirt.io" "v1" "virtualmachineinstancemigrations".
Definition HyperConvergedGVR : GroupVersionResource := mkGVR "hco.kubevirt.io" "v1" "hyperconvergeds".
Definition KubeVirtCRGVR : GroupVersionResource := mkGVR "kubevirt.io" "v1" "kubevirts".
Definition CDIGVR : GroupVersionResource := mkGVR "cdi.kubevirt.io" "v1beta1" "cdis".
Definition NetworkAddonsConfigGVR : GroupVersionResource :=
  mkGVR "networkaddonsoperator.network.kubevirt.io" "v1" "networkaddonsconfigs".
Definition PersistentVolumeClaimGVR : GroupVersionResource := mkGVR "" "v1" "persistentvolumeclaims".
Definition PodGVR : GroupVersionResource := mkGVR "" "v1" "pods".
Definition StorageClassGVR : GroupVersionResource := mkGVR "storage.k8s.io" "v1" "storageclasses".

Definition HasVirtualMachine : list GroupVersionKind := [VirtualMachineGVK].
Definition HasVirtualMachineTemplate : list GroupVersionKind := [VirtualMachineTemplateGVK].

(** ** Nested fields of an object *)

(** [NestedFieldNoCopy]: a field that is missing, there, or an error on the way, whose
    text, the library's, is kept in outline. *)
Fixpoint nested (v : yvalue) (fields : list string) : result (option yvalue) :=
  match fields with
  | [] => Ok (Some v)
  | f :: fields =>
      match v with
      | YMap o => match field f o with Some v => nested v fields | None => Ok None end
      | YNull => Ok None
      | _ => Err (ErrNew "accessor error: value is of the wrong type, expected map[string]interface{}")
      end
  end.
Definition nested_string (o : object) (fields : list string) : result (option string) :=
  match nested (YMap o) fields with
  | Err err => Err err
  | Ok None => Ok None
  | Ok (Some (YString s)) => Ok (Some s)
  | Ok (Some _) => Err (ErrNew "accessor error: value is of the wrong type, expected string")
  end.
(** The map of [NestedMap] when it is found. *)
Definition found_map (o : object) (fields : list string) : option object :=
  match nested (YMap o) fields with Ok (Some (YMap m)) => Some m | _ => None end.
Definition found_string (o : object) (fields : list string) : option string :=
  match nested_string o fields with Ok s => s | Err _ => None end.

(** ** vm.go *)

Definition RunStrategyAlways : string := "Always".
Definition RunStrategyHalted : string := "Halted".

Definition GetVirtualMachine (namespace name : string) : prog (result object) :=
  call (KGet VirtualMachineGVR namespace name "").

Definition GetVMRunStrategy (vm : object) : result (option string) :=
  match nested_string vm ["spec"; "runStrategy"] with
  | Err err => Err (wrapf "failed to read runStrategy: " err)
  | Ok strategy => Ok strategy
  end.

Definition SetVMRunStrategy (strategy : string) (vm : object) : result object :=
  match field "spec" vm with
  | Some (YMap spec) => Ok (set_field "spec" (YMap (set_field "runStrategy" (YString strategy) spec)) vm)
  | Some _ => Err (ErrNew "value cannot be set because .spec is not a map[string]interface{}")
  | None => Ok (set_field "spec" (YMap [("runStrategy", YString strategy)]) vm)
  end.

Definition UpdateVirtualMachine (vm : object) : prog (result object) :=
  call (KUpdate VirtualMachineGVR (GetNamespace vm) vm "").

(** [SetVMRunStrategy] and [UpdateVirtualMachine], with the wrapping of their errors. *)
Definition update_strategy (strategy set_failed update_failed : string) (vm : object) : prog (result object) :=
  match SetVMRunStrategy strategy vm with
  | Err err => Ret (Err (wrapf set_failed err))
  | Ok vm =>
      updated ← UpdateVirtualMachine vm;
      Ret (match updated with Err err => Err (wrapf update_failed err) | Ok vm => Ok vm end)
  end.

(** The steps [StartVM] and [StopVM] share: the machine, and whether it was changed. *)
Definition ensure_strategy (strategy update_failed namespace name : string) : prog (result (object * bool)) :=
  vm ← GetVirtualMachine namespace name;
  match vm with
  | Err err => Ret (Err (wrapf "failed to get VirtualMachine: " err))
  | Ok vm =>
      match GetVMRunStrategy vm with
      | Err err => Ret (Err err)
      | Ok current =>
          if bool_decide (current = Some strategy) then Ret (Ok (vm, false))
          else
            updated <-? update_strategy strategy "failed to set runStrategy: " update_failed vm;
            Ret (Ok (updated, true))
      end
  end.
Definition StartVM : string -> string -> prog (result (object * bool)) :=
  ensure_strategy RunStrategyAlways "failed to start VirtualMachine: ".
Definition StopVM : string -> string -> prog (result (object * bool)) :=
  ensure_strategy RunStrategyHalted "failed to stop VirtualMachine: ".

Definition RestartVM (namespace name : string) : prog (result object) :=
  vm ← GetVirtualMachine namespace name;
  match vm with
  | Err err => Ret (Err (wrapf "failed to get VirtualMachine: " err))
  | Ok vm =>
      vm <-? update_strategy RunStrategyHalted "failed to set runStrategy to Halted: "
               "failed to stop VirtualMachine: " vm;
      update_strategy RunStrategyAlways "failed to set runStrategy to Always: "
        "failed to start VirtualMachine: " vm
  end.

Definition clone_object (namespace sourceName targetName : string) : object :=
  let machine name :=
    YMap [("apiGroup", YString "kubevirt.io"); ("kind", YString "VirtualMachine"); ("name", YString name)] in
  [("apiVersion", YString "clone.kubevirt.io/v1beta1");
   ("kind", YString "VirtualMachineClone");
   ("metadata", YMap [("namespace", YString namespace); ("generateName", YString (sourceName +:+ "-clone-"))]);
   ("spec", YMap [("source", machine sourceName); ("target", machine targetName)])].
Definition CloneVM (namespace sourceName targetName : string) : prog (result object) :=
  r ← call (KCreate VirtualMachineCloneGVR namespace (clone_object namespace sourceName targetName));
  Ret (match r with Err err => Err (wrapf "failed to create VirtualMachineClone: " err) | Ok o => Ok o end).

Definition instance_put (subresource failure namespace name : string) : prog (result object) :=
  r ← call (KSubresource "PUT" "subresources.kubevirt.io/v1" namespace "virtualmachineinstances" name subresource
              (Some []));
  match r with
  | Err err => Ret (Err (wrapf "failed to create subresource client: " err))
  | Ok (Err err) => Ret (Err (wrapf failure err))
  | Ok (Ok _) => GetVirtualMachine namespace name
  end.
Definition PauseVM : string -> string -> prog (result object) :=
  instance_put "pause" "failed to pause VirtualMachineInstance: ".
Definition UnpauseVM : string -> string -> prog (result object) :=
  instance_put "unpause" "failed to unpause VirtualMachineInstance: ".

(** ** template.go *)

Definition create_options (parameters : list (string * string)) : object :=
  [("apiVersion", YString "subresources.template.kubevirt.io/v1beta1"); ("kind", YString "CreateOptions")]
  ++ (if Nat.eqb (length parameters) 0 then []
      else [("parameters", YMap (map (fun p => (p.1, YString p.2)) parameters))]).
Definition CreateVMFromTemplate (namespace templateName : string) (parameters : list (string * string)) :
    prog (result object) :=
  r ← call (KSubresource "POST" "subresources.template.kubevirt.io/v1beta1" namespace "virtualmachinetemplates"
              templateName "create" (Some (create_options parameters)));
  Ret (match r with
       | Err err => Err (wrapf "failed to create REST client for template subresources: " err)
       | Ok (Err err) =>
           Err (wrapf (fmt ["failed to create VM from template "; namespace; "/"; templateName; ": "]) err)
       | Ok (Ok o) => Ok o
       end).

(** ** guestagent.go *)

Definition getVMISubresource (namespace vmiName subresource : string) : prog (result object) :=
  r ← call (KSubresource "GET" "subresources.kubevirt.io/v1" namespace "virtualmachineinstances" vmiName subresource
              None);
  Ret (match r with
       | Err err => Err (wrapf "failed to create REST client for subresources: " err)
       | Ok r => r
       end).

(** The four queries: the name of the result, the subresource and what is said of a
    failure. *)
Definition guest_query (subresource what namespace name : string) : prog (result object) :=
  r ← getVMISubresource namespace name subresource;
  Ret (match r with
       | Err err =>
           Err (wrapf (fmt ["failed to get "; what; " - guest agent may not be installed or running: "]) err)
       | Ok o => Ok o
       end).
Definition GetGuestOSInfo : string -> string -> prog (result object) := guest_query "guestosinfo" "guest OS info".
Definition GetFilesystemInfo : string -> string -> prog (result object) :=
  guest_query "filesystemlist" "filesystem info".
Definition GetUserInfo : string -> string -> prog (result object) := guest_query "userlist" "user info".
Definition GetNetworkInfo : string -> string -> prog (result object) :=
  guest_query "interfacelist" "network interface info".
Definition guest_infos : list (string * (string -> string -> prog (result object))) :=
  [("guestOSInfo", GetGuestOSInfo); ("filesystems", GetFilesystemInfo); ("users", GetUserInfo);
   ("networkInterfaces", GetNetworkInfo)].

(** The collecting of all of them: the entries of the result, and the errors. *)
Fixpoint collect_infos (namespace name : string) (infos : list (string * (string -> string -> prog (result object)))) :
    prog (object * list error) :=
  match infos with
  | [] => Ret ([], [])
  | (key, query) :: infos =>
      r ← query namespace name;
      rest ← collect_infos namespace name infos;
      Ret (match r with
           | Ok o => ((key, YMap o) :: rest.1, rest.2)
           | Err err => ((key +:+ "Error", YString (error_string err)) :: rest.1,
                         ErrNew (fmt [key; ": "; error_string err]) :: rest.2)
           end)
  end.
(** The verb %v of a list of errors. *)
Definition errors_text (errs : list error) : string := fmt ["["; Join (map error_string errs) " "; "]"].
Definition GetAllGuestInfo (namespace name : string) : prog (result object) :=
  r ← collect_infos namespace name guest_infos;
  let '(result, errs) := r in
  Ret (if Nat.eqb (length errs) (length guest_infos) then
         Err (ErrNew (fmt ["guest agent is not responding - all queries failed: "; errors_text errs;
                           " - ensure QEMU guest agent is installed and running in the VM"]))
       else Ok result).

(** ** resources.go *)

Definition DefaultInstancetypeLabel : string := "instancetype.kubevirt.io/default-instancetype".
Definition DefaultPreferenceLabel : string := "instancetype.kubevirt.io/default-preference".

Record DataSourceInfo := mkDataSourceInfo {
  ds_Name : string;
  ds_Namespace : string;
  ds_Source : string;
  ds_DefaultInstancetype : string;
  ds_DefaultPreference : string;
}.
Record PreferenceInfo := mkPreferenceInfo { pi_Name : string; pi_Namespace : string }.
(** Nil labels count as none. *)
Record InstancetypeInfo := mkInstancetypeInfo {
  it_Name : string;
  it_Namespace : string;
  it_Labels : gmap string string;
}.

Definition ExtractDataSourceInfo (obj : object) : string :=
  match found_map obj ["spec"; "source"] with
  | None => "unknown source"
  | Some spec =>
      let pvc :=
        match found_map spec ["pvc"] with
        | Some pvcInfo =>
            match found_string pvcInfo ["name"] with
            | Some pvcName =>
                Some (match found_string pvcInfo ["namespace"] with
                      | Some pvcNamespace => fmt ["PVC: "; pvcNamespace; "/"; pvcName]
                      | None => fmt ["PVC: "; pvcName]
                      end)
            | None => None
            end
        | None => None
        end in
      let registry :=
        match found_map spec ["registry"] with
        | Some registryInfo =>
            match found_string registryInfo ["url"] with Some url => Some (fmt ["Registry: "; url]) | None => None end
        | None => None
        end in
      match pvc with
      | Some text => text
      | None =>
          match registry with
          | Some text => text
          | None =>
              match found_string spec ["http"; "url"] with
              | Some url => fmt ["HTTP: "; url]
              | None => "DataSource (type unknown)"
              end
          end
      end
  end.

Definition data_source (item : object) : DataSourceInfo :=
  let label l := default "" (GetLabels item !! l) in
  mkDataSourceInfo (GetName item) (GetNamespace item) (ExtractDataSourceInfo item)
    (label DefaultInstancetypeLabel) (label DefaultPreferenceLabel).
(** Of several data sources with the same key the first one stays. *)
Definition add_data_source (results : gmap string DataSourceInfo) (item : object) : gmap string DataSourceInfo :=
  let key := GetNamespace item +:+ "/" +:+ GetName item in
  match results !! key with Some _ => results | None => <[key := data_source item]> results end.

Definition wellKnownNamespaces : list string := ["openshift-virtualization-os-images"; "kubevirt-os-images"].
(** The objects of a list; none when it fails, which is logged. *)
Definition list_or_none (gvr : GroupVersionResource) (namespace : string) : prog (list object) :=
  r ← call (KList gvr namespace (mkSelectors "" ""));
  Ret (match r with Ok items => items | Err _ => [] end).
Fixpoint list_namespaces (gvr : GroupVersionResource) (namespaces : list string) : prog (list object) :=
  match namespaces with
  | [] => Ret []
  | ns :: namespaces =>
      items ← list_or_none gvr ns;
      rest ← list_namespaces gvr namespaces;
      Ret (items ++ rest)
  end.
Definition collectDataSources : prog (gmap string DataSourceInfo) :=
  items ← list_namespaces DataSourceGVR (wellKnownNamespaces ++ [""]);
  Ret (fold_left add_data_source items ∅).
Definition no_sources : string := "No sources available".
Definition SearchDataSources : prog (gmap string DataSourceInfo) :=
  results ← collectDataSources;
  Ret (if Nat.eqb (size results) 0 then
         {[ no_sources := mkDataSourceInfo no_sources "" "No DataSources or containerdisks found" "" "" ]}
       else results).

(** The objects of a cluster-scoped and of a namespaced resource, the former without a
    namespace. *)
Definition search {A} (cluster_gvr namespaced_gvr : GroupVersionResource) (info : string -> object -> A)
    (namespace : string) : prog (list A) :=
  cluster ← list_or_none cluster_gvr "";
  namespaced ← list_or_none namespaced_gvr namespace;
  Ret (map (info "") cluster ++ map (fun item => info (GetNamespace item) item) namespaced).
Definition SearchPreferences : string -> prog (list PreferenceInfo) :=
  search VirtualMachineClusterPreferenceGVR VirtualMachinePreferenceGVR
    (fun ns item => mkPreferenceInfo (GetName item) ns).
Definition SearchInstancetypes : string -> prog (list InstancetypeInfo) :=
  search VirtualMachineClusterInstancetypeGVR VirtualMachineInstancetypeGVR
    (fun ns item => mkInstancetypeInfo (GetName item) ns (GetLabels item)).

Section Matching.
(** The order in which Go ranges over the data sources. *)
Context (range_sources : gmap string DataSourceInfo -> list DataSourceInfo).

Definition MatchDataSource (dataSources : gmap string DataSourceInfo) (workload : string) : option DataSourceInfo :=
  let normalizedInput := ToLower (TrimSpace workload) in
  match List.find (fun ds => EqualFold (ds_Name ds) normalizedInput || EqualFold (ds_Name ds) workload)
          (range_sources dataSources) with
  | Some ds => Some ds
  | None =>
      List.find (fun ds => (ds_Namespace ds ≠?s "") && Contains (ToLower (ds_Name ds)) normalizedInput)
        (range_sources dataSources)
  end.
End Matching.

Definition FilterInstancetypesBySize (instancetypes : list InstancetypeInfo) (normalizedSize : string) :
    list InstancetypeInfo :=
  List.filter (fun it => Contains (ToLower (it_Name it)) normalizedSize) instancetypes.

Definition instancetype_class : string := "instancetype.kubevirt.io/class".
(** The empty name for none. *)
Definition MatchInstancetypeBySize (instancetypes : list InstancetypeInfo) (size performance : string) : string :=
  let normalizedPerformance := ToLower (TrimSpace performance) in
  let candidates := FilterInstancetypesBySize instancetypes (ToLower (TrimSpace size)) in
  match List.find (fun it => HasPrefix (ToLower (it_Name it)) (normalizedPerformance +:+ ".")) candidates with
  | Some it => it_Name it
  | None =>
      match List.find (fun it => match it_Labels it !! instancetype_class with
                                 | Some class => EqualFold class normalizedPerformance
                                 | None => false
                                 end) candidates with
      | Some it => it_Name it
      | None => match candidates with [] => "" | it :: _ => it_Name it end
      end
  end.

(** The entry of that name, or one for the whole cluster. *)
Definition preference_named (preferences : list PreferenceInfo) (name : string) : PreferenceInfo :=
  default (mkPreferenceInfo name "") (List.find (fun p => pi_Name p =?s name) preferences).
Definition instancetype_named (instancetypes : list InstancetypeInfo) (name : string) : InstancetypeInfo :=
  default (mkInstancetypeInfo name "" ∅) (List.find (fun it => it_Name it =?s name) instancetypes).

Definition ResolvePreference (preferences : list PreferenceInfo) (explicitPreference workload : string)
    (matchedDataSource : option DataSourceInfo) : option PreferenceInfo :=
  if explicitPreference ≠?s "" then Some (preference_named preferences explicitPreference)
  else
    let by_workload :=
      List.find (fun p => Contains (ToLower (pi_Name p)) (ToLower (TrimSpace workload))) preferences in
    match matchedDataSource with
    | Some ds =>
        if ds_DefaultPreference ds ≠?s "" then Some (preference_named preferences (ds_DefaultPreference ds))
        else by_workload
    | None => by_workload
    end.

Definition ResolveInstancetype (instancetypes : list InstancetypeInfo)
    (explicitInstancetype size performance : string) (matchedDataSource : option DataSourceInfo) :
    option InstancetypeInfo :=
  if explicitInstancetype ≠?s "" then Some (instancetype_named instancetypes explicitInstancetype)
  else
    let by_size :=
      if size ≠?s "" then
        let name := MatchInstancetypeBySize instancetypes size performance in
        if name ≠?s "" then List.find (fun it => it_Name it =?s name) instancetypes else None
      else None in
    match matchedDataSource with
    | Some ds =>
        if (size =?s "") && (ds_DefaultInstancetype ds ≠?s "")
        then Some (instancetype_named instancetypes (ds_DefaultInstancetype ds))
        else by_size
    | None => by_size
    end.

(** * Specification *)

(** The object differs from [vm] only in its run strategy. *)
Definition spec_field (k : string) (o : object) : option yvalue :=
  match field "spec" o with Some (YMap spec) => field k spec | _ => None end.
Definition strategy_only (strategy : string) (vm vm' : object) : Prop :=
  spec_field "runStrategy" vm' = Some (YString strategy) /\
  (forall k, k <> "runStrategy" -> spec_field k vm' = spec_field k vm) /\
  (forall k, k <> "spec" -> field k vm' = field k vm).

(** Updates of a machine to the strategies, one after the other, each of the object
    the one before gave: all of them, or a first part of them. *)
Inductive strategy_updates : object -> list string -> list event -> Prop :=
| updates_end vm strategies : strategy_updates vm strategies []
| updates_failed vm vm' s strategies err :
    strategy_only s vm vm' ->
    strategy_updates vm (s :: strategies) [Ev (KUpdate VirtualMachineGVR (GetNamespace vm) vm' "") (Err err)]
| updates_step vm vm' vm1 s strategies tr :
    strategy_only s vm vm' -> strategy_updates vm1 strategies tr ->
    strategy_updates vm (s :: strategies) (Ev (KUpdate VirtualMachineGVR (GetNamespace vm) vm' "") (Ok vm1) :: tr).

(** The machine is read and updated to the strategies. *)
Definition machine_updates (namespace name : string) (strategies : list string) (tr : list event) : Prop :=
  (exists err, tr = [Ev (KGet VirtualMachineGVR namespace name "") (Err err)]) \/
  (exists vm tr', tr = Ev (KGet VirtualMachineGVR namespace name "") (Ok vm) :: tr' /\
     strategy_updates vm strategies tr').
(** A put of the subresource of the instance, and a read of the machine after it. *)
Definition instance_puts (namespace name subresource : string) (tr : list event) : Prop :=
  exists answer tr',
    tr = Ev (KSubresource "PUT" "subresources.kubevirt.io/v1" namespace "virtualmachineinstances" name subresource
               (Some [])) answer :: tr' /\
    match answer with
    | Ok (Ok _) => exists vm, tr' = [Ev (KGet VirtualMachineGVR namespace name "") vm]
    | _ => tr' = []
    end.

(** * Lemmas *)

Lemma SetVMRunStrategy_only strategy vm vm' :
  SetVMRunStrategy strategy vm = Ok vm' -> strategy_only strategy vm vm'.
Proof.
  unfold SetVMRunStrategy, strategy_only, spec_field. destruct (field "spec" vm) as [v|] eqn:Hs.
  - destruct v as [| | | | | | | |spec]; try done. intros [= <-]. rewrite field_set_eq. split; [apply field_set_eq|].
    split; intros k Hk; by apply field_set_ne.
  - intros [= <-]. rewrite field_set_eq. split; [done|]. split; intros k Hk; [|by apply field_set_ne].
    cbn. by rewrite bool_decide_false.
Qed.

Lemma strategy_only_namespace s vm vm' : strategy_only s vm vm' -> GetNamespace vm' = GetNamespace vm.
Proof. intros (_ & _ & H). unfold GetNamespace, NestedString. cbn [nested_field]. by rewrite H. Qed.

Lemma update_strategy_runs s sf uf vm tr r :
  runs (update_strategy s sf uf vm) tr r ->
  (tr = [] /\ exists err, r = Err err) \/
  exists vm', strategy_only s vm vm' /\
    ((exists err, tr = [Ev (KUpdate VirtualMachineGVR (GetNamespace vm) vm' "") (Err err)] /\ r = Err (wrapf uf err)) \/
     (exists vm1, tr = [Ev (KUpdate VirtualMachineGVR (GetNamespace vm) vm' "") (Ok vm1)] /\ r = Ok vm1)).
Proof.
  unfold update_strategy. destruct (SetVMRunStrategy s vm) as [vm'|err] eqn:Hs.
  - apply SetVMRunStrategy_only in Hs. intros (answer & tr' & -> & [-> ->]). right. exists vm'. split; [done|].
    rewrite (strategy_only_namespace _ _ _ Hs).
    destruct answer as [vm1|err]; [right; by exists vm1|left; by exists err].
  - intros [-> ->]. left. split; [done|by eexists].
Qed.

(** The runs of [StartVM] and [StopVM]. *)
Lemma ensure_strategy_runs s uf ns name tr r :
  runs (ensure_strategy s uf ns name) tr r ->
  machine_updates ns name [s] tr /\
  forall vm changed, r = Ok (vm, changed) ->
    if changed : bool then exists vm0 vm1, strategy_only s vm0 vm1 /\
      tr = [Ev (KGet VirtualMachineGVR ns name "") (Ok vm0);
            Ev (KUpdate VirtualMachineGVR (GetNamespace vm0) vm1 "") (Ok vm)]
    else tr = [Ev (KGet VirtualMachineGVR ns name "") (Ok vm)] /\ GetVMRunStrategy vm = Ok (Some s).
Proof.
  intros (answer & tr' & -> & H). destruct answer as [vm|err].
  2:{ destruct H as [-> ->]. split; [left; by eexists|done]. }
  cbn [mbind prog_bind prog_then call] in H. destruct (GetVMRunStrategy vm) as [current|err] eqn:Hg.
  2:{ destruct H as [-> ->]. split; [right; exists vm, []; split; [done|constructor]|done]. }
  case_bool_decide as Hc.
  { destruct H as [-> ->]. split; [right; exists vm, []; split; [done|constructor]|].
    intros vm1 changed [= <- <-]. by subst. }
  apply runs_try in H as [(tr1 & vm1 & tr2 & -> & H & [-> ->])|(err & H & ->)];
    apply update_strategy_runs in H as [[-> [err' Hr]]|(vm' & Hv & [(err' & -> & Hr)|(vm2 & -> & Hr)])]; try done.
  - injection Hr as <-. rewrite app_nil_r. split.
    + right. eexists _, _. split; [done|]. eapply updates_step; [done|constructor].
    + intros vm2 changed [= <- <-]. by exists vm, vm'.
  - split; [right; exists vm, []; split; [done|constructor]|done].
  - split; [|done]. right. eexists _, _. split; [done|]. by constructor.
Qed.

(** A restart that succeeds halts the machine and starts it again; one that fails
    between the updates leaves it halted. *)
Lemma RestartVM_runs ns name tr r :
  runs (RestartVM ns name) tr r ->
  machine_updates ns name [RunStrategyHalted; RunStrategyAlways] tr /\
  forall vm, r = Ok vm -> exists vm0 h vm1 a,
    strategy_only RunStrategyHalted vm0 h /\ strategy_only RunStrategyAlways vm1 a /\
    tr = [Ev (KGet VirtualMachineGVR ns name "") (Ok vm0);
          Ev (KUpdate VirtualMachineGVR (GetNamespace vm0) h "") (Ok vm1);
          Ev (KUpdate VirtualMachineGVR (GetNamespace vm1) a "") (Ok vm)].
Proof.
  intros (answer & tr' & -> & H). destruct answer as [vm|err].
  2:{ destruct H as [-> ->]. split; [left; by eexists|done]. }
  apply runs_try in H as [(tr1 & vm1 & tr2 & -> & H1 & H2)|(err & H & ->)].
  - apply update_strategy_runs in H1 as [[-> [err' Hr]]|(h & Hh & [(err' & -> & Hr)|(vm2 & -> & Hr)])]; try done.
    injection Hr as <-.
    apply update_strategy_runs in H2 as [[-> [err' ->]]|(a & Ha & [(err' & -> & ->)|(vm3 & -> & ->)])].
    + split; [|done]. right. eexists _, _. split; [done|]. eapply updates_step; [done|constructor].
    + split; [|done]. right. eexists _, _. split; [done|]. eapply updates_step; [done|]. by constructor.
    + split; [right; eexists _, _; split; [done|]; do 2 (eapply updates_step; [done|]); constructor|].
      intros vm4 [= <-]. by exists vm, h, vm1, a.
  - apply update_strategy_runs in H as [[-> [err' Hr]]|(h & Hh & [(err' & -> & Hr)|(vm2 & -> & Hr)])]; try done;
      (split; [|done]); right; eexists _, _; (split; [done|]); by constructor.
Qed.

Lemma instance_put_runs sub failure ns name tr r :
  runs (instance_put sub failure ns name) tr r -> instance_puts ns name sub tr.
Proof.
  intros (answer & tr' & -> & H). exists answer, tr'. split; [done|]. destruct answer as [[o|err]|err].
  - destruct H as (vm & tr1 & -> & [-> _]). by exists vm.
  - by destruct H as [-> _].
  - by destruct H as [-> _].
Qed.

Lemma find_In {A} (f : A -> bool) l x : List.find f l = Some x -> x ∈ l /\ f x = true.
Proof. intros H. apply find_some in H as [H1 H2]. by rewrite list_elem_of_In. Qed.
(** ** Guest information *)

Definition guest_read (ns name sub : string) (answer : result (result object)) : event :=
  Ev (KSubresource "GET" "subresources.kubevirt.io/v1" ns "virtualmachineinstances" name sub None) answer.
(** The entry of a query in the result: what it gave, or the text of its error. *)
Definition guest_entry (key : string) (answer : result (result object)) (info : object) : Prop :=
  match answer with
  | Ok (Ok o) => field key info = Some (YMap o)
  | _ => field key info = None /\ exists text, field (key +:+ "Error") info = Some (YString text)
  end.

(** What a query makes of the answer. *)
Definition guest_result (answer : result (result object)) (r : result object) : Prop :=
  match answer with Ok (Ok o) => r = Ok o | _ => exists err, r = Err err end.
Definition result_entry (key : string) (r : result object) (info : object) : Prop :=
  match r with
  | Ok o => field key info = Some (YMap o)
  | Err _ => field key info = None /\ exists text, field (key +:+ "Error") info = Some (YString text)
  end.

Lemma guest_query_runs sub what ns name tr r :
  runs (guest_query sub what ns name) tr r -> exists a, tr = [guest_read ns name sub a] /\ guest_result a r.
Proof.
  intros (a & tr1 & -> & H). exists a. destruct a as [[o|err]|err]; destruct H as [-> ->]; (split; [done|]);
    [done|by eexists..].
Qed.

Lemma guest_failed a r : guest_result a r -> (is_ok r = false <-> forall o, a <> Ok (Ok o)).
Proof.
  destruct a as [[o|err]|err]; cbn; [intros ->; split; [done|by intros H; destruct (H o)]|..];
    (intros [err' ->]; split; [done|done]).
Qed.

Lemma guest_entry_of key a r info : guest_result a r -> result_entry key r info -> guest_entry key a info.
Proof. destruct a as [[o|err]|err]; cbn; [by intros ->|by intros [err' ->]..]. Qed.

(** * Properties *)

(** All information about a guest: four reads and nothing else.  The answer is an error
    only when all four fail; otherwise it has what each query gave or why it failed. *)
Theorem GetAllGuestInfo_partial ns name tr r :
  runs (GetAllGuestInfo ns name) tr r ->
  exists a1 a2 a3 a4,
    tr = [guest_read ns name "guestosinfo" a1; guest_read ns name "filesystemlist" a2;
          guest_read ns name "userlist" a3; guest_read ns name "interfacelist" a4] /\
    ((exists err, r = Err err) <-> Forall (fun a => forall o, a <> Ok (Ok o)) [a1; a2; a3; a4]) /\
    forall info, r = Ok info ->
      guest_entry "guestOSInfo" a1 info /\ guest_entry "filesystems" a2 info /\
      guest_entry "users" a3 info /\ guest_entry "networkInterfaces" a4 info.
Proof.
  unfold GetAllGuestInfo. intros (tr0 & [info0 errs] & tr5 & -> & H & [-> ->])%runs_then. rewrite app_nil_r.
  unfold guest_infos in H. cbn [collect_infos] in H.
  apply runs_then in H as (t1 & r1 & t1' & -> & (a1 & -> & H1)%guest_query_runs & H).
  apply runs_then in H as (t2 & x & t2' & -> & H & [-> Hx]).
  apply runs_then in H as (t3 & r2 & t3' & -> & (a2 & -> & H2)%guest_query_runs & H).
  apply runs_then in H as (t4 & y & t4' & -> & H & [-> Hy]).
  apply runs_then in H as (t5 & r3 & t5' & -> & (a3 & -> & H3)%guest_query_runs & H).
  apply runs_then in H as (t6 & z & t6' & -> & H & [-> Hz]).
  apply runs_then in H as (t7 & r4 & t7' & -> & (a4 & -> & H4)%guest_query_runs & H).
  apply runs_then in H as (t8 & u & t8' & -> & [-> Hu] & [-> Hv]).
  exists a1, a2, a3, a4. split; [done|]. subst u z y x.
  rewrite !Forall_cons, <- (guest_failed _ _ H1), <- (guest_failed _ _ H2), <- (guest_failed _ _ H3),
    <- (guest_failed _ _ H4).
  split; [|intros info Hi; split_and!; eapply guest_entry_of; try done];
    destruct r1, r2, r3, r4; injection Hx as -> ->; cbn in *.
  all: try (injection Hi as <-); try done; try (by split; [done|by eexists]).
  all: try (split; [by intros [? ?]|by intros (? & ? & ? & ? & _)]).
Qed.

(** Choosing an instance type by size: there is one exactly when a name contains the
    size; it is the name of such an instance type, of the wanted family as soon as one
    of these has its prefix. *)
Theorem MatchInstancetypeBySize_spec instancetypes size performance :
  Forall (fun it => it_Name it <> "") instancetypes ->
  let fits it := Contains (ToLower (it_Name it)) (ToLower (TrimSpace size)) = true in
  let family it := HasPrefix (ToLower (it_Name it)) (ToLower (TrimSpace performance) +:+ ".") = true in
  let name := MatchInstancetypeBySize instancetypes size performance in
  (name = "" <-> Forall (fun it => ~ fits it) instancetypes) /\
  (name <> "" -> exists it, it ∈ instancetypes /\ it_Name it = name /\ fits it /\
     ((exists it', it' ∈ instancetypes /\ fits it' /\ family it') -> family it)).
Proof.
  intros Hne fits family name.
  assert (forall it, it ∈ FilterInstancetypesBySize instancetypes (ToLower (TrimSpace size)) <->
    it ∈ instancetypes /\ fits it) as Hin.
  { intros it. unfold FilterInstancetypesBySize, fits. rewrite !list_elem_of_In, filter_In. done. }
  assert (match FilterInstancetypesBySize instancetypes (ToLower (TrimSpace size)) with
          | [] => name = ""
          | _ => exists it, it ∈ instancetypes /\ it_Name it = name /\ fits it /\
              ((exists it', it' ∈ instancetypes /\ fits it' /\ family it') -> family it)
          end) as H.
  { unfold name, MatchInstancetypeBySize. cbv zeta.
    destruct (FilterInstancetypesBySize _ _) as [|c cs]; [done|].
    destruct (List.find _ (c :: cs)) as [it|] eqn:Hf.
    { apply find_In in Hf as [Hc Hp]. apply Hin in Hc as [? ?]. by exists it. }
    assert (~ exists it', it' ∈ instancetypes /\ fits it' /\ family it') as Hno.
    { intros (it' & H1 & H2 & H3). pose proof (proj2 (Hin it') (conj H1 H2)) as Hc. apply list_elem_of_In in Hc.
      pose proof (find_none _ _ Hf _ Hc) as E. cbv beta in E. unfold family in H3. by rewrite H3 in E. }
    match goal with |- context [List.find ?f (c :: cs)] => destruct (List.find f (c :: cs)) as [it|] eqn:Hl end.
    { apply find_In in Hl as [Hc _]. apply Hin in Hc as [? ?]. by exists it. }
    exists c. destruct (proj1 (Hin c) (list_elem_of_here _ _)). split_and!; [done|done|done|]. by intros Hf'; destruct Hno. }
  rewrite Forall_forall in Hne. destruct (FilterInstancetypesBySize _ _) as [|c cs].
  - split; [|by rewrite H]. split; [intros _|done]. apply Forall_forall. intros it Hit Hf.
    by apply (not_elem_of_nil it), Hin.
  - destruct H as (it & H1 & H2 & H3 & H4). split; [|intros _; by exists it]. split.
    + intros Hn. rewrite <- H2 in Hn. by destruct (Hne it H1).
    + intros Hall. rewrite Forall_forall in Hall. by destruct (Hall it H1).
Qed.
