(* ===== verification/KubeVirtTools.v ===== *)
(** The tools and a prompt of the kubevirt toolset (pkg/toolsets/kubevirt: vm/clone,
    vm/create with its template, vm/guestagent, vm/lifecycle, vm/template, and
    windows_golden_image.go), as programs over the cluster.  The YAML and JSON codecs,
    the parsing of URLs and the order of ranging over maps are parameters.  Of the
    schemas the types, descriptions and properties are kept. *)
From S2P Require Import Prelude GoStrings Api Params Toolsets Config Confirmation Validators Tools Prompts Unstructured Cluster Core CoreTools KubeVirt.

(** * Definitions *)

(** internal/defaults, with the overrides of this repository *)
Definition ProductName : string := "OpenShift Virtualization".
Definition WindowsEFIInstallerTektonCatalog : string := "kubevirt-tekton-pipelines".

(** ** The tools *)

Definition vm_clone_tool : Tool :=
  mkTool "vm_clone"
    (fmt ["Clone a VirtualMachine on "; ProductName; " by creating a VirtualMachineClone resource. This creates a copy of the source VM with a new name using the "; ProductName; " Clone API"])
    (mkToolAnnotations "Virtual Machine: Clone" (Some false) (Some true) (Some true) (Some false)) []
    (Some (mkSchema "object" "" (Some [
       ("namespace", mkSchema "string" "The namespace of the source virtual machine" None);
       ("name", mkSchema "string" "The name of the source virtual machine to clone" None);
       ("targetName", mkSchema "string" "The name for the new cloned virtual machine" None)]))) None.

Definition vm_create_tool : Tool :=
  mkTool "vm_create"
    (fmt ["Create a VirtualMachine on "; ProductName; " with the specified configuration, automatically resolving instance types, preferences, and container disk images. VM will be created in Halted state by default; use autostart parameter to start it immediately."])
    (mkToolAnnotations "Virtual Machine: Create" (Some false) (Some true) (Some true) (Some false)) []
    (Some (mkSchema "object" "" (Some [
       ("namespace", mkSchema "string" "The namespace for the virtual machine" None);
       ("name", mkSchema "string" "The name of the virtual machine" None);
       ("workload", mkSchema "string" "The workload for the VM. Accepts OS names (e.g., 'fedora' (default), 'ubuntu', 'centos', 'centos-stream', 'debian', 'rhel', 'opensuse', 'opensuse-tumbleweed', 'opensuse-leap') or full container disk image URLs" None);
       ("instancetype", mkSchema "string" "Optional instance type name for the VM (e.g., 'u1.small', 'u1.medium', 'u1.large')" None);
       ("preference", mkSchema "string" "Optional preference name for the VM" None);
       ("size", mkSchema "string" "Optional workload size hint for the VM (e.g., 'small', 'medium', 'large', 'xlarge'). Used to auto-select an appropriate instance type if not explicitly specified." None);
       ("performance", mkSchema "string" "Optional performance family hint for the VM instance type (e.g., 'u1' for general-purpose, 'o1' for overcommitted, 'c1' for compute-optimized, 'm1' for memory-optimized). Defaults to 'u1' (general-purpose) if not specified." None);
       ("autostart", mkSchema "boolean" "Optional flag to automatically start the VM after creation (sets runStrategy to Always instead of Halted). Defaults to false." None);
       ("storage", mkSchema "string" "Optional storage size for the VM's root disk when using DataSources (e.g., '30Gi', '50Gi', '100Gi'). Defaults to 30Gi. Ignored when using container disks." None);
       ("networks", mkSchema "array" "Optional secondary network interfaces to attach to the VM. Each item specifies a Multus NetworkAttachmentDefinition to attach. Accepts either simple strings (NetworkAttachmentDefinition names) or objects with 'name' (interface name in VM) and 'networkName' (NetworkAttachmentDefinition name) properties. Each network creates a bridge interface on the VM." None)]))) None.

Definition vm_guest_info_tool : Tool :=
  mkTool "vm_guest_info"
    "Get guest operating system information from a VirtualMachine's QEMU guest agent. Requires the guest agent to be installed and running inside the VM. Provides detailed information about the OS, filesystems, network interfaces, and logged-in users."
    (mkToolAnnotations "Virtual Machine: Guest Agent Info" (Some true) (Some false) (Some true) (Some false)) []
    (Some (mkSchema "object" "" (Some [
       ("namespace", mkSchema "string" "The namespace of the virtual machine" None);
       ("name", mkSchema "string" "The name of the virtual machine" None);
       ("info_type", mkSchema "string" "Type of information to retrieve: 'all' (default - all available info), 'os' (operating system details), 'filesystem' (disk and filesystem info), 'users' (logged-in users), 'network' (network interfaces and IPs)" None)]))) None.

Definition vm_lifecycle_tool : Tool :=
  mkTool "vm_lifecycle"
    (fmt ["Manage "; ProductName; " VirtualMachine lifecycle: start, stop, restart, pause, or unpause a VM"])
    (mkToolAnnotations "Virtual Machine: Lifecycle" (Some false) (Some true) (Some false) (Some false)) []
    (Some (mkSchema "object" "" (Some [
       ("namespace", mkSchema "string" "The namespace of the virtual machine" None);
       ("name", mkSchema "string" "The name of the virtual machine" None);
       ("action", mkSchema "string" "The lifecycle action to perform: 'start' (changes runStrategy to Always), 'stop' (changes runStrategy to Halted), 'restart' (stops then starts the VM), 'pause' (suspends the running VMI in-place), or 'unpause' (resumes a paused VMI)" None)]))) None.

Definition vm_create_from_template_tool : Tool :=
  mkTool "vm_create_from_template"
    (fmt ["Create a VirtualMachine from a VirtualMachineTemplate (virt-template) on "; ProductName; ". Processes the template server-side to substitute parameters (required values, defaults, and auto-generated values like passwords), then creates the resulting VirtualMachine in the same namespace. Cross-namespace template usage is not supported."])
    (mkToolAnnotations "Virtual Machine: Create from Template" (Some false) (Some true) (Some false) (Some false)) []
    (Some (mkSchema "object" "" (Some [
       ("namespace", mkSchema "string" "The namespace of the VirtualMachineTemplate and the resulting VirtualMachine (must be the same)" None);
       ("template_name", mkSchema "string" "The name of the VirtualMachineTemplate to create the VM from" None);
       ("parameters", mkSchema "object" "Parameter values to substitute in the template. Keys are parameter names (e.g. VM_NAME), values are strings. Required parameters must be provided; optional parameters use their defaults if omitted; parameters with generate/from will be auto-generated if not provided." None)]))) None.


(** ** vm/create *)

Record NetworkConfig := mkNetworkConfig { nc_Name : string; nc_NetworkName : string }.
Record createParameters := mkCreateParameters {
  cp_Namespace : string;
  cp_Name : string;
  cp_Workload : string;
  cp_Instancetype : string;
  cp_Preference : string;
  cp_Size : string;
  cp_Performance : string;
  cp_Storage : string;
  cp_Autostart : bool;
  cp_Networks : list NetworkConfig;
}.
Record vmParams := mkVmParams {
  vp_Namespace : string;
  vp_Name : string;
  vp_ContainerDisk : string;
  vp_Instancetype : string;
  vp_InstancetypeKind : string;
  vp_Preference : string;
  vp_PreferenceKind : string;
  vp_UseDataSource : bool;
  vp_DataSourceName : string;
  vp_DataSourceNamespace : string;
  vp_Storage : string;
  vp_RunStrategy : string;
  vp_Networks : list NetworkConfig;
}.

Definition optionalArray (args : arguments) (key : string) : list jvalue :=
  match args !! key with Some (JArray l) => l | _ => [] end.

(** The string under a key of a JSON object: empty when it is missing or no string. *)
Fixpoint json_string (key : string) (kvs : list (string * jvalue)) : string :=
  match kvs with
  | [] => ""
  | (k, v) :: kvs => if key =?s k then match v with JString s => s | _ => "" end else json_string key kvs
  end.
Fixpoint parseNetworks (i : nat) (input : list jvalue) : result (list NetworkConfig) :=
  match input with
  | [] => Ok []
  | item :: input =>
      let rest := parseNetworks (S i) input in
      let add n := match rest with Ok ns => Ok (n :: ns) | Err err => Err err end in
      match item with
      | JString v => if v =?s "" then rest else add (mkNetworkConfig v v)
      | JObject kvs =>
          let networkName := json_string "networkName" kvs in
          if networkName =?s "" then
            Err (ErrNew (fmt ["network at index "; itoa (Z.of_nat i); " missing required 'networkName' field"]))
          else
            let name := json_string "name" kvs in
            add (mkNetworkConfig (if name =?s "" then networkName else name) networkName)
      | _ =>
          Err (ErrNew (fmt ["network at index "; itoa (Z.of_nat i); " has invalid type: expected string or object"]))
      end
  end.

Definition performanceMap : gmap string string :=
  list_to_map [("general-purpose", "u1"); ("generalpurpose", "u1"); ("general", "u1"); ("overcommitted", "o1");
    ("compute", "c1"); ("compute-optimized", "c1"); ("computeoptimized", "c1"); ("memory-optimized", "m1");
    ("memoryoptimized", "m1"); ("memory", "m1"); ("u1", "u1"); ("o1", "o1"); ("c1", "c1"); ("m1", "m1")].
Definition normalizePerformance (performance : string) : string :=
  default "u1" (performanceMap !! ToLower (TrimSpace performance)).

Definition osMap : gmap string string :=
  list_to_map [("fedora", "quay.io/containerdisks/fedora:latest"); ("ubuntu", "quay.io/containerdisks/ubuntu:24.04");
    ("centos", "quay.io/containerdisks/centos-stream:9-latest");
    ("centos-stream", "quay.io/containerdisks/centos-stream:9-latest");
    ("debian", "quay.io/containerdisks/debian:latest");
    ("opensuse", "quay.io/containerdisks/opensuse-tumbleweed:1.0.0");
    ("opensuse-tumbleweed", "quay.io/containerdisks/opensuse-tumbleweed:1.0.0");
    ("opensuse-leap", "quay.io/containerdisks/opensuse-leap:15.6");
    ("rhel8", "registry.redhat.io/rhel8/rhel-guest-image:latest");
    ("rhel9", "registry.redhat.io/rhel9/rhel-guest-image:latest");
    ("rhel10", "registry.redhat.io/rhel10/rhel-guest-image:latest")].
Definition resolveContainerDisk (input : string) : string :=
  if Contains input "/" || Contains input ":" then input
  else default input (osMap !! ToLower (TrimSpace input)).

Definition parseCreateParameters (args : arguments) : result createParameters :=
  let p := WrapParams args in
  let '(namespace, p) := Params_RequiredString "namespace" p in
  let '(name, p) := Params_RequiredString "name" p in
  let '(workload, p) := Params_OptionalString "workload" "fedora" p in
  let '(instancetype, p) := Params_OptionalString "instancetype" "" p in
  let '(preference, p) := Params_OptionalString "preference" "" p in
  let '(size, p) := Params_OptionalString "size" "" p in
  let '(performance, p) := Params_OptionalString "performance" "" p in
  let '(storage, p) := Params_OptionalString "storage" "30Gi" p in
  let '(autostart, p) := Params_OptionalBool "autostart" false p in
  match Params_Err p with
  | Some err => Err err
  | None =>
      match parseNetworks 0 (optionalArray args "networks") with
      | Err err => Err (wrapf "invalid networks parameter: " err)
      | Ok networks =>
          Ok (mkCreateParameters namespace name workload instancetype preference size
                (normalizePerformance performance) storage autostart networks)
      end
  end.

Definition buildTemplateParams (c : createParameters) (matchedDataSource : option DataSourceInfo)
    (instancetypeInfo : option InstancetypeInfo) (preferenceInfo : option PreferenceInfo) : vmParams :=
  let '(instancetype, instancetypeKind) :=
    match instancetypeInfo with
    | Some it => (it_Name it, if it_Namespace it =?s "" then "VirtualMachineClusterInstancetype"
                              else "VirtualMachineInstancetype")
    | None => ("", "")
    end in
  let '(preference, preferenceKind) :=
    match preferenceInfo with
    | Some p => (pi_Name p, if pi_Namespace p =?s "" then "VirtualMachineClusterPreference"
                            else "VirtualMachinePreference")
    | None => ("", "")
    end in
  let vm disk use dsName dsNamespace :=
    mkVmParams (cp_Namespace c) (cp_Name c) disk instancetype instancetypeKind preference preferenceKind
      use dsName dsNamespace (cp_Storage c) (if cp_Autostart c then "Always" else "Halted") (cp_Networks c) in
  match matchedDataSource with
  | Some ds =>
      if ds_Namespace ds ≠?s "" then vm "" true (ds_Name ds) (ds_Namespace ds)
      else vm (ds_Source ds) false "" ""
  | None => vm (resolveContainerDisk (cp_Workload c)) false "" ""
  end.

(** vm.yaml.tmpl: the lines of the text. *)
Definition when_lines (b : bool) (lines : list string) : list string := if b then lines else [].
Definition vm_yaml_lines (p : vmParams) : list string :=
  let has_networks := Nat.ltb 0 (length (vp_Networks p)) in
  ["apiVersion: kubevirt.io/v1"; "kind: VirtualMachine"; "metadata:"; "  name: " +:+ vp_Name p;
   "  namespace: " +:+ vp_Namespace p; "spec:"; "  runStrategy: " +:+ vp_RunStrategy p]
  ++ when_lines (vp_Instancetype p ≠?s "")
       ["  instancetype:"; "    name: " +:+ vp_Instancetype p; "    kind: " +:+ vp_InstancetypeKind p]
  ++ when_lines (vp_Preference p ≠?s "")
       ["  preference:"; "    name: " +:+ vp_Preference p; "    kind: " +:+ vp_PreferenceKind p]
  ++ when_lines (vp_UseDataSource p)
       ["  dataVolumeTemplates:"; "  - metadata:"; "      name: " +:+ vp_Name p +:+ "-rootdisk"; "    spec:";
        "      sourceRef:"; "        kind: DataSource"; "        name: " +:+ vp_DataSourceName p;
        "        namespace: " +:+ vp_DataSourceNamespace p; "      storage:"; "        resources:";
        "          requests:"; "            storage: " +:+ vp_Storage p]
  ++ ["  template:"; "    spec:"; "      domain:"; "        devices:"; "          disks:";
      "          - name: " +:+ vp_Name p +:+ "-rootdisk"]
  ++ when_lines has_networks
       ("          interfaces:" ::
        flat_map (fun n => ["          - name: " +:+ nc_Name n; "            bridge: {}"]) (vp_Networks p))
  ++ when_lines (vp_Instancetype p =?s "") ["        memory:"; "          guest: 2Gi"]
  ++ when_lines has_networks
       ("      networks:" ::
        flat_map (fun n => ["      - name: " +:+ nc_Name n; "        multus:";
                            "          networkName: " +:+ nc_NetworkName n]) (vp_Networks p))
  ++ ["      volumes:"; "      - name: " +:+ vp_Name p +:+ "-rootdisk"]
  ++ (if vp_UseDataSource p then ["        dataVolume:"; "          name: " +:+ vp_Name p +:+ "-rootdisk"]
      else ["        containerDisk:"; "          image: " +:+ vp_ContainerDisk p]).
(** The template is a constant that parses, and its fields exist. *)
Definition renderVMYaml (p : vmParams) : string := fmt (map (fun line => line +:+ nl) (vm_yaml_lines p)).

Section Handlers.
Context (MarshalYaml : list object -> printed) (MarshalYaml_object : object -> printed).
Context (Decode : string -> result object).
Context (range_sources : gmap string DataSourceInfo -> list DataSourceInfo).

(** The answer with the machine that an operation gave. *)
Definition shown (message what : string) (p : printed) : ToolCallResult :=
  match p with
  | (text, None) => NewToolCallResult (message +:+ text) None
  | (_, Some err) => failed (fmt ["failed to marshal "; what; ": "]) err
  end.

Definition create (args : arguments) : prog ToolCallResult :=
  match parseCreateParameters args with
  | Err err => Ret (NewToolCallResult "" (Some err))
  | Ok c =>
      dataSources ← SearchDataSources;
      let matched := MatchDataSource range_sources dataSources (cp_Workload c) in
      preferences ← SearchPreferences (cp_Namespace c);
      instancetypes ← SearchInstancetypes (cp_Namespace c);
      let preferenceInfo := ResolvePreference preferences (cp_Preference c) (cp_Workload c) matched in
      let instancetypeInfo :=
        ResolveInstancetype instancetypes (cp_Instancetype c) (cp_Size c) (cp_Performance c) matched in
      resources ← Core.ResourcesCreateOrUpdate Decode
                    (renderVMYaml (buildTemplateParams c matched instancetypeInfo preferenceInfo));
      Ret (match resources with
           | Err err => failed "failed to create VirtualMachine: " err
           | Ok resources =>
               shown (fmt ["# VirtualMachine created successfully"; nl]) "created VirtualMachine"
                 (MarshalYaml resources)
           end)
  end.

(** Required string arguments, one after the other. *)
Definition with_string (args : arguments) (key : string) (k : string -> prog ToolCallResult) : prog ToolCallResult :=
  match RequiredString args key with
  | Err err => Ret (NewToolCallResult "" (Some err))
  | Ok v => k v
  end.

(** ** vm/clone *)
Definition cloneVM (args : arguments) : prog ToolCallResult :=
  with_string args "namespace" (fun namespace =>
  with_string args "name" (fun name =>
  with_string args "targetName" (fun targetName =>
    r ← CloneVM namespace name targetName;
    Ret (match r with
         | Err err => NewToolCallResult "" (Some err)
         | Ok o => shown (fmt ["# VirtualMachineClone created successfully"; nl]) "VirtualMachineClone"
                     (MarshalYaml [o])
         end)))).

(** ** vm/lifecycle *)
Definition ActionStart : string := "start".
Definition ActionStop : string := "stop".
Definition ActionRestart : string := "restart".
Definition ActionPause : string := "pause".
Definition ActionUnpause : string := "unpause".

(** The machine after the action, with the message. *)
Definition lifecycle_action (namespace name action : string) : prog (result (object * string)) :=
  let changed p done_ already :=
    r <-? p;
    Ret (Ok (r.1, if r.2 : bool then fmt ["# VirtualMachine "; done_; " successfully"; nl]
                  else fmt ["# VirtualMachine '"; name; "' in namespace '"; namespace; "' is already "; already; nl])) in
  let simple p done_ := o <-? p; Ret (Ok (o, fmt ["# VirtualMachine "; done_; " successfully"; nl])) in
  if action =?s ActionStart then changed (StartVM namespace name) "started" "running"
  else if action =?s ActionStop then changed (StopVM namespace name) "stopped" "stopped"
  else if action =?s ActionRestart then simple (RestartVM namespace name) "restarted"
  else if action =?s ActionPause then simple (PauseVM namespace name) "paused"
  else if action =?s ActionUnpause then simple (UnpauseVM namespace name) "unpaused"
  else
    Ret (Err (ErrNew (fmt ["invalid action '"; action;
      "': must be one of 'start', 'stop', 'restart', 'pause', 'unpause'"]))).
Definition lifecycle (args : arguments) : prog ToolCallResult :=
  with_string args "namespace" (fun namespace =>
  with_string args "name" (fun name =>
  with_string args "action" (fun action =>
    r ← lifecycle_action namespace name action;
    Ret (match r with
         | Err err => NewToolCallResult "" (Some err)
         | Ok (vm, message) => shown message "VirtualMachine" (MarshalYaml [vm])
         end)))).

(** ** vm/guestagent *)
Definition validateVMI (namespace name : string) : prog (option error) :=
  vmi ← call (KGet VirtualMachineInstanceGVR namespace name "");
  Ret (match vmi with
       | Err err => Some (wrapf "VirtualMachineInstance not found - VM may not be running: " err)
       | Ok vmi =>
           let phase := default "" (found_string vmi ["status"; "phase"]) in
           if phase ≠?s "Running" then
             Some (ErrNew (fmt ["VirtualMachineInstance is not running (phase: "; phase;
                                ") - guest agent requires VM to be running"]))
           else None
       end).
(** A single query, as a map with one entry. *)
Definition single_info (key : string) (p : prog (result object)) : prog (result object) :=
  o <-? p; Ret (Ok [(key, YMap o)]).
Definition fetchGuestInfo (namespace name infoType : string) : prog (result object) :=
  if infoType =?s "os" then single_info "guestOSInfo" (GetGuestOSInfo namespace name)
  else if infoType =?s "filesystem" then single_info "filesystems" (GetFilesystemInfo namespace name)
  else if infoType =?s "users" then single_info "users" (GetUserInfo namespace name)
  else if infoType =?s "network" then single_info "networkInterfaces" (GetNetworkInfo namespace name)
  else if infoType =?s "all" then GetAllGuestInfo namespace name
  else
    Ret (Err (ErrNew (fmt ["invalid info_type '"; infoType;
      "': must be one of 'all', 'os', 'filesystem', 'users', 'network'"]))).
Definition formatGuestInfoOutput (namespace name infoType : string) (result : object) : ToolCallResult :=
  shown (fmt ["# Guest Agent Information for VM: "; namespace; "/"; name; nl; nl;
              if infoType ≠?s "all" then fmt ["**Info Type:** "; infoType; nl; nl] else ""])
    "guest agent info" (MarshalYaml_object result).
Definition guestInfo (args : arguments) : prog ToolCallResult :=
  with_string args "namespace" (fun namespace =>
  with_string args "name" (fun name =>
    let fetch infoType :=
      err ← validateVMI namespace name;
      match err with
      | Some err => Ret (NewToolCallResult "" (Some err))
      | None =>
          r ← fetchGuestInfo namespace name infoType;
          Ret (match r with
               | Err err => NewToolCallResult "" (Some err)
               | Ok result => formatGuestInfoOutput namespace name infoType result
               end)
      end in
    match argument args "info_type" with
    | None => fetch "all"
    | Some (JString s) => fetch s
    | Some _ => Ret (refused "info_type parameter must be a string")
    end)).

(** ** vm/template *)

(** Of an argument decoded from JSON. *)
Fixpoint string_parameters (kvs : list (string * jvalue)) : result (list (string * string)) :=
  match kvs with
  | [] => Ok []
  | (key, JString s) :: kvs =>
      match string_parameters kvs with Ok l => Ok ((key, s) :: l) | Err err => Err err end
  | (key, val) :: _ =>
      Err (ErrNew (fmt ["parameter "; quote key; " value must be a string, got "; go_type_name val]))
  end.
Definition extractParameters (args : arguments) : result (list (string * string)) :=
  match argument args "parameters" with
  | None => Ok []
  | Some (JObject kvs) => string_parameters kvs
  | Some _ => Err (ErrNew "parameters must be an object mapping parameter names to string values")
  end.
Definition createFromTemplate (args : arguments) : prog ToolCallResult :=
  let p := WrapParams args in
  let '(namespace, p) := Params_RequiredString "namespace" p in
  let '(templateName, p) := Params_RequiredString "template_name" p in
  match Params_Err p with
  | Some err => Ret (NewToolCallResult "" (Some err))
  | None =>
      match extractParameters args with
      | Err err => Ret (NewToolCallResult "" (Some err))
      | Ok templateParams =>
          r ← CreateVMFromTemplate namespace templateName templateParams;
          Ret (match r with
               | Err err => NewToolCallResult "" (Some err)
               | Ok o => shown (fmt ["# VirtualMachine created from template successfully"; nl])
                           "created VirtualMachine" (MarshalYaml_object o)
               end)
      end
  end.

(** ** toolset.go, without the troubleshooting tool *)
Definition vm_tool (filters : list GroupVersionKind) (t : Tool) (handler : arguments -> prog ToolCallResult) :
    core_tool :=
  with_filters [filters] (core t handler).
Definition vm_tools : list core_tool :=
  [vm_tool HasVirtualMachine vm_clone_tool cloneVM; vm_tool HasVirtualMachine vm_create_tool create;
   vm_tool HasVirtualMachine vm_guest_info_tool guestInfo; vm_tool HasVirtualMachine vm_lifecycle_tool lifecycle;
   vm_tool HasVirtualMachineTemplate vm_create_from_template_tool createFromTemplate].
End Handlers.

(** ** windows_golden_image.go *)

Record windowsDefaults := mkWindowsDefaults {
  wd_preferenceName : string;
  wd_autounattendConfigMapName : string;
  wd_baseDvName : string;
  wd_isoDvName : string;
  wd_generateName : string;
}.
Definition windowsVersionDefaults : gmap string windowsDefaults :=
  list_to_map
    [("10", mkWindowsDefaults "windows.10.virtio" "windows10-efi-autounattend" "win10" "win10"
        "windows10-installer-run-");
     ("11", mkWindowsDefaults "windows.11.virtio" "windows11-autounattend" "win11" "win11"
        "windows11-installer-run-");
     ("2k22", mkWindowsDefaults "windows.2k22.virtio" "windows2k22-autounattend" "win2k22" "win2k22"
        "windows2k22-installer-run-");
     ("2k25", mkWindowsDefaults "windows.2k25.virtio" "windows2k25-autounattend" "win2k25" "win2k25"
        "windows2k25-installer-run-")].
Definition resolveWindowsDefaults (version : string) : option windowsDefaults := windowsVersionDefaults !! version.

(** [^\d+\.\d+\.\d+$] *)
Definition reVersionFormat (s : string) : bool :=
  let digits part := (part ≠?s "") && forallb (fun c => bool_decide (is_Some (digit_value c))) (String.list_ascii_of_string part) in
  match Split "." s with
  | [a; b; c] => digits a && digits b && digits c
  | _ => false
  end.

(** The pipeline run that is written in YAML. *)
Record golden_run := mkGoldenRun {
  gr_generateName : string;
  gr_namespace : string;
  gr_params : list (string * string);
  gr_resolver : string;
  gr_resolver_params : list (string * string);
  gr_task : string;
  gr_runAsUser_fsGroup : Z * Z;
  gr_timeout_hours : Z;
}.
Definition pipeline_run (winImageDownloadURL namespace pipelineVersion : string) (d : windowsDefaults)
    (acceptEula : bool) : golden_run :=
  mkGoldenRun (wd_generateName d) namespace
    [("winImageDownloadURL", winImageDownloadURL); ("acceptEula", if acceptEula then "true" else "false");
     ("preferenceName", wd_preferenceName d); ("autounattendConfigMapName", wd_autounattendConfigMapName d);
     ("baseDvName", wd_baseDvName d); ("isoDVName", wd_isoDvName d)]
    "hub"
    ([("catalog", WindowsEFIInstallerTektonCatalog); ("type", "artifact"); ("kind", "pipeline");
      ("name", "windows-efi-installer")]
     ++ (if pipelineVersion ≠?s "" then [("version", pipelineVersion)] else []))
    "modify-windows-iso-file" (107, 107)%Z 2.

Definition accepted_guide (pipelineRunYAML : string) : string :=
  fmt [
  "# "; ProductName; " Windows Golden Image Creator"; nl; nl; "The user has accepted the Microsoft EULA.";
    nl; nl; "## PipelineRun YAML"; nl; nl; "The following PipelineRun will:"; nl;
    "1. Download the Windows ISO from the provided URL"; nl; "2. Modify it for EFI automated installation";
    nl; "3. Create a VM and install Windows"; nl;
    "4. Produce a bootable DataSource/DataVolume as a golden image"; nl; nl; "```yaml"; nl; pipelineRunYAML;
    "```"; nl; nl; "---"; nl; nl; "## Steps"; nl; nl; "### Step 1: Apply the PipelineRun"; nl; nl;
    "**You MUST now apply the PipelineRun above using the `resources_create_or_update` tool.**"; nl; nl;
    "The EULA has been accepted, and the PipelineRun is ready to be created."; nl; nl;
    "### Step 2: Monitor Progress"; nl; nl; "After applying the PipelineRun:"; nl; nl;
    "1. Use the Tekton tools to monitor the PipelineRun status"; nl;
    "2. The pipeline may take up to 2 hours to complete"; nl;
    "3. Report progress to the user as the pipeline runs"; nl].

Definition fallback_guide (pipelineRunYAML : string) : string :=
  fmt [
  "# "; ProductName; " Windows Golden Image Creator"; nl; nl; "## EULA Notice"; nl; nl;
    "**IMPORTANT:** By setting the `acceptEula` parameter to `"; dq; "true"; dq;
    "` in the PipelineRun below, you agree to the Microsoft Software License Terms for the Windows operating system.";
    nl; nl;
    "Before proceeding, you **MUST** ask the user whether they accept the Microsoft End User License Agreement (EULA).";
    nl; nl; "---"; nl; nl; "## PipelineRun YAML"; nl; nl; "The following PipelineRun will:"; nl;
    "1. Download the Windows ISO from the provided URL"; nl; "2. Modify it for EFI automated installation";
    nl; "3. Create a VM and install Windows"; nl;
    "4. Produce a bootable DataSource/DataVolume as a golden image"; nl; nl; "```yaml"; nl; pipelineRunYAML;
    "```"; nl; nl; "---"; nl; nl; "## Steps"; nl; nl; "### Step 1: Ask for EULA Acceptance"; nl; nl;
    "Ask the user the following:"; nl; nl;
    "> To create the Windows golden image, you must accept the Microsoft End User License Agreement (EULA).";
    nl;
    "> By proceeding, you agree to the Microsoft Software License Terms for the Windows operating system.";
    nl; ">"; nl; "> Do you accept the Microsoft EULA? (yes/no)"; nl; nl;
    "**Do NOT proceed to Step 2 unless the user explicitly accepts.**"; nl;
    "**If the user does not accept, do NOT apply the YAML. Inform them that the operation has been cancelled.**";
    nl; nl; "### Step 2: Apply the PipelineRun"; nl; nl;
    "Only after the user has explicitly accepted the EULA:"; nl; nl;
    "1. In the YAML above, change `acceptEula` to `"; dq; "true"; dq; "` (it is currently set to `"; dq;
    "false"; dq; "`)"; nl; "2. Apply the YAML using the `resources_create_or_update` tool"; nl; nl;
    "### Step 3: Monitor Progress"; nl; nl; "After applying the PipelineRun:"; nl; nl;
    "1. Use the Tekton tools to monitor the PipelineRun status"; nl;
    "2. The pipeline may take up to 2 hours to complete"; nl;
    "3. Report progress to the user as the pipeline runs"; nl; nl; "---"; nl; nl; "## Prerequisites"; nl; nl;
    "- "; ProductName; nl; "- Tekton Pipelines"; nl;
    "- Both `kubevirt` and `tekton` toolsets must be enabled"; nl].

Definition buildAcceptedGuideResult (pipelineRunYAML : string) : PromptCallResult :=
  NewPromptCallResult "Windows golden image creation ready"
    [mkPromptMessage "user" (mkPromptContent "text" (accepted_guide pipelineRunYAML))] None.
Definition buildFallbackGuideResult (pipelineRunYAML : string) : PromptCallResult :=
  NewPromptCallResult "Windows golden image creation guide generated"
    [mkPromptMessage "user" (mkPromptContent "text" (fallback_guide pipelineRunYAML));
     mkPromptMessage "assistant" (mkPromptContent "text"
       "I'll help you create a Windows golden image. Before proceeding, I need to ask about the Microsoft EULA acceptance. Let me start with Step 1.")]
    None.
Definition cancelled_result : PromptCallResult :=
  NewPromptCallResult "Windows golden image creation cancelled"
    [mkPromptMessage "assistant" (mkPromptContent "text"
       "The Microsoft EULA was not accepted. The Windows golden image creation has been cancelled.")] None.

Inductive eulaConsentResult : Type := eulaAccepted | eulaDeclined | eulaElicitationUnsupported.
Definition eula_notice : string :=
  "Microsoft EULA Notice: By proceeding, you agree to the Microsoft Software License Terms for the Windows operating system. Do you accept the Microsoft End User License Agreement (EULA)?".
(** [None] is the nil elicitor. *)
Definition requestEULAConsent {W} (elicitor : option (Elicitor W)) : ST W (eulaConsentResult * option error) := fun w =>
  match elicitor with
  | None => ((eulaElicitationUnsupported, None), w)
  | Some elicit =>
      let '(r, w) := elicit eula_notice w in
      (match r with
       | Err err =>
           if isElicitationNotSupported err then (eulaElicitationUnsupported, None) else (eulaDeclined, Some err)
       | Ok action => (if action =?s ElicitActionAccept then eulaAccepted else eulaDeclined, None)
       end, w)
  end.

Section Windows.
(** A parsed URL, with whether it has user information. *)
Context (url_Parse : string -> result (URL * bool)) (yaml_Marshal : golden_run -> result string).

Definition buildStaticPipelineRun (winImageDownloadURL namespace pipelineVersion : string) (d : windowsDefaults)
    (acceptEula : bool) : result string :=
  match yaml_Marshal (pipeline_run winImageDownloadURL namespace pipelineVersion d acceptEula) with
  | Err err => Err (wrapf "failed to marshal PipelineRun: " err)
  | Ok text => Ok text
  end.
Definition guide (build : string -> PromptCallResult) (yaml : result string) : result PromptCallResult :=
  match yaml with
  | Err err => Err (wrapf "failed to build PipelineRun YAML: " err)
  | Ok text => Ok (build text)
  end.

(** The checks of the arguments: the URL, the version of the pipeline and the
    defaults of the version of Windows. *)
Definition check_golden_image (winImageDownloadURL windowsVersion pipelineVersion : string) : result windowsDefaults :=
  let bad_url :=
    Err (ErrNew (fmt ["winImageDownloadURL must be an https:// URL without embedded credentials, got ";
                      quote winImageDownloadURL])) in
  if winImageDownloadURL =?s "" then Err (ErrNew "winImageDownloadURL argument is required")
  else
    match url_Parse winImageDownloadURL with
    | Err _ => bad_url
    | Ok (parsedURL, has_user) =>
        if (u_Scheme parsedURL ≠?s "https") || has_user then bad_url
        else if (pipelineVersion ≠?s "") && negb (reVersionFormat pipelineVersion) then
          Err (ErrNew (fmt ["invalid pipelineVersion "; quote pipelineVersion;
                            ": must be in format X.Y.Z (e.g. 0.25.0)"]))
        else
          let windowsVersion := if windowsVersion =?s "" then "2k22" else windowsVersion in
          match resolveWindowsDefaults windowsVersion with
          | None => Err (ErrNew (fmt ["unsupported Windows version "; quote windowsVersion;
                                      ": must be one of 10, 11, 2k22, 2k25"]))
          | Some d => Ok d
          end
    end.

Definition windowsGoldenImageHandler {W} (args : gmap string string) (elicitor : option (Elicitor W)) :
    ST W (result PromptCallResult) := fun w =>
  let arg k := default "" (args !! k) in
  let winImageDownloadURL := arg "winImageDownloadURL" in
  match check_golden_image winImageDownloadURL (arg "windowsVersion") (arg "pipelineVersion") with
  | Err err => (Err err, w)
  | Ok d =>
      let build := buildStaticPipelineRun winImageDownloadURL (arg "namespace") (arg "pipelineVersion") d in
      let '((eulaConsent, err), w) := requestEULAConsent elicitor w in
      (match err with
       | Some err => Err err
       | None =>
           match eulaConsent with
           | eulaElicitationUnsupported => guide buildFallbackGuideResult (build false)
           | eulaDeclined => Ok cancelled_result
           | eulaAccepted => guide buildAcceptedGuideResult (build true)
           end
       end, w)
  end.
End Windows.

(** * Specification *)

(** The strings of the template in a form that stays on its line. *)
Definition one_line (p : vmParams) : Prop :=
  Forall (no_char lf)
    [vp_Namespace p; vp_Name p; vp_ContainerDisk p; vp_Instancetype p; vp_InstancetypeKind p; vp_Preference p;
     vp_PreferenceKind p; vp_DataSourceName p; vp_DataSourceNamespace p; vp_Storage p; vp_RunStrategy p] /\
  Forall (fun n => no_char lf (nc_Name n) /\ no_char lf (nc_NetworkName n)) (vp_Networks p).
(** A line that no separator of documents starts or ends at. *)
Definition plain_line (l : string) : Prop := no_char lf l /\ HasPrefix l "-" = false.

(** What an action may do to the machine [name] of [namespace]. *)
Definition action_calls (namespace name action : string) (tr : list event) : Prop :=
  if action =?s ActionStart then machine_updates namespace name [RunStrategyAlways] tr
  else if action =?s ActionStop then machine_updates namespace name [RunStrategyHalted] tr
  else if action =?s ActionRestart then machine_updates namespace name [RunStrategyHalted; RunStrategyAlways] tr
  else if action =?s ActionPause then instance_puts namespace name "pause" tr
  else if action =?s ActionUnpause then instance_puts namespace name "unpause" tr
  else tr = [].

(** The user was asked and accepted. *)
Definition user_accepts {W} (elicitor : option (Elicitor W)) (w : W) : Prop :=
  exists elicit, elicitor = Some elicit /\ (elicit eula_notice w).1 = Ok ElicitActionAccept.
(** The user cannot be asked. *)
Definition cannot_ask {W} (elicitor : option (Elicitor W)) (w : W) : Prop :=
  elicitor = None \/
  exists elicit err, elicitor = Some elicit /\ (elicit eula_notice w).1 = Err err /\ isElicitationNotSupported err = true.
(** The user was asked and answered something else. *)
Definition user_declines {W} (elicitor : option (Elicitor W)) (w : W) : Prop :=
  exists elicit action, elicitor = Some elicit /\ (elicit eula_notice w).1 = Ok action /\ action <> ElicitActionAccept.
(** The pipeline run as the request validator reads it. *)
Definition as_PipelineRun (run : golden_run) : PipelineRun := mkPipelineRun (gr_params run) (Some (gr_resolver_params run)).

(** * Lemmas *)

(** ** One document *)

Lemma split_line l rest d ds :
  no_char lf l -> HasPrefix rest "---" = false -> split_documents 0 rest = d :: ds ->
  split_documents 0 (l +:+ String lf rest) = (l +:+ String lf d) :: ds.
Proof.
  intros Hl Hrest Hd. induction l as [|c l IH].
  - rewrite !append_nil_l. cbn [split_documents].
    assert (separator_at (String lf rest) = None) as ->; [|by rewrite Hd].
    unfold separator_at. rewrite !HasPrefix_cons. by rewrite Hrest.
  - destruct Hl as [Hc Hl]. rewrite !append_String. cbn [split_documents].
    assert (separator_at (String c (l +:+ String lf rest)) = None) as ->; [|by rewrite (IH Hl)].
    unfold separator_at. rewrite !HasPrefix_cons, (bool_decide_eq_false_2 (lf = c)) by done.
    assert (HasPrefix (l +:+ String lf rest) (String lf "---") = false) as ->; [|by rewrite andb_false_r].
    destruct l as [|c' l]; [rewrite append_nil_l|destruct Hl as [Hc' _]; rewrite append_String];
      rewrite HasPrefix_cons; [by rewrite Hrest, andb_false_r|by rewrite bool_decide_eq_false_2].
Qed.

Lemma split_lines lines :
  Forall plain_line lines ->
  let text := fmt (map (fun line => line +:+ nl) lines) in
  split_documents 0 text = [text] /\ HasPrefix text "-" = false.
Proof.
  induction 1 as [|l lines [Hl Hp] _ [IH1 IH2]]; [done|]. cbn [map]. rewrite fmt_cons, append_assoc.
  change (nl +:+ ?t) with (String lf t). cbv zeta. split.
  - apply split_line; [done| |done]. set (text := fmt _) in *. destruct text as [|c text]; [done|].
    rewrite HasPrefix_char in IH2. by rewrite HasPrefix_cons, IH2.
  - destruct l as [|c l]; [done|]. rewrite append_String. by rewrite HasPrefix_char in *.
Qed.

Lemma plain_constant c s : bool_decide (no_char lf c) && (c ≠?s "") && negb (HasPrefix c "-") = true ->
  no_char lf s -> plain_line (c +:+ s).
Proof.
  rewrite !andb_true_iff, !negb_true_iff, bool_decide_eq_true. intros [[Hc Hne] Hp] Hs. split; [by apply no_char_append|].
  destruct c as [|a c]; [done|]. rewrite append_String. by rewrite HasPrefix_char in *.
Qed.

Lemma plain_literal c : bool_decide (no_char lf c) && negb (HasPrefix c "-") = true -> plain_line c.
Proof. by rewrite andb_true_iff, negb_true_iff, bool_decide_eq_true. Qed.

Lemma plain_when b lines : Forall plain_line lines -> Forall plain_line (when_lines b lines).
Proof. by destruct b. Qed.

Ltac plain :=
  repeat first
    [ apply Forall_nil_2 | apply Forall_cons_2 | apply Forall_app_2 | apply plain_when
    | apply plain_literal; by vm_compute
    | apply plain_constant; [by vm_compute|]
    | assumption ].

Lemma vm_yaml_plain p : one_line p -> Forall plain_line (vm_yaml_lines p).
Proof.
  intros [Hs Hn]. repeat (apply Forall_cons in Hs as [? Hs]). unfold vm_yaml_lines.
  assert (forall f : NetworkConfig -> list string,
    (forall n, no_char lf (nc_Name n) /\ no_char lf (nc_NetworkName n) -> Forall plain_line (f n)) ->
    Forall plain_line (flat_map f (vp_Networks p))) as Hf.
  { intros f Hf. induction Hn as [|n ns Hn _ IH]; cbn; [done|]. apply Forall_app_2; [by apply Hf|done]. }
  assert (no_char lf (vp_Name p +:+ "-rootdisk")) by (by apply no_char_append).
  plain; try (apply Hf; intros n []; plain). destruct (vp_UseDataSource p); plain.
Qed.

(** ** Reads *)

Lemma reads_list_namespaces gvr namespaces : every (@reads_only) (list_namespaces gvr namespaces).
Proof.
  induction namespaces as [|ns namespaces IH]; [done|]. cbn [list_namespaces].
  apply every_then; [unfold list_or_none; every_read|]. intros l. by apply every_then.
Qed.

Lemma reads_SearchDataSources : every (@reads_only) SearchDataSources.
Proof. apply every_then; [apply every_then; [apply reads_list_namespaces|done]|]. intros m. by case_match. Qed.

Lemma reads_search {A} g1 g2 (info : string -> object -> A) ns : every (@reads_only) (search g1 g2 info ns).
Proof. unfold search, list_or_none. every_read. Qed.

Lemma reads_guest_query sub what ns name : every (@reads_only) (guest_query sub what ns name).
Proof. by split; [intros []|intros [o|err]]. Qed.
Lemma reads_collect_infos ns name infos :
  Forall (fun i => every (@reads_only) (i.2 ns name)) infos -> every (@reads_only) (collect_infos ns name infos).
Proof.
  induction 1 as [|[key query] infos Hq _ IH]; [done|]. apply every_then; [done|]. intros r. by apply every_then.
Qed.
#[export] Hint Resolve reads_list_namespaces reads_SearchDataSources reads_search reads_guest_query : reading.

Lemma with_string_runs args key k tr r :
  runs (with_string args key k) tr r ->
  tr = [] \/ exists v, args !! key = Some (JString v) /\ runs (k v) tr r.
Proof.
  unfold with_string, RequiredString. destruct (args !! key) as [[]|] eqn:Hk; try (by intros [-> _]; left).
  intros H. right. by eexists.
Qed.
Lemma every_with_string P args key k :
  (forall v, every P (k v)) -> every P (with_string args key k).
Proof. intros Hk. unfold with_string. by case_match. Qed.

Lemma lifecycle_action_runs ns name action tr r :
  runs (lifecycle_action ns name action) tr r -> action_calls ns name action tr.
Proof.
  unfold lifecycle_action, action_calls.
  repeat case_bool_decide; [| | | | |by intros [-> _]]; cbv zeta;
    intros [(tr1 & x & tr2 & -> & Hr & [-> _])|(err & Hr & _)]%runs_try; rewrite ?app_nil_r;
    first [by eapply ensure_strategy_runs|by eapply RestartVM_runs|by eapply instance_put_runs].
Qed.

Section Tools_of_kubevirt.
Context (MarshalYaml : list object -> printed) (MarshalYaml_object : object -> printed).
Context (Decode : string -> result object).
Context (range_sources : gmap string DataSourceInfo -> list DataSourceInfo).

Lemma reads_guestInfo args : every (@reads_only) (guestInfo MarshalYaml_object args).
Proof.
  apply every_with_string. intros ns. apply every_with_string. intros name.
  assert (forall k p, every (@reads_only) p -> every (@reads_only) (single_info k p)) as Hs
    by (intros; by apply every_try).
  assert (forall it, every (@reads_only) (fetchGuestInfo ns name it)) as Hf.
  { intros it. unfold fetchGuestInfo. repeat case_match; try done; try (apply Hs, reads_guest_query).
    apply every_then; [|by intros [? ?]]. apply reads_collect_infos. 
    by repeat (apply Forall_cons_2; [apply reads_guest_query|]). }
  assert (every (@reads_only) (validateVMI ns name)) as Hv by (by split; [intros []|]).
  cbv zeta. repeat case_match; try done; apply every_then; try done; intros [e|]; try done; apply every_then; done.
Qed.
End Tools_of_kubevirt.

(** * Properties *)

(** Whatever the cluster answers, a call of the lifecycle tool writes only what its
    action says, to the machine it names: starting and stopping update the run
    strategy and nothing else of the machine that was read, restarting halts and then
    starts it, each update of what the one before gave, and pausing puts the
    subresource of the instance.  An unknown action makes no call. *)
Theorem lifecycle_writes MarshalYaml args tr r :
  runs (lifecycle MarshalYaml args) tr r ->
  tr = [] \/
  exists namespace name action,
    args !! "namespace" = Some (JString namespace) /\ args !! "name" = Some (JString name) /\
    args !! "action" = Some (JString action) /\ action_calls namespace name action tr.
Proof.
  intros [->|(ns & Hns & [->|(name & Hname & [->|(action & Haction & H)]%with_string_runs)]%with_string_runs)]%with_string_runs;
    [by left..|]. right. exists ns, name, action. split_and!; [done..|].
  apply runs_then in H as (tr1 & x & tr2 & -> & H & [-> _]). rewrite app_nil_r. by eapply lifecycle_action_runs.
Qed.

Lemma buildTemplateParams_request c ds it pref :
  let p := buildTemplateParams c ds it pref in
  vp_Namespace p = cp_Namespace c /\ vp_Name p = cp_Name c /\ vp_Storage p = cp_Storage c /\
  vp_Networks p = cp_Networks c /\ vp_RunStrategy p = (if cp_Autostart c then "Always" else "Halted").
Proof. unfold buildTemplateParams. by destruct ds as [ds|], it, pref; cbn; try case_match. Qed.

Lemma reads_only_applies tr : Forall (event_call (@reads_only)) tr -> Forall (event_call (@only_applies)) tr.
Proof.
  intros Ht. eapply Forall_impl; [exact Ht|]. intros [R k a] Hk. cbn in *. destruct k; try done; try (by destruct Hk).
  by destruct (decide (verb = "GET")); [|destruct Hk].
Qed.

Lemma documents_runs Decode text tr r :
  runs (Core.ResourcesCreateOrUpdate Decode text) tr r ->
  Forall (event_call (@only_applies)) tr /\ Forall apply_wf (applied tr) /\
  (applied tr <> [] -> exists objs n, parse_documents Decode (split_documents 0 text) = Ok objs /\
     (applied tr).*2 = take n objs).
Proof.
  unfold Core.ResourcesCreateOrUpdate.
  destruct (parse_documents Decode (split_documents 0 text)) as [objs|err]; [|by intros [-> _]]. intros H.
  split; [by eapply every_runs; [apply every_create_or_update|]|].
  apply create_or_update_applied in H as [Hf (n & Hn & _)]. split; [done|]. intros _. by exists objs, n.
Qed.

Lemma decoded_In Decode docs objs n :
  parse_documents Decode docs = Ok objs -> Forall (fun o => exists d, d ∈ docs /\ decoded Decode d o) (take n objs).
Proof.
  intros Hp%parse_documents_Ok. apply Forall_take, Forall_forall. intros o [i Hi]%list_elem_of_lookup.
  destruct (Forall2_lookup_r _ _ _ _ _ Hp Hi) as (d & Hd & Hdo). exists d.
  split; [by eapply list_elem_of_lookup_2|done].
Qed.

(** Creating a machine reads the cluster and then applies, by the field manager of the
    program, what the template gives for the request: with the name, namespace,
    storage and networks asked for, halted unless it is to be started.  When no string
    that the template takes has a line feed, the text is one document and at most one
    object is applied. *)
Theorem create_one_machine MarshalYaml Decode range_sources args tr r :
  runs (create MarshalYaml Decode range_sources args) tr r ->
  Forall (event_call (@only_applies)) tr /\ Forall apply_wf (applied tr) /\
  (applied tr <> [] -> exists c p,
     parseCreateParameters args = Ok c /\
     vp_Namespace p = cp_Namespace c /\ vp_Name p = cp_Name c /\ vp_Storage p = cp_Storage c /\
     vp_Networks p = cp_Networks c /\ vp_RunStrategy p = (if cp_Autostart c then "Always" else "Halted") /\
     Forall (fun o => exists d, d ∈ split_documents 0 (renderVMYaml p) /\ decoded Decode d o) (applied tr).*2 /\
     (one_line p -> exists o, (applied tr).*2 = [o] /\ decoded Decode (renderVMYaml p) o)).
Proof.
  unfold create. destruct (parseCreateParameters args) as [c|err]; [|by intros [-> _]].
  intros (tr1 & sources & tr2 & -> & H1 & H)%runs_then.
  apply runs_then in H as (tr3 & prefs & tr4 & -> & H3 & H). apply runs_then in H as (tr5 & its & tr6 & -> & H5 & H).
  set (p := buildTemplateParams _ _ _ _) in H. apply runs_then in H as (tr7 & res & tr8 & -> & H7 & [-> _]).
  apply (every_runs _ _ _ _ reads_SearchDataSources) in H1 as R1.
  apply (every_runs _ _ _ _ (reads_search _ _ _ _)) in H3 as R3.
  apply (every_runs _ _ _ _ (reads_search _ _ _ _)) in H5 as R5.
  rewrite app_nil_r, !applied_app, (reads_applied _ R1), (reads_applied _ R3), (reads_applied _ R5). cbn [app].
  destruct (documents_runs _ _ _ _ H7) as (Ho & Hw & Ha).
  apply reads_only_applies in R1, R3, R5.
  split; [by rewrite !Forall_app; auto|]. split; [done|]. intros Hne. destruct (Ha Hne) as (objs & n & Hp & Hn).
  exists c, p.
  edestruct (buildTemplateParams_request c) as (? & ? & ? & ? & ?). split_and!; try done.
  - rewrite Hn. by apply decoded_In.
  - intros Hl. destruct (split_lines (vm_yaml_lines p) (vm_yaml_plain p Hl)) as [Hs _].
    change (fmt _) with (renderVMYaml p) in Hs. rewrite Hs in Hp. apply parse_documents_Ok in Hp.
    destruct objs as [|o objs]; [by inversion Hp|]. apply Forall2_cons in Hp as [Hd Hp].
    apply Forall2_nil_inv_l in Hp as ->. exists o. split; [|done].
    destruct n as [|n]; [|by rewrite Hn; destruct n]. destruct (applied tr7); [done|done].
Qed.

Section Golden.
Context (url_Parse : string -> result (URL * bool)) (yaml_Marshal : golden_run -> result string).

Lemma check_golden_image_Ok url version pipelineVersion d :
  check_golden_image url_Parse url version pipelineVersion = Ok d ->
  (exists u, url_Parse url = Ok (u, false) /\ u_Scheme u = "https") /\
  (pipelineVersion = "" \/ reVersionFormat pipelineVersion = true) /\
  resolveWindowsDefaults (if version =?s "" then "2k22" else version) = Some d.
Proof.
  unfold check_golden_image. case_bool_decide; [done|]. destruct (url_Parse url) as [[u user]|]; [|done].
  destruct (bool_decide_reflect (u_Scheme u = "https")) as [Hs|]; cbn; [|done]. destruct user; [done|].
  destruct (bool_decide_reflect (pipelineVersion = "")) as [Hp|Hp], (reVersionFormat pipelineVersion) eqn:Hf; cbn;
    try done; destruct (resolveWindowsDefaults _); intros [= ->]; (split; [by exists u|]); auto.
Qed.

Lemma guide_Ok build yaml res : guide build yaml = Ok res -> exists text, yaml = Ok text /\ res = build text.
Proof. destruct yaml; [|done]. intros [= <-]. by eexists. Qed.

Lemma buildStaticPipelineRun_Ok url ns pv d accept text :
  buildStaticPipelineRun yaml_Marshal url ns pv d accept = Ok text ->
  yaml_Marshal (pipeline_run url ns pv d accept) = Ok text.
Proof. unfold buildStaticPipelineRun. by destruct (yaml_Marshal _). Qed.

(** Which of the consents an elicitation gives. *)
Lemma requestEULAConsent_spec {W} (elicitor : option (Elicitor W)) w consent w' :
  requestEULAConsent elicitor w = ((consent, None), w') ->
  match consent with
  | eulaAccepted => user_accepts elicitor w
  | eulaDeclined => user_declines elicitor w
  | eulaElicitationUnsupported => cannot_ask elicitor w
  end.
Proof.
  unfold requestEULAConsent. destruct elicitor as [elicit|]; [|intros [= <- _]; by left].
  destruct (elicit eula_notice w) as [r w1] eqn:He. destruct r as [action|err]; cbn.
  - intros [= <- _]. case_bool_decide as Ha; [subst; exists elicit; by rewrite He|].
    exists elicit, action. by rewrite He.
  - destruct (isElicitationNotSupported err) eqn:Hn; intros [= <- _]. right. exists elicit, err. by rewrite He.
Qed.

Lemma pipeline_run_prompts url ns pv d accept :
  requiresEULAPrompt (as_PipelineRun (pipeline_run url ns pv d accept)) = negb accept.
Proof. by destruct accept. Qed.
End Golden.

(** C34. The prompt for a golden image of Windows answers only for a URL of https without
    user information, and shows a pipeline run that has accepted the licence only to a
    user that was asked and accepted it: a user that declined gets no pipeline run,
    and one that cannot be asked gets a run that has not accepted it, for which the
    validator of requests prompts again when it is applied. *)
Theorem golden_image_licence {W} url_Parse yaml_Marshal args (elicitor : option (Elicitor W)) w res w' :
  windowsGoldenImageHandler url_Parse yaml_Marshal args elicitor w = (Ok res, w') ->
  let arg k := default "" (args !! k) in
  exists d u, url_Parse (arg "winImageDownloadURL") = Ok (u, false) /\ u_Scheme u = "https" /\
  let run accept := pipeline_run (arg "winImageDownloadURL") (arg "namespace") (arg "pipelineVersion") d accept in
  (user_accepts elicitor w /\ exists text, yaml_Marshal (run true) = Ok text /\ res = buildAcceptedGuideResult text /\
     requiresEULAPrompt (as_PipelineRun (run true)) = false) \/
  (cannot_ask elicitor w /\ exists text, yaml_Marshal (run false) = Ok text /\ res = buildFallbackGuideResult text /\
     requiresEULAPrompt (as_PipelineRun (run false)) = true) \/
  (user_declines elicitor w /\ res = cancelled_result).
Proof.
  unfold windowsGoldenImageHandler. cbv zeta. destruct (check_golden_image _ _ _ _) as [d|err] eqn:Hc; [|done].
  apply check_golden_image_Ok in Hc as [(u & Hu & Hs) _].
  destruct (requestEULAConsent elicitor w) as [[consent [err|]] w1] eqn:He; [done|].
  apply requestEULAConsent_spec in He. intros [= Hr <-]. exists d, u. split_and!; [done..|].
  destruct consent; [left|right; right|right; left]; (split; [done|]).
  - apply guide_Ok in Hr as (text & Ht%buildStaticPipelineRun_Ok & ->). exists text. by rewrite pipeline_run_prompts.
  - by injection Hr.
  - apply guide_Ok in Hr as (text & Ht%buildStaticPipelineRun_Ok & ->). exists text. by rewrite pipeline_run_prompts.
Qed.

Section Annotations.
Context (MarshalYaml : list object -> printed) (MarshalYaml_object : object -> printed).
Context (Decode : string -> result object).
Context (range_sources : gmap string DataSourceInfo -> list DataSourceInfo).

(** A tool that is not read-only and may destroy promises nothing. *)
Lemma vm_tool_destructive filters t h :
  ta_ReadOnlyHint (tl_Annotations t) = Some false -> ta_DestructiveHint (tl_Annotations t) = Some true ->
  annotations_hold (vm_tool filters t h).
Proof. intros H1 H2. split; cbn; by rewrite ?H1, ?H2. Qed.

(** The tools keep their hints: the one on the guest agent only reads. *)
Theorem vm_tools_annotations :
  Forall annotations_hold (vm_tools MarshalYaml MarshalYaml_object Decode range_sources).
Proof.
  repeat apply Forall_cons_2; [by apply vm_tool_destructive..| | | |done]; try (by apply vm_tool_destructive).
  apply with_filters_hold, core_reads; [done|]. apply reads_guestInfo.
Qed.
End Annotations.

(** * Examples and witnesses *)

Definition demo_marshal (objs : list object) : printed := ("yaml", None).
Definition demo_decode (text : string) : result object := Ok [("kind", YString "VirtualMachine"); ("text", YString text)].
Definition demo_range (m : gmap string DataSourceInfo) : list DataSourceInfo := (map_to_list m).*2.

Lemma lifecycle_writes_witness :
  let args : arguments :=
    {[ "namespace" := JString "shop"; "name" := JString "web"; "action" := JString "unpause" ]} in
  let p := lifecycle demo_marshal args in
  let tr := (traced demo_cluster p).1 in
  length tr = 2 /\
  (tr = [] \/ exists namespace name action,
    args !! "namespace" = Some (JString namespace) /\ args !! "name" = Some (JString name) /\
    args !! "action" = Some (JString action) /\ action_calls namespace name action tr).
Proof. split; [by vm_compute|]. eapply lifecycle_writes. apply traced_runs. Defined.

Lemma create_one_machine_witness :
  let args : arguments := {[ "namespace" := JString "shop"; "name" := JString "web" ]} in
  let p := create demo_marshal demo_decode demo_range args in
  let tr := (traced demo_cluster p).1 in
  length (applied tr) = 1 /\ Forall apply_wf (applied tr).
Proof. split; [by vm_compute|]. eapply create_one_machine. apply traced_runs. Defined.

(** A name with a line feed can end the document and begin another one, which is applied
    as an object of its own. *)
Example injected_document :
  let name := fmt ["web"; nl; "---"; nl; "kind: Secret"; nl; "---"; nl] in
  let args : arguments := {[ "namespace" := JString "shop"; "name" := JString name ]} in
  let tr := (traced demo_cluster (create demo_marshal demo_decode demo_range args)).1 in
  length (applied tr) = 7 /\
  [("kind", YString "VirtualMachine"); ("text", YString "kind: Secret")] ∈ (applied tr).*2.
Proof. split; [by vm_compute|]. vm_compute. right. left. Qed.

(** Which data source a partial name gives depends on the order of ranging over the map. *)
Example MatchDataSource_order :
  let rhel8 := mkDataSourceInfo "rhel8" "os" "" "" "" in
  let rhel9 := mkDataSourceInfo "rhel9" "os" "" "" "" in
  let sources : gmap string DataSourceInfo := {[ "os/rhel8" := rhel8; "os/rhel9" := rhel9 ]} in
  MatchDataSource (fun _ => [rhel8; rhel9]) sources "rhel" = Some rhel8 /\
  MatchDataSource (fun _ => [rhel9; rhel8]) sources "rhel" = Some rhel9.
Proof. by vm_compute. Qed.

Lemma golden_image_licence_witness :
  let url_Parse (_ : string) := Ok (mkURL "https" "host" "/win.iso", false) : result (URL * bool) in
  let yaml_Marshal run := Ok (fmt (gr_params run).*2) in
  let elicit : Elicitor unit := fun _ w => (Ok ElicitActionAccept, w) in
  let args : gmap string string := {[ "winImageDownloadURL" := "https://host/win.iso" ]} in
  let res := buildAcceptedGuideResult
    "https://host/win.isotruewindows.2k22.virtiowindows2k22-autounattendwin2k22win2k22" in
  windowsGoldenImageHandler url_Parse yaml_Marshal args (Some elicit) () = (Ok res, ()) /\
  let arg k := default "" (args !! k) in
  exists d u, url_Parse (arg "winImageDownloadURL") = Ok (u, false) /\ u_Scheme u = "https" /\
  let run accept := pipeline_run (arg "winImageDownloadURL") (arg "namespace") (arg "pipelineVersion") d accept in
  (user_accepts (Some elicit) () /\ exists text, yaml_Marshal (run true) = Ok text /\
     res = buildAcceptedGuideResult text /\ requiresEULAPrompt (as_PipelineRun (run true)) = false) \/
  (cannot_ask (Some elicit) () /\ exists text, yaml_Marshal (run false) = Ok text /\
     res = buildFallbackGuideResult text /\ requiresEULAPrompt (as_PipelineRun (run false)) = true) \/
  (user_declines (Some elicit) () /\ res = cancelled_result).
Proof.
  split; [by vm_compute|].
  apply (golden_image_licence (fun _ => Ok (mkURL "https" "host" "/win.iso", false)) (fun run => Ok (fmt (gr_params run).*2))
    {[ "winImageDownloadURL" := "https://host/win.iso" ]} (Some (fun _ w => (Ok ElicitActionAccept, w))) ()
    (buildAcceptedGuideResult
       "https://host/win.isotruewindows.2k22.virtiowindows2k22-autounattendwin2k22win2k22") ()).
  by vm_compute.
Defined.
