(* ===== verification/KubeVirtDiag.v ===== *)
(** The troubleshooting tool of the kubevirt toolset
    (pkg/toolsets/kubevirt/vm/troubleshoot: tool.go, analysis.go): the sections of the
    report, the masking of secrets in cloud-init data and logs, and the checks that
    find issues.  The YAML encoder, base64, the printing of other values, the
    timestamps of objects, the clock, sorting and the order of ranging over maps are
    parameters.  The texts of the library's errors are kept in outline. *)
From Stdlib Require Import SpecFloat.
From S2P Require Import Prelude GoStrings Api Params Toolsets Config Tools Unstructured Cluster Core CoreTools KubeVirt KubeVirtTools.

(** * Definitions *)

(** [NestedMap] and [NestedSlice]: the value when it is found, or an error. *)
Definition NestedMap (o : object) (fields : list string) : result (option object) :=
  match nested (YMap o) fields with
  | Err err => Err err
  | Ok None => Ok None
  | Ok (Some (YMap m)) => Ok (Some m)
  | Ok (Some _) => Err (ErrNew "accessor error: value is of the wrong type, expected map[string]interface{}")
  end.
Definition NestedSlice (o : object) (fields : list string) : result (option (list yvalue)) :=
  match nested (YMap o) fields with
  | Err err => Err err
  | Ok None => Ok None
  | Ok (Some (YSlice l)) => Ok (Some l)
  | Ok (Some _) => Err (ErrNew "accessor error: value is of the wrong type, expected []interface{}")
  end.
(** With the errors ignored: nil unless it is found. *)
Definition found_slice (o : object) (fields : list string) : list yvalue :=
  match NestedSlice o fields with Ok (Some l) => l | _ => [] end.
Definition map_or_none (v : option yvalue) : option object := match v with Some (YMap m) => Some m | _ => None end.
Definition string_or_empty (v : option yvalue) : string := match v with Some (YString s) => s | _ => "" end.

(** ** tool.go: masking *)

Definition sensitiveYAMLKeys : list string :=
  ["password"; "passwd"; "plain_text_passwd"; "hashed_passwd"; "ssh_authorized_keys"; "ssh_keys"; "ca-cert";
   "client-cert"; "client-key"; "token"; "chpasswd"; "write_files"; "rsa_private"; "rsa_public"; "dsa_private";
   "dsa_public"; "ecdsa_private"; "ecdsa_public"; "ed25519_private"; "ed25519_public"].
Definition sensitiveLinePatterns : list string :=
  ["ssh-rsa "; "ssh-ed25519 "; "ecdsa-sha2-"; "ssh-dss "; "sk-ssh-ed25519@openssh.com "; "sk-ecdsa-sha2-";
   "-----begin"].

Fixpoint leadingSpaces (s : string) : nat :=
  match s with
  | String c s => if bool_decide (c = " "%char) || bool_decide (c = "009"%char) then S (leadingSpaces s) else 0
  | EmptyString => 0
  end.
Definition isBlockScalarIndicator (s : string) : bool :=
  match s with
  | EmptyString => false
  | String c s =>
      char_in c "|>" &&
      forallb (fun c => char_in c "+-" || bool_decide (is_Some (digit_value c))) (String.list_ascii_of_string s)
  end.
Definition isSensitiveKeyLine (trimmed : string) : bool :=
  existsb (fun key => HasPrefix (ToLower trimmed) (key +:+ ":")) sensitiveYAMLKeys.
Definition isSensitiveValueLine (trimmed : string) : bool :=
  existsb (fun pat => Contains (ToLower trimmed) pat) sensitiveLinePatterns.
Fixpoint spaces (n : nat) : string := match n with O => "" | S n => String " " (spaces n) end.
Definition REDACTED : string := "<REDACTED>".

(** A line that is masked by itself: the line shown, and the indentation below which
    the following lines are hidden, if any. *)
Definition mask_line (line : string) : string * option nat :=
  let trimmed := TrimSpace line in
  let indent := leadingSpaces line in
  if isSensitiveKeyLine trimmed then
    let '(key, value) := default (trimmed, "") (Cut ":" trimmed) in
    let valuePart := TrimSpace value in
    (spaces indent +:+ key +:+ ": " +:+ REDACTED,
     if (valuePart =?s "") || isBlockScalarIndicator valuePart then Some indent else None)
  else if isSensitiveValueLine trimmed then (spaces indent +:+ REDACTED, None)
  else (line, None).
(** [redactIndent] is -1 for [None]. *)
Definition hidden (redactIndent : option nat) (line : string) : bool :=
  match redactIndent with
  | None => false
  | Some i => (TrimSpace line =?s "") || Nat.ltb i (leadingSpaces line)
  end.
Fixpoint redact_lines (redactIndent : option nat) (lines : list string) : list string :=
  match lines with
  | [] => []
  | line :: lines =>
      if hidden redactIndent line then redact_lines redactIndent lines
      else (mask_line line).1 :: redact_lines (mask_line line).2 lines
  end.
Definition redactCloudInitSensitiveFields (userData : string) : string :=
  Join (redact_lines None (Split lf userData)) nl.

Definition logSecretPatterns : list string :=
  ["bearer "; "authorization:"; "authorization="; "-u "; "--user "; "-----begin"; "ssh-rsa "; "ssh-ed25519 ";
   "ssh-dss "; "password="; "passwd="; "token="].
Fixpoint redact_log_line (patterns : list string) (line : string) : string :=
  match patterns with
  | [] => line
  | pat :: patterns =>
      match Index (ToLower line) pat with
      | Some idx => take_str (idx + slen pat) line +:+ REDACTED
      | None => redact_log_line patterns line
      end
  end.
Definition redactLogSecrets (logs : string) : string :=
  Join (map (redact_log_line logSecretPatterns) (Split lf logs)) nl.

(** Of a volume: the bodies of cloud-init data are replaced. *)
Definition body_keys : list string := ["userData"; "networkData"; "userDataBase64"; "networkDataBase64"].
Definition strip_bodies (ciMap : object) : object :=
  map (fun '(ck, cv) =>
         (ck, if slices_Contains body_keys ck then YString "<see Cloud-Init Configuration section>" else cv)) ciMap.
Definition ci_keys : list string := ["cloudInitNoCloud"; "cloudInitConfigDrive"].
Definition strip_volume (vol : yvalue) : yvalue :=
  match vol with
  | YMap volMap =>
      YMap (map (fun '(k, v) =>
                   (k, if slices_Contains ci_keys k
                       then match v with YMap ciMap => YMap (strip_bodies ciMap) | _ => v end
                       else v)) volMap)
  | _ => vol
  end.
Definition stripCloudInitBodies (volumes : list yvalue) : list yvalue := map strip_volume volumes.

(** ** analysis.go: data and pure checks *)

Inductive severity : Type := severityCritical | severityWarning | severityInfo.
Definition severity_String (s : severity) : string :=
  match s with severityCritical => "CRITICAL" | severityWarning => "WARNING" | severityInfo => "INFO" end.
Record issue := mkIssue { is_Severity : severity; is_Message : string; is_Fix : string }.

Definition condition_issue (cond : yvalue) : list issue :=
  match cond with
  | YMap condMap =>
      let str k := string_or_empty (field k condMap) in
      let message := str "message" in
      if (str "type" ≠?s "Ready") || (str "status" ≠?s "False") then []
      else if str "reason" =?s "VMINotExists" then
        [mkIssue severityWarning
           "VM condition Ready=False with reason VMINotExists. The VirtualMachineInstance has not been created." ""]
      else if (message ≠?s "") && (Contains message "Guest" || Contains (ToLower message) "error") then
        [mkIssue severityWarning (fmt ["VM condition Ready=False: "; message]) ""]
      else []
  | _ => []
  end.
Definition checkVMConditions (vm : option object) : list issue :=
  match vm with
  | None => []
  | Some vm =>
      let printableStatus := default "" (found_string vm ["status"; "printableStatus"]) in
      flat_map condition_issue (found_slice vm ["status"; "conditions"])
      ++ (if printableStatus =?s "Provisioning" then
            [mkIssue severityWarning
               "VM is stuck in Provisioning state. This typically means a DataVolume or PVC cannot be created." ""]
          else if printableStatus =?s "CrashLoopBackOff" then
            [mkIssue severityCritical
               "VM is in CrashLoopBackOff state. The guest OS or cloud-init is causing repeated failures."
               "Check the cloud-init userData for commands that shut down or crash the guest (e.g., shutdown -h now, exit 1)."]
          else if (printableStatus =?s "ErrImagePull") || (printableStatus =?s "ImagePullBackOff") then
            [mkIssue severityCritical
               (fmt ["VM is in "; printableStatus; " state. The container disk image cannot be pulled."])
               "Verify the containerDisk image reference exists and is accessible from the cluster."]
          else [])
  end.

Definition is_critical (i : issue) : bool := match is_Severity i with severityCritical => true | _ => false end.
Definition volume_issue (hasMissingSC : bool) (vs : yvalue) : list issue :=
  match vs with
  | YMap vsMap =>
      let volName := string_or_empty (field "name" vsMap) in
      let reason := string_or_empty (field "reason" vsMap) in
      if (reason ≠?s "") && Contains reason "not found" && negb hasMissingSC then
        [mkIssue severityCritical
           (fmt ["Volume "; quote volName; ": PVC not found. The backing storage does not exist."])
           (fmt ["Ensure the PVC or DataVolume for volume "; quote volName; " is created and in Bound state."])]
      else []
  | _ => []
  end.
Definition checkDataVolumeErrors (vm : option object) (scIssues : list issue) : list issue :=
  match vm with
  | None => []
  | Some vm =>
      flat_map (volume_issue (existsb is_critical scIssues)) (found_slice vm ["status"; "volumeSnapshotStatuses"])
  end.

Definition extractStorageClassName (dvSpec : object) : string :=
  let class part :=
    match map_or_none (field part dvSpec) with
    | Some m => string_or_empty (field "storageClassName" m)
    | None => ""
    end in
  if class "storage" ≠?s "" then class "storage" else class "pvc".

(** The volumes with the cloud-init data: of the machine, or of its instance. *)
Definition cloud_init_volumes (vm vmi : option object) : list yvalue :=
  let volumes :=
    match vm with Some vm => found_slice vm ["spec"; "template"; "spec"; "volumes"] | None => [] end in
  match volumes, vmi with
  | [], Some vmi => found_slice vmi ["spec"; "volumes"]
  | _, _ => volumes
  end.

Definition echo_prefixes : list string :=
  ["echo "; "echo'"; "echo" +:+ dq; "printf "; "- echo "; "- printf "].
Definition isEchoOrPrintLine (line : string) : bool :=
  let lower := ToLower line in
  existsb (fun p => HasPrefix lower p || HasPrefix (TrimPrefix lower "- ") p) echo_prefixes.
Definition isConfigKeyLine (line : string) : bool :=
  let lower := ToLower line in
  if Contains lower ":" && negb (HasPrefix lower "-") && negb (HasPrefix lower "[") then
    let key := TrimSpace (default (lower, "") (Cut ":" lower)).1 in
    (key ≠?s "") && negb (Contains key " ")
  else false.

(** The text between the first [[] and the first []] after it. *)
Definition bracketed (line : string) : option string :=
  match Index line "[" with
  | None => None
  | Some start =>
      let inner := drop_str (start + 1) line in
      Some (match Index inner "]" with Some e => take_str e inner | None => inner end)
  end.
Definition unquote_elem (s : string) : string := Trim (TrimSpace s) (dq +:+ "' ").
Definition extractFirstArrayElement (line : string) : string :=
  match bracketed line with
  | None => ""
  | Some inner => ToLower (unquote_elem (default (inner, "") (Cut "," inner)).1)
  end.
Definition one_of (s : string) (l : list string) : bool := slices_Contains l s.
Definition matchDangerousCommand (line : string) : string :=
  let lower := ToLower (TrimSpace line) in
  let stripped := Trim (TrimPrefix lower "- ") (fmt ["[]"; dq; "' "]) in
  if HasPrefix stripped "shutdown -r" || HasPrefix stripped "/sbin/shutdown -r" then "reboot"
  else if one_of stripped ["shutdown"; "shutdown -h now"; "/sbin/shutdown"]
       || HasPrefix stripped "/sbin/shutdown " || HasPrefix stripped "shutdown -h"
       || HasPrefix stripped "shutdown -P" || HasPrefix stripped "shutdown -p" then "shutdown"
  else if one_of stripped ["poweroff"; "/sbin/poweroff"; "systemctl poweroff"] then "poweroff"
  else if one_of stripped ["halt"; "/sbin/halt"; "systemctl halt"] then "halt"
  else if one_of stripped ["reboot"; "/sbin/reboot"; "systemctl reboot"] then "reboot"
  else if one_of stripped ["init 0"; "/sbin/init 0"] then "init 0"
  else if one_of stripped ["init 6"; "/sbin/init 6"] then "init 6"
  else if Contains lower "[" then
    let firstElem := extractFirstArrayElement lower in
    if firstElem =?s "shutdown" then "shutdown"
    else if one_of firstElem ["poweroff"; "/sbin/poweroff"] then "poweroff"
    else if one_of firstElem ["halt"; "/sbin/halt"] then "halt"
    else if one_of firstElem ["reboot"; "/sbin/reboot"] then "reboot"
    else if firstElem =?s "systemctl" then
      match Split "," (default "" (bracketed lower)) with
      | _ :: second :: _ =>
          let subCmd := unquote_elem second in
          if one_of subCmd ["poweroff"; "halt"; "reboot"] then subCmd else ""
      | _ => ""
      end
    else ""
  else "".

Definition dangerous_line (line : string) : string :=
  let trimmed := TrimSpace line in
  if HasPrefix trimmed "#" || isEchoOrPrintLine trimmed || isConfigKeyLine trimmed then ""
  else matchDangerousCommand trimmed.
(** [matches], without the commands already seen. *)
Fixpoint detect_lines (seen : list string) (lines : list string) : list string :=
  match lines with
  | [] => []
  | line :: lines =>
      let cmd := dangerous_line line in
      if (cmd ≠?s "") && negb (slices_Contains seen cmd) then cmd :: detect_lines (cmd :: seen) lines
      else detect_lines seen lines
  end.
Definition detectDangerousCloudInitCommands (userData : string) : list string :=
  detect_lines [] (Split lf userData).

Definition command_issue (runStrategy cmd : string) : issue :=
  mkIssue severityCritical
    (fmt ["Cloud-init userData contains "; quote cmd;
          " command that will shut down or restart the guest immediately after boot.";
          if (runStrategy =?s "Always") || (runStrategy =?s "")
          then " Combined with runStrategy Always, this causes a crashloop." else ""])
    (fmt ["Remove the "; quote cmd;
          " command from cloud-init userData, or change runStrategy to Manual/Halted if the shutdown is intentional."]).
(** The cloud-init data of a volume, with their keys. *)
Definition cloud_init_parts (vol : yvalue) : list (string * object) :=
  match vol with
  | YMap volMap =>
      flat_map (fun ciKey => match map_or_none (field ciKey volMap) with Some m => [(ciKey, m)] | None => [] end)
        ci_keys
  | _ => []
  end.
Definition checkCloudInitCommands (vm vmi : option object) : list issue :=
  let runStrategy := match vm with Some vm => default "" (found_string vm ["spec"; "runStrategy"]) | None => "" end in
  flat_map (fun vol =>
    flat_map (fun '(_, ciData) =>
                let userData := string_or_empty (field "userData" ciData) in
                if userData =?s "" then []
                else map (command_issue runStrategy) (detectDangerousCloudInitCommands userData))
      (cloud_init_parts vol)) (cloud_init_volumes vm vmi).

(** What is kept of a pod. *)
Record pod_diagnostics := mkPodDiagnostics {
  pd_phase : string;
  pd_nodeName : string;
  pd_conditions : list yvalue;
  pd_containerStatuses : option (list object);
  pd_nodeSelector : object;
}.
Definition container_summary (cs : yvalue) : list object :=
  match cs with
  | YMap csMap =>
      let any k := default YNull (field k csMap) in
      let optional k := match field k csMap with Some v => [(k, v)] | None => [] end in
      [[("name", any "name"); ("ready", any "ready")] ++ optional "restartCount" ++ optional "state"
       ++ match map_or_none (field "lastTerminationState" csMap) with
          | Some (kv :: m) => [("lastTerminationState", YMap (kv :: m))]
          | _ => []
          end]
  | _ => []
  end.
Definition extractPodDiagnostics (pod : object) : pod_diagnostics :=
  let containerStatuses := found_slice pod ["status"; "containerStatuses"] in
  mkPodDiagnostics (default "" (found_string pod ["status"; "phase"]))
    (default "" (found_string pod ["spec"; "nodeName"])) (found_slice pod ["status"; "conditions"])
    (match containerStatuses with [] => None | _ => Some (flat_map container_summary containerStatuses) end)
    (match NestedMap pod ["spec"; "nodeSelector"] with Ok (Some m) => m | _ => [] end).

(** [time.Duration] in nanoseconds; the seconds, minutes and hours are exact up to the
    rounding of floats. *)
Definition formatDuration (d : Z) : string :=
  let second := (10 ^ 9)%Z in
  if (d <? 60 * second)%Z then fmt [itoa (Z.quot d second); "s"]
  else if (d <? 3600 * second)%Z then fmt [itoa (Z.quot d (60 * second)); "m"]
  else if (d <? 24 * 3600 * second)%Z then fmt [itoa (Z.quot d (3600 * second)); "h"]
  else fmt [itoa (Z.quot d (24 * 3600 * second)); "d"].
Fixpoint extractMigrationFailureReason (conditions : list yvalue) : string :=
  match conditions with
  | [] => ""
  | YMap condMap :: conditions =>
      let str k := string_or_empty (field k condMap) in
      if (str "type" =?s "Failure") && (str "status" =?s "True") then str "message"
      else extractMigrationFailureReason conditions
  | _ :: conditions => extractMigrationFailureReason conditions
  end.
Definition maxReportedFailedMigrations : nat := 3.

(** An index from one, as the verb %d prints it. *)
Definition numbered (fixes : list string) : list string :=
  imap (fun i fix_ => fmt [itoa (Z.of_nat i + 1); ". "; fix_; nl]) fixes.
Definition issues_section (issues : list issue) : string :=
  match issues with
  | [] =>
      fmt ["## Detected Issues"; nl; nl;
           "*No issues automatically detected. Review the raw diagnostic data below for manual analysis.*"]
  | _ =>
      let fixes := List.filter (fun f => f ≠?s "") (map is_Fix issues) in
      fmt (["## Detected Issues"; nl; nl]
           ++ map (fun i => fmt ["- **"; severity_String (is_Severity i); "**: "; is_Message i; nl]) issues
           ++ match fixes with [] => [] | _ => [nl; "## Suggested Fixes"; nl; nl] ++ numbered fixes end)
  end.

Section Troubleshoot.
(** The encoders, base64 and the verb %v of a value; floats as integers; the events of
    the cluster. *)
Context (MarshalYaml : yvalue -> printed) (Marshal_diagnostics : pod_diagnostics -> printed).
Context (base64_Decode : string -> result string) (Sprint : yvalue -> string) (ovf : spec_float -> Z).
Context (FromUnstructured : object -> result k8s_event).
(** The creation of an object and the present, in nanoseconds since the zero time. *)
Context (GetCreationTimestamp : object -> Z) (now : Z).
(** [sort.Slice], and the order of ranging over a map. *)
Context (sort_slice : forall A, (A -> A -> bool) -> list A -> list A) (range_map : object -> object).

Definition toInt64 (v : option yvalue) : Z :=
  match v with
  | Some (YInt64 n) | Some (YInt n) => n
  | Some (YFloat64 f) => f64_to_int64 ovf f
  | _ => 0
  end.

Definition waiting_reasons : list string := ["CrashLoopBackOff"; "ErrImagePull"; "ImagePullBackOff"].
Definition container_issues (cs : object) : list issue :=
  let restartCount := toInt64 (field "restartCount" cs) in
  let part k := match map_or_none (field "state" cs) with Some state => map_or_none (field k state) | None => None end in
  let str k o := string_or_empty (field k o) in
  (if (3 <? restartCount)%Z then
     [mkIssue severityCritical
        (fmt ["Container "; quote (str "name" cs); " in virt-launcher pod has restarted "; itoa restartCount;
              " times, indicating a crashloop."]) ""]
   else [])
  ++ match part "waiting" with
     | Some waiting =>
         if one_of (str "reason" waiting) waiting_reasons then
           [mkIssue severityCritical
              (fmt ["virt-launcher container is in "; str "reason" waiting; " state: "; str "message" waiting]) ""]
         else []
     | None => []
     end
  ++ match part "terminated" with
     | Some terminated =>
         if str "reason" terminated =?s "OOMKilled" then
           [mkIssue severityCritical
              "virt-launcher container was OOMKilled. The VM requires more memory than allocated."
              "Increase the memory resource limits for the VM or reduce the guest memory requirements."]
         else []
     | None => []
     end.
Definition checkPodHealth (podDiagnostics : list pod_diagnostics) : list issue :=
  flat_map (fun diag =>
    (if pd_phase diag =?s "Pending" then
       [mkIssue severityWarning
          "virt-launcher pod is in Pending state. The pod has not been scheduled yet (possible resource constraints or nodeSelector mismatch)."
          "Check node resources and scheduling constraints. Ensure at least one node satisfies the pod's resource requests and node selectors."]
     else [])
    ++ flat_map container_issues (default [] (pd_containerStatuses diag))) podDiagnostics.

Definition node_selector (vm vmi : option object) : object :=
  let found o fields := match NestedMap o fields with Ok (Some m) => m | _ => [] end in
  let nodeSelector :=
    match vm with Some vm => found vm ["spec"; "template"; "spec"; "nodeSelector"] | None => [] end in
  match nodeSelector, vmi with
  | [], Some vmi => found vmi ["spec"; "nodeSelector"]
  | _, _ => nodeSelector
  end.
Definition checkNodeSelector (vm vmi : option object) : list issue :=
  let nodeSelector := node_selector vm vmi in
  match nodeSelector with
  | [] => []
  | _ =>
      match field "kubernetes.io/hostname" nodeSelector with
      | Some val =>
          [mkIssue severityWarning
             (fmt ["VM is pinned to a specific node via nodeSelector (kubernetes.io/hostname=";
                   string_or_empty (Some val); "). This prevents live migration to other nodes."])
             "Remove the kubernetes.io/hostname nodeSelector to allow migration, or use a broader label selector that matches multiple nodes."]
      | None =>
          [mkIssue severityInfo
             (fmt ["VM has nodeSelector constraints: ";
                   Join (map (fun '(k, v) => fmt [k; "="; Sprint v]) (range_map nodeSelector)) ", ";
                   ". This may limit scheduling and migration options."]) ""]
      end
  end.

(** *** Checks that ask the cluster *)

Definition listAvailableStorageClasses : prog string :=
  scList ← call (KList StorageClassGVR "" (mkSelectors "" ""));
  Ret (match scList with
       | Err _ | Ok [] => "(none found)"
       | Ok items =>
           Join (map (fun sc =>
                        if default "" (GetAnnotations sc !! "storageclass.kubernetes.io/is-default-class") =?s "true"
                        then GetName sc +:+ " (default)" else GetName sc) items) ", "
       end).
(** The name and the storage class of a template, when it has both parts. *)
Definition template_name (dvMap : object) : string :=
  match map_or_none (field "metadata" dvMap) with Some m => string_or_empty (field "name" m) | None => "" end.
Definition check_template (dvTemplate : yvalue) : prog (list issue) :=
  match dvTemplate with
  | YMap dvMap =>
      match map_or_none (field "spec" dvMap) with
      | None => Ret []
      | Some spec =>
          let dvName := template_name dvMap in
          let scName := extractStorageClassName spec in
          if scName =?s "" then Ret []
          else
            r ← call (KGet StorageClassGVR "" scName "");
            match r with
            | Ok _ => Ret []
            | Err err =>
                if errors_Is_kind KindNotFound err then
                  availableSCs ← listAvailableStorageClasses;
                  Ret [mkIssue severityCritical
                         (fmt ["StorageClass "; quote scName; " referenced by DataVolume "; quote dvName;
                               " does not exist on this cluster. Available StorageClasses: "; availableSCs; "."])
                         (fmt ["Change the DataVolume storageClassName from "; quote scName;
                               " to an existing StorageClass (e.g., "; availableSCs; ")."])]
                else
                  Ret [mkIssue severityWarning
                         (fmt ["Unable to verify StorageClass "; quote scName; " for DataVolume "; quote dvName; ": ";
                               error_string err]) ""]
            end
      end
  | _ => Ret []
  end.
(** A program for every element, with the results in order. *)
Fixpoint for_each {A B} (f : A -> prog (list B)) (l : list A) : prog (list B) :=
  match l with
  | [] => Ret []
  | a :: l => x ← f a; rest ← for_each f l; Ret (x ++ rest)
  end.
(** The client is never nil. *)
Definition checkStorageClass (vm : option object) : prog (list issue) :=
  match vm with
  | None => Ret []
  | Some vm => for_each check_template (found_slice vm ["spec"; "dataVolumeTemplates"])
  end.

Definition failed_migration (name : string) (vmim : object) : bool :=
  (default "" (found_string vmim ["spec"; "vmiName"]) =?s name)
  && (default "" (found_string vmim ["status"; "phase"]) =?s "Failed").
Definition newer (a b : object) : bool := (GetCreationTimestamp b <? GetCreationTimestamp a)%Z.
Definition migration_issue (vmim : object) : issue :=
  let failureReason := extractMigrationFailureReason (found_slice vmim ["status"; "conditions"]) in
  let created := GetCreationTimestamp vmim in
  mkIssue severityCritical
    (fmt ["VirtualMachineInstanceMigration "; quote (GetName vmim); " failed";
          if (created =? 0)%Z then "" else fmt [" ("; formatDuration (now - created); " ago)"]; ".";
          if failureReason ≠?s "" then fmt [" Reason: "; failureReason] else ""])
    "Check nodeSelector constraints, resource availability on target nodes, and migration policies. Remove hostname-specific nodeSelector to allow migration.".
Definition migration_issues (name : string) (items : list object) : list issue :=
  match List.filter (failed_migration name) items with
  | [] => []
  | failed =>
      let failed := sort_slice _ newer failed in
      map migration_issue (take maxReportedFailedMigrations failed)
      ++ (if Nat.ltb maxReportedFailedMigrations (length failed) then
            [mkIssue severityInfo
               (fmt [itoa (Z.of_nat (length failed) - Z.of_nat maxReportedFailedMigrations);
                     " additional older failed migrations not shown."]) ""]
          else [])
  end.
Definition checkMigrationStatus (namespace name : string) : prog (list issue) :=
  vmimList ← call (KList VirtualMachineInstanceMigrationGVR namespace
                     (mkSelectors ("kubevirt.io/vmi-name=" +:+ name) ""));
  Ret (match vmimList with Err _ => [] | Ok items => migration_issues name items end).

Definition analyzeIssues (namespace name : string) (vm vmi : option object)
    (podDiagnostics : list pod_diagnostics) : prog string :=
  scIssues ← checkStorageClass vm;
  migrations ← checkMigrationStatus namespace name;
  Ret (issues_section
         (checkVMConditions vm ++ scIssues ++ checkDataVolumeErrors vm scIssues ++ checkCloudInitCommands vm vmi
          ++ checkNodeSelector vm vmi ++ checkPodHealth podDiagnostics ++ migrations)).

(** *** The sections of the report *)

Definition yaml_block (yamlStr : string) : string := fmt ["```yaml"; nl; yamlStr; "```"].
(** The status of an object under a title, or what is wrong with it. *)
Definition status_section (title namespace name missing : string) (o : object) : string :=
  match NestedMap o ["status"] with
  | Err err => fmt ["## "; title; nl; nl; "*Error extracting status: "; error_string err; "*"]
  | Ok None => fmt ["## "; title; ": "; namespace; "/"; name; nl; nl; "*"; missing; "*"]
  | Ok (Some status) =>
      match MarshalYaml (YMap status) with
      | (_, Some err) => fmt ["## "; title; nl; nl; "*Error marshaling status: "; error_string err; "*"]
      | (yamlStr, None) => fmt ["## "; title; " Status: "; namespace; "/"; name; nl; nl; yaml_block yamlStr]
      end
  end.
Definition fetchVMStatus (namespace name : string) : prog (string * option object) :=
  vm ← call (KGet VirtualMachineGVR namespace name "");
  Ret (match vm with
       | Err err => (fmt ["## VirtualMachine"; nl; nl; "*Error: "; error_string err; "*"], None)
       | Ok vm =>
           (status_section "VirtualMachine" namespace name
              "No status found (VM may not have been reconciled yet)" vm, Some vm)
       end).
Definition fetchVMIStatus (namespace name : string) : prog (string * option object) :=
  vmi ← call (KGet VirtualMachineInstanceGVR namespace name "");
  Ret (match vmi with
       | Err err =>
           (fmt ["## VirtualMachineInstance"; nl; nl; "*VMI not found: "; error_string err; "*"; nl; nl;
                 "(Expected if VM is stopped or stuck provisioning)"], None)
       | Ok vmi => (status_section "VirtualMachineInstance" namespace name "No status found" vmi, Some vmi)
       end).

(** The volumes to show with where they are from, or the text of an error. *)
Definition volumes_of (vm vmi : option object) : string + (string * list yvalue) :=
  let of_vm :=
    match vm with Some vm => NestedSlice vm ["spec"; "template"; "spec"; "volumes"] | None => Ok None end in
  match of_vm with
  | Err err => inl (fmt ["*Error extracting volumes from VirtualMachine: "; error_string err; "*"])
  | Ok found =>
      let volumes := default [] found in
      match volumes, vmi with
      | [], Some vmi =>
          match NestedSlice vmi ["spec"; "volumes"] with
          | Err err => inl (fmt ["*Error extracting volumes from VirtualMachineInstance: "; error_string err; "*"])
          | Ok found => inr ("VirtualMachineInstance", default [] found)
          end
      | _, _ => inr ("VirtualMachine", volumes)
      end
  end.
Definition fetchVolumes (namespace name : string) (vm vmi : option object) : string :=
  match volumes_of vm vmi with
  | inl text => text
  | inr (_, []) => fmt ["## Volumes"; nl; nl; "*No volumes configured*"]
  | inr (source, volumes) =>
      match MarshalYaml (YSlice (stripCloudInitBodies volumes)) with
      | (_, Some err) => fmt ["*Error marshaling volumes: "; error_string err; "*"]
      | (yamlStr, None) =>
          fmt ["## Volumes (from "; source; ": "; namespace; "/"; name; ")"; nl; nl; yaml_block yamlStr]
      end
  end.

Definition launcher_selector (name : string) : selectors :=
  mkSelectors ("kubevirt.io=virt-launcher,vm.kubevirt.io/name=" +:+ name) "".
Definition pod_section (pod : object) : string :=
  match Marshal_diagnostics (extractPodDiagnostics pod) with
  | (_, Some err) => fmt ["*Error marshaling pod "; GetName pod; ": "; error_string err; "*"; nl; nl]
  | (yamlStr, None) => fmt ["### "; GetName pod; nl; nl; yaml_block yamlStr; nl; nl]
  end.
Definition fetchVirtLauncherPod (namespace name : string) : prog (string * list string * list pod_diagnostics) :=
  podList ← call (KList PodGVR namespace (launcher_selector name));
  Ret (match podList with
       | Err err => (fmt ["## virt-launcher Pod"; nl; nl; "*Error listing pods: "; error_string err; "*"], [], [])
       | Ok [] =>
           (fmt ["## virt-launcher Pod"; nl; nl;
                 "*No virt-launcher pod found (VM may be stopped or not yet scheduled)*"], [], [])
       | Ok pods =>
           (fmt (["## virt-launcher Pod"; nl; nl] ++ map pod_section pods), map GetName pods,
            map extractPodDiagnostics pods)
       end).

Definition containerName : string := "compute".
Definition fetch_log (namespace podName : string) : prog (list string) :=
  logs ← PodsLog namespace podName containerName false 50;
  Ret (match logs with
       | Err err => [fmt ["### "; podName; nl; nl; "*Error fetching logs: "; error_string err; "*"; nl; nl]]
       | Ok logs =>
           [fmt ["### "; podName; " (container: "; containerName; ")"; nl; nl; "```"; nl; redactLogSecrets logs; nl;
                 "```"; nl; nl]]
       end).
Definition fetchVirtLauncherPodLogs (namespace : string) (podNames : list string) : prog string :=
  match podNames with
  | [] => Ret (fmt ["## virt-launcher Pod Logs"; nl; nl; "*No pod found — no logs available*"])
  | _ =>
      texts ← for_each (fetch_log namespace) podNames;
      Ret (fmt (["## virt-launcher Pod Logs"; nl; nl] ++ texts))
  end.

(** The events of an object, or the text of the error. *)
Definition events_of (namespace objName : string) : prog (list (string + object)) :=
  events ← EventsList FromUnstructured namespace (mkSelectors "" ("involvedObject.name=" +:+ objName));
  Ret (match events with
       | Err err => [inl (fmt ["Error fetching events for "; objName; ": "; error_string err])]
       | Ok events => map inr events
       end).
Definition lefts {A B} (l : list (A + B)) : list A := flat_map (fun x => match x with inl a => [a] | inr _ => [] end) l.
Definition rights {A B} (l : list (A + B)) : list B := flat_map (fun x => match x with inl _ => [] | inr b => [b] end) l.
Definition events_text (eventErrors : list string) (relatedEvents : list object) : string :=
  match eventErrors, relatedEvents with
  | [], [] => fmt ["## Events"; nl; nl; "*No events found related to this VM*"]
  | _, _ =>
      fmt (["## Events"]
           ++ match eventErrors with [] => [] | _ => [nl; nl] ++ map (fun e => fmt ["*"; e; "*"; nl]) eventErrors end
           ++ match relatedEvents with
              | [] => []
              | _ => match MarshalYaml (YSlice (map YMap relatedEvents)) with
                     | (_, Some err) => [nl; nl; "*Error marshaling events: "; error_string err; "*"]
                     | (yamlStr, None) => [nl; nl; yaml_block yamlStr]
                     end
              end)
  end.
Definition fetchEvents (namespace vmName : string) (podNames : list string) : prog string :=
  found ← for_each (events_of namespace) (vmName :: podNames);
  Ret (events_text (lefts found) (rights found)).

(** The text on a volume whose data volume is missing: what its claim says. *)
Definition claim_text (pvc : result object) : list string :=
  match pvc with
  | Err err => [fmt ["*PVC also not found: "; error_string err; "*"; nl; nl]]
  | Ok pvc =>
      match NestedMap pvc ["status"] with
      | Ok (Some pvcStatus) =>
          match MarshalYaml (YMap pvcStatus) with
          | (_, Some err) => [fmt ["*Error marshaling PVC status: "; error_string err; "*"; nl; nl]]
          | (yamlStr, None) => [fmt ["PVC exists with status:"; nl; yaml_block yamlStr; nl; nl]]
          end
      | _ => []
      end
  end.
Definition data_volume_text (dvName : string) (dv : object) : string :=
  match NestedMap dv ["status"] with
  | Ok (Some dvStatus) =>
      match MarshalYaml (YMap dvStatus) with
      | (_, Some err) => fmt ["### "; dvName; nl; nl; "*Error marshaling DataVolume status: "; error_string err; "*"; nl; nl]
      | (yamlStr, None) =>
          let storageClass := default "" (found_string dv ["spec"; "storage"; "storageClassName"]) in
          fmt ["### "; dvName; if storageClass ≠?s "" then fmt [" (storageClass: "; storageClass; ")"] else ""; nl; nl;
               yaml_block yamlStr; nl; nl]
      end
  | _ => fmt ["### "; dvName; nl; nl; "*DataVolume exists but has no status*"; nl; nl]
  end.
Definition fetch_data_volume (namespace : string) (dvTemplate : yvalue) : prog (list string) :=
  match dvTemplate with
  | YMap dvMap =>
      let dvName := template_name dvMap in
      if dvName =?s "" then Ret []
      else
        dv ← call (KGet DataVolumeGVR namespace dvName "");
        match dv with
        | Err err =>
            if errors_Is_kind KindNotFound err then
              pvc ← call (KGet PersistentVolumeClaimGVR namespace dvName "");
              Ret (fmt ["### "; dvName; nl; nl; "*DataVolume not found*"; nl; nl] :: claim_text pvc)
            else
              Ret [fmt ["### "; dvName; nl; nl; "*Error fetching DataVolume: "; error_string err; "*"; nl; nl]]
        | Ok dv => Ret [data_volume_text dvName dv]
        end
  | _ => Ret []
  end.
Definition fetchDataVolumeStatus (namespace : string) (vm : option object) : prog string :=
  match vm with
  | None =>
      Ret (fmt ["## DataVolume/PVC Status"; nl; nl; "*No VM available to extract DataVolume references*"])
  | Some vm =>
      match found_slice vm ["spec"; "dataVolumeTemplates"] with
      | [] => Ret (fmt ["## DataVolume/PVC Status"; nl; nl; "*No dataVolumeTemplates defined in VM spec*"])
      | dvTemplates =>
          texts ← for_each (fetch_data_volume namespace) dvTemplates;
          Ret (fmt (["## DataVolume/PVC Status"; nl; nl] ++ texts))
      end
  end.

Definition cloudInitData (ciData : object) (plainKey base64Key : string) : string :=
  let plain := string_or_empty (field plainKey ciData) in
  if plain ≠?s "" then plain
  else
    let encoded := string_or_empty (field base64Key ciData) in
    if encoded =?s "" then ""
    else match base64_Decode (TrimSpace encoded) with Ok decoded => decoded | Err _ => "" end.
Definition cloud_init_text (volName ciKey : string) (ciData : object) : string :=
  let userData := cloudInitData ciData "userData" "userDataBase64" in
  let networkData := cloudInitData ciData "networkData" "networkDataBase64" in
  let block data := fmt ["```yaml"; nl; redactCloudInitSensitiveFields data; nl; "```"; nl; nl] in
  fmt ["### "; volName; " (type: "; ciKey; ")"; nl; nl;
       if userData ≠?s "" then block userData else "";
       if networkData ≠?s "" then fmt ["**networkData:**"; nl; block networkData] else "";
       if (userData =?s "") && (networkData =?s "") then
         match map_or_none (field "userDataSecretRef" ciData) with
         | Some secretRef =>
             fmt ["*userData from Secret: "; Sprint (default YNull (field "name" secretRef)); "*"; nl; nl]
         | None => ""
         end
       else ""].
Definition volume_text (vol : yvalue) : list string :=
  let volName := match vol with YMap volMap => string_or_empty (field "name" volMap) | _ => "" end in
  map (fun '(ciKey, ciData) => cloud_init_text volName ciKey ciData) (cloud_init_parts vol).
Definition extractCloudInit (vm vmi : option object) : string :=
  match cloud_init_volumes vm vmi with
  | [] => fmt ["## Cloud-Init Configuration"; nl; nl; "*No volumes found*"]
  | volumes =>
      match flat_map volume_text volumes with
      | [] => fmt ["## Cloud-Init Configuration"; nl; nl; "*No cloud-init volumes configured*"]
      | texts => fmt (["## Cloud-Init Configuration"; nl; nl] ++ texts)
      end
  end.

Definition troubleshoot (args : arguments) : prog ToolCallResult :=
  with_string args "namespace" (fun namespace =>
  with_string args "name" (fun name =>
    '(vmYaml, vm) ← fetchVMStatus namespace name;
    '(vmiYaml, vmi) ← fetchVMIStatus namespace name;
    let volumesYaml := fetchVolumes namespace name vm vmi in
    dataVolumeYaml ← fetchDataVolumeStatus namespace vm;
    let cloudInitYaml := extractCloudInit vm vmi in
    '(podYaml, podNames, podDiag) ← fetchVirtLauncherPod namespace name;
    podLogsText ← fetchVirtLauncherPodLogs namespace podNames;
    eventsYaml ← fetchEvents namespace name podNames;
    issuesSection ← analyzeIssues namespace name vm vmi podDiag;
    Ret (NewToolCallResult
           (fmt ["# VirtualMachine Diagnostic Report: "; namespace; "/"; name; nl; nl;
                 Join [issuesSection; vmYaml; vmiYaml; volumesYaml; dataVolumeYaml; cloudInitYaml; podYaml;
                       podLogsText; eventsYaml] (nl +:+ nl); nl]) None))).
End Troubleshoot.

Definition vm_troubleshoot_tool : Tool :=
  mkTool "vm_troubleshoot"
    (fmt ["Diagnose "; ProductName; " VirtualMachine issues with automated root-cause detection. Collects VM status, VMI status, volumes, DataVolume/PVC state, cloud-init configuration, pod state, logs, and events, then runs heuristic checks to identify specific problems and suggest fixes. Returns a 'Detected Issues' section with CRITICAL/WARNING findings and actionable remediation steps, followed by raw diagnostic data. Use this tool FIRST whenever a user asks why a VM is not starting, stuck in Provisioning, crashlooping, failing to migrate, or exhibiting unexpected behavior. Automatically detects: missing StorageClasses, invalid PVC specs, dangerous cloud-init commands (shutdown/halt), nodeSelector migration blockers, failed migrations, and pod crashloops. If the user asks to fix or remediate the issue, use the Suggested Fixes from the report with vm_lifecycle (restart) or resources_create_or_update."])
    (mkToolAnnotations "Virtual Machine: Troubleshoot" (Some true) (Some false) (Some true) (Some true)) []
    (Some (mkSchema "object" "" (Some [
       ("namespace", mkSchema "string" "The namespace of the VirtualMachine to troubleshoot" None);
       ("name", mkSchema "string" "The name of the VirtualMachine to troubleshoot" None)]))) None.

(** * Specification *)

(** Cloud-init data as a sequence of pieces: lines without secrets, lines with the text
    of a key, entries with a secret value on their line, and entries whose value is a
    block of further lines. *)
Inductive ci_piece : Type :=
| Plain (line : string)
| KeyText (line : string)
| Scalar (indent : nat) (key value : string)
| Block (indent : nat) (key indicator : string) (body : list string).
Definition entry (indent : nat) (key value : string) : string := spaces indent +:+ key +:+ ":" +:+ value.
Definition piece_lines (p : ci_piece) : list string :=
  match p with
  | Plain line | KeyText line => [line]
  | Scalar indent key value => [entry indent key value]
  | Block indent key indicator body => entry indent key indicator :: body
  end.
Definition masked_line (p : ci_piece) : string :=
  match p with
  | Plain line => line
  | KeyText line => spaces (leadingSpaces line) +:+ REDACTED
  | Scalar indent key _ | Block indent key _ _ => entry indent key (" " +:+ REDACTED)
  end.
Definition opens_block (value : string) : Prop := TrimSpace value = "" \/ isBlockScalarIndicator (TrimSpace value) = true.
Definition piece_ok (p : ci_piece) : Prop :=
  Forall (no_char lf) (piece_lines p) /\
  match p with
  | Plain line => isSensitiveKeyLine (TrimSpace line) = false /\ isSensitiveValueLine (TrimSpace line) = false
  | KeyText line => isSensitiveKeyLine (TrimSpace line) = false /\ isSensitiveValueLine (TrimSpace line) = true
  | Scalar _ key value => ToLower key ∈ sensitiveYAMLKeys /\ ~ opens_block value
  | Block indent key indicator body =>
      ToLower key ∈ sensitiveYAMLKeys /\ opens_block indicator /\ Forall (fun l => hidden (Some indent) l = true) body
  end.
(** The indentation whose deeper lines belong to the piece. *)
Definition open_indent (p : ci_piece) : option nat := match p with Block indent _ _ _ => Some indent | _ => None end.
(** The pieces follow one another: the line after a block is not part of it. *)
Fixpoint pieces_ok (r : option nat) (doc : list ci_piece) : Prop :=
  match doc with
  | [] => True
  | p :: doc =>
      piece_ok p /\ Forall (fun l => hidden r l = false) (take 1 (piece_lines p)) /\ pieces_ok (open_indent p) doc
  end.

(** * Lemmas *)

(** ** Lines *)

Lemma leadingSpaces_spaces n s : leadingSpaces (spaces n +:+ s) = n + leadingSpaces s.
Proof. induction n as [|n IH]; [done|]. cbn [spaces]. rewrite append_String. cbn. by rewrite IH. Qed.

Lemma trim_left_spaces n s : trim_left Ascii.is_space (spaces n +:+ s) = trim_left Ascii.is_space s.
Proof. induction n as [|n IH]; [done|]. cbn [spaces]. by rewrite append_String. Qed.

Lemma trim_comm f s : trim_left f (trim_right f s) = trim_right f (trim_left f s).
Proof.
  induction s as [|c s IH]; [done|]. cbn [trim_left]. destruct (f c) eqn:Hc; cbn [trim_right].
  - rewrite <- IH. destruct (trim_right f s) as [|a r]; [by rewrite Hc|]. cbn [trim_left]. by rewrite Hc.
  - destruct (trim_right f s); [rewrite Hc|]; cbn [trim_left]; by rewrite Hc.
Qed.

Lemma trim_right_keep f s t : trim_right f t <> "" -> trim_right f (s +:+ t) = s +:+ trim_right f t.
Proof.
  intros Ht. induction s as [|c s IH]; [done|]. rewrite append_String. cbn [trim_right]. rewrite IH.
  destruct (s +:+ trim_right f t) eqn:E; [|by rewrite append_String, E].
  destruct s; [by destruct Ht|done].
Qed.

Lemma TrimSpace_trim_right s : TrimSpace (trim_right Ascii.is_space s) = TrimSpace s.
Proof. unfold TrimSpace, trim_func. by rewrite trim_comm, trim_right_idem. Qed.

Lemma map_str_append f s t : map_str f (s +:+ t) = map_str f s +:+ map_str f t.
Proof. induction s as [|c s IH]; [done|]. rewrite append_String. cbn [map_str]. by rewrite IH, append_String. Qed.

Lemma lower_char_space c : Ascii.is_space (lower_char c) = Ascii.is_space c.
Proof. by destruct c as [[] [] [] [] [] [] [] []]. Qed.

Lemma no_char_ToLower c s : lower_char c = c -> no_char c (ToLower s) -> no_char c s.
Proof.
  intros Hc. unfold ToLower. induction s as [|a s IH]; [done|]. cbn. intros [Ha Hs].
  split; [intros ->; by rewrite Hc in Ha|by apply IH].
Qed.

(** A secret key has no colon and does not begin with a space. *)
Lemma sensitive_key key :
  ToLower key ∈ sensitiveYAMLKeys ->
  no_char ":" key /\ exists c k, key = String c k /\ Ascii.is_space c = false.
Proof.
  intros Hk. assert (Forall (fun k => no_char ":" k /\ match k with String c _ => Ascii.is_space c = false | _ => False end)
    sensitiveYAMLKeys) as HF by (by repeat constructor).
  rewrite Forall_forall in HF. destruct (HF _ Hk) as [H1 H2]. split; [by apply no_char_ToLower|].
  destruct key as [|c k]; [done|]. exists c, k. split; [done|]. cbn in H2. by rewrite lower_char_space in H2.
Qed.

Lemma space_or_tab c : Ascii.is_space c = false -> bool_decide (c = " "%char) || bool_decide (c = "009"%char) = false.
Proof. intros H. do 2 (case_bool_decide; [by subst|]). done. Qed.

(** An entry with a secret key is masked whatever its value. *)
Lemma mask_entry indent key value :
  ToLower key ∈ sensitiveYAMLKeys ->
  mask_line (entry indent key value) =
  (entry indent key (" " +:+ REDACTED),
   if (TrimSpace value =?s "") || isBlockScalarIndicator (TrimSpace value) then Some indent else None).
Proof.
  intros Hk. destruct (sensitive_key _ Hk) as (Hc & c & k & -> & Hs). unfold mask_line.
  assert (TrimSpace (entry indent (String c k) value) = String c k +:+ ":" +:+ trim_right Ascii.is_space value) as ->.
  { unfold TrimSpace, trim_func, entry. rewrite trim_left_spaces. rewrite append_String, trim_left_id by done.
    rewrite <- append_String. assert (trim_right Ascii.is_space (":" +:+ value) = ":" +:+ trim_right Ascii.is_space value) as Hv.
    { change (":" +:+ value) with (String ":" value). cbn [trim_right]. by destruct (trim_right Ascii.is_space value). }
    rewrite trim_right_keep by (by rewrite Hv). by rewrite Hv. }
  assert (leadingSpaces (entry indent (String c k) value) = indent) as ->.
  { unfold entry. rewrite leadingSpaces_spaces, append_String. cbn. rewrite space_or_tab by done. lia. }
  assert (isSensitiveKeyLine (String c k +:+ ":" +:+ trim_right Ascii.is_space value) = true) as ->.
  { apply existsb_exists. exists (ToLower (String c k)). split; [by apply list_elem_of_In|].
    unfold ToLower at 1. rewrite !map_str_append, <- append_assoc. apply HasPrefix_append. }
  change (":" +:+ ?v) with (String ":" v). rewrite no_char_Cut by done. cbn. by rewrite TrimSpace_trim_right.
Qed.

Lemma mask_piece p : piece_ok p ->
  exists line rest, piece_lines p = line :: rest /\ (mask_line line).1 = masked_line p /\
    (mask_line line).2 = open_indent p /\ Forall (fun l => hidden (open_indent p) l = true) rest.
Proof.
  intros [_ H]. destruct p as [line|line|indent key value|indent key indicator body].
  - destruct H as [H1 H2]. exists line, []. unfold mask_line. by rewrite H1, H2.
  - destruct H as [H1 H2]. exists line, []. unfold mask_line. by rewrite H1, H2.
  - destruct H as [H1 H2]. eexists _, []. split; [done|]. rewrite mask_entry by done. split; [done|]. split; [|done].
    cbn. destruct (_ || _) eqn:E; [|done]. destruct H2. by apply orb_true_iff in E as [E%bool_decide_eq_true|E]; [left|right].
  - destruct H as (H1 & H2 & H3). eexists _, body. split; [done|]. rewrite mask_entry by done. split; [done|]. split; [|done].
    cbn. assert ((TrimSpace indicator =?s "") || isBlockScalarIndicator (TrimSpace indicator) = true) as ->; [|done].
    apply orb_true_iff. by destruct H2; [left; apply bool_decide_eq_true|right].
Qed.

Lemma redact_hidden r body lines :
  Forall (fun l => hidden r l = true) body -> redact_lines r (body ++ lines) = redact_lines r lines.
Proof. induction 1 as [|l body Hl _ IH]; [done|]. cbn [app redact_lines]. by rewrite Hl. Qed.

Lemma redact_pieces doc : forall r, pieces_ok r doc ->
  redact_lines r (concat (map piece_lines doc)) = map masked_line doc.
Proof.
  induction doc as [|p doc IH]; intros r; [done|]. intros (Hp & Hh & Hd).
  destruct (mask_piece p Hp) as (line & rest & Hl & H1 & H2 & Hr). cbn [map concat]. rewrite Hl in *.
  apply Forall_cons in Hh as [Hh _]. cbn [app redact_lines]. rewrite Hh, H1, H2, redact_hidden by done.
  by rewrite IH.
Qed.

(** ** Commands and migrations *)

Lemma detect_lines_spec lines : forall seen,
  NoDup (detect_lines seen lines) /\
  forall cmd, cmd ∈ detect_lines seen lines <->
    cmd <> "" /\ (cmd ∉ seen) /\ exists line, line ∈ lines /\ dangerous_line line = cmd.
Proof.
  induction lines as [|line lines IH]; intros seen; cbn [detect_lines].
  { split; [constructor|]. intros cmd. split; [by intros ?%elem_of_nil|]. intros (_ & _ & line & H & _).
    by apply elem_of_nil in H. }
  set (c := dangerous_line line). destruct ((c ≠?s "") && negb (slices_Contains seen c)) eqn:E.
  - apply andb_true_iff in E as [Hc%negb_true_iff%bool_decide_eq_false Hs%negb_true_iff].
    assert (c ∉ seen) as Hs' by (intros H%slices_Contains_spec; congruence).
    destruct (IH (c :: seen)) as [Hn Hm]. split.
    + constructor; [|done]. intros (_ & Hns & _)%Hm. apply Hns. left.
    + intros cmd. rewrite elem_of_cons, Hm. split.
      * intros [->|(Hne & Hns & l & Hl & Hd)]; [split; [done|]; split; [done|]; exists line; split; [left|done]|].
        split; [done|]. split; [intros H; apply Hns; by right|]. exists l. split; [by right|done].
      * intros (Hne & Hns & l & Hl & Hd). apply elem_of_cons in Hl as [->|Hl]; [by left|].
        destruct (decide (cmd = c)) as [|Hcc]; [by left|right]. split; [done|].
        split; [by intros [?|?]%elem_of_cons|by exists l].
  - destruct (IH seen) as [Hn Hm]. split; [done|]. intros cmd. rewrite Hm. split.
    + intros (Hne & Hns & l & Hl & Hd). split; [done|]. split; [done|]. exists l. split; [by right|done].
    + intros (Hne & Hns & l & Hl & Hd). split; [done|]. split; [done|]. exists l. split; [|done].
      apply elem_of_cons in Hl as [->|Hl]; [|done]. fold c in Hd. subst cmd.
      apply andb_false_iff in E as [E|E]; apply negb_false_iff in E; [by apply bool_decide_eq_true in E|].
      by apply slices_Contains_spec in E.
Qed.

Lemma orders_newer GetCreationTimestamp : orders (newer GetCreationTimestamp).
Proof. split; unfold newer; intros; lia. Qed.

Lemma no_char_take c n s : no_char c s -> no_char c (take_str n s).
Proof. revert n. induction s as [|a s IH]; intros [|n]; cbn; [done..|]. intros [? ?]. auto. Qed.

Lemma Join_nl parts : Join parts nl = Join parts (String lf "").
Proof. done. Qed.

Lemma no_lf_pieces r doc : pieces_ok r doc -> Forall (no_char lf) (concat (map piece_lines doc)).
Proof.
  revert r. induction doc as [|p doc IH]; intros r; [done|]. intros ([Hp _] & _ & Hd). cbn.
  by apply Forall_app_2; [|eapply IH].
Qed.

(** ** Reads *)

Lemma reads_for_each {A B} (f : A -> prog (list B)) l :
  (forall a, every (@reads_only) (f a)) -> every (@reads_only) (for_each f l).
Proof. intros Hf. induction l as [|a l IH]; [done|]. apply every_then; [done|]. intros x. by apply every_then. Qed.

Section Reads.
Context (MarshalYaml : yvalue -> printed) (Marshal_diagnostics : pod_diagnostics -> printed).
Context (base64_Decode : string -> result string) (Sprint : yvalue -> string) (ovf : spec_float -> Z).
Context (FromUnstructured : object -> result k8s_event).
Context (GetCreationTimestamp : object -> Z) (now : Z).
Context (sort_slice : forall A, (A -> A -> bool) -> list A -> list A) (range_map : object -> object).

Lemma reads_checkStorageClass vm : every (@reads_only) (checkStorageClass vm).
Proof.
  destruct vm as [vm|]; [|done]. apply reads_for_each. intros t. destruct t; try done. cbn [check_template].
  case_match; [|done]. case_match; [done|]. apply every_then; [by apply every_call; intros []|]. intros [o|err]; [done|].
  case_match; [|done]. apply every_then; [|done]. apply every_then; [by apply every_call; intros []|done].
Qed.

Lemma reads_fetchDataVolumeStatus ns vm : every (@reads_only) (fetchDataVolumeStatus MarshalYaml ns vm).
Proof.
  destruct vm as [vm|]; [|done]. cbn [fetchDataVolumeStatus]. case_match; [done|]. apply every_then; [|done].
  apply reads_for_each. intros t. destruct t; try done. cbn [fetch_data_volume]. case_match; [done|].
  apply every_then; [by apply every_call; intros []|]. intros [o|err]; [done|]. case_match; [|done].
  apply every_then; [by apply every_call; intros []|done].
Qed.

Lemma reads_fetchVirtLauncherPodLogs ns names : every (@reads_only) (fetchVirtLauncherPodLogs ns names).
Proof.
  unfold fetchVirtLauncherPodLogs. case_match; [done|]. apply every_then; [|done]. apply reads_for_each.
  intros n. apply every_then; [apply reads_PodsLog|done].
Qed.

Lemma reads_fetchEvents ns name names : every (@reads_only) (fetchEvents MarshalYaml FromUnstructured ns name names).
Proof.
  apply every_then; [|done]. apply reads_for_each. intros n. apply every_then; [apply reads_EventsList|done].
Qed.

Lemma reads_troubleshoot args :
  every (@reads_only) (troubleshoot MarshalYaml Marshal_diagnostics base64_Decode Sprint ovf FromUnstructured
    GetCreationTimestamp now sort_slice range_map args).
Proof.
  apply every_with_string. intros ns. apply every_with_string. intros name.
  apply every_then; [apply every_then; [by apply every_call; intros []|done]|]. intros [vmYaml vm].
  apply every_then; [apply every_then; [by apply every_call; intros []|done]|]. intros [vmiYaml vmi].
  apply every_then; [apply reads_fetchDataVolumeStatus|]. intros dvs.
  apply every_then; [apply every_then; [by apply every_call; intros []|done]|]. intros [[podYaml podNames] podDiag].
  apply every_then; [apply reads_fetchVirtLauncherPodLogs|]. intros logs.
  apply every_then; [apply reads_fetchEvents|]. intros events. apply every_then; [|done].
  apply every_then; [apply reads_checkStorageClass|]. intros scs.
  apply every_then; [apply every_then; [by apply every_call; intros []|done]|]. done.
Qed.
End Reads.

(** * Properties *)


(** The log of a pod keeps its lines, each as it is when it has none of the patterns,
    and otherwise cut right after the first occurrence of the first pattern of the list
    that it has. *)
Theorem redactLogSecrets_lines logs :
  Forall2 (fun line shown =>
      (shown = line /\ Forall (fun pat => Contains (ToLower line) pat = false) logSecretPatterns) \/
      exists before pat after idx, logSecretPatterns = before ++ pat :: after /\
        Forall (fun pat => Contains (ToLower line) pat = false) before /\
        Index (ToLower line) pat = Some idx /\ shown = take_str (idx + slen pat) line +:+ REDACTED)
    (Split lf logs) (Split lf (redactLogSecrets logs)).
Proof.
  assert (forall line patterns,
    (redact_log_line patterns line = line /\ Forall (fun pat => Contains (ToLower line) pat = false) patterns) \/
    exists before pat after idx, patterns = before ++ pat :: after /\
      Forall (fun pat => Contains (ToLower line) pat = false) before /\
      Index (ToLower line) pat = Some idx /\
      redact_log_line patterns line = take_str (idx + slen pat) line +:+ REDACTED) as Hline.
  { intros line patterns. induction patterns as [|pat patterns IH]; [by left|]. cbn [redact_log_line].
    destruct (Index (ToLower line) pat) as [idx|] eqn:Hi; [right; by exists [], pat, patterns, idx|].
    assert (Contains (ToLower line) pat = false) as Hc by (unfold Contains; by rewrite Hi).
    destruct IH as [[-> IH]|(before & p & after & idx & -> & Hb & Hp & ->)]; [left; split; [done|by constructor]|].
    right. exists (pat :: before), p, after, idx. split; [done|]. split; [by constructor|done]. }
  unfold redactLogSecrets. rewrite Join_nl, Split_Join.
  - induction (Split lf logs) as [|line lines IH]; [constructor|]. constructor; [apply Hline|done].
  - destruct (Split lf logs) eqn:E; [by apply Split_not_nil in E|done].
  - apply Forall_map. eapply Forall_impl; [apply Split_parts_no_char|]. intros line Hl. cbv beta.
    destruct (Hline line logSecretPatterns) as [[-> _]|(_ & pat & _ & idx & _ & _ & _ & ->)]; [done|].
    apply no_char_append. split; [by apply no_char_take|done].
Qed.

(** The commands reported are those of the lines, each once. *)
Theorem detectDangerous_spec userData :
  NoDup (detectDangerousCloudInitCommands userData) /\
  forall cmd, cmd ∈ detectDangerousCloudInitCommands userData <->
    cmd <> "" /\ exists line, line ∈ Split lf userData /\ dangerous_line line = cmd.
Proof.
  destruct (detect_lines_spec (Split lf userData) []) as [Hn Hm]. split; [done|]. intros cmd. unfold detectDangerousCloudInitCommands. rewrite Hm.
  split; [by intros (? & _ & ?)|]. intros [? ?]. split; [done|]. split; [by intros ?%elem_of_nil|done].
Qed.

(** Of the failed migrations of a machine the three newest are reported, with the
    number of the others when there are some. *)
Theorem migrations_newest GetCreationTimestamp now sort_slice name items :
  sorts sort_slice ->
  exists shown left_out,
    List.filter (failed_migration name) items ≡ₚ shown ++ left_out /\
    length shown = min 3 (length (List.filter (failed_migration name) items)) /\
    Forall (fun s => Forall (fun o => (GetCreationTimestamp o <= GetCreationTimestamp s)%Z) left_out) shown /\
    migration_issues GetCreationTimestamp now sort_slice name items =
      map (migration_issue GetCreationTimestamp now) shown ++
      match left_out with
      | [] => []
      | _ => [mkIssue severityInfo
                (fmt [itoa (Z.of_nat (length left_out)); " additional older failed migrations not shown."]) ""]
      end.
Proof.
  intros Hs. unfold migration_issues. destruct (List.filter _ items) as [|m ms] eqn:Hf.
  { exists [], []. by split_and!. }
  destruct (Hs _ (newer GetCreationTimestamp) (m :: ms) (orders_newer _)) as [Hp Ho].
  set (l := sort_slice _ _ _) in *. exists (take 3 l), (drop 3 l). rewrite take_drop. split; [by symmetry|].
  split; [rewrite length_take; by rewrite (Permutation_length Hp)|]. split.
  - rewrite <- (take_drop 3 l) in Ho. apply StronglySorted_app in Ho as (Ho & _ & _).
    apply Forall_forall. intros s Hin. apply Forall_forall. intros o Hino.
    specialize (Ho s o Hin Hino). unfold newer in Ho. lia.
  - f_equal. unfold maxReportedFailedMigrations. pose proof (length_drop l 3) as Hlen.
    destruct (drop 3 l) as [|o os]; destruct (Nat.ltb_spec 3 (length l)); cbn [length] in *; try lia; [done|].
    repeat f_equal. lia.
Qed.

(** * Examples and witnesses *)

(** Secrets that masking leaves: a key that begins an item of a list, items that are
    not indented below their key, and a secret left of the first listed pattern. *)
Example item_key_shown :
  let text := Join ["users:"; "  - passwd: s3cret"] nl in redactCloudInitSensitiveFields text = text.
Proof. by vm_compute. Qed.
Example unindented_items_shown :
  redactCloudInitSensitiveFields (Join ["write_files:"; "- path: /etc/key"; "  content: s3cret"] nl) =
  Join ["write_files: <REDACTED>"; "- path: /etc/key"; "  content: s3cret"] nl.
Proof. by vm_compute. Qed.
Example earlier_secret_shown :
  redactLogSecrets "password=s3cret bearer abc" = "password=s3cret bearer <REDACTED>".
Proof. by vm_compute. Qed.
(** A shutdown that is not detected. *)
Example shutdown_now : detectDangerousCloudInitCommands (Join ["runcmd:"; "  - shutdown now"] nl) = [].
Proof. by vm_compute. Qed.
Example shutdown_array : detectDangerousCloudInitCommands (Join ["runcmd:"; "  - [ shutdown, now ]"] nl) = ["shutdown"].
Proof. by vm_compute. Qed.


Lemma migrations_newest_witness :
  let migration n t : object :=
    [("metadata", YMap [("name", YString n); ("created", YInt64 t)]); ("spec", YMap [("vmiName", YString "web")]);
     ("status", YMap [("phase", YString "Failed")])] in
  let created o := match nested_field (YMap o) ["metadata"; "created"] with Some (YInt64 t) => t | _ => 0%Z end in
  let items := [migration "a" 1; migration "b" 4; migration "c" 2; migration "d" 3]%Z in
  exists shown left_out,
    List.filter (failed_migration "web") items ≡ₚ shown ++ left_out /\
    length shown = min 3 (length (List.filter (failed_migration "web") items)) /\
    Forall (fun s => Forall (fun o => (created o <= created s)%Z) left_out) shown /\
    migration_issues created 5 merge_slice "web" items =
      map (migration_issue created 5) shown ++
      match left_out with
      | [] => []
      | _ => [mkIssue severityInfo
                (fmt [itoa (Z.of_nat (length left_out)); " additional older failed migrations not shown."]) ""]
      end.
Proof. intros migration created items. exact (migrations_newest created 5 merge_slice "web" items merge_slice_sorts). Defined.
