(* ===== verification/KubeVirtPrompts.v ===== *)
(** The prompts of the kubevirt toolset that collect data of the cluster
    (pkg/toolsets/kubevirt: vm_troubleshoot.go, hco_status.go), as programs over the
    cluster, and the toolset with all its tools (toolset.go).  The YAML encoder and the
    conversion of events are parameters. *)
From Stdlib Require Import SpecFloat.
From S2P Require Import Prelude GoStrings Api Params Toolsets Config Tools Prompts Unstructured Cluster Core CoreTools KubeVirt KubeVirtTools KubeVirtDiag.

(** * Definitions *)

Section Prompts.
Context (MarshalYaml : yvalue -> printed) (FromUnstructured : object -> result k8s_event).

(** ** vm_troubleshoot.go *)

(** The status of an object under a title, or what is wrong with it. *)
Definition prompt_status (kind namespace name : string) (o : object) : string :=
  let title := fmt ["### "; kind; " Status"] in
  match NestedMap o ["status"] with
  | Err err => fmt [title; nl; nl; "*Error extracting status: "; error_string err; "*"]
  | Ok None => fmt [title; ": "; namespace; "/"; name; nl; nl; "*No status found*"]
  | Ok (Some status) =>
      match MarshalYaml (YMap status) with
      | (_, Some err) => fmt [title; nl; nl; "*Error marshaling VirtualMachine status: "; error_string err; "*"]
      | (yamlStr, None) => fmt [title; ": "; namespace; "/"; name; nl; nl; yaml_block yamlStr]
      end
  end.
Definition fetchVirtualMachineStatus (namespace name : string) : prog (string * option object) :=
  vm ← call (KGet VirtualMachineGVR namespace name "");
  Ret (match vm with
       | Err err =>
           (fmt ["### VirtualMachine Status"; nl; nl; "*Error fetching VirtualMachine: "; error_string err; "*"], None)
       | Ok vm => (prompt_status "VirtualMachine" namespace name vm, Some vm)
       end).
Definition fetchVirtualMachineInstanceStatus (namespace name : string) : prog (string * option object) :=
  vmi ← call (KGet VirtualMachineInstanceGVR namespace name "");
  Ret (match vmi with
       | Err err =>
           (fmt ["### VirtualMachineInstance Status"; nl; nl; "*VirtualMachineInstance not found or error: ";
                 error_string err; "*"; nl; nl; "(This may be expected if the VM is stopped)"], None)
       | Ok vmi => (prompt_status "VirtualMachineInstance" namespace name vmi, Some vmi)
       end).
(** The volumes as they are. *)
Definition fetchVirtualMachineVolumes (namespace name : string) (vm vmi : option object) : string :=
  match volumes_of vm vmi with
  | inl text => text
  | inr (_, []) => "*No volumes configured*"
  | inr (source, volumes) =>
      match MarshalYaml (YSlice volumes) with
      | (_, Some err) => fmt ["*Error marshaling volumes: "; error_string err; "*"]
      | (yamlStr, None) =>
          fmt ["### Configured Volumes (from "; source; ": "; namespace; "/"; name; ")"; nl; nl; yaml_block yamlStr]
      end
  end.
Definition prompt_pod (pod : object) : string :=
  match MarshalYaml (YMap pod) with
  | (_, Some err) => fmt ["*Error marshaling pod "; GetName pod; ": "; error_string err; "*"; nl; nl]
  | (yamlStr, None) => fmt ["#### "; GetName pod; nl; nl; yaml_block yamlStr; nl; nl]
  end.
Definition fetchVirtLauncherPod (namespace name : string) : prog (string * list string) :=
  podList ← call (KList PodGVR namespace (launcher_selector name));
  Ret (match podList with
       | Err err => (fmt ["### virt-launcher Pod"; nl; nl; "*Error listing pods: "; error_string err; "*"], [])
       | Ok [] =>
           (fmt ["### virt-launcher Pod"; nl; nl; "*No virt-launcher pod found*"; nl; nl;
                 "(This is expected if the VM is stopped or the VMI hasn't been scheduled yet)"], [])
       | Ok pods => (fmt (["### virt-launcher Pod"; nl; nl] ++ map prompt_pod pods), map GetName pods)
       end).
(** The text on the pods so far; the first error replaces it. *)
Fixpoint launcher_logs (namespace : string) (text : list string) (podNames : list string) : prog string :=
  match podNames with
  | [] => Ret (fmt text)
  | podName :: podNames =>
      logs ← PodsLog namespace podName containerName false 50;
      match logs with
      | Err err =>
          Ret (fmt ["### virt-launcher Pod Logs"; nl; nl; "*Error fetching logs: "; error_string err; "*"])
      | Ok logs =>
          launcher_logs namespace
            (text ++ ["#### Pod: "; podName; nl; nl; "**Container: "; containerName; "**"; nl; nl; "```"; nl; logs; nl;
                      "```"; nl; nl]) podNames
      end
  end.
Definition fetchVirtLauncherPodLogs (namespace : string) (podNames : list string) : prog string :=
  match podNames with
  | [] => Ret (fmt ["### virt-launcher Pod Logs"; nl; nl; "*No virt-launcher pod found - no logs available*"])
  | _ => launcher_logs namespace ["### virt-launcher Pod Logs"; nl; nl] podNames
  end.

(** A field of the object that an event is about. *)
Definition involved (k : string) (event : object) : option string :=
  match field "InvolvedObject" event with
  | Some (YMap o) => Some (string_or_empty (field k o))
  | _ => None
  end.
Definition about_machine (event : object) : bool :=
  match involved "Kind" event with
  | Some objKind => (objKind =?s "VirtualMachine") || (objKind =?s "VirtualMachineInstance")
  | None => false
  end.
Definition about_prefix (vmName : string) (event : object) : bool :=
  match involved "Name" event with
  | Some objName => HasPrefix objName (vmName +:+ "-") || HasPrefix objName ("virt-launcher-" +:+ vmName)
  | None => false
  end.
Definition marshal_events (title : string) (events : list object) : string :=
  match MarshalYaml (YSlice (map YMap events)) with
  | (_, Some err) => fmt ["### Events"; nl; nl; "*Error marshaling events: "; error_string err; "*"]
  | (yamlStr, None) => fmt [title; nl; nl; yaml_block yamlStr]
  end.
Definition listing_failed (err : error) : string :=
  fmt ["### Events"; nl; nl; "*Error listing events: "; error_string err; "*"].
Definition fetchEvents (namespace vmName : string) : prog string :=
  vmEvents ← EventsList FromUnstructured namespace (mkSelectors "" ("involvedObject.name=" +:+ vmName));
  match vmEvents with
  | Err err => Ret (listing_failed err)
  | Ok vmEvents =>
      allEvents ← EventsList FromUnstructured namespace (mkSelectors "" "");
      Ret (match allEvents with
           | Err err => listing_failed err
           | Ok allEvents =>
               match List.filter about_machine vmEvents ++ List.filter (about_prefix vmName) allEvents with
               | [] => fmt ["### Events"; nl; nl; "*No events found related to this VM*"]
               | relatedEvents => marshal_events (fmt ["### Events (related to "; vmName; ")"]) relatedEvents
               end
           end)
  end.

Definition vm_guide (name namespace vmYaml vmiYaml volumesYaml podYaml podLogsText eventsYaml : string) : string :=
  fmt ["# "; ProductName; " VirtualMachine Troubleshooting Guide"; nl; nl; "## VM: "; name; " (namespace: ";
    namespace; ")"; nl; nl; "Use this guide to diagnose issues with the "; ProductName;
    " VirtualMachine. The relevant resource data has been collected below."; nl; nl; "---"; nl; nl;
    "## Step 1: VirtualMachine Status"; nl; nl; "Check the VirtualMachine status:"; nl;
    "- printableStatus (should be "; dq; "Running"; dq; ")"; nl; "- ready (should be true)"; nl;
    "- conditions for any errors"; nl; nl; vmYaml; nl; nl; "---"; nl; nl; "## Step 2: VirtualMachineInstance Status";
    nl; nl; "Check the VirtualMachineInstance status:"; nl; "- phase (should be "; dq; "Running"; dq; ")"; nl;
    "- conditions for "; dq; "Ready"; dq; " condition"; nl; nl; vmiYaml; nl; nl; "---"; nl; nl;
    "## Step 3: VM Volumes"; nl; nl; "Review the VM volumes for any configuration issues:"; nl; nl; volumesYaml; nl;
    nl; "**Common volume types to check:**"; nl;
    "- **containerDisk**: Verify the image URL is accessible and the image exists"; nl;
    "- **cloudInitNoCloud / cloudInitConfigDrive**: Check userData and networkData for syntax errors"; nl;
    "- **configMap**: Verify the referenced ConfigMap exists in the namespace"; nl;
    "- **secret**: Verify the referenced Secret exists in the namespace"; nl;
    "- **serviceAccount**: Check if the ServiceAccount exists and has proper permissions"; nl;
    "- **emptyDisk**: Usually no issues, but check if capacity is specified correctly"; nl;
    "- **hostDisk**: Verify the path exists on the host node and has correct permissions"; nl;
    "- **downwardMetrics**: Usually no configuration issues"; nl;
    "- **dataVolume**: Check that the DataVolume exists and status.phase is "; dq; "Succeeded"; dq; nl;
    "- **persistentVolumeClaim**: Check that the PVC exists and status.phase is "; dq; "Bound"; dq; nl; nl; "---";
    nl; nl; "## Step 4: virt-launcher Pod"; nl; nl; "Check the virt-launcher pod:"; nl; "- Pod should be "; dq;
    "Running"; dq; " with all containers ready"; nl; "- Check for container restart counts"; nl;
    "- Review pod conditions for issues"; nl; nl; podYaml; nl; nl; "---"; nl; nl;
    "## Step 5: virt-launcher Pod Logs"; nl; nl; "Review the logs from the virt-launcher pod containers:"; nl;
    "- Look for error messages or stack traces"; nl; "- Check for VM boot issues or QEMU errors"; nl; nl;
    podLogsText; nl; nl; "---"; nl; nl; "## Step 6: Events"; nl; nl;
    "Review events related to the VM and its components:"; nl; "- Look for Warning events"; nl;
    "- Check for scheduling, storage, or network issues"; nl; nl; eventsYaml; nl; nl; "---"; nl; nl;
    "## Troubleshooting Analysis"; nl; nl; "Based on the data above, analyze:"; nl; nl;
    "1. **VM State**: Is the VM in the expected state (Running/Stopped)?"; nl;
    "2. **VMI State**: Does the VMI exist and is it Running?"; nl;
    "3. **Volumes**: Are all referenced volumes (DataVolumes, PVCs, ConfigMaps, Secrets, container images) available?";
    nl; "4. **Pod Health**: Is the virt-launcher pod running without restarts?"; nl;
    "5. **Events**: Are there any Warning events indicating problems?"; nl; nl; "---"; nl; nl; "## Fix the Issue";
    nl; nl; "If you identified a problem, attempt to fix it:"; nl; nl;
    "1. **Missing Resources**: Create missing ConfigMaps, Secrets, or PVCs referenced by the VM"; nl;
    "2. **Storage Issues**: Check DataVolume import status, fix storage class or access mode issues"; nl;
    "3. **Image Pull Errors**: Verify container disk image URLs are correct and accessible"; nl;
    "4. **Configuration Errors**: Fix any syntax errors in cloud-init userData or other configurations"; nl;
    "5. **Resource Constraints**: Adjust VM resource requests if the pod cannot be scheduled"; nl;
    "6. **Restart VM**: If the VM is stuck, try stopping and starting it again"; nl; nl;
    "Use the available Kubernetes tools to apply fixes (create resources, update configurations, restart VM)."; nl;
    nl; "---"; nl; nl; "## Report Findings"; nl; nl;
    "After completing troubleshooting and attempting fixes, report:"; nl;
    "- **Status:** Running/Stopped/Failed/Provisioning"; nl; "- **Root Cause:** Description or "; dq; "None found";
    dq; nl; "- **Action Taken:** What was done to fix the issue (or "; dq; "None"; dq;
    " if no fix was needed/possible)"; nl;
    "- **Result:** Whether the fix was successful or further action is needed"; nl].

Definition vmTroubleshootHandler (args : gmap string string) : prog (result PromptCallResult) :=
  let namespace := default "" (args !! "namespace") in
  let name := default "" (args !! "name") in
  if namespace =?s "" then Ret (Err (ErrNew "namespace argument is required"))
  else if name =?s "" then Ret (Err (ErrNew "name argument is required"))
  else
    '(vmYaml, vm) ← fetchVirtualMachineStatus namespace name;
    '(vmiYaml, vmi) ← fetchVirtualMachineInstanceStatus namespace name;
    let volumesYaml := fetchVirtualMachineVolumes namespace name vm vmi in
    '(podYaml, podNames) ← fetchVirtLauncherPod namespace name;
    podLogsText ← fetchVirtLauncherPodLogs namespace podNames;
    eventsYaml ← fetchEvents namespace name;
    Ret (Ok (NewPromptCallResult "VirtualMachine troubleshooting guide generated"
      [mkPromptMessage "user" (mkPromptContent "text"
         (vm_guide name namespace vmYaml vmiYaml volumesYaml podYaml podLogsText eventsYaml));
       mkPromptMessage "assistant" (mkPromptContent "text"
         "I'll analyze the collected data to diagnose the VirtualMachine issues systematically.")] None)).

(** ** hco_status.go *)

Definition discoverHyperConvergedCR : prog (result (object * string)) :=
  hcoList ← call (KList HyperConvergedGVR "" (mkSelectors "" ""));
  Ret (match hcoList with
       | Err err =>
           Err (ErrNew (fmt ["HyperConverged Cluster Operator is not installed (failed to list HyperConverged resources: ";
                             error_string err; ")"]))
       | Ok [] => Err (ErrNew "HyperConverged Cluster Operator is not installed (no HyperConverged CR found)")
       | Ok (hco :: _) => Ok (hco, GetNamespace hco)
       end).

(** A part of an object in YAML under a title; [missing] when there is nothing. *)
Definition part_text (title what missing : string) (part : result (option yvalue)) : string :=
  match part with
  | Err err => fmt ["### "; title; nl; nl; "*Error extracting "; what; ": "; error_string err; "*"]
  | Ok None => fmt ["### "; title; nl; nl; "*"; missing; "*"]
  | Ok (Some v) =>
      match MarshalYaml v with
      | (_, Some err) => fmt ["### "; title; nl; nl; "*Error marshaling "; what; ": "; error_string err; "*"]
      | (yamlStr, None) => fmt ["### "; title; nl; nl; yaml_block yamlStr]
      end
  end.
(** A slice or a map that is not empty. *)
Definition some_slice (r : result (option (list yvalue))) : result (option yvalue) :=
  match r with Err err => Err err | Ok (Some (v :: l)) => Ok (Some (YSlice (v :: l))) | Ok _ => Ok None end.
Definition some_map (r : result (option object)) : result (option yvalue) :=
  match r with Err err => Err err | Ok (Some (kv :: m)) => Ok (Some (YMap (kv :: m))) | Ok _ => Ok None end.

Definition fetchHCOConditionsAndVersions (hco : object) : string :=
  let conditions := some_slice (NestedSlice hco ["status"; "conditions"]) in
  let text := part_text "HCO Conditions" "conditions" "No conditions found" conditions in
  match conditions with
  | Err _ => text
  | Ok _ =>
      fmt [text; nl; nl;
           part_text "Component Versions" "versions" "No version information found"
             (some_slice (NestedSlice hco ["status"; "versions"]))]
  end.
Definition fetchHCOConfiguration (hco : object) : string :=
  fmt [part_text "Feature Gates" "feature gates" "No feature gates configured"
         (some_slice (NestedSlice hco ["spec"; "featureGates"])); nl; nl;
       part_text "Virtualization Configuration" "virtualization config" "Using default virtualization settings"
         (some_map (NestedMap hco ["spec"; "virtualization"]))].

(** What is shown of the object of a component. *)
Definition component_text (name : string) (cr : object) : string :=
  let shown what v :=
    let title := fmt ["### "; name; ": "; GetNamespace cr; "/"; GetName cr; nl; nl] in
    match v with
    | Err err => fmt [title; "*Error extracting "; what; ": "; error_string err; "*"]
    | Ok v =>
        match MarshalYaml v with
        | (_, Some err) => fmt [title; "*Error marshaling "; what; ": "; error_string err; "*"]
        | (yamlStr, None) => fmt [title; yaml_block yamlStr]
        end
    end in
  match NestedSlice cr ["status"; "conditions"] with
  | Err err => shown "conditions" (Err err)
  | Ok (Some conditions) => shown "conditions" (Ok (YSlice conditions))
  | Ok None =>
      match NestedMap cr ["status"] with
      | Err err => shown "status" (Err err)
      | Ok (Some status) => shown "status" (Ok (YMap status))
      | Ok None => fmt ["### "; name; ": "; GetNamespace cr; "/"; GetName cr; nl; nl; "*No status available*"]
      end
  end.
Definition fetchComponentCR (name : string) (gvr : GroupVersionResource) (namespace : string) : prog string :=
  list_ ← call (KList gvr namespace (mkSelectors "" ""));
  Ret (match list_ with
       | Err err =>
           if errors_Is_kind KindForbidden err then
             fmt ["### "; name; nl; nl; "*Access denied — no RBAC permission to read "; name;
                  ". Component health is unknown (tooling limitation, not a failure).*"]
           else if errors_Is_kind KindNotFound err then
             fmt ["### "; name; nl; nl; "*"; name; " CRD not registered — this component is not installed.*"]
           else fmt ["### "; name; nl; nl; "*Error fetching "; name; ": "; error_string err; "*"]
       | Ok [] => fmt ["### "; name; nl; nl; "*"; name; " CR not found*"]
       | Ok (cr :: _) => component_text name cr
       end).
Definition fetchManagedComponentStatus (namespace : string) : prog string :=
  kubevirt ← fetchComponentCR "KubeVirt" KubeVirtCRGVR namespace;
  cdi ← fetchComponentCR "CDI" CDIGVR "";
  network ← fetchComponentCR "NetworkAddonsConfig" NetworkAddonsConfigGVR "";
  Ret (Join [kubevirt; cdi; network] (nl +:+ nl)).

Definition is_warning (event : object) : bool := string_or_empty (field "Type" event) =?s "Warning".
Definition fetchHCOEvents (namespace : string) : prog string :=
  allEvents ← EventsList FromUnstructured namespace (mkSelectors "" "");
  Ret (match allEvents with
       | Err err => listing_failed err
       | Ok allEvents =>
           match List.filter is_warning allEvents with
           | [] => fmt ["### Events"; nl; nl; "*No warning events found in the HCO namespace*"]
           | warningEvents => marshal_events (fmt ["### Warning Events in "; namespace; " namespace"]) warningEvents
           end
       end).

Definition hco_report (name namespace hcoStatusYaml hcoConfigYaml componentsYaml eventsYaml : string) : string :=
  fmt ["# "; ProductName; " HyperConverged Cluster Operator Status Report"; nl; nl; "## HCO: "; name;
    " (namespace: "; namespace; ")"; nl; nl;
    "Use this report to understand the current state of the HyperConverged Cluster Operator and all components it manages.";
    nl; nl; "---"; nl; nl; "## Step 1: HCO Conditions and Versions"; nl; nl; "Check the HCO conditions:"; nl;
    "- **Available** should be True — the operator and all components are running"; nl;
    "- **Progressing** should be False — no reconciliation in progress"; nl;
    "- **Degraded** should be False — no component failures"; nl;
    "- **TaintedConfiguration** indicates manual modifications to managed CRs via jsonpatch annotations"; nl;
    "- **Upgradeable** indicates whether the operator can be safely upgraded"; nl; nl; hcoStatusYaml; nl; nl; "---";
    nl; nl; "## Step 2: HCO Configuration"; nl; nl;
    "Review the active configuration including feature gates and virtualization settings:"; nl; nl; hcoConfigYaml;
    nl; nl; "---"; nl; nl; "## Step 3: Managed Component Status"; nl; nl;
    "HCO manages several components. Each should have its own CR with conditions:"; nl; nl; componentsYaml; nl; nl;
    "---"; nl; nl; "## Step 4: Events"; nl; nl; "Review events in the HCO namespace for warnings or errors:"; nl; nl;
    eventsYaml; nl; nl; "---"; nl; nl; "## Analysis"; nl; nl; "Based on the data above, determine:"; nl; nl;
    "1. **Overall Health**: Are all HCO conditions healthy (Available=True, Degraded=False)?"; nl;
    "2. **Component Health**: Are all managed components (KubeVirt, CDI, Network Addons) available?"; nl;
    "3. **Configuration**: Are there any non-default feature gates or virtualization settings?"; nl;
    "4. **Warnings**: Are there any Warning events or TaintedConfiguration conditions?"; nl;
    "5. **Versions**: What versions are installed for each component?"; nl].

Definition hcoStatusHandler : prog (result PromptCallResult) :=
  found <-? discoverHyperConvergedCR;
  let '(hco, namespace) := found in
  componentsYaml ← fetchManagedComponentStatus namespace;
  eventsYaml ← fetchHCOEvents namespace;
  Ret (Ok (NewPromptCallResult "HyperConverged status report generated"
    [mkPromptMessage "user" (mkPromptContent "text"
       (hco_report (GetName hco) namespace (fetchHCOConditionsAndVersions hco) (fetchHCOConfiguration hco)
          componentsYaml eventsYaml));
     mkPromptMessage "assistant" (mkPromptContent "text"
       "I'll analyze the HyperConverged Cluster Operator status report to assess the overall health and configuration.")]
    None)).
End Prompts.

(** ** The prompts *)

Definition kubevirt_prompt (name title description : string) (arguments : list PromptArgument) : Prompt :=
  mkPrompt name (fmt [ProductName; " "; title]) description arguments [].
Definition initVMTroubleshoot : Prompt :=
  kubevirt_prompt "vm-troubleshoot" "VirtualMachine Troubleshoot"
    (fmt ["Generate a step-by-step troubleshooting guide for diagnosing "; ProductName; " VirtualMachine issues"])
    [mkPromptArgument "namespace" "The namespace of the VirtualMachine to troubleshoot" true;
     mkPromptArgument "name" "The name of the VirtualMachine to troubleshoot" true].
Definition initWindowsGoldenImage : Prompt :=
  kubevirt_prompt "windows-golden-image" "Windows Golden Image Creator"
    (fmt ["Guides creation of a Windows golden image via the "; ProductName;
          " windows-efi-installer Tekton pipeline"])
    [mkPromptArgument "winImageDownloadURL" "Microsoft Windows ISO download URL (must be https://)" true;
     mkPromptArgument "namespace" "Target namespace for the PipelineRun" false;
     mkPromptArgument "windowsVersion" "Windows version: 10, 11, 2k22 (default), or 2k25" false;
     mkPromptArgument "pipelineVersion"
       "Pipeline version (default: latest). Use specific version like 0.25.0 if needed" false].
Definition initHCOStatus : Prompt :=
  kubevirt_prompt "hco-status" "HyperConverged Status"
    (fmt ["Generate a status report for the HyperConverged Cluster Operator (HCO) managing "; ProductName;
          " and related components"]) [].
(** The prompts with whether they need a cluster; unset counts as true. *)
Definition kubevirt_prompts : list (Prompt * option bool) :=
  [(initVMTroubleshoot, None); (initWindowsGoldenImage, Some false); (initHCOStatus, None)].

(** ** toolset.go *)

Section Toolset.
Context (MarshalYaml : yvalue -> printed) (MarshalYaml_list : list object -> printed).
Context (MarshalYaml_object : object -> printed) (Decode : string -> result object).
Context (range_sources : gmap string DataSourceInfo -> list DataSourceInfo).
Context (Marshal_diagnostics : pod_diagnostics -> printed) (base64_Decode : string -> result string).
Context (Sprint : yvalue -> string) (ovf : spec_float -> Z) (FromUnstructured : object -> result k8s_event).
Context (GetCreationTimestamp : object -> Z) (now : Z).
Context (sort_slice : forall A, (A -> A -> bool) -> list A -> list A) (range_map : object -> object).

Definition GetTools : list core_tool :=
  vm_tools MarshalYaml_list MarshalYaml_object Decode range_sources ++
  [vm_tool HasVirtualMachine vm_troubleshoot_tool
     (troubleshoot MarshalYaml Marshal_diagnostics base64_Decode Sprint ovf FromUnstructured GetCreationTimestamp now
        sort_slice range_map)].

(** * Properties *)

(** The tools of the toolset keep their hints: the two that say so only read. *)
Theorem kubevirt_tools_annotations : Forall annotations_hold GetTools.
Proof.
  apply Forall_app_2.
  - apply vm_tools_annotations.
  - apply Forall_cons_2; [|done]. apply with_filters_hold, core_reads; [done|]. apply reads_troubleshoot.
Qed.
End Toolset.

Lemma reads_launcher_logs ns names : forall text, every (@reads_only) (launcher_logs ns text names).
Proof.
  induction names as [|n names IH]; intros text; [done|]. cbn [launcher_logs].
  apply every_then; [apply reads_PodsLog|]. intros [logs|err]; [apply IH|done].
Qed.

(** The troubleshooting prompt only reads. *)
Theorem vm_troubleshoot_reads MarshalYaml FromUnstructured args :
  every (@reads_only) (vmTroubleshootHandler MarshalYaml FromUnstructured args).
Proof.
  unfold vmTroubleshootHandler. case_match; [done|]. case_match; [done|].
  apply every_then; [apply every_then; [by apply every_call; intros []|done]|]. intros [vmYaml vm].
  apply every_then; [apply every_then; [by apply every_call; intros []|done]|]. intros [vmiYaml vmi].
  apply every_then; [apply every_then; [by apply every_call; intros []|done]|]. intros [podYaml podNames].
  apply every_then; [unfold fetchVirtLauncherPodLogs; case_match; [done|apply reads_launcher_logs]|]. intros logs.
  apply every_then; [|done]. apply every_then; [apply reads_EventsList|]. intros [vmEvents|err]; [|done].
  by apply every_then; [apply reads_EventsList|].
Qed.

(** The status report only reads, and fails exactly when no operator is found: what is
    wrong with its components or events is part of the report. *)
Theorem hco_status_total MarshalYaml FromUnstructured tr r :
  runs (hcoStatusHandler MarshalYaml FromUnstructured) tr r ->
  Forall (event_call (@reads_only)) tr /\
  exists answer tr', tr = Ev (KList HyperConvergedGVR "" (mkSelectors "" "")) answer :: tr' /\
    ((exists err, r = Err err) <-> ((exists err, answer = Err err) \/ answer = Ok [])).
Proof.
  intros H. split.
  - eapply every_runs; [|exact H]. apply every_try; [apply every_then; [by apply every_call; intros []|done]|].
    intros [hco ns]. assert (forall n g ns, every (@reads_only) (fetchComponentCR MarshalYaml n g ns)) as Hc
      by (intros; apply every_then; [by apply every_call; intros []|done]).
    apply every_then; [do 3 (apply every_then; [apply Hc|intros ?]); done|]. intros c.
    apply every_then; [|done]. apply every_then; [apply reads_EventsList|done].
  - apply runs_try in H as [(tr1 & [hco ns] & tr2 & -> & Hd & H)|(err & Hd & ->)];
      apply runs_then in Hd as (t1 & answer & t2 & -> & Ha & [-> Hr]); apply runs_call in Ha as ->;
      exists answer; eexists; (split; [done|]); destruct answer as [[|o items]|e]; try done.
    + split; [|by intros [[? ?]|?]]. intros [err ->]. exfalso.
      apply runs_then in H as (t1 & c & t2 & _ & _ & H). by apply runs_then in H as (t3 & ev & t4 & _ & _ & [_ H]).
    + split; [by right|by eexists].
    + split; [left; by eexists|by eexists].
Qed.

(** * Examples and witnesses *)

(** The volumes of the prompt have the bodies of cloud-init data; those of the tool do
    not depend on them. *)
Example prompt_shows_bodies :
  let volume userData := YMap [("name", YString "init"); ("cloudInitNoCloud", YMap [("userData", YString userData)])] in
  let vm userData : object :=
    [("spec", YMap [("template", YMap [("spec", YMap [("volumes", YSlice [volume userData])])])])] in
  let text v :=
    match nested v ["cloudInitNoCloud"; "userData"] with Ok (Some (YString s)) => s | _ => "" end in
  let MarshalYaml v : printed := (match v with YSlice l => fmt (map text l) | _ => "" end, None) in
  fetchVirtualMachineVolumes MarshalYaml "shop" "web" (Some (vm "password: a")) None <>
  fetchVirtualMachineVolumes MarshalYaml "shop" "web" (Some (vm "password: b")) None /\
  fetchVolumes MarshalYaml "shop" "web" (Some (vm "password: a")) None =
  fetchVolumes MarshalYaml "shop" "web" (Some (vm "password: b")) None.
Proof. split; [by vm_compute|by vm_compute]. Qed.

Lemma hco_status_total_witness :
  let p := hcoStatusHandler (fun _ => ("yaml", None)) (fun _ => Err (ErrNew "no event")) in
  let tr := (traced demo_cluster p).1 in
  length tr = 7 /\ Forall (event_call (@reads_only)) tr.
Proof. split; [by vm_compute|]. eapply hco_status_total. apply traced_runs. Defined.
