(* ===== verification/HealthCheck.v ===== *)
(** The prompt cluster-health-check (pkg/toolsets/core/health_check.go): what it gathers
    from the cluster, as a program over the calls, and the text it makes of it.  The
    times at which the data and the events are read and the format of a time are
    parameters; the log lines are left out. *)
From S2P Require Import Prelude GoStrings Api Config Prompts Unstructured Cluster Core CoreTools.

(** * Definitions *)

Definition podHighRestartThreshold : Z := 5.

Definition initHealthChecks : list Prompt :=
  [mkPrompt "cluster-health-check" "Cluster Health Check"
     "Perform comprehensive health assessment of Kubernetes/OpenShift cluster"
     [mkPromptArgument "namespace" "Optional namespace to limit health check scope (default: all namespaces)" false;
      mkPromptArgument "check_events" "Include recent warning/error events (true/false, default: true)" false] []].

Record clusterDiagnostics := mkClusterDiagnostics {
  hd_Nodes : string;
  hd_Pods : string;
  hd_Deployments : string;
  hd_StatefulSets : string;
  hd_DaemonSets : string;
  hd_PVCs : string;
  hd_ClusterOperators : string;
  hd_Events : string;
  hd_CollectionTime : Z;
  hd_TotalNamespaces : Z;
  hd_NamespaceScoped : bool;
  hd_TargetNamespace : string;
  hd_NamespaceWarning : string;
}.

(** The issues as the items of a list. *)
Definition issue_items (issues : list string) : string := fmt ["  - "; Join issues (nl +:+ "  - ")].
(** The paragraphs about what has issues, or that there is none. *)
Definition paragraphs (issues : list string) (none : string) : string :=
  match issues with [] => none | _ => Join issues (nl +:+ nl) end.

(** ** Nodes *)

(** Goes through the conditions with the status, the number of times the node was ready,
    and the issues. *)
Definition node_condition (acc : string * Z * list string) (cond : condition) : string * Z * list string :=
  let '(nodeStatus, healthy, issues) := acc in
  if cd_Type cond =?s "Ready" then
    if cd_Status cond =?s "True" then ("Ready", (healthy + 1)%Z, issues)
    else ("NotReady", healthy, issues ++ [fmt ["Not ready: "; cd_Message cond]])
  else if cd_Status cond =?s "True" then
    (nodeStatus, healthy, issues ++ [fmt [cd_Type cond; ": "; cd_Message cond]])
  else acc.
Definition node_summary (n : node_state) : string * Z * list string :=
  foldl node_condition ("Unknown", 0%Z, []) (nst_Conditions n).
Definition node_text (n : node_state) : option string :=
  let '(nodeStatus, _, issues) := node_summary n in
  match issues with
  | [] => None
  | _ => Some (fmt ["- **"; nst_Name n; "** (Status: "; nodeStatus; ")"; nl; issue_items issues])
  end.

Definition gatherNodeDiagnostics : prog (result string) :=
  nodeList <-? call (KTypedList TNodes "" "");
  Ret (Ok (match nodeList with
           | [] => "No nodes found"
           | _ =>
               let healthyNodes := foldr (fun n z => ((node_summary n).1.2 + z)%Z) 0%Z nodeList in
               fmt ["**Total:** "; itoa (Z.of_nat (length nodeList)); " | **Healthy:** "; itoa healthyNodes; nl; nl;
                    paragraphs (omap node_text nodeList) "*All nodes are healthy*"]
           end)).

(** ** Pods *)

Definition container_issues (cs : container_status) : list string :=
  match cst_Waiting cs with
  | Some (reason, message) =>
      if (reason =?s "CrashLoopBackOff") || (reason =?s "ImagePullBackOff") || (reason =?s "ErrImagePull")
      then [fmt ["Container waiting: "; reason; " - "; message]] else []
  | None => []
  end ++
  match cst_Terminated cs with
  | Some reason =>
      if (reason =?s "Error") || (reason =?s "OOMKilled") then [fmt ["Container terminated: "; reason]] else []
  | None => []
  end.
(** The sum of the restarts, in 32 bits. *)
Definition pod_restarts (p : pod_state) : Z :=
  foldl (fun restarts cs => int32_of (restarts + cst_RestartCount cs)) 0%Z (pst_ContainerStatuses p).
Definition pod_issues (p : pod_state) : list string :=
  flat_map container_issues (pst_ContainerStatuses p) ++
  (if (pst_Phase p ≠?s "Running") && (pst_Phase p ≠?s "Succeeded") then [fmt ["Pod in "; pst_Phase p; " phase"]]
   else []).
Definition has_issues (p : pod_state) : bool :=
  negb (bool_decide (pod_issues p = [])) || (podHighRestartThreshold <? pod_restarts p)%Z.
Definition pod_text (p : pod_state) : string :=
  let readyCount := Z.of_nat (length (List.filter cst_Ready (pst_ContainerStatuses p))) in
  fmt ["- **"; pst_Namespace p; "/"; pst_Name p; "** (Phase: "; pst_Phase p; ", Ready: "; itoa readyCount; "/";
       itoa (Z.of_nat (length (pst_ContainerStatuses p))); ", Restarts: "; itoa (pod_restarts p); ")"; nl;
       issue_items (pod_issues p)].

Definition gatherPodDiagnostics (namespace : string) : prog (result string) :=
  podList <-? call (KTypedList TPods namespace "");
  Ret (Ok (match podList with
           | [] => "No pods found"
           | _ =>
               let problemPods := map pod_text (List.filter has_issues podList) in
               fmt ["**Total:** "; itoa (Z.of_nat (length podList)); " | **With Issues:** ";
                    itoa (Z.of_nat (length problemPods)); nl; nl; paragraphs problemPods "*No pod issues detected*"]
           end)).

(** ** Workloads *)

(** A workload with an issue: its line, and the issue. *)
Definition workload_text (namespace name : string) (ready total : Z) (issue : string) : string :=
  fmt ["- **"; namespace; "/"; name; "** (Ready: "; itoa ready; "/"; itoa total; ")"; nl; "  - "; issue].
Definition deployment_text (d : deployment_state) : option string :=
  if (0 <? dst_UnavailableReplicas d)%Z then
    Some (workload_text (dst_Namespace d) (dst_Name d) (dst_ReadyReplicas d) (dst_Replicas d)
            (fmt [itoa (dst_UnavailableReplicas d); " replicas unavailable"]))
  else None.
Definition statefulset_text (s : statefulset_state) : option string :=
  let specReplicas := default 1%Z (sst_SpecReplicas s) in
  if (sst_ReadyReplicas s <? specReplicas)%Z then
    Some (workload_text (sst_Namespace s) (sst_Name s) (sst_ReadyReplicas s) specReplicas
            (fmt ["Only "; itoa (sst_ReadyReplicas s); "/"; itoa specReplicas; " replicas ready"]))
  else None.
Definition daemonset_text (d : daemonset_state) : option string :=
  if (0 <? dss_NumberUnavailable d)%Z then
    Some (workload_text (dss_Namespace d) (dss_Name d) (dss_NumberReady d) (dss_DesiredNumberScheduled d)
            (fmt [itoa (dss_NumberUnavailable d); " pods unavailable"]))
  else None.

(** The text about the workloads of a kind. *)
Definition workloads_text (kind : string) (issues : list string) : string :=
  fmt ["**"; kind; "s with Issues:** "; itoa (Z.of_nat (length issues)); nl; nl;
       paragraphs issues (fmt ["*No "; kind; " issues detected*"])].
Definition gather_workloads (kind : string) (t : typed_list) (text : typed_item t -> option string)
    (namespace : string) : prog (result string) :=
  items <-? call (KTypedList t namespace "");
  Ret (Ok (match items with
           | [] => fmt ["No "; kind; "s found"]
           | _ => workloads_text kind (omap text items)
           end)).
Definition gatherWorkloadDiagnostics (kind namespace : string) : prog (result string) :=
  if kind =?s "Deployment" then gather_workloads kind TDeployments deployment_text namespace
  else if kind =?s "StatefulSet" then gather_workloads kind TStatefulSets statefulset_text namespace
  else if kind =?s "DaemonSet" then gather_workloads kind TDaemonSets daemonset_text namespace
  else Ret (Err (ErrNew (fmt ["unsupported workload kind: "; kind]))).

(** ** Persistent volume claims *)

Definition claim_text (c : claim_state) : option string :=
  if cls_Phase c ≠?s "Bound" then
    Some (fmt ["- **"; cls_Namespace c; "/"; cls_Name c; "** (Status: "; cls_Phase c; ")"; nl; "  - PVC not bound"])
  else None.
Definition gatherPVCDiagnostics (namespace : string) : prog (result string) :=
  pvcList <-? call (KTypedList TClaims namespace "");
  Ret (Ok (match pvcList with
           | [] => "No PVCs found"
           | _ =>
               let pvcsWithIssues := omap claim_text pvcList in
               fmt ["**PVCs with Issues:** "; itoa (Z.of_nat (length pvcsWithIssues)); nl; nl;
                    paragraphs pvcsWithIssues "*No PVC issues detected*"]
           end)).

(** ** Cluster operators *)

(** The parts of an object: nil, or empty, when missing or of another type. *)
Definition map_at (k : string) (o : object) : object := match field k o with Some (YMap m) => m | _ => [] end.
Definition slice_at (k : string) (o : object) : list yvalue := match field k o with Some (YSlice l) => l | _ => [] end.
Definition string_at (k : string) (o : object) : string := match field k o with Some (YString s) => s | _ => "" end.

(** Goes through the conditions with whether the operator is available and degraded, and
    the issues. *)
Definition operator_condition (acc : string * string * list string) (cond : yvalue) : string * string * list string :=
  let '(available, degraded, issues) := acc in
  let condMap := match cond with YMap m => m | _ => [] end in
  let condType := string_at "type" condMap in
  let condStatus := string_at "status" condMap in
  let message := string_at "message" condMap in
  if condType =?s "Available" then
    (condStatus, degraded, if condStatus ≠?s "True" then issues ++ [fmt ["Not available: "; message]] else issues)
  else if condType =?s "Degraded" then
    (available, condStatus, if condStatus =?s "True" then issues ++ [fmt ["Degraded: "; message]] else issues)
  else acc.
Definition operator_summary (op : object) : string * string * list string :=
  foldl operator_condition ("Unknown", "Unknown", []) (slice_at "conditions" (map_at "status" op)).
Definition operator_text (op : object) : option string :=
  let '(available, degraded, issues) := operator_summary op in
  match issues with
  | [] => None
  | _ =>
      Some (fmt ["- **"; string_at "name" (map_at "metadata" op); "** (Available: "; available; ", Degraded: ";
                 degraded; ")"; nl; issue_items issues])
  end.

Definition ClusterOperator_GVK : GroupVersionKind := mkGVK "config.openshift.io" "v1" "ClusterOperator".
(** The items of what is listed; a table has none. *)
Definition listed_items (l : listed) : list object := match l with LObjects items => items | LTable _ => [] end.
Definition gatherClusterOperatorDiagnostics : prog (result string) :=
  operatorList <-? ResourcesList ClusterOperator_GVK "" (mkListOpts (mkSelectors "" "") false);
  Ret (Ok (match listed_items operatorList with
           | [] => "No cluster operators found"
           | items =>
               let operatorsWithIssues := omap operator_text items in
               fmt ["**Operators with Issues:** "; itoa (Z.of_nat (length operatorsWithIssues)); nl; nl;
                    paragraphs operatorsWithIssues "*All cluster operators are healthy*"]
           end)).

(** ** Events *)

Definition Hour : Z := (3600 * 10 ^ 9)%Z.
Definition event_time (e : cluster_event) : Z :=
  if (ce_LastTimestamp e =? 0)%Z then ce_EventTime e else ce_LastTimestamp e.
(** A warning or an error that was last seen in the hour before [now]. *)
Definition recent (now : Z) (e : cluster_event) : bool :=
  ((ce_Type e =?s "Warning") || (ce_Type e =?s "Error")) && negb (event_time e <? now - Hour)%Z.
Definition event_text (ns : string) (e : cluster_event) : string :=
  let message := ce_Message e in
  let message := if Nat.ltb 150 (slen message) then take_str 150 message +:+ "..." else message in
  fmt ["- **"; ce_InvolvedKind e; "/"; ce_InvolvedName e; "** in `"; ns; "` ("; ce_Reason e; ", Count: ";
       itoa (ce_Count e); ")"; nl; "  - "; message].

(** The recent events of the namespaces, in order; a namespace whose events cannot be
    listed is left out. *)
Fixpoint recent_events (now : Z) (namespaces : list string) : prog (list (string * cluster_event)) :=
  match namespaces with
  | [] => Ret []
  | ns :: namespaces =>
      eventList ← call (KTypedList TEvents ns "");
      rest ← recent_events now namespaces;
      Ret (match eventList with
           | Ok events => map (pair ns) (List.filter (recent now) events) ++ rest
           | Err _ => rest
           end)
  end.
Definition event_namespaces (namespace : string) : prog (list string) :=
  if namespace ≠?s "" then Ret [namespace]
  else
    nsList ← call (KTypedList TNamespaces "" "");
    Ret (["default"; "kube-system"] ++
         match nsList with Ok names => List.filter (fun n => HasPrefix n "openshift-") names | Err _ => [] end).
Definition events_text (events : list (string * cluster_event)) : string :=
  let warnings := List.filter (fun e => ce_Type e.2 =?s "Warning") events in
  fmt ["**Warnings:** "; itoa (Z.of_nat (length warnings)); " | **Errors:** ";
       itoa (Z.of_nat (length events - length warnings)); nl; nl;
       paragraphs (take 20 (map (fun e => event_text e.1 e.2) events)) "*No recent warning/error events*"].
Definition gatherEventDiagnostics (now : Z) (namespace : string) : prog (result string) :=
  namespaces ← event_namespaces namespace;
  events ← recent_events now namespaces;
  Ret (Ok (events_text events)).

(** ** The prompt *)

Section Prompt.
(** [time.Now()] when the collection begins and when the events are read, and
    [Format(time.RFC3339)]. *)
Context (collection_time now : Z) (Format : Z -> string).

(** What was gathered; empty when it failed. *)
Definition gathered (p : prog (result string)) : prog string :=
  r ← p; Ret (match r with Ok text => text | Err _ => "" end).

Definition gatherClusterDiagnostics (namespace : string) (checkEvents : bool) : prog clusterDiagnostics :=
  nodes ← gathered gatherNodeDiagnostics;
  pods ← gathered (gatherPodDiagnostics namespace);
  deployments ← gathered (gatherWorkloadDiagnostics "Deployment" namespace);
  statefulsets ← gathered (gatherWorkloadDiagnostics "StatefulSet" namespace);
  daemonsets ← gathered (gatherWorkloadDiagnostics "DaemonSet" namespace);
  pvcs ← gathered (gatherPVCDiagnostics namespace);
  operators ← gathered gatherClusterOperatorDiagnostics;
  events ← (if checkEvents then gathered (gatherEventDiagnostics now namespace) else Ret "");
  namespaceList ← call (KTypedList TNamespaces "" "");
  Ret (mkClusterDiagnostics nodes pods deployments statefulsets daemonsets pvcs operators events collection_time
         (match namespaceList with Ok names => Z.of_nat (length names) | Err _ => 0 end)
         (namespace ≠?s "") namespace "").

(** A section, unless it is empty. *)
Definition health_section (title text : string) : string :=
  if text ≠?s "" then fmt [title; nl; nl; text; nl; nl] else "".

Definition formatHealthCheckPrompt (diag : clusterDiagnostics) : string :=
  fmt ["# Cluster Health Check Diagnostic Data"; nl; nl;
       "**Collection Time:** "; Format (hd_CollectionTime diag); nl;
       if hd_NamespaceWarning diag ≠?s "" then
         fmt [nl; "⚠️  **WARNING:** "; hd_NamespaceWarning diag; nl; nl;
              "**Note:** Please verify the namespace name and try again if you want namespace-specific diagnostics."; nl]
       else "";
       if hd_NamespaceScoped diag then fmt ["**Scope:** Namespace `"; hd_TargetNamespace diag; "`"; nl]
       else fmt ["**Scope:** All namespaces (Total: "; itoa (hd_TotalNamespaces diag); ")"; nl];
       nl; "## Your Task"; nl; nl;
       "Analyze the following cluster diagnostic data and provide:"; nl;
       "1. **Overall Health Status**: Healthy, Warning, or Critical"; nl;
       "2. **Critical Issues**: Issues requiring immediate attention"; nl;
       "3. **Warnings**: Non-critical issues that should be addressed"; nl;
       "4. **Recommendations**: Suggested actions to improve cluster health"; nl;
       "5. **Summary**: Brief overview of findings by component"; nl; nl;
       "---"; nl; nl;
       health_section "## 1. Nodes" (hd_Nodes diag);
       health_section "## 2. Cluster Operators (OpenShift)" (hd_ClusterOperators diag);
       health_section "## 3. Pods" (hd_Pods diag);
       if (hd_Deployments diag ≠?s "") || (hd_StatefulSets diag ≠?s "") || (hd_DaemonSets diag ≠?s "") then
         fmt ["## 4. Workload Controllers"; nl; nl;
              health_section "### Deployments" (hd_Deployments diag);
              health_section "### StatefulSets" (hd_StatefulSets diag);
              health_section "### DaemonSets" (hd_DaemonSets diag)]
       else "";
       health_section "## 5. Persistent Volume Claims" (hd_PVCs diag);
       health_section "## 6. Recent Events (Last Hour)" (hd_Events diag);
       "---"; nl; nl;
       "**Please analyze the above diagnostic data and provide your comprehensive health assessment.**"; nl].

Definition set_warning (warning requestedNamespace : string) (diag : clusterDiagnostics) : clusterDiagnostics :=
  let refused := (requestedNamespace ≠?s "") && (warning ≠?s "") in
  mkClusterDiagnostics (hd_Nodes diag) (hd_Pods diag) (hd_Deployments diag) (hd_StatefulSets diag)
    (hd_DaemonSets diag) (hd_PVCs diag) (hd_ClusterOperators diag) (hd_Events diag) (hd_CollectionTime diag)
    (hd_TotalNamespaces diag) (if refused then false else hd_NamespaceScoped diag)
    (if refused then requestedNamespace else hd_TargetNamespace diag) warning.

Definition clusterHealthCheckHandler (args : gmap string string) : prog (result PromptCallResult) :=
  let requestedNamespace := default "" (args !! "namespace") in
  let checkEvents := default "" (args !! "check_events") ≠?s "false" in
  checked ←
    (if requestedNamespace ≠?s "" then
       err ← call (KNamespaceGet requestedNamespace);
       Ret (match err with
            | Some _ =>
                (fmt ["Namespace '"; requestedNamespace;
                      "' not found or not accessible. Showing cluster-wide information instead."], "")
            | None => ("", requestedNamespace)
            end)
     else Ret ("", ""));
  let '(namespaceWarning, namespace) := checked in
  diagnostics ← gatherClusterDiagnostics namespace checkEvents;
  let diagnostics := set_warning namespaceWarning requestedNamespace diagnostics in
  Ret (Ok (NewPromptCallResult "Cluster health diagnostic data gathered successfully"
    [mkPromptMessage "user" (mkPromptContent "text" (formatHealthCheckPrompt diagnostics));
     mkPromptMessage "assistant" (mkPromptContent "text"
       "I'll analyze the cluster health diagnostic data and provide a comprehensive assessment.")] None)).
End Prompt.

(** * Specification *)

(** A condition that says nothing is wrong with its node, and with its operator. *)
Definition quiet_node_condition (c : condition) : Prop :=
  if cd_Type c =?s "Ready" then cd_Status c = "True" else cd_Status c <> "True".
Definition quiet_operator_condition (cond : yvalue) : Prop :=
  let m := match cond with YMap m => m | _ => [] end in
  (string_at "type" m = "Available" -> string_at "status" m = "True") /\
  (string_at "type" m = "Degraded" -> string_at "status" m <> "True").

(** The lists that are made in the namespace asked for. *)
Definition namespaced_list (t : typed_list) : bool :=
  match t with TNamespaces | TNodes => false | _ => true end.
(** A call lists in [namespace] what can be listed there. *)
Definition in_scope (namespace : string) {R} (c : kcall R) : Prop :=
  match c with
  | KTypedList t ns _ => if namespaced_list t then namespace <> "" -> ns = namespace else ns = ""
  | _ => True
  end.
(** The lists of what a namespace holds, events apart, in all namespaces. *)
Definition cluster_wide {R} (c : kcall R) : Prop :=
  match c with
  | KTypedList (TPods | TDeployments | TStatefulSets | TDaemonSets | TClaims) ns _ => ns = ""
  | _ => True
  end.

(** * Lemmas *)

Lemma every_gathered P (p : prog (result string)) : every P p -> every P (gathered p).
Proof. intros H. by apply every_then. Qed.

Lemma reads_recent_events now nss : every (@reads_only) (recent_events now nss).
Proof.
  induction nss as [|ns nss IH]; [done|]. cbn [recent_events]. apply every_then; [apply every_call; by intros []|].
  intros r. by apply every_then.
Qed.

(** What is gathered, for a property of calls that holds of the lists, of the search for
    operators and of the events. *)
Lemma every_gather (P : forall R, kcall R -> Prop) collection_time now namespace checkEvents :
  (forall t, t <> TEvents -> P _ (KTypedList t (if namespaced_list t then namespace else "") "")) ->
  every P gatherClusterOperatorDiagnostics ->
  (forall ns, (namespace <> "" -> ns = namespace) -> P _ (KTypedList TEvents ns "")) ->
  every P (gatherClusterDiagnostics collection_time now namespace checkEvents).
Proof.
  intros Hlist Hop Hev. unfold gatherClusterDiagnostics.
  apply every_then; [apply every_gathered, every_try; [by apply (every_call P), (Hlist TNodes)|done]|intros nodes].
  apply every_then; [apply every_gathered, every_try; [by apply (every_call P), (Hlist TPods)|done]|intros pods].
  apply every_then;
    [apply every_gathered, every_try; [by apply (every_call P), (Hlist TDeployments)|done]|intros deployments].
  apply every_then;
    [apply every_gathered, every_try; [by apply (every_call P), (Hlist TStatefulSets)|done]|intros statefulsets].
  apply every_then;
    [apply every_gathered, every_try; [by apply (every_call P), (Hlist TDaemonSets)|done]|intros daemonsets].
  apply every_then; [apply every_gathered, every_try; [by apply (every_call P), (Hlist TClaims)|done]|intros pvcs].
  apply every_then; [by apply every_gathered|intros operators].
  apply every_then.
  - destruct checkEvents; [|done]. apply every_gathered.
    apply every_then_runs.
    + unfold event_namespaces. destruct (namespace ≠?s ""); [done|].
      apply every_then; [by apply (every_call P), (Hlist TNamespaces)|done].
    + intros tr nss Hnss. apply every_then; [|done].
      assert (Forall (fun ns => namespace <> "" -> ns = namespace) nss) as Hns.
      { unfold event_namespaces in Hnss. destruct (bool_decide_reflect (namespace = "")) as [->|Hne].
        - apply Forall_forall. done.
        - destruct Hnss as [_ ->]. by repeat constructor. }
      clear Hnss. induction Hns as [|ns nss Hn _ IH]; [done|]. cbn [recent_events].
      apply every_then; [by apply (every_call P), Hev|]. intros r. by apply every_then.
  - intros events. apply every_then; [by apply (every_call P), (Hlist TNamespaces)|done].
Qed.

(** Listing resources makes no typed list. *)
Lemma untyped_ResourcesList gvk ns o :
  every (fun _ c => match c with KTypedList _ _ _ => False | _ => True end) (ResourcesList gvk ns o).
Proof.
  unfold ResourcesList, resourceFor, isNamespaced, canIUse, NamespaceOrDefault, resourcesListAsTable.
  every_read.
Qed.

Lemma every_operators (P : forall R, kcall R -> Prop) :
  (forall R (c : kcall R), match c with KTypedList _ _ _ => False | _ => True end -> P R c) ->
  every P gatherClusterOperatorDiagnostics.
Proof. intros H. apply every_try; [|done]. eapply every_impl; [exact H|]. apply untyped_ResourcesList. Qed.

(** The runs of the prompt, by the answer about the namespace that was asked for. *)
Lemma health_check_runs collection_time now Format args requested tr r :
  requested = default "" (args !! "namespace") ->
  runs (clusterHealthCheckHandler collection_time now Format args) tr r ->
  (exists result, r = Ok result) /\
  exists checked tr', tr = checked ++ tr' /\
    (if requested =?s "" then checked = [] else exists answer, checked = [Ev (KNamespaceGet requested) answer]) /\
    forall P : (forall R, kcall R -> Prop),
      (forall b, every P (gatherClusterDiagnostics collection_time now
                   match checked with [Ev (KNamespaceGet _) None] => requested | _ => "" end b)) ->
      Forall (event_call P) tr'.
Proof.
  intros Hreq H. unfold clusterHealthCheckHandler in H. rewrite <- Hreq in H.
  apply runs_then in H as (tr1 & [warning namespace] & tr2 & -> & Hc & H).
  apply runs_then in H as (tr3 & diag & tr4 & -> & Hg & [-> ->]). split; [by eexists|].
  rewrite app_nil_r. exists tr1, tr3. split; [done|].
  destruct (bool_decide_reflect (requested = "")) as [Hr|Hr].
  - destruct Hc as [-> [= -> ->]]. split; [done|]. intros P HP. by eapply every_runs.
  - apply runs_then in Hc as (t1 & answer & t2 & -> & ->%runs_call & [-> Hw]). split; [by exists answer|].
    intros P HP. eapply every_runs; [|exact Hg].
    destruct answer as [err|]; injection Hw as -> ->; apply HP.
Qed.

(** * Properties *)

(** The health check never fails and never changes the cluster: what it cannot gather is
    left out of the report. *)
Theorem health_check_total collection_time now Format args tr r :
  runs (clusterHealthCheckHandler collection_time now Format args) tr r ->
  (exists result, r = Ok result) /\ Forall (event_call (@reads_only)) tr.
Proof.
  intros (Hr & checked & tr' & -> & Hc & H)%(health_check_runs _ _ _ _ _ _ _ eq_refl). split; [done|].
  apply Forall_app. split.
  - destruct (_ =?s ""); [by subst checked|]. destruct Hc as [answer ->]. repeat constructor. by intros [].
  - apply H. intros b. apply every_gather.
    + intros t _. by intros [].
    + apply every_try; [apply reads_ResourcesList|done].
    + by intros ns _ [].
Qed.

(** The check is made in the namespace that is asked for, when it can be read: the pods,
    workloads, claims and events of no other one are listed.  When it cannot be read,
    the check is made of the whole cluster. *)
Theorem health_check_scope collection_time now Format args tr r :
  let requested := default "" (args !! "namespace") in
  requested <> "" -> runs (clusterHealthCheckHandler collection_time now Format args) tr r ->
  exists answer tr', tr = Ev (KNamespaceGet requested) answer :: tr' /\
    match answer with
    | None => Forall (event_call (@in_scope requested)) tr'
    | Some _ => Forall (event_call (@cluster_wide)) tr'
    end.
Proof.
  intros requested Hne (_ & checked & tr' & -> & Hc & H)%(health_check_runs _ _ _ _ _ _ _ eq_refl).
  fold requested in Hc, H. rewrite bool_decide_eq_false_2 in Hc by done. destruct Hc as [answer ->].
  exists answer, tr'. split; [done|]. destruct answer as [err|]; apply H; intros b; apply every_gather.
  - by intros [].
  - apply every_operators. intros R c. by destruct c.
  - done.
  - intros t _. cbn. by destruct (namespaced_list t).
  - apply every_operators. intros R c. by destruct c.
  - intros ns Hns. cbn. intros _. by apply Hns.
Qed.

(** A node is left out of the report exactly when all its conditions are quiet, which
    includes a node without conditions; an operator too. *)
Theorem healthy_spec :
  (forall n, node_text n = None <-> Forall quiet_node_condition (nst_Conditions n)) /\
  (forall op, operator_text op = None <-> Forall quiet_operator_condition (slice_at "conditions" (map_at "status" op))).
Proof.
  split.
  - intros n. unfold node_text, node_summary.
    assert (forall cs s h issues,
        (foldl node_condition (s, h, issues) cs).2 = [] <-> issues = [] /\ Forall quiet_node_condition cs) as H.
    { intros cs. induction cs as [|c cs IH]; intros s h issues; cbn [foldl].
      - cbn. naive_solver.
      - rewrite Forall_cons. unfold node_condition at 2, quiet_node_condition at 1.
        destruct (cd_Type c =?s "Ready"), (bool_decide_reflect (cd_Status c = "True")); rewrite IH; clear IH.
        all: try tauto. all: split; [intros [?%app_nil _]; naive_solver|tauto]. }
    specialize (H (nst_Conditions n) "Unknown" 0%Z []). destruct (foldl _ _ _) as [[s h] issues].
    cbn in H. destruct issues; naive_solver.
  - intros op. unfold operator_text, operator_summary.
    assert (forall cs a d issues,
        (foldl operator_condition (a, d, issues) cs).2 = [] <-> issues = [] /\ Forall quiet_operator_condition cs) as H.
    { intros cs. induction cs as [|c cs IH]; intros a d issues; cbn [foldl].
      - cbn. naive_solver.
      - rewrite Forall_cons. unfold operator_condition at 2, quiet_operator_condition at 1.
        set (m := match c with YMap m => m | _ => [] end). clearbody m. cbv zeta.
        destruct (bool_decide_reflect (string_at "type" m = "Available")) as [->|Ha].
        { destruct (bool_decide_reflect (string_at "status" m = "True")) as [->|Hs]; cbn; rewrite IH.
          - naive_solver.
          - split; [intros [?%app_nil _]; naive_solver|naive_solver]. }
        destruct (bool_decide_reflect (string_at "type" m = "Degraded")) as [->|Hd]; [|rewrite IH; naive_solver].
        destruct (bool_decide_reflect (string_at "status" m = "True")) as [->|Hs]; cbn; rewrite IH.
        + split; [intros [?%app_nil _]; naive_solver|naive_solver].
        + naive_solver. }
    specialize (H (slice_at "conditions" (map_at "status" op)) "Unknown" "Unknown" []).
    destruct (foldl _ _ _) as [[a d] issues]. cbn in H. destruct issues; naive_solver.
Qed.

(** The restarts of a pod are those of its containers, as long as their sum is below
    2^31: then a pod is reported exactly when it has an issue or more than five. *)
Theorem pod_restarts_sum p :
  let sum := foldr Z.add 0%Z (map cst_RestartCount (pst_ContainerStatuses p)) in
  Forall (fun cs => 0 <= cst_RestartCount cs)%Z (pst_ContainerStatuses p) -> (sum < 2 ^ 31)%Z ->
  pod_restarts p = sum /\ (has_issues p = true <-> pod_issues p <> [] \/ (5 < sum)%Z).
Proof.
  intros sum Hpos Hsum. assert (pod_restarts p = sum) as Heq.
  - unfold pod_restarts, sum in *. clear sum. revert Hpos Hsum.
    generalize (pst_ContainerStatuses p) as css.
    assert (forall css z, (0 <= z)%Z -> Forall (fun cs => 0 <= cst_RestartCount cs)%Z css ->
      (z + foldr Z.add 0 (map cst_RestartCount css) < 2 ^ 31)%Z ->
      foldl (fun restarts cs => int32_of (restarts + cst_RestartCount cs)) z css
        = (z + foldr Z.add 0 (map cst_RestartCount css))%Z) as H.
    { induction css as [|cs css IH]; intros z Hz Hp Hs; cbn in *; [lia|].
      apply Forall_cons in Hp as [Hc Hp].
      assert (0 <= foldr Z.add 0 (map cst_RestartCount css))%Z by (clear -Hp; induction Hp; cbn; lia).
      assert (int32_of (z + cst_RestartCount cs) = z + cst_RestartCount cs)%Z as ->
        by (unfold int32_of; rewrite Z.mod_small; lia).
      rewrite IH; [lia|lia|done|lia]. }
    intros css Hp Hs. rewrite H; lia || done.
  - split; [done|]. unfold has_issues. rewrite Heq. unfold podHighRestartThreshold.
    rewrite orb_true_iff, negb_true_iff, bool_decide_eq_false, Z.ltb_lt. done.
Qed.

(** The events of the report, by the answers about its namespaces: those of each one, in
    order, that are warnings or errors of the last hour; of these the first twenty are
    shown and all are counted. *)
Theorem event_report now namespace tr r :
  runs (gatherEventDiagnostics now namespace) tr r ->
  exists before nss answers,
    tr = before ++ zip_with (fun ns a => Ev (KTypedList TEvents ns "") a) nss answers /\
    length answers = length nss /\
    r = Ok (events_text (concat (zip_with (fun ns a =>
          match a with Ok events => map (pair ns) (List.filter (recent now) events) | Err _ => [] end) nss answers))) /\
    (if namespace =?s "" then
       exists answer, before = [Ev (KTypedList TNamespaces "" "") answer] /\
         nss = "default" :: "kube-system" ::
                 match answer with Ok names => List.filter (fun n => HasPrefix n "openshift-") names | Err _ => [] end
     else before = [] /\ nss = [namespace]).
Proof.
  intros (tr1 & nss & tr2 & -> & Hn & H)%runs_then.
  apply runs_then in H as (tr3 & events & tr4 & -> & He & [-> ->]). rewrite app_nil_r.
  assert (exists answers, tr3 = zip_with (fun ns a => Ev (KTypedList TEvents ns "") a) nss answers /\
    length answers = length nss /\
    events = concat (zip_with (fun ns a =>
      match a with Ok events => map (pair ns) (List.filter (recent now) events) | Err _ => [] end) nss answers))
    as (answers & -> & Hl & ->).
  { clear Hn. revert tr3 events He. induction nss as [|ns nss IH]; intros tr3 events He; cbn [recent_events] in He.
    - destruct He as [-> ->]. by exists [].
    - apply runs_then in He as (t1 & a & t2 & -> & ->%runs_call & He).
      apply runs_then in He as (t3 & rest & t4 & -> & (answers & -> & Hl & ->)%IH & [-> ->]).
      exists (a :: answers). rewrite app_nil_r. split_and!; [done|by cbn; f_equal|]. by destruct a. }
  exists tr1, nss, answers. split_and!; [done..|].
  unfold event_namespaces in Hn. destruct (bool_decide_reflect (namespace = "")) as [Hs|Hs].
  - apply runs_then in Hn as (t1 & answer & t2 & -> & ->%runs_call & [-> ->]). by exists answer.
  - by destruct Hn as [-> ->].
Qed.

(** * Examples and witnesses *)

(** A node that has reported nothing is not counted as healthy, and yet all nodes are. *)
Example unknown_node_healthy :
  let R := gatherNodeDiagnostics in
  let cluster : forall R, kcall R -> R := fun R c =>
    match c in kcall R return R with
    | KTypedList TNodes _ _ => Ok [mkNodeState "worker-0" []]
    | c => demo_cluster _ c
    end in
  (traced cluster R).2 =
  Ok (fmt ["**Total:** 1 | **Healthy:** 0"; nl; nl; "*All nodes are healthy*"]).
Proof. by vm_compute. Qed.

(** A pod that has only restarted often is listed with an empty issue. *)
Example restarts_only :
  pod_text (mkPodState "shop" "web" "Running" [mkContainerStatus true 9 None None]) =
  fmt ["- **shop/web** (Phase: Running, Ready: 1/1, Restarts: 9)"; nl; "  - "].
Proof. by vm_compute. Qed.

Lemma health_check_total_witness :
  let p := clusterHealthCheckHandler 0 0 (fun _ => "now") {[ "namespace" := "shop" ]} in
  length (traced demo_cluster p).1 = 12 /\ (exists result, (traced demo_cluster p).2 = Ok result) /\
  Forall (event_call (@reads_only)) (traced demo_cluster p).1.
Proof.
  split; [by vm_compute|]. apply (health_check_total 0 0 (fun _ => "now") {[ "namespace" := "shop" ]}).
  apply traced_runs.
Defined.

Lemma health_check_scope_witness :
  let p := clusterHealthCheckHandler 0 0 (fun _ => "now") {[ "namespace" := "shop" ]} in
  exists tr', (traced demo_cluster p).1 = Ev (KNamespaceGet "shop") None :: tr' /\
    Forall (event_call (@in_scope "shop")) tr'.
Proof.
  destruct (health_check_scope 0 0 (fun _ => "now") {[ "namespace" := "shop" ]}
    (traced demo_cluster (clusterHealthCheckHandler 0 0 (fun _ => "now") {[ "namespace" := "shop" ]})).1
    (traced demo_cluster (clusterHealthCheckHandler 0 0 (fun _ => "now") {[ "namespace" := "shop" ]})).2)
    as (answer & tr' & Heq & H); [done|apply traced_runs|].
  assert (answer = None) as ->.
  { apply (f_equal (fun tr => match tr with
      | Ev c a :: _ => match c in kcall R return R -> option error with KNamespaceGet _ => fun a => a | _ => fun _ => None end a
      | [] => None end)) in Heq. symmetry in Heq. vm_compute in Heq. exact Heq. }
  by exists tr'.
Defined.

Lemma pod_restarts_sum_witness :
  let p := mkPodState "shop" "web" "Running" [mkContainerStatus true 4 None None; mkContainerStatus true 2 None None] in
  pod_restarts p = 6%Z /\ has_issues p = true.
Proof.
  split; [by vm_compute|].
  apply (pod_restarts_sum
    (mkPodState "shop" "web" "Running" [mkContainerStatus true 4 None None; mkContainerStatus true 2 None None])).
  - by repeat constructor.
  - by vm_compute.
  - right. by vm_compute.
Defined.

Lemma event_report_witness :
  let p := gatherEventDiagnostics 0 "shop" in
  exists text, (traced demo_cluster p).2 = Ok text.
Proof.
  destruct (event_report 0 "shop" _ _ (traced_runs demo_cluster (gatherEventDiagnostics 0 "shop")))
    as (before & nss & answers & _ & _ & H & _). by eexists.
Defined.
