(* ===== verification/OvnKubernetes.v ===== *)
(** The ovn-kubernetes toolset (pkg/toolsets/ovnkubernetes: ovn/ovn.go, ovs/tools.go,
    toolset.go).  The commands are built by the upstream servers, parameters of the
    model, which run them through the function they are made with; of them is assumed,
    as the interface [ExecsInPod], that they touch the cluster only through that
    function and for the pod they are asked about.  Of the schemas the types,
    descriptions and properties are kept. *)
From Stdlib Require Import Floats.SpecFloat.
From S2P Require Import Prelude GoStrings Api Params Tools CniDiagnostics Cluster Core CoreTools.

(** * Definitions *)

(** [DefaultMaxLines] of the upstream packages ovn/mcp and ovs/mcp. *)
Definition DefaultMaxLines : Z := 100.

(** ** The tools *)

Definition ovn_show_tool : Tool :=
  mkTool "ovn_show"
    (fmt ["Display a comprehensive overview of OVN configuration from either the Northbound or Southbound database."; nl; nl; "For Northbound (nbdb): Runs 'ovn-nbctl show' and displays logical switches, logical routers,"; nl; "their ports, and connections between them."; nl; nl; "For Southbound (sbdb): Runs 'ovn-sbctl show' and displays chassis information, port bindings,"; nl; "and their relationships. Returns 100 lines by default; use head/tail to adjust."; nl; nl; "Example output for nbdb:"; nl; "{"; nl; "  "; dq; "database"; dq; ": "; dq; "nbdb"; dq; ","; nl; "  "; dq; "output"; dq; ": "; dq; "switch 1234-5678 (node1)\n    port node1-k8s\n        addresses: [\"; dq; "00:00:00:00:00:01\"; dq; "]\n..."; dq; nl; "}"])
    (mkToolAnnotations "OVN: Show" (Some true) (Some false) (Some true) (Some true)) []
    (Some (mkSchema "object" "" (Some [
       ("namespace", mkSchema "string" (fmt ["Kubernetes namespace of the OVN pod (e.g., "; dq; "openshift-ovn-kubernetes"; dq; ")"]) None);
       ("name", mkSchema "string" (fmt ["Name of the pod running OVN (e.g., "; dq; "ovnkube-node-xxxxx"; dq; ")"]) None);
       ("database", mkSchema "string" (fmt ["OVN database to query - "; dq; "nbdb"; dq; " for Northbound or "; dq; "sbdb"; dq; " for Southbound"]) None);
       ("head", mkSchema "integer" (fmt ["Return only first N lines. Default: "; itoa DefaultMaxLines; " lines if tail is not specified"]) None);
       ("tail", mkSchema "integer" "Return only last N lines" None);
       ("apply_tail_first", mkSchema "boolean" "If both head and tail are set and apply_tail_first is true, apply tail before head. Default: false" None)]))) None.

Definition ovn_get_tool : Tool :=
  mkTool "ovn_get"
    (fmt ["Query records from an OVN database table with flexible filtering."; nl; nl; "This is a versatile command that can:"; nl; "1. List all records in a table (when no record specified)"; nl; "2. Get a specific record (when record specified)"; nl; nl; "Common Northbound tables: Logical_Switch, Logical_Router, Logical_Switch_Port, "; nl; "Logical_Router_Port, ACL, Address_Set, Port_Group, Load_Balancer, NAT"; nl; nl; "Common Southbound tables: Chassis, Port_Binding, Datapath_Binding, Logical_Flow,"; nl; "MAC_Binding, Multicast_Group, SB_Global"; nl; nl; "Returns 100 lines by default; use head/tail to adjust."; nl; nl; "Example listing all records:"; nl; "{"; nl; "  "; dq; "database"; dq; ": "; dq; "nbdb"; dq; ","; nl; "  "; dq; "table"; dq; ": "; dq; "Port_Group"; dq; ","; nl; "  "; dq; "output"; dq; ": "; dq; "_uuid: 1234-5678\nname: \"; dq; "pg_default\"; dq; "\nports: [...]\n\n_uuid: abcd-efgh\n..."; dq; nl; "}"; nl; nl; "Example getting a specific record:"; nl; "{"; nl; "  "; dq; "database"; dq; ": "; dq; "nbdb"; dq; ","; nl; "  "; dq; "table"; dq; ": "; dq; "Logical_Router"; dq; ","; nl; "  "; dq; "record"; dq; ": "; dq; "ovn_cluster_router"; dq; ","; nl; "  "; dq; "output"; dq; ": "; dq; "_uuid: 4c4a0a35-348c-41cc-8417-53a618e0c383\nname: ovn_cluster_router\nports: [...]"; dq; nl; "}"; nl; nl; "Example getting specific columns:"; nl; "{"; nl; "  "; dq; "database"; dq; ": "; dq; "nbdb"; dq; ","; nl; "  "; dq; "table"; dq; ": "; dq; "Logical_Switch"; dq; ","; nl; "  "; dq; "columns"; dq; ": "; dq; "name,ports"; dq; ","; nl; "  "; dq; "output"; dq; ": "; dq; "name: ovn-worker\nports: [uuid1, uuid2]\n\nname: join\nports: [uuid3]"; dq; nl; "}"])
    (mkToolAnnotations "OVN: Get" (Some true) (Some false) (Some true) (Some true)) []
    (Some (mkSchema "object" "" (Some [
       ("namespace", mkSchema "string" "Kubernetes namespace of the OVN pod" None);
       ("name", mkSchema "string" "Name of the pod running OVN" None);
       ("database", mkSchema "string" (fmt ["OVN database to query - "; dq; "nbdb"; dq; " for Northbound or "; dq; "sbdb"; dq; " for Southbound"]) None);
       ("table", mkSchema "string" (fmt ["Name of the table (e.g., "; dq; "Logical_Switch"; dq; ", "; dq; "Port_Binding"; dq; ")"]) None);
       ("record", mkSchema "string" "Record identifier (UUID or name). If not specified, lists all records" None);
       ("columns", mkSchema "string" (fmt ["Comma-separated list of columns to display (e.g., "; dq; "name,_uuid,ports"; dq; ")"]) None);
       ("pattern", mkSchema "string" "Regex pattern to filter results. Only applies when listing all records." None);
       ("head", mkSchema "integer" (fmt ["Return only first N lines. Default: "; itoa DefaultMaxLines; " lines if tail is not specified"]) None);
       ("tail", mkSchema "integer" "Return only last N lines" None);
       ("apply_tail_first", mkSchema "boolean" "If both head and tail are set and apply_tail_first is true, apply tail before head. Default: false" None)]))) None.

Definition ovn_lflow_list_tool : Tool :=
  mkTool "ovn_lflow_list"
    (fmt ["List logical flows from the OVN Southbound database."; nl; nl; "Runs 'ovn-sbctl lflow-list' to retrieve logical flows which represent the compiled"; nl; "logical network pipeline. This is essential for debugging packet forwarding."; nl; "Returns 100 lines by default; use head/tail to adjust."; nl; nl; "Example output:"; nl; "{"; nl; "  "; dq; "datapath"; dq; ": "; dq; "node1"; dq; ","; nl; "  "; dq; "flows"; dq; ": ["; nl; "    "; dq; "table=0 (ls_in_port_sec_l2), priority=100, match=(inport == \"; dq; "pod1\"; dq; "), action=(next;)"; dq; ","; nl; "    "; dq; "table=1 (ls_in_port_sec_ip), priority=90, match=(ip4), action=(next;)"; dq; nl; "  ]"; nl; "}"])
    (mkToolAnnotations "OVN: Logical Flow List" (Some true) (Some false) (Some true) (Some true)) []
    (Some (mkSchema "object" "" (Some [
       ("namespace", mkSchema "string" "Kubernetes namespace of the OVN pod" None);
       ("name", mkSchema "string" "Name of the pod running OVN" None);
       ("datapath", mkSchema "string" "Datapath name or UUID to filter flows for a specific logical switch/router" None);
       ("pattern", mkSchema "string" "Regex pattern to filter flows" None);
       ("head", mkSchema "integer" (fmt ["Return only first N lines. Default: "; itoa DefaultMaxLines; " lines if tail is not specified"]) None);
       ("tail", mkSchema "integer" "Return only last N lines" None);
       ("apply_tail_first", mkSchema "boolean" "If both head and tail are set and apply_tail_first is true, apply tail before head. Default: false" None)]))) None.

Definition ovn_trace_tool : Tool :=
  mkTool "ovn_trace"
    (fmt ["Trace a packet through the OVN logical network."; nl; nl; "Runs 'ovn-trace' to simulate packet processing through the logical network pipeline."; nl; "This shows which logical flows match, what actions are taken, and the final disposition."; nl; nl; "The trace is essential for debugging connectivity issues and understanding how traffic"; nl; "flows through the OVN logical network. Returns 100 lines by default; use head/tail to adjust."; nl; nl; "Microflow specification examples:"; nl; "- inport=="; dq; "pod1"; dq; " && eth.src==00:00:00:00:00:01 && ip4.src==10.244.0.5 && ip4.dst==10.244.1.5"; nl; "- inport=="; dq; "pod1"; dq; " && eth.src==00:00:00:00:00:01 && icmp && ip4.src==10.244.0.5 && ip4.dst==8.8.8.8"; nl; nl; "Example output:"; nl; "{"; nl; "  "; dq; "datapath"; dq; ": "; dq; "node1"; dq; ","; nl; "  "; dq; "microflow"; dq; ": "; dq; "inport==\"; dq; "pod1\"; dq; " && ..."; dq; ","; nl; "  "; dq; "output"; dq; ": "; dq; "ingress(dp=\"; dq; "node1\"; dq; ", inport=\"; dq; "pod1\"; dq; ")\n  0. ls_in_port_sec_l2: inport == \"; dq; "pod1\"; dq; ", priority 50, uuid 1234\n     next;\n..."; dq; nl; "}"])
    (mkToolAnnotations "OVN: Trace" (Some true) (Some false) (Some true) (Some true)) []
    (Some (mkSchema "object" "" (Some [
       ("namespace", mkSchema "string" "Kubernetes namespace of the OVN pod" None);
       ("name", mkSchema "string" "Name of the pod running OVN" None);
       ("datapath", mkSchema "string" "Name of the logical switch or router to start the trace" None);
       ("microflow", mkSchema "string" (fmt ["Microflow specification describing the packet (e.g., "; dq; "inport==\"; dq; "pod1\"; dq; " && eth.src==00:00:00:00:00:01 && ip4.src==10.244.0.5 && ip4.dst==10.244.1.5"; dq; ")"]) None);
       ("mode", mkSchema "string" (fmt ["Output verbosity mode - "; dq; "detailed"; dq; " (default), "; dq; "summary"; dq; ", or "; dq; "minimal"; dq]) None);
       ("pattern", mkSchema "string" "Regex pattern to filter trace output" None);
       ("head", mkSchema "integer" (fmt ["Return only first N lines. Default: "; itoa DefaultMaxLines; " lines if tail is not specified"]) None);
       ("tail", mkSchema "integer" "Return only last N lines" None);
       ("apply_tail_first", mkSchema "boolean" "If both head and tail are set and apply_tail_first is true, apply tail before head. Default: false" None)]))) None.

Definition ovs_vsctl_tool : Tool :=
  mkTool "ovs_vsctl"
    (fmt ["Run an ovs-vsctl command against an ovnkube-node pod."; nl; nl; "The 'action' parameter selects the ovs-vsctl subcommand to run."; nl; nl; "--- action: "; dq; "show"; dq; " ---"; nl; "Display a comprehensive overview of OVS configuration."; nl; nl; "Runs 'ovs-vsctl show' command and returns detailed information about bridges, ports, interfaces,"; nl; "controllers, and their configurations in a hierarchical format."; nl; nl; "This command is useful for getting a complete view of the OVS switch configuration including:"; nl; "- All bridges and their configurations"; nl; "- Ports and interfaces attached to each bridge"; nl; "- Controller connections and status"; nl; "- Interface types and options"; nl; "- Port configurations and tags"; nl; nl; "Example output:"; nl; "{"; nl; "  "; dq; "output"; dq; ": "; dq; "a1b2c3d4-5678-90ab-cdef-1234567890ab\n    Bridge br-int\n        Port ovn-k8s-mp0\n            Interface ovn-k8s-mp0\n                type: internal\n        Port br-int\n            Interface br-int\n                type: internal\n    ovs_version: \"; dq; "2.17.0\"; dq; dq; nl; "}"; nl; nl; "--- action: "; dq; "list-br"; dq; " ---"; nl; "List all OVS bridges on a specific pod."; nl; nl; "Runs 'ovs-vsctl list-br' command and returns the names of all configured bridges."; nl; nl; "Example output:"; nl; "{"; nl; "  "; dq; "bridges"; dq; ": ["; nl; "    "; dq; "br-int"; dq; ","; nl; "    "; dq; "br-ex"; dq; ","; nl; "    "; dq; "br-local"; dq; nl; "  ]"; nl; "}"; nl; nl; "--- action: "; dq; "list-ports"; dq; " ---"; nl; "List all ports on a specific OVS bridge."; nl; nl; "Runs 'ovs-vsctl list-ports' command and returns the names of all ports attached to the specified bridge."; nl; nl; "Example output:"; nl; "{"; nl; "  "; dq; "ports"; dq; ": ["; nl; "    "; dq; "patch-br-int-to-br-ex"; dq; ","; nl; "    "; dq; "veth1234"; dq; ","; nl; "    "; dq; "ovn-k8s-mp0"; dq; nl; "  ]"; nl; "}"; nl; nl; "--- action: "; dq; "list-ifaces"; dq; " ---"; nl; "List all interfaces on a specific OVS bridge."; nl; nl; "Runs 'ovs-vsctl list-ifaces' command and returns the names of all interfaces attached to the specified bridge."; nl; nl; "Example output:"; nl; "{"; nl; "  "; dq; "interfaces"; dq; ": ["; nl; "    "; dq; "patch-br-int-to-br-ex"; dq; ","; nl; "    "; dq; "veth1234"; dq; ","; nl; "    "; dq; "ovn-k8s-mp0"; dq; nl; "  ]"; nl; "}"])
    (mkToolAnnotations "OVN-Kubernetes: ovs-vsctl" (Some true) None None (Some true)) []
    (Some (mkSchema "object" "" (Some [
       ("namespace", mkSchema "string" (fmt ["Kubernetes namespace of the ovnkube-node pod (e.g., "; dq; "openshift-ovn-kubernetes"; dq; ")"]) None);
       ("name", mkSchema "string" (fmt ["Name of the ovnkube-node pod (e.g., "; dq; "ovnkube-node-xxxxx"; dq; ")"]) None);
       ("action", mkSchema "string" (fmt ["The ovs-vsctl subcommand to run: "; dq; "show"; dq; ", "; dq; "list-br"; dq; ", "; dq; "list-ports"; dq; ", or "; dq; "list-ifaces"; dq]) None);
       ("bridge", mkSchema "string" (fmt ["Name of the OVS bridge (required for "; dq; "list-ports"; dq; " and "; dq; "list-ifaces"; dq; "; e.g., "; dq; "br-int"; dq; ")"]) None);
       ("head", mkSchema "integer" (fmt ["Return only first N lines (only used when action is "; dq; "show"; dq; "). Default: "; itoa DefaultMaxLines; " lines if tail is not specified"]) None);
       ("tail", mkSchema "integer" (fmt ["Return only last N lines (only used when action is "; dq; "show"; dq; ")"]) None);
       ("apply_tail_first", mkSchema "boolean" (fmt ["If both head and tail are set and apply_tail_first is true, apply tail before head (only used when action is "; dq; "show"; dq; "). Default: false"]) None)]))) None.

Definition ovs_ofctl_tool : Tool :=
  mkTool "ovs_ofctl"
    (fmt ["Run an ovs-ofctl command against an ovnkube-node pod."; nl; nl; "The 'action' parameter selects the ovs-ofctl subcommand to run."; nl; nl; "--- action: "; dq; "dump-flows"; dq; " ---"; nl; "Dump OpenFlow flows from a specific OVS bridge."; nl; nl; "Runs 'ovs-ofctl dump-flows' command on the specified bridge and returns the flow entries."; nl; nl; "Example output:"; nl; "{"; nl; "  "; dq; "bridge"; dq; ": "; dq; "br-int"; dq; ","; nl; "  "; dq; "flows"; dq; ": ["; nl; "    "; dq; "cookie=0x0, duration=123.456s, table=0, n_packets=100, n_bytes=10000, priority=100,in_port=1 actions=output:2"; dq; ","; nl; "    "; dq; "cookie=0x0, duration=123.456s, table=0, n_packets=50, n_bytes=5000, priority=90,in_port=2 actions=output:1"; dq; nl; "  ]"; nl; "}"])
    (mkToolAnnotations "OVN-Kubernetes: ovs-ofctl" (Some true) None None (Some true)) []
    (Some (mkSchema "object" "" (Some [
       ("namespace", mkSchema "string" (fmt ["Kubernetes namespace of the ovnkube-node pod (e.g., "; dq; "openshift-ovn-kubernetes"; dq; ")"]) None);
       ("name", mkSchema "string" (fmt ["Name of the ovnkube-node pod (e.g., "; dq; "ovnkube-node-xxxxx"; dq; ")"]) None);
       ("action", mkSchema "string" (fmt ["The ovs-ofctl subcommand to run: "; dq; "dump-flows"; dq]) None);
       ("bridge", mkSchema "string" (fmt ["Name of the OVS bridge (e.g., "; dq; "br-int"; dq; ")"]) None);
       ("pattern", mkSchema "string" "Regex pattern to filter output lines" None);
       ("head", mkSchema "integer" (fmt ["Return only first N lines. Default: "; itoa DefaultMaxLines; " lines if tail is not specified"]) None);
       ("tail", mkSchema "integer" "Return only last N lines" None);
       ("apply_tail_first", mkSchema "boolean" "If both head and tail are set and apply_tail_first is true, apply tail before head. Default: false" None)]))) None.

Definition ovs_appctl_tool : Tool :=
  mkTool "ovs_appctl"
    (fmt ["Run an ovs-appctl command against an ovnkube-node pod."; nl; nl; "The 'action' parameter selects the ovs-appctl subcommand to run."; nl; nl; "--- action: "; dq; "dpctl/dump-conntrack"; dq; " ---"; nl; "Dump connection tracking entries from OVS datapath."; nl; nl; "Runs 'ovs-appctl dpctl/dump-conntrack' command and returns the conntrack entries."; nl; nl; "Connection tracking (conntrack) maintains state for stateful firewall rules and NAT."; nl; "Each entry shows source/destination IPs, ports, protocol, connection state, and more."; nl; nl; "Example output:"; nl; "{"; nl; "  "; dq; "entries"; dq; ": ["; nl; "    "; dq; "tcp,orig=(src=10.244.0.5,dst=10.96.0.1,sport=45678,dport=443),reply=(src=10.96.0.1,dst=10.244.0.5,sport=443,dport=45678)"; dq; ","; nl; "    "; dq; "udp,orig=(src=10.244.0.3,dst=8.8.8.8,sport=53214,dport=53),reply=(src=8.8.8.8,dst=10.244.0.3,sport=53,dport=53214)"; dq; nl; "  ]"; nl; "}"; nl; nl; "--- action: "; dq; "ofproto/trace"; dq; " ---"; nl; "Trace a packet through the OpenFlow pipeline."; nl; nl; "Runs 'ovs-appctl ofproto/trace' command to simulate packet processing through OpenFlow tables."; nl; "This shows which flows match, what actions are taken, and the final disposition of the packet."; nl; nl; "The trace output is essential for debugging flow rules, understanding packet forwarding decisions,"; nl; "and troubleshooting connectivity issues."; nl; nl; "Flow specification examples:"; nl; "- "; dq; "in_port=1,icmp"; dq; nl; "- "; dq; "in_port=2,ip,nw_src=192.168.1.10,nw_dst=192.168.1.20"; dq; nl; "- "; dq; "in_port=3,tcp,nw_src=10.0.0.1,nw_dst=10.0.0.2,tp_src=12345,tp_dst=80"; dq; nl; nl; "Example output:"; nl; "{"; nl; "  "; dq; "bridge"; dq; ": "; dq; "br-int"; dq; ","; nl; "  "; dq; "flow"; dq; ": "; dq; "in_port=1,ip,nw_src=10.244.0.5,nw_dst=10.96.0.1"; dq; ","; nl; "  "; dq; "output"; dq; ": "; dq; "Flow: ip,in_port=1,nw_src=10.244.0.5,nw_dst=10.96.0.1\n\nbridge(\"; dq; "br-int\"; dq; ")\n-------------\n 0. priority 100\n    resubmit(,10)\n10. ip,nw_dst=10.96.0.1, priority 200\n    load:0x1->NXM_NX_REG0[]\n    resubmit(,20)\n...\nFinal flow: ...\nDatapath actions: ..."; dq; nl; "}"])
    (mkToolAnnotations "OVN-Kubernetes: ovs-appctl" (Some true) None None (Some true)) []
    (Some (mkSchema "object" "" (Some [
       ("namespace", mkSchema "string" (fmt ["Kubernetes namespace of the ovnkube-node pod (e.g., "; dq; "openshift-ovn-kubernetes"; dq; ")"]) None);
       ("name", mkSchema "string" (fmt ["Name of the ovnkube-node pod (e.g., "; dq; "ovnkube-node-xxxxx"; dq; ")"]) None);
       ("action", mkSchema "string" (fmt ["The ovs-appctl subcommand to run: "; dq; "dpctl/dump-conntrack"; dq; " or "; dq; "ofproto/trace"; dq]) None);
       ("bridge", mkSchema "string" (fmt ["Name of the OVS bridge (required for "; dq; "ofproto/trace"; dq; "; e.g., "; dq; "br-int"; dq; ")"]) None);
       ("flow", mkSchema "string" (fmt ["Flow specification (required for "; dq; "ofproto/trace"; dq; "; e.g., "; dq; "in_port=1,ip,nw_src=10.244.0.5,nw_dst=10.96.0.1"; dq; ")"]) None);
       ("additional_params", mkSchema "array" (fmt ["Additional CLI arguments (only used when action is "; dq; "dpctl/dump-conntrack"; dq; "; e.g., ["; dq; "zone=5"; dq; "])"]) None);
       ("pattern", mkSchema "string" "Regex pattern to filter output lines" None);
       ("head", mkSchema "integer" (fmt ["Return only first N lines. Default: "; itoa DefaultMaxLines; " lines if tail is not specified"]) None);
       ("tail", mkSchema "integer" "Return only last N lines" None);
       ("apply_tail_first", mkSchema "boolean" "If both head and tail are set and apply_tail_first is true, apply tail before head. Default: false" None)]))) None.

(** ** The upstream servers *)

Record NamespacedNameParams := mkNamespacedName { nn_Namespace : string; nn_Name : string }.

Record ShowParams := mkShow {
  sh_NamespacedName : NamespacedNameParams; sh_Database : string; sh_HeadTail : HeadTailParams }.
Record GetParams := mkGet {
  ge_NamespacedName : NamespacedNameParams; ge_Database : string; ge_Table : string; ge_Record : string;
  ge_Columns : string; ge_Pattern : string; ge_HeadTail : HeadTailParams }.
Record LogicalFlowListParams := mkLogicalFlowList {
  lf_NamespacedName : NamespacedNameParams; lf_Datapath : string; lf_Pattern : string;
  lf_HeadTail : HeadTailParams }.
Record OVNTraceParams := mkOVNTrace {
  tr_NamespacedName : NamespacedNameParams; tr_Datapath : string; tr_Microflow : string; tr_Mode : string;
  tr_Pattern : string; tr_HeadTail : HeadTailParams }.
Record VsctlParams := mkVsctl {
  vs_Namespace : string; vs_Name : string; vs_Action : string; vs_Bridge : string;
  vs_HeadTail : HeadTailParams }.
Record OfctlParams := mkOfctl {
  of_Namespace : string; of_Name : string; of_Action : string; of_Bridge : string; of_Pattern : string;
  of_HeadTail : HeadTailParams }.
Record AppctlParams := mkAppctl {
  ap_Namespace : string; ap_Name : string; ap_Action : string; ap_Bridge : string; ap_Flow : string;
  ap_AdditionalParams : list string; ap_Pattern : string; ap_HeadTail : HeadTailParams }.

(** The function a server runs its commands with: by namespace, pod, container and
    command, the output and the errors of the command. *)
Definition RunPodExecCommand : Type :=
  string -> string -> string -> list string -> prog (result (string * string)).
(** What a method answers: its result, a struct, and an error. *)
Definition method (I : Type) : Type := I -> prog (jvalue * option error).
Record OVNServer := mkOVNServer {
  os_Show : method ShowParams;
  os_Get : method GetParams;
  os_ListLogicalFlows : method LogicalFlowListParams;
  os_Trace : method OVNTraceParams;
}.
Record OVSServer := mkOVSServer {
  os_Vsctl : method VsctlParams;
  os_Ofctl : method OfctlParams;
  os_Appctl : method AppctlParams;
}.

(** ** The handlers *)

(** [ovntypes.SouthboundDB] *)
Definition SouthboundDB : string := "sbdb".
Definition containerForDatabase (database : string) : string :=
  if database =?s SouthboundDB then "sbdb" else "nbdb".

Definition namespacedName (namespace name : string) : NamespacedNameParams := mkNamespacedName namespace name.

(** The strings of the array, from the index [i] of the first. *)
Fixpoint string_elements (key : string) (i : nat) (raw : list jvalue) : result (list string) :=
  match raw with
  | [] => Ok []
  | JString s :: raw =>
      match string_elements key (S i) raw with Ok out => Ok (s :: out) | Err err => Err err end
  | _ :: _ => Err (ErrNew (fmt [key; "["; itoa (Z.of_nat i); "] must be a string"]))
  end.
Definition optionalStringSlice (args : arguments) (key : string) : result (list string) :=
  match args !! key with Some (JArray raw) => string_elements key 0 raw | _ => Ok [] end.

Section Handlers.
Context (ovf : spec_float -> Z) (Marshal : any_value -> option string).
Context (NewOVNMCPServer : RunPodExecCommand -> result OVNServer).
Context (NewOVSMCPServer : RunPodExecCommand -> result OVSServer).

Definition newOVNServer (container : string) : result OVNServer :=
  NewOVNMCPServer (fun namespace name _ command => PodsExec namespace name container command).

Definition ovn_failed (err : error) : ToolCallResult := NewToolCallResult "" (Some err).
Definition ovn_answer (answer : jvalue * option error) : ToolCallResult :=
  match answer.2 with
  | Some err => ovn_failed err
  | None => NewToolCallResultStructured Marshal (Some (AnyOther answer.1)) None
  end.

Definition ovnShow (args : arguments) : prog ToolCallResult :=
  let p := WrapParams args in
  let '(namespace, p) := Params_OptionalString "namespace" "openshift-ovn-kubernetes" p in
  let '(name, p) := Params_RequiredString "name" p in
  let '(database, p) := Params_RequiredString "database" p in
  let '(head, p) := Params_OptionalInt64 ovf "head" 0 p in
  let '(tail, p) := Params_OptionalInt64 ovf "tail" 0 p in
  let '(applyTailFirst, p) := Params_OptionalBool "apply_tail_first" false p in
  match Params_Err p with
  | Some err => Ret (failed "failed to run ovn show: " err)
  | None =>
      match newOVNServer (containerForDatabase database) with
      | Err err => Ret (ovn_failed err)
      | Ok server =>
          answer ← os_Show server
            (mkShow (namespacedName namespace name) database (mkHeadTail head tail applyTailFirst));
          Ret (ovn_answer answer)
      end
  end.

Definition ovnGet (args : arguments) : prog ToolCallResult :=
  let p := WrapParams args in
  let '(namespace, p) := Params_OptionalString "namespace" "openshift-ovn-kubernetes" p in
  let '(name, p) := Params_RequiredString "name" p in
  let '(database, p) := Params_RequiredString "database" p in
  let '(table, p) := Params_RequiredString "table" p in
  let '(record, p) := Params_OptionalString "record" "" p in
  let '(columns, p) := Params_OptionalString "columns" "" p in
  let '(pat, p) := Params_OptionalString "pattern" "" p in
  let '(head, p) := Params_OptionalInt64 ovf "head" 0 p in
  let '(tail, p) := Params_OptionalInt64 ovf "tail" 0 p in
  let '(applyTailFirst, p) := Params_OptionalBool "apply_tail_first" false p in
  match Params_Err p with
  | Some err => Ret (failed "failed to run ovn get: " err)
  | None =>
      match newOVNServer (containerForDatabase database) with
      | Err err => Ret (ovn_failed err)
      | Ok server =>
          answer ← os_Get server
            (mkGet (namespacedName namespace name) database table record columns pat
               (mkHeadTail head tail applyTailFirst));
          Ret (ovn_answer answer)
      end
  end.

Definition ovnLFlowList (args : arguments) : prog ToolCallResult :=
  let p := WrapParams args in
  let '(namespace, p) := Params_OptionalString "namespace" "openshift-ovn-kubernetes" p in
  let '(name, p) := Params_RequiredString "name" p in
  let '(datapath, p) := Params_OptionalString "datapath" "" p in
  let '(pat, p) := Params_OptionalString "pattern" "" p in
  let '(head, p) := Params_OptionalInt64 ovf "head" 0 p in
  let '(tail, p) := Params_OptionalInt64 ovf "tail" 0 p in
  let '(applyTailFirst, p) := Params_OptionalBool "apply_tail_first" false p in
  match Params_Err p with
  | Some err => Ret (failed "failed to run ovn lflow-list: " err)
  | None =>
      match newOVNServer "sbdb" with
      | Err err => Ret (ovn_failed err)
      | Ok server =>
          answer ← os_ListLogicalFlows server
            (mkLogicalFlowList (namespacedName namespace name) datapath pat
               (mkHeadTail head tail applyTailFirst));
          Ret (ovn_answer answer)
      end
  end.

Definition ovnTrace (args : arguments) : prog ToolCallResult :=
  let p := WrapParams args in
  let '(namespace, p) := Params_OptionalString "namespace" "openshift-ovn-kubernetes" p in
  let '(name, p) := Params_RequiredString "name" p in
  let '(datapath, p) := Params_RequiredString "datapath" p in
  let '(microflow, p) := Params_RequiredString "microflow" p in
  let '(mode, p) := Params_OptionalString "mode" "" p in
  let '(pat, p) := Params_OptionalString "pattern" "" p in
  let '(head, p) := Params_OptionalInt64 ovf "head" 0 p in
  let '(tail, p) := Params_OptionalInt64 ovf "tail" 0 p in
  let '(applyTailFirst, p) := Params_OptionalBool "apply_tail_first" false p in
  match Params_Err p with
  | Some err => Ret (failed "failed to run ovn trace: " err)
  | None =>
      match newOVNServer "northd" with
      | Err err => Ret (ovn_failed err)
      | Ok server =>
          answer ← os_Trace server
            (mkOVNTrace (namespacedName namespace name) datapath microflow mode pat
               (mkHeadTail head tail applyTailFirst));
          Ret (ovn_answer answer)
      end
  end.

Definition newOVSServer : result OVSServer :=
  NewOVSMCPServer (fun namespace name _ command => PodsExec namespace name "ovn-controller" command).

(** The error with no structured result, and the answer of the server with its result,
    also when it failed. *)
Definition ovs_failed (err : error) : ToolCallResult := NewToolCallResultStructured Marshal None (Some err).
Definition ovs_answer (answer : jvalue * option error) : ToolCallResult :=
  NewToolCallResultStructured Marshal (Some (AnyOther answer.1)) answer.2.

Definition ovsVsctl (args : arguments) : prog ToolCallResult :=
  let p := WrapParams args in
  let '(namespace, p) := Params_RequiredString "namespace" p in
  let '(name, p) := Params_RequiredString "name" p in
  let '(action, p) := Params_RequiredString "action" p in
  let '(bridge, p) := Params_OptionalString "bridge" "" p in
  let '(head, p) := Params_OptionalInt64 ovf "head" 0 p in
  let '(tail, p) := Params_OptionalInt64 ovf "tail" 0 p in
  let '(applyTailFirst, p) := Params_OptionalBool "apply_tail_first" false p in
  match Params_Err p with
  | Some err => Ret (ovs_failed err)
  | None =>
      match newOVSServer with
      | Err err => Ret (ovs_failed err)
      | Ok srv =>
          answer ← os_Vsctl srv (mkVsctl namespace name action bridge (mkHeadTail head tail applyTailFirst));
          Ret (ovs_answer answer)
      end
  end.

Definition ovsOfctl (args : arguments) : prog ToolCallResult :=
  let p := WrapParams args in
  let '(namespace, p) := Params_RequiredString "namespace" p in
  let '(name, p) := Params_RequiredString "name" p in
  let '(action, p) := Params_RequiredString "action" p in
  let '(bridge, p) := Params_RequiredString "bridge" p in
  let '(pat, p) := Params_OptionalString "pattern" "" p in
  let '(head, p) := Params_OptionalInt64 ovf "head" 0 p in
  let '(tail, p) := Params_OptionalInt64 ovf "tail" 0 p in
  let '(applyTailFirst, p) := Params_OptionalBool "apply_tail_first" false p in
  match Params_Err p with
  | Some err => Ret (ovs_failed err)
  | None =>
      match newOVSServer with
      | Err err => Ret (ovs_failed err)
      | Ok srv =>
          answer ← os_Ofctl srv (mkOfctl namespace name action bridge pat (mkHeadTail head tail applyTailFirst));
          Ret (ovs_answer answer)
      end
  end.

Definition ovsAppctl (args : arguments) : prog ToolCallResult :=
  let p := WrapParams args in
  match optionalStringSlice args "additional_params" with
  | Err err => Ret (ovs_failed err)
  | Ok additionalParams =>
  let '(namespace, p) := Params_RequiredString "namespace" p in
  let '(name, p) := Params_RequiredString "name" p in
  let '(action, p) := Params_RequiredString "action" p in
  let '(bridge, p) := Params_OptionalString "bridge" "" p in
  let '(flow, p) := Params_OptionalString "flow" "" p in
  let '(pat, p) := Params_OptionalString "pattern" "" p in
  let '(head, p) := Params_OptionalInt64 ovf "head" 0 p in
  let '(tail, p) := Params_OptionalInt64 ovf "tail" 0 p in
  let '(applyTailFirst, p) := Params_OptionalBool "apply_tail_first" false p in
  match Params_Err p with
  | Some err => Ret (ovs_failed err)
  | None =>
      match newOVSServer with
      | Err err => Ret (ovs_failed err)
      | Ok srv =>
          answer ← os_Appctl srv
            (mkAppctl namespace name action bridge flow additionalParams pat
               (mkHeadTail head tail applyTailFirst));
          Ret (ovs_answer answer)
      end
  end
  end.

Definition InitOVNTools : list core_tool :=
  [core ovn_show_tool ovnShow; core ovn_get_tool ovnGet; core ovn_lflow_list_tool ovnLFlowList;
   core ovn_trace_tool ovnTrace].
Definition Tools : list core_tool :=
  [core ovs_vsctl_tool ovsVsctl; core ovs_ofctl_tool ovsOfctl; core ovs_appctl_tool ovsAppctl].
Definition GetTools : list core_tool := InitOVNTools ++ Tools.
End Handlers.

(** * Specification *)

(** A method makes no call of its own: what holds of the commands run for the pod it is
    asked about holds of its calls. *)
Definition in_pod {I} (run : RunPodExecCommand) (pod : I -> string * string) (m : method I) : Prop :=
  forall (P : forall R, kcall R -> Prop) i,
    (forall container command, every P (run (pod i).1 (pod i).2 container command)) -> every P (m i).
Definition pod_of (n : NamespacedNameParams) : string * string := (nn_Namespace n, nn_Name n).

(** What the upstream servers promise to the handlers. *)
Class ExecsInPod (NewOVN : RunPodExecCommand -> result OVNServer)
    (NewOVS : RunPodExecCommand -> result OVSServer) : Prop := {
  ovn_in_pod run s : NewOVN run = Ok s ->
    in_pod run (pod_of ∘ sh_NamespacedName) (os_Show s) /\ in_pod run (pod_of ∘ ge_NamespacedName) (os_Get s) /\
    in_pod run (pod_of ∘ lf_NamespacedName) (os_ListLogicalFlows s) /\
    in_pod run (pod_of ∘ tr_NamespacedName) (os_Trace s);
  ovs_in_pod run s : NewOVS run = Ok s ->
    in_pod run (fun i => (vs_Namespace i, vs_Name i)) (os_Vsctl s) /\
    in_pod run (fun i => (of_Namespace i, of_Name i)) (os_Ofctl s) /\
    in_pod run (fun i => (ap_Namespace i, ap_Name i)) (os_Appctl s);
}.

(** The container a tool works in. *)
Definition tool_container (tool : string) (args : arguments) : string :=
  if (tool =?s "ovn_show") || (tool =?s "ovn_get") then
    match args !! "database" with Some (JString "sbdb") => "sbdb" | _ => "nbdb" end
  else if tool =?s "ovn_lflow_list" then "sbdb"
  else if tool =?s "ovn_trace" then "northd"
  else "ovn-controller".

(** A call reads, or executes a command in the container of the pod of the arguments. *)
Definition executes_in (container : string) (args : arguments) {R} (c : kcall R) : Prop :=
  match c with
  | KPodExec ns n ctr _ =>
      args !! "name" = Some (JString n) /\ ctr = container /\
      match args !! "namespace" with
      | Some (JString given) => given <> "" -> ns = given
      | _ => ns = "openshift-ovn-kubernetes"
      end
  | c => reads_only c
  end.

(** * Lemmas *)

(** Goes back from the wrapper without an error through the extractions. *)
Ltac no_errors :=
  unfold Params_Err in *;
  repeat match goal with
  | H : Params_RequiredString _ _ = (_, ?p), E : p_err ?p = None |- _ =>
      let A := fresh "A" in destruct (RequiredString_ok _ _ _ _ H E) as [<- A]; clear H
  | H : Params_OptionalString _ _ _ = (_, ?p), E : p_err ?p = None |- _ =>
      let A := fresh "A" in destruct (OptionalString_ok _ _ _ _ _ H E) as [<- A]; clear H
  | H : Params_OptionalBool _ _ _ = (_, ?p), E : p_err ?p = None |- _ =>
      rewrite <- (OptionalBool_ok _ _ _ _ _ H E) in E; clear H
  | H : Params_OptionalInt64 _ _ _ _ = (_, ?p), E : p_err ?p = None |- _ =>
      rewrite <- (OptionalInt64_ok _ _ _ _ _ _ H E) in E; clear H
  end.

Section Checked.
Context (ovf : spec_float -> Z) (Marshal : any_value -> option string).
Context (NewOVN : RunPodExecCommand -> result OVNServer) (NewOVS : RunPodExecCommand -> result OVSServer).
Context `{Hup : !ExecsInPod NewOVN NewOVS}.

Lemma every_exec args container ns name cmd :
  container <> "" -> args !! "name" = Some (JString name) ->
  match args !! "namespace" with Some a => a = JString ns | None => ns = "openshift-ovn-kubernetes" end ->
  every (@executes_in container args) (PodsExec ns name container cmd).
Proof.
  intros Hc Hn Hns. eapply every_impl; [|by apply every_PodsExec]. intros R c H. destruct c; try done.
  destruct H as (Hns' & -> & -> & _). cbn. split_and!; [done..|].
  destruct (args !! "namespace") as [a|]; [subst a; done|]. subst. by apply Hns'.
Qed.

Lemma every_exec_given args container ns name cmd :
  container <> "" -> args !! "name" = Some (JString name) -> args !! "namespace" = Some (JString ns) ->
  every (@executes_in container args) (PodsExec ns name container cmd).
Proof. intros Hc Hn Hns. apply every_exec; [done|done|]. by rewrite Hns. Qed.

Lemma containerForDatabase_set database : containerForDatabase database <> "".
Proof. unfold containerForDatabase. by destruct (database =?s SouthboundDB). Qed.
Lemma database_container tool args database :
  tool = "ovn_show" \/ tool = "ovn_get" -> args !! "database" = Some (JString database) ->
  tool_container tool args = containerForDatabase database.
Proof.
  intros Ht Hd. unfold tool_container, containerForDatabase, SouthboundDB. rewrite Hd.
  assert ((tool =?s "ovn_show") || (tool =?s "ovn_get") = true) as -> by by destruct Ht as [-> | ->].
  destruct (bool_decide_reflect (database = "sbdb")) as [->|Hne]; [done|].
  by repeat (case_match; try done; subst).
Qed.

(** Goes through the checks of a handler to its call of the server. *)
Ltac to_call :=
  repeat match goal with
    | |- context [match ?t with pair _ _ => _ end] =>
        lazymatch t with
        | context [match _ with pair _ _ => _ end] => fail
        | _ => let E := fresh "E" in destruct t as [? ?] eqn:E
        end
    end;
  match goal with |- context [match Params_Err ?p with _ => _ end] =>
    let E := fresh "Herr" in destruct (Params_Err p) eqn:E; [done|] end;
  no_errors;
  match goal with |- context [match ?s with Ok _ => _ | Err _ => _ end] =>
    let E := fresh "Hs" in destruct s eqn:E; [|done] end;
  apply every_then; [|done].
Ltac to_server handler :=
  intros args; cbn [ct_Handler core ct_Tool]; apply every_then; [|done]; unfold handler; to_call.
Ltac ovs_checked_tac handler :=
  let args := fresh "args" in let err := fresh "err" in let H := fresh "H" in
  intros args err H; rewrite <- (run_extractions_err ovf) in H; unfold handler;
  through_extractions H; unfold Params_Err; by rewrite H.

(** The ovs tools: the error as it is, without a structured result. *)
Definition ovs_checked_first (before : arguments -> option error) (handler : arguments -> prog ToolCallResult)
    (xs : list extraction) : Prop :=
  forall args err,
    match before args with Some e => Some e | None => first_error (map (extraction_error args) xs) end = Some err ->
    handler args = Ret (ovs_failed Marshal err).

(** * Properties *)

(** Every tool executes its commands in one container of one pod of the OVN network:
    that of the database (or of northd) for the [ovn] tools, [ovn-controller] for the
    [ovs] ones, in the pod and the namespace of the arguments, which for the [ovn] tools
    default to openshift-ovn-kubernetes.  Nothing else of the cluster is changed. *)
Theorem ovn_tools_execute_in_pod :
  Forall (fun t => forall args,
      every (@executes_in (tool_container (tl_Name (ct_Tool t)) args) args) (ct_Handler t args))
    (GetTools ovf Marshal NewOVN NewOVS).
Proof.
  repeat apply Forall_cons_2; [..|done].
  - to_server ovnShow. apply (ovn_in_pod _ _ Hs). intros c cmd. cbn in *.
    assert (tool_container "ovn_show" args = containerForDatabase s1) as -> by (apply database_container; auto).
    by apply every_exec; [apply containerForDatabase_set|..].
  - to_server ovnGet. apply (ovn_in_pod _ _ Hs). intros c cmd. cbn in *.
    assert (tool_container "ovn_get" args = containerForDatabase s1) as -> by (apply database_container; auto).
    by apply every_exec; [apply containerForDatabase_set|..].
  - to_server ovnLFlowList. apply (ovn_in_pod _ _ Hs). intros c cmd. by apply every_exec.
  - to_server ovnTrace. apply (ovn_in_pod _ _ Hs). intros c cmd. by apply every_exec.
  - to_server ovsVsctl. apply (ovs_in_pod _ _ Hs). intros c cmd. by eapply every_exec_given.
  - to_server ovsOfctl. apply (ovs_in_pod _ _ Hs). intros c cmd. by eapply every_exec_given.
  - intros args; cbn [ct_Handler core ct_Tool]; apply every_then; [|done]; unfold ovsAppctl.
    destruct (optionalStringSlice _ _); [|done]. to_call. apply (ovs_in_pod _ _ Hs). intros c cmd. by eapply every_exec_given.
Qed.

(** The error of the first argument that is missing or of the wrong type, in the order
    of the code, is the answer of the tool, before any server is made; [ovs_appctl]
    looks at its additional parameters before all the others. *)
Theorem ovn_arguments_checked :
  checked_first ovf (ovnShow ovf Marshal NewOVN) "failed to run ovn show: "
    [XOptionalString "namespace" "openshift-ovn-kubernetes"; XRequiredString "name"; XRequiredString "database";
     XOptionalInt64 "head" 0; XOptionalInt64 "tail" 0; XOptionalBool "apply_tail_first" false] /\
  checked_first ovf (ovnGet ovf Marshal NewOVN) "failed to run ovn get: "
    [XOptionalString "namespace" "openshift-ovn-kubernetes"; XRequiredString "name"; XRequiredString "database";
     XRequiredString "table"; XOptionalString "record" ""; XOptionalString "columns" "";
     XOptionalString "pattern" ""; XOptionalInt64 "head" 0; XOptionalInt64 "tail" 0;
     XOptionalBool "apply_tail_first" false] /\
  checked_first ovf (ovnLFlowList ovf Marshal NewOVN) "failed to run ovn lflow-list: "
    [XOptionalString "namespace" "openshift-ovn-kubernetes"; XRequiredString "name";
     XOptionalString "datapath" ""; XOptionalString "pattern" ""; XOptionalInt64 "head" 0;
     XOptionalInt64 "tail" 0; XOptionalBool "apply_tail_first" false] /\
  checked_first ovf (ovnTrace ovf Marshal NewOVN) "failed to run ovn trace: "
    [XOptionalString "namespace" "openshift-ovn-kubernetes"; XRequiredString "name"; XRequiredString "datapath";
     XRequiredString "microflow"; XOptionalString "mode" ""; XOptionalString "pattern" "";
     XOptionalInt64 "head" 0; XOptionalInt64 "tail" 0; XOptionalBool "apply_tail_first" false] /\
  ovs_checked_first (fun _ => None) (ovsVsctl ovf Marshal NewOVS)
    [XRequiredString "namespace"; XRequiredString "name"; XRequiredString "action"; XOptionalString "bridge" "";
     XOptionalInt64 "head" 0; XOptionalInt64 "tail" 0; XOptionalBool "apply_tail_first" false] /\
  ovs_checked_first (fun _ => None) (ovsOfctl ovf Marshal NewOVS)
    [XRequiredString "namespace"; XRequiredString "name"; XRequiredString "action"; XRequiredString "bridge";
     XOptionalString "pattern" ""; XOptionalInt64 "head" 0; XOptionalInt64 "tail" 0;
     XOptionalBool "apply_tail_first" false] /\
  ovs_checked_first
    (fun args => match optionalStringSlice args "additional_params" with Err err => Some err | Ok _ => None end)
    (ovsAppctl ovf Marshal NewOVS)
    [XRequiredString "namespace"; XRequiredString "name"; XRequiredString "action"; XOptionalString "bridge" "";
     XOptionalString "flow" ""; XOptionalString "pattern" ""; XOptionalInt64 "head" 0;
     XOptionalInt64 "tail" 0; XOptionalBool "apply_tail_first" false].
Proof.
  split_and!.
  - checked_first_tac ovf ovnShow.
  - checked_first_tac ovf ovnGet.
  - checked_first_tac ovf ovnLFlowList.
  - checked_first_tac ovf ovnTrace.
  - ovs_checked_tac ovsVsctl.
  - ovs_checked_tac ovsOfctl.
  - intros args err. unfold ovsAppctl. destruct (optionalStringSlice _ _) as [l|e]; [|by intros [= ->]].
    revert err. intros err H; rewrite <- (run_extractions_err ovf) in H.
    through_extractions H. unfold Params_Err. by rewrite H.
Qed.
End Checked.

(** The additional parameters are read exactly: an array of strings gives its strings,
    and a value that is no array (or none) gives none. *)
Theorem optionalStringSlice_spec args key out :
  optionalStringSlice args key = Ok out <->
  match args !! key with Some (JArray raw) => raw = map JString out | _ => out = [] end.
Proof.
  unfold optionalStringSlice.
  assert (forall raw i out, string_elements key i raw = Ok out <-> raw = map JString out) as H.
  { intros raw. induction raw as [|v raw IH]; intros i l; cbn.
    - split; [by intros [= <-]|]. by destruct l.
    - destruct v; try by (split; [done|by destruct l]).
      specialize (IH (S i)). destruct (string_elements key (S i) raw) as [l'|e]; destruct l as [|x l]; cbn.
      all: split; intros E; try done; simplify_eq.
      + f_equal. by apply IH.
      + assert (Ok l' = Ok l) as [= ->] by (by apply IH). done.
      + assert (@Err (list string) e = Ok l) as H by (by apply IH). done. }
  destruct (args !! key) as [[]|]; try (split; congruence). apply H.
Qed.

(** * Examples and witnesses *)

(** Servers that run one command each. *)
Definition demo_method {I} (run : RunPodExecCommand) (pod : I -> string * string) (command : list string) :
    method I := fun i =>
  r ← run (pod i).1 (pod i).2 "" command;
  Ret (match r with
       | Ok (out, _) => (JObject [("output", JString out)], None)
       | Err err => (JObject [], Some err)
       end).
Definition demo_ovn (run : RunPodExecCommand) : result OVNServer :=
  Ok (mkOVNServer (demo_method run (pod_of ∘ sh_NamespacedName) ["ovn-nbctl"; "show"])
    (demo_method run (pod_of ∘ ge_NamespacedName) ["ovn-nbctl"; "list"])
    (demo_method run (pod_of ∘ lf_NamespacedName) ["ovn-sbctl"; "lflow-list"])
    (demo_method run (pod_of ∘ tr_NamespacedName) ["ovn-trace"])).
Definition demo_ovs (run : RunPodExecCommand) : result OVSServer :=
  Ok (mkOVSServer (demo_method run (fun i => (vs_Namespace i, vs_Name i)) ["ovs-vsctl"; "show"])
    (demo_method run (fun i => (of_Namespace i, of_Name i)) ["ovs-ofctl"; "dump-flows"])
    (demo_method run (fun i => (ap_Namespace i, ap_Name i)) ["ovs-appctl"; "dpctl/dump-conntrack"])).

Lemma demo_in_pod {I} run (pod : I -> string * string) command : in_pod run pod (demo_method run pod command).
Proof. intros P i H. by apply every_then. Qed.
#[export] Instance demo_execs : ExecsInPod demo_ovn demo_ovs.
Proof. split; intros run s [= <-]; split_and!; apply demo_in_pod. Qed.

Lemma ovn_tools_execute_in_pod_witness :
  let args : arguments := {[ "name" := JString "web"; "database" := JString "sbdb" ]} in
  let tr := (traced demo_cluster (ovnShow (fun _ => 0%Z) (fun _ => Some "json") demo_ovn args)).1 in
  last tr = Some (Ev (KPodExec "openshift-ovn-kubernetes" "web" "sbdb" ["ovn-nbctl"; "show"]) (Ok ("out", ""))) /\
  Forall (fun t => forall args,
      every (@executes_in (tool_container (tl_Name (ct_Tool t)) args) args) (ct_Handler t args))
    (GetTools (fun _ => 0%Z) (fun _ => Some "json") demo_ovn demo_ovs).
Proof. split; [by vm_compute|]. apply (ovn_tools_execute_in_pod (fun _ => 0%Z) _ demo_ovn demo_ovs). Defined.

(** A database that is none of the two is looked for in the container of the northbound
    one; it is the upstream server that refuses it. *)
Example unknown_database : containerForDatabase "icdb" = "nbdb" /\ containerForDatabase "SBDB" = "nbdb".
Proof. by vm_compute. Qed.

(** The result of a failed [ovs] call is an error with a structured result, which the
    result of a failed [ovn] call has not. *)
Example failed_answers :
  let Marshal (_ : any_value) := Some "{}" in
  let answer : jvalue * option error := (JObject [], Some (ErrNew "no pod")) in
  tcr_StructuredContent (ovs_answer Marshal answer) = Some (AnyOther (JObject [])) /\
  tcr_Content (ovs_answer Marshal answer) = "{}" /\ tcr_StructuredContent (ovn_answer Marshal answer) = None.
Proof. by vm_compute. Qed.

Example mixed_parameters :
  optionalStringSlice {[ "additional_params" := JArray [JString "zone=5"; JInt 7] ]} "additional_params" =
  Err (ErrNew "additional_params[1] must be a string").
Proof. by vm_compute. Qed.
