(* ===== verification/Oadp.v ===== *)
(** The prompt oadp-troubleshoot (pkg/toolsets/oadp/oadp_troubleshoot.go over pkg/oadp):
    what it reads of the backups and restores of a namespace, and the guide it makes of
    it.  The YAML codec, the conversion of events and the format of the time of creation
    are parameters. *)
From Stdlib Require Import SpecFloat.
From S2P Require Import Prelude GoStrings Api Params Config Prompts Unstructured Cluster Core CoreTools KubeVirt KubeVirtDiag.

(** * Definitions *)

(** ** pkg/oadp *)

Definition VeleroGroup : string := "velero.io".
Definition VeleroVersion : string := "v1".
Definition OADPGroup : string := "oadp.openshift.io".
Definition OADPVersion : string := "v1alpha1".
Definition DefaultOADPNamespace : string := "openshift-adp".
Definition BackupGVR : GroupVersionResource := mkGVR VeleroGroup VeleroVersion "backups".
Definition RestoreGVR : GroupVersionResource := mkGVR VeleroGroup VeleroVersion "restores".
Definition BackupStorageLocationGVR : GroupVersionResource := mkGVR VeleroGroup VeleroVersion "backupstoragelocations".
Definition DataProtectionApplicationGVR : GroupVersionResource :=
  mkGVR OADPGroup OADPVersion "dataprotectionapplications".

Definition list_all (gvr : GroupVersionResource) (namespace : string) : prog (result (list object)) :=
  call (KList gvr namespace (mkSelectors "" "")).
Definition ListDataProtectionApplications (namespace : string) := list_all DataProtectionApplicationGVR namespace.
Definition ListBackupStorageLocations (namespace : string) := list_all BackupStorageLocationGVR namespace.
Definition ListBackups (namespace : string) := list_all BackupGVR namespace.
Definition GetBackup (namespace name : string) : prog (result object) := call (KGet BackupGVR namespace name "").
Definition ListRestores (namespace : string) := list_all RestoreGVR namespace.
Definition GetRestore (namespace name : string) : prog (result object) := call (KGet RestoreGVR namespace name "").

(** ** The parts of the guide *)

Definition initOADPTroubleshoot : list Prompt :=
  [mkPrompt "oadp-troubleshoot" "OADP Troubleshoot"
     "Generate a step-by-step troubleshooting guide for diagnosing OADP backup and restore issues"
     [mkPromptArgument "namespace" "The OADP namespace (default: openshift-adp)" false;
      mkPromptArgument "backup" "The name of a specific backup to troubleshoot" false;
      mkPromptArgument "restore" "The name of a specific restore to troubleshoot" false] []].

Definition podGVR : GroupVersionResource := mkGVR "" "v1" "pods".
Definition valueOrNA (s : string) : string := if s =?s "" then "N/A" else s.

Section Guide.
Context (MarshalYaml : yvalue -> printed) (FromUnstructured : object -> result k8s_event).
Context (ovf : spec_float -> Z).
(** [GetCreationTimestamp().Format(...)] *)
Context (creation_time : object -> string).

(** A list of objects under a title, or that it failed or is empty. *)
Definition listing (title what missing : string) (items : result (list object)) (text : list object -> string) :
    string :=
  match items with
  | Err err => fmt ["### "; title; nl; nl; "*Error listing "; what; ": "; error_string err; "*"]
  | Ok [] => fmt ["### "; title; nl; nl; "*"; missing; "*"]
  | Ok items => fmt ["### "; title; nl; nl; text items]
  end.

Definition dpa_text (dpa : object) : string :=
  let title := fmt ["#### "; GetName dpa; nl; nl] in
  match NestedMap dpa ["status"] with
  | Err err => fmt [title; "*Error extracting status: "; error_string err; "*"; nl; nl]
  | Ok None => fmt [title; "*No status found (DPA may still be reconciling)*"; nl; nl]
  | Ok (Some status) =>
      match MarshalYaml (YMap status) with
      | (_, Some err) => fmt [title; "*Error marshaling status: "; error_string err; "*"; nl; nl]
      | (yamlStr, None) => fmt [title; yaml_block yamlStr; nl; nl]
      end
  end.
Definition fetchDPAStatus (namespace : string) : prog string :=
  dpas ← ListDataProtectionApplications namespace;
  Ret (listing "DataProtectionApplication" "DPAs"
         "No DataProtectionApplication found — OADP may not be configured" dpas (fun l => fmt (map dpa_text l))).

Definition bsl_text (bsl : object) : string :=
  let value fields := valueOrNA (NestedString bsl fields) in
  fmt ["#### "; GetName bsl; nl; nl;
       "- **Phase:** "; value ["status"; "phase"]; nl;
       "- **Provider:** "; value ["spec"; "provider"]; nl;
       "- **Bucket:** "; value ["spec"; "objectStorage"; "bucket"]; nl;
       "- **Last Validation:** "; value ["status"; "lastValidationTime"]; nl; nl].
Definition fetchBSLStatus (namespace : string) : prog string :=
  bsls ← ListBackupStorageLocations namespace;
  Ret (listing "BackupStorageLocations" "BSLs" "No BackupStorageLocations found" bsls
         (fun l => fmt (map bsl_text l))).

(** [NestedInt64]: zero unless there is one. *)
Definition NestedInt64 (o : object) (fields : list string) : Z :=
  match nested_field (YMap o) fields with Some (YInt64 z) => z | _ => 0%Z end.
(** A line of a table. *)
Definition table_row (cells : list string) : string := fmt ["| "; Join cells " | "; " |"; nl].

Definition backup_row (backup : object) : string :=
  let value fields := valueOrNA (NestedString backup fields) in
  table_row [GetName backup; value ["status"; "phase"]; value ["status"; "startTimestamp"];
             value ["status"; "completionTimestamp"]; itoa (NestedInt64 backup ["status"; "errors"]);
             itoa (NestedInt64 backup ["status"; "warnings"])].
Definition fetchRecentBackups (namespace : string) : prog string :=
  backups ← ListBackups namespace;
  Ret (listing "Recent Backups" "backups" "No backups found" backups (fun l =>
         fmt ["| Name | Phase | Started | Completed | Errors | Warnings |"; nl;
              "|------|-------|---------|-----------|--------|----------|"; nl;
              fmt (map backup_row l); nl])).

Definition restore_row (restore : object) : string :=
  let value fields := valueOrNA (NestedString restore fields) in
  table_row [GetName restore; value ["status"; "phase"]; value ["spec"; "backupName"];
             value ["status"; "startTimestamp"]; value ["status"; "completionTimestamp"];
             itoa (NestedInt64 restore ["status"; "errors"]); itoa (NestedInt64 restore ["status"; "warnings"])].
Definition fetchRecentRestores (namespace : string) : prog string :=
  restores ← ListRestores namespace;
  Ret (listing "Recent Restores" "restores" "No restores found" restores (fun l =>
         fmt ["| Name | Phase | Backup | Started | Completed | Errors | Warnings |"; nl;
              "|------|-------|--------|---------|-----------|--------|----------|"; nl;
              fmt (map restore_row l); nl])).

(** A part of an object in YAML; nothing when it cannot be printed. *)
Definition yaml_part (title : string) (v : yvalue) : string :=
  match MarshalYaml v with (_, Some _) => "" | (y, None) => fmt ["**"; title; ":**"; nl; yaml_block y; nl; nl] end.
(** The details of an object of a kind. *)
Definition details (kind started name : string) (o : result object) : string :=
  let title := fmt ["### "; kind; ": "; name; nl; nl] in
  match o with
  | Err err => fmt [title; "*Error fetching "; ToLower kind; ": "; error_string err; "*"]
  | Ok o =>
      match NestedMap o ["status"] with
      | Err err => fmt [title; "*Error extracting status: "; error_string err; "*"]
      | Ok None => fmt [title; "*No status found ("; started; " may not have started)*"]
      | Ok (Some status) =>
          fmt [title;
               match NestedMap o ["spec"] with Ok (Some spec) => yaml_part "Spec" (YMap spec) | _ => "" end;
               yaml_part "Status" (YMap status)]
      end
  end.
Definition fetchBackupDetails (namespace name : string) : prog string :=
  backup ← GetBackup namespace name; Ret (details "Backup" "backup" name backup).
Definition fetchRestoreDetails (namespace name : string) : prog string :=
  restore ← GetRestore namespace name; Ret (details "Restore" "restore" name restore).

(** The ready containers of all, and the restarts, with the wrap of 64 bits. *)
Definition restart_count (cs : object) : Z :=
  match field "restartCount" cs with
  | Some (YInt64 restarts) => restarts
  | Some (YFloat64 restarts) => f64_to_int64 ovf restarts
  | _ => 0%Z
  end.
Definition getPodReadyAndRestarts (pod : object) : string * Z :=
  match NestedSlice pod ["status"; "containerStatuses"] with
  | Ok (Some containerStatuses) =>
      let maps := omap (fun cs => match cs with YMap m => Some m | _ => None end) containerStatuses in
      let readyCount :=
        length (List.filter (fun m => match field "ready" m with Some (YBool b) => b | _ => false end) maps) in
      (fmt [itoa (Z.of_nat readyCount); "/"; itoa (Z.of_nat (length containerStatuses))],
       foldl (fun z m => wrap64 (z + restart_count m)) 0%Z maps)
  | _ => ("N/A", 0%Z)
  end.

Definition velero_row (pod : object) : string :=
  let '(ready, restarts) := getPodReadyAndRestarts pod in
  table_row [GetName pod; NestedString pod ["status"; "phase"]; ready; itoa restarts; creation_time pod].
Definition fetchVeleroPods (namespace : string) : prog (string * list string) :=
  podList ← call (KList podGVR namespace (mkSelectors "app.kubernetes.io/name=velero" ""));
  match podList with
  | Err err => Ret (fmt ["### Velero Pods"; nl; nl; "*Error listing pods: "; error_string err; "*"], [])
  | Ok items =>
      nodeAgentList ← call (KList podGVR namespace (mkSelectors "name=node-agent" ""));
      let items := items ++ match nodeAgentList with Ok agents => agents | Err _ => [] end in
      Ret (listing "Velero Pods" "pods"
             "No Velero pods found — the OADP operator may not be installed or the DPA may not be configured"
             (Ok items) (fun l =>
               fmt ["| Name | Phase | Ready | Restarts | Age |"; nl;
                    "|------|-------|-------|----------|-----|"; nl; fmt (map velero_row l); nl]),
           map GetName items)
  end.

Definition filterLogLines (logs : string) (keywords : list string) : string :=
  Join (List.filter (fun line => existsb (fun kw => Contains (ToLower line) (ToLower kw)) keywords)
          (Split "010" logs)) nl.
Definition log_keywords : list string := ["error"; "level=error"; "level=warning"; "Failed"; "forbidden"].
Definition log_section (podName : string) (logs : result string) : string :=
  fmt ["#### Pod: "; podName; nl; nl;
       match logs with
       | Err err => fmt ["*Error fetching logs: "; error_string err; "*"; nl; nl]
       | Ok logs =>
           let errorLines := filterLogLines logs log_keywords in
           if errorLines ≠?s "" then
             fmt ["**Error/Warning lines (last 100 log lines):**"; nl; "```"; nl; errorLines; nl; "```"; nl; nl]
           else fmt ["*No error or warning lines found in recent logs*"; nl; nl]
       end].
Fixpoint velero_logs (namespace : string) (podNames : list string) : prog string :=
  match podNames with
  | [] => Ret ""
  | podName :: podNames =>
      if HasPrefix podName "node-agent" then velero_logs namespace podNames
      else
        logs ← PodsLog namespace podName "velero" false 100;
        rest ← velero_logs namespace podNames;
        Ret (log_section podName logs +:+ rest)
  end.
Definition fetchVeleroPodLogs (namespace : string) (podNames : list string) : prog string :=
  match podNames with
  | [] => Ret (fmt ["### Velero Pod Logs"; nl; nl; "*No Velero pods found — no logs available*"])
  | _ => logs ← velero_logs namespace podNames; Ret (fmt ["### Velero Pod Logs"; nl; nl; logs])
  end.

Definition is_warning_event (event : object) : bool :=
  match field "Type" event with Some (YString t) => t =?s "Warning" | _ => false end.
Definition fetchOADPEvents (namespace : string) : prog string :=
  eventMap ← EventsList FromUnstructured namespace (mkSelectors "" "");
  Ret (match eventMap with
       | Err err => fmt ["### Events"; nl; nl; "*Error listing events: "; error_string err; "*"]
       | Ok [] => fmt ["### Events"; nl; nl; "*No events found in namespace*"]
       | Ok events =>
           match List.filter is_warning_event events with
           | [] => fmt ["### Events"; nl; nl; "*No Warning events found — this is good*"]
           | warningEvents =>
               match MarshalYaml (YSlice (map YMap warningEvents)) with
               | (_, Some err) => fmt ["### Events"; nl; nl; "*Error marshaling events: "; error_string err; "*"]
               | (yamlStr, None) => fmt ["### Warning Events"; nl; nl; yaml_block yamlStr]
               end
           end
       end).

Definition oadp_guide (namespace dpaYaml bslYaml backupYaml restoreYaml veleroPodYaml veleroLogsText eventsYaml : string) :
    string :=
  fmt ["# OADP Troubleshooting Guide"; nl; nl; "## Namespace: "; namespace; nl; nl;
    "Use this guide to diagnose issues with OADP backups and restores. The relevant resource data has been collected below.";
    nl; nl; "---"; nl; nl; "## Step 1: DataProtectionApplication (DPA) Status"; nl; nl;
    "The DPA is the central configuration for OADP. Check:"; nl; "- Does a DPA exist?"; nl;
    "- Are the conditions healthy (type "; dq; "Reconciled"; dq; " with status "; dq; "True"; dq; ")?"; nl;
    "- Is the backup storage location configured correctly?"; nl; nl; dpaYaml; nl; nl; "---"; nl; nl;
    "## Step 2: BackupStorageLocation (BSL) Status"; nl; nl; "BSLs define where backups are stored. Check:"; nl;
    "- phase should be "; dq; "Available"; dq; nl; "- If "; dq; "Unavailable"; dq;
    ": credentials may be wrong, bucket may not exist, or network access may be blocked"; nl;
    "- lastValidationTime should be recent"; nl; nl; bslYaml; nl; nl; "---"; nl; nl; "## Step 3: Backups"; nl; nl;
    "Review backup status:"; nl; "- phase "; dq; "Completed"; dq; " = success"; nl; "- phase "; dq;
    "PartiallyFailed"; dq; " = some resources failed to back up (check errors/warnings)"; nl; "- phase "; dq;
    "Failed"; dq; " = backup failed entirely"; nl; "- phase "; dq; "InProgress"; dq;
    " for extended time = backup may be stuck"; nl; nl; backupYaml; nl; nl; "---"; nl; nl; "## Step 4: Restores"; nl;
    nl; "Review restore status:"; nl; "- phase "; dq; "Completed"; dq; " = success"; nl; "- phase "; dq;
    "PartiallyFailed"; dq; " = some resources failed to restore"; nl; "- phase "; dq; "Failed"; dq;
    " = restore failed entirely"; nl; "- Check that the referenced backup exists and is in "; dq; "Completed"; dq;
    " phase"; nl; nl; restoreYaml; nl; nl; "---"; nl; nl; "## Step 5: Velero Pod Health"; nl; nl;
    "Check the Velero server pod:"; nl; "- Pod should be "; dq; "Running"; dq; " with all containers ready"; nl;
    "- Check for restart counts (frequent restarts indicate crashes)"; nl;
    "- nodeAgent pods should also be running if file-system backup is configured"; nl; nl; veleroPodYaml; nl; nl;
    "---"; nl; nl; "## Step 6: Velero Pod Logs"; nl; nl; "Review logs from the Velero server for errors:"; nl;
    "- Look for "; dq; "error"; dq; " or "; dq; "level=error"; dq; " messages"; nl;
    "- Check for credential/authentication failures"; nl; "- Check for storage access issues"; nl; nl;
    veleroLogsText; nl; nl; "---"; nl; nl; "## Step 7: Events"; nl; nl; "Review events in the OADP namespace:"; nl;
    "- Warning events indicate problems"; nl; "- Look for scheduling, storage, or permission issues"; nl; nl;
    eventsYaml; nl; nl; "---"; nl; nl; "## Troubleshooting Analysis"; nl; nl; "Based on the data above, analyze:";
    nl; nl; "1. **DPA Health**: Is the DPA reconciled and healthy?"; nl;
    "2. **BSL Availability**: Is the backup storage location "; dq; "Available"; dq; "?"; nl;
    "3. **Backup/Restore Status**: Are operations completing successfully or failing?"; nl;
    "4. **Velero Pod**: Is the Velero server running without restarts?"; nl;
    "5. **Credentials**: Are cloud credentials configured correctly?"; nl;
    "6. **Events**: Are there Warning events indicating problems?"; nl; nl; "---"; nl; nl;
    "## Common Issues and Fixes"; nl; nl; "1. **BSL "; dq; "Unavailable"; dq;
    "**: Check cloud credentials secret exists and has correct keys. Verify bucket exists and is accessible."; nl;
    "2. **Backup stuck "; dq; "InProgress"; dq; "**: Check Velero pod logs for errors. The pod may need restarting.";
    nl; "3. **Backup "; dq; "PartiallyFailed"; dq;
    "**: Some resources could not be backed up. Check backup status for per-resource errors."; nl; "4. **Restore ";
    dq; "Failed"; dq; "**: The referenced backup may not exist or may not be in "; dq; "Completed"; dq;
    " phase. Check that the BSL containing the backup is available."; nl;
    "5. **DPA not reconciled**: The OADP operator may not be running. Check the operator pod in the openshift-adp namespace.";
    nl;
    "6. **NodeAgent not running**: If using file-system backups, ensure nodeAgent is enabled in the DPA configuration.";
    nl; nl; "Use the OADP tools to apply fixes (create/update DPA, check storage locations, retry backups)."; nl; nl;
    "---"; nl; nl; "## Report Findings"; nl; nl; "After completing troubleshooting and attempting fixes, report:";
    nl; "- **Status:** Healthy/Degraded/Failed"; nl; "- **Root Cause:** Description or "; dq; "None found"; dq; nl;
    "- **Action Taken:** What was done to fix the issue (or "; dq; "None"; dq; " if no fix was needed/possible)"; nl;
    "- **Result:** Whether the fix was successful or further action is needed"; nl].

Definition oadpTroubleshootHandler (args : gmap string string) : prog (result PromptCallResult) :=
  let arg k := default "" (args !! k) in
  let namespace := if arg "namespace" =?s "" then DefaultOADPNamespace else arg "namespace" in
  dpaYaml ← fetchDPAStatus namespace;
  bslYaml ← fetchBSLStatus namespace;
  pods ← fetchVeleroPods namespace;
  let '(veleroPodYaml, podNames) := pods in
  veleroLogsText ← fetchVeleroPodLogs namespace podNames;
  eventsYaml ← fetchOADPEvents namespace;
  backupYaml ← (if arg "backup" ≠?s "" then fetchBackupDetails namespace (arg "backup")
                else fetchRecentBackups namespace);
  restoreYaml ← (if arg "restore" ≠?s "" then fetchRestoreDetails namespace (arg "restore")
                 else fetchRecentRestores namespace);
  Ret (Ok (NewPromptCallResult "OADP troubleshooting guide generated"
    [mkPromptMessage "user" (mkPromptContent "text"
       (oadp_guide namespace dpaYaml bslYaml backupYaml restoreYaml veleroPodYaml veleroLogsText eventsYaml));
     mkPromptMessage "assistant" (mkPromptContent "text"
       "I'll analyze the collected OADP data to diagnose backup and restore issues systematically.")] None)).
End Guide.

(** * Specification *)

(** The calls of the guide: reads of the resources of the namespace. *)
Definition guide_call (namespace backup restore : string) {R} (c : kcall R) : Prop :=
  match c with
  | KList _ ns _ => ns = namespace
  | KGet gvr ns name _ =>
      ns = namespace /\ ((gvr = BackupGVR /\ name = backup) \/ (gvr = RestoreGVR /\ name = restore))
  | KPodLogs ns name container previous tail =>
      ns = namespace /\ HasPrefix name "node-agent" = false /\ container = "velero" /\ previous = false /\ tail = 100%Z
  | c => reads_only c
  end.

(** * Lemmas *)

Lemma lists_in_namespace gvk ns o :
  ns <> "" ->
  every (fun _ c => match c with
    | KList _ ns' _ => ns' = ns
    | KGet _ _ _ _ | KPodLogs _ _ _ _ _ => False
    | c => reads_only c
    end) (ResourcesList gvk ns o).
Proof.
  intros Hns. unfold ResourcesList, resourceFor, isNamespaced, canIUse, resourcesListAsTable.
  rewrite (bool_decide_eq_false_2 (ns = "")) by done. apply every_try; [by apply every_call; intros []|].
  intros gvr. apply every_then; [by apply every_try; [apply every_call; intros []|]|]. intros b.
  apply every_then_runs.
  - case_match; [|done]. apply every_then; [apply every_then; [by apply every_call; intros []|done]|].
    intros allowed. by rewrite andb_false_r.
  - intros tr ns' Hr. assert (ns' = ns) as ->.
    { case_match; [|by destruct Hr]. apply runs_then in Hr as (tr1 & allowed & tr2 & _ & _ & Hr).
      rewrite andb_false_r in Hr. by destruct Hr. }
    clear Hr. destruct (lo_AsTable o); (apply every_try; [|done]).
    + apply every_try; [by apply every_call; intros []|done].
    + by apply every_call.
Qed.

Lemma velero_logs_calls ns backup restore podNames :
  ns <> "" -> every (@guide_call ns backup restore) (velero_logs ns podNames).
Proof.
  intros Hns. induction podNames as [|n podNames IH]; [done|]. cbn [velero_logs].
  destruct (HasPrefix n "node-agent") eqn:Hp; [done|]. apply every_then; [|by intros; apply every_then].
  unfold PodsLog, NamespaceOrDefault. rewrite (bool_decide_eq_false_2 (ns = "")) by done. by split.
Qed.

Section Guide.
Context (MarshalYaml : yvalue -> printed) (FromUnstructured : object -> result k8s_event).
Context (ovf : spec_float -> Z) (creation_time : object -> string).

(** * Properties *)

(** The guide is always made, and making it only reads: lists in the namespace, the
    backup and the restore that are asked for, and the last hundred lines of the velero
    container of the pods that are no node agents. *)
Theorem oadp_guide_reads args :
  let namespace := if default "" (args !! "namespace") =?s "" then "openshift-adp" else default "" (args !! "namespace") in
  every (@guide_call namespace (default "" (args !! "backup")) (default "" (args !! "restore")))
    (oadpTroubleshootHandler MarshalYaml FromUnstructured ovf creation_time args) /\
  (forall tr r, runs (oadpTroubleshootHandler MarshalYaml FromUnstructured ovf creation_time args) tr r ->
    exists result, r = Ok result).
Proof.
  intros namespace. assert (namespace <> "") as Hns.
  { subst namespace. by destruct (bool_decide_reflect (default "" (args !! "namespace") = "")). }
  split.
  - unfold oadpTroubleshootHandler. fold namespace. unfold DefaultOADPNamespace. fold namespace.
    apply every_then; [by apply every_then; [by apply every_call|]|intros dpa].
    apply every_then; [by apply every_then; [apply every_call|]|intros bsl].
    apply every_then.
    { apply every_then; [by apply every_call|]. intros [items|err]; [|done].
      by apply every_then; [apply every_call|]. }
    intros [text podNames]. apply every_then.
    { destruct podNames as [|n podNames]; [done|]. by apply every_then; [apply velero_logs_calls|]. }
    intros logs. apply every_then.
    { apply every_then; [|done]. apply every_try; [|done].
      eapply every_impl; [|by apply lists_in_namespace]. intros R c Hc. by destruct c. }
    intros events. apply every_then.
    { destruct (_ ≠?s ""); (apply every_then; [apply every_call|done]); [|done]. split; [done|by left]. }
    intros backup. apply every_then; [|done].
    destruct (_ ≠?s ""); (apply every_then; [apply every_call|done]); [|done]. split; [done|by right].
  - intros tr r H. unfold oadpTroubleshootHandler in H.
    do 2 apply runs_then in H as (? & ? & ? & _ & _ & H).
    apply runs_then in H as (? & [text podNames] & ? & _ & _ & H).
    do 4 apply runs_then in H as (? & ? & ? & _ & _ & H). destruct H as [_ ->]. by eexists.
Qed.
End Guide.

(** The log lines that are shown are the lines of the log with one of the keywords, in
    whatever case, in order. *)
Theorem filterLogLines_spec logs keywords :
  Split "010" (filterLogLines logs keywords) =
  match List.filter (fun line => existsb (fun kw => Contains (ToLower line) (ToLower kw)) keywords)
          (Split "010" logs) with
  | [] => [""]
  | lines => lines
  end.
Proof.
  unfold filterLogLines. set (P := fun line => _).
  assert (Forall (no_char "010") (List.filter P (Split "010" logs))) as H.
  { apply Forall_forall. intros l Hl%list_elem_of_In%List.filter_In. destruct Hl as [Hl _].
    pose proof (Split_parts_no_char "010" logs) as Hn. rewrite Forall_forall in Hn. apply Hn.
    by apply list_elem_of_In. }
  destruct (List.filter P (Split "010" logs)) as [|l lines] eqn:E; [done|].
  by apply Split_Join.
Qed.

(** * Examples and witnesses *)

Example node_agents_left_out :
  (traced demo_cluster (velero_logs "openshift-adp" ["velero-1"; "node-agent-2"])).1 =
  [Ev (KPodLogs "openshift-adp" "velero-1" "velero" false 100) (Ok "log")].
Proof. by vm_compute. Qed.

Example ready_and_restarts :
  getPodReadyAndRestarts (fun _ => 0%Z)
    [("status", YMap [("containerStatuses", YSlice [YMap [("ready", YBool true); ("restartCount", YInt64 2)];
                                                    YString "x"; YMap [("restartCount", YInt64 3)]])])] =
  ("1/3", 5%Z).
Proof. by vm_compute. Qed.
