(* ===== verification/NetEdge.v ===== *)
(** The tools of the netedge toolset that work on the cluster (pkg/toolsets/netedge:
    router.go, endpoints.go, coredns.go, routes.go, exec_dns_in_pod.go).  The parser of IP
    addresses, the JSON and YAML codecs and the number of polls before the deadline are
    parameters.  Of the schemas the types, descriptions and properties are kept. *)
From Stdlib Require Import SpecFloat.
From S2P Require Import Prelude GoStrings Api Params Toolsets Tools Unstructured Cluster Core CoreTools KubeVirt KubeVirtDiag.

(** * Definitions *)

(** ** The tools *)

Definition get_router_config_tool : Tool :=
  mkTool "get_router_config"
    "Retrieve the current router's HAProxy configuration from the cluster. Supports filtering by section type (global/defaults/frontend/backend), substring filter on section headers, and line-count limiting via tail_lines."
    (mkToolAnnotations "Get Router Config" (Some true) (Some false) None (Some true)) []
    (Some (mkSchema "object" "" (Some [
       ("pod", mkSchema "string" "Router pod name (optional, chooses any existing if not provided)" None);
       ("tail_lines", mkSchema "integer" "Maximum number of lines to return from the end of the config output (default: 200)" None);
       ("section", mkSchema "string" "Filter to a specific HAProxy config section type" None);
       ("filter", mkSchema "string" "Substring filter applied to section headers (e.g. a route or backend name). Only sections whose header contains this string are returned." None)]))) None.

Definition get_router_info_tool : Tool :=
  mkTool "get_router_info"
    "Retrieve HAProxy runtime information from the router."
    (mkToolAnnotations "Get Router Info" (Some true) (Some false) None (Some true)) []
    (Some (mkSchema "object" "" (Some [
       ("pod", mkSchema "string" "Router pod name (optional, chooses any existing if not provided)" None)]))) None.

Definition get_router_sessions_tool : Tool :=
  mkTool "get_router_sessions"
    "Retrieve active sessions from the router. Supports limiting the number of sessions returned and filtering by substring (e.g. backend name or source IP)."
    (mkToolAnnotations "Get Router Sessions" (Some true) (Some false) None (Some true)) []
    (Some (mkSchema "object" "" (Some [
       ("pod", mkSchema "string" "Router pod name (optional, chooses any existing if not provided)" None);
       ("limit", mkSchema "integer" "Maximum number of session blocks to return (default: 50)" None);
       ("filter", mkSchema "string" "Substring filter applied to each session block. Only sessions containing this string are returned (e.g. a backend name or source IP)." None)]))) None.

Definition get_service_endpoints_tool : Tool :=
  mkTool "get_service_endpoints"
    "Return EndpointSlice objects for a Service to verify backend pod availability."
    (mkToolAnnotations "Get Service Endpoints" (Some true) (Some false) None (Some true)) []
    (Some (mkSchema "object" "" (Some [
       ("namespace", mkSchema "string" "Service namespace" None);
       ("service", mkSchema "string" "Service name" None)]))) None.

Definition get_coredns_config_tool : Tool :=
  mkTool "get_coredns_config"
    "Retrieve the current CoreDNS configuration (Corefile) from the cluster."
    (mkToolAnnotations "Get CoreDNS Config" (Some true) (Some false) None (Some true)) []
    (Some (mkSchema "object" "" None)) None.

Definition exec_dns_in_pod_tool : Tool :=
  mkTool "exec_dns_in_pod"
    "Spin up a temporary pod in the cluster to execute a DNS lookup using dig, verifying internal cluster networking and DNS path."
    (mkToolAnnotations "Exec DNS in Pod" (Some false) (Some false) (Some false) (Some true)) []
    (Some (mkSchema "object" "" (Some [
       ("namespace", mkSchema "string" "Namespace to run the ephemeral pod in." None);
       ("target_server", mkSchema "string" "DNS server IP to query (e.g. 172.30.0.10)." None);
       ("target_name", mkSchema "string" "DNS name to query (e.g. kubernetes.default.svc.cluster.local)." None);
       ("record_type", mkSchema "string" "DNS record type (A, AAAA, etc.). Defaults to A." None)]))) None.

Definition inspect_route_tool : Tool :=
  mkTool "inspect_route"
    "Inspect an OpenShift Route to view its full configuration and status."
    (mkToolAnnotations "Inspect Route" (Some true) (Some false) None (Some true)) []
    (Some (mkSchema "object" "" (Some [
       ("namespace", mkSchema "string" "Route namespace" None);
       ("route", mkSchema "string" "Route name" None)]))) None.

(** ** router.go *)

Definition ingressNamespace : string := "openshift-ingress".
Definition defaultIngressControllerName : string := "default".
Definition routerContainerName : string := "router".
Definition defaultConfigTailLines : Z := 200.
Definition defaultSessionLimit : Z := 50.
Definition podGVR : GroupVersionResource := mkGVR "" "v1" "pods".
Definition haproxySectionKeywords : list string := ["global"; "defaults"; "frontend"; "backend"; "listen"].

(** A line begins with a keyword when it is the keyword or has a blank after it. *)
Definition begins_with (kw line : string) : bool :=
  HasPrefix line kw &&
  match drop_str (slen kw) line with
  | EmptyString => true
  | String c _ => bool_decide (c = " "%char) || bool_decide (c = "009"%char)
  end.
Definition configSectionType (line : string) : string :=
  default "" (List.find (fun kw => begins_with kw line) haproxySectionKeywords).

(** A section that is asked for, by its header. *)
Definition wanted (section filter header : string) : bool :=
  ((section =?s "") || (configSectionType header =?s section)) &&
  ((filter =?s "") || Contains (ToLower header) (ToLower filter)).
Fixpoint keep_sections (section filter : string) (include : bool) (lines : list string) : list string :=
  match lines with
  | [] => []
  | line :: lines =>
      let include := if configSectionType line ≠?s "" then wanted section filter line else include in
      if include then line :: keep_sections section filter include lines
      else keep_sections section filter include lines
  end.

(** The end of a list of lines: all of them when they fit; [None] is a slice out of
    range, which panics. *)
Definition tail_of (tailLines : Z) (all : string) (lines : list string) : option (string * Z * bool) :=
  if (Z.of_nat (length lines) <=? tailLines)%Z then Some (all, Z.of_nat (length lines), false)
  else if (tailLines <? 0)%Z then None
  else
    let result := drop (length lines - Z.to_nat tailLines) lines in
    Some (Join result nl, Z.of_nat (length result), true).
(** The text, the number of all lines and of those shown, and whether some are cut. *)
Definition truncateConfigOutput (output : string) (tailLines : Z) (section filter : string) :
    option (string * Z * Z * bool) :=
  if output =?s "" then Some ("", 0%Z, 0%Z, false)
  else
    let allLines := Split "010" output in
    let shown :=
      if (section =?s "") && (filter =?s "") then tail_of tailLines output allLines
      else
        let resultLines := keep_sections section filter false allLines in
        tail_of tailLines (Join resultLines nl) resultLines in
    match shown with
    | None => None
    | Some (text, shownLines, truncated) => Some (text, Z.of_nat (length allLines), shownLines, truncated)
    end.

(** The sessions: a line with an address begins a block. *)
Fixpoint session_blocks (current : list string) (lines : list string) : list (list string) :=
  match lines with
  | [] => match current with [] => [] | _ => [current] end
  | line :: lines =>
      if HasPrefix line "0x" then
        match current with
        | [] => session_blocks [line] lines
        | _ => current :: session_blocks [line] lines
        end
      else
        match current with
        | [] => session_blocks [] lines
        | _ => session_blocks (current ++ [line]) lines
        end
  end.
Definition blockContainsSubstring (block : list string) (substr : string) : bool :=
  existsb (fun line => Contains (ToLower line) substr) block.
(** [None] is the panic on a negative limit. *)
Definition truncateSessionsOutput (output : string) (limit : Z) (filter : string) : option (string * Z * Z * bool) :=
  if output =?s "" then Some ("", 0%Z, 0%Z, false)
  else
    let blocks := session_blocks [] (Split "010" output) in
    let totalSessions := Z.of_nat (length blocks) in
    let blocks :=
      if filter ≠?s "" then List.filter (fun b => blockContainsSubstring b (ToLower filter)) blocks else blocks in
    let truncated := (limit <? Z.of_nat (length blocks))%Z in
    if truncated && (limit <? 0)%Z then None
    else
      let blocks := if truncated then take (Z.to_nat limit) blocks else blocks in
      Some (Join (concat blocks) nl, totalSessions, Z.of_nat (length blocks), truncated).

Definition getAnyRouterPod (icName : string) : prog (result string) :=
  pods ← call (KList podGVR ingressNamespace
    (mkSelectors ("ingresscontroller.operator.openshift.io/deployment-ingresscontroller=" +:+ icName)
       "status.phase=Running"));
  Ret (match pods with
       | Err err => Err (ErrNew (fmt ["failed to list router pods: "; error_string err]))
       | Ok (pod :: _) => Ok (GetName pod)
       | Ok [] => Err (ErrNew "no running router pod found")
       end).

Section Router.
Context (ovf : spec_float -> Z).

Definition invalid_parameters (err : error) : ToolCallResult :=
  NewToolCallResult "" (Some (wrapf "invalid parameters: " err)).

(** The pod that is named, or any; then the output of a command in it, under a title. *)
Definition with_router (title failure : string) (pod : string) (command : list string)
    (show : string -> string -> option ToolCallResult) : prog (option ToolCallResult) :=
  resolved ← (if pod =?s "" then getAnyRouterPod defaultIngressControllerName else Ret (Ok pod));
  match resolved with
  | Err err =>
      Ret (Some (NewToolCallResult (Join [title; "Error getting router pod: " +:+ error_string err] nl) (Some err)))
  | Ok pod =>
      out ← PodsExec ingressNamespace pod routerContainerName command;
      Ret (match out with
           | Err err =>
               Some (NewToolCallResult
                 (Join [fmt [title; " (pod: "; pod; ")"]; fmt [failure; " from pod "; quote pod; ": "; error_string err]] nl)
                 (Some err))
           | Ok (out, _) => show (fmt [title; " (pod: "; pod; ")"]) out
           end)
  end.

Definition getRouterConfig (args : arguments) : prog (option ToolCallResult) :=
  let p := WrapParams args in
  let '(pod, p) := Params_OptionalString "pod" "" p in
  let '(tailLines, p) := Params_OptionalInt64 ovf "tail_lines" defaultConfigTailLines p in
  let '(section, p) := Params_OptionalString "section" "" p in
  let '(filter, p) := Params_OptionalString "filter" "" p in
  match Params_Err p with
  | Some err => Ret (Some (invalid_parameters err))
  | None =>
      with_router "# Router configuration" "Error showing router configuration" pod
        ["cat"; "/var/lib/haproxy/conf/haproxy.config"] (fun title out =>
          match truncateConfigOutput out tailLines section filter with
          | None => None
          | Some (truncated, totalLines, shownLines, wasTruncated) =>
              Some (NewToolCallResult (Join ([title] ++
                (if wasTruncated then
                   [fmt ["**Output truncated**: showing "; itoa shownLines; " of "; itoa totalLines;
                         " total lines. Use `section`, `filter`, or increase `tail_lines` to refine."]]
                 else if (section ≠?s "") || (filter ≠?s "") then
                   [fmt ["Showing "; itoa shownLines; " lines (filtered from "; itoa totalLines; " total)."]]
                 else []) ++ ["```"; truncated; "```"]) nl) None)
          end)
  end.

Definition getRouterInfo (args : arguments) : prog (option ToolCallResult) :=
  let p := WrapParams args in
  let '(pod, p) := Params_OptionalString "pod" "" p in
  match Params_Err p with
  | Some err => Ret (Some (invalid_parameters err))
  | None =>
      with_router "# Router HAProxy info" "Error getting HAProxy info" pod
        ["sh"; "-c"; "echo 'show info' | socat stdio /var/lib/haproxy/run/haproxy.sock"]
        (fun title out => Some (NewToolCallResult (Join [title; "```"; out; "```"] nl) None))
  end.

Definition getRouterSessions (args : arguments) : prog (option ToolCallResult) :=
  let p := WrapParams args in
  let '(pod, p) := Params_OptionalString "pod" "" p in
  let '(limit, p) := Params_OptionalInt64 ovf "limit" defaultSessionLimit p in
  let '(filter, p) := Params_OptionalString "filter" "" p in
  match Params_Err p with
  | Some err => Ret (Some (invalid_parameters err))
  | None =>
      with_router "# Router active sessions" "Error getting active sessions" pod
        ["sh"; "-c"; "echo 'show sess all' | socat stdio /var/lib/haproxy/run/haproxy.sock"] (fun title out =>
          match truncateSessionsOutput out limit filter with
          | None => None
          | Some (truncated, totalSessions, shownSessions, wasTruncated) =>
              Some (NewToolCallResult (Join ([title] ++
                (if wasTruncated then
                   [fmt ["**Output truncated**: showing "; itoa shownSessions; " of "; itoa totalSessions;
                         " total sessions. Use `filter` to narrow results or increase `limit` to see more."]]
                 else if filter ≠?s "" then
                   [fmt ["Showing "; itoa shownSessions; " sessions (filtered from "; itoa totalSessions; " total)."]]
                 else []) ++ ["```"; truncated; "```"]) nl) None)
          end)
  end.
End Router.

(** ** coredns.go *)

(** [NestedStringMap] of apimachinery: a map of strings when it is found; the value and
    the path in the text of its errors are left out. *)
Fixpoint string_values (o : object) : option (list (string * string)) :=
  match o with
  | [] => Some []
  | (k, YString s) :: o => cons (k, s) <$> string_values o
  | _ => None
  end.
Definition NestedStringMap (o : object) (fields : list string) : result (option (list (string * string))) :=
  match NestedMap o fields with
  | Err err => Err err
  | Ok None => Ok None
  | Ok (Some m) =>
      match string_values m with
      | Some kvs => Ok (Some kvs)
      | None => Err (ErrNew "accessor error: contains non-string value in the map")
      end
  end.
Fixpoint assoc (k : string) (kvs : list (string * string)) : option string :=
  match kvs with [] => None | (k', v) :: kvs => if k =?s k' then Some v else assoc k kvs end.

Definition getCoreDNSConfig (args : arguments) : prog ToolCallResult :=
  cm ← call (KGet (mkGVR "" "v1" "configmaps") "openshift-dns" "dns-default" "");
  Ret (match cm with
       | Err err => failed "failed to get dns-default ConfigMap: " err
       | Ok cm =>
           match NestedStringMap cm ["data"] with
           | Err err => failed "failed to parse ConfigMap data: " err
           | Ok None => refused "ConfigMap has no data"
           | Ok (Some data) =>
               match assoc "Corefile" data with
               | None => refused "corefile not found in dns-default ConfigMap"
               | Some corefile => NewToolCallResult corefile None
               end
           end
       end).

(** ** endpoints.go *)

Section Yaml.
(** [yaml.Marshal] *)
Context (Marshal_yaml : yvalue -> result string).

(** The strings of a list, and the strings under a key of the maps of a list. *)
Definition strings_in (l : list yvalue) : list string :=
  omap (fun v => match v with YString s => Some s | _ => None end) l.
Definition maps_in (l : list yvalue) : list object := omap (fun v => match v with YMap m => Some m | _ => None end) l.
(** A slice of strings, which is nil when nothing was added to it. *)
Definition string_slice (l : list string) : yvalue := match l with [] => YNull | _ => YSlice (map YString l) end.
Definition endpoint_fields (eps : object) : list (string * yvalue) :=
  match NestedSlice eps ["endpoints"] with
  | Ok (Some endpoints) =>
      let addresses ep := match field "addresses" ep with Some (YSlice addrs) => strings_in addrs | _ => [] end in
      let nodeName ep := match field "nodeName" ep with Some (YString n) => Some n | _ => None end in
      [("Addresses", string_slice (flat_map addresses (maps_in endpoints)));
       ("NodeNames", string_slice (omap nodeName (maps_in endpoints)))]
  | _ => []
  end.
Definition slice_key_fields (eps : object) : yvalue :=
  YMap ([("Name", YString (GetName eps)); ("Namespace", YString (GetNamespace eps))] ++ endpoint_fields eps ++
        match NestedSlice eps ["ports"] with Ok (Some ports) => [("Ports", YSlice ports)] | _ => [] end).

Definition EndpointSliceGVR : GroupVersionResource := mkGVR "discovery.k8s.io" "v1" "endpointslices".
Definition endpoint_slices (namespace serviceName : string) : prog ToolCallResult :=
  list ← call (KList EndpointSliceGVR namespace (mkSelectors ("kubernetes.io/service-name=" +:+ serviceName) ""));
  Ret (match list with
       | Err err =>
           failed (fmt ["failed to list EndpointSlices for service "; namespace; "/"; serviceName; ": "]) err
       | Ok [] => refused (fmt ["no EndpointSlices found for service "; namespace; "/"; serviceName])
       | Ok items =>
           match Marshal_yaml (YMap [("KeyFields", YSlice (map slice_key_fields items));
                                     ("RawEndpointSlices", YSlice (map YMap items))]) with
           | Err err => failed "failed to marshal endpoint slices as yaml: " err
           | Ok data => NewToolCallResult data None
           end
       end).
(** Two required strings: the first that is missing is the error. *)
Definition with_two (args : arguments) (k1 k2 : string) (handler : string -> string -> prog ToolCallResult) :
    prog ToolCallResult :=
  match RequiredString args k1 with
  | Err err => Ret (NewToolCallResult "" (Some err))
  | Ok v1 =>
      match RequiredString args k2 with
      | Err err => Ret (NewToolCallResult "" (Some err))
      | Ok v2 => handler v1 v2
      end
  end.
Definition getServiceEndpoints (args : arguments) : prog ToolCallResult :=
  with_two args "namespace" "service" endpoint_slices.

(** ** routes.go *)

Definition tlsSensitiveFields : list string := ["key"; "certificate"; "caCertificate"].
(** [SetNestedField] in an existing map, under the maps of the path. *)
Fixpoint set_nested (fields : list string) (v : yvalue) (o : object) : object :=
  match fields with
  | [] => o
  | [f] => set_field f v o
  | f :: fields => match field f o with Some (YMap m) => set_field f (YMap (set_nested fields v m)) o | _ => o end
  end.
Definition redact_field (o : object) (f : string) : object :=
  match nested_string o ["spec"; "tls"; f] with
  | Ok (Some _) => set_nested ["spec"; "tls"; f] (YString "<redacted>") o
  | _ => o
  end.
Definition sanitize_route (o : object) : object := foldl redact_field o tlsSensitiveFields.

(** A field of the result, when it is found. *)
Definition found_field (name : string) (v : option yvalue) : list (string * yvalue) :=
  match v with Some v => [(name, v)] | None => [] end.
Definition route_key_fields (o : object) : yvalue :=
  let map_of fields := YMap <$> found_map o fields in
  YMap ([("Name", YString (GetName o)); ("Namespace", YString (GetNamespace o))] ++
        found_field "Host" (YString <$> found_string o ["spec"; "host"]) ++
        found_field "TLS" (map_of ["spec"; "tls"]) ++ found_field "To" (map_of ["spec"; "to"]) ++
        found_field "Port" (map_of ["spec"; "port"]) ++
        found_field "IngressStatus"
          (match NestedSlice o ["status"; "ingress"] with Ok (Some l) => Some (YSlice l) | _ => None end)).

Definition routeGVR : GroupVersionResource := mkGVR "route.openshift.io" "v1" "routes".
(** What is printed of a route. *)
Definition route_result (o : object) : yvalue :=
  let sanitizedRoute := sanitize_route o in
  YMap [("KeyFields", route_key_fields sanitizedRoute); ("RawRoute", YMap sanitizedRoute)].
Definition route_details (namespace routeName : string) : prog ToolCallResult :=
  route ← call (KGet routeGVR namespace routeName "");
  Ret (match route with
       | Err err => failed (fmt ["failed to get route "; namespace; "/"; routeName; ": "]) err
       | Ok o =>
           match Marshal_yaml (route_result o) with
           | Err err => failed "failed to marshal route as yaml: " err
           | Ok data => NewToolCallResult data None
           end
       end).
Definition inspectRoute (args : arguments) : prog ToolCallResult :=
  with_two args "namespace" "route" route_details.
End Yaml.

(** ** exec_dns_in_pod.go *)

Definition dnsProbeImage : string := "registry.redhat.io/openshift4/network-tools-rhel9".
Definition dnsProbePodPrefix : string := "mcp-dns-probe-".
Definition supportedRecordTypes : list string :=
  ["A"; "AAAA"; "ANY"; "CNAME"; "MX"; "NS"; "PTR"; "SOA"; "SRV"; "TXT"].

(** The executor of the pods: [defaultPodExecutor].  [n] ticks come before the deadline. *)
Definition CreatePod (namespace : string) (pod : probe_pod) : prog (result string) :=
  call (KProbePodCreate namespace pod).
Fixpoint WaitForPod (n : nat) (namespace name : string) : prog (result pod) :=
  match n with
  | O => Ret (Err (ErrNew (fmt ["timed out waiting for pod "; namespace; "/"; name; " to complete"])))
  | S n =>
      p ← call (KPodGet namespace name);
      match p with
      | Err err => Ret (Err (wrapf "failed to get pod status: " err))
      | Ok p =>
          if (pod_Phase p =?s PodSucceeded) || (pod_Phase p =?s PodFailed) then Ret (Ok p)
          else WaitForPod n namespace name
      end
  end.
Definition GetPodLogs (namespace name : string) : prog (result string) :=
  stream ← call (KPodLogStream namespace name "" None);
  Ret (match stream with
       | Err err => Err (wrapf "failed to get pod logs: " err)
       | Ok (Err err) => Err (wrapf "failed to read pod logs: " err)
       | Ok (Ok logs) => Ok logs
       end).
Definition DeletePod (namespace name : string) : prog (option error) := call (KPodDelete namespace name).

(** The pod of a probe. *)
Definition dns_pod (podName namespace targetServer targetName recordType : string) : probe_pod := {|
  pp_Name := podName;
  pp_Namespace := namespace;
  pp_AutomountServiceAccountToken := false;
  pp_RestartPolicy := "Never";
  pp_Container := "dns-probe";
  pp_Image := dnsProbeImage;
  pp_Command := ["/usr/bin/dig"; "@" +:+ targetServer; targetName; recordType];
  pp_RunAsNonRoot := true;
  pp_AllowPrivilegeEscalation := false;
  pp_DropCapabilities := ["ALL"];
  pp_SeccompProfile := "RuntimeDefault";
  pp_Requests := list_to_map [("cpu", "50m"); ("memory", "64Mi")];
  pp_Limits := list_to_map [("cpu", "100m"); ("memory", "128Mi")];
|}.

Section Dns.
Context (ParseIP : string -> bool) (Marshal : any_value -> option string) (ticks : nat).

Definition dns_failed (err : error) : ToolCallResult := NewToolCallResultStructured Marshal None (Some err).
Definition dns_result (podName output phase : string) : ToolCallResult :=
  NewToolCallResultStructured Marshal
    (Some (AnyOther (JObject [("pod_name", JString podName); ("output", JString output); ("phase", JString phase)]))) None.
Definition string_argument_or_empty (args : arguments) (key : string) : string :=
  match args !! key with Some (JString s) => s | _ => "" end.
(** A name that is taken for an option of dig, or for more than one argument. *)
Definition dig_option (targetName : string) : bool :=
  existsb (fun c => char_in c (" " +:+ String "009" (String "013" nl))) (String.list_ascii_of_string targetName) ||
  HasPrefix targetName "-" || HasPrefix targetName "+" || HasPrefix targetName "@".

(** The probe with the pod that was created. *)
Definition probe (namespace podName : string) : prog ToolCallResult :=
  completedPod ← WaitForPod ticks namespace podName;
  match completedPod with
  | Err err => Ret (dns_failed (wrapf "error waiting for DNS probe pod: " err))
  | Ok completedPod =>
      logs ← GetPodLogs namespace podName;
      Ret (match logs with
           | Err err => dns_result podName ("failed to retrieve pod logs: " +:+ error_string err) (pod_Phase completedPod)
           | Ok logs => dns_result podName logs (pod_Phase completedPod)
           end)
  end.

Definition execDNSInPod (args : arguments) : prog ToolCallResult :=
  let namespace := string_argument_or_empty args "namespace" in
  let targetServer := string_argument_or_empty args "target_server" in
  let targetName := string_argument_or_empty args "target_name" in
  let recordType := string_argument_or_empty args "record_type" in
  let recordType := ToUpper (if recordType =?s "" then "A" else recordType) in
  let refuse message := Ret (dns_failed (ErrNew message)) in
  if namespace =?s "" then refuse "namespace parameter is required"
  else if targetServer =?s "" then refuse "target_server parameter is required"
  else if negb (ParseIP targetServer) then refuse "target_server must be a valid IP address"
  else if targetName =?s "" then refuse "target_name parameter is required"
  else if dig_option targetName then refuse "target_name must be a DNS name, not a dig option"
  else if negb (slices_Contains supportedRecordTypes recordType) then
    refuse (fmt ["unsupported record_type: "; recordType])
  else
    suffix ← call (KRandString 6);
    createdPod ← CreatePod namespace
      (dns_pod (dnsProbePodPrefix +:+ suffix) namespace targetServer targetName recordType);
    match createdPod with
    | Err err => Ret (dns_failed (wrapf "failed to create DNS probe pod: " err))
    | Ok podName =>
        result ← probe namespace podName;
        _ ← DeletePod namespace podName;
        Ret result
    end.
End Dns.

(** * Specification *)

(** The lines of a configuration in sections: a header, and lines that are none. *)
Definition section_lines (s : string * list string) : list string := s.1 :: s.2.
Definition is_header (line : string) : Prop := configSectionType line <> "".
Definition section_ok (s : string * list string) : Prop :=
  is_header s.1 /\ Forall (fun l => ~ is_header l) s.2.
(** The lines of a session: one with an address, and lines that have none. *)
Definition session_ok (s : string * list string) : Prop :=
  HasPrefix s.1 "0x" = true /\ Forall (fun l => HasPrefix l "0x" = false) s.2.

(** The last lines of a list. *)
Definition last_lines (n : Z) (l : list string) : list string := drop (length l - Z.to_nat n) l.

(** What a probe may do after its pod was created: reads of the pod, and its deletion at
    the end. *)
Definition probe_calls (namespace podName : string) (tr : list event) : Prop :=
  exists reads answer, tr = reads ++ [Ev (KPodDelete namespace podName) answer] /\
    Forall (fun e => let 'Ev c _ := e in
      match c with
      | KPodGet ns n | KPodLogStream ns n _ _ => ns = namespace /\ n = podName
      | _ => False
      end) reads.

(** A call reads, or executes the command of a tool in a container of the routers. *)
Definition router_call (command : list string) {R} (c : kcall R) : Prop :=
  match c with
  | KPodExec ns _ ctr cmd => ns = "openshift-ingress" /\ ctr = "router" /\ cmd = command
  | c => reads_only c
  end.

(** * Lemmas *)

Lemma keep_body section filter include body :
  Forall (fun l => ~ is_header l) body ->
  forall rest, keep_sections section filter include (body ++ rest) =
    (if include then body else []) ++ keep_sections section filter include rest.
Proof.
  intros H rest. induction H as [|l body Hl _ IH]; [by destruct include|]. cbn [app keep_sections].
  unfold is_header in Hl. rewrite bool_decide_eq_true_2 by (destruct (decide (configSectionType l = "")); tauto).
  cbn [negb]. rewrite IH. by destruct include.
Qed.

Lemma keep_spec section filter secs :
  Forall section_ok secs ->
  forall include, keep_sections section filter include (flat_map section_lines secs) =
    flat_map section_lines (List.filter (fun s => wanted section filter s.1) secs).
Proof.
  induction 1 as [|[h body] secs [Hh Hb] _ IH]; intros include; [done|].
  cbn [flat_map section_lines fst snd app keep_sections List.filter].
  rewrite (bool_decide_eq_false_2 (configSectionType h = "")) by done. cbn [negb].
  rewrite keep_body by done. destruct (wanted section filter h); rewrite IH; done.
Qed.

Lemma blocks_body current body :
  current <> [] -> Forall (fun l => HasPrefix l "0x" = false) body ->
  forall rest, session_blocks current (body ++ rest) = session_blocks (current ++ body) rest.
Proof.
  intros Hc H rest. revert current Hc. induction H as [|l body Hl _ IH]; intros current Hc; [by rewrite app_nil_r|].
  cbn [app session_blocks]. rewrite Hl. destruct current as [|c current]; [done|].
  rewrite IH by done. by rewrite <- app_assoc.
Qed.

Lemma blocks_spec secs :
  Forall session_ok secs ->
  forall current, current <> [] ->
    session_blocks current (flat_map section_lines secs) = current :: map section_lines secs.
Proof.
  induction 1 as [|[h body] secs [Hh Hb] _ IH]; intros current Hc; [by destruct current|].
  cbn [flat_map section_lines fst snd app session_blocks map]. cbn [fst] in Hh. rewrite Hh.
  destruct current as [|c current]; [done|]. rewrite blocks_body by done. by rewrite IH.
Qed.

Lemma tail_of_spec n all lines :
  all = Join lines nl -> (0 <= n)%Z ->
  tail_of n all lines = Some (Join (last_lines n lines) nl, Z.min n (Z.of_nat (length lines)),
                             bool_decide (n < Z.of_nat (length lines))%Z).
Proof.
  intros -> Hn. unfold tail_of, last_lines. destruct (Z.leb_spec (Z.of_nat (length lines)) n).
  - rewrite bool_decide_eq_false_2 by lia. rewrite Z.min_r by lia.
    replace (length lines - Z.to_nat n) with 0 by lia. done.
  - rewrite (proj2 (Z.ltb_ge n 0)) by lia. rewrite bool_decide_eq_true_2 by lia. rewrite length_drop.
    do 4 f_equal. lia.
Qed.

Lemma WaitForPod_reads n namespace name tr r :
  runs (WaitForPod n namespace name) tr r ->
  Forall (fun e => let 'Ev c _ := e in
    match c with KPodGet ns m | KPodLogStream ns m _ _ => ns = namespace /\ m = name | _ => False end) tr.
Proof.
  revert tr. induction n as [|n IH]; intros tr; cbn [WaitForPod]; [by intros [-> _]|].
  intros (tr1 & p & tr2 & -> & ->%runs_call & H)%runs_then. constructor; [done|].
  destruct p as [p|err]; [|by destruct H as [-> _]]. case_match; [by destruct H as [-> _]|]. by apply IH.
Qed.

(** Replacing a sensitive field changes that field only. *)
Lemma redact_field_cases o f :
  redact_field o f = o /\ (forall s, nested_string o ["spec"; "tls"; f] <> Ok (Some s)) \/
  exists spec tls, field "spec" o = Some (YMap spec) /\ field "tls" spec = Some (YMap tls) /\
    redact_field o f =
      set_field "spec" (YMap (set_field "tls" (YMap (set_field f (YString "<redacted>") tls)) spec)) o.
Proof.
  unfold redact_field, nested_string. cbn [nested set_nested].
  destruct (field "spec" o) as [[]|] eqn:Hs; try (by left).
  destruct (field "tls" kvs) as [[]|] eqn:Ht; try (by left).
  destruct (field f kvs0) as [[]|] eqn:Hf; try (by left). right. by exists kvs, kvs0.
Qed.
Lemma redact_field_same o f s : nested_string (redact_field o f) ["spec"; "tls"; f] = Ok (Some s) -> s = "<redacted>".
Proof.
  destruct (redact_field_cases o f) as [[-> H]|(spec & tls & Hs & Ht & ->)]; [by intros ?%H|].
  unfold nested_string. cbn [nested]. rewrite !field_set_eq. by intros [= <-].
Qed.
Lemma redact_field_other o f g :
  f <> g -> nested_string (redact_field o f) ["spec"; "tls"; g] = nested_string o ["spec"; "tls"; g].
Proof.
  intros Hne. destruct (redact_field_cases o f) as [[-> _]|(spec & tls & Hs & Ht & ->)]; [done|].
  unfold nested_string. cbn [nested]. rewrite !field_set_eq, Hs, Ht, field_set_ne by done. done.
Qed.
Lemma redact_field_top o f k : k <> "spec" -> field k (redact_field o f) = field k o.
Proof.
  intros Hne. destruct (redact_field_cases o f) as [[-> _]|(spec & tls & _ & _ & ->)]; [done|].
  by apply field_set_ne.
Qed.

(** * Properties *)

(** The filter of a configuration keeps whole sections: of a file that begins with lines
    of no section, exactly the sections whose header is wanted, in order. *)
Theorem keep_sections_spec section filter before secs :
  Forall (fun l => ~ is_header l) before -> Forall section_ok secs ->
  keep_sections section filter false (before ++ flat_map section_lines secs) =
  flat_map section_lines (List.filter (fun s => wanted section filter s.1) secs).
Proof. intros Hb Hs. rewrite keep_body by done. by apply keep_spec. Qed.

(** The configuration that is shown is the end of what is wanted, as long as asked for;
    but a negative number of lines, of an output that is not empty, ends in a panic. *)
Theorem truncateConfigOutput_spec output tailLines section filter :
  output <> "" ->
  let lines := Split "010" output in
  let kept := if (section =?s "") && (filter =?s "") then lines else keep_sections section filter false lines in
  truncateConfigOutput output tailLines section filter =
  if (tailLines <? 0)%Z then None
  else Some (Join (last_lines tailLines kept) nl, Z.of_nat (length lines),
             Z.min tailLines (Z.of_nat (length kept)), bool_decide (tailLines < Z.of_nat (length kept))%Z).
Proof.
  intros Hne lines kept. unfold truncateConfigOutput. rewrite bool_decide_eq_false_2 by done. fold lines.
  assert (Join lines nl = output) as Hj by apply Join_Split.
  destruct (Z.ltb_spec tailLines 0) as [Hn|Hn].
  - assert (forall all l, tail_of tailLines all l = None) as Ht.
    { intros all l. unfold tail_of. rewrite (proj2 (Z.leb_gt _ _)) by lia. by rewrite (proj2 (Z.ltb_lt _ _)). }
    rewrite !Ht. by destruct ((section =?s "") && (filter =?s "")).
  - subst kept. destruct ((section =?s "") && (filter =?s "")).
    + by rewrite (tail_of_spec _ output lines).
    + by rewrite tail_of_spec.
Qed.


(** What is printed of a route has none of the sensitive strings of its TLS settings,
    and everything of the route outside its specification. *)
Theorem sanitize_route_redacts o f :
  f ∈ tlsSensitiveFields ->
  (forall s, nested_string (sanitize_route o) ["spec"; "tls"; f] = Ok (Some s) -> s = "<redacted>") /\
  (forall k, k <> "spec" -> field k (sanitize_route o) = field k o).
Proof.
  unfold sanitize_route, tlsSensitiveFields. intros Hf. cbn [foldl].
  assert (f = "key" \/ f = "certificate" \/ f = "caCertificate") as [-> | [-> | ->]] by set_solver.
  all: split; [intros s|intros k Hk; by rewrite !redact_field_top].
  - rewrite !redact_field_other by done. apply redact_field_same.
  - rewrite redact_field_other by done. apply redact_field_same.
  - apply redact_field_same.
Qed.


(** The router tools execute their fixed commands in the container of a router in the
    namespace of the ingress, and change nothing else. *)
Lemma router_tools_execute ovf args :
  every (@router_call ["cat"; "/var/lib/haproxy/conf/haproxy.config"]) (getRouterConfig ovf args) /\
  every (@router_call ["sh"; "-c"; "echo 'show info' | socat stdio /var/lib/haproxy/run/haproxy.sock"])
    (getRouterInfo args) /\
  every (@router_call ["sh"; "-c"; "echo 'show sess all' | socat stdio /var/lib/haproxy/run/haproxy.sock"])
    (getRouterSessions ovf args).
Proof.
  assert (forall title failure pod command show,
    every (@router_call command) (with_router title failure pod command show)) as H.
  { intros. apply every_then.
    - case_match; [|done]. apply every_then; [by apply every_call; intros []|done].
    - intros [p|err]; [|done]. apply every_then; [|done].
      eapply every_impl; [|by apply every_PodsExec]. intros R c Hc. destruct c; try done.
      destruct Hc as (Hns & _ & -> & ->). split; [by apply Hns|done]. }
  unfold getRouterConfig, getRouterInfo, getRouterSessions.
  split_and!; repeat (case_match; try done); apply H.
Qed.

(** * Examples and witnesses *)

(** An HAProxy configuration of two sections. *)
Definition demo_config : list (string * list string) :=
  [("global", ["  maxconn 20000"]); ("backend be_http:shop:web", ["  server web 10.0.0.1:8080"])].

Lemma keep_sections_spec_witness :
  keep_sections "backend" "shop" false (["# generated"] ++ flat_map section_lines demo_config) =
  ["backend be_http:shop:web"; "  server web 10.0.0.1:8080"].
Proof.
  rewrite (keep_sections_spec "backend" "shop" ["# generated"] demo_config).
  - by vm_compute.
  - constructor; [|done]. unfold is_header. vm_compute. tauto.
  - repeat constructor; unfold is_header; vm_compute; intuition discriminate.
Defined.

Lemma truncateConfigOutput_spec_witness :
  truncateConfigOutput ("a" +:+ nl +:+ "b" +:+ nl +:+ "c") 2 "" "" = Some ("b" +:+ nl +:+ "c", 3%Z, 2%Z, true) /\
  truncateConfigOutput ("a" +:+ nl +:+ "b") (-1) "" "" = None.
Proof.
  split; rewrite truncateConfigOutput_spec; by vm_compute.
Defined.


(** The key of a route is hidden, but not in the annotation that kubectl makes of what
    it last applied. *)
Definition demo_route : object :=
  [("metadata", YMap [("name", YString "web");
      ("annotations", YMap [("kubectl.kubernetes.io/last-applied-configuration",
         YString "{spec: {tls: {key: SECRET}}}")])]);
   ("spec", YMap [("tls", YMap [("key", YString "SECRET")])])].
Example last_applied_key_shown :
  nested_string (sanitize_route demo_route) ["spec"; "tls"; "key"] = Ok (Some "<redacted>") /\
  nested_string (sanitize_route demo_route)
    ["metadata"; "annotations"; "kubectl.kubernetes.io/last-applied-configuration"] =
  Ok (Some "{spec: {tls: {key: SECRET}}}").
Proof. by vm_compute. Qed.

Lemma sanitize_route_redacts_witness :
  "key" ∈ tlsSensitiveFields /\ field "metadata" (sanitize_route demo_route) = field "metadata" demo_route.
Proof.
  assert ("key" ∈ tlsSensitiveFields) as H by (unfold tlsSensitiveFields; set_solver).
  split; [exact H|]. by apply (sanitize_route_redacts demo_route "key" H).
Defined.

