(* ===== verification/Prometheus.v ===== *)
(** pkg/prometheus (client.go, options.go): the client for the Prometheus API, with its
    options as functions on it.  The pools of certificates, the file system, the HTTP
    transport and the codecs of URLs and JSON are parameters; the log lines are left
    out. *)
From S2P Require Import Prelude GoStrings Api.

(** * Definitions *)

Definition DefaultTimeout : Z := (30 * 10 ^ 9)%Z.
Definition MaxResponseSize : Z := (10 * 1024 * 1024)%Z.
Definition VersionTLS12 : Z := 771.

(** The parts of a [rest.Config] that are read. *)
Record rest_config := mkRestConfig {
  rc_BearerToken : string;
  rc_BearerTokenFile : string;
  rc_CAData : string;
  rc_CAFile : string;
  rc_Insecure : bool;
}.

Section Client.
(** Pools of certificates: [SystemCertPool], [NewCertPool] and [AppendCertsFromPEM],
    which gives nothing when no certificate could be parsed; [os.ReadFile]. *)
Context {Pool : Type} (SystemCertPool : option Pool) (NewCertPool : Pool).
Context (AppendCertsFromPEM : Pool -> string -> option Pool) (ReadFile : string -> result string).

Record tls_config := mkTlsConfig {
  tls_MinVersion : Z;
  tls_RootCAs : option Pool;
  tls_InsecureSkipVerify : bool;
}.
Record Client := mkClient {
  cl_baseURL : string;
  cl_bearerToken : string;
  cl_tlsConfig : tls_config;
  cl_timeout : Z;
}.
Definition ClientOption : Type := Client -> Client.

Definition newDefaultTLSConfig : tls_config := mkTlsConfig VersionTLS12 None false.
Definition NewClient (baseURL : string) (opts : list ClientOption) : Client :=
  foldl (fun c opt => opt c) (mkClient baseURL "" newDefaultTLSConfig DefaultTimeout) opts.

Definition set_token (token : string) (c : Client) : Client :=
  mkClient (cl_baseURL c) token (cl_tlsConfig c) (cl_timeout c).
Definition set_tls (t : tls_config) (c : Client) : Client :=
  mkClient (cl_baseURL c) (cl_bearerToken c) t (cl_timeout c).
Definition set_RootCAs (p : Pool) (c : Client) : Client :=
  set_tls (mkTlsConfig (tls_MinVersion (cl_tlsConfig c)) (Some p) (tls_InsecureSkipVerify (cl_tlsConfig c))) c.
Definition set_insecure (insecure : bool) (c : Client) : Client :=
  set_tls (mkTlsConfig (tls_MinVersion (cl_tlsConfig c)) (tls_RootCAs (cl_tlsConfig c)) insecure) c.

Definition WithBearerToken (token : string) : ClientOption := set_token (TrimSpace token).
Definition WithBearerTokenFromRESTConfig (config : option rest_config) : ClientOption := fun c =>
  match config with
  | None => c
  | Some config =>
      if rc_BearerToken config ≠?s "" then set_token (rc_BearerToken config) c
      else if rc_BearerTokenFile config ≠?s "" then
        match ReadFile (rc_BearerTokenFile config) with
        | Err _ => c
        | Ok token => set_token (TrimSpace token) c
        end
      else c
  end.

(** The pool of the system, or an empty one, with the certificates of a text. *)
Definition with_pem (pem : string) : option Pool := AppendCertsFromPEM (default NewCertPool SystemCertPool) pem.
(** The pool with the authorities of the cluster. *)
Definition cluster_pool (config : rest_config) : option Pool :=
  let from_file :=
    if rc_CAFile config ≠?s "" then
      match ReadFile (rc_CAFile config) with Err _ => None | Ok caPEM => with_pem caPEM end
    else None in
  if rc_CAData config ≠?s "" then
    match with_pem (rc_CAData config) with Some p => Some p | None => from_file end
  else from_file.
Definition WithTLSFromRESTConfig (config : option rest_config) : ClientOption := fun c =>
  match config with
  | None => c
  | Some config =>
      match cluster_pool config with
      | Some p => set_RootCAs p c
      | None =>
          match SystemCertPool with
          | Some systemPool => set_RootCAs systemPool c
          | None => set_insecure true c
          end
      end
  end.
Definition WithCustomCA (caFile : string) : ClientOption := fun c =>
  let caFile := TrimSpace caFile in
  if caFile =?s "" then c
  else
    match ReadFile caFile with
    | Err _ => c
    | Ok caPEM => match with_pem caPEM with Some p => set_RootCAs p c | None => c end
    end.
Definition WithInsecure (insecure : bool) : ClientOption := set_insecure insecure.
Definition WithTimeout (timeout : Z) : ClientOption := fun c =>
  mkClient (cl_baseURL c) (cl_bearerToken c) (cl_tlsConfig c) timeout.

(** ** Requests *)

(** A GET request with its authorization. *)
Record request := mkRequest { rq_URL : string; rq_Authorization : option string }.
(** The transport of a request, under the TLS settings and the timeout: the status with
    the body, which may fail to be read. *)
Context (Encode : list (string * string) -> string) (NewRequest : string -> result unit).
Context (Do : tls_config -> Z -> request -> result (Z * result string)).

Definition truncateString (s : string) (maxLen : nat) : string :=
  if Nat.leb (slen s) maxLen then s else take_str maxLen s +:+ "...".

Definition client_request (c : Client) (endpoint : string) (params : list (string * string)) : request :=
  mkRequest
    (cl_baseURL c +:+ endpoint +:+ (match params with [] => "" | _ => "?" +:+ Encode params end))
    (if cl_bearerToken c ≠?s "" then Some ("Bearer " +:+ cl_bearerToken c) else None).
Definition executeRequest (c : Client) (endpoint : string) (params : list (string * string)) : result string :=
  let req := client_request c endpoint params in
  match NewRequest (rq_URL req) with
  | Err err => Err (wrapf "failed to create request: " err)
  | Ok _ =>
      match Do (cl_tlsConfig c) (cl_timeout c) req with
      | Err err => Err (wrapf "request failed: " err)
      | Ok (_, Err err) => Err (wrapf "failed to read response: " err)
      | Ok (status, Ok stream) =>
          let body := take_str (Z.to_nat (MaxResponseSize + 1)) stream in
          if (MaxResponseSize <? Z.of_nat (slen body))%Z then
            Err (ErrNew (fmt ["response size exceeds maximum of "; itoa MaxResponseSize; " bytes"]))
          else if negb (status =? 200)%Z then
            Err (ErrNew (fmt ["HTTP "; itoa status; ": "; truncateString body 200]))
          else Ok body
      end
  end.

(** The queries; [Unmarshal] gives the part of the response that is used. *)
Context {Q : Type} (Unmarshal : string -> result Q).
Definition parsed (what : string) (r : result string) : result Q :=
  match r with
  | Err err => Err err
  | Ok body => match Unmarshal body with Err err => Err (wrapf what err) | Ok q => Ok q end
  end.
Definition Query (c : Client) (query timeStr : string) : result Q :=
  parsed "failed to parse query response: "
    (executeRequest c "/api/v1/query" ([("query", query)] ++ if timeStr ≠?s "" then [("time", timeStr)] else [])).
Definition QueryRange (c : Client) (query start end_ step : string) : result Q :=
  parsed "failed to parse query_range response: "
    (executeRequest c "/api/v1/query_range" [("query", query); ("start", start); ("end", end_); ("step", step)]).
Definition QueryRaw (c : Client) (endpoint : string) (params : list (string * string)) : result string :=
  executeRequest c endpoint params.
End Client.
Arguments tls_config : clear implicits.
Arguments Client : clear implicits.

Section Client.
Context {Pool : Type} (SystemCertPool : option Pool) (NewCertPool : Pool).
Context (AppendCertsFromPEM : Pool -> string -> option Pool) (ReadFile : string -> result string).
Context (Encode : list (string * string) -> string) (NewRequest : string -> result unit).
Context (Do : tls_config Pool -> Z -> request -> result (Z * result string)).

(** * Properties *)

(** A request succeeds exactly when the server answers it with 200 and a body that is
    read and no longer than 10 MiB; its result is then this body.  It is made once, to
    the URL of the client, with its TLS settings, timeout and token. *)
Theorem executeRequest_Ok c endpoint params body :
  executeRequest Encode NewRequest Do c endpoint params = Ok body <->
  is_ok (NewRequest (rq_URL (client_request Encode c endpoint params))) = true /\
  Do (cl_tlsConfig c) (cl_timeout c) (client_request Encode c endpoint params) = Ok (200%Z, Ok body) /\
  (Z.of_nat (slen body) <= 10485760)%Z.
Proof.
  unfold executeRequest. set (req := client_request Encode c endpoint params).
  assert (forall s, (Z.of_nat (slen (take_str (Z.to_nat (MaxResponseSize + 1)) s)) <= MaxResponseSize)%Z <->
    (Z.of_nat (slen s) <= MaxResponseSize)%Z) as Hlen.
  { intros s. rewrite slen_take_str. assert (0 <= MaxResponseSize)%Z by (unfold MaxResponseSize; lia). lia. }
  assert (forall s, (Z.of_nat (slen s) <= MaxResponseSize)%Z -> take_str (Z.to_nat (MaxResponseSize + 1)) s = s) as Hall.
  { intros s Hs. apply take_str_all. assert (0 <= MaxResponseSize)%Z by (unfold MaxResponseSize; lia). lia. }
  change 10485760%Z with MaxResponseSize in *. cbv zeta.
  destruct (NewRequest (rq_URL req)) as [u|err]; [|split; [done|by intros []]].
  destruct (Do (cl_tlsConfig c) (cl_timeout c) req) as [[status [stream|err]]|err].
  - pose proof (Hlen stream) as Hl.
    destruct (Z.ltb_spec MaxResponseSize (Z.of_nat (slen (take_str (Z.to_nat (MaxResponseSize + 1)) stream)))) as [Ht|Ht].
    + split; [done|]. intros (_ & [= _ <-] & Hs). exfalso. apply Hl in Hs. clear -Ht Hs. lia.
    + rewrite Hall by (by apply Hl). destruct (Z.eqb_spec status 200) as [->|Hs]; cbn [negb].
      * split; [intros [= <-]; split_and!; [done..|by apply Hl]|by intros (_ & [= <-] & _)].
      * split; [done|]. intros (_ & [= ? _] & _). done.
  - split; [done|]. by intros (_ & ? & _).
  - split; [done|]. by intros (_ & ? & _).
Qed.

(** No option lowers the least version of TLS. *)
Theorem options_keep_TLS12 baseURL opts :
  Forall (fun opt =>
    (exists t, opt = WithBearerToken t) \/ (exists c, opt = WithBearerTokenFromRESTConfig ReadFile c) \/
    (exists c, opt = WithTLSFromRESTConfig SystemCertPool NewCertPool AppendCertsFromPEM ReadFile c) \/
    (exists f, opt = WithCustomCA SystemCertPool NewCertPool AppendCertsFromPEM ReadFile f) \/
    (exists b, opt = WithInsecure b) \/ (exists t, opt = WithTimeout t)) opts ->
  tls_MinVersion (cl_tlsConfig (NewClient baseURL opts)) = VersionTLS12.
Proof.
  intros H. unfold NewClient.
  assert (forall c : Client Pool, tls_MinVersion (cl_tlsConfig c) = VersionTLS12 ->
    tls_MinVersion (cl_tlsConfig (foldl (fun c opt => opt c) c opts)) = VersionTLS12) as Hf.
  { induction H as [|opt opts Ho _ IH]; intros c Hc; [done|]. cbn [foldl]. apply IH.
    destruct Ho as [[? ->]|[[cfg ->]|[[cfg ->]|[[? ->]|[[? ->]|[? ->]]]]]];
      unfold WithBearerTokenFromRESTConfig, WithTLSFromRESTConfig, WithCustomCA; cbn; repeat case_match; done. }
  by apply Hf.
Qed.
End Client.

(** * Witnesses *)

Lemma options_keep_TLS12_witness :
  tls_MinVersion (cl_tlsConfig (NewClient (Pool := unit) "https://thanos" [WithInsecure true; WithTimeout 5])) =
  VersionTLS12.
Proof.
  apply (options_keep_TLS12 (Pool := unit) None tt (fun _ _ => None) (fun _ => Err (ErrNew "no file"))).
  apply Forall_cons_2; [|apply Forall_cons_2; [|done]].
  - do 4 right. left. by exists true.
  - do 5 right. by exists 5%Z.
Defined.
