(* ===== verification/NetEdgeProbes.v ===== *)
(** The tools of the netedge toolset that probe from the server (pkg/toolsets/netedge:
    probe_dns_local.go, probe_http.go), its queries of Prometheus (query_prometheus.go)
    and its list of tools (toolset.go).  The DNS and HTTP libraries, the codecs and the
    order in which concurrent queries end are parameters. *)
From Stdlib Require Import SpecFloat.
From S2P Require Import Prelude GoStrings Api Params Toolsets Tools Unstructured Cluster Core CoreTools KubeVirt KubeVirtDiag NetEdge Prometheus.

(** * Definitions *)

Definition ToolsetName : string := "netedge".
Definition ToolsetDescription : string := "NetEdge troubleshooting tools for OpenShift".

(** ** The tools *)

Definition query_prometheus_tool : Tool :=
  mkTool (fmt [ToolsetName; "_query_prometheus"])
    "Executes specialized diagnostic queries for specific NetEdge components (ingress, dns)."
    (mkToolAnnotations "NetEdge Diagnostics" (Some true) (Some false) (Some true) (Some true)) []
    (Some (mkSchema "object" "" (Some [
       ("diagnostic_target", mkSchema "string" "Run specialized diagnostics for a specific component." None)]))) None.

Definition probe_dns_local_tool : Tool :=
  mkTool "probe_dns_local"
    "Run a DNS query using local libraries on the MCP server host to verify connectivity and resolution."
    (mkToolAnnotations "Probe DNS (Local)" (Some true) (Some false) None (Some true)) []
    (Some (mkSchema "object" "" (Some [
       ("server", mkSchema "string" "DNS server IP (e.g. 8.8.8.8, 10.0.0.10)" None);
       ("name", mkSchema "string" "FQDN to query" None);
       ("type", mkSchema "string" "Record type (A, AAAA, CNAME, TXT, SRV, etc.). Defaults to A." None)]))) None.

Definition probe_http_tool : Tool :=
  mkTool "probe_http"
    "Send an HTTP(S) request from the MCP server host to verify reachability and inspect the response status code and headers."
    (mkToolAnnotations "Probe HTTP" (Some true) (Some false) None (Some true)) []
    (Some (mkSchema "object" "" (Some [
       ("url", mkSchema "string" "The URL to probe (e.g. https://example.com/path)." None);
       ("method", mkSchema "string" "HTTP method to use. Defaults to GET." None);
       ("timeout_seconds", mkSchema "integer" "Request timeout in seconds. Defaults to 5." None)]))) None.

(** ** probe_dns_local.go *)

(** The reply of a DNS server: its answers as text, its code and the time it took. *)
Record dns_reply := mkDnsReply { dr_Answers : list string; dr_Rcode : Z; dr_Milliseconds : Z }.

Section Dns.
(** The library for DNS: [Fqdn], the splitting and joining of a host and a port, the
    names of the types and codes, and the exchange of a recursive question for a name
    and a type with a server. *)
Context (Fqdn : string -> string) (SplitHostPort : string -> result (string * string)).
Context (JoinHostPort : string -> string -> string).
Context (StringToType : string -> option Z) (RcodeToString : Z -> string).
Context (Exchange : string -> Z -> string -> result dns_reply).
Context (Marshal : any_value -> option string).

Definition probe_failed (err : error) : ToolCallResult := NewToolCallResultStructured Marshal None (Some err).
(** The server with the port 53, unless it has one. *)
Definition server_address (serverParam : string) : result string :=
  match SplitHostPort serverParam with
  | Ok _ => Ok serverParam
  | Err err =>
      let appended := JoinHostPort serverParam "53" in
      match SplitHostPort appended with
      | Ok _ => Ok appended
      | Err _ => Err (wrapf "invalid server address format: " err)
      end
  end.
Definition dns_result (r : dns_reply) : ToolCallResult :=
  NewToolCallResultStructured Marshal (Some (AnyOther (JObject
    [("answers", JArray (map (fun a => JString (ReplaceAll a (String "009" "") " ")) (dr_Answers r)));
     ("rcode", JString (RcodeToString (dr_Rcode r))); ("latency_ms", JInt64 (dr_Milliseconds r))]))) None.
Definition probeDNSLocal (args : arguments) : ToolCallResult :=
  let serverParam := string_argument_or_empty args "server" in
  let nameParam := string_argument_or_empty args "name" in
  let typeParam := string_argument_or_empty args "type" in
  let typeParam := if typeParam =?s "" then "A" else typeParam in
  if serverParam =?s "" then probe_failed (ErrNew "server parameter is required")
  else if nameParam =?s "" then probe_failed (ErrNew "name parameter is required")
  else
    match server_address serverParam with
    | Err err => probe_failed err
    | Ok server =>
        match StringToType (ToUpper typeParam) with
        | None => probe_failed (ErrNew (fmt ["invalid or unsupported DNS record type: "; typeParam]))
        | Some recordType =>
            match Exchange (Fqdn nameParam) recordType server with
            | Err err => probe_failed (wrapf "DNS query failed: " err)
            | Ok resp => dns_result resp
            end
        end
    end.
End Dns.

(** ** probe_http.go *)

Section Http.
(** [http.NewRequestWithContext], and sending a request of a method to a URL with a
    timeout: the status, the headers and the time it took. *)
Context (ovf : spec_float -> Z) (NewRequest : string -> string -> result unit).
Context (Send : string -> string -> Z -> result (Z * list (string * list string) * Z)).
Context (Marshal : any_value -> option string).

(** The timeout, in nanoseconds with the wrap of 64 bits. *)
Definition probe_timeout (args : arguments) : Z :=
  let timeoutSeconds :=
    match args !! "timeout_seconds" with
    | Some (JFloat64 ts) => if SFltb (S754_zero false) ts then f64_to_int64 ovf ts else 5%Z
    | _ => 5%Z
    end in
  wrap64 (timeoutSeconds * 10 ^ 9).
Definition probeHTTP (args : arguments) : ToolCallResult :=
  let urlParam := string_argument_or_empty args "url" in
  let methodParam := string_argument_or_empty args "method" in
  let methodParam := ToUpper (if methodParam =?s "" then "GET" else methodParam) in
  let probe_failed err := NewToolCallResultStructured Marshal None (Some err) in
  if urlParam =?s "" then probe_failed (ErrNew "url parameter is required")
  else
    match NewRequest methodParam urlParam with
    | Err err => probe_failed (wrapf "failed to create HTTP request: " err)
    | Ok _ =>
        match Send methodParam urlParam (probe_timeout args) with
        | Err err => probe_failed (wrapf "HTTP request failed: " err)
        | Ok (status, headers, latency) =>
            NewToolCallResultStructured Marshal (Some (AnyOther (JObject
              [("status_code", JInt status);
               ("headers", JObject (map (fun h => (h.1, JArray (map JString h.2))) headers));
               ("latency_ms", JInt64 latency)]))) None
        end
    end.
End Http.

(** ** query_prometheus.go *)

Definition defaultMonitoringNamespace : string := "openshift-monitoring".
Definition thanosQuerierRoute : string := "thanos-querier".

(** The queries for a target, by name. *)
Definition diagnostic_queries (target : string) : option (list (string * string)) :=
  if target =?s "ingress" then
    Some [("ingress_error_rate",
           fmt ["sum(rate(haproxy_server_http_responses_total{code!~"; dq; "2.."; dq; "}[5m]))"]);
          ("ingress_active_conns", "sum(haproxy_backend_connections_active_total)");
          ("ingress_reloads_last_day", "changes(haproxy_server_start_time_seconds[1d])");
          ("ingress_top_error_routes",
           fmt ["topk(5, sum by (route) (rate(haproxy_server_http_responses_total{code!~"; dq; "2.."; dq; "}[5m])))"])]
  else if target =?s "dns" then
    Some [("dns_request_rate", "sum(rate(coredns_dns_request_count_total[5m]))");
          ("dns_nxdomain_rate",
           fmt ["sum(rate(coredns_dns_request_count_total{rcode="; dq; "NXDOMAIN"; dq; "}[5m]))"]);
          ("dns_servfail_rate",
           fmt ["sum(rate(coredns_dns_request_count_total{rcode="; dq; "SERVFAIL"; dq; "}[5m]))"]);
          ("dns_panic_recovery", "sum(rate(coredns_panic_count_total[5m]))");
          ("dns_error_breakdown",
           fmt ["sum by (rcode) (rate(coredns_dns_request_count_total{rcode!="; dq; "NOERROR"; dq; "}[5m]))"]);
          ("dns_rewrite_count", "sum(rate(coredns_plugin_rewrite_request_count_total[5m]))")]
  else if target =?s "operators" then
    Some [("active_alerts",
           fmt ["ALERTS{alertstate="; dq; "firing"; dq; ", namespace=~"; dq;
                "openshift-ingress-operator|openshift-dns"; dq; "}"]);
          ("operator_up", fmt ["up{job=~"; dq; "cluster-ingress-operator|dns-operator"; dq; "}"])]
  else None.

Record DiagnosticResult := mkDiagnosticResult {
  dg_Name : string;
  dg_Query : string;
  dg_Result : jvalue;
  dg_Error : string;
  dg_Timestamp : Z;
}.

Definition getRouteURL (routeName namespace : string) : prog (result string) :=
  route ← call (KGet routeGVR namespace routeName "");
  Ret (match route with
       | Err err => Err (wrapf (fmt ["failed to get route "; namespace; "/"; routeName; ": "]) err)
       | Ok route =>
           match nested_string route ["spec"; "host"] with
           | Err err => Err (wrapf "failed to read route host: " err)
           | Ok host =>
               if default "" host =?s "" then
                 Err (ErrNew (fmt ["route "; namespace; "/"; routeName; " has no host configured"]))
               else Ok ("https://" +:+ default "" host)
           end
       end).

Section Query.
Context {Pool : Type} (SystemCertPool : option Pool) (NewCertPool : Pool).
Context (AppendCertsFromPEM : Pool -> string -> option Pool) (ReadFile : string -> result string).
Context (Encode : list (string * string) -> string) (NewRequest : string -> result unit).
Context (Do : tls_config Pool -> Z -> request -> result (Z * result string)).
(** [Data.Result] of a response, the time of a query, and the results as text. *)
Context (Unmarshal : string -> result jvalue) (query_time : string -> Z).
Context (MarshalIndent : list DiagnosticResult -> result string).
(** The order in which the queries, each in its own goroutine, end. *)
Context (completion : list (string * string) -> list (string * string)).

Definition prometheus_client (config : rest_config) (baseURL : string) : Client Pool :=
  NewClient baseURL
    ([WithBearerTokenFromRESTConfig ReadFile (Some config);
      WithTLSFromRESTConfig SystemCertPool NewCertPool AppendCertsFromPEM ReadFile (Some config)] ++
     if rc_Insecure config then [WithInsecure true] else []).

Definition diagnose (client : Client Pool) (q : string * string) : DiagnosticResult :=
  match Query Encode NewRequest Do Unmarshal client q.2 "" with
  | Err err => mkDiagnosticResult q.1 q.2 JNull (error_string err) (query_time q.1)
  | Ok data => mkDiagnosticResult q.1 q.2 data "" (query_time q.1)
  end.

Definition handleDiagnosticTarget (config : rest_config) (target : string) : prog ToolCallResult :=
  match diagnostic_queries target with
  | None => Ret (refused (fmt ["unknown diagnostic target: "; target]))
  | Some queries =>
      baseURL ← getRouteURL thanosQuerierRoute defaultMonitoringNamespace;
      Ret (match baseURL with
           | Err err => refused ("failed to get Thanos Querier route: " +:+ error_string err)
           | Ok baseURL =>
               match MarshalIndent (map (diagnose (prometheus_client config baseURL)) (completion queries)) with
               | Err err => refused ("failed to marshal diagnostic results: " +:+ error_string err)
               | Ok jsonResult => NewToolCallResult jsonResult None
               end
           end)
  end.
Definition queryPrometheusHandler (config : rest_config) (args : arguments) : prog ToolCallResult :=
  let diagnosticTarget := string_argument_or_empty args "diagnostic_target" in
  if diagnosticTarget =?s "" then Ret (refused "diagnostic_target is required")
  else handleDiagnosticTarget config diagnosticTarget.

(** ** toolset.go *)

Context (Marshal_yaml : yvalue -> result string) (Marshal : any_value -> option string).
Context (probe_dns probe_http : arguments -> ToolCallResult) (ParseIP : string -> bool) (ticks : nat).
Context (ovf : spec_float -> Z) (config : rest_config).
(** A router tool, which may panic. *)
Definition router_tool (t : Tool) (handler : arguments -> prog (option ToolCallResult)) : core_tool :=
  mkCoreTool t handler [].
Definition GetTools : list core_tool :=
  [core query_prometheus_tool (queryPrometheusHandler config); core get_coredns_config_tool getCoreDNSConfig;
   core get_service_endpoints_tool (getServiceEndpoints Marshal_yaml);
   core probe_dns_local_tool (fun args => Ret (probe_dns args));
   core probe_http_tool (fun args => Ret (probe_http args));
   core inspect_route_tool (inspectRoute Marshal_yaml);
   core exec_dns_in_pod_tool (execDNSInPod ParseIP Marshal ticks);
   router_tool get_router_config_tool (getRouterConfig ovf); router_tool get_router_info_tool getRouterInfo;
   router_tool get_router_sessions_tool (getRouterSessions ovf)].
End Query.

(** * Specification *)

(** A call reads, or executes one of three commands in a container of the routers. *)
Definition netedge_call {R} (c : kcall R) : Prop :=
  router_call ["cat"; "/var/lib/haproxy/conf/haproxy.config"] c \/
  router_call ["sh"; "-c"; "echo 'show info' | socat stdio /var/lib/haproxy/run/haproxy.sock"] c \/
  router_call ["sh"; "-c"; "echo 'show sess all' | socat stdio /var/lib/haproxy/run/haproxy.sock"] c.

(** A number as a timeout: its seconds when it has at least one, and no more than the
    nanoseconds of a duration can hold. *)
Definition whole_seconds (ts : spec_float) (n : Z) : Prop := f64_trunc ts = Some n /\ (1 <= n <= 9223372036)%Z.

(** * Properties *)

Section Properties.
Context {Pool : Type} (SystemCertPool : option Pool) (NewCertPool : Pool).
Context (AppendCertsFromPEM : Pool -> string -> option Pool) (ReadFile : string -> result string).
Context (Encode : list (string * string) -> string) (NewRequest : string -> result unit).
Context (Do : tls_config Pool -> Z -> request -> result (Z * result string)).
Context (Unmarshal : string -> result jvalue) (query_time : string -> Z).
Context (MarshalIndent : list DiagnosticResult -> result string).

(** The client verifies the certificates of the server unless the configuration of the
    cluster is insecure, or no authority of the cluster can be loaded and the system has
    no pool of its own; it trusts the authorities of the cluster when they can be. *)
Theorem prometheus_client_trust config baseURL :
  let c := prometheus_client SystemCertPool NewCertPool AppendCertsFromPEM ReadFile config baseURL in
  let pool := cluster_pool SystemCertPool NewCertPool AppendCertsFromPEM ReadFile config in
  (tls_InsecureSkipVerify (cl_tlsConfig c) = true <->
    rc_Insecure config = true \/ (pool = None /\ SystemCertPool = None)) /\
  tls_RootCAs (cl_tlsConfig c) = (match pool with Some p => Some p | None => SystemCertPool end) /\
  tls_MinVersion (cl_tlsConfig c) = VersionTLS12 /\ cl_baseURL c = baseURL /\
  (rc_BearerToken config <> "" -> cl_bearerToken c = rc_BearerToken config).
Proof.
  intros c pool. subst c pool. unfold prometheus_client, NewClient. rewrite foldl_app. cbn [foldl].
  set (c0 := mkClient _ _ _ _).
  assert (cl_tlsConfig (WithBearerTokenFromRESTConfig ReadFile (Some config) c0) = newDefaultTLSConfig /\
    cl_baseURL (WithBearerTokenFromRESTConfig ReadFile (Some config) c0) = baseURL /\
    (rc_BearerToken config <> "" ->
     cl_bearerToken (WithBearerTokenFromRESTConfig ReadFile (Some config) c0) = rc_BearerToken config))
    as (Htls & Hurl & Htok).
  { unfold WithBearerTokenFromRESTConfig. destruct (bool_decide_reflect (rc_BearerToken config = "")); cbn [negb];
      repeat case_match; done. }
  revert Htls Hurl Htok. generalize (WithBearerTokenFromRESTConfig ReadFile (Some config) c0) as c1.
  intros c1 Htls Hurl Htok. unfold WithTLSFromRESTConfig.
  destruct (cluster_pool _ _ _ _ config) as [p|], SystemCertPool as [sp|], (rc_Insecure config); cbn; rewrite ?Htls;
    cbn; split_and!; try done; naive_solver.
Qed.

(** A target has its queries made, each exactly once and in whatever order they end,
    after one read of the route; an unknown target makes no call. *)
Theorem diagnostics_complete completion config target tr r :
  (forall l, completion l ≡ₚ l) ->
  runs (handleDiagnosticTarget SystemCertPool NewCertPool AppendCertsFromPEM ReadFile Encode NewRequest Do Unmarshal
          query_time MarshalIndent completion config target) tr r ->
  match diagnostic_queries target with
  | None => tr = [] /\ is_Some (tcr_Error r)
  | Some queries =>
      exists answer, tr = [Ev (KGet routeGVR "openshift-monitoring" "thanos-querier" "") answer] /\
      (is_Some (tcr_Error r) \/
       exists host results, match answer with Ok route => nested_string route ["spec"; "host"] = Ok (Some host) | Err _ => False end /\
         results ≡ₚ map (diagnose Encode NewRequest Do Unmarshal query_time
           (prometheus_client SystemCertPool NewCertPool AppendCertsFromPEM ReadFile config ("https://" +:+ host))) queries /\
         MarshalIndent results = Ok (tcr_Content r) /\ tcr_Error r = None)
  end.
Proof.
  intros Hperm. unfold handleDiagnosticTarget. destruct (diagnostic_queries target) as [queries|].
  2:{ intros [-> ->]. split; [done|by eexists]. }
  intros (tr1 & url & tr2 & -> & Hu & [-> ->])%runs_then. rewrite app_nil_r.
  apply runs_then in Hu as (tr3 & answer & tr4 & -> & ->%runs_call & [-> ->]). exists answer. split; [done|].
  destruct answer as [route|err]; [|left; by eexists].
  destruct (nested_string route ["spec"; "host"]) as [[host|]|err] eqn:Hh; cbn [default];
    [|left; by eexists|left; by eexists].
  cbn [id]. destruct (host =?s ""); [left; by eexists|]. cbn zeta match.
  match goal with |- context [MarshalIndent ?l] => destruct (MarshalIndent l) as [json|err] eqn:Hm end;
    [|left; by eexists]. right.
  exists host, (map (diagnose Encode NewRequest Do Unmarshal query_time
    (prometheus_client SystemCertPool NewCertPool AppendCertsFromPEM ReadFile config ("https://" +:+ host)))
    (completion queries)). split_and!; [done| |done|done].
  by apply Permutation_map.
Qed.

Context (completion : list (string * string) -> list (string * string)).
Context (Marshal_yaml : yvalue -> result string) (Marshal : any_value -> option string).
Context (probe_dns probe_http : arguments -> ToolCallResult) (ParseIP : string -> bool) (ticks : nat).
Context (ovf : spec_float -> Z) (config : rest_config).

Lemma netedge_reads {A} (p : prog A) : every (@reads_only) p -> every (@netedge_call) p.
Proof. apply every_impl. intros R c Hc. left. destruct c; first [exact Hc|by destruct Hc]. Qed.

(** The tools that say they only read do so, but for those of the routers: each of
    these executes its fixed command in the container of a router in the namespace of
    the ingress, whatever its arguments. *)
Theorem netedge_tools_annotations :
  Forall (fun t => ta_ReadOnlyHint (tl_Annotations (ct_Tool t)) = Some true ->
      forall args, every (@netedge_call) (ct_Handler t args))
    (GetTools SystemCertPool NewCertPool AppendCertsFromPEM ReadFile Encode NewRequest Do Unmarshal query_time
       MarshalIndent completion Marshal_yaml Marshal probe_dns probe_http ParseIP ticks ovf config).
Proof.
  assert (forall t h, (forall args, every (@reads_only) (h args)) ->
    ta_ReadOnlyHint (tl_Annotations t) = Some true ->
    forall args, every (@netedge_call) (ct_Handler (core t h) args)) as Hcore.
  { intros t h Hh _ args. apply netedge_reads, every_then; [apply Hh|done]. }
  assert (forall n1 n2 body, (forall a b, every (@reads_only) (body a b)) ->
    forall args, every (@reads_only) (with_two args n1 n2 body)) as Htwo.
  { intros n1 n2 body Hb args. unfold with_two. repeat case_match; auto. all: done. }
  unfold GetTools. repeat (apply Forall_cons_2 || apply Forall_nil_2); cbv beta.
  - apply Hcore. intros args. unfold queryPrometheusHandler. case_match; [done|]. unfold handleDiagnosticTarget.
    case_match; [|done]. unfold getRouteURL. every_read.
  - apply Hcore. intros args. unfold getCoreDNSConfig. every_read.
  - apply Hcore. intros args. apply Htwo. intros. unfold endpoint_slices. every_read.
  - by apply Hcore.
  - by apply Hcore.
  - apply Hcore. intros args. apply Htwo. intros. unfold route_details. every_read.
  - done.
  - intros _ args. eapply every_impl; [|apply (router_tools_execute ovf)]. by left.
  - intros _ args. eapply every_impl; [|apply (router_tools_execute ovf)]. by right; left.
  - intros _ args. eapply every_impl; [|apply (router_tools_execute ovf)]. by right; right.
Qed.

(** The timeout of a probe is the whole number of seconds it is given, or five seconds
    without a positive number. *)
Theorem probe_timeout_spec args :
  (forall ts n, args !! "timeout_seconds" = Some (JFloat64 ts) -> whole_seconds ts n ->
     probe_timeout ovf args = (n * 10 ^ 9)%Z) /\
  ((forall ts, args !! "timeout_seconds" = Some (JFloat64 ts) -> SFltb (S754_zero false) ts = false) ->
     probe_timeout ovf args = (5 * 10 ^ 9)%Z).
Proof.
  unfold probe_timeout. split.
  - intros ts n -> [Hn Hb].
    assert (SFltb (S754_zero false) ts = true) as ->.
    { destruct ts as [s|s| |s m e]; cbn in Hn; [simplify_eq; lia|done|done|]. destruct s; [|done].
      exfalso. destruct (0 <=? e)%Z eqn:He; simplify_eq.
      - assert (0 <= Zpos m * 2 ^ e)%Z by (apply Z.mul_nonneg_nonneg; [lia|apply Z.pow_nonneg; lia]). lia.
      - assert (0 <= Zpos m / 2 ^ (- e))%Z by (apply Z.div_pos; [lia|apply Z.pow_pos_nonneg; lia]). lia. }
    unfold f64_to_int64. rewrite Hn. rewrite decide_True by (unfold in_int64, int64_min, int64_max; lia).
    unfold wrap64. rewrite Z.mod_small by lia. lia.
  - intros H. destruct (args !! "timeout_seconds") as [[]|]; try done. by rewrite (H _ eq_refl).
Qed.
End Properties.

(** * Examples and witnesses *)

(** A fraction of a second is no time at all. *)
Example half_a_second ovf :
  probe_timeout ovf {[ "timeout_seconds" := JFloat64 (S754_finite false 1 (-1)) ]} = 0%Z.
Proof. by vm_compute. Qed.

Lemma probe_timeout_spec_witness :
  let thirty : arguments := {[ "timeout_seconds" := JFloat64 (S754_finite false 30 0) ]} in
  probe_timeout (fun _ => 0%Z) thirty = (30 * 10 ^ 9)%Z /\
  probe_timeout (fun _ => 0%Z) ∅ = (5 * 10 ^ 9)%Z.
Proof.
  cbv zeta. split.
  - destruct (probe_timeout_spec (fun _ => 0%Z) {[ "timeout_seconds" := JFloat64 (S754_finite false 30 0) ]})
      as [H _]. apply (H (S754_finite false 30 0) 30%Z); [done|]. split; [by vm_compute|lia].
  - destruct (probe_timeout_spec (fun _ => 0%Z) ∅) as [_ H]. by apply H.
Defined.

(** A route of Thanos, and queries that end in the opposite order. *)
Definition demo_thanos : object := [("spec", YMap [("host", YString "thanos.example.com")])].
Definition demo_config : rest_config := mkRestConfig "token" "" "" "" false.
Definition demo_handler : prog ToolCallResult :=
  handleDiagnosticTarget (Some tt) tt (fun _ _ => None) (fun _ => Err (ErrNew "no file")) (fun _ => "query=up")
    (fun _ => Ok tt) (fun _ _ _ => Ok (200%Z, Ok "body")) (fun body => Ok (JString body)) (fun _ => 0%Z)
    (fun l => Ok (Join (map dg_Name l) " ")) (@rev _) demo_config "operators".

Lemma diagnostics_complete_witness :
  let tr := [Ev (KGet routeGVR "openshift-monitoring" "thanos-querier" "") (Ok demo_thanos)] in
  let r := NewToolCallResult "operator_up active_alerts" None in
  runs demo_handler tr r /\
  exists answer, tr = [Ev (KGet routeGVR "openshift-monitoring" "thanos-querier" "") answer] /\
    (is_Some (tcr_Error r) \/
     exists host results, match answer with Ok route => nested_string route ["spec"; "host"] = Ok (Some host) | Err _ => False end /\
       results ≡ₚ map (diagnose (fun _ => "query=up") (fun _ => Ok tt) (fun _ _ _ => Ok (200%Z, Ok "body"))
         (fun body => Ok (JString body)) (fun _ => 0%Z)
         (prometheus_client (Some tt) tt (fun _ _ => None) (fun _ => Err (ErrNew "no file")) demo_config
            ("https://" +:+ host))) (default [] (diagnostic_queries "operators")) /\
       Ok (Join (map dg_Name results) " ") = Ok (tcr_Content r) /\ tcr_Error r = None).
Proof.
  cbv zeta.
  assert (runs demo_handler [Ev (KGet routeGVR "openshift-monitoring" "thanos-querier" "") (Ok demo_thanos)]
    (NewToolCallResult "operator_up active_alerts" None)) as H by (vm_compute; eauto).
  split; [exact H|].
  apply (diagnostics_complete (Some tt) tt (fun _ _ => None) (fun _ => Err (ErrNew "no file")) (fun _ => "query=up")
    (fun _ => Ok tt) (fun _ _ _ => Ok (200%Z, Ok "body")) (fun body => Ok (JString body)) (fun _ => 0%Z)
    (fun l => Ok (Join (map dg_Name l) " ")) (@rev _) demo_config "operators" _ _
    (fun l => symmetry (Permutation_rev l)) H).
Defined.
