(* ===== verification/Tekton.v ===== *)
(** The tekton toolset (pkg/toolsets/tekton): starting pipelines and tasks, restarting
    and cancelling their runs, the logs of the steps of a run, and the troubleshooting
    prompt.  The typed objects of Tekton are records with the fields the program reads
    or sets, and the rest as it is; their conversions, the printers, the selectors of
    labels and fields and the order of Go's maps are parameters. *)
From Stdlib Require Import SpecFloat.
From S2P Require Import Prelude GoStrings Api Params Prompts Toolsets Tools Unstructured Cluster Core CoreTools KubeVirt KubeVirtDiag.

(** * Definitions *)

(** ** params.go *)

Definition pipelineGVR : GroupVersionResource := mkGVR "tekton.dev" "v1" "pipelines".
Definition pipelineRunGVR : GroupVersionResource := mkGVR "tekton.dev" "v1" "pipelineruns".
Definition taskGVR : GroupVersionResource := mkGVR "tekton.dev" "v1" "tasks".
Definition taskRunGVR : GroupVersionResource := mkGVR "tekton.dev" "v1" "taskruns".
Definition pacRepositoryGVR : GroupVersionResource := mkGVR "pipelinesascode.tekton.dev" "v1alpha1" "repositories".
Definition tektonConfigGVR : GroupVersionResource := mkGVR "operator.tekton.dev" "v1alpha1" "tektonconfigs".

(** [tektonv1.ParamValue], by its type, and [tektonv1.Param]. *)
Inductive param_value : Type :=
| ParamString (s : string)
| ParamArray (l : list string)
| ParamObject (m : gmap string string).
Record param := mkParam { pa_name : string; pa_value : param_value }.

(** The strings of an array, or the index and the type of the first that is none. *)
Fixpoint array_strings (i : nat) (l : list jvalue) : list string + (nat * jvalue) :=
  match l with
  | [] => inl []
  | JString s :: l => match array_strings (S i) l with inl arr => inl (s :: arr) | inr bad => inr bad end
  | v :: _ => inr (i, v)
  end.
(** The strings of an object, or the key and the type of the first that is none. *)
Fixpoint object_strings (kvs : list (string * jvalue)) (obj : gmap string string) :
    gmap string string + (string * jvalue) :=
  match kvs with
  | [] => inl obj
  | (k, JString s) :: kvs => object_strings kvs (<[k := s]> obj)
  | (k, v) :: _ => inr (k, v)
  end.

Section Params.
(** The order in which a map is gone through. *)
Context (range_map : list (string * jvalue) -> list (string * jvalue)).

Definition toParamValue (name : string) (v : jvalue) : result param_value :=
  match v with
  | JString s => Ok (ParamString s)
  | JArray l =>
      match array_strings 0 l with
      | inl arr => Ok (ParamArray arr)
      | inr (i, elem) =>
          Err (ErrNew (fmt ["param "; quote name; ": array element "; itoa (Z.of_nat i); " must be a string, got ";
                            go_type_name elem]))
      end
  | JObject kvs =>
      match object_strings (range_map kvs) ∅ with
      | inl obj => Ok (ParamObject obj)
      | inr (k, elem) =>
          Err (ErrNew (fmt ["param "; quote name; ": object key "; quote k; " value must be a string, got ";
                            go_type_name elem]))
      end
  | v =>
      Err (ErrNew (fmt ["param "; quote name; ": unsupported value type "; go_type_name v;
                        " (expected string, array, or object)"]))
  end.
Fixpoint parse_each (kvs : list (string * jvalue)) : result (list param) :=
  match kvs with
  | [] => Ok []
  | (k, v) :: kvs =>
      match toParamValue k v with
      | Err err => Err err
      | Ok pv => match parse_each kvs with Ok params => Ok (mkParam k pv :: params) | Err err => Err err end
      end
  end.
Definition parseParams (raw : list (string * jvalue)) : result (list param) := parse_each (range_map raw).
(** The parameters of a call, nil unless an object is given. *)
Definition call_params (args : arguments) : result (list param) :=
  match args !! "params" with Some (JObject raw) => parseParams raw | _ => Ok [] end.
End Params.

(** ** The tools *)

Definition pipelineRunLifecycleSchema : Schema :=
  mkSchema "object" "" (Some [
    ("name", mkSchema "string" "Name of the PipelineRun to manage" None);
    ("namespace", mkSchema "string" "Namespace of the PipelineRun" None);
    ("action", mkSchema "string" "Lifecycle action to perform: 'restart' creates a new PipelineRun with the same spec; 'cancel' sets spec.status to Cancelled." None)]).

Definition tekton_pipeline_start_tool : Tool :=
  mkTool "tekton_pipeline_start"
    "Start a Tekton Pipeline by creating a PipelineRun that references it"
    (mkToolAnnotations "Tekton: Start Pipeline" (Some false) (Some false) (Some false) (Some false)) []
    (Some (mkSchema "object" "" (Some [
       ("name", mkSchema "string" "Name of the Pipeline to start" None);
       ("namespace", mkSchema "string" "Namespace of the Pipeline" None);
       ("params", mkSchema "object" "Parameter values to pass to the Pipeline. Keys are parameter names; values can be a string, an array of strings, or an object (map of string to string) depending on the parameter type defined in the Pipeline spec" (Some []))]))) None.

Definition tekton_pipelinerun_lifecycle_tool : Tool :=
  mkTool "tekton_pipelinerun_lifecycle"
    "Manage a Tekton PipelineRun lifecycle by restarting it with the same spec or cancelling it by setting spec.status to Cancelled."
    (mkToolAnnotations "Tekton: PipelineRun Lifecycle" (Some false) (Some true) (Some false) (Some true)) []
    (Some pipelineRunLifecycleSchema) None.

Definition tekton_pipelinerun_logs_tool : Tool :=
  mkTool "tekton_pipelinerun_logs"
    "Get logs for all TaskRuns owned by a Tekton PipelineRun. Use this to inspect PipelineRun execution output without locating pods manually."
    (mkToolAnnotations "Tekton: Get PipelineRun Logs" (Some true) (Some false) (Some true) (Some true)) []
    (Some (mkSchema "object" "" (Some [
       ("name", mkSchema "string" "Name of the PipelineRun to get logs from" None);
       ("namespace", mkSchema "string" "Namespace of the PipelineRun" None);
       ("task", mkSchema "string" "Pipeline task name to filter by (tekton.dev/pipelineTask label)" None);
       ("step", mkSchema "string" "Step name to include within matching TaskRuns" None);
       ("tail", mkSchema "integer" "Number of lines to retrieve from the end of each container log (default: 100)" None)]))) None.

Definition tekton_task_start_tool : Tool :=
  mkTool "tekton_task_start"
    "Start a Tekton Task by creating a TaskRun that references it"
    (mkToolAnnotations "Tekton: Start Task" (Some false) (Some false) (Some false) (Some false)) []
    (Some (mkSchema "object" "" (Some [
       ("name", mkSchema "string" "Name of the Task to start" None);
       ("namespace", mkSchema "string" "Namespace of the Task" None);
       ("params", mkSchema "object" "Parameter values to pass to the Task. Keys are parameter names; values can be a string, an array of strings, or an object (map of string to string) depending on the parameter type defined in the Task spec" (Some []))]))) None.

Definition tekton_taskrun_restart_tool : Tool :=
  mkTool "tekton_taskrun_restart"
    "Restart a Tekton TaskRun by creating a new TaskRun with the same spec"
    (mkToolAnnotations "Tekton: Restart TaskRun" (Some false) (Some false) (Some false) (Some false)) []
    (Some (mkSchema "object" "" (Some [
       ("name", mkSchema "string" "Name of the TaskRun to restart" None);
       ("namespace", mkSchema "string" "Namespace of the TaskRun" None)]))) None.

Definition tekton_taskrun_logs_tool : Tool :=
  mkTool "tekton_taskrun_logs"
    "Get the logs from a Tekton TaskRun by resolving its underlying pod"
    (mkToolAnnotations "Tekton: Get TaskRun Logs" (Some true) (Some false) (Some true) (Some false)) []
    (Some (mkSchema "object" "" (Some [
       ("name", mkSchema "string" "Name of the TaskRun to get logs from" None);
       ("namespace", mkSchema "string" "Namespace of the TaskRun" None);
       ("step", mkSchema "string" "Step name to include. If omitted, logs from all steps and sidecars are returned" None);
       ("tail", mkSchema "integer" "Number of lines to retrieve from the end of the logs (Optional, default: 100)" None)]))) None.


(** ** The runs *)

(** The specification of a run: the name it refers to, its parameters, its status, and
    its other fields. *)
Record tekton_spec (Rest : Type) := mkRunSpec {
  rs_Ref : option string;
  rs_Params : list param;
  rs_Status : string;
  rs_Rest : Rest;
}.
Arguments mkRunSpec {Rest} _ _ _ _.
Arguments rs_Ref {Rest} _.
Arguments rs_Params {Rest} _.
Arguments rs_Status {Rest} _.
Arguments rs_Rest {Rest} _.
(** A run to create: its metadata has a namespace and a prefix of its name only. *)
Record new_run (Rest : Type) := mkNewRun {
  nr_APIVersion : string;
  nr_Kind : string;
  nr_Namespace : string;
  nr_GenerateName : string;
  nr_Spec : tekton_spec Rest;
}.
Arguments mkNewRun {Rest} _ _ _ _ _.
Arguments nr_APIVersion {Rest} _.
Arguments nr_Kind {Rest} _.
Arguments nr_Namespace {Rest} _.
Arguments nr_GenerateName {Rest} _.
Arguments nr_Spec {Rest} _.

(** A step and a sidecar in the status of a run: the container, and for a step the exit
    code and the reason of its end, or the reason that it waits. *)
Record step_state := mkStep {
  stp_Name : string;
  stp_Container : string;
  stp_Terminated : option (Z * string);
  stp_Waiting : option string;
}.
Record sidecar_state := mkSidecar { sc_Name : string; sc_Container : string }.
Record task_run (Rest StatusRest : Type) := mkTaskRun {
  tr_Name : string;
  tr_GenerateName : string;
  tr_Spec : tekton_spec Rest;
  tr_PodName : string;
  tr_Steps : list step_state;
  tr_Sidecars : list sidecar_state;
  tr_StatusRest : StatusRest;
}.
Arguments mkTaskRun {Rest StatusRest} _ _ _ _ _ _ _.
Arguments tr_Name {Rest StatusRest} _.
Arguments tr_GenerateName {Rest StatusRest} _.
Arguments tr_Spec {Rest StatusRest} _.
Arguments tr_PodName {Rest StatusRest} _.
Arguments tr_Steps {Rest StatusRest} _.
Arguments tr_Sidecars {Rest StatusRest} _.

(** What pipelines and tasks differ in: their names, and the resources. *)
Record definition_kind := mkDefinitionKind {
  dk_Kind : string;
  dk_lower : string;
  dk_GVR : GroupVersionResource;
  dk_Run : string;
  dk_RunGVR : GroupVersionResource;
}.
Definition pipeline_kind : definition_kind := mkDefinitionKind "Pipeline" "pipeline" pipelineGVR "PipelineRun" pipelineRunGVR.
Definition task_kind : definition_kind := mkDefinitionKind "Task" "task" taskGVR "TaskRun" taskRunGVR.

(** A run of a kind, in a namespace. *)
Definition run_of {Rest} (k : definition_kind) (namespace generateName : string) (spec : tekton_spec Rest) : new_run Rest :=
  mkNewRun "tekton.dev/v1" (dk_Run k) namespace generateName spec.
(** It is converted and created; the text names what was created. *)
Definition create_run {Rest} (ToUnstructured : new_run Rest -> result object) (k : definition_kind)
    (namespace failure : string) (run : new_run Rest) (started : string -> string) : prog ToolCallResult :=
  match ToUnstructured run with
  | Err err => Ret (failed (fmt ["failed to convert "; dk_Run k; " to unstructured: "]) err)
  | Ok obj =>
      created ← call (KCreate (dk_RunGVR k) namespace obj);
      Ret (match created with
           | Err err => failed failure err
           | Ok created => NewToolCallResult (started (GetName created)) None
           end)
  end.

(** ** pipeline.go and task.go *)

Section Start.
Context {Rest : Type} (zero : Rest) (ToUnstructured : new_run Rest -> result object).
Context (range_map : list (string * jvalue) -> list (string * jvalue)).

(** Starts a run of a pipeline or a task. *)
Definition start (k : definition_kind) (args : arguments) : prog ToolCallResult :=
  default_namespace ← NamespaceOrDefault "";
  let p := WrapParams args in
  let '(name, p) := Params_RequiredString "name" p in
  let '(namespace, p) := Params_OptionalString "namespace" default_namespace p in
  match Params_Err p with
  | Some err => Ret (failed (fmt ["failed to start "; dk_lower k; ": "]) err)
  | None =>
      found ← call (KGet (dk_GVR k) namespace name "");
      match found with
      | Err err => Ret (failed (fmt ["failed to get "; dk_Kind k; " "; namespace; "/"; name; ": "]) err)
      | Ok _ =>
          match call_params range_map args with
          | Err err => Ret (failed "failed to parse params: " err)
          | Ok tektonParams =>
              create_run ToUnstructured k namespace
                (fmt ["failed to create "; dk_Run k; " for "; dk_Kind k; " "; namespace; "/"; name; ": "])
                (run_of k namespace (name +:+ "-") (mkRunSpec (Some name) tektonParams "" zero))
                (fun createdName =>
                   fmt [dk_Kind k; " '"; name; "' started as "; dk_Run k; " '"; createdName; "' in namespace '";
                        namespace; "'"])
          end
      end
  end.
Definition startPipeline : arguments -> prog ToolCallResult := start pipeline_kind.
Definition startTask : arguments -> prog ToolCallResult := start task_kind.
End Start.

(** ** Restart and cancellation *)

Definition with_status {Rest} (status : string) (s : tekton_spec Rest) : tekton_spec Rest :=
  mkRunSpec (rs_Ref s) (rs_Params s) status (rs_Rest s).
(** The run that restarts one: its specification without a status, and the prefix of its
    name if it has one. *)
Definition restart_of {Rest} (k : definition_kind) (namespace name : string) (existing : string * tekton_spec Rest) :
    new_run Rest :=
  run_of k namespace (if existing.1 ≠?s "" then existing.1 else name +:+ "-") (with_status "" existing.2).

Section Restart.
(** The prefix of the name and the specification of an object. *)
Context {Rest : Type} (FromUnstructured : object -> result (string * tekton_spec Rest)).
Context (ToUnstructured : new_run Rest -> result object).

Definition restart (k : definition_kind) (namespace name : string) : prog ToolCallResult :=
  existing ← call (KGet (dk_RunGVR k) namespace name "");
  match existing with
  | Err err => Ret (failed (fmt ["failed to get "; dk_Run k; " "; namespace; "/"; name; ": "]) err)
  | Ok o =>
      match FromUnstructured o with
      | Err err => Ret (failed (fmt ["failed to convert "; dk_Run k; " from unstructured: "]) err)
      | Ok existing =>
          create_run ToUnstructured k namespace
            (fmt ["failed to create restart "; dk_Run k; " for "; namespace; "/"; name; ": "])
            (restart_of k namespace name existing)
            (fun createdName =>
               fmt [dk_Run k; " '"; name; "' restarted as '"; createdName; "' in namespace '"; namespace; "'"])
      end
  end.
Definition restartPipelineRun : string -> string -> prog ToolCallResult := restart pipeline_kind.
Definition restartTaskRun (args : arguments) : prog ToolCallResult :=
  default_namespace ← NamespaceOrDefault "";
  let p := WrapParams args in
  let '(name, p) := Params_RequiredString "name" p in
  let '(namespace, p) := Params_OptionalString "namespace" default_namespace p in
  match Params_Err p with
  | Some err => Ret (failed "failed to restart task run: " err)
  | None => restart task_kind namespace name
  end.

Definition cancel_patch : string := fmt ["{"; dq; "spec"; dq; ":{"; dq; "status"; dq; ":"; quote "Cancelled"; "}}"].
Definition cancelPipelineRun (namespace name : string) : prog ToolCallResult :=
  patched ← call (KPatch pipelineRunGVR namespace name "application/merge-patch+json" cancel_patch);
  Ret (match patched with
       | Err err => failed (fmt ["failed to cancel PipelineRun "; namespace; "/"; name; ": "]) err
       | Ok _ => NewToolCallResult (fmt ["PipelineRun '"; name; "' cancelled in namespace '"; namespace; "'"]) None
       end).
Definition pipelineRunLifecycle (args : arguments) : prog ToolCallResult :=
  default_namespace ← NamespaceOrDefault "";
  let p := WrapParams args in
  let '(name, p) := Params_RequiredString "name" p in
  let '(namespace, p) := Params_OptionalString "namespace" default_namespace p in
  let '(action, p) := Params_RequiredString "action" p in
  match Params_Err p with
  | Some err => Ret (failed "failed to manage pipeline run lifecycle: " err)
  | None =>
      if action =?s "restart" then restartPipelineRun namespace name
      else if action =?s "cancel" then cancelPipelineRun namespace name
      else Ret (refused (fmt ["invalid action "; quote action; ": must be one of "; quote "restart"; " or ";
                              quote "cancel"]))
  end.
End Restart.

(** ** Logs *)

Definition maxLogBytesPerContainer : Z := (2 ^ 20)%Z.

(** The text of the log of a container; a log that cannot be read within the limit is an
    error of its stream. *)
Definition log_text (kind name : string) (answer : result (result string)) : string :=
  match answer with
  | Err err => fmt ["["; kind; ": "; name; "] error retrieving logs: "; error_string err; nl]
  | Ok (Err err) => fmt ["["; kind; ": "; name; "] error reading logs: "; error_string err; nl]
  | Ok (Ok stream) =>
      let bytes := take_str (Z.to_nat maxLogBytesPerContainer) stream in
      if bytes =?s "" then "" else fmt ["["; kind; ": "; name; "]"; nl; bytes; nl]
  end.
Definition collectContainerLogs (podName namespace kind name container : string) (tailLines : Z) : prog (list string) :=
  answer ← call (KPodLogStream namespace podName container (Some tailLines));
  Ret [log_text kind name answer].

Section Logs.
Context {Rest StatusRest : Type}.

(** The steps that are asked for. *)
Definition steps_named (stepName : string) (tr : task_run Rest StatusRest) : list step_state :=
  List.filter (fun s => (stepName =?s "") || (stp_Name s =?s stepName)) (tr_Steps tr).
Definition collectTaskRunLogs (namespace : string) (tr : task_run Rest StatusRest) (stepName : string) (tailLines : Z) :
    prog string :=
  let hasStep := (stepName =?s "") || existsb (fun s => stp_Name s =?s stepName) (tr_Steps tr) in
  if negb hasStep then Ret ""
  else if tr_PodName tr =?s "" then
    Ret (fmt ["TaskRun '"; tr_Name tr; "' in namespace '"; namespace; "' has not started a pod yet"; nl])
  else
    steps ← for_each (fun s => collectContainerLogs (tr_PodName tr) namespace "step" (stp_Name s) (stp_Container s) tailLines)
              (steps_named stepName tr);
    sidecars ← (if stepName =?s "" then
                  for_each (fun s => collectContainerLogs (tr_PodName tr) namespace "sidecar" (sc_Name s) (sc_Container s) tailLines)
                    (tr_Sidecars tr)
                else Ret []);
    Ret (fmt (steps ++ sidecars)).

(** The conversion of a task run, and the selector of labels with their validation. *)
Context (FromUnstructured : object -> result (task_run Rest StatusRest)).
Context (ValidatedSelector : list (string * string) -> result string) (ovf : spec_float -> Z).

Definition getTaskRunLogs (args : arguments) : prog ToolCallResult :=
  default_namespace ← NamespaceOrDefault "";
  let p := WrapParams args in
  let '(name, p) := Params_RequiredString "name" p in
  let '(namespace, p) := Params_OptionalString "namespace" default_namespace p in
  let '(stepName, p) := Params_OptionalString "step" "" p in
  let '(tail, p) := Params_OptionalInt64 ovf "tail" DefaultTailLines p in
  match Params_Err p with
  | Some err => Ret (failed "failed to get task run logs: " err)
  | None =>
      found ← call (KGet taskRunGVR namespace name "");
      match found with
      | Err err => Ret (failed (fmt ["failed to get TaskRun "; namespace; "/"; name; ": "]) err)
      | Ok o =>
          match FromUnstructured o with
          | Err err => Ret (failed "failed to convert TaskRun from unstructured: " err)
          | Ok tr =>
              logs ← collectTaskRunLogs namespace tr stepName tail;
              Ret (NewToolCallResult
                     (if logs =?s "" then fmt ["No logs available for TaskRun '"; name; "' in namespace '"; namespace; "'"]
                      else logs) None)
          end
      end
  end.

Fixpoint convert_runs (items : list object) : result (list (task_run Rest StatusRest)) :=
  match items with
  | [] => Ok []
  | item :: items =>
      match FromUnstructured item with
      | Err err => Err err
      | Ok tr => match convert_runs items with Ok trs => Ok (tr :: trs) | Err err => Err err end
      end
  end.
(** The task runs of a pipeline run, and of one of its tasks. *)
Definition task_run_labels (pipelineRunName pipelineTaskName : string) : list (string * string) :=
  ("tekton.dev/pipelineRun", pipelineRunName) ::
  (if pipelineTaskName ≠?s "" then [("tekton.dev/pipelineTask", pipelineTaskName)] else []).
Definition pipelineRunTaskRuns (namespace pipelineRunName pipelineTaskName : string) :
    prog (result (list (task_run Rest StatusRest))) :=
  match ValidatedSelector (task_run_labels pipelineRunName pipelineTaskName) with
  | Err err => Ret (Err (wrapf "invalid TaskRun label filter: " err))
  | Ok selector =>
      list ← call (KList taskRunGVR namespace (mkSelectors selector ""));
      Ret (match list with Err err => Err err | Ok items => convert_runs items end)
  end.

(** The log of a task run under its name, unless it is blank. *)
Definition run_log_text (tr : task_run Rest StatusRest) (taskLogs : string) : list string :=
  if TrimSpace taskLogs =?s "" then []
  else ["# TaskRun: "; tr_Name tr; nl; taskLogs; if HasSuffix taskLogs nl then "" else nl].
Definition getPipelineRunLogs (args : arguments) : prog ToolCallResult :=
  default_namespace ← NamespaceOrDefault "";
  let p := WrapParams args in
  let '(name, p) := Params_RequiredString "name" p in
  let '(namespace, p) := Params_OptionalString "namespace" default_namespace p in
  let '(pipelineTaskName, p) := Params_OptionalString "task" "" p in
  let '(stepName, p) := Params_OptionalString "step" "" p in
  let '(tailLines, p) := Params_OptionalInt64 ovf "tail" DefaultTailLines p in
  match Params_Err p with
  | Some err => Ret (failed "failed to get pipeline run logs: " err)
  | None =>
      found ← call (KGet pipelineRunGVR namespace name "");
      match found with
      | Err err => Ret (failed (fmt ["failed to get PipelineRun "; namespace; "/"; name; ": "]) err)
      | Ok _ =>
          taskRuns ← pipelineRunTaskRuns namespace name pipelineTaskName;
          match taskRuns with
          | Err err => Ret (failed (fmt ["failed to list TaskRuns for PipelineRun "; namespace; "/"; name; ": "]) err)
          | Ok [] =>
              Ret (NewToolCallResult
                     (fmt (["No TaskRuns found for PipelineRun '"; name; "' in namespace '"; namespace; "'"] ++
                           if pipelineTaskName ≠?s "" then [" matching pipeline task '"; pipelineTaskName; "'"] else []))
                     None)
          | Ok taskRuns =>
              texts ← for_each (fun tr => taskLogs ← collectTaskRunLogs namespace tr stepName tailLines;
                                          Ret (run_log_text tr taskLogs)) taskRuns;
              Ret (NewToolCallResult
                     (if fmt texts =?s "" then
                        fmt ["No logs available for PipelineRun '"; name; "' in namespace '"; namespace; "'"]
                      else fmt texts) None)
          end
      end
  end.
End Logs.

(** ** pipeline_troubleshoot.go *)

Definition pipelineTroubleshootPrompts : list Prompt :=
  [mkPrompt "pipeline-troubleshoot" "Tekton PipelineRun Troubleshoot"
     "Gather PipelineRun status, its Pipeline definition, TaskRuns, failed or errored step logs, warning events, Pipeline-as-Code Repository, and TektonConfig context for Tekton troubleshooting"
     [mkPromptArgument "namespace" "Namespace of the PipelineRun to troubleshoot" true;
      mkPromptArgument "name" "Name of the PipelineRun to troubleshoot" true] []].

Definition failedOrErroredStep (step : step_state) : bool :=
  match stp_Terminated step with
  | Some (exitCode, reason) => negb (exitCode =? 0)%Z || ((reason ≠?s "") && (reason ≠?s "Completed"))
  | None =>
      match stp_Waiting step with
      | Some reason => (reason ≠?s "") && (reason ≠?s "PodInitializing") && (reason ≠?s "ContainerCreating")
      | None => false
      end
  end.

(** The reason of the last condition. *)
Definition status_hint (pipelineRun : option object) : string :=
  match pipelineRun with
  | None => "unknown"
  | Some o =>
      match NestedSlice o ["status"; "conditions"] with
      | Ok (Some conditions) =>
          match last conditions with
          | Some (YMap condition) => match field "reason" condition with Some (YString s) => s | _ => "" end
          | _ => "unknown"
          end
      | _ => "unknown"
      end
  end.
Definition buildPipelineTroubleshootPrompt
    (namespace name collected statusHint pipelineRunText pipelineText taskRunsText logsText eventsText pacText
       tektonConfigText : string) : string :=
  fmt ["# Tekton PipelineRun Troubleshooting Guide"; nl; nl; "## PipelineRun: "; namespace; "/";
    name; nl; nl; "**Collected:** "; collected; nl; "**Current status hint:** "; statusHint; nl; nl;
    "Analyze the collected data and use these exact section headings in the response:"; nl;
    "1. PipelineRun Status - overall status, conditions, and timing"; nl;
    "2. TaskRun Status - per-task pass, failure, or blocked state"; nl;
    "3. Failed Step Logs - errors from failed or errored steps"; nl; "4. Events - related warnings and errors"; nl;
    "5. Troubleshooting Analysis - diagnosis based on the Pipeline definition and collected context"; nl;
    "6. Fix Suggestions - concrete next actions for the identified failure pattern"; nl; nl; "---"; nl; nl;
    "## PipelineRun Status"; nl; nl; pipelineRunText; nl; nl; "---"; nl; nl; "## Pipeline Definition"; nl; nl;
    pipelineText; nl; nl; "---"; nl; nl; "## TaskRun Status"; nl; nl; taskRunsText; nl; nl; "---"; nl; nl;
    "## Failed Step Logs"; nl; nl; logsText; nl; nl; "---"; nl; nl; "## Pipeline-as-Code Repositories"; nl; nl;
    pacText; nl; nl; "---"; nl; nl; "## TektonConfig"; nl; nl; tektonConfigText; nl; nl; "---"; nl; nl; "## Events";
    nl; nl; eventsText; nl; nl; "---"; nl; nl; "## Troubleshooting Analysis"; nl; nl;
    "Use the collected data to identify:"; nl; "1. The first failed or blocked PipelineTask"; nl;
    "2. The failed step and its relevant log error"; nl;
    "3. Pipeline definition, parameter, workspace, dependency, or scheduling problems"; nl;
    "4. Warning events that confirm the failure path"; nl;
    "5. Pipeline-as-Code or TektonConfig settings that contributed to the failure"; nl; nl; "---"; nl; nl;
    "## Fix Suggestions"; nl; nl;
    "Recommend only fixes supported by the collected evidence. Common actions include correcting missing Pipeline or Task references, invalid parameters or workspaces, image pull failures, insufficient permissions or resources, and timeout or cancellation settings."; nl].

Definition yaml_fence (yaml : string) : string := fmt ["```yaml"; nl; yaml; "```"].
Definition event_key (e : cluster_event) : string :=
  if ce_UID e =?s "" then fmt [ce_Namespace e; "/"; ce_Name e] else ce_UID e.
(** The warnings among the events of a target, each key once. *)
Definition add_events (seen : list cluster_event) (events : list cluster_event) : list cluster_event :=
  foldl (fun seen e =>
           if ce_Type e ≠?s "Warning" then seen
           else if slices_Contains (map event_key seen) (event_key e) then seen
           else seen ++ [e]) seen events.

Section Prompt.
Context {Rest StatusRest : Type} (FromUnstructured : object -> result (task_run Rest StatusRest)).
Context (ValidatedSelector : list (string * string) -> result string).
(** [fields.SelectorFromSet], and the YAML of objects, lists, values, statuses and events. *)
Context (FieldSelector : list (string * string) -> string).
Context (MarshalYaml_object : object -> printed) (MarshalYaml_list : list object -> printed).
Context (MarshalYaml : yvalue -> printed) (MarshalYaml_status : task_run Rest StatusRest -> printed).
Context (MarshalYaml_events : list cluster_event -> printed).
(** The time, in the format of RFC 3339. *)
Context (collected : string).

Definition yamlBlock (title : string) (obj : object) : string :=
  match MarshalYaml_object obj with
  | (_, Some err) => fmt ["*Error formatting "; title; ": "; error_string err; "*"]
  | (yaml, None) => yaml_fence yaml
  end.
Definition fetchPipelineRunForPrompt (namespace name : string) : prog (option object * string) :=
  run ← call (KGet pipelineRunGVR namespace name "");
  Ret (match run with
       | Err err => (None, fmt ["*Error fetching PipelineRun: "; error_string err; "*"])
       | Ok run => (Some run, yamlBlock "PipelineRun" run)
       end).
Definition pipelineSpecBlock (source : string) (pipelineSpec : object) : string :=
  match MarshalYaml (YMap pipelineSpec) with
  | (_, Some err) => fmt ["*Error formatting "; ToLower source; " PipelineSpec: "; error_string err; "*"]
  | (yaml, None) => fmt ["**"; source; " PipelineSpec**"; nl; nl; yaml_fence yaml]
  end.
Definition unavailable (what : string) (err : error) : string :=
  fmt ["*Pipeline definition unavailable: "; what; ": "; error_string err; "*"].
Definition fetchPipelineDefinitionForPrompt (namespace : string) (pipelineRun : option object) : prog string :=
  match pipelineRun with
  | None => Ret "*Pipeline definition unavailable because the PipelineRun could not be fetched*"
  | Some run =>
      match NestedMap run ["spec"; "pipelineSpec"] with
      | Err err => Ret (unavailable "invalid embedded PipelineSpec" err)
      | Ok (Some pipelineSpec) => Ret (pipelineSpecBlock "Embedded" pipelineSpec)
      | Ok None =>
          match NestedMap run ["status"; "pipelineSpec"] with
          | Err err => Ret (unavailable "invalid resolved PipelineSpec" err)
          | Ok (Some pipelineSpec) => Ret (pipelineSpecBlock "Resolved" pipelineSpec)
          | Ok None =>
              match nested_string run ["spec"; "pipelineRef"; "name"] with
              | Err err => Ret (unavailable "invalid Pipeline reference" err)
              | Ok pipelineName =>
                  let pipelineName := default "" pipelineName in
                  if pipelineName =?s "" then
                    Ret "*Pipeline definition unavailable because the PipelineRun has no named Pipeline reference or embedded PipelineSpec*"
                  else
                    pipeline ← call (KGet pipelineGVR namespace pipelineName "");
                    Ret (match pipeline with
                         | Err err => unavailable (fmt ["failed to fetch Pipeline "; quote pipelineName]) err
                         | Ok pipeline => yamlBlock "Pipeline" pipeline
                         end)
              end
          end
      end
  end.

(** The status of a task run under its name, when it can be printed. *)
Definition task_run_text (tr : task_run Rest StatusRest) : string :=
  fmt (["### TaskRun: "; tr_Name tr; nl; nl] ++
       match MarshalYaml_status tr with (status, None) => [yaml_fence status; nl; nl] | (_, Some _) => [] end).
Definition fetchPipelineRunTaskRunsForPrompt (namespace pipelineRunName : string) :
    prog (list (task_run Rest StatusRest) * string) :=
  taskRuns ← pipelineRunTaskRuns FromUnstructured ValidatedSelector namespace pipelineRunName "";
  Ret (match taskRuns with
       | Err err => ([], fmt ["*Error listing TaskRuns: "; error_string err; "*"])
       | Ok [] => ([], "*No TaskRuns found for this PipelineRun*")
       | Ok taskRuns => (taskRuns, fmt (map task_run_text taskRuns))
       end).

Definition failed_steps (tr : task_run Rest StatusRest) : list step_state :=
  List.filter (fun s => (stp_Name s ≠?s "") && failedOrErroredStep s) (tr_Steps tr).
Definition failed_log_text (tr : task_run Rest StatusRest) (taskLogs : string) : list string :=
  if TrimSpace taskLogs =?s "" then []
  else ["### TaskRun: "; tr_Name tr; nl; nl; taskLogs; if HasSuffix taskLogs nl then "" else nl; nl].
Definition failed_logs (namespace : string) (tr : task_run Rest StatusRest) : prog (list string) :=
  texts ← for_each (fun s => log ← collectTaskRunLogs namespace tr (stp_Name s) DefaultTailLines; Ret [log])
            (failed_steps tr);
  Ret (failed_log_text tr (fmt texts)).
Definition fetchPipelineRunLogsForPrompt (namespace : string) (taskRuns : list (task_run Rest StatusRest)) : prog string :=
  match taskRuns with
  | [] => Ret "*No TaskRuns found, so no failed or errored step logs are available*"
  | _ =>
      texts ← for_each (failed_logs namespace) taskRuns;
      Ret (if fmt texts =?s "" then "*No failed or errored step logs available for this PipelineRun*" else fmt texts)
  end.

Definition event_targets (pipelineRunName : string) (taskRuns : list (task_run Rest StatusRest)) :
    list (string * string) :=
  ("PipelineRun", pipelineRunName) ::
  flat_map (fun tr => ("TaskRun", tr_Name tr) :: (if tr_PodName tr ≠?s "" then [("Pod", tr_PodName tr)] else []))
    taskRuns.
(** The lists of events that can be read, in order. *)
Definition target_events (namespace : string) (target : string * string) : prog (list (list cluster_event)) :=
  if target.2 =?s "" then Ret []
  else
    events ← call (KTypedList TEvents namespace
      (FieldSelector [("involvedObject.kind", target.1); ("involvedObject.name", target.2)]));
    Ret (match events with Err _ => [] | Ok events => [events] end).
Definition fetchPipelineRunEventsForPrompt (namespace pipelineRunName : string)
    (taskRuns : list (task_run Rest StatusRest)) : prog string :=
  lists ← for_each (target_events namespace) (event_targets pipelineRunName taskRuns);
  Ret (match foldl add_events [] lists with
       | [] => "*No related warning events found*"
       | matched =>
           match MarshalYaml_events matched with
           | (_, Some err) => fmt ["*Error formatting events: "; error_string err; "*"]
           | (yaml, None) => yaml_fence yaml
           end
       end).

(** All objects of a resource, or the text for none. *)
Definition all_resources_text (gvr : GroupVersionResource) (namespace what nothing : string) : prog string :=
  list ← call (KList gvr namespace (mkSelectors "" ""));
  Ret (match list with
       | Err err => fmt ["*"; what; " resources unavailable: "; error_string err; "*"]
       | Ok [] => nothing
       | Ok items =>
           match MarshalYaml_list items with
           | (_, Some err) => fmt ["*Error formatting "; what; " resources: "; error_string err; "*"]
           | (yaml, None) => yaml_fence yaml
           end
       end).
Definition fetchPipelineRunPACRepositoriesForPrompt (namespace : string) : prog string :=
  all_resources_text pacRepositoryGVR namespace "Pipeline-as-Code Repository"
    "*No Pipeline-as-Code Repository resources found in this namespace*".
Definition fetchTektonConfigsForPrompt : prog string :=
  all_resources_text tektonConfigGVR "" "TektonConfig" "*No TektonConfig resources found*".

Definition pipelineTroubleshootHandler (args : gmap string string) : prog (result PromptCallResult) :=
  let namespace := default "" (args !! "namespace") in
  let name := default "" (args !! "name") in
  if namespace =?s "" then Ret (Err (ErrNew "namespace argument is required"))
  else if name =?s "" then Ret (Err (ErrNew "name argument is required"))
  else
    run ← fetchPipelineRunForPrompt namespace name;
    let '(pipelineRun, pipelineRunText) := run in
    found ← fetchPipelineRunTaskRunsForPrompt namespace name;
    let '(taskRuns, taskRunsText) := found in
    pipelineText ← fetchPipelineDefinitionForPrompt namespace pipelineRun;
    logsText ← fetchPipelineRunLogsForPrompt namespace taskRuns;
    eventsText ← fetchPipelineRunEventsForPrompt namespace name taskRuns;
    pacText ← fetchPipelineRunPACRepositoriesForPrompt namespace;
    tektonConfigText ← fetchTektonConfigsForPrompt;
    Ret (Ok (NewPromptCallResult "PipelineRun troubleshooting data gathered successfully"
      [mkPromptMessage "user" (mkPromptContent "text"
         (buildPipelineTroubleshootPrompt namespace name collected (status_hint pipelineRun) pipelineRunText pipelineText
            taskRunsText logsText eventsText pacText tektonConfigText));
       mkPromptMessage "assistant" (mkPromptContent "text"
         "I'll analyze the collected Tekton data to identify the PipelineRun issue.")] None)).
End Prompt.

(** ** toolset.go *)

Section Toolset.
Context {PRest TRest StatusRest : Type} (pipeline_zero : PRest) (task_zero : TRest).
Context (FromPipelineRun : object -> result (string * tekton_spec PRest)).
Context (ToPipelineRun : new_run PRest -> result object).
Context (FromTaskRun : object -> result (task_run TRest StatusRest)) (ToTaskRun : new_run TRest -> result object).
Context (range_map : list (string * jvalue) -> list (string * jvalue)).
Context (ValidatedSelector : list (string * string) -> result string) (ovf : spec_float -> Z).

Definition ToolsetName : string := "tekton".
Definition ToolsetDescription : string :=
  "Tekton pipeline management tools for Pipelines, PipelineRuns, Tasks, TaskRuns, and troubleshooting.".
(** The parts of a task run that a restart uses. *)
Definition task_run_spec (o : object) : result (string * tekton_spec TRest) :=
  match FromTaskRun o with Ok tr => Ok (tr_GenerateName tr, tr_Spec tr) | Err err => Err err end.
Definition GetTools : list core_tool :=
  [core tekton_pipeline_start_tool (startPipeline pipeline_zero ToPipelineRun range_map);
   core tekton_pipelinerun_lifecycle_tool (pipelineRunLifecycle FromPipelineRun ToPipelineRun);
   core tekton_pipelinerun_logs_tool (getPipelineRunLogs FromTaskRun ValidatedSelector ovf);
   core tekton_task_start_tool (startTask task_zero ToTaskRun range_map);
   core tekton_taskrun_restart_tool (restartTaskRun task_run_spec ToTaskRun);
   core tekton_taskrun_logs_tool (getTaskRunLogs FromTaskRun ovf)].

(** * Specification *)

(** The namespace of a call, when it is given. *)
Definition call_namespace (args : arguments) (ns : string) : Prop :=
  forall s, args !! "namespace" = Some (JString s) -> ns = s.
(** What is created of a run: an object of this kind in this namespace that has not been
    cancelled. *)
Definition creates {Rest} (To : new_run Rest -> result object) (k : definition_kind) (ns : string) (obj : object) : Prop :=
  exists run, To run = Ok obj /\ nr_Kind run = dk_Run k /\ nr_Namespace run = ns /\ rs_Status (nr_Spec run) = "".
(** The changes that a call of a tool may make. *)
Definition tekton_change (args : arguments) {R} (c : kcall R) : Prop :=
  match c with
  | KCreate gvr ns obj =>
      call_namespace args ns /\
      ((gvr = pipelineRunGVR /\ creates ToPipelineRun pipeline_kind ns obj) \/
       (gvr = taskRunGVR /\ creates ToTaskRun task_kind ns obj))
  | KPatch gvr ns name patchType body =>
      call_namespace args ns /\ gvr = pipelineRunGVR /\ args !! "name" = Some (JString name) /\
      args !! "action" = Some (JString "cancel") /\ body = cancel_patch
  | _ => False
  end.
End Toolset.

(** A program makes at most one change, as its last call. *)
Definition changes_once (P : forall R, kcall R -> Prop) {A} (p : prog A) : Prop :=
  forall tr r, runs p tr r ->
    Forall (event_call (@reads_only)) tr \/
    exists before e, tr = before ++ [e] /\ Forall (event_call (@reads_only)) before /\ event_call P e.

(** A value that has the type of a parameter. *)
Definition is_string (v : jvalue) : Prop := match v with JString _ => True | _ => False end.
Definition param_typed (v : jvalue) : Prop :=
  match v with
  | JString _ => True
  | JArray l => Forall is_string l
  | JObject kvs => Forall (fun kv => is_string kv.2) kvs
  | _ => False
  end.
Definition string_of (v : jvalue) : string := match v with JString s => s | _ => "" end.
(** The parameter of a value of a type of parameters. *)
Definition param_of (v : jvalue) : param_value :=
  match v with
  | JArray l => ParamArray (map string_of l)
  | JObject kvs => ParamObject (list_to_map (map (fun kv => (kv.1, string_of kv.2)) kvs))
  | v => ParamString (string_of v)
  end.
(** A value whose keys are distinct. *)
Definition keys_once (v : jvalue) : Prop := match v with JObject kvs => NoDup kvs.*1 | _ => True end.

(** The calls for the logs of a task run: the steps asked for, then, if none is named,
    the sidecars, each in its container of the pod. *)
Definition log_calls {Rest StatusRest} (namespace : string) (tr : task_run Rest StatusRest) (stepName : string) (tail : Z) :
    list (kcall (result (result string))) :=
  map (fun c => KPodLogStream namespace (tr_PodName tr) c (Some tail))
    (map stp_Container (steps_named stepName tr) ++ (if stepName =?s "" then map sc_Container (tr_Sidecars tr) else [])).

(** * Lemmas *)

Lemma changes_once_ret P {A} (a : A) : changes_once P (Ret a).
Proof. intros tr r [-> _]. by left. Qed.

Lemma changes_once_reads P {A} (p : prog A) : every (@reads_only) p -> changes_once P p.
Proof. intros H tr r Hr. left. by eapply every_runs. Qed.

Lemma changes_once_then P {A B} (p : prog A) (f : A -> prog B) :
  every (@reads_only) p -> (forall a, changes_once P (f a)) -> changes_once P (prog_then p f).
Proof.
  intros Hp Hf tr r (tr1 & a & tr2 & -> & H1 & H2)%runs_then.
  pose proof (every_runs _ _ _ _ Hp H1) as Hr.
  destruct (Hf a tr2 r H2) as [H|(before & e & -> & Hb & He)].
  - left. by apply Forall_app_2.
  - right. exists (tr1 ++ before), e. rewrite <- (assoc_L app). split; [done|]. by split; [apply Forall_app_2|].
Qed.

Lemma changes_once_call P {A R} (c : kcall R) (f : R -> A) :
  P R c -> changes_once P (prog_then (call c) (fun r => Ret (f r))).
Proof.
  intros HP tr r (tr1 & a & tr2 & -> & H1 & [-> _])%runs_then. apply runs_call in H1 as ->.
  right. exists [], (Ev c a). by rewrite app_nil_r.
Qed.

Lemma reads_each_of {A B} (f : A -> prog (list B)) l :
  (forall a, every (@reads_only) (f a)) -> every (@reads_only) (for_each f l).
Proof.
  intros H. induction l as [|a l IH]; [done|]. cbn [for_each]. apply every_then; [apply H|].
  intros x. by apply every_then.
Qed.

Lemma reads_default_namespace ns : every (@reads_only) (NamespaceOrDefault ns).
Proof. unfold NamespaceOrDefault, configuredNamespace. every_read. Qed.

(** Past the extraction of the arguments. *)
Ltac extracted :=
  repeat match goal with |- context [match ?t with pair _ _ => _ end] => destruct t as [? ?] end;
  match goal with |- context [Params_Err ?p] => destruct (Params_Err p) end.

Section Facts.
Context {Rest StatusRest : Type} (FromTaskRun : object -> result (task_run Rest StatusRest)).
Context (ValidatedSelector : list (string * string) -> result string) (ovf : spec_float -> Z).

Lemma reads_collect ns (tr : task_run Rest StatusRest) step tail :
  every (@reads_only) (collectTaskRunLogs ns tr step tail).
Proof.
  unfold collectTaskRunLogs. case_match; [done|]. case_match; [done|].
  assert (forall p ns k n c t, every (@reads_only) (collectContainerLogs p ns k n c t)) as Hc.
  { intros. unfold collectContainerLogs. every_read. }
  apply every_then; [by apply reads_each_of|]. intros steps. apply every_then; [|done].
  case_match; [by apply reads_each_of|done].
Qed.

Lemma reads_task_runs ns run task :
  every (@reads_only) (pipelineRunTaskRuns FromTaskRun ValidatedSelector ns run task).
Proof. unfold pipelineRunTaskRuns. every_read. Qed.

Lemma reads_run_logs args : every (@reads_only) (getPipelineRunLogs FromTaskRun ValidatedSelector ovf args).
Proof.
  unfold getPipelineRunLogs. apply every_then; [apply reads_default_namespace|]. intros ns. extracted; [done|].
  apply every_then; [by apply every_call; intros []|]. intros [o|err]; [|done].
  apply every_then; [apply reads_task_runs|]. intros [[|tr trs]|err]; [done| |done].
  apply every_then; [|done]. apply reads_each_of. intros t. by apply every_then; [apply reads_collect|].
Qed.

Lemma reads_task_logs args : every (@reads_only) (getTaskRunLogs FromTaskRun ovf args).
Proof.
  unfold getTaskRunLogs. apply every_then; [apply reads_default_namespace|]. intros ns. extracted; [done|].
  apply every_then; [by apply every_call; intros []|]. intros [o|err]; [|done].
  destruct (FromTaskRun o) as [tr|err]; [|done]. by apply every_then; [apply reads_collect|].
Qed.
End Facts.

Lemma array_strings_spec l : forall i,
  match array_strings i l with
  | inl arr => Forall is_string l /\ arr = map string_of l
  | inr _ => ~ Forall is_string l
  end.
Proof.
  induction l as [|v l IH]; intros i; [done|]. destruct v; cbn; try by intros [? _]%Forall_cons.
  specialize (IH (S i)). destruct (array_strings (S i) l) as [arr|bad].
  - destruct IH as [H ->]. by split; [constructor|].
  - by intros [_ H]%Forall_cons.
Qed.
Lemma object_strings_spec kvs : forall obj,
  NoDup kvs.*1 ->
  match object_strings kvs obj with
  | inl m => Forall (fun kv => is_string kv.2) kvs /\
             m = list_to_map (map (fun kv => (kv.1, string_of kv.2)) kvs) ∪ obj
  | inr _ => ~ Forall (fun kv => is_string kv.2) kvs
  end.
Proof.
  induction kvs as [|[k v] kvs IH]; intros obj Hnd; cbn.
  { split; [done|]. by rewrite (left_id_L ∅ (∪)). }
  apply NoDup_cons in Hnd as [Hk Hnd].
  destruct v; cbn; try by intros [? _]%Forall_cons.
  specialize (IH (<[k := s]> obj) Hnd). destruct (object_strings kvs (<[k := s]> obj)) as [m|bad].
  - destruct IH as [H ->]. split; [by constructor|].
    rewrite <- insert_union_l, insert_union_r; [done|]. apply not_elem_of_list_to_map_1.
    by rewrite <- list_fmap_compose.
  - by intros [_ H]%Forall_cons.
Qed.

Section ParamFacts.
Context (range_map : list (string * jvalue) -> list (string * jvalue)) (Hrange : forall l, range_map l ≡ₚ l).

Lemma toParamValue_spec name v :
  keys_once v ->
  match toParamValue range_map name v with
  | Ok pv => param_typed v /\ pv = param_of v
  | Err _ => ~ param_typed v
  end.
Proof.
  intros Hk. destruct v as [|s|b|f|z|z|l|kvs]; cbn; try tauto; try done.
  - pose proof (array_strings_spec l 0) as H. destruct (array_strings 0 l) as [arr|[i elem]]; [|done].
    destruct H as [H ->]. done.
  - assert (NoDup (range_map kvs).*1) as Hnd by (by rewrite Hrange).
    pose proof (object_strings_spec (range_map kvs) ∅ Hnd) as H.
    destruct (object_strings (range_map kvs) ∅) as [m|[k elem]].
    + destruct H as [H ->]. rewrite Hrange in H. split; [done|].
      rewrite (right_id_L ∅ (∪)). f_equal. apply list_to_map_proper.
      * rewrite <- list_fmap_compose. done.
      * by rewrite Hrange.
    + by rewrite Hrange in H.
Qed.
Lemma parse_each_spec kvs :
  Forall (fun kv => keys_once kv.2) kvs ->
  match parse_each range_map kvs with
  | Ok params => Forall (fun kv => param_typed kv.2) kvs /\
                 params = map (fun kv => mkParam kv.1 (param_of kv.2)) kvs
  | Err _ => ~ Forall (fun kv => param_typed kv.2) kvs
  end.
Proof.
  induction 1 as [|[k v] kvs Hk _ IH]; [done|]. cbn [parse_each].
  pose proof (toParamValue_spec k v Hk) as H. destruct (toParamValue range_map k v) as [pv|err].
  - destruct H as [Ht ->]. destruct (parse_each range_map kvs) as [params|err].
    + destruct IH as [H ->]. by split; [constructor|].
    + by intros [_ ?]%Forall_cons.
  - by intros [? _]%Forall_cons.
Qed.
End ParamFacts.

(** * Properties *)

Section Properties.
Context {PRest TRest StatusRest : Type} (pipeline_zero : PRest) (task_zero : TRest).
Context (FromPipelineRun : object -> result (string * tekton_spec PRest)).
Context (ToPipelineRun : new_run PRest -> result object).
Context (FromTaskRun : object -> result (task_run TRest StatusRest)) (ToTaskRun : new_run TRest -> result object).
Context (range_map : list (string * jvalue) -> list (string * jvalue)).
Context (ValidatedSelector : list (string * string) -> result string) (ovf : spec_float -> Z).

Lemma create_run_change (P : forall R, kcall R -> Prop) {Rest} (To : new_run Rest -> result object) k ns failure run started :
  (forall obj, To run = Ok obj -> P _ (KCreate (dk_RunGVR k) ns obj)) ->
  changes_once P (create_run To k ns failure run started).
Proof.
  intros H. unfold create_run. destruct (To run) as [obj|err]; [|apply changes_once_ret].
  apply changes_once_call. by apply H.
Qed.

Lemma start_change (P : forall R, kcall R -> Prop) {Rest} (zero : Rest) To k args :
  (forall ns obj, call_namespace args ns -> creates To k ns obj -> P _ (KCreate (dk_RunGVR k) ns obj)) ->
  changes_once P (start zero To range_map k args).
Proof.
  intros H. unfold start. apply changes_once_then; [apply reads_default_namespace|]. intros ns0.
  destruct (Params_RequiredString _ _) as [name p1] eqn:E1.
  destruct (Params_OptionalString _ _ _) as [ns p2] eqn:E2.
  unfold Params_Err. destruct (p_err p2) as [err|] eqn:Hp; [apply changes_once_ret|].
  destruct (OptionalString_ok _ _ _ _ _ E2 Hp) as [-> Hns].
  destruct (RequiredString_ok _ _ _ _ E1 Hp) as [<- _].
  apply changes_once_then; [by apply every_call; intros []|]. intros [o|err]; [|apply changes_once_ret].
  destruct (call_params range_map args) as [params|err]; [|apply changes_once_ret].
  apply create_run_change. intros obj Hobj. apply H; [|by eexists].
  intros s Hs. cbn in Hns. rewrite Hs in Hns. by injection Hns.
Qed.

Lemma restart_change (P : forall R, kcall R -> Prop) {Rest} (From : object -> result (string * tekton_spec Rest)) To k ns name :
  (forall obj, creates To k ns obj -> P _ (KCreate (dk_RunGVR k) ns obj)) ->
  changes_once P (restart From To k ns name).
Proof.
  intros H. unfold restart. apply changes_once_then; [by apply every_call; intros []|].
  intros [o|err]; [|apply changes_once_ret]. destruct (From o) as [existing|err]; [|apply changes_once_ret].
  apply create_run_change. intros obj Hobj. apply H. by eexists.
Qed.

(** C39. Whatever its arguments and the answers of the cluster, a tool of the toolset makes
    at most one change, as its last call: it creates a run that is not cancelled, in the
    namespace of the call, or cancels the pipeline run that the call names. *)
Theorem tekton_changes_once :
  Forall (fun t => forall args,
      changes_once (@tekton_change PRest TRest ToPipelineRun ToTaskRun args) (ct_Handler t args))
    (GetTools pipeline_zero task_zero FromPipelineRun ToPipelineRun FromTaskRun ToTaskRun range_map ValidatedSelector ovf).
Proof.
  assert (forall P (p : prog ToolCallResult), changes_once P p ->
    changes_once P (prog_then p (fun r => Ret (Some r)))) as Hcore.
  { intros P p Hp tr r (tr1 & a & tr2 & -> & H1 & [-> _])%runs_then. rewrite app_nil_r. by apply (Hp tr1 a). }
  repeat apply Forall_cons_2; [..|done]; intros args; apply Hcore.
  - apply start_change. intros ns obj Hns Hobj. split; [done|by left].
  - unfold pipelineRunLifecycle. apply changes_once_then; [apply reads_default_namespace|]. intros ns0.
    destruct (Params_RequiredString _ _) as [name p1] eqn:E1.
    destruct (Params_OptionalString _ _ _) as [ns p2] eqn:E2.
    destruct (Params_RequiredString _ p2) as [action p3] eqn:E3.
    unfold Params_Err. destruct (p_err p3) as [err|] eqn:Hp; [apply changes_once_ret|].
    destruct (RequiredString_ok _ _ _ _ E3 Hp) as [-> Haction].
    destruct (OptionalString_ok _ _ _ _ _ E2 Hp) as [-> Hns].
    destruct (RequiredString_ok _ _ _ _ E1 Hp) as [<- Hname]. cbn in Haction, Hns, Hname.
    assert (call_namespace args ns) as Hin by (intros s Hs; rewrite Hs in Hns; by injection Hns).
    destruct (bool_decide_reflect (action = "restart")) as [->|_].
    { apply restart_change. intros obj Hobj. split; [done|by left]. }
    destruct (bool_decide_reflect (action = "cancel")) as [->|_]; [|apply changes_once_ret].
    by apply changes_once_call.
  - by apply changes_once_reads, reads_run_logs.
  - apply start_change. intros ns obj Hns Hobj. split; [done|by right].
  - unfold restartTaskRun. apply changes_once_then; [apply reads_default_namespace|]. intros ns0.
    destruct (Params_RequiredString _ _) as [name p1] eqn:E1.
    destruct (Params_OptionalString _ _ _) as [ns p2] eqn:E2.
    unfold Params_Err. destruct (p_err p2) as [err|] eqn:Hp; [apply changes_once_ret|].
    destruct (OptionalString_ok _ _ _ _ _ E2 Hp) as [-> Hns].
    destruct (RequiredString_ok _ _ _ _ E1 Hp) as [<- _]. cbn in Hns.
    apply restart_change. intros obj Hobj. split; [|by right].
    intros s Hs. rewrite Hs in Hns. by injection Hns.
  - by apply changes_once_reads, reads_task_logs.
Qed.

(** The tools keep their hints: the two for logs only read, and only the lifecycle tool
    changes what is there already. *)
Theorem tekton_tools_annotations :
  Forall annotations_hold
    (GetTools pipeline_zero task_zero FromPipelineRun ToPipelineRun FromTaskRun ToTaskRun range_map ValidatedSelector ovf).
Proof.
  assert (forall t h, (forall args, every (@non_destructive) (h args)) ->
    ta_ReadOnlyHint (tl_Annotations t) = Some false -> annotations_hold (core t h)) as Hcore.
  { intros t h H Hro. split; cbn [ct_Tool core]; [by rewrite Hro|]. intros _ args. by apply every_then. }
  assert (forall {Rest} (To : new_run Rest -> result object) k ns failure run started,
    every (@non_destructive) (create_run To k ns failure run started)) as Hcreate.
  { intros. unfold create_run. case_match; [|done]. by apply every_then; [apply every_call|]. }
  assert (forall ns, every (@non_destructive) (NamespaceOrDefault ns)) as Hns.
  { intros. apply reads_non_destructive, reads_default_namespace. }
  assert (forall {Rest} (zero : Rest) To k args, every (@non_destructive) (start zero To range_map k args)) as Hstart.
  { intros. unfold start. apply every_then; [done|]. intros ns. extracted; [done|].
    apply every_then; [by apply every_call|]. intros [o|err]; [|done]. by case_match. }
  repeat apply Forall_cons_2; [..|done].
  - apply Hcore; [intros args; apply Hstart|done].
  - by split.
  - apply core_reads; [done|]. intros args. apply reads_run_logs.
  - apply Hcore; [intros args; apply Hstart|done].
  - apply Hcore; [|done]. intros args. unfold restartTaskRun. apply every_then; [done|]. intros ns.
    extracted; [done|]. unfold restart. apply every_then; [by apply every_call|]. intros [o|err]; [|done].
    by case_match.
  - apply core_reads; [done|]. intros args. apply reads_task_logs.
Qed.

(** A restart has the specification of the run it restarts but for its status, and a
    prefix of its name; restarting it once more, whatever name it was given, creates the
    same run. *)
Theorem restart_again {Rest} k ns name name' (existing : string * tekton_spec Rest) :
  let run := restart_of k ns name existing in
  rs_Ref (nr_Spec run) = rs_Ref existing.2 /\ rs_Params (nr_Spec run) = rs_Params existing.2 /\
  rs_Rest (nr_Spec run) = rs_Rest existing.2 /\ rs_Status (nr_Spec run) = "" /\ nr_GenerateName run <> "" /\
  restart_of k ns name' (nr_GenerateName run, nr_Spec run) = run.
Proof.
  unfold restart_of. destruct existing as [gen spec]. cbn.
  assert ((if gen ≠?s "" then gen else name +:+ "-") <> "") as Hne.
  { destruct (bool_decide_reflect (gen = "")) as [->|]; cbn; [|done]. by destruct name. }
  split_and!; try done. cbn [fst snd]. rewrite (bool_decide_eq_false_2 _ Hne). by unfold with_status.
Qed.

(** The logs of a task run are asked for in the containers of the steps that are named,
    in order, then, if no step is named, in those of the sidecars, and of nothing else;
    without a pod or a step of this name no call is made. *)
Theorem task_run_log_calls ns (tr : task_run TRest StatusRest) stepName tail trace logs :
  runs (collectTaskRunLogs ns tr stepName tail) trace logs ->
  (trace = [] /\ (tr_PodName tr = "" \/ steps_named stepName tr = [])) \/
  exists answers, trace = zip_with Ev (log_calls ns tr stepName tail) answers /\
    length answers = length (log_calls ns tr stepName tail).
Proof.
  unfold collectTaskRunLogs, log_calls.
  assert (forall {A} (name container : A -> string) kind l trace texts,
    runs (for_each (fun s => collectContainerLogs (tr_PodName tr) ns kind (name s) (container s) tail) l) trace texts ->
    exists answers, length answers = length l /\
      trace = zip_with Ev (map (fun c => KPodLogStream ns (tr_PodName tr) c (Some tail)) (map container l)) answers) as Heach.
  { intros A name container kind l. induction l as [|a l IH]; intros t texts; cbn [for_each].
    - intros [-> _]. by exists [].
    - intros (t1 & x & t2 & -> & (t3 & answer & t4 & -> & ->%runs_call & [-> _])%runs_then & H)%runs_then.
      apply runs_then in H as (t5 & rest & t6 & -> & H & [-> _]). destruct (IH _ _ H) as (answers & Hl & ->).
      exists (answer :: answers). cbn. by rewrite Hl, !app_nil_r. }
  destruct (bool_decide_reflect (stepName = "")) as [->|Hne]; cbn [orb negb].
  - destruct (bool_decide_reflect (tr_PodName tr = "")) as [Hp|Hp]; [intros [-> _]; left; auto|].
    intros (t1 & steps & t2 & -> & H1 & H2)%runs_then. apply runs_then in H2 as (t3 & cars & t4 & -> & H2 & [-> _]).
    apply Heach in H1 as (a1 & Hl1 & ->). apply Heach in H2 as (a2 & Hl2 & ->). right. exists (a1 ++ a2).
    rewrite map_app, app_nil_r, !length_app, !length_map, Hl1, Hl2. split; [|done].
    by rewrite zip_with_app by (by rewrite !length_map).
  - destruct (existsb _ (tr_Steps tr)) eqn:Hstep; cbn [negb].
    2:{ intros [-> _]. left. split; [done|]. right. unfold steps_named. rewrite bool_decide_eq_false_2 by done. cbn [orb].
        clear -Hstep. induction (tr_Steps tr) as [|s l IH]; [done|]. cbn in *.
        apply orb_false_iff in Hstep as [-> H]. by apply IH. }
    destruct (bool_decide_reflect (tr_PodName tr = "")) as [Hp|Hp]; [intros [-> _]; left; auto|].
    intros (t1 & steps & t2 & -> & H1 & H2)%runs_then. apply runs_then in H2 as (t3 & cars & t4 & -> & [-> _] & [-> _]).
    apply Heach in H1 as (a1 & Hl1 & ->). right. exists a1. rewrite !app_nil_r, !length_map, Hl1. done.
Qed.

(** What the log of a container adds to a text is bounded. *)
Theorem log_text_bounded kind name stream :
  slen (log_text kind name (Ok (Ok stream))) <= slen kind + slen name + 6 + Z.to_nat maxLogBytesPerContainer.
Proof.
  unfold log_text. generalize (Z.to_nat maxLogBytesPerContainer) as n. intros n.
  pose proof (slen_take_str n stream) as Hn. destruct (take_str n stream =?s ""); [change (slen "") with 0; lia|].
  rewrite !fmt_cons, !slen_append, Hn. change (slen (fmt [])) with 0. change (slen "[") with 1.
  change (slen ": ") with 2. change (slen "]") with 1. change (slen nl) with 1. lia.
Qed.

(** Parameters are read exactly when all of them are strings, arrays of strings or
    objects of strings; the result is the same in whatever order Go goes through the
    maps, but for the order of the list. *)
Theorem parseParams_spec raw :
  (forall l, range_map l ≡ₚ l) -> Forall (fun kv => keys_once kv.2) raw ->
  (is_ok (parseParams range_map raw) = true <-> Forall (fun kv => param_typed kv.2) raw) /\
  (forall params, parseParams range_map raw = Ok params ->
     params ≡ₚ map (fun kv => mkParam kv.1 (param_of kv.2)) raw).
Proof.
  intros Hrange Hk. unfold parseParams. rewrite <- (Hrange raw) in Hk.
  pose proof (parse_each_spec range_map Hrange _ Hk) as H.
  destruct (parse_each range_map (range_map raw)) as [params|err].
  - destruct H as [H ->]. rewrite Hrange in H. split; [done|]. intros params [= <-]. by rewrite Hrange.
  - rewrite Hrange in H. done.
Qed.

(** The events that are shown are the warnings of the lists that were read, each key
    once. *)
Theorem related_events_spec lists :
  let shown := foldl add_events [] lists in
  NoDup (map event_key shown) /\ Forall (fun e => ce_Type e = "Warning" /\ e ∈ concat lists) shown /\
  Forall (fun e => ce_Type e = "Warning" -> event_key e ∈ map event_key shown) (concat lists).
Proof.
  cbv zeta.
  set (step := fun seen e => if ce_Type e ≠?s "Warning" then seen
                             else if slices_Contains (map event_key seen) (event_key e) then seen else seen ++ [e]).
  assert (forall seen, foldl add_events seen lists = foldl step seen (concat lists)) as ->.
  { induction lists as [|l ls IH]; intros seen; [done|]. cbn [foldl concat]. by rewrite IH, foldl_app. }
  induction (concat lists) as [|e l (Hnd & Hin & Hall)] using rev_ind; [by repeat constructor|].
  rewrite foldl_app. cbn [foldl]. set (seen := foldl step [] l) in *. unfold step.
  assert (Forall (fun e0 => ce_Type e0 = "Warning" /\ e0 ∈ l ++ [e]) seen) as Hin'.
  { eapply Forall_impl; [exact Hin|]. intros x [? ?]. set_solver. }
  destruct (bool_decide_reflect (ce_Type e = "Warning")) as [Hw|Hw]; cbn [negb].
  2:{ split_and!; [done..|]. apply Forall_app. by split; [|constructor]. }
  destruct (slices_Contains (map event_key seen) (event_key e)) eqn:Hc.
  { split_and!; [done..|]. apply Forall_app. split; [done|]. constructor; [|done]. intros _.
    by apply slices_Contains_spec. }
  assert (event_key e ∉ map event_key seen) as Hnew.
  { intros H%slices_Contains_spec. by rewrite Hc in H. }
  rewrite map_app. cbn [map]. split_and!.
  - apply NoDup_app. split_and!; [done|set_solver|apply NoDup_singleton].
  - apply Forall_app. split; [done|]. constructor; [|done]. split; [done|set_solver].
  - apply Forall_app. split; [|constructor; [set_solver|done]].
    eapply Forall_impl; [exact Hall|]. intros x Hx Hxw. specialize (Hx Hxw). set_solver.
Qed.
End Properties.

(** The troubleshooting prompt only reads. *)
Theorem pipeline_troubleshoot_reads {Rest StatusRest} From VS FS MO ML M MS ME collected args :
  every (@reads_only) (@pipelineTroubleshootHandler Rest StatusRest From VS FS MO ML M MS ME collected args).
Proof.
  unfold pipelineTroubleshootHandler. case_match; [done|]. case_match; [done|].
  apply every_then; [unfold fetchPipelineRunForPrompt; every_read|]. intros [run runText].
  apply every_then; [apply every_then; [apply reads_task_runs|done]|]. intros [trs trsText].
  apply every_then; [unfold fetchPipelineDefinitionForPrompt; every_read|]. intros pipelineText.
  apply every_then.
  { destruct trs as [|tr trs]; [done|]. apply every_then; [|done]. apply reads_each_of. intros t.
    apply every_then; [|done]. apply reads_each_of. intros st. by apply every_then; [apply reads_collect|]. }
  intros logsText. apply every_then.
  { apply every_then; [|done]. apply reads_each_of. intros target. unfold target_events. every_read. }
  intros eventsText. apply every_then; [unfold fetchPipelineRunPACRepositoriesForPrompt, all_resources_text; every_read|].
  intros pacText. apply every_then; [unfold fetchTektonConfigsForPrompt, all_resources_text; every_read|done].
Qed.

(** * Examples and witnesses *)

Lemma parseParams_spec_witness :
  let raw := [("revision", JString "main"); ("flags", JArray [JString "-v"; JString "-x"]);
              ("env", JObject [("A", JString "1"); ("B", JString "2")])] in
  is_ok (parseParams (@rev _) raw) = true /\
  (forall params, parseParams (@rev _) raw = Ok params ->
     params ≡ₚ map (fun kv => mkParam kv.1 (param_of kv.2)) raw).
Proof.
  destruct (parseParams_spec (@rev _) [("revision", JString "main"); ("flags", JArray [JString "-v"; JString "-x"]);
    ("env", JObject [("A", JString "1"); ("B", JString "2")])]) as [H1 H2].
  - intros l. symmetry. apply Permutation_rev.
  - repeat constructor; set_solver.
  - split; [|exact H2]. apply H1. by repeat constructor.
Defined.

Example array_of_numbers :
  parseParams id [("flags", JArray [JString "-v"; JInt64 3])] =
  Err (ErrNew (fmt ["param "; dq; "flags"; dq; ": array element 1 must be a string, got int64"])).
Proof. by vm_compute. Qed.

(** A task run with two steps and a sidecar. *)
Definition demo_task_run : task_run unit unit :=
  mkTaskRun "build-run" "build-" (mkRunSpec (Some "build") [] "" tt) "build-run-pod"
    [mkStep "compile" "step-compile" (Some (0%Z, "Completed")) None; mkStep "test" "step-test" (Some (1%Z, "Error")) None]
    [mkSidecar "registry" "sidecar-registry"] tt.

Lemma task_run_log_calls_witness :
  let tr := [Ev (KPodLogStream "ci" "build-run-pod" "step-test" (Some 100%Z)) (Ok (Ok "FAIL"))] in
  runs (collectTaskRunLogs "ci" demo_task_run "test" 100) tr (fmt ["[step: test]"; nl; "FAIL"; nl]) /\
  ((tr = [] /\ (tr_PodName demo_task_run = "" \/ steps_named "test" demo_task_run = [])) \/
   exists answers, tr = zip_with Ev (log_calls "ci" demo_task_run "test" 100) answers /\
     length answers = length (log_calls "ci" demo_task_run "test" 100)).
Proof.
  cbv zeta.
  assert (runs (collectTaskRunLogs "ci" demo_task_run "test" 100)
    [Ev (KPodLogStream "ci" "build-run-pod" "step-test" (Some 100%Z)) (Ok (Ok "FAIL"))]
    (fmt ["[step: test]"; nl; "FAIL"; nl])) as H.
  { eexists (Ok (Ok "FAIL")), []. split; [reflexivity|]. split; [done|]. unfold collectContainerLogs, log_text.
    pose proof (slen_take_str (Z.to_nat maxLogBytesPerContainer) "FAIL") as Hlen.
    rewrite take_str_all; [done|]. change (slen "FAIL") with 4. unfold maxLogBytesPerContainer. lia. }
  split; [exact H|]. exact (task_run_log_calls "ci" demo_task_run "test" 100 _ _ H).
Defined.

(** A failed step is one that ended with a code or a reason of its own, or waits for
    something else than its start. *)
Example failed_steps_of_demo : map stp_Name (failed_steps demo_task_run) = ["test"].
Proof. by vm_compute. Qed.
Example still_pulling :
  failedOrErroredStep (mkStep "s" "step-s" None (Some "ImagePullBackOff")) = true /\
  failedOrErroredStep (mkStep "s" "step-s" None (Some "ContainerCreating")) = false.
Proof. by vm_compute. Qed.
