(* ===== verification/LogSink.v ===== *)
(** The log of the server (pkg/logging: sink.go, tee_sink.go; pkg/klogutil/util.go): the
    destination that a reload replaces while goroutines write to it, and the sink that
    forwards each record to the text log and to the OpenTelemetry bridge.

    The goroutines are interleaved in steps: a write takes the shared lock, reads the
    writer, writes, and gives the lock back; a reload opens the new file without the lock
    and then replaces the writer and closes the old file as one step, which needs the
    exclusive lock.  Warnings of the sink itself are writes like any other. *)
From S2P Require Import Prelude GoStrings Config.

(** * Definitions *)

(** ** sink.go *)

Definition StderrSentinel : string := "stderr".

(** The writers: those of the process for HTTP mode and for errors, [io.Discard], and an
    open file. *)
Inductive writer : Type := WHttpOut | WErrOut | WDiscard | WFile (f : nat).
#[export] Instance writer_eq_dec : EqDecision writer.
Proof. solve_decision. Defined.

(** The files that were opened, with their paths and whether they are open still, and
    what was written: the writer, the text, and whether the write succeeded. *)
Record os := mkOs {
  os_next : nat;
  os_files : gmap nat (string * bool);
  os_writes : list (writer * string * bool);
}.
Definition open_file (path : string) (o : os) : nat * os :=
  (os_next o, mkOs (S (os_next o)) (<[os_next o := (path, true)]> (os_files o)) (os_writes o)).
Definition close_file (f : option nat) (o : os) : os :=
  match f with
  | None => o
  | Some f => mkOs (os_next o) (alter (fun p => (p.1, false)) f (os_files o)) (os_writes o)
  end.
Definition file_open (o : os) (f : nat) : bool :=
  match os_files o !! f with Some (_, b) => b | None => false end.
(** A write to a file that is closed fails. *)
Definition write_to (w : writer) (p : string) (o : os) : os :=
  mkOs (os_next o) (os_files o)
    (os_writes o ++ [(w, p, match w with WFile f => file_open o f | _ => true end)]).

(** The sink: [sk_verbosity] is klog's flag, [sk_provider] whether there is a provider to
    shut down. *)
Record Sink := mkSink {
  sk_httpMode : bool;
  sk_writer : option writer;
  sk_file : option nat;
  sk_lastLogFile : string;
  sk_applied : bool;
  sk_verbosity : Z;
  sk_provider : bool;
}.
Definition remember (LogFile : string) (s : Sink) : Sink :=
  mkSink (sk_httpMode s) (sk_writer s) (sk_file s) LogFile true (sk_verbosity s) (sk_provider s).
Definition put_writer (w : writer) (f : option nat) (s : Sink) : Sink :=
  mkSink (sk_httpMode s) (Some w) f (sk_lastLogFile s) (sk_applied s) (sk_verbosity s) (sk_provider s).
(** [klogFlags.Set("v", ...)], for a level that is not negative: a level that is no
    32-bit integer is an error, which is ignored or logged. *)
Definition set_verbosity (LogLevel : Z) (s : Sink) : Sink :=
  if (0 <=? LogLevel)%Z && (LogLevel <? 2 ^ 31)%Z then
    mkSink (sk_httpMode s) (sk_writer s) (sk_file s) (sk_lastLogFile s) (sk_applied s) LogLevel (sk_provider s)
  else s.

(** The first part of [applyDestination]: nothing, or the file and the writer to install;
    [open_err] is the answer of [os.OpenFile]. *)
Definition prepare (LogFile : string) (open_err : option error) (s : Sink) (o : os) :
    result (option (option nat * writer)) * Sink * os :=
  if sk_applied s && (LogFile =?s sk_lastLogFile s) && ((LogFile =?s "") || (LogFile =?s StderrSentinel)) then
    (Ok None, s, o)
  else if LogFile =?s "" then
    (Ok (Some (None, if sk_httpMode s then WHttpOut else WDiscard)), remember LogFile s, o)
  else if LogFile =?s StderrSentinel then (Ok (Some (None, WErrOut)), remember LogFile s, o)
  else
    match open_err with
    | Some err => (Err (wrapf (fmt ["failed to open log file "; quote LogFile; ": "]) err), s, o)
    | None => let '(f, o) := open_file LogFile o in (Ok (Some (Some f, WFile f)), remember LogFile s, o)
    end.
(** The second part, under the exclusive lock. *)
Definition swap (newFile : option nat) (newWriter : writer) (s : Sink) (o : os) : Sink * os :=
  (put_writer newWriter newFile s, close_file (sk_file s) o).
Definition applyDestination (LogFile : string) (open_err : option error) (s : Sink) (o : os) : option error * Sink * os :=
  match prepare LogFile open_err s o with
  | (Err err, s, o) => (Some err, s, o)
  | (Ok None, s, o) => (None, s, o)
  | (Ok (Some (newFile, newWriter)), s, o) => let '(s, o) := swap newFile newWriter s o in (None, s, o)
  end.

(** [New], with whether the option for OpenTelemetry is given. *)
Definition New (cfg : StaticConfig) (open_err : option error) (otel : bool) (o : os) : result Sink * os :=
  let s := mkSink (bool_decide (c_Port cfg <> "")) None None "" false 0 false in
  match applyDestination (c_LogFile cfg) open_err s o with
  | (Some err, _, o) => (Err err, o)
  | (None, s, o) =>
      let s := set_verbosity (c_LogLevel cfg) s in
      (Ok (mkSink (sk_httpMode s) (sk_writer s) (sk_file s) (sk_lastLogFile s) (sk_applied s) (sk_verbosity s) otel), o)
  end.
Definition Reload (cfg : StaticConfig) (open_err : option error) (s : Sink) (o : os) : option error * Sink * os :=
  match applyDestination (c_LogFile cfg) open_err s o with
  | (Some err, s, o) => (Some err, s, o)
  | (None, s, o) => (None, set_verbosity (c_LogLevel cfg) s, o)
  end.
(** [Close], after the provider, which is shut down once, was shut down. *)
Definition Close (s : Sink) (o : os) : Sink * os :=
  (mkSink (sk_httpMode s) (Some WErrOut) None (sk_lastLogFile s) (sk_applied s) (sk_verbosity s) false,
   close_file (sk_file s) o).
Definition write (w : option writer) (p : string) (o : os) : os := write_to (default WDiscard w) p o.
Definition Write (p : string) (s : Sink) (o : os) : os := write (sk_writer s) p o.

(** ** The goroutines *)

(** A goroutine in a write: with the shared lock, with the writer it has read, and after
    the write; and in a reload, before the exclusive lock. *)
Inductive thread : Type :=
| THolds (p : string)
| TFetched (p : string) (w : option writer)
| TWrote
| TPrepared (newFile : option nat) (newWriter : writer) (LogLevel : Z).
Definition holds_lock (t : thread) : bool :=
  match t with THolds _ | TFetched _ _ | TWrote => true | TPrepared _ _ _ => false end.

Record sys := mkSys { sy_sink : Sink; sy_os : os; sy_threads : gmap nat thread }.
Definition lock_free (y : sys) : bool :=
  bool_decide (map_Forall (fun _ t => holds_lock t = false) (sy_threads y)).

Inductive label : Type :=
| LLock (t : nat) (p : string)
| LFetch (t : nat)
| LWrite (t : nat)
| LUnlock (t : nat)
| LPrepare (t : nat) (cfg : StaticConfig) (open_err : option error)
| LSwap (t : nat)
| LClose.

(** A step, when it can be made. *)
Definition step (l : label) (y : sys) : option sys :=
  let 'mkSys s o ts := y in
  match l with
  | LLock t p => match ts !! t with None => Some (mkSys s o (<[t := THolds p]> ts)) | Some _ => None end
  | LFetch t =>
      match ts !! t with
      | Some (THolds p) => Some (mkSys s o (<[t := TFetched p (sk_writer s)]> ts))
      | _ => None
      end
  | LWrite t =>
      match ts !! t with
      | Some (TFetched p w) => Some (mkSys s (write w p o) (<[t := TWrote]> ts))
      | _ => None
      end
  | LUnlock t => match ts !! t with Some TWrote => Some (mkSys s o (delete t ts)) | _ => None end
  | LPrepare t cfg open_err =>
      match ts !! t with
      | Some _ => None
      | None =>
          match prepare (c_LogFile cfg) open_err s o with
          | (Err _, s, o) => Some (mkSys s o ts)
          | (Ok None, s, o) => Some (mkSys (set_verbosity (c_LogLevel cfg) s) o ts)
          | (Ok (Some (f, w)), s, o) => Some (mkSys s o (<[t := TPrepared f w (c_LogLevel cfg)]> ts))
          end
      end
  | LSwap t =>
      match ts !! t with
      | Some (TPrepared f w LogLevel) =>
          if lock_free y then
            let '(s, o) := swap f w s o in Some (mkSys (set_verbosity LogLevel s) o (delete t ts))
          else None
      | _ => None
      end
  | LClose => if lock_free y then let '(s, o) := Close s o in Some (mkSys s o ts) else None
  end.
Fixpoint steps (ls : list label) (y : sys) : option sys :=
  match ls with
  | [] => Some y
  | l :: ls => y' ← step l y; steps ls y'
  end.

(** ** tee_sink.go *)

(** The keys and values of a record, as far as they are told apart: a value that is a
    [context.Context], a string, or another value by its text. *)
Inductive log_value : Type := LvContext | LvString (s : string) | LvOther (text : string).
#[export] Instance log_value_eq_dec : EqDecision log_value.
Proof. solve_decision. Defined.
Definition is_context (v : log_value) : bool := bool_decide (v = LvContext).

(** [logr.LogSink] over a type of sinks, with the records it gives out;
    [logr.CallDepthLogSink] is an option of it. *)
Class LogSink (S E : Type) := {
  ls_Init : S -> Z -> S;
  ls_Enabled : S -> Z -> bool;
  ls_Info : S -> Z -> string -> list log_value -> list E;
  ls_Error : S -> option error -> string -> list log_value -> list E;
  ls_WithValues : S -> list log_value -> S;
  ls_WithName : S -> string -> S;
  ls_WithCallDepth : option (S -> Z -> S);
}.

(** Pairs with a context are left out; a key at the end without a value stays. *)
Fixpoint stripContextValues (kvs : list log_value) : list log_value :=
  match kvs with
  | k :: v :: kvs => if is_context v then stripContextValues kvs else k :: v :: stripContextValues kvs
  | kvs => kvs
  end.

Definition sinkWithCallDepth {S E} `{LogSink S E} (sink : S) (depth : Z) : S :=
  match ls_WithCallDepth with Some f => f sink depth | None => sink end.

Record teeSink (P Q : Type) := mkTee { te_primary : P; te_secondary : Q }.
Arguments mkTee {P Q} _ _.
Arguments te_primary {P Q} _.
Arguments te_secondary {P Q} _.

Section Tee.
Context {P Q E F : Type} `{LogSink P E} `{LogSink Q F}.

Definition tee_Init (t : teeSink P Q) (callDepth : Z) : teeSink P Q :=
  mkTee (ls_Init (te_primary t) (callDepth + 1)) (ls_Init (te_secondary t) (callDepth + 1)).
Definition tee_Enabled (t : teeSink P Q) (level : Z) : bool :=
  ls_Enabled (te_primary t) level || ls_Enabled (te_secondary t) level.
Definition tee_Info (t : teeSink P Q) (level : Z) (msg : string) (kvs : list log_value) : list (E + F) :=
  (if ls_Enabled (te_primary t) level then map inl (ls_Info (te_primary t) level msg (stripContextValues kvs)) else []) ++
  (if ls_Enabled (te_secondary t) level then map inr (ls_Info (te_secondary t) level msg kvs) else []).
Definition tee_Error (t : teeSink P Q) (err : option error) (msg : string) (kvs : list log_value) : list (E + F) :=
  map inl (ls_Error (te_primary t) err msg (stripContextValues kvs)) ++
  map inr (ls_Error (te_secondary t) err msg kvs).
Definition tee_WithValues (t : teeSink P Q) (kvs : list log_value) : teeSink P Q :=
  mkTee (ls_WithValues (te_primary t) (stripContextValues kvs)) (ls_WithValues (te_secondary t) kvs).
Definition tee_WithName (t : teeSink P Q) (name : string) : teeSink P Q :=
  mkTee (ls_WithName (te_primary t) name) (ls_WithName (te_secondary t) name).
Definition tee_WithCallDepth (t : teeSink P Q) (depth : Z) : teeSink P Q :=
  mkTee (sinkWithCallDepth (te_primary t) depth) (sinkWithCallDepth (te_secondary t) depth).
#[export] Instance tee_LogSink : LogSink (teeSink P Q) (E + F) := {|
  ls_Init := tee_Init;
  ls_Enabled := tee_Enabled;
  ls_Info := tee_Info;
  ls_Error := tee_Error;
  ls_WithValues := tee_WithValues;
  ls_WithName := tee_WithName;
  ls_WithCallDepth := Some tee_WithCallDepth;
|}.
End Tee.

(** ** klogutil/util.go *)

Record Attr := mkAttr { at_K : string; at_V : log_value }.
Definition Err_attr (err : option error) : Attr :=
  mkAttr "exception.message" (LvString match err with Some e => error_string e | None => "" end).
Definition Field (k : string) (v : log_value) : Attr := mkAttr k v.
Definition toKV (attrs : list Attr) : list log_value := flat_map (fun a => [LvString (at_K a); at_V a]) attrs.

Section Klogutil.
Context {S E : Type} `{LogSink S E}.

(** [FromContext], with the flag that [SetOtelLogSinkActive] sets. *)
Definition FromContext (otelLogSinkActive : bool) (logger : S) : S :=
  if otelLogSinkActive then ls_WithValues logger [LvString "ctx"; LvContext] else logger.
(** A call of a logger at a level reaches the sink if it is enabled there. *)
Definition logger_Info (sink : S) (level : Z) (msg : string) (kvs : list log_value) : list E :=
  if ls_Enabled sink level then ls_Info sink level msg kvs else [].
Definition LogInfo (sink : S) (level : Z) (msg : string) (attrs : list Attr) : list E :=
  logger_Info sink level msg (toKV attrs).
Definition LogWarn (sink : S) (level : Z) (msg : string) (attrs : list Attr) : list E :=
  logger_Info sink level msg ([LvString "log.severity"; LvString "WARN"] ++ toKV attrs).
End Klogutil.

(** * Specification *)

(** A system whose sink was just made. *)
Definition started (cfg : StaticConfig) (s : Sink) (o : os) : Prop :=
  exists open_err otel, New cfg open_err otel (mkOs 0 ∅ []) = (Ok s, o).
Definition reachable_from (cfg : StaticConfig) (y : sys) : Prop :=
  exists s o ls, started cfg s o /\ steps ls (mkSys s o ∅) = Some y.

(** The writer for a value of log_file, as far as it is one of the process. *)
Definition destination (httpMode : bool) (LogFile : string) (w : writer) : Prop :=
  if bool_decide (LogFile = "") then w = if httpMode then WHttpOut else WDiscard
  else if bool_decide (LogFile = StderrSentinel) then w = WErrOut
  else exists f, w = WFile f.

(** What holds at any time: the writer of the sink is its file or none, the file and
    those of the reloads under way are all that is open, each in one place; a goroutine
    that holds the lock has the current writer; without HTTP the writer for HTTP is
    nowhere; and every write succeeded. *)
Definition pending (y : sys) (t f : nat) : Prop :=
  exists w level, sy_threads y !! t = Some (TPrepared (Some f) w level).
Record safe (http : bool) (y : sys) : Prop := mkSafe {
  sf_mode : sk_httpMode (sy_sink y) = http;
  sf_writer : forall f, sk_writer (sy_sink y) = Some (WFile f) -> sk_file (sy_sink y) = Some f;
  sf_file : forall f, sk_file (sy_sink y) = Some f -> file_open (sy_os y) f = true;
  sf_pending : forall t f, pending y t f -> file_open (sy_os y) f = true /\ sk_file (sy_sink y) <> Some f;
  sf_once : forall t t' f, pending y t f -> pending y t' f -> t = t';
  sf_open : forall f, file_open (sy_os y) f = true -> sk_file (sy_sink y) = Some f \/ exists t, pending y t f;
  sf_prepared : forall t f w level, sy_threads y !! t = Some (TPrepared f w level) ->
    (forall g, w = WFile g -> f = Some g) /\ (http = false -> w <> WHttpOut);
  sf_fresh : forall f, os_next (sy_os y) <= f -> os_files (sy_os y) !! f = None;
  sf_fetched : forall t p w, sy_threads y !! t = Some (TFetched p w) -> w = sk_writer (sy_sink y);
  sf_stdio : http = false -> sk_writer (sy_sink y) <> Some WHttpOut;
  sf_writes : Forall (fun r => r.2 = true /\ (http = false -> r.1.1 <> WHttpOut)) (os_writes (sy_os y));
}.

(** * Lemmas *)

Lemma file_open_open path o f :
  file_open (open_file path o).2 f = bool_decide (f = os_next o) || file_open o f.
Proof.
  unfold file_open. cbn. destruct (decide (f = os_next o)) as [->|Hne].
  - by rewrite lookup_insert_eq, bool_decide_eq_true_2.
  - by rewrite lookup_insert_ne, bool_decide_eq_false_2.
Qed.
Lemma file_open_close g o f :
  file_open (close_file g o) f = file_open o f && negb (bool_decide (g = Some f)).
Proof.
  destruct g as [g|]; cbn; [|by rewrite bool_decide_eq_false_2, andb_true_r].
  unfold file_open. cbn. destruct (decide (f = g)) as [->|Hne].
  - rewrite lookup_alter_eq, bool_decide_eq_true_2 by done. destruct (os_files o !! g) as [[]|]; cbn; [|done].
    by rewrite andb_false_r.
  - rewrite lookup_alter_ne, bool_decide_eq_false_2 by congruence. by rewrite andb_true_r.
Qed.
Lemma file_open_fresh http y f : safe http y -> file_open (sy_os y) f = true -> f < os_next (sy_os y).
Proof.
  intros Hs Hf. destruct (decide (os_next (sy_os y) <= f)) as [H|]; [|lia].
  unfold file_open in Hf. by rewrite (sf_fresh _ _ Hs f H) in Hf.
Qed.

(** A thread that is replaced by one that prepares nothing. *)
Definition no_reload (t : option thread) : Prop := match t with Some (TPrepared _ _ _) => False | _ => True end.
Lemma pending_put s o ts t th t' f :
  no_reload (ts !! t) -> no_reload (Some th) ->
  pending (mkSys s o (<[t := th]> ts)) t' f <-> pending (mkSys s o ts) t' f.
Proof.
  intros H1 H2. unfold pending. cbn. destruct (decide (t' = t)) as [->|Hne].
  - rewrite lookup_insert_eq. split; intros (w & l & E); [by simplify_eq|by rewrite E in H1].
  - by rewrite lookup_insert_ne.
Qed.
Lemma pending_delete s o ts t t' f :
  pending (mkSys s o (delete t ts)) t' f <-> pending (mkSys s o ts) t' f /\ t' <> t.
Proof.
  unfold pending. cbn. destruct (decide (t' = t)) as [->|Hne].
  - rewrite lookup_delete_eq. split; [by intros (? & ? & [=])|tauto].
  - rewrite lookup_delete_ne by done. tauto.
Qed.
Lemma pending_prepared s o ts t f w level t' g :
  ts !! t = None ->
  pending (mkSys s o (<[t := TPrepared f w level]> ts)) t' g <->
    (t' = t /\ f = Some g) \/ (t' <> t /\ pending (mkSys s o ts) t' g).
Proof.
  intros Hn. unfold pending. cbn. destruct (decide (t' = t)) as [->|Hne].
  - rewrite lookup_insert_eq. split; [intros (? & ? & [= -> -> ->]); by left|].
    intros [[_ ->]|[? _]]; [by do 2 eexists|done].
  - rewrite lookup_insert_ne by done. tauto.
Qed.

Lemma set_verbosity_fields level s :
  sk_httpMode (set_verbosity level s) = sk_httpMode s /\ sk_writer (set_verbosity level s) = sk_writer s /\
  sk_file (set_verbosity level s) = sk_file s /\ sk_lastLogFile (set_verbosity level s) = sk_lastLogFile s /\
  sk_applied (set_verbosity level s) = sk_applied s /\ sk_provider (set_verbosity level s) = sk_provider s.
Proof. unfold set_verbosity. by case_match. Qed.

(** The invariant does not look at the other fields of the sink. *)
Lemma safe_sink http s s' o ts :
  sk_httpMode s' = sk_httpMode s -> sk_writer s' = sk_writer s -> sk_file s' = sk_file s ->
  safe http (mkSys s o ts) -> safe http (mkSys s' o ts).
Proof.
  intros Hm Hw Hf [H1 H2 H3 H4 H5 H6 H7 H8 H9 H10 H11]. unfold pending in *. cbn in *.
  split; unfold pending; cbn; rewrite ?Hm, ?Hw, ?Hf; auto.
Qed.

(** A step of a goroutine in a write. *)
Lemma safe_write_step http s o ts t th :
  safe http (mkSys s o ts) -> no_reload (ts !! t) -> no_reload (Some th) ->
  (forall p w, th = TFetched p w -> w = sk_writer s) -> safe http (mkSys s o (<[t := th]> ts)).
Proof.
  intros [H1 H2 H3 H4 H5 H6 H7 H8 H9 H10 H11] Hold Hnew Hth.
  split; cbn in *; try done.
  - intros t' f. rewrite pending_put by done. eauto.
  - intros t1 t2 f. rewrite !pending_put by done. eauto.
  - intros f Hf. destruct (H6 f Hf) as [?|[t' Hp]]; [by left|]. right. exists t'. by rewrite pending_put.
  - intros t' f w level. destruct (decide (t' = t)) as [->|Hne]; [|rewrite lookup_insert_ne by done; eauto].
    rewrite lookup_insert_eq. by intros [= ->].
  - intros t' p w. destruct (decide (t' = t)) as [->|Hne]; [|rewrite lookup_insert_ne by done; eauto].
    rewrite lookup_insert_eq. intros [= E]. eauto.
Qed.
Lemma safe_unlock http s o ts t :
  safe http (mkSys s o ts) -> no_reload (ts !! t) -> safe http (mkSys s o (delete t ts)).
Proof.
  intros [H1 H2 H3 H4 H5 H6 H7 H8 H9 H10 H11] Hold. split; cbn in *; try done.
  - intros t' f. rewrite pending_delete. intros [? _]. eauto.
  - intros t1 t2 f. rewrite !pending_delete. intros [? _] [? _]. eauto.
  - intros f Hf. destruct (H6 f Hf) as [?|[t' Hp]]; [by left|]. right. exists t'. rewrite pending_delete.
    split; [done|]. intros ->. destruct Hp as (w & l & Hp). cbn in Hp. by rewrite Hp in Hold.
  - intros t' f w level [_ H]%lookup_delete_Some. eauto.
  - intros t' p w [_ H]%lookup_delete_Some. eauto.
Qed.
Lemma safe_write http s o ts w p :
  safe http (mkSys s o ts) -> w = sk_writer s -> safe http (mkSys s (write w p o) ts).
Proof.
  intros [H1 H2 H3 H4 H5 H6 H7 H8 H9 H10 H11] ->. split; try done. cbn in *.
  apply Forall_app. split; [done|]. constructor; [|done]. cbn.
  destruct (sk_writer s) as [[| | |f]|] eqn:E; cbn; try done.
  - split; [done|]. intros Hh _. by apply (H10 Hh).
  - split; [|done]. apply H3. by apply H2.
Qed.

(** A reload that waits for the exclusive lock with a writer of the process. *)
Lemma safe_prepared http s o ts t w level :
  safe http (mkSys s o ts) -> ts !! t = None -> (forall f, w <> WFile f) -> (http = false -> w <> WHttpOut) ->
  safe http (mkSys s o (<[t := TPrepared None w level]> ts)).
Proof.
  intros [H1 H2 H3 H4 H5 H6 H7 H8 H9 H10 H11] Hn Hw Hh. split; cbn in *; try done.
  - intros t' f. rewrite pending_prepared by done. intros [[_ [=]]|[_ ?]]. eauto.
  - intros t1 t2 f. rewrite !pending_prepared by done. intros [[_ [=]]|[_ ?]] [[_ [=]]|[_ ?]]. eauto.
  - intros f Hf. destruct (H6 f Hf) as [?|[t' Hp]]; [by left|]. right. exists t'. rewrite pending_prepared by done.
    right. split; [|done]. intros ->. destruct Hp as (w' & l & Hp). cbn in Hp. by rewrite Hp in Hn.
  - intros t' f w' level'. destruct (decide (t' = t)) as [->|Hne]; [|rewrite lookup_insert_ne by done; eauto].
    rewrite lookup_insert_eq. intros [= <- <- <-]. split; [|done]. intros g ->. by destruct (Hw g).
  - intros t' p w'. destruct (decide (t' = t)) as [->|Hne]; [by rewrite lookup_insert_eq|rewrite lookup_insert_ne by done; eauto].
Qed.
(** A reload that has opened its file. *)
Lemma safe_opened http s o ts t path level :
  safe http (mkSys s o ts) -> ts !! t = None ->
  safe http (mkSys s (open_file path o).2 (<[t := TPrepared (Some (os_next o)) (WFile (os_next o)) level]> ts)).
Proof.
  intros Hs Hn. pose proof (fun f => file_open_fresh _ _ f Hs) as Hlt. pose proof (file_open_open path o) as Hopen.
  destruct Hs as [H1 H2 H3 H4 H5 H6 H7 H8 H9 H10 H11]. cbn in *.
  assert (forall t f, pending (mkSys s o ts) t f -> f < os_next o) as Hp by (intros t' f H; apply Hlt, (H4 t' f H)).
  split; cbn [sy_sink sy_os sy_threads]; try done.
  - intros f Hf. rewrite Hopen, H3, orb_true_r; done.
  - intros t' f. rewrite pending_prepared by done. rewrite Hopen. intros [[_ [= <-]]|[_ Hpf]].
    + rewrite bool_decide_eq_true_2 by done. split; [done|]. intros Hf. specialize (Hlt _ (H3 _ Hf)). lia.
    + destruct (H4 _ _ Hpf) as [-> ?]. by rewrite orb_true_r.
  - intros t1 t2 f. rewrite !pending_prepared by done. intros [[-> [= <-]]|[_ Ha]] [[-> E]|[_ Hb]]; [done| | |eauto].
    + apply Hp in Hb. lia.
    + injection E as <-. apply Hp in Ha. lia.
  - intros f. rewrite Hopen. intros [->%bool_decide_eq_true_1|Hf]%orb_true_iff.
    + right. exists t. rewrite pending_prepared by done. by left.
    + destruct (H6 f Hf) as [?|[t' Hpf]]; [by left|]. right. exists t'. rewrite pending_prepared by done.
      right. split; [|done]. intros ->. destruct Hpf as (w' & l & Hpf). cbn in Hpf. by rewrite Hpf in Hn.
  - intros t' f w' level'. destruct (decide (t' = t)) as [->|Hne]; [|rewrite lookup_insert_ne by done; eauto].
    rewrite lookup_insert_eq. intros [= <- <- <-]. split; [by intros g [= <-]|done].
  - intros f Hf. cbn in *. rewrite lookup_insert_ne by lia. apply H8. lia.
  - intros t' p w'. destruct (decide (t' = t)) as [->|Hne]; [by rewrite lookup_insert_eq|rewrite lookup_insert_ne by done; eauto].
Qed.

(** Replacing the writer, when no one holds the lock; the new file is none, or that of a
    reload which ends with it. *)
Lemma safe_replaced http s o ts ts' f w s' :
  safe http (mkSys s o ts) -> lock_free (mkSys s o ts) = true ->
  (forall g, w = WFile g -> f = Some g) -> (http = false -> w <> WHttpOut) ->
  (forall g, f = Some g -> exists t, pending (mkSys s o ts) t g /\ ts' = delete t ts) ->
  (f = None -> (forall t g, pending (mkSys s o ts) t g <-> pending (mkSys s o ts') t g)) ->
  (forall t th, ts' !! t = Some th -> ts !! t = Some th) ->
  sk_httpMode s' = sk_httpMode s -> sk_writer s' = Some w -> sk_file s' = f ->
  safe http (mkSys s' (close_file (sk_file s) o) ts').
Proof.
  intros Hs Hfree Hw Hh Hf Hnone Hsub Em Ew Ef.
  pose proof (fun f => file_open_fresh _ _ f Hs) as Hlt.
  destruct Hs as [H1 H2 H3 H4 H5 H6 H7 H8 H9 H10 H11]. cbn in *.
  assert (forall t g, pending (mkSys s' o ts') t g -> pending (mkSys s o ts) t g /\ f <> Some g) as Hpend.
  { intros t g (w' & l & Hp). cbn in Hp. assert (pending (mkSys s o ts) t g) as Hpt by (exists w', l; cbn; auto).
    split; [done|]. intros E. destruct (Hf g E) as (t0 & Hp0 & ->). apply lookup_delete_Some in Hp as [Hne _].
    apply Hne. by eapply H5. }
  split; cbn [sy_sink sy_os sy_threads].
  - by rewrite Em.
  - intros g. rewrite Ew, Ef. intros [= ->]. by apply Hw.
  - intros g. rewrite Ef. intros E. destruct (Hf g E) as (t0 & Hp0 & ->). destruct (H4 _ _ Hp0) as [Ho Hne].
    rewrite file_open_close, Ho. by rewrite bool_decide_eq_false_2.
  - intros t g Hp. destruct (Hpend t g) as [Hp' Hne]; [done|]. destruct (H4 _ _ Hp') as [Ho Hne'].
    rewrite file_open_close, Ho, Ef. by rewrite bool_decide_eq_false_2.
  - intros t1 t2 g Ha Hb. apply (H5 t1 t2 g); [by apply Hpend|by apply Hpend].
  - intros g. rewrite file_open_close, Ef. intros [Ho Hne]%andb_true_iff.
    apply negb_true_iff, bool_decide_eq_false_1 in Hne.
    destruct (H6 g Ho) as [?|[t Hp]]; [done|]. destruct f as [g'|].
    + destruct (Hf g' eq_refl) as (t0 & Hp0 & ->). destruct (decide (g' = g)) as [->|Hgg]; [by left|]. right. exists t.
      apply pending_delete. split; [by destruct Hp as (w' & l & Hp); exists w', l|]. intros ->. apply Hgg.
      destruct Hp as (w1 & l1 & Hp), Hp0 as (w2 & l2 & Hp0). cbn in *. by simplify_eq.
    + right. exists t. apply Hnone in Hp; [|done]. destruct Hp as (w' & l & Hp). by exists w', l.
  - intros t f' w' level Ht. eauto.
  - intros g Hg. destruct (sk_file s) as [g'|]; cbn in *; [|auto]. rewrite lookup_alter_None. auto.
  - intros t p w' Ht. apply bool_decide_eq_true_1 in Hfree. apply Hsub in Ht. cbn in Hfree.
    by specialize (Hfree _ _ Ht).
  - intros Hhttp. rewrite Ew. intros [= ->]. by apply Hh.
  - by destruct (sk_file s).
Qed.

Lemma prepare_cases LogFile open_err s o :
  prepare LogFile open_err s o = (Ok None, s, o) \/
  (exists err, prepare LogFile open_err s o = (Err err, s, o)) \/
  (exists w, prepare LogFile open_err s o = (Ok (Some (None, w)), remember LogFile s, o) /\
     (forall f, w <> WFile f) /\ (sk_httpMode s = false -> w <> WHttpOut) /\ destination (sk_httpMode s) LogFile w) \/
  (prepare LogFile open_err s o =
     (Ok (Some (Some (os_next o), WFile (os_next o))), remember LogFile s, (open_file LogFile o).2) /\
   destination (sk_httpMode s) LogFile (WFile (os_next o))).
Proof.
  unfold prepare, destination. case_match; [by left|]. right.
  destruct (bool_decide_reflect (LogFile = "")) as [->|Hne].
  { right. left. eexists. split; [done|]. by destruct (sk_httpMode s). }
  destruct (bool_decide_reflect (LogFile = StderrSentinel)) as [->|Hne'].
  { right. left. by eexists. }
  destruct open_err as [err|]; [left; by eexists|]. right. right. split; [done|]. by eexists.
Qed.

Lemma safe_step http l y y' : safe http y -> step l y = Some y' -> safe http y'.
Proof.
  destruct y as [s o ts]. intros Hs Hl.
  destruct l as [t p|t|t|t|t cfg open_err|t|]; cbn [step] in Hl.
  - destruct (ts !! t) eqn:E; simplify_eq. apply safe_write_step; [done| |done|done]. by rewrite E.
  - destruct (ts !! t) as [[]|] eqn:E; simplify_eq. apply safe_write_step; [done| |done|]; [by rewrite E|].
    by intros ? ? [= _ <-].
  - destruct (ts !! t) as [[]|] eqn:E; simplify_eq. apply safe_write_step; [|by rewrite E|done|done].
    apply safe_write; [done|]. by apply (sf_fetched _ _ Hs t p).
  - destruct (ts !! t) as [[]|] eqn:E; simplify_eq. apply safe_unlock; [done|]. by rewrite E.
  - destruct (ts !! t) eqn:E; [done|].
    pose proof (prepare_cases (c_LogFile cfg) open_err s o) as [H|[[err H]|[(w & H & Hw & Hh & _)|[H _]]]];
      rewrite H in Hl; simplify_eq.
    + eapply safe_sink; [..|exact Hs]; apply set_verbosity_fields.
    + done.
    + apply safe_prepared; [|done|done|]; [by eapply safe_sink; [..|exact Hs]|].
      intros Hf. apply Hh. pose proof (sf_mode _ _ Hs) as Hm. cbn in Hm. by rewrite Hm.
    + apply (safe_opened http (remember (c_LogFile cfg) s)); [|done]. by eapply safe_sink; [..|exact Hs].
  - destruct (ts !! t) as [[| | |f w level]|] eqn:E; try done. destruct (lock_free _) eqn:Hfree; [|done].
    injection Hl as <-. destruct (sf_prepared _ _ Hs t f w level E) as [Hw Hh].
    eapply (safe_replaced http s o ts _ f w); try done.
    + intros g ->. exists t. split; [|done]. by exists w, level.
    + intros -> t' g. rewrite pending_delete. split; [|tauto]. intros Hp. split; [done|]. intros ->.
      destruct Hp as (w' & l & Hp). cbn in Hp. by simplify_eq.
    + by intros t' th [_ ?]%lookup_delete_Some.
    + destruct (set_verbosity_fields level (put_writer w f s)) as (-> & _). done.
    + destruct (set_verbosity_fields level (put_writer w f s)) as (_ & -> & _). done.
    + destruct (set_verbosity_fields level (put_writer w f s)) as (_ & _ & -> & _). done.
  - destruct (lock_free _) eqn:Hfree; [|done]. injection Hl as <-.
    eapply (safe_replaced http s o ts _ None WErrOut); try done.
Qed.

Lemma safe_steps http ls : forall y y', safe http y -> steps ls y = Some y' -> safe http y'.
Proof.
  induction ls as [|l ls IH]; intros y y' Hs; cbn; [by intros [= <-]|].
  destruct (step l y) as [y1|] eqn:E; [|done]. cbn. apply IH. by eapply safe_step.
Qed.

(** A sink that was just made: the writer is the one of its configuration. *)
Lemma started_spec cfg s o :
  started cfg s o ->
  sk_httpMode s = bool_decide (c_Port cfg <> "") /\ sk_applied s = true /\ sk_lastLogFile s = c_LogFile cfg /\
  exists w, sk_writer s = Some w /\ destination (sk_httpMode s) (c_LogFile cfg) w /\
    (sk_httpMode s = false -> w <> WHttpOut) /\
    ((sk_file s = None /\ o = mkOs 0 ∅ [] /\ forall f, w <> WFile f) \/
     (w = WFile 0 /\ sk_file s = Some 0 /\ o = mkOs 1 {[ 0 := (c_LogFile cfg, true) ]} [])).
Proof.
  intros (open_err & otel & H). unfold New, applyDestination in H.
  set (s0 := mkSink _ _ _ _ _ _ _) in H.
  pose proof (prepare_cases (c_LogFile cfg) open_err s0 (mkOs 0 ∅ [])) as [E|[[err E]|[(w & E & Hw & Hh & Hd)|[E Hd]]]].
  - unfold prepare in E. cbn in E. repeat case_match; simplify_eq.
  - by rewrite E in H.
  - rewrite E in H. cbn in H. injection H as <- <-.
    destruct (set_verbosity_fields (c_LogLevel cfg) (put_writer w None (remember (c_LogFile cfg) s0)))
      as (-> & -> & -> & -> & -> & _). cbn. split_and!; try done. exists w. split_and!; try done. by left.
  - rewrite E in H. cbn in H. injection H as <- <-.
    destruct (set_verbosity_fields (c_LogLevel cfg) (put_writer (WFile 0) (Some 0) (remember (c_LogFile cfg) s0)))
      as (-> & -> & -> & -> & -> & _). cbn. split_and!; try done. exists (WFile 0). split_and!; try done. by right.
Qed.
Lemma started_safe cfg s o :
  started cfg s o -> safe (bool_decide (c_Port cfg <> "")) (mkSys s o ∅).
Proof.
  intros (Hm & _ & _ & w & Hw & _ & Hh & H)%started_spec.
  assert (forall t f, ~ pending (mkSys s o ∅) t f) as Hp by (intros t f (w' & l & [=])).
  split; cbn; try done.
  - rewrite Hw. intros f [= ->]. destruct H as [(? & ? & H)|([= ->] & ? & _)]; [by destruct (H f)|done].
  - intros f Hf. destruct H as [(H & _)|(_ & H & ->)]; simplify_eq. done.
  - intros t f H'. by apply Hp in H'.
  - intros t t' f H'. by apply Hp in H'.
  - intros f Hf. left. destruct H as [(_ & -> & _)|(_ & -> & ->)]; [done|]. unfold file_open in Hf. cbn in Hf.
    destruct (decide (f = 0)) as [->|Hne]; [done|]. by rewrite lookup_singleton_ne in Hf.
  - intros f Hf. destruct H as [(_ & -> & _)|(_ & _ & ->)]; cbn in *; [done|]. by rewrite lookup_singleton_ne by lia.
  - intros Hhttp. rewrite Hw. intros [= ->]. apply Hh; [|done]. by rewrite Hm.
  - by destruct H as [(_ & -> & _)|(_ & _ & ->)].
Qed.

(** * Properties *)

(** C38. In every history of writes, reloads and closes, by any number of goroutines: no
    write reaches a file that is closed; without HTTP nothing is written to the writer
    for HTTP; and but for the files that reloads under way have opened, exactly the file
    of the sink is open. *)
Theorem log_writes_safe cfg y :
  reachable_from cfg y ->
  Forall (fun r => r.2 = true) (os_writes (sy_os y)) /\
  (c_Port cfg = "" -> Forall (fun r => r.1.1 <> WHttpOut) (os_writes (sy_os y))) /\
  ((forall t f w level, sy_threads y !! t <> Some (TPrepared f w level)) ->
   forall f, file_open (sy_os y) f = true <-> sk_file (sy_sink y) = Some f).
Proof.
  intros (s & o & ls & Hst & Hls). pose proof (safe_steps _ _ _ _ (started_safe _ _ _ Hst) Hls) as Hs.
  pose proof (sf_writes _ _ Hs) as Hw. split_and!.
  - eapply Forall_impl; [exact Hw|]. by intros r [? _].
  - intros Hp. eapply Forall_impl; [exact Hw|]. intros r [_ H]. apply H. by rewrite Hp.
  - intros Hq f. split; [|apply (sf_file _ _ Hs)]. intros Ho.
    destruct (sf_open _ _ Hs f Ho) as [?|(t & w & l & H)]; [done|]. by apply Hq in H.
Qed.

(** ** Reloads one after the other *)

(** The writer is the one of the value that was applied last. *)
Definition in_step (s : Sink) : Prop :=
  sk_applied s = true /\ exists w, sk_writer s = Some w /\ destination (sk_httpMode s) (sk_lastLogFile s) w.

(** A reload that fails leaves the destination as it was; one that succeeds writes to the
    destination of its configuration, and a path is opened anew even when it is the same. *)
Lemma Reload_spec cfg open_err s o :
  in_step s ->
  match Reload cfg open_err s o with
  | (Some _, s', o') =>
      s' = s /\ o' = o /\ c_LogFile cfg <> "" /\ c_LogFile cfg <> StderrSentinel /\ open_err <> None
  | (None, s', o') =>
      in_step s' /\ sk_httpMode s' = sk_httpMode s /\ sk_lastLogFile s' = c_LogFile cfg /\
      (c_LogFile cfg <> "" -> c_LogFile cfg <> StderrSentinel ->
       open_err = None /\ sk_file s' = Some (os_next o) /\ os_next o' = S (os_next o))
  end.
Proof.
  intros [Ha (w0 & Hw0 & Hd0)]. unfold Reload, applyDestination, prepare, in_step.
  destruct (bool_decide_reflect (c_LogFile cfg = "")) as [Hl|Hl].
  { rewrite Hl. cbn. rewrite Ha. cbn. destruct (bool_decide_reflect ("" = sk_lastLogFile s)) as [E|E]; cbn.
    - destruct (set_verbosity_fields (c_LogLevel cfg) s) as (-> & -> & _ & -> & -> & _).
      split_and!; try done. by exists w0.
    - set (s1 := put_writer _ _ _). destruct (set_verbosity_fields (c_LogLevel cfg) s1) as (-> & -> & _ & -> & -> & _).
      subst s1. cbn. split_and!; try done. by eexists. }
  destruct (bool_decide_reflect (c_LogFile cfg = StderrSentinel)) as [Hs|Hs].
  { rewrite Ha. cbn [andb orb]. rewrite andb_true_r. destruct (bool_decide_reflect (c_LogFile cfg = sk_lastLogFile s)) as [E|E].
    - destruct (set_verbosity_fields (c_LogLevel cfg) s) as (-> & -> & _ & -> & -> & _).
      split_and!; try done. by exists w0.
    - cbn. set (s1 := put_writer _ _ _). destruct (set_verbosity_fields (c_LogLevel cfg) s1) as (-> & -> & _ & -> & -> & _).
      subst s1. cbn. split_and!; try done. eexists. split; [done|]. unfold destination. rewrite Hs. done. }
  rewrite andb_false_r. destruct open_err as [err|]; [by split_and!|]. cbn.
  set (s1 := put_writer _ _ _).
  destruct (set_verbosity_fields (c_LogLevel cfg) s1) as (-> & -> & -> & -> & -> & _). subst s1. cbn. split_and!; try done.
  - eexists. split; [done|]. unfold destination. rewrite !bool_decide_eq_false_2 by done. by eexists.
  - intros _ _. by destruct (sk_file s).
Qed.

Fixpoint reload_all (rs : list (StaticConfig * option error)) (s : Sink) (o : os) : Sink * os :=
  match rs with
  | [] => (s, o)
  | (cfg, open_err) :: rs => let '(_, s, o) := Reload cfg open_err s o in reload_all rs s o
  end.
(** The last configuration whose destination could be opened. *)
Definition opened (r : StaticConfig * option error) : Prop :=
  c_LogFile r.1 = "" \/ c_LogFile r.1 = StderrSentinel \/ r.2 = None.
#[export] Instance opened_dec r : Decision (opened r).
Proof. unfold opened. apply _. Defined.
Definition last_opened (cfg : StaticConfig) (rs : list (StaticConfig * option error)) : StaticConfig :=
  default cfg (last (map fst (filter opened rs))).

(** After any series of reloads, the log goes to the destination of the last
    configuration that could be opened; the mode is that of the start, whatever the
    configurations say. *)
Theorem reloads_destination cfg s o rs :
  started cfg s o ->
  exists w, sk_writer (reload_all rs s o).1 = Some w /\
    destination (bool_decide (c_Port cfg <> "")) (c_LogFile (last_opened cfg rs)) w.
Proof.
  intros (Hm & Ha & Hl & w & Hw & Hd & _)%started_spec.
  assert (in_step s) as Hs by (split; [done|]; exists w; by rewrite Hl).
  unfold last_opened. revert s o cfg Hm Ha Hl Hd Hw Hs.
  assert (forall rs s o cfg, sk_lastLogFile s = c_LogFile cfg -> in_step s ->
    exists w, sk_writer (reload_all rs s o).1 = Some w /\
      destination (sk_httpMode s) (c_LogFile (default cfg (last (map fst (filter opened rs))))) w) as Hgen.
  { clear. intros rs. induction rs as [|[cfg' open_err] rs IH]; intros s o cfg Hl Hs; cbn [reload_all].
    { destruct Hs as [_ (w & Hw & Hd)]. exists w. split; [done|]. cbn. by rewrite <- Hl. }
    pose proof (Reload_spec cfg' open_err s o Hs) as H. destruct (Reload cfg' open_err s o) as [[[err|] s'] o'].
    - destruct H as (-> & -> & H1 & H2 & H3). rewrite filter_cons_False; [by apply IH|].
      intros [?|[?|?]]; done.
    - destruct H as (Hs' & Hm & Hl' & Ho). rewrite filter_cons_True.
      + cbn [map]. destruct (IH s' o' cfg' Hl' Hs') as (w & Hw & Hd). exists w. split; [done|].
        rewrite <- Hm. cbn [fst]. destruct (map fst (filter opened rs)) as [|c l] eqn:E; [done|].
        rewrite last_cons. cbn in Hd. destruct (last (c :: l)) eqn:El; [done|]. by apply last_None in El.
      + destruct (decide (c_LogFile cfg' = "")) as [?|Hn]; [by left|].
        destruct (decide (c_LogFile cfg' = StderrSentinel)) as [?|Hn']; [by right; left|]. right. right. by apply Ho. }
  intros s o cfg Hm Ha Hl Hd Hw Hs. rewrite <- Hm. by apply Hgen.
Qed.

(** ** Records *)

(** The keys and values in pairs, with the key that is left over. *)
Fixpoint pairs (kvs : list log_value) : list (log_value * log_value) * list log_value :=
  match kvs with
  | k :: v :: kvs => let '(ps, rest) := pairs kvs in ((k, v) :: ps, rest)
  | rest => ([], rest)
  end.
Definition unpairs (ps : list (log_value * log_value)) : list log_value := flat_map (fun p => [p.1; p.2]) ps.

Lemma pairs_ind (P : list log_value -> Prop) :
  P [] -> (forall k, P [k]) -> (forall k v kvs, P kvs -> P (k :: v :: kvs)) -> forall kvs, P kvs.
Proof.
  intros H0 H1 H2. fix IH 1. intros [|k [|v kvs]]; [done|apply H1|]. apply H2, IH.
Qed.

(** Stripping keeps exactly the pairs whose value is no context, in order, and the key
    that is left over. *)
Lemma strip_spec kvs :
  stripContextValues kvs =
  unpairs (List.filter (fun p => negb (is_context p.2)) (pairs kvs).1) ++ (pairs kvs).2.
Proof.
  induction kvs as [|k|k v kvs IH] using pairs_ind; [done..|]. cbn [stripContextValues pairs].
  destruct (pairs kvs) as [ps rest]. cbn [fst snd List.filter unpairs flat_map] in *.
  destruct (is_context v); cbn; [done|]. by f_equal; f_equal.
Qed.

(** A sink that records what it is given: the values of its loggers, in the pieces they
    were given in, and then those of the record. *)
Record recorder := mkRecorder { re_name : string; re_values : list (list log_value) }.
Definition record : Type := (string * list (list log_value))%type.
#[export] Instance recorder_LogSink : LogSink recorder record := {|
  ls_Init := fun s _ => s;
  ls_Enabled := fun _ _ => true;
  ls_Info := fun s _ msg kvs => [(fmt [re_name s; msg], re_values s ++ [kvs])];
  ls_Error := fun s _ msg kvs => [(fmt [re_name s; msg], re_values s ++ [kvs])];
  ls_WithValues := fun s kvs => mkRecorder (re_name s) (re_values s ++ [kvs]);
  ls_WithName := fun s name => mkRecorder (fmt [re_name s; name; "/"]) (re_values s);
  ls_WithCallDepth := None;
|}.

(** What a program does with its logger before it logs. *)
Inductive derivation : Type := DValues (kvs : list log_value) | DName (name : string) | DCallDepth (depth : Z).
Definition derive {S E} `{LogSink S E} (sink : S) (d : derivation) : S :=
  match d with
  | DValues kvs => ls_WithValues sink kvs
  | DName name => ls_WithName sink name
  | DCallDepth depth => sinkWithCallDepth sink depth
  end.

(** No value of a record is a context. *)
Definition no_context (kvs : list log_value) : Prop := Forall (fun p => p.2 <> LvContext) (pairs kvs).1.

Lemma strip_no_context kvs : no_context (stripContextValues kvs).
Proof.
  unfold no_context. induction kvs as [|k|k v kvs IH] using pairs_ind; [constructor..|]. cbn [stripContextValues].
  unfold is_context. destruct (bool_decide_reflect (v = LvContext)); [done|]. cbn [pairs].
  destruct (pairs (stripContextValues kvs)) as [ps rest]. by constructor.
Qed.

(** Whatever values, names and depths a logger of the tee was derived with, the text log
    gets the same record as the bridge but for the contexts: none of its values is one. *)
Theorem tee_strips_contexts (ds : list derivation) level msg kvs :
  let start := mkTee (mkRecorder "" []) (mkRecorder "" []) in
  let t := foldl derive start ds in
  exists name values,
    ls_Info t level msg kvs =
      [inl (name, map stripContextValues values); inr (name, values)] /\
    ls_Error t None msg kvs = ls_Info t level msg kvs /\
    values = omap (fun d => match d with DValues kvs => Some kvs | _ => None end) ds ++ [kvs] /\
    Forall no_context (map stripContextValues values).
Proof.
  cbv zeta.
  assert (forall p q, re_name p = re_name q -> re_values p = map stripContextValues (re_values q) ->
    exists name, let t := foldl derive (mkTee p q) ds in
      let values := re_values q ++ omap (fun d => match d with DValues kvs => Some kvs | _ => None end) ds in
      t = mkTee (mkRecorder name (map stripContextValues values)) (mkRecorder name values)) as H.
  { induction ds as [|d ds IH]; intros [n v] [n' v'] Hn Hv; cbn in Hn, Hv; subst; cbn [foldl omap list_omap].
    - exists n'. cbn. by rewrite app_nil_r.
    - destruct d as [kvs'|name|depth]; cbn [derive].
      + destruct (IH (mkRecorder n' (map stripContextValues v' ++ [stripContextValues kvs'])) (mkRecorder n' (v' ++ [kvs'])))
          as [name E]; [done|cbn; by rewrite map_app|]. exists name. cbn in E |- *. rewrite <- (assoc_L app) in E. exact E.
      + destruct (IH (mkRecorder (fmt [n'; name; "/"]) (map stripContextValues v')) (mkRecorder (fmt [n'; name; "/"]) v'))
          as [name' E]; [done..|]. by exists name'.
      + destruct (IH (mkRecorder n' (map stripContextValues v')) (mkRecorder n' v')) as [name' E]; [done..|]. by exists name'. }
  destruct (H (mkRecorder "" []) (mkRecorder "" [])) as [name E]; [done..|]. cbn zeta in E. rewrite E.
  cbn [app re_values] in *. set (values := omap _ ds). exists (fmt [name; msg]), (values ++ [kvs]).
  split_and!; [by rewrite map_app|done|done|].
  apply Forall_map, Forall_true. apply strip_no_context.
Qed.

Lemma strip_toKV attrs : Forall (fun a => at_V a <> LvContext) attrs -> stripContextValues (toKV attrs) = toKV attrs.
Proof.
  induction 1 as [|a attrs Ha _ IH]; [done|].
  change (toKV (a :: attrs)) with (LvString (at_K a) :: at_V a :: toKV attrs). cbn [stripContextValues].
  assert (is_context (at_V a) = false) as -> by (by apply bool_decide_eq_false_2). by rewrite IH.
Qed.

(** A warning made with the logger of a context: with the bridge active, the context goes
    to the bridge and the text log has the severity and the attributes only; otherwise
    the context is not added at all. *)
Theorem warning_attributes level msg attrs :
  Forall (fun a => at_V a <> LvContext) attrs ->
  let kvs := [LvString "log.severity"; LvString "WARN"] ++ toKV attrs in
  LogWarn (FromContext true (mkTee (mkRecorder "" []) (mkRecorder "" []))) level msg attrs =
    [inl (msg, [[]; kvs]); inr (msg, [[LvString "ctx"; LvContext]; kvs])] /\
  LogWarn (FromContext false (mkRecorder "" [])) level msg attrs = [(msg, [kvs])].
Proof.
  intros H. cbn zeta.
  assert (stripContextValues ([LvString "log.severity"; LvString "WARN"] ++ toKV attrs) =
          [LvString "log.severity"; LvString "WARN"] ++ toKV attrs) as Hs.
  { apply (strip_toKV (Field "log.severity" (LvString "WARN") :: attrs)). by constructor. }
  unfold LogWarn, logger_Info. split; [|done]. cbn [ls_Enabled tee_LogSink tee_Enabled recorder_LogSink orb ls_Info].
  unfold tee_Info. rewrite Hs. done.
Qed.

(** * Examples and witnesses *)

(** The default configuration in HTTP mode, with a destination and a level. *)
Definition logs_to (LogFile : string) (LogLevel : Z) : StaticConfig :=
  {| c_DeniedResources := c_DeniedResources BaseDefault; c_LogLevel := LogLevel; c_LogFile := LogFile;
     c_Port := "8080"; c_BindAddress := c_BindAddress BaseDefault; c_KubeConfig := c_KubeConfig BaseDefault;
     c_ListOutput := c_ListOutput BaseDefault; c_Stateless := c_Stateless BaseDefault;
     c_ReadOnly := c_ReadOnly BaseDefault; c_DisableDestructive := c_DisableDestructive BaseDefault;
     c_Toolsets := c_Toolsets BaseDefault; c_EnabledTools := c_EnabledTools BaseDefault;
     c_DisabledTools := c_DisabledTools BaseDefault; c_ToolOverrides := c_ToolOverrides BaseDefault;
     c_Prompts := c_Prompts BaseDefault; c_RequireOAuth := c_RequireOAuth BaseDefault;
     c_OAuthAudience := c_OAuthAudience BaseDefault; c_AuthorizationURL := c_AuthorizationURL BaseDefault;
     c_SkipJWTVerification := c_SkipJWTVerification BaseDefault;
     c_DisableDynamicClientRegistration := c_DisableDynamicClientRegistration BaseDefault;
     c_OAuthScopes := c_OAuthScopes BaseDefault; c_StsClientId := c_StsClientId BaseDefault;
     c_StsClientSecret := c_StsClientSecret BaseDefault; c_StsAudience := c_StsAudience BaseDefault;
     c_StsScopes := c_StsScopes BaseDefault; c_TokenExchangeStrategy := c_TokenExchangeStrategy BaseDefault;
     c_StsAuthStyle := c_StsAuthStyle BaseDefault; c_StsClientCertFile := c_StsClientCertFile BaseDefault;
     c_StsClientKeyFile := c_StsClientKeyFile BaseDefault;
     c_StsFederatedTokenFile := c_StsFederatedTokenFile BaseDefault;
     c_StsSubjectTokenType := c_StsSubjectTokenType BaseDefault;
     c_StsRequestedTokenType := c_StsRequestedTokenType BaseDefault;
     c_ClusterAuthMode := c_ClusterAuthMode BaseDefault;
     c_CertificateAuthority := c_CertificateAuthority BaseDefault; c_ServerURL := c_ServerURL BaseDefault;
     c_TrustProxyHeaders := c_TrustProxyHeaders BaseDefault; c_TLSCert := c_TLSCert BaseDefault;
     c_TLSKey := c_TLSKey BaseDefault; c_RequireTLS := c_RequireTLS BaseDefault;
     c_TLSMinVersion := c_TLSMinVersion BaseDefault; c_TLSCipherSuites := c_TLSCipherSuites BaseDefault;
     c_HTTP := c_HTTP BaseDefault; c_ClusterProviderStrategy := c_ClusterProviderStrategy BaseDefault;
     c_ClusterProviderConfigs := c_ClusterProviderConfigs BaseDefault;
     c_ToolsetConfigs := c_ToolsetConfigs BaseDefault; c_ServerInstructions := c_ServerInstructions BaseDefault;
     c_Telemetry := c_Telemetry BaseDefault; c_ValidationEnabled := c_ValidationEnabled BaseDefault;
     c_EnableTargetCompatibilityToolFilters := c_EnableTargetCompatibilityToolFilters BaseDefault;
     c_ConfirmationFallback := c_ConfirmationFallback BaseDefault;
     c_ConfirmationRules := c_ConfirmationRules BaseDefault;
     c_parsedClusterProviderConfigs := c_parsedClusterProviderConfigs BaseDefault;
     c_parsedToolsetConfigs := c_parsedToolsetConfigs BaseDefault; c_configDirPath := c_configDirPath BaseDefault;
     c_providerStrategies := c_providerStrategies BaseDefault;
     c_tokenExchangeStrategies := c_tokenExchangeStrategies BaseDefault |}.

(** A reload while a goroutine writes: the file is closed after the write. *)
Definition demo_history : list label :=
  [LLock 1 "first"; LFetch 1; LPrepare 2 (logs_to "/var/log/b" 4) None; LWrite 1; LUnlock 1; LSwap 2;
   LLock 1 "second"; LFetch 1; LWrite 1; LUnlock 1].
Lemma log_writes_safe_witness :
  exists y, reachable_from (logs_to "/var/log/a" 2) y /\
    os_writes (sy_os y) = [(WFile 0, "first", true); (WFile 1, "second", true)] /\
    (forall f, file_open (sy_os y) f = true <-> f = 1).
Proof.
  eexists.
  assert (reachable_from (logs_to "/var/log/a" 2)
    (mkSys (mkSink true (Some (WFile 1)) (Some 1) "/var/log/b" true 4 false)
       (mkOs 2 (<[1 := ("/var/log/b", true)]> {[ 0 := ("/var/log/a", false) ]})
          [(WFile 0, "first", true); (WFile 1, "second", true)]) ∅)) as H.
  { do 2 eexists. exists demo_history. split; [exists None, false; reflexivity|]. vm_compute. reflexivity. }
  split; [exact H|]. split; [done|]. intros f.
  destruct (log_writes_safe _ _ H) as (_ & _ & Ho). rewrite Ho; [cbn; naive_solver|done].
Defined.

(** A write that has begun keeps the reload from closing the file. *)
Example write_blocks_swap :
  match New (logs_to "/var/log/a" 2) None false (mkOs 0 ∅ []) with
  | (Ok s, o) => steps [LLock 1 "first"; LFetch 1; LPrepare 2 (logs_to "/var/log/b" 4) None; LSwap 2] (mkSys s o ∅) = None
  | _ => False
  end.
Proof. by vm_compute. Qed.

(** Two reloads at once may leave a value that is not that of the writer: a later reload
    is then skipped although the log goes elsewhere. *)
Example concurrent_reloads_mismatch :
  match New (logs_to "" 0) None false (mkOs 0 ∅ []) with
  | (Ok s, o) =>
      match steps [LPrepare 1 (logs_to "/var/log/a" 0) None; LPrepare 2 (logs_to "stderr" 0) None; LSwap 2; LSwap 1;
                   LPrepare 3 (logs_to "stderr" 0) None] (mkSys s o ∅) with
      | Some y => sk_writer (sy_sink y) = Some (WFile 0) /\ sk_lastLogFile (sy_sink y) = "stderr" /\ sy_threads y = ∅
      | None => False
      end
  | _ => False
  end.
Proof. by vm_compute. Qed.

(** A level that is no 32-bit integer leaves the verbosity as it was. *)
Example level_out_of_range s o :
  (Reload (logs_to "" (2 ^ 31)) None s o).1.1 = None /\
  sk_verbosity (Reload (logs_to "" (2 ^ 31)) None s o).1.2 = sk_verbosity s.
Proof. unfold Reload, applyDestination, prepare. cbn. by destruct (sk_applied s && _ && _). Qed.

Lemma reloads_destination_witness :
  let rs := [(logs_to "/var/log/b" 4, None); (logs_to "/nowhere/c" 4, Some (ErrNew "no such file or directory"))] in
  exists s o w, started (logs_to "" 0) s o /\ sk_writer (reload_all rs s o).1 = Some w /\ destination true "/var/log/b" w.
Proof.
  cbv zeta. assert (started (logs_to "" 0) (mkSink true (Some WHttpOut) None "" true 0 false) (mkOs 0 ∅ [])) as H
    by (exists None, false; reflexivity).
  destruct (reloads_destination _ _ _
    [(logs_to "/var/log/b" 4, None); (logs_to "/nowhere/c" 4, Some (ErrNew "no such file or directory"))] H) as (w & Hw & Hd).
  do 2 eexists. exists w. split; [exact H|]. split; [exact Hw|exact Hd].
Defined.

Lemma warning_attributes_witness :
  let attrs := [Field "file" (LvString "ca.crt"); Err_attr (Some (ErrNew "not found"))] in
  let kvs := [LvString "log.severity"; LvString "WARN"; LvString "file"; LvString "ca.crt";
              LvString "exception.message"; LvString "not found"] in
  LogWarn (FromContext true (mkTee (mkRecorder "" []) (mkRecorder "" []))) 0 "Failed" attrs =
    [inl ("Failed", [[]; kvs]); inr ("Failed", [[LvString "ctx"; LvContext]; kvs])].
Proof.
  apply (warning_attributes 0 "Failed" [Field "file" (LvString "ca.crt"); Err_attr (Some (ErrNew "not found"))]).
  by repeat constructor.
Defined.
