(* ===== verification/ConfigTools.v ===== *)
(** The config toolset (pkg/toolsets/config, with pkg/kubernetes/configuration.go) and
    the kcp toolset (pkg/toolsets/kcp, with pkg/kcp/kcp.go): the contexts and the content
    of the kubeconfig, the tool that becomes the list of targets, and the workspaces.
    The operations of client-go on a kubeconfig, the YAML printer and the order of a Go
    map are parameters. *)
From S2P Require Import Prelude GoStrings Api Params Toolsets Config Confirmation Tools SdkTypes McpServer Manager Kcp.

(** * Definitions *)

(** ** The tools of the config toolset *)

Definition configuration_contexts_list_tool : Tool :=
  mkTool "configuration_contexts_list"
    "List all available context names and associated server urls from the kubeconfig file"
    (mkToolAnnotations "Configuration: Contexts List" (Some true) (Some false) (Some true) (Some false)) []
    (Some (mkSchema "object" "" None)) None.

Definition targets_list_tool : Tool :=
  mkTool "targets_list"
    "List all available targets"
    (mkToolAnnotations "Targets List" (Some true) (Some false) (Some true) (Some false)) []
    (Some (mkSchema "object" "" None)) None.

Definition configuration_view_tool : Tool :=
  mkTool "configuration_view"
    "Get the current Kubernetes configuration content as a kubeconfig YAML"
    (mkToolAnnotations "Configuration: View" (Some true) (Some false) None (Some true)) []
    (Some (mkSchema "object" "" (Some [
       ("minified", mkSchema "boolean" (fmt [
          "Return a minified version of the configuration. ";
          "If set to true, keeps only the current-context and the relevant pieces of the configuration for that context. ";
          "If set to false, all contexts, clusters, auth-infos, and users are returned in the configuration. ";
          "(Optional, default true)"]) None)]))) None.

(** ** pkg/kubernetes/configuration.go *)

(** The server of every context. *)
Definition context_servers (cfg : kubeconfig) : gmap string string :=
  (fun context =>
     match kc_Clusters cfg !! ct_Cluster context with
     | Some cluster => if cl_Server cluster =?s "" then "unknown" else cl_Server cluster
     | None => "unknown"
     end) <$> kc_Contexts cfg.

Record ContextInfo := mkContextInfo { ci_Name : string; ci_Server : string; ci_Default : bool }.
Record ContextsListResult := mkContextsListResult {
  cl_DefaultContext : string;
  cl_Contexts : list ContextInfo;
}.
(** As JSON. *)
Definition context_json (c : ContextInfo) : jvalue :=
  JObject [("name", JString (ci_Name c)); ("server", JString (ci_Server c)); ("default", JBool (ci_Default c))].
Definition contexts_json (r : ContextsListResult) : jvalue :=
  JObject [("defaultContext", JString (cl_DefaultContext r)); ("contexts", JArray (map context_json (cl_Contexts r)))].

Section Config.
Context {W C : Type} (load_RawConfig : string -> string -> W -> result kubeconfig).

Definition ConfigurationContextsDefault (c : ClientConfig) (w : W) : result string :=
  match RawConfig load_RawConfig c w with Ok cfg => Ok (kc_CurrentContext cfg) | Err err => Err err end.
Definition ConfigurationContextsList (c : ClientConfig) (w : W) : result (gmap string string) :=
  match RawConfig load_RawConfig c w with Ok cfg => Ok (context_servers cfg) | Err err => Err err end.

(** [clientcmdapi.MinifyConfig] and [FlattenConfig], whose error is ignored, and the
    conversion to the external version. *)
Context {X : Type} (MinifyConfig : kubeconfig -> result kubeconfig) (FlattenConfig : kubeconfig -> W -> kubeconfig).
Context (ConvertToVersion : kubeconfig -> result X) (MarshalYaml : X -> string * option error).

Definition ConfigurationView (minify : bool) (c : ClientConfig) (w : W) : result X :=
  match RawConfig load_RawConfig c w with
  | Err err => Err err
  | Ok cfg =>
      match (if minify then MinifyConfig cfg else Ok cfg) with
      | Err err => Err err
      | Ok cfg => ConvertToVersion (FlattenConfig cfg w)
      end
  end.

(** ** pkg/toolsets/config/configuration.go *)

(** The line and the entry of a context. *)
Definition context_info (contexts : gmap string string) (defaultContext name : string) : ContextInfo :=
  mkContextInfo name (default "" (contexts !! name)) (name =?s defaultContext).
Definition context_line (c : ContextInfo) : string :=
  fmt [if ci_Default c then "*" else " "; ci_Name c; " -> "; ci_Server c; nl].
(** The names in the order in which Go goes through the map. *)
Context (range_names : gmap string string -> list string).
Definition list_contexts (contexts : gmap string string) (defaultContext : string) : ToolCallResult :=
  let infos := map (context_info contexts defaultContext) (sort_strings (range_names contexts)) in
  let header :=
    fmt ["Available Kubernetes contexts ("; itoa (Z.of_nat (size contexts)); " total, default: "; defaultContext; "):";
         nl; nl; "Format: [*] CONTEXT_NAME -> SERVER_URL"; nl;
         " (* indicates the default context used in tools if context is not set)"; nl; nl;
         "Contexts:"; nl; "---------"; nl] in
  let result :=
    foldl (fun result c => result +:+ context_line c) header infos +:+ fmt ["---------"; nl; nl] +:+
    "To use a specific context with any tool, set the 'context' parameter in the tool call arguments" in
  NewToolCallResultFull result (Some (AnyOther (contexts_json (mkContextsListResult defaultContext infos)))) None.
(** The kubeconfig is read twice, the second time perhaps in another world. *)
Definition contextsList (c : ClientConfig) (w1 w2 : W) : ToolCallResult :=
  match ConfigurationContextsList c w1 with
  | Err err => NewToolCallResult "" (Some (wrapf "failed to list contexts: " err))
  | Ok contexts =>
      if Nat.eqb (size contexts) 0 then NewToolCallResult "No contexts found in kubeconfig" None
      else
        match ConfigurationContextsDefault c w2 with
        | Err err => NewToolCallResult "" (Some (wrapf "failed to get default context: " err))
        | Ok defaultContext => list_contexts contexts defaultContext
        end
  end.
Definition configurationView (c : ClientConfig) (args : arguments) (w : W) : ToolCallResult :=
  let '(minify, p) := Params_OptionalBool "minified" true (WrapParams args) in
  match Params_Err p with
  | Some err => NewToolCallResult "" (Some (wrapf "failed to get configuration: " err))
  | None =>
      match ConfigurationView minify c w with
      | Err err => NewToolCallResult "" (Some (wrapf "failed to get configuration: " err))
      | Ok ret =>
          let '(configurationYaml, err) := MarshalYaml ret in
          NewToolCallResult configurationYaml
            (match err with Some err => Some (wrapf "failed to get configuration: " err) | None => None end)
      end
  end.

(** The toolset.  The list of targets has a nil handler: [nil_handler] stands for what a
    call of it does. *)
Context (nil_handler : ToolHandlerFunc W (Kubernetes C)).
Definition read_handler (h : ClientConfig -> arguments -> W -> ToolCallResult) : ToolHandlerFunc W (Kubernetes C) :=
  fun params w => (Ok (h (k_clientCmdConfig (th_KubernetesClient params)) (th_ToolCallRequest params) w), w).
Definition initConfiguration : list (ServerTool W (Kubernetes C)) :=
  [mkServerTool configuration_contexts_list_tool (read_handler (fun c _ w => contextsList c w w)) (Some false) (Some true) [];
   mkServerTool targets_list_tool nil_handler (Some false) (Some true) [];
   mkServerTool configuration_view_tool (read_handler configurationView) (Some false) None []].
End Config.

(** ** The kcp toolset *)

Definition kcp_workspaces_list_tool : Tool :=
  mkTool "kcp_workspaces_list"
    "List all available kcp workspaces in the current cluster"
    (mkToolAnnotations "kcp: Workspaces List" (Some true) (Some false) (Some true) (Some false)) []
    (Some (mkSchema "object" "" None)) None.

Definition kcp_workspace_describe_tool : Tool :=
  mkTool "kcp_workspace_describe"
    "Get detailed information about a specific kcp workspace"
    (mkToolAnnotations "kcp: Workspace Describe" (Some true) (Some false) None (Some true)) []
    (Some (mkSchema "object" "" (Some [
       ("workspace", mkSchema "string" "Name or path of the workspace to describe" None)]))) None.

Section Workspaces.
(** The names listed at the URL of a workspace, the order in which Go goes through the
    set of workspaces, and the workspace of a name. *)
Context (children : string -> result (list string)) (range_set : gset string -> list string).
Context {O : Type} (get_workspace : string -> result O) (MarshalYaml : O -> string * option error).

(** The workspace of the server's URL. *)
Definition current_workspace (host : string) : string :=
  let currentWorkspace := ExtractWorkspaceFromURL host in
  if currentWorkspace =?s "" then "root" else currentWorkspace.
(** [None] is running out of fuel. *)
Definition ListWorkspaces (fuel : nat) (host : string) : option (list string) :=
  range_set <$> DiscoverAllWorkspaces children host fuel (current_workspace host).
Definition DescribeWorkspace (name : string) : result O :=
  match get_workspace name with
  | Ok workspace => Ok workspace
  | Err err => Err (wrapf "failed to get workspace: " err)
  end.

Definition workspacesList (fuel : nat) (host : string) : option ToolCallResult :=
  workspaces ← ListWorkspaces fuel host;
  Some (NewToolCallResult
    (match workspaces with
     | [] => "No workspaces found"
     | _ =>
         fmt (["Available kcp workspaces ("; itoa (Z.of_nat (length workspaces)); " total):"; nl; nl] ++
              map (fun ws => fmt ["- "; ws; nl]) workspaces)
     end) None).
Definition workspaceDescribe (args : arguments) : ToolCallResult :=
  match args !! "workspace" with
  | Some (JString workspaceName) =>
      match DescribeWorkspace workspaceName with
      | Err err => NewToolCallResult "" (Some (wrapf "failed to get workspace: " err))
      | Ok workspaceObj =>
          match MarshalYaml workspaceObj with
          | (_, Some err) => NewToolCallResult "" (Some (wrapf "failed to marshal workspace: " err))
          | (yamlData, None) => NewToolCallResult yamlData None
          end
      end
  | _ => NewToolCallResult "" (Some (ErrNew "workspace parameter is required"))
  end.
End Workspaces.

(** * Properties *)

Section ConfigProperties.
Context {W C : Type} (load_RawConfig : string -> string -> W -> result kubeconfig).
Context (range_names : gmap string string -> list string).
Context (Hrange : forall m, range_names m ≡ₚ (map_to_list m).*1).

(** The list of the contexts of a kubeconfig has each of them once, in the order of their
    names, with its server; the one that is the default, if it is there, is marked; and
    the text has a line for each entry of the structured content. *)
Theorem contextsList_spec (c : ClientConfig) w cfg :
  RawConfig load_RawConfig c w = Ok cfg -> kc_Contexts cfg <> ∅ ->
  let r := contextsList load_RawConfig range_names c w w in
  exists infos header footer,
    tcr_Error r = None /\
    tcr_StructuredContent r =
      Some (AnyOther (contexts_json (mkContextsListResult (kc_CurrentContext cfg) infos))) /\
    tcr_Content r = fmt ([header] ++ map context_line infos ++ [footer]) /\
    Sorted String.le (map ci_Name infos) /\ NoDup (map ci_Name infos) /\
    (forall name server, (exists d, mkContextInfo name server d ∈ infos) <-> context_servers cfg !! name = Some server) /\
    Forall (fun i => ci_Default i = bool_decide (ci_Name i = kc_CurrentContext cfg)) infos.
Proof.
  intros Hcfg Hne. unfold contextsList, ConfigurationContextsList, ConfigurationContextsDefault. rewrite Hcfg.
  destruct (Nat.eqb_spec (size (context_servers cfg)) 0) as [H0|_].
  { apply map_size_empty_inv in H0. unfold context_servers in H0. by apply fmap_empty_inv in H0. }
  unfold list_contexts. cbv zeta.
  set (names := sort_strings (range_names (context_servers cfg))). set (infos := map _ names).
  assert (map ci_Name infos = names) as Hnames.
  { subst infos. rewrite map_map. apply map_id. }
  assert (names ≡ₚ (map_to_list (context_servers cfg)).*1) as Hperm by (subst names; by rewrite sort_strings_perm).
  assert (forall l h, foldl (fun r x => r +:+ context_line x) h l = h +:+ fmt (map context_line l)) as Hfold.
  { intros l. induction l as [|i l IH]; intros h; cbn [foldl map]; [by rewrite append_nil_r|].
    by rewrite IH, fmt_cons, append_assoc. }
  set (header := fmt _). set (footer := fmt _ +:+ _).
  exists infos, header, footer. cbn [tcr_Error tcr_StructuredContent tcr_Content NewToolCallResultFull].
  split_and!; [done|done| |rewrite Hnames; apply sort_strings_sorted| | |].
  - rewrite Hfold. cbn [app]. rewrite fmt_cons.
    assert (forall l, fmt (map context_line l ++ [footer]) = fmt (map context_line l) +:+ footer) as ->.
    { intros l. induction l as [|i l IH]; cbn [map app]; [by rewrite fmt_cons, append_nil_r|].
      by rewrite !fmt_cons, IH, append_assoc. }
    by rewrite append_assoc.
  - rewrite Hnames, Hperm. apply NoDup_fst_map_to_list.
  - intros name server. split.
    + intros [d Hin]. apply list_elem_of_fmap in Hin as (n & [= -> -> _] & Hn). rewrite Hperm in Hn.
      apply list_elem_of_fmap in Hn as ([k v] & -> & Hkv). apply elem_of_map_to_list in Hkv. cbn. by rewrite Hkv.
    + intros Hs. exists (bool_decide (name = kc_CurrentContext cfg)). apply list_elem_of_fmap. exists name.
      split; [unfold context_info; by rewrite Hs|]. rewrite Hperm. apply list_elem_of_fmap. exists (name, server).
      split; [done|]. by apply elem_of_map_to_list.
  - apply Forall_forall. intros i Hi. apply list_elem_of_fmap in Hi as (n & -> & _). done.
Qed.
End ConfigProperties.

Lemma append_inj_r s t u : s +:+ u = t +:+ u -> s = t.
Proof.
  intros E. assert (slen s = slen t) as Hlen.
  { apply (f_equal slen) in E. rewrite !slen_append in E. lia. }
  rewrite <- (take_str_append s u), E, Hlen. apply take_str_append.
Qed.

Section TargetList.
Context {W C : Type} (load_RawConfig : string -> string -> W -> result kubeconfig).
Context {X : Type} (MinifyConfig : kubeconfig -> result kubeconfig) (FlattenConfig : kubeconfig -> W -> kubeconfig).
Context (ConvertToVersion : kubeconfig -> result X) (MarshalYaml : X -> string * option error).
Context (range_names : gmap string string -> list string) (p : Provider W (Kubernetes C)) (c : StaticConfig).

(** The tools of the toolset that a server exposes. *)
Definition exposed (nil_handler : ToolHandlerFunc W (Kubernetes C)) (w : W) : list (ServerTool W (Kubernetes C)) :=
  List.filter (fun tool => tool_filter p c w tool w)
    (map (tool_mutator p c w)
       (initConfiguration load_RawConfig MinifyConfig FlattenConfig ConvertToVersion MarshalYaml range_names nil_handler)).

(** Whatever the configuration and the targets, the nil handler of the list of targets
    is never exposed; and unless tools are selected by name, exactly one tool lists the
    targets when there are several: the one for the contexts of a kubeconfig, or the
    one named after the target (which no provider calls so that the two names clash);
    there is none for a single target. *)
Theorem one_target_list nil_handler nil_handler' w :
  exposed nil_handler w = exposed nil_handler' w /\
  (c_EnabledTools c = None -> c_DisabledTools c = None ->
   GetTargetParameterName p <> "configuration_contexts" ->
   map (fun t => tl_Name (st_Tool t)) (List.filter IsTargetListProvider (exposed nil_handler w)) =
   if IsMultiTarget p w then
     [if bool_decide (GetTargetParameterName p = "context") then "configuration_contexts_list"
      else GetTargetParameterName p +:+ "_list"]
   else []).
Proof.
  assert (forall h, tool_mutator p c w (mkServerTool targets_list_tool h (Some false) (Some true) []) =
                    tool_mutator p c w (mkServerTool targets_list_tool nil_handler (Some false) (Some true) [])) as Hnil.
  { intros h. reflexivity. }
  split.
  { unfold exposed, initConfiguration. cbn [map]. by rewrite (Hnil nil_handler'). }
  intros He Hd Hclash. set (over := WithToolOverrides (W := W) (K := Kubernetes C) (c_ToolOverrides c)).
  assert (forall t : ServerTool W (Kubernetes C), tl_Name (st_Tool (over t)) = tl_Name (st_Tool t)) as Hname.
  { intros t. unfold over, WithToolOverrides. by destruct (_ !! _) as [o|]; [destruct (_ ≠?s _)|]. }
  assert (forall t : ServerTool W (Kubernetes C), IsTargetListProvider (over t) = IsTargetListProvider t) as Hlist.
  { intros t. unfold IsTargetListProvider, over. by destruct (WithToolOverrides_keeps (c_ToolOverrides c) t) as (_ & _ & _ & -> & _). }
  assert (forall t : ServerTool W (Kubernetes C), st_TargetCompatibilityFilters t = [] ->
    ta_ReadOnlyHint (tl_Annotations (st_Tool t)) = Some true ->
    ta_DestructiveHint (tl_Annotations (st_Tool t)) = Some false ->
    tool_filter p c w (over t) w = ShouldIncludeTargetListTool (GetTargetParameterName p) (IsMultiTarget p w) t w) as Hf.
  { intros t H1 H2 H3. unfold tool_filter, CompositeFilter. cbn [all_filters].
    assert (isToolApplicable c (over t) w = true) as ->.
    { destruct (WithToolOverrides_keeps (c_ToolOverrides c) t) as (E2 & E3 & _ & _ & E1). unfold isToolApplicable.
      rewrite He, Hd. unfold over. rewrite E1, E2, E3, H1, H2, H3. cbn. rewrite !andb_false_r.
      by destruct (c_EnableTargetCompatibilityToolFilters c). }
    unfold ShouldIncludeTargetListTool. rewrite Hname, Hlist. cbn [negb]. by repeat case_match. }
  unfold exposed, initConfiguration. set (t1 := mkServerTool configuration_contexts_list_tool _ _ _ _).
  set (t2 := mkServerTool targets_list_tool _ _ _ _). set (t3 := mkServerTool configuration_view_tool _ _ _ _).
  set (t2' := WithTargetListTool (GetDefaultTarget p w) (GetTargetParameterName p) (GetTargets p) t2).
  cbn [map List.filter].
  change (tool_mutator p c w t1) with (over t1). change (tool_mutator p c w t2) with (over t2').
  change (tool_mutator p c w t3) with (over t3).
  rewrite !Hf by done.
  assert (ShouldIncludeTargetListTool (GetTargetParameterName p) (IsMultiTarget p w) t1 w =
          IsMultiTarget p w && bool_decide (GetTargetParameterName p = "context")) as ->.
  { unfold ShouldIncludeTargetListTool. cbn [IsTargetListProvider t1 st_TargetListProvider Deref default negb].
    destruct (IsMultiTarget p w); [|done]. cbn [negb andb].
    destruct (bool_decide_reflect (GetTargetParameterName p = "context")) as [E|Hn]; [by rewrite ?E|].
    change (tl_Name (st_Tool t1)) with "configuration_contexts_list". unfold KubeConfigTargetParameterName.
    by rewrite (bool_decide_eq_false_2 _ Hn). }
  assert (ShouldIncludeTargetListTool (GetTargetParameterName p) (IsMultiTarget p w) t2' w =
          IsMultiTarget p w && negb (bool_decide (GetTargetParameterName p = "context"))) as ->.
  { unfold ShouldIncludeTargetListTool. change (IsTargetListProvider t2') with true. cbn [negb].
    destruct (IsMultiTarget p w); [|done]. cbn [negb andb].
    change (tl_Name (st_Tool t2')) with (GetTargetParameterName p +:+ "_list"). unfold KubeConfigTargetParameterName.
    rewrite (bool_decide_eq_false_2 (GetTargetParameterName p +:+ "_list" = "configuration_contexts_list"));
      [cbn [andb]|change "configuration_contexts_list" with ("configuration_contexts" +:+ "_list");
                  intros E; by apply append_inj_r in E].
    rewrite (bool_decide_eq_true_2 (GetTargetParameterName p +:+ "_list" = GetTargetParameterName p +:+ "_list")) by done.
    by destruct (bool_decide (GetTargetParameterName p = "context")). }
  change (ShouldIncludeTargetListTool _ _ t3 w) with true.
  assert (IsTargetListProvider (over t1) = true) as L1 by apply Hlist.
  assert (IsTargetListProvider (over t2') = true) as L2 by apply Hlist.
  assert (IsTargetListProvider (over t3) = false) as L3 by apply Hlist.
  destruct (IsMultiTarget p w), (bool_decide (GetTargetParameterName p = "context"));
    cbn [andb negb List.filter]; rewrite ?L1, ?L2, ?L3; cbn [map]; rewrite ?Hname; done.
Qed.
End TargetList.

(** The workspaces listed are the one of the server's URL, [root] if it names none, and
    those reached from it through the workspaces the API lists, each once. *)
Theorem workspaces_listed (children : string -> result (list string)) (range_set : gset string -> list string)
    (Hrange : forall s, range_set s ≡ₚ elements s) (host : string) (fin : gset string) fuel :
  (forall x, rtc (child_workspace children host) (current_workspace host) x -> x ∈ fin) -> size fin <= fuel ->
  exists l, ListWorkspaces children range_set fuel host = Some l /\ NoDup l /\
    forall x, x ∈ l <-> rtc (child_workspace children host) (current_workspace host) x.
Proof.
  intros Hfin Hfuel. destruct (DiscoverAll_reachable children host (current_workspace host) fin fuel Hfin Hfuel) as (s & Hs & Hx).
  exists (range_set s). unfold ListWorkspaces. rewrite Hs. split; [done|].
  split; [rewrite Hrange; apply NoDup_elements|]. intros x. by rewrite Hrange, elem_of_elements.
Qed.

(** * Witnesses *)

Module ConfigToolsWitness.
Definition cfg : kubeconfig :=
  mkKubeconfig {["east" := mkCluster "https://east" false "" ""; "west" := mkCluster "" false "" ""]} ∅
    {["prod" := mkContext "east" "u"; "dev" := mkContext "west" "u"; "old" := mkContext "gone" "u"]} "prod".
Definition range_names (m : gmap string string) : list string := (map_to_list m).*1.
Definition provider (target : string) (several : bool) : Provider unit (Kubernetes unit) :=
  mkTargetProvider target (fun _ => "here") (fun _ => several)
    (fun w => (Ok ["here"; "there"], w)) (fun _ w => (Err (ErrNew "no cluster"), w)) id.
End ConfigToolsWitness.

Example contexts_listed :
  tcr_Content (contextsList (fun _ _ (_ : unit) => Ok ConfigToolsWitness.cfg) ConfigToolsWitness.range_names
    (DeferredConfig "" "") tt tt) =
  fmt ["Available Kubernetes contexts (3 total, default: prod):"; nl; nl; "Format: [*] CONTEXT_NAME -> SERVER_URL"; nl;
       " (* indicates the default context used in tools if context is not set)"; nl; nl;
       "Contexts:"; nl; "---------"; nl;
       " dev -> unknown"; nl; " old -> unknown"; nl; "*prod -> https://east"; nl; "---------"; nl; nl;
       "To use a specific context with any tool, set the 'context' parameter in the tool call arguments"].
Proof. vm_compute. reflexivity. Qed.

Lemma contextsList_spec_witness :
  tcr_Error (contextsList (fun _ _ (_ : unit) => Ok ConfigToolsWitness.cfg) ConfigToolsWitness.range_names
    (DeferredConfig "" "") tt tt) = None.
Proof.
  destruct (contextsList_spec (fun _ _ (_ : unit) => Ok ConfigToolsWitness.cfg) ConfigToolsWitness.range_names
    (fun m => Permutation_refl _) (DeferredConfig "" "") tt ConfigToolsWitness.cfg) as (infos & header & footer & H & _);
    [reflexivity|vm_compute; discriminate|exact H].
Defined.

Lemma one_target_list_witness :
  map (fun t => tl_Name (st_Tool t)) (List.filter IsTargetListProvider
    (exposed (fun _ _ (_ : unit) => Ok ConfigToolsWitness.cfg) Ok (fun c _ => c) Ok (fun _ => ("", None))
       ConfigToolsWitness.range_names (ConfigToolsWitness.provider "cluster" true) BaseDefault
       (fun _ w => (Err (ErrNew "nil"), w)) tt)) = ["cluster_list"].
Proof.
  refine (proj2 (one_target_list (fun _ _ (_ : unit) => Ok ConfigToolsWitness.cfg) Ok (fun c _ => c) Ok
    (fun _ => ("", None)) ConfigToolsWitness.range_names (ConfigToolsWitness.provider "cluster" true) BaseDefault
    (fun _ w => (Err (ErrNew "nil"), w)) (fun _ w => (Err (ErrNew "nil"), w)) tt) _ _ _);
    [reflexivity..|discriminate].
Defined.

Lemma workspaces_listed_witness :
  exists l, ListWorkspaces KcpWitness.children elements 3 "https://kcp" = Some l /\ NoDup l.
Proof.
  destruct (workspaces_listed KcpWitness.children elements (fun s => Permutation_refl _) "https://kcp" KcpWitness.all 3)
    as (l & H & Hd & _); [|vm_compute; lia|exact (ex_intro _ l (conj H Hd))].
  assert (current_workspace "https://kcp" = "root") as -> by (vm_compute; reflexivity).
  exact KcpWitness.children_in.
Defined.
