(* ===== verification/McpMiddleware.v ===== *)
(** The middlewares around the methods of MCP (pkg/mcp/middleware.go and the metrics of
    pkg/mcp/mcp.go), in the order in which the server adds them: the log of the protocol
    and what it redacts, the session, the trace context and the spans, and the measures.
    The JSON printer, OpenTelemetry and the clocks are parameters. *)
From Stdlib Require Import Floats.SpecFloat.
From S2P Require Import Prelude GoStrings Api McpLog Params Config Http SdkTypes Manager UserAuth RateLimit.

(** * Definitions *)

(** ** Requests *)

(** What [GetMeta] does on the parameters: some types have none, and it may panic. *)
Inductive meta_result : Type := NoGetMeta | GetMetaPanics (r : string) | GetMeta (meta : gmap string jvalue).

(** A value as [jsonCompact] sees it: its JSON, if it has one, and its Go syntax. *)
Record printable := mkPrintable { pt_json : result string; pt_syntax : string }.

(** The parameters of a request that are not nil: those of a tool call, if it is one. *)
Record params := mkParams {
  pa_call : option CallToolParamsRaw;
  pa_meta : meta_result;
  pa_print : printable;
}.
(** A request; the id is that of the server session, where there is one. *)
Record frame := mkFrame {
  fr_request : mcp_request;
  fr_SessionID : string;
  fr_params : option params;
}.
Definition session_id (req : frame) : option string :=
  if bool_decide (is_Some (mr_Session (fr_request req))) then Some (fr_SessionID req) else None.

(** A result that is not nil: that of a tool, if it is one. *)
Record mcp_result := mkMcpResult { mr_call : option CallToolResult; mr_print : printable }.
(** A Go result with its error: either may be nil. *)
Definition answer : Type := (option mcp_result * option error)%type.

Definition jsonCompact (v : option printable) : string :=
  match v with
  | None => "<nil>"
  | Some v => match pt_json v with Ok data => data | Err _ => pt_syntax v end
  end.

(** ** The headers that are logged *)

Definition redactedHeaders : gmap string bool :=
  {["Authorization" := true; "authorization" := true;
    "Proxy-Authorization" := true; "proxy-authorization" := true;
    "Cookie" := true; "cookie" := true;
    "X-Api-Key" := true; "x-api-key" := true;
    "X-Auth-Token" := true; "x-auth-token" := true;
    "kubernetes-authorization" := true]}.

(** net/http: the names that are valid, and [Header.WriteSubset], which looks up the
    names as they are. *)
Definition token_char (c : ascii) : bool :=
  let n := N_of_ascii c in
  ((48 <=? n) && (n <=? 57) || (65 <=? n) && (n <=? 90) || (97 <=? n) && (n <=? 122))%N ||
  char_in c "!#$%&'*+-.^_`|~".
Fixpoint all_chars (f : ascii -> bool) (s : string) : bool :=
  match s with "" => true | String c s => f c && all_chars f s end.
Definition ValidHeaderFieldName (s : string) : bool := (s ≠?s "") && all_chars token_char s.
Definition header_text (v : string) : string :=
  Trim (map_str (fun c => if Ascii.eqb c "010" || Ascii.eqb c "013" then " "%char else c) v)
    (fmt [" "; String "009"%char ""]).
Definition crlf : string := fmt [String "013"%char ""; nl].
Definition header_lines (key : string) (values : list string) : string :=
  fmt (map (fun v => fmt [key; ": "; header_text v; crlf]) values).
Definition written (h : http_header) (exclude : gmap string bool) : list string :=
  List.filter (fun k => negb (default false (exclude !! k)) && ValidHeaderFieldName k)
    (sort_strings (map_to_list h).*1).
Definition WriteSubset (h : http_header) (exclude : gmap string bool) : string :=
  fmt (map (fun k => header_lines k (default [] (h !! k))) (written h exclude)).

(** ** Trace contexts *)

(** [metaCarrier]. *)
Definition Carrier_Get (meta : gmap string jvalue) (key : string) : string :=
  match meta !! key with Some (JString str) => str | _ => "" end.
Definition Carrier_Set (key value : string) (meta : gmap string jvalue) : gmap string jvalue := meta.
(** Where Go ranges over the map. *)
Definition Carrier_Keys (range_keys : gmap string jvalue -> list string) (meta : gmap string jvalue) : list string :=
  range_keys meta.

(** The span of a method: the context it was started in, its own context, and what it ends
    with; and the log of the server. *)
Record mcp_span (SC : Type) := mkSpan {
  ms_parent : SC;
  ms_context : SC;
  ms_name : string;
  ms_attrs : list (string * string);
  ms_errors : list string;
  ms_status : span_status;
}.
Arguments mkSpan {SC} _ _ _ _ _ _.
Arguments ms_parent {SC} _.
Arguments ms_context {SC} _.
Arguments ms_name {SC} _.
Arguments ms_attrs {SC} _.
Arguments ms_errors {SC} _.
Arguments ms_status {SC} _.
Record log_line := mkLine { ll_level : Z; ll_message : string; ll_attrs : list (string * string) }.
(** A call of [RecordToolCall]. *)
Record tool_record := mkToolRecord { to_name : string; to_duration : Z; to_error : option error }.

Section Middlewares.
(** The rest of the world, HTTP clients, trace contexts, limiters and server sessions. *)
Context {W HC SC L S : Type}.

(** The context of a request: its values, the session, and the trace context. *)
Record mcontext := mkMctx {
  mx_values : request_context HC;
  mx_session : option S;
  mx_trace : SC;
}.
Definition with_values (cx : request_context HC) (m : mcontext) : mcontext := mkMctx cx (mx_session m) (mx_trace m).
Definition with_session (s : S) (m : mcontext) : mcontext := mkMctx (mx_values m) (Some s) (mx_trace m).
Definition with_trace (t : SC) (m : mcontext) : mcontext := mkMctx (mx_values m) (mx_session m) t.

(** The world of the handlers: the verbosity and the log, whether there is tracing and the
    spans that have ended, what was measured, the sessions' limiters, and the rest. *)
Record mworld := mkMworld {
  mw_verbosity : Z;
  mw_logs : list log_line;
  mw_tracing : bool;
  mw_spans : list (mcp_span SC);
  mw_calls : list tool_record;
  mw_rate : rate_state L;
  mw_rest : W;
}.
Definition add_log (l : log_line) (w : mworld) : mworld :=
  mkMworld (mw_verbosity w) (mw_logs w ++ [l]) (mw_tracing w) (mw_spans w) (mw_calls w) (mw_rate w) (mw_rest w).
Definition add_span (s : mcp_span SC) (w : mworld) : mworld :=
  mkMworld (mw_verbosity w) (mw_logs w) (mw_tracing w) (mw_spans w ++ [s]) (mw_calls w) (mw_rate w) (mw_rest w).
Definition add_call (c : tool_record) (w : mworld) : mworld :=
  mkMworld (mw_verbosity w) (mw_logs w) (mw_tracing w) (mw_spans w) (mw_calls w ++ [c]) (mw_rate w) (mw_rest w).
Definition put_rate (r : rate_state L) (w : mworld) : mworld :=
  mkMworld (mw_verbosity w) (mw_logs w) (mw_tracing w) (mw_spans w) (mw_calls w) r (mw_rest w).

(** [logger.V(level).Enabled()] and [logger.V(level).Info]. *)
Definition log_enabled (level : Z) (w : mworld) : bool := (level <=? mw_verbosity w)%Z.
Definition V_Info (level : Z) (msg : string) (attrs : list (string * string)) (w : mworld) : mworld :=
  if log_enabled level w then add_log (mkLine level msg attrs) w else w.

Definition Handler : Type := mcontext -> string -> frame -> ST mworld answer.
Definition Middleware : Type := Handler -> Handler.

Context (json_Unmarshal : string -> result arguments) (print_arguments : arguments -> string).
Context {R : Type} (ReplaceAllString : R -> string -> string -> string) (patterns : list R).
Abbreviation sanitize := (Sanitize ReplaceAllString patterns).

(** ** The log of the protocol *)

(** What is logged of a tool call. *)
Definition tool_call_attributes (req : frame) (call : CallToolParamsRaw) (w : mworld) : list (string * string) :=
  match GoSdkToolCallParamsToToolCallRequest json_Unmarshal call with
  | Ok toolCallRequest =>
      [("mcp.tool_call.tool_name", tq_Name toolCallRequest);
       ("mcp.tool_call.arguments", sanitize (print_arguments (tq_arguments toolCallRequest)))]
  | Err _ => []
  end ++
  match mr_Header (fr_request req) with
  | Some h =>
      if log_enabled 7 w then [("mcp.tool_call.headers", sanitize (WriteSubset h redactedHeaders))] else []
  | None => []
  end.

Definition log_request (key method : string) (req : frame) (w : mworld) : mworld :=
  if log_enabled 6 w then
    V_Info 6 "mcp protocol" [(key, method); ("mcp.params", sanitize (jsonCompact (pa_print <$> fr_params req)))] w
  else w.
Definition log_error (key method : string) (err : error) (w : mworld) : mworld :=
  V_Info 6 "mcp protocol" [(key, method); ("exception.message", sanitize (error_string err))] w.
Definition log_result (key method : string) (r : option mcp_result) (w : mworld) : mworld :=
  if log_enabled 6 w then
    V_Info 6 "mcp protocol" [(key, method); ("mcp.call.result", sanitize (jsonCompact (mr_print <$> r)))] w
  else w.

Definition protocolReceivingMiddleware : Middleware := fun next cx method req w =>
  let w := log_request "mcp.client.method" method req w in
  let w :=
    match fr_params req with
    | Some {| pa_call := Some call |} =>
        if log_enabled 5 w then V_Info 5 "mcp tool call" (tool_call_attributes req call w) w else w
    | _ => w
    end in
  let '((result, err), w) := next cx method req w in
  let w :=
    match err with
    | Some err => log_error "mcp.client.method" method err w
    | None => log_result "mcp.client.method" method result w
    end in
  ((result, err), w).

Definition protocolSendingMiddleware : Middleware := fun next cx method req w =>
  let w := log_request "mcp.server.method" method req w in
  let '((result, err), w) := next cx method req w in
  let w :=
    match err, result with
    | Some err, _ => log_error "mcp.server.method" method err w
    | None, Some result => log_result "mcp.server.method" method (Some result) w
    | None, None => w
    end in
  ((result, err), w).

(** ** The session, the identity and the rate *)

(** The server session a request comes on. *)
Context (session_of : frame -> option S).
Definition sessionInjectionMiddleware : Middleware := fun next cx method req =>
  match session_of req with
  | Some serverSession => next (with_session serverSession cx) method req
  | None => next cx method req
  end.

(** The middlewares of UserAuth.v see the values of the context and the HTTP request. *)
Definition on_values
    (m : (request_context HC -> string -> mcp_request -> ST mworld answer) ->
         request_context HC -> string -> mcp_request -> ST mworld answer) : Middleware :=
  fun next cx method req =>
  m (fun values method _ => next (with_values values cx) method req) (mx_values cx) method (fr_request req).

(** That of RateLimit.v has its own state, and answers with an error. *)
Context (NewLimiter : spec_float -> Z -> L) (Allow : L -> Z -> bool * L).
(** The configuration and the clock, of the rest of the world. *)
Context (configFn : W -> spec_float * Z) (Now : W -> Z).
Definition rateMiddleware : Middleware := fun next cx method req w =>
  let '(allowed, s) := rate_limit NewLimiter Allow (configFn (mw_rest w)) (session_id req) (Now (mw_rest w)) (mw_rate w) in
  let w := put_rate s w in
  if allowed then next cx method req w
  else ((None, Some (ErrRPC CodeRateLimitExceeded "rate limit exceeded")), w).

(** ** Traces *)

(** The propagator, whether a context is valid and whether two are equal, and the printed
    parts of a context. *)
Context (Extract : SC -> gmap string jvalue -> SC) (IsValid : SC -> bool) (Equal : SC -> SC -> bool).
Context (TraceID SpanID : SC -> string).

Definition traceContextPropagationMiddleware : Middleware := fun next cx method req w =>
  if negb (mw_tracing w) then next cx method req w
  else
    let '(meta, w) :=
      match pa_meta <$> fr_params req with
      | Some (GetMetaPanics r) => (∅, V_Info 7 "GetMeta() panicked (metadata not set)" [("recover.value", r)] w)
      | Some (GetMeta meta) => (meta, w)
      | _ => (∅, w)
      end in
    if Nat.ltb 0 (size meta) then
      let scBefore := mx_trace cx in
      let scAfter := Extract scBefore meta in
      let w :=
        if IsValid scAfter && negb (Equal scAfter scBefore) then
          V_Info 6 "Extracted trace context from MCP request"
            [("trace_id", TraceID scAfter); ("span_id", SpanID scAfter)] w
        else w in
      next (with_trace scAfter cx) method req w
    else next cx method req w.

(** [tracer.Start]: the context of a new span below one. *)
Context (Start : SC -> string -> list (string * string) -> W -> SC).

(** The name of the tool that a request calls. *)
Definition called_tool (method : string) (req : frame) : option string :=
  if method =?s "tools/call" then
    match fr_params req with
    | Some {| pa_call := Some call |} =>
        match GoSdkToolCallParamsToToolCallRequest json_Unmarshal call with
        | Ok toolReq => Some (tq_Name toolReq)
        | Err _ => None
        end
    | _ => None
    end
  else None.
(** The name and the attributes of the span of a request, and what the answer adds: the
    recorded errors, the status, and attributes. *)
Definition span_start (method : string) (req : frame) : string * list (string * string) :=
  let transport := if bool_decide (is_Some (mr_Header (fr_request req))) then "tcp" else "pipe" in
  let attrs := [("mcp.method.name", method); ("rpc.jsonrpc.version", "2.0"); ("network.transport", transport)] in
  match called_tool method req with
  | Some name =>
      (fmt [method; " "; name], attrs ++ [("gen_ai.tool.name", name); ("gen_ai.operation.name", "execute_tool")])
  | None => (method, attrs)
  end.
Definition span_end (a : answer) : list string * span_status * list (string * string) :=
  match a.2 with
  | Some err => ([error_string err], SpanError (error_string err), [("error.type", "_OTHER")])
  | None =>
      match a.1 with
      | Some {| mr_call := Some callResult |} =>
          if ctr_IsError callResult
          then ([], SpanError "tool execution failed", [("error.type", "tool_error")])
          else ([], SpanOk, [])
      | _ => ([], SpanOk, [])
      end
  end.
Definition tracingMiddleware : Middleware := fun next cx method req w =>
  if negb (mw_tracing w) then next cx method req w
  else
    let '(spanName, attrs) := span_start method req in
    let child := Start (mx_trace cx) spanName attrs (mw_rest w) in
    let '(a, w) := next (with_trace child cx) method req w in
    let '(errors, status, attrs') := span_end a in
    (a, add_span (mkSpan (mx_trace cx) child spanName (attrs ++ attrs') errors status) w).

(** ** Measures: mcp.go *)

Definition mcpMetricsMiddleware : Middleware := fun next cx method req w =>
  let start := Now (mw_rest w) in
  let '((result, err), w) := next cx method req w in
  let duration := (Now (mw_rest w) - start)%Z in
  ((result, err), add_call (mkToolRecord (default method (called_tool method req)) duration err) w).

(** ** The server *)

(** go-sdk: every call wraps the handler there is. *)
Definition AddReceivingMiddleware (middleware : list Middleware) (h : Handler) : Handler :=
  foldl (fun h m => m h) h (reverse middleware).
Context (serverName serverVersion GOOS GOARCH : string).
(** The handler of the SDK in the middlewares, in the order in which [NewServer] adds them. *)
Definition receiving (h : Handler) : Handler :=
  let h := AddReceivingMiddleware [sessionInjectionMiddleware] h in
  let h := AddReceivingMiddleware [traceContextPropagationMiddleware] h in
  let h := AddReceivingMiddleware [rateMiddleware] h in
  let h := AddReceivingMiddleware [tracingMiddleware] h in
  let h := AddReceivingMiddleware [on_values authHeaderPropagationMiddleware] h in
  let h := AddReceivingMiddleware [on_values (userAgentPropagationMiddleware serverName serverVersion GOOS GOARCH)] h in
  let h := AddReceivingMiddleware [protocolReceivingMiddleware] h in
  AddReceivingMiddleware [mcpMetricsMiddleware] h.
End Middlewares.
Arguments mcontext : clear implicits.
Arguments mworld : clear implicits.

(** * Properties *)

(** ** The headers *)

#[export] Instance list_filter_perm {A} (f : A -> bool) : Proper (Permutation ==> Permutation) (List.filter f).
Proof.
  intros l1 l2 Hl. induction Hl as [|x l1 l2 _ IH|x y l|l1 l2 l3 _ IH1 _ IH2]; cbn; [done| | |by etrans].
  - destruct (f x); [by constructor|done].
  - destruct (f x), (f y); try done. constructor.
Qed.

Lemma filter_sort (f : string -> bool) l : List.filter f (sort_strings l) = sort_strings (List.filter f l).
Proof.
  apply (StronglySorted_unique String.le).
  - assert (StronglySorted String.le (sort_strings l)) as Hs
      by (apply Sorted_StronglySorted; [apply _|apply sort_strings_sorted]).
    induction Hs as [|x k _ IH Hx]; cbn; [constructor|]. destruct (f x); [|done].
    constructor; [done|]. rewrite Forall_forall in Hx |- *. intros y Hy. apply Hx.
    apply list_elem_of_In, filter_In in Hy as [Hy _]. by apply list_elem_of_In.
  - apply Sorted_StronglySorted; [apply _|apply sort_strings_sorted].
  - by rewrite !sort_strings_perm.
Qed.

(** The names that are written. *)
Lemma elem_of_written k h exclude :
  k ∈ written h exclude <->
  is_Some (h !! k) /\ default false (exclude !! k) = false /\ ValidHeaderFieldName k = true.
Proof.
  unfold written. rewrite list_elem_of_In, filter_In, <-list_elem_of_In, elem_of_sort_strings, andb_true_iff, negb_true_iff.
  split.
  - intros [Hk ?]. split; [|done]. apply list_elem_of_fmap in Hk as ([k' v] & -> & Hkv).
    apply elem_of_map_to_list in Hkv. cbn. by rewrite Hkv.
  - intros [[v Hv] ?]. split; [|done]. apply list_elem_of_fmap. exists (k, v). split; [done|].
    by apply elem_of_map_to_list.
Qed.

Lemma written_delete h k exclude : exclude !! k = Some true -> written (delete k h) exclude = written h exclude.
Proof.
  intros He. unfold written. rewrite !filter_sort. destruct (h !! k) as [v|] eqn:Hv; [|by rewrite delete_id].
  apply sort_strings_perm_eq.
  assert ((map_to_list h).*1 ≡ₚ k :: (map_to_list (delete k h)).*1) as Hp.
  { rewrite <-(map_to_list_delete h k v Hv). done. }
  rewrite Hp. cbn [List.filter]. rewrite He. cbn [default negb andb]. done.
Qed.

(** What is logged of the headers does not depend on a header whose name is on the list:
    neither on its values nor on whether it is there. *)
Theorem redacted_headers_not_logged h k values :
  redactedHeaders !! k = Some true ->
  WriteSubset (<[k := values]> h) redactedHeaders = WriteSubset h redactedHeaders.
Proof.
  intros Hk. assert (written (<[k := values]> h) redactedHeaders = written h redactedHeaders) as Hw.
  { rewrite <-(written_delete (<[k := values]> h) k) by done. rewrite delete_insert_eq. by apply written_delete. }
  unfold WriteSubset. rewrite Hw. f_equal. apply map_ext_in. intros x Hx%list_elem_of_In.
  apply elem_of_written in Hx as (_ & Hx & _). rewrite lookup_insert_ne; [done|]. intros ->. by rewrite Hk in Hx.
Qed.

(** The header for Kubernetes, whose name net/http makes canonical, is not on the list,
    which has it in lower case: it is logged, up to the redaction of its value. *)
Theorem kubernetes_header_is_logged h values :
  exists before after,
    WriteSubset (<[CustomAuthorizationHeader := values]> h) redactedHeaders =
    fmt [before; header_lines CustomAuthorizationHeader values; after].
Proof.
  set (h' := <[_ := _]> h). assert (h' !! CustomAuthorizationHeader = Some values) as Hv by apply lookup_insert_eq.
  assert (CustomAuthorizationHeader ∈ written h' redactedHeaders) as Hin.
  { apply elem_of_written. split; [by rewrite Hv|]. by split. }
  apply list_elem_of_split in Hin as (l1 & l2 & Hl). unfold WriteSubset. rewrite Hl, map_app. cbn [map].
  assert (forall k1 k2, fmt (k1 ++ k2) = fmt k1 +:+ fmt k2) as Happ.
  { intros k1 k2. induction k1 as [|x k1 IH]; [done|]. cbn [app]. by rewrite !fmt_cons, IH, append_assoc. }
  exists (fmt (map (fun k => header_lines k (default [] (h' !! k))) l1)),
    (fmt (map (fun k => header_lines k (default [] (h' !! k))) l2)).
  rewrite Happ, fmt_cons, Hv. cbn [default from_option id]. by rewrite !fmt_cons, append_nil_r.
Qed.

(** ** The middlewares of the server *)

Section Chain.
Context {W HC SC L S : Type}.
Context (json_Unmarshal : string -> result arguments) (print_arguments : arguments -> string).
Context {R : Type} (ReplaceAllString : R -> string -> string -> string) (patterns : list R).
Context (session_of : frame -> option S).
Context (NewLimiter : spec_float -> Z -> L) (Allow : L -> Z -> bool * L).
Context (configFn : W -> spec_float * Z) (Now : W -> Z).
Context (Extract : SC -> gmap string jvalue -> SC) (IsValid : SC -> bool) (Equal : SC -> SC -> bool).
Context (TraceID SpanID : SC -> string) (Start : SC -> string -> list (string * string) -> W -> SC).
Context (serverName serverVersion GOOS GOARCH : string).
Abbreviation world := (mworld W SC L).
Abbreviation context := (mcontext HC SC S).
Abbreviation handler := (context -> string -> frame -> ST world answer).
Abbreviation tool_of := (called_tool json_Unmarshal).
Abbreviation serve := (receiving json_Unmarshal print_arguments ReplaceAllString patterns session_of NewLimiter Allow
  configFn Now Extract IsValid Equal TraceID SpanID Start serverName serverVersion GOOS GOARCH).

(** A line of the log shows only what was sanitized, beside the name of the method and of
    the tool, the ids of a trace and a recovered panic. *)
Definition open_keys : list string :=
  ["mcp.client.method"; "mcp.server.method"; "mcp.tool_call.tool_name"; "recover.value"; "trace_id"; "span_id"].
Definition safe_line (l : log_line) : Prop :=
  Forall (fun a => a.1 ∈ open_keys \/ exists s, a.2 = Sanitize ReplaceAllString patterns s) (ll_attrs l).

(** A world with more lines in its log. *)
Definition extend (l : list log_line) (w : world) : world :=
  mkMworld (mw_verbosity w) (mw_logs w ++ l) (mw_tracing w) (mw_spans w) (mw_calls w) (mw_rate w) (mw_rest w).
Definition logs_safely (f : world -> world) : Prop := forall w, exists l, f w = extend l w /\ Forall safe_line l.

Lemma extend_nil w : extend [] w = w.
Proof. unfold extend. rewrite app_nil_r. by destruct w. Qed.
Lemma extend_app l1 l2 w : extend l2 (extend l1 w) = extend (l1 ++ l2) w.
Proof. unfold extend. cbn. by rewrite app_assoc. Qed.

Lemma logs_id : logs_safely (fun w => w).
Proof. intros w. exists []. by rewrite extend_nil. Qed.
Lemma logs_V_Info level msg (attrs : world -> list (string * string)) :
  (forall w, Forall (fun a => a.1 ∈ open_keys \/ exists s, a.2 = Sanitize ReplaceAllString patterns s) (attrs w)) ->
  logs_safely (fun w => V_Info level msg (attrs w) w).
Proof.
  intros H w. unfold V_Info. destruct (log_enabled level w); [|apply logs_id].
  exists [mkLine level msg (attrs w)]. split; [done|]. repeat constructor. apply H.
Qed.
Lemma logs_if (b : world -> bool) f g :
  logs_safely f -> logs_safely g -> logs_safely (fun w => if b w then f w else g w).
Proof. intros Hf Hg w. destruct (b w); [apply Hf|apply Hg]. Qed.
Lemma logs_comp f g : logs_safely f -> logs_safely g -> logs_safely (fun w => g (f w)).
Proof.
  intros Hf Hg w. destruct (Hf w) as (l1 & -> & H1). destruct (Hg (extend l1 w)) as (l2 & -> & H2).
  exists (l1 ++ l2). by rewrite extend_app, Forall_app.
Qed.

Local Ltac safe_attrs :=
  repeat first
    [ apply Forall_nil_2
    | apply Forall_cons_2; [solve [right; eexists; reflexivity | left; cbn; set_solver]|]
    | apply Forall_app_2 ].

Lemma logs_request key method req :
  key ∈ open_keys -> logs_safely (log_request ReplaceAllString patterns key method req).
Proof.
  intros Hk. apply logs_if; [|apply logs_id]. apply logs_V_Info. intros _.
  apply Forall_cons_2; [by left|]. safe_attrs.
Qed.
Lemma logs_error key method err :
  key ∈ open_keys -> logs_safely (log_error ReplaceAllString patterns key method err).
Proof.
  intros Hk. apply logs_V_Info. intros _. apply Forall_cons_2; [by left|]. safe_attrs.
Qed.
Lemma logs_result key method r :
  key ∈ open_keys -> logs_safely (log_result ReplaceAllString patterns key method r).
Proof.
  intros Hk. apply logs_if; [|apply logs_id]. apply logs_V_Info. intros _.
  apply Forall_cons_2; [by left|]. safe_attrs.
Qed.
Lemma logs_call req call :
  logs_safely (fun w => V_Info 5 "mcp tool call"
    (tool_call_attributes json_Unmarshal print_arguments ReplaceAllString patterns req call w) w).
Proof.
  apply logs_V_Info. intros w. unfold tool_call_attributes.
  apply Forall_app_2; [destruct (GoSdkToolCallParamsToToolCallRequest _ _)|destruct (mr_Header _); [destruct (log_enabled 7 w)|]];
    safe_attrs.
Qed.

(** What the middlewares hand to the handler. *)
Definition agent (req : frame) (values : request_context HC) : request_context HC :=
  WithUserAgent (TrimSpace (fmt [serverName; "/"; serverVersion; " ("; GOOS; "/"; GOARCH; ") ";
                                 getMcpReqUserAgent (fr_request req)])) values.
Definition bearer (req : frame) (values : request_context HC) : request_context HC :=
  let auth := header_value (fr_request req) OAuthAuthorizationHeader in
  let custom := header_value (fr_request req) CustomAuthorizationHeader in
  if auth ≠?s "" then WithAuthorization auth values
  else if custom ≠?s "" then WithAuthorization custom values else values.
Definition child_span (cx : context) (method : string) (req : frame) (w : world) : SC :=
  Start (mx_trace cx) (span_start json_Unmarshal method req).1 (span_start json_Unmarshal method req).2 (mw_rest w).
Definition extracted (req : frame) (t : SC) : SC :=
  match pa_meta <$> fr_params req with
  | Some (GetMeta meta) => if Nat.ltb 0 (size meta) then Extract t meta else t
  | _ => t
  end.
Definition handler_context (cx : context) (method : string) (req : frame) (w : world) : context :=
  mkMctx (bearer req (agent req (mx_values cx)))
    (match session_of req with Some s => Some s | None => mx_session cx end)
    (if mw_tracing w then extracted req (child_span cx method req w) else mx_trace cx).
(** What they add to the world afterwards. *)
Definition finished_span (cx : context) (method : string) (req : frame) (w : world) (a : answer) : mcp_span SC :=
  let '(errors, status, attrs') := span_end a in
  mkSpan (mx_trace cx) (child_span cx method req w) (span_start json_Unmarshal method req).1
    ((span_start json_Unmarshal method req).2 ++ attrs') errors status.
Definition measure (method : string) (req : frame) (w w2 : world) (a : answer) : tool_record :=
  mkToolRecord (default method (tool_of method req)) (Now (mw_rest w2) - Now (mw_rest w)) a.2.
Definition left_behind (cx : context) (method : string) (req : frame) (w : world) (a : answer) (w2 : world) : world :=
  add_call (measure method req w w2 a)
    (if mw_tracing w then add_span (finished_span cx method req w a) w2 else w2).
Definition refusal : answer := (None, Some (ErrRPC CodeRateLimitExceeded "rate limit exceeded")).

(** Middleware by middleware. *)
Lemma identity_eq (next : handler) cx method req (w : world) :
  on_values (userAgentPropagationMiddleware serverName serverVersion GOOS GOARCH)
    (on_values authHeaderPropagationMiddleware next) cx method req w =
  next (with_values (bearer req (agent req (mx_values cx))) cx) method req w.
Proof.
  unfold on_values, userAgentPropagationMiddleware, authHeaderPropagationMiddleware, bearer, agent. cbn zeta.
  by destruct (_ ≠?s ""); [|destruct (_ ≠?s "")].
Qed.

Lemma protocol_eq (next : handler) cx method req (w : world) :
  exists l1, Forall safe_line l1 /\
  let '(a, w2) := next cx method req (extend l1 w) in
  exists l2, Forall safe_line l2 /\
  protocolReceivingMiddleware json_Unmarshal print_arguments ReplaceAllString patterns next cx method req w = (a, extend l2 w2).
Proof.
  unfold protocolReceivingMiddleware. cbn zeta.
  destruct (logs_request "mcp.client.method" method req ltac:(set_solver) w) as (k1 & -> & Hk1).
  set (called := match fr_params req with Some {| pa_call := Some call |} => _ | _ => _ end).
  assert (exists k2, called = extend (k1 ++ k2) w /\ Forall safe_line k2) as (k2 & -> & Hk2).
  { subst called. assert (exists k2, extend k1 w = extend (k1 ++ k2) w /\ Forall safe_line k2) as H.
    { exists []. by rewrite app_nil_r. }
    destruct (fr_params req) as [[[call|] meta print]|]; [|done..]. destruct (log_enabled 5 _); [|done].
    destruct (logs_call req call (extend k1 w)) as (k2 & -> & Hk2). exists k2. by rewrite extend_app. }
  exists (k1 ++ k2). split; [by apply Forall_app_2|].
  destruct (next cx method req _) as [[r [e|]] w2].
  - destruct (logs_error "mcp.client.method" method e ltac:(set_solver) w2) as (l2 & -> & H2). by exists l2.
  - destruct (logs_result "mcp.client.method" method r ltac:(set_solver) w2) as (l2 & -> & H2). by exists l2.
Qed.

Lemma propagation_eq (next : handler) cx method req (w : world) :
  exists l, Forall safe_line l /\
  traceContextPropagationMiddleware Extract IsValid Equal TraceID SpanID next cx method req w =
  next (if mw_tracing w then with_trace (extracted req (mx_trace cx)) cx else cx) method req (extend l w).
Proof.
  unfold traceContextPropagationMiddleware, extracted.
  assert (with_trace (mx_trace cx) cx = cx) as Hcx by (by destruct cx).
  assert (exists l, Forall safe_line l /\ next cx method req w = next cx method req (extend l w)) as Hid.
  { exists []. by rewrite extend_nil. }
  destruct (mw_tracing w); cbn [negb]; [|exact Hid].
  destruct (pa_meta <$> fr_params req) as [[|r|meta]|]; cbn zeta.
  - change (Nat.ltb 0 (size ∅)) with false. cbn iota. rewrite Hcx. exact Hid.
  - rewrite Hcx. change (Nat.ltb 0 (size ∅)) with false. cbn iota.
    edestruct (logs_V_Info 7 "GetMeta() panicked (metadata not set)" (fun _ => [("recover.value", r)])) as (l & -> & Hl);
      [|by exists l].
    intros _. apply Forall_cons_2; [left; cbn; set_solver|constructor].
  - destruct (Nat.ltb 0 (size meta)); [|rewrite Hcx; exact Hid].
    destruct (IsValid _ && _); [|exists []; by rewrite extend_nil].
    edestruct (logs_V_Info 6 "Extracted trace context from MCP request"
      (fun _ => [("trace_id", TraceID (Extract (mx_trace cx) meta)); ("span_id", SpanID (Extract (mx_trace cx) meta))]))
      as (l & -> & Hl); [|by exists l].
    intros _. repeat (apply Forall_cons_2; [left; cbn; set_solver|]). constructor.
  - change (Nat.ltb 0 (size ∅)) with false. cbn iota. rewrite Hcx. exact Hid.
Qed.

Lemma session_eq (next : handler) cx method req (w : world) :
  sessionInjectionMiddleware session_of next cx method req w =
  next (mkMctx (mx_values cx) (match session_of req with Some s => Some s | None => mx_session cx end) (mx_trace cx))
    method req w.
Proof. unfold sessionInjectionMiddleware. destruct (session_of req); [done|]. by destruct cx. Qed.

(** All of them. *)
Lemma serve_spec (h : handler) (cx : context) method req (w : world) :
  let '(allowed, s) := rate_limit NewLimiter Allow (configFn (mw_rest w)) (session_id req) (Now (mw_rest w)) (mw_rate w) in
  exists l1, Forall safe_line l1 /\
  let w1 := put_rate s (extend l1 w) in
  let '(a, w2) := if allowed then h (handler_context cx method req w) method req w1 else (refusal, w1) in
  exists l2, Forall safe_line l2 /\ serve h cx method req w = (a, extend l2 (left_behind cx method req w a w2)).
Proof.
  unfold receiving, AddReceivingMiddleware. cbn [reverse rev_append rev app foldl].
  set (limited := rateMiddleware _ _ _ _ _). set (traced := tracingMiddleware _ _ limited).
  destruct (rate_limit _ _ _ _ _ _) as [allowed s] eqn:Hrate.
  unfold mcpMetricsMiddleware. cbn zeta.
  edestruct (protocol_eq (on_values (userAgentPropagationMiddleware serverName serverVersion GOOS GOARCH)
    (on_values authHeaderPropagationMiddleware traced)) cx method req w) as (l1 & Hl1 & Hp).
  rewrite identity_eq in Hp. set (cx1 := with_values _ cx) in Hp.
  assert (exists l, Forall safe_line l /\
    limited (if mw_tracing w then with_trace (child_span cx method req w) cx1 else cx1) method req (extend l1 w) =
    if allowed then h (handler_context cx method req w) method req (put_rate s (extend (l1 ++ l) w))
    else (refusal, put_rate s (extend (l1 ++ l) w))) as (l & Hl & Hlim).
  { unfold limited, rateMiddleware. cbn [mw_rest mw_rate extend]. rewrite Hrate.
    destruct allowed; [|exists []; rewrite app_nil_r; split; [constructor|reflexivity]].
    edestruct propagation_eq as (l & Hl & ->). exists l. split; [done|]. rewrite session_eq.
    assert (extend l (put_rate s (extend l1 w)) = put_rate s (extend (l1 ++ l) w)) as ->
      by (unfold extend, put_rate; cbn; by rewrite app_assoc).
    unfold handler_context. cbn [mw_tracing put_rate extend]. by destruct (mw_tracing w). }
  exists (l1 ++ l). split; [by apply Forall_app_2|].
  assert (traced cx1 method req (extend l1 w) =
    let '(a, w2) := if allowed then h (handler_context cx method req w) method req (put_rate s (extend (l1 ++ l) w))
                    else (refusal, put_rate s (extend (l1 ++ l) w)) in
    (a, if mw_tracing w then add_span (finished_span cx method req w a) w2 else w2)) as Htraced.
  { rewrite <-Hlim. unfold traced, tracingMiddleware, finished_span, child_span. cbn [mw_tracing mw_rest extend].
    destruct (mw_tracing w); cbn [negb]; [|by destruct (limited _ _ _ _)].
    change (mx_trace cx1) with (mx_trace cx). destruct (span_start json_Unmarshal method req) as [name attrs].
    assert (forall (r : answer * world) t,
      (let '(a, w2) := r in let '(errors, status, attrs') := span_end a in
       (a, add_span (mkSpan (mx_trace cx) t name (attrs ++ attrs') errors status) w2)) =
      (let '(a, w2) := r in
       (a, add_span (let '(errors, status, attrs') := span_end a in
                     mkSpan (mx_trace cx) t name (attrs ++ attrs') errors status) w2))) as Hpair.
    { intros [a w2] t. by destruct (span_end a) as [[errors status] attrs']. }
    apply Hpair. }
  rewrite Htraced in Hp. destruct (if allowed then _ else _) as [a w2].
  destruct Hp as (l2 & Hl2 & Hp). rewrite Hp. exists l2. split; [done|]. destruct a as [r e].
  unfold left_behind, measure, extend. by destruct (mw_tracing w).
Qed.

(** Whether the limiter of the session lets a request through. *)
Definition let_through (req : frame) (w : world) : bool :=
  (rate_limit NewLimiter Allow (configFn (mw_rest w)) (session_id req) (Now (mw_rest w)) (mw_rate w)).1.

(** C9. A request that the limiter of its session lets through reaches the handler once, with
    the identity of its headers, the session it came on, and a world in which only the log
    and the limiters may have changed, and its answer is that of the handler; a request
    that is refused does not reach the handler and changes nothing else; and either is
    measured once, under the name of the tool or of the method, with the error of the
    answer, every line of the log being safe. *)
Theorem served_once (h : handler) cx method req (w : world) :
  let '(a, w') := serve h cx method req w in
  exists l1 w1 w2 l2,
    mw_logs w1 = mw_logs w ++ l1 /\ mw_rest w1 = mw_rest w /\ mw_calls w1 = mw_calls w /\ mw_spans w1 = mw_spans w /\
    (if let_through req w then h (handler_context cx method req w) method req w1 = (a, w2)
     else a = refusal /\ w2 = w1) /\
    mw_logs w' = mw_logs w2 ++ l2 /\ mw_rest w' = mw_rest w2 /\
    mw_calls w' = mw_calls w2 ++ [measure method req w w2 a] /\ Forall safe_line (l1 ++ l2).
Proof.
  pose proof (serve_spec h cx method req w) as H. unfold let_through.
  destruct (rate_limit _ _ _ _ _ _) as [allowed s]. destruct H as (l1 & Hl1 & H). cbn zeta in H. cbn [fst].
  destruct allowed; cbn iota in *.
  - destruct (h _ _ _ _) as [a w2] eqn:Hh. destruct H as (l2 & Hl2 & ->).
    exists l1, (put_rate s (extend l1 w)), w2, l2. split_and!; try done; [..|by apply Forall_app_2];
      unfold left_behind, extend; by destruct (mw_tracing w).
  - destruct H as (l2 & Hl2 & ->). exists l1, (put_rate s (extend l1 w)), (put_rate s (extend l1 w)), l2.
    split_and!; try done; [..|by apply Forall_app_2]; unfold left_behind, extend; by destruct (mw_tracing w).
Qed.

(** With tracing, one span is ended for a request.  It is below the context of the
    request, also when the request names the trace of the client: that one is extracted
    after the span was started, and the handler works below it, not below the span. *)
Theorem span_apart_from_clients_trace (h : handler) cx method req (w : world) meta remote :
  mw_tracing w = true -> pa_meta <$> fr_params req = Some (GetMeta meta) -> meta <> ∅ ->
  (forall t, Extract t meta = remote) -> let_through req w = true ->
  let '(a, w') := serve h cx method req w in
  exists w1 w2 span, mw_spans w1 = mw_spans w /\
    h (handler_context cx method req w) method req w1 = (a, w2) /\
    mx_trace (handler_context cx method req w) = remote /\
    mw_spans w' = mw_spans w2 ++ [span] /\ ms_parent span = mx_trace cx /\ ms_context span = child_span cx method req w.
Proof.
  intros Ht Hm Hne Hr. pose proof (serve_spec h cx method req w) as H. unfold let_through.
  destruct (rate_limit _ _ _ _ _ _) as [allowed s]. destruct H as (l1 & _ & H). cbn zeta in H. cbn [fst].
  intros ->. cbn iota in H. destruct (h _ _ _ _) as [a w2] eqn:Hh. destruct H as (l2 & _ & ->).
  exists (put_rate s (extend l1 w)), w2, (finished_span cx method req w a). split; [done|]. split; [done|].
  split.
  { unfold handler_context, extracted. cbn [mx_trace]. rewrite Ht, Hm.
    assert (Nat.ltb 0 (size meta) = true) as ->; [|done]. apply Nat.ltb_lt.
    destruct (size meta) eqn:Hs; [|lia]. by apply map_size_empty_inv in Hs. }
  unfold left_behind. rewrite Ht. split; [done|]. unfold finished_span.
  by destruct (span_end a) as [[errors status] attrs].
Qed.

(** The middleware of what the server sends only logs, and safely. *)
Theorem sending_only_logs (h : handler) cx method req (w : world) :
  exists l1, let '(a, w2) := h cx method req (extend l1 w) in
  exists l2, protocolSendingMiddleware ReplaceAllString patterns h cx method req w = (a, extend l2 w2) /\
    Forall safe_line (l1 ++ l2).
Proof.
  unfold protocolSendingMiddleware. cbn zeta.
  destruct (logs_request "mcp.server.method" method req ltac:(set_solver) w) as (l1 & -> & H1). exists l1.
  destruct (h _ _ _ _) as [[r [e|]] w2].
  - destruct (logs_error "mcp.server.method" method e ltac:(set_solver) w2) as (l2 & -> & H2). exists l2. by rewrite Forall_app.
  - destruct r as [r|]; [|exists []; by rewrite extend_nil, app_nil_r].
    destruct (logs_result "mcp.server.method" method (Some r) ltac:(set_solver) w2) as (l2 & -> & H2).
    exists l2. by rewrite Forall_app.
Qed.
End Chain.

(** * Witnesses *)

Module McpMiddlewareWitness.
(** Trace contexts are names: a child is named after its span, and what is extracted is
    the name the client gives. *)
Definition json_Unmarshal (_ : string) : result arguments := Ok ∅.
Definition call : frame :=
  mkFrame (mkMcpRequest (Some {["Authorization" := ["Bearer t"]; "Kubernetes-Authorization" := ["secret"]]}) None) ""
    (Some (mkParams (Some (mkCallToolParamsRaw "pods_list" "")) (GetMeta {["traceparent" := JString "remote"]})
      (mkPrintable (Ok "{}") ""))).
Definition Extract (t : string) (meta : gmap string jvalue) : string :=
  let r := Carrier_Get meta "traceparent" in if r =?s "" then t else r.
(** A tool that fails. *)
Definition failing (cx : mcontext unit string unit) (method : string) (req : frame) :
    ST (mworld unit string unit) answer := fun w =>
  ((Some (mkMcpResult (Some (mkCallToolResult true "no such pod" None)) (mkPrintable (Ok "{}") "")), None), w).
Definition world (verbosity : Z) : mworld unit string unit :=
  mkMworld verbosity [] true [] [] (mkRate ∅ f64_zero 0) tt.
Definition start : mcontext unit string unit := mkMctx (mkCtx None None None) None "http".
Definition serve (w : mworld unit string unit) : answer * mworld unit string unit :=
  receiving json_Unmarshal (fun _ => "map[]") (fun (_ : unit) msg _ => msg) [] (fun _ => None) (fun _ _ => tt)
    (fun _ _ => (true, tt)) (fun _ => (f64_zero, 0%Z)) (fun _ => 0%Z) Extract (fun t => t ≠?s "") (fun a b => a =?s b)
    (fun t => t) (fun t => t) (fun _ name _ _ => name) "srv" "1" "linux" "amd64" failing start "tools/call" call w.
End McpMiddlewareWitness.

(** The failure of a tool is the status of its span, and no error of the measures. *)
Example tool_failure_not_measured :
  map ms_status (mw_spans (McpMiddlewareWitness.serve (McpMiddlewareWitness.world 0)).2) =
    [SpanError "tool execution failed"] /\
  mw_calls (McpMiddlewareWitness.serve (McpMiddlewareWitness.world 0)).2 = [mkToolRecord "pods_list" 0 None].
Proof. split; vm_compute; reflexivity. Qed.

Example kubernetes_header_in_the_log :
  omap (fun l => snd <$> List.find (fun a => a.1 =?s "mcp.tool_call.headers") (ll_attrs l))
    (mw_logs (McpMiddlewareWitness.serve (McpMiddlewareWitness.world 7)).2) =
  [fmt ["Kubernetes-Authorization: secret"; crlf]].
Proof. vm_compute. reflexivity. Qed.

Lemma redacted_headers_not_logged_witness :
  WriteSubset {["Cookie" := ["c"]; "Accept" := ["a"]]} redactedHeaders = WriteSubset {["Accept" := ["a"]]} redactedHeaders.
Proof. apply (redacted_headers_not_logged {["Accept" := ["a"]]} "Cookie" ["c"]). vm_compute. reflexivity. Defined.

Lemma span_apart_from_clients_trace_witness :
  exists span, mw_spans (McpMiddlewareWitness.serve (McpMiddlewareWitness.world 0)).2 = [span] /\ ms_parent span = "http".
Proof.
  pose proof (span_apart_from_clients_trace McpMiddlewareWitness.json_Unmarshal (fun _ => "map[]")
    (fun (_ : unit) msg _ => msg) [] (fun _ => None) (fun _ _ => tt) (fun _ _ => (true, tt)) (fun _ => (f64_zero, 0%Z))
    (fun _ => 0%Z) McpMiddlewareWitness.Extract (fun t => t ≠?s "") (fun a b => a =?s b) (fun t => t) (fun t => t)
    (fun _ name _ _ => name) "srv" "1" "linux" "amd64" McpMiddlewareWitness.failing McpMiddlewareWitness.start "tools/call"
    McpMiddlewareWitness.call (McpMiddlewareWitness.world 0) {["traceparent" := JString "remote"]} "remote"
    eq_refl eq_refl ltac:(discriminate) ltac:(reflexivity) eq_refl) as H.
  change (receiving _ _ _ _ _ _ _ _ _ _ _ _ _ _ _ _ _ _ _ _ _ _ _ _)
    with (McpMiddlewareWitness.serve (McpMiddlewareWitness.world 0)) in H.
  destruct (McpMiddlewareWitness.serve _) as [a w']. destruct H as (w1 & w2 & span & H1 & Hh & _ & Hs & Hp & _).
  injection Hh as _ Hw. subst w2. exists span. rewrite H1 in Hs. split; [exact Hs|exact Hp].
Defined.
