(* ===== verification/Telemetry.v ===== *)
(** OpenTelemetry: which exporters and which sampler the configuration and the environment
    choose, when tracing is on (pkg/telemetry), and the counters behind the statistics of
    the server (pkg/metrics).  The SDK is a parameter: its exporters and its providers, and
    the counters, with what their reader is documented to collect. *)
From Stdlib Require Import Floats.SpecFloat.
From S2P Require Import Prelude GoStrings Api Config.

(** * Definitions *)

(** ** Samplers and exporters *)

Inductive Sampler : Type :=
| AlwaysSample
| NeverSample
| TraceIDRatioBased (fraction : spec_float)
| ParentBased (root : Sampler).

(** An exporter that is created: over HTTP or gRPC, and with an endpoint of its own unless
    it reads the environment. *)
Record exporter_options := mkExporterOptions { eo_http : bool; eo_endpoint : option string }.

Definition f64_one : spec_float := S754_finite false 4503599627370496 (-52).
(** A message at V(level). *)
Definition log_message : Type := (Z * string)%type.

Section Telemetry.
Context (Getenv : string -> string) (FormatFloat : spec_float -> string).
(** [strconv.ParseFloat(s, 64)]: NaN and the infinities have texts, too. *)
Context (ParseFloat : string -> result spec_float).

(** The ratio of the samplers; the message depends on where the argument comes from. *)
Definition sampler_ratio (invalid out_of_range : string) (samplerArg : string) : spec_float * list log_message :=
  if samplerArg =?s "" then (f64_one, [])
  else
    match ParseFloat samplerArg with
    | Err _ => (f64_one, [(1%Z, invalid)])
    | Ok parsed =>
        if SFltb parsed f64_zero || SFltb f64_one parsed then (f64_one, [(1%Z, out_of_range)]) else (parsed, [])
    end.
Definition select_sampler (unknown samplerType : string) (ratio : spec_float) : Sampler * list log_message :=
  if samplerType =?s "always_on" then (AlwaysSample, [(2%Z, "Using AlwaysSample sampler")])
  else if samplerType =?s "always_off" then (NeverSample, [(2%Z, "Using NeverSample sampler")])
  else if samplerType =?s "traceidratio" then (TraceIDRatioBased ratio, [(2%Z, "Using TraceIDRatioBased sampler")])
  else if samplerType =?s "parentbased_always_on" then
    (ParentBased AlwaysSample, [(2%Z, "Using ParentBased(AlwaysSample) sampler")])
  else if samplerType =?s "parentbased_always_off" then
    (ParentBased NeverSample, [(2%Z, "Using ParentBased(NeverSample) sampler")])
  else if samplerType =?s "parentbased_traceidratio" then
    (ParentBased (TraceIDRatioBased ratio), [(2%Z, "Using ParentBased(TraceIDRatioBased) sampler")])
  else if samplerType =?s "" then
    (ParentBased AlwaysSample, [(2%Z, "Using default ParentBased(AlwaysSample) sampler")])
  else (ParentBased AlwaysSample, [(1%Z, unknown)]).

Definition getSamplerFromEnv : Sampler * list log_message :=
  let samplerType := Getenv "OTEL_TRACES_SAMPLER" in
  let samplerArg := Getenv "OTEL_TRACES_SAMPLER_ARG" in
  let '(ratio, logs) :=
    sampler_ratio "Invalid OTEL_TRACES_SAMPLER_ARG, falling back to default"
      "OTEL_TRACES_SAMPLER_ARG out of range [0.0, 1.0], falling back to default" samplerArg in
  let '(sampler, logs') := select_sampler "Unknown OTEL_TRACES_SAMPLER, using default" samplerType ratio in
  (sampler, logs ++ logs').
Definition getSamplerFromConfig (cfg : TelemetryConfig) : Sampler * list log_message :=
  let samplerType := Telemetry_GetTracesSampler Getenv cfg in
  let samplerArg := Telemetry_GetTracesSamplerArg Getenv FormatFloat cfg in
  let '(ratio, logs) :=
    sampler_ratio "Invalid traces_sampler_arg, using"
      "traces_sampler_arg out of range [0.0, 1.0], using default" samplerArg in
  let '(sampler, logs') := select_sampler "Unknown traces_sampler, using default" samplerType ratio in
  (sampler, logs ++ logs').

(** The transport of a protocol, whose letters are small. *)
Definition select_protocol (using_http using_default using_grpc unknown protocol : string) : bool * list log_message :=
  if (protocol =?s "http/protobuf") || (protocol =?s "http") then (true, [(2%Z, using_http)])
  else if protocol =?s "" then (false, [(2%Z, using_default)])
  else if protocol =?s "grpc" then (false, [(2%Z, using_grpc)])
  else (false, [(1%Z, unknown)]).
Definition createExporter : exporter_options * list log_message :=
  let '(http, logs) :=
    select_protocol "Using HTTP/protobuf OTLP exporter" "Using gRPC OTLP exporter (default)" "Using gRPC OTLP exporter"
      "Unknown OTEL_EXPORTER_OTLP_PROTOCOL falling back to default" (ToLower (Getenv "OTEL_EXPORTER_OTLP_PROTOCOL")) in
  (mkExporterOptions http None, logs).
Definition createExporterWithConfig (cfg : TelemetryConfig) : exporter_options * list log_message :=
  let '(http, logs) :=
    select_protocol "Using HTTP/protobuf OTLP exporter" "Using gRPC OTLP exporter (default)" "Using gRPC OTLP exporter"
      "Unknown protocol, falling back to default" (ToLower (Telemetry_GetProtocol Getenv cfg)) in
  (mkExporterOptions http (Some (Telemetry_GetEndpoint Getenv cfg)), logs).
Definition createLogExporter (cfg : TelemetryConfig) : exporter_options :=
  let protocol := ToLower (Telemetry_GetProtocol Getenv cfg) in
  mkExporterOptions ((protocol =?s "http/protobuf") || (protocol =?s "http")) (Some (Telemetry_GetEndpoint Getenv cfg)).
(** [None] where metrics are only collected. *)
Definition createMetricsExporter (cfg : option TelemetryConfig) : option exporter_options * list log_message :=
  if ToLower (Getenv "OTEL_METRICS_EXPORTER") =?s "none" then
    (None, [(2%Z, "OTLP metrics export disabled via OTEL_METRICS_EXPORTER=none")])
  else
    let from_env := (Getenv "OTEL_EXPORTER_OTLP_ENDPOINT", ToLower (Getenv "OTEL_EXPORTER_OTLP_PROTOCOL")) in
    let '(configured, (endpoint, protocol)) :=
      match cfg with
      | Some cfg =>
          if Telemetry_IsEnabled Getenv cfg
          then (true, (Telemetry_GetEndpoint Getenv cfg, ToLower (Telemetry_GetProtocol Getenv cfg)))
          else (false, from_env)
      | None => (false, from_env)
      end in
    if negb configured && (endpoint =?s "") then (None, [])
    else
      let '(http, logs) :=
        select_protocol "Using HTTP/protobuf OTLP metrics exporter" "Using gRPC OTLP metrics exporter (default)"
          "Using gRPC OTLP metrics exporter"
          "Unknown OTEL_EXPORTER_OTLP_PROTOCOL for metrics, defaulting to gRPC" protocol in
      (Some (mkExporterOptions http (Some endpoint)), logs).

(** ** The tracer and the logs

    The globals: whether tracing is enabled, and the provider that was installed, of which
    only the exporter and the sampler are kept. *)
Context {E Res : Type}.
Record tracer := mkTracer { tr_exporter : E; tr_resource : Res; tr_sampler : Sampler }.
Record tracing := mkTracing { tg_enabled : bool; tg_provider : option tracer }.

(** [otlptracehttp.New], [otlptracegrpc.New] and those of the logs; [resource.New] on the
    name and the version of the service. *)
Context (new_exporter : exporter_options -> result E) (new_resource : string -> string -> result Res).

(** The providers are created from an exporter and a sampler; the cleanup has something to
    shut down only if there is one. *)
Definition init_tracer (exporter : result E) (sampler : Sampler) (serviceName serviceVersion : string) (g : tracing) :
    option tracer * tracing :=
  match exporter with
  | Err _ => (None, g)
  | Ok exporter =>
      match new_resource serviceName serviceVersion with
      | Err _ => (None, g)
      | Ok res => let tp := mkTracer exporter res sampler in (Some tp, mkTracing true (Some tp))
      end
  end.
Definition InitTracer (serviceName serviceVersion : string) (g : tracing) : option tracer * tracing :=
  if Getenv "OTEL_EXPORTER_OTLP_ENDPOINT" =?s "" then (None, g)
  else init_tracer (new_exporter createExporter.1) getSamplerFromEnv.1 serviceName serviceVersion g.
Definition InitTracerWithConfig (cfg : option TelemetryConfig) (serviceName serviceVersion : string) (g : tracing) :
    option tracer * tracing :=
  match cfg with
  | None => (None, g)
  | Some cfg =>
      if negb (Telemetry_IsEnabled Getenv cfg) then (None, g)
      else init_tracer (new_exporter (createExporterWithConfig cfg).1) (getSamplerFromConfig cfg).1 serviceName serviceVersion g
  end.
Definition cleanup (tp : option tracer) (g : tracing) : tracing :=
  match tp with None => g | Some _ => mkTracing false (tg_provider g) end.

(** [NewLogProvider]: the exporter and the resource of the provider, if there is one. *)
Definition NewLogProvider (cfg : option TelemetryConfig) (serviceName serviceVersion : string) : result (option (E * Res)) :=
  match cfg with
  | None => Ok None
  | Some cfg =>
      if negb (Telemetry_IsEnabled Getenv cfg) then Ok None
      else if ToLower (Getenv "OTEL_LOGS_EXPORTER") =?s "none" then Ok None
      else
        match new_exporter (createLogExporter cfg) with
        | Err err => Err err
        | Ok exporter =>
            match new_resource serviceName serviceVersion with
            | Err err => Err err
            | Ok res => Ok (Some (exporter, res))
            end
        end
  end.
End Telemetry.
Arguments tracer : clear implicits.
Arguments tracing : clear implicits.

(** ** The statistics *)

(** A set of attributes, in the order of their keys. *)
Definition attribute_set : Type := list (string * string).
Definition getAttributeValue (attrs : attribute_set) (key : string) : string :=
  match List.find (fun a => a.1 =?s key) attrs with Some (_, v) => v | None => "" end.

(** What the reader of the SDK collects. *)
Inductive metric_data : Type := SumInt64 (points : list (attribute_set * Z)) | OtherData.
Record metric := mkMetric { me_Name : string; me_Data : metric_data }.

(** What is done with the instruments: a counter is increased, or a duration is recorded in
    a histogram. *)
Inductive instrument_op : Type :=
| OAdd (name : string) (attrs : attribute_set) (value : Z)
| ORecord (name : string) (attrs : attribute_set) (duration : Z).

Record Statistics := mkStatistics {
  st_TotalToolCalls : Z;
  st_ToolCallErrors : Z;
  st_ToolCallsByName : gmap string Z;
  st_ToolErrorsByName : gmap string Z;
  st_TotalHTTPRequests : Z;
  st_HTTPRequestsByPath : gmap string Z;
  st_HTTPRequestsByStatus : gmap string Z;
  st_HTTPRequestsByMethod : gmap string Z;
  st_UptimeSeconds : Z;
  st_StartTime : Z;
}.
Definition new_stats (uptime start : Z) : Statistics := mkStatistics 0 0 ∅ ∅ 0 ∅ ∅ ∅ uptime start.

Definition RecordToolCall (name : string) (duration : Z) (err : option error) : list instrument_op :=
  [OAdd "k8s_mcp.tool.calls" [("tool.name", name)] 1; ORecord "k8s_mcp.tool.duration" [("tool.name", name)] duration] ++
  match err with Some _ => [OAdd "k8s_mcp.tool.errors" [("tool.name", name)] 1] | None => [] end.

Definition status_class (statusCode : Z) : string :=
  if ((200 <=? statusCode) && (statusCode <? 300))%Z then "2xx"
  else if ((300 <=? statusCode) && (statusCode <? 400))%Z then "3xx"
  else if ((400 <=? statusCode) && (statusCode <? 500))%Z then "4xx"
  else if ((500 <=? statusCode) && (statusCode <? 600))%Z then "5xx"
  else "other".
Definition RecordHTTPRequest (method path : string) (statusCode : Z) : list instrument_op :=
  [OAdd "k8s_mcp.http.requests"
     [("http.request.method", method); ("http.response.status_class", status_class statusCode); ("url.path", path)] 1].

(** [m[k] += v], when [k] is not empty. *)
Definition bump (k : string) (v : Z) (m : gmap string Z) : gmap string Z :=
  if k ≠?s "" then <[k := wrap64 (default 0%Z (m !! k) + v)]> m else m.
(** [m[k] = v], when [k] is not empty. *)
Definition put_count (k : string) (v : Z) (m : gmap string Z) : gmap string Z :=
  if k ≠?s "" then <[k := v]> m else m.

Definition tool_point (stats : Statistics) (dp : attribute_set * Z) : Statistics :=
  mkStatistics (wrap64 (st_TotalToolCalls stats + dp.2)) (st_ToolCallErrors stats)
    (put_count (getAttributeValue dp.1 "tool.name") dp.2 (st_ToolCallsByName stats)) (st_ToolErrorsByName stats)
    (st_TotalHTTPRequests stats) (st_HTTPRequestsByPath stats) (st_HTTPRequestsByStatus stats)
    (st_HTTPRequestsByMethod stats) (st_UptimeSeconds stats) (st_StartTime stats).
Definition error_point (stats : Statistics) (dp : attribute_set * Z) : Statistics :=
  mkStatistics (st_TotalToolCalls stats) (wrap64 (st_ToolCallErrors stats + dp.2)) (st_ToolCallsByName stats)
    (put_count (getAttributeValue dp.1 "tool.name") dp.2 (st_ToolErrorsByName stats))
    (st_TotalHTTPRequests stats) (st_HTTPRequestsByPath stats) (st_HTTPRequestsByStatus stats)
    (st_HTTPRequestsByMethod stats) (st_UptimeSeconds stats) (st_StartTime stats).
Definition http_point (stats : Statistics) (dp : attribute_set * Z) : Statistics :=
  mkStatistics (st_TotalToolCalls stats) (st_ToolCallErrors stats) (st_ToolCallsByName stats) (st_ToolErrorsByName stats)
    (wrap64 (st_TotalHTTPRequests stats + dp.2))
    (bump (getAttributeValue dp.1 "url.path") dp.2 (st_HTTPRequestsByPath stats))
    (bump (getAttributeValue dp.1 "http.response.status_class") dp.2 (st_HTTPRequestsByStatus stats))
    (bump (getAttributeValue dp.1 "http.request.method") dp.2 (st_HTTPRequestsByMethod stats))
    (st_UptimeSeconds stats) (st_StartTime stats).

Definition processMetric (stats : Statistics) (m : metric) : Statistics :=
  match me_Data m with
  | OtherData => stats
  | SumInt64 points =>
      if me_Name m =?s "k8s_mcp.tool.calls" then foldl tool_point stats points
      else if me_Name m =?s "k8s_mcp.tool.errors" then foldl error_point stats points
      else if me_Name m =?s "k8s_mcp.http.requests" then foldl http_point stats points
      else stats
  end.

(** The metrics of the scopes, one after the other; the error of the reader is only logged. *)
Definition GetStats (collected : result (list metric)) (uptime start : Z) : Statistics :=
  match collected with
  | Err _ => new_stats uptime start
  | Ok metrics => foldl processMetric (new_stats uptime start) metrics
  end.

(** ** The collector: what the meter provider is made of.  The readers of the statistics
    and of Prometheus are always there. *)

Inductive metric_reader (E : Type) : Type := ManualReader | PrometheusReader | PeriodicReader (exporter : E).
Arguments ManualReader {E}.
Arguments PrometheusReader {E}.
Arguments PeriodicReader {E} _.
Record collector (E Res : Type) := mkCollector {
  oc_readers : list (metric_reader E);
  oc_resource : option Res;
  oc_instruments : list string;
  oc_startTime : Z;
}.
Arguments mkCollector {E Res} _ _ _ _.
Arguments oc_readers {E Res} _.
Arguments oc_resource {E Res} _.
Arguments oc_instruments {E Res} _.
Arguments oc_startTime {E Res} _.

(** The instruments, in the order of their creation, with what an error says. *)
Definition instruments : list (string * string) :=
  [("k8s_mcp.tool.calls", "failed to create tool call counter: ");
   ("k8s_mcp.tool.errors", "failed to create tool error counter: ");
   ("k8s_mcp.tool.duration", "failed to create tool duration histogram: ");
   ("k8s_mcp.http.requests", "failed to create HTTP request counter: ");
   ("k8s_mcp.server.info", "failed to create server info gauge: ")].

Section Collector.
Context (Getenv : string -> string) {E Res : Type}.
(** The SDK: the exporter of Prometheus, the OTLP exporters, the resources and the
    instruments; and the clock. *)
Context (prometheus_New : option error) (new_metrics_exporter : exporter_options -> result E).
Context (new_metrics_resource : list (string * string) -> result Res) (new_instrument : string -> option error) (now : Z).

Fixpoint create_instruments (l : list (string * string)) : option error :=
  match l with
  | [] => None
  | (name, what) :: l =>
      match new_instrument name with Some err => Some (wrapf what err) | None => create_instruments l end
  end.
Definition resource_attributes (serviceName serviceVersion : string) : list (string * string) :=
  [("service.name", serviceName); ("service.version", serviceVersion)] ++
  (let ns := Getenv "POD_NAMESPACE" in if ns ≠?s "" then [("k8s.namespace.name", ns)] else []).
Definition NewOtelStatsCollectorWithConfig (telemetry : option TelemetryConfig) (serviceName serviceVersion : string) :
    result (collector E Res) :=
  match prometheus_New with
  | Some err => Err (wrapf "failed to create prometheus exporter: " err)
  | None =>
      let exporter :=
        match (createMetricsExporter Getenv telemetry).1 with
        | None => None
        | Some options => match new_metrics_exporter options with Ok e => Some e | Err _ => None end
        end in
      let '(readers, res) :=
        match exporter with
        | None => ([], None)
        | Some e =>
            ([PeriodicReader e],
             match new_metrics_resource (resource_attributes serviceName serviceVersion) with
             | Ok res => Some res
             | Err _ => None
             end)
        end in
      match create_instruments instruments with
      | Some err => Err err
      | None => Ok (mkCollector ([ManualReader; PrometheusReader] ++ readers) res (map fst instruments) now)
      end
  end.
Definition NewOtelStatsCollector : result (collector E Res) :=
  NewOtelStatsCollectorWithConfig None "kubernetes-mcp-server" "unknown".
(** [metrics.New]. *)
Definition New (telemetry : option TelemetryConfig) (serviceName serviceVersion : string) : result (list (collector E Res)) :=
  match NewOtelStatsCollectorWithConfig telemetry serviceName serviceVersion with
  | Err err => Err (wrapf "failed to create stats collector: " err)
  | Ok stats => Ok [stats]
  end.
End Collector.

(** ** Specification: the events that are recorded, and their counts *)

Inductive measured : Type :=
| MTool (name : string) (duration : Z) (err : option error)
| MHttp (method path : string) (statusCode : Z).
Definition ops_of (e : measured) : list instrument_op :=
  match e with
  | MTool name duration err => RecordToolCall name duration err
  | MHttp method path statusCode => RecordHTTPRequest method path statusCode
  end.
Definition count (P : measured -> bool) (es : list measured) : Z := Z.of_nat (length (List.filter P es)).
Definition is_tool (P : string -> option error -> bool) (e : measured) : bool :=
  match e with MTool name _ err => P name err | MHttp _ _ _ => false end.
Definition is_http (P : string -> string -> Z -> bool) (e : measured) : bool :=
  match e with MTool _ _ _ => false | MHttp method path code => P method path code end.

(** The sums of a counter by attributes. *)
Fixpoint totals (name : string) (ops : list instrument_op) : gmap attribute_set Z :=
  match ops with
  | [] => ∅
  | OAdd n attrs v :: ops =>
      let m := totals name ops in
      if n =?s name then <[attrs := (default 0 (m !! attrs) + v)%Z]> m else m
  | ORecord _ _ _ :: ops => totals name ops
  end.
(** What a reader is documented to collect: for each counter that was used one metric, with
    a point for each set of attributes, in any order. *)
Definition collects (ops : list instrument_op) (metrics : list metric) : Prop :=
  NoDup (map me_Name metrics) /\
  forall name, name ∈ ["k8s_mcp.tool.calls"; "k8s_mcp.tool.errors"; "k8s_mcp.http.requests"] ->
    match List.find (fun m => me_Name m =?s name) metrics with
    | Some m => exists points, me_Data m = SumInt64 points /\ points ≡ₚ map_to_list (totals name ops)
    | None => totals name ops = ∅
    end.

(** * Lemmas *)

Implicit Types f : attribute_set -> bool.

(** The sum of the increases of a counter, and of the points, whose attributes satisfy [f]. *)
Fixpoint adds (name : string) (f : attribute_set -> bool) (ops : list instrument_op) : Z :=
  match ops with
  | [] => 0
  | OAdd n attrs v :: ops => (if (n =?s name) && f attrs then v else 0) + adds name f ops
  | ORecord _ _ _ :: ops => adds name f ops
  end%Z.
Fixpoint points_sum (f : attribute_set -> bool) (points : list (attribute_set * Z)) : Z :=
  match points with
  | [] => 0
  | (attrs, v) :: points => (if f attrs then v else 0) + points_sum f points
  end%Z.
Fixpoint positive (ops : list instrument_op) : Prop :=
  match ops with
  | [] => True
  | OAdd _ _ v :: ops => (0 < v)%Z /\ positive ops
  | ORecord _ _ _ :: ops => positive ops
  end.

Lemma adds_app name f o1 o2 : adds name f (o1 ++ o2) = (adds name f o1 + adds name f o2)%Z.
Proof. induction o1 as [|[n a v|n a d] o1 IH]; cbn; [done| |done]. rewrite IH. lia. Qed.
Lemma positive_app o1 o2 : positive (o1 ++ o2) <-> positive o1 /\ positive o2.
Proof. induction o1 as [|[n a v|n a d] o1 IH]; cbn; naive_solver. Qed.
Lemma ops_positive es : positive (flat_map ops_of es).
Proof.
  induction es as [|e es IH]; cbn; [done|]. apply positive_app. split; [|done].
  destruct e as [n d [e|]|m p c]; cbn; lia.
Qed.

Lemma points_sum_perm f p1 p2 : p1 ≡ₚ p2 -> points_sum f p1 = points_sum f p2.
Proof.
  intros H. induction H as [|[a v] p1 p2 _ IH|[a v] [b u] p|p1 p2 p3 _ IH1 _ IH2]; cbn; [done|by rewrite IH|lia|congruence].
Qed.
Lemma points_sum_insert f (m : gmap attribute_set Z) a v :
  points_sum f (map_to_list (<[a := default 0 (m !! a) + v]> m))%Z =
  ((if f a then v else 0) + points_sum f (map_to_list m))%Z.
Proof.
  destruct (m !! a) as [d|] eqn:Ha; cbn [default from_option id].
  - rewrite <-(insert_delete_eq m a), (points_sum_perm f _ _ (map_to_list_insert _ _ _ (lookup_delete_eq m a))).
    rewrite <-(insert_delete_id m a d Ha) at 2.
    rewrite (points_sum_perm f _ _ (map_to_list_insert _ _ d (lookup_delete_eq m a))). cbn. destruct (f a); lia.
  - rewrite (points_sum_perm f _ _ (map_to_list_insert _ _ _ Ha)). cbn. destruct (f a); lia.
Qed.
Lemma points_sum_totals name f ops : points_sum f (map_to_list (totals name ops)) = adds name f ops.
Proof.
  induction ops as [|[n a v|n a d] ops IH]; cbn [totals adds]; [by rewrite map_to_list_empty| |done].
  destruct (bool_decide_reflect (n = name)); cbn [andb]; [by rewrite points_sum_insert, IH|by rewrite IH].
Qed.
Lemma totals_positive name ops a v : positive ops -> totals name ops !! a = Some v -> (0 < v)%Z.
Proof.
  revert a v. induction ops as [|[n b u|n b d] ops IH]; intros a v; cbn [totals positive]; [by rewrite lookup_empty| |apply IH].
  intros [Hu Hp]. destruct (n =?s name); [|by apply IH]. destruct (decide (b = a)) as [->|Hne].
  - rewrite lookup_insert_eq. intros [= <-]. destruct (totals name ops !! a) as [w|] eqn:E; cbn; [|lia].
    specialize (IH a w Hp E). lia.
  - rewrite lookup_insert_ne by done. by apply IH.
Qed.
(** The attributes of a counter are those it is increased with. *)
Lemma totals_keys (P : attribute_set -> Prop) name ops :
  (forall n a v, OAdd n a v ∈ ops -> n = name -> P a) -> forall a : attribute_set, is_Some (totals name ops !! a) -> P a.
Proof.
  intros Hops. induction ops as [|[n b u|n b d] ops IH]; intros a; cbn [totals].
  - rewrite lookup_empty. by intros [? ?].
  - assert (forall n a v, OAdd n a v ∈ ops -> n = name -> P a) as Hops' by (intros n' a' v' H; apply (Hops n' a' v'); by constructor).
    destruct (bool_decide_reflect (n = name)) as [->|]; [|by apply IH].
    destruct (decide (b = a)) as [->|Hne]; [intros _; apply (Hops name a u); [by constructor|done]|].
    rewrite lookup_insert_ne by done. by apply IH.
  - apply IH. intros n' a' v' H. apply (Hops n' a' v'). by constructor.
Qed.

Lemma adds_count name f (P : measured -> bool) es :
  (forall e, adds name f (ops_of e) = if P e then 1%Z else 0%Z) -> adds name f (flat_map ops_of es) = count P es.
Proof.
  intros H. unfold count. induction es as [|e es IH]; [done|]. cbn [flat_map List.filter].
  rewrite adds_app, H, IH. destruct (P e); cbn [length]; lia.
Qed.
Lemma count_le P es : (0 <= count P es <= Z.of_nat (length es))%Z.
Proof. unfold count. induction es as [|e es IH]; cbn; [lia|]. destruct (P e); cbn; lia. Qed.

(** Sums of int64. *)
Lemma wrap64_nonneg z : (0 <= z < 2 ^ 63)%Z -> wrap64 z = z.
Proof. intros H. unfold wrap64. rewrite Z.mod_small by lia. lia. Qed.
Lemma points_sum_app f p1 p2 : points_sum f (p1 ++ p2) = (points_sum f p1 + points_sum f p2)%Z.
Proof. induction p1 as [|[a v] p1 IH]; cbn; [done|]. rewrite IH. lia. Qed.
Lemma points_sum_le f points :
  Forall (fun p => 0 < p.2)%Z points -> (0 <= points_sum f points <= points_sum (fun _ => true) points)%Z.
Proof.
  intros H. induction H as [|[a v] points Hv _ IH]; cbn in *; [lia|]. destruct (f a); lia.
Qed.

Definition counted (k : string) (c : Z) : option Z := if (k =?s "") || (c =? 0)%Z then None else Some c.

Lemma total_fold points t :
  Forall (fun p => 0 < p.2)%Z points -> (0 <= t)%Z -> (t + points_sum (fun _ => true) points < 2 ^ 63)%Z ->
  foldl (fun t (p : attribute_set * Z) => wrap64 (t + p.2)) t points = (t + points_sum (fun _ => true) points)%Z.
Proof.
  intros H. revert t. induction H as [|[a v] points Hv Hf IH]; intros t Ht Hlt; cbn in *; [lia|].
  pose proof (points_sum_le (fun _ => true) points Hf). rewrite wrap64_nonneg by lia. rewrite IH by lia. lia.
Qed.
Lemma bump_fold (key : attribute_set -> string) points k :
  Forall (fun p => 0 < p.2)%Z points -> (points_sum (fun _ => true) points < 2 ^ 63)%Z ->
  foldl (fun m p => bump (key p.1) p.2 m) ∅ points !! k = counted k (points_sum (fun a => key a =?s k) points).
Proof.
  induction points as [|[a v] points IH] using rev_ind.
  { intros _ _. cbn. unfold counted. rewrite lookup_empty. by rewrite orb_true_r. }
  rewrite Forall_app, Forall_singleton, foldl_app, !points_sum_app. cbn [foldl points_sum fst snd].
  intros [Hf Hv] Hlt. pose proof (points_sum_le (fun a => key a =?s k) points Hf) as Hle.
  specialize (IH Hf ltac:(cbn in Hlt; lia)). set (m := foldl _ _ points) in *.
  unfold bump. destruct (bool_decide_reflect (key a = "")) as [He|He]; cbn [negb].
  - rewrite IH, He. unfold counted. destruct (bool_decide_reflect (k = "")) as [->|Hk]; [done|].
    rewrite (bool_decide_eq_false_2 ("" = k)) by congruence. cbn [orb]. by rewrite !Z.add_0_r.
  - destruct (bool_decide_reflect (key a = k)) as [<-|Hk].
    + rewrite lookup_insert_eq, IH. unfold counted. rewrite (bool_decide_eq_false_2 (key a = "")) by done. cbn [orb].
      set (c := points_sum _ points) in *. cbn in Hlt, Hv.
      assert (default 0%Z (if (c =? 0)%Z then None else Some c) = c) as ->.
      { destruct (Z.eqb_spec c 0) as [->|]; done. }
      rewrite (proj2 (Z.eqb_neq (c + (v + 0)) 0)) by lia. f_equal. rewrite wrap64_nonneg; lia.
    + rewrite lookup_insert_ne by done. rewrite IH. by rewrite !Z.add_0_r.
Qed.
(** Points with distinct keys. *)
Lemma put_fold (key : attribute_set -> string) points :
  Forall (fun p => 0 < p.2)%Z points -> (points_sum (fun _ => true) points < 2 ^ 63)%Z ->
  NoDup (map (fun p => key p.1) points) ->
  foldl (fun m p => put_count (key p.1) p.2 m) ∅ points = foldl (fun m p => bump (key p.1) p.2 m) ∅ points.
Proof.
  induction points as [|[a v] points IH] using rev_ind; [done|].
  rewrite Forall_app, Forall_singleton, !foldl_app, points_sum_app, map_app, NoDup_app. cbn [foldl map points_sum fst snd].
  intros [Hf Hv] Hlt (Hnd & Hdis & _). cbn in Hlt, Hv. pose proof (points_sum_le (fun _ => true) points Hf) as Hle.
  rewrite IH by (done || lia). set (m := foldl _ ∅ points).
  enough (m !! key a = None) as Hm.
  { unfold put_count, bump. rewrite Hm. cbn [default from_option id]. by rewrite wrap64_nonneg by lia. }
  subst m. rewrite bump_fold by (done || lia).
  assert (points_sum (fun a' => key a' =?s key a) points = 0%Z) as ->.
  { assert (forall p, p ∈ points -> key p.1 <> key a) as Hne.
    { intros p Hp He. apply (Hdis (key p.1)); [|by rewrite He; set_solver]. apply list_elem_of_fmap. by exists p. }
    clear -Hne. induction points as [|[b u] points IH]; cbn; [done|].
    rewrite bool_decide_eq_false_2 by (apply (Hne (b, u)); by constructor). apply IH. intros p Hp. apply Hne. by constructor. }
  unfold counted. by rewrite orb_true_r.
Qed.

(** A field of the statistics that only the metric of one name changes. *)
Lemma stats_field {A} (field : Statistics -> A) (g : A -> attribute_set * Z -> A) name metrics s :
  (forall s m, field (processMetric s m) =
     match me_Data m with
     | SumInt64 points => if me_Name m =?s name then foldl g (field s) points else field s
     | OtherData => field s
     end) ->
  NoDup (map me_Name metrics) ->
  field (foldl processMetric s metrics) =
  match List.find (fun m => me_Name m =?s name) metrics with
  | Some {| me_Data := SumInt64 points |} => foldl g (field s) points
  | _ => field s
  end.
Proof.
  intros Hstep. revert s. induction metrics as [|m metrics IH]; intros s; [done|].
  cbn [map foldl List.find]. intros [Hnin Hnd]%NoDup_cons. rewrite IH by done.
  destruct (bool_decide_reflect (me_Name m = name)) as [<-|Hne].
  - assert (List.find (fun m' => me_Name m' =?s me_Name m) metrics = None) as ->.
    { destruct (List.find _ _) as [m'|] eqn:E; [|done]. apply find_some in E as [Hin He]. apply bool_decide_eq_true in He.
      destruct Hnin. rewrite <-He. apply list_elem_of_In, in_map. done. }
    rewrite Hstep, bool_decide_eq_true_2 by done. by destruct m as [n [points|]].
  - destruct (List.find _ _) as [[n [points|]]|]; rewrite Hstep, bool_decide_eq_false_2 by done; by destruct (me_Data m).
Qed.

(** What the points of a counter add up to. *)
Lemma collected_sum ops metrics name f :
  collects ops metrics -> name ∈ ["k8s_mcp.tool.calls"; "k8s_mcp.tool.errors"; "k8s_mcp.http.requests"] -> positive ops ->
  exists points,
    match List.find (fun m => me_Name m =?s name) metrics with
    | Some m => me_Data m = SumInt64 points
    | None => points = []
    end /\
    Forall (fun p => 0 < p.2)%Z points /\ (forall f, points_sum f points = adds name f ops) /\
    (forall p, p ∈ points -> is_Some (totals name ops !! p.1)) /\ NoDup points.*1.
Proof.
  intros [_ H] Hname Hpos. specialize (H name Hname). destruct (List.find _ _) as [m|].
  - destruct H as (points & Hd & Hp). exists points. split; [done|]. split_and!.
    + apply Forall_forall. intros [a v]. rewrite Hp, elem_of_map_to_list. by apply totals_positive.
    + intros f'. by rewrite (points_sum_perm _ _ _ Hp), points_sum_totals.
    + intros [a v]. rewrite Hp, elem_of_map_to_list. cbn. intros ->. by eexists.
    + rewrite Hp. apply NoDup_fst_map_to_list.
  - exists []. split_and!; [done|constructor| |set_solver|constructor].
    intros f'. rewrite <-points_sum_totals, H. by rewrite map_to_list_empty.
Qed.

(** The name of the tool is all that tells the points of its counters apart. *)
Lemma tool_points_distinct name es points :
  name <> "k8s_mcp.http.requests" ->
  (forall p, p ∈ points -> is_Some (totals name (flat_map ops_of es) !! p.1)) -> NoDup points.*1 ->
  NoDup (map (fun p : attribute_set * Z => getAttributeValue p.1 "tool.name") points).
Proof.
  intros Hn Hin Hnd.
  assert (forall p, p ∈ points -> p.1 = [("tool.name", getAttributeValue p.1 "tool.name")]) as Hform.
  { intros p Hp. apply Hin in Hp. revert Hp.
    apply (totals_keys (fun a => a = [("tool.name", getAttributeValue a "tool.name")])). intros n a v Ha ->.
    apply list_elem_of_In, in_flat_map in Ha as (e & _ & Ha). destruct e as [t d [e|]|m p' c]; cbn in Ha;
      repeat destruct Ha as [Ha|Ha]; try discriminate Ha; try done; by injection Ha as <- <- <-. }
  clear Hin. induction points as [|p points IH]; [constructor|]. cbn [map fmap list_fmap] in *.
  apply NoDup_cons in Hnd as [Hnin Hnd]. apply NoDup_cons. split; [|apply IH; [done|]; intros q Hq; apply Hform; by constructor].
  intros (q & He & Hq)%list_elem_of_fmap. apply Hnin. apply list_elem_of_fmap. exists q. split; [|done].
  rewrite (Hform p), (Hform q), He by (by constructor). done.
Qed.

Ltac eval_names :=
  repeat match goal with
    |- context [bool_decide (@eq string ?a ?b)] =>
      let v := eval vm_compute in (bool_decide (a = b)) in
      match v with true => idtac | false => idtac end; change (bool_decide (a = b)) with v
    end; cbn iota.
Lemma adds_le name f es : (0 <= adds name f (flat_map ops_of es) <= Z.of_nat (length es))%Z.
Proof.
  induction es as [|e es IH]; [done|]. cbn [flat_map length]. rewrite adds_app.
  assert (0 <= adds name f (ops_of e) <= 1)%Z; [|lia].
  destruct (bool_decide_reflect ("k8s_mcp.tool.calls" = name)) as [<-|H1].
  - destruct e as [t d [e|]|m p c]; cbn [ops_of RecordToolCall RecordHTTPRequest adds app]; eval_names; cbn [andb];
      try destruct (f _); lia.
  - destruct e as [t d [e|]|m p c]; cbn [ops_of RecordToolCall RecordHTTPRequest adds app];
      rewrite ?(bool_decide_eq_false_2 _ H1); cbn [andb]; try destruct (_ && _); lia.
Qed.

(** That only the metric of one name changes a field. *)
Ltac only_metric :=
  let s := fresh "s" in let n := fresh "n" in let pts := fresh "pts" in let IH := fresh "IH" in
  let H1 := fresh in let H2 := fresh in let H3 := fresh in
  intros s [n [pts|]]; [|done]; unfold processMetric; cbn [me_Data me_Name];
  destruct (bool_decide_reflect (n = "k8s_mcp.tool.calls")) as [->|H1];
    [|destruct (bool_decide_reflect (n = "k8s_mcp.tool.errors")) as [->|H2];
      [|destruct (bool_decide_reflect (n = "k8s_mcp.http.requests")) as [->|H3];
        [|try done; by rewrite ?(bool_decide_eq_false_2 _ H1), ?(bool_decide_eq_false_2 _ H2), ?(bool_decide_eq_false_2 _ H3)]]];
  eval_names; revert s; induction pts as [|? pts IH]; intros s; cbn [foldl]; first [done|by rewrite IH].

(** What an event adds to a counter. *)
Ltac increases :=
  let e := fresh "e" in
  repeat match goal with |- forall k : string, _ => intros k end;
  intros e; destruct e as [? ? [?|]|? ? ?];
  cbn [ops_of RecordToolCall RecordHTTPRequest adds app is_tool is_http]; unfold getAttributeValue;
  eval_names; cbn [List.find fst snd andb]; eval_names; cbn [andb]; try destruct (bool_decide (_ = _)); reflexivity.

Section Fields.
Context (es : list measured) (metrics : list metric) (uptime start : Z).
Context (Hc : collects (flat_map ops_of es) metrics) (Hlen : (Z.of_nat (length es) < 2 ^ 63)%Z).
Abbreviation stats := (GetStats (Ok metrics) uptime start).

Lemma total_field (field : Statistics -> Z) name (P : measured -> bool) :
  name ∈ ["k8s_mcp.tool.calls"; "k8s_mcp.tool.errors"; "k8s_mcp.http.requests"] ->
  field (new_stats uptime start) = 0%Z ->
  (forall s m, field (processMetric s m) =
     match me_Data m with
     | SumInt64 points => if me_Name m =?s name then foldl (fun t p => wrap64 (t + p.2)) (field s) points else field s
     | OtherData => field s
     end) ->
  (forall e, adds name (fun _ => true) (ops_of e) = if P e then 1%Z else 0%Z) -> field stats = count P es.
Proof.
  intros Hname H0 Hstep HP. unfold GetStats. rewrite (stats_field field _ name), H0 by (done || apply Hc).
  destruct (collected_sum _ _ name (fun _ => true) Hc Hname (ops_positive es)) as (points & Hp & Hpos & Hsum & _ & _).
  pose proof (adds_le name (fun _ => true) es) as Hle. rewrite <-Hsum in Hle.
  rewrite <-(adds_count name _ P es HP), <-Hsum. destruct (List.find _ _) as [[n d]|].
  - cbn in Hp. subst d. rewrite total_fold by (done || lia). lia.
  - by subst points.
Qed.

Lemma bump_field (field : Statistics -> gmap string Z) key name (P : string -> measured -> bool) :
  name ∈ ["k8s_mcp.tool.calls"; "k8s_mcp.tool.errors"; "k8s_mcp.http.requests"] ->
  field (new_stats uptime start) = ∅ ->
  (forall s m, field (processMetric s m) =
     match me_Data m with
     | SumInt64 points =>
         if me_Name m =?s name then foldl (fun m p => bump (getAttributeValue p.1 key) p.2 m) (field s) points else field s
     | OtherData => field s
     end) ->
  (forall k e, adds name (fun a => getAttributeValue a key =?s k) (ops_of e) = if P k e then 1%Z else 0%Z) ->
  forall k, field stats !! k = counted k (count (P k) es).
Proof.
  intros Hname H0 Hstep HP k. unfold GetStats. rewrite (stats_field field _ name), H0 by (done || apply Hc).
  destruct (collected_sum _ _ name (fun _ => true) Hc Hname (ops_positive es)) as (points & Hp & Hpos & Hsum & _ & _).
  pose proof (adds_le name (fun _ => true) es) as Hle. rewrite <-Hsum in Hle.
  rewrite <-(adds_count name _ (P k) es (HP k)), <-Hsum. destruct (List.find _ _) as [[n d]|].
  - cbn in Hp. subst d. by rewrite (bump_fold (fun a => getAttributeValue a key)) by (done || lia).
  - subst points. cbn. unfold counted. by rewrite lookup_empty, orb_true_r.
Qed.

Lemma put_field (field : Statistics -> gmap string Z) name (P : string -> measured -> bool) :
  name ∈ ["k8s_mcp.tool.calls"; "k8s_mcp.tool.errors"] ->
  field (new_stats uptime start) = ∅ ->
  (forall s m, field (processMetric s m) =
     match me_Data m with
     | SumInt64 points =>
         if me_Name m =?s name
         then foldl (fun m p => put_count (getAttributeValue p.1 "tool.name") p.2 m) (field s) points else field s
     | OtherData => field s
     end) ->
  (forall k e, adds name (fun a => getAttributeValue a "tool.name" =?s k) (ops_of e) = if P k e then 1%Z else 0%Z) ->
  forall k, field stats !! k = counted k (count (P k) es).
Proof.
  intros Hname H0 Hstep HP k. unfold GetStats. rewrite (stats_field field _ name), H0 by (done || apply Hc).
  destruct (collected_sum _ _ name (fun _ => true) Hc ltac:(set_solver) (ops_positive es))
    as (points & Hp & Hpos & Hsum & Hk & Hn).
  pose proof (adds_le name (fun _ => true) es) as Hle. rewrite <-Hsum in Hle.
  rewrite <-(adds_count name _ (P k) es (HP k)), <-Hsum. destruct (List.find _ _) as [[n d]|].
  - cbn in Hp. subst d. rewrite (put_fold (fun a => getAttributeValue a "tool.name")); [|done|lia|].
    + by rewrite (bump_fold (fun a => getAttributeValue a "tool.name")) by (done || lia).
    + apply (tool_points_distinct name es); [set_solver|done..].
  - subst points. cbn. unfold counted. by rewrite lookup_empty, orb_true_r.
Qed.
End Fields.


(** ** The choice of samplers and exporters *)

Section Choice.
Context (Getenv : string -> string) (FormatFloat : spec_float -> string) (ParseFloat : string -> result spec_float).

(** The ratios of a sampler. *)
Fixpoint fractions (s : Sampler) : list spec_float :=
  match s with
  | TraceIDRatioBased ratio => [ratio]
  | ParentBased s => fractions s
  | _ => []
  end.

Lemma sampler_ratio_range invalid out_of_range arg ratio logs :
  sampler_ratio ParseFloat invalid out_of_range arg = (ratio, logs) -> SFltb ratio f64_zero = false /\ SFltb f64_one ratio = false.
Proof.
  unfold sampler_ratio. destruct (arg =?s ""); [by intros [= <- _]|].
  destruct (ParseFloat arg) as [x|]; [|by intros [= <- _]].
  destruct (SFltb x f64_zero) eqn:E1; cbn [orb]; [by intros [= <- _]|].
  destruct (SFltb f64_one x) eqn:E2; by intros [= <- _].
Qed.
Lemma select_sampler_fractions unknown t ratio : Forall (fun g => g = ratio) (fractions (select_sampler unknown t ratio).1).
Proof. unfold select_sampler. by repeat case_match; repeat constructor. Qed.

(** Whatever the configuration and the environment say, the ratio of the sampler is in
    [0, 1] or no number. *)
Theorem sampler_ratio_in_range (cfg : TelemetryConfig) :
  Forall (fun ratio => SFltb ratio f64_zero = false /\ SFltb f64_one ratio = false)
    (fractions (getSamplerFromConfig Getenv FormatFloat ParseFloat cfg).1 ++
     fractions (getSamplerFromEnv Getenv ParseFloat).1).
Proof.
  assert (forall (x : Sampler * list log_message) (logs : list log_message),
    (let '(sampler, logs') := x in (sampler, logs ++ logs')).1 = x.1) as Hfst by (by intros [? ?] ?).
  apply Forall_app. unfold getSamplerFromConfig, getSamplerFromEnv. cbv zeta.
  split; destruct (sampler_ratio _ _ _ _) as [ratio logs] eqn:Hf; apply sampler_ratio_range in Hf; rewrite Hfst;
    (eapply Forall_impl; [apply select_sampler_fractions|by intros ? ->]).
Qed.

(** What the environment sets wins: with a sampler and its argument there, the
    configuration does not matter. *)
Theorem environment_wins (cfg : TelemetryConfig) :
  Getenv "OTEL_TRACES_SAMPLER" <> "" -> Getenv "OTEL_TRACES_SAMPLER_ARG" <> "" ->
  (getSamplerFromConfig Getenv FormatFloat ParseFloat cfg).1 = (getSamplerFromEnv Getenv ParseFloat).1.
Proof.
  intros H1 H2. unfold getSamplerFromConfig, getSamplerFromEnv, Telemetry_GetTracesSampler, Telemetry_GetTracesSamplerArg.
  rewrite (bool_decide_eq_false_2 _ H1), (bool_decide_eq_false_2 _ H2). cbn [negb]. unfold sampler_ratio.
  rewrite (bool_decide_eq_false_2 _ H2). unfold select_sampler. by repeat case_match; simplify_eq.
Qed.

(** When telemetry is disabled there is no tracer and no export of logs; but metrics are
    exported as if there were no configuration: wherever the environment says. *)
Theorem disabled_telemetry {E Res : Type} (new_exporter : exporter_options -> result E)
    (new_resource : string -> string -> result Res) (cfg : TelemetryConfig) name version g :
  t_Enabled cfg = Some false ->
  InitTracerWithConfig Getenv FormatFloat ParseFloat new_exporter new_resource (Some cfg) name version g = (None, g) /\
  NewLogProvider Getenv new_exporter new_resource (Some cfg) name version = Ok None /\
  createMetricsExporter Getenv (Some cfg) = createMetricsExporter Getenv None.
Proof.
  intros H. unfold InitTracerWithConfig, NewLogProvider, createMetricsExporter, Telemetry_IsEnabled. by rewrite H.
Qed.

(** Tracing is on after the start exactly if there is a tracer to shut down, and off again
    after the cleanup. *)
Theorem tracing_lifecycle {E Res : Type} (new_exporter : exporter_options -> result E)
    (new_resource : string -> string -> result Res) (cfg : option TelemetryConfig) name version :
  let '(tp, g) := InitTracerWithConfig Getenv FormatFloat ParseFloat new_exporter new_resource cfg name version
                    (mkTracing false None) in
  tg_enabled g = bool_decide (is_Some tp) /\ tg_provider g = tp /\ tg_enabled (cleanup tp g) = false /\
  (is_Some tp -> exists c, cfg = Some c /\ Telemetry_IsEnabled Getenv c = true).
Proof.
  unfold InitTracerWithConfig, init_tracer. destruct cfg as [c|]; [|split_and!; try done; by intros [? ?]].
  destruct (Telemetry_IsEnabled Getenv c) eqn:He; cbn [negb]; [|split_and!; try done; by intros [? ?]].
  destruct (new_exporter _); [|split_and!; try done; by intros [? ?]].
  destruct (new_resource _ _); [|split_and!; try done; by intros [? ?]].
  split_and!; try done. intros _. by exists c.
Qed.
End Choice.

(** ** The collector *)

Definition op_name (op : instrument_op) : string := match op with OAdd n _ _ | ORecord n _ _ => n end.

(** A failure of the export, or of its resource, does not keep the server from measuring:
    the collector is there exactly if the exporter of Prometheus and the instruments are,
    and then has both local readers and every instrument that an event uses. *)
Theorem collector_local (Getenv : string -> string) {E Res : Type} prometheus_New new_exporter new_resource new_instrument now
    telemetry name version :
  let r := NewOtelStatsCollectorWithConfig (E := E) (Res := Res) Getenv prometheus_New new_exporter new_resource
             new_instrument now telemetry name version in
  (is_ok r = true <-> prometheus_New = None /\ forall i, i ∈ map fst instruments -> new_instrument i = None) /\
  forall c, r = Ok c ->
    ManualReader ∈ oc_readers c /\ PrometheusReader ∈ oc_readers c /\
    forall e op, op ∈ ops_of e -> op_name op ∈ oc_instruments c.
Proof.
  cbv zeta. unfold NewOtelStatsCollectorWithConfig. cbv zeta.
  assert (forall l, create_instruments new_instrument l = None <-> forall i, i ∈ map fst l -> new_instrument i = None) as Hall.
  { induction l as [|[n what] l IH]; cbn [create_instruments map fst]; [split; [intros _ i; set_solver|done]|].
    destruct (new_instrument n) eqn:E1; [split; [done|]; intros H; rewrite H in E1; [done|set_solver]|].
    rewrite IH. split; [|set_solver]. intros H i [->|Hi]%elem_of_cons; [done|by apply H]. }
  destruct prometheus_New as [err|]; [split; [split; [done|by intros [? _]]|done]|].
  set (exporter := match (createMetricsExporter _ _).1 with Some _ => _ | None => _ end).
  destruct (match exporter with Some _ => _ | None => _ end) as [readers res]. rewrite <-Hall.
  destruct (create_instruments _ _) as [err|]; [split; [split; [done|by intros [_ ?]]|done]|].
  split; [split; [done|done]|]. intros c [= <-]. cbn [oc_readers oc_instruments]. split_and!; [set_solver..|].
  intros e op. destruct e as [t d [e|]|m p code]; cbn; intros Hop; set_solver.
Qed.

(** * Witnesses *)

Module TelemetryWitness.
Definition es : list measured :=
  [MTool "pods_list" 3 None; MTool "pods_list" 5 (Some (ErrNew "x")); MTool "tools/list" 1 None;
   MHttp "POST" "/mcp" 200; MHttp "GET" "/mcp" 404].
Definition ops : list instrument_op := flat_map ops_of es.
(** A reader. *)
Definition counter_of (name : string) : metric := mkMetric name (SumInt64 (map_to_list (totals name ops))).
Definition metrics : list metric :=
  [counter_of "k8s_mcp.http.requests"; mkMetric "k8s_mcp.tool.duration" OtherData; counter_of "k8s_mcp.tool.calls";
   counter_of "k8s_mcp.tool.errors"].
Definition env (name : string) : string :=
  if name =?s "OTEL_EXPORTER_OTLP_ENDPOINT" then "http://collector:4317" else "".
Definition disabled : TelemetryConfig := mkTelemetryConfig (Some false) "" "" "" None.
End TelemetryWitness.


Lemma environment_wins_witness :
  (getSamplerFromConfig (fun name => if name =?s "OTEL_TRACES_SAMPLER" then "traceidratio" else "2") (fun _ => "0.5")
    (fun _ => Ok (S754_finite false 4503599627370496 (-51))) (mkTelemetryConfig None "" "" "always_off" None)).1 =
  TraceIDRatioBased f64_one.
Proof.
  rewrite (environment_wins (fun name => if name =?s "OTEL_TRACES_SAMPLER" then "traceidratio" else "2") (fun _ => "0.5")
    (fun _ => Ok (S754_finite false 4503599627370496 (-51))) (mkTelemetryConfig None "" "" "always_off" None));
    [vm_compute; reflexivity|vm_compute; discriminate..].
Defined.

Lemma disabled_telemetry_witness :
  (createMetricsExporter TelemetryWitness.env (Some TelemetryWitness.disabled)).1 =
  Some (mkExporterOptions false (Some "http://collector:4317")).
Proof.
  destruct (disabled_telemetry TelemetryWitness.env (fun _ => "") (fun _ => Ok f64_one) (fun _ => Ok tt) (fun _ _ => Ok tt)
    TelemetryWitness.disabled "srv" "1" (mkTracing false None) eq_refl) as (_ & _ & ->). vm_compute. reflexivity.
Defined.

(** A ratio that is no number is taken as it is. *)
Example ratio_not_a_number :
  getSamplerFromEnv (fun name => if name =?s "OTEL_TRACES_SAMPLER" then "traceidratio" else "NaN") (fun _ => Ok S754_nan) =
  (TraceIDRatioBased S754_nan, [(2%Z, "Using TraceIDRatioBased sampler")]).
Proof. reflexivity. Qed.
