(* ===== verification/Command.v ===== *)
(** The command (pkg/kubernetes-mcp-server/cmd/root.go) and the HTTP server it runs
    (Serve in pkg/http/http.go): the flags over the configuration files, what is validated
    before the start, the order in which what was started is stopped, and the reload on
    SIGHUP, over the server, the log sink, the published configuration and the OAuth state
    of the other files.  The file system, the codecs, the listener and the OpenID library
    are parameters. *)
From Stdlib Require Import Floats.SpecFloat.
From S2P Require Import Prelude GoStrings Api Params TlsUtil Toolsets Config ConfigRead Http OAuthState HttpAuth Tools SdkTypes McpServer Providers Telemetry LogSink.

(** * Definitions *)

(** ** Flags *)

Definition config_path_env_var : string := "K8S_MCP_CONFIG_PATH".
Definition flagVersion : string := "version".
Definition flagLogLevel : string := "log-level".
Definition flagLogFile : string := "log-file".
Definition flagConfig : string := "config".
Definition flagConfigDir : string := "config-dir".
Definition flagPort : string := "port".
Definition flagBindAddress : string := "bind-address".
Definition flagKubeconfig : string := "kubeconfig".
Definition flagToolsets : string := "toolsets".
Definition flagListOutput : string := "list-output".
Definition flagReadOnly : string := "read-only".
Definition flagDisableDestructive : string := "disable-destructive".
Definition flagStateless : string := "stateless".
Definition flagRequireOAuth : string := "require-oauth".
Definition flagOAuthAudience : string := "oauth-audience".
Definition flagAuthorizationURL : string := "authorization-url".
Definition flagSkipJWTVerification : string := "skip-jwt-verification".
Definition flagServerUrl : string := "server-url".
Definition flagCertificateAuthority : string := "certificate-authority".
Definition flagDisableMultiCluster : string := "disable-multi-cluster".
Definition flagClusterProvider : string := "cluster-provider".
Definition flagTLSCert : string := "tls-cert".
Definition flagTLSKey : string := "tls-key".
Definition flagRequireTLS : string := "require-tls".

Record MCPServerOptions := mkOptions {
  o_Version : bool;
  o_LogLevel : Z;
  o_LogFile : string;
  o_Port : string;
  o_BindAddress : string;
  o_Kubeconfig : string;
  o_Toolsets : list string;
  o_ListOutput : string;
  o_ReadOnly : bool;
  o_DisableDestructive : bool;
  o_Stateless : bool;
  o_RequireOAuth : bool;
  o_OAuthAudience : string;
  o_AuthorizationURL : string;
  o_SkipJWTVerification : bool;
  o_CertificateAuthority : string;
  o_ServerURL : string;
  o_DisableMultiCluster : bool;
  o_ClusterProvider : string;
  o_TLSCert : string;
  o_TLSKey : string;
  o_RequireTLS : bool;
  o_ConfigPath : string;
  o_ConfigDir : string;
}.

(** [changed flag]: whether the flag was given.  Each flag sets a field of its own, except
    that the last of two sets the strategy. *)
Definition loadFlags (changed : string -> bool) (m : MCPServerOptions) (c : StaticConfig) : StaticConfig :=
  {| c_DeniedResources := c_DeniedResources c;
     c_LogLevel := if changed flagLogLevel then o_LogLevel m else c_LogLevel c;
     c_LogFile := if changed flagLogFile then o_LogFile m else c_LogFile c;
     c_Port := if changed flagPort then o_Port m else c_Port c;
     c_BindAddress := if changed flagBindAddress then o_BindAddress m else c_BindAddress c;
     c_KubeConfig := if changed flagKubeconfig then o_Kubeconfig m else c_KubeConfig c;
     c_ListOutput := if changed flagListOutput then o_ListOutput m else c_ListOutput c;
     c_Stateless := if changed flagStateless then o_Stateless m else c_Stateless c;
     c_ReadOnly := if changed flagReadOnly then o_ReadOnly m else c_ReadOnly c;
     c_DisableDestructive := if changed flagDisableDestructive then o_DisableDestructive m else c_DisableDestructive c;
     c_Toolsets := if changed flagToolsets then o_Toolsets m else c_Toolsets c;
     c_EnabledTools := c_EnabledTools c;
     c_DisabledTools := c_DisabledTools c;
     c_ToolOverrides := c_ToolOverrides c;
     c_Prompts := c_Prompts c;
     c_RequireOAuth := if changed flagRequireOAuth then o_RequireOAuth m else c_RequireOAuth c;
     c_OAuthAudience := if changed flagOAuthAudience then o_OAuthAudience m else c_OAuthAudience c;
     c_AuthorizationURL := if changed flagAuthorizationURL then o_AuthorizationURL m else c_AuthorizationURL c;
     c_SkipJWTVerification := if changed flagSkipJWTVerification then o_SkipJWTVerification m else c_SkipJWTVerification c;
     c_DisableDynamicClientRegistration := c_DisableDynamicClientRegistration c;
     c_OAuthScopes := c_OAuthScopes c;
     c_StsClientId := c_StsClientId c;
     c_StsClientSecret := c_StsClientSecret c;
     c_StsAudience := c_StsAudience c;
     c_StsScopes := c_StsScopes c;
     c_TokenExchangeStrategy := c_TokenExchangeStrategy c;
     c_StsAuthStyle := c_StsAuthStyle c;
     c_StsClientCertFile := c_StsClientCertFile c;
     c_StsClientKeyFile := c_StsClientKeyFile c;
     c_StsFederatedTokenFile := c_StsFederatedTokenFile c;
     c_StsSubjectTokenType := c_StsSubjectTokenType c;
     c_StsRequestedTokenType := c_StsRequestedTokenType c;
     c_ClusterAuthMode := c_ClusterAuthMode c;
     c_CertificateAuthority := if changed flagCertificateAuthority then o_CertificateAuthority m else c_CertificateAuthority c;
     c_ServerURL := if changed flagServerUrl then o_ServerURL m else c_ServerURL c;
     c_TrustProxyHeaders := c_TrustProxyHeaders c;
     c_TLSCert := if changed flagTLSCert then o_TLSCert m else c_TLSCert c;
     c_TLSKey := if changed flagTLSKey then o_TLSKey m else c_TLSKey c;
     c_RequireTLS := if changed flagRequireTLS then o_RequireTLS m else c_RequireTLS c;
     c_TLSMinVersion := c_TLSMinVersion c;
     c_TLSCipherSuites := c_TLSCipherSuites c;
     c_HTTP := c_HTTP c;
     c_ClusterProviderStrategy :=
       (let strategy := if changed flagClusterProvider then o_ClusterProvider m else c_ClusterProviderStrategy c in
        if changed flagDisableMultiCluster && o_DisableMultiCluster m then ClusterProviderDisabled else strategy);
     c_ClusterProviderConfigs := c_ClusterProviderConfigs c;
     c_ToolsetConfigs := c_ToolsetConfigs c;
     c_ServerInstructions := c_ServerInstructions c;
     c_Telemetry := c_Telemetry c;
     c_ValidationEnabled := c_ValidationEnabled c;
     c_EnableTargetCompatibilityToolFilters := c_EnableTargetCompatibilityToolFilters c;
     c_ConfirmationFallback := c_ConfirmationFallback c;
     c_ConfirmationRules := c_ConfirmationRules c;
     c_parsedClusterProviderConfigs := c_parsedClusterProviderConfigs c;
     c_parsedToolsetConfigs := c_parsedToolsetConfigs c;
     c_configDirPath := c_configDirPath c;
     c_providerStrategies := c_providerStrategies c;
     c_tokenExchangeStrategies := c_tokenExchangeStrategies c |}.

(** The assignment of [Complete] and its file. *)
Definition with_RequireOAuth (v : bool) (c : StaticConfig) : StaticConfig :=
  {| c_DeniedResources := c_DeniedResources c;
     c_LogLevel := c_LogLevel c;
     c_LogFile := c_LogFile c;
     c_Port := c_Port c;
     c_BindAddress := c_BindAddress c;
     c_KubeConfig := c_KubeConfig c;
     c_ListOutput := c_ListOutput c;
     c_Stateless := c_Stateless c;
     c_ReadOnly := c_ReadOnly c;
     c_DisableDestructive := c_DisableDestructive c;
     c_Toolsets := c_Toolsets c;
     c_EnabledTools := c_EnabledTools c;
     c_DisabledTools := c_DisabledTools c;
     c_ToolOverrides := c_ToolOverrides c;
     c_Prompts := c_Prompts c;
     c_RequireOAuth := v;
     c_OAuthAudience := c_OAuthAudience c;
     c_AuthorizationURL := c_AuthorizationURL c;
     c_SkipJWTVerification := c_SkipJWTVerification c;
     c_DisableDynamicClientRegistration := c_DisableDynamicClientRegistration c;
     c_OAuthScopes := c_OAuthScopes c;
     c_StsClientId := c_StsClientId c;
     c_StsClientSecret := c_StsClientSecret c;
     c_StsAudience := c_StsAudience c;
     c_StsScopes := c_StsScopes c;
     c_TokenExchangeStrategy := c_TokenExchangeStrategy c;
     c_StsAuthStyle := c_StsAuthStyle c;
     c_StsClientCertFile := c_StsClientCertFile c;
     c_StsClientKeyFile := c_StsClientKeyFile c;
     c_StsFederatedTokenFile := c_StsFederatedTokenFile c;
     c_StsSubjectTokenType := c_StsSubjectTokenType c;
     c_StsRequestedTokenType := c_StsRequestedTokenType c;
     c_ClusterAuthMode := c_ClusterAuthMode c;
     c_CertificateAuthority := c_CertificateAuthority c;
     c_ServerURL := c_ServerURL c;
     c_TrustProxyHeaders := c_TrustProxyHeaders c;
     c_TLSCert := c_TLSCert c;
     c_TLSKey := c_TLSKey c;
     c_RequireTLS := c_RequireTLS c;
     c_TLSMinVersion := c_TLSMinVersion c;
     c_TLSCipherSuites := c_TLSCipherSuites c;
     c_HTTP := c_HTTP c;
     c_ClusterProviderStrategy := c_ClusterProviderStrategy c;
     c_ClusterProviderConfigs := c_ClusterProviderConfigs c;
     c_ToolsetConfigs := c_ToolsetConfigs c;
     c_ServerInstructions := c_ServerInstructions c;
     c_Telemetry := c_Telemetry c;
     c_ValidationEnabled := c_ValidationEnabled c;
     c_EnableTargetCompatibilityToolFilters := c_EnableTargetCompatibilityToolFilters c;
     c_ConfirmationFallback := c_ConfirmationFallback c;
     c_ConfirmationRules := c_ConfirmationRules c;
     c_parsedClusterProviderConfigs := c_parsedClusterProviderConfigs c;
     c_parsedToolsetConfigs := c_parsedToolsetConfigs c;
     c_configDirPath := c_configDirPath c;
     c_providerStrategies := c_providerStrategies c;
     c_tokenExchangeStrategies := c_tokenExchangeStrategies c |}.

Section Command.
Context {W K : Type} {F : Type -> Type} `{!FeatureSet F} {P C : Type}.
Context (Getenv : string -> string).

(** ** The configuration: the environment, the files in a world, the flags *)

Context (filepath_Join : string -> string -> string) (filepath_Abs : string -> result string).
Context (filepath_Dir : string -> string) (filepath_IsAbs : string -> bool) (os_IsNotExist : error -> bool).
Context (fs_Stat : W -> string -> result bool) (fs_ReadDir : W -> string -> result (list DirEntry)).
Context (fs_ReadFile : W -> string -> result string).
Context (toml_DecodeMap : string -> result (list (string * tval))) (toml_Encode : list (string * tval) -> result string).
Context (Default : StaticConfig) (toml_Decode : string -> StaticConfig -> result StaticConfig).
Context (providerParsers toolsetParsers : gmap string ExtendedConfigParser).

Definition config_Read (configPath configDir : string) (w : W) : result StaticConfig :=
  Read filepath_Join filepath_Abs filepath_Dir filepath_IsAbs (fs_Stat w) os_IsNotExist (fs_ReadDir w) (fs_ReadFile w)
    toml_DecodeMap toml_Encode Default toml_Decode providerParsers toolsetParsers configPath configDir.

Definition with_ConfigPath (v : string) (m : MCPServerOptions) : MCPServerOptions :=
  {| o_Version := o_Version m; o_LogLevel := o_LogLevel m; o_LogFile := o_LogFile m; o_Port := o_Port m;
     o_BindAddress := o_BindAddress m; o_Kubeconfig := o_Kubeconfig m; o_Toolsets := o_Toolsets m;
     o_ListOutput := o_ListOutput m; o_ReadOnly := o_ReadOnly m; o_DisableDestructive := o_DisableDestructive m;
     o_Stateless := o_Stateless m; o_RequireOAuth := o_RequireOAuth m; o_OAuthAudience := o_OAuthAudience m;
     o_AuthorizationURL := o_AuthorizationURL m; o_SkipJWTVerification := o_SkipJWTVerification m;
     o_CertificateAuthority := o_CertificateAuthority m; o_ServerURL := o_ServerURL m;
     o_DisableMultiCluster := o_DisableMultiCluster m; o_ClusterProvider := o_ClusterProvider m;
     o_TLSCert := o_TLSCert m; o_TLSKey := o_TLSKey m; o_RequireTLS := o_RequireTLS m;
     o_ConfigPath := v; o_ConfigDir := o_ConfigDir m |}.

(** The exporters and the resources of OpenTelemetry, and [os.OpenFile] for the log. *)
Context {E Res : Type} (new_exporter : exporter_options -> result E) (new_resource : string -> string -> result Res).
Context (BinaryName Version : string) (open_log : W -> string -> option error).

(** [Complete]: the options with the path of the file, the configuration, and the log
    sink. *)
Definition complete_path (m : MCPServerOptions) : MCPServerOptions :=
  let cp := Getenv config_path_env_var in
  if (o_ConfigPath m =?s "") && (cp ≠?s "") then with_ConfigPath cp m else m.
Definition read_files (m : MCPServerOptions) (w : W) : result StaticConfig :=
  if (o_ConfigPath m ≠?s "") || (o_ConfigDir m ≠?s "") then config_Read (o_ConfigPath m) (o_ConfigDir m) w
  else Ok Default.
Definition Complete (changed : string -> bool) (m : MCPServerOptions) (w : W) (o : os) :
    result (MCPServerOptions * StaticConfig * Sink) * os :=
  let m := complete_path m in
  match read_files m w with
  | Err err => (Err err, o)
  | Ok cfg =>
      let cfg := loadFlags changed m cfg in
      let otel :=
        match NewLogProvider Getenv new_exporter new_resource (Some (c_Telemetry cfg)) BinaryName Version with
        | Ok (Some _) => true
        | _ => false
        end in
      match LogSink.New cfg (open_log w (c_LogFile cfg)) otel o with
      | (Err err, o) => (Err err, o)
      | (Ok sink, o) =>
          let cfg := if c_RequireOAuth cfg && (c_Port cfg =?s "") then with_RequireOAuth false cfg else cfg in
          (Ok (m, cfg, sink), o)
      end
  end.

(** ** Validation before the start *)

Context (FormatFloat : spec_float -> string) (url_Parse : string -> result URL) (tlsCipherSuiteMap : gmap string Z).
Context (os_Stat : string -> option error) (registeredStrategies exchangeStrategies : list string).
Context (registry : toolsetRegistry (Toolset W K)).

(** The configuration is trimmed where it is. *)
Definition Validate (cfg : StaticConfig) : option error * StaticConfig :=
  match StaticConfig_Validate Getenv FormatFloat url_Parse tlsCipherSuiteMap os_Stat registry
          (WithTokenExchangeStrategies exchangeStrategies (WithProviderStrategies registeredStrategies cfg)) with
  | (Some err, cfg) => (Some err, cfg)
  | (None, cfg) =>
      if (c_TLSCert cfg ≠?s "") && (c_Port cfg =?s "") then
        (Some (ErrNew "--tls-cert and --tls-key require --port to be set (TLS is only supported in HTTP mode)"), cfg)
      else if c_RequireTLS cfg && (c_Port cfg ≠?s "") && ((c_TLSCert cfg =?s "") || (c_TLSKey cfg =?s "")) then
        (Some (ErrNew "require_tls is enabled but TLS certificates are not configured (set tls_cert and tls_key)"), cfg)
      else (None, cfg)
  end.

(** ** The HTTP server: pkg/http/http.go *)

(** What ends it: a signal, the context, or an error of the listener. *)
Inductive serve_end : Type := EndSignal | EndContext | EndError (err : error).
(** What it does. *)
Inductive serve_action : Type :=
| SWarnOpen
| SListen (addr : string) (tls : option TLSConfig)
| SHttpShutdown
| SMcpShutdown.

Definition served_with_tls (cfg : StaticConfig) : bool := (c_TLSCert cfg ≠?s "") && (c_TLSKey cfg ≠?s "").
(** [net.JoinHostPort]. *)
Definition JoinHostPort (host port : string) : string :=
  if char_in ":" host || char_in "%" host then fmt ["["; host; "]:"; port] else fmt [host; ":"; port].
Definition Serve (cfg : StaticConfig) (e : serve_end) : list serve_action * option error :=
  match BuildTLSConfig tlsCipherSuiteMap (GetTLSMinVersionConfig Getenv cfg) (GetTLSCipherSuitesConfig Getenv cfg) [] with
  | Err err => ([], Some (wrapf "failed to build TLS config: " err))
  | Ok tlsConfig =>
      let open :=
        ((c_BindAddress cfg =?s "0.0.0.0") || (c_BindAddress cfg =?s "::")) && (c_TLSCert cfg =?s "") &&
        negb (c_RequireOAuth cfg) in
      let listen :=
        SListen (JoinHostPort (c_BindAddress cfg) (c_Port cfg)) (if served_with_tls cfg then Some tlsConfig else None) in
      let start := (if open then [SWarnOpen] else []) ++ [listen] in
      match e with
      | EndError err => (start, Some err)
      | _ => (start ++ [SHttpShutdown; SMcpShutdown], None)
      end
  end.
(** The log of the server: errors of TLS handshakes of health checks go to the log at V(4). *)
Definition tlsErrorFilterWriter_Write (p : string) : bool :=
  Contains p "TLS handshake error" && Contains p "EOF".
(** [encoded] is the JSON of the statistics. *)
Definition statsHandler (encoded : W -> result string) : Handler W := fun r w =>
  if rq_Method r ≠?s "GET" then (http_Error ∅ "Method not allowed" 405, w)
  else
    let h := Header_Set "Content-Type" "application/json" ∅ in
    match encoded w with
    | Ok stats => (mkResponse 200 h (stats +:+ nl), w)
    | Err _ => (http_Error h "Internal server error" 500, w)
    end.

(** ** The reload *)

(** The states that the handlers of HTTP share with the reload. *)
Record shared := mkShared { sh_config : StaticConfigState; sh_oauth : OAuthState (P := P) (C := C) }.
Context {cell : Cell W shared}.
Definition store_config (cfg : StaticConfig) (w : W) : W := cell_put (mkShared (Some cfg) (sh_oauth (cell_get w))) w.
Definition store_oauth (s : Snapshot P C) (w : W) : W := cell_put (mkShared (sh_config (cell_get w)) (Some s)) w.

Record process := mkProcess {
  ps_provider : Provider W K;
  ps_server : Server W K F;
  ps_sink : option Sink;
  ps_os : os;
  ps_world : W;
}.

Context (json_Unmarshal : string -> result arguments) (is_k8s : McpLog.k8s_predicate -> error -> bool).
Context {R : Type} (ReplaceAllString : R -> string -> string -> string) (patterns : list R).
Context (uritemplate_New : string -> option error).
Context (os_ReadFile : string -> result string) (AppendCertsFromPEM : string -> option string).
Context (NewClient : TLSConfig -> bool -> C) (oidc_NewProvider : W -> C -> string -> result P).
Abbreviation create_oidc w :=
  (CreateOIDCProviderAndClient Getenv tlsCipherSuiteMap os_ReadFile AppendCertsFromPEM NewClient (oidc_NewProvider w)).
Abbreviation reload_server p :=
  (ReloadConfiguration registry p json_Unmarshal is_k8s ReplaceAllString patterns url_Parse uritemplate_New
     Getenv FormatFloat tlsCipherSuiteMap os_Stat registeredStrategies exchangeStrategies).

(** A line of the log: an error, if it is one, and the message. *)
Definition line : Type := (option error * string)%type.

(** The sink, when there is one. *)
Definition reload_sink (cfg : StaticConfig) (w : W) (sink : option Sink) (o : os) : list line * option Sink * os :=
  match sink with
  | None => ([], None, o)
  | Some s =>
      match LogSink.Reload cfg (open_log w (c_LogFile cfg)) s o with
      | (Some err, s, o) => ([(Some err, "Failed to reload log destination, keeping previous one")], Some s, o)
      | (None, s, o) => ([], Some s, o)
      end
  end.
(** The OAuth state.  When the provider cannot be created the handler goes on to the next
    signal, with the old state. *)
Definition reload_oauth (cfg : StaticConfig) (w : W) : list line * W :=
  let currentSnapshot :=
    default (mkSnapshot None None "" "" "" [] [] false) (State_Load (sh_oauth (cell_get w))) in
  let newSnapshot := SnapshotFromConfig Getenv cfg (os_OIDCProvider currentSnapshot) (os_HTTPClient currentSnapshot) in
  if HasProviderConfigChanged (Some currentSnapshot) (Some newSnapshot) then
    match create_oidc w cfg with
    | Err err =>
        ([(None, "OAuth configuration changed, recreating OIDC provider...");
          (Some err, "Failed to recreate OIDC provider during reload")], w)
    | Ok (newProvider, newClient) =>
        ([(None, "OAuth configuration changed, recreating OIDC provider...");
          (None, "OIDC provider and HTTP client updated successfully");
          (None, "Configuration reloaded successfully via SIGHUP")],
         store_oauth (SnapshotFromConfig Getenv cfg newProvider newClient) w)
    end
  else if HasWellKnownConfigChanged (Some currentSnapshot) (Some newSnapshot) then
    ([(None, "OAuth well-known configuration updated"); (None, "Configuration reloaded successfully via SIGHUP")],
     store_oauth newSnapshot w)
  else ([(None, "Configuration reloaded successfully via SIGHUP")], w).
(** One signal.  The server validates the configuration where it is: the one that is
    published afterwards is the one it has installed. *)
Definition sighup (m : MCPServerOptions) (s : process) : outcome (list line) * process :=
  let received := (None, "Received SIGHUP signal, reloading configuration...") in
  match config_Read (o_ConfigPath m) (o_ConfigDir m) (ps_world s) with
  | Err err => (Returned [received; (Some err, "Failed to reload configuration from disk")], s)
  | Ok newConfig =>
      match reload_server (ps_provider s) newConfig (ps_server s) (ps_world s) with
      | (Panicked, server, w) => (Panicked, mkProcess (ps_provider s) server (ps_sink s) (ps_os s) w)
      | (Returned (Some err), server, w) =>
          (Returned [received; (Some err, "Failed to apply reloaded configuration")],
           mkProcess (ps_provider s) server (ps_sink s) (ps_os s) w)
      | (Returned None, server, w) =>
          let newConfig := cf_StaticConfig (sv_configuration server) in
          let '(lines, sink, o) := reload_sink newConfig w (ps_sink s) (ps_os s) in
          let '(lines', w) := reload_oauth newConfig (store_config newConfig w) in
          (Returned ([received] ++ lines ++ lines'), mkProcess (ps_provider s) server sink o w)
      end
  end.

(** ** Start and stop *)

(** The strategies, the provider that exchanges tokens (UserAuth.v), the metrics. *)
Context (inCluster : W -> bool) (factories : gmap string (StaticConfig -> ST W (result (Provider W K)))).
Context (exchanging : Provider W K -> (W -> StaticConfig) -> Provider W K) (metrics_New : StaticConfig -> option error).
Definition server_provider (p : Providers.provider) : Provider W K :=
  match p with Exchanging p base => exchanging p base | Plain p => p end.
Definition load_config (w : W) : StaticConfig := default Default (StaticConfigState_Load (sh_config (cell_get w))).

(** [Run] up to the server. *)
Definition start (cfg : StaticConfig) (sink : option Sink) (o : os) (w : W) : outcome (result process) * W :=
  match create_oidc w cfg with
  | Err err => (Returned (Err err), w)
  | Ok (oidcProvider, httpClient) =>
      let w :=
        cell_put (mkShared (NewStaticConfigState (Some cfg))
                    (NewState (Some (SnapshotFromConfig Getenv cfg oidcProvider httpClient)))) w in
      match Providers.NewProvider inCluster factories cfg true (Some load_config) w with
      | (Err err, w) => (Returned (Err (wrapf "unable to create kubernetes target provider: " err)), w)
      | (Ok p, w) =>
          let p := server_provider p in
          match NewServer registry p json_Unmarshal is_k8s ReplaceAllString patterns url_Parse uritemplate_New metrics_New
                  (mkConfiguration cfg None []) w with
          | (Panicked, w) => (Panicked, w)
          | (Returned (Err err), w) => (Returned (Err (wrapf "failed to initialize MCP server: " err)), w)
          | (Returned (Ok server), w) => (Returned (Ok (mkProcess p server sink o w)), w)
          end
      end
  end.

(** What the command starts, serves and stops. *)
Inductive action : Type :=
| AOpenSink
| AStartTracer
| APrintVersion
| AStartServer
| AStartSighup
| AServeHTTP (l : list serve_action)
| AServeStdio
| AStopSighup
| AShutdownServer
| AStopTracer
| ACloseSink.

Definition reloads (m : MCPServerOptions) : bool := (o_ConfigPath m ≠?s "") || (o_ConfigDir m ≠?s "").
(** [stdio_err]: the error of the server on stdio, unless it is a cancelled context. *)
Definition serve (m : MCPServerOptions) (cfg : StaticConfig) (e : serve_end) (stdio_err : option error) :
    list action * option error :=
  let '(served, err) :=
    if c_Port cfg ≠?s "" then let '(l, err) := Serve cfg e in ([AServeHTTP l], err) else ([AServeStdio], stdio_err) in
  ((if reloads m then [AStartSighup] else []) ++ served ++ (if reloads m then [AStopSighup] else []), err).
Definition Run (m : MCPServerOptions) (cfg : StaticConfig) (sink : option Sink) (o : os) (w : W) (e : serve_end)
    (stdio_err : option error) : list action * outcome (option error) :=
  let '(acts, err) :=
    if o_Version m then ([APrintVersion], Returned None)
    else
      match start cfg sink o w with
      | (Panicked, _) => ([], Panicked)
      | (Returned (Err err), _) => ([], Returned (Some err))
      | (Returned (Ok _), _) =>
          let '(served, err) := serve m cfg e stdio_err in ([AStartServer] ++ served ++ [AShutdownServer], Returned err)
      end in
  ([AStartTracer] ++ acts ++ [AStopTracer], err).
(** The command itself. *)
Definition RunE (changed : string -> bool) (m : MCPServerOptions) (w : W) (o : os) (e : serve_end)
    (stdio_err : option error) : list action * outcome (option error) :=
  match Complete changed m w o with
  | (Err err, _) => ([], Returned (Some err))
  | (Ok (m, cfg, sink), o) =>
      let '(acts, err) :=
        match Validate cfg with
        | (Some err, _) => ([], Returned (Some err))
        | (None, cfg) => Run m cfg (Some sink) o w e stdio_err
        end in
      ([AOpenSink] ++ acts ++ [ACloseSink], err)
  end.

(** * Properties *)

(** ** What was started is stopped, in reverse order *)

Definition opens (a : action) : option action :=
  match a with
  | AOpenSink => Some ACloseSink
  | AStartTracer => Some AStopTracer
  | AStartServer => Some AShutdownServer
  | AStartSighup => Some AStopSighup
  | _ => None
  end.
Definition closes (a : action) : bool :=
  match a with ACloseSink | AStopTracer | AShutdownServer | AStopSighup => true | _ => false end.
(** [nested owed acts]: every action that stops something stops what was started last and
    is still there, and in the end nothing is left. *)
Inductive nested : list action -> list action -> Prop :=
| nested_nil : nested [] []
| nested_open a b owed acts : opens a = Some b -> nested (b :: owed) acts -> nested owed (a :: acts)
| nested_close b owed acts : closes b = true -> nested owed acts -> nested (b :: owed) (b :: acts)
| nested_other a owed acts : opens a = None -> closes a = false -> nested owed acts -> nested owed (a :: acts).

Lemma nested_app owed l1 l2 : nested [] l1 -> nested owed l2 -> nested owed (l1 ++ l2).
Proof.
  intros H1 H2. enough (forall o, nested o l1 -> nested (o ++ owed) (l1 ++ l2)) as H by exact (H [] H1).
  clear H1. intros o H1. induction H1; cbn; [done| | |].
  - by eapply nested_open.
  - by apply nested_close.
  - by apply nested_other.
Qed.
Lemma nested_around a b l : opens a = Some b -> closes b = true -> nested [] l -> nested [] ([a] ++ l ++ [b]).
Proof.
  intros Ha Hb Hl. apply (nested_open a b); [done|]. apply nested_app; [done|]. by apply nested_close; [|constructor].
Qed.

Lemma serve_nested m cfg e stdio_err : nested [] (serve m cfg e stdio_err).1.
Proof.
  unfold serve. assert (forall l, nested [] l -> nested [] ((if reloads m then [AStartSighup] else []) ++ l ++
    (if reloads m then [AStopSighup] else []))) as H.
  { intros l Hl. destruct (reloads m); [by apply nested_around|]. cbn [app]. by rewrite app_nil_r. }
  destruct (c_Port cfg ≠?s ""); [destruct (Serve cfg e) as [l err]|]; apply H; by repeat constructor.
Qed.

(** However the command ends, by a refused configuration, a failure of the start, a panic
    or the end of the server, what it started it stops once and in reverse order: the
    handler of SIGHUP before the server, the server before the tracer, the tracer before
    the log. *)
Theorem stopped_in_reverse changed m w o e stdio_err : nested [] (RunE changed m w o e stdio_err).1.
Proof.
  unfold RunE. destruct (Complete changed m w o) as [[[[m' cfg] sink]|err] o']; [|constructor].
  destruct (Validate cfg) as [[err|] cfg']; [apply (nested_around AOpenSink ACloseSink []); [done..|constructor]|].
  destruct (Run m' cfg' (Some sink) o' w e stdio_err) as [acts err] eqn:Hrun. apply nested_around; [done..|].
  unfold Run in Hrun. destruct (o_Version m').
  { injection Hrun as <- _. apply (nested_around AStartTracer AStopTracer [APrintVersion]); [done..|]. by repeat constructor. }
  destruct (start cfg' (Some sink) o' w) as [[|[ps|err']] w'].
  - injection Hrun as <- _. apply (nested_around AStartTracer AStopTracer []); [done..|constructor].
  - pose proof (serve_nested m' cfg' e stdio_err) as Hs. destruct (serve m' cfg' e stdio_err) as [served err'].
    injection Hrun as <- _.
    apply (nested_around AStartTracer AStopTracer ([AStartServer] ++ served ++ [AShutdownServer])); [done..|].
    by apply nested_around.
  - injection Hrun as <- _. apply (nested_around AStartTracer AStopTracer []); [done..|constructor].
Qed.

(** ** TLS *)

Lemma Validate_tls cfg cfg' :
  Validate cfg = (None, cfg') -> c_RequireTLS cfg' = true -> c_Port cfg' <> "" -> served_with_tls cfg' = true.
Proof.
  unfold Validate, served_with_tls. generalize (StaticConfig_Validate Getenv FormatFloat url_Parse tlsCipherSuiteMap os_Stat
    registry (WithTokenExchangeStrategies exchangeStrategies (WithProviderStrategies registeredStrategies cfg))).
  intros [[err|] c]; [done|]. destruct (c_TLSCert c =?s "") eqn:Hc, (c_TLSKey c =?s "") eqn:Hk, (c_Port c =?s "") eqn:Hp,
    (c_RequireTLS c) eqn:Hr; cbn [negb andb orb]; intros [= <-]; try done; try congruence.
  all: intros Hr' Hne; first [congruence|apply bool_decide_eq_true in Hp; congruence|by rewrite Hc, Hk].
Qed.
Lemma Serve_tls cfg e addr tls :
  served_with_tls cfg = true -> SListen addr tls ∈ (Serve cfg e).1 -> is_Some tls.
Proof.
  intros Hs. unfold Serve. generalize (BuildTLSConfig tlsCipherSuiteMap (GetTLSMinVersionConfig Getenv cfg)
    (GetTLSCipherSuitesConfig Getenv cfg) []). intros [t|err]; [|cbn; set_solver]. rewrite Hs. cbv zeta.
  generalize (((c_BindAddress cfg =?s "0.0.0.0") || (c_BindAddress cfg =?s "::")) && (c_TLSCert cfg =?s "") &&
    negb (c_RequireOAuth cfg)). generalize (JoinHostPort (c_BindAddress cfg) (c_Port cfg)). intros l b.
  destruct b, e; cbn [fst app]; rewrite ?elem_of_cons; intros Hin; destruct_or?; simplify_eq; try done; by apply elem_of_nil in Hin.
Qed.

(** C10. With require_tls, a configuration that passes the validation of the command is served
    over HTTP with TLS only. *)
Theorem require_tls_serves_tls cfg cfg' e :
  Validate cfg = (None, cfg') -> c_RequireTLS cfg' = true -> c_Port cfg' <> "" ->
  forall addr tls, SListen addr tls ∈ (Serve cfg' e).1 -> is_Some tls.
Proof. intros Hv Hr Hp addr tls. by apply Serve_tls, (Validate_tls cfg). Qed.

(** ** The reload *)

(** The published configuration is the one the tools are exposed under. *)
Definition agree (s : process) : Prop :=
  sh_config (cell_get (ps_world s)) = Some (cf_StaticConfig (sv_configuration (ps_server s))).
(** The OAuth state is that of a configuration. *)
Definition oauth_of (cfg : StaticConfig) (s : process) : Prop :=
  wellknown_equiv (Some (default (mkSnapshot None None "" "" "" [] [] false) (sh_oauth (cell_get (ps_world s)))))
    (Some (SnapshotFromConfig Getenv cfg None None)).
(** Watching the clusters leaves the shared states alone. *)
Definition watches_apart (p : Provider W K) : Prop := forall w, cell_get (WatchTargets p w) = cell_get w.

Lemma reload_oauth_spec cfg w :
  let '(lines, w') := reload_oauth cfg w in
  sh_config (cell_get w') = sh_config (cell_get w) /\
  (wellknown_equiv (Some (default (mkSnapshot None None "" "" "" [] [] false) (sh_oauth (cell_get w'))))
     (Some (SnapshotFromConfig Getenv cfg None None)) \/
   w' = w /\ exists err, create_oidc w cfg = Err err /\ (Some err, "Failed to recreate OIDC provider during reload") ∈ lines).
Proof.
  unfold reload_oauth. cbv zeta. unfold State_Load. set (current := default _ (sh_oauth (cell_get w))).
  set (new := SnapshotFromConfig _ _ _ _). assert (forall a b, wellknown_equiv (Some (SnapshotFromConfig Getenv cfg a b))
    (Some (SnapshotFromConfig (P := P) (C := C) Getenv cfg None None))) as Hrefl.
  { intros a b. by apply wellknown_equiv_spec. }
  destruct (HasProviderConfigChanged _ _).
  - destruct (create_oidc w cfg) as [[a b]|err]; [|split; [done|right; split; [done|]; exists err; split; [done|set_solver]]].
    unfold store_oauth. rewrite cell_get_put. split; [done|]. left. apply Hrefl.
  - destruct (HasWellKnownConfigChanged _ _) eqn:Hk.
    + unfold store_oauth. rewrite cell_get_put. split; [done|]. left. apply Hrefl.
    + split; [done|]. left. fold current. etrans; [exact Hk|apply Hrefl].
Qed.

Lemma sighup_cases m s :
  server_ok registry (ps_server s) -> watches_apart (ps_provider s) ->
  let '(r, s') := sighup m s in
  (exists err what, r = Returned [(None, "Received SIGHUP signal, reloading configuration..."); (Some err, what)] /\ s' = s) \/
  exists lines c cfg,
    r = Returned lines /\ config_Read (o_ConfigPath m) (o_ConfigDir m) (ps_world s) = Ok c /\
    cfg = reload_candidate registeredStrategies exchangeStrategies c /\
    cf_StaticConfig (sv_configuration (ps_server s')) = cfg /\
    server_safe registry (ps_server s') /\ ps_provider s' = ps_provider s /\ agree s' /\
    (oauth_of cfg s' \/
     sh_oauth (cell_get (ps_world s')) = sh_oauth (cell_get (ps_world s)) /\
     exists err, (Some err, "Failed to recreate OIDC provider during reload") ∈ lines).
Proof.
  intros Hok Hwatch. unfold sighup. cbv zeta. destruct (config_Read _ _ _) as [c|err] eqn:Hread; [|left; by do 2 eexists].
  destruct (reload_cases registry (ps_provider s) json_Unmarshal is_k8s ReplaceAllString patterns url_Parse uritemplate_New
    Getenv FormatFloat tlsCipherSuiteMap os_Stat registeredStrategies exchangeStrategies c (ps_server s) (ps_world s) Hok)
    as [[err ->]|(_ & tss & server & _ & -> & Happlied)].
  { left. do 2 eexists. split; [done|]. by destruct s. }
  destruct (reload_sink _ _ _ _) as [[lines sink] o].
  pose proof (reload_oauth_spec (cf_StaticConfig (sv_configuration server))
    (store_config (cf_StaticConfig (sv_configuration server)) (WatchTargets (ps_provider s) (ps_world s)))) as Ho.
  destruct (reload_oauth _ _) as [lines' w'].
  pose proof Happlied as (_ & _ & Hcfg). apply applied_safe in Happlied. rewrite Hcfg in Ho.
  unfold store_config in Ho. rewrite cell_get_put, Hwatch in Ho. destruct Ho as [H1 H2].
  right. exists ([(None, "Received SIGHUP signal, reloading configuration...")] ++ lines ++ lines'), c,
    (reload_candidate registeredStrategies exchangeStrategies c).
  split_and!; try done.
  - unfold agree. cbn. by rewrite H1, Hcfg.
  - destruct H2 as [H2|(-> & err & _ & Hin)]; [by left|]. right. cbn. rewrite cell_get_put. split; [done|].
    exists err. set_solver.
Qed.


(** *** The process as a state machine: signals, changes of the clusters, and whatever
    serving requests does to the rest of the world *)

Inductive process_step (m : MCPServerOptions) : process -> process -> Prop :=
| step_sighup s r s' : sighup m s = (r, s') -> process_step m s s'
| step_cluster s o server w :
    reapplyToolsets registry (ps_provider s) json_Unmarshal is_k8s ReplaceAllString patterns url_Parse uritemplate_New
      (ps_server s) (ps_world s) = (o, server, w) ->
    process_step m s (mkProcess (ps_provider s) server (ps_sink s) (ps_os s) w)
| step_serving s w o :
    cell_get w = cell_get (ps_world s) -> process_step m s (mkProcess (ps_provider s) (ps_server s) (ps_sink s) o w).

Record process_safe (s : process) : Prop := mkProcessSafe {
  safe_server : server_safe registry (ps_server s);
  safe_watch : watches_apart (ps_provider s);
  safe_agree : agree s;
}.

Lemma process_step_safe m s s' : process_step m s s' -> process_safe s -> process_safe s'.
Proof.
  intros Hstep [Hs Hw Ha]. destruct Hstep as [s r s' Hr|s o server w Hr|s w o Hc].
  - pose proof (sighup_cases m s (proj1 Hs) Hw) as H. rewrite Hr in H.
    destruct H as [(? & ? & _ & ->)|(lines & c & cfg & _ & _ & _ & _ & Hsafe & Hp & Hagree & _)]; [done|].
    split; [done|by rewrite Hp|done].
  - unfold reapplyToolsets in Hr.
    destruct (applyToolsets_cases registry (ps_provider s) json_Unmarshal is_k8s ReplaceAllString patterns url_Parse
      uritemplate_New None (ps_server s) (ps_world s) (proj1 (proj1 Hs)) (proj2 (proj1 Hs)))
      as [[_ He]|(tss & _ & [[e He]|(s1 & He & Happlied)])]; rewrite He in Hr; injection Hr as <- <- <-; [done..|].
    pose proof Happlied as (_ & _ & Hcfg). apply applied_safe in Happlied. split; [done..|].
    unfold agree in *. cbn. by rewrite Hw, Hcfg, Ha.
  - split; [done..|]. unfold agree in *. cbn. by rewrite Hc.
Qed.

Lemma start_safe cfg sink o w s w' :
  (forall c base w p w', Providers.NewProvider inCluster factories c true (Some base) w = (Ok p, w') ->
     watches_apart (server_provider p) /\ cell_get w' = cell_get w) ->
  start cfg sink o w = (Returned (Ok s), w') -> process_safe s.
Proof.
  intros Hprov. unfold start. destruct (create_oidc w cfg) as [[a b]|]; [|done]. cbv zeta.
  destruct (Providers.NewProvider _ _ _ _ _ _) as [[p|] w1] eqn:Hp; [|done]. apply Hprov in Hp as [Hw Hc].
  rewrite cell_get_put in Hc. unfold NewServer. destruct (metrics_New _); [done|].
  destruct (applyToolsets_cases registry (server_provider p) json_Unmarshal is_k8s ReplaceAllString patterns url_Parse
    uritemplate_New (Some (mkConfiguration cfg None [])) (empty_server (mkConfiguration cfg None [])) w1
    (empty_server_ok _) (or_introl eq_refl)) as [[_ ->]|(tss & _ & [[e ->]|(s1 & -> & Happlied)])]; [done..|].
  intros [= <- _]. pose proof Happlied as (_ & _ & Hcfg). apply applied_safe in Happlied. split; [done..|].
  unfold agree. cbn. by rewrite !Hw, Hc, Hcfg.
Qed.

End Command.

(** * Witnesses: a process of one toolset, started with a configuration of the flags *)

Module CommandWitness.
(** The world is the shared states; requests change nothing else. *)
Definition world : Type := shared (P := unit) (C := unit).
#[global] Instance world_cell : Cell world world := {|
  cell_get w := w;
  cell_put s _ := s;
  cell_get_put _ _ := eq_refl;
|}.
Definition tool (name : string) (readOnly : bool) : ServerTool world unit :=
  mkServerTool
    (mkTool name "" (mkToolAnnotations "" (Some readOnly) None None None) []
       (Some (mkSchema "object" "" None)) None)
    (fun _ w => (Ok (NewToolCallResult "done" None), w)) None None [].
Definition registry : toolsetRegistry (Toolset world unit) :=
  {[ "core" := mkToolset "core" (fun _ => [tool "pods_list" true; tool "pods_delete" false]) [] [] [];
     "config" := mkToolset "config" (fun _ => []) [] [] [] ]}.
Definition provider : Provider world unit :=
  mkTargetProvider "context" (fun _ => "here") (fun _ => true)
    (fun w => (Ok ["here"], w)) (fun _ w => (Ok tt, w)) id.
Definition factories : gmap string (StaticConfig -> ST world (result (Provider world unit))) :=
  {[ "kubeconfig" := fun _ w => (Ok provider, w) ]}.
Definition empty : world := mkShared None None.
(** One file, which says nothing. *)
Definition Options (readOnly requireOAuth : bool) : MCPServerOptions :=
  {| o_Version := false; o_LogLevel := 0; o_LogFile := ""; o_Port := "8080"; o_BindAddress := ""; o_Kubeconfig := "";
     o_Toolsets := []; o_ListOutput := ""; o_ReadOnly := readOnly; o_DisableDestructive := false; o_Stateless := false;
     o_RequireOAuth := requireOAuth; o_OAuthAudience := ""; o_AuthorizationURL := ""; o_SkipJWTVerification := true;
     o_CertificateAuthority := ""; o_ServerURL := ""; o_DisableMultiCluster := false; o_ClusterProvider := "kubeconfig";
     o_TLSCert := "/tls.crt"; o_TLSKey := "/tls.key"; o_RequireTLS := true; o_ConfigPath := "/etc/config.toml"; o_ConfigDir := "" |}.
Definition given (flags : list string) (flag : string) : bool := bool_decide (flag ∈ flags).
Definition base : StaticConfig := loadFlags (given [flagClusterProvider]) (Options false false) BaseDefault.
Definition url (_ : string) : result URL := Ok (mkURL "https" "" "").
Definition started (cfg : StaticConfig) : outcome (result (process (W := world) (K := unit) (F := gmap string))) * world :=
  start (P := unit) (C := unit) (fun _ => "") base url ∅ registry (fun _ => Ok ∅) (fun _ _ => false)
    (fun _ _ t => t) ([] : list unit) (fun _ => None) (fun _ => Err (ErrNew "none")) Some
    (fun _ _ => tt) (fun _ _ _ => Ok tt) (fun _ => false) factories (fun p _ => p) (fun _ => None) cfg None (mkOs 0 ∅ []) empty.
Definition running (cfg : StaticConfig) : process (W := world) (K := unit) (F := gmap string) :=
  match (started cfg).1 with
  | Returned (Ok s) => s
  | _ => mkProcess provider (empty_server (mkConfiguration cfg None [])) None (mkOs 0 ∅ []) empty
  end.
(** [file]: what decoding the file makes of the defaults. *)
Abbreviation signalled file m :=
  (sighup (P := unit) (C := unit) (fun _ => "") (fun a _ => a) Ok (fun a => a) (fun _ => true) (fun _ => true)
    (fun (_ : world) _ => Err (ErrNew "none")) (fun _ _ => Ok []) (fun _ _ => Ok "") (fun _ => Ok []) (fun _ => Ok "")
    base (fun _ d => file d) ∅ ∅ (fun _ _ => None) (fun _ => "") url ∅ (fun _ => None) ["kubeconfig"] [] registry
    (fun _ => Ok ∅) (fun _ _ => false) (fun _ _ t => t) ([] : list unit) (fun _ => None)
    (fun _ => Err (ErrNew "none")) Some (fun _ _ => tt) (fun _ _ _ => Ok tt) m).
Definition after_signal (changed : list string) (m : MCPServerOptions) : process (W := world) (K := unit) (F := gmap string) :=
  (signalled (@Ok StaticConfig) m (running (loadFlags (given changed) m base))).2.
Definition published (w : world) : StaticConfig := default base (sh_config w).

Lemma providers_apart c base w p w' :
  Providers.NewProvider (fun _ => false) factories c true (Some base) w = (Ok p, w') ->
  watches_apart (server_provider (fun (p : Provider world unit) (_ : world -> StaticConfig) => p) p) /\
  cell_get w' = cell_get w.
Proof.
  unfold Providers.NewProvider, providerRegistry_get, factories.
  destruct (bool_decide_reflect ("kubeconfig" = resolveStrategy (fun _ => false) c w)) as [<-|Hne].
  - rewrite lookup_singleton_eq. by intros [= <- <-].
  - by rewrite lookup_singleton_ne.
Qed.
Lemma running_safe : process_safe registry (running base).
Proof.
  apply (start_safe (P := unit) (C := unit) (fun _ => "") base url ∅ registry (fun _ => Ok ∅) (fun _ _ => false)
    (fun _ _ t => t) ([] : list unit) (fun _ => None) (fun _ => Err (ErrNew "none")) Some
    (fun _ _ => tt) (fun _ _ _ => Ok tt) (fun _ => false) factories (fun p _ => p) (fun _ => None) base None (mkOs 0 ∅ [])
    empty (running base) (started base).2 providers_apart).
  vm_compute. reflexivity.
Qed.
End CommandWitness.

(** The flags --read-only and --require-oauth are lost with the first signal: the tool
    that deletes is exposed, and a request without a token reaches the server. *)
Example flags_lost_on_reload :
  let m := CommandWitness.Options true true in
  let flags := [flagReadOnly; flagRequireOAuth] in
  let before := CommandWitness.running (loadFlags (CommandWitness.given flags) m CommandWitness.base) in
  let after := CommandWitness.after_signal flags m in
  let status s := rs_Status
    (AuthorizationMiddleware HttpAuthWitness.ParseSigned HttpAuthWitness.Claims (fun _ _ _ => None) (fun _ _ _ _ => None)
       (CommandWitness.published) (fun w : CommandWitness.world => sh_oauth w) (fun _ w => (mkResponse 200 ∅ "mcp", w)) HttpAuthWitness.req (ps_world s)).1 in
  sv_enabledTools (ps_server before) = ["pods_list"] /\
  sv_enabledTools (ps_server after) = ["pods_list"; "pods_delete"] /\
  status before = 401%Z /\ status after = 200%Z.
Proof. vm_compute. split_and!; reflexivity. Qed.

(** The certificate without its key is refused, with both the listener has TLS. *)
Lemma require_tls_serves_tls_witness :
  let cfg := loadFlags (CommandWitness.given [flagRequireTLS; flagTLSCert; flagTLSKey; flagPort]) (CommandWitness.Options false false)
    CommandWitness.base in
  exists cfg', (Validate (fun _ => "") (fun _ => "") CommandWitness.url ∅ (fun _ => None) ["kubeconfig"] []
      CommandWitness.registry cfg = (None, cfg') /\
    forall addr tls, SListen addr tls ∈ (Serve (fun _ => "") ∅ cfg' EndSignal).1 -> is_Some tls).
Proof.
  intros cfg. refine (ex_intro _ (Validate (fun _ => "") (fun _ => "") CommandWitness.url ∅ (fun _ => None) ["kubeconfig"] []
    CommandWitness.registry cfg).2 _).
  assert (Validate (fun _ => "") (fun _ => "") CommandWitness.url ∅ (fun _ => None) ["kubeconfig"] []
      CommandWitness.registry cfg = (None, (Validate (fun _ => "") (fun _ => "") CommandWitness.url ∅ (fun _ => None)
      ["kubeconfig"] [] CommandWitness.registry cfg).2)) as H by (vm_compute; reflexivity).
  split; [exact H|].
  refine (require_tls_serves_tls (fun _ => "") (fun _ => "") CommandWitness.url ∅ (fun _ => None) ["kubeconfig"] []
    CommandWitness.registry cfg _ EndSignal H _ _); vm_compute; [reflexivity|discriminate].
Defined.


