(* ===== verification/HttpClients.v ===== *)
(** What the clients of the plugins (pkg/netobserv, pkg/kiali) have in common: the parts of
    net/url and net/http that they use, the join of a base URL and an endpoint, the header
    with the token, and the bounded reading of an answer.  The parser and the printer of
    URLs are parameters with the laws their documentation states; escaping is defined. *)
From S2P Require Import Prelude GoStrings Api Params TlsUtil Config Http Tools.

(** * Definitions *)

(** ** net/url: query strings *)

Definition upper_hex (n : N) : ascii := ascii_of_N (if (n <? 10)%N then 48 + n else 55 + n).
Definition unreserved (c : ascii) : bool :=
  let n := N_of_ascii c in
  ((48 <=? n) && (n <=? 57) || (65 <=? n) && (n <=? 90) || (97 <=? n) && (n <=? 122) ||
   (n =? 45) || (n =? 95) || (n =? 46) || (n =? 126))%N.
Definition escape_char (c : ascii) : string :=
  if unreserved c then String c ""
  else if bool_decide (c = " "%char) then "+"
  else let n := N_of_ascii c in String "%" (String (upper_hex (n / 16)) (String (upper_hex (n mod 16)) "")).
Fixpoint QueryEscape (s : string) : string :=
  match s with EmptyString => "" | String c s => escape_char c +:+ QueryEscape s end.

(** [url.Values] with one value for each key, and its [Encode]. *)
Abbreviation Values := (gmap string string) (only parsing).
Definition sorted_keys {A} (m : gmap string A) : list string := sort_strings (map fst (map_to_list m)).
Definition Encode (v : Values) : string :=
  Join (map (fun k => QueryEscape k +:+ "=" +:+ QueryEscape (default "" (v !! k))) (sorted_keys v)) "&".

(** What a server reads: [url.ParseQuery], of which the first value of a key counts. *)
Fixpoint QueryUnescape (s : string) : option string :=
  match s with
  | EmptyString => Some ""
  | String c s =>
      if bool_decide (c = "%"%char) then
        match s with
        | String a (String b s) =>
            a ← hex_value a; b ← hex_value b; s ← QueryUnescape s; Some (String (ascii_of_N (16 * a + b)) s)
        | _ => None
        end
      else s ← QueryUnescape s; Some (String (if bool_decide (c = "+"%char) then " "%char else c) s)
  end.
Definition parse_pair (piece : string) : option (string * string) :=
  if char_in ";" piece then None
  else
    let '(k, v) := match Cut "=" piece with Some kv => kv | None => (piece, "") end in
    k ← QueryUnescape k; v ← QueryUnescape v; Some (k, v).
Definition ParseQuery (query : string) : option (list (string * string)) :=
  mapM parse_pair (filter (.≠ "") (Split "&" query)).

(** ** net/url: URLs *)

(** The parts of [url.URL] that are read or set; the others are [u_rest]. *)
Record net_url := mkNetUrl {
  nu_Scheme : string;
  nu_Host : string;
  nu_Path : string;
  nu_RawQuery : string;
  nu_Fragment : string;
  nu_rest : string;
}.
Definition with_query (query fragment : string) (u : net_url) : net_url :=
  mkNetUrl (nu_Scheme u) (nu_Host u) (nu_Path u) query fragment (nu_rest u).

(** What can be in a query as it is: what escaping gives, and the separators. *)
Definition query_char (c : ascii) : bool :=
  unreserved c || bool_decide (c ∈ ["+"; "%"; "="; "&"]%char).
Fixpoint all_chars (f : ascii -> bool) (s : string) : bool :=
  match s with EmptyString => true | String c s => f c && all_chars f s end.

(** [url.Parse], [URL.String], [url.JoinPath] and [URL.Redacted]. *)
Class NetUrl := {
  url_Parse : string -> result net_url;
  url_String : net_url -> string;
  url_JoinPath : string -> string -> result string;
  url_Redacted : net_url -> string;
}.
(** Of their documentation: a reference without [?] and [#] has no query and no fragment,
    printing gives a URL with the same parts, and joining adds to the path only. *)
Class NetUrlLaws `{NetUrl} := {
  parse_path : forall s u,
    no_char "?" s -> no_char "#" s -> url_Parse s = Ok u -> nu_RawQuery u = "" /\ nu_Fragment u = "";
  parse_string : forall s u query fragment v,
    url_Parse s = Ok u -> nu_Scheme u <> "" -> nu_Host u <> "" ->
    query = nu_RawQuery u \/ all_chars query_char query = true -> fragment = nu_Fragment u \/ fragment = "" ->
    url_Parse (url_String (with_query query fragment u)) = Ok v ->
    nu_Scheme v = nu_Scheme u /\ nu_Host v = nu_Host u /\ nu_Path v = nu_Path u /\ nu_RawQuery v = query;
  parse_join : forall s p r,
    url_JoinPath s p = Ok r ->
    exists u, url_Parse s = Ok u /\
      (nu_Scheme u <> "" -> nu_Host u <> "" ->
       forall v, url_Parse r = Ok v -> nu_Scheme v = nu_Scheme u /\ nu_Host v = nu_Host u);
}.

(** [url.Parse] for what reads scheme, host and path only. *)
Definition parse_URL `{NetUrl} (s : string) : result URL :=
  match url_Parse s with Ok u => Ok (mkURL (nu_Scheme u) (nu_Host u) (nu_Path u)) | Err err => Err err end.

(** The URL of an endpoint below a base, for a client called [name] whose base is [what]. *)
Definition joined_url `{NetUrl} (name what base endpoint : string) : result string :=
  if base =?s "" then Err (ErrNew (name +:+ " client not initialized"))
  else
    let baseStr := TrimSpace base in
    if baseStr =?s "" then Err (ErrNew (fmt [name; " "; what; " URL not configured"]))
    else
      match url_Parse baseStr with
      | Err err => Err (wrapf (fmt ["invalid "; name; " base URL: "]) err)
      | Ok baseURL =>
          if endpoint =?s "" then Ok (url_String baseURL)
          else
            match url_Parse (TrimSpace endpoint) with
            | Err err => Err (wrapf "invalid endpoint path: " err)
            | Ok endpointURL =>
                if (nu_Scheme endpointURL ≠?s "") || (nu_Host endpointURL ≠?s "") then
                  Err (ErrNew "endpoint must be a relative path, not an absolute URL")
                else
                  match url_JoinPath (url_String baseURL) (nu_Path endpointURL) with
                  | Err err => Err (wrapf (fmt ["failed to join "; name; " base URL with endpoint path: "]) err)
                  | Ok resultURL =>
                      match url_Parse resultURL with
                      | Err err => Err (wrapf "failed to parse joined URL: " err)
                      | Ok u => Ok (url_String (with_query (nu_RawQuery endpointURL) (nu_Fragment endpointURL) u))
                      end
                  end
            end
      end.

(** ** net/http *)

(** The value of the Authorization header for a token, "" for none. *)
Definition bearer_header (token : string) : string :=
  let token := TrimSpace token in
  if token =?s "" then "" else if HasPrefix token "Bearer " then token else "Bearer " +:+ token.

Record http_request := mkRequest {
  hr_Method : string;
  hr_URL : net_url;
  hr_Header : http_header;
  hr_Body : string;
}.
(** A reply, its body as the bytes that come and the error that ends them, if one does. *)
Record http_reply := mkReply { hy_StatusCode : Z; hy_Body : string * option error }.
Definition request_url (r : http_request) : URL := mkURL (nu_Scheme (hr_URL r)) (nu_Host (hr_URL r)) (nu_Path (hr_URL r)).

(** [io.ReadAll] of an [io.LimitReader] of one byte more than [max]. *)
Definition read_limited (max : Z) (body : string * option error) : result string :=
  if (max <? Z.of_nat (slen body.1))%Z then Ok (take_str (Z.to_nat (max + 1)) body.1)
  else match body.2 with Some err => Err err | None => Ok body.1 end.

Section Client.
Context {W : Type}.
(** The transport of a client with its TLS settings; whether and to which request net/http
    follows a reply; the [url.Error] around an error. *)
Context (RoundTrip : TLSConfig -> http_request -> ST W (result http_reply)).
Context (redirect : http_request -> http_reply -> option (result http_request)).
Context (url_Error : http_request -> error -> error).

(** The parts of [http.Client]: the settings of its transport, the predicate of the
    enforcing transport around it, if there is one, and what [CheckRedirect] answers.  The
    timeouts are part of the transport. *)
Record http_client := mkHttpClient {
  hc_TLS : TLSConfig;
  hc_RequireTLS : option (W -> bool);
  hc_CheckRedirect : option error;
}.
(** [NewTLSEnforcingClient] is on the way of every request. *)
Definition client_RoundTrip (c : http_client) : http_request -> ST W (result http_reply) :=
  TLSEnforcingTransport_RoundTrip request_url (RoundTrip (hc_TLS c)) (hc_RequireTLS c).
(** [Client.Do]: at most ten requests. *)
Fixpoint http_Do (fuel : nat) (c : http_client) (req : http_request) : ST W (result http_reply) := fun w =>
  match fuel with
  | O => (Err (url_Error req (ErrNew "stopped after 10 redirects")), w)
  | S fuel =>
      match client_RoundTrip c req w with
      | (Err err, w) => (Err (url_Error req err), w)
      | (Ok resp, w) =>
          match redirect req resp with
          | None => (Ok resp, w)
          | Some (Err err) => (Err (url_Error req err), w)
          | Some (Ok req') =>
              match hc_CheckRedirect c with
              | Some err => (Err (url_Error req err), w)
              | None => http_Do fuel c req' w
              end
          end
      end
  end.
Definition http_client_Do : http_client -> http_request -> ST W (result http_reply) := http_Do 10.
End Client.
Arguments http_client : clear implicits.

(** ** The tools of the plugins: what a call has of the server besides its arguments *)

Record client_tool (W X : Type) := mkClientTool {
  kt_Tool : Tool;
  kt_ClusterAware : option bool;
  kt_Handler : X -> option arguments -> ST W ToolCallResult;
}.
Arguments mkClientTool {W X} _ _ _.
Arguments kt_Tool {W X} _.
Arguments kt_ClusterAware {W X} _.
Arguments kt_Handler {W X} _ _ _ _.

(** * Lemmas *)

Lemma all_chars_append f s t : all_chars f (s +:+ t) = all_chars f s && all_chars f t.
Proof. induction s as [|c s IH]; [done|]. rewrite append_String. cbn. by rewrite IH, andb_assoc. Qed.
Lemma all_chars_mono (f g : ascii -> bool) s : (forall c, f c = true -> g c = true) -> all_chars f s = true -> all_chars g s = true.
Proof. intros H. induction s as [|c s IH]; [done|]. cbn. rewrite !andb_true_iff. intros [H1 H2]. auto. Qed.
Lemma all_chars_no_char f c s : all_chars f s = true -> f c = false -> no_char c s.
Proof.
  intros H Hc. induction s as [|a s IH]; [done|]. cbn in *. apply andb_true_iff in H as [H1 H2].
  split; [|by apply IH]. intros ->. congruence.
Qed.
Lemma all_chars_char_in f c s : all_chars f s = true -> f c = false -> char_in c s = false.
Proof.
  intros H Hc. induction s as [|a s IH]; [done|]. cbn in *. apply andb_true_iff in H as [H1 H2].
  rewrite IH by done. rewrite orb_false_r. apply bool_decide_eq_false_2. intros ->. congruence.
Qed.

Definition escaped_char (c : ascii) : bool := unreserved c || bool_decide (c ∈ ["+"; "%"]%char).

Lemma escape_char_escaped c : all_chars escaped_char (escape_char c) = true.
Proof. destruct c as [[] [] [] [] [] [] [] []]; vm_compute; reflexivity. Qed.
Lemma QueryEscape_escaped s : all_chars escaped_char (QueryEscape s) = true.
Proof. induction s as [|c s IH]; [done|]. cbn [QueryEscape]. by rewrite all_chars_append, IH, escape_char_escaped. Qed.

Lemma hex_value_upper n : (n < 16)%N -> hex_value (upper_hex n) = Some n.
Proof.
  intros H. assert (Forall (fun n => hex_value (upper_hex n) = Some n) (map N.of_nat (seq 0 16))) as Hall.
  { cbn. repeat constructor. }
  rewrite Forall_forall in Hall. apply Hall, list_elem_of_fmap. exists (N.to_nat n).
  split; [by rewrite N2Nat.id|]. apply elem_of_seq. lia.
Qed.
Lemma escape_char_cases c :
  (escape_char c = String c "" /\ c <> "%"%char /\ c <> "+"%char) \/
  (escape_char c = "+" /\ c = " "%char) \/
  exists a b h l, escape_char c = String "%" (String a (String b "")) /\ hex_value a = Some h /\ hex_value b = Some l /\
    ascii_of_N (16 * h + l) = c.
Proof.
  unfold escape_char. destruct (unreserved c) eqn:Hu.
  - left. split; [done|]. split; intros ->; vm_compute in Hu; discriminate.
  - destruct (bool_decide_reflect (c = " "%char)) as [->|_]; [by right; left|]. right. right.
    pose proof (N_ascii_bounded c) as Hb. do 4 eexists. split; [reflexivity|].
    split_and!; [apply hex_value_upper, N.Div0.div_lt_upper_bound; lia|apply hex_value_upper, N.mod_lt; done|].
    rewrite <-N.div_mod' . apply ascii_N_embedding.
Qed.
Lemma unescape_char c t : QueryUnescape (escape_char c +:+ t) = (s ← QueryUnescape t; Some (String c s)).
Proof.
  destruct (escape_char_cases c) as [(-> & H1 & H2)|[(-> & ->)|(a & b & h & l & -> & Ha & Hb & <-)]].
  - rewrite append_String, append_nil_l. cbn [QueryUnescape]. by rewrite !bool_decide_eq_false_2 by done.
  - done.
  - rewrite !append_String, append_nil_l. cbn [QueryUnescape]. rewrite bool_decide_eq_true_2 by done. by rewrite Ha, Hb.
Qed.
Lemma unescape_escape s : QueryUnescape (QueryEscape s) = Some s.
Proof. induction s as [|c s IH]; [done|]. cbn [QueryEscape]. by rewrite unescape_char, IH. Qed.

Lemma escaped_no_char c s : escaped_char c = false -> no_char c (QueryEscape s).
Proof. intros H. apply (all_chars_no_char escaped_char); [apply QueryEscape_escaped|done]. Qed.

Definition printed_pair (k v : string) : string := QueryEscape k +:+ "=" +:+ QueryEscape v.

Lemma parse_printed k v : parse_pair (printed_pair k v) = Some (k, v).
Proof.
  unfold parse_pair, printed_pair. rewrite append_String, append_nil_l.
  assert (char_in ";" (QueryEscape k +:+ String "=" (QueryEscape v)) = false) as ->.
  { apply (all_chars_char_in query_char); [|done]. rewrite all_chars_append. cbn [all_chars].
    rewrite !(all_chars_mono escaped_char query_char); [done| |apply QueryEscape_escaped| |apply QueryEscape_escaped].
    all: intros [[] [] [] [] [] [] [] []]; vm_compute; done. }
  rewrite no_char_Cut by (by apply escaped_no_char). cbn. by rewrite !unescape_escape.
Qed.
Lemma printed_no_amp k v : no_char "&" (printed_pair k v).
Proof.
  unfold printed_pair. rewrite append_String, append_nil_l, no_char_append. cbn [no_char].
  split_and!; [by apply escaped_no_char|done|by apply escaped_no_char].
Qed.
Lemma printed_not_nil k v : printed_pair k v <> "".
Proof. unfold printed_pair. rewrite append_String, append_nil_l. by destruct (QueryEscape k). Qed.

Lemma elem_of_sorted_keys {A} (m : gmap string A) k : k ∈ sorted_keys m <-> is_Some (m !! k).
Proof.
  unfold sorted_keys. rewrite elem_of_sort_strings, list_elem_of_fmap. split.
  - intros ([k' x] & -> & H%elem_of_map_to_list). by eexists.
  - intros [x H]. exists (k, x). split; [done|]. by apply elem_of_map_to_list.
Qed.
Lemma NoDup_sorted_keys {A} (m : gmap string A) : NoDup (sorted_keys m).
Proof. unfold sorted_keys. rewrite sort_strings_perm. apply NoDup_fst_map_to_list. Qed.

(** A server reads from a query exactly the values that were put in it, each once: no value
    can add, remove or change a parameter. *)
Theorem query_roundtrip (v : Values) :
  exists pairs, ParseQuery (Encode v) = Some pairs /\ NoDup pairs.*1 /\ list_to_map pairs = v.
Proof.
  exists (map (fun k => (k, default "" (v !! k))) (sorted_keys v)). split_and!.
  - unfold ParseQuery, Encode. fold (printed_pair). change (fun k => QueryEscape k +:+ "=" +:+ QueryEscape (default "" (v !! k)))
      with (fun k => printed_pair k (default "" (v !! k))).
    assert (filter (.≠ "") (Split "&" (Join (map (fun k => printed_pair k (default "" (v !! k))) (sorted_keys v)) "&")) =
      map (fun k => printed_pair k (default "" (v !! k))) (sorted_keys v)) as ->.
    { destruct (sorted_keys v) as [|k ks]; [done|]. rewrite Split_Join; [|done|].
      - induction (k :: ks) as [|k' l IH]; [done|]. cbn [map]. rewrite filter_cons, decide_True by apply printed_not_nil.
        by rewrite IH.
      - apply Forall_forall. intros x (k' & -> & _)%list_elem_of_fmap. apply printed_no_amp. }
    induction (sorted_keys v) as [|k ks IH]; [done|]. cbn [map mapM]. by rewrite parse_printed, IH.
  - rewrite <-list_fmap_compose. assert ((fst ∘ (fun k => (k, default "" (v !! k)))) <$> sorted_keys v = sorted_keys v) as ->
      by apply list_fmap_id. apply NoDup_sorted_keys.
  - apply map_eq. intros k. apply option_eq. intros x. rewrite <-elem_of_list_to_map.
    + rewrite list_elem_of_fmap. split.
      * intros (k' & E & (y & Hy)%elem_of_sorted_keys). simplify_eq. by rewrite Hy.
      * intros H. exists k. rewrite H. split; [done|]. apply elem_of_sorted_keys. by eexists.
    + rewrite <-list_fmap_compose. assert ((fst ∘ (fun k => (k, default "" (v !! k)))) <$> sorted_keys v = sorted_keys v) as ->
        by apply list_fmap_id. apply NoDup_sorted_keys.
Qed.

Lemma with_own_query u : with_query (nu_RawQuery u) (nu_Fragment u) u = u.
Proof. by destruct u. Qed.

(** The URL of an endpoint has the scheme and the host of the base. *)
Lemma joined_url_same `{NetUrlLaws} name what base endpoint b r u :
  url_Parse (TrimSpace base) = Ok b -> nu_Scheme b <> "" -> nu_Host b <> "" ->
  no_char "?" (TrimSpace endpoint) -> no_char "#" (TrimSpace endpoint) ->
  joined_url name what base endpoint = Ok r -> url_Parse r = Ok u ->
  nu_Scheme u = nu_Scheme b /\ nu_Host u = nu_Host b.
Proof.
  intros Hb Hs Hh Hq Hf. unfold joined_url. destruct (base =?s ""); [done|]. cbv zeta.
  destruct (TrimSpace base =?s ""); [done|]. rewrite Hb. destruct (endpoint =?s "").
  { intros [= <-] Hu. rewrite <-(with_own_query b) in Hu.
    destruct (parse_string _ _ _ _ _ Hb Hs Hh (or_introl eq_refl) (or_introl eq_refl) Hu) as (? & ? & _). done. }
  destruct (url_Parse (TrimSpace endpoint)) as [e|] eqn:He; [|done].
  destruct (_ || _); [done|]. destruct (url_JoinPath _ _) as [j|] eqn:Hj; [|done].
  destruct (url_Parse j) as [ju|] eqn:Hju; [|done]. intros [= <-] Hu.
  destruct (parse_path _ _ Hq Hf He) as [Eq Ef]. rewrite Eq, Ef in Hu.
  assert (nu_Scheme ju = nu_Scheme b /\ nu_Host ju = nu_Host b) as [H1 H2].
  { apply parse_join in Hj as (b' & Hb' & Hj). pose proof Hb' as Hb''. rewrite <-(with_own_query b) in Hb''.
    destruct (parse_string _ _ _ _ _ Hb Hs Hh (or_introl eq_refl) (or_introl eq_refl) Hb'') as (E1 & E2 & _).
    rewrite E1, E2 in Hj. by apply Hj. }
  rewrite <-H1 in Hs |- *. rewrite <-H2 in Hh |- *.
  destruct (parse_string _ _ "" "" _ Hju Hs Hh (or_intror eq_refl) (or_intror eq_refl) Hu) as (? & ? & _). done.
Qed.

(** A client that refuses redirects sends one request. *)
Lemma http_Do_once {W} (RoundTrip : TLSConfig -> http_request -> ST W (result http_reply)) redirect url_Error fuel c err req w :
  hc_CheckRedirect c = Some err ->
  http_Do RoundTrip redirect url_Error (S fuel) c req w =
  let '(reply, w) := client_RoundTrip RoundTrip c req w in
  (match reply with
   | Err err => Err (url_Error req err)
   | Ok resp =>
       match redirect req resp with
       | None => Ok resp
       | Some (Err err) => Err (url_Error req err)
       | Some (Ok _) => Err (url_Error req err)
       end
   end, w).
Proof.
  intros Hc. cbn [http_Do]. destruct (client_RoundTrip RoundTrip c req w) as [[resp|] w']; [|done].
  destruct (redirect req resp) as [[req'|]|]; [|done..]. by rewrite Hc.
Qed.

Lemma Join_chars f sep l :
  all_chars f sep = true -> Forall (fun s => all_chars f s = true) l -> all_chars f (Join l sep) = true.
Proof.
  intros Hsep H. induction H as [|s l Hs _ IH]; [done|]. destruct l as [|t l]; [by cbn|].
  rewrite Join_cons2, !all_chars_append. by rewrite Hs, Hsep, IH.
Qed.
Lemma escaped_query_char c : escaped_char c = true -> query_char c = true.
Proof. destruct c as [[] [] [] [] [] [] [] []]; vm_compute; done. Qed.
Lemma printed_chars k v : all_chars query_char (printed_pair k v) = true.
Proof.
  unfold printed_pair. rewrite !all_chars_append. cbn [all_chars].
  rewrite !(all_chars_mono escaped_char query_char _ escaped_query_char) by apply QueryEscape_escaped. done.
Qed.
Lemma Encode_chars v : all_chars query_char (Encode v) = true.
Proof. apply Join_chars; [done|]. apply Forall_forall. intros s (k & -> & _)%list_elem_of_fmap. apply printed_chars. Qed.

(** While TLS is required, what a client does depends on the network only at secure URLs,
    the redirects it follows included. *)
Lemma http_Do_agree {W} (RoundTrip RoundTrip' : TLSConfig -> http_request -> ST W (result http_reply)) redirect url_Error
    fuel c f req w :
  (forall tls req w, secure_scheme (nu_Scheme (hr_URL req)) -> RoundTrip tls req w = RoundTrip' tls req w) ->
  hc_RequireTLS c = Some f -> (forall w, f w = true) ->
  http_Do RoundTrip redirect url_Error fuel c req w = http_Do RoundTrip' redirect url_Error fuel c req w.
Proof.
  intros Hagree Hf Htrue. revert req w. induction fuel as [|fuel IH]; intros req w; [done|]. cbn [http_Do].
  assert (client_RoundTrip RoundTrip c req w = client_RoundTrip RoundTrip' c req w) as ->.
  { unfold client_RoundTrip, TLSEnforcingTransport_RoundTrip. rewrite Hf, Htrue. cbn [andb].
    destruct (isSecureHTTPScheme _) eqn:Hs; [|done]. apply Hagree.
    unfold isSecureHTTPScheme, secure_scheme in *. by rewrite orb_true_iff, !bool_decide_eq_true in Hs. }
  destruct (client_RoundTrip RoundTrip' c req w) as [[resp|] w']; [|done].
  destruct (redirect req resp) as [[req'|]|]; [|done..]. destruct (hc_CheckRedirect c); [done|]. apply IH.
Qed.

(** * A parser for the witnesses: what starts with [h] is absolute, at one host, and a query
    starts at the first [?] *)

Module SimpleUrl.
Definition parts (s : string) : string * string := match Cut "?" s with Some (p, q) => (p, q) | None => (s, "") end.
Definition absolute (s : string) : bool := match s with String c _ => bool_decide (c = "h"%char) | EmptyString => false end.
Definition parse (s : string) : net_url :=
  mkNetUrl (if absolute s then "https" else "") (if absolute s then "plugin" else "") (parts s).1 (parts s).2 "" "".
Definition print (u : net_url) : string := nu_Path u +:+ String "?" (nu_RawQuery u).
#[global] Instance simple : NetUrl := {|
  url_Parse s := Ok (parse s);
  url_String := print;
  url_JoinPath s p := Ok ((parts s).1 +:+ p);
  url_Redacted := print;
|}.

Lemma parts_spec s : no_char "?" (parts s).1 /\ absolute (parts s).1 = absolute s.
Proof.
  unfold parts, Cut. pose proof (Split_parts_no_char "?" s) as Hall. pose proof (Join_Split "?" s) as Hj.
  destruct (Split "?" s) as [|p [|q ps]] eqn:E; [by apply Split_not_nil in E| |].
  - cbn in Hj. inversion_clear Hall. cbn. by subst s.
  - cbn [fst]. inversion_clear Hall as [|? ? Hp _]. split; [done|]. rewrite <-Hj, Join_cons2.
    by destruct p as [|a p].
Qed.
Lemma parts_print p q : no_char "?" p -> parts (p +:+ String "?" q) = (p, q).
Proof. intros H. unfold parts. by rewrite no_char_Cut. Qed.
Lemma prefix_append p q : absolute p = true -> absolute (p +:+ q) = true.
Proof. destruct p as [|a p]; [done|]. by rewrite append_String. Qed.

#[global] Instance simple_laws : NetUrlLaws.
Proof.
  split.
  - intros s u Hq _ [= <-]. unfold parse, parts. cbn. unfold Cut. by rewrite Split_no_char.
  - intros s u query fragment v [= <-] Hs _ _ _ [= <-]. destruct (parts_spec s) as [Hn Hp].
    unfold parse, print, with_query in *. cbn in *. rewrite parts_print by done. cbn.
    destruct (absolute s) eqn:E; [|done]. by rewrite prefix_append by congruence.
  - intros s p r [= <-]. exists (parse s). split; [done|]. intros Hs _ v [= <-]. destruct (parts_spec s) as [_ Hp].
    unfold parse in *. cbn in *. destruct (absolute s) eqn:E; [|done]. by rewrite prefix_append by congruence.
Qed.
End SimpleUrl.
