(* ===== verification/NetObserv.v ===== *)
(** pkg/netobserv and pkg/toolsets/netobserv: the client of the NetObserv console plugin,
    its configuration and its tools.  The files, the clock, the transport, the codecs and
    the printing of numbers are parameters; the log lines are left out. *)
From Stdlib Require Import Floats.SpecFloat.
From S2P Require Import Prelude GoStrings Api Prometheus Params TlsUtil Toolsets Config ConfigRead Http Tools HttpClients.

(** * Definitions *)

(** ** defaults.go, openshift.go *)

Definition DefaultPluginNamespace : string := "netobserv".
Definition DefaultPluginService : string := "netobserv-plugin".
Definition DefaultPluginPort : Z := 9001.
Definition DefaultPluginServiceCAPath : string := "/var/run/secrets/kubernetes.io/serviceaccount/service-ca.crt".
Definition BuildPluginURL (namespace service : string) (port : Z) (isOpenShift : bool) : string :=
  let scheme := if isOpenShift then "https" else "http" in
  fmt [scheme; "://"; service; "."; namespace; ".svc.cluster.local:"; itoa port].
Definition DefaultPluginURL (isOpenShift : bool) : string :=
  BuildPluginURL DefaultPluginNamespace DefaultPluginService DefaultPluginPort isOpenShift.
Definition openshiftProjectGVKs : list GroupVersionKind := [mkGVK "project.openshift.io" "v1" "Project"].

(** ** config.go *)

Record NetObservConfig := mkNetObservConfig {
  nc_Url : string;
  nc_Namespace : string;
  nc_Service : string;
  nc_Port : Z;
  nc_Insecure : bool;
  nc_CertificateAuthority : string;
}.
Definition with_CertificateAuthority (ca : string) (c : NetObservConfig) : NetObservConfig :=
  mkNetObservConfig (nc_Url c) (nc_Namespace c) (nc_Service c) (nc_Port c) (nc_Insecure c) ca.

(** [None] is the nil pointer. *)
Definition ResolvedURL (c : option NetObservConfig) (isOpenShift : bool) : string :=
  match c with
  | None => DefaultPluginURL isOpenShift
  | Some c =>
      let u := TrimSpace (nc_Url c) in
      if u ≠?s "" then u
      else
        let ns := if nc_Namespace c =?s "" then DefaultPluginNamespace else nc_Namespace c in
        let svc := if nc_Service c =?s "" then DefaultPluginService else nc_Service c in
        let port := if bool_decide (nc_Port c = 0%Z) then DefaultPluginPort else nc_Port c in
        BuildPluginURL ns svc port isOpenShift
  end.
Definition usesSynthesizedURL (c : option NetObservConfig) : bool :=
  match c with None => true | Some c => TrimSpace (nc_Url c) =?s "" end.
(** [stat]: the error of [os.Stat], if there is one. *)
Definition applyDefaultsWithStat (isOpenShift : bool) (stat : string -> option error) (c : NetObservConfig) : NetObservConfig :=
  if negb (usesSynthesizedURL (Some c)) || negb isOpenShift then c
  else if nc_Insecure c || (TrimSpace (nc_CertificateAuthority c) ≠?s "") then c
  else match stat DefaultPluginServiceCAPath with
       | None => with_CertificateAuthority DefaultPluginServiceCAPath c
       | Some _ => c
       end.

(** ** The toolset *)

Definition ToolsetName : string := "netobserv".
Definition ToolsetDescription : string :=
  "Network observability tools backed by the NetObserv console plugin API (flows, metrics, export). Check the [NetObserv documentation](https://github.com/containers/kubernetes-mcp-server/blob/main/docs/NETOBSERV.md) for more details.".
Definition NetObservFlowsEndpoint : string := "/api/loki/flow/records".
Definition NetObservFlowMetricsEndpoint : string := "/api/flow/metrics".
Definition NetObservExportFlowsEndpoint : string := "/api/loki/export".
Definition DefaultExportFormat : string := "csv".
Definition DefaultExportMaxBodyBytes : Z := 2 * 2 ^ 20.

Definition readOnlyAnnotations (title : string) : ToolAnnotations :=
  mkToolAnnotations title (Some true) (Some false) (Some true) (Some true).
Definition toolInputSchema (properties : list (string * Schema)) : option Schema :=
  Some (mkSchema "object" "" (Some properties)).

Definition aggregateByParameterDescription : string :=
  fmt ["Primary dimension for netobserv_get_flow_metrics (console plugin /api/flow/metrics)."; nl; nl; "Two forms (use exact spelling):"; nl; nl; "1) Topology scopes — aggregate endpoints for graph/topology views:"; nl; "- app — application workloads (pods/services), excluding infrastructure traffic"; nl; "- namespace — Kubernetes namespace (default)"; nl; "- owner — controller owner (Deployment, StatefulSet, …)"; nl; "- resource — pod, service, or node (finest workload granularity)"; nl; "- host — node name"; nl; "- zone — availability zone"; nl; "- cluster — cluster name (multi-cluster)"; nl; "- network — user-defined / secondary network name"; nl; nl; "2) Flow record fields — group by a single flow attribute (PascalCase field name)."; nl; "Use for breakdown charts (TLS, DNS, drops, protocol). Field names match filters / flow logs."; nl; nl; "TLS (requires TLS tracking on the FlowCollector):"; nl; "- TLSVersion, TLSCipherSuite, TLSGroup, TLSTypes"; nl; nl; "DNS:"; nl; "- DnsName, DnsFlagsResponseCode, DnsErrno"; nl; nl; "Packet drops:"; nl; "- PktDropLatestState, PktDropLatestDropCause"; nl; nl; "Network / K8s (single-sided breakdown; pair with filters for src/dst):"; nl; "- Proto, SrcPort, DstPort, FlowDirection, Dscp"; nl; "- SrcK8S_Namespace, DstK8S_Namespace, SrcK8S_Name, DstK8S_Name"; nl; "- SrcK8S_Type, DstK8S_Type, SrcK8S_OwnerName, DstK8S_OwnerName"; nl; "- SrcK8S_HostName, DstK8S_HostName, SrcK8S_Zone, DstK8S_Zone"; nl; "- K8S_ClusterName, SrcK8S_NetworkName, DstK8S_NetworkName"; nl; nl; "Pair aggregateBy with type and function:"; nl; "- Throughput: type=Bytes or Packets, function=rate"; nl; "- Flow count: type=Flows, function=count or rate"; nl; "- DNS volume: type=DnsFlows, function=count"; nl; "- DNS latency: type=DnsLatencyMs, function=avg, p90, or max"; nl; "- RTT: type=TimeFlowRttNs, function=avg, min, or p90"; nl; "- Drops: type=PktDropPackets or PktDropBytes, function=rate"; nl; nl; "Examples:"; nl; "- aggregateBy=namespace, type=Bytes, function=rate"; nl; "- aggregateBy=TLSVersion, type=Bytes, function=rate, filters=TLSTypes!~"; dq; dq; nl; "- aggregateBy=TLSGroup, type=Flows, function=count"; nl; "- aggregateBy=DnsFlagsResponseCode, type=DnsFlows, function=count"; nl; "- aggregateBy=PktDropLatestState, type=PktDropPackets, function=rate, packetLoss=dropped"; nl; "- aggregateBy=resource, type=Bytes, function=rate, namespace=netobserv"].

Definition groupsParameterDescription : string :=
  fmt ["Optional comma-separated parent scopes when aggregateBy is a topology scope."; nl; "Adds extra label dimensions (e.g. break namespace results down by cluster or zone)."; nl; "Ignored or less useful when aggregateBy is already a raw flow field (e.g. TLSVersion); use filters instead."; nl; nl; "Single scopes:"; nl; "- clusters, networks, zones, hosts, namespaces, owners"; nl; nl; "Combined scopes (use +, no spaces):"; nl; "- clusters+zones, clusters+hosts, clusters+namespaces, clusters+owners"; nl; "- zones+hosts, zones+namespaces, zones+owners"; nl; "- hosts+namespaces, hosts+owners"; nl; "- namespaces+owners"; nl; "- networks+zones, networks+hosts, networks+namespaces, networks+owners"; nl; nl; "Examples:"; nl; "- aggregateBy=namespace, groups=clusters"; nl; "- aggregateBy=resource, groups=namespaces"; nl; "- aggregateBy=owner, groups=zones,hosts"].

Definition filtersParameterDescription : string :=
  fmt ["NetObserv filter expression passed to the console plugin (plain text; the client URL-encodes it)."; nl; nl; "Syntax:"; nl; "- key=value — exact match; key=a,b — OR multiple values for the same key"; nl; "- key~pattern — regex / contains match; key!~pattern — NOT regex"; nl; "- key!=value — not equal; key>number — numeric greater-or-equal (e.g. Bytes>1000)"; nl; "- AND within a group: & (e.g. SrcK8S_Namespace=default&Proto=6)"; nl; "- OR between groups: | (e.g. SrcK8S_Name=pod-a|SrcK8S_Name=pod-b)"; nl; nl; "Prefer the dedicated "; dq; "namespace"; dq; " parameter for namespace scope when possible."; nl; "Use Kubernetes list tools (namespaces, pods, deployments, etc.) to discover filter values."; nl; nl; "Common Kubernetes fields (Src/Dst prefixes mirror each other):"; nl; "- SrcK8S_Namespace, DstK8S_Namespace, SrcK8S_Name, DstK8S_Name"; nl; "- SrcK8S_Type, DstK8S_Type (e.g. Pod, Service, Node)"; nl; "- SrcK8S_OwnerName, DstK8S_OwnerName, SrcK8S_OwnerType, DstK8S_OwnerType (for Deployment, StatefulSet, etc.)"; nl; "- SrcK8S_HostName, DstK8S_HostName, SrcK8S_Zone, DstK8S_Zone, K8S_ClusterName, UDN"; nl; nl; "Network & flow:"; nl; "- SrcAddr, DstAddr (IPs), SrcPort, DstPort, Proto (IANA number, e.g. 6=TCP, 17=UDP)"; nl; "- FlowDirection (0=Ingress, 1=Egress, 2=Inner), Bytes, Packets, Dscp, Flags"; nl; nl; "Packet drops (often with recordType flowLog and packetLoss dropped/hasDrops):"; nl; "- PktDropPackets, PktDropBytes, PktDropLatestState, PktDropLatestDropCause"; nl; nl; "DNS:"; nl; "- DnsName, DnsId, DnsLatencyMs, DnsErrno, DnsFlagsResponseCode"; nl; nl; "Examples:"; nl; "- SrcK8S_Namespace=openshift-netobserv&SrcK8S_Name~my-app"; nl; "- Proto=6&DstPort=443"; nl; "- SrcK8S_Name=pod-a|SrcK8S_Name=pod-b"].

Definition flowQueryProperties : list (string * Schema) :=
  [("namespace", mkSchema "string" "Restrict results to flows where source or destination namespace matches (dev-scoped Loki tenant)." None);
   ("timeRange", mkSchema "integer" "Lookback window in seconds when startTime is omitted. Default 300." None);
   ("startTime", mkSchema "integer" "Start of time range as Unix epoch seconds. Overrides timeRange when set." None);
   ("endTime", mkSchema "integer" "End of time range as Unix epoch seconds. Defaults to now." None);
   ("limit", mkSchema "integer" "Maximum number of flow records to return. Default 100." None);
   ("recordType", mkSchema "string" "Flow record type filter." None);
   ("packetLoss", mkSchema "string" "Packet loss filter." None);
   ("filters", mkSchema "string" filtersParameterDescription None)].

Definition list_flows_tool : Tool :=
  mkTool (ToolsetName +:+ "_list_flows")
    "Lists NetObserv network flow records from Loki. Use when investigating traffic between workloads, IPs, ports, or protocols in a namespace or time window."
    (readOnlyAnnotations "List NetObserv Flow Records") [] (toolInputSchema flowQueryProperties) None.

Definition get_flow_metrics_tool : Tool :=
  mkTool (ToolsetName +:+ "_get_flow_metrics")
    "Returns aggregated NetObserv flow metrics as topology or time-series data. Use for throughput, TLS/DNS/drop breakdowns, and namespace or workload traffic analysis; see aggregateBy and groups for grouping options."
    (readOnlyAnnotations "Get NetObserv Flow Metrics") [] (toolInputSchema (flowQueryProperties ++
  [("dataSource", mkSchema "string" "Metrics backend: auto (prefer Prometheus, fallback to Loki), prom, or loki." None);
   ("type", mkSchema "string" "Metric type to aggregate." None);
   ("function", mkSchema "string" "Aggregation function." None);
   ("aggregateBy", mkSchema "string" aggregateByParameterDescription None);
   ("groups", mkSchema "string" groupsParameterDescription None);
   ("rateInterval", mkSchema "string" "Prometheus rate interval (e.g. 1m, 5m)." None);
   ("step", mkSchema "string" "Query resolution step (e.g. 30s, 1m)." None)])) None.

Definition export_flows_tool : Tool :=
  mkTool (ToolsetName +:+ "_export_flows")
    "Exports NetObserv flow records as CSV with the same filters as list_flows. Use when the user needs downloadable flow data for audits or offline analysis."
    (readOnlyAnnotations "Export NetObserv Flows as CSV") [] (toolInputSchema (flowQueryProperties ++
  [("format", mkSchema "string" "Export format. Only csv is supported." None);
   ("columns", mkSchema "string" (fmt ["Optional comma-separated column names to include (e.g. SrcK8S_Namespace,DstK8S_Namespace,Bytes). "; "Omit to export all columns present in the result."]) None)])) None.

Section Config.
Context `{NetUrl} (os_Stat : string -> option error).

Definition validate (isOpenShift : bool) (c : option NetObservConfig) : option error :=
  match c with
  | None => Some (ErrNew "netobserv config is nil")
  | Some c =>
      match url_Parse (ResolvedURL (Some c) isOpenShift) with
      | Err _ => Some (ErrNew "url must be a valid URL")
      | Ok u =>
          if (nu_Scheme u =?s "") || (nu_Host u =?s "") then Some (ErrNew "url must be a valid URL")
          else if EqualFold (nu_Scheme u) "https" && negb (nc_Insecure c) && (TrimSpace (nc_CertificateAuthority c) =?s "") then
            Some (ErrNew "certificate_authority is required for https when insecure is false")
          else
            let caValue := TrimSpace (nc_CertificateAuthority c) in
            if caValue ≠?s "" then
              match os_Stat caValue with
              | Some err => Some (wrapf "certificate_authority must be a valid file path: " err)
              | None => None
              end
            else None
      end
  end.
Definition Validate : option NetObservConfig -> option error := validate false.

Context (filepath_IsAbs : string -> bool) (filepath_Join : string -> string -> string).
(** [decoded]: the outcome of [md.PrimitiveDecode]. *)
Definition netobservToolsetParser (ctx : parse_ctx) (decoded : result NetObservConfig) : result NetObservConfig :=
  match decoded with
  | Err err => Err err
  | Ok cfg =>
      let cfg :=
        if nc_CertificateAuthority cfg ≠?s "" then
          if (px_ConfigDirPath ctx ≠?s "") && negb (filepath_IsAbs (nc_CertificateAuthority cfg)) then
            with_CertificateAuthority (filepath_Join (px_ConfigDirPath ctx) (nc_CertificateAuthority cfg)) cfg
          else cfg
        else cfg in
      let tls :=
        if px_RequireTLS ctx then
          match ValidateURLRequiresTLS parse_URL (ResolvedURL (Some cfg) false) "NetObserv URL" with
          | Some err => Some err
          | None =>
              if nc_Insecure cfg then
                Some (ErrNew "require_tls is enabled but NetObserv insecure=true disables certificate verification")
              else None
          end
        else None in
      match tls with
      | Some err => Err err
      | None =>
          let cfg := applyDefaultsWithStat false os_Stat cfg in
          match validate false (Some cfg) with Some err => Err err | None => Ok cfg end
      end
  end.
End Config.

(** ** query.go *)

Section Query.
Context (ovf : spec_float -> Z) (FormatFloat : spec_float -> string) (Sprint : jvalue -> string).

Definition defaultTimeRangeSeconds : Z := 300.
(** [float64(z)] and the equality of floats. *)
Definition f64_of_int64 (z : Z) : spec_float := binary_normalize 53 1024 z 0 false.
Definition int64Arg (value : option jvalue) : option Z :=
  match value with
  | Some (JInt v) => Some v
  | Some (JInt64 v) => Some v
  | Some (JFloat64 v) => if SFeqb v (f64_of_int64 (f64_to_int64 ovf v)) then Some (f64_to_int64 ovf v) else None
  | Some (JString v) => if v =?s "" then None else Atoi v
  | _ => None
  end.
Definition stringArg (value : jvalue) : string :=
  match value with
  | JString v => v
  | JBool v => if v then "true" else "false"
  | JFloat64 v => if SFeqb v (f64_of_int64 (f64_to_int64 ovf v)) then itoa (f64_to_int64 ovf v) else FormatFloat v
  | JInt v => itoa v
  | JInt64 v => itoa v
  | v => Sprint v
  end.

Context {W : Type} (time_Now : ST W Z).
(** [None] is the nil map. *)
Definition PrepareQueryArguments (args : option arguments) : ST W arguments := fun w =>
  match args with
  | None =>
      let '(end_, w) := time_Now w in
      let '(now, w) := time_Now w in
      ({[ "endTime" := JInt64 end_; "startTime" := JInt64 (wrap64 (now - defaultTimeRangeSeconds)) ]}, w)
  | Some args =>
      let prepared := delete "timeRange" args in
      let startTime := int64Arg (prepared !! "startTime") in
      let endTime := int64Arg (prepared !! "endTime") in
      let timeRange := int64Arg (args !! "timeRange") in
      let '(now, w) := time_Now w in
      let lookback := match timeRange with Some t => t | None => defaultTimeRangeSeconds end in
      (match startTime, endTime with
       | Some s, Some e => <["endTime" := JInt64 e]> (<["startTime" := JInt64 s]> prepared)
       | Some s, None => <["endTime" := JInt64 now]> (<["startTime" := JInt64 s]> prepared)
       | None, Some e => <["startTime" := JInt64 (wrap64 (e - lookback))]> (<["endTime" := JInt64 e]> prepared)
       | None, None => <["startTime" := JInt64 (wrap64 (now - lookback))]> (<["endTime" := JInt64 now]> prepared)
       end, w)
  end.
Definition ArgumentsToValues (args : arguments) : Values :=
  omap (fun value =>
    match value with
    | JNull => None
    | value => let s := stringArg value in if s ≠?s "" then Some s else None
    end) args.

(** ** netobserv.go *)

Context `{NetUrl} (Getenv : string -> string).

Record NetObserv := mkNetObserv {
  no_bearerToken : string;
  no_bearerTokenFile : string;
  no_pluginURL : string;
  no_insecure : bool;
  no_certificateAuthority : string;
  no_tlsMinVersion : string;
  no_tlsCipherSuites : list string;
  no_requireTLS : option (W -> bool);
}.

(** The value that [GetToolsetConfig] gives: of this type, and then maybe nil, or not. *)
Inductive toolset_config : Type := TcNetObserv (c : option NetObservConfig) | TcOther.
(** What a call has of its server: the configuration and that of the toolset, the REST
    configuration of the client for Kubernetes, and the provider of the clusters. *)
Context (os_Stat : W -> string -> option error).
Definition isOpenShiftFromProvider (provider : option (list GroupVersionKind -> ST W bool)) : ST W bool := fun w =>
  match provider with None => (false, w) | Some AnyTargetHasGVKs => AnyTargetHasGVKs openshiftProjectGVKs w end.
Definition NewNetObserv (configProvider : StaticConfig) (toolset : option toolset_config) (k8s : option (option rest_config))
    (provider : option (list GroupVersionKind -> ST W bool)) : ST W NetObserv := fun w =>
  let restConfig := match k8s with Some rc => rc | None => None end in
  let token := match restConfig with Some rc => TrimSpace (rc_BearerToken rc) | None => "" end in
  let tokenFile := match restConfig with Some rc => TrimSpace (rc_BearerTokenFile rc) | None => "" end in
  let resolved :=
    match toolset with Some (TcNetObserv (Some parsed)) => parsed | _ => mkNetObservConfig "" "" "" 0 false "" end in
  let '(isOpenShift, w) := isOpenShiftFromProvider provider w in
  let resolved := applyDefaultsWithStat isOpenShift (os_Stat w) resolved in
  (mkNetObserv token tokenFile (ResolvedURL (Some resolved) isOpenShift) (nc_Insecure resolved)
     (nc_CertificateAuthority resolved) (GetTLSMinVersionConfig Getenv configProvider)
     (GetTLSCipherSuitesConfig Getenv configProvider) (Some (fun _ => c_RequireTLS configProvider)), w).

Definition validateAndGetURL (n : NetObserv) (endpoint : string) : result string :=
  joined_url "netobserv" "plugin" (no_pluginURL n) endpoint.

Context (tlsCipherSuiteMap : gmap string Z) (os_ReadFile : string -> W -> result string).
(** The pool of the certificates of a text. *)
Context (AppendCertsFromPEM : string -> option string).

Definition errRedirectsNotAllowed : error := ErrNew "redirects are not allowed for netobserv API requests".
Definition createHTTPClient (n : NetObserv) (w : W) : result (http_client W) :=
  let insecure := if no_insecure n then [WithInsecureSkipVerify true] else [] in
  let caValue := TrimSpace (no_certificateAuthority n) in
  let roots :=
    if caValue ≠?s "" then
      match os_ReadFile caValue w with
      | Err err => Err (wrapf (fmt ["failed to read certificate authority "; quote caValue; ": "]) err)
      | Ok caPEM =>
          match AppendCertsFromPEM caPEM with
          | None => Err (ErrNew (fmt ["failed to parse certificate authority "; quote caValue]))
          | Some certPool => Ok [WithRootCAs (Some certPool)]
          end
      end
    else Ok [] in
  match roots with
  | Err err => Err err
  | Ok roots =>
      match BuildTLSConfig tlsCipherSuiteMap (no_tlsMinVersion n) (no_tlsCipherSuites n) (insecure ++ roots) with
      | Err err => Err (wrapf "failed to build TLS config: " err)
      | Ok tlsConfig => Ok (mkHttpClient tlsConfig (no_requireTLS n) (Some errRedirectsNotAllowed))
      end
  end.
Definition authorizationHeader (n : NetObserv) (w : W) : string :=
  let token := TrimSpace (no_bearerToken n) in
  if (token =?s "") && (no_bearerTokenFile n ≠?s "") then
    match os_ReadFile (no_bearerTokenFile n) w with
    | Err _ => ""
    | Ok data => bearer_header data
    end
  else bearer_header token.

Definition maxJSONResponseBodySize : Z := 4 * 2 ^ 20.
Record GetResponse := mkGetResponse { gr_Body : string; gr_Truncated : bool }.

Context (RoundTrip : TLSConfig -> http_request -> ST W (result http_reply)).
Context (redirect : http_request -> http_reply -> option (result http_request)).
Context (url_Error : http_request -> error -> error) (canceled : error -> bool).

Definition read_reply (maxBodySize : Z) (truncate : bool) (resp : http_reply) : result GetResponse :=
  match read_limited maxBodySize (hy_Body resp) with
  | Err err => Err (wrapf "failed to read response body: " err)
  | Ok respBody =>
      let long := (maxBodySize <? Z.of_nat (slen respBody))%Z in
      if long && negb truncate then
        Err (ErrNew (fmt ["netobserv API response exceeded maximum allowed size of "; itoa maxBodySize; " bytes"]))
      else
        let respBody := if long then take_str (Z.to_nat maxBodySize) respBody else respBody in
        if (hy_StatusCode resp <? 200)%Z || (300 <=? hy_StatusCode resp)%Z then
          Err (ErrNew (if respBody ≠?s ""
            then fmt ["netobserv API error (status "; itoa (hy_StatusCode resp); "): "; TrimSpace respBody]
            else fmt ["netobserv API error: status "; itoa (hy_StatusCode resp)]))
        else Ok (mkGetResponse respBody long)
  end.
(** The request of a URL with its query and headers. *)
Definition get_request (n : NetObserv) (u : net_url) (accept : string) (w : W) : http_request :=
  let authHeader := authorizationHeader n w in
  let h := if authHeader ≠?s "" then Header_Set "Authorization" authHeader ∅ else ∅ in
  let h := if accept ≠?s "" then Header_Set "Accept" accept h else h in
  mkRequest "GET" u (Header_Set "X-Kubernetes-MCP-Server" "true" h) "".
Definition executeGetAbsolute (n : NetObserv) (requestURL : string) (args : option arguments) (accept : string)
    (maxBodySize : Z) (truncate : bool) : ST W (result GetResponse) := fun w =>
  match url_Parse requestURL with
  | Err err => (Err (wrapf "failed to parse request URL: " err), w)
  | Ok u =>
      let '(prepared, w) := PrepareQueryArguments args w in
      let u := with_query (Encode (ArgumentsToValues prepared)) (nu_Fragment u) u in
      match url_Parse (url_String u) with   (* [http.NewRequestWithContext] *)
      | Err err => (Err err, w)
      | Ok target =>
          let req := get_request n target accept w in
          match createHTTPClient n w with
          | Err err => (Err err, w)
          | Ok client =>
              match http_client_Do RoundTrip redirect url_Error client req w with
              | (Err err, w) =>
                  (Err (if canceled err
                        then wrapf (fmt ["netobserv API call canceled or timed out waiting for "; url_Redacted u; ": "]) err
                        else wrapf (fmt ["netobserv API call to "; url_Redacted u; " failed: "]) err), w)
              | (Ok resp, w) => (read_reply maxBodySize truncate resp, w)
              end
          end
      end
  end.
Definition executeGet (n : NetObserv) (endpoint : string) (args : option arguments) (accept : string)
    (maxBodySize : Z) (truncate : bool) : ST W (result GetResponse) := fun w =>
  match validateAndGetURL n endpoint with
  | Err err => (Err err, w)
  | Ok requestURL => executeGetAbsolute n requestURL args accept maxBodySize truncate w
  end.
Definition ExecuteGet (n : NetObserv) (endpoint : string) (args : option arguments) : ST W (result string) := fun w =>
  let '(r, w) := executeGet n endpoint args "application/json" maxJSONResponseBodySize false w in
  (match r with Err err => Err err | Ok response => Ok (gr_Body response) end, w).
Definition ExecuteGetAccept (n : NetObserv) (endpoint : string) (args : option arguments) (accept : string)
    (maxBodySize : Z) : ST W (result GetResponse) :=
  executeGet n endpoint args accept maxBodySize true.

(** ** The handlers *)

(** What a call has of the server. *)
Record call_context := mkCallContext {
  cc_BaseConfig : StaticConfig;
  cc_ToolsetConfig : option toolset_config;
  cc_KubernetesClient : option (option rest_config);
  cc_FilteringProvider : option (list GroupVersionKind -> ST W bool);
}.
Context (Unmarshal : string -> result (option any_value)) (Marshal : any_value -> option string).

Definition wrapAPIError (operation : string) (err : error) : error :=
  wrapf (fmt ["failed to "; operation; ": "]) err.
Definition jsonAPIResult (content : result string) : ToolCallResult :=
  match content with
  | Err err => NewToolCallResult "" (Some err)
  | Ok content =>
      match Unmarshal content with
      | Err _ => NewToolCallResult content None
      | Ok structured => NewToolCallResultStructured Marshal structured None
      end
  end.
Definition textAPIResult (content : result string) : ToolCallResult :=
  match content with
  | Err err => NewToolCallResult "" (Some err)
  | Ok content => NewToolCallResult content None
  end.
Definition client_of (cc : call_context) : ST W NetObserv :=
  NewNetObserv (cc_BaseConfig cc) (cc_ToolsetConfig cc) (cc_KubernetesClient cc) (cc_FilteringProvider cc).
Definition json_handler (endpoint operation : string) (cc : call_context) (args : option arguments) :
    ST W ToolCallResult := fun w =>
  let '(client, w) := client_of cc w in
  let '(content, w) := ExecuteGet client endpoint args w in
  (jsonAPIResult (match content with Err err => Err (wrapAPIError operation err) | Ok s => Ok s end), w).
Definition listFlowsHandler : call_context -> option arguments -> ST W ToolCallResult :=
  json_handler NetObservFlowsEndpoint "list flow records".
Definition getFlowMetricsHandler : call_context -> option arguments -> ST W ToolCallResult :=
  json_handler NetObservFlowMetricsEndpoint "get flow metrics".
Definition exportFlowsHandler (cc : call_context) (args : option arguments) : ST W ToolCallResult := fun w =>
  let args := default ∅ args in
  let args := match args !! "format" with None => <["format" := JString DefaultExportFormat]> args | Some _ => args end in
  let '(client, w) := client_of cc w in
  let '(response, w) :=
    ExecuteGetAccept client NetObservExportFlowsEndpoint (Some args) "text/csv,*/*" DefaultExportMaxBodyBytes w in
  (textAPIResult
     (match response with
      | Err err => Err (wrapAPIError "export flows" err)
      | Ok response =>
          Ok (if gr_Truncated response
              then gr_Body response +:+ nl +:+ nl +:+ "[truncated: export exceeded maximum response size]"
              else gr_Body response)
      end), w).

Definition GetTools : list (client_tool W call_context) :=
  [mkClientTool list_flows_tool None listFlowsHandler;
   mkClientTool get_flow_metrics_tool None getFlowMetricsHandler;
   mkClientTool export_flows_tool None exportFlowsHandler].
End Query.

(** * Properties *)

(** ** The configuration *)

Section ConfigSpec.
Context `{NetUrl} (os_Stat : string -> option error).
Context (filepath_IsAbs : string -> bool) (filepath_Join : string -> string -> string).

(** With require_tls, a configuration of the toolset that is accepted has a secure URL and
    verifies the certificate of the plugin, by a file that is there when it is https. *)
Theorem require_tls_verified ctx decoded cfg :
  px_RequireTLS ctx = true ->
  netobservToolsetParser os_Stat filepath_IsAbs filepath_Join ctx decoded = Ok cfg ->
  nc_Insecure cfg = false /\
  exists u, url_Parse (ResolvedURL (Some cfg) false) = Ok u /\ nu_Host u <> "" /\ secure_scheme (nu_Scheme u) /\
    (nu_Scheme u = "https" ->
     TrimSpace (nc_CertificateAuthority cfg) <> "" /\ os_Stat (TrimSpace (nc_CertificateAuthority cfg)) = None).
Proof.
  intros Htls. unfold netobservToolsetParser. destruct decoded as [c|err]; [|done]. rewrite Htls. cbv zeta.
  set (c' := if nc_CertificateAuthority c ≠?s "" then _ else c). clearbody c'. clear c.
  unfold ValidateURLRequiresTLS, parse_URL, applyDefaultsWithStat. cbn [negb]. rewrite orb_true_r.
  destruct (ResolvedURL (Some c') false =?s "") eqn:He.
  { apply bool_decide_eq_true in He. exfalso. revert He. unfold ResolvedURL.
    destruct (TrimSpace (nc_Url c') =?s "") eqn:Hu; cbn [negb]; [|intros Hz; rewrite Hz in Hu; done].
    unfold BuildPluginURL. cbn. done. }
  destruct (url_Parse (ResolvedURL (Some c') false)) as [u|] eqn:Hu; [|done]. cbn [u_Scheme].
  destruct (isSecureHTTPScheme (nu_Scheme u)) eqn:Hs; [|done]. cbn [negb].
  destruct (nc_Insecure c') eqn:Hi; [done|]. destruct (validate os_Stat false (Some c')) eqn:Hv; [done|].
  intros [= <-]. split; [done|]. exists u. unfold validate in Hv. rewrite Hu in Hv.
  destruct (nu_Scheme u =?s "") eqn:H1; [done|]. destruct (nu_Host u =?s "") eqn:H2; [done|].
  apply bool_decide_eq_false in H2. cbn [orb] in Hv. rewrite Hi in Hv. cbn [negb] in Hv. rewrite andb_true_r in Hv.
  split_and!; [done|done| |].
  - unfold isSecureHTTPScheme, secure_scheme in *. by rewrite orb_true_iff, !bool_decide_eq_true in Hs.
  - intros E. rewrite E in Hv. change (EqualFold "https" "https") with true in Hv. cbn [andb] in Hv.
    destruct (bool_decide_reflect (TrimSpace (nc_CertificateAuthority c') = "")) as [E'|E']; [done|]. cbn in Hv.
    split; [done|]. by destruct (os_Stat _).
Qed.
End ConfigSpec.

(** ** The requests *)

Section Requests.
Context (ovf : spec_float -> Z) (FormatFloat : spec_float -> string) (Sprint : jvalue -> string).
Context {W : Type} (time_Now : ST W Z) `{NetUrlLaws} (Getenv : string -> string).
Context (os_Stat : W -> string -> option error).
Context (tlsCipherSuiteMap : gmap string Z) (os_ReadFile : string -> W -> result string).
Context (AppendCertsFromPEM : string -> option string).
Context (RoundTrip : TLSConfig -> http_request -> ST W (result http_reply)).
Context (redirect : http_request -> http_reply -> option (result http_request)).
Context (url_Error : http_request -> error -> error) (canceled : error -> bool).
Context (Unmarshal : string -> result (option any_value)) (Marshal : any_value -> option string).

(** The window of a query is the one that is given, or ends at the end that is given or
    now and looks back by the range that is given or five minutes; the range itself is not
    sent, and all other arguments stay. *)
Theorem query_window args w :
  let '(p, w') := PrepareQueryArguments ovf time_Now (Some args) w in
  let now := (time_Now w).1 in
  exists s e,
    p !! "startTime" = Some (JInt64 s) /\ p !! "endTime" = Some (JInt64 e) /\ p !! "timeRange" = None /\
    e = default now (int64Arg ovf (args !! "endTime")) /\
    s = default (wrap64 (e - default 300 (int64Arg ovf (args !! "timeRange"))))%Z (int64Arg ovf (args !! "startTime")) /\
    (forall k, k <> "startTime" -> k <> "endTime" -> k <> "timeRange" -> p !! k = args !! k) /\
    w' = (time_Now w).2.
Proof.
  unfold PrepareQueryArguments. cbv zeta. rewrite !lookup_delete_ne by done.
  destruct (time_Now w) as [now w']. cbn [fst snd].
  destruct (int64Arg ovf (args !! "startTime")) as [s|], (int64Arg ovf (args !! "endTime")) as [e|]; do 2 eexists.
  all: split_and!; [by simplify_map_eq|by simplify_map_eq|by simplify_map_eq|done|
    by destruct (int64Arg ovf (args !! "timeRange"))| |done].
  all: intros k H1 H2 H3; by rewrite !lookup_insert_ne, lookup_delete_ne by done.
Qed.

(** What holds of the request that the client [n], of a plugin at [b], makes for the
    arguments [args] in [w], and of the client of net/http that makes it. *)
Record plugin_call (n : NetObserv (W := W)) (b : net_url) (args : option arguments) (w : W)
    (client : http_client W) (req : http_request) : Prop := {
  pc_method : hr_Method req = "GET" /\ hr_Body req = "";
  pc_target : nu_Scheme (hr_URL req) = nu_Scheme b /\ nu_Host (hr_URL req) = nu_Host b;
  pc_query : exists pairs, ParseQuery (nu_RawQuery (hr_URL req)) = Some pairs /\ NoDup pairs.*1 /\
    list_to_map pairs = ArgumentsToValues ovf FormatFloat Sprint (PrepareQueryArguments ovf time_Now args w).1;
  pc_token : Header_Get (hr_Header req) "Authorization" =
    authorizationHeader os_ReadFile n (PrepareQueryArguments ovf time_Now args w).2;
  pc_enforced : hc_RequireTLS client = no_requireTLS n;
  pc_verified : tls_InsecureSkipVerify (hc_TLS client) = no_insecure n;
  pc_roots : TrimSpace (no_certificateAuthority n) <> "" ->
    exists pem pool, os_ReadFile (TrimSpace (no_certificateAuthority n)) (PrepareQueryArguments ovf time_Now args w).2 = Ok pem /\
      AppendCertsFromPEM pem = Some pool /\ tls_RootCAs (hc_TLS client) = Some pool;
}.

Abbreviation createHTTPClient' := (createHTTPClient tlsCipherSuiteMap os_ReadFile AppendCertsFromPEM).
Abbreviation executeGet' :=
  (executeGet ovf FormatFloat Sprint time_Now tlsCipherSuiteMap os_ReadFile AppendCertsFromPEM RoundTrip redirect url_Error canceled).

Lemma createHTTPClient_Ok n w c :
  createHTTPClient' n w = Ok c ->
  hc_RequireTLS c = no_requireTLS n /\ hc_CheckRedirect c = Some errRedirectsNotAllowed /\
  tls_InsecureSkipVerify (hc_TLS c) = no_insecure n /\
  (TrimSpace (no_certificateAuthority n) <> "" ->
   exists pem pool, os_ReadFile (TrimSpace (no_certificateAuthority n)) w = Ok pem /\
     AppendCertsFromPEM pem = Some pool /\ tls_RootCAs (hc_TLS c) = Some pool).
Proof.
  unfold createHTTPClient, BuildTLSConfig. cbv zeta.
  destruct (bool_decide_reflect (TrimSpace (no_certificateAuthority n) = "")) as [He|He]; cbn [negb].
  2: destruct (os_ReadFile _ w) as [pem|] eqn:Hr; [|done]; destruct (AppendCertsFromPEM pem) as [pool|] eqn:Hp; [|done].
  all: destruct (ParseTLSVersion _) as [v|]; [|done]; destruct (ParseTLSCipherSuites _ _) as [cs|]; [|done].
  all: intros [= <-]; split_and!; [done..| |]; [by destruct (no_insecure n)|].
  - done.
  - intros _. exists pem, pool. by destruct (no_insecure n).
Qed.

Lemma get_request_token n u accept w :
  Header_Get (hr_Header (get_request os_ReadFile n u accept w)) "Authorization" = authorizationHeader os_ReadFile n w.
Proof.
  unfold get_request. cbn [hr_Header]. unfold Header_Get, Header_Set. rewrite lookup_insert_ne by done.
  destruct (bool_decide_reflect (authorizationHeader os_ReadFile n w = "")) as [->|Hne], (accept ≠?s ""); cbn [negb].
  all: by simplify_map_eq.
Qed.

Lemma executeGet_cases n b endpoint args accept max truncate w :
  url_Parse (TrimSpace (no_pluginURL n)) = Ok b -> nu_Scheme b <> "" -> nu_Host b <> "" ->
  no_char "?" (TrimSpace endpoint) -> no_char "#" (TrimSpace endpoint) ->
  let '(r, w') := executeGet' n endpoint args accept max truncate w in
  let w1 := (PrepareQueryArguments ovf time_Now args w).2 in
  (is_ok r = false /\ (w' = w \/ w' = w1)) \/
  exists client req reply,
    plugin_call n b args w client req /\ client_RoundTrip RoundTrip client req w1 = (reply, w') /\
    (forall a, r = Ok a -> exists resp, reply = Ok resp /\ redirect req resp = None /\ read_reply max truncate resp = Ok a).
Proof.
  intros Hb Hs Hh Hq Hf. unfold executeGet, validateAndGetURL.
  destruct (joined_url _ _ _ _) as [url|] eqn:Hj; [|left; by split; [|left]].
  unfold executeGetAbsolute. destruct (url_Parse url) as [u|] eqn:Hu; [|left; by split; [|left]].
  destruct (joined_url_same _ _ _ _ _ _ _ Hb Hs Hh Hq Hf Hj Hu) as [E1 E2].
  destruct (PrepareQueryArguments ovf time_Now args w) as [prepared w1] eqn:Hp. cbv zeta. cbn [snd].
  destruct (url_Parse (url_String _)) as [target|] eqn:Ht; [|left; by split; [|right]].
  apply (parse_string _ _ _ _ _ Hu) in Ht as (T1 & T2 & _ & T4); [|by rewrite E1|by rewrite E2|right; apply Encode_chars|by left].
  destruct (createHTTPClient' n w1) as [client|] eqn:Hc; [|left; by split; [|right]].
  apply createHTTPClient_Ok in Hc as (C1 & C2 & C3 & C4).
  unfold http_client_Do. rewrite (http_Do_once _ _ _ 9 client _ _ w1 C2).
  destruct (client_RoundTrip RoundTrip client (get_request os_ReadFile n target accept w1) w1) as [reply w'] eqn:Hr.
  enough (plugin_call n b args w client (get_request os_ReadFile n target accept w1)) as Hcall.
  { destruct reply as [resp|]; [destruct (redirect _ resp) as [[|]|] eqn:Hred|].
    all: right; eexists _, _, _; split; [exact Hcall|]; split; [exact Hr|]; intros x Hx; first [done|by exists resp]. }
  split; rewrite ?Hp; cbn [fst snd]; try done.
  - cbn. by rewrite T1, T2, E1, E2.
  - cbn. rewrite T4. apply query_roundtrip.
  - apply get_request_token.
Qed.

Lemma read_reply_Ok max truncate resp a :
  read_reply max truncate resp = Ok a -> (200 <= hy_StatusCode resp < 300)%Z.
Proof.
  unfold read_reply. destruct (read_limited _ _); [|done]. cbv zeta. destruct (_ && negb truncate); [done|].
  destruct (Z.ltb_spec (hy_StatusCode resp) 200), (Z.leb_spec 300 (hy_StatusCode resp)); cbn [orb]; done.
Qed.

Abbreviation GetTools' :=
  (GetTools ovf FormatFloat Sprint time_Now Getenv os_Stat tlsCipherSuiteMap os_ReadFile AppendCertsFromPEM
     RoundTrip redirect url_Error canceled Unmarshal Marshal).

(** What a call does: nothing but asking the clock, and then it fails, or the one request. *)
Definition asks_once (n : NetObserv (W := W)) (b : net_url) (args : option arguments) (w : W) (failed : Prop) (w' : W) : Prop :=
  let w1 := (PrepareQueryArguments ovf time_Now args w).2 in
  failed /\ (w' = w \/ w' = w1) \/
  exists client req reply,
    plugin_call n b args w client req /\ client_RoundTrip RoundTrip client req w1 = (reply, w') /\
    (failed \/ exists resp, reply = Ok resp /\ redirect req resp = None /\ (200 <= hy_StatusCode resp < 300)%Z).

Lemma executeGet_once n b endpoint args accept max truncate w :
  url_Parse (TrimSpace (no_pluginURL n)) = Ok b -> nu_Scheme b <> "" -> nu_Host b <> "" ->
  no_char "?" (TrimSpace endpoint) -> no_char "#" (TrimSpace endpoint) ->
  let '(r, w') := executeGet' n endpoint args accept max truncate w in asks_once n b args w (is_ok r = false) w'.
Proof.
  intros Hb Hs Hh Hq Hf. pose proof (executeGet_cases n b endpoint args accept max truncate w Hb Hs Hh Hq Hf) as H'.
  destruct (executeGet' n endpoint args accept max truncate w) as [r w'].
  destruct H' as [?|(client & req & reply & H1 & H2 & H3)]; [by left|right]. exists client, req, reply.
  split_and!; [done..|]. destruct r as [a|]; [|by left]. right. destruct (H3 a eq_refl) as (resp & ? & ? & Hr%read_reply_Ok).
  by exists resp.
Qed.
Lemma asks_once_mono n b args w (P Q : Prop) w' : (P -> Q) -> asks_once n b args w P w' -> asks_once n b args w Q w'.
Proof.
  intros HPQ [[? ?]|(client & req & reply & ? & ? & [?|?])]; [left; auto|right; exists client, req, reply; auto..].
Qed.

End Requests.

(** * Witnesses: a plugin that answers every request with its query *)

Module NetObservWitness.
(** The world counts the requests. *)
Definition plugin (tls : TLSConfig) (req : http_request) : ST nat (result http_reply) := fun w =>
  (Ok (mkReply 200 (nu_RawQuery (hr_URL req), None)), S w).
Definition config : NetObservConfig := mkNetObservConfig "https://plugin" "" "" 0 false "/ca.crt".
Definition context : call_context (W := nat) :=
  mkCallContext BaseDefault (Some (TcNetObserv (Some config)))
    (Some (Some (mkRestConfig "s3cret" "" "" "" false))) None.
Definition args : arguments := {[ "filters" := JString "a=b&c"; "endTime" := JInt64 1000 ]}.
Definition Tools : list (client_tool nat (call_context (W := nat))) :=
  GetTools (fun _ => 0%Z) (fun _ => "") (fun _ => "") (fun w => (5000%Z, w)) (fun _ => "") (fun _ _ => None) ∅
    (fun _ _ => Ok "pem") Some plugin (fun _ _ => None) (fun _ err => err) (fun _ => false)
    (fun _ => Err (ErrNew "no JSON")) (fun _ => None).
End NetObservWitness.

Example flows_listed :
  match NetObservWitness.Tools with
  | t :: _ => (let '(r, w) := kt_Handler t NetObservWitness.context (Some NetObservWitness.args) 0 in (tcr_Content r, tcr_Error r, w)) =
      ("endTime=1000&filters=a%3Db%26c&startTime=700", None, 1)
  | [] => False
  end.
Proof. vm_compute. reflexivity. Qed.


Lemma require_tls_verified_witness :
  exists cfg,
    netobservToolsetParser (fun _ => None) (fun _ => true) (fun a b => a +:+ b) (mkParseCtx "" true) (Ok NetObservWitness.config) =
      Ok cfg /\ nc_Insecure cfg = false.
Proof.
  exists NetObservWitness.config.
  assert (netobservToolsetParser (fun _ => None) (fun _ => true) (fun a b => a +:+ b) (mkParseCtx "" true)
    (Ok NetObservWitness.config) = Ok NetObservWitness.config) as H by reflexivity.
  split; [exact H|]. exact (proj1 (require_tls_verified _ _ _ (mkParseCtx "" true) _ _ eq_refl H)).
Defined.

(** Without a file for the authorities the client on OpenShift verifies certificates by
    those of the system: it is not insecure by default. *)
Example insecure_not_defaulted :
  nc_Insecure (applyDefaultsWithStat true (fun _ => Some (ErrNew "no such file")) (mkNetObservConfig "" "" "" 0 false "")) = false.
Proof. reflexivity. Qed.
