(* ===== verification/Kiali.v ===== *)
(** pkg/kiali and the tools of pkg/toolsets/kiali: the client of Kiali, its configuration
    and the tools that forward their arguments to it.  The files, the transport and the
    codecs are parameters; the log lines are left out. *)
From S2P Require Import Prelude GoStrings Api Prometheus Params TlsUtil Toolsets Config ConfigRead Http Tools HttpClients.

(** * Definitions *)

Record KialiConfig := mkKialiConfig { kc_Url : string; kc_Insecure : bool; kc_CertificateAuthority : string }.

(** ** config.go *)

Section Config.
Context `{NetUrl} (os_Stat : string -> option error).

(** [None] is the nil pointer. *)
Definition Validate (c : option KialiConfig) : option error :=
  match c with
  | None => Some (ErrNew "kiali config is nil")
  | Some c =>
      if kc_Url c =?s "" then Some (ErrNew "url is required")
      else
        match url_Parse (kc_Url c) with
        | Err _ => Some (ErrNew "url must be a valid URL")
        | Ok u =>
            if (nu_Scheme u =?s "") || (nu_Host u =?s "") then Some (ErrNew "url must be a valid URL")
            else if EqualFold (nu_Scheme u) "https" && negb (kc_Insecure c) && (TrimSpace (kc_CertificateAuthority c) =?s "")
            then Some (ErrNew "certificate_authority is required for https when insecure is false")
            else
              let caValue := TrimSpace (kc_CertificateAuthority c) in
              if caValue ≠?s "" then
                match os_Stat caValue with
                | Some err => Some (wrapf "certificate_authority must be a valid file path: " err)
                | None => None
                end
              else None
        end
  end.

Context (filepath_IsAbs : string -> bool) (filepath_Join : string -> string -> string).
(** [decoded]: the outcome of [md.PrimitiveDecode]. *)
Definition kialiToolsetParser (ctx : parse_ctx) (decoded : result KialiConfig) : result KialiConfig :=
  match decoded with
  | Err err => Err err
  | Ok cfg =>
      let cfg :=
        if (kc_CertificateAuthority cfg ≠?s "") && (px_ConfigDirPath ctx ≠?s "") &&
           negb (filepath_IsAbs (kc_CertificateAuthority cfg))
        then mkKialiConfig (kc_Url cfg) (kc_Insecure cfg) (filepath_Join (px_ConfigDirPath ctx) (kc_CertificateAuthority cfg))
        else cfg in
      if px_RequireTLS ctx then
        match ValidateURLRequiresTLS parse_URL (kc_Url cfg) "Kiali URL" with
        | Some err => Err err
        | None =>
            if kc_Insecure cfg then
              Err (ErrNew "require_tls is enabled but Kiali insecure=true disables certificate verification")
            else Ok cfg
        end
      else Ok cfg
  end.
End Config.

(** ** The tools *)

(** The name that the distribution gives the toolset (defaults_override.go). *)
Definition ToolsetName : string := "ossm".
Definition ToolsetDescription : string :=
  "Most common tools for managing OSSM, check the [OSSM documentation](https://github.com/openshift/openshift-mcp-server/blob/main/docs/OSSM.md) for more details.".
Definition meshClusterDescription : string :=
  fmt ["Optional Istio mesh cluster name from "; ToolsetName; "_list_mesh_clusters (e.g. west). ";
       "When omitted, Kiali defaults to its home cluster."].

Definition KialiMCPPath : string := "/api/chat/mcp".
Definition KialiGetMeshTrafficGraphEndpoint : string := KialiMCPPath +:+ "/get_mesh_traffic_graph".
Definition KialiGetMeshStatusEndpoint : string := KialiMCPPath +:+ "/get_mesh_status".
Definition KialiGetMetricsEndpoint : string := KialiMCPPath +:+ "/get_metrics".
Definition KialiListOrGetResourcesEndpoint : string := KialiMCPPath +:+ "/list_or_get_resources".
Definition KialiListTracesEndpoint : string := KialiMCPPath +:+ "/list_traces".
Definition KialiGetTraceDetailsEndpoint : string := KialiMCPPath +:+ "/get_trace_details".
Definition KialiGetLogsEndpoint : string := KialiMCPPath +:+ "/get_logs".
Definition KialiManageIstioConfigEndpoint : string := KialiMCPPath +:+ "/manage_istio_config".
Definition KialiManageIstioConfigReadEndpoint : string := KialiMCPPath +:+ "/manage_istio_config_read".
Definition KialiGetPodPerformanceEndpoint : string := KialiMCPPath +:+ "/get_pod_performance".
Definition KialiListClustersEndpoint : string := KialiMCPPath +:+ "/list_clusters".

Definition get_mesh_traffic_graph_tool : Tool :=
  mkTool (ToolsetName +:+ "_get_mesh_traffic_graph")
    "Returns service-to-service traffic topology, dependencies, and network metrics (throughput, response time, mTLS) for the specified namespaces. Use this to diagnose routing issues, latency, or find upstream/downstream dependencies."
    (mkToolAnnotations "Get Mesh Traffic Graph" (Some true) (Some false) (Some false) (Some true)) []
    (Some (mkSchema "object" "" (Some [
       ("namespaces", mkSchema "string" "Comma-separated list of namespaces to map" None);
       ("graphType", mkSchema "string" "Granularity of the graph. 'app' aggregates by app name, 'versionedApp' separates by versions, 'workload' maps specific pods/deployments. Default: versionedApp." None);
       ("meshCluster", mkSchema "string" meshClusterDescription None)]))) None.

Definition get_mesh_status_tool : Tool :=
  mkTool (ToolsetName +:+ "_get_mesh_status")
    "Retrieves the high-level health, topology, and environment details of the Istio service mesh. Returns multi-cluster control plane status (istiod), data plane namespace health (including ambient mesh status), observability stack health (Prometheus, Grafana...), and component connectivity. Use this tool as the first step to diagnose mesh-wide issues, verify Istio/Kiali versions, or check overall health before drilling into specific workloads."
    (mkToolAnnotations "Get Mesh Status" (Some true) (Some false) (Some false) (Some true)) []
    (Some (mkSchema "object" "" None)) None.

Definition manage_istio_config_read_tool : Tool :=
  mkTool (ToolsetName +:+ "_manage_istio_config_read")
    (fmt ["Read Istio, Gateway API, and Inference API config. 'list' groups by namespace→'group/version/kind'→{valid:[...],invalid:[...]} "; "where valid/invalid arrays contain resource names; omit group/kind to retrieve ALL config types in a single call. "; "Supports Istio (networking.istio.io, security.istio.io), Gateway API (gateway.networking.k8s.io), and Inference API (inference.networking.k8s.io) when installed. "; "'get' returns full YAML. For writes use manage_istio_config."])
    (mkToolAnnotations "Manage Istio, Gateway API, and Inference API Config: List or Get" (Some true) (Some false) (Some true) (Some true)) []
    (Some (mkSchema "object" "" (Some [
       ("action", mkSchema "string" "Action to perform (read-only)" None);
       ("namespace", mkSchema "string" "Namespace containing the Istio object. For 'list', if not provided, returns objects across all namespaces. For 'get', required." None);
       ("group", mkSchema "string" "API group of the Istio object. Required ONLY for 'get' action. For 'list', OMIT group and kind to retrieve ALL config types in a single call. Use 'gateway.networking.k8s.io' for Gateway API resources. Use 'inference.networking.k8s.io' for Inference API resources." None);
       ("version", mkSchema "string" "API version. Use 'v1' for all resource types. Required for 'get' action." None);
       ("kind", mkSchema "string" "Kind of the Istio object. Required ONLY for 'get' action. For 'list', OMIT to return all kinds at once — do NOT call separately for each kind." None);
       ("object", mkSchema "string" "Name of the Istio object. Required for 'get' action." None);
       ("meshCluster", mkSchema "string" meshClusterDescription None);
       ("serviceName", mkSchema "string" "Filter Istio configurations (VirtualServices, DestinationRules, and their referenced Gateways) that affect a specific service. Only applicable for 'list' action" None)]))) None.

Definition manage_istio_config_tool : Tool :=
  mkTool (ToolsetName +:+ "_manage_istio_config")
    "Create, patch, or delete Istio, Gateway API, and Inference API config. Supports Istio resources (networking.istio.io, security.istio.io), Gateway API resources (gateway.networking.k8s.io), and Inference API resources (inference.networking.k8s.io) when installed on the cluster. For list and get (read-only) use manage_istio_config_read."
    (mkToolAnnotations "Manage Istio, Gateway API, and Inference API Config: Create, Patch, Delete" (Some false) (Some true) (Some true) (Some true)) []
    (Some (mkSchema "object" "" (Some [
       ("action", mkSchema "string" "Action to perform (write)" None);
       ("namespace", mkSchema "string" "Namespace containing the Istio object." None);
       ("group", mkSchema "string" "API group of the Istio object. Use 'gateway.networking.k8s.io' for Gateway API resources. Use 'inference.networking.k8s.io' for Inference API resources." None);
       ("version", mkSchema "string" "API version. Use 'v1' for all resource types." None);
       ("kind", mkSchema "string" "Kind of the Istio object (e.g., 'VirtualService', 'DestinationRule')." None);
       ("object", mkSchema "string" "Name of the Istio object." None);
       ("data", mkSchema "string" "JSON or YAML data for the resource. Required for create and patch actions. For create, you can provide partial content (e.g. only spec) and it will be merged onto a valid template with defaults. Arrays (like servers, http, etc.) are REPLACED entirely, so include ALL elements you want." None);
       ("meshCluster", mkSchema "string" meshClusterDescription None)]))) None.

Definition list_mesh_clusters_tool : Tool :=
  mkTool (ToolsetName +:+ "_list_mesh_clusters")
    "Returns the list of Istio mesh clusters that Kiali can access. Each entry includes its name and whether it is the home cluster (where Kiali is deployed). Call this tool before using meshCluster on other Kiali tools when the target cluster is unknown."
    (mkToolAnnotations "List Mesh Clusters" (Some true) (Some false) (Some true) (Some true)) []
    (Some (mkSchema "object" "" None)) None.

Definition get_resource_details_tool : Tool :=
  mkTool (ToolsetName +:+ "_get_resource_details")
    "Fetches a list of resources OR retrieves detailed data for a specific resource. If 'resourceName' is omitted, it returns a list. If 'resourceName' is provided, it returns details for that specific resource."
    (mkToolAnnotations "List or Resource Details" (Some true) (Some false) (Some true) (Some true)) []
    (Some (mkSchema "object" "" (Some [
       ("resourceType", mkSchema "string" "The type of resource to query. Use 'app' for Kiali applications (grouped by the Kubernetes 'app' label). Use 'argoapp' for ArgoCD Application CRDs (requires ArgoCD installed and the Kiali service account must have read permissions on applications.argoproj.io)." None);
       ("namespaces", mkSchema "string" "Comma-separated list of namespaces to query (e.g., 'bookinfo' or 'bookinfo,default'). If not provided, it will query across all accessible namespaces." None);
       ("resourceName", mkSchema "string" "Optional. The specific name of the resource. If left empty, the tool returns a list of all resources of the specified type. If provided, the tool returns deep details for this specific resource." None);
       ("meshCluster", mkSchema "string" meshClusterDescription None)]))) None.

Definition list_traces_tool : Tool :=
  mkTool (ToolsetName +:+ "_list_traces")
    "Lists distributed traces for a service in a namespace. Returns a summary (namespace, service, total_found, avg_duration_ms) and a list of traces with id, duration_ms, spans_count, root_op, slowest_service, has_errors. Use get_trace_details with a trace id to get full hierarchy."
    (mkToolAnnotations "List Traces by Service Name" (Some true) (Some false) (Some true) (Some true)) []
    (Some (mkSchema "object" "" (Some [
       ("namespace", mkSchema "string" "Kubernetes namespace of the service." None);
       ("serviceName", mkSchema "string" "Service name to search traces for (required). Returns multiple traces up to limit." None);
       ("errorOnly", mkSchema "boolean" "If true, only consider traces that contain errors. Default false." None);
       ("meshCluster", mkSchema "string" meshClusterDescription None);
       ("lookbackSeconds", mkSchema "integer" "How far back to search. Default 600 (10m)." None);
       ("limit", mkSchema "integer" "Maximum number of traces to return. Default 10." None)]))) None.

Definition get_trace_details_tool : Tool :=
  mkTool (ToolsetName +:+ "_get_trace_details")
    "Fetches a single distributed trace by trace_id and returns its call hierarchy (service tree with duration, status, and nested calls). Use this after list_traces to drill into a specific trace."
    (mkToolAnnotations "Get Trace Details" (Some true) (Some false) (Some true) (Some true)) []
    (Some (mkSchema "object" "" (Some [
       ("traceId", mkSchema "string" "Trace ID to fetch and summarize. If provided, namespace/service_name are ignored." None)]))) None.

Definition get_pod_performance_tool : Tool :=
  mkTool (ToolsetName +:+ "_get_pod_performance")
    "Returns a human-readable text summary with current Pod CPU/memory usage (from Prometheus) compared to Kubernetes requests/limits (from the Pod spec). Useful to answer questions like 'Is this workload using too much memory?'"
    (mkToolAnnotations "Get Pod Performance" (Some true) (Some false) (Some true) (Some true)) []
    (Some (mkSchema "object" "" (Some [
       ("namespace", mkSchema "string" "Kubernetes namespace of the Pod." None);
       ("podName", mkSchema "string" "Kubernetes Pod name. If workloadName is provided, the tool will attempt to resolve a Pod from that workload first." None);
       ("workloadName", mkSchema "string" "Kubernetes Workload name (e.g. Deployment/StatefulSet/etc). Tool will look up the workload and pick one of its Pods. If not found, it will fall back to treating this value as a podName." None);
       ("timeRange", mkSchema "string" "Time window used to compute CPU rate (Prometheus duration like '5m', '10m', '1h', '1d'). Defaults to '10m'." None);
       ("queryTime", mkSchema "string" "Optional end timestamp (RFC3339) for the query. Defaults to now." None);
       ("meshCluster", mkSchema "string" meshClusterDescription None)]))) None.

Definition get_logs_tool : Tool :=
  mkTool (ToolsetName +:+ "_get_logs")
    "Get the logs of a Kubernetes Pod (or workload name that will be resolved to a pod) in a namespace. Output is plain text, matching kubernetes-mcp-server pods_log. The line_count field tells you the total number of log lines returned. Analyze ALL of them, but summarize the results unless the user explicitly asks for the raw output. Do not omit any error or warning lines."
    (mkToolAnnotations "Workload: Logs" (Some true) (Some false) (Some false) (Some true)) []
    (Some (mkSchema "object" "" (Some [
       ("namespace", mkSchema "string" "Namespace to get the Pod logs from" None);
       ("name", mkSchema "string" "Name of the Pod to get the logs from. If it does not exist, it will be treated as a workload name and a running pod will be selected." None);
       ("workload", mkSchema "string" "Optional. Workload name override (used when name lookup fails)." None);
       ("container", mkSchema "string" "Optional. Name of the Pod container to get the logs from." None);
       ("tail", mkSchema "integer" "Number of lines to retrieve from the end of the logs (Optional, defaults to 50). Cannot exceed 200 lines." None);
       ("severity", mkSchema "string" "Optional severity filter applied client-side. Accepts 'ERROR', 'WARN' or combinations like 'ERROR,WARN'." None);
       ("previous", mkSchema "boolean" "Optional. Return previous terminated container logs" None);
       ("format", mkSchema "string" "Output formatting for chat. 'codeblock' wraps logs in ~~~ fences (recommended). 'plain' returns raw text like kubernetes-mcp-server pods_log." None);
       ("meshCluster", mkSchema "string" meshClusterDescription None)]))) None.

Definition get_metrics_tool : Tool :=
  mkTool (ToolsetName +:+ "_get_metrics")
    "Returns a compact JSON summary of Istio metrics (latency quantiles, traffic trends, throughput, payload sizes) for the given resource."
    (mkToolAnnotations "Get Metrics for a Resource" (Some true) (Some false) (Some true) (Some true)) []
    (Some (mkSchema "object" "" (Some [
       ("resourceType", mkSchema "string" "Type of resource to get metrics" None);
       ("namespace", mkSchema "string" "Namespace to get metrics from" None);
       ("meshCluster", mkSchema "string" meshClusterDescription None);
       ("resourceName", mkSchema "string" "Name of the resource to get metrics for" None);
       ("step", mkSchema "string" "Step between data points in seconds (e.g., '15'). Optional, defaults to 15 seconds" None);
       ("rateInterval", mkSchema "string" "Rate interval for metrics (e.g., '1m', '5m'). Optional, defaults to '10m'" None);
       ("direction", mkSchema "string" "Traffic direction. Optional, defaults to 'outbound'" None);
       ("reporter", mkSchema "string" "Metrics reporter(s). Comma-separated list of: 'source', 'destination', 'waypoint', or the special value 'both' (no reporter filter). Optional, defaults to 'source'. Example: 'source,waypoint'" None);
       ("requestProtocol", mkSchema "string" "Filter by request protocol (e.g., 'http', 'grpc', 'tcp'). Optional" None);
       ("quantiles", mkSchema "string" "Comma-separated list of quantiles for histogram metrics (e.g., '0.5,0.95,0.99'). Optional" None);
       ("byLabels", mkSchema "string" "Comma-separated list of labels to group metrics by (e.g., 'source_workload,destination_service'). Optional" None)]))) None.

(** ** kiali.go *)

Definition remapMeshCluster (args : arguments) : arguments :=
  match args !! "meshCluster" with
  | Some v => delete "meshCluster" (<["clusterName" := v]> args)
  | None => args
  end.

Section Client.
Context {W : Type} `{NetUrl} (Getenv : string -> string).

Record Kiali := mkKiali {
  ki_bearerToken : string;
  ki_kialiURL : string;
  ki_kialiInsecure : bool;
  ki_certificateAuthority : string;
  ki_tlsMinVersion : string;
  ki_tlsCipherSuites : list string;
  ki_requireTLS : option (W -> bool);
}.
(** The value that [GetToolsetConfig] gives: of this type, and then maybe nil, or not. *)
Inductive toolset_config : Type := TcKiali (c : option KialiConfig) | TcOther.
Definition NewKiali (configProvider : StaticConfig) (toolset : option toolset_config) (kubernetes : rest_config) : Kiali :=
  let '(url, insecure, ca) :=
    match toolset with
    | Some (TcKiali (Some kc)) => (kc_Url kc, kc_Insecure kc, kc_CertificateAuthority kc)
    | _ => ("", false, "")
    end in
  mkKiali (rc_BearerToken kubernetes) url insecure ca (GetTLSMinVersionConfig Getenv configProvider)
    (GetTLSCipherSuitesConfig Getenv configProvider) (Some (fun _ => c_RequireTLS configProvider)).

Definition validateAndGetURL (k : Kiali) (endpoint : string) : result string :=
  joined_url "kiali" "server" (ki_kialiURL k) endpoint.

(** The certificate pools: of the system, if there is one, an empty one, and a pool with
    the certificates of a text. *)
Context (tlsCipherSuiteMap : gmap string Z) (os_ReadFile : string -> W -> result string).
Context (SystemCertPool : option string) (NewCertPool : string) (AppendCertsFromPEM : string -> string -> option string).

Definition createHTTPClient (k : Kiali) (w : W) : result (http_client W) :=
  let insecure := if ki_kialiInsecure k then [WithInsecureSkipVerify true] else [] in
  let caValue := TrimSpace (ki_certificateAuthority k) in
  let roots :=
    if caValue ≠?s "" then
      match os_ReadFile caValue w with
      | Err _ => []
      | Ok caPEM =>
          match AppendCertsFromPEM (default NewCertPool SystemCertPool) caPEM with
          | Some certPool => [WithRootCAs (Some certPool)]
          | None => []
          end
      end
    else [] in
  match BuildTLSConfig tlsCipherSuiteMap (ki_tlsMinVersion k) (ki_tlsCipherSuites k) (insecure ++ roots) with
  | Err err => Err (wrapf "failed to build TLS config: " err)
  | Ok tlsConfig => Ok (mkHttpClient tlsConfig (ki_requireTLS k) None)
  end.
Definition authorizationHeader (k : Kiali) : string := bearer_header (ki_bearerToken k).

Definition maxResponseBodySize : Z := 512 * 2 ^ 10.

Context (RoundTrip : TLSConfig -> http_request -> ST W (result http_reply)).
Context (redirect : http_request -> http_reply -> option (result http_request)).
Context (url_Error : http_request -> error -> error).
Context (Marshal : arguments -> result string).

Definition read_reply (resp : http_reply) : result string :=
  match read_limited maxResponseBodySize (hy_Body resp) with
  | Err err => Err (wrapf "failed to read response body: " err)
  | Ok respBody =>
      if (maxResponseBodySize <? Z.of_nat (slen respBody))%Z then
        Err (ErrNew (fmt ["kiali API response exceeded maximum allowed size of "; itoa maxResponseBodySize; " bytes"]))
      else if (hy_StatusCode resp <? 200)%Z || (300 <=? hy_StatusCode resp)%Z then
        Err (ErrNew (if respBody ≠?s "" then "kiali API error: " +:+ TrimSpace respBody
                     else "kiali API error: status " +:+ itoa (hy_StatusCode resp)))
      else Ok respBody
  end.
Definition post_request (k : Kiali) (u : net_url) (jsonData : string) : http_request :=
  let authHeader := authorizationHeader k in
  let h := if authHeader ≠?s "" then Header_Set "Authorization" authHeader ∅ else ∅ in
  mkRequest "POST" u
    (Header_Set "X-Kubernetes-MCP-Server" "true" (Header_Set "Content-Type" "application/json" h)) jsonData.
(** What is sent of the arguments, of which [None] is the nil map. *)
Definition sent_arguments (args : option arguments) : arguments := <["mcp_mode" := JString "true"]> (default ∅ args).
Definition ExecuteRequest (k : Kiali) (endpoint : string) (args : option arguments) : ST W (result string) := fun w =>
  match validateAndGetURL k endpoint with
  | Err err => (Err err, w)
  | Ok ApiCallURL =>
      match Marshal (sent_arguments args) with
      | Err err => (Err (wrapf "failed to marshal arguments: " err), w)
      | Ok jsonData =>
          match url_Parse ApiCallURL with   (* [http.NewRequestWithContext] *)
          | Err err => (Err err, w)
          | Ok u =>
              match createHTTPClient k w with
              | Err err => (Err err, w)
              | Ok client =>
                  match http_client_Do RoundTrip redirect url_Error client (post_request k u jsonData) w with
                  | (Err err, w) => (Err err, w)
                  | (Ok resp, w) => (read_reply resp, w)
                  end
              end
          end
      end
  end.

(** ** The handlers *)

(** What a call has of the server. *)
Record kiali_context := mkKialiContext {
  kx_BaseConfig : StaticConfig;
  kx_ToolsetConfig : option toolset_config;
  kx_RESTConfig : rest_config;
}.
Definition client_of (kx : kiali_context) : Kiali := NewKiali (kx_BaseConfig kx) (kx_ToolsetConfig kx) (kx_RESTConfig kx).
(** What the handlers are, but for the arguments that they pass on. *)
Definition forward (endpoint failure : string) (kx : kiali_context) (args : option arguments) : ST W ToolCallResult := fun w =>
  let '(content, w) := ExecuteRequest (client_of kx) endpoint args w in
  (match content with
   | Err err => NewToolCallResult "" (Some (wrapf (failure +:+ ": ") err))
   | Ok content => NewToolCallResult content None
   end, w).
Definition remapped (args : option arguments) : option arguments :=
  match args with Some args => Some (remapMeshCluster args) | None => None end.
Definition getMeshGraphHandler (kx : kiali_context) (args : option arguments) : ST W ToolCallResult :=
  forward KialiGetMeshTrafficGraphEndpoint "failed to retrieve mesh traffic graph" kx (remapped args).
Definition getMeshStatusHandler (kx : kiali_context) (args : option arguments) : ST W ToolCallResult :=
  forward KialiGetMeshStatusEndpoint "failed to retrieve mesh status" kx None.
Definition istioConfigHandlerRead (kx : kiali_context) (args : option arguments) : ST W ToolCallResult :=
  forward KialiManageIstioConfigReadEndpoint "failed to retrieve istio config" kx (remapped args).
Definition istioConfigHandler (kx : kiali_context) (args : option arguments) : ST W ToolCallResult :=
  forward KialiManageIstioConfigEndpoint "failed to manage istio config" kx (remapped args).
Definition listMeshClustersHandler (kx : kiali_context) (args : option arguments) : ST W ToolCallResult :=
  forward KialiListClustersEndpoint "failed to list mesh clusters" kx None.
Definition listOrGetResourcesHandler (kx : kiali_context) (args : option arguments) : ST W ToolCallResult :=
  forward KialiListOrGetResourcesEndpoint "failed to list or get resources" kx (remapped args).
Definition listTracesHandler (kx : kiali_context) (args : option arguments) : ST W ToolCallResult :=
  forward KialiListTracesEndpoint "failed to retrieve list of traces" kx (remapped args).
Definition tracesHandler (kx : kiali_context) (args : option arguments) : ST W ToolCallResult :=
  forward KialiGetTraceDetailsEndpoint "failed to retrieve traces" kx args.
Definition getPodPerformanceHandler (kx : kiali_context) (args : option arguments) : ST W ToolCallResult :=
  forward KialiGetPodPerformanceEndpoint "failed to get pod performance" kx (remapped args).
Definition workloadLogsHandler (kx : kiali_context) (args : option arguments) : ST W ToolCallResult :=
  forward KialiGetLogsEndpoint "failed to get logs" kx (remapped args).
Definition resourceMetricsHandler (kx : kiali_context) (args : option arguments) : ST W ToolCallResult :=
  forward KialiGetMetricsEndpoint "failed to retrieve metrics" kx (remapped args).

Definition GetTools : list (client_tool W kiali_context) :=
  [mkClientTool get_mesh_traffic_graph_tool (Some false) getMeshGraphHandler;
   mkClientTool get_mesh_status_tool (Some false) getMeshStatusHandler;
   mkClientTool manage_istio_config_read_tool (Some false) istioConfigHandlerRead;
   mkClientTool manage_istio_config_tool (Some false) istioConfigHandler;
   mkClientTool list_mesh_clusters_tool (Some false) listMeshClustersHandler;
   mkClientTool get_resource_details_tool (Some false) listOrGetResourcesHandler;
   mkClientTool list_traces_tool (Some false) listTracesHandler;
   mkClientTool get_trace_details_tool (Some false) tracesHandler;
   mkClientTool get_pod_performance_tool (Some false) getPodPerformanceHandler;
   mkClientTool get_logs_tool (Some false) workloadLogsHandler;
   mkClientTool get_metrics_tool (Some false) resourceMetricsHandler].
End Client.

(** * Properties *)

Section ConfigSpec.
Context `{NetUrl} (os_Stat : string -> option error).
Context (filepath_IsAbs : string -> bool) (filepath_Join : string -> string -> string).

(** With require_tls, a configuration that is parsed and valid has a secure URL and verifies
    the certificate of Kiali, by a file that is there when it is https. *)
Theorem kiali_tls_verified ctx decoded cfg :
  px_RequireTLS ctx = true ->
  kialiToolsetParser filepath_IsAbs filepath_Join ctx decoded = Ok cfg -> Validate os_Stat (Some cfg) = None ->
  kc_Insecure cfg = false /\
  exists u, url_Parse (kc_Url cfg) = Ok u /\ nu_Host u <> "" /\ secure_scheme (nu_Scheme u) /\
    (nu_Scheme u = "https" ->
     TrimSpace (kc_CertificateAuthority cfg) <> "" /\ os_Stat (TrimSpace (kc_CertificateAuthority cfg)) = None).
Proof.
  intros Htls. unfold kialiToolsetParser. destruct decoded as [c|]; [|done]. rewrite Htls. cbv zeta.
  set (c' := if _ && _ && _ then _ else c). clearbody c'. clear c. intros Hp Hv. unfold Validate in Hv.
  unfold ValidateURLRequiresTLS, parse_URL in Hp.
  assert (c' = cfg /\ kc_Insecure c' = false) as [-> Hi].
  { destruct (kc_Insecure c'); [by repeat case_match|]. split; [|done]. repeat case_match; try done; by injection Hp. }
  destruct (kc_Url cfg =?s ""); [done|]. destruct (url_Parse (kc_Url cfg)) as [u|]; [|done]. cbn [u_Scheme] in Hp.
  destruct (isSecureHTTPScheme (nu_Scheme u)) eqn:Hs; [|done]. clear Hp. split; [done|]. exists u. rewrite Hi in Hv.
  destruct (nu_Scheme u =?s "") eqn:H1; [done|]. destruct (nu_Host u =?s "") eqn:H2; [done|].
  apply bool_decide_eq_false in H2. cbn [orb negb] in Hv. rewrite andb_true_r in Hv. split_and!; [done|done| |].
  - unfold isSecureHTTPScheme, secure_scheme in *. by rewrite orb_true_iff, !bool_decide_eq_true in Hs.
  - intros E. rewrite E in Hv. change (EqualFold "https" "https") with true in Hv. cbn [andb] in Hv.
    destruct (bool_decide_reflect (TrimSpace (kc_CertificateAuthority cfg) = "")) as [E'|E']; [done|]. cbn in Hv.
    split; [done|]. by destruct (os_Stat _).
Qed.
End ConfigSpec.

(** The endpoints at which Kiali only reads. *)
Definition reading_endpoints : list string :=
  [KialiGetMeshTrafficGraphEndpoint; KialiGetMeshStatusEndpoint; KialiGetMetricsEndpoint; KialiListOrGetResourcesEndpoint;
   KialiListTracesEndpoint; KialiGetTraceDetailsEndpoint; KialiGetLogsEndpoint; KialiManageIstioConfigReadEndpoint;
   KialiGetPodPerformanceEndpoint; KialiListClustersEndpoint].

Section Requests.
Context {W : Type} `{NetUrlLaws} (Getenv : string -> string).
Context (tlsCipherSuiteMap : gmap string Z) (os_ReadFile : string -> W -> result string).
Context (SystemCertPool : option string) (NewCertPool : string) (AppendCertsFromPEM : string -> string -> option string).
Context (RoundTrip : TLSConfig -> http_request -> ST W (result http_reply)).
Context (redirect : http_request -> http_reply -> option (result http_request)).
Context (url_Error : http_request -> error -> error).
Context (Marshal : arguments -> result string).

Abbreviation tools_over R :=
  (GetTools Getenv tlsCipherSuiteMap os_ReadFile SystemCertPool NewCertPool AppendCertsFromPEM R redirect url_Error Marshal).
Abbreviation forward_over R :=
  (forward Getenv tlsCipherSuiteMap os_ReadFile SystemCertPool NewCertPool AppendCertsFromPEM R redirect url_Error Marshal).
Abbreviation request_over R :=
  (ExecuteRequest tlsCipherSuiteMap os_ReadFile SystemCertPool NewCertPool AppendCertsFromPEM R redirect url_Error Marshal).

Lemma kiali_client_Ok k w c :
  createHTTPClient tlsCipherSuiteMap os_ReadFile SystemCertPool NewCertPool AppendCertsFromPEM k w = Ok c ->
  hc_RequireTLS c = ki_requireTLS k /\ hc_CheckRedirect c = None /\
  tls_InsecureSkipVerify (hc_TLS c) = ki_kialiInsecure k.
Proof.
  unfold createHTTPClient, BuildTLSConfig. cbv zeta.
  set (roots := if TrimSpace (ki_certificateAuthority k) ≠?s "" then _ else _).
  assert (roots = [] \/ exists pool, roots = [WithRootCAs pool]) as Hroots.
  { unfold roots. destruct (_ ≠?s ""); [|by left]. destruct (os_ReadFile _ w); [|by left].
    destruct (AppendCertsFromPEM _ _); [right; by eexists|by left]. }
  destruct (ParseTLSVersion _) as [v|]; [|done]. destruct (ParseTLSCipherSuites _ _) as [cs|]; [|done].
  intros [= <-]. split_and!; [done..|]. destruct Hroots as [->|[pool ->]]; by destruct (ki_kialiInsecure k).
Qed.

(** Each tool is one endpoint, and the tools that say they only read, and the others that
    do not say they destroy, are at those where Kiali only reads. *)
Lemma tools_forward R t :
  t ∈ tools_over R ->
  exists endpoint failure pass,
    (forall kx args w, kt_Handler t kx args w = forward_over R endpoint failure kx (pass args) w) /\
    (pass = id \/ pass = remapped \/ pass = fun _ => None) /\
    no_char "?" (TrimSpace endpoint) /\ no_char "#" (TrimSpace endpoint) /\
    (endpoint ∈ reading_endpoints \/
     endpoint = KialiManageIstioConfigEndpoint /\ ta_ReadOnlyHint (tl_Annotations (kt_Tool t)) = Some false /\
     ta_DestructiveHint (tl_Annotations (kt_Tool t)) = Some true).
Proof.
  unfold GetTools. intros Ht. revert t Ht. apply Forall_forall. repeat apply Forall_cons_2; [..|done].
  all: do 3 eexists; split; [intros; reflexivity|]; split; [first [left; reflexivity|right; left; reflexivity|right; right; reflexivity]|].
  all: split; [apply (bool_decide_eq_true_1 _); vm_compute; reflexivity|].
  all: split; [apply (bool_decide_eq_true_1 _); vm_compute; reflexivity|].
  all: first [left; apply (bool_decide_eq_true_1 _); vm_compute; reflexivity|right; done].
Qed.

(** The one request of a call: to the endpoint, below the URL of Kiali, with the arguments
    and the token of the client for Kubernetes, by a client with the TLS settings of the
    configuration; [args] are the arguments that are sent. *)
Definition asks_kiali (k : Kiali (W := W)) (b : net_url) (endpoint : string) (args : option arguments) (w : W)
    (r : ToolCallResult) (w' : W) : Prop :=
  tcr_Error r <> None /\ w' = w \/
  exists url u client body reply,
    validateAndGetURL k endpoint = Ok url /\ url_Parse url = Ok u /\ nu_Scheme u = nu_Scheme b /\ nu_Host u = nu_Host b /\
    Marshal (sent_arguments args) = Ok body /\
    hc_RequireTLS client = ki_requireTLS k /\ tls_InsecureSkipVerify (hc_TLS client) = ki_kialiInsecure k /\
    http_client_Do RoundTrip redirect url_Error client (post_request k u body) w = (reply, w') /\
    (tcr_Error r = None ->
     exists resp, reply = Ok resp /\ (200 <= hy_StatusCode resp < 300)%Z /\
       tcr_Content r = (hy_Body resp).1 /\ (Z.of_nat (slen (tcr_Content r)) <= maxResponseBodySize)%Z).

Lemma kiali_reply_Ok resp s :
  read_reply resp = Ok s ->
  (200 <= hy_StatusCode resp < 300)%Z /\ s = (hy_Body resp).1 /\ (Z.of_nat (slen s) <= maxResponseBodySize)%Z.
Proof.
  unfold read_reply, read_limited. destruct (Z.ltb_spec maxResponseBodySize (Z.of_nat (slen (hy_Body resp).1))) as [Hl|Hl].
  - assert (0 <= maxResponseBodySize)%Z by (by unfold maxResponseBodySize). rewrite slen_take_str.
    rewrite (proj2 (Z.ltb_lt _ _)) by lia. done.
  - destruct (hy_Body resp).2; [done|]. rewrite (proj2 (Z.ltb_ge _ _)) by lia.
    destruct (Z.ltb_spec (hy_StatusCode resp) 200), (Z.leb_spec 300 (hy_StatusCode resp)); cbn [orb]; [done..|].
    by intros [= <-].
Qed.

Lemma forward_asks kx b endpoint failure args w :
  url_Parse (TrimSpace (ki_kialiURL (client_of (W := W) Getenv kx))) = Ok b -> nu_Scheme b <> "" -> nu_Host b <> "" ->
  no_char "?" (TrimSpace endpoint) -> no_char "#" (TrimSpace endpoint) ->
  let '(r, w') := forward_over RoundTrip endpoint failure kx args w in
  asks_kiali (client_of (W := W) Getenv kx) b endpoint args w r w'.
Proof.
  intros Hb Hs Hh Hq Hf. unfold forward, ExecuteRequest, asks_kiali. set (k := client_of (W := W) Getenv kx) in *.
  destruct (validateAndGetURL k endpoint) as [url|] eqn:Hj; [|by left].
  destruct (Marshal (sent_arguments args)) as [body|]; [|by left].
  destruct (url_Parse url) as [u|] eqn:Hu; [|by left].
  destruct (createHTTPClient _ _ _ _ _ k w) as [client|] eqn:Hc; [|by left].
  apply kiali_client_Ok in Hc as (C1 & _ & C3).
  destruct (joined_url_same _ _ _ _ _ _ _ Hb Hs Hh Hq Hf Hj Hu) as [E1 E2].
  destruct (http_client_Do RoundTrip redirect url_Error client (post_request k u body) w) as [reply w'] eqn:Hr.
  destruct reply as [resp|err]; [destruct (read_reply resp) as [content|] eqn:Hread|]; right;
    eexists url, u, client, body, _; (split_and!; [done..|exact Hr|]); try done.
  intros _. exists resp. destruct (kiali_reply_Ok _ _ Hread) as (? & -> & ?). done.
Qed.

(** A call of a tool of the toolset asks Kiali at most once, at the one endpoint of the
    tool; a tool that can change the mesh is not annotated as one that only reads. *)
Theorem kiali_tools_ask_kiali t kx b :
  t ∈ tools_over RoundTrip ->
  url_Parse (TrimSpace (ki_kialiURL (client_of (W := W) Getenv kx))) = Ok b -> nu_Scheme b <> "" -> nu_Host b <> "" ->
  exists endpoint,
    (endpoint ∈ reading_endpoints \/
     ta_ReadOnlyHint (tl_Annotations (kt_Tool t)) = Some false /\ ta_DestructiveHint (tl_Annotations (kt_Tool t)) = Some true) /\
    forall args w, exists args', (args' = args \/ args' = remapped args \/ args' = None) /\
      let '(r, w') := kt_Handler t kx args w in asks_kiali (client_of (W := W) Getenv kx) b endpoint args' w r w'.
Proof.
  intros Ht Hb Hs Hh. destruct (tools_forward _ _ Ht) as (endpoint & failure & pass & Hk & Hpass & Hq & Hf & He).
  exists endpoint. split; [tauto|]. intros args w. exists (pass args). split; [naive_solver|].
  rewrite Hk. by apply forward_asks.
Qed.

(** C21. While TLS is required, a call depends on the network only at secure URLs, whatever
    redirects Kiali answers with. *)
Theorem kiali_no_plaintext RoundTrip' i t t' kx args w :
  (forall tls req w, secure_scheme (nu_Scheme (hr_URL req)) -> RoundTrip tls req w = RoundTrip' tls req w) ->
  c_RequireTLS (kx_BaseConfig kx) = true ->
  tools_over RoundTrip !! i = Some t -> tools_over RoundTrip' !! i = Some t' ->
  kt_Handler t kx args w = kt_Handler t' kx args w.
Proof.
  intros Hagree Htls Ht Ht'.
  assert (forall endpoint failure args, forward_over RoundTrip endpoint failure kx args w =
    forward_over RoundTrip' endpoint failure kx args w) as H'.
  { intros endpoint failure args'. unfold forward, ExecuteRequest. set (k := client_of (W := W) Getenv kx).
    assert (ki_requireTLS k = Some (fun _ => true)) as Hreq.
    { unfold k, client_of, NewKiali. destruct (kx_ToolsetConfig kx) as [[[]|]|]; cbn; by rewrite Htls. }
    destruct (validateAndGetURL k endpoint) as [url|]; [|done]. destruct (Marshal _) as [body|]; [|done].
    destruct (url_Parse url) as [u|]; [|done]. destruct (createHTTPClient _ _ _ _ _ k w) as [client|] eqn:Hc; [|done].
    apply kiali_client_Ok in Hc as (C1 & _ & _). unfold http_client_Do.
    rewrite (http_Do_agree RoundTrip RoundTrip' redirect url_Error 10 client (fun _ => true)); [done|done|by rewrite C1|done]. }
  do 11 (destruct i as [|i]; [injection Ht as <-; injection Ht' as <-; apply H'|]). done.
Qed.
End Requests.

(** * Witnesses: a Kiali that answers with what it is sent, and redirects to an insecure
    address *)

Module KialiWitness.
(** The world counts the requests that are sent. *)
Definition answer (insecure : string) (tls : TLSConfig) (req : http_request) : ST nat (result http_reply) := fun w =>
  (Ok (mkReply (if isSecureHTTPScheme (nu_Scheme (hr_URL req)) then 307 else 200)
         (if isSecureHTTPScheme (nu_Scheme (hr_URL req)) then hr_Body req else insecure, None)), S w).
Definition redirect (req : http_request) (resp : http_reply) : option (result http_request) :=
  if (hy_StatusCode resp =? 307)%Z
  then Some (Ok (mkRequest "POST" (mkNetUrl "http" "plugin" "" "" "" "") ∅ (hr_Body req))) else None.
Definition config : KialiConfig := mkKialiConfig "https://plugin" false "/ca.crt".
Definition Marshal (args : arguments) : result string := Ok (Join (sort_strings (map fst (map_to_list args))) ",").
Definition context (base : StaticConfig) : kiali_context :=
  mkKialiContext base (Some (TcKiali (Some config))) (mkRestConfig "s3cret" "" "" "" false).
Definition Tools (insecure : string) : list (client_tool nat kiali_context) :=
  GetTools (fun _ => "") ∅ (fun _ _ => Ok "pem") None "" (fun _ _ => Some "pool") (answer insecure) redirect
    (fun _ err => err) Marshal.
(** The defaults with require_tls. *)
Definition secured : StaticConfig :=
  {| c_DeniedResources := c_DeniedResources BaseDefault;
     c_LogLevel := c_LogLevel BaseDefault;
     c_LogFile := c_LogFile BaseDefault;
     c_Port := c_Port BaseDefault;
     c_BindAddress := c_BindAddress BaseDefault;
     c_KubeConfig := c_KubeConfig BaseDefault;
     c_ListOutput := c_ListOutput BaseDefault;
     c_Stateless := c_Stateless BaseDefault;
     c_ReadOnly := c_ReadOnly BaseDefault;
     c_DisableDestructive := c_DisableDestructive BaseDefault;
     c_Toolsets := c_Toolsets BaseDefault;
     c_EnabledTools := c_EnabledTools BaseDefault;
     c_DisabledTools := c_DisabledTools BaseDefault;
     c_ToolOverrides := c_ToolOverrides BaseDefault;
     c_Prompts := c_Prompts BaseDefault;
     c_RequireOAuth := c_RequireOAuth BaseDefault;
     c_OAuthAudience := c_OAuthAudience BaseDefault;
     c_AuthorizationURL := c_AuthorizationURL BaseDefault;
     c_SkipJWTVerification := c_SkipJWTVerification BaseDefault;
     c_DisableDynamicClientRegistration := c_DisableDynamicClientRegistration BaseDefault;
     c_OAuthScopes := c_OAuthScopes BaseDefault;
     c_StsClientId := c_StsClientId BaseDefault;
     c_StsClientSecret := c_StsClientSecret BaseDefault;
     c_StsAudience := c_StsAudience BaseDefault;
     c_StsScopes := c_StsScopes BaseDefault;
     c_TokenExchangeStrategy := c_TokenExchangeStrategy BaseDefault;
     c_StsAuthStyle := c_StsAuthStyle BaseDefault;
     c_StsClientCertFile := c_StsClientCertFile BaseDefault;
     c_StsClientKeyFile := c_StsClientKeyFile BaseDefault;
     c_StsFederatedTokenFile := c_StsFederatedTokenFile BaseDefault;
     c_StsSubjectTokenType := c_StsSubjectTokenType BaseDefault;
     c_StsRequestedTokenType := c_StsRequestedTokenType BaseDefault;
     c_ClusterAuthMode := c_ClusterAuthMode BaseDefault;
     c_CertificateAuthority := c_CertificateAuthority BaseDefault;
     c_ServerURL := c_ServerURL BaseDefault;
     c_TrustProxyHeaders := c_TrustProxyHeaders BaseDefault;
     c_TLSCert := c_TLSCert BaseDefault;
     c_TLSKey := c_TLSKey BaseDefault;
     c_RequireTLS := true;
     c_TLSMinVersion := c_TLSMinVersion BaseDefault;
     c_TLSCipherSuites := c_TLSCipherSuites BaseDefault;
     c_HTTP := c_HTTP BaseDefault;
     c_ClusterProviderStrategy := c_ClusterProviderStrategy BaseDefault;
     c_ClusterProviderConfigs := c_ClusterProviderConfigs BaseDefault;
     c_ToolsetConfigs := c_ToolsetConfigs BaseDefault;
     c_ServerInstructions := c_ServerInstructions BaseDefault;
     c_Telemetry := c_Telemetry BaseDefault;
     c_ValidationEnabled := c_ValidationEnabled BaseDefault;
     c_EnableTargetCompatibilityToolFilters := c_EnableTargetCompatibilityToolFilters BaseDefault;
     c_ConfirmationFallback := c_ConfirmationFallback BaseDefault;
     c_ConfirmationRules := c_ConfirmationRules BaseDefault;
     c_parsedClusterProviderConfigs := c_parsedClusterProviderConfigs BaseDefault;
     c_parsedToolsetConfigs := c_parsedToolsetConfigs BaseDefault;
     c_configDirPath := c_configDirPath BaseDefault;
     c_providerStrategies := c_providerStrategies BaseDefault;
     c_tokenExchangeStrategies := c_tokenExchangeStrategies BaseDefault |}.
End KialiWitness.

(** Without require_tls the redirect is followed, with it no second request is sent. *)
Example redirects_followed :
  match KialiWitness.Tools "stolen" with
  | t :: _ =>
      (let '(r, w) := kt_Handler t (KialiWitness.context BaseDefault) (Some {[ "meshCluster" := JString "west" ]}) 0 in
       (tcr_Content r, tcr_Error r, w)) = ("stolen", None, 2)
  | [] => False
  end.
Proof. vm_compute. reflexivity. Qed.

Lemma kiali_tools_ask_kiali_witness :
  exists t endpoint, KialiWitness.Tools "stolen" !! 3 = Some t /\
    (endpoint ∈ reading_endpoints \/
     ta_ReadOnlyHint (tl_Annotations (kt_Tool t)) = Some false /\ ta_DestructiveHint (tl_Annotations (kt_Tool t)) = Some true).
Proof.
  assert (exists t, KialiWitness.Tools "stolen" !! 3 = Some t) as [t Ht] by (eexists; reflexivity).
  destruct (kiali_tools_ask_kiali (fun _ => "") ∅ (fun _ _ => Ok "pem") None "" (fun _ _ => Some "pool")
    (KialiWitness.answer "stolen") KialiWitness.redirect (fun _ err => err) KialiWitness.Marshal t
    (KialiWitness.context BaseDefault) (SimpleUrl.parse "https://plugin") (list_elem_of_lookup_2 _ _ _ Ht) eq_refl)
    as (endpoint & He & _); [discriminate..|].
  exact (ex_intro _ t (ex_intro _ endpoint (conj Ht He))).
Defined.

Lemma kiali_no_plaintext_witness :
  exists t t', KialiWitness.Tools "stolen" !! 0 = Some t /\ KialiWitness.Tools "kept" !! 0 = Some t' /\
    kt_Handler t (KialiWitness.context KialiWitness.secured) None 0 =
    kt_Handler t' (KialiWitness.context KialiWitness.secured) None 0.
Proof.
  assert (exists t t', KialiWitness.Tools "stolen" !! 0 = Some t /\ KialiWitness.Tools "kept" !! 0 = Some t') as (t & t' & Ht & Ht')
    by (do 2 eexists; split; reflexivity).
  refine (ex_intro _ t (ex_intro _ t' (conj Ht (conj Ht' _)))).
  refine (kiali_no_plaintext (fun _ => "") ∅ (fun _ _ => Ok "pem") None "" (fun _ _ => Some "pool")
    (KialiWitness.answer "stolen") KialiWitness.redirect (fun _ err => err) KialiWitness.Marshal
    (KialiWitness.answer "kept") 0 t t' (KialiWitness.context KialiWitness.secured) None 0 _ eq_refl Ht Ht').
  intros tls req w Hs. unfold KialiWitness.answer, isSecureHTTPScheme. by destruct Hs as [-> | ->].
Defined.

Lemma kiali_tls_verified_witness :
  kialiToolsetParser (fun _ => true) (fun a b => a +:+ b) (mkParseCtx "" true) (Ok KialiWitness.config) = Ok KialiWitness.config /\
  kc_Insecure KialiWitness.config = false.
Proof.
  assert (kialiToolsetParser (fun _ => true) (fun a b => a +:+ b) (mkParseCtx "" true) (Ok KialiWitness.config) =
    Ok KialiWitness.config) as H by reflexivity.
  split; [exact H|].
  exact (proj1 (kiali_tls_verified (fun _ => None) _ _ (mkParseCtx "" true) _ _ eq_refl H eq_refl)).
Defined.
