(* ===== verification/KialiPrompts.v ===== *)
(** The prompts of pkg/toolsets/kiali/prompts: what they ask of Kiali, and the texts they
    make of the answers.  The client is that of Kiali.v; the decoding of the list of
    namespaces is a parameter, and the log lines are left out. *)
From S2P Require Import Prelude GoStrings Api Params Config Http Prompts HttpClients Kiali.

(** * Definitions *)

Definition mesh_list_applications_prompt : Prompt :=
  mkPrompt "mesh-list-applications" "List Mesh Applications"
    "List applications in the mesh namespaces"
    [mkPromptArgument "namespace" "Optional namespace to filter applications (default: all namespaces)" false] [].
Definition list_istio_config_prompt : Prompt :=
  mkPrompt "list-istio-config" "List Istio Configuration"
    "List Istio configuration resources in the mesh namespaces"
    [mkPromptArgument "namespace" "Optional namespace to filter Istio configuration (default: all namespaces)" false] [].
Definition mesh_list_namespaces_prompt : Prompt :=
  mkPrompt "mesh-list-namespaces" "List Mesh Namespaces"
    "List all namespaces with their sidecar injection status and Istio labels"
    [] [].
Definition mesh_list_services_prompt : Prompt :=
  mkPrompt "mesh-list-services" "List Mesh Services"
    "List services in the mesh namespaces"
    [mkPromptArgument "namespace" "Optional namespace to filter services (default: all namespaces)" false] [].
Definition mesh_list_workloads_prompt : Prompt :=
  mkPrompt "mesh-list-workloads" "List Mesh Workloads"
    "List workloads in the mesh namespaces"
    [mkPromptArgument "namespace" "Optional namespace to filter workloads (default: all namespaces)" false] [].
Definition mesh_health_check_prompt : Prompt :=
  mkPrompt "mesh-health-check" "Mesh Health Check"
    "Perform a comprehensive health assessment of the Istio service mesh including control plane and data plane status"
    [mkPromptArgument "namespace" "Optional namespace to focus the health check on (default: all namespaces)" false] [].
Definition mesh_topology_prompt : Prompt :=
  mkPrompt "mesh-topology" "Mesh Topology Overview"
    "Show the mesh topology including control plane components and cluster connectivity"
    [] [].
Definition traffic_topology_prompt : Prompt :=
  mkPrompt "traffic-topology" "Traffic Topology Analysis"
    "Analyze the service mesh traffic topology showing service dependencies, traffic flow, and communication patterns"
    [mkPromptArgument "namespaces" "Comma-separated list of namespaces to include in the graph, or 'all' to include all accessible mesh namespaces" true] [].
Definition service_troubleshoot_prompt : Prompt :=
  mkPrompt "service-troubleshoot" "Troubleshoot Service Errors"
    "Investigate service errors using logs, traces, and Istio configuration to identify root causes"
    [mkPromptArgument "namespace" "Namespace where the service is deployed" true;
     mkPromptArgument "service" "Name of the service to troubleshoot" true;
     mkPromptArgument "workload" "Optional workload or pod name to fetch logs from (if omitted, uses the service name)" false] [].
Definition trace_analysis_prompt : Prompt :=
  mkPrompt "trace-analysis" "Trace and Latency Investigation"
    "Investigate distributed traces for a service to identify latency bottlenecks, error sources, and slow spans"
    [mkPromptArgument "namespace" "Namespace where the service is deployed" true;
     mkPromptArgument "service" "Name of the service to investigate traces for" true] [].
Definition istio_config_review_prompt : Prompt :=
  mkPrompt "istio-config-review" "Review Istio Configuration"
    "Review and validate Istio configuration in a namespace, checking for misconfigurations and best practice violations"
    [mkPromptArgument "namespace" "Namespace to review Istio configuration for" true] [].

Section Prompts.
(** A request to Kiali, [ExecuteRequest] of a client; the names of the namespaces in an
    answer, when it can be decoded. *)
Context {W : Type} (request : string -> option arguments -> ST W (result string)).
Context (decode_namespaces : string -> result (list string)).

Definition prompt_result (description text : string) (assistant : option string) : PromptCallResult :=
  NewPromptCallResult description
    (mkPromptMessage "user" (mkPromptContent "text" text) ::
     match assistant with Some s => [mkPromptMessage "assistant" (mkPromptContent "text" s)] | None => [] end) None.
(** The argument, "" when it is not given. *)
Definition prompt_argument (args : gmap string string) (name : string) : string := default "" (args !! name).

(** ** service_troubleshoot.go *)

(** What cannot be read is said in the text. *)
Definition fetchKialiData (endpoint : string) (args : option arguments) : ST W string := fun w =>
  let '(content, w) := request endpoint args w in
  (match content with
   | Err err => fmt ["(data unavailable: "; error_string err; ")"]
   | Ok content => content
   end, w).

Definition buildServiceTroubleshootPrompt (namespace service logsData istioData : string) : string :=
  fmt ["# Service Troubleshooting Guide"; nl; nl; "## Target: "; service; " in namespace "; namespace; nl; nl;
    "Use this guide to diagnose issues with the service. The relevant data has been collected below."; nl; nl; "---";
    nl; nl; "## Step 1: Workload Logs"; nl; nl;
    "Review the workload logs for error messages, stack traces, or unusual patterns:"; nl; nl; logsData; nl; nl;
    "---"; nl; nl; "## Step 2: Istio Configuration"; nl; nl;
    "Review the Istio configuration (VirtualServices, DestinationRules, etc.) for routing issues, fault injection, or misconfiguration:";
    nl; nl; istioData; nl; nl; "---"; nl; nl; "## Analysis Instructions"; nl; nl;
    "Based on the data above, provide:"; nl; nl;
    "1. **Error Summary**: What errors or issues are visible in the logs?"; nl;
    "2. **Istio Impact**: Are there any Istio configurations (fault injection, traffic routing, retries) that could cause or contribute to the errors?";
    nl; "3. **Root Cause**: What is the most likely root cause?"; nl;
    "4. **Recommendations**: What actions should be taken to resolve the issue?"; nl].
Definition serviceTroubleshootHandler (args : gmap string string) : ST W (result PromptCallResult) := fun w =>
  let namespace := prompt_argument args "namespace" in
  let service := prompt_argument args "service" in
  let workload := prompt_argument args "workload" in
  if namespace =?s "" then (Err (ErrNew "namespace argument is required"), w)
  else if service =?s "" then (Err (ErrNew "service argument is required"), w)
  else
    let logTarget := if workload ≠?s "" then workload else service in
    let '(logsContent, w) :=
      fetchKialiData KialiGetLogsEndpoint
        (Some {[ "namespace" := JString namespace; "name" := JString logTarget ]}) w in
    let '(istioContent, w) :=
      fetchKialiData KialiManageIstioConfigReadEndpoint
        (Some {[ "namespace" := JString namespace; "action" := JString "list" ]}) w in
    (Ok (prompt_result "Service troubleshooting data gathered successfully"
           (buildServiceTroubleshootPrompt namespace service logsContent istioContent)
           (Some "I'll analyze the collected data to diagnose the service issues systematically.")), w).

(** ** trace_analysis.go *)

Definition buildTraceAnalysisPrompt (namespace service tracesData errorTracesData : string) : string :=
  fmt ["# Trace and Latency Investigation"; nl; nl; "## Target: "; service; " in namespace "; namespace; nl; nl;
    "Analyze distributed traces to find latency bottlenecks, error patterns, and performance issues."; nl; nl; "---";
    nl; nl; "## Recent Traces"; nl; nl; tracesData; nl; nl; "---"; nl; nl; "## Error Traces"; nl; nl;
    errorTracesData; nl; nl; "---"; nl; nl; "## Analysis Instructions"; nl; nl;
    "Based on the trace data above, provide:"; nl; nl;
    "1. **Latency Overview**: What is the typical request duration? Are there outliers with significantly higher latency?";
    nl; "2. **Slowest Services**: Which downstream services or spans contribute the most latency?"; nl;
    "3. **Error Patterns**: Are there traces with errors? What services or operations are failing?"; nl;
    "4. **Bottlenecks**: Identify any services that appear as common slow points across multiple traces."; nl;
    "5. **Recommendations**: Suggest optimizations such as caching, connection pooling, retry tuning, or timeout adjustments.";
    nl; nl;
    "If a specific trace looks problematic, mention its trace ID so the user can drill into details using the get_trace_details tool.";
    nl].
Definition traceAnalysisHandler (args : gmap string string) : ST W (result PromptCallResult) := fun w =>
  let namespace := prompt_argument args "namespace" in
  let service := prompt_argument args "service" in
  if namespace =?s "" then (Err (ErrNew "namespace argument is required"), w)
  else if service =?s "" then (Err (ErrNew "service argument is required"), w)
  else
    let '(tracesContent, w) :=
      fetchKialiData KialiListTracesEndpoint
        (Some {[ "namespace" := JString namespace; "serviceName" := JString service; "limit" := JInt 20 ]}) w in
    let '(errorTracesContent, w) :=
      fetchKialiData KialiListTracesEndpoint
        (Some {[ "namespace" := JString namespace; "serviceName" := JString service; "errorOnly" := JBool true;
                 "limit" := JInt 10 ]}) w in
    (Ok (prompt_result "Trace data gathered successfully"
           (buildTraceAnalysisPrompt namespace service tracesContent errorTracesContent)
           (Some "I'll analyze the trace data to identify latency issues and error patterns.")), w).

(** ** istio_config_review.go *)

Definition buildIstioConfigReviewPrompt (namespace istioData resourceData : string) : string :=
  fmt ["# Istio Configuration Review"; nl; nl; "## Namespace: "; namespace; nl; nl;
    "Review the Istio configuration in this namespace for correctness, best practices, and potential issues."; nl;
    nl; "---"; nl; nl; "## Istio Resources"; nl; nl; istioData; nl; nl; "---"; nl; nl; "## Services in Namespace";
    nl; nl; resourceData; nl; nl; "---"; nl; nl; "## Review Checklist"; nl; nl;
    "Analyze the configuration above and check for:"; nl; nl;
    "1. **Validation Errors**: Are there any Istio validation warnings or errors reported?"; nl;
    "2. **VirtualService Issues**: Do VirtualServices reference hosts and subsets that actually exist? Are weights valid?";
    nl; "3. **DestinationRule Consistency**: Do DestinationRules define subsets that match actual workload labels?";
    nl; "4. **Traffic Policy**: Are there conflicting traffic policies or missing mTLS settings?"; nl;
    "5. **Gateway Configuration**: Are Gateways properly configured with correct hosts and ports?"; nl;
    "6. **Best Practices**: Are there any configuration anti-patterns (e.g., overly broad host matches, missing retries)?";
    nl; nl; "Provide a summary of findings with severity (critical, warning, info) and recommendations."; nl].
Definition istioConfigReviewHandler (args : gmap string string) : ST W (result PromptCallResult) := fun w =>
  let namespace := prompt_argument args "namespace" in
  if namespace =?s "" then (Err (ErrNew "namespace argument is required"), w)
  else
    let '(istioContent, w) :=
      fetchKialiData KialiManageIstioConfigReadEndpoint
        (Some {[ "namespace" := JString namespace; "action" := JString "list" ]}) w in
    let '(resourceContent, w) :=
      fetchKialiData KialiListOrGetResourcesEndpoint
        (Some {[ "namespaces" := JString namespace; "resourceType" := JString "service" ]}) w in
    (Ok (prompt_result "Istio configuration data gathered successfully"
           (buildIstioConfigReviewPrompt namespace istioContent resourceContent)
           (Some "I'll review the Istio configuration and check for issues or misconfigurations.")), w).

(** ** mesh_health_check.go *)

Definition buildMeshHealthPrompt (statusData namespace : string) : string :=
  let scope := if namespace ≠?s "" then fmt ["the '"; namespace; "' namespace"] else "the entire mesh" in
  fmt ["# Mesh Health Check"; nl; nl; "## Scope"; nl; "Analyze the health of "; scope; "."; nl; nl;
    "## Collected Data"; nl; nl; "### Mesh Status"; nl; statusData; nl; nl; "## Instructions"; nl; nl;
    "Based on the data above, provide a comprehensive health report covering:"; nl; nl;
    "1. **Control Plane Status**: Is istiod running and healthy? Report any issues with the Istio control plane.";
    nl;
    "2. **Data Plane Health**: Which namespaces are healthy, degraded, or unhealthy? Summarize the overall data plane status.";
    nl; "3. **Observability Stack**: Are Prometheus, Grafana, and tracing backends connected and operational?"; nl;
    "4. **Issues Found**: List any problems discovered, ordered by severity."; nl;
    "5. **Recommendations**: Suggest actions to resolve any issues found."; nl].
Definition meshHealthCheckHandler (args : gmap string string) : ST W (result PromptCallResult) := fun w =>
  let '(statusContent, w) := request KialiGetMeshStatusEndpoint None w in
  (match statusContent with
   | Err err => Err (wrapf "failed to retrieve mesh status: " err)
   | Ok statusContent =>
       Ok (prompt_result "Mesh health diagnostic data gathered successfully"
             (buildMeshHealthPrompt statusContent (prompt_argument args "namespace"))
             (Some "I'll analyze the mesh health data and provide a comprehensive assessment."))
   end, w).

(** ** traffic_topology.go *)

Definition allNamespacesKeyword : string := "all".
Definition parseNamespacesFromResponse (content : string) : string :=
  match decode_namespaces content with
  | Err _ => ""
  | Ok names => Join (filter (.≠ "") names) ","
  end.
Definition resolveNamespaces (namespaces : string) : ST W (result string) := fun w =>
  if negb (EqualFold (TrimSpace namespaces) allNamespacesKeyword) then (Ok namespaces, w)
  else
    let '(content, w) :=
      request KialiListOrGetResourcesEndpoint (Some {[ "resourceType" := JString "namespace" ]}) w in
    (match content with
     | Err err => Err (wrapf "failed to discover mesh namespaces: " err)
     | Ok content =>
         let discovered := parseNamespacesFromResponse content in
         if discovered =?s "" then Err (ErrNew "no mesh namespaces found") else Ok discovered
     end, w).
Definition buildTrafficTopologyPrompt (graphData namespaces : string) : string :=
  fmt ["# Traffic Topology Analysis"; nl; nl; "## Scope"; nl; "Analyze traffic topology for namespaces: ";
    namespaces; "."; nl; nl; "## Collected Data"; nl; nl; "### Traffic Graph"; nl; graphData; nl; nl;
    "## Instructions"; nl; nl; "Based on the traffic graph data above, provide an analysis covering:"; nl; nl;
    "1. **Service Dependencies**: Map out which services communicate with each other and the direction of traffic flow.";
    nl; "2. **Traffic Patterns**: Identify high-traffic paths, bottlenecks, or unusual communication patterns."; nl;
    "3. **Health Overview**: Highlight any services or edges showing errors or degraded health."; nl;
    "4. **Observations**: Note any unexpected dependencies, circular calls, or services that appear isolated."; nl].
Definition trafficTopologyHandler (args : gmap string string) : ST W (result PromptCallResult) := fun w =>
  let namespaces := prompt_argument args "namespaces" in
  if namespaces =?s "" then
    (Err (ErrNew "namespaces argument is required: provide a comma-separated list or 'all' for all accessible mesh namespaces"), w)
  else
    match resolveNamespaces namespaces w with
    | (Err err, w) => (Err (wrapf "failed to resolve namespaces: " err), w)
    | (Ok resolvedNamespaces, w) =>
        let '(graphContent, w) :=
          request KialiGetMeshTrafficGraphEndpoint (Some {[ "namespaces" := JString resolvedNamespaces ]}) w in
        (match graphContent with
         | Err err => Err (wrapf "failed to retrieve traffic graph: " err)
         | Ok graphContent =>
             Ok (prompt_result "Traffic topology data gathered successfully"
                   (buildTrafficTopologyPrompt graphContent resolvedNamespaces)
                   (Some "I'll analyze the traffic topology and identify service dependencies and communication patterns."))
         end, w)
    end.

(** ** list_resources.go *)

Definition scope_text (namespace : string) : string :=
  if namespace ≠?s "" then fmt ["namespace '"; namespace; "'"] else "all namespaces".
Definition istio_config_text (scope content : string) : string :=
  fmt ["# List Istio Configuration"; nl; nl; "## Scope"; nl; scope; nl; nl; "## Data"; nl; nl; content; nl; nl;
    "## Instructions"; nl; nl; "Summarize the Istio configuration listed above. Highlight any that need attention.";
    nl].
Definition listIstioConfigHandler (args : gmap string string) : ST W (result PromptCallResult) := fun w =>
  let namespace := prompt_argument args "namespace" in
  let reqArgs : arguments := {[ "action" := JString "list" ]} in
  let reqArgs := if namespace ≠?s "" then <["namespace" := JString namespace]> reqArgs else reqArgs in
  let '(content, w) := request KialiManageIstioConfigReadEndpoint (Some reqArgs) w in
  (match content with
   | Err err => Err (wrapf "failed to list istio config: " err)
   | Ok content =>
       Ok (prompt_result "Istio configuration data retrieved successfully"
             (istio_config_text (scope_text namespace) content) None)
   end, w).
Definition resources_text (resourceType scope content : string) : string :=
  fmt ["# List "; resourceType; nl; nl; "## Scope"; nl; scope; nl; nl; "## Data"; nl; nl; content; nl; nl;
    "## Instructions"; nl; nl; "Summarize the "; resourceType; " listed above. Highlight any that need attention.";
    nl].
Definition listResourceHandler (resourceType : string) (args : gmap string string) : ST W (result PromptCallResult) := fun w =>
  let namespace := prompt_argument args "namespace" in
  let reqArgs : arguments := {[ "resourceType" := JString resourceType ]} in
  let reqArgs := if namespace ≠?s "" then <["namespaces" := JString namespace]> reqArgs else reqArgs in
  let '(content, w) := request KialiListOrGetResourcesEndpoint (Some reqArgs) w in
  (match content with
   | Err err => Err (wrapf (fmt ["failed to list "; resourceType; ": "]) err)
   | Ok content =>
       Ok (prompt_result (resourceType +:+ " data retrieved successfully")
             (resources_text resourceType (scope_text namespace) content) None)
   end, w).
Definition topology_text (statusContent graphContent : string) : string :=
  fmt ["# Mesh Topology Overview"; nl; nl; "## Mesh Status"; nl; statusContent; nl; nl; "## Traffic Graph"; nl;
    graphContent; nl; nl; "## Instructions"; nl; nl;
    "Summarize the mesh topology covering control plane components, cluster connectivity, and data plane overview.";
    nl].
Definition meshTopologyHandler (args : gmap string string) : ST W (result PromptCallResult) := fun w =>
  let '(statusContent, w) := fetchKialiData KialiGetMeshStatusEndpoint None w in
  match resolveNamespaces allNamespacesKeyword w with
  | (Err err, w) => (Err (wrapf "failed to resolve mesh namespaces: " err), w)
  | (Ok resolved, w) =>
      let '(graphContent, w) :=
        fetchKialiData KialiGetMeshTrafficGraphEndpoint (Some {[ "namespaces" := JString resolved ]}) w in
      (Ok (prompt_result "Mesh topology data gathered successfully" (topology_text statusContent graphContent) None), w)
  end.

(** ** toolset.go *)

(** A prompt with its handler; none is aware of the targets. *)
Record kiali_prompt := mkKialiPrompt {
  kp_Prompt : Prompt;
  kp_ClusterAware : option bool;
  kp_Handler : gmap string string -> ST W (result PromptCallResult);
}.
Definition GetPrompts : list kiali_prompt :=
  [mkKialiPrompt mesh_list_applications_prompt (Some false) (listResourceHandler "app");
   mkKialiPrompt list_istio_config_prompt (Some false) listIstioConfigHandler;
   mkKialiPrompt mesh_list_namespaces_prompt (Some false) (listResourceHandler "namespace");
   mkKialiPrompt mesh_list_services_prompt (Some false) (listResourceHandler "service");
   mkKialiPrompt mesh_list_workloads_prompt (Some false) (listResourceHandler "workload");
   mkKialiPrompt mesh_health_check_prompt (Some false) meshHealthCheckHandler;
   mkKialiPrompt mesh_topology_prompt (Some false) meshTopologyHandler;
   mkKialiPrompt traffic_topology_prompt (Some false) trafficTopologyHandler;
   mkKialiPrompt service_troubleshoot_prompt (Some false) serviceTroubleshootHandler;
   mkKialiPrompt trace_analysis_prompt (Some false) traceAnalysisHandler;
   mkKialiPrompt istio_config_review_prompt (Some false) istioConfigReviewHandler].
End Prompts.

(** * Properties *)

Section Spec.
Context {W : Type} (decode_namespaces : string -> result (list string)).

(** A prompt without an argument that it requires fails, and asks Kiali nothing. *)
Theorem kiali_prompts_require request p args (w : W) a :
  p ∈ GetPrompts request decode_namespaces -> a ∈ pr_Arguments (kp_Prompt p) -> pa_Required a = true ->
  prompt_argument args (pa_Name a) = "" ->
  exists err, kp_Handler p args w = (Err err, w).
Proof.
  revert p a. cut (Forall (fun p => forall a, a ∈ pr_Arguments (kp_Prompt p) -> pa_Required a = true ->
    prompt_argument args (pa_Name a) = "" -> exists err, kp_Handler p args w = (Err err, w)) (GetPrompts request decode_namespaces)).
  { intros Hall p a Hp. rewrite Forall_forall in Hall. by apply Hall. }
  unfold GetPrompts. repeat apply Forall_cons_2; [..|done]; cbn [kp_Prompt kp_Handler].
  all: intros a Ha Hr Harg; cbn [pr_Arguments mesh_list_applications_prompt list_istio_config_prompt
    mesh_list_namespaces_prompt mesh_list_services_prompt mesh_list_workloads_prompt mesh_health_check_prompt
    mesh_topology_prompt traffic_topology_prompt service_troubleshoot_prompt trace_analysis_prompt
    istio_config_review_prompt] in Ha; rewrite ?elem_of_cons, elem_of_nil in Ha.
  all: destruct_or?; subst; try done; cbn in Hr, Harg.
  - unfold trafficTopologyHandler. rewrite Harg. by eexists.
  - unfold serviceTroubleshootHandler. rewrite Harg. by eexists.
  - unfold serviceTroubleshootHandler. rewrite Harg. destruct (prompt_argument args "namespace" =?s ""); by eexists.
  - unfold traceAnalysisHandler. rewrite Harg. by eexists.
  - unfold traceAnalysisHandler. rewrite Harg. destruct (prompt_argument args "namespace" =?s ""); by eexists.
  - unfold istioConfigReviewHandler. rewrite Harg. by eexists.
Qed.

(** What the prompts do depends on Kiali only at the endpoints where it reads. *)
Theorem kiali_prompts_read request request' i p p' args (w : W) :
  (forall endpoint args w, endpoint ∈ reading_endpoints -> request endpoint args w = request' endpoint args w) ->
  GetPrompts request decode_namespaces !! i = Some p -> GetPrompts request' decode_namespaces !! i = Some p' ->
  kp_Prompt p = kp_Prompt p' /\ kp_Handler p args w = kp_Handler p' args w.
Proof.
  intros Hagree Hp Hp'.
  assert (forall e args w, bool_decide (e ∈ reading_endpoints) = true -> request e args w = request' e args w) as Hr.
  { intros e a w0 He%bool_decide_eq_true. by apply Hagree. }
  assert (forall e args w, bool_decide (e ∈ reading_endpoints) = true ->
    fetchKialiData request e args w = fetchKialiData request' e args w) as Hfetch.
  { intros e a w0 He. unfold fetchKialiData. by rewrite Hr. }
  assert (forall ns w, resolveNamespaces request decode_namespaces ns w = resolveNamespaces request' decode_namespaces ns w) as Hres.
  { intros ns w0. unfold resolveNamespaces. destruct (negb _); [done|]. by rewrite Hr. }
  assert (Forall2 (fun p p' => kp_Prompt p = kp_Prompt p' /\ kp_Handler p args w = kp_Handler p' args w)
    (GetPrompts request decode_namespaces) (GetPrompts request' decode_namespaces)) as Hall; [|exact (Forall2_lookup_lr _ _ _ i p p' Hall Hp Hp')].
  unfold GetPrompts. repeat apply Forall2_cons_2; [..|done]; (split; [done|]); cbn [kp_Handler].
  - unfold listResourceHandler. cbv zeta. by rewrite Hr.
  - unfold listIstioConfigHandler. cbv zeta. by rewrite Hr.
  - unfold listResourceHandler. cbv zeta. by rewrite Hr.
  - unfold listResourceHandler. cbv zeta. by rewrite Hr.
  - unfold listResourceHandler. cbv zeta. by rewrite Hr.
  - unfold meshHealthCheckHandler. by rewrite Hr.
  - unfold meshTopologyHandler. rewrite Hfetch by done. destruct (fetchKialiData request' _ _ w) as [s w1].
    rewrite Hres. destruct (resolveNamespaces request' _ _ w1) as [[ns|] w2]; [|done]. by rewrite Hfetch.
  - unfold trafficTopologyHandler. cbv zeta. destruct (prompt_argument args "namespaces" =?s ""); [done|]. rewrite Hres.
    destruct (resolveNamespaces request' _ _ w) as [[ns|] w2]; [|done]. by rewrite Hr.
  - unfold serviceTroubleshootHandler. cbv zeta. do 2 (destruct (_ =?s ""); [done|]). rewrite Hfetch by done.
    destruct (fetchKialiData request' _ _ w) as [s w1]. by rewrite Hfetch.
  - unfold traceAnalysisHandler. cbv zeta. do 2 (destruct (_ =?s ""); [done|]). rewrite Hfetch by done.
    destruct (fetchKialiData request' _ _ w) as [s w1]. by rewrite Hfetch.
  - unfold istioConfigReviewHandler. cbv zeta. destruct (_ =?s ""); [done|]. rewrite Hfetch by done.
    destruct (fetchKialiData request' _ _ w) as [s w1]. by rewrite Hfetch.
Qed.
End Spec.

(** * Witnesses: a Kiali that counts what it is asked *)

Module KialiPromptsWitness.
Definition request (changed : string) (endpoint : string) (args : option arguments) : ST nat (result string) := fun w =>
  (Ok (if endpoint =?s KialiManageIstioConfigEndpoint then changed else "data"), S w).
Definition decode (_ : string) : result (list string) := Ok ["a"; ""; "b"].
Definition Prompts (changed : string) : list (kiali_prompt (W := nat)) := GetPrompts (request changed) decode.
End KialiPromptsWitness.

Lemma kiali_prompts_require_witness :
  exists p err, KialiPromptsWitness.Prompts "x" !! 10 = Some p /\ kp_Handler p ∅ 7 = (Err err, 7).
Proof.
  assert (exists p, KialiPromptsWitness.Prompts "x" !! 10 = Some p /\ kp_Prompt p = istio_config_review_prompt) as (p & Hp & Hq)
    by (eexists; split; reflexivity).
  destruct (kiali_prompts_require KialiPromptsWitness.decode (KialiPromptsWitness.request "x") p ∅ 7
    (mkPromptArgument "namespace" "Namespace to review Istio configuration for" true) (list_elem_of_lookup_2 _ _ _ Hp))
    as [err He]; [rewrite Hq; left|reflexivity|reflexivity|].
  exact (ex_intro _ p (ex_intro _ err (conj Hp He))).
Defined.

Lemma kiali_prompts_read_witness :
  exists p p', KialiPromptsWitness.Prompts "x" !! 6 = Some p /\ KialiPromptsWitness.Prompts "y" !! 6 = Some p' /\
    kp_Handler p ∅ 0 = kp_Handler p' ∅ 0.
Proof.
  assert (exists p p', KialiPromptsWitness.Prompts "x" !! 6 = Some p /\ KialiPromptsWitness.Prompts "y" !! 6 = Some p') as
    (p & p' & Hp & Hp') by (do 2 eexists; split; reflexivity).
  refine (ex_intro _ p (ex_intro _ p' (conj Hp (conj Hp' _)))).
  refine (proj2 (kiali_prompts_read KialiPromptsWitness.decode (KialiPromptsWitness.request "x") (KialiPromptsWitness.request "y")
    6 p p' ∅ 0 _ Hp Hp')).
  intros endpoint args w He. unfold KialiPromptsWitness.request.
  destruct (bool_decide_reflect (endpoint = KialiManageIstioConfigEndpoint)) as [->|]; [|reflexivity].
  exfalso. revert He. apply (bool_decide_eq_false_1 (KialiManageIstioConfigEndpoint ∈ reading_endpoints)). vm_compute. reflexivity.
Defined.

(** The topology of the mesh is drawn for the namespaces that Kiali names. *)
Example topology_asks_for_all :
  match KialiPromptsWitness.Prompts "x" !! 6 with
  | Some p => (kp_Handler p ∅ 0).2 = 3 /\ parseNamespacesFromResponse KialiPromptsWitness.decode "" = "a,b"
  | None => False
  end.
Proof. vm_compute. split; reflexivity. Qed.
