(* ===== verification/Helm.v ===== *)
(** The Helm toolset (pkg/helm, pkg/toolsets/helm): its configuration with the registries
    that charts may come from and the driver of the storage, the check of the reference of
    a chart, and the tools that install, list and uninstall releases.  What the Helm SDK and
    the printer of YAML do are parameters. *)
From S2P Require Import Prelude GoStrings Api Params Paths Toolsets Tools McpServer HttpClients.

(** * Definitions *)

(** ** config.go *)

Record HelmConfig := mkHelmConfig { he_AllowedRegistries : list string; he_StorageDriver : string }.

Definition TrimRight (s cutset : string) : string := trim_right (fun c => char_in c cutset) s.

Section Config.
Context `{NetUrl}.

(** An entry of the list as it is compared with charts. *)
Definition normalize_entry (entry : string) : result string :=
  let invalid := ErrNew (fmt ["allowed_registries entry "; quote entry; " must be a valid URL with scheme and host"]) in
  match url_Parse entry with
  | Err _ => Err invalid
  | Ok u =>
      if nu_Scheme u =?s "" then Err invalid
      else
        let scheme := ToLower (nu_Scheme u) in
        if (scheme ≠?s "oci") && (scheme ≠?s "https") then
          Err (ErrNew (fmt ["allowed_registries entry "; quote entry; " must use oci:// or https:// scheme"]))
        else if nu_Host u =?s "" then Err invalid
        else Ok (ToLower (nu_Scheme u) +:+ "://" +:+ ToLower (nu_Host u) +:+ TrimRight (nu_Path u) "/")
  end.
(** The loop writes the list; it leaves the entries after the first bad one as they are. *)
Fixpoint normalize_entries (l : list string) : option error * list string :=
  match l with
  | [] => (None, [])
  | entry :: l =>
      match normalize_entry entry with
      | Err err => (Some err, entry :: l)
      | Ok s => let '(err, l) := normalize_entries l in (err, s :: l)
      end
  end.
Definition Validate (c : option HelmConfig) : option error * option HelmConfig :=
  match c with
  | None => (Some (ErrNew "helm config is nil"), None)
  | Some c =>
      let '(err, entries) := normalize_entries (he_AllowedRegistries c) in
      match err with
      | Some err => (Some err, Some (mkHelmConfig entries (he_StorageDriver c)))
      | None =>
          if he_StorageDriver c ≠?s "" then
            let driver := ToLower (he_StorageDriver c) in
            ((if (driver ≠?s "secret") && (driver ≠?s "configmap") then
                Some (ErrNew (fmt ["unsupported Helm storage driver "; quote driver; ": must be "; dq; "secret"; dq;
                                   " or "; dq; "configmap"; dq]))
              else None), Some (mkHelmConfig entries driver))
          else (None, Some (mkHelmConfig entries (he_StorageDriver c)))
      end
  end.
(** [decoded]: the outcome of [md.PrimitiveDecode]. *)
Definition helmToolsetParser (decoded : result HelmConfig) : result (option HelmConfig) :=
  match decoded with Err err => Err err | Ok cfg => Ok (Some cfg) end.

(** ** helm.go: the reference of a chart *)

Definition restricted (cfg : option HelmConfig) : bool :=
  match cfg with Some cfg => (0 <? length (he_AllowedRegistries cfg))%nat | None => false end.
Definition entry_matches (normalized allowed : string) : bool :=
  (normalized =?s allowed) || HasPrefix normalized (allowed +:+ "/").
Definition validateChartReference (chart : string) (cfg : option HelmConfig) : option error :=
  let not_allowed why := Some (ErrNew (fmt ["chart reference "; quote chart; " is not allowed: "; why])) in
  let not_url :=
    if restricted cfg then
      not_allowed "only registry URLs from the allowed list are permitted when allowed_registries is configured"
    else None in
  match url_Parse chart with
  | Err _ => not_url
  | Ok u =>
      if (nu_Scheme u =?s "") || (slen (nu_Scheme u) =? 1)%nat then not_url
      else
        let scheme := ToLower (nu_Scheme u) in
        if (scheme =?s "oci") || (scheme =?s "https") then
          match cfg with
          | Some c =>
              if restricted cfg then
                let cleaned := filepath_Clean (nu_Path u) in
                let cleaned := if cleaned =?s "." then "" else cleaned in
                let normalized := ToLower (nu_Scheme u) +:+ "://" +:+ ToLower (nu_Host u) +:+ cleaned in
                if existsb (entry_matches normalized) (he_AllowedRegistries c) then None
                else not_allowed "does not match any entry in allowed_registries"
              else None
          | None => None
          end
        else if scheme =?s "http" then not_allowed "http:// scheme is blocked, use https:// or oci://"
        else if scheme =?s "file" then not_allowed "file:// scheme is blocked"
        else not_allowed "only oci:// and https:// schemes are permitted"
  end.
End Config.

(** ** helm.go: the releases *)

(** The parts of [release.Release] that are read, over the type of times. *)
Record chart_metadata := mkMetadata { cm_Name : string; cm_Version : string; cm_AppVersion : string }.
Record release_info (T : Type) := mkInfo { ri_Status : string; ri_LastDeployed : T }.
Arguments mkInfo {T} _ _.
Arguments ri_Status {T} _.
Arguments ri_LastDeployed {T} _.
(** [re_Chart]: the chart, if there is one, and its metadata, if it has them. *)
Record release (T : Type) := mkRelease {
  re_Name : string;
  re_Namespace : string;
  re_Version : Z;
  re_Chart : option (option chart_metadata);
  re_Info : option (release_info T);
}.
Arguments mkRelease {T} _ _ _ _ _.
Arguments re_Name {T} _.
Arguments re_Namespace {T} _.
Arguments re_Version {T} _.
Arguments re_Chart {T} _.
Arguments re_Info {T} _.

(** The options set on [action.Install], [action.List] and [action.Uninstall]; the timeout
    in seconds. *)
Record Install := mkInstall {
  in_GenerateName : bool;
  in_ReleaseName : string;
  in_Namespace : string;
  in_Wait : bool;
  in_Timeout : Z;
  in_DryRun : bool;
}.
Record Uninstall := mkUninstall { un_IgnoreNotFound : bool; un_Wait : bool; un_Timeout : Z }.
(** [release.UninstallReleaseResponse]. *)
Record uninstall_response (T : Type) := mkResponse { ur_Release : option (release T); ur_Info : string }.
Arguments mkResponse {T} _ _.
Arguments ur_Release {T} _.
Arguments ur_Info {T} _.

(** The operations of the SDK over the world: a registry client, an initialised action
    configuration for a namespace and a storage driver, and what runs on it. *)
Record HelmSDK (W R A C T : Type) := mkHelmSDK {
  registry_NewClient : ST W (result R);
  cfg_Init : R -> string -> string -> ST W (result A);
  NameAndChart : Install -> list string -> ST W string;
  LocateChart : A -> Install -> string -> ST W (result string);
  loader_Load : string -> ST W (result C);
  RunWithContext : A -> Install -> C -> list (string * jvalue) -> ST W (result (release T));
  List_Run : A -> bool -> ST W (result (list (release T)));
  Uninstall_Run : A -> Uninstall -> string -> ST W (option (uninstall_response T) * option error);
}.
Arguments registry_NewClient {W R A C T} _ _.
Arguments cfg_Init {W R A C T} _ _ _ _ _.
Arguments NameAndChart {W R A C T} _ _ _ _.
Arguments LocateChart {W R A C T} _ _ _ _ _.
Arguments loader_Load {W R A C T} _ _ _.
Arguments RunWithContext {W R A C T} _ _ _ _ _ _.
Arguments List_Run {W R A C T} _ _ _ _.
Arguments Uninstall_Run {W R A C T} _ _ _ _ _.

Section Helm.
Context {W R A C T : Type} `{NetUrl}.
Context (sdk : HelmSDK W R A C T).
Context (IsZero : T -> bool) (FormatRFC1123Z : T -> string).
Context (yaml_Marshal : list (list (string * jvalue)) -> result string).
(** [Kubernetes.NamespaceOrDefault]. *)
Context (NamespaceOrDefault : string -> string).

(** [Helm]: the configuration of the toolset; [Kubernetes] is in the parameters. *)
Record Helm := mkHelm { hm_config : option HelmConfig }.
Definition NewHelm (config : option HelmConfig) : Helm := mkHelm config.

Definition simplify_one (r : release T) : outcome (list (string * jvalue)) :=
  let ret := [("name", JString (re_Name r)); ("namespace", JString (re_Namespace r)); ("revision", JInt (re_Version r))] in
  let info :=
    match re_Info r with
    | None => []
    | Some i =>
        ("status", JString (ri_Status i)) ::
        (if IsZero (ri_LastDeployed i) then [] else [("lastDeployed", JString (FormatRFC1123Z (ri_LastDeployed i)))])
    end in
  match re_Chart r with
  | None => Returned (ret ++ info)
  | Some None => Panicked
  | Some (Some m) =>
      Returned (ret ++ [("chart", JString (cm_Name m)); ("chartVersion", JString (cm_Version m));
                        ("appVersion", JString (cm_AppVersion m))] ++ info)
  end.
Fixpoint simplify (rs : list (release T)) : outcome (list (list (string * jvalue))) :=
  match rs with
  | [] => Returned []
  | r :: rs =>
      match simplify_one r with
      | Panicked => Panicked
      | Returned m => match simplify rs with Panicked => Panicked | Returned ms => Returned (m :: ms) end
      end
  end.
(** [yaml.Marshal(simplify(...))] as the end of an operation. *)
Definition printed (rs : list (release T)) : outcome (result string) :=
  match simplify rs with Panicked => Panicked | Returned ms => Returned (yaml_Marshal ms) end.

(** The callback for debug messages is left out. *)
Definition newAction (h : Helm) (namespace : string) (allNamespaces : bool) : ST W (result A) := fun w =>
  let storageDriver := match hm_config h with Some c => he_StorageDriver c | None => "" end in
  let applicableNamespace := if allNamespaces then "" else NamespaceOrDefault namespace in
  match registry_NewClient sdk w with
  | (Err err, w) => (Err err, w)
  | (Ok registryClient, w) => cfg_Init sdk registryClient applicableNamespace storageDriver w
  end.

Definition Helm_Install (h : Helm) (chart : string) (values : list (string * jvalue)) (name namespace : string) :
    ST W (outcome (result string)) := fun w =>
  match validateChartReference chart (hm_config h) with
  | Some err => (Returned (Err err), w)
  | None =>
      match newAction h (NamespaceOrDefault namespace) false w with
      | (Err err, w) => (Returned (Err err), w)
      | (Ok cfg, w) =>
          let '(install, w) :=
            if name =?s "" then
              let '(generated, w) := NameAndChart sdk (mkInstall true "" "" false 0 false) [chart] w in
              (mkInstall true generated (NamespaceOrDefault namespace) true 300 false, w)
            else (mkInstall false name (NamespaceOrDefault namespace) true 300 false, w) in
          match LocateChart sdk cfg install chart w with
          | (Err err, w) => (Returned (Err err), w)
          | (Ok chartRequested, w) =>
              match loader_Load sdk chartRequested w with
              | (Err err, w) => (Returned (Err err), w)
              | (Ok chartLoaded, w) =>
                  match RunWithContext sdk cfg install chartLoaded values w with
                  | (Err err, w) => (Returned (Err err), w)
                  | (Ok installedRelease, w) => (printed [installedRelease], w)
                  end
              end
          end
      end
  end.

Definition Helm_List (h : Helm) (namespace : string) (allNamespaces : bool) : ST W (outcome (result string)) := fun w =>
  match newAction h namespace allNamespaces w with
  | (Err err, w) => (Returned (Err err), w)
  | (Ok cfg, w) =>
      match List_Run sdk cfg allNamespaces w with
      | (Err err, w) => (Returned (Err err), w)
      | (Ok [], w) => (Returned (Ok "No Helm releases found"), w)
      | (Ok releases, w) => (printed releases, w)
      end
  end.

Definition Helm_Uninstall (h : Helm) (name namespace : string) : ST W (outcome (result string)) := fun w =>
  match newAction h (NamespaceOrDefault namespace) false w with
  | (Err err, w) => (Returned (Err err), w)
  | (Ok cfg, w) =>
      let '(r, w) := Uninstall_Run sdk cfg (mkUninstall true true 300) name w in
      (match r with
       | (None, None) => Returned (Ok (fmt ["Release "; name; " not found"]))
       | (_, Some err) => Returned (Err err)
       | (Some resp, None) =>
           match ur_Release resp with
           | None => Panicked
           | Some rel => Returned (Ok (fmt ["Uninstalled release "; re_Name rel; " "; ur_Info resp]))
           end
       end, w)
  end.

(** ** The tools *)

(** What [GetToolsetConfig] gives: nothing, a configuration of the toolset, which may be
    nil, or a value of another type. *)
Inductive helm_toolset_config : Type := HelmToolsetConfig (c : option HelmConfig) | OtherToolsetConfig.
Definition newHelmClient (config : option helm_toolset_config) : Helm :=
  NewHelm (match config with Some (HelmToolsetConfig c) => c | _ => None end).

Definition tool_result (what : error -> error) (r : outcome (result string)) : outcome ToolCallResult :=
  match r with
  | Panicked => Panicked
  | Returned (Err err) => Returned (NewToolCallResult "" (Some (what err)))
  | Returned (Ok ret) => Returned (NewToolCallResult ret None)
  end.
Definition string_of (args : arguments) (key : string) : string :=
  match args !! key with Some (JString s) => s | _ => "" end.

Definition helmInstall (config : option helm_toolset_config) (args : arguments) : ST W (outcome ToolCallResult) := fun w =>
  match args !! "chart" with
  | Some (JString chart) =>
      let values := match args !! "values" with Some (JObject v) => v | _ => [] end in
      let '(r, w) := Helm_Install (newHelmClient config) chart values (string_of args "name") (string_of args "namespace") w in
      (tool_result (wrapf (fmt ["failed to install helm chart '"; chart; "': "])) r, w)
  | _ => (Returned (NewToolCallResult "" (Some (ErrNew "failed to install helm chart, missing argument chart"))), w)
  end.
Definition helmList (config : option helm_toolset_config) (args : arguments) : ST W (outcome ToolCallResult) := fun w =>
  let p := WrapParams args in
  let '(allNamespaces, p) := Params_OptionalBool "all_namespaces" false p in
  let '(namespace, p) := Params_OptionalString "namespace" "" p in
  match Params_Err p with
  | Some err => (Returned (NewToolCallResult "" (Some (wrapf "failed to list helm releases: " err))), w)
  | None =>
      let '(r, w) := Helm_List (newHelmClient config) namespace allNamespaces w in
      (tool_result (wrapf (fmt ["failed to list helm releases in namespace '"; namespace; "': "])) r, w)
  end.
Definition helmUninstall (config : option helm_toolset_config) (args : arguments) : ST W (outcome ToolCallResult) := fun w =>
  match args !! "name" with
  | Some (JString name) =>
      let '(r, w) := Helm_Uninstall (newHelmClient config) name (string_of args "namespace") w in
      (tool_result (wrapf (fmt ["failed to uninstall helm chart '"; name; "': "])) r, w)
  | _ => (Returned (NewToolCallResult "" (Some (ErrNew "failed to uninstall helm chart, missing argument name"))), w)
  end.
End Helm.

Definition helm_install_tool : Tool :=
  mkTool "helm_install"
    "Install (deploy) a Helm chart to create a release in the current or provided namespace"
    (mkToolAnnotations "Helm: Install" None (Some false) None (Some true)) []
    (Some (mkSchema "object" "" (Some [
       ("chart", mkSchema "string" "Chart reference to install (for example: stable/grafana, oci://ghcr.io/nginxinc/charts/nginx-ingress)" None);
       ("values", mkSchema "object" "Values to pass to the Helm chart (Optional)" (Some []));
       ("name", mkSchema "string" "Name of the Helm release (Optional, random name if not provided)" None);
       ("namespace", mkSchema "string" "Namespace to install the Helm chart in (Optional, current namespace if not provided)" None)]))) None.
Definition helm_list_tool : Tool :=
  mkTool "helm_list"
    "List all the Helm releases in the current or provided namespace (or in all namespaces if specified)"
    (mkToolAnnotations "Helm: List" (Some true) (Some false) None (Some true)) []
    (Some (mkSchema "object" "" (Some [
       ("namespace", mkSchema "string" "Namespace to list Helm releases from (Optional, all namespaces if not provided)" None);
       ("all_namespaces", mkSchema "boolean" "If true, lists all Helm releases in all namespaces ignoring the namespace argument (Optional)" None)]))) None.
Definition helm_uninstall_tool : Tool :=
  mkTool "helm_uninstall"
    "Uninstall a Helm release in the current or provided namespace"
    (mkToolAnnotations "Helm: Uninstall" None (Some true) (Some true) (Some true)) []
    (Some (mkSchema "object" "" (Some [
       ("name", mkSchema "string" "Name of the Helm release to uninstall" None);
       ("namespace", mkSchema "string" "Namespace to uninstall the Helm release from (Optional, current namespace if not provided)" None)]))) None.

Section Toolset.
Context {W R A C T : Type} `{NetUrl}.
Context (sdk : HelmSDK W R A C T) (IsZero : T -> bool) (FormatRFC1123Z : T -> string).
Context (yaml_Marshal : list (list (string * jvalue)) -> result string) (NamespaceOrDefault : string -> string).

Definition initHelm : list (Tool * (option helm_toolset_config -> arguments -> ST W (outcome ToolCallResult))) :=
  [(helm_install_tool, helmInstall sdk IsZero FormatRFC1123Z yaml_Marshal NamespaceOrDefault);
   (helm_list_tool, helmList sdk IsZero FormatRFC1123Z yaml_Marshal NamespaceOrDefault);
   (helm_uninstall_tool, helmUninstall sdk NamespaceOrDefault)].
Definition helm_GetName : string := "helm".
Definition helm_GetDescription : string := "Tools for managing Helm charts and releases".
Definition GetTools := initHelm.
End Toolset.

(** ** What the list of registries promises *)

(** The shape of what is parsed ("[scheme:][//[userinfo@]host][/]path[?query][#fragment]"):
    a host has no slash, and after a scheme a path is empty or rooted, as what does not
    start with a slash is opaque. *)
Class UrlShape `{NetUrl} := {
  host_no_slash : forall s u, url_Parse s = Ok u -> no_char "/" (nu_Host u);
  path_rooted : forall s u, url_Parse s = Ok u -> nu_Scheme u <> "" -> nu_Path u = "" \/ HasPrefix (nu_Path u) "/" = true;
}.

Definition cleaned_path (u : net_url) : string := if filepath_Clean (nu_Path u) =?s "." then "" else filepath_Clean (nu_Path u).
(** The chart is at the registry of an entry, under its scheme, at or below its path: by
    whole elements, and with no way out. *)
Definition chart_permitted `{NetUrl} (entries : list string) (chart : string) : Prop :=
  exists entry ue u,
    entry ∈ entries /\ url_Parse entry = Ok ue /\ url_Parse chart = Ok u /\
    ToLower (nu_Scheme u) = ToLower (nu_Scheme ue) /\ ToLower (nu_Host u) = ToLower (nu_Host ue) /\
    Split "/" (TrimRight (nu_Path ue) "/") `prefix_of` Split "/" (cleaned_path u) /\
    ".." ∉ Split "/" (cleaned_path u).

(** * Lemmas *)

Lemma host_split h h' c d :
  no_char "/" h -> no_char "/" h' -> (c = "" \/ HasPrefix c "/" = true) -> (d = "" \/ HasPrefix d "/" = true) ->
  h +:+ c = h' +:+ d -> h = h' /\ c = d.
Proof.
  intros Hh. revert h'. induction h as [|a h IH]; intros [|a' h'] Hh' Hc Hd E; rewrite ?append_nil_l, ?append_String in E.
  - done.
  - subst c. destruct Hc as [?|Hc]; [done|]. rewrite HasPrefix_slash, bool_decide_eq_true in Hc. destruct Hh'. congruence.
  - subst d. destruct Hd as [?|Hd]; [done|]. rewrite HasPrefix_slash, bool_decide_eq_true in Hd. destruct Hh. congruence.
  - injection E as -> E. destruct Hh as [_ Hh], Hh' as [_ Hh']. by destruct (IH Hh h' Hh' Hc Hd E) as [-> ->].
Qed.

Lemma scheme_split s s' x y :
  s = "oci" \/ s = "https" -> s' = "oci" \/ s' = "https" -> s +:+ "://" +:+ x = s' +:+ "://" +:+ y -> s = s' /\ x = y.
Proof. intros [-> | ->] [-> | ->] E; try done; cbn in E; by injection E as E. Qed.

(** Prefixes of paths by whole elements. *)
Lemma prefix_elements p c : (c = p \/ HasPrefix c (p +:+ "/") = true) <-> Split "/" p `prefix_of` Split "/" c.
Proof.
  split.
  - intros [->|[t ->]%HasPrefix_spec]; [done|]. rewrite append_assoc, append_String, append_nil_l.
    exists (Split "/" t). rewrite <-append_nil_l at 1. apply Split_app_sep.
  - intros [l E]. apply (f_equal (fun l => Join l "/")) in E. rewrite Join_Split in E. destruct (decide (l = [])) as [->|Hl].
    + left. by rewrite app_nil_r, Join_Split in E.
    + right. rewrite Join_app_lists, Join_Split in E by (done || apply Split_not_nil). apply HasPrefix_spec.
      exists (Join l "/"). by rewrite append_assoc.
Qed.

Lemma rooted_no_parent p : HasPrefix p "/" = true -> ".." ∉ Split "/" (filepath_Clean p).
Proof.
  intros Hp. pose proof (path_elements_cleaned p) as (n & es & Heq & Hes & Hr). rewrite Hp in Hr.
  destruct (decide (path_elements p = [])) as [E|E].
  - rewrite Clean_of, E, Hp. by apply (bool_decide_eq_true_1 _).
  - rewrite Split_Clean, Hp by done. rewrite Heq, (Hr eq_refl). cbn [replicate app].
    intros [|Hin]%elem_of_cons; [done|]. rewrite Forall_forall in Hes. by destruct (Hes _ Hin) as (_ & _ & ? & _).
Qed.

Lemma trim_right_prefix f s : trim_right f s = "" \/ exists a t u, s = String a t /\ trim_right f s = String a u.
Proof.
  destruct s as [|a t]; [by left|]. cbn [trim_right]. destruct (trim_right f t); [destruct (f a)|]; [by left|right..];
    by eexists _, _, _.
Qed.
Lemma TrimRight_rooted p : p = "" \/ HasPrefix p "/" = true -> TrimRight p "/" = "" \/ HasPrefix (TrimRight p "/") "/" = true.
Proof.
  intros [->|Hp]; [by left|]. unfold TrimRight.
  destruct (trim_right_prefix (fun c => char_in c "/") p) as [->|(a & t & u & -> & ->)]; [by left|right].
  rewrite HasPrefix_slash in Hp |- *. done.
Qed.
Lemma no_slash_lower h : no_char "/" h -> no_char "/" (ToLower h).
Proof.
  induction h as [|a h IH]; [done|]. intros [Ha Hh]. split; [|by apply IH].
  destruct a as [[] [] [] [] [] [] [] []]; vm_compute in Ha |- *; congruence.
Qed.

Lemma slen_ToLower s : slen (ToLower s) = slen s.
Proof. induction s as [|a s IH]; [done|]. by apply (f_equal S). Qed.

Section Config.
Context `{UrlShape}.

Lemma cleaned_path_rooted s u :
  url_Parse s = Ok u -> nu_Scheme u <> "" ->
  (cleaned_path u = "" \/ HasPrefix (cleaned_path u) "/" = true) /\ ".." ∉ Split "/" (cleaned_path u).
Proof.
  intros Hp Hs. unfold cleaned_path. destruct (path_rooted _ _ Hp Hs) as [->|Hr].
  { split; [by left|]. by apply (bool_decide_eq_true_1 _). }
  destruct (bool_decide_reflect (filepath_Clean (nu_Path u) = ".")) as [E|_].
  { pose proof (Clean_prefix (nu_Path u)) as E'. by rewrite E, Hr in E'. }
  split; [right; by rewrite Clean_prefix|]. by apply rooted_no_parent.
Qed.

Definition allowed_scheme (s : string) : Prop := ToLower s = "oci" \/ ToLower s = "https".

Lemma normalize_entry_Ok entry a :
  normalize_entry entry = Ok a ->
  exists ue, url_Parse entry = Ok ue /\ nu_Scheme ue <> "" /\ allowed_scheme (nu_Scheme ue) /\
    a = ToLower (nu_Scheme ue) +:+ "://" +:+ ToLower (nu_Host ue) +:+ TrimRight (nu_Path ue) "/".
Proof.
  unfold normalize_entry. destruct (url_Parse entry) as [ue|]; [|done]. cbv zeta.
  destruct (bool_decide_reflect (nu_Scheme ue = "")) as [|Hs]; [done|].
  destruct ((ToLower (nu_Scheme ue) ≠?s "oci") && (ToLower (nu_Scheme ue) ≠?s "https")) eqn:E; [done|].
  destruct (nu_Host ue =?s ""); [done|]. intros [= <-]. exists ue. split_and!; [done..| |done].
  apply andb_false_iff in E as [E|E]; apply negb_false_iff, bool_decide_eq_true in E; [by left|by right].
Qed.
Lemma normalize_entries_Ok l a : normalize_entries l = (None, a) -> Forall2 (fun e s => normalize_entry e = Ok s) l a.
Proof.
  revert a. induction l as [|e l IH]; intros a; cbn [normalize_entries]; [intros [= <-]; constructor|].
  destruct (normalize_entry e) as [s|] eqn:E; [|done]. destruct (normalize_entries l) as [err a'] eqn:El.
  intros [= -> <-]. constructor; [done|]. by apply IH.
Qed.
Lemma Validate_Ok c c' :
  Validate (Some c) = (None, Some c') ->
  Forall2 (fun e s => normalize_entry e = Ok s) (he_AllowedRegistries c) (he_AllowedRegistries c') /\
  he_StorageDriver c' ∈ [""; "secret"; "configmap"].
Proof.
  unfold Validate. destruct (normalize_entries (he_AllowedRegistries c)) as [[err|] a] eqn:E; [done|].
  apply normalize_entries_Ok in E. destruct (bool_decide_reflect (he_StorageDriver c = "")) as [Hs|Hs]; cbn [negb].
  - intros [= <-]. split; [done|]. rewrite Hs. left.
  - cbv zeta. destruct (bool_decide_reflect (ToLower (he_StorageDriver c) = "secret")) as [Hd|Hd]; cbn [negb andb].
    { intros [= <-]. split; [done|]. cbn [he_StorageDriver]. rewrite Hd. right. left. }
    destruct (bool_decide_reflect (ToLower (he_StorageDriver c) = "configmap")) as [Hd'|Hd']; [|done].
    intros [= <-]. split; [done|]. cbn [he_StorageDriver]. rewrite Hd'. right. right. left.
Qed.

(** One entry: the comparison of strings is the comparison of the parts. *)
Lemma entry_matches_spec entry ue s u :
  url_Parse entry = Ok ue -> nu_Scheme ue <> "" -> allowed_scheme (nu_Scheme ue) ->
  url_Parse s = Ok u -> nu_Scheme u <> "" -> allowed_scheme (nu_Scheme u) ->
  entry_matches (ToLower (nu_Scheme u) +:+ "://" +:+ ToLower (nu_Host u) +:+ cleaned_path u)
    (ToLower (nu_Scheme ue) +:+ "://" +:+ ToLower (nu_Host ue) +:+ TrimRight (nu_Path ue) "/") = true <->
  ToLower (nu_Scheme u) = ToLower (nu_Scheme ue) /\ ToLower (nu_Host u) = ToLower (nu_Host ue) /\
  Split "/" (TrimRight (nu_Path ue) "/") `prefix_of` Split "/" (cleaned_path u).
Proof.
  intros Hue Hse Hae Hu Hs Ha. rewrite <-prefix_elements. unfold entry_matches. rewrite orb_true_iff, bool_decide_eq_true.
  destruct (cleaned_path_rooted _ _ Hu Hs) as [Hc _].
  pose proof (TrimRight_rooted _ (path_rooted _ _ Hue Hse)) as Hp.
  pose proof (no_slash_lower _ (host_no_slash _ _ Hu)) as Hh. pose proof (no_slash_lower _ (host_no_slash _ _ Hue)) as Hhe.
  set (p := TrimRight (nu_Path ue) "/") in *. clearbody p.
  split.
  - intros [E|[t E]%HasPrefix_spec].
    + apply scheme_split in E as [E1 E]; [|done..]. apply host_split in E as [E2 ->]; [|done..]. split_and!; auto.
    + rewrite !append_assoc in E. apply scheme_split in E as [E1 E]; [|done..].
      assert (p +:+ "/" +:+ t = "" \/ HasPrefix (p +:+ "/" +:+ t) "/" = true) as Hpt.
      { right. destruct Hp as [->|[q ->]%HasPrefix_spec]; rewrite ?append_nil_l, ?append_assoc; apply HasPrefix_append. }
      apply host_split in E as [E2 ->]; [|done..]. split_and!; [done..|]. right.
      rewrite <-append_assoc. apply HasPrefix_append.
  - intros (-> & -> & [->|[t ->]%HasPrefix_spec]); [by left|right]. apply HasPrefix_spec. exists t. by rewrite !append_assoc.
Qed.

(** A list that Validate has accepted permits exactly the charts at or below its entries. *)
Lemma validateChartReference_spec c c' chart :
  Validate (Some c) = (None, Some c') -> he_AllowedRegistries c <> [] ->
  validateChartReference chart (Some c') = None <-> chart_permitted (he_AllowedRegistries c) chart.
Proof.
  intros [Hall _]%Validate_Ok Hne. assert (restricted (Some c') = true) as Hr.
  { unfold restricted. apply Nat.ltb_lt. rewrite <-(Forall2_length _ _ _ Hall). destruct (he_AllowedRegistries c); [done|cbn; lia]. }
  unfold validateChartReference, chart_permitted. rewrite Hr. cbv zeta.
  destruct (url_Parse chart) as [u|err] eqn:Hu.
  2:{ split; [done|]. by intros (entry & ue & u & _ & _ & ? & _). }
  assert (chart_permitted (he_AllowedRegistries c) chart -> allowed_scheme (nu_Scheme u)) as Hscheme.
  { intros (entry & ue & u' & Hin & Hue & Hu' & E & _). assert (u' = u) as -> by congruence.
    apply list_elem_of_lookup in Hin as [i Hi]. destruct (Forall2_lookup_l _ _ _ _ _ Hall Hi) as (a & _ & Ha).
    apply normalize_entry_Ok in Ha as (ue' & Hue' & _ & Ha & _). assert (ue' = ue) as -> by congruence.
    unfold allowed_scheme in *. by rewrite E. }
  unfold chart_permitted in Hscheme. rewrite Hu in Hscheme.
  destruct ((nu_Scheme u =?s "") || (slen (nu_Scheme u) =? 1)%nat) eqn:Hno.
  { split; [done|]. intros [E|E]%Hscheme; apply (f_equal slen) in E.
    all: rewrite slen_ToLower in E; apply orb_true_iff in Hno as [Hno%bool_decide_eq_true|Hno%Nat.eqb_eq]; [by rewrite Hno in E|by rewrite E in Hno]. }
  apply orb_false_iff in Hno as [Hs%bool_decide_eq_false _].
  destruct ((ToLower (nu_Scheme u) =?s "oci") || (ToLower (nu_Scheme u) =?s "https")) eqn:Ho.
  2:{ apply orb_false_iff in Ho as [Ho1%bool_decide_eq_false Ho2%bool_decide_eq_false].
      split; [by repeat case_bool_decide|]. by intros [?|?]%Hscheme. }
  assert (allowed_scheme (nu_Scheme u)) as Ha.
  { apply orb_true_iff in Ho as [?%bool_decide_eq_true|?%bool_decide_eq_true]; [by left|by right]. }
  fold (cleaned_path u). destruct (cleaned_path_rooted _ _ Hu Hs) as [_ Hdots].
  assert (existsb (entry_matches (ToLower (nu_Scheme u) +:+ "://" +:+ ToLower (nu_Host u) +:+ cleaned_path u)) (he_AllowedRegistries c') = true
    <-> chart_permitted (he_AllowedRegistries c) chart) as Hiff.
  { unfold chart_permitted. rewrite existsb_spec. split.
    - intros (a & Hin & Hm). apply list_elem_of_lookup in Hin as [i Hi].
      destruct (Forall2_lookup_r _ _ _ _ _ Hall Hi) as (entry & Hentry & Hn).
      apply normalize_entry_Ok in Hn as (ue & Hue & Hse & Hae & ->).
      apply (entry_matches_spec _ _ _ _ Hue Hse Hae Hu Hs Ha) in Hm as (E1 & E2 & E3).
      exists entry, ue, u. split_and!; [by eapply list_elem_of_lookup_2|done..].
    - intros (entry & ue & u' & Hin & Hue & Hu' & E1 & E2 & E3 & _). assert (u' = u) as -> by congruence.
      apply list_elem_of_lookup in Hin as [i Hi]. destruct (Forall2_lookup_l _ _ _ _ _ Hall Hi) as (a & Hi' & Hn).
      apply normalize_entry_Ok in Hn as (ue' & Hue' & Hse & Hae & ->). assert (ue' = ue) as -> by congruence.
      eexists. split; [by eapply list_elem_of_lookup_2|]. by apply (entry_matches_spec _ _ _ _ Hue Hse Hae Hu Hs Ha). }
  unfold chart_permitted in Hiff. rewrite Hu in Hiff. rewrite <-Hiff. by destruct (existsb _ _).
Qed.
End Config.

(** Without the list, what passed it passes too: the list only restricts. *)
Lemma validateChartReference_weaken `{NetUrl} chart c :
  validateChartReference chart (Some c) = None -> validateChartReference chart (Some (mkHelmConfig [] (he_StorageDriver c))) = None.
Proof.
  unfold validateChartReference. change (restricted (Some (mkHelmConfig [] (he_StorageDriver c)))) with false. cbv zeta iota.
  destruct (url_Parse chart) as [u|]; [|done]. destruct (_ || _); [done|]. destruct (_ || _); [done|].
  destruct (_ =?s "http"); [done|]. by destruct (_ =?s "file").
Qed.

(** Schemes other than oci and https are refused whatever the configuration. *)
Lemma validateChartReference_scheme `{NetUrl} chart cfg u :
  url_Parse chart = Ok u -> (1 < slen (nu_Scheme u))%nat -> ToLower (nu_Scheme u) <> "oci" -> ToLower (nu_Scheme u) <> "https" ->
  exists err, validateChartReference chart cfg = Some err.
Proof.
  intros Hu Hl H1 H2. unfold validateChartReference. rewrite Hu. cbv zeta.
  assert ((nu_Scheme u =?s "") || (slen (nu_Scheme u) =? 1)%nat = false) as ->.
  { apply orb_false_iff. split; [apply bool_decide_eq_false_2; intros E; rewrite E in Hl; inversion Hl|apply Nat.eqb_neq; lia]. }
  rewrite !bool_decide_eq_false_2 by done. cbn [orb]. destruct (_ =?s "http"); [by eexists|]. destruct (_ =?s "file"); by eexists.
Qed.

Section Theorems.
Context {W R A C T : Type} `{UrlShape}.
Context (sdk : HelmSDK W R A C T) (IsZero : T -> bool) (FormatRFC1123Z : T -> string).
Context (yaml_Marshal : list (list (string * jvalue)) -> result string) (NamespaceOrDefault : string -> string).
Abbreviation install := (helmInstall sdk IsZero FormatRFC1123Z yaml_Marshal NamespaceOrDefault).

(** C20. With registries in the configuration that Validate has accepted, helm_install does what
    it does without the list for the charts that are at or below an entry: at its host, under
    its scheme, by whole elements of the path and with no parent among them; for every other
    chart, and with none, it answers an error and Helm is not asked for anything, so that
    nothing of the world changes. *)
Theorem helm_charts_confined c c' args w :
  Validate (Some c) = (None, Some c') -> he_AllowedRegistries c <> [] ->
  (forall chart, args !! "chart" = Some (JString chart) -> chart_permitted (he_AllowedRegistries c) chart ->
    install (Some (HelmToolsetConfig (Some c'))) args w =
    install (Some (HelmToolsetConfig (Some (mkHelmConfig [] (he_StorageDriver c'))))) args w) /\
  ((forall chart, args !! "chart" = Some (JString chart) -> ~ chart_permitted (he_AllowedRegistries c) chart) ->
    exists err, install (Some (HelmToolsetConfig (Some c'))) args w = (Returned (NewToolCallResult "" (Some err)), w)).
Proof.
  intros Hv Hne. unfold helmInstall. split.
  - intros chart Hchart Hp%(validateChartReference_spec _ _ _ Hv Hne). rewrite Hchart. unfold Helm_Install, newHelmClient, NewHelm.
    cbn [hm_config]. rewrite Hp, (validateChartReference_weaken _ _ Hp). done.
  - intros Hno. destruct (args !! "chart") as [v|] eqn:E; [|by eexists]. destruct v; try by eexists.
    unfold Helm_Install, newHelmClient, NewHelm. cbn [hm_config].
    destruct (validateChartReference s (Some c')) as [err|] eqn:Hc; [by eexists|].
    apply (validateChartReference_spec _ _ _ Hv Hne) in Hc. by destruct (Hno s eq_refl).
Qed.

(** A storage driver that Validate has accepted is a driver of Helm, and the action
    configurations are made for it, in the namespace that is given or the default one, or in
    all of them when a list asks for all. *)
Lemma newAction_driver c c' namespace all w :
  Validate (Some c) = (None, Some c') -> (forall ns, NamespaceOrDefault (NamespaceOrDefault ns) = NamespaceOrDefault ns) ->
  exists driver, driver ∈ [""; "secret"; "configmap"] /\
    newAction sdk NamespaceOrDefault (NewHelm (Some c')) (NamespaceOrDefault namespace) all w =
    match registry_NewClient sdk w with
    | (Err err, w) => (Err err, w)
    | (Ok client, w) => cfg_Init sdk client (if all then "" else NamespaceOrDefault namespace) driver w
    end.
Proof. intros [_ Hd]%Validate_Ok Hidem. exists (he_StorageDriver c'). split; [done|]. unfold newAction. by rewrite Hidem. Qed.
End Theorems.

(** * Witnesses: a parser of absolute URLs, and an SDK that counts what it is asked for *)

Module HelmWitness.
Definition letter (c : ascii) : bool := unreserved c && negb (char_in c "-_.~").
Definition parse (s : string) : result net_url :=
  match Split "/" s with
  | scheme :: gap :: host :: path =>
      match Split ":" scheme with
      | [name; rest] =>
          if (name =?s "") || negb (all_chars letter name) then Err (ErrNew "first path segment in URL cannot contain colon")
          else if (gap =?s "") && (rest =?s "") then
            Ok (mkNetUrl name host (match path with [] => "" | _ => "/" +:+ Join path "/" end) "" "" "")
          else Ok (mkNetUrl name "" "" "" "" s)
      | _ => Ok (mkNetUrl "" "" s "" "" "")
      end
  | _ => Ok (mkNetUrl "" "" s "" "" "")
  end.
#[global] Instance urls : NetUrl := {|
  url_Parse := parse;
  url_String := nu_Path;
  url_JoinPath s p := Ok (s +:+ p);
  url_Redacted := nu_Path;
|}.
#[global] Instance urls_shape : UrlShape.
Proof.
  split; intros s u Hu; change (parse s = Ok u) in Hu; unfold parse in Hu; pose proof (Split_parts_no_char "/" s) as Hall.
  - destruct (Split "/" s) as [|scheme [|gap [|host path]]]; try (by injection Hu as <-).
    inversion_clear Hall as [|? ? _ H1]. inversion_clear H1 as [|? ? _ H2]. inversion_clear H2 as [|? ? Hhost _].
    destruct (Split ":" scheme) as [|name [|rest [|? ?]]]; try (by injection Hu as <-).
    destruct (_ || _); [done|]. destruct (_ && _); by injection Hu as <-.
  - intros Hs. destruct (Split "/" s) as [|scheme [|gap [|host path]]]; try (by injection Hu as <-).
    destruct (Split ":" scheme) as [|name [|rest [|? ?]]]; try (by injection Hu as <-).
    destruct (_ || _); [done|]. destruct (_ && _); injection Hu as <-; [|by left]. cbn [nu_Path].
    destruct path; [by left|right]. apply HasPrefix_append.
Qed.

Definition sdk : HelmSDK nat unit (string * string) string unit := {|
  registry_NewClient := fun w => (Ok tt, S w);
  cfg_Init _ ns driver := fun w => (Ok (ns, driver), S w);
  NameAndChart _ args := fun w => ("generated", S w);
  LocateChart _ _ chart := fun w => (Ok ("/cache/" +:+ chart), S w);
  loader_Load path := fun w => (Ok path, S w);
  RunWithContext cfg i path _ := fun w =>
    (Ok (mkRelease (in_ReleaseName i) cfg.1 1 (Some (Some (mkMetadata path "1.0" "2.0"))) (Some (mkInfo "deployed" tt))), S w);
  List_Run cfg _ := fun w => (Ok [mkRelease "r" cfg.1 1 (Some None) None], S w);
  Uninstall_Run _ _ name := fun w => (None, None, S w);
|}.
Definition Marshal (ms : list (list (string * jvalue))) : result string :=
  Ok (Join (map (fun m => Join (map fst m) " ") ms) ";").
Definition default_ns (ns : string) : string := if ns =?s "" then "default" else ns.
Definition config : HelmConfig := mkHelmConfig ["OCI://Registry.io/team/"] "Secret".
Definition config' : HelmConfig := mkHelmConfig ["oci://registry.io/team"] "secret".
Abbreviation run cfg chart :=
  (helmInstall sdk (fun _ => true) (fun _ => "") Marshal default_ns (Some (HelmToolsetConfig (Some cfg)))
    {[ "chart" := JString chart ]} 0).
End HelmWitness.

Example config_validated : Validate (Some HelmWitness.config) = (None, Some HelmWitness.config').
Proof. vm_compute. reflexivity. Qed.
Example chart_installed :
  HelmWitness.run HelmWitness.config' "oci://registry.IO/team/db" =
  (Returned (NewToolCallResult "name namespace revision chart chartVersion appVersion status" None), 6).
Proof. vm_compute. reflexivity. Qed.
(** A release without the metadata of its chart makes the list panic. *)
Example list_panics :
  helmList HelmWitness.sdk (fun _ => true) (fun _ => "") HelmWitness.Marshal HelmWitness.default_ns None ∅ 0 = (Panicked, 3).
Proof. vm_compute. reflexivity. Qed.

Lemma helm_charts_confined_witness :
  Validate (Some HelmWitness.config) = (None, Some HelmWitness.config') /\
  exists err, HelmWitness.run HelmWitness.config' "oci://registry.io/team/../other/db" = (Returned (NewToolCallResult "" (Some err)), 0).
Proof.
  assert (Validate (Some HelmWitness.config) = (None, Some HelmWitness.config')) as Hv by (vm_compute; reflexivity).
  split; [exact Hv|].
  apply (proj2 (helm_charts_confined HelmWitness.sdk (fun _ => true) (fun _ => "") HelmWitness.Marshal HelmWitness.default_ns
    HelmWitness.config HelmWitness.config' {[ "chart" := JString "oci://registry.io/team/../other/db" ]} 0 Hv ltac:(discriminate))).
  intros chart Hc. vm_compute in Hc. injection Hc as <-.
  intros (entry & ue & u & ->%list_elem_of_singleton & [= <-] & [= <-] & _ & _ & [l Hl] & _). vm_compute in Hl. discriminate Hl.
Defined.

(** A reference with white space in front is no URL for the check, and with no list of
    registries it goes to Helm as it is. *)
Example white_space_passes :
  validateChartReference "http://host/chart.tgz" None <> None /\
  validateChartReference " http://host/chart.tgz" None = None.
Proof. split; vm_compute; [discriminate|reflexivity]. Qed.
