(* ===== verification/Output.v ===== *)
(** The printing of Kubernetes objects (pkg/output): as YAML without the managed fields, or
    as the table the server made, each with the structured content that goes with the text.
    The YAML printer, the table printer, the decoder of rows and the conversion to a table
    are parameters.  The names of the formats are in Toolsets.v. *)
From Stdlib Require Import SpecFloat.
From S2P Require Import Prelude GoStrings Api Toolsets Unstructured McpServer.

(** * Definitions *)

(** [runtime.Unstructured]: an object, a list with its own content, or another
    implementation. *)
Inductive runtime_object : Type :=
| Single (o : object)
| ListOf (content : object) (items : list object)
| OtherObject (content : object).
Definition content_of (obj : runtime_object) : object :=
  match obj with Single o => o | ListOf content _ => content | OtherObject content => content end.

(** A row of [metav1.Table]: its cells, and the object in it as bytes and decoded. *)
Record meta_row := mkRow { tr_Cells : list yvalue; tr_Raw : option string; tr_Object : option runtime_object }.
Record metav1_Table := mkMetaTable { mt_Columns : list string; mt_Rows : list meta_row }.

(** What [Structured] holds, [None] for nil. *)
Inductive structured : Type := StructuredList (items : list object) | StructuredObject (o : object).
Record PrintResult := mkPrintResult { pr_Text : string; pr_Structured : option structured }.

(** [RemoveNestedField(u.Object, "metadata", "managedFields")], which is [SetManagedFields(nil)]. *)
Definition without_managed (o : object) : object :=
  match field "metadata" o with
  | Some (YMap m) => set_field "metadata" (YMap (delete_field "managedFields" m)) o
  | _ => o
  end.

(** What is given to the YAML printer: the value itself, or the items of a list. *)
Inductive yaml_input : Type := YamlObject (obj : runtime_object) | YamlItems (items : list object).

Section Yaml.
Context (yml_Marshal : yaml_input -> result string).

(** [MarshalYaml] of an object; it changes the object it is given. *)
Definition MarshalYaml (v : runtime_object) : result string * runtime_object :=
  match v with
  | ListOf content items =>
      let items := map without_managed items in (yml_Marshal (YamlItems items), ListOf content items)
  | Single o => let o := without_managed o in (yml_Marshal (YamlObject (Single o)), Single o)
  | OtherObject content => (yml_Marshal (YamlObject v), v)
  end.
Definition yaml_PrintObj (obj : runtime_object) : result string * runtime_object := MarshalYaml obj.
(** The deep copies, [None] when one panics. *)
Definition deep_copies (items : list object) : option (list object) := mapM DeepCopy items.
Definition yaml_PrintObjStructured (obj : runtime_object) : outcome (result PrintResult) * runtime_object :=
  let '(r, obj) := yaml_PrintObj obj in
  (match r with
   | Err err => Returned (Err err)
   | Ok text =>
       match obj with
       | ListOf _ items =>
           match deep_copies items with
           | Some items => Returned (Ok (mkPrintResult text (Some (StructuredList items))))
           | None => Panicked
           end
       | Single o =>
           match DeepCopy o with
           | Some o => Returned (Ok (mkPrintResult text (Some (StructuredObject o))))
           | None => Panicked
           end
       | OtherObject _ => Returned (Ok (mkPrintResult text None))
       end
   end, obj).
End Yaml.

Section Table.
(** [FromUnstructured] into a table; the decoder of rows, whose object counts even with an
    error; the table printer with [WithNamespace], on a table or on an object. *)
Context (to_table : runtime_object -> result metav1_Table).
Context (Decode : string -> option runtime_object * option error).
Context (TablePrinter : bool -> metav1_Table + runtime_object -> string * option error).

Definition Table_GVK : GroupVersionKind := mkGVK "meta.k8s.io" "v1" "Table".

(** The loop over the rows: their objects, and whether one has a namespace. *)
Fixpoint decode_rows (rows : list meta_row) (withNamespace : bool) : list meta_row * bool :=
  match rows with
  | [] => ([], withNamespace)
  | row :: rows =>
      match tr_Raw row, tr_Object row with
      | Some raw, None =>
          let '(obj, err) := Decode raw in
          let withNamespace :=
            match err with
            | None =>
                if negb withNamespace then
                  match obj with Some (Single o) => GetNamespace o ≠?s "" | _ => withNamespace end
                else withNamespace
            | Some _ => withNamespace
            end in
          let '(rows, withNamespace) := decode_rows rows withNamespace in
          (mkRow (tr_Cells row) (Some raw) obj :: rows, withNamespace)
      | _, _ => let '(rows, withNamespace) := decode_rows rows withNamespace in (row :: rows, withNamespace)
      end
  end.
Definition printTable (obj : runtime_object) : string * option metav1_Table * option error :=
  let parsed :=
    if bool_decide (object_GVK (content_of obj) = Table_GVK) then
      match to_table obj with Ok t => Some t | Err _ => None end
    else None in
  match parsed with
  | Some t =>
      let '(rows, withNamespace) := decode_rows (mt_Rows t) false in
      let t := mkMetaTable (mt_Columns t) rows in
      let '(text, err) := TablePrinter withNamespace (inl t) in (text, Some t, err)
  | None => let '(text, err) := TablePrinter false (inr obj) in (text, None, err)
  end.
Definition table_PrintObj (obj : runtime_object) : string * option error :=
  let '(text, _, err) := printTable obj in (text, err).

(** The cells by the names of their columns; a column without a cell is left out. *)
Fixpoint row_item (columns : list string) (cells : list yvalue) (item : object) : object :=
  match columns, cells with
  | name :: columns, cell :: cells => row_item columns cells (set_field name cell item)
  | _, _ => item
  end.
Definition structured_row (columns : list string) (row : meta_row) : object :=
  let item := row_item columns (tr_Cells row) [] in
  match tr_Object row with
  | Some (Single u) => if GetNamespace u ≠?s "" then set_field "Namespace" (YString (GetNamespace u)) item else item
  | _ => item
  end.
Definition tableToStructured (t : option metav1_Table) : option (list object) :=
  match t with
  | None => None
  | Some t =>
      if (length (mt_Rows t) =? 0)%nat then None else Some (map (structured_row (mt_Columns t)) (mt_Rows t))
  end.
Definition table_PrintObjStructured (obj : runtime_object) : result PrintResult :=
  let '(text, t, err) := printTable obj in
  match err with
  | Some err => Err err
  | None =>
      match tableToStructured t with
      | Some items => Ok (mkPrintResult text (Some (StructuredList items)))
      | None => Ok (mkPrintResult text None)
      end
  end.
End Table.

(** The formats, by their methods. *)
Section Formats.
Context (yml_Marshal : yaml_input -> result string) (to_table : runtime_object -> result metav1_Table).
Context (Decode : string -> option runtime_object * option error).
Context (TablePrinter : bool -> metav1_Table + runtime_object -> string * option error).

Definition PrintObjStructured (format : Output) (obj : runtime_object) : outcome (result PrintResult) * runtime_object :=
  match format with
  | Yaml => yaml_PrintObjStructured yml_Marshal obj
  | Table => (Returned (table_PrintObjStructured to_table Decode TablePrinter obj), obj)
  end.
End Formats.

(** * Specification *)

(** No managed fields in the metadata. *)
Definition unmanaged (o : object) : Prop := nested_field (YMap o) ["metadata"; "managedFields"] = None.

(** * Lemmas *)

Lemma without_managed_unmanaged o : unmanaged (without_managed o).
Proof.
  unfold unmanaged, without_managed. destruct (field "metadata" o) as [[]|] eqn:E;
    cbn [nested_field]; rewrite ?E; try done.
  rewrite field_set_eq. cbn [nested_field]. by rewrite delete_field_None.
Qed.
(** All else stays. *)
Lemma without_managed_field k o : k <> "metadata" -> field k (without_managed o) = field k o.
Proof.
  intros Hk. unfold without_managed. destruct (field "metadata" o) as [[]|]; try done. by rewrite field_set_ne.
Qed.
Lemma without_managed_metadata k o :
  k <> "managedFields" -> nested_field (YMap (without_managed o)) ["metadata"; k] = nested_field (YMap o) ["metadata"; k].
Proof.
  intros Hk. unfold without_managed. destruct (field "metadata" o) as [v|] eqn:E; [|done].
  destruct v; try done. cbn [nested_field]. rewrite E, field_set_eq. cbn [nested_field]. by rewrite delete_field_other.
Qed.

Lemma deep_copies_Some items items' : deep_copies items = Some items' -> items' = items.
Proof.
  unfold deep_copies. revert items'. induction items as [|o items IH]; intros items'; cbn [mapM].
  { by intros [= <-]. }
  destruct (DeepCopy o) as [o'|] eqn:E; [|done]. apply DeepCopy_Some in E as ->. cbn.
  destruct (mapM DeepCopy items) as [l|]; [|done]. intros [= <-]. by rewrite (IH l eq_refl).
Qed.

Lemma decode_rows_spec Decode rows b rows' b' :
  decode_rows Decode rows b = (rows', b') ->
  map tr_Cells rows' = map tr_Cells rows /\
  (b' = true <-> b = true \/ exists row raw o,
     row ∈ rows /\ tr_Raw row = Some raw /\ tr_Object row = None /\ Decode raw = (Some (Single o), None) /\ GetNamespace o <> "").
Proof.
  revert b rows' b'. induction rows as [|row rows IH]; intros b rows' b'; cbn [decode_rows].
  { intros [= <- <-]. split; [done|]. split; [by left|]. intros [?|(? & ? & ? & ?%elem_of_nil & _)]; done. }
  destruct (tr_Raw row) as [raw|] eqn:Hraw; [destruct (tr_Object row) as [obj|] eqn:Hobj|].
  1,3: destruct (decode_rows Decode rows b) as [rows1 b1] eqn:E; intros [= <- <-]; destruct (IH _ _ _ E) as [H1 H2];
    (split; [cbn [map]; by rewrite H1|]); rewrite H2; apply or_iff_compat_l;
    (split; [intros (r & raw' & o & ? & H'); exists r, raw', o; split; [by right|done]|]);
    intros (r & raw' & o & [->|?]%elem_of_cons & H3 & H4 & H'); [congruence|by exists r, raw', o].
  destruct (Decode raw) as [obj err] eqn:Hdec. set (b0 := match err with None => _ | Some _ => b end).
  destruct (decode_rows Decode rows b0) as [rows1 b1] eqn:E. intros [= <- <-]. destruct (IH _ _ _ E) as [H1 H2].
  split; [cbn [map tr_Cells]; by rewrite H1|]. rewrite H2.
  assert (b0 = true <-> b = true \/ exists o, Decode raw = (Some (Single o), None) /\ GetNamespace o <> "") as Hb0.
  { subst b0. rewrite Hdec. destruct err; [split; [by left|by intros [?|(? & ? & _)]]|].
    destruct b; cbn [negb]; [split; [by left|done]|].
    destruct obj as [[o| |]|]; [|split; [done|by intros [?|(? & ? & _)]]..].
    destruct (bool_decide_reflect (GetNamespace o = "")) as [He|He]; cbn [negb]; (split; [|]); try done.
    - intros [?|(o' & [= <-] & ?)]; done.
    - intros _. right. by exists o. }
  rewrite Hb0. split.
  - intros [[?|(o & Ho & Hns)]|(r & raw' & o & Hin & H')]; [by left|right..].
    + exists row, raw, o. split; [left|]. done.
    + exists r, raw', o. split; [by right|done].
  - intros [?|(r & raw' & o & [->|Hin]%elem_of_cons & H3 & H4 & H5 & H6)]; [by left; left|left; right|right].
    + exists o. assert (raw' = raw) as -> by congruence. by split.
    + by exists r, raw', o.
Qed.

Lemma field_row_item_other name columns cells item :
  name ∉ columns -> field name (row_item columns cells item) = field name item.
Proof.
  revert cells item. induction columns as [|c columns IH]; intros [|cell cells] item; cbn [row_item]; try done.
  rewrite not_elem_of_cons. intros [Hc Hn]. rewrite IH by done. by apply field_set_ne.
Qed.
Lemma field_row_item i name cell columns cells item :
  NoDup columns -> columns !! i = Some name -> cells !! i = Some cell -> field name (row_item columns cells item) = Some cell.
Proof.
  revert i cells item. induction columns as [|c columns IH]; intros [|i] [|cell' cells] item; try done;
    intros [Hn Hd]%NoDup_cons Hc Hcell; cbn [row_item]; cbn in Hc, Hcell.
  - injection Hc as <-. injection Hcell as <-. rewrite field_row_item_other by done. apply field_set_eq.
  - by apply (IH i).
Qed.

(** The item of a row that has been gone through. *)
Definition row_faithful (Decode : string -> option runtime_object * option error) (columns : list string)
    (row : meta_row) (item : object) : Prop :=
  (forall i name cell, NoDup columns -> columns !! i = Some name -> tr_Cells row !! i = Some cell ->
     name <> "Namespace" -> field name item = Some cell) /\
  (forall raw o, tr_Raw row = Some raw -> tr_Object row = None -> Decode raw = (Some (Single o), None) ->
     GetNamespace o <> "" -> field "Namespace" item = Some (YString (GetNamespace o))).

Lemma structured_row_cell columns row i name cell :
  NoDup columns -> columns !! i = Some name -> tr_Cells row !! i = Some cell -> name <> "Namespace" ->
  field name (structured_row columns row) = Some cell.
Proof.
  intros Hd Hn Hc Hne. unfold structured_row. cbv zeta.
  assert (field name (row_item columns (tr_Cells row) []) = Some cell) as H by (by eapply field_row_item).
  destruct (tr_Object row) as [[u| |]|]; try done. destruct (GetNamespace u ≠?s ""); [|done]. by rewrite field_set_ne.
Qed.

Lemma decode_rows_rows Decode columns rows b rows' b' :
  decode_rows Decode rows b = (rows', b') ->
  Forall2 (fun row item => row_faithful Decode columns row item) rows (map (structured_row columns) rows').
Proof.
  revert b rows' b'. induction rows as [|row rows IH]; intros b rows' b'; cbn [decode_rows].
  { intros [= <- _]. constructor. }
  destruct (tr_Raw row) as [raw|] eqn:Hraw; [destruct (tr_Object row) as [obj|] eqn:Hobj|].
  1,3: destruct (decode_rows Decode rows b) as [rows1 b1] eqn:E; intros [= <- <-]; constructor; [|by eapply IH];
    (split; [intros; by eapply structured_row_cell|]); intros; congruence.
  destruct (Decode raw) as [obj err] eqn:Hdec. destruct (decode_rows Decode rows _) as [rows1 b1] eqn:E.
  intros [= <- <-]. constructor; [|by eapply IH]. split.
  - intros i name cell Hd Hn Hc Hne. by eapply structured_row_cell.
  - intros raw' o Hraw' _ Hdec' Hns. assert (raw' = raw) as -> by congruence. rewrite Hdec in Hdec'. injection Hdec' as -> ->.
    unfold structured_row. cbn [tr_Object tr_Cells]. rewrite (bool_decide_eq_false_2 (GetNamespace o = "")) by done.
    cbn [negb]. apply field_set_eq.
Qed.

Section Theorems.
Context (yml_Marshal : yaml_input -> result string) (to_table : runtime_object -> result metav1_Table).
Context (Decode : string -> option runtime_object * option error).
Context (TablePrinter : bool -> metav1_Table + runtime_object -> string * option error).

(** The YAML of an object is of the object without its managed fields, and the structured
    content is that same object; with values that JSON decoding gives nothing panics. *)
Theorem yaml_structured o :
  copyable (YMap (without_managed o)) ->
  PrintObjStructured yml_Marshal to_table Decode TablePrinter Yaml (Single o) =
    (Returned (match yml_Marshal (YamlObject (Single (without_managed o))) with
               | Ok text => Ok (mkPrintResult text (Some (StructuredObject (without_managed o))))
               | Err err => Err err
               end), Single (without_managed o)) /\
  unmanaged (without_managed o).
Proof.
  intros Hc. split; [|apply without_managed_unmanaged]. cbn. unfold yaml_PrintObjStructured. cbn.
  destruct (yml_Marshal _); [|done]. by rewrite copyable_DeepCopy_object.
Qed.

(** The structured content of a table has an item for each row, in order, with the cells
    under the names of their columns and the namespace of the object in the row; it is nil,
    not an empty list, exactly when what was printed is no table or has no rows.  The text is
    printed with namespaces exactly when a row has one. *)
Theorem table_structured obj r obj' :
  PrintObjStructured yml_Marshal to_table Decode TablePrinter Table obj = (Returned (Ok r), obj') ->
  obj' = obj /\
  ((pr_Structured r = None /\
    (forall t, object_GVK (content_of obj) = Table_GVK -> to_table obj = Ok t -> mt_Rows t = [])) \/
   exists t items rows withNamespace,
     object_GVK (content_of obj) = Table_GVK /\ to_table obj = Ok t /\ mt_Rows t <> [] /\
     pr_Structured r = Some (StructuredList items) /\ Forall2 (row_faithful Decode (mt_Columns t)) (mt_Rows t) items /\
     TablePrinter withNamespace (inl (mkMetaTable (mt_Columns t) rows)) = (pr_Text r, None) /\
     map tr_Cells rows = map tr_Cells (mt_Rows t) /\
     (withNamespace = true <-> exists row raw o,
        row ∈ mt_Rows t /\ tr_Raw row = Some raw /\ tr_Object row = None /\ Decode raw = (Some (Single o), None) /\
        GetNamespace o <> "")).
Proof.
  cbn [PrintObjStructured]. intros [= H <-]. split; [done|]. unfold table_PrintObjStructured, printTable in H.
  destruct (bool_decide_reflect (object_GVK (content_of obj) = Table_GVK)) as [Hg|Hg].
  2:{ left. destruct (TablePrinter false (inr obj)) as [text [err|]]; [done|]. injection H as <-. by split. }
  destruct (to_table obj) as [t|err] eqn:Ht.
  2:{ left. destruct (TablePrinter false (inr obj)) as [text [err'|]]; [done|]. injection H as <-. by split. }
  destruct (decode_rows Decode (mt_Rows t) false) as [rows withNamespace] eqn:Hd.
  destruct (TablePrinter withNamespace _) as [text [err|]] eqn:Hp; [done|].
  pose proof (decode_rows_rows Decode (mt_Columns t) _ _ _ _ Hd) as Hf. destruct (decode_rows_spec _ _ _ _ _ Hd) as [Hcells Hns].
  assert (length rows = length (mt_Rows t)) as Hl by (rewrite <-(length_map tr_Cells rows), Hcells; apply length_map).
  unfold tableToStructured in H. cbn [mt_Rows mt_Columns] in H. rewrite Hl in H.
  destruct (Nat.eqb_spec (length (mt_Rows t)) 0) as [E|E]; injection H as <-; cbn.
  - left. split; [done|]. intros t' _ [= <-]. by apply length_zero_iff_nil.
  - right. exists t, (map (structured_row (mt_Columns t)) rows), rows, withNamespace. split_and!; try done.
    + intros E'. by rewrite E' in E.
    + rewrite Hns. split; [by intros [?|?]|by right].
Qed.
End Theorems.

(** * Witness: two rows, the second in a namespace *)

Module OutputWitness.
Definition pod (ns : string) : object := [("metadata", YMap [("namespace", YString ns)])].
Definition rows : metav1_Table :=
  mkMetaTable ["Name"; "Ready"]
    [mkRow [YString "a"; YString "1/1"] None None; mkRow [YString "b"; YString "0/1"] (Some "ns1") None].
Definition obj : runtime_object := Single [("apiVersion", YString "meta.k8s.io/v1"); ("kind", YString "Table")].
Definition printer (withNamespace : bool) (t : metav1_Table + runtime_object) : string * option error :=
  (if withNamespace then "with namespaces" else "plain", None).
Abbreviation run format o :=
  (PrintObjStructured (fun _ => Ok "yaml") (fun _ => Ok rows) (fun raw => (Some (Single (pod raw)), None)) printer format o).
End OutputWitness.

Example rows_printed :
  OutputWitness.run Table OutputWitness.obj =
  (Returned (Ok (mkPrintResult "with namespaces" (Some (StructuredList
     [[("Name", YString "a"); ("Ready", YString "1/1")];
      [("Name", YString "b"); ("Ready", YString "0/1"); ("Namespace", YString "ns1")]])))), OutputWitness.obj).
Proof. vm_compute. reflexivity. Qed.
(** The empty list of objects is printed with an empty list, which is not nil. *)
Example empty_list_printed :
  OutputWitness.run Yaml (ListOf [] []) = (Returned (Ok (mkPrintResult "yaml" (Some (StructuredList [])))), ListOf [] []).
Proof. vm_compute. reflexivity. Qed.

Lemma table_structured_witness :
  exists r items, OutputWitness.run Table OutputWitness.obj = (Returned (Ok r), OutputWitness.obj) /\
    pr_Structured r = Some (StructuredList items) /\
    Forall2 (row_faithful (fun raw => (Some (Single (OutputWitness.pod raw)), None)) ["Name"; "Ready"])
      (mt_Rows OutputWitness.rows) items.
Proof.
  assert (exists r, OutputWitness.run Table OutputWitness.obj = (Returned (Ok r), OutputWitness.obj) /\ pr_Structured r <> None)
    as (r & Hr & Hne) by (eexists; split; [vm_compute; reflexivity|discriminate]).
  destruct (table_structured (fun _ => Ok "yaml") (fun _ => Ok OutputWitness.rows)
    (fun raw => (Some (Single (OutputWitness.pod raw)), None)) OutputWitness.printer OutputWitness.obj r OutputWitness.obj Hr)
    as [_ [[H _]|(t & items & rows & b & _ & Ht & _ & Hs & Hf & _)]]; [destruct (Hne H)|].
  injection Ht as <-. exact (ex_intro _ r (ex_intro _ items (conj Hr (conj Hs Hf)))).
Defined.
