(* ===== verification/CniTools.v ===== *)
(** The tools of the CNI diagnostics toolset (pkg/toolsets/cni-diagnostics: toolset.go and the
    definitions in kernel/tools.go, network-tools/tools.go and utils/utils.go) with the
    handlers of CniDiagnostics.v.  Of the schemas the types, descriptions and properties are
    kept. *)
From Stdlib Require Import Floats.SpecFloat.
From S2P Require Import Prelude GoStrings Api Config Params Tools CniDiagnostics.

(** * Definitions *)

(** [DefaultMaxOutputLines] of the upstream package kernel/mcp. *)
Definition DefaultMaxOutputLines : Z := 100.

(** ** utils.go *)

Definition AddHeadTailProperties (props : list (string * Schema)) (headDescription : string) : list (string * Schema) :=
  props ++
  [("head", mkSchema "integer" headDescription None);
   ("tail", mkSchema "integer" "Return only last N lines" None);
   ("apply_tail_first", mkSchema "boolean" "If both head and tail are set and apply_tail_first is true, apply tail before head. Default: false" None)].
Definition TimeoutSecondsSchema : Schema :=
  mkSchema "integer"
    (fmt ["Timeout in seconds for the command execution. If not specified, server default timeout is used. The maximum value is ";
          itoa (uint32_of MaxTimeoutSeconds); " seconds."]) None.
Definition AddTimeoutSecondsProperty (props : list (string * Schema)) : list (string * Schema) :=
  props ++ [("timeout_seconds", TimeoutSecondsSchema)].
Definition ReadOnlyAnnotations (title : string) (idempotent : bool) : ToolAnnotations :=
  mkToolAnnotations title (Some true) (Some false) (Some idempotent) (Some true).

(** ** The tools *)

Definition get_conntrack_props : list (string * Schema) :=
  AddTimeoutSecondsProperty (AddHeadTailProperties
    [("node", mkSchema "string" "Name of the node from where conntrack entries are expected to be extracted" None);
     ("namespace", mkSchema "string" "Namespace of the debug pod from where conntrack entries are expected to be extracted (optional, defaults to 'default')" None);
     ("command", mkSchema "string" (fmt ["These options specify the particular operation to perform. These options can only be used if configured image has 'conntrack' utility available."; nl; "							-L, --dump : List connection tracking table."; nl; "							-C, --count: Show the table counter."; nl; "							-S, --stats: Show the in-kernel connection tracking system statistics."]) None);
     ("filter_parameters", mkSchema "string" (fmt ["These parameters are useful to filter certain entries from the whole table:"; nl; "							-s, --src, --orig-src IP_ADDRESS : Match only entries whose source address in the original direction equals to mentioned IP."; nl; "							-d, --dst, --orig-dst IP_ADDRESS : Match only entries whose destination address in the original direction equals to mentioned IP."; nl; "							-p, --proto PROTO                : Specify layer four (TCP, UDP, ...) protocol."; nl; "							--sport, --orig-port-src PORT    : Source port in original direction."; nl; "							--dport, --orig-port-dst PORT    : Destination port in original direction."]) None)]
    (fmt ["Return only first N lines. Default: "; itoa DefaultMaxOutputLines; " lines if tail is not specified"])).
Definition get_conntrack_tool : Tool :=
  mkTool "get-conntrack"
    "Interact with the connection tracking system on a Kubernetes node. Lists, counts, or shows statistics for tracked connections. Connection tracking shows active network connections and their state (ESTABLISHED, TIME_WAIT, etc.)."
    (ReadOnlyAnnotations "CNI-Diagnostics: Kernel Connection Tracking" true) []
    (Some (mkSchema "object" "" (Some get_conntrack_props))) None.

Definition get_iptables_props : list (string * Schema) :=
  AddTimeoutSecondsProperty (AddHeadTailProperties
    [("node", mkSchema "string" "Name of the node from where packet filter rules are expected to be extracted" None);
     ("namespace", mkSchema "string" "Namespace of the debug pod from where packet filter rules are expected to be extracted (optional, defaults to 'default')" None);
     ("table", mkSchema "string" (fmt ["There are currently five independent tables (which tables are present at any time depends on the kernel configuration options and which modules are present)."; nl; "							filter	: This is the default table"; nl; "							nat   	: This  table is consulted when a packet that creates a new connection is encountered."; nl; "							mangle	: This table is used for specialized packet alteration."; nl; "							raw   	: This table is used mainly for configuring exemptions from connection tracking in combination with the NOTRACK target."; nl; "							security: This table is used for Mandatory Access Control (MAC) networking rules."]) None);
     ("command", mkSchema "string" (fmt ["These options specify the desired action to perform. Only one of them can be specified on the command line unless otherwise stated below."; nl; "							-L, --list [chain]       : List all rules in the selected chain. If no chain is selected, all chains are listed."; nl; "							-S, --list-rules [chain] : Print all rules in the selected chain. If no chain is selected, all chains are printed like iptables-save."]) None);
     ("filter_parameters", mkSchema "string" (fmt ["These parameters are useful to filter certain entries from the whole table:"; nl; "							-s, --source address[/mask]      : Source specification. Address can be either a network name, a hostname, a network IP address (with /mask), or a  plain  IP  address."; nl; "							-d, --destination address[/mask] : Destination  specification."; nl; "							-v, --verbose					 : Verbose output."; nl; "							-n, --numeric                    : Numeric  output.   IP  addresses  and port numbers will be printed in numeric format."; nl; "							-p, --protocol protocol          : The protocol of the rule or of the packet to check."; nl; "							-4, --ipv4                       : IPv4"; nl; "							-6, --ipv6                       : IPv6"]) None)]
    (fmt ["Return only first N lines. Default: "; itoa DefaultMaxOutputLines; " lines if tail is not specified"])).
Definition get_iptables_tool : Tool :=
  mkTool "get-iptables"
    "List packet filter rules using iptables or ip6tables on a Kubernetes node. Shows rules for specific tables (filter, nat, mangle, raw, security). Use this to inspect firewall rules, NAT configuration, and packet filtering on nodes."
    (ReadOnlyAnnotations "CNI-Diagnostics: Kernel IPtables" true) []
    (Some (mkSchema "object" "" (Some get_iptables_props))) None.

Definition get_nft_props : list (string * Schema) :=
  AddTimeoutSecondsProperty (AddHeadTailProperties
    [("node", mkSchema "string" "Name of the node from where packet filtering and classification rules are expected to be extracted" None);
     ("namespace", mkSchema "string" "Namespace of the debug pod from where packet filtering and classification rules are expected to be extracted (optional, defaults to 'default')" None);
     ("command", mkSchema "string" (fmt ["These options specify the desired action to perform. Only one of them can be specified on the command line unless otherwise stated below."; nl; "                    					- list ruleset   : The ruleset keyword is used to identify the whole set of tables, chains, etc. Print the ruleset in human-readable format."; nl; "										- list tables    : List all chains and rules of the specified table."; nl; "										- list chains    : List all rules of the specified chain."; nl; "										- list sets      : Display the elements in the specified set."; nl; "										- list maps      : Display the elements in the specified map."; nl; "										- list flowtables: List all flowtables."]) None);
     ("address_families", mkSchema "string" (fmt ["Address families determine the type of packets which are processed. For each address family, the kernel contains so called hooks at specific stages of"; nl; "       						   the packet processing paths, which invoke nftables if rules for these hooks exist."; nl; "							   - ip       IPv4 address family."; nl; "                               - ip6      IPv6 address family."; nl; "                               - inet     Internet (IPv4/IPv6) address family."; nl; "                               - arp      ARP address family, handling IPv4 ARP packets."; nl; "                               - bridge   Bridge address family, handling packets which traverse a bridge device."; nl; "                               - netdev   Netdev address family, handling packets on ingress and egress."]) None)]
    (fmt ["Return only first N lines. Default: "; itoa DefaultMaxOutputLines; " lines if tail is not specified"])).
Definition get_nft_tool : Tool :=
  mkTool "get-nft"
    "List nftables packet filtering and classification rules on a Kubernetes node. nftables is the modern replacement for iptables. Use this to inspect firewall rules, packet filtering, and network address translation."
    (ReadOnlyAnnotations "CNI-Diagnostics: Kernel NFtables" true) []
    (Some (mkSchema "object" "" (Some get_nft_props))) None.

Definition get_ip_props : list (string * Schema) :=
  AddTimeoutSecondsProperty (AddHeadTailProperties
    [("node", mkSchema "string" "Name of the node on which ip command is expected to be executed" None);
     ("namespace", mkSchema "string" "Namespace of the debug pod on which ip command is expected to be executed (optional, defaults to 'default')" None);
     ("options", mkSchema "string" (fmt ["These options helps in providing more details or formattig output data."; nl; "                      					-d, -details        : Output more detailed information."; nl; "					  					-4                  : shortcut for -family inet."; nl; "					  					-6                  : shortcut for -family inet6."; nl; "					  					-r, -resolve        : use the system's name resolver to print DNS names instead of host addresses."; nl; "					  					-n, -netns <NETNS>  : switches ip to the specified network namespace NETNS."; nl; "					  -a, -all            : executes specified command over all objects, it depends if command supports this option."]) None);
     ("command", mkSchema "string" (fmt ["These options specify the desired action to perform. Only one of them can be specified on the command line unless otherwise stated below."; nl; "                      - address show     : protocol (IP or IPv6) address on a device."; nl; "					  - link show        : network device."; nl; "					  - neighbour show   : manage ARP or NDISC cache entries."; nl; "					  - netns show       : manage network namespaces."; nl; "					  - route show       : routing table entry."; nl; "					  - rule show        : rule in routing policy database."; nl; "					  - vrf show         : manage virtual routing and forwarding devices. "; nl; "					  - xfrm state list  : show Security Association Database."; nl; "					  - xfrm policy list : show Security Policy Database."]) None);
     ("filter_parameters", mkSchema "string" (fmt ["This allows to mention sub command to get more filtered data. Available sub command varies and supportability depends on what is "; nl; "                          already supported with 'ip' utility."]) None)]
    (fmt ["Return only first N lines. Default: "; itoa DefaultMaxOutputLines; " lines if tail is not specified"])).
Definition get_ip_tool : Tool :=
  mkTool "get-ip"
    "Execute ip commands on a Kubernetes node to show routing, network devices, interfaces, and network namespaces. Part of the iproute2 suite for network configuration inspection."
    (ReadOnlyAnnotations "CNI-Diagnostics: Kernel IP Command" true) []
    (Some (mkSchema "object" "" (Some get_ip_props))) None.

Definition tcpdump_tool : Tool :=
  mkTool "tcpdump"
    "Capture network packets on a node or inside a pod with BPF filtering. Creates a specialized debug pod for node-level captures. IMPORTANT: Use restrictive BPF filters and low packet counts to avoid performance impact. Maximum 1000 packets."
    (ReadOnlyAnnotations "CNI-Diagnostics: Network Packet Capture" false) []
    (Some (mkSchema "object" "" (Some (
    [("target_type", mkSchema "string" "Capture target: 'node' (node-level) or 'pod' (pod network namespace)" None);
     ("name", mkSchema "string" "Name of the target (node or pod)" None);
     ("namespace", mkSchema "string" "Namespace of the target (node or pod). Required when target_type is 'pod'. Optional when target_type is 'node' and defaults to 'default'." None);
     ("container_name", mkSchema "string" "Name of the container in the pod when target_type is 'pod' (optional, uses default container if not specified)" None);
     ("interface", mkSchema "string" "Network interface name or 'any' (optional, captures on all interfaces if not specified)" None);
     ("packet_count", mkSchema "integer" (fmt ["Number of packets to capture (default: "; itoa DefaultPacketCount; ", max: "; itoa MaxPacketCount; ")"]) None);
     ("bpf_filter", mkSchema "string" "BPF filter expression (optional, e.g., 'tcp and dst port 8080', 'host 10.0.0.1')" None);
     ("snaplen", mkSchema "integer" (fmt ["Snapshot length in bytes (default: "; itoa DefaultSnaplen; ", max: "; itoa MaxSnaplen; "). Use "; itoa DefaultSnaplen; " for headers only, "; itoa MaxSnaplen; " for full packets."]) None);
     ("timeout_seconds", TimeoutSecondsSchema)])))) None.

Definition pwru_tool : Tool :=
  mkTool "pwru"
    "Trace packets through the Linux kernel networking stack using eBPF. pwru (packet, where are you?) shows which kernel functions process a packet, helping debug packet drops and routing issues. Creates a specialized debug pod with eBPF capabilities."
    (ReadOnlyAnnotations "CNI-Diagnostics: Network eBPF Packet Tracing" false) []
    (Some (mkSchema "object" "" (Some (
    [("node_name", mkSchema "string" "Name of the node to run pwru on" None);
     ("node_pod_namespace", mkSchema "string" "Namespace of the debug pod on which the command is expected to be executed (optional, defaults to 'default')" None);
     ("bpf_filter", mkSchema "string" "BPF filter expression to match packets (optional, e.g., 'tcp and dst port 8080', 'host 10.0.0.1')" None);
     ("output_limit_lines", mkSchema "integer" (fmt ["Maximum number of trace events to capture (default: "; itoa DefaultOutputLimitLines; ", max: "; itoa MaxOutputLimitLines; ")"]) None);
     ("timeout_seconds", TimeoutSecondsSchema)])))) None.

Section Toolset.
Context (ovf : spec_float -> Z) (W : Type).
Context (NewKernelMCPServer : string -> result (KernelMCPServer W)).
Context (NewNetworkToolsMCPServer_tcpdump NewNetworkToolsMCPServer_pwru : string -> result (NetworkMCPServer W)).

(** A tool with its handler, given the configuration of the toolset. *)
Abbreviation cni_tool := (Tool * (option ExtendedConfigValue -> arguments -> ST W handler_return))%type (only parsing).
Definition InitKernelTools : list cni_tool :=
  [(get_conntrack_tool, conntrackHandler ovf W NewKernelMCPServer);
   (get_iptables_tool, iptablesHandler ovf W NewKernelMCPServer);
   (get_nft_tool, nftHandler ovf W NewKernelMCPServer);
   (get_ip_tool, ipHandler ovf W NewKernelMCPServer)].
Definition InitNetworkTools : list cni_tool :=
  [(tcpdump_tool, tcpdumpHandler ovf W NewNetworkToolsMCPServer_tcpdump);
   (pwru_tool, pwruHandler ovf W NewNetworkToolsMCPServer_pwru)].
Definition cni_GetName : string := "cni-diagnostics".
Definition cni_GetDescription : string := "Tools for Container Network Interface (CNI) diagnostics and troubleshooting".
Definition GetTools : list cni_tool := InitKernelTools ++ InitNetworkTools.

(** * Lemmas *)

(** A call that names no node and no target starts nothing: the answer is an error, and
    nothing of the world has changed.  All tools are announced as reading only. *)
Theorem cni_tools_need_target t :
  t ∈ GetTools ->
  (ta_ReadOnlyHint (tl_Annotations t.1) = Some true /\ ta_DestructiveHint (tl_Annotations t.1) = Some false) /\
  forall tc args w, (forall k, k ∈ ["node"; "name"; "node_name"] -> args !! k = None) ->
  exists r, t.2 tc args w = (r, w) /\ tcr_Error r.1 <> None.
Proof.
  intros Ht. unfold GetTools, InitKernelTools, InitNetworkTools in Ht. cbn [app] in Ht.
  rewrite !elem_of_cons in Ht.
  assert (forall (args : arguments), (forall k, k ∈ ["node"; "name"; "node_name"] -> args !! k = None) ->
    args !! "node" = None /\ args !! "name" = None /\ args !! "node_name" = None) as Hargs.
  { intros args H. split_and!; apply H; by apply (bool_decide_eq_true_1 _). }
  destruct Ht as [->|[->|[->|[->|[->|[->|Ht%elem_of_nil]]]]]]; [..|done]; (split; [by split|]);
    intros tc args w (H1 & H2 & H3)%Hargs; cbn [snd].
  - unfold conntrackHandler, Params_RequiredString, RequiredString. cbn. rewrite H1. cbn. eexists. by split.
  - unfold iptablesHandler, Params_RequiredString, RequiredString. cbn. rewrite H1. cbn. eexists. by split.
  - unfold nftHandler, Params_RequiredString, RequiredString. cbn. rewrite H1. cbn. eexists. by split.
  - unfold ipHandler, Params_RequiredString, RequiredString. cbn. rewrite H1. cbn. eexists. by split.
  - unfold tcpdumpHandler, Params_RequiredString, RequiredString. cbn. destruct (args !! "target_type") as [[]|]; cbn; rewrite ?H2; cbn;
      eexists; by split.
  - unfold pwruHandler, Params_RequiredString, RequiredString. cbn. rewrite H3. cbn. eexists. by split.
Qed.
End Toolset.
